(* ===== verification/_CoqProject ===== *)
-Q . S2P
Prelude.v
Lists.v
Transact.v
Cached.v
Classes.v
Proxies.v
Binary64.v
Helpers.v
Course.v
Deviations.v
Reveal.v
Models.v
Exercise.v
Submission.v
Grading.v
Entries.v
Hierarchy.v
Points.v
CoursePoints.v
PointsData.v
Invalidate.v
OldCache.v
Codes.v
Groups.v
Threshold.v
Permissions.v
Enroll.v
ConfigDiff.v
Configure.v
Frame.v
Staff.v
Submit.v
DeviationViews.v
Collection.v
Clone.v
Reports.v
Results.v
Login.v
Remote.v
Signed.v
Tokens.v
CourseApi.v
Services.v
Lti13.v
EditCourse.v
Pages.v
Fields.v
