(* ===== verification/Prelude.v ===== *)
(** * A verification library for the A+ learning management system

    A+ (a-plus) is a Django application in which teachers publish courses of
    modules, chapters and exercises, students submit solutions to exercises, an
    external assessment service grades them, and students see points according
    to deadlines, quotas, personal deviations, late penalties and reveal rules.
    This library is a shallow embedding of the parts that decide those things.

    ** The parts of the program and where they are modelled

    - [Prelude] (this file): Python exceptions and results ([result], [let!]),
      sums, maxima and dictionary sums, the settings the code reads, tactics.
    - [Lists]: grouping, dictionaries filled from rows, filters and keys.
    - [Transact]: src/lib/cache/transact.py, the cache inside database
      transactions.  State: the shared cache and the memos of the open
      savepoints.  Operations: [set], [set_many], [get], [get_many],
      [commit_memo], [discard_memo], [save_memo].
    - [Cached]: src/lib/cache/cached.py, [ProxyManager.fetch] and [save] and the
      invalidation of keys, on top of [Transact].
    - [Classes]: the classes of src/lib/cache/cached.py, what [CacheMeta] computes
      for them and for the classes of src/exercise/cache.
    - [Proxies]: the objects of src/lib/cache/cached.py, programs that generate
      data over a finite set of objects, their proxies, loading and saving.
    - [Binary64]: Python floats as rationals rounded to 53 bits.
    - [Helpers]: src/lib/helpers.py, src/lib/localization_syntax.py.
    - [Course]: src/course/models.py, course instances, enrollment, roles,
      validation of instances and modules, late submission settings.
    - [Deviations]: src/deviations/models.py, personal deadlines and quotas,
      against the interface [RuleDeviation] both models implement.
    - [Reveal]: src/exercise/reveal_models.py, reveal rules against the interface
      [RevealState].
    - [Models]: the rows of src/exercise/exercise_models.py and
      src/exercise/submission_models.py, validation, visibility, naming.
    - [Exercise]: [BaseExercise] of src/exercise/exercise_models.py, the policy
      that decides whether a submission is accepted.  State: [World].
    - [Submission]: src/exercise/submission_models.py, points, status, pending
      table, queries.  State: [Db], threaded by the monad [M].
    - [Grading]: src/exercise/protocol/aplus.py, src/exercise/async_views.py,
      src/exercise/tasks.py, src/aplus/celery.py, src/notification/models.py:
      grading, callbacks, retries.
    - [Entries]: src/exercise/cache/basetypes.py, the loader of the content cache
      and the entries and totals made from it.
    - [Hierarchy]: src/exercise/cache/hierarchy.py, walking and searching the
      content tree.
    - [Points]: src/exercise/cache/points.py for one exercise, and the exercise
      part of src/exercise/reveal_states.py.
    - [CoursePoints]: src/exercise/cache/points.py for chapters, modules,
      categories and the course, and the module part of
      src/exercise/reveal_states.py.
    - [PointsData]: [PointsDBData] of src/exercise/cache/points.py, the tables
      behind the points and the queries that read many entries at once.
    - [Invalidate]: src/exercise/cache/invalidate_util.py and the receivers of
      src/exercise/cache/points.py: changes of the tables, the keys their signals
      invalidate, and histories in which requests change, generate and save.
    - [Threshold]: src/threshold/models.py and src/diploma: thresholds on points,
      requirements of modules, grades and diplomas.
    - [Permissions]: src/authorization, src/course/permissions.py,
      src/exercise/permissions.py: who may open a page and see a submission.
    - [ConfigDiff] and [Configure]: src/edit_course/operations/configure.py, the
      changes between two course configurations, and their application to the
      tables of a course.
    - [Frame]: what grading and retrying leave alone, against the interface
      [Observation].
    - [Staff]: src/exercise/staff_views.py and
      src/edit_course/operations/batch.py, what course staff does to submissions.
    - [Submit]: src/exercise/views.py, the submission endpoint of
      src/exercise/api/views.py and [create_from_post]: an answer on its way
      through policy, creation, grading and enrollment.
    - [DeviationViews]: src/deviations/viewbase.py and src/deviations/views.py,
      against the interface [DeviationModel] both kinds of deviation implement.
    - [Collection]: src/exercise/exercisecollection_models.py, exercises that
      count the points of another category.
    - [Clone]: src/edit_course/operations/clone.py.
    - [OldCache]: src/lib/cache/cached_old.py, requests and invalidations of one
      entry interleaved operation by operation; src/exercise/cache/exercise.py and
      the courses of src/course/cache/menu.py, which use it.
    - [Codes]: the codes, anonymous ids and names an enrollment gets when it is
      saved, and tags of students (src/course/models.py).
    - [Groups]: src/course/forms.py, src/course/staff_views.py and the groups of
      src/course/views.py and src/course/cache/menu.py: forming, selecting,
      editing and deleting groups, and the menus that show them.
    - [Enroll]: src/course/views.py, src/course/viewbase.py and the other places
      that enroll students: enrolling, leaving, bans, the language of a page.
    - [Reports] and [Results]: src/exercise/api/csv: the best submissions, the
      table of submissions, the results by exercise and by level.
    - [Login]: src/shibboleth_login: the account and the profile a login finds or
      makes.
    - [Remote]: src/lib/remote_page.py, requests with retries and the links of a
      chapter.
    - [Signed]: src/lib/crypto/signed_messages.py, over any HMAC.
    - [Tokens]: src/lib/api/authentication, src/authorization/object_permissions.py
      and src/authorization/models.py: the tokens of services, the permissions of
      JSON web tokens and the endpoints that ask for them.
    - [CourseApi]: src/course/api/views.py and src/course/api/full_serializers.py,
      taggings, news, mails, the zip of submissions, statistics, new courses.
    - [Services]: src/external_services, services in menus, launches over LTI 1.1 and
      the points services post back.
    - [Lti13]: src/external_services/lti1p3.py, src/course/api/lti_views.py and
      src/lti_tool: LTI 1.3 in both directions.
    - [EditCourse]: src/edit_course, the pages and forms with which teachers edit a
      course.
    - [Pages]: the other pages of src/exercise and src/course: mass regrades, lists
      and tables of submissions, tags, files, the front page.
    - [Fields]: src/lib/fields.py and src/lib/widgets.py, durations and JSON, and the
      validation of src/deviations/forms.py.

    The parts interact as in the code: [Exercise] decides on a submission with
    the data of [Course], [Deviations] and [Models]; [Submission] stores the
    points [Grading] gets from the service; [Submit] and [Staff] compose them as
    the views do; [Points] and [CoursePoints] read the submissions, evaluate
    [Reveal] and aggregate; their entries are stored through [Cached] and
    [Transact], read from the tables of [PointsData] and dropped by the signals of
    [Invalidate]; [Threshold] reads them, and [Permissions] asks all of these who
    may see what.

    ** How the code is represented

    Integers are [Z]; the code's integers are Python's, without width.  A
    datetime is its POSIX time in microseconds.  Floats are [Binary64].  Database
    tables are lists or [gmap]s, with the uniqueness the schema enforces.  A
    method that may raise returns [result]; one that also writes the database is
    in the monad [M] of [Submission].  The assessment service, the student
    register, the time zone database, HTML parsing and the order in which Python
    iterates over a set are arguments, with what the code relies on as
    hypotheses.

    ** What the theorems show

    - Submitting (C1-C6): the access window and what it allows late, quotas
      before and after a submission, the conditions every accepted submission
      meets, that a student keeps the group; what a post stores,
      also when one of its writes fails, and that the API does what the page does.
    - Points and grading (C7-C13): points stay in range, the invariant of graded
      submissions over every status change and every exception between two of them, the bound of the recursion between
      grading and retrying, the outcome of each answer of the service and of each
      callback, that the assessed submission is the only final one, and that the mass regrade
      of an exercise runs once at a time.
    - Points of a student (C14-C16): hidden grades are not observable, the cached
      points equal the database aggregate, sums over modules and categories.
    - Cache (C17-C22): reading with dependencies ends and is sound, a request for
      an object of the cache ends with the object resolved, cached points
      are not stale however requests interleave, unless an invalidation falls between
      the check and the store of a save ([Invalidate.invalidation_lost_in_a_save]), one batch of queries serves
      every entry as its own queries would, savepoints nest, a commit publishes
      safely.
    - Configuring a course (C23-C26): work of students is never lost, what a
      configuration no longer has is deleted or hidden, the changes between two configurations
      restore the new one, and an accepted configuration is well formed.
    - Access (C27-C32, C38): who may open an exercise, that a submission is private,
      that reports do not tell hidden points, what a service may do with the token
      it was given and the bearer of a JSON web token with its payload, which
      account a login opens, and that the actions of students lift no ban.
    - Other services (C33-C37): the identifier of a result leads back to the student,
      what a signed request for points stores, that it is not answered twice, what
      posted points do to a grade, and that the launch button tells an anonymous
      service pseudonyms only.
    - Students (C39): codes of enrollments stay distinct, and when drawing them raises.
    - Staff (C40): when the walk over the unassessed submitters reaches every one of
      them, and when it stays at one for ever.

    Theorems without a number complete the components: the scaling of points, the
    totals of a course, the approval of a penalized submission, the reveal of
    modules, the points of a collection, batches of submissions, signed messages,
    the values of a login request, requests with retries, overriding and listing deviations and the tag of students
    with deviations, enrollment from the student register, the end of the updates
    of collections, the group that students form, the results by exercise, the
    language of a page, requests of the older cache, the choice of the counting
    submission, drafts, roles, the largest deviation, daylight saving, bounds of
    the aggregates, traversal orders, neighbours, search, the walk to the root,
    the filter of visible submissions, the grades of diplomas, the removal of
    modules, the staff of a clone, distinct groups, cached menus that follow the
    groups, taggings in bulk, thresholds that are passed, the links of a chapter, the
    best submissions of a report, the results by level, menus of services, the login of a
    tool and its identity token, launches from other platforms, names in a zip of submissions, the teachers
    of current courses, visible news, late saves after an invalidation, the extra
    submission of a student, the validity of cached entries over time, safe deletion
    and editing of the content of a course, its staff and its address, the rules of
    forms, the registration at the Git manager, a configuration that fails, what the configuration page reports,
    the table of all submissions, tags of submissions, comparisons of files, the notes
    of the assessment page, the courses of the front page, safe redirects, and the
    round trips of durations and of columns with JSON.

    The histories of [Invalidate] take the database write and the invalidation of
    its signals as one step, the check and the store of a save as two, and leave out that a cache service may drop items on
    its own; inside transactions [Transact] decides when an invalidation is
    published.

    Where the code deviates from what it means to do, a small lemma states the
    behaviour: [Course.is_banned_in_other_instance],
    [Course.later_instance_of_running_instance], [Course.enroll_from_sis_lifts_ban],
    [Course.point_worth_ninety_percent_penalty], [Models.clean_accepts_parent_cycle],
    [Grading.callback_without_max_points], [Grading.negative_points_escape],
    [Entries.reloaded_module_counts_twice], [Points.next_timestamp_of_past],
    [Points.revealed_entry_expires_at_once], [Points.show_unrevealed_skips_submissions],
    [CoursePoints.entry_made_for_staff_shows_hidden_points],
    [CoursePoints.manual_model_answer_rule_raises],
    [Cached.nested_dependency_depends_on_order],
    [Transact.nested_invalidation_is_not_saved], [Threshold.moved_points_are_lost],
    [Tokens.grader_is_never_stopped], [Tokens.Sample.get_create_finds_others],
    [ConfigDiff.month_loop_overshoots], [ConfigDiff.month_loop_december],
    [ConfigDiff.lti1p3_class_is_lost], [ConfigDiff.shadowed_category_key],
    [Configure.renamed_category_hides_exercises], [Configure.grading_mode_is_lost],
    [Configure.publication_misread], [Staff.second_submitter_keeps_two_finals],
    [Staff.approval_crosses_courses], [Submit.newest_enrollment_data_ignored],
    [Submit.aplus_field_not_an_object],
    [DeviationViews.deleted_granter_breaks_listing],
    [DeviationViews.abandoned_override_keeps_tag],
    [DeviationViews.stale_override_is_untagged],
    [Collection.closed_collection_breaks_saving], [Collection.collection_loses_a_point],
    [Collection.nested_collections_recur], [Clone.cloning_assistant_is_no_teacher],
    [Invalidate.latest_deadline_goes_stale], [Invalidate.seen_notification_goes_stale],
    [Invalidate.others_notifications_are_shown], [Invalidate.groups_are_not_watched],
    [Invalidate.reverse_add_misses_the_user], [OldCache.Races.deleted_mark_serves_stale],
    [OldCache.Races.late_overwrite_stays_stale], [Codes.Sample.values_drawn_twice],
    [Codes.Sample.edited_tag_duplicated], [Groups.Sample.deleted_group_stays_in_menus],
    [Groups.Sample.unchanged_group_refused], [Groups.Sample.banned_student_in_group],
    [Groups.Sample.groups_of_one], [Groups.Sample.removed_member_submits_for_group],
    [Enroll.Sample.lti_launch_lifts_ban], [Enroll.Sample.destroy_makes_pending],
    [Reports.Sample.field_named_grade_fails_report],
    [Reports.Sample.later_forced_submission_is_considered],
    [Results.Sample.sheet_tags_of_another],
    [Login.Sample.number_follows_to_other_organization],
    [Login.Sample.two_organizations_leave_account],
    [Login.Sample.invalid_account_is_stored], [Login.Sample.disabled_account_is_updated],
    [Remote.accepted_post_is_repeated], [Remote.Sample.short_module_name_is_lost],
    [Remote.Sample.short_chapter_name_is_lost], [Remote.Sample.static_directory_is_lost],
    [Signed.shifted_message_is_valid], [Tokens.Sample.forged_token_is_accepted],
    [Tokens.Sample.short_token_raises], [Tokens.payload_creates_nothing],
    [Proxies.Sample.children_of_resolved_are_resolved],
    [CourseApi.failed_update_reported_as_success],
    [CourseApi.warned_update_reported_as_failure],
    [CourseApi.refused_instance_leaves_course], [CourseApi.Sample.unknown_email_raises],
    [Services.Sample.future_request_is_replayed],
    [Services.Sample.missing_timestamp_raises],
    [Services.Sample.unreadable_identifier_raises],
    [Services.Sample.comment_in_body_raises], [Services.Sample.nan_score_raises],
    [Services.Sample.late_outcome_has_no_penalty],
    [Services.Sample.forged_group_members_are_signed],
    [Lti13.Sample.late_score_lowers_grade],
    [Lti13.Sample.refused_score_leaves_submission], [Lti13.Sample.unknown_user_raises],
    [Lti13.Sample.zero_maximum_raises], [Lti13.Sample.broken_bearer_token_raises],
    [Lti13.Sample.unreadable_hint_raises],
    [Lti13.Sample.incomplete_launch_leaves_account],
    [Lti13.Sample.chapter_among_children_raises], [EditCourse.renumber_is_an_error],
    [EditCourse.move_leaves_children], [EditCourse.same_url_at_top],
    [EditCourse.clone_takes_reserved_url], [EditCourse.foreign_tag_applied],
    [Pages.Regrade.regrade_blocked], [Pages.group_listed_twice],
    [Pages.tag_twice_breaks_api], [Pages.tag_on_foreign_submission],
    [Pages.percentage_loses_one], [Pages.title_of_wrong_language],
    [Pages.comparison_with_text_fails], [Pages.download_without_files],
    [Exercise.one_deviation_extends_the_group], [Submit.row_without_submitters],
    [Staff.walk_stuck], [Invalidate.invalidation_lost_in_a_save],
    [Services.Sample.loaded_page_tells_users_apart],
    [Services.Sample.score_without_student],
    [Lti13.Sample.failed_score_leaves_submission].

    ** Bounds and fuel

    Recursion follows the data wherever it can.  The other loops take fuel.  The
    walk from a learning object to its root ([Models.parent_list]) needs two more
    than the depth of the object, and any measure that decreases from child to
    parent bounds it ([Models.parent_list_terminates]).  The loop of the roman
    numerals ([Helpers.roman_while]) takes the number itself.  Grading and
    retrying call each other ([Grading.grade_rec]); C9 gives the fuel that the
    pending table needs.  The recursive read of the cache ([Cached.fetch]) takes
    the number of keys that occur, enough for every cache (C17).  The objects of the cache
    ([Proxies.resolve]) are resolved in two rounds for every object and two more
    (C18).  The loop over
    the months of a duration ([ConfigDiff.month_loop]) ends for every month but
    December ([ConfigDiff.month_loop_ends]); the nesting of a configuration's
    children is bounded by its depth ([ConfigDiff.from_config_ends]); the key of
    a diploma is found once the taken ones are exhausted
    ([Threshold.generate_hashkey_ends]); and the signals of collections end when
    categories can be ranked ([Collection.collection_updates_end]).  The drawing of a
    code ([Codes.draw_code]) has no bound in the code: C39 shows that it goes
    on only while every code that comes up is taken; the other draws end after ten
    thousand retries.

    ** What is not modelled

    Templates, the rendering of forms, serializers, listings, the libraries of the LTI
    protocols, sessions, the pages of news, the bytes of pickled entries, HTTP and HTML
    handling, the signals that drop content entries, and the loading of pages by the
    content types of src/exercise/exercise_models.py. *)

From stdpp Require Export base tactics option list gmap strings sorting.
From Stdlib Require Export ZArith Lia.

#[global] Open Scope Z_scope.

(** ** Python's exceptions and results *)

(** The exceptions the modelled code raises or catches. *)
Inductive exn : Type :=
| AssertionError
| ValueError
| IndexError
| KeyError
| TypeError
| AttributeError
| ZeroDivisionError
| RuntimeError
| OverflowError
| RecursionError
| NameError
| OSError
| DatabaseError
| DoesNotExist
| MultipleObjectsReturned
| NoSuchContent
| Http404
| PermissionDenied
| AuthenticationFailed
| TranslationNotFound
| ParseError
| OAuth2Error
| JWTError
| LtiException
| ValidationError (fields : list string).

(** A Python call either returns a value or raises. *)
Inductive result (A : Type) : Type :=
| Ret (a : A)
| Raise (e : exn).
Arguments Ret {A} _.
Arguments Raise {A} _.

Definition rbind {A B} (c : result A) (k : A -> result B) : result B :=
  match c with
  | Ret a => k a
  | Raise e => Raise e
  end.

Declare Scope py_scope.
Delimit Scope py_scope with py.
Notation "'let!' x := c 'in' k" := (rbind c (fun x => k))
  (at level 10, x pattern, c at level 200, k at level 200) : py_scope.
#[global] Open Scope py_scope.

(** ** Automation *)

Create HintDb aplus.

(** Boolean tests of the code, as propositions [lia] and [congruence] can use. *)
Ltac b2p :=
  repeat match goal with
  | H : _ && _ = true |- _ => apply andb_prop in H as [? ?]
  | H : _ && _ = false |- _ => apply andb_false_iff in H
  | H : _ || _ = true |- _ => apply orb_prop in H
  | H : _ || _ = false |- _ => apply orb_false_iff in H as [? ?]
  | H : negb _ = true |- _ => apply negb_true_iff in H
  | H : negb _ = false |- _ => apply negb_false_iff in H
  | H : (_ <=? _) = true |- _ => apply Z.leb_le in H
  | H : (_ <=? _) = false |- _ => apply Z.leb_gt in H
  | H : (_ <? _) = true |- _ => apply Z.ltb_lt in H
  | H : (_ <? _) = false |- _ => apply Z.ltb_ge in H
  | H : (_ =? _) = true |- _ => apply Z.eqb_eq in H
  | H : (_ =? _) = false |- _ => apply Z.eqb_neq in H
  | H : bool_decide _ = true |- _ => apply bool_decide_eq_true in H
  | H : bool_decide _ = false |- _ => apply bool_decide_eq_false in H
  end.

(** Case analysis on the first [if] or [match] scrutinee of the goal. *)
Ltac break_goal :=
  match goal with
  | |- context [if ?b then _ else _] => destruct b eqn:?
  | |- context [match ?x with _ => _ end] => destruct x eqn:?
  end.

(** The same in a hypothesis, where it also splits a call that may raise. *)
Ltac break_hyp H :=
  match type of H with
  | context [rbind ?c _] => destruct c eqn:?; cbn [rbind] in H
  | context [if ?b then _ else _] => destruct b eqn:?
  | context [match ?x with _ => _ end] => destruct x eqn:?
  end.

(** ** Lists, sums and maxima *)

(** Python's [sum] of a list of integers. *)
Definition sumZ (l : list Z) : Z := foldr Z.add 0 l.

Lemma sumZ_app l1 l2 : sumZ (l1 ++ l2) = sumZ l1 + sumZ l2.
Proof. unfold sumZ. induction l1 as [|x l1 IH]; simpl in *; lia. Qed.

Lemma sumZ_nonneg l : Forall (fun x => 0 <= x) l -> 0 <= sumZ l.
Proof. induction 1 as [|x l Hx _ IH]; simpl in *; unfold sumZ in *; simpl; lia. Qed.

#[export] Instance sumZ_perm : Proper (Permutation ==> eq) sumZ.
Proof.
  intros l1 l2 H. unfold sumZ. induction H; simpl in *; lia.
Qed.

Lemma NoDup_snoc {A} (l : list A) (x : A) : NoDup l -> x ∉ l -> NoDup (l ++ [x]).
Proof.
  intros Hl Hx. apply NoDup_app. split_and!; [done| |apply NoDup_singleton].
  intros y Hy ->%list_elem_of_singleton. done.
Qed.

(** Python's [max] of a non-empty list, given as head and tail. *)
Definition maxZ (x : Z) (l : list Z) : Z := foldr Z.max x l.

Lemma maxZ_ub x l : x <= maxZ x l /\ Forall (fun y => y <= maxZ x l) l.
Proof.
  induction l as [|y l [IH1 IH2]]; simpl.
  - split; [lia|constructor].
  - split; [unfold maxZ in *; simpl; lia|].
    constructor; [unfold maxZ; simpl; lia|].
    eapply Forall_impl; [exact IH2|]. unfold maxZ. simpl. lia.
Qed.

Lemma maxZ_in x l : maxZ x l = x \/ In (maxZ x l) l.
Proof.
  induction l as [|y l [IH|IH]]; simpl; [by left| |]; unfold maxZ in *; simpl;
    destruct (Z.max_spec y (foldr Z.max x l)) as [[_ E]|[_ E]]; rewrite E; auto.
Qed.

Lemma maxZ_mono x l1 l2 : incl l1 l2 -> maxZ x l1 <= maxZ x l2.
Proof.
  intros Hi. destruct (maxZ_in x l1) as [E|Hin]; [rewrite E; apply maxZ_ub|].
  apply Hi in Hin. destruct (maxZ_ub x l2) as [_ Hf].
  rewrite List.Forall_forall in Hf. by apply Hf.
Qed.

(** The sum of a number over the values of a dictionary. *)
Definition map_sum {A} (f : A -> Z) (m : gmap Z A) : Z := sumZ (f <$> (map_to_list m).*2).

Lemma map_sum_insert_new {A} (f : A -> Z) m k v :
  m !! k = None -> map_sum f (<[k := v]> m) = map_sum f m + f v.
Proof.
  intros Hk. unfold map_sum. rewrite (map_to_list_insert m k v Hk). cbn. unfold sumZ. cbn. lia.
Qed.

Lemma map_sum_insert {A} (f : A -> Z) m k old v :
  m !! k = Some old -> map_sum f (<[k := v]> m) = map_sum f m - f old + f v.
Proof.
  intros Hk. rewrite <- (insert_delete_id m k old Hk) at 2. rewrite <- (insert_delete_eq m k v).
  rewrite !map_sum_insert_new by apply lookup_delete_eq. lia.
Qed.

Lemma map_sum_fmap {A B} (f : B -> Z) (g : A -> B) m : map_sum f (g <$> m) = map_sum (f ∘ g) m.
Proof.
  unfold map_sum. f_equal. rewrite map_to_list_fmap, <- !list_fmap_compose. apply list_fmap_ext.
  intros ? [? ?] ?. done.
Qed.

(** Python's truth value of an optional string and of an optional number: both
    [None] and the empty or zero value are false. *)
Definition truthyZ (o : option Z) : bool :=
  match o with
  | Some z => negb (z =? 0)
  | None => false
  end.

(** ** Deployment settings the code reads *)

Class Settings := {
  LOCAL_ORGANIZATION : string;
  LANGUAGES : list string;
  LANGUAGE_CODE : string;
  MAX_UNOFFICIAL_SUBMISSIONS : Z;
  GRADER_STABLE_THRESHOLD : Z;
  SUBMISSION_RETRY_LIMIT : Z;
  SUBMISSION_EXPIRY_TIMEOUT : Z;
  SUBMISSION_RETRY_SERVICES : list string;
}.

(** A datetime is its POSIX time in microseconds. *)
Abbreviation datetime := Z (only parsing).
Definition seconds (n : Z) : Z := n * 1000000.
Definition days (n : Z) : Z := seconds (n * 86400).
