(* ===== verification/Lists.v ===== *)
(** * Lists with keys

    [itertools.groupby], dictionaries that are filled from rows, and the facts
    about filters and distinct keys that several components share. *)

From S2P Require Import Prelude.

(** ** Filters and keys *)

Section Filters.
Context {A : Type} (P : A -> Prop) `{forall x, Decision (P x)}.

Lemma filter_all (l : list A) : (forall x, x ∈ l -> P x) -> filter P l = l.
Proof.
  induction l as [|x l IH]; intros Hl; [done|]. rewrite filter_cons_True by (apply Hl; by left).
  f_equal. apply IH. intros y Hy. apply Hl. by right.
Qed.

Lemma filter_empty (l : list A) : (forall x, x ∈ l -> ~ P x) -> filter P l = [].
Proof.
  induction l as [|x l IH]; intros Hl; [done|]. rewrite filter_cons_False by (apply Hl; by left).
  apply IH. intros y Hy. apply Hl. by right.
Qed.
End Filters.

Lemma NoDup_fmap_filter {A B} (f : A -> B) (P : A -> Prop) `{forall x, Decision (P x)} (l : list A) :
  NoDup (f <$> l) -> NoDup (f <$> filter P l).
Proof.
  induction l as [|x l IH]; [done|]. intros Hn. inversion_clear Hn as [|? ? Hn1 Hn2].
  rewrite filter_cons. destruct (decide (P x)); [|by apply IH]. constructor; [|by apply IH].
  intros Hx. apply Hn1. apply list_elem_of_fmap in Hx as (y & -> & Hy).
  apply list_elem_of_filter in Hy as [_ Hy]. apply list_elem_of_fmap. eauto.
Qed.

(** Rows with distinct keys are known by their key. *)
Lemma key_inj {A B} (f : A -> B) (l : list A) x y :
  NoDup (f <$> l) -> x ∈ l -> y ∈ l -> f x = f y -> x = y.
Proof.
  induction l as [|z l IH]; intros Hn Hx Hy E; [by apply not_elem_of_nil in Hx|].
  inversion_clear Hn as [|? ? Hn1 Hn2].
  apply elem_of_cons in Hx as [->|Hx], Hy as [->|Hy]; [done| | |by apply IH];
    exfalso; apply Hn1; apply list_elem_of_fmap; eauto.
Qed.

Lemma NoDup_fst_unique {K A} (l : list (K * A)) k a b :
  NoDup l.*1 -> (k, a) ∈ l -> (k, b) ∈ l -> a = b.
Proof.
  intros Hn Ha Hb. by pose proof (key_inj fst l _ _ Hn Ha Hb eq_refl) as [= ->].
Qed.

(** ** Grouping *)

(** [itertools.groupby]: runs of neighbours with equal keys. *)
Fixpoint groupby {K A} `{EqDecision K} (key : A -> K) (l : list A) : list (K * list A) :=
  match l with
  | [] => []
  | x :: l =>
      match groupby key l with
      | (k, g) :: rest => if decide (k = key x) then (k, x :: g) :: rest else (key x, [x]) :: (k, g) :: rest
      | [] => [(key x, [x])]
      end
  end.

Section GroupBy.
Context {K A : Type} `{EqDecision K} (key : A -> K).

Lemma groupby_concat l : concat (groupby key l).*2 = l.
Proof.
  induction l as [|x l IH]; [done|]. cbn. destruct (groupby key l) as [|[k g] rest]; cbn in *.
  - by subst.
  - destruct (decide _); cbn; by rewrite <- IH.
Qed.

Lemma groupby_keys l : Forall (fun '(k, g) => g <> [] /\ Forall (fun x => key x = k) g) (groupby key l).
Proof.
  induction l as [|x l IH]; cbn; [constructor|].
  destruct (groupby key l) as [|[k g] rest].
  - repeat constructor. done.
  - apply Forall_cons in IH as [[Hg Hk] Hrest]. destruct (decide _) as [->|Hne].
    + constructor; [|done]. split; [done|]. by constructor.
    + constructor; [|by constructor]. split; [done|]. by repeat constructor.
Qed.

Lemma groupby_head l k g rest :
  groupby key l = (k, g) :: rest -> exists y l', l = y :: l' /\ key y = k.
Proof.
  destruct l as [|y l]; [done|]. intros E. exists y, l. split; [done|].
  pose proof (groupby_keys (y :: l)) as Hk. cbn in E.
  destruct (groupby key l) as [|[k' g'] rest']; [by injection E as <- _ _|].
  destruct (decide _); by injection E as <- _ _.
Qed.

Lemma groupby_in l k g x : (k, g) ∈ groupby key l -> x ∈ g -> x ∈ l /\ key x = k.
Proof.
  intros Hg Hx. split.
  - rewrite <- (groupby_concat l). apply list_elem_of_In, in_concat. exists g.
    split; [|by apply list_elem_of_In]. apply list_elem_of_In, list_elem_of_fmap. by exists (k, g).
  - pose proof (groupby_keys l) as Hk. rewrite Forall_forall in Hk.
    destruct (Hk _ Hg) as [_ Hf]. rewrite Forall_forall in Hf. by apply Hf.
Qed.

(** In a sorted list whose order keeps equal keys together, each key has one run. *)
Lemma groupby_NoDup (le : relation A) l :
  (forall x y z, le x y -> le y z -> key x = key z -> key x = key y) ->
  StronglySorted le l -> NoDup (groupby key l).*1.
Proof.
  intros Hconv Hs. induction Hs as [|x l Hs IH Hx]; cbn; [constructor|].
  destruct (groupby key l) as [|[k g] rest] eqn:E; [repeat constructor; by apply not_elem_of_nil|].
  destruct (decide (k = key x)) as [->|Hne]; [exact IH|]. cbn. constructor; [|exact IH].
  intros Hin. change (k :: rest.*1) with (((k, g) :: rest).*1) in Hin. rewrite <- E in Hin.
  apply list_elem_of_fmap in Hin as ([k' g'] & Ek & Hin). cbn in Ek.
  pose proof (groupby_keys l) as Hk. rewrite Forall_forall in Hk.
  destruct (Hk _ Hin) as [Hg' _]. destruct g' as [|z g']; [done|].
  destruct (groupby_in l k' (z :: g') z Hin) as [Hz Hkz]; [by left|].
  destruct (groupby_head _ _ _ _ E) as (y & l' & -> & Hy).
  rewrite Forall_forall in Hx. apply Hne. rewrite <- Hy. symmetry.
  apply elem_of_cons in Hz as [->|Hz]; [congruence|].
  eapply (Hconv x y z); [apply Hx; by left| |congruence].
  inversion Hs as [|? ? _ Hall]. rewrite Forall_forall in Hall. by apply Hall.
Qed.
End GroupBy.

(** ** Rows that come in blocks *)

Section Blocks.
Context {K A : Type} `{EqDecision K} (key : A -> K).

(** Rows that come block by block, every block with its own key. *)
Definition blocks_ok (bs : list (K * list A)) : Prop :=
  NoDup bs.*1 /\ Forall (fun b => Forall (fun x => key x = b.1) b.2) bs.

Definition nonempty (b : K * list A) : Prop := b.2 <> [].
#[local] Instance nonempty_dec b : Decision (nonempty b).
Proof. unfold nonempty. destruct (b.2); [right|left]; naive_solver. Defined.

Lemma groupby_block k x g rest :
  key x = k -> Forall (fun y => key y = k) g ->
  match groupby key rest with (k', _) :: _ => k' <> k | [] => True end ->
  groupby key ((x :: g) ++ rest) = (k, x :: g) :: groupby key rest.
Proof.
  intros Hx Hg Hr. revert x Hx. induction Hg as [|y g Hy Hg IH]; intros x Hx.
  - cbn. destruct (groupby key rest) as [|[k' g'] rest']; [by rewrite Hx|].
    rewrite decide_False by congruence. by rewrite Hx.
  - specialize (IH y Hy). cbn [groupby app] in *. rewrite IH, Hx. by rewrite decide_True.
Qed.

(** [groupby] finds the blocks that are not empty. *)
Lemma groupby_blocks bs : blocks_ok bs -> groupby key (concat bs.*2) = filter nonempty bs.
Proof.
  intros [Hn Hk]. induction bs as [|[k g] bs IH]; [done|].
  inversion_clear Hn as [|? ? Hn1 Hn2]. inversion_clear Hk as [|? ? Hk1 Hk2]. cbn in Hk1.
  specialize (IH Hn2 Hk2). cbn [fmap list_fmap concat snd].
  destruct g as [|x g].
  - rewrite filter_cons_False by (unfold nonempty; naive_solver). exact IH.
  - inversion_clear Hk1 as [|? ? Hx Hg]. rewrite filter_cons_True by done.
    rewrite <- IH. apply groupby_block; [done..|]. rewrite IH.
    destruct (filter nonempty bs) as [|[k' g'] rest] eqn:E; [done|]. intros ->.
    apply Hn1. assert (Hin : (k, g') ∈ filter nonempty bs) by (rewrite E; by left).
    apply list_elem_of_filter in Hin as [_ Hin]. apply list_elem_of_fmap. by exists (k, g').
Qed.

Lemma groupby_key k (l : list A) : k ∈ (groupby key l).*1 -> exists x, x ∈ l /\ key x = k.
Proof.
  intros Hk. apply list_elem_of_fmap in Hk as ([k' g] & -> & Hg). cbn.
  pose proof (groupby_keys key l) as Hf. rewrite Forall_forall in Hf.
  destruct (Hf _ Hg) as [Hne _]. destruct g as [|x g]; [done|]. exists x.
  by apply (groupby_in key l k' (x :: g)); [|left].
Qed.
End Blocks.


(** ** Dictionaries *)

(** A dictionary that is updated row by row. *)
Section Update.
Context {K A V : Type} `{Countable K} (key : A -> K) (val : A -> V).

#[local] Abbreviation update l m := (foldl (fun (m : gmap K V) r => <[key r := val r]> m) m l).

Lemma update_absent l m k : k ∉ key <$> l -> update l m !! k = m !! k.
Proof.
  revert m. induction l as [|x l IH]; intros m; [done|]. cbn. rewrite not_elem_of_cons. intros [Hne Hk].
  rewrite IH by done. by apply lookup_insert_ne.
Qed.

Lemma update_lookup l m x : NoDup (key <$> l) -> x ∈ l -> update l m !! key x = Some (val x).
Proof.
  revert m. induction l as [|y l IH]; intros m Hn Hx; [by apply not_elem_of_nil in Hx|].
  inversion_clear Hn as [|? ? Hn1 Hn2]. cbn. apply elem_of_cons in Hx as [->|Hx]; [|by apply IH].
  rewrite update_absent by done. apply lookup_insert_eq.
Qed.
End Update.

(** A filter keeps distinct keys distinct. *)
Lemma filter_ids {A K} (key : A -> K) (b : A -> bool) (l : list A) :
  NoDup (key <$> l) -> NoDup (key <$> List.filter b l).
Proof.
  induction l as [|x l IH]; [done|]. intros Hn. inversion_clear Hn as [|? ? Hn1 Hn2]. cbn.
  destruct (b x); [|by apply IH]. constructor; [|by apply IH]. intros Hx. apply Hn1.
  apply list_elem_of_fmap in Hx as (y & -> & Hy). apply list_elem_of_In, filter_In in Hy as [Hy _].
  apply list_elem_of_fmap. exists y. by rewrite list_elem_of_In.
Qed.

(** An update of the rows with one key keeps the keys. *)
Lemma update_ids {A} (key : A -> Z) i (f : A -> A) (l : list A) :
  (forall x, key x = i -> key (f x) = i) ->
  key <$> ((fun x => if key x =? i then f x else x) <$> l) = key <$> l.
Proof.
  intros Hf. rewrite <- list_fmap_compose. apply list_fmap_ext. intros _ x _. cbn.
  destruct (Z.eqb_spec (key x) i) as [E|E]; [|done]. by rewrite Hf, E.
Qed.

(** The id of a new row is not in use. *)
Lemma fresh_id (l : list Z) : 1 + maxZ 0 l ∉ l.
Proof.
  intros Hin. destruct (maxZ_ub 0 l) as [_ Hub]. rewrite Forall_forall in Hub. apply Hub in Hin. lia.
Qed.

(** ** Strictly sorted lists *)

Lemma StronglySorted_filter {A} (R : relation A) (b : A -> bool) (l : list A) :
  StronglySorted R l -> StronglySorted R (List.filter b l).
Proof.
  induction 1 as [|x l Hl IH Hx]; cbn; [constructor|]. destruct (b x); [|done]. constructor; [done|].
  rewrite Forall_forall in Hx |- *. intros y Hy. apply list_elem_of_In, filter_In in Hy as [Hy _].
  by apply Hx, list_elem_of_In.
Qed.

Lemma StronglySorted_fmap {A B} (R : relation B) (f : A -> B) (l : list A) :
  StronglySorted R (f <$> l) <-> StronglySorted (fun x y => R (f x) (f y)) l.
Proof.
  induction l as [|x l IH]; [split; constructor|]. cbn. split; intros H; inversion_clear H as [|? ? H1 H2].
  - constructor; [by apply IH|]. apply (Forall_fmap f) in H2. exact H2.
  - constructor; [by apply IH|]. apply (Forall_fmap f). exact H2.
Qed.

Lemma sorted_lt_NoDup (l : list Z) : StronglySorted Z.lt l -> NoDup l.
Proof.
  induction 1 as [|x l Hl IH Hx]; constructor; [|done]. intros Hin.
  rewrite Forall_forall in Hx. specialize (Hx x Hin). lia.
Qed.

Lemma sorted_le_lt (l : list Z) : StronglySorted Z.le l -> NoDup l -> StronglySorted Z.lt l.
Proof.
  induction 1 as [|x l Hl IH Hx]; intros Hn; constructor; inversion_clear Hn as [|? ? Hn1 Hn2]; [by apply IH|].
  rewrite Forall_forall in Hx |- *. intros y Hy. specialize (Hx y Hy).
  destruct (decide (x = y)) as [->|]; [done|lia].
Qed.

(** Strictly sorted lists with the same elements are the same list. *)
Lemma sorted_lt_ext (l1 l2 : list Z) :
  StronglySorted Z.lt l1 -> StronglySorted Z.lt l2 -> (forall x, x ∈ l1 <-> x ∈ l2) -> l1 = l2.
Proof.
  intros H1 H2 H. assert (AntiSymm eq Z.lt) by (intros x y; lia).
  apply (StronglySorted_unique Z.lt); [done|done|].
  apply NoDup_Permutation; [by apply sorted_lt_NoDup..|done].
Qed.

(** ** Python's dictionaries *)

(** An ordered dictionary: a new key goes to the end, an old one keeps its place. *)
Fixpoint od_get {K A} `{EqDecision K} (k : K) (d : list (K * A)) : option A :=
  match d with
  | [] => None
  | (k', a) :: d => if bool_decide (k' = k) then Some a else od_get k d
  end.

Fixpoint od_set {K A} `{EqDecision K} (k : K) (a : A) (d : list (K * A)) : list (K * A) :=
  match d with
  | [] => [(k, a)]
  | (k', a') :: d => if bool_decide (k' = k) then (k, a) :: d else (k', a') :: od_set k a d
  end.

Section OrderedDict.
Context {K A : Type} `{EqDecision K}.
Implicit Types d : list (K * A).

Lemma od_get_set k k' a d : od_get k' (od_set k a d) = if decide (k' = k) then Some a else od_get k' d.
Proof.
  induction d as [|[k0 a0] d IH]; cbn.
  - case_bool_decide; case_decide; by subst.
  - case_bool_decide as H1; cbn.
    + subst. case_bool_decide; case_decide; by subst.
    + rewrite IH. case_bool_decide as H2; [|done]. subst. by rewrite decide_False.
Qed.

Lemma od_get_Some k d : is_Some (od_get k d) <-> k ∈ d.*1.
Proof.
  induction d as [|[k0 a0] d IH]; cbn; [split; [intros [? ?]; done|by intros ?%elem_of_nil]|].
  rewrite elem_of_cons. case_bool_decide as H1; subst.
  - split; [by left|by eauto].
  - rewrite IH. naive_solver.
Qed.

Lemma od_get_None k d : od_get k d = None <-> k ∉ d.*1.
Proof. rewrite <- od_get_Some, eq_None_not_Some. done. Qed.

Lemma od_set_keys k a d : (od_set k a d).*1 = if decide (k ∈ d.*1) then d.*1 else d.*1 ++ [k].
Proof.
  induction d as [|[k0 a0] d IH]; cbn; [by rewrite decide_False by apply not_elem_of_nil|].
  case_bool_decide as H1; cbn; [subst; by rewrite decide_True by left|]. rewrite IH.
  destruct (decide (k ∈ d.*1)) as [Hd|Hd].
  - by rewrite decide_True by (by right).
  - rewrite decide_False by (by intros [->|?]%elem_of_cons). done.
Qed.

Lemma od_set_NoDup k a d : NoDup d.*1 -> NoDup (od_set k a d).*1.
Proof. intros Hn. rewrite od_set_keys. case_decide; [done|]. by apply NoDup_snoc. Qed.

Lemma elem_of_od_get k a d : NoDup d.*1 -> (k, a) ∈ d <-> od_get k d = Some a.
Proof.
  induction d as [|[k0 a0] d IH]; cbn; intros Hn; [split; [by intros ?%elem_of_nil|done]|].
  inversion_clear Hn as [|? ? H1 H2]. rewrite elem_of_cons, IH by done. case_bool_decide as Hk; subst.
  - split; [intros [[= ->]|E]; [done|]|intros [= ->]; by left].
    exfalso. apply H1. apply od_get_Some. eauto.
  - split; [intros [[= -> ->]|]; done|by right].
Qed.

Lemma od_get_elem k a d : od_get k d = Some a -> (k, a) ∈ d.
Proof.
  induction d as [|[j b] d IH]; [done|]. cbn. case_decide as Hd; [intros [= ->]; subst; by left|]. intros ?. right. by apply IH.
Qed.

(** The last key. *)
Lemma od_get_last k a d : k ∉ d.*1 -> od_get k (d ++ [(k, a)]) = Some a.
Proof.
  induction d as [|[k0 a0] d IH]; cbn; intros Hk; [by rewrite bool_decide_eq_true_2|].
  apply not_elem_of_cons in Hk as [H1 H2]. rewrite bool_decide_eq_false_2 by congruence. by apply IH.
Qed.

Lemma od_set_last k a a' d : k ∉ d.*1 -> od_set k a' (d ++ [(k, a)]) = d ++ [(k, a')].
Proof.
  induction d as [|[k0 a0] d IH]; cbn; intros Hk; [by rewrite bool_decide_eq_true_2|].
  apply not_elem_of_cons in Hk as [H1 H2]. rewrite bool_decide_eq_false_2 by congruence. by rewrite IH.
Qed.

Lemma od_set_new k a d : k ∉ d.*1 -> od_set k a d = d ++ [(k, a)].
Proof.
  induction d as [|[k0 a0] d IH]; cbn; intros Hk; [done|].
  apply not_elem_of_cons in Hk as [H1 H2]. rewrite bool_decide_eq_false_2 by congruence. by rewrite IH.
Qed.
End OrderedDict.

(** The values of a dictionary under a function. *)
Definition od_map {K A B} (f : A -> B) (d : list (K * A)) : list (K * B) := (fun x => (x.1, f x.2)) <$> d.

Lemma od_get_map {K A B} `{EqDecision K} (f : A -> B) k (d : list (K * A)) : od_get k (od_map f d) = f <$> od_get k d.
Proof. induction d as [|[k0 a0] d IH]; [done|]. cbn. by case_bool_decide. Qed.

Lemma od_set_map {K A B} `{EqDecision K} (f : A -> B) k a (d : list (K * A)) : od_set k (f a) (od_map f d) = od_map f (od_set k a d).
Proof.
  induction d as [|[k0 a0] d IH]; [done|]. cbn. case_bool_decide; [done|]. unfold od_map in *. cbn. by rewrite IH.
Qed.

(** A filter that keeps everything, or nothing. *)
Lemma filter_true {A} (f : A -> bool) (l : list A) : (forall x, x ∈ l -> f x = true) -> List.filter f l = l.
Proof.
  induction l as [|x l IH]; intros H; [done|]. cbn. rewrite H by (by left). f_equal. apply IH. intros y Hy.
  apply H. by right.
Qed.

Lemma filter_false {A} (f : A -> bool) (l : list A) : (forall x, x ∈ l -> f x = false) -> List.filter f l = [].
Proof.
  induction l as [|x l IH]; intros H; [done|]. cbn. rewrite H by (by left). apply IH. intros y Hy. apply H. by right.
Qed.

(** [objects.get] of a table: the only row that matches. *)
Definition get_one {A} (rows : list A) : result A :=
  match rows with
  | [] => Raise DoesNotExist
  | [a] => Ret a
  | _ => Raise MultipleObjectsReturned
  end.

Lemma get_one_found {A B} (f : A -> bool) (l : list A) (key : A -> B) x :
  NoDup (key <$> l) -> x ∈ l -> (forall y, y ∈ l -> (f y = true <-> key y = key x)) -> get_one (List.filter f l) = Ret x.
Proof.
  intros Hnd Hin Hf. assert (E : List.filter f l = [x]); [|by rewrite E].
  induction l as [|y l IH]; [by apply elem_of_nil in Hin|]. cbn in Hnd |- *. apply NoDup_cons in Hnd as [Hy Hnd].
  apply elem_of_cons in Hin as [->|Hin].
  - rewrite (proj2 (Hf y ltac:(by left)) eq_refl). f_equal. apply filter_false. intros z Hz. apply not_true_iff_false.
    intros Hfz%Hf; [|by right]. apply Hy. rewrite <- Hfz. by apply list_elem_of_fmap_2.
  - destruct (f y) eqn:E.
    + apply Hf in E; [|by left]. exfalso. apply Hy. rewrite E. by apply list_elem_of_fmap_2.
    + apply IH; [done..|]. intros z Hz. apply Hf. by right.
Qed.

(** The rows with the id of a row are that row. *)
Lemma same_key {A B} (key : A -> B) (l : list A) x y : NoDup (key <$> l) -> x ∈ l -> y ∈ l -> key x = key y -> x = y.
Proof.
  induction l as [|z l IH]; cbn; intros Hnd Hx Hy Hk; [by apply elem_of_nil in Hx|].
  apply NoDup_cons in Hnd as [Hz Hnd].
  apply elem_of_cons in Hx as [->|Hx]; apply elem_of_cons in Hy as [->|Hy]; [done|..|by apply IH]; exfalso; apply Hz.
  - rewrite Hk. by apply list_elem_of_fmap_2.
  - rewrite <- Hk. by apply list_elem_of_fmap_2.
Qed.

Lemma sublist_bool_filter {A} (f : A -> bool) (l : list A) : sublist (List.filter f l) l.
Proof. induction l as [|x l IH]; cbn; [done|]. destruct (f x); by constructor. Qed.

Lemma existsb_none {A} (f : A -> bool) l x : existsb f l = false -> x ∈ l -> f x = false.
Proof.
  intros He Hx. apply not_true_iff_false. intros Hf. rewrite <- not_true_iff_false in He. apply He, existsb_exists.
  exists x. split; [by apply list_elem_of_In|done].
Qed.
