(* ===== verification/Transact.v ===== *)
(** * The cache inside database transactions

    [lib/cache/transact.py]: while a database transaction is open, writes to the
    shared cache are kept in one memo per transaction and savepoint; they reach
    the cache when the transaction commits and are forgotten when the savepoint
    or the transaction is rolled back.

    The connection belongs to Django: the model takes the ids of the open
    transaction and its savepoints ([_get_memo_ids], outermost first, empty
    outside a transaction) as an argument of each operation. *)

From S2P Require Import Prelude.

(** ** Items and the shared cache *)

(** src/lib/cache/cached.py: CacheData lines 50-51.  Generation time, expiry time,
    keys of the dependencies, pickled state; an invalidation has only a time. *)
Record Item := mkItem {
  i_time : Z;
  i_expires : option Z;
  i_deps : option (list string);
  i_state : option string;
}.

Definition invalidation (t : Z) : Item := mkItem t None None None.

Abbreviation Cache := (gmap string Item).

(** src/lib/cache/transact.py: _get_many *)
Definition cache_get_many (cache : Cache) (keys : list string) : Cache :=
  filter (fun x => x.1 ∈ keys) cache.

(** src/lib/cache/transact.py: _set_many.  The new items override the old ones. *)
Definition cache_set_many (items cache : Cache) : Cache := items ∪ cache.

(** ** The manager *)

(** src/lib/cache/transact.py: CacheTransactionManager lines 45-60.  [callbacks]
    counts the registered [on_commit] calls of [_save_memo]. *)
Record Manager := mkManager {
  memos : list (Z * Cache);
  commiting : option Z;
  callbacks : nat;
}.

Definition init : Manager := mkManager [] None 0.

(** src/lib/cache/transact.py: CacheTransactionManager._update_memos.  The memos of
    the open savepoints are kept as long as the ids agree. *)
Fixpoint update_memos (ids : list Z) (memos : list (Z * Cache)) : list (Z * Cache) :=
  match ids, memos with
  | [], _ => []
  | i :: ids, (j, m) :: rest =>
      if i =? j then (j, m) :: update_memos ids rest else (i, ∅) :: update_memos ids []
  | i :: ids, [] => (i, ∅) :: update_memos ids []
  end.

(** src/lib/cache/transact.py: CacheTransactionManager._set_on_commit *)
Definition set_on_commit (mgr : Manager) : Manager :=
  match memos mgr with
  | [(i, _)] =>
      if bool_decide (commiting mgr = Some i) then mgr
      else mkManager (memos mgr) (Some i) (S (callbacks mgr))
  | _ => mgr
  end.

(** The memos with the items written to the innermost one. *)
Fixpoint write_innermost (items : Cache) (memos : list (Z * Cache)) : list (Z * Cache) :=
  match memos with
  | [] => []
  | [(i, m)] => [(i, items ∪ m)]
  | x :: rest => x :: write_innermost items rest
  end.

(** src/lib/cache/transact.py: CacheTransactionManager.set_many *)
Definition set_many (ids : list Z) (items : Cache) (st : Cache * Manager) : Cache * Manager :=
  let (cache, mgr) := st in
  match update_memos ids (memos mgr) with
  | [] => (cache_set_many items cache, mkManager [] (commiting mgr) (callbacks mgr))
  | ms => (cache, set_on_commit (mkManager (write_innermost items ms) (commiting mgr) (callbacks mgr)))
  end.

(** src/lib/cache/transact.py: CacheTransactionManager.set *)
Definition set (ids : list Z) (key : string) (item : Item) (st : Cache * Manager) : Cache * Manager :=
  let (cache, mgr) := st in
  match update_memos ids (memos mgr) with
  | [] => (<[key := item]> cache, mkManager [] (commiting mgr) (callbacks mgr))
  | ms => (cache, set_on_commit
                    (mkManager (write_innermost {[ key := item ]} ms) (commiting mgr) (callbacks mgr)))
  end.

(** The union of the memos, inner ones first. *)
Definition merged (ms : list (Z * Cache)) : Cache := foldl (fun acc x => x.2 ∪ acc) ∅ ms.

(** One turn of the loop of [get_many]: the memo hides the cached item, and a newer
    cached item makes both untrusted. *)
Definition overlay (memo items : Cache) (k : string) : Cache :=
  match memo !! k with
  | Some v =>
      if i_time v <? default 0 (i_time <$> items !! k) then delete k items else <[k := v]> items
  | None => items
  end.

(** src/lib/cache/transact.py: CacheTransactionManager.get_many.  Times are not
    negative, so the [del] always finds its key. *)
Definition get_many (ids : list Z) (keys : list string) (st : Cache * Manager) : Cache :=
  let (cache, mgr) := st in
  let memo := merged (update_memos ids (memos mgr)) in
  let items := cache_get_many cache keys in
  if bool_decide (memo = ∅) then items
  else
    foldl (overlay memo) items (remove_dups keys).

(** src/lib/cache/transact.py: CacheTransactionManager.get *)
Definition get (ids : list Z) (key : string) (st : Cache * Manager) : option Item :=
  let (cache, mgr) := st in
  let item := cache !! key in
  (fix go (ms : list (Z * Cache)) : option Item :=
     match ms with
     | [] => item
     | (_, m) :: rest =>
         match m !! key with
         | Some v =>
             match item with
             | None => Some v
             | Some it => if i_time v <? i_time it then None else Some v
             end
         | None => go rest
         end
     end) (rev (update_memos ids (memos mgr))).

(** src/lib/cache/transact.py: CacheTransactionManager._commit_memo.  Called after a
    savepoint was released; [ids] no longer has it. *)
Definition commit_memo (ids : list Z) (mgr : Manager) : Manager :=
  let n := length ids in
  if (length (memos mgr) <=? n)%nat then mgr
  else
    match n, memos mgr !! n with
    | S n', Some (_, inner) =>
        mkManager (alter (fun x => (x.1, inner ∪ x.2)) n' (take n (memos mgr)))
          (commiting mgr) (callbacks mgr)
    | _, _ => mkManager [] (commiting mgr) (callbacks mgr)
    end.

(** src/lib/cache/transact.py: CacheTransactionManager._discard_memo *)
Definition discard_memo (ids : list Z) (mgr : Manager) : Manager :=
  mkManager (take (length ids) (memos mgr)) (commiting mgr) (callbacks mgr).

(** What one memo item becomes when the transaction commits at time [t]. *)
Definition committed_item (t : Z) (v : Item) (stored : option Item) : Item :=
  let v := match i_deps v with None => invalidation t | Some _ => v end in
  if i_time v <? default 0 (i_time <$> stored) then invalidation t else v.

(** src/lib/cache/transact.py: CacheTransactionManager._save_memo.  The callback of
    the commit at time [t]. *)
Definition save_memo (ids : list Z) (t : Z) (st : Cache * Manager) : Cache * Manager :=
  let (cache, mgr) := st in
  match memos mgr, ids with
  | [], _ => st
  | _, _ :: _ => st
  | (_, memo) :: _, [] =>
      let memo := map_imap (fun k v => Some (committed_item t v (cache !! k))) memo in
      (cache_set_many memo cache, mkManager [] (commiting mgr) (callbacks mgr))
  end.

(** ** The memos follow the open savepoints *)

Lemma update_memos_ids ids ms : (update_memos ids ms).*1 = ids.
Proof.
  revert ms. induction ids as [|i ids IH]; intros [|[j m] ms]; cbn; try done.
  - f_equal. apply IH.
  - destruct (Z.eqb_spec i j) as [->|]; cbn; f_equal; apply IH.
Qed.

Lemma update_memos_same ms : update_memos ms.*1 ms = ms.
Proof. induction ms as [|[j m] ms IH]; cbn; [done|]. by rewrite Z.eqb_refl, IH. Qed.

Lemma update_memos_app ids l ms :
  ms.*1 = ids -> update_memos (ids ++ l) ms = ms ++ update_memos l [].
Proof.
  intros <-. induction ms as [|[j m] ms IH]; [done|]. cbn. by rewrite Z.eqb_refl, IH.
Qed.

Lemma write_innermost_snoc items ms i m :
  write_innermost items (ms ++ [(i, m)]) = ms ++ [(i, items ∪ m)].
Proof.
  induction ms as [|x ms IH]; [by destruct m|]. cbn. rewrite IH. by destruct x, ms.
Qed.

Lemma merged_snoc ms i m : merged (ms ++ [(i, m)]) = m ∪ merged ms.
Proof. unfold merged. by rewrite foldl_app. Qed.

Lemma set_on_commit_memos mgr : memos (set_on_commit mgr) = memos mgr.
Proof. unfold set_on_commit. repeat break_goal; done. Qed.

(** What the transaction sees as written by itself. *)
Definition view (ids : list Z) (st : Cache * Manager) : Cache :=
  merged (update_memos ids (memos st.2)).

(** ** Reading one key and many keys *)

Lemma get_spec ids key st :
  get ids key st
  = match view ids st !! key with
    | Some v => match st.1 !! key with
                | None => Some v
                | Some it => if i_time v <? i_time it then None else Some v
                end
    | None => st.1 !! key
    end.
Proof.
  destruct st as [cache mgr]. unfold get, view. cbn [fst snd].
  generalize (update_memos ids (memos mgr)). intros ms.
  induction ms as [|[i m] ms IH] using rev_ind; [done|].
  rewrite rev_app_distr, merged_snoc. cbn [rev app]. rewrite lookup_union.
  destruct (m !! key) as [v|]; cbn; [by rewrite union_Some_l|]. by rewrite option_union_left_id, IH.
Qed.

(** The loop of [get_many] changes each key once. *)
Lemma get_many_loop (memo : Cache) ks (items : Cache) k :
  NoDup ks ->
  foldl (overlay memo) items ks !! k
  = if bool_decide (k ∈ ks) then
      match memo !! k with
      | Some v => if i_time v <? default 0 (i_time <$> items !! k) then None else Some v
      | None => items !! k
      end
    else items !! k.
Proof.
  revert items. induction ks as [|k' ks IH]; intros items Hnd; [done|].
  apply NoDup_cons in Hnd as [Hk' Hnd]. cbn [foldl]. rewrite IH by done.
  destruct (decide (k = k')) as [->|Hne].
  - rewrite bool_decide_false by done. rewrite bool_decide_true by (by left).
    unfold overlay. destruct (memo !! k') as [v|]; [|done].
    destruct (_ <? _); [apply lookup_delete_eq|apply lookup_insert_eq].
  - assert (E : overlay memo items k' !! k = items !! k).
    { unfold overlay. destruct (memo !! k'); [|done]. destruct (_ <? _);
        [by rewrite lookup_delete_ne|by rewrite lookup_insert_ne]. }
    rewrite E. assert (Ed : bool_decide (k ∈ k' :: ks) = bool_decide (k ∈ ks)).
    { apply bool_decide_ext. rewrite elem_of_cons. naive_solver. }
    by rewrite Ed.
Qed.

(** Reading many keys reads each of them: [get_many] finds for every asked key what
    [get] finds for it, whatever transactions and savepoints are open (the times
    of the items written are POSIX times, so not negative). *)
Theorem get_many_is_get ids keys st k :
  (forall v, view ids st !! k = Some v -> 0 <= i_time v) ->
  get_many ids keys st !! k = if bool_decide (k ∈ keys) then get ids k st else None.
Proof.
  intros Ht. rewrite get_spec. destruct st as [cache mgr]. unfold get_many. fold (view ids (cache, mgr)) in *.
  cbn [fst]. set (memo := view ids (cache, mgr)) in *.
  change (merged (update_memos ids (memos mgr))) with memo.
  assert (Hc : cache_get_many cache keys !! k = if bool_decide (k ∈ keys) then cache !! k else None).
  { unfold cache_get_many. case_bool_decide as Hk.
    - destruct (cache !! k) as [it|] eqn:E; [by apply map_lookup_filter_Some|].
      apply map_lookup_filter_None. by left.
    - apply map_lookup_filter_None. right. by intros x _. }
  destruct (bool_decide (memo = ∅)) eqn:Hm.
  - apply bool_decide_eq_true in Hm. rewrite Hc, Hm, lookup_empty. done.
  - rewrite get_many_loop by apply NoDup_remove_dups.
    assert (Ed : bool_decide (k ∈ remove_dups keys) = bool_decide (k ∈ keys))
      by (apply bool_decide_ext, elem_of_remove_dups).
    rewrite Ed. destruct (bool_decide (k ∈ keys)) eqn:Ek; [|by rewrite Hc].
    destruct (memo !! k) as [v|] eqn:Ev; [|by rewrite Hc].
    rewrite Hc. destruct (cache !! k) as [it|]; cbn; [done|].
    specialize (Ht v eq_refl). destruct (Z.ltb_spec (i_time v) 0); [lia|done].
Qed.

(** ** Savepoints *)

Lemma set_many_open ids s items cache mgr m :
  memos mgr = m ++ [(s, items)] -> m.*1 ++ [s] = ids ->
  forall w, exists mgr', set_many ids w (cache, mgr) = (cache, mgr') /\
    memos mgr' = m ++ [(s, w ∪ items)].
Proof.
  intros Hm Hids w. unfold set_many.
  assert (Hsame : update_memos ids (memos mgr) = m ++ [(s, items)]).
  { rewrite Hm. subst ids. rewrite <- (update_memos_same (m ++ [(s, items)])) at 2.
    by rewrite fmap_app. }
  rewrite Hsame. destruct (m ++ [(s, items)]) as [|x l] eqn:E; [by destruct m|]. rewrite <- E.
  eexists. split; [done|]. rewrite set_on_commit_memos. cbn. by rewrite write_innermost_snoc.
Qed.

(** Writes inside an open savepoint. *)
Definition writes (ids : list Z) (ws : list Cache) (st : Cache * Manager) : Cache * Manager :=
  foldl (fun st w => set_many ids w st) st ws.

Lemma writes_open ids s ws cache mgr m items :
  memos mgr = m ++ [(s, items)] -> m.*1 ++ [s] = ids ->
  exists mgr', writes ids ws (cache, mgr) = (cache, mgr') /\
    memos mgr' = m ++ [(s, foldl (fun acc w => w ∪ acc) items ws)].
Proof.
  intros Hm Hids. revert mgr items Hm. induction ws as [|w ws IH]; intros mgr items Hm.
  - exists mgr. split; [done|]. exact Hm.
  - destruct (set_many_open ids s items cache mgr m Hm Hids w) as (mgr1 & E1 & H1).
    unfold writes in *. cbn [foldl]. rewrite E1. by apply IH.
Qed.

(** The first write in a new savepoint opens its memo. *)
Lemma set_many_new ids s w cache mgr :
  (memos mgr).*1 = ids ->
  exists mgr', set_many (ids ++ [s]) w (cache, mgr) = (cache, mgr') /\
    memos mgr' = memos mgr ++ [(s, w)].
Proof.
  intros Hids. unfold set_many. rewrite (update_memos_app _ _ _ Hids). cbn [update_memos].
  destruct (memos mgr ++ [(s, ∅)]) as [|x l] eqn:E; [by destruct (memos mgr)|]. rewrite <- E.
  eexists. split; [done|]. rewrite set_on_commit_memos. cbn.
  by rewrite write_innermost_snoc, (right_id_L ∅ (∪)).
Qed.

Lemma foldl_union (ws : list Cache) (a b : Cache) :
  foldl (fun acc w => w ∪ acc) (a ∪ b) ws = foldl (fun acc w => w ∪ acc) a ws ∪ b.
Proof.
  revert a. induction ws as [|w ws IH]; intros a; cbn; [done|]. by rewrite (assoc_L (∪)), IH.
Qed.

(** C21. Savepoints nest as the database's do.  Take a transaction with memos for
    its open savepoints [ids], and any writes (at least one) inside a further savepoint [s]:
    the shared cache does not change; inside, each key reads as last written;
    rolling the savepoint back restores the memos as they were; releasing it
    leaves the enclosing transaction reading exactly what was read inside. *)
Theorem savepoints_nest ids s w ws cache mgr :
  (memos mgr).*1 = ids -> ids <> [] ->
  let '(cache', mgr') := writes (ids ++ [s]) (w :: ws) (cache, mgr) in
  cache' = cache /\
  view (ids ++ [s]) (cache', mgr') = foldl (fun acc w => w ∪ acc) (view ids (cache, mgr)) (w :: ws) /\
  memos (discard_memo ids mgr') = memos mgr /\
  view ids (cache', commit_memo ids mgr') = view (ids ++ [s]) (cache', mgr').
Proof.
  intros Hids Hne. unfold writes. cbn [foldl].
  destruct (set_many_new ids s w cache mgr Hids) as (mgr1 & -> & H1).
  destruct (writes_open (ids ++ [s]) s ws cache mgr1 (memos mgr) w H1) as (mgr2 & E & H2);
    [by rewrite Hids|]. unfold writes in E. rewrite E.
  assert (Hl : length (memos mgr) = length ids) by (rewrite <- Hids; by rewrite length_fmap).
  assert (Hv : view (ids ++ [s]) (cache, mgr2) = foldl (fun acc w => w ∪ acc) w ws ∪ merged (memos mgr)).
  { unfold view. cbn [snd]. rewrite H2.
    assert (ids ++ [s] = (memos mgr ++ [(s, foldl (fun acc w => w ∪ acc) w ws)]).*1) as ->
      by (by rewrite fmap_app, Hids).
    by rewrite update_memos_same, merged_snoc. }
  assert (Hv0 : view ids (cache, mgr) = merged (memos mgr))
    by (unfold view; cbn [snd]; by rewrite <- Hids, update_memos_same).
  split; [done|]. split; [|split].
  - rewrite Hv, Hv0. by rewrite foldl_union.
  - unfold discard_memo. cbn. rewrite H2, take_app_le by lia. apply take_ge. lia.
  - rewrite Hv. unfold commit_memo. cbv zeta. rewrite H2.
    assert ((length (memos mgr ++ [(s, foldl (fun acc w => w ∪ acc) w ws)]) <=? length ids)%nat = false) as ->
      by (apply Nat.leb_gt; rewrite length_app; cbn; lia).
    destruct (length ids) as [|n] eqn:En; [by destruct ids|].
    rewrite list_lookup_middle by lia. rewrite take_app_le, take_ge by lia.
    destruct (memos mgr) as [|x l _] using rev_ind; [done|].
    rewrite length_app in Hl. cbn in Hl. assert (n = length l) as -> by lia.
    unfold view. cbn [snd memos].
    rewrite alter_app_r_alt, Nat.sub_diag by lia. cbn.
    assert (ids = (l ++ [(x.1, foldl (fun acc w => w ∪ acc) w ws ∪ x.2)]).*1) as ->.
    { rewrite <- Hids. by rewrite !fmap_app. }
    rewrite update_memos_same, merged_snoc. destruct x as [j mx]. rewrite merged_snoc. cbn.
    by rewrite (assoc_L (∪)).
Qed.

(** ** The commit *)

(** C22. Committing publishes the memo safely, when no cached time is later than that
    of the commit: outside the memo the cache does not
    change; a key invalidated in the transaction is stored as invalidated at the
    time of the commit, an entry generated in the transaction is stored as it is
    if nothing newer was stored meanwhile, and as invalidated otherwise; no key
    goes back in time. *)
Theorem commit_publishes t i memo rest cache commiting callbacks :
  (forall k it, cache !! k = Some it -> i_time it <= t) ->
  let '(cache', mgr') := save_memo [] t (cache, mkManager ((i, memo) :: rest) commiting callbacks) in
  memos mgr' = [] /\
  forall k, match memo !! k with
            | None => cache' !! k = cache !! k
            | Some v =>
                (i_deps v = None -> cache' !! k = Some (invalidation t)) /\
                (i_deps v <> None -> default 0 (i_time <$> cache !! k) <= i_time v -> cache' !! k = Some v) /\
                (i_deps v <> None -> i_time v < default 0 (i_time <$> cache !! k) ->
                 cache' !! k = Some (invalidation t)) /\
                (forall it, cache !! k = Some it ->
                 exists it', cache' !! k = Some it' /\ i_time it <= i_time it')
            end.
Proof.
  intros Ht. cbn. split; [done|]. intros k. unfold cache_set_many. rewrite lookup_union, map_lookup_imap.
  destruct (memo !! k) as [v|]; cbn; [|by rewrite option_union_left_id].
  rewrite union_Some_l. unfold committed_item.
  assert (Hle : default 0 (i_time <$> cache !! k) <= Z.max 0 t).
  { destruct (cache !! k) as [it|] eqn:E; cbn; [specialize (Ht k it E); lia|lia]. }
  repeat split.
  - intros ->. by destruct (_ <? _).
  - intros Hd Hle'. destruct (i_deps v); [|done]. by destruct (Z.ltb_spec (i_time v) (default 0 (i_time <$> cache !! k))); [lia|].
  - intros Hd Hlt. destruct (i_deps v); [|done]. by destruct (Z.ltb_spec (i_time v) (default 0 (i_time <$> cache !! k))); [|lia].
  - intros it E. rewrite E. cbn. specialize (Ht k it E).
    set (v' := match i_deps v with Some _ => v | None => invalidation t end).
    eexists. split; [done|]. destruct (Z.ltb_spec (i_time v') (i_time it)); cbn; lia.
Qed.

(** ** Witnesses *)

Definition example_item (t : Z) : Item := mkItem t None (Some []) (Some "state"%string).

Lemma get_many_is_get_witness :
  let st := ({[ "a"%string := example_item 5 ]}, mkManager [(1, {[ "a"%string := invalidation 7 ]})] None 0) in
  get_many [1] ["a"%string] st !! "a"%string = get [1] "a"%string st.
Proof.
  apply (get_many_is_get [1] ["a"%string]
    ({[ "a"%string := example_item 5 ]}, mkManager [(1, {[ "a"%string := invalidation 7 ]})] None 0) "a"%string).
  intros v Hv. vm_compute in Hv. injection Hv as <-. vm_compute. discriminate.
Defined.

Lemma savepoints_nest_witness :
  view [1] (∅, commit_memo [1] (snd (writes [1; 2] [{[ "a"%string := invalidation 7 ]}]
                                        (∅, mkManager [(1, ∅)] None 0))))
  = {[ "a"%string := invalidation 7 ]}.
Proof.
  pose proof (savepoints_nest [1] 2 {[ "a"%string := invalidation 7 ]} [] ∅ (mkManager [(1, ∅)] None 0)
    eq_refl ltac:(discriminate)) as H.
  destruct (writes _ _ _) as [c m] eqn:E in H. cbn [app] in E. rewrite E.
  destruct H as (-> & Hv & _ & Hc). cbn [snd]. rewrite Hc, Hv. reflexivity.
Defined.

Lemma commit_publishes_witness :
  fst (save_memo [] 9 ({[ "a"%string := example_item 5 ]},
         mkManager [(1, {[ "a"%string := invalidation 7 ]})] (Some 1) 1)) !! "a"%string
  = Some (invalidation 9).
Proof.
  pose proof (commit_publishes 9 1 {[ "a"%string := invalidation 7 ]} []
    {[ "a"%string := example_item 5 ]} (Some 1) 1) as H.
  destruct (save_memo _ _ _) as [c m] in H |- *.
  destruct H as [_ H]; [|exact (proj1 (H "a"%string) eq_refl)].
  intros k it Hk. apply lookup_singleton_Some in Hk as [_ <-]. vm_compute. discriminate.
Defined.

(** An invalidation written only inside a savepoint is merged into the transaction
    when the savepoint is released, but no callback is registered for the commit:
    it never reaches the cache.  The same write outside a savepoint registers one. *)
Lemma nested_invalidation_is_not_saved :
  let st := set [1; 2] "a"%string (invalidation 7) (∅, init) in
  let released := commit_memo [1] (snd st) in
  view [1] (∅, released) = {[ "a"%string := invalidation 7 ]} /\ callbacks released = 0%nat /\
  callbacks (snd (set [1] "a"%string (invalidation 7) (∅, init))) = 1%nat.
Proof. repeat split; reflexivity. Qed.
