(* ===== verification/Cached.v ===== *)
(** * The cache of generated entries

    [lib/cache/cached.py]: how [ProxyManager] reads entries and their dependencies
    from the cache and decides which are still good, and how new entries and
    invalidations are written so that they cannot overtake each other. *)

From S2P Require Import Prelude Transact.

(** ** Keys *)

(** src/lib/cache/cached.py: CacheMeta._get_key_postfix *)
Definition get_key_postfix (params : list string) : string := String.concat "," params.

(** src/lib/cache/cached.py: CacheMeta._get_keys_with_cls.  The classes that are
    cached separately, given by prefix and number of parameters. *)
Definition get_keys (parents : list (string * nat)) (params : list string) : list string :=
  (fun '(prefix, n) => (prefix +:+ ":" +:+ get_key_postfix (take n params))%string) <$> parents.

(** src/lib/cache/cached.py: CacheMeta.invalidate_many.  The invalidations of one
    time for the given keys; [invalidate] is the case of one key. *)
Definition invalidate_many (ids : list Z) (now : Z) (keys : list string) (st : Cache * Manager)
    : Cache * Manager :=
  match keys with
  | [] => st
  | _ => set_many ids (list_to_map ((fun k => (k, invalidation now)) <$> keys)) st
  end.

(** ** Reading entries with their dependencies *)

(** What a manager has read: [None] marks an entry that must be generated. *)
Abbreviation Fetched := (gmap string (option Item)).

(** src/lib/cache/cached.py: ProxyManager.fetch lines 91-98.  A missing, invalidated
    or expired entry is not used. *)
Definition usable (gen_start : Z) (o : option Item) : option Item :=
  match o with
  | Some it =>
      match i_deps it with
      | None => None
      | Some _ =>
          match i_expires it with
          | Some e => if e <? gen_start then None else Some it
          | None => Some it
          end
      end
  | None => None
  end.

Definition deps (it : Item) : list string := default [] (i_deps it).

(** [items.get(k) or self.fetched_data.get(k)] *)
Definition find_dependency (items fetched : Fetched) (k : string) : option Item :=
  match items !! k with
  | Some (Some it) => Some it
  | _ => mjoin (fetched !! k)
  end.

(** [dependency is None or dependency[0] > g] *)
Definition outdated (items fetched : Fetched) (it : Item) (k : string) : bool :=
  match find_dependency items fetched k with
  | None => true
  | Some d => i_time it <? i_time d
  end.

(** src/lib/cache/cached.py: ProxyManager.fetch lines 112-119.  One entry whose
    dependencies are checked. *)
Definition check_entry (fetched items : Fetched) (key : string) : Fetched :=
  match items !! key with
  | Some (Some it) => if existsb (outdated items fetched it) (deps it) then <[key := None]> items else items
  | _ => items
  end.

Section Fetch.
(** The order in which Python iterates over a set of keys, the time at which the
    manager was made, and the content of the cache. *)
Context (iter : gset string -> list string) (gen_start : Z) (cache : Cache).

Definition read (key : string) : option Item := usable gen_start (cache !! key).

(** The items of the keys of one level, before their dependencies are checked. *)
Definition level_items (keys : list string) : Fetched :=
  list_to_map ((fun k => (k, read k)) <$> keys).

(** The keys with dependencies, in the order of the keys. *)
Definition level_keys (keys : list string) : list string :=
  List.filter (fun k => match read k with
                        | Some it => bool_decide (deps it <> [])
                        | None => false
                        end) keys.

(** The dependencies that were not seen yet. *)
Definition next_keys (keys : list string) (used : gset string) (fetched : Fetched) : gset string :=
  filter (fun k => (k ∉ used) /\ fetched !! k = None)
    (list_to_set (keys ≫= (fun k => match read k with Some it => deps it | None => [] end))).

(** src/lib/cache/cached.py: ProxyManager.fetch lines 82-125.  The inner function
    [fetch]; [None] when the fuel runs out. *)
Fixpoint fetch (fuel : nat) (keys : list string) (st : gset string * Fetched)
    : option (gset string * Fetched) :=
  match fuel with
  | O => None
  | S fuel =>
      let '(used, fetched) := st in
      let used := used ∪ list_to_set keys in
      let next := next_keys keys used fetched in
      st ← if bool_decide (next = ∅) then Some (used, fetched) else fetch fuel (iter next) (used, fetched);
      let '(used, fetched) := st in
      Some (used, foldl (check_entry fetched) (level_items keys) (level_keys keys) ∪ fetched)
  end.

(** All the keys a fetch can meet. *)
Definition universe (keys : list string) : gset string :=
  list_to_set keys ∪ list_to_set (map_to_list cache ≫= (fun x => deps x.2)).

Definition fetch_fuel (keys : list string) : nat := S (size (universe keys)).
End Fetch.

(** ** Writing entries *)

(** [stored_state is None or stored_state[0] <= nstate[0]] *)
Definition may_store (stored : Cache) (x : string * Item) : bool :=
  match stored !! x.1 with
  | None => true
  | Some s => i_time s <=? i_time x.2
  end.

(** src/lib/cache/cached.py: ProxyManager.save lines 177-186.  The new entries that are not older
    than what is stored. *)
Definition save_states (ids : list Z) (nstates : Cache) (st : Cache * Manager) : Cache :=
  let stored := get_many ids (map_to_list nstates).*1 st in
  filter (fun x => may_store stored x = true) nstates.

(** src/lib/cache/cached.py: ProxyManager.save.  An entry is not stored over
    something newer.  Here nothing happens between the reading and the writing; the
    histories of [Invalidate] take the two apart. *)
Definition save (ids : list Z) (nstates : Cache) (st : Cache * Manager) : Cache * Manager :=
  set_many ids (save_states ids nstates st) st.

(** ** A fetch ends, answers every key and finds only fresh entries *)

Section FetchSound.
Context (iter : gset string -> list string) (gen_start : Z) (cache : Cache).
Hypothesis iter_elements : forall X, iter X ≡ₚ elements X.

#[local] Abbreviation read := (read gen_start cache).

(** An entry that is stored, neither invalidated nor expired, and none of whose
    dependencies is missing, invalidated, expired or newer. *)
Definition fresh (k : string) (it : Item) : Prop :=
  read k = Some it /\
  forall d, d ∈ deps it -> exists it', read d = Some it' /\ i_time it' <= i_time it.

(** The same of the stored entry itself: it is in the cache, is not an
    invalidation, and has not expired when the manager was made. *)
Definition valid (k : string) (it : Item) : Prop :=
  cache !! k = Some it /\ is_Some (i_deps it) /\ forall e, i_expires it = Some e -> gen_start <= e.

Lemma read_valid k it : read k = Some it <-> valid k it.
Proof.
  unfold Cached.read, usable, valid. destruct (cache !! k) as [x|]; [|naive_solver].
  destruct (i_deps x) eqn:Ed, (i_expires x) as [e|] eqn:Ee;
    try (destruct (e <? gen_start) eqn:El; b2p);
    (split; [intros E; simplify_eq; try (rewrite Ed, Ee; repeat split; [by eexists|]; intros ? [= <-]; lia);
             try (rewrite Ed, Ee; repeat split; [by eexists|done])
            |intros (E & [? Hd] & He); simplify_eq; try done; specialize (He _ Ee); lia]).
Qed.

Definition all_fresh (fetched : Fetched) : Prop :=
  forall k it, fetched !! k = Some (Some it) -> fresh k it.

Definition from_cache (items : Fetched) : Prop :=
  forall k it, items !! k = Some (Some it) -> read k = Some it.

Lemma not_outdated items fetched it :
  from_cache items -> all_fresh fetched -> existsb (outdated items fetched it) (deps it) = false ->
  forall d, d ∈ deps it -> exists it', read d = Some it' /\ i_time it' <= i_time it.
Proof.
  intros Hi Hf Ho d Hd.
  assert (E : outdated items fetched it d = false).
  { destruct (outdated items fetched it d) eqn:E; [|done]. rewrite <- Ho. symmetry.
    apply existsb_exists. exists d. split; [by apply list_elem_of_In|done]. }
  unfold outdated, find_dependency in E.
  assert (Hfd : forall x, mjoin (fetched !! d) = Some x -> read d = Some x).
  { intros x Hx. destruct (fetched !! d) as [[y|]|] eqn:Ey; cbn in Hx; try done.
    injection Hx as ->. by apply Hf in Ey as [Ey _]. }
  destruct (items !! d) as [[x|]|] eqn:Ex.
  - exists x. split; [by apply Hi|]. b2p. lia.
  - destruct (mjoin (fetched !! d)) as [x|]; [|done]. exists x. split; [by apply Hfd|]. b2p. lia.
  - destruct (mjoin (fetched !! d)) as [x|]; [|done]. exists x. split; [by apply Hfd|]. b2p. lia.
Qed.

Lemma check_entry_spec fetched items key :
  from_cache items -> all_fresh fetched ->
  let items' := check_entry fetched items key in
  dom items' = dom items /\
  forall k it, items' !! k = Some (Some it) -> items !! k = Some (Some it) /\ (k = key -> fresh k it).
Proof.
  intros Hi Hf. unfold check_entry. cbv zeta.
  destruct (items !! key) as [[x|]|] eqn:E; try (split; [done|]; intros k it Hk; split; [done|]; congruence).
  destruct (existsb _ _) eqn:Ho.
  - split; [apply dom_insert_lookup_L; eauto|]. intros k it Hk.
    apply lookup_insert_Some in Hk as [[_ ?]|[Hne Hk]]; [done|]. split; [done|congruence].
  - split; [done|]. intros k it Hk. split; [done|]. intros ->. rewrite E in Hk. injection Hk as ->.
    split; [by apply Hi|]. by apply (not_outdated items fetched).
Qed.

Lemma check_entries_spec fetched ks items :
  from_cache items -> all_fresh fetched ->
  let items' := foldl (check_entry fetched) items ks in
  dom items' = dom items /\
  forall k it, items' !! k = Some (Some it) -> items !! k = Some (Some it) /\ (k ∈ ks -> fresh k it).
Proof.
  intros Hi Hf. revert items Hi. induction ks as [|key ks IH]; intros items Hi; cbv zeta; cbn [foldl].
  { split; [done|]. intros k it Hk. split; [done|]. intros H. by apply not_elem_of_nil in H. }
  destruct (check_entry_spec fetched items key Hi Hf) as [Hd1 H1].
  destruct (IH (check_entry fetched items key)) as [Hd2 H2].
  { intros k it Hk. apply Hi. by apply H1. }
  split; [by rewrite Hd2|]. intros k it Hk. destruct (H2 k it Hk) as [Hk1 Hfr].
  destruct (H1 k it Hk1) as [Hk0 Hkey]. split; [done|].
  intros Hin. apply elem_of_cons in Hin as [->|Hin]; auto.
Qed.

(** Entries without dependencies are not touched by the check. *)
Lemma check_entries_others fetched ks items k :
  k ∉ ks -> foldl (check_entry fetched) items ks !! k = items !! k.
Proof.
  revert items. induction ks as [|key ks IH]; intros items Hk; cbn; [done|].
  apply not_elem_of_cons in Hk as [Hne Hk]. rewrite IH by done. unfold check_entry.
  destruct (items !! key) as [[]|]; try done. destruct (existsb _ _); [|done].
  by rewrite lookup_insert_ne.
Qed.

Lemma level_items_lookup keys k :
  level_items gen_start cache keys !! k = if bool_decide (k ∈ keys) then Some (read k) else None.
Proof.
  unfold level_items. induction keys as [|k' keys IH]; [done|]. cbn.
  destruct (decide (k = k')) as [->|Hne].
  - rewrite lookup_insert_eq. by rewrite bool_decide_true by (by left).
  - rewrite lookup_insert_ne by done. rewrite IH.
    assert (Ed : bool_decide (k ∈ keys) = bool_decide (k ∈ k' :: keys))
      by (apply bool_decide_ext; rewrite elem_of_cons; naive_solver).
    by rewrite Ed.
Qed.

Lemma level_result keys fetched :
  all_fresh fetched ->
  let items := foldl (check_entry fetched) (level_items gen_start cache keys)
                 (level_keys gen_start cache keys) in
  all_fresh (items ∪ fetched) /\ (forall k, k ∈ keys -> is_Some ((items ∪ fetched) !! k)) /\
  (forall k it, k ∈ keys -> read k = Some it -> deps it = [] -> (items ∪ fetched) !! k = Some (Some it)).
Proof.
  intros Hf. cbv zeta.
  assert (Hi : from_cache (level_items gen_start cache keys)).
  { intros k it Hk. rewrite level_items_lookup in Hk. case_bool_decide; [|done]. congruence. }
  destruct (check_entries_spec fetched (level_keys gen_start cache keys) _ Hi Hf) as [Hd Hs].
  pose proof (check_entries_others fetched (level_keys gen_start cache keys)
                (level_items gen_start cache keys)) as Ho.
  set (items := foldl _ _ _) in *. split; [|split].
  - intros k it Hk. apply lookup_union_Some_raw in Hk as [Hk|[_ Hk]]; [|by apply Hf].
    destruct (Hs k it Hk) as [Hk0 Hfr]. pose proof (Hi k it Hk0) as Hr.
    destruct (decide (deps it = [])) as [Hnil|Hnn].
    + split; [done|]. rewrite Hnil. intros d Hd'. by apply not_elem_of_nil in Hd'.
    + apply Hfr. rewrite level_items_lookup in Hk0. case_bool_decide as Hin; [|done].
      apply list_elem_of_In, filter_In. rewrite <- list_elem_of_In. split; [done|].
      rewrite Hr. by apply bool_decide_eq_true.
  - intros k Hk. rewrite lookup_union_is_Some. left. apply elem_of_dom. rewrite Hd.
    apply elem_of_dom. rewrite level_items_lookup, bool_decide_true by done. eauto.
  - intros k it Hk Hr Hnil. apply lookup_union_Some_l. rewrite Ho.
    + by rewrite level_items_lookup, bool_decide_true, Hr.
    + intros Hin. apply list_elem_of_In, filter_In in Hin as [_ Hin]. rewrite Hr in Hin. by b2p.
Qed.

Lemma read_deps_in_universe keys k it d :
  read k = Some it -> d ∈ deps it -> d ∈ universe cache keys.
Proof.
  intros Hr Hd. unfold universe. apply elem_of_union_r, elem_of_list_to_set, list_elem_of_bind.
  exists (k, it). split; [done|]. apply elem_of_map_to_list. unfold Cached.read, usable in Hr.
  destruct (cache !! k) as [x|]; [|done]. repeat break_hyp Hr; congruence.
Qed.

Lemma next_keys_spec keys used fetched k :
  k ∈ next_keys gen_start cache keys used fetched -> (k ∉ used) /\ forall ks, k ∈ universe cache ks.
Proof.
  unfold next_keys. rewrite elem_of_filter, elem_of_list_to_set, list_elem_of_bind.
  intros [[Hu _] (k' & Hk' & _)]. split; [done|]. intros ks.
  destruct (read k') as [it|] eqn:E; [by eapply read_deps_in_universe|by apply not_elem_of_nil in Hk'].
Qed.

(** The keys of the next level are new. *)
Lemma next_level_smaller all keys used fetched :
  next_keys gen_start cache keys used fetched <> ∅ ->
  (size (universe cache all ∖ (used ∪ list_to_set (iter (next_keys gen_start cache keys used fetched))))
   < size (universe cache all ∖ used))%nat.
Proof using iter_elements.
  intros Hn. set (next := next_keys gen_start cache keys used fetched) in *.
  apply subset_size. apply set_choose_L in Hn as [k Hk].
  pose proof (next_keys_spec keys used fetched k Hk) as [Hu Hall].
  assert (Hki : k ∈ (list_to_set (iter next) : gset string))
    by (rewrite iter_elements; apply elem_of_list_to_set; by apply elem_of_elements).
  split; [set_solver|]. intros Hc. specialize (Hall all). set_solver.
Qed.

(** One fetch from any state: it ends when the fuel exceeds the keys not used yet. *)
Lemma fetch_spec all fuel keys used fetched :
  (size (universe cache all ∖ (used ∪ list_to_set keys)) < fuel)%nat -> all_fresh fetched ->
  exists used' fetched', fetch iter gen_start cache fuel keys (used, fetched) = Some (used', fetched') /\
    all_fresh fetched' /\ (forall k, k ∈ keys -> is_Some (fetched' !! k)) /\
    (forall k it, k ∈ keys -> read k = Some it -> deps it = [] -> fetched' !! k = Some (Some it)).
Proof using iter_elements.
  revert keys used fetched. induction fuel as [|fuel IH]; intros keys used fetched Hlt Hf; [lia|].
  cbn [fetch]. set (used1 := used ∪ list_to_set keys) in *.
  set (next := next_keys gen_start cache keys used1 fetched).
  assert (Hsub : exists used2 fetched2,
    (if bool_decide (next = ∅) then Some (used1, fetched)
     else fetch iter gen_start cache fuel (iter next) (used1, fetched)) = Some (used2, fetched2) /\
    all_fresh fetched2).
  { case_bool_decide as Hn; [by exists used1, fetched|].
    destruct (IH (iter next) used1 fetched) as (u & f & E & Hfr & _); [|done|by exists u, f].
    eapply Nat.lt_le_trans; [by apply next_level_smaller|lia]. }
  destruct Hsub as (used2 & fetched2 & -> & Hf2). cbn.
  pose proof (level_result keys fetched2 Hf2) as (H1 & H2 & H3). eauto 8.
Qed.

(** A fetch ends whatever was read before. *)
Lemma fetch_ends all fuel keys used fetched :
  (size (universe cache all ∖ (used ∪ list_to_set keys)) < fuel)%nat ->
  is_Some (fetch iter gen_start cache fuel keys (used, fetched)).
Proof using iter_elements.
  revert keys used fetched. induction fuel as [|fuel IH]; intros keys used fetched Hlt; [lia|].
  cbn [fetch]. set (used1 := used ∪ list_to_set keys) in *. set (next := next_keys gen_start cache keys used1 fetched).
  assert (Hsub : is_Some (if bool_decide (next = ∅) then Some (used1, fetched)
                          else fetch iter gen_start cache fuel (iter next) (used1, fetched))).
  { case_bool_decide as Hn; [by eexists|]. apply IH. eapply Nat.lt_le_trans; [by apply next_level_smaller|lia]. }
  destruct Hsub as [[used2 fetched2] ->]. by eexists.
Qed.

(** C17. Reading entries ends and is sound: however Python iterates over its sets of
    keys, the recursive fetch of an empty manager ends (the universe of keys
    bounds its depth), every asked key gets an answer, and every entry it
    accepts is in the cache, not invalidated and not expired when the manager was
    made, and each of its dependencies is in the cache, not invalidated, not
    expired and not newer than the entry.  An asked entry without dependencies
    that is in the cache, not invalidated and not expired is accepted. *)
Theorem fetch_sound keys :
  exists used fetched,
    fetch iter gen_start cache (fetch_fuel cache keys) keys (∅, ∅) = Some (used, fetched) /\
    (forall k, k ∈ keys -> is_Some (fetched !! k)) /\
    (forall k it, fetched !! k = Some (Some it) ->
       valid k it /\ forall d, d ∈ deps it -> exists it', valid d it' /\ i_time it' <= i_time it) /\
    (forall k it, k ∈ keys -> valid k it -> deps it = [] -> fetched !! k = Some (Some it)).
Proof using iter_elements.
  destruct (fetch_spec keys (fetch_fuel cache keys) keys ∅ ∅) as (u & f & E & H1 & H2 & H3).
  - unfold fetch_fuel. apply Nat.lt_succ_r, subseteq_size. set_solver.
  - intros k it Hk. by rewrite lookup_empty in Hk.
  - exists u, f. split; [done|]. split; [done|]. split.
    + intros k it Hk. destruct (H1 k it Hk) as [Hr Hd]. split; [by apply read_valid|].
      intros d Hin. destruct (Hd d Hin) as (it' & Hr' & Ht). exists it'. by rewrite <- read_valid.
    + intros k it Hk Hv. apply H3; [done|]. by apply read_valid.
Qed.
End FetchSound.

(** ** A late save cannot undo an invalidation *)

Lemma save_outside nstates cache mgr :
  exists mgr', save [] nstates (cache, mgr) =
    (filter (fun x => may_store (cache_get_many cache (map_to_list nstates).*1) x = true) nstates ∪ cache,
     mgr').
Proof.
  unfold save, save_states, get_many, set_many. cbn [update_memos]. eexists.
  rewrite bool_decide_true by done. done.
Qed.

Lemma save_lookup nstates cache mgr k :
  fst (save [] nstates (cache, mgr)) !! k
  = match nstates !! k with
    | Some n => match cache !! k with
                | Some s => if i_time s <=? i_time n then Some n else Some s
                | None => Some n
                end
    | None => cache !! k
    end.
Proof.
  destruct (save_outside nstates cache mgr) as [mgr' ->]. cbn [fst]. rewrite lookup_union.
  destruct (nstates !! k) as [n|] eqn:En.
  - assert (Hk : k ∈ (map_to_list nstates).*1).
    { apply list_elem_of_fmap. exists (k, n). split; [done|]. by apply elem_of_map_to_list. }
    assert (Hg : cache_get_many cache (map_to_list nstates).*1 !! k = cache !! k).
    { unfold cache_get_many. destruct (cache !! k) as [it|] eqn:E; [by apply map_lookup_filter_Some|].
      apply map_lookup_filter_None. by left. }
    destruct (may_store (cache_get_many cache (map_to_list nstates).*1) (k, n)) eqn:Em.
    + assert (filter (fun x => may_store (cache_get_many cache (map_to_list nstates).*1) x = true)
                nstates !! k = Some n) as -> by (by apply map_lookup_filter_Some).
      rewrite union_Some_l. unfold may_store in Em. cbn in Em. rewrite Hg in Em.
      destruct (cache !! k); [by rewrite Em|done].
    + assert (filter (fun x => may_store (cache_get_many cache (map_to_list nstates).*1) x = true)
                nstates !! k = None) as ->.
      { apply map_lookup_filter_None. right. intros x Hx. rewrite En in Hx. injection Hx as <-. congruence. }
      rewrite option_union_left_id. unfold may_store in Em. cbn in Em. rewrite Hg in Em.
      destruct (cache !! k); [by rewrite Em|done].
  - assert (filter (fun x => may_store (cache_get_many cache (map_to_list nstates).*1) x = true)
              nstates !! k = None) as -> by (apply map_lookup_filter_None; by left).
    by rewrite option_union_left_id.
Qed.

Lemma invalidate_many_lookup now keys cache mgr k :
  fst (invalidate_many [] now keys (cache, mgr)) !! k
  = if bool_decide (k ∈ keys) then Some (invalidation now) else cache !! k.
Proof.
  unfold invalidate_many.
  assert (E : (list_to_map ((fun k => (k, invalidation now)) <$> keys) : Cache) !! k
              = if bool_decide (k ∈ keys) then Some (invalidation now) else None).
  { clear. induction keys as [|k' keys IH]; [done|]. cbn. destruct (decide (k = k')) as [->|Hne].
    - rewrite lookup_insert_eq. by rewrite bool_decide_true by (by left).
    - rewrite lookup_insert_ne by done. rewrite IH.
      assert (Ed : bool_decide (k ∈ keys) = bool_decide (k ∈ k' :: keys))
        by (apply bool_decide_ext; rewrite elem_of_cons; naive_solver).
      by rewrite Ed. }
  destruct keys as [|k' keys]; [done|]. unfold set_many. cbn [update_memos fst].
  unfold cache_set_many. rewrite lookup_union, E.
  destruct (bool_decide _); [by rewrite union_Some_l|by rewrite option_union_left_id].
Qed.

(** A late save cannot undo an invalidation: when entries whose generation
    began before time [t] are saved after the keys were invalidated at [t], every
    invalidated key still reads as not usable, and the other keys hold the newer
    of what was stored and what is saved. *)
Theorem late_save_keeps_invalidation t keys nstates cache mgr gen_start k :
  (forall k n, nstates !! k = Some n -> i_time n < t) ->
  let st := save [] nstates (invalidate_many [] t keys (cache, mgr)) in
  (k ∈ keys -> st.1 !! k = Some (invalidation t) /\ read gen_start st.1 k = None) /\
  (k ∉ keys -> st.1 !! k = match nstates !! k, cache !! k with
                           | Some n, Some s => if i_time s <=? i_time n then Some n else Some s
                           | Some n, None => Some n
                           | None, o => o
                           end).
Proof.
  intros Ht. cbv zeta.
  pose proof (invalidate_many_lookup t keys cache mgr k) as Hi.
  destruct (invalidate_many [] t keys (cache, mgr)) as [cache1 mgr1]. cbn [fst] in Hi.
  change ((save [] nstates (cache1, mgr1)).1) with (fst (save [] nstates (cache1, mgr1))).
  unfold read. rewrite save_lookup, Hi. split; intros Hk.
  - rewrite bool_decide_true by done. destruct (nstates !! k) as [n|] eqn:En; [|done].
    specialize (Ht k n En). cbn. by destruct (Z.leb_spec t (i_time n)); [lia|].
  - rewrite bool_decide_false by done. by destruct (nstates !! k), (cache !! k).
Qed.

(** ** Witnesses *)

Definition example_entry (t : Z) (ds : list string) : Item := mkItem t None (Some ds) (Some "state"%string).

(** A chapter, a chapter inside it and an exercise that was invalidated at 9. *)
Definition example_cache : Cache :=
  list_to_map [("outer"%string, example_entry 6 ["inner"%string]);
               ("inner"%string, example_entry 6 ["exercise"%string]);
               ("exercise"%string, invalidation 9)].

Lemma fetch_sound_witness :
  exists used fetched,
    fetch elements 10 example_cache (fetch_fuel example_cache ["outer"%string]) ["outer"%string] (∅, ∅)
      = Some (used, fetched) /\ fetched !! "outer"%string = Some None.
Proof.
  destruct (fetch_sound elements 10 example_cache (fun X => Permutation_refl _) ["outer"%string])
    as (used & fetched & E & _).
  exists used, fetched. split; [exact E|].
  apply (f_equal (fmap (fun x => snd x !! "outer"%string))) in E. vm_compute in E.
  injection E as E. symmetry. exact E.
Defined.

Lemma late_save_keeps_invalidation_witness :
  read 10 (fst (save [] {[ "a"%string := example_entry 6 [] ]}
                  (invalidate_many [] 9 ["a"%string] (∅, init)))) "a"%string = None.
Proof.
  apply (late_save_keeps_invalidation 9 ["a"%string] {[ "a"%string := example_entry 6 [] ]} ∅ init 10
           "a"%string); [|by left].
  intros k n Hn. apply lookup_singleton_Some in Hn as [_ <-]. reflexivity.
Defined.

(** When an entry, its dependency and the invalidated dependency of that are read
    together, the answer depends on the iteration order of a Python set: the
    outer entry is found outdated only if the inner one is checked first. *)
Lemma nested_dependency_depends_on_order :
  (fun x => snd x !! "outer"%string) <$>
    fetch elements 10 example_cache 5 ["inner"%string; "outer"%string; "exercise"%string] (∅, ∅)
  = Some (Some None) /\
  (fun x => snd x !! "outer"%string) <$>
    fetch elements 10 example_cache 5 ["outer"%string; "inner"%string; "exercise"%string] (∅, ∅)
  = Some (Some (Some (example_entry 6 ["inner"%string]))).
Proof. split; vm_compute; reflexivity. Qed.
