(* ===== verification/Classes.v ===== *)
(** * Classes of the cache

    [CacheMeta] and [get_cache_fields] of [lib/cache/cached.py]: which classes of an
    object are cached under a key of their own, and which fields are stored there;
    with the classes of the content and of the points. *)

From S2P Require Import Prelude Transact Cached.
#[local] Open Scope string_scope.
#[local] Open Scope list_scope.
#[local] Open Scope Z_scope.

(** ** Classes *)

(** The kinds of annotations. *)
Inductive Annotation := PlainField | VariesField | NoCacheField | ClassVarField | InitVarField.
#[global] Instance Annotation_eq_dec : EqDecision Annotation.
Proof. solve_decision. Defined.

(** A Python class: its bases, its resolution order as Python computes it, its
    annotations, whether it is an instance of [CacheMeta], and the class variables
    of the cache that it defines itself. *)
Record PyClass := mkClass {
  c_name : string;
  c_bases : list string;
  c_mro : list string;
  c_annotations : list (string * Annotation);
  c_meta : bool;
  KEY_PREFIX : option string;
  NUM_PARAMS : option nat;
  INVALIDATORS : bool;
  PARENTS : option (list string);
  PROTO_BASES : list string;
  DBCLS : option string;
}.

(** What [CacheMeta] adds to a class. *)
Record CacheInfo := mkInfo {
  ci_parents : list string;
  ci_cached : list string;
  ci_varying : gset string;
}.

(** The loaded classes, the newest first: the bases of a class are after it. *)
Abbreviation Classes := (list (PyClass * option CacheInfo)).

Definition class_entry (classes : Classes) (name : string) : option (PyClass * option CacheInfo) :=
  list_find (fun x => c_name x.1 = name) classes ≫= (fun x => Some x.2).

Definition annotated (kinds : list Annotation) (c : PyClass) : gset string :=
  list_to_set (filter (fun x => x.2 ∈ kinds) (c_annotations c)).*1.

(** [tuple(sorted(fields))] *)
Definition sorted_fields (fields : gset string) : list string :=
  merge_sort (fun a b => Is_true (String.leb a b)) (elements fields).

(** src/lib/cache/cached.py: get_cache_fields lines 257-308.  The fields of a class; [of_base] are
    those of a base. *)
Definition compute_fields (c : PyClass) (parents proto_bases : list string) (of_base : string -> list string * gset string)
    : list string * gset string :=
  let nocache_fields := annotated [NoCacheField] c in
  let '(cached_fields, varying_fields) :=
    foldl (fun '(cached_fields, varying_fields) base =>
      if bool_decide (base ∈ proto_bases) then (cached_fields, varying_fields)
      else
        let '(cached, varying) := of_base base in
        let varying_fields := varying_fields ∪ varying in
        if bool_decide (base ∈ parents) then (cached_fields, varying_fields)
        else (cached_fields ∪ list_to_set cached, varying_fields))
      (annotated [PlainField; VariesField] c, annotated [VariesField] c) (c_bases c) in
  let cached_fields := cached_fields ∖ nocache_fields in
  let varying_fields := varying_fields ∖ nocache_fields in
  (sorted_fields (cached_fields ∪ varying_fields), varying_fields).

(** src/lib/cache/cached.py: get_cache_fields *)
Fixpoint get_cache_fields (classes : Classes) (name : string) : list string * gset string :=
  match classes with
  | [] => ([], ∅)
  | (c, info) :: older =>
      if bool_decide (c_name c = name) then
        match info with
        | Some info => (ci_cached info, ci_varying info)
        | None => compute_fields c [] [] (get_cache_fields older)
        end
      else get_cache_fields older name
  end.

(** [base in cached_mro]: an instance of [CacheMeta] that has a prefix itself. *)
Definition is_cached (classes : Classes) (name : string) : bool :=
  match class_entry classes name with
  | Some (c, _) => c_meta c && bool_decide (is_Some (KEY_PREFIX c))
  | None => false
  end.

(** src/lib/cache/cached.py: CacheMeta.__new__ lines 398-418.  The classes that are cached separately. *)
Definition find_parents (classes : Classes) (c : PyClass) : result (list string) :=
  match PARENTS c with
  | Some parents =>
      if forallb (is_cached classes) parents && forallb (fun base => negb (bool_decide (base ∈ PROTO_BASES c))) parents
      then Ret (parents ++ [c_name c]) else Raise ValueError
  | None =>
      let skip := c_bases c ≫= (fun base =>
        match class_entry classes base with
        | Some (b, Some info) => filter (fun base2 => base2 ∉ ci_parents info) (c_bases b)
        | _ => []
        end) in
      Ret (filter (fun base => base ∉ skip) (reverse (filter (fun b => is_cached ((c, None) :: classes) b = true) (c_mro c))))
  end.

(** src/lib/cache/cached.py: CacheMeta.__new__.  The receivers of signals are not part of the
    class. *)
Definition new_class (classes : Classes) (c : PyClass) : result Classes :=
  let has := [bool_decide (is_Some (KEY_PREFIX c)); bool_decide (is_Some (NUM_PARAMS c)); INVALIDATORS c] in
  if existsb id has && negb (forallb id has) then Raise ValueError
  else
    let! parents := find_parents classes c in
    let '(cached, varying) := compute_fields c parents (PROTO_BASES c) (get_cache_fields classes) in
    Ret ((c, Some (mkInfo parents cached varying)) :: classes).

(** A class that is not an instance of [CacheMeta]. *)
Definition plain_class (classes : Classes) (c : PyClass) : Classes := (c, None) :: classes.

(** [cls._cached_fields] *)
Definition cached_fields (classes : Classes) (name : string) : list string :=
  match class_entry classes name with Some (_, Some info) => ci_cached info | _ => [] end.

(** [cls._parents] *)
Definition parents_of (classes : Classes) (name : string) : list string :=
  match class_entry classes name with Some (_, Some info) => ci_parents info | _ => [] end.

(** [cls._all_cached_fields] *)
Definition all_cached_fields (classes : Classes) (name : string) : list string :=
  parents_of classes name ≫= cached_fields classes.

Definition prefix_of (classes : Classes) (name : string) : string :=
  match class_entry classes name with Some (c, _) => default "" (KEY_PREFIX c) | None => "" end.
Definition num_params_of (classes : Classes) (name : string) : nat :=
  match class_entry classes name with Some (c, _) => default 0%nat (NUM_PARAMS c) | None => 0%nat end.
Definition dbcls_of (classes : Classes) (name : string) : option string :=
  class_entry classes name ≫= (fun x => DBCLS x.1).

(** src/lib/cache/cached.py: CacheMeta._get_keys_with_cls *)
Definition get_keys_with_cls (classes : Classes) (name : string) (params : list string) : list (string * string) :=
  (fun p => (p, prefix_of classes p +:+ ":" +:+ get_key_postfix (take (num_params_of classes p) params))) <$> parents_of classes name.

(** ** The classes of the content and of the points *)

Definition fields_as (kind : Annotation) (names : list string) : list (string * Annotation) := (fun f => (f, kind)) <$> names.

(** src/lib/cache/cached.py: CacheBase lines 484-493 *)
Definition cls_CacheBase : PyClass :=
  mkClass "CacheBase" [] ["CacheBase"]
    (fields_as NoCacheField ["_keys_with_cls"; "_keys"; "_resolved"; "_params"; "_modifiers"; "_manager"] ++
    fields_as VariesField ["_generated_on"; "_expires_on"])
    true None None false None [] None.

(** src/exercise/cache/basetypes.py: EqById lines 34-36 *)
Definition cls_EqById : PyClass :=
  mkClass "EqById" [] ["EqById"]
    (fields_as PlainField ["id"])
    false None None false None [] None.

(** src/exercise/exercise_models.py: LearningObjectProto lines 94-102 *)
Definition cls_LearningObjectProto : PyClass :=
  mkClass "LearningObjectProto" [] ["LearningObjectProto"]
    (fields_as PlainField ["url"; "course_module"; "parent"; "status"; "order"; "category_status";
    "module_status"])
    false None None false None [] None.

(** src/course/models.py: CourseModuleProto lines 1315-1318 *)
Definition cls_CourseModuleProto : PyClass :=
  mkClass "CourseModuleProto" [] ["CourseModuleProto"]
    (fields_as PlainField ["course_instance"; "url"])
    false None None false None [] None.

(** src/course/models.py: CourseInstanceProto lines 612-615 *)
Definition cls_CourseInstanceProto : PyClass :=
  mkClass "CourseInstanceProto" [] ["CourseInstanceProto"]
    (fields_as PlainField ["url"])
    false None None false None [] None.

(** src/exercise/cache/basetypes.py: LearningObjectEntryBase lines 193-240 *)
Definition cls_LearningObjectEntryBase : PyClass :=
  mkClass "LearningObjectEntryBase" ["LearningObjectProto"; "CacheBase"; "EqById"] ["LearningObjectEntryBase"; "LearningObjectProto"; "CacheBase"; "EqById"]
    (fields_as ClassVarField ["KEY_PREFIX"; "NUM_PARAMS"; "type"] ++ fields_as PlainField ["module"; "parent";
    "category"; "category_id"; "category_status"; "confirm_the_level"; "module_id"; "module_status"; "id";
    "url"; "order"; "status"; "name"; "hierarchical_name"; "number"; "link"; "submissions_link"; "requirements";
    "opening_time"; "reading_opening_time"; "closing_time"; "late_allowed"; "late_time"; "late_percent";
    "is_empty"; "points_to_pass"; "difficulty"; "max_submissions"; "max_points"; "allow_assistant_viewing";
    "children"; "submittable"; "grading_mode"; "model_answer_modules"; "has_submittable_files"])
    true (Some "exercise") (Some 1%nat) true None ["LearningObjectProto"] (Some "ContentDBData").

(** src/exercise/cache/basetypes.py: ModuleEntryBase lines 346-381 *)
Definition cls_ModuleEntryBase : PyClass :=
  mkClass "ModuleEntryBase" ["CourseModuleProto"; "CacheBase"; "EqById"] ["ModuleEntryBase"; "CourseModuleProto"; "CacheBase"; "EqById"]
    (fields_as ClassVarField ["KEY_PREFIX"; "NUM_PARAMS"; "type"] ++ fields_as PlainField ["id"; "order";
    "status"; "url"; "name"; "number"; "introduction"; "link"; "requirements"; "opening_time";
    "reading_opening_time"; "closing_time"; "late_allowed"; "late_time"; "late_percent"; "points_to_pass";
    "exercise_count"; "max_points"; "max_points_by_difficulty"; "instance"; "children"])
    true (Some "module") (Some 1%nat) true None ["CourseModuleProto"] (Some "ContentDBData").

(** src/exercise/cache/basetypes.py: CachedDataBase lines 476-502 *)
Definition cls_CachedDataBase : PyClass :=
  mkClass "CachedDataBase" ["CourseInstanceProto"; "CacheBase"] ["CachedDataBase"; "CourseInstanceProto"; "CacheBase"]
    (fields_as ClassVarField ["KEY_PREFIX"; "NUM_PARAMS"] ++ fields_as InitVarField ["instance_id"] ++ fields_as
    PlainField ["url"; "course_url_kwargs"; "created"; "module_index"; "exercise_index"; "paths"; "modules";
    "is_on_lifesupport"; "lifesupport_start"; "categories"; "total"])
    true (Some "instance") (Some 1%nat) true None ["CourseInstanceProto"] (Some "ContentDBData").

(** src/exercise/cache/points.py: CommonPointData lines 287-297 *)
Definition cls_CommonPointData : PyClass :=
  mkClass "CommonPointData" [] ["CommonPointData"]
    (fields_as ClassVarField ["_is_container"] ++ fields_as PlainField ["submission_count"; "_true_passed";
    "_passed"; "_true_points"; "_points"; "feedback_revealed"])
    false None None false None [] None.

(** src/exercise/cache/points.py: DifficultyStats lines 309-316 *)
Definition cls_DifficultyStats : PyClass :=
  mkClass "DifficultyStats" ["CommonPointData"] ["DifficultyStats"; "CommonPointData"]
    (fields_as PlainField ["_true_points_by_difficulty"; "_points_by_difficulty";
    "_true_unconfirmed_points_by_difficulty"; "_unconfirmed_points_by_difficulty"])
    false None None false None [] None.

(** src/exercise/cache/points.py: LearningObjectPoints lines 385-407 *)
Definition cls_LearningObjectPoints : PyClass :=
  mkClass "LearningObjectPoints" ["CommonPointData"; "LearningObjectEntryBase"] ["LearningObjectPoints"; "CommonPointData"; "LearningObjectEntryBase"; "LearningObjectProto"; "CacheBase"; "EqById"]
    (fields_as ClassVarField ["_is_container"] ++ fields_as PlainField ["_true_children_unconfirmed";
    "_children_unconfirmed"; "max_points"; "confirmable_children"])
    true (Some "exercisepoints") (Some 2%nat) true None [] (Some "PointsDBData").

(** src/exercise/cache/points.py: ExercisePoints lines 567-606 *)
Definition cls_ExercisePoints : PyClass :=
  mkClass "ExercisePoints" ["LearningObjectPoints"] ["ExercisePoints"; "LearningObjectPoints"; "CommonPointData"; "LearningObjectEntryBase"; "LearningObjectProto"; "CacheBase"; "EqById"]
    (fields_as PlainField ["submissions"; "_true_best_submission"; "_best_submission"; "graded"; "unofficial";
    "unofficial_submission_type"; "forced_points"; "notified"; "unseen"; "personal_deadline";
    "personal_deadline_has_penalty"; "personal_max_submissions"; "feedback_reveal_time";
    "show_zero_points_immediately"])
    true (Some "exercisepoints") (Some 2%nat) true (Some ["LearningObjectEntryBase"]) [] (Some "PointsDBData").

(** src/exercise/cache/points.py: ModulePoints lines 863-876 *)
Definition cls_ModulePoints : PyClass :=
  mkClass "ModulePoints" ["DifficultyStats"; "ModuleEntryBase"] ["ModulePoints"; "DifficultyStats"; "CommonPointData"; "ModuleEntryBase"; "CourseModuleProto"; "CacheBase"; "EqById"]
    (fields_as PlainField ["_true_children_unconfirmed"; "_children_unconfirmed"; "is_model_answer_revealed";
    "confirmable_children"; "module_goal_points"])
    true (Some "modulepoints") (Some 2%nat) true None [] (Some "PointsDBData").

(** src/exercise/cache/points.py: CachedPointsData lines 987-994 *)
Definition cls_CachedPointsData : PyClass :=
  mkClass "CachedPointsData" ["CachedDataBase"] ["CachedPointsData"; "CachedDataBase"; "CourseInstanceProto"; "CacheBase"]
    (fields_as ClassVarField ["KEY_PREFIX"; "NUM_PARAMS"] ++ fields_as InitVarField ["user_id"] ++ fields_as
    PlainField ["points_created"; "categories"; "total"])
    true (Some "instancepoints") (Some 2%nat) true None [] None.

(** src/exercise/cache/content.py: LearningObjectContent lines 11-11 *)
Definition cls_LearningObjectContent : PyClass :=
  mkClass "LearningObjectContent" ["LearningObjectEntryBase"] ["LearningObjectContent"; "LearningObjectEntryBase"; "LearningObjectProto"; "CacheBase"; "EqById"]
    ([])
    true None None false None [] None.

Definition load_classes (cs : list PyClass) : result Classes :=
  foldl (fun acc c => let! classes := acc in if c_meta c then new_class classes c else Ret (plain_class classes c)) (Ret []) cs.

(** The classes in the order in which they are loaded. *)
Definition content_classes : list PyClass :=
  [cls_CacheBase; cls_EqById; cls_LearningObjectProto; cls_CourseModuleProto; cls_CourseInstanceProto;
   cls_LearningObjectEntryBase; cls_ModuleEntryBase; cls_CachedDataBase; cls_LearningObjectContent; cls_CommonPointData;
   cls_DifficultyStats; cls_LearningObjectPoints; cls_ExercisePoints; cls_ModulePoints; cls_CachedPointsData].
Definition loaded : Classes := match load_classes content_classes with Ret classes => classes | Raise _ => [] end.

(** Every field annotated by a class or by a base of it that is no protocol is in one of the
    entries of the class, and every entry has the times of its own. *)
Definition stores_everything (name : string) : bool :=
  match class_entry loaded name with
  | Some (c, Some info) =>
      let protos := c_mro c ≫= (fun b => match class_entry loaded b with Some (b, _) => PROTO_BASES b | None => [] end) in
      forallb (fun b =>
        bool_decide (b ∈ protos) ||
        match class_entry loaded b with
        | Some (b, _) => bool_decide (annotated [PlainField; VariesField] b ⊆ list_to_set (all_cached_fields loaded name))
        | None => false
        end) (c_mro c)
      && forallb (fun p => bool_decide ({["_generated_on"; "_expires_on"]} ⊆ (list_to_set (cached_fields loaded p) : gset string))) (ci_parents info)
  | _ => false
  end.

Lemma classes_store_everything :
  load_classes content_classes = Ret loaded /\
  forallb (fun c => negb (is_cached loaded (c_name c)) || stores_everything (c_name c)) content_classes = true /\
  parents_of loaded "ExercisePoints" = ["LearningObjectEntryBase"; "ExercisePoints"] /\
  parents_of loaded "LearningObjectContent" = ["LearningObjectEntryBase"] /\
  cached_fields loaded "CachedPointsData" = ["_expires_on"; "_generated_on"; "categories"; "points_created"; "total"].
Proof. vm_compute. repeat split. Qed.
