(* ===== verification/Proxies.v ===== *)
(** * Objects of the cache

    The rest of [lib/cache/cached.py]: the objects a manager hands out, how they
    are loaded, generated and stored ([CacheBase]), and the loop that resolves them
    ([ProxyManager]).

    What the classes of the program do to generate their data is a program of the
    type [Gen]: it asks the manager for objects, resolves them, reads attributes
    (which may resolve objects on the way) and sets attributes of its own object.
    Requests run outside of database transactions, see [Transact] for those. *)

From Stdlib Require Import Ascii.
From S2P Require Import Prelude Transact Cached Classes.
#[local] Open Scope string_scope.
#[local] Open Scope list_scope.
#[local] Open Scope Z_scope.

(** ** Objects and their manager *)

(** The id of a proxy: prefix, parameters and modifiers. *)
Definition ProxyId : Type := string * list string * list string.

(** The value of an attribute: data, a time, an object of the cache, or a list.  The
    objects are given as the pickler gives them, by class, parameters and modifiers. *)
Inductive Value :=
| VData (s : string)
| VTime (t : option Z)
| VRef (cls : string) (params modifiers : list string)
| VList (l : list Value).

(** src/lib/cache/cached.py: Pickler.persistent_id.  The objects in a value. *)
Fixpoint refs (v : Value) : list (string * list string * list string) :=
  match v with
  | VRef cls params modifiers => [(cls, params, modifiers)]
  | VList l => flat_map refs l
  | _ => []
  end.

(** An object: class, whether it is resolved, keys and attributes. *)
Record Obj := mkObj {
  ob_class : string;
  ob_resolved : bool;
  ob_keys : list (string * string);
  ob_dict : gmap string Value;
}.

(** src/lib/cache/cached.py: ProxyManager.__init__.  [pm_added] are the objects given to the managers
    of the database; [pm_cache] is the cache the manager reads and writes. *)
Record PM := mkPM {
  pm_gen_start : Z;
  pm_proxies : gmap ProxyId Obj;
  pm_fetched : Fetched;
  pm_new_keys : gset string;
  pm_nstates : Cache;
  pm_new_proxies : list ProxyId;
  pm_added : list (string * ProxyId);
  pm_cache : Cache;
}.
Definition new_manager (gen_start : Z) (cache : Cache) : PM := mkPM gen_start ∅ ∅ ∅ ∅ [] [] cache.

Definition with_obj (id : ProxyId) (f : Obj -> Obj) (pm : PM) : PM :=
  mkPM (pm_gen_start pm) (alter f id (pm_proxies pm)) (pm_fetched pm) (pm_new_keys pm) (pm_nstates pm)
    (pm_new_proxies pm) (pm_added pm) (pm_cache pm).
Definition with_nstate (key : string) (item : Item) (pm : PM) : PM :=
  mkPM (pm_gen_start pm) (pm_proxies pm) (pm_fetched pm) (pm_new_keys pm) (<[key := item]> (pm_nstates pm))
    (pm_new_proxies pm) (pm_added pm) (pm_cache pm).
Definition set_class (c : string) (o : Obj) : Obj := mkObj c (ob_resolved o) (ob_keys o) (ob_dict o).
Definition set_resolved (o : Obj) : Obj := mkObj (ob_class o) true (ob_keys o) (ob_dict o).
Definition set_attr (name : string) (v : Value) (o : Obj) : Obj :=
  mkObj (ob_class o) (ob_resolved o) (ob_keys o) (<[name := v]> (ob_dict o)).

(** What generates the data of an object: requests to the manager, and changes of the
    object itself.  [Finish] gives the dependencies. *)
Inductive Gen :=
| Finish (dependencies : list (string * list (list string)))
| Fail (e : exn)
| NewProxy (cls : string) (params modifiers : list string) (k : Gen)
| Resolve (ids : list ProxyId) (depth : Z) (k : Gen)
| IsResolved (id : ProxyId) (k : bool -> Gen)
| GetAttr (id : ProxyId) (name : string) (k : Value -> Gen)
| SetAttr (name : string) (v : Value) (k : Gen)
| SetClass (cls : string) (k : Gen).

Section Manager.
(** The classes, how Python iterates over a set, the pickler for tuples, and the methods
    of the classes: the generation of the data, the hooks, the validity of loaded data and
    the children. *)
Context (classes : Classes) (iter : gset string -> list string).
Context (dumps : list Value * string -> string) (loads : string -> result (list Value * string)).
Context (generate post_get post_build : string -> ProxyId -> Gen) (is_valid : string -> gmap string Value -> bool).
Context (get_child_proxies : string -> gmap string Value -> list ProxyId).

Definition proxy_id (cls : string) (params modifiers : list string) : ProxyId := (prefix_of classes cls, params, modifiers).

(** The objects in a value. *)
Definition ref_ids (v : Value) : list ProxyId := (fun '(cls, params, modifiers) => proxy_id cls params modifiers) <$> refs v.

(** src/lib/cache/cached.py: CacheBase.proxy *)
Definition proxy (cls : string) (params : list string) : Obj :=
  mkObj cls false (get_keys_with_cls classes cls params) ∅.

(** src/lib/cache/cached.py: ProxyManager.get_or_create_proxy *)
Definition get_or_create_proxy (cls : string) (params modifiers : list string) (pm : PM) : PM :=
  let id := proxy_id cls params modifiers in
  match pm_proxies pm !! id with
  | Some _ => pm
  | None =>
      let o := proxy cls params in
      mkPM (pm_gen_start pm) (<[id := o]> (pm_proxies pm)) (pm_fetched pm)
        (pm_new_keys pm ∪ list_to_set (filter (fun key => pm_fetched pm !! key = None) (ob_keys o).*2))
        (pm_nstates pm) (pm_new_proxies pm ++ [id]) (pm_added pm) (pm_cache pm)
  end.

(** src/lib/cache/cached.py: ProxyManager.fetch lines 127-147.  The objects for which the
    database is read: those with an entry that must be generated. *)
Definition add_to_db (pm : PM) : list (string * ProxyId) :=
  pm_new_proxies pm ≫= (fun id =>
    match pm_proxies pm !! id with
    | None => []
    | Some o =>
        ob_keys o ≫= (fun '(bcls, key) =>
          match dbcls_of classes bcls with
          | None => []
          | Some dbcls => match mjoin (pm_fetched pm !! key) with Some _ => [] | None => [(dbcls, id)] end
          end)
    end).

(** src/lib/cache/cached.py: ProxyManager.fetch *)
Definition pm_fetch (pm : PM) : PM :=
  let fetched :=
    if bool_decide (pm_new_keys pm = ∅) then pm_fetched pm
    else
      match Cached.fetch iter (pm_gen_start pm) (pm_cache pm) (fetch_fuel (pm_cache pm) (iter (pm_new_keys pm)))
              (iter (pm_new_keys pm)) (∅, pm_fetched pm) with
      | Some (_, fetched) => fetched
      | None => pm_fetched pm
      end in
  let pm := mkPM (pm_gen_start pm) (pm_proxies pm) fetched ∅ (pm_nstates pm) (pm_new_proxies pm) (pm_added pm) (pm_cache pm) in
  mkPM (pm_gen_start pm) (pm_proxies pm) (pm_fetched pm) ∅ (pm_nstates pm) [] (pm_added pm ++ add_to_db pm) (pm_cache pm).

(** src/lib/cache/cached.py: ProxyManager.save *)
Definition pm_save (pm : PM) : PM :=
  mkPM (pm_gen_start pm) (pm_proxies pm) (pm_fetched pm) (pm_new_keys pm) ∅ (pm_new_proxies pm) (pm_added pm)
    (Cached.save [] (pm_nstates pm) (pm_cache pm, init)).1.

(** src/lib/cache/cached.py: CacheBase._getstate *)
Definition getstate (o : Obj) : result (list Value * string) :=
  match mapM (fun k => ob_dict o !! k) (cached_fields classes (ob_class o)) with
  | Some values => Ret (values, ob_class o)
  | None => Raise KeyError
  end.

(** src/lib/cache/cached.py: CacheBase._setstate *)
Definition setstate (data : list Value * string) (o : Obj) : Obj :=
  let '(values, cls) := data in
  mkObj cls true (ob_keys o)
    (foldl (fun d '(name, value) => <[name := value]> d) (ob_dict o) (zip (cached_fields classes cls) values)).

(** src/lib/cache/cached.py: Unpickler.persistent_load, for the objects of a state in order. *)
Definition load_refs (values : list Value) (pm : PM) : PM :=
  foldl (fun pm '(cls, params, modifiers) => get_or_create_proxy cls params modifiers pm) pm (flat_map refs values).

Section Open.
(** [ProxyManager.resolve]; [None] when the fuel runs out. *)
Context (resolve : list ProxyId -> Z -> PM -> option (result PM)).

(** src/lib/cache/cached.py: CacheBase.__getattr__, after Python's own lookup. *)
Definition getattr (id : ProxyId) (name : string) (pm : PM) : option (result (PM * Value)) :=
  match pm_proxies pm !! id with
  | None => Some (Raise AttributeError)
  | Some o =>
      match ob_dict o !! name with
      | Some v => Some (Ret (pm, v))
      | None =>
          if negb (ob_resolved o) && bool_decide (name ∈ all_cached_fields classes (ob_class o)) then
            r ← resolve [id] 1 pm;
            match r with
            | Raise e => Some (Raise e)
            | Ret pm =>
                let pm := pm_save pm in
                match pm_proxies pm !! id ≫= (fun o => ob_dict o !! name) with
                | Some v => Some (Ret (pm, v))
                | None => Some (Raise AttributeError)
                end
            end
          else Some (Raise AttributeError)
      end
  end.

(** A program of an object runs. *)
Fixpoint run_gen (self : ProxyId) (g : Gen) (pm : PM) : option (result (PM * list (string * list (list string)))) :=
  match g with
  | Finish deps => Some (Ret (pm, deps))
  | Fail e => Some (Raise e)
  | NewProxy cls params modifiers k => run_gen self k (get_or_create_proxy cls params modifiers pm)
  | Resolve ids depth k =>
      r ← resolve ids depth pm;
      match r with Ret pm => run_gen self k pm | Raise e => Some (Raise e) end
  | IsResolved id k => run_gen self (k (match pm_proxies pm !! id with Some o => ob_resolved o | None => false end)) pm
  | GetAttr id name k =>
      r ← getattr id name pm;
      match r with Ret (pm, v) => run_gen self (k v) pm | Raise e => Some (Raise e) end
  | SetAttr name v k => run_gen self k (with_obj self (set_attr name v) pm)
  | SetClass cls k => run_gen self k (with_obj self (set_class cls) pm)
  end.

(** The class of an object. *)
Definition class_of (id : ProxyId) (pm : PM) : string := match pm_proxies pm !! id with Some o => ob_class o | None => "" end.
Definition dict_of (id : ProxyId) (pm : PM) : gmap string Value := match pm_proxies pm !! id with Some o => ob_dict o | None => ∅ end.

(** src/lib/cache/cached.py: CacheBase._get_data *)
Definition get_data (id : ProxyId) (pm : PM) : option (result (PM * list (string * list (list string)))) :=
  let pm := with_obj id (set_attr "_expires_on" (VTime None)) pm in
  r ← run_gen id (generate (class_of id pm) id) pm;
  match r with
  | Raise e => Some (Raise e)
  | Ret (pm, dependencies) =>
      match dict_of id pm !! "_generated_on" with
      | None => Some (Ret (with_obj id (set_attr "_generated_on" (VTime (Some (pm_gen_start pm)))) pm, dependencies))
      | Some (VTime (Some t)) =>
          Some (Ret (with_obj id (set_attr "_generated_on" (VTime (Some (Z.max (pm_gen_start pm) t)))) pm, dependencies))
      | Some _ => Some (Raise TypeError)
      end
  end.

(** src/lib/cache/cached.py: CacheBase._build lines 631-641.  The object is generated and its state is
    noted for the cache. *)
Definition generate_entry (id : ProxyId) (key : string) (pm : PM) : option (result PM) :=
  r ← get_data id pm;
  match r with
  | Raise e => Some (Raise e)
  | Ret (pm, dependencies) =>
      match pm_proxies pm !! id with
      | None => Some (Raise KeyError)
      | Some o =>
          let deps := dependencies ≫= (fun '(dcls, paramss) =>
            (fun params => prefix_of classes dcls +:+ ":" +:+ get_key_postfix params) <$> paramss) in
          match getstate o, ob_dict o !! "_generated_on", ob_dict o !! "_expires_on" with
          | Ret state, Some (VTime (Some t)), Some (VTime e) => Some (Ret (with_nstate key (mkItem t e (Some deps) (Some (dumps state))) pm))
          | Raise e, _, _ => Some (Raise e)
          | _, _, _ => Some (Raise TypeError)
          end
      end
  end.

(** src/lib/cache/cached.py: CacheBase._build lines 616-629.  The state of an entry is loaded; the
    answer tells whether it was. *)
Definition load_entry (id : ProxyId) (key : string) (pm : PM) : option (result (PM * bool)) :=
  match mjoin (pm_fetched pm !! key) ≫= i_state with
  | None => Some (Ret (pm, false))
  | Some state =>
      match loads state with
      | Raise TypeError => Some (Ret (pm, false))
      | Raise e => Some (Raise e)
      | Ret data =>
          let pm := with_obj id (setstate data) (load_refs data.1 pm) in
          r ← run_gen id (post_get (class_of id pm) id) pm;
          match r with
          | Raise e => Some (Raise e)
          | Ret (pm, _) => Some (Ret (pm, true))
          end
      end
  end.

(** src/lib/cache/cached.py: CacheBase._build lines 609-641.  One class of the object. *)
Definition build_class (id : ProxyId) (base_cls key : string) (pm : PM) : option (result PM) :=
  let pm := with_obj id (set_class base_cls) pm in
  r ← load_entry id key pm;
  match r with
  | Raise e => Some (Raise e)
  | Ret (pm, loaded) =>
      if negb loaded || negb (is_valid (class_of id pm) (dict_of id pm)) then generate_entry id key pm else Some (Ret pm)
  end.

Fixpoint build_classes (id : ProxyId) (keys : list (string * string)) (pm : PM) : option (result PM) :=
  match keys with
  | [] => Some (Ret pm)
  | (base_cls, key) :: keys =>
      r ← build_class id base_cls key pm;
      match r with Ret pm => build_classes id keys pm | Raise e => Some (Raise e) end
  end.

(** src/lib/cache/cached.py: CacheBase._build *)
Definition build (id : ProxyId) (pm : PM) : option (result PM) :=
  match pm_proxies pm !! id with
  | None => Some (Raise KeyError)
  | Some o =>
      let pm := with_obj id set_resolved pm in
      r ← build_classes id (ob_keys o) pm;
      match r with
      | Raise e => Some (Raise e)
      | Ret pm =>
          let pm :=
            match last (ob_keys o) with
            | Some (base_cls, _) => if bool_decide (class_of id pm = base_cls) then with_obj id (set_class (ob_class o)) pm else pm
            | None => pm
            end in
          r ← run_gen id (post_build (class_of id pm) id) pm;
          match r with
          | Raise e => Some (Raise e)
          | Ret (pm, _) => Some (Ret pm)
          end
      end
  end.

Definition is_resolved (pm : PM) (id : ProxyId) : bool := match pm_proxies pm !! id with Some o => ob_resolved o | None => false end.

(** src/lib/cache/cached.py: ProxyManager.resolve lines 165-166.  The objects that are not resolved when
    their turn comes are built. *)
Fixpoint build_all (proxies : list ProxyId) (pm : PM) : option (result PM) :=
  match proxies with
  | [] => Some (Ret pm)
  | id :: rest =>
      if is_resolved pm id then build_all rest pm
      else
        r ← build id pm;
        match r with Ret pm => build_all rest pm | Raise e => Some (Raise e) end
  end.
End Open.

(** src/lib/cache/cached.py: ProxyManager.resolve *)
Fixpoint resolve (fuel : nat) (proxies : list ProxyId) (depth : Z) (pm : PM) : option (result PM) :=
  match proxies with
  | [] => Some (Ret pm)
  | _ =>
      match fuel with
      | O => None
      | S fuel =>
          r ← build_all (resolve fuel) proxies (pm_fetch pm);
          match r with
          | Raise e => Some (Raise e)
          | Ret pm =>
              if depth - 1 =? 0 then Some (Ret pm)
              else
                resolve fuel
                  (filter (fun child => is_resolved pm child = false)
                     (proxies ≫= (fun id => get_child_proxies (class_of id pm) (dict_of id pm)))) (depth - 1) pm
          end
      end
  end.

(** src/lib/cache/cached.py: CacheBase._get.  The object with the id, and the cache after the request. *)
Definition get_object (fuel : nat) (gen_start : Z) (cls : string) (params modifiers : list string) (prefetch_children : bool)
    (cache : Cache) : option (result PM) :=
  let id := proxy_id cls params modifiers in
  let pm := get_or_create_proxy cls params modifiers (new_manager gen_start cache) in
  r ← resolve fuel [id] 1 pm;
  match r with
  | Raise e => Some (Raise e)
  | Ret pm =>
      r ← (if prefetch_children then resolve fuel (get_child_proxies (class_of id pm) (dict_of id pm)) 1 pm else Some (Ret pm));
      match r with
      | Raise e => Some (Raise e)
      | Ret pm => Some (Ret (pm_save pm))
      end
  end.
End Manager.

(** ** Resolving ends *)

Section Ends.
Context (classes : Classes) (iter : gset string -> list string).
Context (dumps : list Value * string -> string) (loads : string -> result (list Value * string)).
Context (generate post_get post_build : string -> ProxyId -> Gen) (is_valid : string -> gmap string Value -> bool).
Context (get_child_proxies : string -> gmap string Value -> list ProxyId).
(** A finite set of objects that the programs of the classes stay in. *)
Context (U : gset ProxyId).

#[local] Abbreviation ref_ids := (ref_ids classes).
#[local] Abbreviation proxy_id := (proxy_id classes).
#[local] Abbreviation getattr := (getattr classes).
#[local] Abbreviation run_gen := (run_gen classes).
#[local] Abbreviation build := (build classes dumps loads generate post_get post_build is_valid).
#[local] Abbreviation build_all := (build_all classes dumps loads generate post_get post_build is_valid).
#[local] Abbreviation resolve := (resolve classes iter dumps loads generate post_get post_build is_valid get_child_proxies).

(** A program uses only the objects it was given, and asks for objects of [U]. *)
Fixpoint gen_ok (known : gset ProxyId) (g : Gen) : Prop :=
  match g with
  | Finish _ | Fail _ => True
  | NewProxy cls params modifiers k => proxy_id cls params modifiers ∈ U /\ gen_ok ({[proxy_id cls params modifiers]} ∪ known) k
  | Resolve ids _ k => (forall id, id ∈ ids -> id ∈ known) /\ gen_ok known k
  | IsResolved _ k => forall b, gen_ok known (k b)
  | GetAttr id _ k => id ∈ known /\ forall v, gen_ok (list_to_set (ref_ids v) ∪ known) (k v)
  | SetAttr _ v k => (forall id, id ∈ ref_ids v -> id ∈ known) /\ gen_ok known k
  | SetClass _ k => gen_ok known k
  end.

(** Python's iteration over a set, the pickler, the programs and the children. *)
Hypothesis iter_elements : forall X, iter X ≡ₚ elements X.
Hypothesis loads_dumps : forall d, loads (dumps d) = Ret d.
Hypothesis generate_ok : forall cls id known, id ∈ known -> gen_ok known (generate cls id).
Hypothesis post_get_ok : forall cls id known, id ∈ known -> gen_ok known (post_get cls id).
Hypothesis post_build_ok : forall cls id known, id ∈ known -> gen_ok known (post_build cls id).
Hypothesis children_ok : forall cls d id, id ∈ get_child_proxies cls d -> exists name v, d !! name = Some v /\ id ∈ ref_ids v.

(** A stored state refers to objects of [U]. *)
Definition state_ok (it : Item) : Prop :=
  forall st data v id, i_state it = Some st -> loads st = Ret data -> v ∈ data.1 -> id ∈ ref_ids v -> id ∈ U.
Definition states_ok (m : Cache) : Prop := forall k it, m !! k = Some it -> state_ok it.

(** The state of a manager that reads [cache0] first. *)
Record pm_ok (cache0 : Cache) (pm : PM) : Prop := {
  ok_dom : forall id, id ∈ dom (pm_proxies pm) -> id ∈ U;
  ok_refs : forall id o name v r, pm_proxies pm !! id = Some o -> ob_dict o !! name = Some v -> r ∈ ref_ids v -> r ∈ dom (pm_proxies pm);
  ok_fetched : forall k it, pm_fetched pm !! k = Some (Some it) -> state_ok it;
  ok_nstates : states_ok (pm_nstates pm);
  ok_cache : states_ok (pm_cache pm);
  ok_times : forall k it, pm_nstates pm !! k = Some it -> pm_gen_start pm <= i_time it;
  ok_saved : forall k it, pm_cache pm !! k = Some it -> cache0 !! k = Some it \/ pm_gen_start pm <= i_time it;
}.

(** What a step of a manager keeps. *)
Record pm_ext (pm pm' : PM) : Prop := {
  ext_dom : forall id, id ∈ dom (pm_proxies pm) -> id ∈ dom (pm_proxies pm');
  ext_resolved : forall id, is_resolved pm id = true -> is_resolved pm' id = true;
  ext_start : pm_gen_start pm' = pm_gen_start pm;
}.

#[global] Instance pm_ext_preorder : PreOrder pm_ext.
Proof.
  split.
  - intros pm. by split.
  - intros a b c [H1 H2 H3] [G1 G2 G3]. split; [naive_solver|naive_solver|congruence].
Qed.

Definition unresolved (pm : PM) : gset ProxyId := filter (fun id => is_resolved pm id = false) U.

Lemma unresolved_ext pm pm' : pm_ext pm pm' -> (size (unresolved pm') <= size (unresolved pm))%nat.
Proof.
  intros E. apply subseteq_size. intros id. unfold unresolved. rewrite !elem_of_filter. intros [Hr HU]. split; [|done].
  destruct (is_resolved pm id) eqn:E1; [|done]. by rewrite (ext_resolved _ _ E _ E1) in Hr.
Qed.

Lemma unresolved_less pm pm' id :
  pm_ext pm pm' -> id ∈ U -> is_resolved pm id = false -> is_resolved pm' id = true ->
  (size (unresolved pm') < size (unresolved pm))%nat.
Proof.
  intros E HU Hr Hr'. apply subset_size. split.
  - intros i. unfold unresolved. rewrite !elem_of_filter. intros [Hi ?]. split; [|done].
    destruct (is_resolved pm i) eqn:E1; [|done]. by rewrite (ext_resolved _ _ E _ E1) in Hi.
  - intros Hsub. assert (Hin : id ∈ unresolved pm) by (by apply elem_of_filter).
    apply Hsub, elem_of_filter in Hin as [Hc _]. congruence.
Qed.

(** Changes of one object. *)
Lemma with_obj_ok cache0 id f pm :
  pm_ok cache0 pm ->
  (forall o, pm_proxies pm !! id = Some o -> ob_resolved o = true -> ob_resolved (f o) = true) ->
  (forall o name v r, pm_proxies pm !! id = Some o -> ob_dict (f o) !! name = Some v -> r ∈ ref_ids v -> r ∈ dom (pm_proxies pm)) ->
  pm_ok cache0 (with_obj id f pm) /\ pm_ext pm (with_obj id f pm).
Proof.
  intros H Hres Href. unfold with_obj. split.
  - split; cbn [pm_proxies pm_fetched pm_nstates pm_cache pm_gen_start]; try apply H.
    + intros i. rewrite dom_alter_L. apply H.
    + intros i o name v r. rewrite dom_alter_L. intros Hi. apply lookup_alter_Some in Hi as [(-> & o' & Ho' & ->)|[Hne Hi]].
      * by apply Href.
      * by eapply ok_refs.
  - split; cbn [pm_proxies pm_gen_start]; [|unfold is_resolved; cbn [pm_proxies]|done].
    + intros i. by rewrite dom_alter_L.
    + intros i. destruct (decide (id = i)) as [->|Hne].
      * rewrite lookup_alter_eq. destruct (pm_proxies pm !! i) as [o|] eqn:E; [|done]. cbn. by apply Hres.
      * by rewrite lookup_alter_ne.
Qed.

Lemma set_attr_ok cache0 id name v pm :
  pm_ok cache0 pm -> (forall r, r ∈ ref_ids v -> r ∈ dom (pm_proxies pm)) ->
  pm_ok cache0 (with_obj id (set_attr name v) pm) /\ pm_ext pm (with_obj id (set_attr name v) pm).
Proof.
  intros H Hv. apply with_obj_ok; [done|done|]. intros o n w r Ho. cbn [set_attr ob_dict].
  intros Hn%lookup_insert_Some Hr. destruct Hn as [[-> ->]|[_ Hn]]; [by apply Hv|by eapply ok_refs].
Qed.

Lemma set_class_ok cache0 id c pm :
  pm_ok cache0 pm -> pm_ok cache0 (with_obj id (set_class c) pm) /\ pm_ext pm (with_obj id (set_class c) pm).
Proof. intros H. apply with_obj_ok; [done|done|]. intros o n w r Ho Hn. by eapply ok_refs. Qed.

Lemma set_resolved_ok cache0 id pm :
  pm_ok cache0 pm -> pm_ok cache0 (with_obj id set_resolved pm) /\ pm_ext pm (with_obj id set_resolved pm).
Proof. intros H. apply with_obj_ok; [done|done|]. intros o n w r Ho Hn. by eapply ok_refs. Qed.

(** A new object. *)
Lemma get_or_create_ok cache0 cls params modifiers pm :
  pm_ok cache0 pm -> proxy_id cls params modifiers ∈ U ->
  let pm' := get_or_create_proxy classes cls params modifiers pm in
  pm_ok cache0 pm' /\ pm_ext pm pm' /\ proxy_id cls params modifiers ∈ dom (pm_proxies pm').
Proof.
  intros H HU. cbn zeta. unfold get_or_create_proxy. set (id := proxy_id cls params modifiers) in *.
  change (Proxies.proxy_id classes cls params modifiers) with id.
  destruct (pm_proxies pm !! id) as [o|] eqn:E; [repeat split; try done; try apply H; by apply elem_of_dom_2 in E|].
  split; [split; cbn [pm_proxies pm_fetched pm_nstates pm_cache pm_gen_start]; try apply H|split; [split|]].
  - intros i. rewrite dom_insert_L. intros [->%elem_of_singleton|Hi]%elem_of_union; [done|by eapply ok_dom].
  - intros i o name v r Hi Hn Hr. rewrite dom_insert_L. apply lookup_insert_Some in Hi as [[<- <-]|[_ Hi]].
    + cbn in Hn. by rewrite lookup_empty in Hn.
    + apply elem_of_union_r. by eapply ok_refs.
  - intros i Hi. cbn. rewrite dom_insert_L. by apply elem_of_union_r.
  - intros i. unfold is_resolved. cbn. destruct (decide (id = i)) as [->|Hne]; [by rewrite E|by rewrite lookup_insert_ne].
  - done.
  - cbn. rewrite dom_insert_L. by apply elem_of_union_l, elem_of_singleton.
Qed.

Lemma load_refs_ok cache0 values pm :
  pm_ok cache0 pm -> (forall v id, v ∈ values -> id ∈ ref_ids v -> id ∈ U) ->
  let pm' := load_refs classes values pm in
  pm_ok cache0 pm' /\ pm_ext pm pm' /\ (forall v id, v ∈ values -> id ∈ ref_ids v -> id ∈ dom (pm_proxies pm')).
Proof.
  intros H HU. cbn zeta. unfold load_refs.
  assert (Hl : forall cls params modifiers, (cls, params, modifiers) ∈ flat_map refs values -> proxy_id cls params modifiers ∈ U).
  { intros cls params modifiers. rewrite list_elem_of_In, in_flat_map. intros (v & Hv & Hr). apply (HU v); [by apply list_elem_of_In|].
    apply list_elem_of_fmap. exists (cls, params, modifiers). split; [done|]. by apply list_elem_of_In. }
  assert (Hgen : forall l pm, pm_ok cache0 pm -> (forall cls params modifiers, (cls, params, modifiers) ∈ l -> proxy_id cls params modifiers ∈ U) ->
    let pm' := foldl (fun pm '(cls, params, modifiers) => get_or_create_proxy classes cls params modifiers pm) pm l in
    pm_ok cache0 pm' /\ pm_ext pm pm' /\ forall cls params modifiers, (cls, params, modifiers) ∈ l -> proxy_id cls params modifiers ∈ dom (pm_proxies pm')).
  { clear. induction l as [|[[cls params] modifiers] l IH]; intros pm H Hl; cbn zeta; cbn [foldl].
    { split; [done|]. split; [done|]. intros ? ? ? Hin. by apply elem_of_nil in Hin. }
    destruct (get_or_create_ok cache0 cls params modifiers pm H) as (H1 & E1 & D1); [apply Hl; by left|].
    destruct (IH _ H1) as (H2 & E2 & D2); [intros; apply Hl; by right|]. split; [done|]. split; [by etrans|].
    intros c p m [Heq|Hin]%elem_of_cons; [simplify_eq; by apply (ext_dom _ _ E2)|by apply D2]. }
  destruct (Hgen _ _ H Hl) as (H1 & E1 & D1). split; [done|]. split; [done|].
  intros v id Hv Hid. apply list_elem_of_fmap in Hid as ([[cls params] modifiers] & -> & Hr). apply D1.
  rewrite list_elem_of_In, in_flat_map. exists v. by rewrite <- !list_elem_of_In.
Qed.

(** What a fetch reads is stored. *)
Lemma fetch_from_cache gen_start cache fuel keys used fetched used' fetched' k it :
  Cached.fetch iter gen_start cache fuel keys (used, fetched) = Some (used', fetched') ->
  fetched' !! k = Some (Some it) -> fetched !! k = Some (Some it) \/ cache !! k = Some it.
Proof.
  revert keys used fetched used' fetched'. induction fuel as [|fuel IH]; intros keys used fetched used' fetched'; [done|].
  cbn [Cached.fetch]. destruct (if bool_decide _ then _ else _) as [[u f]|] eqn:E; [|done]. cbn. intros [= <- <-] Hk.
  assert (Hf : f !! k = Some (Some it) -> fetched !! k = Some (Some it) \/ cache !! k = Some it).
  { case_bool_decide; [simplify_eq; by left|]. by eapply IH. }
  apply lookup_union_Some_raw in Hk as [Hk|[_ Hk]]; [|by apply Hf]. right.
  assert (Hlv : forall ks items, foldl (check_entry f) items ks !! k = Some (Some it) -> items !! k = Some (Some it)).
  { clear. induction ks as [|k' ks IH]; intros items H; [done|]. apply IH in H. unfold check_entry in H.
    destruct (items !! k') as [[x|]|]; try done. destruct (existsb _ _); [|done].
    by apply lookup_insert_Some in H as [[_ ?]|[_ ?]]. }
  apply Hlv in Hk. rewrite level_items_lookup in Hk. case_bool_decide; [|done]. injection Hk as Hk.
  unfold read, usable in Hk. destruct (cache !! k) as [x|]; [|done]. repeat break_hyp Hk; congruence.
Qed.

Lemma pm_fetch_ok cache0 pm : pm_ok cache0 pm -> pm_ok cache0 (pm_fetch classes iter pm) /\ pm_ext pm (pm_fetch classes iter pm).
Proof.
  intros H. split; [|by split]. split; try apply H. unfold pm_fetch. cbn [pm_fetched]. intros k it.
  case_bool_decide; [apply H|]. destruct (Cached.fetch _ _ _ _ _ _) as [[u f]|] eqn:E; [|apply H]. intros Hk.
  destruct (fetch_from_cache _ _ _ _ _ _ _ _ _ _ E Hk) as [Hk'|Hk']; [by eapply ok_fetched|by eapply ok_cache].
Qed.

(** Every entry the manager asks for is read. *)
Lemma pm_fetch_reads pm :
  pm_new_keys pm <> ∅ ->
  is_Some (Cached.fetch iter (pm_gen_start pm) (pm_cache pm) (fetch_fuel (pm_cache pm) (iter (pm_new_keys pm)))
             (iter (pm_new_keys pm)) (∅, pm_fetched pm)).
Proof using iter_elements.
  intros _. apply (fetch_ends iter _ _ iter_elements (iter (pm_new_keys pm))). unfold fetch_fuel.
  apply Nat.lt_succ_r, subseteq_size. intros k [Hk _]%elem_of_difference. exact Hk.
Qed.

Lemma pm_save_ok cache0 pm : pm_ok cache0 pm -> pm_ok cache0 (pm_save pm) /\ pm_ext pm (pm_save pm).
Proof.
  intros H. split; [|by split]. split; unfold pm_save; cbn [pm_proxies pm_fetched pm_nstates pm_cache pm_gen_start]; try apply H.
  - intros k it Hk. by rewrite lookup_empty in Hk.
  - intros k it. change ((save ?a ?b ?c).1) with (fst (save a b c)). rewrite save_lookup. intros Hk.
    destruct (pm_nstates pm !! k) as [n|] eqn:En; [|exact (ok_cache _ _ H k _ Hk)].
    destruct (pm_cache pm !! k) as [s'|] eqn:Es; [destruct (_ <=? _)|]; simplify_eq; first [exact (ok_nstates _ _ H k _ En)|exact (ok_cache _ _ H k _ Es)].
  - intros k it Hk. by rewrite lookup_empty in Hk.
  - intros k it. change ((save ?a ?b ?c).1) with (fst (save a b c)). rewrite save_lookup. intros Hk.
    destruct (pm_nstates pm !! k) as [n|] eqn:En; [|exact (ok_saved _ _ H k _ Hk)].
    destruct (pm_cache pm !! k) as [s'|] eqn:Es; [destruct (_ <=? _)|]; simplify_eq; first [exact (ok_saved _ _ H k _ Es)|right; exact (ok_times _ _ H k _ En)].
Qed.

(** A step of the manager with a result that keeps the state in order. *)
Definition step_ok {A} (cache0 : Cache) (pm : PM) (st : A -> PM) (good : A -> Prop) (r : option (result A)) : Prop :=
  exists res, r = Some res /\ match res with Ret a => pm_ok cache0 (st a) /\ pm_ext pm (st a) /\ good a | Raise _ => True end.

Lemma step_ok_after {A} cache0 pm pm1 (st : A -> PM) good r :
  pm_ext pm pm1 -> step_ok cache0 pm1 st good r -> step_ok cache0 pm st good r.
Proof. intros E ([a|e] & -> & H); eexists; (split; [done|]); [|done]. destruct H as (? & ? & ?). split; [done|]. split; [by etrans|done]. Qed.

(** A resolution that works as long as at most [m] objects are left. *)
Definition resolves (cache0 : Cache) (m : nat) (R : list ProxyId -> Z -> PM -> option (result PM)) : Prop :=
  forall ids depth pm, pm_ok cache0 pm -> (forall id, id ∈ ids -> id ∈ dom (pm_proxies pm)) -> (size (unresolved pm) <= m)%nat ->
    step_ok cache0 pm id (fun pm' => forall id, id ∈ ids -> is_resolved pm' id = true) (R ids depth pm).

Section Step.
Context (cache0 : Cache) (m : nat) (R : list ProxyId -> Z -> PM -> option (result PM)) (R_ok : resolves cache0 m R).

Lemma getattr_ok id name pm :
  pm_ok cache0 pm -> id ∈ dom (pm_proxies pm) -> (size (unresolved pm) <= m)%nat ->
  step_ok cache0 pm fst (fun x => forall r, r ∈ ref_ids x.2 -> r ∈ dom (pm_proxies x.1)) (getattr R id name pm).
Proof.
  intros H Hid Hm. unfold getattr. apply elem_of_dom in Hid as [o Ho]. rewrite Ho.
  destruct (ob_dict o !! name) as [v|] eqn:Ev.
  { eexists. split; [done|]. cbn. split; [done|]. split; [done|]. intros r Hr. by eapply ok_refs. }
  destruct (negb (ob_resolved o) && _); [|by eexists].
  destruct (R_ok [id] 1 pm H) as ([pm'|e] & -> & HR); [intros i ->%list_elem_of_singleton; by apply elem_of_dom_2 in Ho|done| |by eexists].
  cbn. destruct HR as (H' & E' & _). destruct (pm_save_ok cache0 pm' H') as [H2 E2].
  destruct (pm_proxies pm' !! id) as [o'|] eqn:Eo; cbn; [|by eexists].
  destruct (ob_dict o' !! name) as [v|] eqn:Ev'; [|by eexists]. eexists. split; [done|]. cbn. split; [done|]. split; [by etrans|].
  intros r Hr. exact (ok_refs _ _ H' _ _ _ _ _ Eo Ev' Hr).
Qed.

Lemma run_gen_ok self g known pm :
  gen_ok known g -> pm_ok cache0 pm -> (forall id, id ∈ known -> id ∈ dom (pm_proxies pm)) -> (size (unresolved pm) <= m)%nat ->
  step_ok cache0 pm fst (fun _ => True) (run_gen R self g pm).
Proof.
  revert known pm. induction g as [deps|e|cls params modifiers k IH|ids depth k IH|id k IH|id name k IH|name v k IH|cls k IH];
    intros known pm Hg H Hk Hm; cbn [run_gen gen_ok] in *.
  - eexists. split; [done|]. by cbn.
  - by eexists.
  - destruct Hg as [HU Hg]. destruct (get_or_create_ok cache0 cls params modifiers pm H HU) as (H1 & E1 & D1).
    apply (step_ok_after _ _ _ _ _ _ E1), (IH _ _ Hg H1); [|pose proof (unresolved_ext _ _ E1); lia].
    intros id [->%elem_of_singleton|Hid]%elem_of_union; [done|by apply (ext_dom _ _ E1), Hk].
  - destruct Hg as [Hids Hg]. destruct (R_ok ids depth pm H) as ([pm'|e] & -> & HR); [naive_solver|done| |by eexists].
    cbn. destruct HR as (H1 & E1 & _). cbn in H1, E1. apply (step_ok_after _ _ _ _ _ _ E1), (IH _ _ Hg H1); [|pose proof (unresolved_ext _ _ E1); lia].
    intros i Hi. by apply (ext_dom _ _ E1), Hk.
  - apply (IH _ known); [apply Hg|done|done|done].
  - destruct Hg as [Hid Hg]. destruct (getattr_ok id name pm H) as ([[pm1 v]|e] & -> & HR); [by apply Hk|done| |by eexists].
    cbn. destruct HR as (H1 & E1 & Hv). cbn in H1, E1, Hv.
    apply (step_ok_after _ _ _ _ _ _ E1), (IH v _ _ (Hg v) H1); [|pose proof (unresolved_ext _ _ E1); lia].
    intros i [Hi%elem_of_list_to_set|Hi]%elem_of_union; [by apply Hv|by apply (ext_dom _ _ E1), Hk].
  - destruct Hg as [Hv Hg]. destruct (set_attr_ok cache0 self name v pm H) as [H1 E1]; [naive_solver|].
    apply (step_ok_after _ _ _ _ _ _ E1), (IH _ _ Hg H1); [|pose proof (unresolved_ext _ _ E1); lia].
    intros i Hi. by apply (ext_dom _ _ E1), Hk.
  - destruct (set_class_ok cache0 self cls pm H) as [H1 E1].
    apply (step_ok_after _ _ _ _ _ _ E1), (IH _ _ Hg H1); [|pose proof (unresolved_ext _ _ E1); lia].
    intros i Hi. by apply (ext_dom _ _ E1), Hk.
Qed.

Lemma get_data_ok id pm :
  pm_ok cache0 pm -> id ∈ dom (pm_proxies pm) -> (size (unresolved pm) <= m)%nat ->
  step_ok cache0 pm fst (fun x => forall o, pm_proxies x.1 !! id = Some o ->
      exists t, ob_dict o !! "_generated_on" = Some (VTime (Some t)) /\ pm_gen_start x.1 <= t)
    (get_data classes generate R id pm).
Proof.
  intros H Hid Hm. unfold get_data. destruct (set_attr_ok cache0 id "_expires_on" (VTime None) pm H) as [H1 E1]; [intros r Hr; by apply elem_of_nil in Hr|].
  set (pm1 := with_obj _ _ pm) in *. apply (step_ok_after _ _ _ _ _ _ E1).
  destruct (run_gen_ok id (generate (class_of id pm1) id) {[id]} pm1) as ([[pm2 deps]|e] & -> & H2); [| | | | |by eexists].
  - apply generate_ok. by apply elem_of_singleton.
  - done.
  - intros i ->%elem_of_singleton. by apply (ext_dom _ _ E1).
  - pose proof (unresolved_ext _ _ E1). lia.
  - cbn. destruct H2 as (H2 & E2 & _). cbn in H2, E2.
    assert (Hset : forall t, pm_gen_start pm2 <= t ->
      step_ok cache0 pm1 fst (fun x => forall o, pm_proxies x.1 !! id = Some o ->
        exists t, ob_dict o !! "_generated_on" = Some (VTime (Some t)) /\ pm_gen_start x.1 <= t)
        (Some (Ret (with_obj id (set_attr "_generated_on" (VTime (Some t))) pm2, deps)))).
    { intros t Ht. destruct (set_attr_ok cache0 id "_generated_on" (VTime (Some t)) pm2 H2) as [H3 E3]; [intros r Hr; by apply elem_of_nil in Hr|].
      eexists. split; [done|]. cbn. split; [done|]. split; [by etrans|]. intros o Ho.
      apply lookup_alter_Some in Ho as [(_ & o' & _ & ->)|[Hne _]]; [|done]. exists t. cbn. by rewrite lookup_insert_eq. }
    destruct (dict_of id pm2 !! "_generated_on") as [[| [t|] | |]|]; try (by eexists); apply Hset; lia.
Qed.

Lemma getstate_ok pm id o data :
  pm_ok cache0 pm -> pm_proxies pm !! id = Some o -> getstate classes o = Ret data ->
  forall v r, v ∈ data.1 -> r ∈ ref_ids v -> r ∈ U.
Proof.
  intros H Ho Hs v r Hv Hr. unfold getstate in Hs. destruct (mapM _ _) as [values|] eqn:E; [|done]. injection Hs as <-. cbn in Hv.
  apply mapM_Some_1 in E. apply list_elem_of_lookup in Hv as [i Hi]. destruct (Forall2_lookup_r _ _ _ _ _ E Hi) as (k & _ & Hk).
  apply (ok_dom _ _ H). exact (ok_refs _ _ H _ _ _ _ _ Ho Hk Hr).
Qed.

Lemma generate_entry_ok id key pm :
  pm_ok cache0 pm -> id ∈ dom (pm_proxies pm) -> (size (unresolved pm) <= m)%nat ->
  step_ok cache0 pm (fun pm => pm) (fun _ => True) (generate_entry classes dumps generate R id key pm).
Proof.
  intros H Hid Hm. unfold generate_entry. destruct (get_data_ok id pm H Hid Hm) as ([[pm1 deps]|e] & -> & H1); [|by eexists]. cbn.
  destruct H1 as (H1 & E1 & Ht). cbn in H1, E1, Ht. destruct (pm_proxies pm1 !! id) as [o|] eqn:Eo; [|by eexists].
  destruct (Ht o eq_refl) as (t & -> & Hge). destruct (getstate classes o) as [state|e] eqn:Es; [|by eexists].
  destruct (ob_dict o !! "_expires_on") as [[|e| |]|]; try (by eexists). eexists. split; [done|]. split; [|by split; [split; apply E1|]].
  split; cbn [with_nstate pm_proxies pm_fetched pm_nstates pm_cache pm_gen_start]; try apply H1.
  - intros k it [[<- <-]|[_ Hk]]%lookup_insert_Some; [|exact (ok_nstates _ _ H1 _ _ Hk)].
    intros st data v r [= <-]. rewrite loads_dumps. intros [= <-]. by eapply getstate_ok.
  - intros k it [[<- <-]|[_ Hk]]%lookup_insert_Some; [done|exact (ok_times _ _ H1 _ _ Hk)].
Qed.

Lemma setstate_dict data o name v :
  ob_dict (setstate classes data o) !! name = Some v -> ob_dict o !! name = Some v \/ v ∈ data.1.
Proof.
  destruct data as [values cls]. cbn. revert values. generalize (ob_dict o). induction (cached_fields classes cls) as [|f fs IH]; intros d values Hv.
  - by left.
  - destruct values as [|w values]; [by left|]. cbn in Hv. apply IH in Hv as [Hv|Hv].
    + apply lookup_insert_Some in Hv as [[_ ->]|[_ Hv]]; [right; by left|by left].
    + right. by right.
Qed.

Lemma load_entry_ok id key pm :
  pm_ok cache0 pm -> id ∈ dom (pm_proxies pm) -> (size (unresolved pm) <= m)%nat ->
  step_ok cache0 pm fst (fun _ => True) (load_entry classes loads post_get R id key pm).
Proof.
  intros H Hid Hm. unfold load_entry. destruct (pm_fetched pm !! key) as [[it|]|] eqn:Ef; [|eexists; split; [done|]; by cbn|eexists; split; [done|]; by cbn].
  cbn [mjoin option_join mbind option_bind]. destruct (i_state it) as [st|] eqn:Es; [|eexists; split; [done|]; by cbn].
  destruct (loads st) as [data|e] eqn:El; [|destruct e; first [by eexists|eexists; split; [done|]; by cbn]].
  destruct (load_refs_ok cache0 data.1 pm H) as (H1 & E1 & D1).
  { intros v r Hv Hr. exact (ok_fetched _ _ H _ _ Ef _ _ _ _ Es El Hv Hr). }
  destruct (with_obj_ok cache0 id (setstate classes data) _ H1) as [H2 E2].
  { intros o _ _. by destruct data. }
  { intros o name v r Ho [Hd|Hd]%setstate_dict Hr; [by eapply ok_refs|by eapply D1]. }
  set (pm2 := with_obj id _ _) in *. assert (E : pm_ext pm pm2) by (by etrans).
  destruct (run_gen_ok id (post_get (class_of id pm2) id) {[id]} pm2) as ([[pm3 deps]|e] & -> & H3); [| | | | |by eexists].
  - apply post_get_ok. by apply elem_of_singleton.
  - done.
  - intros i ->%elem_of_singleton. by apply (ext_dom _ _ E).
  - pose proof (unresolved_ext _ _ E). lia.
  - eexists. split; [done|]. cbn in H3 |- *. destruct H3 as (? & ? & _). split; [done|]. split; [by etrans|done].
Qed.

Lemma build_classes_ok id keys pm :
  pm_ok cache0 pm -> id ∈ dom (pm_proxies pm) -> (size (unresolved pm) <= m)%nat ->
  step_ok cache0 pm (fun pm => pm) (fun _ => True) (build_classes classes dumps loads generate post_get is_valid R id keys pm).
Proof.
  revert pm. induction keys as [|[base_cls key] keys IH]; intros pm H Hid Hm; cbn [build_classes].
  { eexists. split; [done|]. by cbn. }
  unfold build_class. destruct (set_class_ok cache0 id base_cls pm H) as [H1 E1]. set (pm1 := with_obj _ _ pm) in *.
  assert (Hm1 : (size (unresolved pm1) <= m)%nat) by (pose proof (unresolved_ext _ _ E1); lia).
  apply (step_ok_after _ _ _ _ _ _ E1). apply (ext_dom _ _ E1) in Hid.
  destruct (load_entry_ok id key pm1 H1 Hid Hm1) as ([[pm2 loaded]|e] & -> & H2); [|by eexists]. cbn.
  destruct H2 as (H2 & E2 & _). cbn in H2, E2. apply (step_ok_after _ _ _ _ _ _ E2). apply (ext_dom _ _ E2) in Hid.
  assert (Hm2 : (size (unresolved pm2) <= m)%nat) by (pose proof (unresolved_ext _ _ E2); lia).
  destruct (negb loaded || _); [|by apply IH].
  destruct (generate_entry_ok id key pm2 H2 Hid Hm2) as ([pm3|e] & -> & H3); [|by eexists]. cbn.
  destruct H3 as (H3 & E3 & _). apply (step_ok_after _ _ _ _ _ _ E3), IH; [done|by apply (ext_dom _ _ E3)|].
  pose proof (unresolved_ext _ _ E3). lia.
Qed.

(** Building an object that is not resolved: one object less is left for the others. *)
Lemma build_ok id pm :
  pm_ok cache0 pm -> id ∈ dom (pm_proxies pm) -> is_resolved pm id = false -> (size (unresolved pm) <= S m)%nat ->
  step_ok cache0 pm (fun pm => pm) (fun pm' => is_resolved pm' id = true) (build R id pm).
Proof.
  intros H Hid Hr Hm. unfold build. pose proof Hid as Hd. apply elem_of_dom in Hd as [o Ho]. rewrite Ho.
  destruct (set_resolved_ok cache0 id pm H) as [H1 E1]. set (pm1 := with_obj _ _ pm) in *.
  assert (Hr1 : is_resolved pm1 id = true). { unfold is_resolved, pm1. cbn. by rewrite lookup_alter_eq, Ho. }
  pose proof (unresolved_less _ _ id E1 (ok_dom _ _ H _ Hid) Hr Hr1) as Hless.
  apply (step_ok_after _ _ _ _ _ _ E1). apply (ext_dom _ _ E1) in Hid.
  destruct (build_classes_ok id (ob_keys o) pm1 H1 Hid ltac:(lia)) as ([pm2|e] & -> & H2); [|by eexists]. cbn.
  destruct H2 as (H2 & E2 & _).
  assert (Hback : exists pm3, match last (ob_keys o) with
      | Some (base_cls, _) => if bool_decide (class_of id pm2 = base_cls) then with_obj id (set_class (ob_class o)) pm2 else pm2
      | None => pm2 end = pm3 /\ pm_ok cache0 pm3 /\ pm_ext pm2 pm3).
  { eexists. split; [done|]. destruct (last (ob_keys o)) as [[base_cls key]|]; [|done].
    destruct (bool_decide _); [by apply set_class_ok|done]. }
  destruct Hback as (pm3 & -> & H3 & E3). assert (E : pm_ext pm1 pm3) by (by etrans).
  destruct (run_gen_ok id (post_build (class_of id pm3) id) {[id]} pm3) as ([[pm4 deps]|e] & -> & H4); [| | | | |by eexists].
  - apply post_build_ok. by apply elem_of_singleton.
  - done.
  - intros i ->%elem_of_singleton. by apply (ext_dom _ _ E).
  - pose proof (unresolved_ext _ _ E). lia.
  - eexists. split; [done|]. destruct H4 as (H4 & E4 & _). cbn in H4, E4. split; [done|]. split; [by etrans|].
    by apply (ext_resolved _ _ E4), (ext_resolved _ _ E).
Qed.

Lemma build_all_ok ids pm :
  pm_ok cache0 pm -> (forall id, id ∈ ids -> id ∈ dom (pm_proxies pm)) -> (size (unresolved pm) <= S m)%nat ->
  step_ok cache0 pm (fun pm => pm) (fun pm' => forall id, id ∈ ids -> is_resolved pm' id = true) (build_all R ids pm).
Proof.
  revert pm. induction ids as [|id ids IH]; intros pm H Hids Hm; cbn [build_all].
  { eexists. split; [done|]. cbn. split; [done|]. split; [done|]. intros i Hi. by apply elem_of_nil in Hi. }
  assert (Hrest : forall pm1, pm_ok cache0 pm1 -> pm_ext pm pm1 -> is_resolved pm1 id = true ->
    step_ok cache0 pm1 (fun pm => pm) (fun pm' => forall i, i ∈ id :: ids -> is_resolved pm' i = true) (build_all R ids pm1)).
  { intros pm1 H1 E1 Hr. destruct (IH pm1 H1) as ([pm2|e] & -> & H2); [| |eexists; split; [done|]|by eexists].
    - intros i Hi. apply (ext_dom _ _ E1), Hids. by right.
    - pose proof (unresolved_ext _ _ E1). lia.
    - destruct H2 as (H2 & E2 & Hall). split; [done|]. split; [done|]. intros i [->|Hi]%elem_of_cons; [by apply (ext_resolved _ _ E2)|by apply Hall]. }
  destruct (is_resolved pm id) eqn:Er; [by apply Hrest|].
  destruct (build_ok id pm H (Hids id ltac:(by left)) Er Hm) as ([pm1|e] & -> & H1); [|by eexists].
  cbn. destruct H1 as (H1 & E1 & Hr). apply (step_ok_after _ _ _ _ _ _ E1). by apply Hrest.
Qed.
End Step.

Lemma build_all_resolved R ids pm : (forall id, id ∈ ids -> is_resolved pm id = true) -> build_all R ids pm = Some (Ret pm).
Proof. induction ids as [|id ids IH]; intros H; cbn [build_all]; [done|]. rewrite H by (by left). apply IH. intros i Hi. apply H. by right. Qed.

Lemma resolved_of_none_left pm id : size (unresolved pm) = 0%nat -> id ∈ U -> is_resolved pm id = true.
Proof.
  intros Hs HU. destruct (is_resolved pm id) eqn:E; [done|]. apply size_empty_inv in Hs.
  assert (Hin : id ∈ unresolved pm) by (by apply elem_of_filter). by apply Hs, not_elem_of_empty in Hin.
Qed.

(** The children of objects are objects of the manager. *)
Lemma children_in_dom cache0 pm ids id :
  pm_ok cache0 pm -> id ∈ (ids ≫= (fun id => get_child_proxies (class_of id pm) (dict_of id pm))) -> id ∈ dom (pm_proxies pm).
Proof.
  intros H Hin. apply list_elem_of_bind in Hin as (p & Hc & _). apply children_ok in Hc as (name & v & Hn & Hv).
  unfold dict_of in Hn. destruct (pm_proxies pm !! p) as [o|] eqn:Eo; [|by rewrite lookup_empty in Hn].
  exact (ok_refs _ _ H _ _ _ _ _ Eo Hn Hv).
Qed.

(** The loop ends with two rounds for every object that is left, and two more; one less
    when none of the given objects is resolved. *)
Lemma resolve_ok cache0 fuel ids depth pm :
  pm_ok cache0 pm -> (forall id, id ∈ ids -> id ∈ dom (pm_proxies pm)) ->
  (2 * size (unresolved pm) + 2 <= fuel \/
   2 * size (unresolved pm) + 1 <= fuel /\ forall id, id ∈ ids -> is_resolved pm id = false)%nat ->
  step_ok cache0 pm (fun pm => pm) (fun pm' => forall id, id ∈ ids -> is_resolved pm' id = true) (resolve fuel ids depth pm).
Proof.
  revert ids depth pm. induction fuel as [|fuel IH]; intros ids depth pm H Hids Hf; [lia|].
  destruct ids as [|id0 ids0].
  { exists (Ret pm). split; [done|]. split; [done|]. split; [done|]. intros i Hi. by apply elem_of_nil in Hi. }
  set (ids := id0 :: ids0) in *. cbn [Proxies.resolve]. change (id0 :: ids0) with ids.
  assert (Hid0 : id0 ∈ ids) by (by left).
  destruct (pm_fetch_ok cache0 pm H) as [H0 E0]. set (pm0 := pm_fetch classes iter pm) in *.
  pose proof (unresolved_ext _ _ E0) as Hu0.
  assert (Hsame : forall i, is_resolved pm0 i = is_resolved pm i) by done.
  assert (Hb : step_ok cache0 pm0 (fun pm => pm) (fun pm' => forall id, id ∈ ids -> is_resolved pm' id = true) (build_all (resolve fuel) ids pm0)).
  { destruct (size (unresolved pm0)) as [|m] eqn:En.
    - assert (Hall : forall id, id ∈ ids -> is_resolved pm0 id = true).
      { intros i Hi. apply resolved_of_none_left; [done|]. apply (ok_dom _ _ H0). by apply (ext_dom _ _ E0), Hids. }
      rewrite build_all_resolved by exact Hall. exists (Ret pm0). split; [done|]. split; [done|]. split; [done|]. exact Hall.
    - apply (build_all_ok cache0 m); [|exact H0|intros i Hi; by apply (ext_dom _ _ E0), Hids|lia].
      intros ids' depth' pm' H' Hids' Hm'. apply IH; [done|done|]. left. lia. }
  destruct Hb as ([pm1|e] & -> & Hb); [|by eexists]. destruct Hb as (H1 & E1 & Hres).
  cbn [mbind option_bind]. apply (step_ok_after _ _ _ _ _ _ E0). destruct (depth - 1 =? 0).
  { exists (Ret pm1). split; [done|]. by split; [|split]. }
  destruct (IH (filter (fun child => is_resolved pm1 child = false) (ids ≫= (fun id => get_child_proxies (class_of id pm1) (dict_of id pm1)))) (depth - 1) pm1 H1)
    as ([pm2|e] & -> & H2).
  - intros i [_ Hi]%list_elem_of_filter. by eapply children_in_dom.
  - right. split; [|intros i Hi; by apply list_elem_of_filter in Hi as [? _]].
    pose proof (unresolved_ext _ _ E1) as Hu1. destruct Hf as [Hf|[Hf Hnone]]; [lia|].
    pose proof (unresolved_less pm0 pm1 id0 E1) as Hless. rewrite Hsame in Hless.
    specialize (Hless (ok_dom _ _ H _ (Hids _ Hid0)) (Hnone _ Hid0) (Hres _ Hid0)). lia.
  - eexists. split; [done|]. destruct H2 as (H2 & E2 & _). split; [done|]. split; [by etrans|].
    intros i Hi. by apply (ext_resolved _ _ E2), Hres.
  - by eexists.
Qed.

Lemma new_manager_ok gen_start cache : states_ok cache -> pm_ok cache (new_manager gen_start cache).
Proof.
  intros H. split; cbn [new_manager pm_proxies pm_fetched pm_nstates pm_cache pm_gen_start].
  - intros id Hid. apply elem_of_dom in Hid as [o Ho]. by rewrite lookup_empty in Ho.
  - intros id o name v r Ho. by rewrite lookup_empty in Ho.
  - intros k it Hk. by rewrite lookup_empty in Hk.
  - intros k it Hk. by rewrite lookup_empty in Hk.
  - exact H.
  - intros k it Hk. by rewrite lookup_empty in Hk.
  - intros k it Hk. by left.
Qed.

(** C18. Objects of the cache are resolved.  Whatever the classes do to generate their
    data, while they use only objects of a finite set they asked the manager for: a request
    for an object ends, two rounds for every object of the set and two more are
    enough; unless a class raised, the object is resolved, when its children are
    asked for too every child it has after its own resolution (that is, after the
    same request without children) is resolved as well, and every entry that the
    request put into the cache is at least as new as the request.  Entries still
    refer to the objects of the set only. *)
Theorem get_object_ends gen_start cls params modifiers prefetch_children cache :
  states_ok cache -> proxy_id cls params modifiers ∈ U ->
  exists r, get_object classes iter dumps loads generate post_get post_build is_valid get_child_proxies
      (2 * size U + 2) gen_start cls params modifiers prefetch_children cache = Some r /\
    match r with
    | Raise _ => True
    | Ret pm =>
        let id := proxy_id cls params modifiers in
        is_resolved pm id = true /\
        (prefetch_children = true ->
         exists pm1, get_object classes iter dumps loads generate post_get post_build is_valid get_child_proxies
             (2 * size U + 2) gen_start cls params modifiers false cache = Some (Ret pm1) /\
           forall child, child ∈ get_child_proxies (class_of id pm1) (dict_of id pm1) -> is_resolved pm child = true) /\
        (forall k it, pm_cache pm !! k = Some it -> cache !! k = Some it \/ gen_start <= i_time it) /\
        states_ok (pm_cache pm)
    end.
Proof.
  intros Hc HU. unfold get_object. set (id := proxy_id cls params modifiers). change (Proxies.proxy_id classes cls params modifiers) with id.
  destruct (get_or_create_ok cache cls params modifiers (new_manager gen_start cache) (new_manager_ok _ _ Hc) HU) as (H0 & E0 & D0).
  set (pm0 := get_or_create_proxy _ _ _ _ _) in *. fold id in D0.
  assert (Hle : forall pm, (size (unresolved pm) <= size U)%nat) by (intros pm; apply subseteq_size; intros i Hi; by apply elem_of_filter in Hi as [_ ?]).
  destruct (resolve_ok cache (2 * size U + 2) [id] 1 pm0 H0) as ([pm1|e] & Er & H1); rewrite ?Er; [| | |by eexists].
  { intros i ->%list_elem_of_singleton. done. }
  { left. specialize (Hle pm0). lia. }
  destruct H1 as (H1 & E1 & R1). cbn [mbind option_bind]. specialize (R1 id ltac:(by apply list_elem_of_singleton)).
  set (children := get_child_proxies (class_of id pm1) (dict_of id pm1)).
  assert (Hp : step_ok cache pm1 (fun pm => pm) (fun pm => prefetch_children = true -> forall child, child ∈ children -> is_resolved pm child = true)
    (if prefetch_children then resolve (2 * size U + 2) children 1 pm1 else Some (Ret pm1))).
  { destruct prefetch_children; [|eexists; split; [done|]; by cbn].
    destruct (resolve_ok cache (2 * size U + 2) children 1 pm1 H1) as ([pm2|e] & -> & H2); [| | |by eexists].
    - intros i Hi. apply (children_in_dom cache pm1 [id] i H1). apply list_elem_of_bind. exists id. split; [done|by left].
    - left. specialize (Hle pm1). lia.
    - eexists. split; [done|]. destruct H2 as (? & ? & ?). by split; [|split]. }
  destruct Hp as ([pm2|e] & -> & H2); [|by eexists]. destruct H2 as (H2 & E2 & Hch). cbn [mbind option_bind].
  eexists. split; [done|]. destruct (pm_save_ok cache pm2 H2) as [H3 E3]. cbn zeta.
  assert (Hstart : pm_gen_start (pm_save pm2) = gen_start).
  { rewrite (ext_start _ _ E3), (ext_start _ _ E2), (ext_start _ _ E1), (ext_start _ _ E0). done. }
  split; [by apply (ext_resolved _ _ E3), (ext_resolved _ _ E2)|]. split; [|split].
  - intros Hpf. exists (pm_save pm1). split; [done|]. intros child Hin. by apply (ext_resolved _ _ E3), Hch.
  - intros k it Hk. destruct (ok_saved _ _ H3 _ _ Hk) as [?|Ht]; [by left|right]. by rewrite Hstart in Ht.
  - apply H3.
Qed.
End Ends.

(** ** A state is read back *)

(** The fields of a class that are stored are loaded with the values they had, for every
    object that is loaded: other attributes keep their values. *)
Lemma setstate_getstate classes o o' data name :
  NoDup (cached_fields classes (ob_class o)) -> getstate classes o = Ret data ->
  ob_class (setstate classes data o') = ob_class o /\ ob_resolved (setstate classes data o') = true /\
  ob_dict (setstate classes data o') !! name
  = (if bool_decide (name ∈ cached_fields classes (ob_class o)) then ob_dict o !! name else ob_dict o' !! name).
Proof.
  intros Hnd Hs. unfold getstate in Hs. destruct (mapM _ _) as [values|] eqn:E; [|done]. injection Hs as <-. cbn.
  split; [done|]. split; [done|]. apply mapM_Some_1 in E. revert values E. generalize (ob_dict o').
  induction Hnd as [|f fs Hf Hnd IH]; intros d values E; [by inversion E|].
  inversion E as [|? v ? values' Hv E']; subst. cbn. rewrite (IH _ _ E'). destruct (decide (name = f)) as [->|Hne].
  - rewrite (bool_decide_eq_false_2 (f ∈ fs)) by done. rewrite bool_decide_eq_true_2 by (by left). by rewrite lookup_insert_eq.
  - rewrite lookup_insert_ne by done.
    assert (Ed : bool_decide (name ∈ fs) = bool_decide (name ∈ f :: fs)) by (apply bool_decide_ext; rewrite elem_of_cons; naive_solver).
    by rewrite Ed.
Qed.

(** ** Examples *)

Fixpoint value_tree (v : Value) : gen_tree (string + option Z + (string * list string * list string)) :=
  match v with
  | VData s => GenLeaf (inl (inl s))
  | VTime t => GenLeaf (inl (inr t))
  | VRef cls params modifiers => GenLeaf (inr (cls, params, modifiers))
  | VList l => GenNode 0 (map value_tree l)
  end.
Fixpoint tree_value (t : gen_tree (string + option Z + (string * list string * list string))) : Value :=
  match t with
  | GenLeaf (inl (inl s)) => VData s
  | GenLeaf (inl (inr t)) => VTime t
  | GenLeaf (inr (cls, params, modifiers)) => VRef cls params modifiers
  | GenNode _ l => VList (map tree_value l)
  end.
Lemma tree_value_tree : forall v, tree_value (value_tree v) = v.
Proof.
  fix IH 1. intros [s|t|cls params modifiers|l]; cbn; try done. f_equal.
  revert l. fix IHl 1. intros [|v l]; cbn; [done|]. by rewrite IH, IHl.
Qed.
#[global] Instance value_tree_inj : Inj eq eq value_tree.
Proof. intros x y H. by rewrite <- (tree_value_tree x), H, tree_value_tree. Qed.
#[global] Instance Value_eq_dec : EqDecision Value.
Proof. apply (inj_eq_dec value_tree). Defined.
#[global] Instance Value_countable : Countable Value.
Proof. apply (inj_countable' value_tree tree_value), tree_value_tree. Defined.

Module Sample.
(** A pickler. *)
Fixpoint bits (p : positive) : string :=
  match p with xH => "" | xO p => String "0"%char (bits p) | xI p => String "1"%char (bits p) end.
Fixpoint unbits (s : string) : positive :=
  match s with EmptyString => xH | String c s => if Ascii.eqb c "0"%char then xO (unbits s) else xI (unbits s) end.
Lemma unbits_bits p : unbits (bits p) = p.
Proof. induction p as [p IH|p IH|]; cbn; by rewrite ?IH. Qed.
Definition dumps (d : list Value * string) : string := bits (encode d).
Definition loads (s : string) : result (list Value * string) := match decode (unbits s) with Some d => Ret d | None => Raise TypeError end.
Lemma loads_dumps d : loads (dumps d) = Ret d.
Proof. unfold loads, dumps. by rewrite unbits_bits, decode_encode. Qed.

(** Chapters that know their name, their parent and their children: chapter 1 has the chapters 2 and 3. *)
Definition chapter_class : PyClass :=
  mkClass "Chapter" ["CacheBase"] ["Chapter"; "CacheBase"] (fields_as PlainField ["children"; "name"; "parent"]) true
    (Some "chapter") (Some 1%nat) true None [] (Some "Data").
Definition classes : Classes := match load_classes [cls_CacheBase; chapter_class] with Ret classes => classes | Raise _ => [] end.
Definition chapter (n : string) : ProxyId := ("chapter", [n], []).
Definition ref (n : string) : Value := VRef "Chapter" [n] [].
Definition generate (cls : string) (id : ProxyId) : Gen :=
  if bool_decide (id = chapter "1") then
    NewProxy "Chapter" ["2"] [] (NewProxy "Chapter" ["3"] []
      (SetAttr "children" (VList [ref "2"; ref "3"]) (SetAttr "name" (VData "one") (SetAttr "parent" (VList [])
         (Resolve [chapter "2"; chapter "3"] 1 (Finish [("Chapter", [["2"]; ["3"]])]))))))
  else if bool_decide (id = chapter "2") then
    NewProxy "Chapter" ["1"] [] (SetAttr "children" (VList []) (SetAttr "parent" (VList [ref "1"])
      (GetAttr (chapter "1") "name" (fun v => SetAttr "name" v (Finish [])))))
  else if bool_decide (id = chapter "3") then
    NewProxy "Chapter" ["1"] [] (NewProxy "Chapter" ["4"] []
      (SetAttr "children" (VList [ref "4"]) (SetAttr "parent" (VList [ref "1"]) (SetAttr "name" (VData "three") (Finish [])))))
  else SetAttr "children" (VList []) (SetAttr "parent" (VList []) (SetAttr "name" (VData "leaf") (Finish []))).
Definition nothing (cls : string) (id : ProxyId) : Gen := Finish [].
Definition always (cls : string) (d : gmap string Value) : bool := true.
Definition children (cls : string) (d : gmap string Value) : list ProxyId :=
  match d !! "children" with Some v => ref_ids classes v | None => [] end.
Definition universe : gset ProxyId := list_to_set [chapter "1"; chapter "2"; chapter "3"; chapter "4"].
Definition get (fuel : nat) (gen_start : Z) (n : string) (cache : Cache) : option (result PM) :=
  get_object classes elements dumps loads generate nothing nothing always children fuel gen_start "Chapter" [n] [] true cache.

Lemma chapter_id n : proxy_id classes "Chapter" [n] [] = chapter n.
Proof. by vm_compute. Qed.
Lemma ref_ids_list l : ref_ids classes (VList (ref <$> l)) = chapter <$> l.
Proof. unfold ref_ids. induction l as [|n l IH]; [done|]. cbn [refs flat_map fmap list_fmap ref] in *. cbn. f_equal. apply IH. Qed.
Lemma in_universe n : n ∈ ["1"; "2"; "3"; "4"] -> chapter n ∈ universe.
Proof. intros H. unfold universe. apply elem_of_list_to_set. change (chapter n ∈ chapter <$> ["1"; "2"; "3"; "4"]). by apply list_elem_of_fmap_2. Qed.

Lemma generate_stays cls id known : id ∈ known -> gen_ok classes universe known (generate cls id).
Proof.
  intros Hid. unfold generate.
  pose proof (ref_ids_list []) as R0. pose proof (ref_ids_list ["1"]) as R1. pose proof (ref_ids_list ["4"]) as R4. pose proof (ref_ids_list ["2"; "3"]) as R23.
  cbn [fmap list_fmap] in R0, R1, R4, R23.
  repeat case_bool_decide; cbn [gen_ok]; rewrite ?chapter_id, ?R0, ?R1, ?R4, ?R23; repeat split;
    try (apply in_universe; clear; by repeat first [left; reflexivity|right]);
    try (intros i; rewrite ?elem_of_cons, ?elem_of_union, ?elem_of_list_to_set, ?elem_of_singleton, ?elem_of_nil; tauto).
  rewrite elem_of_union, elem_of_singleton. tauto.
Qed.
Lemma nothing_stays cls id known : id ∈ known -> gen_ok classes universe known (nothing cls id).
Proof. done. Qed.
Lemma children_known cls d id : id ∈ children cls d -> exists name v, d !! name = Some v /\ id ∈ ref_ids classes v.
Proof. unfold children. destruct (d !! "children") as [v|] eqn:E; [eauto|]. by intros ?%elem_of_nil. Qed.

(** Applied to chapter 1 with an empty cache. *)
Lemma get_object_ends_witness :
  exists pm, get (2 * size universe + 2) 10 "1" ∅ = Some (Ret pm) /\ is_resolved pm (chapter "1") = true /\
    is_resolved pm (chapter "3") = true /\ is_resolved pm (chapter "4") = false /\
    forall k it, pm_cache pm !! k = Some it -> 10 <= i_time it.
Proof.
  destruct (get_object_ends classes elements dumps loads generate nothing nothing always children universe
    loads_dumps generate_stays nothing_stays nothing_stays children_known 10 "Chapter" ["1"] [] true ∅)
    as (r & E & Hr).
  - intros k it Hk. by rewrite lookup_empty in Hk.
  - rewrite chapter_id. apply in_universe. by left.
  - assert (Ev : (match get (2 * size universe + 2) 10 "1" ∅ with
                  | Some (Ret pm) => Some (is_resolved pm (chapter "3"), is_resolved pm (chapter "4"))
                  | _ => None end) = Some (true, false)) by (vm_compute; reflexivity).
    change (get (2 * size universe + 2) 10 "1" ∅ = Some r) in E. rewrite E in Ev. destruct r as [pm|e]; [|discriminate Ev].
    injection Ev as _ E4. exists pm. destruct Hr as (H1 & Hch & H2 & _). rewrite chapter_id in H1, Hch.
    assert (E3 : is_resolved pm (chapter "3") = true).
    { destruct (Hch eq_refl) as (pm1 & E1 & Hall). apply Hall.
      assert (Ec : (match get_object classes elements dumps loads generate nothing nothing always children
                            (2 * size universe + 2) 10 "Chapter" ["1"] [] false ∅ with
                    | Some (Ret pm) => children (class_of (chapter "1") pm) (dict_of (chapter "1") pm)
                    | _ => [] end) = [chapter "2"; chapter "3"]) by (vm_compute; reflexivity).
      rewrite E1 in Ec. rewrite Ec. right. by left. }
    split; [exact E|]. split; [exact H1|]. split; [exact E3|]. split; [exact E4|]. intros k it Hk.
    destruct (H2 k it Hk) as [Hc|Ht]; [by rewrite lookup_empty in Hc|exact Ht].
Defined.

(** A second request loads the same names from the cache and generates nothing. *)
Definition name_of (n : string) (r : option (result PM)) : option Value :=
  match r with Some (Ret pm) => dict_of (chapter n) pm !! "name" | _ => None end.
Definition second_request_loads : bool :=
  match get 10 10 "1" ∅ with
  | Some (Ret pm) =>
      match get 10 20 "1" (pm_cache pm) with
      | Some (Ret pm2) =>
          bool_decide (name_of "2" (Some (Ret pm)) = Some (VData "one")) && bool_decide (name_of "2" (Some (Ret pm2)) = Some (VData "one"))
          && bool_decide (pm_added pm <> []) && bool_decide (pm_added pm2 = [])
          && forallb (fun k => bool_decide (i_time <$> pm_cache pm2 !! k = Some 10)) ["chapter:1"; "chapter:2"; "chapter:3"]
      | _ => false
      end
  | _ => false
  end.
Lemma second_request : second_request_loads = true.
Proof. vm_compute. reflexivity. Qed.

(** [resolve] says that it leaves the children of resolved objects alone; those of an object it is
    given are resolved: here only the chapters 1 and 3 are resolved at first, and 3 is given with depth 2. *)
Definition children_resolved_below : bool :=
  match get 10 10 "1" ∅ with
  | Some (Ret pm) =>
      is_resolved pm (chapter "3") && negb (is_resolved pm (chapter "4")) &&
      match resolve classes elements dumps loads generate nothing nothing always children 10 [chapter "3"] 2 pm with
      | Some (Ret pm') => is_resolved pm' (chapter "4")
      | _ => false
      end
  | _ => false
  end.
Lemma children_of_resolved_are_resolved : children_resolved_below = true.
Proof. vm_compute. reflexivity. Qed.
End Sample.
