(* ===== verification/Binary64.v ===== *)
(** * Python floats

    Python's [float] is the IEEE 754 binary64 format with round-half-to-even.
    A finite float is represented by the rational number it denotes, and each
    arithmetic operation is the exact rational operation followed by [b64], the
    rounding to 53 significant bits (gradual underflow at 2^-1074 included).
    The integers the code converts to floats are Django [IntegerField] and
    [PositiveIntegerField] values, below 2^31 in absolute value, so overflow to
    infinity does not arise and is not modelled. *)

From S2P Require Import Prelude.
From Stdlib Require Import QArith Qround Qreduction Qpower Lqa.

#[local] Open Scope Z_scope.

(** ** Round half to even *)

(** The integer nearest to [a/b] (for [0 < b]), ties going to the even one. *)
Definition rhe (a b : Z) : Z :=
  let q := a / b in
  let r := a mod b in
  match 2 * r ?= b with
  | Lt => q
  | Gt => q + 1
  | Eq => if Z.even q then q else q + 1
  end.

(** Python's [round(x)] on a float: the nearest integer, ties to even. *)
Definition py_round (x : Q) : Z := rhe (Qnum x) (Zpos (Qden x)).

(** Python's [int(x)] on a float: truncation towards zero. *)
Definition py_int (x : Q) : Z := Z.quot (Qnum x) (Zpos (Qden x)).

(** 2^e as a rational, for any integer e. *)
Definition p2 (e : Z) : Q := Qpower (2#1) e.

(** The exponent of the leading bit of a non-zero rational. *)
Definition ilog2 (x : Q) : Z :=
  let n := Z.abs (Qnum x) in
  let d := Zpos (Qden x) in
  let k := Z.log2 n - Z.log2 d in
  if Qle_bool (p2 k) (Qmake n (Qden x)) then k else k - 1.

(** The exponent of the last bit binary64 keeps of [x]. *)
Definition ulp_exp (x : Q) : Z := Z.max (ilog2 x - 52) (-1074).

(** Rounding to a multiple of 2^e. *)
Definition round_at (e : Z) (x : Q) : Q := inject_Z (py_round (x * p2 (- e))) * p2 e.

(** Rounding to the nearest binary64 number. *)
Definition b64 (x : Q) : Q := Qred (round_at (ulp_exp x) x).

(** The float operations. *)
Definition of_int (z : Z) : Q := b64 (inject_Z z).
Definition fadd (x y : Q) : Q := b64 (x + y).
Definition fsub (x y : Q) : Q := b64 (x - y).
Definition fmul (x y : Q) : Q := b64 (x * y).
Definition fdiv (x y : Q) : Q := b64 (x / y).

(** Python's [a / b] on two integers: the correctly rounded quotient. *)
Definition int_truediv (a b : Z) : Q := b64 (inject_Z a / inject_Z b).

(** ** [rhe] *)

Lemma rhe_bounds a b :
  0 < b ->
  (2 * rhe a b - 1) * b <= 2 * a <= (2 * rhe a b + 1) * b /\
  (2 * a = (2 * rhe a b - 1) * b -> Z.even (rhe a b) = true) /\
  (2 * a = (2 * rhe a b + 1) * b -> Z.even (rhe a b) = true).
Proof.
  intros Hb. unfold rhe.
  pose proof (Z.div_mod a b ltac:(lia)) as Hdm.
  pose proof (Z.mod_pos_bound a b Hb) as Hr.
  set (q := a / b) in *. set (r := a mod b) in *.
  destruct (Z.compare_spec (2 * r) b) as [He|Hl|Hg].
  - destruct (Z.even q) eqn:Hq.
    + split; [nia|]. split; intros; [exfalso; nia|done].
    + replace (Z.even (q + 1)) with true
        by (rewrite Z.add_1_r, Z.even_succ, <- Z.negb_even, Hq; done).
      split; [nia|]. split; done.
  - split; [nia|]. split; intros; exfalso; nia.
  - split; [nia|]. split; intros; exfalso; nia.
Qed.

(** Rounding is monotone, compared across denominators. *)
Lemma rhe_mono a b c d :
  0 < b -> 0 < d -> a * d <= c * b -> rhe a b <= rhe c d.
Proof.
  intros Hb Hd Hle.
  destruct (rhe_bounds a b Hb) as ([Ha1 _] & Ha2 & _).
  destruct (rhe_bounds c d Hd) as ([_ Hc1] & _ & Hc2).
  set (n := rhe a b) in *. set (m := rhe c d) in *.
  destruct (Z.le_gt_cases n m) as [?|Hgt]; [done|exfalso].
  assert (Hbd : 0 < b * d) by nia.
  assert (H1 : (2 * n - 1) * b * d <= 2 * a * d) by nia.
  assert (H2 : 2 * c * b <= (2 * m + 1) * d * b) by nia.
  assert (Hn : n = m + 1) by nia.
  assert (Ea : 2 * a = (2 * n - 1) * b) by nia.
  assert (Ec : 2 * c = (2 * m + 1) * d) by nia.
  specialize (Ha2 Ea). specialize (Hc2 Ec).
  rewrite Hn, Z.add_1_r, Z.even_succ, <- Z.negb_even, Hc2 in Ha2. done.
Qed.

Lemma rhe_int z : rhe z 1 = z.
Proof. unfold rhe. rewrite Z.div_1_r, Z.mod_1_r. done. Qed.

(** ** [py_round] on rationals *)

Lemma py_round_mono x y : (x <= y)%Q -> py_round x <= py_round y.
Proof. unfold Qle, py_round. intros H. apply rhe_mono; lia. Qed.

#[export] Instance py_round_proper : Proper (Qeq ==> eq) py_round.
Proof.
  intros x y E. apply Z.le_antisymm; apply py_round_mono; rewrite E; apply Qle_refl.
Qed.

Lemma py_round_int z : py_round (inject_Z z) = z.
Proof. apply rhe_int. Qed.

(** A rational between two integers rounds between them. *)
Lemma py_round_between a b x :
  (inject_Z a <= x <= inject_Z b)%Q -> a <= py_round x <= b.
Proof.
  intros [Ha Hb]. split.
  - rewrite <- (py_round_int a). by apply py_round_mono.
  - rewrite <- (py_round_int b). by apply py_round_mono.
Qed.

(** ** Powers of two *)

Lemma p2_pos e : (0 < p2 e)%Q.
Proof. apply Qpower_0_lt. reflexivity. Qed.

Lemma p2_plus a b : (p2 (a + b) == p2 a * p2 b)%Q.
Proof. apply Qpower_plus. discriminate. Qed.

Lemma p2_opp_l e : (p2 (- e) * p2 e == 1)%Q.
Proof. rewrite <- p2_plus, Z.add_opp_diag_l. reflexivity. Qed.

Lemma p2_nonneg_Z e : 0 <= e -> (p2 e == inject_Z (2 ^ e))%Q.
Proof.
  intros He. unfold p2. rewrite Zpower_Qpower by done. reflexivity.
Qed.

Lemma p2_le a b : a <= b -> (p2 a <= p2 b)%Q.
Proof. intros H. apply Qpower_le_compat_l; [done|]. discriminate. Qed.

Lemma p2_lt_inv a b : (p2 a < p2 b)%Q -> a < b.
Proof.
  intros H. destruct (Z.le_gt_cases b a) as [Hle|]; [|done].
  apply p2_le in Hle. exfalso. apply (Qlt_not_le _ _ H Hle).
Qed.

(** ** Rounding at a fixed exponent *)

Lemma round_at_mono e x y : (x <= y)%Q -> (round_at e x <= round_at e y)%Q.
Proof.
  intros H. unfold round_at. apply Qmult_le_compat_r; [|apply Qlt_le_weak, p2_pos].
  rewrite <- Zle_Qle. apply py_round_mono.
  apply Qmult_le_compat_r; [done|apply Qlt_le_weak, p2_pos].
Qed.

(** Multiples of 2^e are fixed points. *)
Lemma round_at_multiple e m : (round_at e (inject_Z m * p2 e) == inject_Z m * p2 e)%Q.
Proof.
  unfold round_at.
  assert (E : (inject_Z m * p2 e * p2 (- e) == inject_Z m)%Q).
  { rewrite <- Qmult_assoc, (Qmult_comm (p2 e)), p2_opp_l, Qmult_1_r. reflexivity. }
  rewrite E, py_round_int. reflexivity.
Qed.

Lemma round_at_p2 e k : e <= k -> (round_at e (p2 k) == p2 k)%Q.
Proof.
  intros H.
  assert (E : (p2 k == inject_Z (2 ^ (k - e)) * p2 e)%Q).
  { rewrite <- p2_nonneg_Z by lia. rewrite <- p2_plus.
    replace (k - e + e) with k by lia. reflexivity. }
  apply Qle_antisym.
  - rewrite E at 2. rewrite <- (round_at_multiple e (2 ^ (k - e))).
    apply round_at_mono. rewrite E. apply Qle_refl.
  - rewrite E at 1. rewrite <- (round_at_multiple e (2 ^ (k - e))).
    apply round_at_mono. rewrite E. apply Qle_refl.
Qed.

(** ** The leading bit *)

Lemma p2_log2_frac n d :
  0 < n ->
  (p2 (Z.log2 n - Z.log2 (Zpos d) - 1) <= n # d)%Q /\
  (n # d < p2 (Z.log2 n - Z.log2 (Zpos d) + 1))%Q.
Proof.
  intros Hn.
  pose proof (Z.log2_spec n Hn) as [Hn1 Hn2].
  pose proof (Z.log2_spec (Zpos d) ltac:(lia)) as [Hd1 Hd2].
  pose proof (Z.log2_nonneg n). pose proof (Z.log2_nonneg (Zpos d)).
  set (a := Z.log2 n) in *. set (b := Z.log2 (Zpos d)) in *.
  assert (E : (n # d == inject_Z n / inject_Z (Zpos d))%Q) by (rewrite Qmake_Qdiv; reflexivity).
  assert (Hdpos : (0 < inject_Z (Zpos d))%Q) by reflexivity.
  rewrite !Z.pow_succ_r in * by lia.
  split.
  - rewrite E. apply Qle_shift_div_l; [done|].
    apply Qle_trans with (p2 (a - b - 1) * p2 (b + 1))%Q.
    + apply Qmult_le_l; [apply p2_pos|]. rewrite p2_nonneg_Z by lia.
      rewrite <- Zle_Qle, Z.pow_add_r by lia. lia.
    + rewrite <- p2_plus. replace (a - b - 1 + (b + 1)) with a by lia.
      rewrite p2_nonneg_Z by lia. rewrite <- Zle_Qle. lia.
  - rewrite E. apply Qlt_shift_div_r; [done|].
    apply Qlt_le_trans with (p2 (a + 1)).
    + rewrite p2_nonneg_Z by lia. rewrite <- Zlt_Qlt, Z.pow_add_r by lia. lia.
    + replace (a + 1) with (a - b + 1 + b) at 1 by lia. rewrite p2_plus.
      apply Qmult_le_l; [apply p2_pos|]. rewrite p2_nonneg_Z by lia.
      rewrite <- Zle_Qle. lia.
Qed.

Lemma ilog2_spec x : (0 < x)%Q -> (p2 (ilog2 x) <= x)%Q /\ (x < p2 (ilog2 x + 1))%Q.
Proof.
  destruct x as [n d]. intros Hx.
  assert (Hn : 0 < n) by (revert Hx; unfold Qlt; cbn; lia).
  destruct (p2_log2_frac n d Hn) as [H1 H2].
  unfold ilog2. cbn [Qnum Qden]. rewrite Z.abs_eq by lia.
  destruct (Qle_bool _ _) eqn:E.
  - apply Qle_bool_iff in E. auto.
  - split; [done|].
    replace (Z.log2 n - Z.log2 (Zpos d) - 1 + 1) with (Z.log2 n - Z.log2 (Zpos d)) by lia.
    apply Qnot_le_lt. intros C. apply Qle_bool_iff in C. congruence.
Qed.

Lemma ilog2_mono x y : (0 < x)%Q -> (x <= y)%Q -> ilog2 x <= ilog2 y.
Proof.
  intros Hx Hxy.
  destruct (ilog2_spec x Hx) as [H1 _].
  destruct (ilog2_spec y (Qlt_le_trans _ _ _ Hx Hxy)) as [_ H2].
  apply Z.lt_succ_r, p2_lt_inv.
  eapply Qle_lt_trans; [exact H1|]. eapply Qle_lt_trans; [exact Hxy|exact H2].
Qed.

(** ** Binary64 rounding *)

Lemma b64_round_at x : (b64 x == round_at (ulp_exp x) x)%Q.
Proof. apply Qred_correct. Qed.

Lemma b64_zero x : (x == 0)%Q -> (b64 x == 0)%Q.
Proof.
  intros E. rewrite b64_round_at. unfold round_at.
  assert (E' : (x * p2 (- ulp_exp x) == inject_Z 0)%Q).
  { generalize (p2 (- ulp_exp x)). intros q. rewrite E. ring. }
  rewrite E', py_round_int. ring.
Qed.

Lemma b64_nonneg x : (0 <= x)%Q -> (0 <= b64 x)%Q.
Proof.
  intros H. rewrite b64_round_at. unfold round_at.
  apply Qmult_le_0_compat; [|apply Qlt_le_weak, p2_pos].
  change 0%Q with (inject_Z 0). rewrite <- Zle_Qle, <- (py_round_int 0).
  apply py_round_mono. apply Qmult_le_0_compat; [done|apply Qlt_le_weak, p2_pos].
Qed.

(** Two positive numbers with different last-bit exponents are separated by a
    power of two that both roundings keep. *)
Lemma b64_mono_pos x y : (0 < x)%Q -> (x <= y)%Q -> (b64 x <= b64 y)%Q.
Proof.
  intros Hx Hxy. rewrite !b64_round_at.
  assert (Hy : (0 < y)%Q) by (eapply Qlt_le_trans; eauto).
  pose proof (ilog2_mono x y Hx Hxy) as Hl.
  destruct (Z.eq_dec (ulp_exp x) (ulp_exp y)) as [<-|Hne]; [by apply round_at_mono|].
  unfold ulp_exp in *. set (ex := Z.max (ilog2 x - 52) (-1074)) in *.
  set (ey := Z.max (ilog2 y - 52) (-1074)) in *.
  assert (ilog2 x + 1 <= ilog2 y) by lia.
  destruct (ilog2_spec x Hx) as [_ Hx2]. destruct (ilog2_spec y Hy) as [Hy1 _].
  apply Qle_trans with (p2 (ilog2 y)).
  - rewrite <- (round_at_p2 ex (ilog2 y)) by lia. apply round_at_mono.
    apply Qlt_le_weak. eapply Qlt_le_trans; [exact Hx2|]. by apply p2_le.
  - rewrite <- (round_at_p2 ey (ilog2 y)) by lia. by apply round_at_mono.
Qed.

Lemma b64_mono x y : (0 <= x)%Q -> (x <= y)%Q -> (b64 x <= b64 y)%Q.
Proof.
  intros Hx Hxy. destruct (Qlt_le_dec 0 x) as [Hp|Hn]; [by apply b64_mono_pos|].
  rewrite (b64_zero x) by (apply Qle_antisym; done).
  apply b64_nonneg. eapply Qle_trans; eauto.
Qed.

(** Rounding depends only on the rational's value. *)
Lemma b64_eq x y : (0 <= x)%Q -> (x == y)%Q -> (b64 x == b64 y)%Q.
Proof.
  intros Hx E.
  assert (H1 : (x <= y)%Q) by (rewrite E; apply Qle_refl).
  assert (H2 : (y <= x)%Q) by (rewrite E; apply Qle_refl).
  assert (Hy : (0 <= y)%Q) by (eapply Qle_trans; eauto).
  apply Qle_antisym; by apply b64_mono.
Qed.

(** Numbers of at most 53 significant bits above the subnormal limit are kept. *)
Lemma b64_repr m e :
  0 <= m <= 2 ^ 53 -> -1074 <= e -> (b64 (inject_Z m * p2 e) == inject_Z m * p2 e)%Q.
Proof.
  intros [Hm1 Hm2] He. pose proof (p2_pos e) as Hp.
  destruct (Z.eq_dec m 0) as [->|Hz]; [by rewrite b64_zero by ring; ring|].
  assert (Hpos : (0 < inject_Z m * p2 e)%Q).
  { apply Qmult_lt_0_compat; [|done]. change 0%Q with (inject_Z 0). rewrite <- Zlt_Qlt. lia. }
  destruct (ilog2_spec _ Hpos) as [Hl _]. rewrite b64_round_at.
  set (x := (inject_Z m * p2 e)%Q) in *. set (u := ulp_exp x).
  destruct (Z.eq_dec m (2 ^ 53)) as [Em|Hne].
  - assert (Ex : (x == p2 (53 + e))%Q) by (unfold x; rewrite Em, p2_plus; reflexivity).
    assert (Hk : ilog2 x <= 53 + e).
    { apply Z.lt_succ_r, p2_lt_inv. eapply Qle_lt_trans; [exact Hl|]. rewrite Ex.
      unfold Z.succ. rewrite (p2_plus (53 + e) 1). pose proof (p2_pos (53 + e)).
      change (p2 1) with 2%Q. lra. }
    assert (Hu : u <= 53 + e) by (unfold u, ulp_exp; lia).
    transitivity (round_at u (p2 (53 + e))); [|rewrite round_at_p2 by done; by rewrite Ex].
    apply Qle_antisym; apply round_at_mono; rewrite Ex; apply Qle_refl.
  - assert (Hk : ilog2 x < 53 + e).
    { apply p2_lt_inv. eapply Qle_lt_trans; [exact Hl|]. unfold x. rewrite p2_plus.
      apply Qmult_lt_compat_r; [done|]. rewrite p2_nonneg_Z by lia. rewrite <- Zlt_Qlt. lia. }
    assert (Hu : u <= e) by (unfold u, ulp_exp; lia).
    assert (E : (x == inject_Z (m * 2 ^ (e - u)) * p2 u)%Q).
    { rewrite inject_Z_mult, <- p2_nonneg_Z by lia.
      rewrite <- Qmult_assoc, <- p2_plus. by replace (e - u + u) with e by lia. }
    transitivity (round_at u (inject_Z (m * 2 ^ (e - u)) * p2 u)).
    + apply Qle_antisym; apply round_at_mono; rewrite <- E; apply Qle_refl.
    + rewrite round_at_multiple. symmetry. exact E.
Qed.

(** Integers up to 2^53 are exactly representable. *)
Lemma b64_int z : 0 <= z <= 2 ^ 53 -> (b64 (inject_Z z) == inject_Z z)%Q.
Proof.
  intros Hz. assert (E : (inject_Z z == inject_Z z * p2 0)%Q) by (change (p2 0) with 1%Q; ring).
  transitivity (b64 (inject_Z z * p2 0)).
  - apply b64_eq; [|exact E]. change 0%Q with (inject_Z 0). rewrite <- Zle_Qle. lia.
  - rewrite b64_repr by lia. symmetry. exact E.
Qed.

(** A rounded number is representable: it has a significand of at most 53 bits. *)
Lemma b64_significand x :
  (0 <= x)%Q -> exists m e, 0 <= m <= 2 ^ 53 /\ -1074 <= e /\ (b64 x == inject_Z m * p2 e)%Q.
Proof.
  intros Hx. destruct (Qlt_le_dec 0 x) as [Hp|Hn].
  2: { exists 0, 0. split; [lia|]. split; [lia|]. rewrite b64_zero by (by apply Qle_antisym). ring. }
  exists (py_round (x * p2 (- ulp_exp x))), (ulp_exp x).
  split; [|split; [unfold ulp_exp; lia|apply b64_round_at]].
  apply (py_round_between 0 (2 ^ 53)). pose proof (p2_pos (- ulp_exp x)). split.
  - apply Qmult_le_0_compat; [done|by apply Qlt_le_weak].
  - destruct (ilog2_spec x Hp) as [_ Hx2].
    rewrite <- (p2_nonneg_Z 53) by lia.
    apply Qle_trans with (p2 (ilog2 x + 1) * p2 (- ulp_exp x))%Q.
    + apply Qlt_le_weak. by apply Qmult_lt_compat_r.
    + rewrite <- p2_plus. apply p2_le. unfold ulp_exp. lia.
Qed.

Lemma b64_idemp x : (0 <= x)%Q -> (b64 (b64 x) == b64 x)%Q.
Proof.
  intros Hx. destruct (b64_significand x Hx) as (m & e & Hm & He & E).
  transitivity (b64 (inject_Z m * p2 e)).
  - apply b64_eq; [by apply b64_nonneg|exact E].
  - rewrite b64_repr by done. symmetry. exact E.
Qed.

(** The relative error of rounding up is at most one unit in the last place. *)
Lemma b64_upper x : (1 <= x)%Q -> (b64 x <= x * (1 + p2 (-52)))%Q.
Proof.
  intros Hx. assert (Hp : (0 < x)%Q) by lra. rewrite b64_round_at. unfold round_at.
  destruct (ilog2_spec x Hp) as [Hl Hl2].
  assert (H0 : 0 <= ilog2 x).
  { apply Z.lt_succ_r, p2_lt_inv. eapply Qle_lt_trans; [|exact Hl2]. exact Hx. }
  assert (Eu : ulp_exp x = ilog2 x + (-52)) by (unfold ulp_exp; lia).
  set (u := ulp_exp x) in *. pose proof (p2_pos u) as Hu.
  assert (Hr : (inject_Z (py_round (x * p2 (- u))) <= x * p2 (- u) + 1)%Q).
  { generalize (x * p2 (- u))%Q. intros y. unfold py_round, Qle. cbn.
    destruct (rhe_bounds (Qnum y) (Zpos (Qden y)) ltac:(lia)) as ([H1 _] & _). lia. }
  apply Qle_trans with ((x * p2 (- u) + 1) * p2 u)%Q.
  { apply Qmult_le_compat_r; [done|by apply Qlt_le_weak]. }
  assert (E : ((x * p2 (- u) + 1) * p2 u == x + p2 u)%Q).
  { rewrite Qmult_plus_distr_l, <- Qmult_assoc, p2_opp_l. ring. }
  rewrite E, Eu, p2_plus. pose proof (p2_pos (-52)).
  assert (p2 (ilog2 x) * p2 (-52) <= x * p2 (-52))%Q
    by (apply Qmult_le_compat_r; [done|by apply Qlt_le_weak]).
  lra.
Qed.

(** And so is that of rounding down, for a normal number. *)
Lemma b64_lower x : (p2 (-1022) <= x)%Q -> (x * (1 - p2 (-52)) <= b64 x)%Q.
Proof.
  intros Hx. pose proof (p2_pos (-1022)) as Hmin. assert (Hp : (0 < x)%Q) by lra.
  rewrite b64_round_at. unfold round_at.
  destruct (ilog2_spec x Hp) as [Hl Hl2].
  assert (H0 : -1022 <= ilog2 x).
  { apply Z.lt_succ_r, p2_lt_inv. eapply Qle_lt_trans; [exact Hx|exact Hl2]. }
  assert (Eu : ulp_exp x = ilog2 x + (-52)) by (unfold ulp_exp; lia).
  set (u := ulp_exp x) in *. pose proof (p2_pos u) as Hu.
  assert (Hr : (x * p2 (- u) - 1 <= inject_Z (py_round (x * p2 (- u))))%Q).
  { generalize (x * p2 (- u))%Q. intros y. unfold py_round, Qle. cbn.
    destruct (rhe_bounds (Qnum y) (Zpos (Qden y)) ltac:(lia)) as ([_ H1] & _). lia. }
  apply Qle_trans with ((x * p2 (- u) - 1) * p2 u)%Q.
  - assert (E : ((x * p2 (- u) - 1) * p2 u == x - p2 u)%Q).
    { unfold Qminus. rewrite Qmult_plus_distr_l, <- Qmult_assoc, p2_opp_l. ring. }
    rewrite E, Eu, p2_plus. pose proof (p2_pos (-52)).
    assert (p2 (ilog2 x) * p2 (-52) <= x * p2 (-52))%Q
      by (apply Qmult_le_compat_r; [done|by apply Qlt_le_weak]).
    lra.
  - apply Qmult_le_compat_r; [done|by apply Qlt_le_weak].
Qed.

Lemma of_int_exact z : 0 <= z <= 2 ^ 53 -> (of_int z == inject_Z z)%Q.
Proof. apply b64_int. Qed.

(** A rounded result does not leave an interval with integer endpoints. *)
Lemma b64_between a b x :
  0 <= a -> b <= 2 ^ 53 ->
  (inject_Z a <= x <= inject_Z b)%Q -> (inject_Z a <= b64 x <= inject_Z b)%Q.
Proof.
  intros Ha Hb [H1 H2].
  assert (Hab : a <= b) by (rewrite Zle_Qle; eapply Qle_trans; eauto).
  assert (Ha' : (0 <= inject_Z a)%Q) by (change 0%Q with (inject_Z 0); by rewrite <- Zle_Qle).
  split.
  - rewrite <- (b64_int a) at 1 by lia. by apply b64_mono.
  - rewrite <- (b64_int b) by lia. apply b64_mono; [|done]. eapply Qle_trans; eauto.
Qed.

Create HintDb float.
#[export] Hint Resolve b64_nonneg b64_mono Qlt_le_weak Qle_refl p2_pos : float.

Lemma py_int_between a b x :
  0 <= a -> (inject_Z a <= x <= inject_Z b)%Q -> a <= py_int x <= b.
Proof.
  intros Ha [H1 H2]. unfold Qle, py_int, inject_Z in *. cbn in *.
  rewrite Z.mul_1_r in *. assert (0 <= Qnum x) by nia.
  rewrite Z.quot_div_nonneg by lia. split.
  - apply Z.div_le_lower_bound; lia.
  - apply Z.div_le_upper_bound; lia.
Qed.
