(* ===== verification/Helpers.v ===== *)
(** * General helpers

    [lib/helpers.py] and [lib/localization_syntax.py]: roman numerals, file name
    sanitising, the QueryDict/pairs/dict conversions of submission data, point
    formatting, and the [|lang:text|lang:text|] localisation syntax.  Python
    strings are [string]; the code only tests and copies characters, so any
    8-bit alphabet shows its behaviour. *)

From S2P Require Import Prelude.
From Stdlib Require Import Ascii.
#[local] Open Scope string_scope.
#[local] Open Scope list_scope.
#[local] Open Scope Z_scope.

(** ** Python string methods *)

(** [s.split(c)] for a one-character separator. *)
Fixpoint split (c : ascii) (s : string) : list string :=
  match s with
  | EmptyString => [EmptyString]
  | String a s' =>
      if Ascii.eqb a c then EmptyString :: split c s'
      else match split c s' with
           | [] => [String a EmptyString]
           | w :: ws => String a w :: ws
           end
  end.

(** [sep.join(l)]. *)
Fixpoint join (sep : string) (l : list string) : string :=
  match l with
  | [] => EmptyString
  | [w] => w
  | w :: ws => (w ++ sep ++ join sep ws)%string
  end.

(** [c in s] for a character. *)
Fixpoint contains (c : ascii) (s : string) : bool :=
  match s with
  | EmptyString => false
  | String a s' => Ascii.eqb a c || contains c s'
  end.

(** [s.startswith(p)]. *)
Fixpoint startswith (p s : string) : bool :=
  match p, s with
  | EmptyString, _ => true
  | String a p', String b s' => Ascii.eqb a b && startswith p' s'
  | String _ _, EmptyString => false
  end.

(** [s[n:]]. *)
Fixpoint drop_str (n : nat) (s : string) : string :=
  match n, s with
  | O, _ => s
  | S n', String _ s' => drop_str n' s'
  | S _, EmptyString => EmptyString
  end.

(** [s[:n]]. *)
Fixpoint take_str (n : nat) (s : string) : string :=
  match n, s with
  | O, _ => EmptyString
  | S n', String a s' => String a (take_str n' s')
  | S _, EmptyString => EmptyString
  end.

(** [s.split(c, 1)[1]], the text after the first [c]; [s] itself without one. *)
Fixpoint after_first (c : ascii) (s : string) : option string :=
  match s with
  | EmptyString => None
  | String a s' => if Ascii.eqb a c then Some s' else after_first c s'
  end.

(** The text before the first [c], the whole text without one. *)
Fixpoint before_first (c : ascii) (s : string) : string :=
  match s with
  | EmptyString => EmptyString
  | String a s' => if Ascii.eqb a c then EmptyString else String a (before_first c s')
  end.

(** [str(n)] for an integer. *)
Definition str_of_Z (n : Z) : string := pretty.pretty n.

Lemma str_of_Z_inj a b : str_of_Z a = str_of_Z b -> a = b.
Proof. apply (inj pretty.pretty). Qed.

(** ** Roman numerals *)

Definition roman_table : list (Z * string) :=
  [(1000, "M"); (900, "CM"); (500, "D"); (400, "CD"); (100, "C"); (90, "XC");
   (50, "L"); (40, "XL"); (10, "X"); (9, "IX"); (5, "V"); (4, "IV"); (1, "I")].

(** The inner [while number >= numbers[i]] loop: the letters appended and what
    is left of the number. *)
Fixpoint roman_while (fuel : nat) (v : Z) (letter : string) (number : Z) : string * Z :=
  match fuel with
  | O => (EmptyString, number)
  | S fuel' =>
      if number >=? v then
        let '(r, n) := roman_while fuel' v letter (number - v) in ((letter ++ r)%string, n)
      else (EmptyString, number)
  end.

Fixpoint roman_loop (table : list (Z * string)) (number : Z) : string :=
  match table with
  | [] => EmptyString
  | (v, letter) :: rest =>
      let '(r, n) := roman_while (Z.to_nat number) v letter number in
      (r ++ roman_loop rest n)%string
  end.

(** src/lib/helpers.py: roman_numeral.  Each turn of the [while] loop
    takes at least one off the number, so [number] turns are enough fuel. *)
Definition roman_numeral (number : Z) : string := roman_loop roman_table number.

(** ** File names *)

Definition FILENAME_CHARS : string :=
  "abcdefghijklmnopqrstuvwxyzABCDEFGHIJKLMNOPQRSTUVWXYZ._-0123456789".

Fixpoint filter_str (p : ascii -> bool) (s : string) : string :=
  match s with
  | EmptyString => EmptyString
  | String a s' => if p a then String a (filter_str p s') else filter_str p s'
  end.

(** src/lib/helpers.py: safe_file_name.  [safename[0]] raises on an
    empty name. *)
Definition safe_file_name (name : string) : result string :=
  let safename := filter_str (fun c => contains c FILENAME_CHARS) name in
  match safename with
  | EmptyString => Raise IndexError
  | String c rest =>
      if Ascii.eqb c "-" then Ret (String "_" (take_str 79 rest))
      else Ret (take_str 80 safename)
  end.

(** ** Submission data: QueryDict, pairs, dict *)

(** A QueryDict is an ordered map from keys to the list of their values. *)
Definition querydict := list (string * list string).

(** src/lib/helpers.py: query_dict_to_list_of_tuples *)
Definition query_dict_to_list_of_tuples (query_dict : querydict) : list (string * string) :=
  query_dict ≫= fun '(key, vals) => (fun val => (key, val)) <$> vals.

(** [data[key].append(value)] or [data[key] = [value]] on an ordered dict. *)
Fixpoint dict_append (data : querydict) (key value : string) : querydict :=
  match data with
  | [] => [(key, [value])]
  | (k, vs) :: data' =>
      if bool_decide (k = key) then (k, vs ++ [value])%list :: data'
      else (k, vs) :: dict_append data' key value
  end.

(** src/lib/helpers.py: pairs_to_dict *)
Definition pairs_to_dict (pairs : list (string * string)) : querydict :=
  foldl (fun data '(key, value) => dict_append data key value) [] pairs.

(** ** Points *)

(** src/lib/helpers.py: format_points *)
Definition format_points (points : Z) (is_revealed is_container : bool) : string :=
  if is_revealed then str_of_Z points
  else if is_container then (str_of_Z points ++ "+")%string
  else "?".

(** ** Localisation syntax *)

(** src/lib/localization_syntax.py: format_localization, on a dict given as
    its item list. *)
Definition format_localization (element : list (string * string)) : string :=
  ("|" ++ join "|" ((fun '(k, v) => k ++ ":" ++ v) <$> element) ++ "|")%string.

(** src/lib/localization_syntax.py: pick_localized *)
Definition pick_localized (text lang : string) : string :=
  let variants := split "|" text in
  if (2 <? length variants)%nat then
    let prefix := hd EmptyString variants in
    let suffix := List.last variants EmptyString in
    let inner := removelast (tl variants) in
    match List.find (startswith (lang ++ ":")) inner with
    | Some v => (prefix ++ drop_str (String.length lang + 1) v ++ suffix)%string
    | None =>
        match List.find (contains ":") inner with
        | Some v =>
            (prefix ++ default EmptyString (after_first ":" v) ++ suffix)%string
        | None => text
        end
    end
  else text.

(** src/lib/localization_syntax.py: parse_localized *)
Definition parse_localized (text : string) : list (option string * string) :=
  let variants := split "|" text in
  if (length variants <? 2)%nat then [(None, text)]
  else
    let prefix := hd EmptyString variants in
    let suffix := List.last variants EmptyString in
    (removelast (tl variants)) ≫= fun variant =>
      if bool_decide (variant = EmptyString) then []
      else
        let lang := before_first ":" variant in
        let data := after_first ":" variant in
        match data with
        | Some d =>
            if startswith "//" d || (3 <? String.length (before_first "-" lang))%nat
            then [(None, (prefix ++ variant ++ suffix)%string)]
            else [(Some lang, (prefix ++ d ++ suffix)%string)]
        | None => [(None, (prefix ++ variant ++ suffix)%string)]
        end.

(** ** Splitting and joining *)

Lemma append_cons a s1 s2 : (String a s1 ++ s2 = String a (s1 ++ s2))%string.
Proof. done. Qed.

Lemma append_nil s : ("" ++ s = s)%string.
Proof. done. Qed.

Create Rewrite HintDb str.
#[export] Hint Rewrite append_cons append_nil : str.

Lemma append_assoc s1 s2 s3 : (s1 ++ s2 ++ s3 = (s1 ++ s2) ++ s3)%string.
Proof. induction s1 as [|a s1 IH]; autorewrite with str; [done|]. by rewrite IH. Qed.

Lemma length_append (a b : string) : String.length (a ++ b)%string = (String.length a + String.length b)%nat.
Proof. induction a as [|x a IH]; [done|]. rewrite append_cons. cbn [String.length]. by rewrite IH. Qed.

Lemma append_cancel_r (a b c : string) : (a ++ c)%string = (b ++ c)%string -> a = b.
Proof.
  revert b. induction a as [|x a IH]; intros [|y b] E; [done| | |].
  - apply (f_equal String.length) in E. rewrite ?append_cons, ?append_nil in E. cbn [String.length] in E. rewrite length_append in E. lia.
  - apply (f_equal String.length) in E. rewrite ?append_cons, ?append_nil in E. cbn [String.length] in E. rewrite length_append in E. lia.
  - rewrite !append_cons in E. injection E as -> E. f_equal. by apply IH.
Qed.

(** Suffixes of the same length. *)
Lemma append_suffix_ne (a b s t : string) :
  String.length s = String.length t -> s <> t -> (a ++ s)%string <> (b ++ t)%string.
Proof.
  intros Hl Hne. revert b. induction a as [|x a IH]; intros [|y b] E; [done| | |].
  - apply (f_equal String.length) in E. rewrite ?append_cons, ?append_nil in E. cbn [String.length] in E. rewrite length_append in E. lia.
  - apply (f_equal String.length) in E. rewrite ?append_cons, ?append_nil in E. cbn [String.length] in E. rewrite length_append in E. lia.
  - rewrite !append_cons in E. injection E as -> E. by apply (IH b).
Qed.

Lemma contains_app c s1 s2 :
  contains c (s1 ++ s2)%string = contains c s1 || contains c s2.
Proof. induction s1 as [|a s1 IH]; simpl; [done|]. by rewrite IH, orb_assoc. Qed.

Lemma split_nosep c w : contains c w = false -> split c w = [w].
Proof.
  induction w as [|a w IH]; simpl; [done|]. intros H. b2p.
  rewrite H, IH by done. done.
Qed.

Lemma split_app_sep c w s :
  contains c w = false -> split c (w ++ String c s)%string = w :: split c s.
Proof.
  induction w as [|a w IH]; simpl; intros H.
  - by rewrite Ascii.eqb_refl.
  - b2p. by rewrite H, IH.
Qed.

(** Splitting on a separator inverts joining with it. *)
Lemma split_join c l :
  l ≠ [] -> Forall (fun w => contains c w = false) l ->
  split c (join (String c EmptyString) l) = l.
Proof.
  intros Hne Hf. induction Hf as [|w l Hw Hl IH]; [done|].
  destruct l as [|w' l]; [by apply split_nosep|].
  change (join (String c "") (w :: w' :: l))
    with (w ++ String c (join (String c "") (w' :: l)))%string.
  rewrite split_app_sep by done. f_equal. by apply IH.
Qed.

Lemma split_nonempty c s : split c s <> [].
Proof. destruct s as [|a s]; cbn; [done|]. destruct (Ascii.eqb a c); [done|]. by destruct (split c s). Qed.

Lemma string_app_assoc s1 s2 s3 : (s1 ++ (s2 ++ s3))%string = ((s1 ++ s2) ++ s3)%string.
Proof. induction s1 as [|a s1 IH]; [done|]. rewrite !append_cons. by rewrite IH. Qed.

(** Joining inverts splitting. *)
Lemma join_split c s : join (String c EmptyString) (split c s) = s.
Proof.
  induction s as [|a s IH]; [done|]. cbn [split]. pose proof (split_nonempty c s) as Hne.
  destruct (Ascii.eqb a c) eqn:E.
  - apply Ascii.eqb_eq in E as ->. destruct (split c s) as [|w l]; [done|].
    change (join (String c "") (EmptyString :: w :: l))
      with (EmptyString ++ String c (join (String c "") (w :: l)))%string.
    by rewrite IH.
  - destruct (split c s) as [|w l]; [done|]. destruct l as [|w2 l]; cbn in *; by rewrite <- IH.
Qed.

Lemma join_app_sep c l :
  l ≠ [] ->
  (join (String c EmptyString) l ++ String c EmptyString)%string =
  join (String c EmptyString) (l ++ [EmptyString]).
Proof.
  induction l as [|w l IH]; [done|intros _].
  destruct l as [|w' l]; [done|].
  change (join (String c "") ((w :: w' :: l) ++ [""])%list)
    with (w ++ String c "" ++ join (String c "") ((w' :: l) ++ [""])%list)%string.
  rewrite <- IH by done.
  change (join (String c "") (w :: w' :: l))
    with (w ++ String c "" ++ join (String c "") (w' :: l))%string.
  by rewrite <- !append_assoc.
Qed.

Lemma startswith_app p s : startswith p (p ++ s)%string = true.
Proof.
  induction p as [|a p IH]; [by destruct s|].
  rewrite append_cons. cbn. by rewrite Ascii.eqb_refl.
Qed.

Lemma drop_str_app p s : drop_str (String.length p) (p ++ s)%string = s.
Proof. induction p; simpl; auto. Qed.

(** [k:v] starts with [lang:] exactly when [k] is [lang], for keys without a colon. *)
Lemma startswith_key lang k v :
  contains ":" lang = false -> contains ":" k = false ->
  startswith (lang ++ ":")%string (k ++ ":" ++ v)%string = bool_decide (lang = k).
Proof.
  revert k. induction lang as [|a lang IH]; intros [|b k] Hl Hk; autorewrite with str;
    cbn [startswith contains] in *; b2p.
  - done.
  - rewrite Ascii.eqb_sym, H. symmetry. by apply bool_decide_eq_false.
  - rewrite H. symmetry. by apply bool_decide_eq_false.
  - rewrite IH by done. destruct (Ascii.eqb_spec a b) as [<-|Hne]; cbn.
    + apply bool_decide_ext. split; [by intros ->|congruence].
    + symmetry. apply bool_decide_eq_false. congruence.
Qed.

Lemma after_first_key k v : contains ":" k = false -> after_first ":" (k ++ ":" ++ v)%string = Some v.
Proof. induction k as [|a k IH]; simpl; intros H; [done|]. b2p. by rewrite H, IH. Qed.

(** The value of a language in a list of dict items, the first one for an absent
    language: what [pick_localized] is meant to select. *)
Fixpoint dict_lookup (element : list (string * string)) (lang : string) : option string :=
  match element with
  | [] => None
  | (k, v) :: rest => if bool_decide (lang = k) then Some v else dict_lookup rest lang
  end.

Definition item_text (kv : string * string) : string := (kv.1 ++ ":" ++ kv.2)%string.

Lemma pick_find_lang element lang :
  contains ":" lang = false ->
  Forall (fun kv => contains ":" kv.1 = false) element ->
  match List.find (startswith (lang ++ ":")) (item_text <$> element) with
  | Some t => dict_lookup element lang = Some (drop_str (String.length lang + 1) t)
  | None => dict_lookup element lang = None
  end.
Proof.
  intros Hl. induction 1 as [|[k v] rest Hk _ IH]; [done|].
  rewrite fmap_cons. cbn [List.find dict_lookup] in *.
  change (item_text (k, v)) with (k ++ ":" ++ v)%string.
  rewrite startswith_key by done.
  destruct (decide (lang = k)) as [<-|Hne].
  - rewrite !bool_decide_eq_true_2 by done. f_equal.
    rewrite append_assoc.
    replace (String.length lang + 1)%nat with (String.length (lang ++ ":")).
    + by rewrite drop_str_app.
    + clear. induction lang; autorewrite with str; cbn [String.length Nat.add]; congruence.
  - rewrite !bool_decide_eq_false_2 by done. done.
Qed.

Definition localizable (element : list (string * string)) : Prop :=
  element ≠ [] /\
  Forall (fun kv => contains "|" kv.1 = false /\ contains "|" kv.2 = false
                    /\ contains ":" kv.1 = false) element.

Lemma split_format element :
  localizable element ->
  split "|" (format_localization element) = (EmptyString :: (item_text <$> element) ++ [EmptyString])%list.
Proof.
  intros [Hne Hf]. unfold format_localization.
  autorewrite with str. cbn [split]. rewrite Ascii.eqb_refl. f_equal.
  replace ((λ '(k, v), (k ++ ":" ++ v)%string) <$> element) with (item_text <$> element)
    by (apply list_fmap_ext; by intros ? [] ?).
  rewrite join_app_sep by (by destruct element).
  apply split_join; [by destruct element|].
  apply Forall_app. split; [|by repeat constructor].
  apply Forall_fmap. eapply Forall_impl; [exact Hf|]. intros [k v] (H1 & H2 & _). cbn in *.
  unfold item_text. cbn [fst snd]. rewrite !contains_app. cbn [contains]. by rewrite H1, H2.
Qed.

Lemma last_snoc_string (l : list string) x d : List.last (l ++ [x]) d = x.
Proof. induction l as [|y [|z l] IH]; cbn in *; auto. Qed.

Lemma append_nil_r s : (s ++ "" = s)%string.
Proof. induction s as [|a s IH]; autorewrite with str; [done|]. by rewrite IH. Qed.

(** [pick_localized] selects from a formatted dict the requested language's text,
    and the first item's text when the language is absent. *)
Theorem pick_localized_format element lang :
  localizable element -> contains ":" lang = false ->
  pick_localized (format_localization element) lang =
  default (default EmptyString (snd <$> head element)) (dict_lookup element lang).
Proof.
  intros Hloc Hl. unfold pick_localized. rewrite split_format by done.
  destruct Hloc as [Hne Hf].
  assert (Hk : Forall (fun kv => contains ":" kv.1 = false) element)
    by (eapply Forall_impl; [exact Hf|]; intros ? (? & ? & ?); done).
  pose proof (pick_find_lang element lang Hl Hk) as Hfind.
  set (items := item_text <$> element) in *.
  assert (Hlen : (2 <? length ("" :: items ++ [""])%list)%nat = true).
  { apply Nat.ltb_lt. cbn. rewrite length_app. unfold items. rewrite length_fmap.
    destruct element; [done|]. cbn. lia. }
  rewrite Hlen. cbn [hd tl].
  change (List.last ("" :: items ++ [""])%list "")
    with (List.last (("" :: items) ++ [""])%list "").
  rewrite last_snoc_string, removelast_last.
  destruct (List.find _ items) as [t|]; rewrite Hfind; cbn.
  - autorewrite with str. by rewrite append_nil_r.
  - destruct element as [|[k v] rest]; [done|]. inversion_clear Hk as [|? ? Hk1 _].
    cbn [fst snd] in Hk1. subst items. rewrite fmap_cons. cbn [List.find].
    change (item_text (k, v)) with (k ++ ":" ++ v)%string.
    replace (contains ":" (k ++ ":" ++ v)%string) with true
      by (rewrite !contains_app; cbn [contains]; by rewrite orb_true_r).
    rewrite after_first_key by done. cbn.
    autorewrite with str. by rewrite append_nil_r.
Qed.

Lemma pick_localized_format_witness :
  localizable [("en", "Intro"); ("fi", "Johdanto")] /\
  pick_localized (format_localization [("en", "Intro"); ("fi", "Johdanto")]) "fi" = "Johdanto".
Proof.
  assert (H : localizable [("en", "Intro"); ("fi", "Johdanto")])
    by (split; [discriminate|repeat constructor]).
  split; [exact H|].
  rewrite (pick_localized_format _ "fi" H ltac:(reflexivity)). reflexivity.
Defined.

(** ** Submission data *)

Lemma dict_append_last data key vs v :
  key ∉ data.*1 ->
  dict_append (data ++ [(key, vs)]) key v = (data ++ [(key, (vs ++ [v])%list)])%list.
Proof.
  induction data as [|[k w] data IH]; cbn; intros Hni.
  - by rewrite bool_decide_eq_true_2.
  - apply not_elem_of_cons in Hni as [Hne Hni].
    rewrite bool_decide_eq_false_2 by congruence. by rewrite IH.
Qed.

Lemma dict_append_new data key v :
  key ∉ data.*1 -> dict_append data key v = (data ++ [(key, [v])])%list.
Proof.
  induction data as [|[k w] data IH]; cbn; intros Hni; [done|].
  apply not_elem_of_cons in Hni as [Hne Hni].
  rewrite bool_decide_eq_false_2 by congruence. by rewrite IH.
Qed.

Definition append_pair (data : querydict) (kv : string * string) : querydict :=
  let '(key, value) := kv in dict_append data key value.

Lemma append_pairs_same data key vs ws :
  key ∉ data.*1 ->
  foldl append_pair (data ++ [(key, vs)]) (pair key <$> ws) = (data ++ [(key, (vs ++ ws)%list)])%list.
Proof.
  revert vs. induction ws as [|w ws IH]; intros vs Hni; cbn; [by rewrite app_nil_r|].
  rewrite dict_append_last, IH by done. by rewrite <- app_assoc.
Qed.

Lemma append_query_dict data qd :
  NoDup (data.*1 ++ qd.*1) -> Forall (fun kv => kv.2 ≠ []) qd ->
  foldl append_pair data (query_dict_to_list_of_tuples qd) = (data ++ qd)%list.
Proof.
  revert data. induction qd as [|[k vs] qd IH]; intros data Hnd Hf; cbn.
  - by rewrite app_nil_r.
  - inversion_clear Hf as [|? ? Hv Hf']. destruct vs as [|v vs]; [done|].
    rewrite foldl_app. cbn in *.
    assert (Hni : k ∉ data.*1).
    { apply NoDup_app in Hnd as (_ & Hd & _). intros Hin. apply (Hd k Hin). by left. }
    rewrite dict_append_new by done.
    rewrite append_pairs_same by done.
    rewrite IH; [by rewrite <- app_assoc| |done].
    rewrite fmap_app, <- app_assoc. done.
Qed.

(** A QueryDict survives the conversion to pairs (how submission data is stored)
    and back (how it is posted to the grader). *)
Theorem query_dict_roundtrip qd :
  NoDup qd.*1 -> Forall (fun kv => kv.2 ≠ []) qd ->
  pairs_to_dict (query_dict_to_list_of_tuples qd) = qd.
Proof. intros Hnd Hf. exact (append_query_dict [] qd Hnd Hf). Qed.

Lemma query_dict_roundtrip_witness :
  pairs_to_dict (query_dict_to_list_of_tuples [("q1", ["a"]); ("q2", ["x"; "y"])])
  = [("q1", ["a"]); ("q2", ["x"; "y"])].
Proof.
  apply query_dict_roundtrip; [apply (bool_decide_unpack _); vm_compute; exact I|].
  repeat constructor; discriminate.
Defined.

(** ** Roman numerals denote their number *)

Definition roman_digit (a : ascii) : Z :=
  match list_find (fun p => Ascii.eqb a p.1 = true)
    [("M"%char, 1000); ("D"%char, 500); ("C"%char, 100); ("L"%char, 50);
     ("X"%char, 10); ("V"%char, 5); ("I"%char, 1)] with
  | Some (_, (_, v)) => v
  | None => 0
  end.

(** The usual reading: a digit before a larger one is subtracted. *)
Fixpoint roman_value (s : string) : Z :=
  match s with
  | EmptyString => 0
  | String a rest =>
      match rest with
      | EmptyString => roman_digit a
      | String b _ =>
          if roman_digit a <? roman_digit b then roman_value rest - roman_digit a
          else roman_digit a + roman_value rest
      end
  end.

Fixpoint repeat_str (n : nat) (s : string) : string :=
  match n with
  | O => EmptyString
  | S n' => (s ++ repeat_str n' s)%string
  end.

Lemma roman_while_spec fuel v letter number :
  0 < v -> 0 <= number -> (Z.to_nat number <= fuel)%nat ->
  roman_while fuel v letter number = (repeat_str (Z.to_nat (number / v)) letter, number mod v).
Proof.
  intros Hv. revert number. induction fuel as [|fuel IH]; intros number Hn Hf; cbn.
  - assert (number = 0) as -> by lia. by rewrite Z.div_0_l, Z.mod_0_l by lia.
  - destruct (number >=? v) eqn:E; rewrite Z.geb_leb in E; b2p.
    + rewrite IH by lia.
      replace number with (number - v + 1 * v) at 3 4 by lia.
      rewrite Z.div_add, Z.mod_add by lia.
      rewrite Z2Nat.inj_add by (try apply Z.div_pos; lia).
      replace (Z.to_nat ((number - v) / v) + Z.to_nat 1)%nat
        with (S (Z.to_nat ((number - v) / v))) by lia.
      done.
    + by rewrite Z.div_small, Z.mod_small by lia.
Qed.

Lemma roman_digit_le a : roman_digit a <= 1000.
Proof. unfold roman_digit. cbn. repeat case_decide; cbn; lia. Qed.

Lemma roman_value_M q s : roman_value (repeat_str q "M" ++ s) = 1000 * Z.of_nat q + roman_value s.
Proof.
  induction q as [|q IH]; [cbn [repeat_str]; autorewrite with str; lia|].
  cbn [repeat_str]. autorewrite with str. cbn [roman_value].
  change (roman_digit "M") with 1000.
  destruct (repeat_str q "M" ++ s)%string as [|b t] eqn:E; [cbn in *; lia|].
  pose proof (roman_digit_le b). destruct (1000 <? roman_digit b) eqn:L; b2p; lia.
Qed.

Lemma roman_below_1000 :
  forallb (fun r => roman_value (roman_loop (tl roman_table) (Z.of_nat r)) =? Z.of_nat r)
    (List.seq 0 1000) = true.
Proof. vm_compute. reflexivity. Qed.

(** The numeral printed for a non-negative order number denotes that number. *)
Theorem roman_numeral_value n : 0 <= n -> roman_value (roman_numeral n) = n.
Proof.
  intros Hn.
  assert (E : roman_numeral n =
    (repeat_str (Z.to_nat (n / 1000)) "M" ++ roman_loop (tl roman_table) (n mod 1000))%string).
  { unfold roman_numeral, roman_table. cbn [roman_loop]. by rewrite roman_while_spec by lia. }
  rewrite E, roman_value_M.
  pose proof (Z.mod_pos_bound n 1000 ltac:(lia)) as Hm.
  pose proof roman_below_1000 as Hall. rewrite forallb_forall in Hall.
  specialize (Hall (Z.to_nat (n mod 1000)) ltac:(apply in_seq; lia)).
  apply Z.eqb_eq in Hall. rewrite Z2Nat.id in Hall by lia. rewrite Hall.
  pose proof (Z.div_mod n 1000 ltac:(lia)).
  rewrite Z2Nat.id by (apply Z.div_pos; lia). lia.
Qed.

Lemma roman_numeral_value_witness : roman_value (roman_numeral 1994) = 1994.
Proof. apply roman_numeral_value. lia. Defined.

(** ** Sanitised file names *)

Fixpoint all_chars (p : ascii -> bool) (s : string) : bool :=
  match s with
  | EmptyString => true
  | String a s' => p a && all_chars p s'
  end.

Lemma all_chars_filter p s : all_chars p (filter_str p s) = true.
Proof. induction s as [|a s IH]; cbn; [done|]. destruct (p a) eqn:E; cbn; [by rewrite E|done]. Qed.

Lemma all_chars_take p n s : all_chars p s = true -> all_chars p (take_str n s) = true.
Proof.
  revert s. induction n as [|n IH]; intros [|a s] H; cbn in *; try done.
  b2p. by rewrite H, IH.
Qed.

Lemma length_take_str n s : (String.length (take_str n s) <= n)%nat.
Proof. revert s. induction n as [|n IH]; intros [|a s]; cbn; try lia. specialize (IH s). lia. Qed.

Definition safe_char (c : ascii) : bool := contains c FILENAME_CHARS.

(** A sanitised name is non-empty, at most 80 characters long, made of the
    allowed characters only, and never starts with a dash; the call raises
    exactly when the name has no allowed character. *)
Theorem safe_file_name_spec name :
  match safe_file_name name with
  | Ret s => (0 < String.length s <= 80)%nat /\ all_chars safe_char s = true /\
             startswith "-" s = false
  | Raise e => e = IndexError /\ filter_str safe_char name = EmptyString
  end.
Proof.
  unfold safe_file_name. fold safe_char.
  pose proof (all_chars_filter safe_char name) as Hall.
  destruct (filter_str safe_char name) as [|c rest]; [done|].
  cbn [all_chars] in Hall. apply andb_prop in Hall as [Hc Hr].
  destruct (Ascii.eqb_spec c "-") as [->|Hne].
  - pose proof (length_take_str 79 rest). split; [cbn [String.length]; lia|].
    split; [|done]. cbn [all_chars]. rewrite all_chars_take by done. reflexivity.
  - pose proof (length_take_str 79 rest).
    change (take_str 80 (String c rest)) with (String c (take_str 79 rest)).
    split; [cbn [String.length]; lia|]. cbn [all_chars startswith].
    rewrite Hc, all_chars_take by done. split; [done|].
    rewrite andb_true_r. by apply Ascii.eqb_neq.
Qed.
