(* ===== verification/Course.v ===== *)
(** * Course instances, modules, groups and enrollments

    [course/models.py].  The database tables the operations read and write are
    explicit: the enrollment table is a finite map from (course instance id,
    user profile id) to enrollment rows, which is exactly the [unique_together]
    constraint of the Django model.  Text, image and URL columns that no modelled
    operation reads are left out of the records. *)

From Stdlib Require Import QArith Lqa Ascii.
From S2P Require Import Prelude Binary64 Helpers.
#[local] Open Scope Z_scope.
#[local] Set Warnings "-clear-no-such-hyp".

(** ** Users *)

(** src/userprofile/models.py: UserProfile lines 66-85 *)
Record UserProfile := mkProfile {
  profile_id : Z;
  student_id : option string;
  organization : string;
}.

#[global] Instance UserProfile_eq_dec : EqDecision UserProfile.
Proof. solve_decision. Defined.

(** src/userprofile/models.py: UserProfile.is_external *)
Definition is_external `{Settings} (p : UserProfile) : bool :=
  negb (bool_decide (organization p = LOCAL_ORGANIZATION)).

(** A Django [User] row with its profile. *)
Record User := mkUser {
  user_id : Z;
  is_superuser : bool;
  is_staff : bool;
  userprofile : UserProfile;
}.

(** What [request.user] or a [user] argument can be.  A [GraderUser] carries the
    ids of the courses its token may write (src/userprofile/models.py). *)
Inductive AnyUser :=
| NoUser
| AnonymousUser
| NormalUser (u : User)
| GraderUser (write_courses : list Z).

(** [user.is_authenticated] for a given user object. *)
Definition is_authenticated (u : AnyUser) : bool :=
  match u with
  | NormalUser _ | GraderUser _ => true
  | NoUser | AnonymousUser => false
  end.

(** ** Groups *)

(** src/course/models.py: StudentGroup lines 120-142 *)
Record StudentGroup := mkGroup {
  group_id : Z;
  group_instance : Z;
  members : list UserProfile;
}.

Definition profile_set (ps : list UserProfile) : gset Z := list_to_set (profile_id <$> ps).

(** src/course/models.py: StudentGroup.equals.  Two profiles are the same row
    when their ids are equal. *)
Definition group_equals (g : StudentGroup) (profiles : list UserProfile) : bool :=
  bool_decide (profile_set (members g) = profile_set profiles).

(** src/course/models.py: StudentGroup.get_exact_from *)
Fixpoint get_exact_from (search_from : list StudentGroup) (member_profiles : list UserProfile)
    : option StudentGroup :=
  match search_from with
  | [] => None
  | group :: rest =>
      if group_equals group member_profiles then Some group
      else get_exact_from rest member_profiles
  end.

(** src/course/models.py: StudentGroup.get_exact.  [member_profiles[0]] raises
    on an empty list. *)
Definition get_exact (groups : list StudentGroup) (course_instance : Z)
    (member_profiles : list UserProfile) : result (option StudentGroup) :=
  match member_profiles with
  | [] => Raise IndexError
  | p0 :: _ =>
      Ret (get_exact_from
             (filter (fun g => group_instance g = course_instance /\
                               profile_id p0 ∈ profile_set (members g)) groups)
             member_profiles)
  end.

(** src/course/models.py: StudentGroup.filter_collaborators_of *)
Definition filter_collaborators_of (ms : list UserProfile) (profile : UserProfile)
    : list UserProfile :=
  filter (fun p => profile_id p ≠ profile_id profile) ms.

(** ** Enrollments *)

Module EnrollmentRole.
Inductive t := STUDENT | ASSISTANT | TEACHER.
#[global] Instance eq_dec : EqDecision t.
Proof. solve_decision. Defined.
End EnrollmentRole.

Module EnrollmentStatus.
Inductive t := ACTIVE | REMOVED | BANNED | PENDING.
#[global] Instance eq_dec : EqDecision t.
Proof. solve_decision. Defined.
End EnrollmentStatus.

(** src/course/models.py: Enrollment lines 189-265 *)
Record Enrollment := mkEnrollment {
  role : EnrollmentRole.t;
  status : EnrollmentStatus.t;
  from_sis : bool;
  selected_group : option Z;
}.

Definition with_status (e : Enrollment) (s : EnrollmentStatus.t) : Enrollment :=
  mkEnrollment (role e) s (from_sis e) (selected_group e).
Definition with_from_sis (e : Enrollment) (b : bool) : Enrollment :=
  mkEnrollment (role e) (status e) b (selected_group e).

(** The enrollment table: (course instance id, user profile id) to row. *)
Abbreviation EnrollmentDB := (gmap (Z * Z) Enrollment).

(** ** Course instances *)

Module EnrollmentAudience.
Inductive t := INTERNAL_USERS | EXTERNAL_USERS | ALL_USERS.
#[global] Instance eq_dec : EqDecision t.
Proof. solve_decision. Defined.
End EnrollmentAudience.

Module ViewAccess.
Inductive t := ENROLLED | ENROLLMENT_AUDIENCE | ALL_REGISTERED | PUBLIC.
#[global] Instance eq_dec : EqDecision t.
Proof. solve_decision. Defined.
End ViewAccess.

Module ContentNumbering.
Inductive t := NONE | ARABIC | ROMAN | HIDDEN.
#[global] Instance eq_dec : EqDecision t.
Proof. solve_decision. Defined.
End ContentNumbering.

(** src/course/models.py: CourseInstance lines 625-799 *)
Record CourseInstance := mkInstance {
  instance_id : Z;
  course_id : Z;
  instance_name : string;
  instance_url : string;
  visible_to_students : bool;
  enrollment_audience : EnrollmentAudience.t;
  view_content_to : ViewAccess.t;
  starting_time : datetime;
  ending_time : datetime;
  lifesupport_time : option datetime;
  archive_time : option datetime;
  enrollment_starting_time : option datetime;
  enrollment_ending_time : option datetime;
  language : string;
  module_numbering : ContentNumbering.t;
  content_numbering : ContentNumbering.t;
}.

(** src/course/models.py: CourseInstance.is_open *)
Definition instance_is_open (self : CourseInstance) (when : datetime) : bool :=
  (starting_time self <=? when) && (when <=? ending_time self).

(** src/course/models.py: CourseInstance.is_past *)
Definition is_past (self : CourseInstance) (when : datetime) : bool :=
  ending_time self <? when.

(** src/course/models.py: CourseInstance.archive_start *)
Definition archive_start (self : CourseInstance) : datetime :=
  default (ending_time self + days 365) (archive_time self).

(** src/course/models.py: CourseInstance.lifesupport_start *)
Definition lifesupport_start (self : CourseInstance) : datetime :=
  default (ending_time self + days 365) (lifesupport_time self).

(** src/course/models.py: CourseInstance.is_on_lifesupport *)
Definition is_on_lifesupport (self : CourseInstance) (when : datetime) : bool :=
  lifesupport_start self <? when.

(** src/course/models.py: CourseInstance.is_archived *)
Definition is_archived (self : CourseInstance) (when : datetime) : bool :=
  archive_start self <? when.

(** src/course/models.py: CourseInstance.enrollment_start *)
Definition enrollment_start (self : CourseInstance) : datetime :=
  default (starting_time self) (enrollment_starting_time self).

(** src/course/models.py: CourseInstance.enrollment_end *)
Definition enrollment_end (self : CourseInstance) : datetime :=
  default (ending_time self) (enrollment_ending_time self).

(** src/course/models.py: CourseInstance.is_enrollment_open *)
Definition is_enrollment_open (self : CourseInstance) (now : datetime) : bool :=
  (enrollment_start self <=? now) && (now <=? enrollment_end self).

(** src/course/models.py: CourseInstance.has_enrollment_closed *)
Definition has_enrollment_closed (self : CourseInstance) (now : datetime) : bool :=
  enrollment_end self <? now.

(** ** Roles *)

Section Roles.
Context `{Settings}.

(** Whether the profile has an enrollment row in this instance satisfying [P]. *)
Definition enrolled_as (self : CourseInstance) (db : EnrollmentDB) (p : UserProfile)
    (P : Enrollment -> bool) : bool :=
  match db !! (instance_id self, profile_id p) with
  | Some e => P e
  | None => false
  end.

Definition active_role (r : EnrollmentRole.t) (e : Enrollment) : bool :=
  bool_decide (role e = r) && bool_decide (status e = EnrollmentStatus.ACTIVE).

(** src/course/models.py: CourseInstance.is_assistant, with the [assistants]
    queryset. *)
Definition is_assistant (self : CourseInstance) (db : EnrollmentDB) (user : AnyUser) : bool :=
  match user with
  | NormalUser u => enrolled_as self db (userprofile u) (active_role EnrollmentRole.ASSISTANT)
  | NoUser | AnonymousUser | GraderUser _ => false
  end.

(** src/course/models.py: CourseInstance.is_teacher, with the [teachers]
    queryset. *)
Definition is_teacher (self : CourseInstance) (db : EnrollmentDB) (user : AnyUser) : bool :=
  match user with
  | NormalUser u =>
      is_superuser u
      || enrolled_as self db (userprofile u) (active_role EnrollmentRole.TEACHER)
  | GraderUser write_courses => bool_decide (course_id self ∈ write_courses)
  | NoUser | AnonymousUser => false
  end.

(** src/course/models.py: CourseInstance.is_course_staff *)
Definition is_course_staff (self : CourseInstance) (db : EnrollmentDB) (user : AnyUser) : bool :=
  is_teacher self db user || is_assistant self db user.

(** src/course/models.py: CourseInstance.is_student, with the [students]
    queryset. *)
Definition is_student (self : CourseInstance) (db : EnrollmentDB) (user : AnyUser) : bool :=
  match user with
  | NormalUser u => enrolled_as self db (userprofile u) (active_role EnrollmentRole.STUDENT)
  | NoUser | AnonymousUser | GraderUser _ => false
  end.

(** Whether some enrollment row of the profile, in any instance, satisfies [P]. *)
Definition any_enrollment (db : EnrollmentDB) (p : UserProfile) (P : Enrollment -> bool) : bool :=
  existsb (fun '((_, pid), e) => (pid =? profile_id p) && P e) (map_to_list db).

(** src/course/models.py: CourseInstance.is_banned.  [all_students] joins the
    enrollment table once, and the chained [.filter(enrollment__status=BANNED)]
    joins it a second time: the two conditions need not be about the same row. *)
Definition is_banned (self : CourseInstance) (db : EnrollmentDB) (user : AnyUser) : bool :=
  match user with
  | NormalUser u =>
      enrolled_as self db (userprofile u) (fun e => bool_decide (role e = EnrollmentRole.STUDENT))
      && any_enrollment db (userprofile u) (fun e => bool_decide (status e = EnrollmentStatus.BANNED))
  | NoUser | AnonymousUser | GraderUser _ => false
  end.

(** src/course/models.py: CourseInstance.get_enrollment_for.  [None] and the
    anonymous user have no [userprofile]; a grader user is its own
    [userprofile], which the ORM refuses in a query. *)
Definition get_enrollment_for (self : CourseInstance) (db : EnrollmentDB) (user : AnyUser)
    : result (option Enrollment) :=
  match user with
  | NormalUser u => Ret (db !! (instance_id self, profile_id (userprofile u)))
  | NoUser | AnonymousUser => Raise AttributeError
  | GraderUser _ => Raise TypeError
  end.

(** src/course/models.py: CourseInstance.is_enrollable *)
Definition is_enrollable (self : CourseInstance) (db : EnrollmentDB) (user : AnyUser) : result bool :=
  if is_course_staff self db user then Ret true
  else
    let! enrollment := get_enrollment_for self db user in
    let banned :=
      match enrollment with
      | Some e => bool_decide (status e = EnrollmentStatus.BANNED)
      | None => false
      end in
    if banned then Ret false
    else
      match user with
      | NormalUser u =>
          if visible_to_students self then
            match enrollment_audience self with
            | EnrollmentAudience.INTERNAL_USERS => Ret (negb (is_external (userprofile u)))
            | EnrollmentAudience.EXTERNAL_USERS => Ret (is_external (userprofile u))
            | EnrollmentAudience.ALL_USERS => Ret true
            end
          else Ret false
      | _ => Ret false
      end.

(** src/course/models.py: CourseInstance.is_visible_to *)
Definition is_visible_to (self : CourseInstance) (db : EnrollmentDB) (user : AnyUser) : bool :=
  visible_to_students self || is_course_staff self db user.

(** src/course/models.py: CourseInstance.enroll_student.  Returns whether the
    user was newly enrolled, with the table after the call. *)
Definition enroll_student (self : CourseInstance) (user : AnyUser) (sis use_pending : bool)
    (db : EnrollmentDB) : result (bool * EnrollmentDB) :=
  let new_status := if use_pending then EnrollmentStatus.PENDING else EnrollmentStatus.ACTIVE in
  match user with
  | NoUser | AnonymousUser => Ret (false, db)
  | GraderUser _ => Raise TypeError
  | NormalUser u =>
      let key := (instance_id self, profile_id (userprofile u)) in
      match db !! key with
      | Some enrollment =>
          if bool_decide (status enrollment = EnrollmentStatus.ACTIVE)
             || bool_decide (status enrollment = EnrollmentStatus.PENDING)
          then
            let e1 :=
              if bool_decide (status enrollment = EnrollmentStatus.PENDING) && negb use_pending
              then with_status enrollment EnrollmentStatus.ACTIVE else enrollment in
            let e2 :=
              if negb (from_sis e1) && sis && bool_decide (role e1 = EnrollmentRole.STUDENT)
              then with_from_sis e1 sis else e1 in
            Ret (false, <[key := e2]> db)
          else
            Ret (true, <[key := mkEnrollment EnrollmentRole.STUDENT new_status sis
                                  (selected_group enrollment)]> db)
      | None =>
          Ret (true, <[key := mkEnrollment EnrollmentRole.STUDENT new_status sis None]> db)
      end
  end.

(** [UserProfile.get_by_student_id]: the one local user with this student id. *)
Definition get_by_student_id (users : list User) (sid : string) : result User :=
  match filter (fun u => student_id (userprofile u) = Some sid /\
                         organization (userprofile u) = LOCAL_ORGANIZATION) users with
  | [u] => Ret u
  | _ => Raise DoesNotExist
  end.

(** One turn of the participant loop of [enroll_from_sis]: unknown and duplicate
    student ids are skipped. *)
Definition enroll_participant (self : CourseInstance) (users : list User) (use_pending : bool)
    (acc : Z * EnrollmentDB) (sid : string) : Z * EnrollmentDB :=
  let '(addcount, db) := acc in
  match get_by_student_id users sid with
  | Ret u =>
      match enroll_student self (NormalUser u) true use_pending db with
      | Ret (true, db') => (addcount + 1, db')
      | Ret (false, db') => (addcount, db')
      | Raise _ => (addcount, db)
      end
  | Raise _ => (addcount, db)
  end.

(** The student id of the profile with this id. *)
Definition student_id_of (users : list User) (pid : Z) : option string :=
  match filter (fun u => profile_id (userprofile u) = pid) users with
  | u :: _ => student_id (userprofile u)
  | [] => None
  end.

(** The rows the removal query of [enroll_from_sis] selects. *)
Definition sis_removable (self : CourseInstance) (users : list User) (participants : list string)
    (key : Z * Z) (e : Enrollment) : bool :=
  (key.1 =? instance_id self) && from_sis e
  && negb (bool_decide (status e = EnrollmentStatus.REMOVED))
  && negb match student_id_of users key.2 with
          | Some sid => bool_decide (sid ∈ participants)
          | None => false
          end.

(** src/course/models.py: CourseInstance.enroll_from_sis.  [sis] is the
    participant list the student information system answers: [None] when no
    system is configured, an exception when the request fails.  Returns the
    numbers of enrolled and removed students, -1 on a failure. *)
Definition enroll_from_sis (self : CourseInstance) (users : list User)
    (sis : option (result (list string))) (use_pending : bool) (db : EnrollmentDB)
    : (Z * Z) * EnrollmentDB :=
  match sis with
  | None | Some (Raise _) => ((-1, -1), db)
  | Some (Ret participants) =>
      let '(addcount, db1) :=
        foldl (enroll_participant self users use_pending) (0, db) participants in
      match participants with
      | [] => ((0, 0), db1)
      | _ :: _ =>
          let delcount :=
            length (filter (fun ke => sis_removable self users participants ke.1 ke.2 = true)
                      (map_to_list db1)) in
          let db2 := map_imap (fun k e =>
            Some (if sis_removable self users participants k e
                  then with_status e EnrollmentStatus.REMOVED else e)) db1 in
          ((addcount, Z.of_nat delcount), db2)
      end
  end.

(** [update_or_create] of an active enrollment with the given role. *)
Definition put_role (self : CourseInstance) (r : EnrollmentRole.t) (db : EnrollmentDB)
    (p : UserProfile) : EnrollmentDB :=
  let key := (instance_id self, profile_id p) in
  match db !! key with
  | Some e => <[key := mkEnrollment r EnrollmentStatus.ACTIVE (from_sis e) (selected_group e)]> db
  | None => <[key := mkEnrollment r EnrollmentStatus.ACTIVE false None]> db
  end.

(** src/course/models.py: CourseInstance.set_users_with_role *)
Definition set_users_with_role (self : CourseInstance) (users : list UserProfile)
    (r : EnrollmentRole.t) (remove_others_with_role : bool) (db : EnrollmentDB) : EnrollmentDB :=
  let db1 := foldl (put_role self r) db users in
  if remove_others_with_role then
    map_imap (fun k e =>
      Some (if (k.1 =? instance_id self) && active_role r e
               && negb (bool_decide (k.2 ∈ profile_id <$> users))
            then with_status e EnrollmentStatus.REMOVED else e)) db1
  else db1.

(** src/course/models.py: CourseInstance.add_assistant *)
Definition add_assistant self user := set_users_with_role self [user] EnrollmentRole.ASSISTANT false.
(** src/course/models.py: CourseInstance.clear_assistants *)
Definition clear_assistants self := set_users_with_role self [] EnrollmentRole.ASSISTANT true.
(** src/course/models.py: CourseInstance.set_assistants *)
Definition set_assistants self users := set_users_with_role self users EnrollmentRole.ASSISTANT true.
(** src/course/models.py: CourseInstance.add_teacher *)
Definition add_teacher self user := set_users_with_role self [user] EnrollmentRole.TEACHER false.
(** src/course/models.py: CourseInstance.clear_teachers *)
Definition clear_teachers self := set_users_with_role self [] EnrollmentRole.TEACHER true.
(** src/course/models.py: CourseInstance.set_teachers *)
Definition set_teachers self users := set_users_with_role self users EnrollmentRole.TEACHER true.
End Roles.

(** ** Validation and derived data of a course instance *)

Section InstanceData.
Context `{Settings}.

(** [s.lstrip(c)] for one character. *)
Fixpoint lstrip (c : Ascii.ascii) (s : string) : string :=
  match s with
  | EmptyString => EmptyString
  | String a s' => if Ascii.eqb a c then lstrip c s' else s
  end.

(** [s.rstrip(c)]. *)
Fixpoint rstrip (c : Ascii.ascii) (s : string) : string :=
  match s with
  | EmptyString => EmptyString
  | String a s' =>
      match rstrip c s' with
      | EmptyString => if Ascii.eqb a c then EmptyString else String a EmptyString
      | r => String a r
      end
  end.

(** src/course/models.py: CourseInstance.is_valid_language *)
Definition is_valid_language (lang : string) : bool :=
  bool_decide (lang = ""%string) || bool_decide (lang ∈ LANGUAGES).

(** src/course/models.py: CourseInstance.languages *)
Definition languages (self : CourseInstance) : list string :=
  split "|" (rstrip "|" (lstrip "|" (language self))).

(** src/course/models.py: CourseInstance.default_language *)
Definition default_language (self : CourseInstance) : string :=
  let language_code := before_first "|" (lstrip "|" (language self)) in
  if bool_decide (language_code = ""%string) then before_first "-" LANGUAGE_CODE
  else language_code.

Definition RESERVED_URLS : list string := ["instances"%string].

Definition clean_language (self : CourseInstance) : list string :=
  if startswith "|" (language self) then
    let langs := filter (fun l => l ≠ ""%string) (split "|" (language self)) in
    if forallb is_valid_language langs then [] else ["language"%string]
  else if is_valid_language (language self) then [] else ["language"%string].

(** src/course/models.py: CourseInstance.clean.  The errors dict is represented
    by its keys. *)
Definition instance_clean (self : CourseInstance) : result unit :=
  let err (b : bool) (field : string) : list string := if b then [field] else [] in
  let archive_err :=
    match archive_time self, lifesupport_time self with
    | Some _, None | None, Some _ => true
    | Some a, Some l => a <? l
    | None, None => false
    end in
  let errors :=
    err (bool_decide (instance_name self ∈ RESERVED_URLS)) "instance_name"%string
    ++ err (bool_decide (instance_url self ∈ RESERVED_URLS)) "url"%string
    ++ err (ending_time self <=? starting_time self) "ending_time"%string
    ++ err (match lifesupport_time self with
            | Some l => l <? ending_time self
            | None => false
            end) "lifesupport_time"%string
    ++ err archive_err "archive_time"%string
    ++ clean_language self in
  match errors with
  | [] => Ret tt
  | _ => Raise (ValidationError errors)
  end.

(** The instance with the latest starting time, [None] for an empty list. *)
Fixpoint latest_start (l : list CourseInstance) : option CourseInstance :=
  match l with
  | [] => None
  | i :: rest =>
      match latest_start rest with
      | Some j => if starting_time i <? starting_time j then Some j else Some i
      | None => Some i
      end
  end.

(** src/course/models.py: CourseInstance.later_instance.  The guard
    [if self.is_past:] tests the bound method, which is always true, so it does
    not depend on the instance's ending time. *)
Definition later_instance (self : CourseInstance) (all_instances : list CourseInstance)
    (now : datetime) : option CourseInstance :=
  latest_start
    (filter (fun i => course_id i = course_id self /\ now <= ending_time i) all_instances).
End InstanceData.

(** ** Course modules *)

Module ModuleStatus.
Inductive t := READY | UNLISTED | HIDDEN | MAINTENANCE.
#[global] Instance eq_dec : EqDecision t.
Proof. solve_decision. Defined.
End ModuleStatus.

(** src/course/models.py: CourseModule lines 1324-1430 *)
Record CourseModule := mkModule {
  module_id : Z;
  module_instance : CourseInstance;
  module_status : ModuleStatus.t;
  module_order : Z;
  module_name : string;
  module_url : string;
  module_points_to_pass : Z;
  reading_opening_time : option datetime;
  opening_time : datetime;
  closing_time : datetime;
  late_submissions_allowed : bool;
  late_submission_deadline : datetime;
  late_submission_penalty : Q;
  model_answer : option Z;
  model_answer_instance : option Z;
}.

(** src/course/models.py: CourseModule.check_is_open *)
Definition check_is_open (reading_opening : option datetime) (opening closing when : datetime) : bool :=
  match reading_opening with
  | Some r => (r <=? when) && (when <=? closing)
  | None => (opening <=? when) && (when <=? closing)
  end.

(** src/course/models.py: CourseModule.is_open *)
Definition module_is_open (self : CourseModule) (when : datetime) : bool :=
  check_is_open (reading_opening_time self) (opening_time self) (closing_time self) when.

(** src/course/models.py: CourseModule.is_after_open *)
Definition is_after_open (self : CourseModule) (when : datetime) : bool :=
  match reading_opening_time self with
  | Some r => r <=? when
  | None => opening_time self <=? when
  end.

(** src/course/models.py: CourseModule.have_exercises_been_opened *)
Definition have_exercises_been_opened (self : CourseModule) (when : datetime) : bool :=
  opening_time self <=? when.

(** src/course/models.py: CourseModule.exercises_open *)
Definition exercises_open (self : CourseModule) (when : datetime) : bool :=
  (opening_time self <=? when) && (when <=? closing_time self).

(** src/course/models.py: CourseModule.is_late_submission_open *)
Definition is_late_submission_open (self : CourseModule) (when : datetime) : bool :=
  late_submissions_allowed self
  && ((closing_time self <=? when) && (when <=? late_submission_deadline self)).

(** src/course/models.py: CourseModule.is_closed *)
Definition is_closed (self : CourseModule) (when : datetime) : bool :=
  if late_submissions_allowed self && negb (Qle_bool 1 (late_submission_penalty self))
  then late_submission_deadline self <? when
  else closing_time self <? when.

(** src/course/models.py: CourseModule.get_late_submission_point_worth, with
    Python's float arithmetic. *)
Definition get_late_submission_point_worth (self : CourseModule) : Z :=
  if late_submissions_allowed self
  then py_int (fmul (fsub 1 (late_submission_penalty self)) 100)
  else 0.

(** src/course/models.py: CourseModule.__str__ *)
Definition module_str (self : CourseModule) : string :=
  if 0 <? module_order self then
    match module_numbering (module_instance self) with
    | ContentNumbering.ARABIC => (str_of_Z (module_order self) +:+ ". " +:+ module_name self)
    | ContentNumbering.ROMAN => (roman_numeral (module_order self) +:+ " " +:+ module_name self)
    | _ => module_name self
    end
  else module_name self.

Definition MODULE_RESERVED : list string :=
  ["toc"; "teachers"; "user"; "exercises"; "apps"; "lti-login"]%string.

(** src/course/models.py: CourseModule.clean *)
Definition module_clean (self : CourseModule) : result unit :=
  let err (b : bool) (field : string) : list string := if b then [field] else [] in
  let errors :=
    err (bool_decide (module_url self ∈ MODULE_RESERVED)) "url"%string
    ++ err (closing_time self <? opening_time self) "opening_time"%string
    ++ err (late_submissions_allowed self
            && (late_submission_deadline self <=? closing_time self))
           "late_submission_deadline"%string
    ++ err (match reading_opening_time self with
            | Some r => opening_time self <? r
            | None => false
            end) "reading_opening_time"%string
    ++ err (match model_answer self with
            | Some _ =>
                negb (bool_decide (model_answer_instance self = Some (instance_id (module_instance self))))
            | None => false
            end) "model_answer"%string in
  match errors with
  | [] => Ret tt
  | _ => Raise (ValidationError errors)
  end.

(** ** Categories *)

Module CategoryStatus.
Inductive t := READY | NOTOTAL | HIDDEN.
#[global] Instance eq_dec : EqDecision t.
Proof. solve_decision. Defined.
End CategoryStatus.

(** src/course/models.py: LearningObjectCategory lines 1542-1592 *)
Record LearningObjectCategory := mkCategory {
  category_id : Z;
  category_name : string;
  category_status : CategoryStatus.t;
  category_points_to_pass : Z;
  category_instance : Z;
  confirm_the_level : bool;
  accept_unofficial_submits : bool;
}.

(** ** Enrollment operations: what they change and what they keep *)

Section EnrollmentTheory.
Context `{Settings}.
Implicit Types (self : CourseInstance) (db : EnrollmentDB).

(** What [update_or_create] leaves in the row. *)
Definition role_row (r : EnrollmentRole.t) (old : option Enrollment) : Enrollment :=
  mkEnrollment r EnrollmentStatus.ACTIVE (default false (from_sis <$> old))
    (old ≫= selected_group).

Lemma put_role_lookup self r db p k :
  put_role self r db p !! k =
  if decide (k = (instance_id self, profile_id p))
  then Some (role_row r (db !! k)) else db !! k.
Proof.
  unfold put_role, role_row.
  destruct (db !! (instance_id self, profile_id p)) as [e|] eqn:E; case_decide; subst;
    rewrite ?lookup_insert_eq, ?lookup_insert_ne by done; rewrite ?E; done.
Qed.

Lemma role_row_idem r o : role_row r (Some (role_row r o)) = role_row r o.
Proof. done. Qed.

Lemma foldl_put_role_lookup self r users db i pid :
  foldl (put_role self r) db users !! (i, pid) =
  if decide (i = instance_id self /\ pid ∈ profile_id <$> users)
  then Some (role_row r (db !! (i, pid))) else db !! (i, pid).
Proof.
  revert db. induction users as [|p users IH]; intros db; rewrite ?fmap_cons; cbn [foldl].
  - rewrite decide_False by (intros [_ Hin]; by apply not_elem_of_nil in Hin). done.
  - rewrite IH, put_role_lookup.
    assert (Hc : pid ∈ profile_id p :: (profile_id <$> users) <->
                 pid = profile_id p \/ pid ∈ profile_id <$> users) by apply elem_of_cons.
    repeat case_decide; simplify_eq; try rewrite role_row_idem; try done; exfalso; naive_solver.
Qed.

(** After [set_users_with_role] with [remove_others_with_role], the profiles
    that hold the role actively in this instance are exactly the given ones, and
    no row of another course instance is touched. *)
Theorem set_users_with_role_exact self users r db :
  let db' := set_users_with_role self users r true db in
  (forall pid,
     (exists e, db' !! (instance_id self, pid) = Some e /\ active_role r e = true)
     <-> pid ∈ profile_id <$> users) /\
  (forall i pid, i <> instance_id self -> db' !! (i, pid) = db !! (i, pid)).
Proof.
  cbn. unfold set_users_with_role. split.
  - intros pid. rewrite map_lookup_imap, foldl_put_role_lookup. cbn.
    rewrite Z.eqb_refl. case_decide as D; cbn.
    + destruct D as [_ D]. split; [done|intros _]. eexists. split; [done|].
      rewrite bool_decide_eq_true_2 by done. cbn. rewrite andb_false_r.
      unfold active_role. cbn. by rewrite !bool_decide_eq_true_2.
    + assert (D' : pid ∉ profile_id <$> users) by (intros ?; by apply D).
      split; [|done]. intros (e & He & Ha). exfalso.
      destruct (db !! (instance_id self, pid)) as [e0|]; cbn in He; [|done].
      rewrite bool_decide_eq_false_2 in He by done. cbn in He. rewrite andb_true_r in He.
      injection He as <-. destruct (active_role r e0) eqn:E; [|congruence].
      unfold active_role in Ha. cbn in Ha. by rewrite andb_false_r in Ha.
  - intros i pid Hi. rewrite map_lookup_imap, foldl_put_role_lookup.
    rewrite decide_False by (intros [? _]; done). cbn.
    destruct (Z.eqb_spec i (instance_id self)); [done|]. cbn. by destruct (db !! (i, pid)).
Qed.

Lemma set_users_with_role_exact_witness :
  exists self users db,
    let db' := set_users_with_role self users EnrollmentRole.TEACHER true db in
    db !! (1, 7) = Some (mkEnrollment EnrollmentRole.TEACHER EnrollmentStatus.ACTIVE false None) /\
    (exists e, db' !! (instance_id self, 8) = Some e /\
               active_role EnrollmentRole.TEACHER e = true) /\
    db' !! (2, 7) = db !! (2, 7).
Proof.
  set (self := mkInstance 1 1 "" "" true EnrollmentAudience.ALL_USERS ViewAccess.PUBLIC 0 1
                 None None None None "" ContentNumbering.ARABIC ContentNumbering.ARABIC).
  exists self, [mkProfile 8 None ""],
    {[ (1, 7) := mkEnrollment EnrollmentRole.TEACHER EnrollmentStatus.ACTIVE false None ]}.
  destruct (set_users_with_role_exact self [mkProfile 8 None ""] EnrollmentRole.TEACHER
    {[ (1, 7) := mkEnrollment EnrollmentRole.TEACHER EnrollmentStatus.ACTIVE false None ]})
    as [H1 H2].
  split; [reflexivity|]. split; [|apply H2; discriminate].
  apply H1. apply elem_of_cons. by left.
Defined.

Lemma enroll_student_facts self u sis use_pending db :
  let key := (instance_id self, profile_id (userprofile u)) in
  exists new db' e',
    enroll_student self (NormalUser u) sis use_pending db = Ret (new, db') /\
    db' !! key = Some e' /\
    (status e' = EnrollmentStatus.ACTIVE \/ status e' = EnrollmentStatus.PENDING) /\
    (use_pending = false -> status e' = EnrollmentStatus.ACTIVE) /\
    (forall k, k <> key -> db' !! k = db !! k).
Proof.
  cbn. unfold enroll_student.
  set (key := (instance_id self, profile_id (userprofile u))).
  assert (Hne : forall (e : Enrollment) k, k <> key -> <[key := e]> db !! k = db !! k)
    by (intros; by rewrite lookup_insert_ne).
  destruct (db !! key) as [e|] eqn:E; [|do 3 eexists; split_and!;
    [reflexivity|apply lookup_insert_eq|destruct use_pending; cbn; auto|by intros ->|auto]].
  destruct (_ || _) eqn:L; do 3 eexists; (split_and!;
    [reflexivity|apply lookup_insert_eq| | |by auto]).
  - apply orb_prop in L as [L|L]; b2p; repeat case_match; cbn; auto.
  - intros ->. rewrite andb_true_r. apply orb_prop in L as [L|L]; b2p; rewrite L; cbn;
      repeat case_match; cbn; auto; b2p; done.
  - destruct use_pending; cbn; auto.
  - by intros ->.
Qed.

(** [enroll_student] on a real user always leaves that user with an active
    or pending enrollment, reports a new enrollment exactly when there was none
    before, keeps role and group of an existing live enrollment, never leaves
    [PENDING] when pending enrollment is not requested, and touches no other row. *)
Theorem enroll_student_spec self u sis use_pending db :
  let key := (instance_id self, profile_id (userprofile u)) in
  let live e := status e = EnrollmentStatus.ACTIVE \/ status e = EnrollmentStatus.PENDING in
  exists new db' e',
    enroll_student self (NormalUser u) sis use_pending db = Ret (new, db') /\
    db' !! key = Some e' /\ live e' /\
    (use_pending = false -> status e' = EnrollmentStatus.ACTIVE) /\
    (new = true <-> ~ exists e, db !! key = Some e /\ live e) /\
    (forall e, db !! key = Some e -> live e -> role e' = role e /\ selected_group e' = selected_group e) /\
    (forall k, k <> key -> db' !! k = db !! k).
Proof.
  cbn. unfold enroll_student.
  set (key := (instance_id self, profile_id (userprofile u))).
  destruct (db !! key) as [e|] eqn:E.
  - destruct (bool_decide (status e = EnrollmentStatus.ACTIVE)
              || bool_decide (status e = EnrollmentStatus.PENDING)) eqn:L.
    + do 3 eexists. split; [reflexivity|]. split; [apply lookup_insert_eq|].
      assert (Hlive : status e = EnrollmentStatus.ACTIVE \/ status e = EnrollmentStatus.PENDING)
        by (apply orb_prop in L as [L|L]; b2p; auto).
      split_and!.
      * repeat case_match; cbn; auto.
      * intros ->. rewrite andb_true_r.
        destruct Hlive as [Hs|Hs]; rewrite Hs; cbn; repeat case_match; cbn; auto; b2p; done.
      * split; [done|]. intros Hn. destruct Hn. exists e. done.
      * intros e0 [= <-] _. repeat case_match; cbn; auto.
      * intros k Hk. by rewrite lookup_insert_ne.
    + b2p. do 3 eexists. split; [reflexivity|]. split; [apply lookup_insert_eq|].
      split_and!.
      * destruct use_pending; cbn; auto.
      * intros ->. done.
      * split; [|done]. intros _ (e0 & [= <-] & [?|?]); done.
      * intros e0 [= <-] [?|?]; done.
      * intros k Hk. by rewrite lookup_insert_ne.
  - do 3 eexists. split; [reflexivity|]. split; [apply lookup_insert_eq|].
    split_and!.
    + destruct use_pending; cbn; auto.
    + intros ->. done.
    + split; [|done]. intros _ (e0 & ? & _). done.
    + intros e0 [=].
    + intros k Hk. by rewrite lookup_insert_ne.
Qed.

(** [enroll_student] as a function of the enrolled user's row alone. *)
Lemma enroll_student_frame self u sis use_pending db new db' k :
  enroll_student self (NormalUser u) sis use_pending db = Ret (new, db') ->
  k <> (instance_id self, profile_id (userprofile u)) -> db' !! k = db !! k.
Proof.
  intros E Hk. destruct (enroll_student_facts self u sis use_pending db)
    as (new0 & db0 & e0 & E0 & _ & _ & _ & Hf).
  rewrite E in E0. injection E0 as <- <-. by apply Hf.
Qed.
End EnrollmentTheory.

(** ** Synchronisation with the student information system *)

Section SisTheory.
Context `{Settings}.
Implicit Types (self : CourseInstance) (db : EnrollmentDB).

Definition live_at (db : EnrollmentDB) (key : Z * Z) : Prop :=
  exists e, db !! key = Some e /\
    (status e = EnrollmentStatus.ACTIVE \/ status e = EnrollmentStatus.PENDING).

Definition user_key (self : CourseInstance) (u : User) : Z * Z :=
  (instance_id self, profile_id (userprofile u)).

Lemma enroll_participant_facts self users up n db sid :
  let '(_, db') := enroll_participant self users up (n, db) sid in
  (forall u, get_by_student_id users sid = Ret u -> live_at db' (user_key self u)) /\
  (forall k, live_at db k -> live_at db' k) /\
  (forall k, k.1 <> instance_id self -> db' !! k = db !! k).
Proof.
  unfold enroll_participant. destruct (get_by_student_id users sid) as [u|]; [|naive_solver].
  destruct (enroll_student_facts self u true up db) as (new & db' & e' & E & Hk & Hl & _ & Hf).
  rewrite E. fold (user_key self u) in *.
  assert (Hu : live_at db' (user_key self u)) by (exists e'; auto).
  destruct new; (split_and!; [by intros ? [= <-]| |]; intros k Hk').
  1,3: destruct (decide (k = user_key self u)) as [->|Hne]; [done|];
       unfold live_at; by rewrite Hf.
  all: apply Hf; intros ->; by apply Hk'.
Qed.

Lemma enroll_participants_facts self users up ps n db :
  let '(_, db') := foldl (enroll_participant self users up) (n, db) ps in
  (forall sid u, sid ∈ ps -> get_by_student_id users sid = Ret u ->
     live_at db' (user_key self u)) /\
  (forall k, live_at db k -> live_at db' k) /\
  (forall k, k.1 <> instance_id self -> db' !! k = db !! k).
Proof.
  revert n db. induction ps as [|sid ps IH]; intros n db; cbn [foldl].
  - split_and!; [|done|done]. intros sid u Hin. by apply not_elem_of_nil in Hin.
  - pose proof (enroll_participant_facts self users up n db sid) as Hs.
    destruct (enroll_participant self users up (n, db) sid) as [n1 db1].
    destruct Hs as (H1 & H2 & H3). specialize (IH n1 db1).
    destruct (foldl _ _ _) as [n2 db2]. destruct IH as (I1 & I2 & I3).
    split_and!.
    + intros sid' u [->|Hin]%elem_of_cons Hg; eauto.
    + eauto.
    + intros k Hk. rewrite I3, H3; done.
Qed.

(** With unique profile ids, a user found by student id has that student id. *)
Lemma get_by_student_id_of users sid u :
  NoDup ((fun u => profile_id (userprofile u)) <$> users) ->
  get_by_student_id users sid = Ret u ->
  student_id_of users (profile_id (userprofile u)) = Some sid.
Proof.
  unfold get_by_student_id, student_id_of. intros Hnd Hg.
  destruct (filter _ users) as [|v [|? ?]] eqn:F; try done. injection Hg as ->.
  assert (Hv : u ∈ filter (fun u => student_id (userprofile u) = Some sid /\
            organization (userprofile u) = LOCAL_ORGANIZATION) users)
    by (rewrite F; by left).
  apply list_elem_of_filter in Hv as [[Hs _] Hin].
  destruct (filter (fun w => profile_id (userprofile w) = profile_id (userprofile u)) users)
    as [|w ws] eqn:G.
  - exfalso. assert (Hn : u ∈ []) by (rewrite <- G; by apply list_elem_of_filter).
    by apply not_elem_of_nil in Hn.
  - assert (Hw : w ∈ filter (fun w => profile_id (userprofile w) = profile_id (userprofile u)) users)
      by (rewrite G; by left).
    apply list_elem_of_filter in Hw as [Hid Hw].
    apply list_elem_of_lookup in Hin as [i Hi]. apply list_elem_of_lookup in Hw as [j Hj].
    assert (Hij : i = j).
    { eapply NoDup_lookup; [exact Hnd| |]; rewrite list_lookup_fmap.
      - by rewrite Hi.
      - rewrite Hj. cbn. by rewrite Hid. }
    subst j. rewrite Hi in Hj. by injection Hj as <-.
Qed.

(** A synchronisation with a non-empty participant list leaves every
    participant with a known local account enrolled, leaves no SIS enrollment
    alive whose student is not a participant, and changes no row of another
    course instance. *)
Theorem enroll_from_sis_spec self users participants up db :
  participants <> [] ->
  NoDup ((fun u => profile_id (userprofile u)) <$> users) ->
  let '(_, db') := enroll_from_sis self users (Some (Ret participants)) up db in
  (forall sid u, sid ∈ participants -> get_by_student_id users sid = Ret u ->
     live_at db' (user_key self u)) /\
  (forall pid e, db' !! (instance_id self, pid) = Some e -> from_sis e = true ->
     status e <> EnrollmentStatus.REMOVED ->
     exists sid, student_id_of users pid = Some sid /\ sid ∈ participants) /\
  (forall k, k.1 <> instance_id self -> db' !! k = db !! k).
Proof.
  intros Hne Hnd. unfold enroll_from_sis.
  pose proof (enroll_participants_facts self users up participants 0 db) as Hp.
  destruct (foldl _ _ _) as [n db1]. destruct Hp as (P1 & _ & P3).
  destruct participants as [|p0 ps]; [done|]. set (participants := p0 :: ps) in *.
  split_and!.
  - intros sid u Hin Hg. destruct (P1 sid u Hin Hg) as (e & He & Hl).
    exists e. rewrite map_lookup_imap, He. cbn. split; [|done].
    unfold sis_removable. cbn. rewrite (get_by_student_id_of users sid u Hnd Hg).
    rewrite (bool_decide_eq_true_2 (sid ∈ participants)) by done. by rewrite andb_false_r.
  - intros pid e He Hs Hr. rewrite map_lookup_imap in He.
    destruct (db1 !! (instance_id self, pid)) as [e1|]; cbn in He; [|done].
    injection He as He. destruct (sis_removable _ _ _ _ _) eqn:R; subst e; [done|].
    unfold sis_removable in R. cbn in R. rewrite Z.eqb_refl, Hs in R. cbn in R.
    rewrite bool_decide_eq_false_2 in R by done. cbn in R. apply negb_false_iff in R.
    destruct (student_id_of users pid) as [sid|]; [|done]. apply bool_decide_eq_true in R. eauto.
  - intros k Hk. rewrite map_lookup_imap, <- (P3 k Hk).
    destruct (db1 !! k) as [e|]; [|done]. cbn. unfold sis_removable.
    destruct (Z.eqb_spec k.1 (instance_id self)); done.
Qed.
End SisTheory.

#[export] Instance example_settings : Settings := {|
  LOCAL_ORGANIZATION := "aalto.fi";
  LANGUAGES := ["en"; "fi"];
  LANGUAGE_CODE := "en-gb";
  MAX_UNOFFICIAL_SUBMISSIONS := 200;
  GRADER_STABLE_THRESHOLD := 5;
  SUBMISSION_RETRY_LIMIT := 3;
  SUBMISSION_EXPIRY_TIMEOUT := 1800;
  SUBMISSION_RETRY_SERVICES := ["grader:8080"];
|}%string.

Definition example_instance : CourseInstance :=
  mkInstance 1 1 "Spring" "spring" true EnrollmentAudience.ALL_USERS ViewAccess.PUBLIC
    0 (days 100) None None None None "|en|fi|" ContentNumbering.ARABIC ContentNumbering.ARABIC.

Definition example_user (i : Z) (sid : string) : User :=
  mkUser i false false (mkProfile i (Some sid) "aalto.fi").

Lemma enroll_from_sis_spec_witness :
  exists r db',
    enroll_from_sis example_instance [example_user 1 "S1"; example_user 2 "S2"]
      (Some (Ret ["S1"%string])) false
      {[ (1, 2) := mkEnrollment EnrollmentRole.STUDENT EnrollmentStatus.ACTIVE true None ]}
    = (r, db') /\
    live_at db' (1, 1) /\ r = (1, 1).
Proof.
  pose proof (enroll_from_sis_spec example_instance [example_user 1 "S1"; example_user 2 "S2"]
    ["S1"%string] false
    {[ (1, 2) := mkEnrollment EnrollmentRole.STUDENT EnrollmentStatus.ACTIVE true None ]}
    ltac:(discriminate) ltac:(apply (bool_decide_unpack _); vm_compute; exact I)) as Hs.
  destruct (enroll_from_sis _ _ _ _ _) as [r db'] eqn:E. destruct Hs as (H1 & _ & _).
  exists r, db'. split; [reflexivity|].
  split; [apply (H1 "S1"%string (example_user 1 "S1")); [by left|reflexivity]|].
  vm_compute in E. by injection E as <- <-.
Defined.

(** ** Bans *)

(** A ban in one course instance counts as a ban in every instance the user is
    a student of: the two conditions of [is_banned] are checked on different
    rows. *)
Lemma is_banned_in_other_instance :
  exists (self : CourseInstance) (u : User) (db : EnrollmentDB),
    (exists e, db !! (instance_id self, profile_id (userprofile u)) = Some e /\
               status e = EnrollmentStatus.ACTIVE) /\
    is_student self db (NormalUser u) = true /\
    is_banned self db (NormalUser u) = true.
Proof.
  exists example_instance, (example_user 1 "S1"),
    {[ (1, 1) := mkEnrollment EnrollmentRole.STUDENT EnrollmentStatus.ACTIVE false None;
       (2, 1) := mkEnrollment EnrollmentRole.STUDENT EnrollmentStatus.BANNED false None ]}.
  split; [eexists; split; reflexivity|]. split; reflexivity.
Qed.

(** The synchronisation re-activates a banned student, who [is_enrollable]
    refuses. *)
Lemma enroll_from_sis_lifts_ban :
  exists (self : CourseInstance) (u : User) (db : EnrollmentDB),
    is_enrollable self db (NormalUser u) = Ret false /\
    (exists e, db !! (instance_id self, profile_id (userprofile u)) = Some e /\
               status e = EnrollmentStatus.BANNED) /\
    (exists e, (enroll_from_sis self [u] (Some (Ret ["S1"%string])) false db).2
                 !! (instance_id self, profile_id (userprofile u)) = Some e /\
               status e = EnrollmentStatus.ACTIVE).
Proof.
  exists example_instance, (example_user 1 "S1"),
    {[ (1, 1) := mkEnrollment EnrollmentRole.STUDENT EnrollmentStatus.BANNED false None ]}.
  split; [reflexivity|]. split; eexists; (split; [vm_compute; reflexivity|reflexivity]).
Qed.

(** An instance that has not ended yet is announced as its own later instance. *)
Lemma later_instance_of_running_instance :
  exists (self : CourseInstance) (now : datetime),
    is_past self now = false /\ later_instance self [self] now = Some self.
Proof. exists example_instance, 5. split; reflexivity. Qed.

(** ** Time lines *)

(** A course instance accepted by [clean] ends before its life support
    starts, which is not after its archive time: an archived instance is on life
    support, and an instance on life support is past. *)
Theorem clean_instance_phases `{Settings} self when :
  instance_clean self = Ret tt ->
  starting_time self < ending_time self /\
  ending_time self <= lifesupport_start self <= archive_start self /\
  (is_archived self when = true -> is_on_lifesupport self when = true) /\
  (is_on_lifesupport self when = true -> is_past self when = true) /\
  (instance_is_open self when = true -> is_past self when = false).
Proof.
  unfold instance_clean. intros Hc.
  assert (Hd : 0 <= days 365) by (vm_compute; discriminate).
  destruct (bool_decide (instance_name self ∈ RESERVED_URLS)); [done|].
  destruct (bool_decide (instance_url self ∈ RESERVED_URLS)); [done|].
  destruct (ending_time self <=? starting_time self) eqn:E1; [done|]. b2p.
  unfold is_archived, is_on_lifesupport, is_past, instance_is_open, archive_start, lifesupport_start.
  destruct (lifesupport_time self) as [l|], (archive_time self) as [a|]; cbn in *; try done.
  - destruct (l <? ending_time self) eqn:E2; [done|]. destruct (a <? l) eqn:E3; [done|]. b2p.
    split_and!; try lia.
  - by destruct (l <? ending_time self).
  - split_and!; lia.
Qed.

Lemma clean_instance_phases_witness :
  instance_clean example_instance = Ret tt /\
  (is_archived example_instance (days 500) = true ->
   is_on_lifesupport example_instance (days 500) = true).
Proof.
  split; [reflexivity|].
  exact (proj1 (proj2 (proj2 (clean_instance_phases example_instance (days 500) eq_refl)))).
Defined.

(** What [clean] guarantees of a module's times. *)
Lemma module_clean_times self :
  module_clean self = Ret tt ->
  opening_time self <= closing_time self /\
  (late_submissions_allowed self = true -> closing_time self < late_submission_deadline self) /\
  (forall r, reading_opening_time self = Some r -> r <= opening_time self).
Proof.
  unfold module_clean. intros Hc.
  destruct (bool_decide (module_url self ∈ MODULE_RESERVED)); [done|].
  destruct (closing_time self <? opening_time self) eqn:E1; [done|]. b2p.
  split; [lia|]. cbn in Hc. split.
  - intros E. rewrite E in Hc. cbn in Hc.
    destruct (late_submission_deadline self <=? closing_time self) eqn:E2; [done|]. b2p. lia.
  - intros r E. rewrite E in Hc.
    destruct (late_submissions_allowed self && _); [done|].
    destruct (opening_time self <? r) eqn:E2; [done|]. b2p. lia.
Qed.

(** ** Late submission worth *)

Lemma point_worth_range self :
  (0 <= late_submission_penalty self <= 1)%Q ->
  0 <= get_late_submission_point_worth self <= 100.
Proof.
  intros [H0 H1]. unfold get_late_submission_point_worth.
  destruct (late_submissions_allowed self); [|lia].
  assert (Hs : (inject_Z 0 <= fsub 1 (late_submission_penalty self) <= inject_Z 1)%Q).
  { apply b64_between; [lia|lia|]. change (inject_Z 0) with 0%Q. change (inject_Z 1) with 1%Q.
    split; lra. }
  destruct Hs as [Hs0 Hs1]. change (inject_Z 0) with 0%Q in Hs0. change (inject_Z 1) with 1%Q in Hs1.
  apply py_int_between; [lia|]. apply b64_between; [lia|lia|].
  change (inject_Z 0) with 0%Q. change (inject_Z 100) with 100%Q.
  set (f := fsub 1 (late_submission_penalty self)) in *. split; lra.
Qed.

Definition example_module (allowed : bool) (penalty : Q) : CourseModule :=
  mkModule 1 example_instance ModuleStatus.READY 1 "Round 1" "round1" 0 None
    (days 1) (days 2) allowed (days 3) penalty None None.

(** The worth is truncated after binary rounding: a penalty of 0.9 leaves 10% of
    the points, but is reported as 9%. *)
Lemma point_worth_ninety_percent_penalty :
  get_late_submission_point_worth (example_module true (b64 (9#10))) = 9.
Proof. vm_compute. reflexivity. Qed.
