(* ===== verification/Deviations.v ===== *)
(** * Submission rule deviations

    [deviations/models.py]: personal deadline extensions and extra submissions.
    The two concrete deviation models share the manager that selects the maximal
    deviation per exercise, so it is stated once against the interface
    [RuleDeviation] that both models implement. *)

From S2P Require Import Prelude Course.

(** ** The shared interface *)

(** What the manager needs of a deviation row: its exercise, its owner's profile
    and the amount [max_order_by] orders by. *)
Class RuleDeviation (D : Type) := {
  dev_exercise : D -> Z;
  dev_submitter : D -> Z;
  dev_extra : D -> Z;
}.

(** src/deviations/models.py: DeadlineRuleDeviation lines 161-174 *)
Record DeadlineRuleDeviation := mkDeadlineDeviation {
  dl_exercise : Z;
  dl_submitter : Z;
  extra_seconds : Z;
  without_late_penalty : bool;
}.

(** src/deviations/models.py: MaxSubmissionsRuleDeviation lines 247-256 *)
Record MaxSubmissionsRuleDeviation := mkSubmissionsDeviation {
  ms_exercise : Z;
  ms_submitter : Z;
  extra_submissions : Z;
}.

(** [max_order_by = "-extra_seconds"]. *)
#[export] Instance DeadlineRuleDeviation_rule : RuleDeviation DeadlineRuleDeviation := {|
  dev_exercise := dl_exercise;
  dev_submitter := dl_submitter;
  dev_extra := extra_seconds;
|}.

(** [max_order_by = "-extra_submissions"]. *)
#[export] Instance MaxSubmissionsRuleDeviation_rule : RuleDeviation MaxSubmissionsRuleDeviation := {|
  dev_exercise := ms_exercise;
  dev_submitter := ms_submitter;
  dev_extra := extra_submissions;
|}.

(** A submission as the manager's subquery sees it: its exercise and submitters. *)
Record SubmissionRow := mkSubmissionRow {
  row_exercise : Z;
  row_submitters : list Z;
}.

Section Manager.
Context {D : Type} `{RuleDeviation D}.
Implicit Types (table : list D) (subs : list SubmissionRow).

(** Granted to the submitter, or to somebody who submitted the deviation's
    exercise together with the submitter. *)
Definition eligible (subs : list SubmissionRow) (submitter : Z) (exercises : list Z) (d : D) : Prop :=
  dev_exercise d ∈ exercises /\
  (dev_submitter d = submitter \/
   (dev_submitter d <> submitter /\
    Exists (fun s => row_exercise s = dev_exercise d /\
                     dev_submitter d ∈ row_submitters s /\
                     submitter ∈ row_submitters s) subs)).

#[global] Instance eligible_dec subs submitter exercises d :
  Decision (eligible subs submitter exercises d).
Proof. unfold eligible. apply _. Defined.

(** [order_by('exercise', max_order_by)]: by exercise, the largest amount first. *)
Definition dev_le (d1 d2 : D) : Prop :=
  dev_exercise d1 < dev_exercise d2 \/
  (dev_exercise d1 = dev_exercise d2 /\ dev_extra d2 <= dev_extra d1).

#[global] Instance dev_le_dec : RelDecision dev_le.
Proof. intros ??. unfold dev_le. apply _. Defined.

(** The generator loop with [previous_exercise_id]. *)
Fixpoint first_per_exercise (previous : option Z) (l : list D) : list D :=
  match l with
  | [] => []
  | d :: l' =>
      if bool_decide (Some (dev_exercise d) = previous) then first_per_exercise previous l'
      else d :: first_per_exercise (Some (dev_exercise d)) l'
  end.

(** src/deviations/models.py: SubmissionRuleDeviationManager.get_max_deviations *)
Definition get_max_deviations (table : list D) (subs : list SubmissionRow) (submitter : Z)
    (exercises : list Z) : list D :=
  let deviations_self :=
    filter (fun d => dev_exercise d ∈ exercises /\ dev_submitter d = submitter) table in
  let deviations_group :=
    filter (fun d => dev_exercise d ∈ exercises /\ dev_submitter d <> submitter /\
                     Exists (fun s => row_exercise s = dev_exercise d /\
                                      dev_submitter d ∈ row_submitters s /\
                                      submitter ∈ row_submitters s) subs) table in
  first_per_exercise None (merge_sort dev_le (deviations_self ++ deviations_group)).

(** src/deviations/models.py: SubmissionRuleDeviationManager.get_max_deviation *)
Definition get_max_deviation (table : list D) (subs : list SubmissionRow) (submitter exercise : Z)
    : option D :=
  head (get_max_deviations table subs submitter [exercise]).

(** ** The manager returns one maximal deviation per exercise *)

#[local] Instance dev_le_trans : Transitive dev_le.
Proof. intros x y z [?|[? ?]] [?|[? ?]]; unfold dev_le; lia. Qed.

#[local] Instance dev_le_total : Total dev_le.
Proof. intros x y. unfold dev_le. lia. Qed.

Lemma first_per_exercise_sub prev l d : d ∈ first_per_exercise prev l -> d ∈ l.
Proof.
  revert prev. induction l as [|x l IH]; intros prev; cbn; [done|].
  case_bool_decide; [intros Hd; right; eauto|].
  intros [->|Hd]%elem_of_cons; [by left|right; eauto].
Qed.

(** In a sorted list, what the loop emits is maximal in its exercise, distinct
    from the previous exercise, and covers every other exercise. *)
Lemma first_per_exercise_spec prev l :
  StronglySorted dev_le l ->
  (forall e, prev = Some e -> Forall (fun d => e <= dev_exercise d) l) ->
  Forall (fun d => Forall (fun d' => dev_exercise d' = dev_exercise d -> dev_extra d' <= dev_extra d) l
                   /\ Some (dev_exercise d) <> prev) (first_per_exercise prev l) /\
  Forall (fun d' => Some (dev_exercise d') = prev \/
            dev_exercise d' ∈ dev_exercise <$> first_per_exercise prev l) l /\
  NoDup (dev_exercise <$> first_per_exercise prev l).
Proof.
  intros Hs. revert prev. induction Hs as [|x l Hs IH Hx]; intros prev Hp; cbn.
  { split_and!; constructor. }
  assert (Hmin : Forall (fun d => dev_exercise x <= dev_exercise d) l)
    by (eapply Forall_impl; [exact Hx|]; unfold dev_le; intros; lia).
  case_bool_decide as E.
  - destruct (IH prev) as (I1 & I2 & I3).
    { intros e He. specialize (Hp e He). by inversion_clear Hp. }
    split_and!; [|constructor; auto|done].
    eapply Forall_impl; [exact I1|]. intros d [Hd1 Hd2]. split; [|done].
    constructor; [|done]. intros Ex. exfalso. apply Hd2. rewrite <- Ex. done.
  - destruct (IH (Some (dev_exercise x))) as (I1 & I2 & I3).
    { by intros e [= <-]. }
    split_and!.
    + constructor.
      * split; [|done]. constructor; [lia|]. eapply Forall_impl; [exact Hx|].
        unfold dev_le. intros d'. cbn. lia.
      * assert (Hlow : Forall (fun d => dev_exercise x <= dev_exercise d)
                         (first_per_exercise (Some (dev_exercise x)) l)).
        { apply Forall_forall. intros d Hd%first_per_exercise_sub.
          rewrite Forall_forall in Hmin. by apply Hmin. }
        apply Forall_forall. intros d Hd. rewrite Forall_forall in I1, Hlow.
        destruct (I1 d Hd) as [Hd1 Hd2]. split.
        { constructor; [|done]. intros Ex. exfalso. apply Hd2. by rewrite Ex. }
        intros Ep. assert (Hne : dev_exercise d <> dev_exercise x) by congruence.
        specialize (Hp (dev_exercise d) (eq_sym Ep)). inversion_clear Hp as [|? ? Hp1 _].
        specialize (Hlow d Hd). cbn in *. lia.
    + constructor; [right; by left|]. eapply Forall_impl; [exact I2|].
      intros d' [Ed|Hd]; right; cbn; [injection Ed as ->; by left|by right].
    + constructor; [|done]. intros Hin. apply list_elem_of_fmap in Hin as (d & Ed & Hd).
      rewrite Forall_forall in I1. destruct (I1 d Hd) as [_ Hd2]. congruence.
Qed.

Lemma get_max_candidates table subs submitter exercises d :
  d ∈ merge_sort dev_le
        (filter (fun d => dev_exercise d ∈ exercises /\ dev_submitter d = submitter) table ++
         filter (fun d => dev_exercise d ∈ exercises /\ dev_submitter d <> submitter /\
                     Exists (fun s => row_exercise s = dev_exercise d /\
                                      dev_submitter d ∈ row_submitters s /\
                                      submitter ∈ row_submitters s) subs) table)
  <-> d ∈ table /\ eligible subs submitter exercises d.
Proof.
  rewrite merge_sort_Permutation, elem_of_app, !list_elem_of_filter. unfold eligible.
  split; [naive_solver|]. intros (Ht & He & [Hs|[Hs Hx]]); auto.
Qed.

(** [get_max_deviations] returns, for every requested exercise that has an
    eligible deviation and for no other, exactly one deviation; it is eligible,
    and no eligible deviation of that exercise is larger. *)
Theorem get_max_deviations_spec table subs submitter exercises :
  let ds := get_max_deviations table subs submitter exercises in
  NoDup (dev_exercise <$> ds) /\
  (forall d, d ∈ ds ->
     d ∈ table /\ eligible subs submitter exercises d /\
     forall d', d' ∈ table -> eligible subs submitter exercises d' ->
       dev_exercise d' = dev_exercise d -> dev_extra d' <= dev_extra d) /\
  (forall d', d' ∈ table -> eligible subs submitter exercises d' ->
     exists d, d ∈ ds /\ dev_exercise d = dev_exercise d').
Proof.
  unfold get_max_deviations. cbn.
  pose proof (get_max_candidates table subs submitter exercises) as Hc.
  set (l := merge_sort dev_le _) in *.
  destruct (first_per_exercise_spec None l) as (H1 & H2 & H3);
    [by apply StronglySorted_merge_sort; apply _|done|].
  rewrite Forall_forall in H1, H2.
  split_and!; [done| |].
  - intros d Hd. pose proof (first_per_exercise_sub _ _ _ Hd) as Hl.
    apply Hc in Hl as [Ht He]. split_and!; [done..|].
    intros d' Ht' He' Ex. destruct (H1 d Hd) as [Hm _]. rewrite Forall_forall in Hm.
    apply Hm; [|done]. by apply Hc.
  - intros d' Ht' He'. destruct (H2 d' (proj2 (Hc d') (conj Ht' He'))) as [?|Hin]; [done|].
    apply list_elem_of_fmap in Hin as (d & Ed & Hd). eauto.
Qed.
End Manager.

Lemma get_max_deviations_spec_witness :
  exists d, d ∈ get_max_deviations
      [mkDeadlineDeviation 5 1 60 true; mkDeadlineDeviation 5 2 120 false]
      [mkSubmissionRow 5 [1; 2]] 1 [5] /\ dev_exercise d = 5.
Proof.
  destruct (get_max_deviations_spec
      [mkDeadlineDeviation 5 1 60 true; mkDeadlineDeviation 5 2 120 false]
      [mkSubmissionRow 5 [1; 2]] 1 [5]) as (_ & _ & H).
  destruct (H (mkDeadlineDeviation 5 1 60 true)) as (d & Hd & Ed).
  - by left.
  - split; [by left|by left].
  - exists d. split; [exact Hd|exact Ed].
Defined.

(** The maximum includes a group member's larger extension. *)
Example group_member_extension :
  get_max_deviation [mkDeadlineDeviation 5 1 60 true; mkDeadlineDeviation 5 2 120 false]
    [mkSubmissionRow 5 [1; 2]] 1 5 = Some (mkDeadlineDeviation 5 2 120 false).
Proof. vm_compute. reflexivity. Qed.

(** ** Deadline deviations *)

(** src/deviations/models.py: DeadlineRuleDeviation.get_new_deadline *)
Definition get_new_deadline (d : DeadlineRuleDeviation) (normal_deadline : datetime) : datetime :=
  normal_deadline + seconds (extra_seconds d).

(** src/deviations/models.py: DeadlineRuleDeviation.is_groupable *)
Definition deadline_is_groupable (d other : DeadlineRuleDeviation) : bool :=
  (extra_seconds d =? extra_seconds other)
  && Bool.eqb (without_late_penalty d) (without_late_penalty other).

(** src/deviations/models.py: MaxSubmissionsRuleDeviation.is_groupable *)
Definition submissions_is_groupable (d other : MaxSubmissionsRuleDeviation) : bool :=
  extra_submissions d =? extra_submissions other.

Section UpdateByForm.
(** The time zone database ([pytz]): the UTC offset, in seconds, of a named zone
    at a UTC instant, and [None] for an unknown zone name.  [localize] is
    Django's current time zone turning a local wall-clock time into UTC. *)
Variable utcoffset : string -> option (datetime -> Z).
Variable localize : datetime -> datetime.

(** src/exercise/exercise_models.py: BaseExercise.delta_in_seconds_from_closing_to_date.
    A timedelta's [days * 24*60*60 + seconds] is its floor in whole seconds;
    cutting the text to 19 characters drops the fraction and the zone. *)
Definition delta_in_seconds_from_closing_to_date (module_close future_date : datetime) : Z :=
  let string_date := future_date / 1000000 * 1000000 in
  let converted := localize string_date in
  (converted - module_close) / 1000000.

(** The daylight saving adjustment of [update_by_form]. *)
Definition dst_adjusted (offset : datetime -> Z) (module_close : datetime) (secs : Z) : Z :=
  let new_deadline := module_close + seconds secs in
  let start_offset := offset module_close in
  let end_offset := offset new_deadline in
  if end_offset <? start_offset then secs + 60 * 60
  else if start_offset <? end_offset then secs - 60 * 60
  else secs.

(** src/deviations/models.py: DeadlineRuleDeviation.update_by_form.  The form
    gives either a new date (a wall-clock time) or a number of seconds with the
    browser's time zone name. *)
Definition deadline_update_by_form (module_close : datetime) (new_date : option datetime)
    (form_seconds : Z) (timezone_string : string) (no_penalty : bool)
    (d : DeadlineRuleDeviation) : DeadlineRuleDeviation :=
  let secs :=
    match new_date with
    | Some date => delta_in_seconds_from_closing_to_date module_close date
    | None =>
        match utcoffset timezone_string with
        | Some offset => dst_adjusted offset module_close form_seconds
        | None => form_seconds
        end
    end in
  mkDeadlineDeviation (dl_exercise d) (dl_submitter d) secs no_penalty.

(** src/deviations/models.py: MaxSubmissionsRuleDeviation.update_by_form *)
Definition submissions_update_by_form (form_extra : Z) (d : MaxSubmissionsRuleDeviation)
    : MaxSubmissionsRuleDeviation :=
  mkSubmissionsDeviation (ms_exercise d) (ms_submitter d) form_extra.

(** Across a one-hour daylight saving change the adjusted deviation keeps
    the wall clock: the new deadline's local time is the closing time's local
    time plus the requested seconds. *)
Theorem dst_adjusted_wall_clock tz offset module_close secs no_penalty d :
  utcoffset tz = Some offset ->
  Z.abs (offset module_close - offset (module_close + seconds secs)) ∈ [0; 3600] ->
  let d' := deadline_update_by_form module_close None secs tz no_penalty d in
  let deadline := get_new_deadline d' module_close in
  offset deadline = offset (module_close + seconds secs) ->
  deadline + seconds (offset deadline)
  = module_close + seconds (offset module_close) + seconds secs.
Proof.
  intros Htz Habs. cbn. unfold deadline_update_by_form. rewrite Htz.
  unfold get_new_deadline. cbn [extra_seconds]. intros ->.
  unfold dst_adjusted. set (a := offset module_close) in *.
  set (b := offset (module_close + seconds secs)) in *. unfold seconds.
  apply list_elem_of_In in Habs. cbn in Habs.
  destruct (Z.ltb_spec b a); [lia|]. destruct (Z.ltb_spec a b); lia.
Qed.
End UpdateByForm.

(** A zone that moves its clock forward by an hour at instant [seconds 10000]. *)
Definition example_offset (t : datetime) : Z := if t <? seconds 10000 then 7200 else 10800.

Lemma dst_adjusted_wall_clock_witness :
  let d' := deadline_update_by_form (fun _ => Some example_offset) (fun t => t)
              0 None 20000 "Europe/Helsinki" true (mkDeadlineDeviation 1 1 0 true) in
  get_new_deadline d' 0 + seconds (example_offset (get_new_deadline d' 0))
  = 0 + seconds (example_offset 0) + seconds 20000.
Proof.
  apply (dst_adjusted_wall_clock (fun _ => Some example_offset) (fun t => t)
           "Europe/Helsinki" example_offset 0 20000 true (mkDeadlineDeviation 1 1 0 true)).
  - reflexivity.
  - vm_compute. right. left.
  - reflexivity.
Defined.
