(* ===== verification/Reveal.v ===== *)
(** * Reveal rules

    [exercise/reveal_models.py]: when submission feedback or model solutions may
    be shown to a student.  A rule is evaluated against a [RevealState], the
    interface of [BaseRevealState] (src/exercise/reveal_states.py), whose getters
    answer [None] for what a state does not know. *)

From S2P Require Import Prelude.

Module RevealTrigger.
Inductive t :=
| MANUAL | IMMEDIATE | TIME | DEADLINE | DEADLINE_ALL | COMPLETION | DEADLINE_OR_FULL_POINTS.
#[global] Instance eq_dec : EqDecision t.
Proof. solve_decision. Defined.
End RevealTrigger.

(** src/exercise/reveal_models.py: RevealRule lines 12-40 *)
Record RevealRule := mkRevealRule {
  trigger : RevealTrigger.t;
  delay_minutes : option Z;
  rule_time : option datetime;
  currently_revealed : bool;
  show_zero_points_immediately : bool;
}.

(** src/exercise/reveal_states.py: BaseRevealState *)
Record RevealState := mkRevealState {
  get_points : option Z;
  get_max_points : option Z;
  get_submissions : option Z;
  get_max_submissions : option Z;
  get_deadline : option datetime;
  get_latest_deadline : option datetime;
}.

(** [self.delay_minutes * 60 if self.delay_minutes else 0], as a time. *)
Definition delay (rule : RevealRule) : Z := seconds (60 * default 0 (delay_minutes rule)).

(** src/exercise/reveal_models.py: RevealRule.get_reveal_time *)
Definition get_reveal_time (rule : RevealRule) (state : RevealState) : option datetime :=
  match trigger rule with
  | RevealTrigger.TIME => rule_time rule
  | RevealTrigger.DEADLINE | RevealTrigger.DEADLINE_OR_FULL_POINTS =>
      match get_deadline state with
      | Some deadline => Some (deadline + delay rule)
      | None => None
      end
  | RevealTrigger.DEADLINE_ALL =>
      match get_latest_deadline state with
      | Some latest_deadline => Some (latest_deadline + delay rule)
      | None => None
      end
  | _ => None
  end.

(** src/exercise/reveal_models.py: RevealRule._is_revealed_due_to_full_points *)
Definition is_revealed_due_to_full_points (state : RevealState) : bool :=
  match get_points state, get_max_points state with
  | Some points, Some max_points => max_points <=? points
  | _, _ => false
  end.

(** src/exercise/reveal_models.py: RevealRule._is_revealed_due_to_time *)
Definition is_revealed_due_to_time (rule : RevealRule) (state : RevealState) (time : datetime) : bool :=
  match get_reveal_time rule state with
  | Some reveal_time => reveal_time <? time
  | None => false
  end.

(** src/exercise/reveal_models.py: RevealRule._is_revealed_due_to_max_submissions *)
Definition is_revealed_due_to_max_submissions (state : RevealState) : bool :=
  match get_submissions state, get_max_submissions state with
  | Some submissions, Some max_submissions =>
      (0 <? max_submissions) && (max_submissions <=? submissions)
  | _, _ => false
  end.

(** src/exercise/reveal_models.py: RevealRule.is_revealed *)
Definition is_revealed (rule : RevealRule) (state : RevealState) (time : datetime) : bool :=
  match trigger rule with
  | RevealTrigger.MANUAL => currently_revealed rule
  | RevealTrigger.IMMEDIATE => true
  | RevealTrigger.TIME | RevealTrigger.DEADLINE | RevealTrigger.DEADLINE_ALL =>
      is_revealed_due_to_time rule state time
  | RevealTrigger.COMPLETION =>
      is_revealed_due_to_full_points state || is_revealed_due_to_max_submissions state
  | RevealTrigger.DEADLINE_OR_FULL_POINTS =>
      is_revealed_due_to_full_points state || is_revealed_due_to_time rule state time
  end.

(** ** The reveal time predicts the reveal *)

(** Something revealed stays revealed as time passes. *)
Lemma is_revealed_mono rule state t t' :
  t <= t' -> is_revealed rule state t = true -> is_revealed rule state t' = true.
Proof.
  intros Ht. unfold is_revealed, is_revealed_due_to_time.
  destruct (trigger rule); auto; destruct (get_reveal_time rule state) as [r|]; auto;
    try (intros; b2p; apply Z.ltb_lt; lia).
  destruct (is_revealed_due_to_full_points state); [done|]. cbn. intros. b2p. apply Z.ltb_lt. lia.
Qed.

(** The time [get_reveal_time] announces is the boundary of the reveal: the
    information is shown at every later time, and, unless full points already
    reveal it, at no time up to and including it; without an announced time the
    answer does not depend on the clock. *)
Theorem reveal_time_is_boundary rule state :
  match get_reveal_time rule state with
  | Some r =>
      (forall t, r < t -> is_revealed rule state t = true) /\
      (forall t, t <= r -> is_revealed rule state t = true ->
         trigger rule = RevealTrigger.DEADLINE_OR_FULL_POINTS /\
         is_revealed_due_to_full_points state = true)
  | None => forall t t', is_revealed rule state t = is_revealed rule state t'
  end.
Proof.
  unfold is_revealed, is_revealed_due_to_time.
  destruct (get_reveal_time rule state) as [r|] eqn:E.
  - unfold get_reveal_time in E. destruct (trigger rule); try done.
    all: split; intros t Ht; [lia|intros Hr].
    all: try (exfalso; b2p; lia).
    split; [done|]. apply orb_prop in Hr as [?|?]; [done|b2p; lia].
  - intros t t'. destruct (trigger rule); done.
Qed.
