(* ===== verification/Models.v ===== *)
(** * Learning objects, exercises and submissions: the data model

    The rows of [exercise/exercise_models.py] and [exercise/submission_models.py]
    with their validation, visibility and naming.  Columns that only carry page
    text or service addresses and are read by no modelled operation are left
    out. *)

From Stdlib Require Import QArith.
From S2P Require Import Prelude Helpers Course Reveal.
#[local] Open Scope Z_scope.

(** ** Learning objects *)

Module LObjStatus.
Inductive t := READY | UNLISTED | ENROLLMENT | ENROLLMENT_EXTERNAL | HIDDEN | MAINTENANCE.
#[global] Instance eq_dec : EqDecision t.
Proof. solve_decision. Defined.
End LObjStatus.

Module Audience.
Inductive t := COURSE_AUDIENCE | INTERNAL_USERS | EXTERNAL_USERS | REGISTERED_USERS.
#[global] Instance eq_dec : EqDecision t.
Proof. solve_decision. Defined.
End Audience.

(** src/exercise/exercise_models.py: LearningObject lines 148-259 *)
Record LearningObject := mkLObj {
  lobj_id : Z;
  lobj_status : LObjStatus.t;
  audience : Audience.t;
  category : LearningObjectCategory;
  course_module : CourseModule;
  lobj_parent : option Z;
  lobj_order : Z;
  lobj_url : string;
  lobj_name : string;
}.

Definition lobj_instance (o : LearningObject) : CourseInstance := module_instance (course_module o).

(** src/exercise/exercise_models.py: LearningObjectProto.is_visible *)
Definition is_visible (category_st : CategoryStatus.t) (module_st : ModuleStatus.t)
    (st : LObjStatus.t) : bool :=
  negb (bool_decide (category_st = CategoryStatus.HIDDEN))
  && negb (bool_decide (module_st = ModuleStatus.HIDDEN))
  && negb (bool_decide (st ∈ [LObjStatus.HIDDEN; LObjStatus.ENROLLMENT;
                              LObjStatus.ENROLLMENT_EXTERNAL])).

(** src/exercise/exercise_models.py: LearningObjectProto.is_listed *)
Definition is_listed (category_st : CategoryStatus.t) (module_st : ModuleStatus.t)
    (st : LObjStatus.t) : bool :=
  is_visible category_st module_st st
  && (negb (bool_decide (module_st = ModuleStatus.UNLISTED))
      && negb (bool_decide (st ∈ [LObjStatus.UNLISTED; LObjStatus.MAINTENANCE]))).

(** src/exercise/exercise_models.py: LearningObjectProto.is_in_maintenance *)
Definition is_in_maintenance (module_st : ModuleStatus.t) (st : LObjStatus.t) : bool :=
  bool_decide (module_st = ModuleStatus.MAINTENANCE) || bool_decide (st = LObjStatus.MAINTENANCE).

(** ** The parent chain *)

Abbreviation LObjDB := (gmap Z LearningObject).

(** src/exercise/exercise_models.py: LearningObject.parent_list.  The recursion
    follows parent links; [fuel] stands for Python's recursion limit, and running
    out of it is the [RecursionError], a [RuntimeError]. *)
Fixpoint parent_list_rec (objs : LObjDB) (fuel : nat) (obj : option LearningObject)
    (parents : list LearningObject) : result (list LearningObject) :=
  match fuel with
  | O => Raise RuntimeError
  | S fuel' =>
      match obj with
      | Some o => parent_list_rec objs fuel' (lobj_parent o ≫= (objs !!.)) (o :: parents)
      | None => Ret parents
      end
  end.

Definition parent_list (objs : LObjDB) (fuel : nat) (self : LearningObject)
    : result (list LearningObject) :=
  parent_list_rec objs fuel (lobj_parent self ≫= (objs !!.)) [self].

(** src/exercise/exercise_models.py: LearningObject.number *)
Definition number (objs : LObjDB) (fuel : nat) (self : LearningObject) : result string :=
  let! l := parent_list objs fuel self in
  Ret (join "." ((fun o => str_of_Z (lobj_order o)) <$> l)).

(** src/exercise/exercise_models.py: LearningObjectProto.get_path *)
Definition get_path (objs : LObjDB) (fuel : nat) (self : LearningObject) : result string :=
  let! l := parent_list objs fuel self in
  Ret (join "/" (lobj_url <$> l)).

(** src/exercise/exercise_models.py: LearningObject._build_full_name *)
Definition build_full_name (objs : LObjDB) (fuel : nat) (self : LearningObject)
    (force_content_numbering force_module_numbering : option ContentNumbering.t) : result string :=
  let content := default (content_numbering (lobj_instance self)) force_content_numbering in
  let modnum := default (module_numbering (lobj_instance self)) force_module_numbering in
  if 0 <=? lobj_order self then
    match content with
    | ContentNumbering.ARABIC =>
        let! num := number objs fuel self in
        match modnum with
        | ContentNumbering.ARABIC | ContentNumbering.HIDDEN =>
            Ret (str_of_Z (module_order (course_module self)) +:+ "." +:+ num +:+ " " +:+ lobj_name self)
        | _ => Ret (num +:+ " " +:+ lobj_name self)
        end
    | ContentNumbering.ROMAN => Ret (roman_numeral (lobj_order self) +:+ " " +:+ lobj_name self)
    | _ => Ret (lobj_name self)
    end
  else Ret (lobj_name self).

(** src/exercise/exercise_models.py: LearningObject.hierarchical_name *)
Definition hierarchical_name (objs : LObjDB) (fuel : nat) (self : LearningObject) : result string :=
  build_full_name objs fuel self (Some ContentNumbering.ARABIC) (Some ContentNumbering.ARABIC).

Definition LOBJ_RESERVED : list string := ["submissions"; "plain"; "info"]%string.

(** src/exercise/exercise_models.py: LearningObject.clean *)
Definition lobj_clean (objs : LObjDB) (self : LearningObject) : result unit :=
  let err (b : bool) (field : string) : list string := if b then [field] else [] in
  let errors :=
    err (bool_decide (lobj_url self ∈ LOBJ_RESERVED)) "url"%string
    ++ err (negb (instance_id (lobj_instance self) =? category_instance (category self)))
         "category"%string
    ++ match lobj_parent self ≫= (objs !!.) with
       | Some p =>
           err (negb (module_id (course_module p) =? module_id (course_module self))
                || (lobj_id p =? lobj_id self)) "parent"%string
       | None => []
       end in
  match errors with
  | [] => Ret tt
  | _ => Raise (ValidationError errors)
  end.

(** ** Exercises *)

Module GradingMode.
Inductive t := BEST | LAST.
#[global] Instance eq_dec : EqDecision t.
Proof. solve_decision. Defined.
End GradingMode.

(** src/exercise/exercise_models.py: BaseExercise lines 545-640.  [no_submission]
    is the truth value of [exercise_info.get('no_submission')]. *)
Record BaseExercise := mkExercise {
  lobj :> LearningObject;
  allow_assistant_viewing : bool;
  allow_assistant_grading : bool;
  min_group_size : Z;
  max_group_size : Z;
  max_submissions : Z;
  max_points : Z;
  points_to_pass : Z;
  difficulty : string;
  submission_feedback_reveal_rule : option RevealRule;
  model_solutions_reveal_rule : option RevealRule;
  grading_mode : GradingMode.t;
  no_submission : bool;
  service_host : string;
}.

(** src/exercise/exercise_models.py: BaseExercise.clean (after the learning
    object's own validation). *)
Definition exercise_clean (objs : LObjDB) (self : BaseExercise) : result unit :=
  let! _ := lobj_clean objs self in
  let err (b : bool) (field : string) : list string := if b then [field] else [] in
  let errors :=
    err (max_points self <? points_to_pass self) "points_to_pass"%string
    ++ err (max_group_size self <? min_group_size self) "min_group_size"%string in
  match errors with
  | [] => Ret tt
  | _ => Raise (ValidationError errors)
  end.

Definition default_rule (t : RevealTrigger.t) : RevealRule := mkRevealRule t None None false false.

(** src/exercise/exercise_models.py: BaseExercise.active_submission_feedback_reveal_rule *)
Definition active_submission_feedback_reveal_rule (self : BaseExercise) : RevealRule :=
  default (default_rule RevealTrigger.IMMEDIATE) (submission_feedback_reveal_rule self).

(** src/exercise/exercise_models.py: BaseExercise.active_model_solutions_reveal_rule *)
Definition active_model_solutions_reveal_rule (self : BaseExercise) : RevealRule :=
  default (default_rule RevealTrigger.DEADLINE) (model_solutions_reveal_rule self).

(** ** Submissions *)

Module SubStatus.
Inductive t := INITIALIZED | WAITING | READY | ERROR | REJECTED | UNOFFICIAL.
#[global] Instance eq_dec : EqDecision t.
Proof. solve_decision. Defined.
End SubStatus.

Module UnofficialType.
Inductive t := DEADLINE_PASSED | LIMIT_EXCEEDED.
#[global] Instance eq_dec : EqDecision t.
Proof. solve_decision. Defined.
End UnofficialType.

(** src/exercise/submission_models.py: Submission lines 351-469 *)
Record Submission := mkSubmission {
  sub_id : Z;
  sub_exercise : Z;
  submission_time : datetime;
  submitters : list UserProfile;
  grader : option Z;
  feedback : string;
  sub_status : SubStatus.t;
  unofficial_submission_type : option UnofficialType.t;
  grade : Z;
  grading_time : option datetime;
  late_penalty_applied : option Q;
  force_exercise_points : bool;
  service_points : Z;
  service_max_points : Z;
  lti_launch_id : option string;
}.

(** src/exercise/submission_models.py: Submission.is_assessed *)
Definition is_assessed (s : Submission) : bool := bool_decide (is_Some (grader s)).

(** src/exercise/submission_models.py: Submission.is_graded *)
Definition is_graded (s : Submission) : bool :=
  bool_decide (sub_status s ∈ [SubStatus.READY; SubStatus.UNOFFICIAL]).

(** src/exercise/submission_models.py: Submission.is_approvable *)
Definition is_approvable (s : Submission) : bool :=
  bool_decide (is_Some (late_penalty_applied s)) || bool_decide (sub_status s = SubStatus.UNOFFICIAL).

Definition submitted_by (s : Submission) (p : UserProfile) : bool :=
  bool_decide (profile_id p ∈ profile_set (submitters s)).

(** ** Validation and visibility *)

(** Listed objects are visible, and neither hidden nor in maintenance themselves. *)
Lemma is_listed_visible c m st :
  is_listed c m st = true ->
  is_visible c m st = true /\ st <> LObjStatus.HIDDEN /\ st <> LObjStatus.MAINTENANCE.
Proof. destruct c, m, st; vm_compute; intuition congruence. Qed.

Lemma parent_list_rec_enough objs depth fuel obj acc :
  (forall o p, objs !! lobj_id o = Some o -> lobj_parent o ≫= (objs !!.) = Some p ->
     objs !! lobj_id p = Some p /\ (depth p < depth o)%nat) ->
  (forall o, obj = Some o -> objs !! lobj_id o = Some o) ->
  (match obj with Some o => S (depth o) | None => O end < fuel)%nat ->
  exists ps, parent_list_rec objs fuel obj acc = Ret (ps ++ acc)%list.
Proof.
  intros Hd. revert obj acc. induction fuel as [|fuel IH]; intros obj acc Ho Hf; [lia|].
  cbn. destruct obj as [o|]; [|by exists []].
  specialize (Ho o eq_refl).
  destruct (IH (lobj_parent o ≫= (objs !!.)) (o :: acc)) as [ps Hps].
  - intros p Hp. by eapply Hd.
  - destruct (lobj_parent o ≫= (objs !!.)) as [p|] eqn:E; [|lia].
    destruct (Hd o p Ho E). lia.
  - exists (ps ++ [o])%list. rewrite Hps, <- app_assoc. done.
Qed.

(** When parent links decrease some depth measure, the recursion of
    [parent_list] returns, with a list that ends in the object itself, and so do
    the number and the path built from it. *)
Theorem parent_list_terminates objs (depth : LearningObject -> nat) self :
  (forall o p, objs !! lobj_id o = Some o -> lobj_parent o ≫= (objs !!.) = Some p ->
     objs !! lobj_id p = Some p /\ (depth p < depth o)%nat) ->
  objs !! lobj_id self = Some self ->
  exists ps, parent_list objs (depth self + 2) self = Ret (ps ++ [self])%list /\
             (exists s, get_path objs (depth self + 2) self = Ret s) /\
             (exists s, number objs (depth self + 2) self = Ret s).
Proof.
  intros Hd Hs. unfold get_path, number, parent_list.
  destruct (parent_list_rec_enough objs depth (depth self + 2)
              (lobj_parent self ≫= (objs !!.)) [self]) as [ps Hps]; [done| |..].
  - intros p Hp. by eapply Hd.
  - destruct (lobj_parent self ≫= (objs !!.)) as [p|] eqn:E; [|lia].
    destruct (Hd self p Hs E). lia.
  - exists ps. rewrite Hps. cbn. eauto.
Qed.

Definition example_category : LearningObjectCategory :=
  mkCategory 1 "Exercises" CategoryStatus.READY 0 1 false true.

Definition example_lobj (i : Z) (parent : option Z) (url : string) : LearningObject :=
  mkLObj i LObjStatus.READY Audience.COURSE_AUDIENCE example_category
    (example_module true (1#2)) parent i url "Exercise".

Definition example_objs : LObjDB :=
  {[ 1 := example_lobj 1 None "chapter"; 2 := example_lobj 2 (Some 1) "ex" ]}.

Lemma parent_list_terminates_witness :
  exists s, get_path example_objs 3 (example_lobj 2 (Some 1) "ex") = Ret s /\ s = "chapter/ex"%string.
Proof.
  destruct (parent_list_terminates example_objs (fun o => Z.to_nat (lobj_id o - 1))
    (example_lobj 2 (Some 1) "ex")) as (ps & _ & [s Hs] & _).
  - intros o p Ho Hp. unfold example_objs in *.
    apply lookup_insert_Some in Ho as [[<- <-]|[_ Ho]]; [discriminate|].
    apply lookup_singleton_Some in Ho as [_ <-]. cbn in Hp.
    vm_compute in Hp. injection Hp as <-. split; [reflexivity|cbn; lia].
  - reflexivity.
  - exists s. split; [exact Hs|]. vm_compute in Hs. by injection Hs as <-.
Defined.

(** The validation accepts two objects that are each other's parent: only the
    one-step cycle is refused, and on the longer cycle [parent_list] does not
    return within any recursion limit. *)
Lemma clean_accepts_parent_cycle :
  let a := example_lobj 1 (Some 2) "a" in
  let b := example_lobj 2 (Some 1) "b" in
  let objs : LObjDB := {[ 1 := a; 2 := b ]} in
  lobj_clean objs a = Ret tt /\ lobj_clean objs b = Ret tt /\
  forall fuel, parent_list objs fuel a = Raise RuntimeError.
Proof.
  split; [reflexivity|]. split; [reflexivity|]. intros fuel. unfold parent_list. cbn [lobj_parent].
  assert (H : forall n acc,
    parent_list_rec ({[ 1 := example_lobj 1 (Some 2) "a"; 2 := example_lobj 2 (Some 1) "b" ]} : LObjDB)
      n (Some (example_lobj 2 (Some 1) "b")) acc = Raise RuntimeError /\
    parent_list_rec ({[ 1 := example_lobj 1 (Some 2) "a"; 2 := example_lobj 2 (Some 1) "b" ]} : LObjDB)
      n (Some (example_lobj 1 (Some 2) "a")) acc = Raise RuntimeError).
  { induction n as [|n IH]; [done|]. intros acc. cbn [parent_list_rec lobj_parent]. split.
    - exact (proj2 (IH _)).
    - exact (proj1 (IH _)). }
  exact (proj1 (H fuel _)).
Qed.
