(* ===== verification/Exercise.v ===== *)
(** * The submission policy of exercises

    [BaseExercise] of [exercise/exercise_models.py]: when an exercise accepts
    submissions, from whom, in which group and how many times.  The database
    tables the policy reads are the fields of [World]; the clock is one of them.
    The messages of the alerts are kept as constructors with the values the code
    formats into their text. *)

From Stdlib Require Import QArith.
From S2P Require Import Prelude Binary64 Helpers Course Deviations Reveal Models.
#[local] Open Scope Z_scope.

(** The tables and the clock a request sees.  [submissions] is in the model's
    default order, newest first; [user_of] is the one-to-one [profile.user]. *)
Record World := mkWorld {
  enrollments : EnrollmentDB;
  groups : list StudentGroup;
  submissions : list Submission;
  deadline_deviations : list DeadlineRuleDeviation;
  submissions_deviations : list MaxSubmissionsRuleDeviation;
  user_of : UserProfile -> User;
  now : datetime;
}.

Definition with_submissions (w : World) (l : list Submission) : World :=
  mkWorld (enrollments w) (groups w) l (deadline_deviations w) (submissions_deviations w)
    (user_of w) (now w).

Definition exercise_id (self : BaseExercise) : Z := lobj_id self.

Definition is_enrollment_exercise (self : BaseExercise) : bool :=
  bool_decide (lobj_status self ∈ [LObjStatus.ENROLLMENT; LObjStatus.ENROLLMENT_EXTERNAL]).

Definition profile_user (w : World) (p : UserProfile) : AnyUser := NormalUser (user_of w p).

(** ** Deadlines *)

Module Timing.
(** src/exercise/exercise_models.py: BaseExercise lines 550-557 *)
Inductive t := CLOSED_BEFORE | OPEN | LATE | UNOFFICIAL | CLOSED_AFTER | ARCHIVED.
#[global] Instance eq_dec : EqDecision t.
Proof. solve_decision. Defined.
End Timing.

Definition new_deadline (self : BaseExercise) (d : DeadlineRuleDeviation) : datetime :=
  get_new_deadline d (closing_time (course_module self)).

(** [self.deadlineruledeviation_set.filter(submitter=profile)] *)
Definition deadline_deviations_of (w : World) (self : BaseExercise) (p : UserProfile)
    : list DeadlineRuleDeviation :=
  filter (fun d => dl_exercise d = exercise_id self /\ dl_submitter d = profile_id p)
    (deadline_deviations w).

(** One turn of the inner loop of [one_has_deadline_deviation]. *)
Definition longer_deviation (self : BaseExercise) (deviation : option DeadlineRuleDeviation)
    (d : DeadlineRuleDeviation) : option DeadlineRuleDeviation :=
  match deviation with
  | None => Some d
  | Some d0 => if new_deadline self d0 <? new_deadline self d then Some d else deviation
  end.

(** src/exercise/exercise_models.py: BaseExercise.one_has_deadline_deviation *)
Definition one_has_deadline_deviation (w : World) (self : BaseExercise)
    (students : list UserProfile) : option DeadlineRuleDeviation :=
  foldl (fun deviation profile =>
           foldl (longer_deviation self) deviation (deadline_deviations_of w self profile))
    None students.

(** src/exercise/exercise_models.py: BaseExercise.get_timing *)
Definition get_timing (w : World) (self : BaseExercise) (students : list UserProfile)
    (when : datetime) : Timing.t * datetime :=
  let module := course_module self in
  let instance := module_instance module in
  if is_archived instance when then (Timing.ARCHIVED, archive_start instance)
  else if negb (have_exercises_been_opened module when) then
    (Timing.CLOSED_BEFORE, opening_time module)
  else if exercises_open module when || confirm_the_level (category self) then
    (Timing.OPEN, closing_time module)
  else
    let deviation := one_has_deadline_deviation w self students in
    let after (dl : option datetime) :=
      if is_late_submission_open module when then
        (Timing.LATE, late_submission_deadline module)
      else
        let dl := match dl with
                  | Some dl => dl
                  | None => if late_submissions_allowed module
                            then late_submission_deadline module else closing_time module
                  end in
        if accept_unofficial_submits (category self) then (Timing.UNOFFICIAL, dl)
        else (Timing.CLOSED_AFTER, dl) in
    match deviation with
    | Some d =>
        let dl := new_deadline self d in
        if when <=? dl then
          (if without_late_penalty d then Timing.OPEN else Timing.LATE, dl)
        else after (Some dl)
    | None => after None
    end.

(** ** Alerts *)

Inductive Message :=
| TIMING_LATE (date : datetime) (percent : Z)
| TIMING_UNOFFICIAL (date : datetime)
| TIMING_CLOSED_BEFORE (date : datetime)
| TIMING_CLOSED_AFTER (date : datetime)
| TIMING_ARCHIVED (date : datetime)
| MAX_SUBMISSIONS_USED_UNOFFICIAL_ALLOWED
| MAX_SUBMISSIONS_USED
| GRADED_BY_COURSE_STAFF_ONLY
| ENROLLMENT_NOT_OPEN
| CANNOT_ENROLL_IN_COURSE
| STAFF_CAN_SUBMIT_WITHOUT_ENROLLING
| MUST_ENROLL_TO_SUBMIT
| INVALID_JSON_IN_POST
| NO_GROUP_WITH_ID
| PREVIOUSLY_SUBMITTED_ALONE
| PREVIOUSLY_SUBMITTED_WITH (collaborators : list UserProfile)
| COLLABS_HAVE_SUBMITTED (collaborators : list UserProfile)
| REQUIRES_GROUP_SIZE (min max : Z)
| CANNOT_SUBMIT_UNKNOWN_REASON.

Record Alerts := mkAlerts {
  error_messages : list Message;
  warning_messages : list Message;
  info_messages : list Message;
}.

Definition no_alerts : Alerts := mkAlerts [] [] [].
Definition errors1 (m : Message) : Alerts := mkAlerts [m] [] [].
Definition warnings1 (m : Message) : Alerts := mkAlerts [] [m] [].
Definition infos1 (m : Message) : Alerts := mkAlerts [] [] [m].

(** The key-wise concatenation of two alert dictionaries. *)
Definition alerts_app (a b : Alerts) : Alerts :=
  mkAlerts (error_messages a ++ error_messages b) (warning_messages a ++ warning_messages b)
    (info_messages a ++ info_messages b).

(** src/exercise/exercise_models.py: BaseExercise.one_has_access *)
Definition one_has_access (w : World) (self : BaseExercise) (students : list UserProfile)
    (when : datetime) : bool * Alerts :=
  let (timing, d) := get_timing w self students when in
  match timing with
  | Timing.OPEN => (true, no_alerts)
  | Timing.LATE =>
      (true, warnings1 (TIMING_LATE d (get_late_submission_point_worth (course_module self))))
  | Timing.UNOFFICIAL => (true, warnings1 (TIMING_UNOFFICIAL d))
  | Timing.CLOSED_BEFORE => (false, infos1 (TIMING_CLOSED_BEFORE d))
  | Timing.CLOSED_AFTER => (false, infos1 (TIMING_CLOSED_AFTER d))
  | Timing.ARCHIVED => (false, errors1 (TIMING_ARCHIVED d))
  end.

(** ** Submission counts *)

(** src/exercise/submission_models.py: SubmissionManager.exclude_errors *)
Definition exclude_errors (l : list Submission) : list Submission :=
  filter (fun s => sub_status s ∉ [SubStatus.ERROR; SubStatus.REJECTED]) l.

(** src/exercise/submission_models.py: SubmissionManager.exclude_unofficial *)
Definition exclude_unofficial (l : list Submission) : list Submission :=
  filter (fun s => sub_status s <> SubStatus.UNOFFICIAL) l.

(** [user_profile.submissions] *)
Definition submissions_of (w : World) (p : UserProfile) : list Submission :=
  filter (fun s => submitted_by s p = true) (submissions w).

(** src/exercise/exercise_models.py: BaseExercise.get_submissions_for_student *)
Definition get_submissions_for_student (w : World) (self : BaseExercise) (p : UserProfile)
    (no_errors no_unofficial : bool) : list Submission :=
  let l := submissions_of w p in
  let l := if no_errors then exclude_errors l else l in
  let l := if no_unofficial then exclude_unofficial l else l in
  filter (fun s => sub_exercise s = exercise_id self) l.

(** src/exercise/exercise_models.py: BaseExercise.max_submissions_for_student *)
Definition max_submissions_for_student (w : World) (self : BaseExercise) (p : UserProfile) : Z :=
  match head (filter (fun d => ms_exercise d = exercise_id self /\ ms_submitter d = profile_id p)
                (submissions_deviations w)) with
  | Some deviation => max_submissions self + extra_submissions deviation
  | None => max_submissions self
  end.

Definition submission_count (w : World) (self : BaseExercise) (p : UserProfile) : Z :=
  Z.of_nat (length (get_submissions_for_student w self p true true)).

Module SubmitStatus.
(** src/exercise/exercise_models.py: BaseExercise lines 559-567 *)
Inductive t := ALLOWED | CANNOT_ENROLL | NOT_ENROLLED | INVALID_GROUP | AMOUNT_EXCEEDED
  | NO_SUBMISSION | INVALID.
#[global] Instance eq_dec : EqDecision t.
Proof. solve_decision. Defined.
End SubmitStatus.

Section Policy.
Context `{Settings}.

(** The test for a single student who is not enrolled, at the start of
    [one_has_submissions] and [no_submissions_left]. *)
Definition enrolling (w : World) (self : BaseExercise) (students : list UserProfile) : bool :=
  match students with
  | [p] =>
      is_enrollment_exercise self
      && match enrollments w !! (instance_id (lobj_instance self),
                                 profile_id (userprofile (user_of w p))) with
         | Some e => negb (bool_decide (status e = EnrollmentStatus.ACTIVE))
         | None => true
         end
  | _ => false
  end.

(** The loop over the students: [None] when one of them has submissions left,
    else the count of the last student. *)
Fixpoint counts_used (w : World) (self : BaseExercise) (count : Z)
    (students : list UserProfile) : option Z :=
  match students with
  | [] => Some count
  | p :: rest =>
      if submission_count w self p <? max_submissions_for_student w self p then None
      else counts_used w self (submission_count w self p) rest
  end.

(** src/exercise/exercise_models.py: BaseExercise.one_has_submissions *)
Definition one_has_submissions (w : World) (self : BaseExercise) (students : list UserProfile)
    : bool * Alerts :=
  if enrolling w self students then (true, no_alerts)
  else
    match counts_used w self 0 students with
    | None => (true, no_alerts)
    | Some submission_count =>
        let used := (false, errors1 MAX_SUBMISSIONS_USED) in
        if (MAX_UNOFFICIAL_SUBMISSIONS =? 0) || (submission_count <? MAX_UNOFFICIAL_SUBMISSIONS)
        then
          if max_submissions self =? 0 then (true, no_alerts)
          else if accept_unofficial_submits (category self)
          then (true, warnings1 MAX_SUBMISSIONS_USED_UNOFFICIAL_ALLOWED)
          else used
        else used
    end.

(** src/exercise/exercise_models.py: BaseExercise.no_submissions_left *)
Definition no_submissions_left (w : World) (self : BaseExercise) (students : list UserProfile)
    : bool :=
  if enrolling w self students then false
  else if max_submissions self =? 0 then false
  else forallb (fun p => negb (submission_count w self p <=? max_submissions_for_student w self p))
         students.

(** ** Group checks *)

(** src/exercise/exercise_models.py: BaseExercise._detect_group_changes *)
Definition detect_group_changes (profile : UserProfile) (group : option StudentGroup)
    (submission : Submission) : result bool :=
  match group with
  | Some g => Ret (negb (group_equals g (submitters submission)))
  | None =>
      match submitters submission with
      | _ :: _ :: _ => Ret true
      | [p] => Ret (negb (profile_id p =? profile_id profile))
      | [] => Raise IndexError
      end
  end.

(** src/exercise/exercise_models.py: BaseExercise._detect_submissions *)
Definition detect_submissions (w : World) (self : BaseExercise) (profile : UserProfile)
    (group : option StudentGroup) : bool :=
  match group with
  | Some g =>
      negb (forallb (fun p => bool_decide (length (get_submissions_for_student w self p false false) = 0%nat))
              (filter_collaborators_of (members g) profile))
  | None => false
  end.

(** ** Whether a submission is accepted *)

(** A group id sent by the client, by what Python's [int] does on it. *)
Inductive GroupValue :=
| IntValue (gid : Z)
| IntValueError
| IntTypeError.

(** The field [__aplus__] of the request: the value under its key [group]. *)
Inductive AplusField :=
| InvalidJson
| JsonNotDict
| JsonGroup (group : option GroupValue).

(** What the policy reads of [request.POST]: the field [__aplus__] (an absent
    field reads as an empty object) and the field [_aplus_group]. *)
Record PostData := mkPost {
  aplus_field : AplusField;
  aplus_group : option GroupValue;
}.

Definition SubmitResult : Type := (SubmitStatus.t * Alerts * list UserProfile).

(** An active enrollment. *)
Definition active_enrollment (e : option Enrollment) : bool :=
  match e with
  | Some e => bool_decide (status e = EnrollmentStatus.ACTIVE)
  | None => false
  end.

(** src/exercise/exercise_models.py: BaseExercise._check_submission_allowed lines 926-943.
    The enrollment requirements: [inl] is an early return, [inr] the enrollment. *)
Definition check_enrollment (w : World) (self : BaseExercise) (profile : UserProfile)
    : result (SubmitResult + option Enrollment) :=
  let instance := lobj_instance self in
  let user := profile_user w profile in
  let! enrollment := get_enrollment_for instance (enrollments w) user in
  if is_enrollment_exercise self then
    if negb (is_enrollment_open instance (now w)) then
      Ret (inl (SubmitStatus.CANNOT_ENROLL, errors1 ENROLLMENT_NOT_OPEN, [profile]))
    else
      let! enrollable := is_enrollable instance (enrollments w) user in
      if negb enrollable then
        Ret (inl (SubmitStatus.CANNOT_ENROLL, errors1 CANNOT_ENROLL_IN_COURSE, [profile]))
      else Ret (inr enrollment)
  else if negb (active_enrollment enrollment) then
    if is_course_staff instance (enrollments w) user then
      Ret (inl (SubmitStatus.ALLOWED, infos1 STAFF_CAN_SUBMIT_WITHOUT_ENROLLING, [profile]))
    else Ret (inl (SubmitStatus.NOT_ENROLLED, errors1 MUST_ENROLL_TO_SUBMIT, [profile]))
  else Ret (inr enrollment).

(** src/exercise/exercise_models.py: BaseExercise._check_submission_allowed lines 945-970.
    The group named by the request, else the selected group of the enrollment. *)
Definition find_group (w : World) (self : BaseExercise) (profile : UserProfile)
    (enrollment : option Enrollment) (request : option PostData)
    : result (SubmitResult + option StudentGroup) :=
  let selected := inr
    (if active_enrollment enrollment then
       (enrollment ≫= selected_group) ≫= fun gid => find (fun g => group_id g =? gid) (groups w)
     else None) in
  let with_id (v : GroupValue) :=
    match v with
    | IntTypeError => Raise TypeError
    | IntValueError => Ret (inr None)
    | IntValue gid =>
        if 0 <? gid then
          match head (filter (fun g => profile_id profile ∈ profile_set (members g) /\
                                       group_instance g = instance_id (lobj_instance self) /\
                                       group_id g = gid) (groups w)) with
          | None => Ret (inl (SubmitStatus.INVALID_GROUP, errors1 NO_GROUP_WITH_ID, [profile]))
          | Some g => Ret (inr (Some g))
          end
        else Ret (inr None)
    end in
  match request with
  | None => Ret selected
  | Some post =>
      match aplus_field post with
      | InvalidJson => Ret (inl (SubmitStatus.INVALID, errors1 INVALID_JSON_IN_POST, [profile]))
      | JsonNotDict => Raise AttributeError
      | JsonGroup (Some v) => with_id v
      | JsonGroup None =>
          match aplus_group post with
          | Some v => with_id v
          | None => Ret selected
          end
      end
  end.

(** src/exercise/exercise_models.py: BaseExercise._check_submission_allowed lines 972-996.
    Groups cannot be changed after submitting. *)
Definition check_group_unchanged (w : World) (self : BaseExercise) (profile : UserProfile)
    (group : option StudentGroup) : result (option SubmitResult) :=
  if 1 <? max_group_size self then
    match head (get_submissions_for_student w self profile false false) with
    | Some submission =>
        let! changed := detect_group_changes profile group submission in
        if changed : bool then
          let msg :=
            if (length (submitters submission) =? 1)%nat then PREVIOUSLY_SUBMITTED_ALONE
            else PREVIOUSLY_SUBMITTED_WITH
                   (filter_collaborators_of (submitters submission) profile) in
          Ret (Some (SubmitStatus.INVALID_GROUP, errors1 msg, [profile]))
        else Ret None
    | None =>
        if detect_submissions w self profile group then
          Ret (Some (SubmitStatus.INVALID_GROUP,
                     errors1 (COLLABS_HAVE_SUBMITTED
                       (match group with
                        | Some g => filter_collaborators_of (members g) profile
                        | None => []
                        end)), [profile]))
        else Ret None
    end
  else Ret None.

(** [all(self.course_instance.is_course_staff(p.user) for p in students)] *)
Definition all_staff (w : World) (self : BaseExercise) (students : list UserProfile) : bool :=
  forallb (fun p => is_course_staff (lobj_instance self) (enrollments w) (profile_user w p)) students.

Definition group_size_ok (self : BaseExercise) (students : list UserProfile) : bool :=
  (min_group_size self <=? Z.of_nat (length students))
  && (Z.of_nat (length students) <=? max_group_size self).

(** src/exercise/exercise_models.py: BaseExercise._check_submission_allowed lines 998-1043.
    Group size, deadlines and the number of submissions. *)
Definition check_limits (w : World) (self : BaseExercise) (students : list UserProfile)
    : SubmitResult :=
  let alerts :=
    if group_size_ok self students then no_alerts
    else errors1 (REQUIRES_GROUP_SIZE (min_group_size self) (max_group_size self)) in
  let (access_ok, access_alerts) :=
    if is_enrollment_exercise self then (true, no_alerts)
    else one_has_access w self students (now w) in
  let is_staff := all_staff w self students in
  let ok :=
    (access_ok && (length (error_messages alerts ++ warning_messages alerts) =? 0)%nat)
    || is_staff in
  let all_alerts := alerts_app alerts access_alerts in
  if negb ok then
    let all_alerts :=
      if (length (error_messages all_alerts ++ warning_messages all_alerts
                  ++ info_messages all_alerts) =? 0)%nat
      then alerts_app all_alerts (errors1 CANNOT_SUBMIT_UNKNOWN_REASON) else all_alerts in
    (SubmitStatus.INVALID, all_alerts, students)
  else
    let (submit_limit_ok, submit_limit_alerts) := one_has_submissions w self students in
    if negb submit_limit_ok && negb is_staff then
      (SubmitStatus.AMOUNT_EXCEEDED, submit_limit_alerts, students)
    else (SubmitStatus.ALLOWED, alerts_app all_alerts submit_limit_alerts, students).

(** src/exercise/exercise_models.py: BaseExercise._check_submission_allowed lines 903-925 *)
Definition check_submission_allowed (w : World) (self : BaseExercise) (profile : UserProfile)
    (request : option PostData) : result SubmitResult :=
  if no_submission self
     && negb (is_course_staff (lobj_instance self) (enrollments w) (profile_user w profile))
  then Ret (SubmitStatus.NO_SUBMISSION, errors1 GRADED_BY_COURSE_STAFF_ONLY, [profile])
  else
    let! checked := check_enrollment w self profile in
    match checked with
    | inl early => Ret early
    | inr enrollment =>
        let! found := find_group w self profile enrollment request in
        match found with
        | inl early => Ret early
        | inr group =>
            let! unchanged := check_group_unchanged w self profile group in
            match unchanged with
            | Some early => Ret early
            | None =>
                let students := match group with Some g => members g | None => [profile] end in
                Ret (check_limits w self students)
            end
        end
    end.

End Policy.

(** ** Submission drafts *)

(** src/exercise/submission_models.py: SubmissionDraft lines 733-773 *)
Record SubmissionDraft := mkDraft {
  draft_active : bool;
  draft_data : list (string * string);
}.

(** One draft per exercise and submitter ([unique_together]). *)
Abbreviation DraftDB := (gmap (Z * Z) SubmissionDraft).

(** src/exercise/exercise_models.py: BaseExercise.get_submission_draft *)
Definition get_submission_draft (self : BaseExercise) (p : UserProfile) (db : DraftDB)
    : option SubmissionDraft :=
  match db !! (exercise_id self, profile_id p) with
  | Some d => if draft_active d then Some d else None
  | None => None
  end.

(** src/exercise/exercise_models.py: BaseExercise.set_submission_draft *)
Definition set_submission_draft (self : BaseExercise) (p : UserProfile)
    (data : list (string * string)) (db : DraftDB) : DraftDB :=
  <[ (exercise_id self, profile_id p) := mkDraft true data ]> db.

(** src/exercise/exercise_models.py: BaseExercise.unset_submission_draft *)
Definition unset_submission_draft (self : BaseExercise) (p : UserProfile) (db : DraftDB) : DraftDB :=
  alter (fun d => if draft_active d then mkDraft false (draft_data d) else d)
    (exercise_id self, profile_id p) db.

(** ** Deadlines: what the loop over the deviations returns *)

Section TimingTheory.
Implicit Types (w : World) (self : BaseExercise) (students : list UserProfile).

(** Some student of the list was granted an extension of this exercise that
    reaches the given time. *)
Definition extended_until w self students (when : datetime) : Prop :=
  exists p d, p ∈ students /\ d ∈ deadline_deviations w /\
    dl_exercise d = exercise_id self /\ dl_submitter d = profile_id p /\
    when <= new_deadline self d.

Lemma longer_deviation_spec self o d :
  exists d', longer_deviation self o d = Some d' /\
    (d' = d \/ o = Some d') /\ new_deadline self d <= new_deadline self d' /\
    (forall d0, o = Some d0 -> new_deadline self d0 <= new_deadline self d').
Proof.
  unfold longer_deviation. destruct o as [d0|]; [|exists d; naive_solver lia].
  destruct (_ <? _) eqn:E; b2p; [exists d|exists d0]; naive_solver lia.
Qed.

(** A fold of [longer_deviation] keeps the latest deadline of all it has seen. *)
Lemma longest_deviation_spec self o l :
  match foldl (longer_deviation self) o l with
  | Some d => (o = Some d \/ d ∈ l) /\
              forall d', o = Some d' \/ d' ∈ l -> new_deadline self d' <= new_deadline self d
  | None => o = None /\ l = []
  end.
Proof.
  revert o. induction l as [|d l IH]; intros o; cbn.
  - destruct o; [|done]. split; [auto|]. intros d' [[= ->]|H]; [lia|by apply not_elem_of_nil in H].
  - destruct (longer_deviation_spec self o d) as (d1 & E & Hfrom & Hge & Hold).
    rewrite E. specialize (IH (Some d1)).
    destruct (foldl _ _ l) as [d2|]; [|naive_solver].
    destruct IH as [Hin Hub]. split.
    + rewrite elem_of_cons. naive_solver.
    + intros d' [Ho|Hd]; [|apply elem_of_cons in Hd as [->|Hd]; [|by apply Hub; right]].
      * pose proof (Hold _ Ho). pose proof (Hub d1 (or_introl eq_refl)). lia.
      * pose proof (Hub d1 (or_introl eq_refl)). lia.
Qed.

(** The nested loop is one fold over the deviations of all the students. *)
Lemma one_has_deadline_deviation_flat w self students :
  one_has_deadline_deviation w self students =
  foldl (longer_deviation self) None (students ≫= deadline_deviations_of w self).
Proof.
  unfold one_has_deadline_deviation. generalize (@None DeadlineRuleDeviation).
  induction students as [|p l IH]; intros o; cbn; [done|].
  rewrite foldl_app. apply IH.
Qed.

Lemma elem_of_student_deviations w self students d :
  d ∈ (students ≫= deadline_deviations_of w self) <->
  exists p, p ∈ students /\ d ∈ deadline_deviations w /\
    dl_exercise d = exercise_id self /\ dl_submitter d = profile_id p.
Proof.
  rewrite list_elem_of_bind. unfold deadline_deviations_of.
  setoid_rewrite list_elem_of_filter. naive_solver.
Qed.

(** The returned deviation reaches a time exactly when some deviation does. *)
Lemma one_has_deadline_deviation_reaches w self students when :
  extended_until w self students when <->
  exists d, one_has_deadline_deviation w self students = Some d /\ when <= new_deadline self d.
Proof.
  rewrite one_has_deadline_deviation_flat.
  pose proof (longest_deviation_spec self None (students ≫= deadline_deviations_of w self)) as Hs.
  split.
  - intros (p & d & Hp & Hd & He & Hsub & Hw).
    assert (Hin : d ∈ (students ≫= deadline_deviations_of w self))
      by (apply elem_of_student_deviations; eauto).
    destruct (foldl _ _ _) as [d'|].
    + exists d'. split; [done|]. destruct Hs as [_ Hub]. specialize (Hub d (or_intror Hin)). lia.
    + destruct Hs as [_ Hs]. rewrite Hs in Hin. by apply not_elem_of_nil in Hin.
  - intros (d & E & Hw). rewrite E in Hs. destruct Hs as [[?|Hin] _]; [done|].
    apply elem_of_student_deviations in Hin as (p & ? & ? & ? & ?). exists p, d. auto.
Qed.

(** C1. The window in which submissions are let through, as an exact condition:
    never once the course instance is archived or before the exercises open;
    then until the closing time, always when the category confirms the course
    level, until the latest extension granted to any one of the students (the
    doc comment of the deviations asks for one for each of them, see
    [one_deviation_extends_the_group]), while the late submission period lasts,
    and afterwards only if the category takes unofficial ones. *)
Theorem one_has_access_window w self students when :
  fst (one_has_access w self students when) = true <->
  when <= archive_start (lobj_instance self) /\
  opening_time (course_module self) <= when /\
  (when <= closing_time (course_module self) \/
   confirm_the_level (category self) = true \/
   extended_until w self students when \/
   (late_submissions_allowed (course_module self) = true /\
    closing_time (course_module self) <= when <= late_submission_deadline (course_module self)) \/
   accept_unofficial_submits (category self) = true).
Proof.
  rewrite one_has_deadline_deviation_reaches. unfold one_has_access, get_timing, lobj_instance.
  unfold is_archived, have_exercises_been_opened, exercises_open, is_late_submission_open.
  destruct (_ <? when) eqn:Ea; b2p; cbn; [split; [done|lia]|].
  destruct (_ <=? when) eqn:Eo; b2p; cbn; [|split; [done|lia]].
  destruct (when <=? closing_time _) eqn:Ec; b2p; cbn; [intuition lia|].
  destruct (confirm_the_level _); cbn; [intuition lia|].
  destruct (one_has_deadline_deviation _ _ _) as [d|]; cbn;
    [destruct (when <=? new_deadline self d) eqn:Ed; b2p;
       [destruct (without_late_penalty d); cbn; split; [|done| |done];
          (intros _; split; [lia|]; split; [lia|]; right; right; left; by exists d)|]|];
    destruct (late_submissions_allowed (course_module self)); cbn;
    destruct (closing_time (course_module self) <=? when) eqn:El; b2p; try lia;
    try (destruct (when <=? late_submission_deadline (course_module self)) eqn:Ed2; b2p); cbn;
    destruct (accept_unofficial_submits (category self)); cbn;
    intuition (try done; try lia); naive_solver lia.
Qed.

(** The doc comment of [SubmissionRuleDeviation] says that all submitters must
    have a deviation for a late submission of a group to be allowed; one is
    enough, whoever else is in the group. *)
Lemma one_deviation_extends_the_group w self p others d when :
  d ∈ deadline_deviations w -> dl_exercise d = exercise_id self ->
  dl_submitter d = profile_id p -> when <= new_deadline self d ->
  opening_time (course_module self) <= when <= archive_start (lobj_instance self) ->
  fst (one_has_access w self (p :: others) when) = true.
Proof.
  intros Hd He Hs Hw Ht.
  assert (exists d', one_has_deadline_deviation w self (p :: others) = Some d' /\
            when <= new_deadline self d') as (d' & Ed & Hw').
  { apply one_has_deadline_deviation_reaches. exists p, d. set_solver. }
  unfold one_has_access, get_timing, is_archived, have_exercises_been_opened. unfold lobj_instance in *.
  destruct (_ <? when) eqn:Ea; b2p; [lia|]. destruct (_ <=? when) eqn:Eo; b2p; [|lia].
  rewrite Ed. cbn. destruct (_ || _); [done|]. rewrite (proj2 (Z.leb_le _ _) Hw').
  by destruct (without_late_penalty d').
Qed.

End TimingTheory.

(** ** The number of submissions *)

Section QuotaTheory.
Context `{Settings}.
Implicit Types (w : World) (self : BaseExercise) (students : list UserProfile).

Lemma counts_used_None w self c students :
  counts_used w self c students = None <->
  exists p, p ∈ students /\ submission_count w self p < max_submissions_for_student w self p.
Proof.
  revert c. induction students as [|q l IH]; intros c; cbn.
  - split; [done|]. intros (p & Hp & _). by apply not_elem_of_nil in Hp.
  - setoid_rewrite elem_of_cons. destruct (_ <? _) eqn:E; b2p; [naive_solver|].
    rewrite IH. naive_solver lia.
Qed.

(** A submission that counts towards the limit. *)
Definition counted (s : Submission) : Prop :=
  (sub_status s ∉ [SubStatus.ERROR; SubStatus.REJECTED]) /\ sub_status s <> SubStatus.UNOFFICIAL.

Lemma submission_count_record w self s p :
  sub_exercise s = exercise_id self -> counted s -> submitted_by s p = true ->
  submission_count (with_submissions w (s :: submissions w)) self p = submission_count w self p + 1.
Proof.
  intros He [Hc1 Hc2] Hs. unfold submission_count, get_submissions_for_student, submissions_of,
    exclude_errors, exclude_unofficial. cbn [with_submissions submissions].
  rewrite !filter_cons_True by done. cbn. lia.
Qed.

Lemma submitted_by_self s p : p ∈ submitters s -> submitted_by s p = true.
Proof.
  intros Hp. apply bool_decide_eq_true. unfold profile_set.
  apply elem_of_list_to_set, list_elem_of_fmap. eauto.
Qed.

(** The hard limit on submissions in exercises where the limit of the exercise
    does not apply; the count is the one of the last student of the group. *)
Definition under_hard_limit w self students : Prop :=
  MAX_UNOFFICIAL_SUBMISSIONS = 0 \/
  match last students with
  | Some p => submission_count w self p < MAX_UNOFFICIAL_SUBMISSIONS
  | None => 0 < MAX_UNOFFICIAL_SUBMISSIONS
  end.

Lemma counts_used_Some w self c students n :
  counts_used w self c students = Some n <->
  (forall p, p ∈ students -> max_submissions_for_student w self p <= submission_count w self p) /\
  n = match last students with Some p => submission_count w self p | None => c end.
Proof.
  revert c. induction students as [|q l IH]; intros c; cbn [counts_used].
  - split; [intros [= ->]; split; [by intros p Hp%not_elem_of_nil|done]|by intros [_ ->]].
  - destruct (_ <? _) eqn:E; b2p.
    + split; [done|]. intros [Hall _]. specialize (Hall q (list_elem_of_here _ _)). lia.
    + rewrite IH, last_cons. setoid_rewrite elem_of_cons.
      assert ((match last l with Some p => submission_count w self p
               | None => submission_count w self q end) =
              match match last l with Some y => Some y | None => Some q end with
              | Some p => submission_count w self p | None => c end) as -> by (by destruct (last l)).
      naive_solver lia.
Qed.

(** The outcome of the limit test in full. *)
Lemma one_has_submissions_spec w self students :
  fst (one_has_submissions w self students) = true <->
  enrolling w self students = true \/
  (exists p, p ∈ students /\ submission_count w self p < max_submissions_for_student w self p) \/
  (max_submissions self = 0 \/ accept_unofficial_submits (category self) = true) /\
  under_hard_limit w self students.
Proof.
  rewrite <- (counts_used_None w self 0). unfold one_has_submissions, under_hard_limit.
  destruct (enrolling w self students); [naive_solver|].
  destruct (counts_used w self 0 students) as [n|] eqn:Ec; [|cbn; naive_solver].
  apply counts_used_Some in Ec as [_ ->].
  destruct (_ || _) eqn:Eh.
  - assert (MAX_UNOFFICIAL_SUBMISSIONS = 0 \/
      match last students with Some p => submission_count w self p < MAX_UNOFFICIAL_SUBMISSIONS
      | None => 0 < MAX_UNOFFICIAL_SUBMISSIONS end) as Hh
      by (apply orb_true_iff in Eh as [?|?]; b2p; [by left|right; by destruct (last students)]).
    destruct (max_submissions self =? 0) eqn:Em; b2p; cbn; [naive_solver|].
    destruct (accept_unofficial_submits _); cbn; naive_solver.
  - apply orb_false_iff in Eh as [E1 E2]. b2p. cbn.
    split; [done|]. intros [?|[?|[_ [?|Hl]]]]; try done. destruct (last students); lia.
Qed.

Lemma one_has_submissions_silent w self students :
  max_submissions self <> 0 ->
  one_has_submissions w self students = (true, no_alerts) <->
  enrolling w self students = true \/
  exists p, p ∈ students /\ submission_count w self p < max_submissions_for_student w self p.
Proof.
  intros Hm. rewrite <- (counts_used_None w self 0). unfold one_has_submissions.
  destruct (enrolling w self students); [naive_solver|].
  destruct (counts_used _ _ _ _); [|naive_solver]. rewrite (proj2 (Z.eqb_neq _ _) Hm).
  repeat (destruct (_ || _) || destruct (accept_unofficial_submits _)); naive_solver.
Qed.

(** A counted submission of the students themselves, once it is recorded. *)
Lemma recorded_over_limit w self s p :
  sub_exercise s = exercise_id self -> counted s -> p ∈ submitters s ->
  let w' := with_submissions w (s :: submissions w) in
  (submission_count w' self p <=? max_submissions_for_student w' self p) =
  (submission_count w self p <? max_submissions_for_student w self p).
Proof.
  intros He Hc Hp w'. unfold w'. rewrite submission_count_record by auto using submitted_by_self.
  change (max_submissions_for_student (with_submissions _ _) self p)
    with (max_submissions_for_student w self p).
  apply Bool.eq_iff_eq_true. rewrite Z.leb_le, Z.ltb_lt. lia.
Qed.

(** C2. The limit test before a submission and the one after it, for a submission
    that counts (not an error, rejected or unofficial).  In an exercise with a
    limit they agree: the submission is let through without a warning exactly
    when, once it has been recorded for the same students, it is not reported to
    have exceeded the limit; the first test compares with [<] and the second with
    [<=].  In an exercise without a limit they do not: no submission is ever
    reported, but the first test refuses students who have used the hard limit on
    unofficial submissions and have no extra submissions left. *)
Theorem quota_before_and_after w self s :
  sub_exercise s = exercise_id self -> counted s ->
  let before := one_has_submissions w self (submitters s) in
  let after := no_submissions_left (with_submissions w (s :: submissions w)) self (submitters s) in
  (max_submissions self <> 0 -> before = (true, no_alerts) <-> after = false) /\
  (max_submissions self = 0 ->
   after = false /\
   (fst before = true <->
    enrolling w self (submitters s) = true \/
    (exists p, p ∈ submitters s /\ submission_count w self p < max_submissions_for_student w self p) \/
    under_hard_limit w self (submitters s))).
Proof.
  intros He Hc before after. subst before after. split; intros Hm.
  - rewrite one_has_submissions_silent by done. unfold no_submissions_left.
    replace (enrolling (with_submissions _ _) self (submitters s)) with (enrolling w self (submitters s))
      by reflexivity.
    destruct (enrolling _ _ _); [naive_solver|]. rewrite (proj2 (Z.eqb_neq _ _) Hm).
    rewrite <- not_true_iff_false, forallb_forall. split.
    + intros [?|(p & Hp & Hlt)] Hall; [done|]. apply list_elem_of_In in Hp as Hp'.
      specialize (Hall p Hp'). rewrite recorded_over_limit in Hall by done. b2p. lia.
    + intros Hn. right.
      destruct (decide (Exists (fun p => submission_count w self p <
                                 max_submissions_for_student w self p) (submitters s))) as [E|E].
      * apply Exists_exists in E. naive_solver.
      * exfalso. apply Hn. intros p Hp%list_elem_of_In. rewrite recorded_over_limit by done.
        apply negb_true_iff, Z.ltb_nlt. intros Hlt. apply E, Exists_exists. eauto.
  - split.
    + unfold no_submissions_left. destruct (enrolling _ _ _); [done|]. by rewrite Hm.
    + rewrite one_has_submissions_spec. naive_solver.
Qed.

(** ** When a submission is allowed *)

Lemma access_not_archived w self students when :
  fst (one_has_access w self students when) = true -> when <= archive_start (lobj_instance self).
Proof.
  unfold one_has_access, get_timing, is_archived, lobj_instance.
  destruct (_ <? when) eqn:E; b2p; [done|lia].
Qed.

Lemma check_limits_allowed w self students alerts ss :
  check_limits w self students = (SubmitStatus.ALLOWED, alerts, ss) ->
  ss = students /\
  (all_staff w self students = true \/
   (group_size_ok self students = true /\
    (is_enrollment_exercise self = true \/
     fst (one_has_access w self students (now w)) = true) /\
    fst (one_has_submissions w self students) = true)).
Proof.
  unfold check_limits. intros E.
  destruct (one_has_submissions w self students) as [lim la].
  destruct (one_has_access w self students (now w)) as [acc al].
  destruct (all_staff w self students), (group_size_ok self students),
    (is_enrollment_exercise self), acc, lim; cbn in E; repeat break_hyp E; simplify_eq; auto 6.
Qed.

(** The decomposition of an accepted submission into the checks it passed. *)
Lemma allowed_inv w self profile request alerts students :
  check_submission_allowed w self profile request = Ret (SubmitStatus.ALLOWED, alerts, students) ->
  let staff := is_course_staff (lobj_instance self) (enrollments w) (profile_user w profile) in
  no_submission self && negb staff = false /\
  ((students = [profile] /\ staff = true /\
    check_enrollment w self profile = Ret (inl (SubmitStatus.ALLOWED, alerts, students))) \/
   exists enrollment group,
     check_enrollment w self profile = Ret (inr enrollment) /\
     find_group w self profile enrollment request = Ret (inr group) /\
     check_group_unchanged w self profile group = Ret None /\
     students = match group with Some g => members g | None => [profile] end /\
     check_limits w self students = (SubmitStatus.ALLOWED, alerts, students)).
Proof.
  unfold check_submission_allowed. intros E.
  destruct (_ && _) in E |- *; [done|]. split; [done|].
  destruct (check_enrollment w self profile) as [[early|enr]|] eqn:Ee; cbn in E; [| |done].
  - left. injection E as ->. unfold check_enrollment in Ee. cbn in Ee.
    repeat break_hyp Ee; by simplify_eq.
  - destruct (find_group w self profile enr request) as [[early|g]|] eqn:Eg; cbn in E; [| |done].
    { injection E as ->. unfold find_group in Eg. repeat break_hyp Eg; by simplify_eq. }
    destruct (check_group_unchanged w self profile g) as [[early|]|] eqn:Eu; cbn in E; [| |done].
    { injection E as ->. unfold check_group_unchanged in Eu.
      repeat break_hyp Eu; by simplify_eq. }
    injection E as E. pose proof (check_limits_allowed _ _ _ _ _ E) as [-> _].
    right. exists enr, g. auto.
Qed.

Lemma check_enrollment_inr w self profile enrollment :
  check_enrollment w self profile = Ret (inr enrollment) ->
  get_enrollment_for (lobj_instance self) (enrollments w) (profile_user w profile) = Ret enrollment /\
  if is_enrollment_exercise self then
    is_enrollment_open (lobj_instance self) (now w) = true /\
    is_enrollable (lobj_instance self) (enrollments w) (profile_user w profile) = Ret true
  else active_enrollment enrollment = true.
Proof.
  unfold check_enrollment. intros E. repeat break_hyp E; simplify_eq; b2p; subst; eauto.
Qed.

Lemma find_group_inr w self profile enrollment request g :
  find_group w self profile enrollment request = Ret (inr (Some g)) -> g ∈ groups w.
Proof.
  unfold find_group. intros E. repeat break_hyp E; simplify_eq.
  all: try (match goal with
            | Hh : head (filter _ _) = Some _ |- _ =>
                apply head_Some_elem_of, list_elem_of_filter in Hh; tauto
            end).
  all: try (injection E as E).
  all: destruct enrollment as [e|]; try done; cbn in E; destruct (selected_group e); try done;
    cbn in E; apply List.find_some in E as [E _]; by apply list_elem_of_In.
Qed.

(** C3. An accepted submission satisfies the course policy.  An exercise graded
    by staff only takes submissions from staff; and unless every submitter is
    course staff, the group size is within bounds; a student of the group has a
    submission left, or the exercise has no limit or takes unofficial submissions
    and the hard limit is not used up, or a single student is only enrolling; and
    the submitter either has an active enrollment and submits before the archive
    time within the accepted window, or uses an
    enrollment exercise while the enrollment period is open and is entitled to
    enroll.  The submitters are the user alone or the members of an existing
    group. *)
Theorem allowed_submission_policy w self profile request alerts students :
  check_submission_allowed w self profile request = Ret (SubmitStatus.ALLOWED, alerts, students) ->
  let instance := lobj_instance self in
  let user := profile_user w profile in
  (no_submission self = true -> is_course_staff instance (enrollments w) user = true) /\
  (students = [profile] \/ exists g, g ∈ groups w /\ students = members g) /\
  (all_staff w self students = true \/
   ((min_group_size self <= Z.of_nat (length students) <= max_group_size self) /\
    (enrolling w self students = true \/
     (exists p, p ∈ students /\
        submission_count w self p < max_submissions_for_student w self p) \/
     (max_submissions self = 0 \/ accept_unofficial_submits (category self) = true) /\
     under_hard_limit w self students) /\
    if is_enrollment_exercise self then
      is_enrollment_open instance (now w) = true /\
      is_enrollable instance (enrollments w) user = Ret true
    else
      (exists e, get_enrollment_for instance (enrollments w) user = Ret (Some e) /\
                 status e = EnrollmentStatus.ACTIVE) /\
      now w <= archive_start instance /\
      fst (one_has_access w self students (now w)) = true)).
Proof.
  intros E instance user. apply allowed_inv in E as [Hns [(-> & Hstaff & _)|(enr & g & Ee & Eg & _ & Hs & El)]].
  - split; [auto|]. split; [auto|]. left. unfold all_staff. cbn. by rewrite Hstaff.
  - split; [intros Hn; rewrite Hn in Hns; by apply negb_false_iff in Hns|]. split.
    { destruct g as [g|]; [right; exists g; split; [by eapply find_group_inr|done]|by left]. }
    apply check_limits_allowed in El as [_ [?|(Hsz & Hacc & Hq)]]; [by left|right].
    apply check_enrollment_inr in Ee as [Hget Hee].
    split; [unfold group_size_ok in Hsz; b2p; lia|].
    split; [by apply one_has_submissions_spec|]. destruct (is_enrollment_exercise self); [done|].
    destruct Hacc as [?|Hacc]; [done|]. destruct enr as [e|]; [|done]. cbn in Hee. b2p.
    split; [by exists e|]. split; [by eapply access_not_archived|done].
Qed.

Lemma profile_set_singleton p q :
  profile_id p = profile_id q -> profile_set [p] = profile_set [q].
Proof. intros E. unfold profile_set. cbn. by rewrite E. Qed.

(** C4. In an exercise for groups a student stays in the group of the first
    accepted submission: once the newest submission of the profile is [s], a
    further submission by an enrolled student is only allowed with the same set
    of submitters. *)
Theorem allowed_keeps_group w self profile request alerts students s :
  check_submission_allowed w self profile request = Ret (SubmitStatus.ALLOWED, alerts, students) ->
  1 < max_group_size self ->
  active_enrollment (enrollments w !! (instance_id (lobj_instance self),
                       profile_id (userprofile (user_of w profile)))) = true ->
  is_enrollment_exercise self = false ->
  head (get_submissions_for_student w self profile false false) = Some s ->
  profile_set students = profile_set (submitters s).
Proof.
  intros E Hm Hact Hne Hs.
  apply allowed_inv in E as [_ [(_ & _ & Ee)|(enr & g & _ & _ & Eu & -> & _)]].
  { unfold check_enrollment in Ee. cbn [get_enrollment_for profile_user rbind] in Ee.
    by rewrite Hne, Hact in Ee. }
  unfold check_group_unchanged in Eu. rewrite (proj2 (Z.ltb_lt _ _) Hm), Hs in Eu.
  destruct (detect_group_changes profile g s) as [[]|] eqn:Ed; [done| |done].
  unfold detect_group_changes in Ed. destruct g as [g|].
  - injection Ed as Ed. b2p. unfold group_equals in Ed. by b2p.
  - destruct (submitters s) as [|p [|]]; [done| |done]. injection Ed as Ed. b2p.
    by apply profile_set_singleton.
Qed.

(** A student who works alone is not turned away: with an active enrollment,
    no selected group, no earlier submission made with somebody else, the
    exercise open and a submission left, the submission is allowed, whatever
    alerts the deadline and the limit add. *)
Theorem solo_submission_allowed w self profile e :
  userprofile (user_of w profile) = profile ->
  no_submission self = false -> is_enrollment_exercise self = false ->
  enrollments w !! (instance_id (lobj_instance self), profile_id profile) = Some e ->
  status e = EnrollmentStatus.ACTIVE -> selected_group e = None ->
  min_group_size self <= 1 <= max_group_size self ->
  (forall s, s ∈ submissions w -> submitted_by s profile = true ->
     submitters s = [profile]) ->
  fst (one_has_access w self [profile] (now w)) = true ->
  fst (one_has_submissions w self [profile]) = true ->
  exists alerts,
    check_submission_allowed w self profile None = Ret (SubmitStatus.ALLOWED, alerts, [profile]).
Proof.
  intros Hu Hns Hne He Hact Hsel Hsz Halone Hacc Hq.
  unfold check_submission_allowed. rewrite Hns. cbn [andb].
  unfold check_enrollment. cbn [get_enrollment_for profile_user rbind].
  rewrite Hu, He, Hne. cbn [active_enrollment]. rewrite bool_decide_true by done.
  cbn [negb rbind find_group active_enrollment]. rewrite bool_decide_true by done.
  cbn. rewrite Hsel. cbn.
  assert (Hun : check_group_unchanged w self profile None = Ret None).
  { unfold check_group_unchanged. destruct (1 <? _); [|done].
    destruct (head _) as [s|] eqn:Eh; [|done].
    apply head_Some_elem_of in Eh. unfold get_submissions_for_student, submissions_of in Eh.
    rewrite !list_elem_of_filter in Eh. destruct Eh as (_ & Hs & Hin).
    cbn. rewrite (Halone s Hin Hs). cbn. by rewrite Z.eqb_refl. }
  rewrite Hun. cbn. unfold check_limits. rewrite Hne.
  assert (Hg : group_size_ok self [profile] = true)
    by (unfold group_size_ok; cbn; rewrite andb_true_iff, !Z.leb_le; lia).
  rewrite Hg. destruct (one_has_access _ _ _ _) as [acc al]. cbn in Hacc. rewrite Hacc. cbn.
  destruct (one_has_submissions _ _ _) as [lim ll]. cbn in Hq. rewrite Hq. cbn. eauto.
Qed.

End QuotaTheory.

(** ** Drafts *)

(** Drafts: what is set can be read back, unsetting hides it until the next
    set, and neither touches the draft of another exercise or submitter. *)
Theorem submission_draft_store self p data db :
  get_submission_draft self p (set_submission_draft self p data db) = Some (mkDraft true data) /\
  get_submission_draft self p (unset_submission_draft self p db) = None /\
  forall self' p', (exercise_id self', profile_id p') <> (exercise_id self, profile_id p) ->
    get_submission_draft self' p' (set_submission_draft self p data db)
      = get_submission_draft self' p' db /\
    get_submission_draft self' p' (unset_submission_draft self p db)
      = get_submission_draft self' p' db.
Proof.
  unfold get_submission_draft, set_submission_draft, unset_submission_draft. split; [|split].
  - by rewrite lookup_insert_eq.
  - rewrite lookup_alter_eq. destruct (db !! _) as [[[] ?]|]; done.
  - intros self' p' Hne. rewrite lookup_insert_ne, lookup_alter_ne by congruence. done.
Qed.

(** ** Witnesses *)

Definition example_exercise (max_group : Z) (max_subs : Z) : BaseExercise :=
  mkExercise (example_lobj 1 None "ex") true false 1 max_group max_subs 10 5 "" None None
    GradingMode.BEST false "grader.example".

Definition example_submission (i : Z) (st : SubStatus.t) (ps : list UserProfile) : Submission :=
  mkSubmission i 1 i ps None "" st None 0 None None false 0 0 None.

Definition example_student (i : Z) : UserProfile := userprofile (example_user i "S").

(** A world in which student 1 is enrolled, and the given submissions exist. *)
Definition example_world (subs : list Submission) : World :=
  mkWorld {[ (instance_id example_instance, 1) :=
               mkEnrollment EnrollmentRole.STUDENT EnrollmentStatus.ACTIVE false None ]}
    [] subs [] [] (fun p => mkUser (profile_id p) false false p)
    (opening_time (course_module (example_lobj 1 None "ex"))).

Lemma quota_before_and_after_witness :
  let s := example_submission 7 SubStatus.INITIALIZED [example_student 1] in
  no_submissions_left (with_submissions (example_world []) [s]) (example_exercise 1 2)
    [example_student 1] = false /\
  no_submissions_left (with_submissions (example_world []) [s]) (example_exercise 1 0)
    [example_student 1] = false.
Proof.
  assert (counted (example_submission 7 SubStatus.INITIALIZED [example_student 1])) as Hc
    by (split; [apply (bool_decide_unpack _); vm_compute; exact I|discriminate]).
  split.
  - destruct (quota_before_and_after (example_world []) (example_exercise 1 2)
      (example_submission 7 SubStatus.INITIALIZED [example_student 1]) eq_refl Hc) as [Hlim _].
    apply Hlim; [discriminate|]. vm_compute. reflexivity.
  - destruct (quota_before_and_after (example_world []) (example_exercise 1 0)
      (example_submission 7 SubStatus.INITIALIZED [example_student 1]) eq_refl Hc) as [_ Hunl].
    apply Hunl. reflexivity.
Defined.

Lemma allowed_submission_policy_witness :
  all_staff (example_world []) (example_exercise 1 2) [example_student 1] = true \/
  min_group_size (example_exercise 1 2) <= 1 <= max_group_size (example_exercise 1 2).
Proof.
  destruct (allowed_submission_policy (example_world []) (example_exercise 1 2) (example_student 1)
    None no_alerts [example_student 1]) as (_ & _ & [Hs|(Hg & _)]).
  - vm_compute. reflexivity.
  - by left.
  - by right.
Defined.

Lemma allowed_keeps_group_witness :
  profile_set [example_student 1] = profile_set [example_student 1].
Proof.
  apply (allowed_keeps_group
    (example_world [example_submission 7 SubStatus.READY [example_student 1]])
    (example_exercise 2 2) (example_student 1) None no_alerts [example_student 1]
    (example_submission 7 SubStatus.READY [example_student 1])); vm_compute; reflexivity.
Defined.

Lemma solo_submission_allowed_witness :
  exists alerts,
    check_submission_allowed (example_world []) (example_exercise 1 2) (example_student 1) None
    = Ret (SubmitStatus.ALLOWED, alerts, [example_student 1]).
Proof.
  apply (solo_submission_allowed (example_world []) (example_exercise 1 2) (example_student 1)
    (mkEnrollment EnrollmentRole.STUDENT EnrollmentStatus.ACTIVE false None));
    try (vm_compute; reflexivity).
  - vm_compute. split; discriminate.
  - intros s Hs. by apply not_elem_of_nil in Hs.
Defined.

Lemma submission_draft_store_witness :
  get_submission_draft (example_exercise 1 2) (example_student 2)
    (unset_submission_draft (example_exercise 1 2) (example_student 1)
       {[ (1, 2) := mkDraft true [("a", "b")] ]}%string)
  = Some (mkDraft true [("a", "b")]%string).
Proof.
  destruct (submission_draft_store (example_exercise 1 2) (example_student 1) []
    {[ (1, 2) := mkDraft true [("a", "b")] ]}%string) as (_ & _ & Hf).
  destruct (Hf (example_exercise 1 2) (example_student 2)) as [_ ->]; [discriminate|].
  vm_compute. reflexivity.
Defined.
