(* ===== verification/Submission.v ===== *)
(** * Submissions: points, status and pending grading

    [exercise/submission_models.py].  A method that changes the submission takes
    the object and returns the changed one; the database a method reads and
    writes is threaded by the monad [M], in which a call may also raise.  The
    object reaches the database only through [save]. *)

From stdpp Require Import relations.
From Stdlib Require Import QArith Lqa.
From S2P Require Import Prelude Binary64 Helpers Course Deviations Reveal Models Exercise.
#[local] Open Scope Z_scope.

(** ** The database of the grading code *)

(** src/exercise/submission_models.py: PendingSubmission lines 928-941 *)
Record PendingSubmission := mkPending {
  pending_time : option datetime;
  num_retries : Z;
}.

(** src/course/models.py: CourseHook lines 1244-1274 *)
Record CourseHook := mkHook {
  hook_url : string;
  hook_type : string;
  hook_instance : Z;
}.

(** What the grading code sends out: the POST of a course hook, a grade for an
    LTI platform, and a mail to the course staff. *)
Inductive Event :=
| HookPosted (url : string) (submission_id exercise_id course_id : Z)
| LtiPointsSent (submission_id : Z)
| CourseErrorMailed (exercise_id : Z).

(** src/notification/models.py: Notification lines 21-57 *)
Record Notification := mkNotification {
  note_submission : Z;
  note_recipient : Z;
  note_seen : bool;
  regrade_when_seen : bool;
}.

(** Pending rows are keyed by their submission (a [OneToOneField]); tags are
    (course instance, slug) rows and taggings (submission, slug) rows. *)
Record Db := mkDb {
  world :> World;
  pendings : gmap Z PendingSubmission;
  course_hooks : list CourseHook;
  course_tags : list (Z * string);
  taggings : list (Z * string);
  notifications : list Notification;
  events : list Event;
}.

Definition with_world (db : Db) (w : World) : Db :=
  mkDb w (pendings db) (course_hooks db) (course_tags db) (taggings db) (notifications db)
    (events db).
Definition with_pendings (db : Db) (m : gmap Z PendingSubmission) : Db :=
  mkDb (world db) m (course_hooks db) (course_tags db) (taggings db) (notifications db) (events db).
Definition with_taggings (db : Db) (l : list (Z * string)) : Db :=
  mkDb (world db) (pendings db) (course_hooks db) (course_tags db) l (notifications db) (events db).
Definition with_notifications (db : Db) (l : list Notification) : Db :=
  mkDb (world db) (pendings db) (course_hooks db) (course_tags db) (taggings db) l (events db).
Definition emit (db : Db) (l : list Event) : Db :=
  mkDb (world db) (pendings db) (course_hooks db) (course_tags db) (taggings db) (notifications db)
    (events db ++ l).

(** Stateful code that may raise; the state survives an exception. *)
Definition M (A : Type) : Type := Db -> result A * Db.

#[export] Instance M_ret : MRet M := fun A a db => (Ret a, db).
#[export] Instance M_bind : MBind M := fun A B k c db =>
  match c db with
  | (Ret a, db') => k a db'
  | (Raise e, db') => (Raise e, db')
  end.

Definition lift {A} (r : result A) : M A := fun db => (r, db).
Definition reads {A} (f : Db -> A) : M A := fun db => (Ret (f db), db).
Definition modify (f : Db -> Db) : M unit := fun db => (Ret tt, f db).

(** The row with an id, [Submission.objects.get(id=...)]. *)
Definition find_submission (i : Z) (w : World) : option Submission :=
  find (fun s => sub_id s =? i) (submissions w).

(** What the status changes rely on of the retry task: it only works on rows
    that are already pending; of another submission it neither makes a pending row
    nor changes the row. *)
Class RetryTask (retry : M unit) : Prop := retry_pending : forall db i,
  pendings db !! i = None ->
  pendings (snd (retry db)) !! i = None /\ find_submission i (snd (retry db)) = find_submission i db.

(** ** Field updates of the in-memory object *)

Definition set_status (st : SubStatus.t) (s : Submission) : Submission :=
  mkSubmission (sub_id s) (sub_exercise s) (submission_time s) (submitters s) (grader s)
    (feedback s) st (unofficial_submission_type s) (grade s) (grading_time s)
    (late_penalty_applied s) (force_exercise_points s) (service_points s) (service_max_points s)
    (lti_launch_id s).

Definition with_submitters (ps : list UserProfile) (s : Submission) : Submission :=
  mkSubmission (sub_id s) (sub_exercise s) (submission_time s) ps (grader s)
    (feedback s) (sub_status s) (unofficial_submission_type s) (grade s) (grading_time s)
    (late_penalty_applied s) (force_exercise_points s) (service_points s) (service_max_points s)
    (lti_launch_id s).

Definition set_unofficial (t : UnofficialType.t) (s : Submission) : Submission :=
  mkSubmission (sub_id s) (sub_exercise s) (submission_time s) (submitters s) (grader s)
    (feedback s) SubStatus.UNOFFICIAL (Some t) (grade s) (grading_time s)
    (late_penalty_applied s) (force_exercise_points s) (service_points s) (service_max_points s)
    (lti_launch_id s).

Definition set_grading_time (t : datetime) (s : Submission) : Submission :=
  mkSubmission (sub_id s) (sub_exercise s) (submission_time s) (submitters s) (grader s)
    (feedback s) (sub_status s) (unofficial_submission_type s) (grade s) (Some t)
    (late_penalty_applied s) (force_exercise_points s) (service_points s) (service_max_points s)
    (lti_launch_id s).

Definition set_feedback (f : string) (s : Submission) : Submission :=
  mkSubmission (sub_id s) (sub_exercise s) (submission_time s) (submitters s) (grader s)
    f (sub_status s) (unofficial_submission_type s) (grade s) (grading_time s)
    (late_penalty_applied s) (force_exercise_points s) (service_points s) (service_max_points s)
    (lti_launch_id s).

Definition set_grade (g : Z) (s : Submission) : Submission :=
  mkSubmission (sub_id s) (sub_exercise s) (submission_time s) (submitters s) (grader s)
    (feedback s) (sub_status s) (unofficial_submission_type s) g (grading_time s)
    (late_penalty_applied s) (force_exercise_points s) (service_points s) (service_max_points s)
    (lti_launch_id s).

Definition set_service_points (points max_points : Z) (penalty : option Q) (s : Submission)
    : Submission :=
  mkSubmission (sub_id s) (sub_exercise s) (submission_time s) (submitters s) (grader s)
    (feedback s) (sub_status s) (unofficial_submission_type s) (grade s) (grading_time s)
    penalty (force_exercise_points s) points max_points (lti_launch_id s).

Definition set_lti_launch_id (l : option string) (s : Submission) : Submission :=
  mkSubmission (sub_id s) (sub_exercise s) (submission_time s) (submitters s) (grader s)
    (feedback s) (sub_status s) (unofficial_submission_type s) (grade s) (grading_time s)
    (late_penalty_applied s) (force_exercise_points s) (service_points s) (service_max_points s) l.

(** ** Points *)

Section Points.
Context `{Settings}.

(** [1.0 * exercise.max_points * points / max_points] *)
Definition scale_points (exercise_max points max_points : Z) : Q :=
  if 0 <? max_points
  then fdiv (fmul (fmul 1 (of_int exercise_max)) (of_int points)) (of_int max_points)
  else 0%Q.

(** The penalty in force for late submissions of the exercise. *)
Definition late_penalty (exercise : BaseExercise) : Q :=
  if late_submissions_allowed (course_module exercise)
  then late_submission_penalty (course_module exercise) else 0%Q.

(** The service maximum the points are scaled from; a zero maximum with positive
    points stands for the maximum of the exercise. *)
Definition effective_max (exercise : BaseExercise) (points service_max : Z) : Z :=
  if (service_max =? 0) && (0 <? points) then max_points exercise else service_max.

(** src/exercise/submission_models.py: Submission.set_points *)
Definition set_points (w : World) (exercise : BaseExercise) (self : Submission)
    (points service_max : Z) (no_penalties : bool) : result Submission :=
  let service_max := effective_max exercise points service_max in
  if negb ((0 <=? points) && (points <=? service_max)) then Raise AssertionError
  else
    let self := set_service_points points service_max None self in
    let adjusted_grade := scale_points (max_points exercise) points service_max in
    let (self, adjusted_grade) :=
      if no_penalties then (self, adjusted_grade)
      else
        let (timing, _) := get_timing w exercise (submitters self) (submission_time self) in
        let '(self, adjusted_grade) :=
          match timing with
          | Timing.LATE | Timing.CLOSED_AFTER =>
              let penalty := late_penalty exercise in
              (set_service_points points service_max (Some penalty) self,
               fsub adjusted_grade (fmul adjusted_grade penalty))
          | Timing.UNOFFICIAL => (set_unofficial UnofficialType.DEADLINE_PASSED self, adjusted_grade)
          | _ => (self, adjusted_grade)
          end in
        let self :=
          if no_submissions_left w exercise (submitters self)
          then set_unofficial UnofficialType.LIMIT_EXCEEDED self else self in
        (self, adjusted_grade) in
    let self := set_grade (py_round adjusted_grade) self in
    if (0 <=? grade self) && (grade self <=? max_points exercise) then Ret self
    else Raise AssertionError.

(** src/exercise/submission_models.py: Submission.scale_grade_to *)
Definition scale_grade_to (exercise : BaseExercise) (percentage : Z) (self : Submission)
    : Submission :=
  let factor := fdiv (of_int percentage) (of_int 100) in
  let scaled := fmul (of_int (grade self)) factor in
  let g := py_round (if Qle_bool 0 scaled then scaled else 0%Q) in
  set_grade (Z.min g (max_points exercise)) self.

(** ** The pending table *)

(** src/exercise/submission_models.py: Submission.mark_pending.  A new row starts
    without retries, an existing one counts one more. *)
Definition mark_pending (exercise : BaseExercise) (self : Submission) (db : Db) : Db :=
  if bool_decide (service_host exercise ∈ SUBMISSION_RETRY_SERVICES) then
    let retries := match pendings db !! sub_id self with
                   | Some p => num_retries p + 1
                   | None => 0
                   end in
    with_pendings db (<[ sub_id self := mkPending (Some (now db)) retries ]> (pendings db))
  else db.

(** src/exercise/submission_models.py: Submission.clear_pending *)
Definition clear_pending (self : Submission) (db : Db) : Db :=
  with_pendings db (delete (sub_id self) (pendings db)).

Definition total_retries (db : Db) : Z :=
  sumZ ((fun '(_, p) => num_retries p) <$> map_to_list (pendings db)).

(** src/exercise/submission_models.py: PendingSubmissionManager.is_grader_stable *)
Definition is_grader_stable (db : Db) : bool :=
  negb (negb (total_retries db =? 0) && (GRADER_STABLE_THRESHOLD <? total_retries db)).

(** ** Status changes *)

(** [submission.save()]: the row with the same id is replaced. *)
Definition save (self : Submission) (db : Db) : Db :=
  with_world db (with_submissions db
    ((fun s => if sub_id s =? sub_id self then self else s) <$> submissions db)).

(** src/exercise/submission_models.py: Submission.set_waiting *)
Definition set_waiting (exercise : BaseExercise) (self : Submission) : M Submission :=
  modify (mark_pending exercise self);;
  mret (set_status SubStatus.WAITING self).

(** The posts of the hooks of the course instance. *)
Definition fire_hooks (exercise : BaseExercise) (self : Submission) (db : Db) : Db :=
  let instance := instance_id (lobj_instance exercise) in
  emit db ((fun h => HookPosted (hook_url h) (sub_id self) (exercise_id exercise) instance)
             <$> filter (fun h => hook_instance h = instance /\ hook_type h = "post-grading"%string)
                   (course_hooks db)).

(** src/exercise/submission_models.py: Submission.set_ready.  [retry] is the call
    of [retry_submissions]. *)
Definition set_ready (retry : M unit) (exercise : BaseExercise) (approve_unofficial : bool)
    (self : Submission) : M Submission :=
  self ← reads (fun db => set_grading_time (now db) self);
  modify (clear_pending self);;
  let self :=
    if negb (bool_decide (sub_status self = SubStatus.UNOFFICIAL))
       || force_exercise_points self || approve_unofficial
    then set_status SubStatus.READY self else self in
  modify (fire_hooks exercise self);;
  stable ← reads is_grader_stable;
  (if negb stable then retry else mret tt);;
  mret self.

(** src/exercise/submission_models.py: Submission.set_rejected *)
Definition set_rejected (self : Submission) : M Submission :=
  modify (clear_pending self);;
  mret (set_status SubStatus.REJECTED self).

(** src/exercise/submission_models.py: Submission.set_error *)
Definition set_error (self : Submission) : M Submission :=
  modify (clear_pending self);;
  mret (set_status SubStatus.ERROR self).

(** src/exercise/submission_models.py: Submission.approve_penalized_submission *)
Definition approve_penalized_submission (retry : M unit) (exercise : BaseExercise)
    (self : Submission) : M Submission :=
  db ← reads id;
  self ← lift (set_points (world db) exercise self (service_points self) (service_max_points self) true);
  set_ready retry exercise true self.

(** src/exercise/submission_models.py: Submission.ordinal_number *)
Definition ordinal_number (w : World) (self : Submission) : result Z :=
  match submitters self with
  | [] => Raise AttributeError
  | p :: _ =>
      Ret (Z.of_nat (length (filter (fun s => sub_exercise s = sub_exercise self /\
                                              submission_time s < submission_time self)
                               (exclude_errors (submissions_of w p)))) + 1)
  end.

(** ** Points of a submitter in an exercise, computed by the database *)

(** [Max('grade', filter=...)]: [None] when no row passes the filter. *)
Definition max_grade (l : list Submission) : option Z :=
  match l with
  | [] => None
  | s :: l => Some (maxZ (grade s) (grade <$> l))
  end.

Definition counted_statuses (include_unofficial : bool) : list SubStatus.t :=
  if include_unofficial then [SubStatus.READY; SubStatus.UNOFFICIAL] else [SubStatus.READY].

(** The newest of the rows ([order_by('-submission_time')[:1]]). *)
Fixpoint newest (l : list Submission) : option Submission :=
  match l with
  | [] => None
  | s :: l =>
      match newest l with
      | Some t => if submission_time s <? submission_time t then Some t else Some s
      | None => Some s
      end
  end.

(** src/exercise/submission_models.py: SubmissionQuerySet.annotate_submitter_points.
    [rows] are the submissions of one submitter in one exercise, one group of the
    query. *)
Definition annotate_submitter_points (exercise : BaseExercise) (revealed_ids : option (list Z))
    (include_unofficial : bool) (rows : list Submission) : Z :=
  let statuses := counted_statuses include_unofficial in
  let in_status := filter (fun s => sub_status s ∈ statuses) rows in
  let case :=
    if match revealed_ids with
       | Some ids => bool_decide (exercise_id exercise ∉ ids)
       | None => false
       end then Some 0
    else
      match max_grade (filter (fun s => force_exercise_points s = true) rows) with
      | Some forced => Some forced
      | None =>
          match grading_mode exercise with
          | GradingMode.LAST => grade <$> newest in_status
          | GradingMode.BEST => max_grade in_status
          end
      end in
  match revealed_ids with
  | Some [] => 0
  | _ => default 0 case
  end.

(** src/exercise/submission_models.py: SubmissionQuerySet.annotate_best_submitter_points *)
Definition annotate_best_submitter_points (exercise : BaseExercise)
    (revealed_ids : option (list Z)) (include_unofficial : bool) (rows : list Submission) : Z :=
  let statuses := counted_statuses include_unofficial in
  let case :=
    if match revealed_ids with
       | Some ids => bool_decide (exercise_id exercise ∉ ids)
       | None => false
       end then Some 0
    else
      match max_grade (filter (fun s => force_exercise_points s = true) rows) with
      | Some forced => Some forced
      | None => max_grade (filter (fun s => sub_status s ∈ statuses) rows)
      end in
  match revealed_ids with
  | Some [] => 0
  | _ => default 0 case
  end.

End Points.

(** ** Scaling and penalties stay in bounds *)

Section PointsTheory.
Context `{Settings}.
Implicit Types (w : World) (exercise : BaseExercise) (self : Submission).

(** Limits under which the float arithmetic is analysed: Django's integer columns
    hold values below 2^31 and the penalty is a fraction. *)
Definition gradable exercise (service_max : Z) : Prop :=
  0 <= max_points exercise <= 2 ^ 50 /\ service_max <= 2 ^ 53 /\
  (0 <= late_submission_penalty (course_module exercise) <= 1)%Q.

Lemma inject_Z_nonneg z : 0 <= z -> (0 <= inject_Z z)%Q.
Proof. intros Hz. change 0%Q with (inject_Z 0). by rewrite <- Zle_Qle. Qed.

(** A quarter above a small integer is representable and rounds down to it. *)
Lemma b64_quarter m : 0 <= m <= 2 ^ 50 -> (b64 (inject_Z m + (1#4)) == inject_Z m + (1#4))%Q.
Proof.
  intros Hm. assert (E : (inject_Z m + (1#4) == inject_Z (4 * m + 1) * p2 (-2))%Q).
  { rewrite inject_Z_plus, inject_Z_mult. change (p2 (-2)) with (1#4)%Q.
    change (inject_Z 4) with 4%Q. change (inject_Z 1) with 1%Q. field. }
  transitivity (b64 (inject_Z (4 * m + 1) * p2 (-2))).
  - apply b64_eq; [|exact E]. pose proof (inject_Z_nonneg m ltac:(lia)). lra.
  - rewrite b64_repr by lia. symmetry. exact E.
Qed.

Lemma py_round_quarter m x :
  (0 <= x <= inject_Z m + (1#4))%Q -> 0 <= py_round x <= m.
Proof.
  intros [H0 H1]. split.
  - rewrite <- (py_round_int 0). by apply py_round_mono.
  - apply py_round_mono in H1. etransitivity; [exact H1|].
    unfold py_round. set (y := (inject_Z m + (1#4))%Q).
    destruct (rhe_bounds (Qnum y) (Zpos (Qden y)) ltac:(lia)) as ([Hb _] & _).
    unfold y in *. cbn in *. lia.
Qed.

(** Scaled points are a float between zero and a quarter above the maximum. *)
Lemma scale_points_bounds m p sm :
  0 <= m <= 2 ^ 50 -> 0 <= p <= sm -> sm <= 2 ^ 53 ->
  (0 <= scale_points m p sm <= inject_Z m + (1#4))%Q /\
  (b64 (scale_points m p sm) == scale_points m p sm)%Q.
Proof.
  intros Hm Hp Hsm. unfold scale_points. pose proof (inject_Z_nonneg m ltac:(lia)) as Hm0.
  destruct (0 <? sm) eqn:E; b2p; [|split; [lra|reflexivity]].
  assert (Hp0 : (0 <= inject_Z p)%Q) by (apply inject_Z_nonneg; lia).
  assert (Hs0 : (1 <= inject_Z sm)%Q) by (change 1%Q with (inject_Z 1); rewrite <- Zle_Qle; lia).
  assert (Hps : (inject_Z p <= inject_Z sm)%Q) by (rewrite <- Zle_Qle; lia).
  assert (Eof : (fmul 1 (of_int m) == inject_Z m)%Q).
  { unfold fmul. transitivity (b64 (inject_Z m)); [|apply b64_int; lia].
    symmetry. apply b64_eq; [done|]. rewrite of_int_exact by lia. ring. }
  set (n := fmul (fmul 1 (of_int m)) (of_int p)).
  assert (En : (n == b64 (inject_Z (m * p)))%Q).
  { unfold n. symmetry. apply b64_eq; [apply inject_Z_nonneg; nia|].
    rewrite Eof, of_int_exact, inject_Z_mult by lia. reflexivity. }
  assert (Hn0 : (0 <= n)%Q) by (rewrite En; apply b64_nonneg, inject_Z_nonneg; nia).
  assert (Hn : (n <= (inject_Z m + (1#4)) * inject_Z sm)%Q).
  { rewrite En. destruct (Z.eq_dec (m * p) 0) as [->|Hne].
    { rewrite b64_zero by reflexivity. apply Qmult_le_0_compat; lra. }
    eapply Qle_trans; [apply b64_upper; change 1%Q with (inject_Z 1); rewrite <- Zle_Qle; nia|].
    rewrite inject_Z_mult.
    assert (Hq : (inject_Z m * p2 (-52) <= 1#4)%Q).
    { change (p2 (-52)) with (1 # (2^52))%Q.
      apply Qle_trans with (inject_Z (2^50) * (1 # (2^52)))%Q; [|vm_compute; discriminate].
      apply Qmult_le_compat_r; [rewrite <- Zle_Qle; lia|vm_compute; discriminate]. }
    assert (Hx : (inject_Z m * inject_Z p * (1 + p2 (-52)) ==
                  (inject_Z m + inject_Z m * p2 (-52)) * inject_Z p)%Q) by ring.
    rewrite Hx. set (k := (inject_Z m * p2 (-52))%Q) in *.
    apply Qle_trans with ((inject_Z m + (1#4)) * inject_Z p)%Q.
    - apply Qmult_le_compat_r; lra.
    - rewrite !(Qmult_comm (inject_Z m + (1#4))). apply Qmult_le_compat_r; lra. }
  assert (Hof : (of_int sm == inject_Z sm)%Q) by (apply of_int_exact; lia).
  assert (Hd0 : (0 <= n / of_int sm)%Q).
  { rewrite Hof. apply Qle_shift_div_l; [lra|]. lra. }
  unfold fdiv. split; [split|].
  - by apply b64_nonneg.
  - rewrite <- b64_quarter by done. apply b64_mono; [done|].
    rewrite Hof. apply Qle_shift_div_r; [lra|done].
  - by apply b64_idemp.
Qed.

(** Subtracting a fractional penalty from a float leaves it between 0 and itself. *)
Lemma penalty_bounds a pen :
  (0 <= a)%Q -> (b64 a == a)%Q -> (0 <= pen <= 1)%Q ->
  (0 <= fsub a (fmul a pen) <= a)%Q.
Proof.
  intros Ha Hrep [Hp0 Hp1]. unfold fsub, fmul.
  assert (Hm0 : (0 <= a * pen)%Q) by (by apply Qmult_le_0_compat).
  assert (Hm1 : (a * pen <= a)%Q).
  { rewrite <- (Qmult_1_r a) at 2. rewrite !(Qmult_comm a). by apply Qmult_le_compat_r. }
  pose proof (b64_nonneg _ Hm0) as Hb0. pose proof (b64_mono _ _ Hm0 Hm1) as Hb1.
  rewrite Hrep in Hb1. split.
  - apply b64_nonneg. lra.
  - apply Qle_trans with (b64 a); [apply b64_mono; lra|]. rewrite Hrep. apply Qle_refl.
Qed.

(** ** What [set_points] computes *)

(** The float before the final rounding. *)
Definition adjusted_grade w exercise self (points service_max : Z) (no_penalties : bool) : Q :=
  let a := scale_points (max_points exercise) points service_max in
  if no_penalties then a
  else match fst (get_timing w exercise (submitters self) (submission_time self)) with
       | Timing.LATE | Timing.CLOSED_AFTER => fsub a (fmul a (late_penalty exercise))
       | _ => a
       end.

(** Whether the penalty branch is taken. *)
Definition penalized w exercise self (no_penalties : bool) : bool :=
  negb no_penalties &&
  match fst (get_timing w exercise (submitters self) (submission_time self)) with
  | Timing.LATE | Timing.CLOSED_AFTER => true
  | _ => false
  end.

(** Whether the submission becomes unofficial, and why. *)
Definition unofficial_reason w exercise self (no_penalties : bool) : option UnofficialType.t :=
  if no_penalties then None
  else if no_submissions_left w exercise (submitters self) then Some UnofficialType.LIMIT_EXCEEDED
  else match fst (get_timing w exercise (submitters self) (submission_time self)) with
       | Timing.UNOFFICIAL => Some UnofficialType.DEADLINE_PASSED
       | _ => None
       end.

(** The object after a successful call. *)
Definition with_points w exercise self (points service_max : Z) (no_penalties : bool) : Submission :=
  let s := set_service_points points service_max
             (if penalized w exercise self no_penalties then Some (late_penalty exercise) else None)
             self in
  let s := match unofficial_reason w exercise self no_penalties with
           | Some t => set_unofficial t s
           | None => s
           end in
  set_grade (py_round (adjusted_grade w exercise self points service_max no_penalties)) s.

(** [set_points] in one equation: the assertion on the points, then the update,
    then the assertion on the grade. *)
Lemma set_points_eq w exercise self points service_max np :
  let sm := effective_max exercise points service_max in
  let s' := with_points w exercise self points sm np in
  set_points w exercise self points service_max np =
  if (0 <=? points) && (points <=? sm) then
    if (0 <=? grade s') && (grade s' <=? max_points exercise) then Ret s' else Raise AssertionError
  else Raise AssertionError.
Proof.
  unfold set_points, with_points, adjusted_grade, penalized, unofficial_reason.
  destruct ((0 <=? points) && _); cbn [negb]; [|done].
  destruct np; [done|]. cbn [set_service_points submitters submission_time negb andb].
  destruct (get_timing _ _ _ _) as [[] d]; cbn [fst];
    cbn [set_service_points set_unofficial submitters];
    destruct (no_submissions_left _ _ _); done.
Qed.

Lemma late_penalty_bounds exercise sm : gradable exercise sm -> (0 <= late_penalty exercise <= 1)%Q.
Proof. intros (_ & _ & Hp). unfold late_penalty. destruct (late_submissions_allowed _); [done|lra]. Qed.

Lemma adjusted_grade_bounds w exercise self points sm np :
  gradable exercise sm -> 0 <= points <= sm ->
  (0 <= adjusted_grade w exercise self points sm np
     <= scale_points (max_points exercise) points sm)%Q /\
  0 <= py_round (adjusted_grade w exercise self points sm np) <= max_points exercise.
Proof.
  intros Hg Hp. pose proof Hg as (Hm & Hs & _). pose proof (late_penalty_bounds _ _ Hg) as Hlp.
  destruct (scale_points_bounds (max_points exercise) points sm Hm Hp Hs) as [[Ha0 Ha1] Hrep].
  assert (Hadj : (0 <= adjusted_grade w exercise self points sm np
                    <= scale_points (max_points exercise) points sm)%Q).
  { unfold adjusted_grade. pose proof (penalty_bounds _ _ Ha0 Hrep Hlp).
    destruct np; [lra|]. destruct (fst _); first [done|lra]. }
  split; [done|]. apply py_round_quarter. lra.
Qed.

Lemma effective_max_gradable exercise points sm :
  gradable exercise sm -> gradable exercise (effective_max exercise points sm).
Proof. unfold gradable, effective_max. intros (? & ? & ?). destruct (_ && _); auto with lia. Qed.

(** Under these limits the second assertion never fires. *)
Lemma set_points_returns w exercise self points service_max np :
  gradable exercise service_max ->
  set_points w exercise self points service_max np =
  let sm := effective_max exercise points service_max in
  if (0 <=? points) && (points <=? sm)
  then Ret (with_points w exercise self points sm np) else Raise AssertionError.
Proof.
  intros Hg. rewrite set_points_eq. cbn zeta.
  destruct ((0 <=? points) && _) eqn:E; [|done]. b2p.
  destruct (adjusted_grade_bounds w exercise self points _ np
              (effective_max_gradable _ points _ Hg) ltac:(done)) as [_ Hr].
  cbn [with_points set_grade grade].
  by rewrite (proj2 (Z.leb_le _ _) (proj1 Hr)), (proj2 (Z.leb_le _ _) (proj2 Hr)).
Qed.

(** C7. [set_points] refuses points outside of zero and the service maximum and
    nothing else: its final assertion on the grade cannot fail, in binary64
    arithmetic, with any penalty fraction and any timing.  The grade is then
    between zero and the maximum of the exercise, and the service points and
    their maximum are recorded. *)
Theorem set_points_in_bounds w exercise self points service_max np :
  gradable exercise service_max ->
  match set_points w exercise self points service_max np with
  | Ret s' => 0 <= points <= effective_max exercise points service_max /\
              0 <= grade s' <= max_points exercise /\
              service_points s' = points /\
              service_max_points s' = effective_max exercise points service_max
  | Raise e => e = AssertionError /\ ~ 0 <= points <= effective_max exercise points service_max
  end.
Proof.
  intros Hg. rewrite (set_points_returns _ _ _ _ _ _ Hg). cbn zeta.
  destruct ((0 <=? points) && _) eqn:E; b2p.
  - destruct (adjusted_grade_bounds w exercise self points _ np
                (effective_max_gradable _ points _ Hg) ltac:(done)) as [_ Hr].
    split; [done|]. split; [done|].
    unfold with_points. destruct (unofficial_reason _ _ _ _); done.
  - split; [done|]. destruct E; b2p; lia.
Qed.

(** ** Exactness and monotonicity of the scaling *)

(** When the product fits in 53 bits, the scaled value is the rounded quotient. *)
Lemma scale_points_exact m p sm :
  0 <= m -> 0 <= p -> m <= 2 ^ 53 -> p <= 2 ^ 53 -> 0 < sm <= 2 ^ 53 -> m * p <= 2 ^ 53 ->
  (scale_points m p sm == b64 (inject_Z (m * p) / inject_Z sm))%Q.
Proof.
  intros Hm Hp Hm2 Hp2 Hs Hmp. unfold scale_points.
  rewrite (proj2 (Z.ltb_lt 0 sm)) by lia.
  assert (E1 : (fmul 1 (of_int m) == inject_Z m)%Q).
  { transitivity (b64 (inject_Z m)); [|apply b64_int; lia].
    symmetry. apply b64_eq; [by apply inject_Z_nonneg|]. rewrite of_int_exact by lia. ring. }
  assert (E2 : (fmul (fmul 1 (of_int m)) (of_int p) == inject_Z (m * p))%Q).
  { transitivity (b64 (inject_Z (m * p))); [|apply b64_int; nia].
    symmetry. apply b64_eq; [apply inject_Z_nonneg; nia|].
    rewrite E1, of_int_exact, inject_Z_mult by lia. reflexivity. }
  unfold fdiv. symmetry. apply b64_eq.
  - apply Qle_shift_div_l; [change 0%Q with (inject_Z 0); rewrite <- Zlt_Qlt; lia|].
    rewrite Qmult_0_l. apply inject_Z_nonneg. nia.
  - rewrite E2, of_int_exact by lia. reflexivity.
Qed.

Lemma scale_points_round m p sm z :
  0 <= m -> 0 <= p <= sm -> 0 < sm <= 2 ^ 53 -> m * sm <= 2 ^ 53 -> 0 <= z -> m * p = z * sm ->
  py_round (scale_points m p sm) = z.
Proof.
  intros Hm Hp Hs Hms Hz Hmul. rewrite (scale_points_exact m p sm) by nia.
  assert (HsQ : (0 < inject_Z sm)%Q) by (change 0%Q with (inject_Z 0); rewrite <- Zlt_Qlt; lia).
  transitivity (py_round (inject_Z z)); [|apply py_round_int]. apply py_round_proper.
  transitivity (b64 (inject_Z z)); [|apply b64_int; nia].
  symmetry. apply b64_eq; [apply inject_Z_nonneg; lia|].
  rewrite Hmul, inject_Z_mult. field. lra.
Qed.

(** Points on the exercise's own scale become the grade. *)
Lemma set_points_own_scale w exercise self points :
  gradable exercise (max_points exercise) ->
  max_points exercise * max_points exercise <= 2 ^ 53 ->
  0 <= points <= max_points exercise ->
  set_points w exercise self points (max_points exercise) true
  = Ret (set_grade points (set_service_points points (max_points exercise) None self)).
Proof.
  intros Hg Hfit Hp. rewrite set_points_returns by done. cbn zeta.
  assert (Hem : effective_max exercise points (max_points exercise) = max_points exercise)
    by (unfold effective_max; by destruct (_ && _)).
  rewrite Hem, !(proj2 (Z.leb_le _ _)) by lia. cbn [andb].
  unfold with_points. cbn [penalized unofficial_reason negb andb]. do 2 f_equal. unfold adjusted_grade.
  destruct (decide (max_points exercise = 0)) as [E|E].
  - rewrite E. replace points with 0 by lia. reflexivity.
  - apply scale_points_round; nia.
Qed.

(** The scaling keeps what it should: points given on the exercise's own
    scale become the grade unchanged, full service points become full points,
    and more service points never become a lower grade. *)
Theorem set_points_scale w exercise self points points' service_max :
  gradable exercise service_max ->
  0 <= points <= points' -> points' <= service_max -> 0 < service_max ->
  max_points exercise * service_max <= 2 ^ 53 ->
  exists s s',
    set_points w exercise self points service_max true = Ret s /\
    set_points w exercise self points' service_max true = Ret s' /\
    grade s <= grade s' /\
    (service_max = max_points exercise -> grade s = points) /\
    (points' = service_max -> grade s' = max_points exercise).
Proof.
  intros Hg Hp Hp' Hs Hfit.
  assert (Hem : forall p, effective_max exercise p service_max = service_max).
  { intros p. unfold effective_max. by rewrite (proj2 (Z.eqb_neq service_max 0)) by lia. }
  rewrite !set_points_returns, !Hem by done. cbn zeta.
  rewrite !(proj2 (Z.leb_le _ _)) by lia. cbn [andb].
  do 2 eexists. split; [reflexivity|]. split; [reflexivity|].
  destruct Hg as (Hm & Hs2 & _). cbn [with_points unofficial_reason adjusted_grade set_grade grade].
  set (m := max_points exercise) in *. unfold adjusted_grade. cbn.
  assert (HsQ : (0 < inject_Z service_max)%Q)
    by (change 0%Q with (inject_Z 0); rewrite <- Zlt_Qlt; lia).
  fold m. split; [|split].
  - apply py_round_mono. rewrite !scale_points_exact by nia. apply b64_mono.
    + apply Qle_shift_div_l; [done|]. rewrite Qmult_0_l. apply inject_Z_nonneg. nia.
    + apply Qmult_le_compat_r; [rewrite <- Zle_Qle; nia|]. apply Qlt_le_weak, Qinv_lt_0_compat. done.
  - intros E. apply scale_points_round; nia.
  - intros ->. apply scale_points_round; nia.
Qed.

(** ** The life of a submission *)

Context (retry : M unit) `{!RetryTask retry}.

(** A submission while requests grade it, one after the other: the object in
    memory, the database, and whether a request was interrupted since the
    submission was last given a status. *)
Record Life := mkLife {
  live : Submission;
  life_db : Db;
  interrupted : bool;
}.

(** One change by the grading code.  An exception may end a request after any of
    the changes, or from within the retry task; the next request starts from the
    stored row. *)
Inductive grading_step exercise : Life -> Life -> Prop :=
| step_waiting s db b s' db' :
    set_waiting exercise s db = (Ret s', db') ->
    grading_step exercise (mkLife s db b) (mkLife s' db' false)
| step_points s (db : Db) b points service_max np s' :
    service_max <= 2 ^ 53 ->
    set_points db exercise s points service_max np = Ret s' ->
    grading_step exercise (mkLife s db b) (mkLife s' db b)
| step_scale s db b percentage :
    grading_step exercise (mkLife s db b) (mkLife (scale_grade_to exercise percentage s) db b)
| step_ready s db b approve s' db' :
    set_ready retry exercise approve s db = (Ret s', db') ->
    grading_step exercise (mkLife s db b) (mkLife s' db' false)
| step_rejected s db b s' db' :
    set_rejected s db = (Ret s', db') -> grading_step exercise (mkLife s db b) (mkLife s' db' false)
| step_error s db b s' db' :
    set_error s db = (Ret s', db') -> grading_step exercise (mkLife s db b) (mkLife s' db' false)
| step_approve s db b s' db' :
    approve_penalized_submission retry exercise s db = (Ret s', db') ->
    grading_step exercise (mkLife s db b) (mkLife s' db' false)
| step_save s db b : grading_step exercise (mkLife s db b) (mkLife s (save s db) b)
| step_interrupted s (db : Db) b s' :
    find_submission (sub_id s) db = Some s' ->
    grading_step exercise (mkLife s db b) (mkLife s' db true)
| step_ready_raises s db b approve e (db' : Db) s' :
    set_ready retry exercise approve s db = (Raise e, db') ->
    find_submission (sub_id s) db' = Some s' ->
    grading_step exercise (mkLife s db b) (mkLife s' db' true)
| step_approve_raises s db b e (db' : Db) s' :
    approve_penalized_submission retry exercise s db = (Raise e, db') ->
    find_submission (sub_id s) db' = Some s' ->
    grading_step exercise (mkLife s db b) (mkLife s' db' true).

(** A submission as [create_from_post] leaves it: stored, no points, not pending. *)
Definition initialized (s : Submission) (db : Db) : Prop :=
  sub_status s = SubStatus.INITIALIZED /\ grade s = 0 /\
  service_points s = 0 /\ service_max_points s = 0 /\
  late_penalty_applied s = None /\ pendings db !! sub_id s = None /\
  find_submission (sub_id s) db = Some s.

(** What holds of a submission, in memory and in its row. *)
Record row_ok exercise (s : Submission) : Prop := {
  ok_grade : 0 <= grade s <= max_points exercise;
  ok_service : 0 <= service_points s <= service_max_points s;
  ok_service_max : service_max_points s <= 2 ^ 53;
  ok_penalty : forall q, late_penalty_applied s = Some q -> q = late_penalty exercise;
  ok_unofficial : sub_status s = SubStatus.UNOFFICIAL -> is_Some (unofficial_submission_type s);
}.

Definition pending_ok (s : Submission) (db : Db) : Prop :=
  is_Some (pendings db !! sub_id s) ->
  sub_status s = SubStatus.WAITING \/ sub_status s = SubStatus.UNOFFICIAL.

Record life_ok exercise (l : Life) : Prop := {
  ok_live : row_ok exercise (live l);
  ok_stored : forall t, find_submission (sub_id (live l)) (life_db l) = Some t -> row_ok exercise t;
  ok_pending : interrupted l = false -> pending_ok (live l) (life_db l);
}.

Lemma with_points_fields w exercise self p sm np :
  let s' := with_points w exercise self p sm np in
  sub_id s' = sub_id self /\ service_points s' = p /\ service_max_points s' = sm /\
  late_penalty_applied s' =
    (if penalized w exercise self np then Some (late_penalty exercise) else None) /\
  match unofficial_reason w exercise self np with
  | Some t => sub_status s' = SubStatus.UNOFFICIAL /\ unofficial_submission_type s' = Some t
  | None => sub_status s' = sub_status self /\
            unofficial_submission_type s' = unofficial_submission_type self
  end.
Proof. unfold with_points. destruct (unofficial_reason _ _ _ _); cbn; auto 10. Qed.

Lemma row_ok_points w exercise s p service_max np :
  gradable exercise service_max ->
  0 <= p <= effective_max exercise p service_max ->
  row_ok exercise s ->
  row_ok exercise (with_points w exercise s p (effective_max exercise p service_max) np).
Proof.
  intros Hg Hp [Hgr Hsv Hsm Hpen Hun].
  pose proof (effective_max_gradable _ p _ Hg) as Hg'.
  destruct (adjusted_grade_bounds w exercise s p _ np Hg' Hp) as [_ Hr].
  destruct (with_points_fields w exercise s p (effective_max exercise p service_max) np)
    as (Hid & H1 & H2 & H3 & H4).
  constructor.
  - done.
  - lia.
  - rewrite H2. by destruct Hg' as (_ & ? & _).
  - intros q. rewrite H3. destruct (penalized _ _ _ _); congruence.
  - destruct (unofficial_reason _ _ _ _); destruct H4 as [-> ->]; eauto.
Qed.

Lemma pending_ok_points w db exercise s p sm np :
  pending_ok s db -> pending_ok (with_points w exercise s p sm np) db.
Proof.
  destruct (with_points_fields w exercise s p sm np) as (Hid & _ & _ & _ & H4).
  unfold pending_ok. rewrite Hid. intros Hpd Hs.
  destruct (unofficial_reason _ _ _ _); destruct H4 as [-> _]; auto.
Qed.

Lemma set_points_id w exercise s p sm np s' :
  set_points w exercise s p sm np = Ret s' -> sub_id s' = sub_id s.
Proof.
  rewrite set_points_eq. cbn zeta. intros E. repeat break_hyp E; simplify_eq.
  by apply with_points_fields.
Qed.

(** What [set_ready] leaves when it returns. *)
Lemma set_ready_inv exercise approve s db s' db' :
  set_ready retry exercise approve s db = (Ret s', db') ->
  sub_id s' = sub_id s /\ grade s' = grade s /\ service_points s' = service_points s /\
  service_max_points s' = service_max_points s /\
  late_penalty_applied s' = late_penalty_applied s /\
  unofficial_submission_type s' = unofficial_submission_type s /\
  sub_status s' = (if negb (bool_decide (sub_status s = SubStatus.UNOFFICIAL))
                      || force_exercise_points s || approve
                   then SubStatus.READY else SubStatus.UNOFFICIAL) /\
  pendings db' !! sub_id s = None.
Proof.
  unfold set_ready, mbind, M_bind, reads, modify, mret, M_ret. cbn.
  set (db1 := fire_hooks _ _ _).
  assert (Hp1 : pendings db1 !! sub_id s = None) by apply lookup_delete_eq.
  intros E.
  assert (Hdb : pendings db' !! sub_id s = None /\
    s' = if negb (bool_decide (sub_status s = SubStatus.UNOFFICIAL))
            || force_exercise_points s || approve
         then set_status SubStatus.READY (set_grading_time (now db) s)
         else set_grading_time (now db) s).
  { destruct (is_grader_stable db1); cbn in E; [by injection E as <- <-|].
    pose proof (retry_pending db1 (sub_id s) Hp1) as [Hr _].
    destruct (retry db1) as [[[]|e] db2]; [|done]. by injection E as <- <-. }
  destruct Hdb as [Hdb ->].
  destruct (bool_decide _) eqn:Eb; b2p; cbn;
    destruct (force_exercise_points s), approve; cbn; auto 10.
Qed.

(** Rows of other submissions, and the own one, whatever [set_ready] ends with:
    the retry task runs when the submission is no longer pending. *)
Lemma set_ready_rows exercise approve s db :
  let db' := snd (set_ready retry exercise approve s db) in
  pendings db' !! sub_id s = None /\ find_submission (sub_id s) db' = find_submission (sub_id s) db.
Proof.
  unfold set_ready, mbind, M_bind, reads, modify, mret, M_ret. cbn.
  set (db1 := fire_hooks _ _ _).
  assert (Hp1 : pendings db1 !! sub_id s = None) by apply lookup_delete_eq.
  destruct (is_grader_stable db1); [done|]. cbn. destruct (retry_pending db1 (sub_id s) Hp1) as [H1 H2].
  by destruct (retry db1) as [[[]|e] db2].
Qed.

Lemma row_ok_set_ready exercise approve s db s' db' :
  row_ok exercise s -> set_ready retry exercise approve s db = (Ret s', db') -> row_ok exercise s'.
Proof.
  intros [Hgr Hsv Hsm Hpen Hun] E.
  apply set_ready_inv in E as (Hid & H1 & H2 & H3 & H4 & H5 & H6 & H7).
  constructor; rewrite ?H1, ?H2, ?H3, ?H4, ?H5, ?H6; try done.
  destruct (bool_decide _) eqn:Eb; b2p; cbn; [|done]. auto.
Qed.

Lemma row_ok_status exercise s st :
  st <> SubStatus.UNOFFICIAL -> row_ok exercise s -> row_ok exercise (set_status st s).
Proof. intros Hst []. by constructor. Qed.

(** The recorded service points pass the first assertion again. *)
Lemma effective_max_recorded exercise s :
  row_ok exercise s ->
  effective_max exercise (service_points s) (service_max_points s) = service_max_points s.
Proof.
  intros [_ Hsv _ _ _]. unfold effective_max.
  destruct (_ =? 0) eqn:E1, (0 <? _) eqn:E2; b2p; cbn; lia.
Qed.

Lemma approve_eq exercise s db :
  row_ok exercise s -> gradable exercise (service_max_points s) ->
  approve_penalized_submission retry exercise s db =
  set_ready retry exercise true
    (with_points db exercise s (service_points s) (service_max_points s) true) db.
Proof.
  intros Hok Hg. pose proof Hok as [_ Hsv _ _ _].
  unfold approve_penalized_submission, mbind, M_bind, reads, lift. cbn -[set_ready].
  rewrite set_points_returns by done. cbn zeta.
  rewrite (effective_max_recorded _ _ Hok), !(proj2 (Z.leb_le _ _)) by lia. done.
Qed.

Lemma gradable_at exercise sm : gradable exercise 0 -> sm <= 2 ^ 53 -> gradable exercise sm.
Proof. intros (? & _ & ?) ?. done. Qed.

Lemma row_ok_scale exercise s percentage :
  gradable exercise 0 -> row_ok exercise s -> row_ok exercise (scale_grade_to exercise percentage s).
Proof.
  intros (? & _ & _) []. constructor; cbn in *; auto.
  assert (0 <= py_round (if Qle_bool 0 (fmul (of_int (grade s)) (fdiv (of_int percentage) (of_int 100)))
                         then fmul (of_int (grade s)) (fdiv (of_int percentage) (of_int 100)) else 0%Q)).
  { rewrite <- (py_round_int 0). apply py_round_mono. destruct (Qle_bool _ _) eqn:Eq; [|apply Qle_refl].
    by apply Qle_bool_iff in Eq. }
  change (of_int 100) with (100#1)%Q in *. lia.
Qed.

Lemma find_save s (db : Db) :
  find_submission (sub_id s) (save s db) = (fun _ => s) <$> find_submission (sub_id s) db.
Proof.
  unfold find_submission. cbn. induction (submissions db) as [|t l IH]; cbn; [done|].
  destruct (sub_id t =? sub_id s) eqn:E; cbn; [by rewrite Z.eqb_refl|by rewrite E].
Qed.

Lemma find_submission_id i w s : find_submission i w = Some s -> sub_id s = i.
Proof. intros Hf. apply List.find_some in Hf as [_ E]. by apply Z.eqb_eq in E. Qed.

(** A request that starts from the stored row. *)
Lemma life_ok_stored exercise (db : Db) i s :
  (forall t, find_submission i db = Some t -> row_ok exercise t) ->
  find_submission i db = Some s -> life_ok exercise (mkLife s db true).
Proof.
  intros Hst Hf. pose proof (find_submission_id _ _ _ Hf) as Hi. constructor; cbn; [auto| |done].
  by rewrite Hi.
Qed.

(** After a status change that ended well. *)
Lemma life_ok_settled exercise s (db : Db) s' (db' : Db) :
  sub_id s' = sub_id s -> find_submission (sub_id s) db' = find_submission (sub_id s) db ->
  (forall t, find_submission (sub_id s) db = Some t -> row_ok exercise t) ->
  row_ok exercise s' -> pending_ok s' db' -> life_ok exercise (mkLife s' db' false).
Proof. intros Hi Hf Hst Hr Hp. constructor; cbn; [done| |done]. by rewrite Hi, Hf. Qed.

Lemma pending_ok_cleared s (db : Db) : pendings db !! sub_id s = None -> pending_ok s db.
Proof. unfold pending_ok. intros ->. by intros [? ?]. Qed.

Lemma life_ok_ready exercise approve s (db : Db) s' db' :
  (forall t, find_submission (sub_id s) db = Some t -> row_ok exercise t) -> row_ok exercise s ->
  set_ready retry exercise approve s db = (Ret s', db') -> life_ok exercise (mkLife s' db' false).
Proof.
  intros Hst Hr E. pose proof (set_ready_rows exercise approve s db) as Hrows. rewrite E in Hrows.
  destruct Hrows as [Hpd Hf]. pose proof (row_ok_set_ready _ _ _ _ _ _ Hr E) as Hr'.
  apply set_ready_inv in E as (Hid & _). cbn in *. apply (life_ok_settled _ s db); try done.
  apply pending_ok_cleared. by rewrite Hid.
Qed.

Lemma approved_ok exercise s (db : Db) :
  gradable exercise 0 -> row_ok exercise s ->
  let s1 := with_points db exercise s (service_points s) (service_max_points s) true in
  sub_id s1 = sub_id s /\ row_ok exercise s1 /\
  approve_penalized_submission retry exercise s db = set_ready retry exercise true s1 db.
Proof.
  intros Hg0 Hr s1.
  assert (Hg : gradable exercise (service_max_points s)) by (apply gradable_at; [done|by destruct Hr]).
  split; [apply with_points_fields|]. split; [|by apply approve_eq].
  pose proof (row_ok_points db exercise s (service_points s) (service_max_points s) true Hg) as Hp.
  rewrite (effective_max_recorded _ _ Hr) in Hp. apply Hp; [|done]. by destruct Hr.
Qed.

Lemma life_ok_step exercise l l' :
  gradable exercise 0 -> grading_step exercise l l' -> life_ok exercise l -> life_ok exercise l'.
Proof.
  intros Hg0 Hstep [Hr Hst Hpd]. destruct Hstep as
    [s db b s' db' E|s db b p sm np s' Hsm E|s db b pc|s db b a s' db' E|s db b s' db' E|s db b s' db' E
    |s db b s' db' E|s db b|s db b s' Hf|s db b a e db' s' E Hf|s db b e db' s' E Hf]; cbn in Hr, Hst, Hpd.
  - injection E as <- <-. apply (life_ok_settled _ s db); try done.
    + unfold mark_pending. by destruct (bool_decide _).
    + by apply row_ok_status.
    + intros _. by left.
  - pose proof (gradable_at _ _ Hg0 Hsm) as Hg. pose proof (set_points_id _ _ _ _ _ _ _ E) as Hi.
    rewrite (set_points_returns _ _ _ _ _ _ Hg) in E. cbn zeta in E.
    destruct ((0 <=? p) && _) eqn:Ev in E; [|done]. injection E as <-. b2p.
    constructor; cbn [live life_db interrupted]; [by apply row_ok_points|by rewrite Hi|].
    intros Hb. by apply pending_ok_points, Hpd.
  - constructor; cbn [live life_db interrupted]; [by apply row_ok_scale|done|exact Hpd].
  - by eapply life_ok_ready.
  - injection E as <- <-. apply (life_ok_settled _ s db); try done; [by apply row_ok_status|].
    apply pending_ok_cleared, lookup_delete_eq.
  - injection E as <- <-. apply (life_ok_settled _ s db); try done; [by apply row_ok_status|].
    apply pending_ok_cleared, lookup_delete_eq.
  - destruct (approved_ok exercise s db Hg0 Hr) as (Hi & Hr1 & Ea). rewrite Ea in E.
    eapply life_ok_ready; [|exact Hr1|exact E]. by rewrite Hi.
  - constructor; cbn [live life_db interrupted]; [done| |exact Hpd].
    intros t. rewrite find_save. destruct (find_submission _ db); cbn; [|done]. by intros [= <-].
  - by apply (life_ok_stored _ _ (sub_id s)).
  - pose proof (set_ready_rows exercise a s db) as Hrows. rewrite E in Hrows. destruct Hrows as [_ Hrow].
    apply (life_ok_stored _ _ (sub_id s)); [|done]. cbn in Hrow. by rewrite Hrow.
  - destruct (approved_ok exercise s db Hg0 Hr) as (Hi & Hr1 & Ea). rewrite Ea in E.
    pose proof (set_ready_rows exercise true (with_points db exercise s (service_points s)
      (service_max_points s) true) db) as Hrows. rewrite E, Hi in Hrows. destruct Hrows as [_ Hrow].
    apply (life_ok_stored _ _ (sub_id s)); [|done]. cbn in Hrow. by rewrite Hrow.
Qed.

Lemma row_ok_initialized exercise s db :
  gradable exercise 0 -> initialized s db -> row_ok exercise s.
Proof.
  intros (? & _ & _) (H1 & H2 & H3 & H4 & H5 & _).
  constructor; rewrite ?H1, ?H2, ?H3, ?H4, ?H5; try done; lia.
Qed.

(** C8. However the grading code acts on a submission after its creation, in any
    order and number of steps, over requests that end well and requests that end
    in an exception after any step or in the retry task, after which the next one
    starts from the stored row: the grade, in memory and in the row, stays between
    zero and the maximum of the exercise, the recorded service points within their
    maximum, an applied penalty is the one of the module, and an unofficial
    submission has its reason.  A submission that is still pending is waiting or
    unofficial, unless a request was interrupted after the submission was last
    given a status; only then can a ready, rejected or failed one be retried. *)
Theorem grading_invariant exercise s0 db0 l :
  gradable exercise 0 -> initialized s0 db0 ->
  rtc (grading_step exercise) (mkLife s0 db0 false) l -> life_ok exercise l.
Proof.
  intros Hg Hi Hr.
  assert (life_ok exercise (mkLife s0 db0 false)) as Hok.
  { pose proof (row_ok_initialized _ _ _ Hg Hi) as Hrow. destruct Hi as (_ & _ & _ & _ & _ & Hp & Hf).
    constructor; cbn; [done|by intros t; rewrite Hf; intros [= <-]|intros _; by apply pending_ok_cleared]. }
  revert Hok. induction Hr; [done|]. eauto using life_ok_step.
Qed.

Lemma set_ready_raises exercise approve s db e db' :
  set_ready retry exercise approve s db = (Raise e, db') ->
  exists db1, retry db1 = (Raise e, db') /\ is_grader_stable db1 = false /\
              pendings db1 = delete (sub_id s) (pendings db).
Proof using H.
  unfold set_ready, mbind, M_bind, reads, modify, mret, M_ret. cbn.
  set (db1 := fire_hooks _ _ _). destruct (is_grader_stable db1) eqn:Es; cbn; [done|].
  destruct (retry db1) as [[[]|e'] db2] eqn:E; [done|]. intros [= -> ->]. exists db1. auto.
Qed.

(** Approving a graded submission undoes the penalty and no more: it fails
    only if the retry of other submissions does, the submission becomes ready
    with no penalty, is no longer pending, keeps its service points, and its
    grade does not go down. *)
Theorem approve_restores_grade w exercise s points service_max np s1 db :
  gradable exercise service_max ->
  row_ok exercise s ->
  set_points w exercise s points service_max np = Ret s1 ->
  match approve_penalized_submission retry exercise s1 db with
  | (Ret s2, db2) =>
      sub_status s2 = SubStatus.READY /\ late_penalty_applied s2 = None /\
      service_points s2 = points /\ grade s1 <= grade s2 /\
      pendings db2 !! sub_id s2 = None
  | (Raise e, db2) => exists db1, retry db1 = (Raise e, db2)
  end.
Proof.
  intros Hg Hok E. rewrite (set_points_returns _ _ _ _ _ _ Hg) in E. cbn zeta in E.
  set (sm := effective_max exercise points service_max) in *.
  destruct ((0 <=? points) && _) eqn:Ev in E; [|done]. injection E as <-. b2p.
  pose proof (effective_max_gradable _ points _ Hg) as Hg1. fold sm in Hg1.
  pose proof (row_ok_points w _ s points service_max np Hg ltac:(done) Hok) as Hok1.
  fold sm in Hok1.
  destruct (with_points_fields w exercise s points sm np) as (Hid & Hsp & Hsm & _ & _).
  rewrite (approve_eq _ _ db Hok1) by (by rewrite Hsm). rewrite Hsp, Hsm.
  set (s1 := with_points w exercise s points sm np) in *.
  destruct (set_ready _ _ _ _ _) as [[s2|e] db2] eqn:Er; [|destruct (set_ready_raises _ _ _ _ _ _ Er) as (? & ? & _); eauto].
  apply set_ready_inv in Er as (Hid2 & Hgr & Hsp2 & _ & Hlp & _ & Hst & Hpd).
  destruct (with_points_fields db exercise s1 points sm true) as (_ & Hsp' & _ & Hlp' & _).
  rewrite Hst, orb_true_r, Hlp, Hlp', Hsp2, Hsp', Hid2. split; [done|]. split; [done|].
  split; [done|]. split; [|done]. rewrite Hgr. cbn.
  apply py_round_mono. apply (adjusted_grade_bounds w exercise s points sm np Hg1). lia.
Qed.

End PointsTheory.

(** ** Ordinal numbers *)

Lemma length_filter_lt {A} (P Q : A -> Prop) `{!forall x, Decision (P x), !forall x, Decision (Q x)}
    (l : list A) x :
  (forall y, P y -> Q y) -> x ∈ l -> Q x -> ~ P x ->
  (length (filter P l) < length (filter Q l))%nat.
Proof.
  intros Hpq Hx HQ HP. induction l as [|y l IH]; [by apply not_elem_of_nil in Hx|].
  assert (Hle : (length (filter P l) <= length (filter Q l))%nat).
  { clear -Hpq. induction l as [|z l IH]; [done|]. rewrite !filter_cons.
    destruct (decide (P z)), (decide (Q z)); cbn; naive_solver lia. }
  rewrite !filter_cons. apply elem_of_cons in Hx as [<-|Hx].
  - rewrite decide_False, decide_True by done. cbn. lia.
  - specialize (IH Hx). destruct (decide (P y)), (decide (Q y)); cbn; naive_solver lia.
Qed.

(** Ordinal numbers count a student's submissions of an exercise in time
    order: an earlier submission that is not an error has a smaller number than
    a later one of the same first submitter. *)
Theorem ordinal_number_increases w s1 s2 p rest1 rest2 :
  s1 ∈ submissions w ->
  submitters s1 = p :: rest1 -> submitters s2 = p :: rest2 ->
  sub_exercise s1 = sub_exercise s2 -> submission_time s1 < submission_time s2 ->
  sub_status s1 <> SubStatus.ERROR -> sub_status s1 <> SubStatus.REJECTED ->
  exists n1 n2, ordinal_number w s1 = Ret n1 /\ ordinal_number w s2 = Ret n2 /\ 1 <= n1 < n2.
Proof.
  intros Hin E1 E2 Ee Ht He Hr. unfold ordinal_number. rewrite E1, E2.
  do 2 eexists. split; [reflexivity|]. split; [reflexivity|].
  set (l := exclude_errors (submissions_of w p)).
  pose proof (length_filter_lt
    (fun s => sub_exercise s = sub_exercise s1 /\ submission_time s < submission_time s1)
    (fun s => sub_exercise s = sub_exercise s2 /\ submission_time s < submission_time s2) l s1
    ltac:(intros y [? ?]; split; [congruence|lia])) as Hlt.
  enough (s1 ∈ l) as Hl by (specialize (Hlt Hl ltac:(done) ltac:(intros [_ ?]; lia)); lia). unfold l.
  unfold exclude_errors, submissions_of. rewrite !list_elem_of_filter.
  split; [rewrite !not_elem_of_cons; split; [done|]; split; [done|apply not_elem_of_nil]|].
  split; [|done]. apply submitted_by_self. rewrite E1. by left.
Qed.

(** ** Points computed by the database *)

Lemma max_grade_spec l :
  match max_grade l with
  | Some g => (exists s, s ∈ l /\ grade s = g) /\ forall s, s ∈ l -> grade s <= g
  | None => l = []
  end.
Proof.
  destruct l as [|s l]; cbn; [done|]. split.
  - destruct (maxZ_in (grade s) (grade <$> l)) as [E|Hin].
    + exists s. split; [by left|done].
    + apply list_elem_of_In, list_elem_of_fmap in Hin as (t & E & Ht). exists t. split; [by right|done].
  - intros t Ht. destruct (maxZ_ub (grade s) (grade <$> l)) as [H1 H2].
    apply elem_of_cons in Ht as [->|Ht]; [done|].
    rewrite List.Forall_forall in H2. apply H2, list_elem_of_In, list_elem_of_fmap. eauto.
Qed.

Lemma newest_spec l :
  match newest l with
  | Some s => s ∈ l /\ forall t, t ∈ l -> submission_time t <= submission_time s
  | None => l = []
  end.
Proof.
  induction l as [|s l IH]; cbn; [done|]. destruct (newest l) as [t|].
  - destruct IH as [Hin Hub]. destruct (_ <? _) eqn:E; b2p; split;
      try (by left); try (by right); intros u Hu; apply elem_of_cons in Hu as [->|Hu]; try lia;
      specialize (Hub u Hu); lia.
  - subst l. split; [by left|]. intros t Ht. apply list_elem_of_singleton in Ht. subst. lia.
Qed.

(** The points by grading mode against the points of the best submission. *)
Lemma mode_points_bounds mode m forced ok :
  (forall s, s ∈ forced \/ s ∈ ok -> 0 <= grade s <= m) -> 0 <= m ->
  let best := match max_grade forced with Some g => Some g | None => max_grade ok end in
  let official := match max_grade forced with
                  | Some g => Some g
                  | None => match mode with
                            | GradingMode.LAST => grade <$> newest ok
                            | GradingMode.BEST => max_grade ok
                            end
                  end in
  0 <= default 0 official <= default 0 best /\ default 0 best <= m /\
  (mode = GradingMode.BEST -> official = best).
Proof.
  intros Hr Hm. pose proof (max_grade_spec forced) as Hf. pose proof (max_grade_spec ok) as Hk.
  pose proof (newest_spec ok) as Hn. cbn.
  destruct (max_grade forced) as [g|].
  { destruct Hf as [(s & Hs & <-) _]. specialize (Hr s (or_introl Hs)). cbn. split; [lia|]. split; [lia|done]. }
  destruct (max_grade ok) as [b|].
  - destruct Hk as [(s & Hs & <-) Hub]. pose proof (Hr s (or_intror Hs)).
    destruct mode; cbn; [split; [lia|]; split; [lia|done]|].
    destruct (newest ok) as [t|]; cbn; [|split; [lia|]; split; [lia|done]].
    destruct Hn as [Ht _]. pose proof (Hr t (or_intror Ht)). specialize (Hub t Ht).
    split; [lia|]. split; [lia|done].
  - subst ok. destruct mode; cbn; (split; [lia|]; split; [lia|done]).
Qed.

(** The total the database reports for a submitter is a grade the submitter
    has, or zero: it stays within the maximum when all grades do; the faster
    variant without the grading mode never reports less, and the same when the
    grading mode is the best submission. *)
Theorem submitter_points_bounds exercise revealed unofficial rows :
  (forall s, s ∈ rows -> 0 <= grade s <= max_points exercise) ->
  0 <= max_points exercise ->
  0 <= annotate_submitter_points exercise revealed unofficial rows
    <= annotate_best_submitter_points exercise revealed unofficial rows /\
  annotate_best_submitter_points exercise revealed unofficial rows <= max_points exercise /\
  (grading_mode exercise = GradingMode.BEST ->
   annotate_submitter_points exercise revealed unofficial rows
   = annotate_best_submitter_points exercise revealed unofficial rows).
Proof.
  intros Hr Hm. unfold annotate_submitter_points, annotate_best_submitter_points.
  set (forced := filter _ rows). set (ok := filter _ rows).
  assert (Hin : forall s, s ∈ forced \/ s ∈ ok -> 0 <= grade s <= max_points exercise)
    by (intros s; unfold forced, ok; rewrite !list_elem_of_filter; naive_solver).
  destruct (mode_points_bounds (grading_mode exercise) (max_points exercise) forced ok Hin Hm)
    as (H1 & H2 & H3).
  destruct revealed as [[|i ids]|]; [split; [lia|done]| |].
  - destruct (bool_decide _); [cbn; split; [lia|done]|].
    split; [done|]. split; [done|]. intros E. by rewrite (H3 E).
  - split; [done|]. split; [done|]. intros E. by rewrite (H3 E).
Qed.

(** ** Witnesses *)

Lemma example_gradable : gradable (example_exercise 1 2) 20.
Proof. vm_compute. intuition discriminate. Qed.

Lemma example_gradable0 : gradable (example_exercise 1 2) 0.
Proof. vm_compute. intuition discriminate. Qed.

(** A submission of the student after the closing time, in the late period. *)
Definition example_late_submission : Submission :=
  mkSubmission 7 1 (days 2 + 1) [example_student 1] None "" SubStatus.INITIALIZED None 0 None None
    false 0 0 None.

Definition example_db : Db :=
  mkDb (example_world [example_late_submission]) ∅
    [mkHook "http://hook.example" "post-grading" 1]%string [] [] [] [].

Lemma set_points_in_bounds_witness :
  exists s', set_points example_db (example_exercise 1 2) example_late_submission 15 20 false = Ret s' /\
             0 <= grade s' <= 10 /\ grade s' = 4.
Proof.
  pose proof (set_points_in_bounds example_db (example_exercise 1 2) example_late_submission 15 20
    false example_gradable) as Hs.
  destruct (set_points _ _ _ _ _ _) as [s'|e] eqn:E; [|exfalso; apply Hs; vm_compute; split; discriminate].
  exists s'. split; [reflexivity|]. destruct Hs as (_ & Hs & _). split; [exact Hs|].
  vm_compute in E. injection E as <-. reflexivity.
Defined.

Lemma set_points_scale_witness :
  exists s s',
    set_points example_db (example_exercise 1 2) example_late_submission 7 10 true = Ret s /\
    set_points example_db (example_exercise 1 2) example_late_submission 10 10 true = Ret s' /\
    grade s = 7 /\ grade s' = 10.
Proof.
  destruct (set_points_scale example_db (example_exercise 1 2) example_late_submission 7 10 10)
    as (s & s' & E & E' & _ & H1 & H2).
  - vm_compute. intuition discriminate.
  - lia.
  - lia.
  - lia.
  - vm_compute. discriminate.
  - exists s, s'. split; [exact E|]. split; [exact E'|]. split; [by apply H1|by apply H2].
Defined.

(** No other submission is pending: the retry finds nothing to do. *)
Definition no_retry : M unit := mret tt.

#[export] Instance no_retry_task : RetryTask no_retry.
Proof. by intros db i Hs. Qed.

(** Graded, saved, and a later request that was interrupted. *)
Lemma grading_invariant_witness :
  exists l, rtc (grading_step no_retry (example_exercise 1 2))
              (mkLife example_late_submission example_db false) l /\
    life_ok (example_exercise 1 2) l /\ sub_status (live l) = SubStatus.READY /\ interrupted l = true.
Proof.
  destruct (set_points example_db (example_exercise 1 2) example_late_submission 15 20 false)
    as [s1|] eqn:E1; [|vm_compute in E1; discriminate].
  destruct (set_ready no_retry (example_exercise 1 2) false s1 example_db) as [[s2|] db2] eqn:E2;
    [|vm_compute in E1, E2; by simplify_eq].
  assert (Hf : find_submission (sub_id s2) (save s2 db2) = Some s2).
  { vm_compute in E1. injection E1 as <-. vm_compute in E2. by injection E2 as <- <-. }
  assert (Hr : rtc (grading_step no_retry (example_exercise 1 2))
                 (mkLife example_late_submission example_db false) (mkLife s2 (save s2 db2) true)).
  { eapply rtc_l; [eapply step_points; [|exact E1]; lia|].
    eapply rtc_l; [eapply step_ready; exact E2|].
    eapply rtc_l; [apply step_save|]. eapply rtc_l; [eapply step_interrupted; exact Hf|]. apply rtc_refl. }
  exists (mkLife s2 (save s2 db2) true). split; [exact Hr|]. split.
  - refine (grading_invariant no_retry (example_exercise 1 2) _ _ _ example_gradable0 _ Hr).
    vm_compute. intuition reflexivity.
  - vm_compute in E1. injection E1 as <-. vm_compute in E2. by injection E2 as <- <-.
Defined.

Lemma approve_restores_grade_witness :
  exists s2 db2, (exists s1,
    set_points example_db (example_exercise 1 2) example_late_submission 15 20 false = Ret s1 /\
    approve_penalized_submission no_retry (example_exercise 1 2) s1 example_db = (Ret s2, db2)) /\
    4 <= grade s2 /\ grade s2 = 8.
Proof.
  destruct (set_points example_db (example_exercise 1 2) example_late_submission 15 20 false)
    as [s1|] eqn:E1; [|vm_compute in E1; discriminate].
  pose proof (approve_restores_grade no_retry example_db (example_exercise 1 2)
    example_late_submission 15 20 false s1 example_db example_gradable) as Ha.
  destruct (approve_penalized_submission _ _ _ _) as [[s2|] db2] eqn:E2.
  - exists s2, db2. split; [exists s1; split; reflexivity || assumption|].
    destruct Ha as (_ & _ & _ & Hge & _); [|exact E1|].
    + apply (row_ok_initialized _ _ example_db); [exact example_gradable0|]. vm_compute. intuition reflexivity.
    + vm_compute in E1. injection E1 as <-. vm_compute in E2. injection E2 as <- <-.
      split; [exact Hge|reflexivity].
  - exfalso. vm_compute in E1. injection E1 as <-. vm_compute in E2. discriminate.
Defined.

Lemma ordinal_number_increases_witness :
  exists n1 n2,
    ordinal_number (example_world [example_submission 8 SubStatus.READY [example_student 1];
                                   example_submission 7 SubStatus.READY [example_student 1]])
      (example_submission 7 SubStatus.READY [example_student 1]) = Ret n1 /\
    ordinal_number (example_world [example_submission 8 SubStatus.READY [example_student 1];
                                   example_submission 7 SubStatus.READY [example_student 1]])
      (example_submission 8 SubStatus.READY [example_student 1]) = Ret n2 /\ 1 <= n1 < n2.
Proof.
  apply (ordinal_number_increases _ _ _ (example_student 1) [] []);
    try discriminate; try reflexivity. right. by left.
Defined.

Lemma submitter_points_bounds_witness :
  annotate_submitter_points (example_exercise 1 2) None false
    [set_grade 7 (example_submission 7 SubStatus.READY [example_student 1])] = 7 /\
  7 <= annotate_best_submitter_points (example_exercise 1 2) None false
         [set_grade 7 (example_submission 7 SubStatus.READY [example_student 1])].
Proof.
  split; [reflexivity|].
  apply (submitter_points_bounds (example_exercise 1 2) None false
    [set_grade 7 (example_submission 7 SubStatus.READY [example_student 1])]).
  - intros s Hs. apply list_elem_of_singleton in Hs as ->. vm_compute. split; discriminate.
  - vm_compute. discriminate.
Defined.
