(* ===== verification/Grading.v ===== *)
(** * Grading: the assessment service, its callbacks and retries

    [exercise/protocol/aplus.py], [exercise/async_views.py], [exercise/tasks.py]
    and the retry task of [aplus/celery.py].  The assessment service is a
    parameter: for a submission and a state of the database it answers with a
    page, or the connection fails.  A successful grading may start the retry of
    another pending submission, which grades it and so on: the mutual recursion
    of [grade] and [retry_submissions] runs on fuel, and the fuel needed is
    bounded by the number of pending submissions. *)

From Stdlib Require Import QArith Ascii.
From S2P Require Import Prelude Binary64 Helpers Course Deviations Reveal Models Exercise Submission.
#[local] Open Scope Z_scope.

(** ** Pages of the assessment service *)

(** What [parse_page_content] reads of the answer.  A numeric meta field is
    absent, an integer, or text on which [int] raises [ValueError]. *)
Record RemotePage := mkRemotePage {
  meta_max_points_dash : option (option Z);
  meta_max_points : option (option Z);
  meta_status : option string;
  meta_wait : bool;
  meta_points : option (option Z);
  remote_content : string;
}.

(** src/exercise/protocol/exercise_page.py: ExercisePage.__init__ *)
Record ExercisePage := mkPage {
  is_loaded : bool;
  page_is_graded : bool;
  is_accepted : bool;
  is_rejected : bool;
  is_wait : bool;
  page_points : Z;
  page_max_points : Z;
  clean_content : string;
  page_errors : list string;
}.

Definition empty_page (exercise : BaseExercise) : ExercisePage :=
  mkPage false false false false false 0 (max_points exercise) "" [].

Definition add_error (msg : string) (page : ExercisePage) : ExercisePage :=
  mkPage (is_loaded page) (page_is_graded page) (is_accepted page) (is_rejected page) (is_wait page)
    (page_points page) (page_max_points page) (clean_content page) (page_errors page ++ [msg]).

(** src/exercise/protocol/exercise_page.py: ExercisePage.is_sane *)
Definition is_sane (page : ExercisePage) : bool := page_points page <=? page_max_points page.

(** src/exercise/protocol/aplus.py: parse_page_content lines 125-165 *)
Definition parse_page_content (page : ExercisePage) (remote : RemotePage) : result ExercisePage :=
  let int (o : option Z) : result Z :=
    match o with Some z => Ret z | None => Raise ValueError end in
  let or_else (o : option (option Z)) (d : Z) : result Z :=
    match o with Some v => int v | None => Ret d end in
  let! max := or_else (meta_max_points_dash remote) (page_max_points page) in
  let! max := or_else (meta_max_points remote) max in
  let accepted := bool_decide (meta_status remote = Some "accepted"%string) in
  let wait := if accepted && meta_wait remote then true else is_wait page in
  let rejected :=
    if accepted then is_rejected page
    else if bool_decide (meta_status remote = Some "rejected"%string) then true
    else is_rejected page in
  let accepted := accepted || is_accepted page in
  match meta_points remote with
  | Some v =>
      let! points := int v in
      Ret (mkPage true true true rejected false points max (remote_content remote) (page_errors page))
  | None =>
      Ret (mkPage true (page_is_graded page) accepted rejected wait (page_points page) max
             (remote_content remote) (page_errors page))
  end.

(** ** Loading the feedback page *)

(** The answer to the POST of a submission: a page, a failed connection
    ([RemotePageException]), or an unreadable submitted file ([OSError]). *)
Inductive Reply :=
| Answer (remote : RemotePage)
| ConnectionFailed
| FileError.

(** The truth value of an optional string. *)
Definition truthy_str (o : option string) : bool :=
  match o with
  | Some s => negb (bool_decide (s = ""%string))
  | None => false
  end.

Section Grading.
Context `{Settings}.
(** The assessment service, which may answer differently in every state. *)
Context (service : Submission -> Db -> Reply).

(** [email_course_error], sent for courses that are open to students. *)
Definition mail_error (exercise : BaseExercise) (db : Db) : Db :=
  if visible_to_students (lobj_instance exercise)
  then emit db [CourseErrorMailed (exercise_id exercise)] else db.

(** src/exercise/protocol/aplus.py: load_feedback_page lines 65-118.  The part
    that acts on a loaded page. *)
Definition act_on_page (retry : M unit) (exercise : BaseExercise) (no_penalties : bool)
    (page : ExercisePage) (submission : Submission) : M (ExercisePage * Submission) :=
  let submission := set_feedback (clean_content page) submission in
  '(page, submission) ←
    (if is_accepted page then
       submission ← set_waiting exercise submission;
       if page_is_graded page then
         if is_sane page then
           db ← reads id;
           submission ← lift (set_points (world db) exercise submission
                                (page_points page) (page_max_points page) no_penalties);
           submission ← set_ready retry exercise false submission;
           mret (page, submission)
         else
           submission ← set_error submission;
           modify (mail_error exercise);;
           mret (add_error "ASSESSMENT_SERVICE_ERROR_RESPONDED_INVALID_POINTS" page, submission)
       else mret (page, submission)
     else if is_rejected page then
       submission ← set_rejected submission;
       mret (page, submission)
     else
       submission ← set_error submission;
       mret (add_error "ASSESSMENT_SERVICE_ERROR_RESPONDED_ERROR" page, submission));
  modify (save submission);;
  mret (page, submission).

(** src/exercise/protocol/aplus.py: load_feedback_page lines 48-64 *)
Definition load_feedback_page (retry : M unit) (exercise : BaseExercise) (submission : Submission)
    (no_penalties : bool) : M ExercisePage :=
  let page := empty_page exercise in
  reply ← reads (service submission);
  match reply with
  | FileError => lift (Raise OSError)
  | ConnectionFailed =>
      modify (mail_error exercise);;
      mret (add_error "ASSESSMENT_SERVICE_ERROR_CONNECTION_FAILED" page)
  | Answer remote =>
      page ← lift (parse_page_content page remote);
      '(page, submission) ← act_on_page retry exercise no_penalties page submission;
      (if page_is_graded page && is_sane page && truthy_str (lti_launch_id submission)
       then modify (fun db => emit db [LtiPointsSent (sub_id submission)])
       else mret tt);;
      mret page
  end.

(** src/exercise/exercise_models.py: BaseExercise.grade.  Only an [OSError] is
    caught. *)
Definition grade_with (retry : M unit) (exercise : BaseExercise) (submission : Submission)
    (no_penalties : bool) : M ExercisePage := fun db =>
  match load_feedback_page retry exercise submission no_penalties db with
  | (Raise OSError, db') => (Ret (add_error "Unable to grade the submission." (empty_page exercise)), db')
  | r => r
  end.

(** src/exercise/exercise_models.py: BaseExercise.can_regrade.  A submission's
    [exercise] is an instance of the base class. *)
Definition can_regrade (exercise : BaseExercise) : bool := true.

(** ** The retry task *)

(** The exercise table, and [random.choice]. *)
Context (exercise_of : Z -> BaseExercise) (choice : list Z -> option Z).

(** [pending.submission]: the row the foreign key points to. *)
Definition pending_submission (i : Z) : M Submission := fun db =>
  match find_submission i db with
  | Some s => (Ret s, db)
  | None => (Raise DoesNotExist, db)
  end.

(** A pending submission that is given up: an error, no longer pending. *)
Definition mark_lost (submission : Submission) : M unit :=
  submission ← set_error submission;
  modify (save submission);;
  modify (clear_pending submission).

(** src/aplus/celery.py: retry_submissions lines 54-71.  Recovery state: one
    pending submission is sent to the grader. *)
Definition retry_one (grade : BaseExercise -> Submission -> M ExercisePage) : M unit :=
  ids ← reads (fun db => (map_to_list (pendings db)).*1);
  match choice ids with
  | None => lift (Raise IndexError)
  | Some i =>
      found ← reads (fun db => pendings db !! i);
      match found with
      | None => lift (Raise DoesNotExist)
      | Some pending =>
          submission ← pending_submission i;
          if (SUBMISSION_RETRY_LIMIT <=? num_retries pending) && (0 <? SUBMISSION_RETRY_LIMIT)
          then mark_lost submission
          else if can_regrade (exercise_of (sub_exercise submission)) then
            grade (exercise_of (sub_exercise submission)) submission;;
            mret tt
          else mret tt
      end
  end.

(** src/aplus/celery.py: retry_submissions lines 75-97.  One turn of the loop of
    the stable state over the expired rows, which were fetched before the loop. *)
Definition retry_expired (grade : BaseExercise -> Submission -> M ExercisePage)
    (row : Z * PendingSubmission) : M unit :=
  let (i, pending) := row in
  submission ← pending_submission i;
  let exercise := exercise_of (sub_exercise submission) in
  if can_regrade exercise then
    if num_retries pending <? SUBMISSION_RETRY_LIMIT then
      due ← reads (fun db =>
        match pending_time pending with
        | Some t => t <? now db - seconds (SUBMISSION_EXPIRY_TIMEOUT * num_retries pending)
        | None => false
        end);
      if due : bool then grade exercise submission;; mret tt else mret tt
    else mark_lost submission
  else mret tt.

Fixpoint each {A} (f : A -> M unit) (l : list A) : M unit :=
  match l with
  | [] => mret tt
  | x :: l => f x;; each f l
  end.

Definition expired (db : Db) : list (Z * PendingSubmission) :=
  List.filter (fun '(_, p) =>
            match pending_time p with
            | Some t => t <? now db - seconds SUBMISSION_EXPIRY_TIMEOUT
            | None => false
            end) (map_to_list (pendings db)).

(** src/aplus/celery.py: retry_submissions *)
Definition retry_with (grade : BaseExercise -> Submission -> M ExercisePage) : M unit :=
  stable ← reads is_grader_stable;
  if negb stable then retry_one grade
  else
    rows ← reads expired;
    each (retry_expired grade) rows.

(** The recursion of grading: [set_ready] calls [retry_submissions], which grades
    another submission.  Without fuel the interpreter's recursion limit is hit. *)
Fixpoint grade_rec (fuel : nat) (no_penalties : bool) (exercise : BaseExercise)
    (submission : Submission) : M ExercisePage :=
  let retry := match fuel with
               | O => lift (Raise RecursionError)
               | S fuel => retry_with (grade_rec fuel false)
               end in
  grade_with retry exercise submission no_penalties.

Definition retry_submissions (fuel : nat) : M unit := retry_with (grade_rec fuel false).

(** src/exercise/tasks.py: regrade_exercises lines 20-54.  The submissions are
    fetched before the loop. *)
Definition regrade_exercises (fuel : nat) (exerciseid : Z) (incomplete : bool) : M unit :=
  rows ← reads (fun db => List.filter (fun s =>
    (sub_exercise s =? exerciseid)
    && (negb incomplete
        || bool_decide (sub_status s ∈ [SubStatus.INITIALIZED; SubStatus.WAITING; SubStatus.ERROR])))
    (submissions db));
  each (fun submission => grade_rec fuel false (exercise_of exerciseid) submission;; mret tt) rows.

(** ** Grading callbacks *)

(** src/exercise/forms.py: SubmissionCallbackForm lines 15-27.  A numeric field is
    absent, an integer, or text that is not one; [grading_data] is what the
    parameter of that name holds. *)
Inductive GradingData :=
| NoTags
| Tags (slugs : string)
| NotAnObject.

Record CallbackPost := mkCallback {
  cb_points : option (option Z);
  cb_max_points : option (option Z);
  cb_feedback : string;
  cb_notify : string;
  cb_regrade_when_seen : bool;
  cb_lti_launch_id : string;
  cb_error : bool;
  cb_grading_data : GradingData;
}.

(** src/exercise/forms.py: SubmissionCallbackForm.clean, after the validation of
    the fields.  [None] when the form is invalid, else the cleaned points and
    maximum points. *)
Definition callback_clean (post : CallbackPost) : option (Z * option Z) :=
  match cb_points post with
  | Some (Some points) =>
      if points <? 0 then None
      else
        match cb_max_points post with
        | Some None => None
        | Some (Some max) =>
            if max <? 0 then None
            else if negb (points =? 0) && negb (max =? 0) && (max <? points) then None
            else Some (points, Some max)
        | None => Some (points, None)
        end
  | _ => None
  end.

(** src/notification/models.py: Notification.send *)
Definition notification_send (submission : Submission) (regrade : bool) (db : Db) : Db :=
  with_notifications db
    (foldl (fun notes recipient =>
              if existsb (fun n => (note_submission n =? sub_id submission)
                                   && (note_recipient n =? profile_id recipient)
                                   && negb (note_seen n)) notes
              then notes
              else notes ++ [mkNotification (sub_id submission) (profile_id recipient) false regrade])
       (notifications db) (submitters submission)).

(** src/notification/models.py: Notification.remove *)
Definition notification_remove (submission : Submission) (db : Db) : Db :=
  with_notifications db
    (List.filter (fun n => negb ((note_submission n =? sub_id submission)
                                 && bool_decide (note_recipient n ∈ profile_set (submitters submission))
                                 && negb (note_seen n)))
       (notifications db)).

(** [tag_slug.strip()], for spaces. *)
Definition strip (s : string) : string := lstrip " " (rstrip " " s).

(** src/exercise/async_views.py: _post_async_submission lines 61-85.  Tags named by
    the grader, if they belong to the course; the others are reported. *)
Definition add_tag (exercise : BaseExercise) (submission : Submission) (db : Db) (slug : string) : Db :=
  let slug := strip slug in
  if bool_decide (slug = ""%string) then db
  else if bool_decide ((instance_id (lobj_instance exercise), slug) ∈ course_tags db) then
    if bool_decide ((sub_id submission, slug) ∈ taggings db) then db
    else with_taggings db (taggings db ++ [(sub_id submission, slug)])
  else mail_error exercise db.

(** src/exercise/async_views.py: _post_async_submission lines 54-121.  The guarded
    block. *)
Definition save_callback (retry : M unit) (exercise : BaseExercise) (submission : Submission)
    (post : CallbackPost) (points : Z) (max : option Z) : M unit :=
  db ← reads id;
  submission ← lift (match max with
                     | Some max => set_points (world db) exercise submission points max false
                     | None => Raise TypeError
                     end);
  let submission := set_feedback (cb_feedback post) submission in
  (match cb_grading_data post with
   | NoTags => mret tt
   | Tags slugs => modify (fun db => foldl (add_tag exercise submission) db (split "," slugs))
   | NotAnObject => lift (Raise TypeError)
   end);;
  let submission :=
    if negb (bool_decide (cb_lti_launch_id post = ""%string))
       && bool_decide (lti_launch_id submission = None)
    then set_lti_launch_id (Some (cb_lti_launch_id post)) submission else submission in
  submission ← (if cb_error post then set_error submission
                else set_ready retry exercise false submission);
  modify (save submission);;
  (if bool_decide (cb_notify post = "remove"%string) then modify (notification_remove submission)
   else if bool_decide (cb_notify post = ""%string) then mret tt
   else modify (notification_send submission (cb_regrade_when_seen post)));;
  if truthy_str (lti_launch_id submission)
  then modify (fun db => emit db [LtiPointsSent (sub_id submission)]) else mret tt.

(** src/exercise/async_views.py: _post_async_submission.  Returns the [success]
    field of the answer; any exception of the guarded block is caught. *)
Definition post_async_submission (retry : M unit) (exercise : BaseExercise)
    (submission : Submission) (post : CallbackPost) : M bool :=
  match callback_clean post with
  | None =>
      submission ← set_error
        (set_feedback "ERROR_ALERT_EXERCISE_ASSESSMENT_SERVICE_MALFUNCTIONING" submission);
      modify (save submission);;
      modify (mail_error exercise);;
      mret false
  | Some (points, max) => fun db =>
      match save_callback retry exercise submission post points max db with
      | (Ret _, db') => (Ret true, db')
      | (Raise _, db') => (Ret false, db')
      end
  end.

End Grading.

(** ** Grading works on its own row and on pending ones *)

(** The call leaves a submission that is not pending and does not satisfy [P] as
    it is: not pending, and with the same row. *)
Definition pends_in {A} (P : Z -> Prop) (c : M A) : Prop :=
  forall db j, pendings db !! j = None -> ~ P j ->
    pendings (snd (c db)) !! j = None /\ find_submission j (snd (c db)) = find_submission j db.

Definition returns {A} (c : M A) (a : A) : Prop := exists db db', c db = (Ret a, db').

Lemma pends_in_bind {A B} P (c : M A) (k : A -> M B) :
  pends_in P c -> (forall a, returns c a -> pends_in P (k a)) -> pends_in P (c ≫= k).
Proof.
  intros Hc Hk db j Hj HP. unfold mbind, M_bind. destruct (Hc db j Hj HP) as [H1 H2].
  destruct (c db) as [[a|e] db'] eqn:E; cbn in *; [|done].
  destruct (Hk a ltac:(by exists db, db') db' j H1 HP) as [H3 H4]. by rewrite H4.
Qed.

Lemma bind_reads {A B} (f : Db -> A) (k : A -> M B) db : (reads f ≫= k) db = k (f db) db.
Proof. reflexivity. Qed.

Lemma pends_in_modify P f :
  (forall db j, pendings db !! j = None -> ~ P j ->
     pendings (f db) !! j = None /\ find_submission j (f db) = find_submission j db) ->
  pends_in P (modify f).
Proof. intros Hf db j. apply Hf. Qed.

Lemma pends_in_same {A} P (c : M A) : (forall db, snd (c db) = db) -> pends_in P c.
Proof. intros Hc db j. rewrite Hc. auto. Qed.

Lemma pends_in_ret {A} P (a : A) : pends_in P (mret a).
Proof. by apply pends_in_same. Qed.
Lemma pends_in_lift {A} P (r : result A) : pends_in P (lift r).
Proof. by apply pends_in_same. Qed.
Lemma pends_in_reads {A} P (f : Db -> A) : pends_in P (reads f).
Proof. by apply pends_in_same. Qed.

Lemma pends_in_same_pendings P f :
  (forall db, pendings (f db) = pendings db /\ submissions (f db) = submissions db) ->
  pends_in P (modify f).
Proof.
  intros Hf. apply pends_in_modify. intros db j Hj _. destruct (Hf db) as [H1 H2].
  unfold find_submission. by rewrite H1, H2.
Qed.

Lemma pends_in_clear P s : pends_in P (modify (clear_pending s)).
Proof.
  apply pends_in_modify. intros db j Hj _. split; [|done]. cbn.
  destruct (decide (sub_id s = j)) as [->|Hne]; [apply lookup_delete_eq|by rewrite lookup_delete_ne].
Qed.

Lemma find_save_ne s (db : Db) j : j <> sub_id s -> find_submission j (save s db) = find_submission j db.
Proof.
  intros Hj. unfold find_submission. cbn. induction (submissions db) as [|t l IH]; cbn; [done|].
  destruct (sub_id t =? sub_id s) eqn:E; b2p; [|by rewrite IH].
  rewrite IH. by rewrite E, (proj2 (Z.eqb_neq _ _)) by done.
Qed.

Lemma pends_in_save (P : Z -> Prop) s : P (sub_id s) -> pends_in P (modify (save s)).
Proof.
  intros Hs. apply pends_in_modify. intros db j Hj HP. split; [done|]. apply find_save_ne.
  by intros ->.
Qed.

#[export] Hint Resolve pends_in_ret pends_in_lift pends_in_reads pends_in_clear : aplus.

(** Splits a monadic call into its primitive steps. *)
Ltac pends :=
  repeat first [solve [auto with aplus] | apply pends_in_same_pendings; done
               | apply pends_in_save; solve [done | cbn; congruence]
               | apply pends_in_bind; [|intros ? _]].

Section GradingTheory.
Context `{Settings} (service : Submission -> Db -> Reply).
Context (exercise_of : Z -> BaseExercise) (choice : list Z -> option Z).

Lemma pends_in_retry P retry `{!RetryTask retry} : pends_in P retry.
Proof. intros db j Hj _. by apply retry_pending. Qed.

Lemma pends_in_set_waiting (P : Z -> Prop) exercise s : P (sub_id s) -> pends_in P (set_waiting exercise s).
Proof.
  intros Hs. unfold set_waiting. apply pends_in_bind; [|intros; auto with aplus].
  apply pends_in_modify. intros db j Hj HP. unfold mark_pending.
  destruct (bool_decide _); cbn; [|auto]. split; [|done].
  rewrite lookup_insert_ne; [done|]. by intros <-.
Qed.

Lemma pends_in_set_ready P retry `{!RetryTask retry} exercise approve s :
  pends_in P (set_ready retry exercise approve s).
Proof.
  unfold set_ready. pends. destruct (negb _); [by apply pends_in_retry|pends].
Qed.

Lemma pends_in_set_error P s : pends_in P (set_error s).
Proof. unfold set_error. pends. Qed.
Lemma pends_in_set_rejected P s : pends_in P (set_rejected s).
Proof. unfold set_rejected. pends. Qed.

Lemma pends_in_mail_error P exercise : pends_in P (modify (mail_error exercise)).
Proof.
  apply pends_in_same_pendings. intros db. unfold mail_error. by destruct (visible_to_students _).
Qed.

Hint Resolve pends_in_set_error pends_in_set_rejected pends_in_set_ready pends_in_mail_error : aplus.

(** The status changes return an object of the same row. *)
Lemma set_ready_returns retry exercise approve s s' :
  returns (set_ready retry exercise approve s) s' -> sub_id s' = sub_id s.
Proof.
  intros (db & db' & E). unfold set_ready, mbind, M_bind, reads, modify, mret, M_ret in E. cbn in E.
  destruct (_ (fire_hooks _ _ _)) as [[[]|] ?] in E; [|done]. injection E as <- _.
  by destruct (_ || _).
Qed.

Lemma pends_in_act_on_page retry `{!RetryTask retry} exercise np page s :
  pends_in (eq (sub_id s)) (act_on_page retry exercise np page s).
Proof.
  unfold act_on_page. apply pends_in_bind.
  - destruct (is_accepted page); [|destruct (is_rejected page); pends].
    apply pends_in_bind; [by apply pends_in_set_waiting|].
    intros. destruct (page_is_graded page), (is_sane page); pends.
  - intros [page' s'] (db & db' & E).
    assert (sub_id s' = sub_id s) as Hi; [|pends].
    destruct (is_accepted page); [|by destruct (is_rejected page); injection E as <- <-].
    unfold mbind at 1, M_bind in E. cbn -[set_points set_ready] in E.
    destruct (page_is_graded page); [|by injection E as <- <-].
    destruct (is_sane page); [|by injection E as <- <-].
    unfold set_waiting, mbind, M_bind, reads, lift, modify in E. cbn -[set_points set_ready] in E.
    destruct (set_points _ _ _ _ _ _) as [s1|] eqn:Es; [|done].
    destruct (set_ready _ _ _ _ _) as [[s2|] db2] eqn:Er; [|done]. injection E as <- <- _.
    rewrite (set_ready_returns retry exercise false s1 s2) by (by eexists _, _).
    by rewrite (set_points_id _ _ _ _ _ _ _ Es).
Qed.

Lemma pends_in_grade_with retry `{!RetryTask retry} exercise s np :
  pends_in (eq (sub_id s)) (grade_with service retry exercise s np).
Proof.
  assert (Hl : pends_in (eq (sub_id s)) (load_feedback_page service retry exercise s np)).
  { unfold load_feedback_page. apply pends_in_bind; [pends|]. intros [] _; [|pends|pends].
    apply pends_in_bind; [pends|intros ? _].
    apply pends_in_bind; [by apply pends_in_act_on_page|]. intros [? ?] _.
    apply pends_in_bind; [destruct (_ && _); pends|intros; pends]. }
  intros db j Hj HP. specialize (Hl db j Hj HP). unfold grade_with.
  destruct (load_feedback_page _ _ _ _ _ db) as [[p|[]] db']; exact Hl.
Qed.

(** [pending.submission] has the id that was looked up, and changes nothing. *)
Lemma pends_in_pending_submission {B} (P : Z -> Prop) i (k : Submission -> M B) :
  (forall s, sub_id s = i -> pends_in P (k s)) -> pends_in P (pending_submission i ≫= k).
Proof.
  intros Hk db j. unfold mbind, M_bind, pending_submission.
  destruct (find_submission i db) as [s|] eqn:E; [|done].
  apply Hk. by eapply find_submission_id.
Qed.

Lemma pends_in_mark_lost (P : Z -> Prop) s : P (sub_id s) -> pends_in P (mark_lost s).
Proof.
  intros Hs. unfold mark_lost. apply pends_in_bind; [pends|]. intros s' (db & db' & E).
  injection E as <- _. apply pends_in_bind; [by apply pends_in_save|]. intros; pends.
Qed.

Lemma pends_in_each {A} P (f : A -> M unit) l :
  (forall x, x ∈ l -> pends_in P (f x)) -> pends_in P (each f l).
Proof.
  induction l as [|x l IH]; intros Hf; cbn; [pends|].
  apply pends_in_bind; [apply Hf; by left|]. intros _ _. apply IH. intros y Hy. apply Hf. by right.
Qed.

(** The retry task keeps its promise if grading only touches the graded submission
    and pending ones. *)
Lemma retry_with_task (grade : BaseExercise -> Submission -> M ExercisePage) :
  (forall exercise s, pends_in (eq (sub_id s)) (grade exercise s)) ->
  RetryTask (retry_with exercise_of choice grade).
Proof.
  intros Hg db j Hj. unfold retry_with. rewrite !bind_reads.
  destruct (negb _).
  - unfold retry_one. rewrite !bind_reads.
    destruct (choice _) as [i|]; [|done]. rewrite !bind_reads.
    destruct (pendings db !! i) as [p|] eqn:Ep; [|done].
    apply (pends_in_pending_submission (eq i)); [|done|congruence]. intros s <-.
    destruct (_ && _); [by apply pends_in_mark_lost|]. cbn. pends.
  - rewrite !bind_reads.
    apply (pends_in_each (fun j => j ∈ (expired db).*1)); [|done|].
    + intros [i p] Hx. cbn. apply pends_in_pending_submission. intros s <-. cbn.
      assert (Hin : sub_id s ∈ (expired db).*1) by (apply list_elem_of_fmap; by exists (sub_id s, p)).
      assert (Hs : pends_in (fun j => j ∈ (expired db).*1) (grade (exercise_of (sub_exercise s)) s)).
      { intros db1 k Hk Hn. apply Hg; [done|]. by intros <-. }
      destruct (_ <? _); [|by apply pends_in_mark_lost].
      apply pends_in_bind; [pends|]. intros [] _; pends.
    + intros Hin. apply list_elem_of_fmap in Hin as ([i p] & -> & Hin). unfold expired in Hin.
      apply list_elem_of_In, filter_In in Hin as [Hin _]. apply list_elem_of_In, elem_of_map_to_list in Hin.
      cbn in Hj. congruence.
Qed.

#[export] Instance out_of_fuel_task : RetryTask (lift (Raise RecursionError)).
Proof. by intros db j Hj. Qed.

Lemma pends_in_grade_rec fuel np exercise s :
  pends_in (eq (sub_id s)) (grade_rec service exercise_of choice fuel np exercise s).
Proof.
  revert np exercise s. induction fuel as [|fuel IH]; intros; cbn; apply pends_in_grade_with.
  - apply _.
  - apply retry_with_task. intros. apply IH.
Qed.

(** The actual retry task implements what the status changes rely on. *)
#[export] Instance retry_submissions_task fuel :
  RetryTask (retry_submissions service exercise_of choice fuel).
Proof. apply retry_with_task. intros. apply pends_in_grade_rec. Qed.

(** ** The recursion of retries is bounded *)

Lemma set_points_raises w exercise s points max np e :
  set_points w exercise s points max np = Raise e -> e = AssertionError.
Proof. rewrite set_points_eq. cbn zeta. repeat break_goal; congruence. Qed.

Lemma set_waiting_eq exercise s db :
  set_waiting exercise s db = (Ret (set_status SubStatus.WAITING s), mark_pending exercise s db).
Proof. reflexivity. Qed.

(** An exception while acting on a page is the assertion on the points, or comes
    from the retry task, called when this submission is no longer pending. *)
Lemma act_on_page_raises retry exercise np page s db e db' :
  act_on_page retry exercise np page s db = (Raise e, db') ->
  e = AssertionError \/
  exists db1, retry db1 = (Raise e, db') /\ is_grader_stable db1 = false /\
              pendings db1 = delete (sub_id s) (pendings db).
Proof.
  unfold act_on_page, mbind, M_bind.
  destruct (is_accepted page); [|destruct (is_rejected page); done]. rewrite set_waiting_eq.
  destruct (page_is_graded page); [|done]. destruct (is_sane page); [|done].
  cbn -[set_points set_ready].
  destruct (set_points _ _ _ _ _ _) as [s1|e1] eqn:Es; [|intros [= <- <-]; left;
    by eapply set_points_raises].
  destruct (set_ready _ _ _ _ _) as [[s2|e2] db2] eqn:Er; [done|]. intros [= <- <-]. right.
  apply set_ready_raises in Er as (db1 & H1 & H2 & H3). exists db1. split; [done|]. split; [done|].
  rewrite H3. assert (Hid : sub_id s1 = sub_id s).
  { rewrite set_points_eq in Es. cbn zeta in Es. repeat break_hyp Es; simplify_eq.
    apply (with_points_fields _ exercise (set_status SubStatus.WAITING
             (set_feedback (clean_content page) s))). }
  rewrite Hid. unfold mark_pending. destruct (bool_decide _); cbn; [|done].
  apply delete_insert_eq.
Qed.

Lemma parse_page_raises page remote e : parse_page_content page remote = Raise e -> e = ValueError.
Proof.
  unfold parse_page_content, rbind.
  destruct (meta_max_points_dash remote) as [[]|], (meta_max_points remote) as [[]|],
    (meta_points remote) as [[]|]; cbn; congruence.
Qed.

Lemma grade_with_recursion retry exercise np s db db' :
  grade_with service retry exercise s np db = (Raise RecursionError, db') ->
  exists db1, retry db1 = (Raise RecursionError, db') /\ is_grader_stable db1 = false /\
              pendings db1 = delete (sub_id s) (pendings db).
Proof.
  unfold grade_with. intros E.
  assert (El : load_feedback_page service retry exercise s np db = (Raise RecursionError, db')).
  { destruct (load_feedback_page _ _ _ _ _ db) as [[p|[]] ?]; simplify_eq; done. }
  clear E. unfold load_feedback_page, mbind, M_bind, reads in El. cbn in El.
  destruct (service s db); try done. unfold lift in El.
  destruct (parse_page_content _ _) as [page|e] eqn:Ep.
  - destruct (act_on_page _ _ _ _ _ _) as [[[? ?]|e] db2] eqn:Ea.
    + by destruct (_ && _) in El.
    + injection El as -> ->. apply act_on_page_raises in Ea as [?|?]; done.
  - injection El as -> ->. by apply parse_page_raises in Ep.
Qed.

Lemma unstable_pending db : is_grader_stable db = false -> pendings db <> ∅.
Proof.
  unfold is_grader_stable, total_retries. intros Hs E. rewrite E, map_to_list_empty in Hs. done.
Qed.

(** The recovery state raises only what grading one pending submission raises. *)
Lemma retry_one_recursion grade db db' :
  retry_one exercise_of choice grade db = (Raise RecursionError, db') ->
  exists s, is_Some (pendings db !! sub_id s) /\
    fst (grade (exercise_of (sub_exercise s)) s db) = Raise RecursionError.
Proof.
  unfold retry_one, mbind, M_bind, reads. cbn. destruct (choice _) as [i|]; [|done].
  destruct (pendings db !! i) as [p|] eqn:Ep; [|done]. unfold pending_submission.
  destruct (find_submission i db) as [s|] eqn:Ef; [|done]. cbn.
  destruct (_ && _); [done|]. cbn. intros E. exists s.
  apply find_submission_id in Ef as ->. split; [by exists p|].
  destruct (grade _ s db) as [[?|?] ?]; [done|]. by injection E as -> ->.
Qed.

Lemma grade_rec_fuel fuel np exercise s db :
  (size (delete (sub_id s) (pendings db)) <= fuel)%nat ->
  fst (grade_rec service exercise_of choice fuel np exercise s db) <> Raise RecursionError.
Proof.
  revert np exercise s db. induction fuel as [|fuel IH]; intros np exercise s db Hf E;
    cbn [grade_rec] in E; destruct (grade_with _ _ _ _ _ db) as [r db'] eqn:Eg; cbn in E; subst r;
    apply grade_with_recursion in Eg as (db1 & Hr & Hu & Hp); rewrite <- Hp in Hf.
  - apply unstable_pending in Hu. apply Hu, map_size_empty_inv. lia.
  - unfold retry_with, mbind, M_bind, reads in Hr. cbn in Hr. rewrite Hu in Hr. cbn in Hr.
    apply retry_one_recursion in Hr as (s' & [p Hs'] & He).
    revert He. apply IH. rewrite map_size_delete_Some by eauto. lia.
Qed.

(** C9. Grading terminates: a successful grading in the recovery state retries
    another pending submission, which may succeed and retry the next; as every
    level takes its submission off the pending table first, the nesting is never
    deeper than the number of other pending submissions, whatever the assessment
    service answers and whichever submissions are drawn. *)
Theorem grading_recursion_bounded np exercise s db fuel :
  (size (delete (sub_id s) (pendings db)) <= fuel)%nat ->
  fst (grade_rec service exercise_of choice fuel np exercise s db) <> Raise RecursionError /\
  fst (retry_one exercise_of choice (grade_rec service exercise_of choice fuel false) db)
    <> Raise RecursionError.
Proof.
  intros Hf. split; [by apply grade_rec_fuel|]. intros E.
  destruct (retry_one _ _ _ _) as [r db'] eqn:Er. cbn in E. subst r.
  apply retry_one_recursion in Er as (s' & [p Hp] & He). revert He. apply grade_rec_fuel.
  rewrite map_size_delete_Some by eauto.
  assert (size (pendings db) <= S (size (delete (sub_id s) (pendings db))))%nat; [|lia].
  destruct (pendings db !! sub_id s) eqn:Es;
    [rewrite map_size_delete_Some by eauto|rewrite delete_id by done]; lia.
Qed.

(** ** What a page of the service does to the submission *)

(** The status an answer leads to. *)
Definition page_status (page : ExercisePage) (st : SubStatus.t) : Prop :=
  if is_accepted page then
    if page_is_graded page then
      if is_sane page then st = SubStatus.READY \/ st = SubStatus.UNOFFICIAL
      else st = SubStatus.ERROR
    else st = SubStatus.WAITING
  else if is_rejected page then st = SubStatus.REJECTED
  else st = SubStatus.ERROR.

Lemma save_rows s i db :
  sub_id s = i -> forall t, t ∈ submissions (save s db) -> sub_id t = i -> t = s.
Proof.
  intros <- t. cbn. intros (u & -> & Hu)%list_elem_of_fmap. destruct (_ =? _) eqn:E; [done|].
  b2p. intros E2. cbn in *. congruence.
Qed.

Lemma act_on_page_returns retry `{!RetryTask retry} exercise np page s db page' s' db' :
  act_on_page retry exercise np page s db = (Ret (page', s'), db') ->
  sub_id s' = sub_id s /\ page_status page (sub_status s') /\
  (forall t, t ∈ submissions db' -> sub_id t = sub_id s -> t = s') /\
  (page_is_graded page = true -> is_accepted page = true -> is_sane page = true ->
   0 <= grade s' <= max_points exercise) /\
  (is_Some (pendings db' !! sub_id s) <->
   sub_status s' = SubStatus.WAITING /\
   (service_host exercise ∈ SUBMISSION_RETRY_SERVICES \/ is_Some (pendings db !! sub_id s))).
Proof.
  unfold act_on_page, page_status, mbind, M_bind.
  assert (Hnone : forall m : gmap Z PendingSubmission, m !! sub_id s = None ->
            forall P : Prop, ~ P -> is_Some (m !! sub_id s) <-> P).
  { intros m ->. intros P HP. split; [by intros [? ?]|done]. }
  destruct (is_accepted page).
  2: { destruct (is_rejected page); intros [= <- <- <-];
       (split; [done|]; split; [done|]; split; [by apply save_rows|]; split; [done|]);
       (apply Hnone; [apply lookup_delete_eq|intros [? _]; done]). }
  rewrite set_waiting_eq. destruct (page_is_graded page).
  2: { intros [= <- <- <-]. split; [done|]. split; [done|]. split; [by apply save_rows|].
       split; [done|]. cbn. unfold mark_pending. cbn.
       destruct (bool_decide _) eqn:Eb; b2p; cbn; [rewrite lookup_insert_eq|]; naive_solver. }
  destruct (is_sane page); cbn -[set_points set_ready save].
  2: { intros [= <- <- <-]. split; [done|]. split; [done|]. split; [by apply save_rows|].
       split; [done|]. apply Hnone; [|intros [? _]; done]. unfold mail_error.
       destruct (visible_to_students _); apply lookup_delete_eq. }
  destruct (set_points _ _ _ _ _ _) as [s1|e1] eqn:Es; [|done].
  destruct (set_ready _ _ _ _ _) as [[s2|e2] db2] eqn:Er; [|done]. intros [= <- <- <-].
  pose proof (set_ready_inv retry _ _ _ _ _ _ Er) as (Hid & Hg & _ & _ & _ & _ & Hst & Hpd).
  assert (Hid1 : sub_id s1 = sub_id s /\ 0 <= grade s1 <= max_points exercise).
  { rewrite set_points_eq in Es. cbn zeta in Es. repeat break_hyp Es; simplify_eq. b2p.
    split; [|done]. apply (with_points_fields _ exercise (set_status SubStatus.WAITING
             (set_feedback (clean_content page) s))). }
  destruct Hid1 as [Hid1 Hgr]. rewrite Hid1 in *. rewrite Hst, Hg, Hid.
  split; [done|]. split; [destruct (_ || _); auto|].
  split; [apply save_rows; by rewrite Hid|]. split; [done|].
  apply Hnone; [done|]. intros [E _]. by destruct (_ || _) in E.
Qed.

(** C10. The answer of the assessment service decides the stored submission:
    graded with acceptable points it is stored as ready or unofficial with a
    grade within the maximum, with points above the given maximum as an error,
    accepted without points as waiting, rejected as rejected, anything else as
    an error.  Only a waiting submission of a service with retries is pending
    afterwards. *)
Theorem feedback_page_outcome retry `{!RetryTask retry} exercise np s db remote page r db' :
  service s db = Answer remote ->
  parse_page_content (empty_page exercise) remote = Ret page ->
  load_feedback_page service retry exercise s np db = (Ret r, db') ->
  exists s', sub_id s' = sub_id s /\
    (forall t, t ∈ submissions db' -> sub_id t = sub_id s -> t = s') /\
    page_status page (sub_status s') /\
    (page_is_graded page = true -> is_accepted page = true -> is_sane page = true ->
     0 <= grade s' <= max_points exercise) /\
    (is_Some (pendings db' !! sub_id s) <->
     sub_status s' = SubStatus.WAITING /\
     (service_host exercise ∈ SUBMISSION_RETRY_SERVICES \/ is_Some (pendings db !! sub_id s))).
Proof.
  intros Hsv Hp. unfold load_feedback_page, mbind at 1, M_bind, reads. rewrite Hsv.
  unfold mbind at 1, M_bind, lift. rewrite Hp. unfold mbind at 1, M_bind.
  destruct (act_on_page _ _ _ _ _ _) as [[[page' s']|e] db1] eqn:Ea; [|done].
  apply act_on_page_returns in Ea as (Hid & Hst & Hrows & Hg & Hpd); [|done].
  intros E. assert (Hdb : submissions db' = submissions db1 /\ pendings db' = pendings db1)
    by (unfold mbind, M_bind in E; destruct (_ && _) in E; by injection E as _ <-).
  destruct Hdb as [Hsub Hpe]. exists s'. rewrite Hsub, Hpe. auto.
Qed.

(** ** Grading callbacks *)

Lemma set_error_eq s db : set_error s db = (Ret (set_status SubStatus.ERROR s), clear_pending s db).
Proof. reflexivity. Qed.

Lemma mail_error_rows exercise db : submissions (mail_error exercise db) = submissions db.
Proof. unfold mail_error. by destruct (visible_to_students _). Qed.

(** What remains after the points and the tags were stored: status, save and
    notifications. *)
Lemma finish_callback retry `{!RetryTask retry} exercise post s1 db1 db' :
  (submission ← (if cb_error post then set_error s1 else set_ready retry exercise false s1);
   modify (save submission);;
   (if bool_decide (cb_notify post = "remove"%string) then modify (notification_remove submission)
    else if bool_decide (cb_notify post = ""%string) then mret tt
    else modify (notification_send submission (cb_regrade_when_seen post)));;
   if truthy_str (lti_launch_id submission)
   then modify (fun db => emit db [LtiPointsSent (sub_id submission)]) else mret tt) db1
  = (Ret tt, db') ->
  exists s', sub_id s' = sub_id s1 /\ grade s' = grade s1 /\ service_points s' = service_points s1 /\
    service_max_points s' = service_max_points s1 /\
    (forall t, t ∈ submissions db' -> sub_id t = sub_id s1 -> t = s') /\
    pendings db' !! sub_id s1 = None /\
    if cb_error post then sub_status s' = SubStatus.ERROR
    else sub_status s' = SubStatus.READY \/ sub_status s' = SubStatus.UNOFFICIAL.
Proof.
  intros E. unfold mbind at 1, M_bind in E.
  assert (Hs : exists s' db2,
    (if cb_error post then set_error s1 else set_ready retry exercise false s1) db1 = (Ret s', db2) /\
    sub_id s' = sub_id s1 /\ grade s' = grade s1 /\ service_points s' = service_points s1 /\
    service_max_points s' = service_max_points s1 /\
    pendings db2 !! sub_id s1 = None /\
    if cb_error post then sub_status s' = SubStatus.ERROR
    else sub_status s' = SubStatus.READY \/ sub_status s' = SubStatus.UNOFFICIAL).
  { destruct (cb_error post).
    - do 2 eexists. split; [apply set_error_eq|]. repeat split; try done. apply lookup_delete_eq.
    - destruct (set_ready _ _ _ _ _) as [[s'|e] db2] eqn:Er; [|done]. exists s', db2.
      apply (set_ready_inv retry) in Er as (? & ? & ? & ? & _ & _ & Hst & ?).
      repeat split; try done. rewrite Hst. destruct (_ || _); auto. }
  destruct Hs as (s' & db2 & Ec & Hid & Hg & Hsp & Hsm & Hpd & Hst). rewrite Ec in E.
  exists s'. do 4 (split; [done|]).
  assert (Hdb : submissions db' = submissions (save s' db2) /\ pendings db' = pendings db2).
  { unfold mbind, M_bind, modify, mret, M_ret in E.
    repeat (destruct (bool_decide _) in E || destruct (truthy_str _) in E); by injection E as <-. }
  destruct Hdb as [-> ->]. split; [by apply save_rows|]. done.
Qed.

(** The maximum in force, for points that are not negative. *)
Lemma effective_max_stated exercise points max :
  0 <= points ->
  effective_max exercise points max = (if bool_decide (max = 0 /\ points <> 0) then max_points exercise else max).
Proof.
  intros Hp. unfold effective_max. case_bool_decide as Hb.
  - by rewrite (proj2 (Z.eqb_eq _ _)), (proj2 (Z.ltb_lt _ _)) by lia.
  - destruct (max =? 0) eqn:E1, (0 <? points) eqn:E2; b2p; cbn; try done. lia.
Qed.

(** C11. A grading callback is answered in every case.  One with malformed points
    leaves the submission as an error.  A successful one had points within the
    stated maximum, or, when that is zero and the points are not, within the
    maximum of the exercise; points and maximum are stored as the service points
    and their maximum, with a grade within the maximum of the exercise, and the
    submission is no longer pending: it is an error if the service says so, else
    ready or unofficial. *)
Theorem callback_outcome retry `{!RetryTask retry} exercise s post db :
  let out := post_async_submission retry exercise s post db in
  (exists ok, fst out = Ret ok) /\
  (callback_clean post = None ->
   fst out = Ret false /\
   forall t, t ∈ submissions (snd out) -> sub_id t = sub_id s -> sub_status t = SubStatus.ERROR) /\
  (fst out = Ret true ->
   exists points max s', callback_clean post = Some (points, Some max) /\
     (forall t, t ∈ submissions (snd out) -> sub_id t = sub_id s -> t = s') /\
     0 <= points <= (if bool_decide (max = 0 /\ points <> 0) then max_points exercise else max) /\
     service_points s' = points /\
     service_max_points s' = (if bool_decide (max = 0 /\ points <> 0) then max_points exercise else max) /\
     0 <= grade s' <= max_points exercise /\
     pendings (snd out) !! sub_id s = None /\
     if cb_error post then sub_status s' = SubStatus.ERROR
     else sub_status s' = SubStatus.READY \/ sub_status s' = SubStatus.UNOFFICIAL).
Proof.
  unfold post_async_submission. destruct (callback_clean post) as [[points max]|].
  2: { unfold mbind, M_bind. cbn -[save mail_error]. split; [by eexists|]. split; [|done]. intros _. split; [done|].
       intros t. rewrite set_error_eq. cbn -[save mail_error]. rewrite mail_error_rows. intros Ht Hid.
       by rewrite (save_rows (set_status SubStatus.ERROR (set_feedback _ s)) (sub_id s) _ eq_refl
                     t Ht Hid). }
  destruct (save_callback _ _ _ _ _ _ _) as [[[]|e] db'] eqn:E; cbn;
    (split; [by eexists|]); (split; [done|]); [|done]. intros _.
  unfold save_callback, mbind at 1, M_bind, reads, mbind at 1, M_bind, lift in E.
  destruct max as [max|]; [|done]. cbn [id] in E.
  destruct (set_points _ _ _ _ _ _) as [s1|] eqn:Es; [|done].
  assert (Hs1 : sub_id s1 = sub_id s /\ 0 <= grade s1 <= max_points exercise /\
                service_points s1 = points /\
                service_max_points s1 = effective_max exercise points max /\
                0 <= points <= effective_max exercise points max).
  { pose proof (set_points_id _ _ _ _ _ _ _ Es) as Hi. split; [done|].
    rewrite set_points_eq in Es. cbn zeta in Es. repeat break_hyp Es; simplify_eq. b2p.
    split; [done|]. split; [apply with_points_fields|]. split; [apply with_points_fields|done]. }
  destruct Hs1 as (Hid & Hg & Hsp & Hsm & Hpt). unfold mbind at 1, M_bind in E.
  rewrite (effective_max_stated exercise points max) in Hsm, Hpt by lia.
  set (db1 := match cb_grading_data post with
              | Tags slugs => foldl (add_tag exercise (set_feedback (cb_feedback post) s1)) db
                                (split "," slugs)
              | _ => db
              end).
  set (s2 := if _ && _ then _ else _) in E.
  assert (Hs2 : sub_id s2 = sub_id s1 /\ grade s2 = grade s1 /\ service_points s2 = service_points s1 /\
                service_max_points s2 = service_max_points s1)
    by (unfold s2; destruct (_ && _); done).
  destruct (cb_grading_data post); [| |done];
    (apply finish_callback in E as (s' & H1 & H2 & H3 & H4 & H5 & H6 & H7); [|done]);
    exists points, max, s'; destruct Hs2 as (Hi2 & Hg2 & Hp2 & Hm2);
    rewrite Hi2, Hid in *; rewrite Hg2 in *; rewrite Hp2 in *; rewrite Hm2 in *;
    (split; [done|]); (split; [done|]); rewrite H2, H3, H4, Hsm; auto 10.
Qed.

End GradingTheory.

(** ** Two callbacks that the checks miss *)

(** The form does not require the maximum, but the grading then compares the
    points with [None]: a callback without [max_points] always fails and changes
    nothing. *)
Lemma callback_without_max_points `{Settings} retry exercise s post points db :
  cb_points post = Some (Some points) -> 0 <= points -> cb_max_points post = None ->
  callback_clean post <> None /\
  post_async_submission retry exercise s post db = (Ret false, db).
Proof.
  intros E Hp Em. unfold post_async_submission, callback_clean. rewrite E, Em.
  rewrite (proj2 (Z.ltb_ge _ _)) by done. done.
Qed.

Definition example_page (points : Z) : RemotePage :=
  mkRemotePage None (Some (Some 20)) (Some "accepted"%string) false (Some (Some points)) "feedback".

(** [is_sane] only compares with the maximum: negative points pass it, and the
    assertion of [set_points] escapes from the grading, with the submission left
    pending. *)
Lemma negative_points_escape retry np :
  let s := example_late_submission in
  let ex := mkExercise (lobj (example_exercise 1 2)) true false 1 1 2 10 5 "" None None
              GradingMode.BEST false "grader:8080" in
  let out := grade_with (fun _ _ => Answer (example_page (-1))) retry ex s np example_db in
  fst out = Raise AssertionError /\ is_Some (pendings (snd out) !! sub_id s).
Proof. vm_compute. eauto. Qed.

(** ** Witnesses *)

(** A service that grades every submission with 15 of 20 points. *)
Definition example_service (s : Submission) (db : Db) : Reply := Answer (example_page 15).

(** A database in the recovery state: three submissions wait for a retry. *)
Definition recovering_db : Db :=
  mkDb (example_world (example_late_submission ::
          ((fun i => example_submission i SubStatus.WAITING [example_student i]) <$> [8; 9; 10])))
    {[ 8 := mkPending (Some 0) 2; 9 := mkPending (Some 0) 2; 10 := mkPending (Some 0) 2 ]}
    [] [] [] [] [].

(** Grading one submission grades a pending one, too, after which the grader
    counts as stable again. *)
Lemma grading_recursion_bounded_witness :
  let out := grade_rec example_service (fun _ => example_exercise 1 2) head 3 false (example_exercise 1 2)
               example_late_submission recovering_db in
  fst out <> Raise RecursionError /\
  sub_status <$> submissions (snd out)
    = [SubStatus.READY; SubStatus.WAITING; SubStatus.READY; SubStatus.WAITING] /\
  size (pendings (snd out)) = 2%nat.
Proof.
  split; [|split; vm_compute; reflexivity].
  apply (grading_recursion_bounded example_service (fun _ => example_exercise 1 2) head false
           (example_exercise 1 2) example_late_submission recovering_db 3).
  vm_compute. lia.
Defined.

Lemma feedback_page_outcome_witness :
  exists r db', load_feedback_page example_service no_retry (example_exercise 1 2)
                  example_late_submission false example_db = (Ret r, db') /\
    forall t, t ∈ submissions db' -> sub_id t = 7 ->
      sub_status t = SubStatus.READY \/ sub_status t = SubStatus.UNOFFICIAL.
Proof.
  destruct (load_feedback_page example_service no_retry (example_exercise 1 2)
              example_late_submission false example_db) as [[r|e] db'] eqn:E;
    [|vm_compute in E; discriminate].
  exists r, db'. split; [reflexivity|]. intros t Ht Hid.
  destruct (feedback_page_outcome example_service no_retry (example_exercise 1 2) false
    example_late_submission example_db (example_page 15)
    (mkPage true true true false false 15 20 "feedback" []) r db')
    as (s' & _ & Hrows & Hst & _).
  - reflexivity.
  - vm_compute. reflexivity.
  - exact E.
  - rewrite (Hrows t Ht Hid). exact Hst.
Defined.

Definition example_callback : CallbackPost :=
  mkCallback (Some (Some 15)) (Some (Some 20)) "ok" "" false "" false (Tags "good, done").

Lemma callback_outcome_witness :
  exists s', (forall t, t ∈ submissions (snd (post_async_submission no_retry (example_exercise 1 2)
                example_late_submission example_callback example_db)) -> sub_id t = 7 -> t = s') /\
             service_points s' = 15.
Proof.
  destruct (callback_outcome no_retry (example_exercise 1 2) example_late_submission
              example_callback example_db) as (_ & _ & Hok).
  destruct Hok as (points & max & s' & Hc & Hrows & _ & Hsp & _); [vm_compute; reflexivity|].
  exists s'. split; [exact Hrows|]. vm_compute in Hc. injection Hc as <- _. exact Hsp.
Defined.
