(* ===== verification/Entries.v ===== *)
(** * The cached course content

    [exercise/cache/basetypes.py]: the rows a content request loads, indexed by
    module, parent and instance, and the entries and totals generated from them.
    Proxies between cache entries are left to the cache itself; an entry is the
    record of what its [_generate_data] stores. *)

From Stdlib Require Import QArith.
From S2P Require Import Prelude Binary64 Helpers Course Reveal Models.
#[local] Open Scope Z_scope.

(** ** Rows *)

(** A learning object row of a leaf class: a submittable exercise or a chapter. *)
Inductive ContentRow :=
| ExerciseRow (e : BaseExercise)
| ChapterRow (o : LearningObject).

Definition row_lobj (r : ContentRow) : LearningObject :=
  match r with ExerciseRow e => lobj e | ChapterRow o => o end.
Definition row_id (r : ContentRow) : Z := lobj_id (row_lobj r).
Definition row_module (r : ContentRow) : Z := module_id (course_module (row_lobj r)).
Definition row_parent (r : ContentRow) : option Z := lobj_parent (row_lobj r).
Definition row_category (r : ContentRow) : LearningObjectCategory := category (row_lobj r).

(** The database tables, each in its default order. *)
Record ContentTables := mkTables {
  t_instances : list CourseInstance;
  t_modules : list CourseModule;
  t_rows : list ContentRow;
}.

(** ** The prefetched rows *)

(** src/exercise/cache/basetypes.py: ContentDBData lines 49-74 *)
Record ContentDBData := mkContentDB {
  exercises : gmap Z ContentRow;
  needed_exercises : gset Z;
  modules : gmap Z CourseModule;
  needed_modules : gset Z;
  instances : gmap Z CourseInstance;
  needed_instances : gset Z;
  exercise_children : gmap Z (list ContentRow);
  module_children : gmap Z (list ContentRow);
  module_exercises : gmap Z (list ContentRow);
  instance_modules : gmap Z (list CourseModule);
}.

Definition empty_content_db : ContentDBData := mkContentDB ∅ ∅ ∅ ∅ ∅ ∅ ∅ ∅ ∅ ∅.

(** The cache entries that ask for rows. *)
Inductive ContentProxy :=
| InstanceProxy (i : Z)
| ModuleProxy (i : Z)
| ExerciseProxy (i : Z).

(** src/exercise/cache/basetypes.py: ContentDBData.add *)
Definition content_add (p : ContentProxy) (d : ContentDBData) : ContentDBData :=
  match p with
  | InstanceProxy i =>
      if bool_decide (is_Some (instances d !! i)) then d
      else mkContentDB (exercises d) (needed_exercises d) (modules d) (needed_modules d)
             (instances d) ({[i]} ∪ needed_instances d) (exercise_children d) (module_children d)
             (module_exercises d) (instance_modules d)
  | ModuleProxy i =>
      if bool_decide (is_Some (modules d !! i)) then d
      else mkContentDB (exercises d) (needed_exercises d) (modules d) ({[i]} ∪ needed_modules d)
             (instances d) (needed_instances d) (exercise_children d) (module_children d)
             (module_exercises d) (instance_modules d)
  | ExerciseProxy i =>
      if bool_decide (is_Some (exercises d !! i)) then d
      else mkContentDB (exercises d) ({[i]} ∪ needed_exercises d) (modules d) (needed_modules d)
             (instances d) (needed_instances d) (exercise_children d) (module_children d)
             (module_exercises d) (instance_modules d)
  end.

(** [d.setdefault(k, []).append(x)] *)
Definition append_at {A} (k : Z) (x : A) (m : gmap Z (list A)) : gmap Z (list A) :=
  <[ k := default [] (m !! k) ++ [x] ]> m.

(** A loop of such appends, under the key [key x] where there is one. *)
Definition append_all {A} (key : A -> option Z) (l : list A) (m : gmap Z (list A))
    : gmap Z (list A) :=
  foldl (fun m x => match key x with Some k => append_at k x m | None => m end) m l.

(** [d.update((key(x), x) for x in l)] *)
Definition update_all {A} (key : A -> Z) (l : list A) (m : gmap Z A) : gmap Z A :=
  foldl (fun m x => <[ key x := x ]> m) m l.

(** src/exercise/cache/basetypes.py: ContentDBData._load_modules_qs *)
Definition load_modules_qs (t : ContentTables) (new_modules : list CourseModule)
    (d : ContentDBData) : ContentDBData :=
  let ids : list Z := module_id <$> new_modules in
  let new_exercises := filter (fun r => row_module r ∈ ids) (t_rows t) in
  mkContentDB
    (update_all row_id new_exercises (exercises d))
    (needed_exercises d ∖ list_to_set (row_id <$> new_exercises))
    (update_all module_id new_modules (modules d))
    (needed_modules d)
    (instances d)
    (needed_instances d)
    (append_all row_parent new_exercises (exercise_children d))
    (append_all (fun r => match row_parent r with None => Some (row_module r) | Some _ => None end)
       new_exercises (module_children d))
    (append_all (fun r => Some (row_module r)) new_exercises (module_exercises d))
    (append_all (fun m => Some (instance_id (module_instance m))) new_modules (instance_modules d)).

(** src/exercise/cache/basetypes.py: ContentDBData._load_modules *)
Definition load_modules (t : ContentTables) (ids : list Z) (d : ContentDBData) : ContentDBData :=
  load_modules_qs t (filter (fun m => module_id m ∈ ids) (t_modules t)) d.

Definition with_needed (exs mods insts : gset Z) (d : ContentDBData) : ContentDBData :=
  mkContentDB (exercises d) exs (modules d) mods (instances d) insts (exercise_children d)
    (module_children d) (module_exercises d) (instance_modules d).

(** src/exercise/cache/basetypes.py: ContentDBData.fetch lines 136-145 *)
Definition fetch_instances (t : ContentTables) (d : ContentDBData) : ContentDBData :=
  if bool_decide (needed_instances d = ∅) then d
  else
    let new_instances := filter (fun i => instance_id i ∈ needed_instances d) (t_instances t) in
    let d := mkContentDB (exercises d) (needed_exercises d) (modules d) (needed_modules d)
               (update_all instance_id new_instances (instances d)) (needed_instances d)
               (exercise_children d) (module_children d) (module_exercises d)
               (instance_modules d) in
    let new_modules := filter (fun m => instance_id (module_instance m)
                                        ∈ (instance_id <$> new_instances)) (t_modules t) in
    let d := load_modules_qs t new_modules d in
    with_needed (needed_exercises d)
      (needed_modules d ∖ list_to_set (module_id <$> new_modules)) ∅ d.

(** src/exercise/cache/basetypes.py: ContentDBData.fetch lines 147-149 *)
Definition fetch_modules (t : ContentTables) (d : ContentDBData) : ContentDBData :=
  if bool_decide (needed_modules d = ∅) then d
  else
    let d := load_modules t (elements (needed_modules d)) d in
    with_needed (needed_exercises d) ∅ (needed_instances d) d.

(** src/exercise/cache/basetypes.py: ContentDBData.fetch lines 151-155 *)
Definition fetch_exercises (t : ContentTables) (d : ContentDBData) : ContentDBData :=
  if bool_decide (needed_exercises d = ∅) then d
  else
    let new_exercises := filter (fun r => row_id r ∈ needed_exercises d) (t_rows t) in
    let d := load_modules t
               (filter (fun i => modules d !! i = None) (row_module <$> new_exercises)) d in
    with_needed ∅ (needed_modules d) (needed_instances d) d.

(** src/exercise/cache/basetypes.py: ContentDBData.fetch *)
Definition content_fetch (t : ContentTables) (d : ContentDBData) : ContentDBData :=
  fetch_exercises t (fetch_modules t (fetch_instances t d)).

(** src/exercise/cache/basetypes.py: ContentDBData.get_exercise *)
Definition get_exercise (d : ContentDBData) (i : Z) : result ContentRow :=
  match exercises d !! i with Some r => Ret r | None => Raise DoesNotExist end.

(** src/exercise/cache/basetypes.py: ContentDBData.get_module *)
Definition get_module (d : ContentDBData) (i : Z) : result CourseModule :=
  match modules d !! i with Some m => Ret m | None => Raise DoesNotExist end.

(** src/exercise/cache/basetypes.py: ContentDBData.get_instance *)
Definition get_instance (d : ContentDBData) (i : Z) : result CourseInstance :=
  match instances d !! i with Some m => Ret m | None => Raise DoesNotExist end.

(** src/exercise/cache/basetypes.py: ContentDBData.get_exercise_children *)
Definition get_exercise_children (d : ContentDBData) (i : Z) : list ContentRow :=
  default [] (exercise_children d !! i).
(** src/exercise/cache/basetypes.py: ContentDBData.get_module_children *)
Definition get_module_children (d : ContentDBData) (i : Z) : list ContentRow :=
  default [] (module_children d !! i).
(** src/exercise/cache/basetypes.py: ContentDBData.get_module_exercises *)
Definition get_module_exercises (d : ContentDBData) (i : Z) : list ContentRow :=
  default [] (module_exercises d !! i).
(** src/exercise/cache/basetypes.py: ContentDBData.get_instance_modules *)
Definition get_instance_modules (d : ContentDBData) (i : Z) : list CourseModule :=
  default [] (instance_modules d !! i).
(** src/exercise/cache/basetypes.py: ContentDBData.get_instance_exercises *)
Definition get_instance_exercises (d : ContentDBData) (i : Z) : list ContentRow :=
  get_instance_modules d i ≫= fun m => get_module_exercises d (module_id m).

(** ** Entries *)

(** src/exercise/cache/basetypes.py: LearningObjectEntryBase lines 185-239 *)
Record EntryInfo := mkEntry {
  e_id : Z;
  e_parent : option Z;
  e_category_id : Z;
  e_category_status : CategoryStatus.t;
  e_confirm_the_level : bool;
  e_module_id : Z;
  e_module_status : ModuleStatus.t;
  e_status : LObjStatus.t;
  e_order : Z;
  e_name : string;
  e_hierarchical_name : string;
  e_number : string;
  e_opening_time : datetime;
  e_reading_opening_time : option datetime;
  e_closing_time : datetime;
  e_late_allowed : bool;
  e_late_time : datetime;
  e_late_percent : Z;
  e_children : list Z;
  e_submittable : bool;
  e_points_to_pass : Z;
  e_difficulty : string;
  e_max_submissions : Z;
  e_max_points : Z;
  e_allow_assistant_viewing : bool;
  e_grading_mode : option GradingMode.t;
}.

(** src/exercise/cache/basetypes.py: LearningObjectEntryBase._generate_data *)
Definition entry_generate (objs : LObjDB) (fuel : nat) (d : ContentDBData) (i : Z)
    : result EntryInfo :=
  let! row := get_exercise d i in
  let o := row_lobj row in
  let! module := get_module d (row_module row) in
  let! name := build_full_name objs fuel o None None in
  let! hierarchical := hierarchical_name objs fuel o in
  let! num := number objs fuel o in
  let mk := mkEntry (lobj_id o) (lobj_parent o) (category_id (category o))
    (category_status (category o)) (confirm_the_level (category o)) (module_id module)
    (module_status module) (lobj_status o) (lobj_order o) name hierarchical
    (str_of_Z (module_order module) +:+ "." +:+ num) (opening_time module)
    (reading_opening_time module) (closing_time module) (late_submissions_allowed module)
    (late_submission_deadline module) (get_late_submission_point_worth module)
    (row_id <$> get_exercise_children d i) in
  match row with
  | ExerciseRow e =>
      Ret (mk true (points_to_pass e) (difficulty e) (max_submissions e) (max_points e)
             (allow_assistant_viewing e) (Some (grading_mode e)))
  | ChapterRow _ => Ret (mk false 0 ""%string 0 0 false None)
  end.

(** The entry's [is_visible], on the cached statuses. *)
Definition entry_is_visible (e : EntryInfo) : bool :=
  is_visible (e_category_status e) (e_module_status e) (e_status e).

(** ** Totals *)

(** src/exercise/cache/basetypes.py: add_by_difficulty *)
Definition add_by_difficulty (to : gmap string Z) (difficulty : string) (points : Z)
    : gmap string Z :=
  match to !! difficulty with
  | Some old => <[ difficulty := old + points ]> to
  | None => <[ difficulty := points ]> to
  end.

(** The counters shared by module, category and course totals. *)
Record MaxTotals := mkMax {
  exercise_count : Z;
  total_max_points : Z;
  max_points_by_difficulty : gmap string Z;
}.

Definition no_totals : MaxTotals := mkMax 0 0 ∅.

(** src/exercise/cache/basetypes.py: _add_to *)
Definition max_add_to (target : MaxTotals) (exercise : BaseExercise) : MaxTotals :=
  mkMax (exercise_count target + 1) (total_max_points target + max_points exercise)
    (add_by_difficulty (max_points_by_difficulty target) (difficulty exercise) (max_points exercise)).

Definition exercise_visible (e : BaseExercise) : bool :=
  is_visible (category_status (category e)) (module_status (course_module e)) (lobj_status e).

(** The exercises that count: submittable, visible and not confirming a level. *)
Definition counted_exercise (r : ContentRow) : option BaseExercise :=
  match r with
  | ExerciseRow e =>
      if negb (confirm_the_level (category e)) && exercise_visible e then Some e else None
  | ChapterRow _ => None
  end.

(** src/exercise/cache/basetypes.py: ModuleEntryBase._generate_data lines 422-434 *)
Definition module_totals (d : ContentDBData) (module : Z) : MaxTotals :=
  foldl (fun t r => match counted_exercise r with Some e => max_add_to t e | None => t end)
    no_totals (get_module_exercises d module).

(** src/exercise/cache/basetypes.py: CategoryEntryBase lines 437-447 *)
Record CategoryEntry := mkCategoryEntry {
  cat_status : CategoryStatus.t;
  cat_name : string;
  cat_points_to_pass : Z;
  cat_totals : MaxTotals;
}.

(** src/exercise/cache/basetypes.py: TotalsBase *)
Record TotalsBase := mkTotals {
  max_totals : MaxTotals;
  total_min_group_size : Z;
  total_max_group_size : Z;
}.

(** One turn of the loop that creates the categories. *)
Definition add_category (cats : gmap Z CategoryEntry) (r : ContentRow) : gmap Z CategoryEntry :=
  let c := row_category r in
  match cats !! category_id c with
  | Some _ => cats
  | None =>
      <[ category_id c := mkCategoryEntry (category_status c) (category_name c)
                            (category_points_to_pass c) no_totals ]> cats
  end.

(** One turn of the loop that adds up the submittable exercises. *)
Definition add_exercise (acc : gmap Z CategoryEntry * TotalsBase) (r : ContentRow)
    : gmap Z CategoryEntry * TotalsBase :=
  let (cats, total) := acc in
  match counted_exercise r with
  | Some e =>
      (alter (fun c => mkCategoryEntry (cat_status c) (cat_name c) (cat_points_to_pass c)
                         (max_add_to (cat_totals c) e)) (category_id (category e)) cats,
       mkTotals (max_add_to (max_totals total) e)
         (if (1 <? max_group_size e) && (min_group_size e <? total_min_group_size total)
          then min_group_size e else total_min_group_size total)
         (Z.max (total_max_group_size total) (max_group_size e)))
  | None => acc
  end.

(** src/exercise/cache/basetypes.py: CachedDataBase._generate_data lines 527-587.
    The categories and the total of a course instance. *)
Definition instance_totals (d : ContentDBData) (instance : Z)
    : gmap Z CategoryEntry * TotalsBase :=
  let lobjs := get_instance_exercises d instance in
  let cats := foldl add_category ∅ lobjs in
  let (cats, total) := foldl add_exercise (cats, mkTotals no_totals 100000 1) lobjs in
  (cats,
   if total_max_group_size total <? total_min_group_size total
   then mkTotals (max_totals total) 1 (total_max_group_size total) else total).

(** ** The index holds what the tables hold *)

Lemma append_all_lookup {A} (key : A -> option Z) (l : list A) (m : gmap Z (list A)) k :
  default [] (append_all key l m !! k)
  = default [] (m !! k) ++ filter (fun x => key x = Some k) l.
Proof.
  unfold append_all. revert m. induction l as [|x l IH]; intros m; cbn [foldl].
  - by rewrite app_nil_r.
  - rewrite IH, filter_cons. destruct (key x) as [k'|] eqn:E.
    + unfold append_at. destruct (decide (Some k' = Some k)) as [[= ->]|Hne].
      * rewrite lookup_insert_eq. cbn. by rewrite <- app_assoc.
      * by rewrite lookup_insert_ne by congruence.
    + by rewrite decide_False by done.
Qed.

Lemma update_all_notin {A} (key : A -> Z) (l : list A) m k :
  (forall x, x ∈ l -> key x <> k) -> update_all key l m !! k = m !! k.
Proof.
  unfold update_all. revert m. induction l as [|x l IH]; intros m Hn; cbn; [done|].
  rewrite IH by (intros y Hy; apply Hn; by right).
  apply lookup_insert_ne, Hn. by left.
Qed.

Lemma update_all_lookup {A} (key : A -> Z) (l : list A) m x :
  NoDup (key <$> l) -> x ∈ l -> update_all key l m !! key x = Some x.
Proof.
  revert m. induction l as [|y l IH]; intros m Hnd Hx; [by apply not_elem_of_nil in Hx|].
  apply NoDup_cons in Hnd as [Hy Hnd]. apply elem_of_cons in Hx as [->|Hx]; cbn.
  - change (update_all key l (<[key y := y]> m) !! key y = Some y).
    rewrite update_all_notin; [apply lookup_insert_eq|].
    intros z Hz E. apply Hy. rewrite <- E. apply list_elem_of_fmap. eauto.
  - by apply (IH (<[key y := y]> m)).
Qed.

(** The rows of a module list are those of the table. *)
Lemma filter_rows_module t ids i :
  i ∈ ids ->
  filter (fun r => row_module r = i) (filter (fun r => row_module r ∈ (ids : list Z)) (t_rows t))
  = filter (fun r => row_module r = i) (t_rows t).
Proof.
  intros Hi. rewrite list_filter_filter. apply list_filter_iff. intros r. split; [tauto|].
  intros <-. auto.
Qed.

(** The modules of the instance, and the rows of these modules. *)
Definition instance_module_rows (t : ContentTables) (i : Z) : list CourseModule :=
  filter (fun m => instance_id (module_instance m) = i) (t_modules t).
Definition instance_rows (t : ContentTables) (i : Z) : list ContentRow :=
  filter (fun r => row_module r ∈ (module_id <$> instance_module_rows t i)) (t_rows t).

(** The data after loading one instance into an empty store. *)
Lemma fetch_instance_eq t i :
  i ∈ (instance_id <$> t_instances t) ->
  let d := content_fetch t (content_add (InstanceProxy i) empty_content_db) in
  exercises d = update_all row_id (instance_rows t i) ∅ /\
  module_exercises d = append_all (fun r => Some (row_module r)) (instance_rows t i) ∅ /\
  module_children d = append_all (fun r => match row_parent r with
                                           | None => Some (row_module r)
                                           | Some _ => None
                                           end) (instance_rows t i) ∅ /\
  exercise_children d = append_all row_parent (instance_rows t i) ∅ /\
  instance_modules d = append_all (fun m => Some (instance_id (module_instance m)))
                         (instance_module_rows t i) ∅.
Proof.
  intros Hi. unfold content_add. cbn [empty_content_db instances].
  rewrite lookup_empty, bool_decide_false by (by intros [? ?]). cbn.
  set (d0 := mkContentDB _ _ _ _ _ _ _ _ _ _).
  assert (E1 : forall X : gset Z, (∅ ∖ X : gset Z) = ∅) by (intros; set_solver).
  assert (Hne : {[i]} ∪ ∅ <> (∅ : gset Z)) by set_solver.
  assert (Ed : content_fetch t d0 = fetch_instances t d0).
  { unfold content_fetch. set (d1 := fetch_instances t d0).
    assert (Hd : needed_modules d1 = ∅ /\ needed_exercises d1 = ∅).
    { unfold d1, fetch_instances. cbn [needed_instances d0]. rewrite (bool_decide_false _ Hne).
      cbn -[filter]. by rewrite !E1. }
    destruct Hd as [H1 H2]. unfold fetch_modules. rewrite (bool_decide_true _ H1).
    unfold fetch_exercises. by rewrite (bool_decide_true _ H2). }
  rewrite Ed. unfold fetch_instances. cbn [needed_instances d0].
  rewrite (bool_decide_false _ Hne). cbn -[update_all append_all filter].
  assert (Em : filter (fun m => instance_id (module_instance m) ∈
                 (instance_id <$> filter (fun x => instance_id x ∈ ({[i]} ∪ ∅ : gset Z)) (t_instances t)))
                 (t_modules t) = instance_module_rows t i).
  { apply list_filter_iff. intros m. rewrite list_elem_of_fmap.
    setoid_rewrite list_elem_of_filter. split.
    - intros (x & -> & Hx & _). set_solver.
    - intros E. apply list_elem_of_fmap in Hi as (x & Hx & Hin). exists x. set_solver. }
  rewrite Em. auto.
Qed.

(** Loading a course instance into an empty store indexes exactly the rows of
    its modules: each module's exercises and top-level children and each
    object's children come out in table order, none missing or repeated, and
    each row is found by its id. *)
Theorem fetched_instance_index t i :
  i ∈ (instance_id <$> t_instances t) -> NoDup (row_id <$> t_rows t) ->
  let d := content_fetch t (content_add (InstanceProxy i) empty_content_db) in
  get_instance_modules d i = instance_module_rows t i /\
  (forall m, m ∈ instance_module_rows t i ->
     get_module_exercises d (module_id m)
       = filter (fun r => row_module r = module_id m) (t_rows t) /\
     get_module_children d (module_id m)
       = filter (fun r => row_module r = module_id m /\ row_parent r = None) (t_rows t)) /\
  (forall p, get_exercise_children d p
       = filter (fun r => row_parent r = Some p) (instance_rows t i)) /\
  (forall r, r ∈ instance_rows t i -> get_exercise d (row_id r) = Ret r).
Proof.
  intros Hi Hnd d. destruct (fetch_instance_eq t i Hi) as (He & Hme & Hmc & Hec & Him).
  fold d in He, Hme, Hmc, Hec, Him. repeat split.
  - unfold get_instance_modules. rewrite Him, append_all_lookup, lookup_empty. cbn.
    unfold instance_module_rows. rewrite list_filter_filter. apply list_filter_iff.
    intros m. split; [by intros [_ ?]|]. intros ->. done.
  - unfold get_module_exercises. rewrite Hme, append_all_lookup, lookup_empty. cbn.
    rewrite <- (filter_rows_module t (module_id <$> instance_module_rows t i))
      by (apply list_elem_of_fmap; eauto).
    apply list_filter_iff. intros r. split; congruence.
  - unfold get_module_children. rewrite Hmc, append_all_lookup, lookup_empty. cbn.
    unfold instance_rows. rewrite list_filter_filter. apply list_filter_iff. intros r. split.
    + intros [E _]. destruct (row_parent r); [done|]. by injection E as ->.
    + intros [E ->]. rewrite E. split; [done|]. apply list_elem_of_fmap. eauto.
  - intros p. unfold get_exercise_children. rewrite Hec, append_all_lookup, lookup_empty. done.
  - intros r Hr. unfold get_exercise. rewrite He, update_all_lookup; [done| |done].
    eapply sublist_NoDup; [exact Hnd|]. apply fmap_sublist, sublist_filter.
Qed.

(** ** Totals add up *)

Definition values (m : gmap string Z) : list Z := (map_to_list m).*2.

Lemma sumZ_values_insert_new m k v :
  m !! k = None -> sumZ (values (<[k := v]> m)) = sumZ (values m) + v.
Proof.
  intros Hk. unfold values. rewrite (map_to_list_insert m k v Hk). cbn. unfold sumZ. cbn. lia.
Qed.

(** The points of the difficulties add up to the points added. *)
Lemma add_by_difficulty_sum m k v :
  sumZ (values (add_by_difficulty m k v)) = sumZ (values m) + v.
Proof.
  unfold add_by_difficulty. destruct (m !! k) as [old|] eqn:E.
  - rewrite <- (insert_delete_id m k old E) at 2.
    rewrite <- (insert_delete_eq m k (old + v)).
    rewrite !sumZ_values_insert_new by apply lookup_delete_eq. lia.
  - by apply sumZ_values_insert_new.
Qed.

(** The exercises of a list of rows that count, and their points. *)
Definition counted_exercises (rows : list ContentRow) : list BaseExercise :=
  omap counted_exercise rows.
Definition counted_points (rows : list ContentRow) : Z :=
  sumZ (max_points <$> counted_exercises rows).

Lemma counted_points_cons r rows :
  counted_points (r :: rows) =
  match counted_exercise r with Some e => max_points e | None => 0 end + counted_points rows.
Proof. unfold counted_points, counted_exercises. cbn. destruct (counted_exercise r); cbn; done. Qed.

Definition totals_ok (rows : list ContentRow) (t : MaxTotals) : Prop :=
  exercise_count t = Z.of_nat (length (counted_exercises rows)) /\
  total_max_points t = counted_points rows /\
  sumZ (values (max_points_by_difficulty t)) = counted_points rows.

(** Adding the rows of a list to a total. *)
Lemma add_rows_totals rows t0 :
  let t := foldl (fun t r => match counted_exercise r with Some e => max_add_to t e | None => t end)
             t0 rows in
  exercise_count t = exercise_count t0 + Z.of_nat (length (counted_exercises rows)) /\
  total_max_points t = total_max_points t0 + counted_points rows /\
  sumZ (values (max_points_by_difficulty t))
    = sumZ (values (max_points_by_difficulty t0)) + counted_points rows.
Proof.
  revert t0. induction rows as [|r rows IH]; intros t0; cbn -[counted_points].
  - change (counted_points []) with 0. lia.
  - rewrite counted_points_cons. unfold counted_exercises in *. cbn.
    destruct (counted_exercise r) as [e|]; [|apply IH].
    destruct (IH (max_add_to t0 e)) as (H1 & H2 & H3). rewrite H1, H2, H3. cbn -[counted_points].
    rewrite add_by_difficulty_sum. lia.
Qed.

Lemma module_totals_ok d m : totals_ok (get_module_exercises d m) (module_totals d m).
Proof.
  unfold totals_ok, module_totals. pose proof (add_rows_totals (get_module_exercises d m) no_totals) as H.
  cbn -[counted_points] in *. change (sumZ (values ∅)) with 0 in H. lia.
Qed.

Lemma counted_points_app l1 l2 : counted_points (l1 ++ l2) = counted_points l1 + counted_points l2.
Proof.
  unfold counted_points, counted_exercises. rewrite omap_app, fmap_app, sumZ_app. done.
Qed.

Lemma counted_points_bind {A} (f : A -> list ContentRow) l :
  counted_points (l ≫= f) = sumZ ((fun a => counted_points (f a)) <$> l).
Proof.
  induction l as [|a l IH]; [done|]. cbn -[counted_points]. by rewrite counted_points_app, IH.
Qed.

(** The course total is the same fold, whatever happens to the categories. *)
Lemma add_exercises_total rows cats total :
  max_totals (snd (foldl add_exercise (cats, total) rows)) =
  foldl (fun t r => match counted_exercise r with Some e => max_add_to t e | None => t end)
    (max_totals total) rows.
Proof.
  revert cats total. induction rows as [|r rows IH]; intros cats total; cbn; [done|].
  destruct (counted_exercise r) as [e|]; apply IH.
Qed.

(** The sum of the categories' points. *)
Definition categories_points (cats : gmap Z CategoryEntry) : Z :=
  sumZ ((fun '(_, c) => total_max_points (cat_totals c)) <$> map_to_list cats).

Lemma categories_points_insert_new cats k c :
  cats !! k = None ->
  categories_points (<[k := c]> cats) = categories_points cats + total_max_points (cat_totals c).
Proof.
  intros Hk. unfold categories_points. rewrite (map_to_list_insert cats k c Hk). cbn.
  unfold sumZ. cbn. lia.
Qed.

Lemma categories_points_alter cats k f n :
  (forall c, total_max_points (cat_totals (f c)) = total_max_points (cat_totals c) + n) ->
  is_Some (cats !! k) ->
  categories_points (alter f k cats) = categories_points cats + n.
Proof.
  intros Hf [c Hc].
  assert (E : alter f k cats = <[k := f c]> (delete k cats)).
  { apply map_eq. intros j. destruct (decide (j = k)) as [->|Hne].
    - by rewrite lookup_alter_eq, Hc, lookup_insert_eq.
    - by rewrite lookup_alter_ne, lookup_insert_ne, lookup_delete_ne by done. }
  rewrite E, categories_points_insert_new by apply lookup_delete_eq. rewrite Hf.
  rewrite <- (insert_delete_id cats k c Hc) at 2.
  rewrite categories_points_insert_new by apply lookup_delete_eq. lia.
Qed.

Lemma add_categories_spec rows cats :
  categories_points (foldl add_category cats rows) = categories_points cats /\
  (forall k, is_Some (cats !! k) -> is_Some (foldl add_category cats rows !! k)) /\
  (forall r, r ∈ rows -> is_Some (foldl add_category cats rows !! category_id (row_category r))).
Proof.
  revert cats. induction rows as [|r rows IH]; intros cats; cbn.
  { split; [done|]. split; [done|]. intros r Hr. by apply not_elem_of_nil in Hr. }
  destruct (IH (add_category cats r)) as (H1 & H2 & H3).
  assert (Hr : is_Some (add_category cats r !! category_id (row_category r))).
  { unfold add_category. destruct (cats !! _) eqn:E; [by rewrite E|]. rewrite lookup_insert_eq. eauto. }
  assert (Hk : forall k, is_Some (cats !! k) -> is_Some (add_category cats r !! k)).
  { intros k Hs. unfold add_category. destruct (cats !! category_id _) eqn:E; [done|].
    rewrite lookup_insert_is_Some'. auto. }
  split; [|split].
  - rewrite H1. unfold add_category. destruct (cats !! category_id _) eqn:E; [done|].
    rewrite categories_points_insert_new by done. cbn. lia.
  - auto.
  - intros x Hx. apply elem_of_cons in Hx as [->|Hx]; auto.
Qed.

Lemma add_exercises_categories rows cats total :
  (forall r, r ∈ rows -> is_Some (cats !! category_id (row_category r))) ->
  categories_points (fst (foldl add_exercise (cats, total) rows))
  = categories_points cats + counted_points rows.
Proof.
  revert cats total. induction rows as [|r rows IH]; intros cats total Hk.
  - change (counted_points []) with 0. cbn. lia.
  - rewrite counted_points_cons. cbn -[counted_points].
    destruct (counted_exercise r) as [e|] eqn:E.
    + assert (Hc : category_id (row_category r) = category_id (category e)).
      { destruct r as [e'|o]; [|done]. cbn in E. destruct (_ && _) in E; by simplify_eq. }
      rewrite IH.
      * rewrite (categories_points_alter _ _ _ (max_points e)); [lia|done|].
        rewrite <- Hc. apply Hk. by left.
      * intros x Hx. rewrite lookup_alter_is_Some. apply Hk. by right.
    + rewrite IH; [lia|]. intros x Hx. apply Hk. by right.
Qed.

Lemma add_exercises_max_group rows cats t :
  total_max_group_size t <= total_max_group_size (snd (foldl add_exercise (cats, t) rows)).
Proof.
  revert cats t. induction rows as [|r rows IH]; intros cats t; cbn; [lia|].
  destruct (counted_exercise r) as [e|]; [|apply IH].
  etransitivity; [|apply IH]. cbn. lia.
Qed.

(** The totals of a course instance are consistent: the maximum points of
    the course are the sum over its modules and the sum over its categories of
    theirs, the points by difficulty of every total add up to its points, and
    the smallest group size is not above the largest. *)
Theorem instance_totals_consistent d i :
  let (cats, total) := instance_totals d i in
  total_max_points (max_totals total)
    = sumZ ((fun m => total_max_points (module_totals d (module_id m))) <$> get_instance_modules d i) /\
  total_max_points (max_totals total) = categories_points cats /\
  sumZ (values (max_points_by_difficulty (max_totals total))) = total_max_points (max_totals total) /\
  (forall m, sumZ (values (max_points_by_difficulty (module_totals d m)))
             = total_max_points (module_totals d m)) /\
  total_min_group_size total <= total_max_group_size total.
Proof.
  unfold instance_totals. set (rows := get_instance_exercises d i).
  set (t0 := mkTotals no_totals 100000 1). set (cats0 := foldl add_category ∅ rows).
  pose proof (add_exercises_total rows cats0 t0) as Ht.
  pose proof (add_exercises_max_group rows cats0 t0) as Hg.
  destruct (add_categories_spec rows ∅) as (Hc0 & _ & Hc1). fold cats0 in Hc0, Hc1.
  pose proof (add_exercises_categories rows cats0 t0 Hc1) as Hc.
  pose proof (add_rows_totals rows no_totals) as (_ & H2 & H3).
  cbn [max_totals t0] in Ht. rewrite <- Ht in H2, H3.
  destruct (foldl add_exercise (cats0, t0) rows) as [cats total]. cbn [fst snd] in *.
  set (total' := if total_max_group_size total <? total_min_group_size total
                 then mkTotals (max_totals total) 1 (total_max_group_size total) else total).
  assert (Em : max_totals total' = max_totals total) by (unfold total'; by destruct (_ <? _)).
  rewrite Em, H2, H3, Hc, Hc0. cbn [no_totals total_max_points max_points_by_difficulty].
  change (sumZ (values ∅)) with 0. change (categories_points ∅) with 0.
  split; [|split; [lia|split; [lia|split]]].
  - unfold rows, get_instance_exercises. rewrite counted_points_bind, Z.add_0_l. f_equal.
    apply list_fmap_ext. intros _ m _. symmetry. apply (module_totals_ok d (module_id m)).
  - intros m. destruct (module_totals_ok d m) as (_ & -> & ->). done.
  - unfold total'. destruct (_ <? _) eqn:E; b2p; cbn in *; lia.
Qed.

(** ** Loading twice *)

(** An exercise's module is loaded with it; when its course instance is needed
    later in the same request, the modules of the instance are loaded again and
    the rows are appended a second time: the module's maximum points double. *)
Lemma reloaded_module_counts_twice :
  let e := mkExercise (example_lobj 1 None "ex") true false 1 1 10 7 5 "" None None
             GradingMode.BEST false "" in
  let t := mkTables [example_instance] [example_module true (1#2)] [ExerciseRow e] in
  let once := content_fetch t (content_add (ExerciseProxy 1) empty_content_db) in
  let twice := content_fetch t (content_add (InstanceProxy 1) once) in
  total_max_points (module_totals once 1) = 7 /\
  get_module_exercises twice 1 = [ExerciseRow e; ExerciseRow e] /\
  total_max_points (module_totals twice 1) = 14.
Proof. vm_compute. auto. Qed.

(** ** Witness *)

Lemma fetched_instance_index_witness :
  let t := mkTables [example_instance] [example_module true (1#2)]
             [ChapterRow (example_lobj 1 None "ch"); ChapterRow (example_lobj 2 (Some 1) "ex")] in
  let d := content_fetch t (content_add (InstanceProxy 1) empty_content_db) in
  get_module_children d 1 = [ChapterRow (example_lobj 1 None "ch")] /\
  get_exercise_children d 1 = [ChapterRow (example_lobj 2 (Some 1) "ex")].
Proof.
  destruct (fetched_instance_index (mkTables [example_instance] [example_module true (1#2)]
    [ChapterRow (example_lobj 1 None "ch"); ChapterRow (example_lobj 2 (Some 1) "ex")]) 1)
    as (_ & Hm & Hc & _).
  - apply (bool_decide_unpack _). vm_compute. exact I.
  - apply (bool_decide_unpack _). vm_compute. exact I.
  - split.
    + destruct (Hm (example_module true (1#2))) as [_ Hch]; [|exact Hch].
      apply (list_elem_of_filter). split; [reflexivity|by left].
    + rewrite (Hc 1). vm_compute. reflexivity.
Defined.
