(* ===== verification/Hierarchy.v ===== *)
(** * Walking the course content

    [exercise/cache/hierarchy.py]: the iterators that visit modules and learning
    objects forwards and backwards from any place, the search by number and the
    neighbours of an entry.  Modules and learning objects are the nodes of one
    ordered tree; a place is the list of entries from a module down to it. *)

From Stdlib Require Import Ascii.
From S2P Require Import Prelude Helpers.
#[local] Open Scope Z_scope.
#[local] Set Warnings "-register-all".

(** What the hierarchy code reads of a module or learning object entry. *)
Record EntryData := mkEntryData {
  h_is_module : bool;
  h_id : Z;
  h_number : string;
  h_is_listed : bool;
  h_category_id : Z;
  h_allow_assistant_viewing : bool;
}.

Inductive Entry := Ent (data : EntryData) (kids : list Entry).

Definition data (e : Entry) : EntryData := match e with Ent d _ => d end.
Definition children (e : Entry) : list Entry := match e with Ent _ k => k end.
Definition entry_id (e : Entry) : Z := h_id (data e).

(** ** The iterators *)

(** What [next_iterator] yields: entries and level markers. *)
Inductive Item :=
| ItemEntry (e : Entry)
| LevelMarker (up : bool).

Section Iterators.
Context (level_markers : bool).

Definition marker (up : bool) : list Item := if level_markers then [LevelMarker up] else [].

(** The loop over a slice [children[skip:]]: the first child gets the remaining
    start indices, the others none. *)
Definition over_children (f : Entry -> list nat -> list Item) :=
  fix go (skip : nat) (start : list nat) (cs : list Entry) {struct cs} : list Item :=
    match cs with
    | [] => []
    | c :: cs' =>
        match skip with
        | S k => go k start cs'
        | O => f c start ++ go O [] cs'
        end
    end.

(** src/exercise/cache/hierarchy.py: next_iterator lines 74-97 *)
Fixpoint next_descendants (entry : Entry) (start : list nat) {struct entry} : list Item :=
  match entry with
  | Ent d kids =>
      match start with
      | s :: rest => over_children next_descendants s rest kids ++ marker true
      | [] =>
          ItemEntry entry ::
          match kids with
          | [] => []
          | _ => marker false ++ over_children next_descendants O [] kids ++ marker true
          end
      end
  end.

End Iterators.

(** src/exercise/cache/hierarchy.py: _get_tree_indices *)
Fixpoint get_tree_indices (cs tree : list Entry) : result (list nat) :=
  match tree with
  | [] => Ret []
  | e :: rest =>
      match list_find (fun c => entry_id c = entry_id e) cs with
      | None => Raise ValueError
      | Some (i, _) => let! indices := get_tree_indices (children e) rest in Ret (i :: indices)
      end
  end.

(** Moving the starting index to the next element. *)
Definition skip_to_next (first_entry : Entry) (indices : list nat) : result (list nat) :=
  match children first_entry with
  | _ :: _ => Ret (indices ++ [O])
  | [] =>
      match last indices with
      | Some i => Ret (removelast indices ++ [S i])
      | None => Raise IndexError
      end
  end.

(** src/exercise/cache/hierarchy.py: next_iterator *)
Definition next_iterator (level_markers : bool) (cs : list Entry) (tree : option (list Entry))
    (skip_first : bool) : result (list Item) :=
  let! indices := match tree with Some t => get_tree_indices cs t | None => Ret [O] end in
  let! indices :=
    if skip_first then
      match default [] tree, cs with
      | e :: t, _ => skip_to_next (List.last t e) indices
      | [], c :: _ => skip_to_next c indices
      | [], [] => Raise IndexError
      end
    else Ret indices in
  match indices with
  | [] => Raise IndexError
  | i :: rest =>
      Ret (marker level_markers false
           ++ over_children (next_descendants level_markers) i rest cs
           ++ marker level_markers true)
  end.

(** The loop over [reversed(children[:n + 1])]: the last child of the slice comes
    first and gets the remaining start indices, the others none. *)
Definition over_reversed (f : Entry -> list nat -> list Entry) :=
  fix go (n : nat) (start : list nat) (cs : list Entry) {struct cs} : list Entry :=
    match cs with
    | [] => []
    | c :: cs' =>
        match n, cs' with
        | O, _ | _, [] => f c start ++ [c]
        | S k, _ => go k start cs' ++ f c [] ++ [c]
        end
    end.

(** The body of [descendants] on a list of children.  The start indices are in
    range: they come from [_get_tree_indices] and [_go_to_last]. *)
Definition prev_forest (f : Entry -> list nat -> list Entry) (cs : list Entry) (start : list nat)
    : list Entry :=
  match start with
  | [] => over_reversed f (length cs) [] cs
  | [s] =>
      match cs !! s with Some c => [c] | None => [] end ++
      match s with O => [] | S k => over_reversed f k [] cs end
  | s :: rest => over_reversed f s rest cs
  end.

(** src/exercise/cache/hierarchy.py: previous_iterator lines 131-144 *)
Fixpoint prev_descendants (entry : Entry) (start : list nat) {struct entry} : list Entry :=
  match entry with
  | Ent _ kids => prev_forest prev_descendants kids start
  end.

(** src/exercise/cache/hierarchy.py: previous_iterator lines 146-154.  The indices
    from a node to its last descendant. *)
Fixpoint last_path (entry : Entry) : list nat :=
  match entry with
  | Ent _ kids =>
      (fix go (n : nat) (cs : list Entry) {struct cs} : list nat :=
         match cs with
         | [] => []
         | c :: cs' => match cs' with [] => n :: last_path c | _ => go (S n) cs' end
         end) O kids
  end.

(** [_go_to_last(indices)] *)
Fixpoint go_to_last (root : Entry) (indices : list nat) : list nat :=
  match indices with
  | [] => last_path root
  | i :: rest =>
      i :: match children root !! i with Some c => go_to_last c rest | None => [] end
  end.

(** src/exercise/cache/hierarchy.py: previous_iterator *)
Definition previous_iterator (cs : list Entry) (tree : option (list Entry)) (skip_first : bool)
    : result (list Entry) :=
  let root := Ent (mkEntryData true 0 "" false 0 false) cs in
  let! indices := match tree with Some t => get_tree_indices cs t | None => Ret (last_path root) end in
  if skip_first then
    match last indices with
    | None => Raise IndexError
    | Some O =>
        match removelast indices with
        | [] => Ret []
        | up => Ret (prev_forest prev_descendants cs up)
        end
    | Some (S k) =>
        Ret (prev_forest prev_descendants cs (go_to_last root (removelast indices ++ [k])))
    end
  else Ret (prev_forest prev_descendants cs indices).

(** ** The content of a course *)

(** src/exercise/cache/hierarchy.py: ContentMixin lines 184-200.  The modules in
    order, with the indexes of modules and learning objects by id and of learning
    objects by module and path. *)
Record Content := mkContent {
  c_modules : list Entry;
  c_module_index : gmap Z Entry;
  c_exercise_index : gmap Z Entry;
  c_paths : gmap Z (gmap string Z);
}.

(** src/exercise/cache/hierarchy.py: ContentMixin.begin *)
Definition begin (c : Content) : result (option Entry) :=
  let! items := next_iterator false (c_modules c) None false in
  Ret (find (fun e => negb (h_is_module (data e)))
         (omap (fun i => match i with ItemEntry e => Some e | LevelMarker _ => None end) items)).

(** src/exercise/cache/hierarchy.py: ContentMixin.find_path *)
Definition find_path (c : Content) (module_id : Z) (path : string) : result Z :=
  match default ∅ (c_paths c !! module_id) !! path with
  | Some i => Ret i
  | None => Raise NoSuchContent
  end.

(** [find(search, number)] *)
Definition find_in (search : list Entry) (number : string) : result Entry :=
  match find (fun e => bool_decide (h_number (data e) = number)) search with
  | Some e => Ret e
  | None => Raise NoSuchContent
  end.

(** The loop over the further parts of the number. *)
Fixpoint find_parts (hit : Entry) (number : string) (parts : list string) : result Entry :=
  match parts with
  | [] => Ret hit
  | part :: rest =>
      let number := (number +:+ "." +:+ part)%string in
      let! hit := find_in (children hit) number in
      find_parts hit number rest
  end.

(** src/exercise/cache/hierarchy.py: ContentMixin.find_number *)
Definition find_number (c : Content) (number : string) : result Entry :=
  match split "."%char number with
  | [] => Raise IndexError
  | first :: parts =>
      let! hit := find_in (c_modules c) first in
      find_parts hit first parts
  end.

(** src/exercise/cache/hierarchy.py: ContentMixin.get_exercise *)
Definition content_get_exercise (c : Content) (i : Z) : result Entry :=
  match c_exercise_index c !! i with Some e => Ret e | None => Raise NoSuchContent end.

(** src/exercise/cache/hierarchy.py: ContentMixin.get_module *)
Definition content_get_module (c : Content) (i : Z) : result Entry :=
  match c_module_index c !! i with Some e => Ret e | None => Raise NoSuchContent end.

(** src/exercise/cache/hierarchy.py: ContentMixin.get_absolute_order_number lines 331-341 *)
Fixpoint order_inner (learning_object_id : Z) (parent : Entry) (n : Z) : bool * Z :=
  match parent with
  | Ent _ kids =>
      (fix go (cs : list Entry) (n : Z) {struct cs} : bool * Z :=
         match cs with
         | [] => (false, n)
         | entry :: cs' =>
             let n := n + 1 in
             if entry_id entry =? learning_object_id then (true, n)
             else let (found, n) := order_inner learning_object_id entry n in
                  if found then (true, n) else go cs' n
         end) kids n
  end.

Fixpoint order_in_modules (learning_object_id : Z) (ms : list Entry) (n : Z) : option Z :=
  match ms with
  | [] => None
  | m :: ms' =>
      let (found, n) := order_inner learning_object_id m n in
      if found then Some n else order_in_modules learning_object_id ms' n
  end.

(** src/exercise/cache/hierarchy.py: ContentMixin.get_absolute_order_number *)
Definition get_absolute_order_number (c : Content) (learning_object_id : Z) : option Z :=
  order_in_modules learning_object_id (c_modules c) 0.

(** src/exercise/cache/hierarchy.py: ContentMixin.search_entries lines 420-434 *)
Definition entry_matches (category_id : option Z) (filter_for_assistant : bool) (e : Entry) : bool :=
  h_is_module (data e)
  || (match category_id with Some c => h_category_id (data e) =? c | None => true end
      && (negb filter_for_assistant || h_allow_assistant_viewing (data e))).

Fixpoint search_descendants (matches : Entry -> bool) (entry : Entry) : list Entry :=
  match entry with
  | Ent _ kids =>
      (if matches entry then [entry] else []) ++ (kids ≫= search_descendants matches)
  end.

(** src/exercise/cache/hierarchy.py: ContentMixin.search_entries.  Without a
    selector the returned entry is the variable of the last loop. *)
Definition search_entries (c : Content) (number : option string)
    (category_id module_id exercise_id : option Z) (filter_for_assistant raise_404 : bool)
    : result (option Entry * list Entry) :=
  let missing {A} (r : result A) : result A :=
    match r with
    | Raise NoSuchContent => if raise_404 then Raise Http404 else Raise NoSuchContent
    | _ => r
    end in
  let by_id :=
    match exercise_id, module_id with
    | Some i, _ => let! e := missing (content_get_exercise c i) in Ret (Some e)
    | None, Some i => let! e := missing (content_get_module c i) in Ret (Some e)
    | None, None => Ret None
    end in
  let! entry :=
    match number with
    | Some n =>
        if bool_decide (n = ""%string) then by_id
        else let! e := missing (find_number c n) in Ret (Some e)
    | None => by_id
    end in
  let matches := entry_matches category_id filter_for_assistant in
  match entry with
  | Some e => Ret (Some e, search_descendants matches e)
  | None => Ret (last (c_modules c), c_modules c ≫= search_descendants matches)
  end.

(** src/exercise/cache/hierarchy.py: ContentMixin._previous *)
Definition previous_entry (c : Content) (tree : list Entry) : result (option Entry) :=
  let! l := previous_iterator (c_modules c) (Some tree) true in
  Ret (find (fun e => h_is_listed (data e)) l).

(** src/exercise/cache/hierarchy.py: ContentMixin._next *)
Definition next_entry (c : Content) (tree : list Entry) : result (option Entry) :=
  let! items := next_iterator false (c_modules c) (Some tree) true in
  Ret (find (fun e => h_is_listed (data e))
         (omap (fun i => match i with ItemEntry e => Some e | LevelMarker _ => None end) items)).

(** ** Places and the reference order *)

(** The nodes of a list of trees in reading order. *)
Fixpoint preorder (e : Entry) : list Entry :=
  match e with Ent _ kids => e :: (kids ≫= preorder) end.
Definition preorder_all (cs : list Entry) : list Entry := cs ≫= preorder.

(** Indices that lead to a node; [S] of the last one may point behind the last child. *)
Fixpoint valid_from (cs : list Entry) (indices : list nat) : Prop :=
  match indices with
  | [] => False
  | i :: rest =>
      match rest with
      | [] => (i <= length cs)%nat
      | _ => exists c, cs !! i = Some c /\ valid_from (children c) rest
      end
  end.

(** The node the indices lead to. *)
Fixpoint node_at (cs : list Entry) (indices : list nat) : option Entry :=
  match indices with
  | [] => None
  | i :: rest =>
      match cs !! i with
      | None => None
      | Some c => match rest with [] => Some c | _ => node_at (children c) rest end
      end
  end.

(** How many nodes come before it in reading order. *)
Fixpoint position (cs : list Entry) (indices : list nat) : nat :=
  match indices with
  | [] => O
  | i :: rest =>
      (length (preorder_all (take i cs)) +
       match rest with
       | [] => O
       | _ => match cs !! i with Some c => S (position (children c) rest) | None => O end
       end)%nat
  end.

(** ** Forward iteration *)

(** Induction on a tree with the hypothesis for all children. *)
Lemma Entry_tree_ind (P : Entry -> Prop) :
  (forall d kids, Forall P kids -> P (Ent d kids)) -> forall e, P e.
Proof.
  intros Hstep. fix IH 1. intros [d kids]. apply Hstep.
  induction kids as [|k kids IHk]; constructor; [apply IH|apply IHk].
Qed.

(** The entries among the yielded items. *)
Definition entries_of (l : list Item) : list Entry :=
  omap (fun i => match i with ItemEntry e => Some e | LevelMarker _ => None end) l.

Lemma entries_of_app l1 l2 : entries_of (l1 ++ l2) = entries_of l1 ++ entries_of l2.
Proof. apply omap_app. Qed.

Lemma entries_of_marker b up : entries_of (marker b up) = [].
Proof. by destruct b. Qed.

Lemma over_children_all (f : Entry -> list nat -> list Item) (g : Entry -> list Entry) cs :
  Forall (fun c => entries_of (f c []) = g c) cs ->
  forall skip, entries_of (over_children f skip [] cs) = drop skip cs ≫= g.
Proof.
  induction 1 as [|c cs Hc _ IH]; intros [|skip]; cbn; [done|done| |apply IH].
  rewrite entries_of_app, Hc, IH. by rewrite drop_0.
Qed.

Lemma next_descendants_all b e : entries_of (next_descendants b e []) = preorder e.
Proof.
  induction e as [d kids IH] using Entry_tree_ind. cbn. f_equal.
  destruct kids as [|k kids]; [done|].
  rewrite !entries_of_app, !entries_of_marker, app_nil_r. cbn [app].
  apply (over_children_all _ preorder _ IH O).
Qed.

Lemma over_children_from_start b skip cs :
  entries_of (over_children (next_descendants b) skip [] cs) = preorder_all (drop skip cs).
Proof.
  apply over_children_all. apply Forall_forall. intros. apply next_descendants_all.
Qed.

(** Skipping to a child and descending into it. *)
Lemma over_children_into b cs i c rest :
  cs !! i = Some c ->
  entries_of (over_children (next_descendants b) i rest cs)
  = entries_of (next_descendants b c rest) ++ preorder_all (drop (S i) cs).
Proof.
  revert i. induction cs as [|c' cs IH]; intros [|i] Hc; cbn in *; try done.
  - injection Hc as ->. rewrite entries_of_app. f_equal. by rewrite over_children_from_start, drop_0.
  - by apply IH.
Qed.

Lemma preorder_all_split cs i c :
  cs !! i = Some c ->
  preorder_all cs = preorder_all (take i cs) ++ preorder c ++ preorder_all (drop (S i) cs).
Proof.
  intros Hc. rewrite <- (take_drop_middle cs i c Hc) at 1. unfold preorder_all.
  rewrite bind_app. cbn. done.
Qed.

Lemma preorder_eq c : preorder c = c :: preorder_all (children c).
Proof. by destruct c. Qed.

Lemma position_le cs indices :
  valid_from cs indices -> (position cs indices <= length (preorder_all cs))%nat.
Proof.
  revert cs. induction indices as [|i [|i2 rest] IH]; intros cs Hv; [done| |].
  - cbn in *. rewrite Nat.add_0_r. rewrite <- (take_drop i cs) at 2.
    unfold preorder_all. rewrite bind_app, length_app. lia.
  - destruct Hv as (c & Hc & Hv). specialize (IH (children c) Hv).
    cbn [position] in *. rewrite Hc, (preorder_all_split cs i c Hc), !length_app, preorder_eq.
    cbn [length] in *. lia.
Qed.

(** Starting at a place yields what follows it in reading order. *)
Lemma next_from_place b indices cs i rest :
  indices = i :: rest -> valid_from cs indices ->
  entries_of (over_children (next_descendants b) i rest cs)
  = drop (position cs indices) (preorder_all cs).
Proof.
  revert cs i rest. induction indices as [|i0 indices IH]; [done|].
  intros cs i rest [= <- <-] Hv. cbn in Hv.
  destruct indices as [|i1 indices].
  - rewrite over_children_from_start. cbn [position]. rewrite Nat.add_0_r.
    rewrite <- (take_drop i0 cs) at 3. unfold preorder_all at 3. rewrite bind_app.
    by rewrite drop_app_length.
  - destruct Hv as (c & Hc & Hv). rewrite (over_children_into _ _ _ _ _ Hc).
    cbn [position]. rewrite Hc, (preorder_all_split cs i0 c Hc), drop_app_add.
    rewrite preorder_eq. cbn [app drop]. destruct c as [d kids]. cbn [children] in *.
    cbn [next_descendants]. rewrite entries_of_app, entries_of_marker, app_nil_r.
    rewrite (IH kids i1 indices eq_refl Hv).
    by rewrite drop_app_le by (exact (position_le kids (i1 :: indices) Hv)).
Qed.

(** ** Places *)

(** The entries [tree], from the top down, are where the indices lead; siblings
    have distinct ids on the way. *)
Fixpoint place (cs tree : list Entry) (indices : list nat) : Prop :=
  match tree, indices with
  | [], [] => True
  | e :: t, i :: rest =>
      NoDup (entry_id <$> cs) /\ cs !! i = Some e /\ place (children e) t rest
  | _, _ => False
  end.

Lemma get_tree_indices_place cs tree indices :
  place cs tree indices -> get_tree_indices cs tree = Ret indices.
Proof.
  revert cs indices. induction tree as [|e t IH]; intros cs [|i rest] Hp; cbn in Hp; try done.
  destruct Hp as (Hnd & Hi & Hp). cbn.
  assert (Hf : list_find (fun c => entry_id c = entry_id e) cs = Some (i, e)).
  { apply list_find_Some. split; [done|]. split; [done|]. intros j y Hy Hlt E.
    enough (j = i) by lia. eapply (NoDup_lookup (entry_id <$> cs)); [done| |].
    - by rewrite list_lookup_fmap, Hy.
    - by rewrite list_lookup_fmap, Hi, E. }
  rewrite Hf. by rewrite (IH _ _ Hp).
Qed.

Lemma last_cons_default (x d : Entry) t : List.last (x :: t) d = List.last t x.
Proof.
  revert x d. induction t as [|y t IH]; intros x d; [done|].
  change (List.last (y :: t) d = List.last (y :: t) x). by rewrite !IH.
Qed.

Lemma place_node cs e t i rest :
  place cs (e :: t) (i :: rest) -> node_at cs (i :: rest) = Some (List.last t e).
Proof.
  revert cs e i rest. induction t as [|e2 t IH]; intros cs e i rest (_ & Hi & Hp).
  - destruct rest; [|done]. cbn. by rewrite Hi.
  - destruct rest as [|i2 rest]; [done|]. rewrite last_cons_default, <- (IH _ _ _ _ Hp).
    cbn. by rewrite Hi.
Qed.

Lemma node_at_valid cs indices e : node_at cs indices = Some e -> valid_from cs indices.
Proof.
  revert cs. induction indices as [|i [|i2 rest] IH]; intros cs E; [done| |].
  - cbn in *. destruct (cs !! i) eqn:Ei; [|done]. apply lookup_lt_Some in Ei. lia.
  - cbn [node_at] in E. destruct (cs !! i) as [c|] eqn:Ei; [|done]. exists c. auto.
Qed.

Lemma position_step cs i i2 rest c :
  cs !! i = Some c ->
  position cs (i :: i2 :: rest)
  = (length (preorder_all (take i cs)) + S (position (children c) (i2 :: rest)))%nat.
Proof. intros E. cbn [position]. by rewrite E. Qed.

(** The node is found at its position. *)
Lemma position_lookup cs indices e :
  node_at cs indices = Some e -> preorder_all cs !! position cs indices = Some e.
Proof.
  revert cs. induction indices as [|i [|i2 rest] IH]; intros cs E; [done| |];
    cbn [node_at] in E; destruct (cs !! i) as [c|] eqn:Ei; try done;
    rewrite (preorder_all_split cs i c Ei), preorder_eq.
  - injection E as ->. cbn [position]. rewrite Nat.add_0_r, lookup_app_r, Nat.sub_diag by lia. done.
  - rewrite (position_step _ _ _ _ _ Ei), lookup_app_r by lia.
    rewrite Nat.add_comm, Nat.add_sub. specialize (IH _ E).
    change ((preorder_all (children c) ++ preorder_all (drop (S i) cs))
              !! position (children c) (i2 :: rest) = Some e).
    rewrite lookup_app_l; [done|]. by apply lookup_lt_Some in IH.
Qed.

(** One index further: the first child if there is one, else the next sibling. *)
Lemma skip_to_next_place cs indices e :
  node_at cs indices = Some e ->
  exists indices', skip_to_next e indices = Ret indices' /\ indices' <> [] /\
    valid_from cs indices' /\ position cs indices' = S (position cs indices).
Proof.
  revert cs. induction indices as [|i [|i2 rest] IH]; intros cs E; [done| |];
    cbn [node_at] in E; destruct (cs !! i) as [c|] eqn:Ei; try done.
  - injection E as ->. unfold skip_to_next. destruct (children e) as [|k ks] eqn:Ek.
    + eexists. split; [reflexivity|]. split; [done|]. cbn. split; [by apply lookup_lt_Some in Ei|].
      rewrite (take_S_r _ _ _ Ei). unfold preorder_all. rewrite bind_app, length_app. cbn.
      rewrite preorder_eq, Ek. cbn. lia.
    + eexists. split; [reflexivity|]. split; [done|]. cbn [app valid_from position].
      rewrite Ei. split; [exists e; rewrite Ek; split; [done|cbn; lia]|]. rewrite take_0. cbn. lia.
  - destruct (IH _ E) as (is' & Hs & Hne & Hv & Hp).
    exists (i :: is'). split.
    { unfold skip_to_next in *. destruct (children e); [|by injection Hs as <-].
      cbn [last] in *. destruct (last (i2 :: rest)); [|done]. by injection Hs as <-. }
    split; [done|]. destruct is' as [|j is']; [done|].
    split; [by exists c|]. rewrite !(position_step _ _ _ _ _ Ei), Hp. lia.
Qed.

(** The forward iterator visits the content in reading order from any place:
    with the place itself first, or from the entry after it when told to skip;
    level markers do not change the entries visited. *)
Theorem next_iterator_order b cs e t i rest :
  place cs (e :: t) (i :: rest) ->
  let n := position cs (i :: rest) in
  preorder_all cs !! n = Some (List.last t e) /\
  (exists items, next_iterator b cs (Some (e :: t)) false = Ret items /\
                 entries_of items = drop n (preorder_all cs)) /\
  (exists items, next_iterator b cs (Some (e :: t)) true = Ret items /\
                 entries_of items = drop (S n) (preorder_all cs)).
Proof.
  intros Hp n. pose proof (place_node _ _ _ _ _ Hp) as Hn.
  unfold next_iterator. rewrite (get_tree_indices_place _ _ _ Hp). cbn [rbind default].
  split; [by apply position_lookup|]. split.
  - eexists. split; [reflexivity|]. rewrite !entries_of_app, !entries_of_marker, app_nil_r.
    apply next_from_place; [done|by eapply node_at_valid].
  - destruct (skip_to_next_place _ _ _ Hn) as (is' & Hs & Hne & Hv & Hpos).
    cbn. rewrite Hs. cbn. destruct is' as [|j js]; [done|].
    eexists. split; [reflexivity|]. rewrite !entries_of_app, !entries_of_marker, app_nil_r.
    cbn [app]. rewrite (next_from_place b (j :: js) cs j js eq_refl Hv), Hpos. done.
Qed.

(** ** Backward iteration *)

Lemma over_reversed_all (f : Entry -> list nat -> list Entry) cs :
  Forall (fun c => f c [] = rev (preorder_all (children c))) cs ->
  forall n, over_reversed f n [] cs = rev (preorder_all (take (S n) cs)).
Proof.
  assert (Hone : forall c, f c [] = rev (preorder_all (children c)) ->
            f c [] ++ [c] = rev (preorder_all [c])).
  { intros c Hc. unfold preorder_all. cbn. rewrite app_nil_r, preorder_eq, Hc. done. }
  induction 1 as [|c cs Hc _ IH]; intros n; cbn [over_reversed]; [by destruct n|].
  destruct n as [|n]; [by apply Hone|]. destruct cs as [|c2 cs]; [by apply Hone|].
  rewrite IH, (Hone c Hc), <- rev_app_distr. f_equal. unfold preorder_all. by rewrite <- bind_app.
Qed.

Lemma prev_descendants_all e : prev_descendants e [] = rev (preorder_all (children e)).
Proof.
  induction e as [d kids IH] using Entry_tree_ind. cbn [prev_descendants prev_forest children].
  rewrite (over_reversed_all _ _ IH). by rewrite take_ge by lia.
Qed.

Lemma over_reversed_from_start n cs :
  over_reversed prev_descendants n [] cs = rev (preorder_all (take (S n) cs)).
Proof. apply over_reversed_all, Forall_forall. intros. apply prev_descendants_all. Qed.

Lemma over_reversed_into cs i c start :
  cs !! i = Some c ->
  over_reversed prev_descendants i start cs
  = prev_descendants c start ++ [c] ++ rev (preorder_all (take i cs)).
Proof.
  revert i. induction cs as [|c' cs IH]; intros [|i] Hc; cbn [over_reversed lookup] in *; try done.
  - injection Hc as ->. done.
  - change (cs !! i = Some c) in Hc. destruct cs as [|c2 cs]; [done|].
    rewrite (IH i Hc), prev_descendants_all. cbn [take]. unfold preorder_all. cbn.
    rewrite preorder_eq. unfold preorder_all. cbn.
    by rewrite rev_app_distr, <- !app_assoc.
Qed.

(** Going back from a node yields it and what precedes it, in reverse order. *)
Lemma prev_from_place cs indices e :
  node_at cs indices = Some e ->
  prev_forest prev_descendants cs indices
  = rev (take (S (position cs indices)) (preorder_all cs)).
Proof.
  revert cs. induction indices as [|i [|i2 rest] IH]; intros cs E; [done| |];
    cbn [node_at] in E; destruct (cs !! i) as [c|] eqn:Ei; try done.
  - injection E as ->. cbn [prev_forest position]. rewrite Ei, Nat.add_0_r.
    rewrite (preorder_all_split cs i e Ei), preorder_eq.
    rewrite <- Nat.add_1_r, take_app_add. cbn. rewrite take_0, rev_app_distr. cbn. f_equal.
    destruct i; [done|apply over_reversed_from_start].
  - cbn [prev_forest]. rewrite (over_reversed_into _ _ _ _ Ei), (position_step _ _ _ _ _ Ei).
    destruct c as [d kids]. cbn [children prev_descendants] in *. rewrite (IH _ E).
    rewrite (preorder_all_split cs i _ Ei), preorder_eq. cbn [children].
    rewrite <- Nat.add_succ_r, take_app_add. cbn [app take].
    pose proof (lookup_lt_Some _ _ _ (position_lookup kids (i2 :: rest) e E)).
    rewrite take_app_le by lia. rewrite rev_app_distr. cbn [rev]. by rewrite <- app_assoc.
Qed.

(** The last descendant is the last node in reading order. *)
Lemma last_path_spec e :
  match children e with
  | [] => last_path e = []
  | cs => is_Some (node_at cs (last_path e)) /\
          S (position cs (last_path e)) = length (preorder_all cs)
  end.
Proof.
  induction e as [d kids IH] using Entry_tree_ind. cbn [children last_path].
  set (go := fix go (n : nat) (cs : list Entry) {struct cs} : list nat := _).
  assert (Hgo : forall pre cs, cs <> [] -> Forall (fun e => match children e with
                  | [] => last_path e = []
                  | cs => is_Some (node_at cs (last_path e)) /\
                          S (position cs (last_path e)) = length (preorder_all cs)
                  end) cs ->
            is_Some (node_at (pre ++ cs) (go (length pre) cs)) /\
            S (position (pre ++ cs) (go (length pre) cs)) = length (preorder_all (pre ++ cs))).
  { intros pre cs. revert pre. induction cs as [|c cs IHc]; intros pre Hne HF; [done|].
    apply Forall_cons in HF as [Hc HF]. destruct cs as [|c2 cs].
    - assert (Hl : (pre ++ [c]) !! length pre = Some c) by (by rewrite lookup_app_r, Nat.sub_diag by lia).
      assert (Hlen : length (preorder_all (pre ++ [c]))
                     = (length (preorder_all pre) + S (length (preorder_all (children c))))%nat).
      { unfold preorder_all at 1. rewrite bind_app, length_app. cbn.
        by rewrite app_nil_r, preorder_eq. }
      change (go (length pre) [c]) with (length pre :: last_path c). rewrite Hlen.
      destruct (children c) as [|k ks] eqn:Ek.
      + rewrite Hc. cbn [node_at position]. rewrite Hl, take_app_length. split; [eauto|]. cbn. lia.
      + destruct Hc as [Hn Hp]. destruct (last_path c) as [|j js] eqn:El; [by destruct Hn|].
        rewrite (position_step _ _ _ _ _ Hl), take_app_length, Ek, Hp.
        cbn [node_at]. rewrite Hl, Ek. split; [exact Hn|]. lia.
    - change (go (length pre) (c :: c2 :: cs)) with (go (S (length pre)) (c2 :: cs)).
      specialize (IHc (pre ++ [c]) ltac:(done) HF).
      rewrite length_app, Nat.add_comm, <- app_assoc in IHc. exact IHc. }
  destruct kids as [|k ks]; [done|]. apply (Hgo [] (k :: ks)); done.
Qed.

Lemma destruct_list_last_nat (l : list nat) : l = [] \/ exists p k, l = p ++ [k].
Proof. induction l using rev_ind; eauto. Qed.

(** One index back: the last descendant of the previous sibling. *)
Lemma go_to_last_place d cs p k e :
  node_at cs (p ++ [S k]) = Some e ->
  is_Some (node_at cs (go_to_last (Ent d cs) (p ++ [k]))) /\
  S (position cs (go_to_last (Ent d cs) (p ++ [k]))) = position cs (p ++ [S k]).
Proof.
  revert d cs. induction p as [|i p IH]; intros d cs E.
  - cbn [app node_at] in E. destruct (cs !! S k) as [c'|] eqn:Ek'; [|done].
    destruct (lookup_lt_is_Some_2 cs k) as [c Hc]; [apply lookup_lt_Some in Ek'; lia|].
    cbn [app go_to_last children]. rewrite Hc.
    assert (Hpos : position cs [S k] = (length (preorder_all (take k cs)) + S (length (preorder_all (children c))))%nat).
    { cbn [position]. rewrite Nat.add_0_r, (take_S_r _ _ _ Hc). unfold preorder_all.
      rewrite bind_app, length_app. cbn. by rewrite app_nil_r, preorder_eq. }
    rewrite Hpos. pose proof (last_path_spec c) as Hl. destruct (children c) as [|x xs] eqn:Ec.
    + rewrite Hl. cbn [node_at position]. rewrite Hc. split; [eauto|]. cbn. lia.
    + destruct Hl as [Hn Hp]. destruct (last_path c) as [|j js] eqn:El; [by destruct Hn|].
      rewrite (position_step _ _ _ _ _ Hc), Ec, Hp. cbn [node_at]. rewrite Hc, Ec.
      split; [exact Hn|]. lia.
  - assert (Hne : exists j js, p ++ [S k] = j :: js) by (destruct p; cbn; eauto).
    destruct Hne as (j & js & Hj). cbn [app] in *. rewrite Hj in E.
    destruct (cs !! i) as [c|] eqn:Ei; [|cbn [node_at] in E; by rewrite Ei in E].
    assert (E' : node_at (children c) (p ++ [S k]) = Some e)
      by (rewrite Hj; cbn [node_at] in E; by rewrite Ei in E).
    destruct c as [dc kids]. cbn [children] in E'. destruct (IH dc kids E') as [Hn Hp].
    cbn [go_to_last children]. rewrite Ei.
    destruct (go_to_last (Ent dc kids) (p ++ [k])) as [|q qs] eqn:Eq; [by destruct Hn|].
    rewrite Hj, (position_step _ _ _ _ _ Ei), (position_step _ _ _ _ _ Ei). cbn [children].
    rewrite <- Hj, <- Hp. cbn [node_at]. rewrite Ei. split; [exact Hn|]. lia.
Qed.

(** The first child comes right after its parent. *)
Lemma position_first_child cs p e :
  p <> [] -> node_at cs (p ++ [O]) = Some e ->
  is_Some (node_at cs p) /\ S (position cs p) = position cs (p ++ [O]).
Proof.
  revert cs. induction p as [|i [|i2 p] IH]; intros cs Hne E; [done| |];
    cbn [app] in *; destruct (cs !! i) as [c|] eqn:Ei;
    try (cbn [node_at] in E; by rewrite Ei in E).
  - rewrite (position_step _ _ _ _ _ Ei). cbn [node_at position]. rewrite Ei, take_0. cbn.
    split; [eauto|lia].
  - assert (E' : node_at (children c) ((i2 :: p) ++ [O]) = Some e)
      by (cbn [node_at app] in E |- *; by rewrite Ei in E).
    destruct (IH (children c) ltac:(done) E') as [Hn Hp]. cbn [app] in Hp.
    rewrite !(position_step _ _ _ _ _ Ei), <- Hp. cbn [node_at] in Hn |- *. rewrite Ei. split; [done|lia].
Qed.

(** The indices one step back, and what they yield. *)
Lemma prev_indices cs indices e :
  node_at cs indices = Some e ->
  match last indices with
  | None => Raise IndexError
  | Some O =>
      match removelast indices with
      | [] => Ret []
      | up => Ret (prev_forest prev_descendants cs up)
      end
  | Some (S k) =>
      Ret (prev_forest prev_descendants cs
             (go_to_last (Ent (mkEntryData true 0 "" false 0 false) cs) (removelast indices ++ [k])))
  end = Ret (rev (take (position cs indices) (preorder_all cs))).
Proof.
  intros Hn. destruct (destruct_list_last_nat indices) as [->|(p & k & ->)]; [done|].
  rewrite last_snoc, removelast_last. destruct k as [|k].
  - destruct p as [|i0 p].
    + cbn in Hn. destruct (cs !! 0%nat); [|done]. cbn [app position]. rewrite take_0. done.
    + destruct (position_first_child cs (i0 :: p) _ ltac:(done) Hn) as [[x Hx] Hpos].
      by rewrite (prev_from_place _ _ _ Hx), Hpos.
  - destruct (go_to_last_place (mkEntryData true 0 "" false 0 false) cs p k _ Hn) as [[x Hx] Hpos].
    by rewrite (prev_from_place _ _ _ Hx), Hpos.
Qed.

(** The backward iterator visits the content in reverse reading order from
    any place, with the place itself first, or from the entry before it when
    told to skip, and yields nothing before the first entry. *)
Theorem previous_iterator_order cs e t i rest :
  place cs (e :: t) (i :: rest) ->
  let n := position cs (i :: rest) in
  previous_iterator cs (Some (e :: t)) false = Ret (rev (take (S n) (preorder_all cs))) /\
  previous_iterator cs (Some (e :: t)) true = Ret (rev (take n (preorder_all cs))).
Proof.
  intros Hp n. pose proof (place_node _ _ _ _ _ Hp) as Hn.
  unfold previous_iterator. rewrite (get_tree_indices_place _ _ _ Hp). cbn [rbind].
  split; [by rewrite (prev_from_place _ _ _ Hn)|].
  by rewrite (prev_indices _ _ _ Hn).
Qed.

(** ** Neighbours *)

(** The listed entry that follows position [n] with no listed entry between. *)
Lemma next_entry_spec c e t i rest :
  place (c_modules c) (e :: t) (i :: rest) ->
  next_entry c (e :: t) =
  Ret (find (fun e => h_is_listed (data e))
         (drop (S (position (c_modules c) (i :: rest))) (preorder_all (c_modules c)))).
Proof.
  intros Hp. pose proof (place_node _ _ _ _ _ Hp) as Hn.
  unfold next_entry, next_iterator. rewrite (get_tree_indices_place _ _ _ Hp). cbn [rbind default].
  destruct (skip_to_next_place _ _ _ Hn) as (l & Hs & Hne & Hv & Hpos).
  cbn. rewrite Hs. cbn. destruct l as [|j js]; [done|]. cbn.
  rewrite app_nil_r. fold (entries_of (over_children (next_descendants false) j js (c_modules c))).
  by rewrite (next_from_place false (j :: js) _ j js eq_refl Hv), Hpos.
Qed.

Lemma previous_entry_spec c e t i rest :
  place (c_modules c) (e :: t) (i :: rest) ->
  previous_entry c (e :: t) =
  Ret (find (fun e => h_is_listed (data e))
         (rev (take (position (c_modules c) (i :: rest)) (preorder_all (c_modules c))))).
Proof.
  intros Hp. pose proof (place_node _ _ _ _ _ Hp) as Hn.
  unfold previous_entry, previous_iterator. rewrite (get_tree_indices_place _ _ _ Hp). cbn [rbind].
  by rewrite (prev_indices _ _ _ Hn).
Qed.

Lemma find_first (f : Entry -> bool) l k y :
  l !! k = Some y -> f y = true ->
  (forall j z, (j < k)%nat -> l !! j = Some z -> f z = false) -> find f l = Some y.
Proof.
  revert k. induction l as [|x l IH]; intros [|k] Hy Hf Hb; cbn in *; try done.
  - injection Hy as ->. by rewrite Hf.
  - rewrite (Hb O x) by (done || lia). apply (IH k); [done|done|].
    intros j z Hj Hz. apply (Hb (S j)); [lia|done].
Qed.

(** Neighbours on the course pages: two listed entries with no listed entry
    between them in reading order are each other's next and previous entries. *)
Theorem neighbours_inverse c e t i rest e' t' i' rest' :
  place (c_modules c) (e :: t) (i :: rest) ->
  place (c_modules c) (e' :: t') (i' :: rest') ->
  let x := List.last t e in
  let y := List.last t' e' in
  let n := position (c_modules c) (i :: rest) in
  let m := position (c_modules c) (i' :: rest') in
  (n < m)%nat -> h_is_listed (data x) = true -> h_is_listed (data y) = true ->
  (forall k z, (n < k < m)%nat -> preorder_all (c_modules c) !! k = Some z ->
     h_is_listed (data z) = false) ->
  next_entry c (e :: t) = Ret (Some y) /\ previous_entry c (e' :: t') = Ret (Some x).
Proof.
  intros Hp Hp' x y n m Hlt Hx Hy Hbetween.
  pose proof (position_lookup _ _ _ (place_node _ _ _ _ _ Hp)) as Hln.
  pose proof (position_lookup _ _ _ (place_node _ _ _ _ _ Hp')) as Hlm.
  fold n x in Hln. fold m y in Hlm.
  rewrite (next_entry_spec _ _ _ _ _ Hp), (previous_entry_spec _ _ _ _ _ Hp'). fold n m. split; f_equal.
  - apply (find_first _ _ (m - S n)); [|done|].
    + rewrite lookup_drop. by replace (S n + (m - S n))%nat with m by lia.
    + intros j z Hj Hz. rewrite lookup_drop in Hz. apply (Hbetween (S n + j)%nat); [lia|done].
  - assert (Hlen : length (take m (preorder_all (c_modules c))) = m)
      by (rewrite length_take; apply lookup_lt_Some in Hlm; lia).
    rewrite rev_alt. fold (reverse (take m (preorder_all (c_modules c)))).
    apply (find_first _ _ (m - S n)); [|done|].
    + rewrite reverse_lookup by lia. rewrite Hlen, lookup_take_lt by lia.
      by replace (m - S (m - S n))%nat with n by lia.
    + intros j z Hj Hz. rewrite reverse_lookup, Hlen in Hz by lia.
      rewrite lookup_take_lt in Hz by lia. eapply Hbetween; [|exact Hz]. lia.
Qed.

(** ** Order numbers *)

(** The learning objects of the course in reading order, modules left out. *)
Definition all_learning_objects (ms : list Entry) : list Entry :=
  ms ≫= fun m => preorder_all (children m).

Lemma list_find_app_id (i : Z) (l1 l2 : list Entry) :
  list_find (fun e => entry_id e = i) (l1 ++ l2) =
  match list_find (fun e => entry_id e = i) l1 with
  | Some r => Some r
  | None => prod_map (fun n => (n + length l1)%nat) id <$> list_find (fun e => entry_id e = i) l2
  end.
Proof.
  destruct (list_find _ l1) as [[k e]|] eqn:E.
  - by apply list_find_app_l.
  - apply list_find_app_r. done.
Qed.

(** What the nested counting computes for a list of subtrees. *)
Definition counted_in (i : Z) (l : list Entry) (n : Z) : bool * Z :=
  match list_find (fun e => entry_id e = i) l with
  | Some (k, _) => (true, n + Z.of_nat k + 1)
  | None => (false, n + Z.of_nat (length l))
  end.

Lemma counted_in_app i l1 l2 n :
  counted_in i (l1 ++ l2) n =
  let (found, n') := counted_in i l1 n in
  if found then (true, n') else counted_in i l2 n'.
Proof.
  unfold counted_in. rewrite list_find_app_id.
  destruct (list_find _ l1) as [[k e]|]; [done|].
  destruct (list_find _ l2) as [[k e]|]; cbn; rewrite ?length_app; f_equal; lia.
Qed.

Lemma order_inner_spec i e n : order_inner i e n = counted_in i (preorder_all (children e)) n.
Proof.
  revert n. induction e as [d kids IH] using Entry_tree_ind. intros n. cbn [order_inner children].
  revert n. induction IH as [|c cs Hc _ IHc]; intros n.
  - unfold counted_in. cbn. f_equal. lia.
  - change (preorder_all (c :: cs)) with (preorder c ++ preorder_all cs).
    rewrite counted_in_app, preorder_eq. unfold counted_in at 1.
    cbn [list_find]. destruct (entry_id c =? i) eqn:E; b2p.
    + rewrite decide_True by done. cbn. f_equal. lia.
    + rewrite decide_False by done. rewrite Hc. unfold counted_in at 1.
      destruct (list_find _ (preorder_all (children c))) as [[k x]|]; cbn; [f_equal; lia|].
      rewrite <- IHc. f_equal. lia.
Qed.

(** The absolute order number of a learning object is its place in the
    reading order of all learning objects, counted from one, and there is none
    exactly when the id does not occur. *)
Theorem absolute_order_number c i :
  get_absolute_order_number c i =
  (fun '(k, _) => Z.of_nat k + 1) <$>
    list_find (fun e => entry_id e = i) (all_learning_objects (c_modules c)).
Proof.
  unfold get_absolute_order_number.
  assert (Hm : forall ms n, order_in_modules i ms n =
            match counted_in i (all_learning_objects ms) n with
            | (true, n') => Some n'
            | (false, _) => None
            end).
  { induction ms as [|m ms IH]; intros n; [done|]. cbn [order_in_modules].
    change (all_learning_objects (m :: ms))
      with (preorder_all (children m) ++ all_learning_objects ms).
    rewrite counted_in_app, order_inner_spec. destruct (counted_in i _ n) as [[] n']; [done|apply IH]. }
  rewrite Hm. unfold counted_in. destruct (list_find _ _) as [[k x]|]; done.
Qed.

(** ** Searching *)

Lemma find_in_number search number e :
  find_in search number = Ret e -> e ∈ search /\ h_number (data e) = number.
Proof.
  unfold find_in. destruct (find _ search) as [x|] eqn:E; [|done]. intros [= ->].
  apply List.find_some in E as [Hin Hb]. split; [by apply list_elem_of_In|]. by b2p.
Qed.

Lemma find_parts_number hit number parts e :
  h_number (data hit) = number -> find_parts hit number parts = Ret e ->
  h_number (data e) = foldl (fun n part => (n +:+ "." +:+ part)%string) number parts.
Proof.
  revert hit number. induction parts as [|part parts IH]; intros hit number Hh E; cbn in *.
  - injection E as ->. done.
  - destruct (find_in _ _) as [h|] eqn:Ef; [|done]. cbn in E.
    apply find_in_number in Ef as [_ Hn]. by apply (IH h).
Qed.

Lemma search_descendants_filter matches e :
  search_descendants matches e = List.filter matches (preorder e).
Proof.
  induction e as [d kids IH] using Entry_tree_ind. cbn.
  assert (Hk : (kids ≫= search_descendants matches) = List.filter matches (kids ≫= preorder)).
  { induction IH as [|k kids Hk _ IHk]; [done|]. cbn. by rewrite Hk, IHk, List.filter_app. }
  rewrite Hk. by destruct (matches (Ent d kids)).
Qed.

Lemma foldl_join x parts :
  foldl (fun n part => (n +:+ "." +:+ part)%string) x parts = join "." (x :: parts).
Proof.
  revert x. induction parts as [|y parts IH]; intros x; [done|]. cbn [foldl]. rewrite IH.
  destruct parts as [|z parts]; cbn [join]; rewrite ?string_app_assoc; done.
Qed.

Lemma find_number_number c number e : find_number c number = Ret e -> h_number (data e) = number.
Proof.
  unfold find_number. pose proof (join_split "."%char number) as Hj.
  destruct (split "."%char number) as [|first parts]; [done|].
  destruct (find_in _ _) as [h|] eqn:Ef; [|done]. cbn. intros E.
  apply find_in_number in Ef as [_ Hn].
  rewrite (find_parts_number _ _ _ _ Hn E), foldl_join. exact Hj.
Qed.

Lemma bind_search_descendants matches l :
  (l ≫= search_descendants matches) = List.filter matches (preorder_all l).
Proof.
  unfold preorder_all. induction l as [|e l IH]; [done|]. cbn.
  by rewrite search_descendants_filter, IH, List.filter_app.
Qed.

(** Searching by number returns an entry of exactly that number; a search
    that succeeds lists the selected entry's descendants, or those of all
    modules, that match the category and the assistant filter, in reading
    order; nothing found is reported as 404 when asked for, else as missing
    content. *)
Theorem search_entries_spec c number category_id module_id exercise_id assist raise_404 :
  match search_entries c number category_id module_id exercise_id assist raise_404 with
  | Ret (entry, entries) =>
      (forall n, number = Some n -> n <> ""%string ->
         exists e, entry = Some e /\ h_number (data e) = n) /\
      entries = List.filter (entry_matches category_id assist)
        (if match number with Some n => negb (bool_decide (n = ""%string)) | None => false end
            || bool_decide (is_Some exercise_id) || bool_decide (is_Some module_id)
         then match entry with Some e => preorder e | None => [] end
         else preorder_all (c_modules c))
  | Raise x => x = (if raise_404 then Http404 else NoSuchContent)
  end.
Proof.
  unfold search_entries.
  assert (Hid : forall m i, content_get_exercise c i = Raise m \/ content_get_module c i = Raise m ->
            m = NoSuchContent).
  { intros m i. unfold content_get_exercise, content_get_module.
    destruct (_ !! _), (_ !! _); intros [?|?]; congruence. }
  assert (Hfn : forall n m, find_number c n = Raise m -> m = NoSuchContent).
  { intros n m. unfold find_number. pose proof (split_nonempty "."%char n) as Hne.
    destruct (split "."%char n) as [|first parts]; [done|]. clear Hne.
    assert (Hin : forall l x m, find_in l x = Raise m -> m = NoSuchContent)
      by (intros l x m'; unfold find_in; destruct (find _ _); congruence).
    destruct (find_in _ _) eqn:Ef; cbn; [|intros [= <-]; by eapply Hin].
    clear Ef. revert a first. induction parts as [|p ps IH]; intros a first; cbn; [done|].
    destruct (find_in _ _) eqn:Ef; cbn; [apply IH|intros [= <-]; by eapply Hin]. }
  destruct number as [n|]; [destruct (bool_decide (n = _)) eqn:En; b2p|];
    cbn [negb orb rbind].
  2: { destruct (find_number c n) as [e|x] eqn:Ef; cbn.
       - split; [|by rewrite search_descendants_filter]. intros n' [= ->] _.
         exists e. split; [done|]. by eapply find_number_number.
       - rewrite (Hfn _ _ Ef). by destruct raise_404. }
  all: destruct exercise_id as [i|], module_id as [j|]; cbn;
    try (rewrite bool_decide_true by eauto); cbn;
    try (destruct (content_get_exercise c i) as [e|x] eqn:Ex; cbn;
         [|rewrite (Hid x i) by auto; by destruct raise_404]);
    try (destruct (content_get_module c j) as [e|x] eqn:Ex; cbn;
         [|rewrite (Hid x j) by auto; by destruct raise_404]);
    (split; [naive_solver|]);
    rewrite ?search_descendants_filter, ?bind_search_descendants; done.
Qed.

(** ** Witnesses *)

Definition example_entry (m : bool) (i : Z) (num : string) (kids : list Entry) : Entry :=
  Ent (mkEntryData m i num true 1 true) kids.

(** Two modules; the first has a chapter with two exercises. *)
Definition example_tree : list Entry :=
  [example_entry true 1 "1" [example_entry false 10 "1.1"
     [example_entry false 11 "1.1.1" []; example_entry false 12 "1.1.2" []]];
   example_entry true 2 "2" [example_entry false 13 "2.1" []]].

Definition example_content : Content := mkContent example_tree ∅ ∅ ∅.

(** The place of exercise 12. *)
Definition example_place : list Entry :=
  [example_entry true 1 "1" [example_entry false 10 "1.1"
     [example_entry false 11 "1.1.1" []; example_entry false 12 "1.1.2" []]];
   example_entry false 10 "1.1" [example_entry false 11 "1.1.1" []; example_entry false 12 "1.1.2" []];
   example_entry false 12 "1.1.2" []].

Lemma example_place_ok : place example_tree example_place [0; 0; 1]%nat.
Proof.
  repeat split; try reflexivity; apply (bool_decide_unpack _); vm_compute; exact I.
Qed.

Lemma next_iterator_order_witness :
  exists items, next_iterator true example_tree (Some example_place) true = Ret items /\
    entry_id <$> entries_of items = [2; 13].
Proof.
  destruct (next_iterator_order true example_tree _ _ _ _ example_place_ok)
    as (_ & _ & items & E & Hi).
  exists items. split; [exact E|]. rewrite Hi. vm_compute. reflexivity.
Defined.

Lemma previous_iterator_order_witness :
  exists l, previous_iterator example_tree (Some example_place) true = Ret l /\
    entry_id <$> l = [11; 10; 1].
Proof.
  destruct (previous_iterator_order example_tree _ _ _ _ example_place_ok) as [_ E].
  eexists. split; [exact E|]. vm_compute. reflexivity.
Defined.

Lemma neighbours_inverse_witness :
  next_entry example_content example_place
    = Ret (Some (example_entry true 2 "2" [example_entry false 13 "2.1" []])) /\
  previous_entry example_content [example_entry true 2 "2" [example_entry false 13 "2.1" []]]
    = Ret (Some (example_entry false 12 "1.1.2" [])).
Proof.
  apply (neighbours_inverse example_content _ _ _ _
           (example_entry true 2 "2" [example_entry false 13 "2.1" []]) [] 1%nat [] example_place_ok).
  - repeat split; try reflexivity; apply (bool_decide_unpack _); vm_compute; exact I.
  - vm_compute. lia.
  - reflexivity.
  - reflexivity.
  - intros k z Hk. vm_compute in Hk. lia.
Defined.
