(* ===== verification/Points.v ===== *)
(** * Cached points of a student in an exercise

    [exercise/cache/points.py] and [exercise/reveal_states.py]: from the
    submissions of a student the entry of an exercise decides which submission
    counts, what the student may see of it, and until when the entry is valid. *)

From Stdlib Require Import QArith.
From S2P Require Import Prelude Binary64 Helpers Course Deviations Reveal Models Exercise Submission Entries.
#[local] Open Scope Z_scope.

(** ** Timestamps and comparisons *)

(** src/exercise/cache/points.py: none_min.  Zero and [None] count as missing. *)
Definition none_min (a b : option Z) : option Z :=
  if truthyZ a && truthyZ b then
    match a, b with
    | Some x, Some y => Some (Z.min x y)
    | _, _ => None
    end
  else if truthyZ a then a else b.

(** Python's [min] of a list that may hold [None]: comparing [None] raises. *)
Definition py_min (l : list (option Z)) : result Z :=
  match l with
  | [] => Raise ValueError
  | [o] => match o with Some x => Ret x | None => Raise TypeError end
  | o :: rest =>
      foldl (fun acc o => let! m := acc in
                          match o with Some y => Ret (Z.min m y) | None => Raise TypeError end)
        (match o with Some x => Ret x | None => Raise TypeError end) rest
  end.

(** src/exercise/cache/points.py: next_timestamp *)
Definition next_timestamp (timestamps : list (option Z)) (now : Z) : result (option Z) :=
  let future := List.filter (fun ts => match ts with
                                       | Some t => negb (t =? 0) && (now <? t)
                                       | None => false
                                       end) timestamps in
  match future with
  | [] => Ret None
  | _ => let! m := py_min timestamps in Ret (Some m)
  end.

(** src/exercise/cache/points.py: is_newer *)
Definition is_newer (submission : Submission) (current : option Submission) : bool :=
  match current with
  | None => true
  | Some c => submission_time c <=? submission_time submission
  end.

(** src/exercise/cache/points.py: has_more_points *)
Definition has_more_points (submission : Submission) (current : option Submission) : bool :=
  match current with
  | None => true
  | Some c =>
      if grade submission =? grade c then is_newer submission current
      else grade c <=? grade submission
  end.

(** ** Entries of submissions *)

(** src/exercise/cache/points.py: SubmissionEntryBase *)
Record SubmissionEntry := mkSubEntry {
  se_id : Z;
  se_true_passed : bool;
  se_true_points : Z;
  se_points : Z;
  se_graded : bool;
  se_status : SubStatus.t;
  se_unofficial : bool;
  se_date : datetime;
  se_force_exercise_points : bool;
  se_is_assessed : bool;
  se_late_penalty_applied : option Q;
  se_group_id : Z;
  se_feedback_revealed : bool;
  se_feedback_reveal_time : option datetime;
}.

(** What the prefetched data holds for one student and exercise. *)
Record ExerciseInput := mkInput {
  in_submissions : list Submission;
  in_deadline_deviations : list DeadlineRuleDeviation;
  in_submission_deviations : list MaxSubmissionsRuleDeviation;
  in_groups : list StudentGroup;
  in_reveal_rule : RevealRule;
  in_notifications : list Notification;
  in_exercise_deviations : list DeadlineRuleDeviation;
}.

(** src/exercise/cache/points.py: ExercisePoints._generate_data lines 728-761 *)
Definition submission_entry (info : EntryInfo) (groups : list StudentGroup) (s : Submission)
    : SubmissionEntry :=
  let group := match submitters s with
               | [] => None
               | _ => get_exact_from groups (submitters s)
               end in
  mkSubEntry (sub_id s) (e_points_to_pass info <=? grade s) (grade s) 0 (is_graded s)
    (sub_status s) (bool_decide (sub_status s = SubStatus.UNOFFICIAL)) (submission_time s)
    (force_exercise_points s) (is_assessed s) (late_penalty_applied s)
    (match group with Some g => group_id g | None => 0 end) true None.

(** ** Choosing the submission that counts *)

(** The fields of the entry the loop over the submissions updates. *)
Record Best := mkBest {
  b_best : option SubmissionEntry;
  b_passed : bool;
  b_points : Z;
  b_graded : bool;
  b_unofficial : bool;
  b_forced : bool;
  b_final : option Submission;
}.

Definition is_ready (s : Submission) : bool := bool_decide (sub_status s = SubStatus.READY).
Definition is_unofficial (s : Submission) : bool := bool_decide (sub_status s = SubStatus.UNOFFICIAL).

(** src/exercise/cache/points.py: ExercisePoints._generate_data lines 710-715 *)
Definition better (mode : option GradingMode.t) : Submission -> option Submission -> bool :=
  match mode with
  | Some GradingMode.LAST => is_newer
  | _ => has_more_points
  end.

(** src/exercise/cache/points.py: ExercisePoints._generate_data lines 762-801 *)
Definition consider (info : EntryInfo) (groups : list StudentGroup) (b : Best) (s : Submission)
    : Best :=
  let entry := submission_entry info groups s in
  let passed := is_ready s && (e_points_to_pass info <=? grade s) in
  let b := if force_exercise_points s
           then mkBest (Some entry) passed (grade s) true false true (Some s) else b in
  if b_forced b then b
  else
    if (is_ready s && (b_unofficial b || better (e_grading_mode info) s (b_final b)))
       || (is_unofficial s && negb (b_graded b) && better (e_grading_mode info) s (b_final b))
    then mkBest (Some entry) passed (grade s) (is_ready s) (is_unofficial s) false (Some s)
    else b.

(** src/exercise/cache/points.py: ExercisePoints._generate_data lines 688-708 *)
Definition initial_best (info : EntryInfo) : Best :=
  mkBest None (e_points_to_pass info =? 0) 0 false false false None.

Definition choose_best (info : EntryInfo) (groups : list StudentGroup) (l : list Submission) : Best :=
  foldl (consider info groups) (initial_best info) l.

(** One step of the search for the last submission: an official entry replaces an
    unofficial one, nothing else is replaced. *)
Definition keep_official {A} (unofficial : A -> bool) (last : option A) (e : A) : option A :=
  match last with
  | None => Some e
  | Some l => if unofficial l && negb (unofficial e) then Some e else last
  end.

(** src/exercise/cache/points.py: ExercisePoints._generate_data lines 802-809.  The
    newest submission, an official one if there is any. *)
Definition last_submission (entries : list SubmissionEntry) : option SubmissionEntry :=
  foldl (keep_official se_unofficial) None entries.

(** src/exercise/cache/points.py: ExercisePoints._generate_data lines 717-721 *)
Definition count_submissions (l : list Submission) : Z :=
  Z.of_nat (length (List.filter (fun s => bool_decide (sub_status s ∈
    [SubStatus.READY; SubStatus.WAITING; SubStatus.INITIALIZED])) l)).

(** ** Deadlines and the reveal state *)

(** src/exercise/cache/points.py: ExercisePoints._generate_data lines 674-680 *)
Definition personal_deadline (info : EntryInfo) (l : list DeadlineRuleDeviation)
    : option (datetime * bool) :=
  foldl (fun _ d => Some (e_closing_time info + seconds (extra_seconds d),
                          negb (without_late_penalty d))) None l.

(** src/exercise/cache/points.py: ExercisePoints._generate_data lines 682-686 *)
Definition personal_max_submissions (info : EntryInfo) (l : list MaxSubmissionsRuleDeviation)
    : option Z :=
  foldl (fun _ d => Some (e_max_submissions info + extra_submissions d)) None l.

(** Python's [max] of a list that is not empty. *)
Definition max_list (l : list Z) : Z :=
  match l with
  | [] => 0
  | x :: l => maxZ x l
  end.

(** src/exercise/reveal_states.py: _get_exercise_common_deadlines *)
Definition common_deadlines (closing : datetime) (late_allowed : bool) (late : datetime)
    (late_percent : Z) : list datetime :=
  closing :: if late_allowed && (0 <? late_percent) then [late] else [].

Definition entry_common_deadlines (info : EntryInfo) : list datetime :=
  common_deadlines (e_closing_time info) (e_late_allowed info) (e_late_time info)
    (e_late_percent info).

(** src/exercise/reveal_states.py: _get_exercise_deadline *)
Definition exercise_deadline (info : EntryInfo) (personal : option datetime) : datetime :=
  max_list (entry_common_deadlines info ++ match personal with Some d => [d] | None => [] end).

(** src/exercise/reveal_states.py: _get_max_submissions *)
Definition state_max_submissions (info : EntryInfo) (personal : option Z) : Z :=
  default (e_max_submissions info) personal.

(** [order_by('-extra_seconds').first()] *)
Definition max_extra (l : list DeadlineRuleDeviation) : option Z :=
  match l with
  | [] => None
  | d :: l => Some (maxZ (extra_seconds d) (extra_seconds <$> l))
  end.

(** src/exercise/reveal_states.py: ExerciseRevealState.get_latest_deadline *)
Definition exercise_latest_deadline (info : EntryInfo) (all : list DeadlineRuleDeviation) : datetime :=
  max_list (entry_common_deadlines info
            ++ match max_extra all with
               | Some x => [e_closing_time info + seconds x]
               | None => []
               end).

(** src/exercise/reveal_states.py: ExerciseRevealState *)
Definition exercise_reveal_state (info : EntryInfo) (i : ExerciseInput) (points count : Z)
    : RevealState :=
  mkRevealState (Some points) (Some (e_max_points info)) (Some count)
    (Some (state_max_submissions info (personal_max_submissions info (in_submission_deviations i))))
    (Some (exercise_deadline info (fst <$> personal_deadline info (in_deadline_deviations i))))
    (Some (exercise_latest_deadline info (in_exercise_deviations i))).

(** ** The entry of an exercise *)

(** src/exercise/cache/points.py: ExercisePoints lines 591-606 *)
Record ExercisePoints := mkExercisePoints {
  ep_info : EntryInfo;
  ep_submission_count : Z;
  ep_true_passed : bool;
  ep_passed : bool;
  ep_true_points : Z;
  ep_points : Z;
  ep_feedback_revealed : bool;
  ep_submissions : list SubmissionEntry;
  ep_true_best : option SubmissionEntry;
  ep_best : option SubmissionEntry;
  ep_graded : bool;
  ep_unofficial : bool;
  ep_forced_points : bool;
  ep_notified : bool;
  ep_unseen : bool;
  ep_personal_deadline : option (datetime * bool);
  ep_personal_max_submissions : option Z;
  ep_feedback_reveal_time : option datetime;
  ep_show_zero_points_immediately : bool;
  ep_expires_on : option Z;
}.

(** The entry of a submission once the reveal rule of the exercise is known. *)
Definition reveal_submission (revealed : bool) (time : option datetime) (e : SubmissionEntry)
    : SubmissionEntry :=
  mkSubEntry (se_id e) (se_true_passed e) (se_true_points e)
    (if revealed then se_true_points e else 0) (se_graded e) (se_status e) (se_unofficial e)
    (se_date e) (se_force_exercise_points e) (se_is_assessed e) (se_late_penalty_applied e)
    (se_group_id e) revealed time.

Definition notes_of (i : ExerciseInput) (s : Submission) : list Notification :=
  List.filter (fun n => note_submission n =? sub_id s) (in_notifications i).

(** src/exercise/cache/points.py: ExercisePoints._generate_data *)
Definition generate_exercise (info : EntryInfo) (i : ExerciseInput) (now : datetime)
    : ExercisePoints :=
  let subs := in_submissions i in
  let b := choose_best info (in_groups i) subs in
  let entries := submission_entry info (in_groups i) <$> subs in
  let count := count_submissions subs in
  let rule := in_reveal_rule i in
  let state := exercise_reveal_state info i (b_points b) count in
  let '(show_zero, revealed, time) :=
    match subs with
    | [] => (false, true, None)
    | _ => (show_zero_points_immediately rule, is_revealed rule state now, get_reveal_time rule state)
    end in
  let entries := reveal_submission revealed time <$> entries in
  mkExercisePoints info count (b_passed b) (revealed && b_passed b) (b_points b)
    (if revealed then b_points b else 0) revealed entries
    (reveal_submission revealed time <$> b_best b)
    (if revealed then reveal_submission revealed time <$> b_best b
     else reveal_submission revealed time <$>
            last_submission (submission_entry info (in_groups i) <$> subs))
    (b_graded b) (b_unofficial b) (b_forced b)
    (existsb (fun s => negb (length (notes_of i s) =? 0)%nat) subs)
    (existsb (fun s => existsb (fun n => negb (note_seen n)) (notes_of i s)) subs)
    (personal_deadline info (in_deadline_deviations i))
    (personal_max_submissions info (in_submission_deviations i))
    time show_zero time.

(** src/exercise/cache/points.py: CommonPointData.reveal *)
Definition reveal_entry (show : bool) (e : SubmissionEntry) : SubmissionEntry :=
  if show
  then mkSubEntry (se_id e) (se_true_passed e) (se_true_points e) (se_points e) (se_graded e)
         (se_status e) (se_unofficial e) (se_date e) (se_force_exercise_points e) (se_is_assessed e)
         (se_late_penalty_applied e) (se_group_id e) true (se_feedback_reveal_time e)
  else e.

(** src/exercise/cache/points.py: ExercisePoints.post_build *)
Definition post_build (show_unrevealed : bool) (ep : ExercisePoints) : ExercisePoints :=
  let open (e : SubmissionEntry) :=
    if negb (ep_show_zero_points_immediately ep) then reveal_entry show_unrevealed e
    else if se_true_points e =? 0 then reveal_entry true e else e in
  mkExercisePoints (ep_info ep) (ep_submission_count ep) (ep_true_passed ep) (ep_passed ep)
    (ep_true_points ep) (ep_points ep) (show_unrevealed || ep_feedback_revealed ep)
    (open <$> ep_submissions ep) (open <$> ep_true_best ep) (open <$> ep_best ep) (ep_graded ep)
    (ep_unofficial ep) (ep_forced_points ep) (ep_notified ep) (ep_unseen ep)
    (ep_personal_deadline ep) (ep_personal_max_submissions ep) (ep_feedback_reveal_time ep)
    (ep_show_zero_points_immediately ep) (ep_expires_on ep).

(** src/exercise/cache/points.py: RevealableAttribute.__get__ *)
Definition revealable {A} (feedback_revealed : bool) (true_value value : A) : A :=
  if feedback_revealed then true_value else value.

Definition points_of (ep : ExercisePoints) : Z :=
  revealable (ep_feedback_revealed ep) (ep_true_points ep) (ep_points ep).
Definition passed_of (ep : ExercisePoints) : bool :=
  revealable (ep_feedback_revealed ep) (ep_true_passed ep) (ep_passed ep).
Definition best_of (ep : ExercisePoints) : option SubmissionEntry :=
  revealable (ep_feedback_revealed ep) (ep_true_best ep) (ep_best ep).
Definition submission_points (e : SubmissionEntry) : Z :=
  revealable (se_feedback_revealed e) (se_true_points e) (se_points e).
Definition submission_passed (e : SubmissionEntry) : bool :=
  revealable (se_feedback_revealed e) (se_true_passed e) false.

(** src/exercise/cache/points.py: ExercisePoints.official_points *)
Definition official_points (ep : ExercisePoints) : Z :=
  match best_of ep with
  | Some e => if ep_unofficial ep then 0 else submission_points e
  | None => 0
  end.

(** ** Which submission counts *)

Definition exists_forced (l : list Submission) : bool := existsb force_exercise_points l.
Definition exists_ready (l : list Submission) : bool := existsb is_ready l.
Definition exists_unofficial (l : list Submission) : bool := existsb is_unofficial l.

(** [s] is at least as good as every submission of [l] in the grading mode. *)
Definition best_among (mode : option GradingMode.t) (s : Submission) (l : list Submission) : Prop :=
  forall t, t ∈ l ->
    match mode with
    | Some GradingMode.LAST => submission_time t <= submission_time s
    | _ => grade t <= grade s
    end.

Lemma better_none mode s : better mode s None = true.
Proof. by destruct mode as [[]|]. Qed.

Lemma better_false mode s c :
  better mode s (Some c) = false -> best_among mode c [s].
Proof.
  intros Hb t Ht. apply list_elem_of_singleton in Ht as ->. unfold better in Hb.
  destruct mode as [[]|]; cbn in Hb; repeat break_hyp Hb; b2p; lia.
Qed.

Lemma better_true mode s c l :
  better mode s (Some c) = true -> best_among mode c l -> best_among mode s (s :: l).
Proof.
  intros Hb Hl t Ht. apply elem_of_cons in Ht as [->|Ht]; [destruct mode as [[]|]; lia|].
  specialize (Hl t Ht). unfold better in Hb.
  destruct mode as [[]|]; cbn in Hb; repeat break_hyp Hb; b2p; lia.
Qed.

(** What the loop has established after the submissions [l], none of them forced. *)
Record unforced_ok (info : EntryInfo) (groups : list StudentGroup) (l : list Submission) (b : Best)
    : Prop := {
  uf_forced : b_forced b = false;
  uf_graded : b_graded b = exists_ready l;
  uf_unofficial : b_unofficial b = negb (exists_ready l) && exists_unofficial l;
  uf_final : match b_final b with
             | Some s =>
                 s ∈ l /\ b_points b = grade s /\ b_best b = Some (submission_entry info groups s) /\
                 b_passed b = is_ready s && (e_points_to_pass info <=? grade s) /\
                 is_ready s = exists_ready l /\ (is_ready s || is_unofficial s) = true /\
                 best_among (e_grading_mode info) s
                   (List.filter (if exists_ready l then is_ready else is_unofficial) l)
             | None => exists_ready l = false /\ exists_unofficial l = false /\ b_points b = 0 /\
                       b_best b = None
             end;
}.

Lemma ready_not_unofficial s : is_ready s && is_unofficial s = false.
Proof. unfold is_ready, is_unofficial. destruct (sub_status s); reflexivity. Qed.

Lemma existsb_snoc (f : Submission -> bool) l s : existsb f (l ++ [s]) = existsb f l || f s.
Proof. rewrite existsb_app. cbn. by rewrite orb_false_r. Qed.

Lemma filter_snoc (f : Submission -> bool) l s :
  List.filter f (l ++ [s]) = List.filter f l ++ if f s then [s] else [].
Proof. rewrite List.filter_app. done. Qed.

Lemma filter_none (f : Submission -> bool) l : existsb f l = false -> List.filter f l = [].
Proof.
  induction l as [|x l IH]; cbn; [done|]. intros H. b2p. rewrite H. auto.
Qed.

Lemma best_among_snoc mode s l x :
  best_among mode s (l ++ [x]) <-> best_among mode s l /\ best_among mode s [x].
Proof.
  unfold best_among. setoid_rewrite elem_of_app. naive_solver.
Qed.

(** A new submission replaces the current one. *)
Lemma unforced_replaced info groups l s c :
  (is_ready s || is_unofficial s) = true ->
  is_ready s = exists_ready (l ++ [s]) ->
  best_among (e_grading_mode info) s
    (List.filter (if exists_ready (l ++ [s]) then is_ready else is_unofficial) (l ++ [s])) ->
  c = mkBest (Some (submission_entry info groups s))
        (is_ready s && (e_points_to_pass info <=? grade s)) (grade s) (is_ready s) (is_unofficial s)
        false (Some s) ->
  unforced_ok info groups (l ++ [s]) c.
Proof.
  intros Hs Hr Hb ->. constructor; cbn [b_forced b_graded b_unofficial b_final b_points b_best b_passed].
  - done.
  - done.
  - rewrite <- Hr. unfold exists_unofficial. rewrite existsb_snoc.
    pose proof (ready_not_unofficial s). destruct (is_ready s), (is_unofficial s); cbn in *; try done.
    by rewrite orb_true_r.
  - split; [apply elem_of_app; right; by left|]. auto 10.
Qed.

(** The current submission stays: the new one is not of the kind that counts, or
    it is not better. *)
Lemma unforced_kept info groups l s b :
  unforced_ok info groups l b ->
  (exists_ready l = false -> is_ready s = false) ->
  (b_final b = None -> is_unofficial s = false) ->
  (forall c, b_final b = Some c -> (if exists_ready l then is_ready else is_unofficial) s = true ->
     better (e_grading_mode info) s (Some c) = false) ->
  unforced_ok info groups (l ++ [s]) b.
Proof.
  intros [Hf Hg Hu Hc] Hr Hn Hb.
  assert (Er : exists_ready (l ++ [s]) = exists_ready l).
  { unfold exists_ready in *. rewrite existsb_snoc. destruct (existsb is_ready l); [done|].
    by rewrite Hr. }
  assert (Eu : negb (exists_ready l) && exists_unofficial (l ++ [s])
               = negb (exists_ready l) && exists_unofficial l).
  { destruct (exists_ready l) eqn:Ex; [done|]. cbn. unfold exists_unofficial in *.
    rewrite existsb_snoc. destruct (b_final b) as [c|]; [|rewrite Hn by done; by rewrite orb_false_r].
    destruct Hc as (Hin & _ & _ & _ & Hcr & Hck & _). rewrite Hcr in Hck. cbn in Hck.
    assert (existsb is_unofficial l = true) as ->; [|done].
    apply existsb_exists. exists c. split; [by apply list_elem_of_In|done]. }
  constructor; rewrite ?Er; [done|done|by rewrite Eu|].
  destruct (b_final b) as [c|].
  - destruct Hc as (Hin & Hp & Hbest & Hpass & Hcr & Hck & Ham).
    repeat split; try done; [apply elem_of_app; by left|].
    rewrite filter_snoc. specialize (Hb c eq_refl).
    destruct ((if exists_ready l then is_ready else is_unofficial) s).
    + apply best_among_snoc. split; [done|]. by apply better_false, Hb.
    + by rewrite app_nil_r.
  - destruct Hc as (Hc1 & Hc2 & Hc3 & Hc4). rewrite Hc1, Hc2 in Eu. cbn in Eu. by rewrite Eu.
Qed.

(** Without a ready submission the chosen one is unofficial. *)
Lemma unforced_unofficial info groups l b c :
  unforced_ok info groups l b -> b_final b = Some c -> exists_ready l = false -> b_unofficial b = true.
Proof.
  intros [_ _ Hu Hc] E Ex. rewrite E in Hc. destruct Hc as (Hin & _ & _ & _ & Hcr & Hck & _).
  rewrite Hu, Ex. rewrite Hcr, Ex in Hck. cbn in Hck |- *. apply existsb_exists. exists c.
  split; [by apply list_elem_of_In|done].
Qed.

(** A better submission is best among those of the kind that counts so far. *)
Lemma unforced_better info groups l b s :
  unforced_ok info groups l b -> better (e_grading_mode info) s (b_final b) = true ->
  best_among (e_grading_mode info) s
    (List.filter (if exists_ready l then is_ready else is_unofficial) l ++ [s]).
Proof.
  intros [_ _ _ Hc] Hbt. destruct (b_final b) as [c|].
  - destruct Hc as (_ & _ & _ & _ & _ & _ & Ham). pose proof (better_true _ _ _ _ Hbt Ham) as Hs.
    intros t Ht. apply Hs. set_solver.
  - destruct Hc as (Hc1 & Hc2 & _). rewrite Hc1, (filter_none _ _ Hc2).
    intros t Ht. apply list_elem_of_singleton in Ht as ->. destruct (e_grading_mode info) as [[]|]; lia.
Qed.

Lemma consider_unforced info groups l s b :
  force_exercise_points s = false ->
  unforced_ok info groups l b -> unforced_ok info groups (l ++ [s]) (consider info groups b s).
Proof.
  intros Hfs Hok. unfold consider. rewrite Hfs, (uf_forced _ _ _ _ Hok).
  pose proof (uf_graded _ _ _ _ Hok) as Hg. pose proof (uf_unofficial _ _ _ _ Hok) as Hu.
  pose proof (uf_final _ _ _ _ Hok) as Hc. pose proof (ready_not_unofficial s) as Hru.
  rewrite Hg.
  pose proof (fun c => unforced_unofficial info groups l b c Hok) as Hkind.
  pose proof (unforced_better info groups l b s Hok) as Hbest.
  destruct (is_ready s) eqn:Rs; cbn [andb orb] in *.
  - assert (Er : exists_ready (l ++ [s]) = true)
      by (unfold exists_ready; rewrite existsb_snoc, Rs; apply orb_true_r).
    rewrite Hru. cbn [andb orb]. rewrite orb_false_r.
    destruct (b_unofficial b || better (e_grading_mode info) s (b_final b)) eqn:Hcond.
    + eapply unforced_replaced; [by rewrite Rs|by rewrite Rs, Er| |by rewrite Rs, Hru].
      rewrite Er, filter_snoc, Rs. destruct (exists_ready l) eqn:Ex.
      * rewrite Hu in Hcond. cbn in Hcond. by apply Hbest.
      * rewrite (filter_none _ _ Ex). intros t Ht. apply list_elem_of_singleton in Ht as ->.
        destruct (e_grading_mode info) as [[]|]; lia.
    + apply orb_false_iff in Hcond as [Hnu Hnb]. apply unforced_kept; [done| | |].
      * intros Ex. destruct (b_final b) as [c|] eqn:Eb; [|by rewrite better_none in Hnb].
        by rewrite (Hkind c eq_refl Ex) in Hnu.
      * done.
      * intros c E _. by rewrite <- E.
  - destruct (is_unofficial s) eqn:Us; cbn [andb].
    + destruct (exists_ready l) eqn:Ex; cbn [negb andb].
      * apply unforced_kept; [done|congruence| |by rewrite Ex, Rs].
        intros E. rewrite E in Hc. destruct Hc as [? _]. congruence.
      * destruct (better (e_grading_mode info) s (b_final b)) eqn:Hbt.
        -- assert (Er : exists_ready (l ++ [s]) = false)
             by (unfold exists_ready in *; by rewrite existsb_snoc, Ex, Rs).
           eapply unforced_replaced; [by rewrite Rs, Us|by rewrite Rs, Er| |by rewrite Rs, Us].
           rewrite Er, filter_snoc, Us. by apply Hbest.
        -- apply unforced_kept; [done|done|intros E; by rewrite E, better_none in Hbt|].
           intros c E _. by rewrite <- E.
    + apply unforced_kept; [done|done|done|].
      intros c E Hk. destruct (exists_ready l); congruence.
Qed.

Lemma choose_best_unforced info groups l :
  exists_forced l = false -> unforced_ok info groups l (choose_best info groups l).
Proof.
  unfold choose_best, exists_forced. induction l as [|s l IH] using rev_ind; intros Hl.
  - constructor; cbn; try done.
  - rewrite existsb_snoc in Hl. apply orb_false_iff in Hl as [Hl Hs].
    rewrite foldl_app. cbn [foldl]. by apply consider_unforced; [|apply IH].
Qed.

(** ** A forced submission *)

Definition forced_best (info : EntryInfo) (groups : list StudentGroup) (s : Submission) : Best :=
  mkBest (Some (submission_entry info groups s))
    (is_ready s && (e_points_to_pass info <=? grade s)) (grade s) true false true (Some s).

Lemma consider_forced info groups b s :
  force_exercise_points s = true -> consider info groups b s = forced_best info groups s.
Proof. intros E. unfold consider. by rewrite E. Qed.

Lemma consider_after_forced info groups l b :
  exists_forced l = false -> b_forced b = true -> foldl (consider info groups) b l = b.
Proof.
  unfold exists_forced. revert b. induction l as [|s l IH]; intros b Hl Hb; cbn in *; [done|]. b2p.
  assert (E : consider info groups b s = b) by (unfold consider; by rewrite H, Hb).
  rewrite E. auto.
Qed.

(** The last forced submission of the list is the one that counts. *)
Lemma choose_best_forced info groups l1 s l2 :
  force_exercise_points s = true -> exists_forced l2 = false ->
  choose_best info groups (l1 ++ s :: l2) = forced_best info groups s.
Proof.
  intros Hs Hl. unfold choose_best. rewrite foldl_app. cbn [foldl].
  rewrite consider_forced by done. by apply consider_after_forced.
Qed.

(** A list is free of forced submissions or has a last one. *)
Lemma last_forced l :
  exists_forced l = false \/
  exists l1 s l2, l = l1 ++ s :: l2 /\ force_exercise_points s = true /\ exists_forced l2 = false.
Proof.
  unfold exists_forced. induction l as [|x l IH]; cbn; [by left|].
  destruct IH as [IH|(l1 & s & l2 & -> & Hs & Hl)].
  - rewrite IH. destruct (force_exercise_points x) eqn:E; [|by left]. right. by exists [], x, l.
  - right. by exists (x :: l1), s, l2.
Qed.

Lemma filter_forced_none l :
  exists_forced l = false -> filter (fun s => force_exercise_points s = true) l = [].
Proof.
  unfold exists_forced. induction l as [|x l IH]; [done|]. cbn [existsb]. intros H. b2p.
  rewrite filter_cons_False by congruence. auto.
Qed.

(** ** The cache agrees with the database aggregate *)

(** The submissions the query counts are those the loop counts. *)
Lemma elem_of_ready s l :
  s ∈ filter (fun s => sub_status s ∈ counted_statuses false) l <-> s ∈ List.filter is_ready l.
Proof.
  rewrite list_elem_of_filter. rewrite !list_elem_of_In, filter_In. unfold is_ready.
  rewrite bool_decide_eq_true. cbn. set_solver.
Qed.

(** The grade of the submission that is best in the mode is the grade the query
    selects from the same rows. *)
Lemma best_among_query mode s rows :
  NoDup (submission_time <$> rows) ->
  s ∈ filter (fun s => sub_status s ∈ counted_statuses false) rows ->
  best_among (Some mode) s (List.filter is_ready rows) ->
  match mode with
  | GradingMode.LAST => grade <$> newest (filter (fun s => sub_status s ∈ counted_statuses false) rows)
  | GradingMode.BEST => max_grade (filter (fun s => sub_status s ∈ counted_statuses false) rows)
  end = Some (grade s).
Proof.
  intros Hnd Hs Hb. set (ok := filter _ rows) in *.
  assert (Hok : forall t, t ∈ ok -> t ∈ List.filter is_ready rows) by (intros t; apply elem_of_ready).
  destruct mode; unfold best_among in Hb; cbn in Hb.
  - pose proof (max_grade_spec ok) as Hm. destruct (max_grade ok) as [g|].
    + destruct Hm as [(t & Ht & <-) Hub]. f_equal. specialize (Hub s Hs).
      specialize (Hb t (Hok t Ht)). lia.
    + rewrite Hm in Hs. by apply elem_of_nil in Hs.
  - pose proof (newest_spec ok) as Hm. destruct (newest ok) as [t|]; cbn.
    + destruct Hm as [Ht Hub]. specialize (Hub s Hs). specialize (Hb t (Hok t Ht)).
      assert (t = s) as ->; [|done]. unfold ok in Ht, Hs. apply list_elem_of_filter in Ht as [_ Ht].
      apply list_elem_of_filter in Hs as [_ Hs]. apply list_elem_of_lookup in Ht as [i Hi].
      apply list_elem_of_lookup in Hs as [j Hj].
      assert (i = j) as <-; [|congruence].
      eapply NoDup_lookup; [exact Hnd| |]; rewrite list_lookup_fmap, ?Hi, ?Hj; cbn; [done|].
      f_equal. lia.
    + rewrite Hm in Hs. by apply elem_of_nil in Hs.
Qed.

(** C15. The points an exercise entry of the cache records for the results of a
    student are the points the results table computes in the database
    ([annotate_submitter_points] without unofficial submissions), for every
    list of submissions with at most one final ("forced") one and distinct
    submission times, in both grading modes. *)
Theorem cache_agrees_with_query info groups exercise l :
  e_grading_mode info = Some (grading_mode exercise) ->
  (length (filter (fun s => force_exercise_points s = true) l) <= 1)%nat ->
  NoDup (submission_time <$> l) ->
  let b := choose_best info groups l in
  (if b_graded b then b_points b else 0) = annotate_submitter_points exercise None false l.
Proof.
  intros Hmode Hone Hnd b. subst b. unfold annotate_submitter_points.
  destruct (last_forced l) as [Hno|(l1 & s & l2 & -> & Hs & Hl2)].
  - rewrite (filter_forced_none _ Hno). cbn [max_grade].
    pose proof (choose_best_unforced info groups l Hno) as Hok.
    set (b := choose_best info groups l) in *.
    pose proof (uf_final _ _ _ _ Hok) as Hf. rewrite (uf_graded _ _ _ _ Hok).
    destruct (exists_ready l) eqn:Ex.
    + destruct (b_final b) as [s|]; [|by destruct Hf].
      destruct Hf as (Hin & -> & _ & _ & Hsr & _ & Ham). rewrite Hmode in Ham.
      rewrite (best_among_query (grading_mode exercise) s l Hnd); [done| |done].
      apply elem_of_ready, list_elem_of_In, filter_In. by rewrite <- list_elem_of_In.
    + assert (filter (fun s => sub_status s ∈ counted_statuses false) l = []) as ->.
      { apply elem_of_nil_inv. intros s Hs. apply elem_of_ready in Hs.
        rewrite (filter_none _ _ Ex) in Hs. by apply elem_of_nil in Hs. }
      by destruct (grading_mode exercise).
  - rewrite choose_best_forced by done. cbn [b_graded b_points forced_best].
    rewrite filter_app, filter_cons_True, (filter_forced_none _ Hl2) in Hone |- * by done.
    destruct (filter _ l1) as [|x l'].
    + done.
    + exfalso. rewrite length_app in Hone. cbn in Hone. lia.
Qed.

(** The flags of the chosen submission, and where its points come from. *)
Lemma choose_best_flags info groups l :
  let b := choose_best info groups l in
  b_forced b = exists_forced l /\
  b_graded b = exists_forced l || exists_ready l /\
  b_unofficial b = negb (exists_forced l) && (negb (exists_ready l) && exists_unofficial l).
Proof.
  intros b. subst b. destruct (last_forced l) as [Hno|(l1 & s & l2 & E & Hs & Hl2)].
  - destruct (choose_best_unforced info groups l Hno) as [Hf Hg Hu _]. by rewrite Hno.
  - assert (Ef : exists_forced l = true).
    { unfold exists_forced. rewrite E, existsb_app. cbn. rewrite Hs. apply orb_true_r. }
    by rewrite Ef, E, choose_best_forced.
Qed.

Lemma choose_best_member info groups l :
  match b_final (choose_best info groups l) with
  | Some s => s ∈ l /\ b_points (choose_best info groups l) = grade s
  | None => b_points (choose_best info groups l) = 0
  end.
Proof.
  destruct (last_forced l) as [Hno|(l1 & s & l2 & E & Hs & Hl2)].
  - destruct (choose_best_unforced info groups l Hno) as [_ _ _ Hc].
    destruct (b_final _); naive_solver.
  - rewrite E, choose_best_forced by done. cbn. split; [|done]. apply elem_of_app. right. by left.
Qed.

(** The flags of the entry tell what was found: the points are forced exactly
    if some submission is final; otherwise they are graded exactly if some
    submission is ready, unofficial exactly if none is ready but some is
    unofficial, and the chosen submission is one of the student's that is best
    in the grading mode among those of its kind. *)
Theorem choose_best_spec info groups l :
  let b := choose_best info groups l in
  b_forced b = exists_forced l /\
  b_graded b = exists_forced l || exists_ready l /\
  b_unofficial b = negb (exists_forced l) && (negb (exists_ready l) && exists_unofficial l) /\
  match b_final b with
  | Some s => s ∈ l /\ b_points b = grade s /\ b_best b = Some (submission_entry info groups s) /\
              b_passed b = is_ready s && (e_points_to_pass info <=? grade s) /\
              if exists_forced l then force_exercise_points s = true
              else best_among (e_grading_mode info) s
                     (List.filter (if exists_ready l then is_ready else is_unofficial) l)
  | None => existsb (fun s => force_exercise_points s || is_ready s || is_unofficial s) l = false /\
            b_points b = 0 /\ b_best b = None
  end.
Proof.
  intros b. subst b. destruct (choose_best_flags info groups l) as (Hf & Hg & Hu).
  rewrite Hf, Hg, Hu. do 3 (split; [done|]). clear Hf Hg Hu.
  destruct (last_forced l) as [Hno|(l1 & s & l2 & E & Hs & Hl2)].
  - destruct (choose_best_unforced info groups l Hno) as [_ _ _ Hc]. rewrite Hno.
    destruct (b_final _) as [s|]; [naive_solver|].
    destruct Hc as (Hr & Hun & Hp & Hb). split; [|done]. clear - Hno Hr Hun.
    unfold exists_forced, exists_ready, exists_unofficial in *.
    induction l as [|x l IH]; cbn in *; [done|]. b2p. rewrite IH by done.
    apply orb_false_iff. split; [|done]. by rewrite H3, H1, H.
  - assert (Ef : exists_forced l = true).
    { unfold exists_forced. rewrite E, existsb_app. cbn. rewrite Hs. apply orb_true_r. }
    rewrite Ef, E, choose_best_forced by done. cbn.
    repeat split; try done. apply elem_of_app. right. by left.
Qed.

(** ** Bounds of an exercise entry *)

(** The grades of an input lie between zero and the maximum of the exercise. *)
Definition grades_in_range (info : EntryInfo) (i : ExerciseInput) : Prop :=
  0 <= e_max_points info /\ forall s, s ∈ in_submissions i -> 0 <= grade s <= e_max_points info.

(** The invariant of an exercise entry: what is shown is not more than the truth,
    and the truth is in range. *)
Definition entry_ok (info : EntryInfo) (ep : ExercisePoints) : Prop :=
  0 <= ep_points ep <= ep_true_points ep /\ ep_true_points ep <= e_max_points info /\
  (ep_passed ep = true -> ep_true_passed ep = true).

Lemma generate_exercise_ok show info i now :
  grades_in_range info i -> entry_ok info (post_build show (generate_exercise info i now)).
Proof.
  intros [Hm Hg]. unfold entry_ok, generate_exercise.
  assert (Hb : 0 <= b_points (choose_best info (in_groups i) (in_submissions i)) <= e_max_points info).
  { pose proof (choose_best_member info (in_groups i) (in_submissions i)) as Hb.
    destruct (b_final _); [destruct Hb as [Hs ->]; by apply Hg|rewrite Hb; lia]. }
  destruct (match in_submissions i with [] => _ | _ => _ end) as [[sz revealed] time]. cbn.
  destruct revealed; cbn; [|lia]. split; [lia|]. split; [lia|done].
Qed.

(** A revealed entry shows the truth. *)
Lemma generate_exercise_revealed info i now :
  let ep := post_build false (generate_exercise info i now) in
  ep_feedback_revealed ep = true ->
  ep_points ep = ep_true_points ep /\ ep_passed ep = ep_true_passed ep.
Proof.
  unfold generate_exercise.
  destruct (match in_submissions i with [] => _ | _ => _ end) as [[sz revealed] time]. cbn.
  by intros ->.
Qed.

(** ** What a student sees before the reveal *)

(** The fields of a submission entry that pages and the API show. *)
Definition view_submission (e : SubmissionEntry) :=
  (se_id e, submission_points e, submission_passed e, se_graded e, se_status e, se_unofficial e,
   se_date e, se_force_exercise_points e, se_is_assessed e, se_late_penalty_applied e,
   se_group_id e, se_feedback_revealed e, se_feedback_reveal_time e).

(** What is shown of an exercise entry: everything but its [_true_] fields. *)
Definition view (ep : ExercisePoints) :=
  ((points_of ep, passed_of ep, view_submission <$> best_of ep, view_submission <$> ep_submissions ep,
    official_points ep, ep_submission_count ep),
   (ep_graded ep, ep_unofficial ep, ep_forced_points ep, ep_notified ep, ep_unseen ep,
    ep_feedback_revealed ep, ep_feedback_reveal_time ep, ep_personal_deadline ep,
    ep_personal_max_submissions ep)).

(** The same input with other grades. *)
Definition with_grades (f : Submission -> Z) (i : ExerciseInput) : ExerciseInput :=
  mkInput ((fun s => set_grade (f s) s) <$> in_submissions i) (in_deadline_deviations i)
    (in_submission_deviations i) (in_groups i) (in_reveal_rule i) (in_notifications i)
    (in_exercise_deviations i).

Definition hidden (info : EntryInfo) (i : ExerciseInput) (now : datetime) : bool :=
  negb (ep_feedback_revealed (generate_exercise info i now)).

(** What remains of a submission entry while its feedback is hidden. *)
Definition masked (info : EntryInfo) (groups : list StudentGroup) (time : option datetime)
    (s : Submission) :=
  (sub_id s, 0, false, is_graded s, sub_status s,
   bool_decide (sub_status s = SubStatus.UNOFFICIAL), submission_time s, force_exercise_points s,
   is_assessed s, late_penalty_applied s, se_group_id (submission_entry info groups s), false, time).

Lemma view_masked info groups time s :
  view_submission (reveal_submission false time (submission_entry info groups s))
  = masked info groups time s.
Proof. done. Qed.

Lemma masked_grade info groups time g s :
  masked info groups time (set_grade g s) = masked info groups time s.
Proof. done. Qed.

(** The choice of the last submission looks only at which entries are unofficial. *)
Lemma keep_official_fmap {A B} (f : A -> B) (u : B -> bool) l acc :
  foldl (keep_official u) (f <$> acc) (f <$> l) = f <$> foldl (keep_official (u ∘ f)) acc l.
Proof.
  revert acc. induction l as [|x l IH]; intros acc; [done|]. cbn [foldl fmap list_fmap].
  assert (E : keep_official u (f <$> acc) (f x) = f <$> keep_official (u ∘ f) acc x)
    by (destruct acc as [a|]; cbn; [by destruct (u (f a) && _)|done]).
  change (list_fmap A B f) with (fmap (M := list) f). by rewrite <- IH, <- E.
Qed.

(** The submission shown as the best one while hidden does not depend on grades. *)
Lemma last_submission_grades info groups time f l :
  view_submission <$> (reveal_submission false time <$>
    last_submission (submission_entry info groups <$> ((fun s => set_grade (f s) s) <$> l)))
  = view_submission <$> (reveal_submission false time <$>
      last_submission (submission_entry info groups <$> l)).
Proof.
  unfold last_submission. rewrite <- list_fmap_compose.
  rewrite <- !option_fmap_compose.
  pose proof (keep_official_fmap (submission_entry info groups) se_unofficial l None) as E1.
  pose proof (keep_official_fmap (submission_entry info groups ∘ (fun s => set_grade (f s) s))
                se_unofficial l None) as E2.
  cbn [fmap option_fmap option_map] in E1, E2. unfold fmap in *. rewrite E1, E2.
  rewrite <- !option_fmap_compose. by apply option_fmap_ext.
Qed.

Lemma generate_hidden info i now :
  hidden info i now = true ->
  in_submissions i <> [] /\
  is_revealed (in_reveal_rule i)
    (exercise_reveal_state info i (b_points (choose_best info (in_groups i) (in_submissions i)))
       (count_submissions (in_submissions i))) now = false.
Proof.
  unfold hidden, generate_exercise. destruct (in_submissions i) as [|s l]; [done|]. cbn.
  intros H. b2p. done.
Qed.

(** The reveal time of an entry, which no grade enters. *)
Definition entry_reveal_time (info : EntryInfo) (i : ExerciseInput) : option datetime :=
  get_reveal_time (in_reveal_rule i) (exercise_reveal_state info i 0 0).

Lemma reveal_time_state info i p c :
  get_reveal_time (in_reveal_rule i) (exercise_reveal_state info i p c) = entry_reveal_time info i.
Proof. unfold entry_reveal_time, get_reveal_time. by destruct (trigger (in_reveal_rule i)). Qed.

(** Everything shown of a hidden entry. *)
Lemma hidden_view info i now :
  hidden info i now = true -> show_zero_points_immediately (in_reveal_rule i) = false ->
  let b := choose_best info (in_groups i) (in_submissions i) in
  let time := entry_reveal_time info i in
  let last := view_submission <$> (reveal_submission false time <$>
                last_submission (submission_entry info (in_groups i) <$> in_submissions i)) in
  view (post_build false (generate_exercise info i now))
  = ((0, false, last, masked info (in_groups i) time <$> in_submissions i, 0,
      count_submissions (in_submissions i)),
     (b_graded b, b_unofficial b, b_forced b,
      existsb (fun s => negb (length (notes_of i s) =? 0)%nat) (in_submissions i),
      existsb (fun s => existsb (fun n => negb (note_seen n)) (notes_of i s)) (in_submissions i),
      false, time, personal_deadline info (in_deadline_deviations i),
      personal_max_submissions info (in_submission_deviations i))).
Proof.
  intros Hh Hz b time last. destruct (generate_hidden _ _ _ Hh) as [Hne Hr].
  unfold generate_exercise.
  assert (Hm : forall A (x y : A), match in_submissions i with [] => x | _ => y end = y)
    by (intros; by destruct (in_submissions i)).
  rewrite Hm, Hr, Hz, reveal_time_state. fold time b.
  unfold view, post_build, official_points, points_of, passed_of, best_of.
  cbn [ep_feedback_revealed orb revealable ep_points ep_passed ep_best ep_submissions ep_true_points
       ep_true_passed ep_true_best ep_show_zero_points_immediately negb ep_submission_count ep_graded
       ep_unofficial ep_forced_points ep_notified ep_unseen ep_feedback_reveal_time
       ep_personal_deadline ep_personal_max_submissions andb].
  assert (Hid : forall o : option SubmissionEntry, (fun e => reveal_entry false e) <$> o = o)
    by (intros []; done).
  rewrite <- !list_fmap_compose, Hid. fold last.
  assert (E : forall o : option SubmissionEntry,
    match reveal_submission false time <$> o with
    | Some e => if b_unofficial b then 0 else submission_points e
    | None => 0
    end = 0) by (intros []; cbn; by destruct (b_unofficial b)).
  by rewrite E.
Qed.

(** C14. No interference of hidden grades: while the reveal rule hides the results
    of an exercise (and does not show zero points at once), everything a student
    can see of the exercise, the number, kind, dates and points of the
    submissions, the best submission, the pass state and the flags, is the same
    whatever grades the submissions have, and shows zero points and no pass. *)
Theorem hidden_grades_not_observable info i f now :
  hidden info i now = true -> hidden info (with_grades f i) now = true ->
  show_zero_points_immediately (in_reveal_rule i) = false ->
  let shown := post_build false (generate_exercise info i now) in
  view shown = view (post_build false (generate_exercise info (with_grades f i) now)) /\
  points_of shown = 0 /\ passed_of shown = false /\ official_points shown = 0.
Proof.
  intros H1 H2 Hz. pose proof (hidden_view _ _ _ H1 Hz) as V1.
  pose proof (hidden_view _ _ _ H2 Hz) as V2. cbv zeta in V1, V2 |- *.
  split; [|injection V1 as E1 E2 _ _ E3 _; done]. rewrite V1, V2. clear V1 V2.
  set (l := in_submissions i).
  change (in_submissions (with_grades f i)) with ((fun s => set_grade (f s) s) <$> l).
  assert (Hex : forall p : Submission -> bool, (forall s g, p (set_grade g s) = p s) ->
    existsb p ((fun s => set_grade (f s) s) <$> l) = existsb p l).
  { intros p Hp. induction l as [|s l IH]; cbn; [done|]. by rewrite Hp, <- IH. }
  destruct (choose_best_flags info (in_groups i) l) as (F1 & G1 & U1).
  destruct (choose_best_flags info (in_groups i) ((fun s => set_grade (f s) s) <$> l)) as (F2 & G2 & U2).
  change (in_groups (with_grades f i)) with (in_groups i).
  rewrite F1, F2, G1, G2, U1, U2. unfold exists_forced, exists_ready, exists_unofficial.
  rewrite !Hex by done.
  change (entry_reveal_time info (with_grades f i)) with (entry_reveal_time info i).
  rewrite last_submission_grades, <- list_fmap_compose.
  assert (Ec : count_submissions ((fun s => set_grade (f s) s) <$> l) = count_submissions l).
  { unfold count_submissions. f_equal. clear. induction l as [|s l IH]; cbn; [done|].
    destruct (bool_decide _); cbn; by rewrite <- IH. }
  rewrite Ec. done.
Qed.

(** ** The validity of a cached entry *)

(** src/lib/cache/cached.py: ProxyManager.fetch lines 96-98.  A stored entry is used
    at time [t] unless it has expired before. *)
Definition still_valid (expires_on : option Z) (t : Z) : bool :=
  match expires_on with
  | Some r => negb (r <? t)
  | None => true
  end.

(** Up to its expiry an entry does not depend on the clock. *)
Lemma entry_until_expiry info i now t :
  now <= t -> still_valid (ep_expires_on (generate_exercise info i now)) t = true ->
  generate_exercise info i t = generate_exercise info i now.
Proof.
  intros Ht. unfold generate_exercise. destruct (in_submissions i) as [|s l] eqn:El; [done|].
  rewrite <- El. cbn [ep_expires_on].
  set (state := exercise_reveal_state _ _ _ _). intros Hv.
  assert (E : is_revealed (in_reveal_rule i) state t = is_revealed (in_reveal_rule i) state now);
    [|by rewrite E].
  unfold is_revealed, is_revealed_due_to_time.
  destruct (get_reveal_time (in_reveal_rule i) state) as [r|]; cbn in Hv; [|done]. b2p.
  assert ((r <? t) = false) as -> by lia. assert ((r <? now) = false) as -> by lia. done.
Qed.

(** An exercise entry taken from the cache is the entry that would be generated
    now: as long as an entry made at [now] has not expired at a later [t],
    generating it again at [t] gives the same entry. *)
Theorem cached_entry_is_current info i now t :
  now <= t -> still_valid (ep_expires_on (generate_exercise info i now)) t = true ->
  generate_exercise info i t = generate_exercise info i now.
Proof. apply entry_until_expiry. Qed.

(** An entry made after its reveal time has expired when it is stored, so it is
    generated again on every use. *)
Lemma revealed_entry_expires_at_once info i now r :
  get_reveal_time (in_reveal_rule i)
    (exercise_reveal_state info i (b_points (choose_best info (in_groups i) (in_submissions i)))
       (count_submissions (in_submissions i))) = Some r ->
  in_submissions i <> [] -> r < now ->
  still_valid (ep_expires_on (generate_exercise info i now)) now = false.
Proof.
  intros Hr Hne Hlt. unfold generate_exercise. destruct (in_submissions i) as [|s l]; [done|].
  cbn [ep_expires_on]. rewrite Hr. cbn. apply negb_false_iff. lia.
Qed.

(** [next_timestamp] returns the smallest of all the timestamps, also one that has
    passed, and fails on a missing one. *)
Lemma next_timestamp_of_past :
  next_timestamp [Some 5; Some 100] 50 = Ret (Some 5) /\
  next_timestamp [None; Some 100] 50 = Raise TypeError.
Proof. split; reflexivity. Qed.

(** ** Witnesses *)

(** An exercise of ten points, closing at 1000, graded by the best submission. *)
Definition example_entry : EntryInfo :=
  mkEntry 1 None 1 CategoryStatus.READY false 1 ModuleStatus.READY LObjStatus.READY 1 "ex" "1.1 ex"
    "1.1" 0 None 1000 false 0 100 [] true 5 "" 10 10 false (Some GradingMode.BEST).

(** Three submissions, newest first: waiting, ready with seven points, unofficial with nine. *)
Definition example_submissions : list Submission :=
  [ example_submission 9 SubStatus.WAITING [example_student 1];
    set_grade 7 (example_submission 8 SubStatus.READY [example_student 1]);
    set_grade 9 (example_submission 6 SubStatus.UNOFFICIAL [example_student 1]) ].

Definition example_input (l : list Submission) : ExerciseInput :=
  mkInput l [] [] [] (mkRevealRule RevealTrigger.DEADLINE None None false false) [] [].

Lemma cache_agrees_with_query_witness :
  let b := choose_best example_entry [] example_submissions in
  (if b_graded b then b_points b else 0)
  = annotate_submitter_points (example_exercise 1 2) None false example_submissions /\
  b_points b = 7.
Proof.
  split; [|reflexivity]. apply (cache_agrees_with_query example_entry [] (example_exercise 1 2)).
  - reflexivity.
  - vm_compute. lia.
  - apply NoDup_ListNoDup. vm_compute. repeat constructor; cbn; intuition discriminate.
Defined.

Lemma hidden_grades_not_observable_witness :
  view (post_build false (generate_exercise example_entry (example_input example_submissions) 500))
  = view (post_build false (generate_exercise example_entry
            (with_grades (fun _ => 10) (example_input example_submissions)) 500)).
Proof.
  apply (hidden_grades_not_observable example_entry (example_input example_submissions)
           (fun _ => 10) 500); reflexivity.
Defined.

Lemma cached_entry_is_current_witness :
  generate_exercise example_entry (example_input example_submissions) 1000
  = generate_exercise example_entry (example_input example_submissions) 500.
Proof.
  apply (cached_entry_is_current example_entry (example_input example_submissions) 500 1000);
    [lia|reflexivity].
Defined.

(** With [show_zero_points_immediately] a viewer with the right to see unrevealed
    results still gets the submission of an unrevealed exercise hidden. *)
Lemma show_unrevealed_skips_submissions :
  let rule := mkRevealRule RevealTrigger.DEADLINE None None false true in
  let l := [set_grade 7 (example_submission 8 SubStatus.READY [example_student 1])] in
  let ep := post_build true
    (generate_exercise example_entry (mkInput l [] [] [] rule [] []) 500) in
  points_of ep = 7 /\ submission_points <$> ep_submissions ep = [0].
Proof. split; reflexivity. Qed.
