(* ===== verification/CoursePoints.v ===== *)
(** * Cached points of a student in a course

    [exercise/cache/points.py] above the single exercise: chapters and exercises
    with children ([LearningObjectPoints]), modules ([ModulePoints]) and the
    course instance ([CachedPointsData]), with the points that count only once a
    confirming exercise of their level is passed. *)

From Stdlib Require Import QArith.
From S2P Require Import Prelude Binary64 Helpers Course Deviations Reveal Models Exercise Submission Entries Points.
#[local] Open Scope Z_scope.

(** ** Learning objects *)

(** The content tree of a module: an entry with its children. *)
Inductive LTree := LNode (info : EntryInfo) (kids : list LTree).

(** src/exercise/cache/points.py: CommonPointData *)
Record Common := mkCommon {
  c_submission_count : Z;
  c_true_passed : bool;
  c_passed : bool;
  c_true_points : Z;
  c_points : Z;
  c_feedback_revealed : bool;
  c_max_points : Z;
  c_true_children_unconfirmed : bool;
  c_children_unconfirmed : bool;
  c_confirmable_children : bool;
  c_expires_on : option Z;
}.

(** src/exercise/cache/points.py: LearningObjectPoints lines 398-407.  An entry with
    its points; an exercise also has the data of its submissions. *)
Inductive PNode := PN (info : EntryInfo) (c : Common) (ex : option ExercisePoints) (kids : list PNode).

Definition p_info (n : PNode) : EntryInfo := match n with PN i _ _ _ => i end.
Definition p_common (n : PNode) : Common := match n with PN _ c _ _ => c end.
Definition p_exercise (n : PNode) : option ExercisePoints := match n with PN _ _ e _ => e end.
Definition p_kids (n : PNode) : list PNode := match n with PN _ _ _ k => k end.

Definition confirms (n : PNode) : bool := e_confirm_the_level (p_info n).
Definition visible (n : PNode) : bool := entry_is_visible (p_info n).

(** [any(entry.confirm_the_level for entry in self.children)] *)
Definition must_confirm (kids : list PNode) : bool := existsb confirms kids.

(** src/exercise/cache/points.py: LearningObjectPoints._generate_common lines 519-527 *)
Definition confirmable (kids : list PNode) : bool :=
  existsb (fun k => negb (confirms k) && (0 <? c_submission_count (p_common k))) kids.

(** The chapter's points before any child is added. *)
Definition empty_common (kids : list PNode) : Common :=
  mkCommon 0 true true 0 0 true 0 (must_confirm kids) (must_confirm kids) (confirmable kids) None.

(** [type(entry) is LearningObjectPoints or entry.graded] *)
Definition counts_in_parent (n : PNode) : bool :=
  match p_exercise n with
  | Some ep => ep_graded ep
  | None => true
  end.

(** One turn of the loop over the children. *)
Definition add_child (c : Common) (entry : PNode) : Common :=
  let e := p_common entry in
  if confirms entry then
    mkCommon (c_submission_count c) (c_true_passed c) (c_passed c) (c_true_points c) (c_points c)
      (c_feedback_revealed c) (c_max_points c)
      (c_true_children_unconfirmed c && negb (c_true_passed e))
      (c_children_unconfirmed c && negb (c_passed e)) (c_confirmable_children c) (c_expires_on c)
  else if visible entry then
    mkCommon (c_submission_count c + c_submission_count e) (c_true_passed c) (c_passed c)
      (c_true_points c + if counts_in_parent entry then c_true_points e else 0)
      (c_points c + if counts_in_parent entry then c_points e else 0)
      (c_feedback_revealed c && c_feedback_revealed e) (c_max_points c + c_max_points e)
      (c_true_children_unconfirmed c) (c_children_unconfirmed c) (c_confirmable_children c)
      (none_min (c_expires_on c) (c_expires_on e))
  else c.

(** src/exercise/cache/points.py: LearningObjectPoints._generate_data *)
Definition generate_chapter (kids : list PNode) : Common :=
  foldl add_child (empty_common kids) kids.

(** src/exercise/cache/points.py: CommonPointData.reveal *)
Definition reveal_common (show : bool) (c : Common) : Common :=
  mkCommon (c_submission_count c) (c_true_passed c) (c_passed c) (c_true_points c) (c_points c)
    (show || c_feedback_revealed c) (c_max_points c) (c_true_children_unconfirmed c)
    (c_children_unconfirmed c) (c_confirmable_children c) (c_expires_on c).

(** The common fields of an exercise entry. *)
Definition exercise_common (info : EntryInfo) (ep : ExercisePoints) (kids : list PNode) : Common :=
  mkCommon (ep_submission_count ep) (ep_true_passed ep) (ep_passed ep) (ep_true_points ep)
    (ep_points ep) (ep_feedback_revealed ep) (e_max_points info) (must_confirm kids)
    (must_confirm kids) (confirmable kids) (ep_expires_on ep).

(** src/exercise/cache/points.py: LearningObjectPoints._generate_data lines 534-536,
    src/lib/cache/cached.py: CacheBase._build.  The entry of a learning object: its
    children are built first, then an exercise or a chapter is generated, then
    the modifier [show_unrevealed] of the request is applied. *)
Fixpoint generate_node (show : bool) (inputs : Z -> ExerciseInput) (now : datetime) (t : LTree)
    : PNode :=
  match t with
  | LNode info kids =>
      let kids := map (generate_node show inputs now) kids in
      if e_submittable info then
        let ep := post_build show (generate_exercise info (inputs (e_id info)) now) in
        PN info (exercise_common info ep kids) (Some ep) kids
      else PN info (reveal_common show (generate_chapter kids)) None kids
  end.

(** ** Statistics by difficulty *)

(** src/exercise/cache/points.py: DifficultyStats *)
Record Stats := mkStats {
  s_submission_count : Z;
  s_true_points : Z;
  s_points : Z;
  s_feedback_revealed : bool;
  s_true_by_difficulty : gmap string Z;
  s_by_difficulty : gmap string Z;
  s_true_unconfirmed : gmap string Z;
  s_unconfirmed : gmap string Z;
}.

Definition no_stats : Stats := mkStats 0 0 0 true ∅ ∅ ∅ ∅.

(** An exercise entry together with the [_true_unconfirmed] and [_unconfirmed]
    state of its level. *)
Record Counted := mkCounted {
  k_info : EntryInfo;
  k_points : ExercisePoints;
  k_true_unconfirmed : bool;
  k_unconfirmed : bool;
}.

(** src/exercise/cache/points.py: _add_to *)
Definition points_add_to (target : Stats) (entry : Counted) : Stats :=
  let ep := k_points entry in
  let d := e_difficulty (k_info entry) in
  let revealed := s_feedback_revealed target && ep_feedback_revealed ep in
  if negb (ep_graded ep) then
    mkStats (s_submission_count target) (s_true_points target) (s_points target) revealed
      (s_true_by_difficulty target) (s_by_difficulty target) (s_true_unconfirmed target)
      (s_unconfirmed target)
  else
    let count := s_submission_count target + ep_submission_count ep in
    if ep_unofficial ep then
      mkStats count (s_true_points target) (s_points target) revealed
        (s_true_by_difficulty target) (s_by_difficulty target) (s_true_unconfirmed target)
        (s_unconfirmed target)
    else
      let tu := k_true_unconfirmed entry in
      let u := k_unconfirmed entry in
      mkStats count
        (if tu then s_true_points target else s_true_points target + ep_true_points ep)
        (if u then s_points target else s_points target + ep_points ep) revealed
        (if tu then s_true_by_difficulty target
         else add_by_difficulty (s_true_by_difficulty target) d (ep_true_points ep))
        (if u then s_by_difficulty target
         else add_by_difficulty (s_by_difficulty target) d (ep_points ep))
        (if tu then add_by_difficulty (s_true_unconfirmed target) d (ep_true_points ep)
         else s_true_unconfirmed target)
        (if u then add_by_difficulty (s_unconfirmed target) d (ep_points ep)
         else s_unconfirmed target).

(** An entry that enters the points of its module, category and course. *)
Definition counted_entry (n : PNode) (true_unconfirmed unconfirmed : bool) : option Counted :=
  match p_exercise n with
  | Some ep => if negb (confirms n) && visible n
               then Some (mkCounted (p_info n) ep true_unconfirmed unconfirmed) else None
  | None => None
  end.

Definition reveal_stats (show : bool) (s : Stats) : Stats :=
  mkStats (s_submission_count s) (s_true_points s) (s_points s) (show || s_feedback_revealed s)
    (s_true_by_difficulty s) (s_by_difficulty s) (s_true_unconfirmed s) (s_unconfirmed s).

(** The points shown of a module, category or course. *)
Definition shown_points (s : Stats) : Z :=
  revealable (s_feedback_revealed s) (s_true_points s) (s_points s).

(** ** Modules *)

(** src/exercise/cache/points.py: ModulePoints._generate_data lines 959-964
    ([add_points]).  Each visible exercise below the module is added, with the
    confirmation state of its own level; the expiry time is the earliest. *)
Fixpoint add_points (true_unconfirmed unconfirmed : bool) (acc : Stats * option Z) (entry : PNode)
    : Stats * option Z :=
  match entry with
  | PN info c ex kids =>
      let acc := match counted_entry entry true_unconfirmed unconfirmed with
                 | Some k => (points_add_to (fst acc) k,
                              none_min (snd acc) (ep_expires_on (k_points k)))
                 | None => acc
                 end in
      fold_left (add_points (c_true_children_unconfirmed c) (c_children_unconfirmed c)) kids acc
  end.

(** src/exercise/reveal_states.py: ModuleRevealState._get_exercises *)
Fixpoint exercises_below (entry : PNode) : list (EntryInfo * ExercisePoints) :=
  match entry with
  | PN info _ ex kids =>
      match ex with Some ep => [(info, ep)] | None => [] end ++ flat_map exercises_below kids
  end.

Definition module_common_deadlines (m : CourseModule) : list datetime :=
  common_deadlines (closing_time m) (late_submissions_allowed m) (late_submission_deadline m)
    (get_late_submission_point_worth m).

Definition points_deadline (x : EntryInfo * ExercisePoints) : datetime :=
  exercise_deadline (fst x) (fst <$> ep_personal_deadline (snd x)).

Definition points_max_submissions (x : EntryInfo * ExercisePoints) : Z :=
  state_max_submissions (fst x) (ep_personal_max_submissions (snd x)).

(** src/exercise/reveal_states.py: ModuleRevealState.get_deadline *)
Definition module_deadline (m : CourseModule) (exercises : list (EntryInfo * ExercisePoints))
    : datetime :=
  match exercises with
  | [] => max_list (module_common_deadlines m)
  | _ => max_list (points_deadline <$> exercises)
  end.

(** [order_by('-extra_seconds').first()] on the deviations of the module's exercises. *)
Fixpoint longest_deviation (l : list DeadlineRuleDeviation) : option DeadlineRuleDeviation :=
  match l with
  | [] => None
  | d :: l =>
      match longest_deviation l with
      | Some d' => if extra_seconds d <? extra_seconds d' then Some d' else Some d
      | None => Some d
      end
  end.

(** src/exercise/reveal_states.py: ModuleRevealState.get_latest_deadline *)
Definition module_latest_deadline (m : CourseModule) (exercises : list (EntryInfo * ExercisePoints))
    (deviations : list DeadlineRuleDeviation) : result datetime :=
  let common := module_common_deadlines m in
  match (match exercises with [] => None | _ => longest_deviation deviations end) with
  | None => Ret (max_list common)
  | Some d =>
      match find (fun x => e_id (fst x) =? dl_exercise d) (rev exercises) with
      | Some x => Ret (max_list (common ++ [get_new_deadline d (e_closing_time (fst x))]))
      | None => Raise KeyError
      end
  end.

(** src/exercise/reveal_states.py: ModuleRevealState.  The latest deadline is
    queried only by the trigger that uses it. *)
Definition module_reveal_state (rule : RevealRule) (m : CourseModule) (max_points : Z)
    (exercises : list (EntryInfo * ExercisePoints)) (deviations : list DeadlineRuleDeviation)
    : result RevealState :=
  let! latest := match trigger rule with
                 | RevealTrigger.DEADLINE_ALL =>
                     let! d := module_latest_deadline m exercises deviations in Ret (Some d)
                 | _ => Ret None
                 end in
  Ret (mkRevealState (Some (sumZ ((fun x => points_of (snd x)) <$> exercises))) (Some max_points)
         (Some (sumZ ((fun x => Z.min (ep_submission_count (snd x)) (points_max_submissions x))
                        <$> exercises)))
         (Some (sumZ (points_max_submissions <$> exercises)))
         (Some (module_deadline m exercises)) latest).

(** src/exercise/cache/points.py: ModulePoints *)
Record ModulePoints := mkModulePoints {
  mp_stats : Stats;
  mp_true_passed : bool;
  mp_passed : bool;
  mp_true_children_unconfirmed : bool;
  mp_children_unconfirmed : bool;
  mp_confirmable_children : bool;
  mp_is_model_answer_revealed : bool;
  mp_module_goal_points : option Z;
  mp_expires_on : option Z;
  mp_children : list PNode;
}.

(** src/exercise/cache/points.py: ModulePoints._generate_data lines 939-948 *)
Definition module_unconfirmed (passed : Common -> bool) (kids : list PNode) : bool :=
  must_confirm kids
  && forallb (fun k => negb (confirms k) || negb (passed (p_common k))) kids.

(** src/exercise/cache/points.py: ModulePoints._generate_data.  [goal] is the goal
    the student has set for the module, [cached_at] the time at which the entry
    of the course instance was made. *)
Definition generate_module (m : CourseModule) (max_points : Z) (rule : option RevealRule)
    (deviations : list DeadlineRuleDeviation) (goal : option Z) (cached_at now : datetime)
    (kids : list PNode) : result ModulePoints :=
  let tu := module_unconfirmed c_true_passed kids in
  let u := module_unconfirmed c_passed kids in
  let '(stats, expires) := fold_left (add_points tu u) kids (no_stats, None) in
  let true_passed := module_points_to_pass m <=? s_true_points stats in
  let passed := module_points_to_pass m <=? s_points stats in
  let mk := mkModulePoints stats true_passed passed tu u (confirmable kids) in
  match rule with
  | None => Ret (mk true goal expires kids)
  | Some rule =>
      let exercises := flat_map exercises_below kids in
      let! state := module_reveal_state rule m max_points exercises deviations in
      let start := lifesupport_start (module_instance m) in
      let! expires := next_timestamp [get_reveal_time rule state; Some start] now in
      Ret (mk (is_revealed rule state now && negb (is_on_lifesupport (module_instance m) cached_at))
              goal expires kids)
  end.

(** src/exercise/cache/points.py: ModulePoints.post_build *)
Definition module_post_build (show : bool) (mp : ModulePoints) : ModulePoints :=
  mkModulePoints (reveal_stats show (mp_stats mp)) (mp_true_passed mp) (mp_passed mp)
    (mp_true_children_unconfirmed mp) (mp_children_unconfirmed mp) (mp_confirmable_children mp)
    (mp_is_model_answer_revealed mp) (mp_module_goal_points mp) (mp_expires_on mp) (mp_children mp).

(** ** The course instance *)

(** src/exercise/cache/points.py: CategoryPoints *)
Record CategoryPoints := mkCategoryPoints {
  cp_points_to_pass : Z;
  cp_stats : Stats;
  cp_true_passed : bool;
  cp_passed : bool;
}.

(** The entries below a level that carries the given confirmation state. *)
Fixpoint entries_below (true_unconfirmed unconfirmed : bool) (entry : PNode)
    : list (PNode * bool * bool) :=
  match entry with
  | PN _ c _ kids =>
      (entry, true_unconfirmed, unconfirmed)
      :: flat_map (entries_below (c_true_children_unconfirmed c) (c_children_unconfirmed c)) kids
  end.

(** All entries of a module. *)
Definition module_entries (mp : ModulePoints) : list (PNode * bool * bool) :=
  flat_map (entries_below (mp_true_children_unconfirmed mp) (mp_children_unconfirmed mp))
    (mp_children mp).

Definition entry_of (x : PNode * bool * bool) : PNode := fst (fst x).
Definition counted_of (x : PNode * bool * bool) : option Counted :=
  counted_entry (entry_of x) (snd (fst x)) (snd x).

(** The entry of an id in the exercise index. *)
Definition index_entry (modules : list ModulePoints) (i : Z) : option (PNode * bool * bool) :=
  find (fun x => e_id (p_info (entry_of x)) =? i) (flat_map module_entries modules).

(** The points of a course instance while they are added up. *)
Record InstancePoints := mkInstancePoints {
  ip_categories : gmap Z CategoryPoints;
  ip_total : Stats;
  ip_expires_on : option Z;
}.

(** One turn of the loop over the exercise index. *)
Definition add_indexed (acc : result InstancePoints) (entry : option Counted) : result InstancePoints :=
  let! a := acc in
  match entry with
  | None => Ret a
  | Some k =>
      match ip_categories a !! e_category_id (k_info k) with
      | None => Raise KeyError
      | Some c =>
          Ret (mkInstancePoints
                 (<[ e_category_id (k_info k) :=
                       mkCategoryPoints (cp_points_to_pass c) (points_add_to (cp_stats c) k)
                         (cp_true_passed c) (cp_passed c) ]> (ip_categories a))
                 (points_add_to (ip_total a) k)
                 (none_min (ip_expires_on a) (ep_expires_on (k_points k))))
      end
  end.

Definition category_done (c : CategoryPoints) : CategoryPoints :=
  mkCategoryPoints (cp_points_to_pass c) (cp_stats c)
    (cp_points_to_pass c <=? s_true_points (cp_stats c))
    (cp_points_to_pass c <=? s_points (cp_stats c)).

(** src/exercise/cache/points.py: CachedPointsData._generate_data.  [to_pass] are the
    points to pass of the categories of the course, [index] the ids of its
    learning objects. *)
Definition generate_instance (to_pass : gmap Z Z) (index : list Z) (modules : list ModulePoints)
    : result InstancePoints :=
  let categories := (fun p => mkCategoryPoints p no_stats false false) <$> to_pass in
  let! a := foldl add_indexed (Ret (mkInstancePoints categories no_stats None))
              ((fun i => x ← index_entry modules i; counted_of x) <$> index) in
  Ret (mkInstancePoints (category_done <$> ip_categories a) (ip_total a) (ip_expires_on a)).

(** ** The recursion over the tree adds the entries one by one *)

Section PNodeInd.
Context (P : PNode -> Prop).
Hypothesis Hnode : forall info c ex kids, Forall P kids -> P (PN info c ex kids).

Fixpoint PNode_nested_ind (n : PNode) : P n :=
  match n with
  | PN info c ex kids =>
      Hnode info c ex kids
        ((fix go (l : list PNode) : Forall P l :=
            match l with
            | [] => List.Forall_nil P
            | k :: l => List.Forall_cons P k l (PNode_nested_ind k) (go l)
            end) kids)
  end.
End PNodeInd.

Definition add_entry (acc : Stats * option Z) (x : PNode * bool * bool) : Stats * option Z :=
  match counted_of x with
  | Some k => (points_add_to (fst acc) k, none_min (snd acc) (ep_expires_on (k_points k)))
  | None => acc
  end.

Lemma add_points_forest kids :
  Forall (fun n => forall tu u acc, add_points tu u acc n = fold_left add_entry (entries_below tu u n) acc) kids ->
  forall tu u acc, fold_left (add_points tu u) kids acc
                   = fold_left add_entry (flat_map (entries_below tu u) kids) acc.
Proof.
  induction 1 as [|n kids Hn _ IH]; intros tu u acc; [done|].
  cbn [fold_left flat_map]. by rewrite Hn, IH, fold_left_app.
Qed.

Lemma add_points_entries n tu u acc :
  add_points tu u acc n = fold_left add_entry (entries_below tu u n) acc.
Proof.
  revert tu u acc. induction n as [info c ex kids IH] using PNode_nested_ind. intros tu u acc.
  cbn [add_points entries_below fold_left]. by rewrite (add_points_forest kids IH).
Qed.

Lemma add_entries_stats l acc :
  fst (fold_left add_entry l acc) = foldl points_add_to (fst acc) (omap counted_of l).
Proof.
  revert acc. induction l as [|x l IH]; intros acc; [done|]. cbn. rewrite IH. unfold add_entry.
  by destruct (counted_of x).
Qed.

(** The statistics of a generated module are those of its entries. *)
Lemma generate_module_eq m max_points rule devs goal cached_at now kids mp :
  generate_module m max_points rule devs goal cached_at now kids = Ret mp ->
  mp_children mp = kids /\
  mp_true_children_unconfirmed mp = module_unconfirmed c_true_passed kids /\
  mp_children_unconfirmed mp = module_unconfirmed c_passed kids /\
  mp_stats mp = foldl points_add_to no_stats (omap counted_of (module_entries mp)).
Proof.
  unfold generate_module, module_entries.
  set (tu := module_unconfirmed c_true_passed kids). set (u := module_unconfirmed c_passed kids).
  assert (Hall : Forall (fun n => forall tu u acc,
            add_points tu u acc n = fold_left add_entry (entries_below tu u n) acc) kids)
    by (apply Forall_true; intros; apply add_points_entries).
  rewrite (add_points_forest kids Hall).
  pose proof (add_entries_stats (flat_map (entries_below tu u) kids) (no_stats, None)) as Es.
  destruct (fold_left add_entry _ _) as [stats expires]. cbn [fst] in Es. intros H.
  repeat break_hyp H; try discriminate; injection H as <-; done.
Qed.

(** ** What each entry contributes *)

Definition official (k : Counted) : bool :=
  ep_graded (k_points k) && negb (ep_unofficial (k_points k)).
Definition true_contribution (k : Counted) : Z :=
  if official k && negb (k_true_unconfirmed k) then ep_true_points (k_points k) else 0.
Definition contribution (k : Counted) : Z :=
  if official k && negb (k_unconfirmed k) then ep_points (k_points k) else 0.
Definition true_pending (k : Counted) : Z :=
  if official k && k_true_unconfirmed k then ep_true_points (k_points k) else 0.
Definition pending (k : Counted) : Z :=
  if official k && k_unconfirmed k then ep_points (k_points k) else 0.

(** A number of the statistics that grows with each entry by what it contributes. *)
Class Measure (m : Stats -> Z) (f : Counted -> Z) := {
  measure_zero : m no_stats = 0;
  measure_add : forall s k, m (points_add_to s k) = m s + f k;
}.

Ltac solve_measure :=
  intros s k; unfold points_add_to, true_contribution, contribution, true_pending, pending, official;
  destruct (ep_graded (k_points k)), (ep_unofficial (k_points k)), (k_true_unconfirmed k),
    (k_unconfirmed k); cbn; rewrite ?add_by_difficulty_sum; lia.

#[export] Instance true_points_measure : Measure s_true_points true_contribution.
Proof. split; [done|solve_measure]. Qed.
#[export] Instance points_measure : Measure s_points contribution.
Proof. split; [done|solve_measure]. Qed.
#[export] Instance true_by_difficulty_measure :
  Measure (fun s => sumZ (values (s_true_by_difficulty s))) true_contribution.
Proof. split; [done|solve_measure]. Qed.
#[export] Instance by_difficulty_measure :
  Measure (fun s => sumZ (values (s_by_difficulty s))) contribution.
Proof. split; [done|solve_measure]. Qed.
#[export] Instance true_unconfirmed_measure :
  Measure (fun s => sumZ (values (s_true_unconfirmed s))) true_pending.
Proof. split; [done|solve_measure]. Qed.
#[export] Instance unconfirmed_measure :
  Measure (fun s => sumZ (values (s_unconfirmed s))) pending.
Proof. split; [done|solve_measure]. Qed.
#[export] Instance submission_count_measure :
  Measure s_submission_count
    (fun k => if ep_graded (k_points k) then ep_submission_count (k_points k) else 0).
Proof. split; [done|solve_measure]. Qed.

Lemma measure_foldl m f `{!Measure m f} l s :
  m (foldl points_add_to s l) = m s + sumZ (f <$> l).
Proof.
  revert s. induction l as [|k l IH]; intros s; cbn; [lia|].
  rewrite IH, measure_add. unfold sumZ. cbn. lia.
Qed.

Lemma measure_entries m f `{!Measure m f} l :
  m (foldl points_add_to no_stats l) = sumZ (f <$> l).
Proof. rewrite (measure_foldl m f), measure_zero. lia. Qed.

(** ** The course total *)

Section Instance.
Context (m : Stats -> Z) (f : Counted -> Z) `{!Measure m f}.

Lemma add_indexed_spec l a :
  (forall k, Some k ∈ l -> is_Some (ip_categories a !! e_category_id (k_info k))) ->
  exists a', foldl add_indexed (Ret a) l = Ret a' /\
    m (ip_total a') = m (ip_total a) + sumZ (f <$> omap id l) /\
    map_sum (m ∘ cp_stats) (ip_categories a')
      = map_sum (m ∘ cp_stats) (ip_categories a) + sumZ (f <$> omap id l).
Proof.
  revert a. induction l as [|o l IH]; intros a Hc; cbn.
  { exists a. split; [done|]. cbn. lia. }
  destruct o as [k|]; cbn.
  - destruct (Hc k) as [c Ec]; [by left|]. rewrite Ec.
    set (a1 := mkInstancePoints _ _ _).
    destruct (IH a1) as (a' & -> & Ht & Hm).
    { intros k' Hk'. cbn. rewrite lookup_insert_is_Some'. right. apply Hc. by right. }
    exists a'. split; [done|]. rewrite Ht, Hm. cbn.
    rewrite (map_sum_insert _ _ _ _ _ Ec). cbn. rewrite !measure_add. unfold sumZ. cbn. lia.
  - apply IH. intros k Hk. apply Hc. by right.
Qed.
End Instance.

(** The ids of the entries of the modules. *)
Definition module_ids (modules : list ModulePoints) : list Z :=
  (fun x => e_id (p_info (entry_of x))) <$> flat_map module_entries modules.

Lemma find_NoDup {A} (key : A -> Z) (l : list A) x :
  NoDup (key <$> l) -> x ∈ l -> find (fun y => key y =? key x) l = Some x.
Proof.
  induction l as [|y l IH]; intros Hnd Hx; [by apply not_elem_of_nil in Hx|].
  apply NoDup_cons in Hnd as [Hy Hnd]. cbn. apply elem_of_cons in Hx as [->|Hx].
  - by rewrite Z.eqb_refl.
  - destruct (Z.eqb_spec (key y) (key x)) as [E|]; [|by apply IH].
    exfalso. apply Hy. rewrite E. apply list_elem_of_fmap. eauto.
Qed.

(** The index finds each entry of the modules once. *)
Lemma indexed_entries modules index :
  NoDup (module_ids modules) -> index ≡ₚ module_ids modules ->
  omap id ((fun i => x ← index_entry modules i; counted_of x) <$> index)
  ≡ₚ omap counted_of (flat_map module_entries modules).
Proof.
  intros Hnd ->. unfold module_ids in *. rewrite <- list_fmap_compose.
  assert (E : forall l : list (PNode * bool * bool), (forall x, x ∈ l -> x ∈ flat_map module_entries modules) ->
    omap id (((fun i => x ← index_entry modules i; counted_of x)
       ∘ (fun x => e_id (p_info (entry_of x)))) <$> l) = omap counted_of l).
  { induction l as [|x l IH]; intros Hl; [done|]. cbn.
    unfold index_entry at 1. rewrite (find_NoDup (fun x => e_id (p_info (entry_of x))));
      [|done|apply Hl; by left]. cbn.
    rewrite IH by (intros y Hy; apply Hl; by right). done. }
  by rewrite E.
Qed.

(** The sum over the modules of what their entries contribute. *)
Lemma modules_sum m f `{!Measure m f} modules :
  Forall (fun mp => mp_stats mp = foldl points_add_to no_stats (omap counted_of (module_entries mp)))
    modules ->
  sumZ (m ∘ mp_stats <$> modules) = sumZ (f <$> omap counted_of (flat_map module_entries modules)).
Proof.
  induction 1 as [|mp l Hmp _ IH]; [done|]. cbn [flat_map].
  rewrite omap_app, fmap_app, sumZ_app, <- IH, <- (measure_entries m f), <- Hmp. done.
Qed.

Definition generated (mp : ModulePoints) : Prop :=
  exists m max_points rule devs goal cached_at now kids,
    generate_module m max_points rule devs goal cached_at now kids = Ret mp.

Lemma generated_stats modules :
  Forall generated modules ->
  Forall (fun mp => mp_stats mp = foldl points_add_to no_stats (omap counted_of (module_entries mp)))
    modules.
Proof.
  intros H0. eapply Forall_impl; [exact H0|]. intros mp (? & ? & ? & ? & ? & ? & ? & ? & H).
  apply generate_module_eq in H as (_ & _ & _ & H). exact H.
Qed.

(** A course total, a sum over the modules and a sum over the categories. *)
Definition adds_up (m : Stats -> Z) (modules : list ModulePoints) (ip : InstancePoints) : Prop :=
  m (ip_total ip) = sumZ (m ∘ mp_stats <$> modules) /\
  m (ip_total ip) = map_sum (m ∘ cp_stats) (ip_categories ip).

Section CourseTotal.
Context (to_pass : gmap Z Z) (index : list Z) (modules : list ModulePoints).
Hypothesis Hgen : Forall generated modules.
Hypothesis Hnd : NoDup (module_ids modules).
Hypothesis Hindex : index ≡ₚ module_ids modules.
Hypothesis Hcat : forall x, x ∈ flat_map module_entries modules ->
  is_Some (to_pass !! e_category_id (p_info (entry_of x))).

#[local] Abbreviation categories :=
  ((fun p => mkCategoryPoints p no_stats false false) <$> to_pass).
#[local] Abbreviation found := ((fun i => x ← index_entry modules i; counted_of x) <$> index).

Lemma found_category k :
  Some k ∈ found -> is_Some ((categories : gmap Z CategoryPoints) !! e_category_id (k_info k)).
Proof.
  intros Hk. rewrite lookup_fmap, fmap_is_Some.
  assert (Hin : k ∈ omap id found) by (apply list_elem_of_omap; eauto).
  rewrite (indexed_entries modules index Hnd Hindex) in Hin.
  apply list_elem_of_omap in Hin as (x & Hx & Ex).
  assert (k_info k = p_info (entry_of x)) as ->; [|by apply Hcat].
  unfold counted_of, counted_entry in Ex. repeat break_hyp Ex; by simplify_eq.
Qed.

Lemma instance_returns : exists ip, generate_instance to_pass index modules = Ret ip.
Proof.
  unfold generate_instance.
  destruct (add_indexed_spec s_points contribution found (mkInstancePoints categories no_stats None))
    as (a & -> & _); [apply found_category|]. cbn. eauto.
Qed.

Lemma instance_adds_up m f `{!Measure m f} ip :
  generate_instance to_pass index modules = Ret ip ->
  m (ip_total ip) = sumZ (f <$> omap counted_of (flat_map module_entries modules)) /\
  adds_up m modules ip.
Proof using Hgen Hnd Hindex Hcat.
  unfold generate_instance.
  destruct (add_indexed_spec m f found (mkInstancePoints categories no_stats None))
    as (a & -> & Ht & Hc); [apply found_category|].
  cbn [rbind]. intros [= <-]. unfold adds_up. cbn [ip_total ip_categories] in *.
  assert (Z0 : map_sum (m ∘ cp_stats) categories = 0).
  { rewrite map_sum_fmap. unfold map_sum. induction (map_to_list to_pass) as [|x q IH]; [done|].
    cbn in *. unfold sumZ in *. cbn. rewrite IH, measure_zero. done. }
  rewrite map_sum_fmap. change (map_sum ((m ∘ cp_stats) ∘ category_done) (ip_categories a))
    with (map_sum (m ∘ cp_stats) (ip_categories a)).
  rewrite Ht, Hc, Z0, measure_zero, (indexed_entries modules index Hnd Hindex).
  by rewrite (modules_sum m f modules (generated_stats _ Hgen)).
Qed.

(** The total and the total by difficulty add the same contributions. *)
Lemma same_contributions m1 m2 f `{!Measure m1 f, !Measure m2 f} ip :
  generate_instance to_pass index modules = Ret ip -> m1 (ip_total ip) = m2 (ip_total ip).
Proof using Hgen Hnd Hindex Hcat.
  intros H. destruct (instance_adds_up m1 f ip H) as [-> _].
  by destruct (instance_adds_up m2 f ip H) as [-> _].
Qed.

(** C16. The points of a student in a course add up: for generated modules whose
    entries are the exercise index, each in a category of the course, the course entry is generated without error,
    and its true points, visible points and submission count are the sums over
    the modules and over the categories of theirs; the points by difficulty of
    the course add up to its points. *)
Theorem course_points_add_up :
  exists ip, generate_instance to_pass index modules = Ret ip /\
    adds_up s_true_points modules ip /\ adds_up s_points modules ip /\
    adds_up s_submission_count modules ip /\
    sumZ (values (s_true_by_difficulty (ip_total ip))) = s_true_points (ip_total ip) /\
    sumZ (values (s_by_difficulty (ip_total ip))) = s_points (ip_total ip).
Proof using Hgen Hnd Hindex Hcat.
  destruct instance_returns as [ip H]. exists ip. split; [done|].
  split; [by apply (instance_adds_up s_true_points true_contribution)|].
  split; [by apply (instance_adds_up s_points contribution)|].
  split; [by apply (instance_adds_up s_submission_count _ ip H)|].
  split; [by apply (same_contributions (fun s => sumZ (values (s_true_by_difficulty s))) s_true_points true_contribution)
         |by apply (same_contributions (fun s => sumZ (values (s_by_difficulty s))) s_points contribution)].
Qed.
End CourseTotal.

(** ** Bounds of the points of a module *)

Section LTreeInd.
Context (P : LTree -> Prop).
Hypothesis Hnode : forall info kids, Forall P kids -> P (LNode info kids).

Fixpoint LTree_nested_ind (t : LTree) : P t :=
  match t with
  | LNode info kids =>
      Hnode info kids
        ((fix go (l : list LTree) : Forall P l :=
            match l with
            | [] => List.Forall_nil P
            | k :: l => List.Forall_cons P k l (LTree_nested_ind k) (go l)
            end) kids)
  end.
End LTreeInd.

(** The entries of a content tree. *)
Fixpoint tree_infos (t : LTree) : list EntryInfo :=
  match t with
  | LNode info kids => info :: flat_map tree_infos kids
  end.

(** The maximum points of the exercises that count, as in the module entry. *)
Definition info_max (info : EntryInfo) : Z :=
  if e_submittable info && negb (e_confirm_the_level info) && entry_is_visible info
  then e_max_points info else 0.
Definition trees_max (trees : list LTree) : Z := sumZ (info_max <$> flat_map tree_infos trees).

(** Every exercise of the tree has the property. *)
Definition tree_all (range : EntryInfo -> Prop) (t : LTree) : Prop :=
  Forall (fun info => e_submittable info = true -> range info) (tree_infos t).

(** A property of the exercises and of the confirmation state of their levels that
    every entry of a generated tree has. *)
Section NodeInvariant.
Context (good : EntryInfo -> ExercisePoints -> Prop) (level : bool -> bool -> Prop).

(** The confirmation state of one level: [level] holds of the true and the visible
    state, and of the negated pass states. *)
Hypothesis level_same : forall b, level b b.
Hypothesis level_and : forall a a' b b', level a b -> level a' b' -> level (a && a') (b && b').
Hypothesis good_passed : forall info ep, good info ep -> level (negb (ep_true_passed ep)) (negb (ep_passed ep)).

Definition node_good (n : PNode) : Prop :=
  level (negb (c_true_passed (p_common n))) (negb (c_passed (p_common n))) /\
  level (c_true_children_unconfirmed (p_common n)) (c_children_unconfirmed (p_common n)) /\
  match p_exercise n with Some ep => good (p_info n) ep | None => True end.

Lemma generate_chapter_level kids :
  Forall node_good kids ->
  let c := generate_chapter kids in
  c_true_passed c = true /\ c_passed c = true /\
  level (c_true_children_unconfirmed c) (c_children_unconfirmed c).
Proof.
  unfold generate_chapter.
  assert (G : forall l c, Forall node_good l -> c_true_passed c = true -> c_passed c = true ->
    level (c_true_children_unconfirmed c) (c_children_unconfirmed c) ->
    c_true_passed (foldl add_child c l) = true /\ c_passed (foldl add_child c l) = true /\
    level (c_true_children_unconfirmed (foldl add_child c l))
      (c_children_unconfirmed (foldl add_child c l))).
  { induction l as [|n l IH]; intros c Hl H1 H2 H3; [done|]. cbn.
    apply List.Forall_cons_iff in Hl as [[Hp _] Hl]. apply IH; [done|..];
      unfold add_child; destruct (confirms n), (visible n); cbn; auto. }
  intros Hk. apply G; auto.
Qed.

Lemma module_unconfirmed_level kids :
  Forall node_good kids ->
  level (module_unconfirmed c_true_passed kids) (module_unconfirmed c_passed kids).
Proof.
  intros Hk. unfold module_unconfirmed. apply level_and; [apply level_same|].
  induction Hk as [|n l [Hn _] _ IH]; cbn; [apply level_same|]. apply level_and; [|done].
  destruct (confirms n); [exact Hn|apply level_same].
Qed.

Context (show : bool) (inputs : Z -> ExerciseInput) (now : datetime).
Context (range : EntryInfo -> Prop).
Hypothesis good_generated : forall info,
  range info -> good info (post_build show (generate_exercise info (inputs (e_id info)) now)).

Lemma generate_node_good t :
  tree_all range t ->
  forall tu u, level tu u ->
  Forall (fun x => node_good (entry_of x) /\ level (snd (fst x)) (snd x))
    (entries_below tu u (generate_node show inputs now t)) /\ node_good (generate_node show inputs now t).
Proof using level_same level_and good_passed good_generated.
  induction t as [info kids IH] using LTree_nested_ind. intros Hr tu u Hl.
  unfold tree_all in Hr. cbn [tree_infos] in Hr. apply List.Forall_cons_iff in Hr as [Hi Hk].
  assert (Hkids : forall tu u, level tu u ->
    Forall (fun x => node_good (entry_of x) /\ level (snd (fst x)) (snd x))
      (flat_map (entries_below tu u) (map (generate_node show inputs now) kids)) /\
    Forall node_good (map (generate_node show inputs now) kids)).
  { intros tu' u' Hl'. clear Hi. induction IH as [|t l Ht _ IHl]; [by split; constructor|]. cbn in Hk |- *.
    apply List.Forall_app in Hk as [Hk1 Hk2]. destruct (Ht Hk1 tu' u' Hl') as [H1 H2].
    destruct (IHl Hk2) as [H3 H4]. split; [by apply List.Forall_app|by constructor]. }
  cbn [generate_node]. set (kids' := map (generate_node show inputs now) kids) in *.
  destruct (Hkids _ _ (level_same true)) as [_ Hgood].
  destruct (e_submittable info) eqn:Es.
  - assert (Hn : node_good (PN info (exercise_common info (post_build show
        (generate_exercise info (inputs (e_id info)) now)) kids')
        (Some (post_build show (generate_exercise info (inputs (e_id info)) now))) kids')).
    { specialize (good_generated info (Hi eq_refl)). split; [by apply (good_passed info)|].
      split; [apply level_same|done]. }
    split; [|done]. cbn [entries_below]. constructor; [done|].
    apply (Hkids (must_confirm kids') (must_confirm kids')), level_same.
  - destruct (generate_chapter_level kids' Hgood) as (H1 & H2 & H3).
    assert (Hn : node_good (PN info (reveal_common show (generate_chapter kids')) None kids')).
    { split; [cbn; rewrite H1, H2; apply level_same|]. by split. }
    split; [|done]. cbn [entries_below]. constructor; [done|]. by apply Hkids.
Qed.

Lemma generate_module_good trees m max_points rule devs goal cached_at mp :
  Forall (tree_all range) trees ->
  generate_module m max_points rule devs goal cached_at now
    (map (generate_node show inputs now) trees) = Ret mp ->
  Forall (fun k => good (k_info k) (k_points k) /\ level (k_true_unconfirmed k) (k_unconfirmed k))
    (omap counted_of (module_entries mp)) /\
  mp_stats mp = foldl points_add_to no_stats (omap counted_of (module_entries mp)).
Proof using level_same level_and good_passed good_generated.
  intros Ht Hm. apply generate_module_eq in Hm as (Hc & Hu1 & Hu2 & Hs). split; [|done].
  unfold module_entries. rewrite Hc, Hu1, Hu2.
  assert (Hk : Forall node_good (map (generate_node show inputs now) trees)).
  { apply List.Forall_map. eapply Forall_impl; [exact Ht|]. intros t Hr.
    by apply (generate_node_good t Hr true true). }
  pose proof (module_unconfirmed_level _ Hk) as Hl.
  apply List.Forall_forall. intros k Hin. apply list_elem_of_In, list_elem_of_omap in Hin as (x & Hx & Ex).
  apply list_elem_of_In, in_flat_map in Hx as (n & Hn & Hx). apply in_map_iff in Hn as (t & <- & Hin).
  rewrite List.Forall_forall in Ht.
  destruct (generate_node_good t (Ht t Hin) _ _ Hl) as [Hg _].
  rewrite List.Forall_forall in Hg. destruct (Hg x Hx) as [(_ & _ & He) Hlev].
  unfold counted_of, counted_entry in Ex.
  destruct (p_exercise (entry_of x)) as [ep|]; [|done]. destruct (_ && _); [|done].
  by injection Ex as <-.
Qed.
End NodeInvariant.

(** The exercises that count in the points are those that count in the maximum. *)
Lemma counted_max_forest show inputs now trees :
  Forall (fun t => forall tu u,
    sumZ (e_max_points ∘ k_info <$> omap counted_of (entries_below tu u (generate_node show inputs now t)))
    = sumZ (info_max <$> tree_infos t)) trees ->
  forall tu u,
    sumZ (e_max_points ∘ k_info <$>
      omap counted_of (flat_map (entries_below tu u) (map (generate_node show inputs now) trees)))
    = trees_max trees.
Proof.
  intros Ht tu u. unfold trees_max. induction Ht as [|t l Ht _ IH]; [done|]. cbn [map flat_map].
  by rewrite omap_app, !fmap_app, !sumZ_app, Ht, IH.
Qed.

Lemma counted_max show inputs now t tu u :
  sumZ (e_max_points ∘ k_info <$> omap counted_of (entries_below tu u (generate_node show inputs now t)))
  = sumZ (info_max <$> tree_infos t).
Proof.
  revert tu u. induction t as [info kids IH] using LTree_nested_ind. intros tu u.
  cbn [generate_node tree_infos]. set (kids' := map _ kids).
  assert (Hone : forall c ex tu' u', is_Some ex <-> e_submittable info = true ->
    sumZ (e_max_points ∘ k_info <$> omap counted_of
       ((PN info c ex kids', tu, u) :: flat_map (entries_below tu' u') kids'))
    = info_max info + trees_max kids).
  { intros c ex tu' u' Hex. rewrite <- (counted_max_forest show inputs now kids IH tu' u'). fold kids'.
    cbn [omap list_omap]. unfold counted_of, counted_entry, info_max, confirms, visible. cbn.
    destruct ex as [ep|].
    - assert (e_submittable info = true) as -> by (apply Hex; eauto). cbn.
      destruct (_ && _); cbn; unfold sumZ; cbn; done.
    - destruct (e_submittable info); [exfalso; destruct Hex as [_ [? ?]]; done|]. cbn. done. }
  change (sumZ (info_max <$> info :: flat_map tree_infos kids)) with (info_max info + trees_max kids).
  destruct (e_submittable info) eqn:Es; cbn [entries_below]; apply Hone; split; try done; eauto.
Qed.

Lemma sumZ_le {A} (f g : A -> Z) l : Forall (fun x => f x <= g x) l -> sumZ (f <$> l) <= sumZ (g <$> l).
Proof. induction 1; cbn in *; unfold sumZ in *; cbn; lia. Qed.

Lemma contribution_bounds k :
  entry_ok (k_info k) (k_points k) -> (k_true_unconfirmed k = true -> k_unconfirmed k = true) ->
  0 <= contribution k <= true_contribution k /\
  true_contribution k + true_pending k <= e_max_points (k_info k).
Proof.
  unfold entry_ok, contribution, true_contribution, true_pending. intros (H1 & H2 & _) Hu.
  destruct (official k), (k_true_unconfirmed k), (k_unconfirmed k); cbn; try lia;
    discriminate (Hu eq_refl).
Qed.

(** The points of a module are bounded: with grades between zero and the
    maximum of each exercise, what is shown to the student is at least zero and
    at most the true points, and the true points together with those waiting for
    the confirmation of a level are at most the maximum points of the visible
    exercises of the module. *)
Theorem module_points_bounded show inputs now trees m max_points rule devs goal cached_at mp :
  Forall (tree_all (fun info => grades_in_range info (inputs (e_id info)))) trees ->
  generate_module m max_points rule devs goal cached_at now
    (map (generate_node show inputs now) trees) = Ret mp ->
  0 <= s_points (mp_stats mp) <= s_true_points (mp_stats mp) /\
  s_true_points (mp_stats mp) + sumZ (values (s_true_unconfirmed (mp_stats mp))) <= trees_max trees.
Proof.
  intros Ht Hm.
  destruct (generate_module_good entry_ok (fun tu u => tu = true -> u = true)) with
    (show := show) (inputs := inputs) (now := now)
    (range := fun info => grades_in_range info (inputs (e_id info))) (trees := trees) (m := m)
    (max_points := max_points) (rule := rule) (devs := devs) (goal := goal) (cached_at := cached_at)
    (mp := mp) as [Hk Hs]; auto.
  { intros a a' b b' H1 H2 H. b2p. by rewrite H1, H2. }
  { intros info ep (_ & _ & Hp) H. destruct (ep_passed ep); [by rewrite Hp in H|done]. }
  { intros info Hr. by apply generate_exercise_ok. }
  rewrite Hs, (measure_entries s_points contribution), (measure_entries s_true_points true_contribution).
  rewrite (measure_entries (fun s => sumZ (values (s_true_unconfirmed s))) true_pending).
  apply generate_module_eq in Hm as (Hc & _). revert Hk. unfold module_entries. rewrite Hc.
  rewrite <- (counted_max_forest show inputs now trees) with (tu := mp_true_children_unconfirmed mp)
    (u := mp_children_unconfirmed mp) by (apply Forall_true; intros; apply counted_max).
  generalize (omap counted_of (flat_map (entries_below (mp_true_children_unconfirmed mp)
    (mp_children_unconfirmed mp)) (map (generate_node show inputs now) trees))).
  intros l. clear. induction 1 as [|k l [Hk Hl] _ IH]; [done|].
  pose proof (contribution_bounds k Hk Hl) as Hb. cbn in *. unfold sumZ in *. cbn. lia.
Qed.

(** The statistics show the truth if every entry does. *)
Lemma revealed_stats l s :
  Forall (fun k => (ep_feedback_revealed (k_points k) = true /\
                    ep_points (k_points k) = ep_true_points (k_points k) /\
                    ep_passed (k_points k) = ep_true_passed (k_points k)) /\
                   k_true_unconfirmed k = k_unconfirmed k) l ->
  s_points s = s_true_points s -> s_feedback_revealed s = true ->
  s_points (foldl points_add_to s l) = s_true_points (foldl points_add_to s l) /\
  s_feedback_revealed (foldl points_add_to s l) = true.
Proof.
  intros Hl. revert s. induction Hl as [|k l [(H1 & H2 & _) H3] _ IH]; intros s Hp Hr; [done|].
  cbn. apply IH; unfold points_add_to;
    destruct (ep_graded (k_points k)), (ep_unofficial (k_points k)); cbn; try done;
    rewrite ?H1, ?Hr, ?H2, ?H3; try done. destruct (k_unconfirmed k); lia.
Qed.

(** Once everything is revealed the student sees the truth: when the results
    of every exercise of a module, the confirming ones included, are revealed,
    the points the module shows are its true points, with the same pass state. *)
Theorem revealed_module_shows_truth inputs now trees m max_points rule devs goal cached_at mp :
  Forall (tree_all (fun info =>
    ep_feedback_revealed (generate_exercise info (inputs (e_id info)) now) = true)) trees ->
  generate_module m max_points rule devs goal cached_at now
    (map (generate_node false inputs now) trees) = Ret mp ->
  s_points (mp_stats mp) = s_true_points (mp_stats mp) /\
  s_feedback_revealed (mp_stats mp) = true /\ mp_passed mp = mp_true_passed mp.
Proof.
  intros Ht Hm.
  destruct (generate_module_good
    (fun _ ep => ep_feedback_revealed ep = true /\ ep_points ep = ep_true_points ep /\
                 ep_passed ep = ep_true_passed ep) (fun tu u => tu = u)) with
    (show := false) (inputs := inputs) (now := now)
    (range := fun info => ep_feedback_revealed (generate_exercise info (inputs (e_id info)) now) = true)
    (trees := trees) (m := m) (max_points := max_points) (rule := rule) (devs := devs) (goal := goal)
    (cached_at := cached_at) (mp := mp) as [Hk Hs]; auto.
  { by intros a a' b b' -> ->. }
  { by intros info ep (_ & _ & ->). }
  { intros info Hr. split; [done|]. by apply generate_exercise_revealed. }
  destruct (revealed_stats _ no_stats Hk) as [Hp Hf]; [done..|]. rewrite Hs.
  split; [done|]. split; [done|]. rewrite <- Hs in Hp.
  clear Hk Hs Ht. unfold generate_module in Hm.
  destruct (fold_left _ _ _) as [stats expires]. repeat break_hyp Hm; try discriminate;
    injection Hm as <-; cbn in *; by rewrite Hp.
Qed.

(** ** Witnesses *)

(** A module with a chapter that holds the exercise of [Points.example_entry]. *)
Definition example_chapter : EntryInfo :=
  mkEntry 2 None 1 CategoryStatus.READY false 1 ModuleStatus.READY LObjStatus.READY 1 "ch" "1 ch"
    "1" 0 None 1000 false 0 100 [1] false 0 "" 0 0 false None.
Definition example_tree : LTree := LNode example_chapter [LNode example_entry []].
Definition example_inputs : Z -> ExerciseInput := fun _ => example_input example_submissions.

Definition example_nodes (show : bool) (now : datetime) : list PNode :=
  map (generate_node show example_inputs now) [example_tree].

(** The module entry made at [now], and what a later request loads of it. *)
Definition example_module_points (show : bool) (now : datetime) : result ModulePoints :=
  generate_module (example_module true (1#2)) 10 None [] None 0 now (example_nodes show now).

Definition example_module_result (show : bool) (now : datetime) : ModulePoints :=
  match example_module_points show now with
  | Ret mp => mp
  | Raise _ => mkModulePoints no_stats false false false false false false None None []
  end.

Lemma example_tree_in_range :
  Forall (tree_all (fun info => grades_in_range info (example_inputs (e_id info)))) [example_tree].
Proof.
  constructor; [|constructor]. constructor; [discriminate|]. constructor; [|constructor]. intros _.
  split; [discriminate|]. intros s Hs.
  apply list_elem_of_In in Hs. cbn in Hs. destruct Hs as [<-|[<-|[<-|[]]]]; cbn; lia.
Qed.

Lemma course_points_add_up_witness :
  exists ip, generate_instance {[ 1 := 5 ]} [1; 2] [example_module_result false 2000] = Ret ip /\
    s_true_points (ip_total ip) = 7.
Proof.
  destruct (course_points_add_up {[ 1 := 5 ]} [1; 2] [example_module_result false 2000])
    as (ip & Hip & [Ht _] & _).
  - constructor; [|constructor]. exists (example_module true (1#2)), 10, None, [], None, 0, 2000.
    exists (example_nodes false 2000). reflexivity.
  - apply NoDup_ListNoDup. vm_compute. repeat constructor; cbn; intuition discriminate.
  - change (module_ids [example_module_result false 2000]) with [2; 1]. apply perm_swap.
  - intros x Hx. apply list_elem_of_In in Hx. vm_compute in Hx.
    destruct Hx as [<-|[<-|[]]]; vm_compute; eauto.
  - exists ip. split; [exact Hip|]. rewrite Ht. reflexivity.
Defined.

Lemma module_points_bounded_witness :
  0 <= s_points (mp_stats (example_module_result false 500))
    <= s_true_points (mp_stats (example_module_result false 500)) /\
  s_true_points (mp_stats (example_module_result false 500)) = 7 /\ trees_max [example_tree] = 10.
Proof.
  split; [|split; reflexivity].
  apply (module_points_bounded false example_inputs 500 [example_tree] (example_module true (1#2))
           10 None [] None 0); [exact example_tree_in_range|reflexivity].
Defined.

Lemma revealed_module_shows_truth_witness :
  s_points (mp_stats (example_module_result false 2000)) = 7.
Proof.
  destruct (revealed_module_shows_truth example_inputs 2000 [example_tree]
    (example_module true (1#2)) 10 None [] None 0 (example_module_result false 2000)) as [H _].
  - repeat constructor; discriminate || reflexivity.
  - reflexivity.
  - rewrite H. reflexivity.
Defined.

(** ** Two effects of how entries are stored *)

(** The stored entry of a module does not record for whom it was made: made for a
    viewer who sees unrevealed results and then loaded for the student, it shows
    the student the true points of a hidden exercise; made for the student, it
    shows none. *)
Lemma entry_made_for_staff_shows_hidden_points :
  shown_points (mp_stats (module_post_build false (example_module_result true 500))) = 7 /\
  shown_points (mp_stats (module_post_build false (example_module_result false 500))) = 0.
Proof. split; reflexivity. Qed.

(** A module whose model answer has a rule without a reveal time cannot be
    generated before the course is on life support. *)
Lemma manual_model_answer_rule_raises :
  generate_module (example_module true (1#2)) 10
    (Some (mkRevealRule RevealTrigger.MANUAL None None false false)) [] None 0 500
    (example_nodes false 500) = Raise TypeError.
Proof. reflexivity. Qed.
