(* ===== verification/PointsData.v ===== *)
(** * The rows behind the cached points

    [PointsDBData] of [exercise/cache/points.py] reads in one go what the entries
    of several students and exercises need.  The tables are normalized, with the
    ids by which the rows name each other, because the signals of Invalidate.v
    and the queries follow those ids. *)

From Stdlib Require Import QArith.
From S2P Require Import Prelude Lists Helpers Course Deviations Reveal Models Exercise Submission Points.
#[local] Open Scope Z_scope.

(** ** Tables *)

(** src/exercise/exercise_models.py: LearningObject lines 148-259.  The columns the
    points cache follows; [lr_rule] is [submission_feedback_reveal_rule_id] of an
    exercise. *)
Record LObjRow := mkLObjRow {
  lr_id : Z;
  lr_parent : option Z;
  lr_module : Z;
  lr_category : Z;
  lr_is_exercise : bool;
  lr_rule : option Z;
}.

(** src/course/models.py: CourseModule lines 1400-1415 *)
Record ModuleRow := mkModuleRow {
  mr_id : Z;
  mr_instance : Z;
  mr_has_model_answer : bool;
  mr_rule : option Z;
}.

(** [t_confirm] holds the categories with [confirm_the_level], [t_students] the
    active students of the course instances, [t_notes] the notifications by id;
    the submissions are newest first. *)
Record Tables := mkTables {
  t_users : list User;
  t_lobjs : list LObjRow;
  t_modules : list ModuleRow;
  t_confirm : gset Z;
  t_rules : gmap Z RevealRule;
  t_submissions : list Submission;
  t_deadlines : list DeadlineRuleDeviation;
  t_limits : list MaxSubmissionsRuleDeviation;
  t_groups : list StudentGroup;
  t_notes : list (Z * Notification);
  t_students : list (Z * UserProfile);
}.

Definition submitter_profiles (s : Submission) : list Z := profile_id <$> submitters s.

(** The submissions as the subquery of the deviations reads them. *)
Definition sub_rows (l : list Submission) : list SubmissionRow :=
  (fun s => mkSubmissionRow (sub_exercise s) (submitter_profiles s)) <$> l.

Definition find_lobj (t : Tables) (e : Z) : option LObjRow :=
  List.find (fun r => lr_id r =? e) (t_lobjs t).
Definition find_module (t : Tables) (m : Z) : option ModuleRow :=
  List.find (fun r => mr_id r =? m) (t_modules t).
Definition find_user (t : Tables) (u : Z) : option User :=
  List.find (fun x => user_id x =? u) (t_users t).

(** ** What one student's entry of one exercise reads *)

(** [Submission.objects.filter(submitters=profile, exercise_id=e)], newest first. *)
Definition rows_of (t : Tables) (p e : Z) : list Submission :=
  filter (fun s => sub_exercise s = e /\ p ∈ submitter_profiles s) (t_submissions t).

(** The rule of a row, through its foreign key. *)
Definition active_rule (t : Tables) (dflt : RevealTrigger.t) (rule : option Z) : RevealRule :=
  default (default_rule dflt) (rule ≫= (t_rules t !!.)).

Definition exercise_rule (t : Tables) (e : Z) : RevealRule :=
  active_rule t RevealTrigger.IMMEDIATE (find_lobj t e ≫= lr_rule).

Definition instance_of (t : Tables) (r : LObjRow) : option Z := mr_instance <$> find_module t (lr_module r).

Definition member_groups (t : Tables) (p : Z) (instance : option Z) : list StudentGroup :=
  filter (fun g => Some (group_instance g) = instance /\ p ∈ profile_id <$> members g) (t_groups t).

(** The notifications of the given submissions, whoever they are addressed to. *)
Definition notes_on (t : Tables) (l : list Submission) : list Notification :=
  filter (fun n => note_submission n ∈ sub_id <$> l) (t_notes t).*2.

(** The input of the entry of exercise [e] for the user [u], by queries for that
    entry alone. *)
Definition exercise_input (t : Tables) (u : User) (e : Z) : ExerciseInput :=
  let p := profile_id (userprofile u) in
  let subs := rows_of t p e in
  mkInput subs
    (get_max_deviations (t_deadlines t) (sub_rows (t_submissions t)) p [e])
    (get_max_deviations (t_limits t) (sub_rows (t_submissions t)) p [e])
    (member_groups t p (find_lobj t e ≫= instance_of t))
    (exercise_rule t e)
    (notes_on t subs)
    (filter (fun d => dl_exercise d = e) (t_deadlines t)).

(** ** Reading several entries at once *)

(** The proxies that are added, with the id of the model and of the user. *)
Inductive Proxy :=
| InstanceProxy (instance : Z) (user : option Z)
| ModuleProxy (module : Z) (user : option Z)
| ExerciseProxy (exercise : Z) (user : option Z).

(** src/exercise/cache/points.py: PointsDBData lines 159-179 *)
Record PointsDBData := mkPointsData {
  pd_exercises : gmap Z (gset Z);
  pd_modules : gset Z;
  pd_submissions : gmap (Z * Z) (list Submission);
  pd_deadlines : gmap (Z * Z) (list DeadlineRuleDeviation);
  pd_limits : gmap (Z * Z) (list MaxSubmissionsRuleDeviation);
  pd_rules : gmap Z RevealRule;
  pd_module_rules : gmap Z RevealRule;
  pd_groups : gmap (Z * Z) (list StudentGroup);
  pd_fetched : gset (Z * Z);
}.

(** src/exercise/cache/points.py: PointsDBData.__init__ *)
Definition pd_empty : PointsDBData := mkPointsData ∅ ∅ ∅ ∅ ∅ ∅ ∅ ∅ ∅.

(** src/exercise/cache/points.py: PointsDBData.add *)
Definition pd_add (proxy : Proxy) (d : PointsDBData) : PointsDBData :=
  let queue (ex : gmap Z (gset Z)) (ms : gset Z) :=
    mkPointsData ex ms (pd_submissions d) (pd_deadlines d) (pd_limits d) (pd_rules d)
      (pd_module_rules d) (pd_groups d) (pd_fetched d) in
  match proxy with
  | ExerciseProxy e (Some u) =>
      if bool_decide ((u, e) ∈ pd_fetched d) then d
      else queue (<[u := {[ e ]} ∪ default ∅ (pd_exercises d !! u)]> (pd_exercises d)) (pd_modules d)
  | ModuleProxy m _ => queue (pd_exercises d) ({[ m ]} ∪ pd_modules d)
  | _ => d
  end.

(** A dictionary whose keys are assigned one after the other. *)
Definition assign {A} (u : Z) (groups : list (Z * list A)) (m : gmap (Z * Z) (list A))
    : gmap (Z * Z) (list A) :=
  foldl (fun m kg => <[(u, kg.1) := kg.2]> m) m groups.

(** [order_by('exercise_id', '-submission_time')] on rows that are newest first. *)
Definition ordered_submissions (t : Tables) (p : Z) (ids : gset Z) : list Submission :=
  merge_sort Z.le (elements ids) ≫= rows_of t p.

(** The exercises among the queued ids: the query skips other learning objects. *)
Definition queued_exercises (t : Tables) (ids : gset Z) : list LObjRow :=
  filter (fun r => lr_is_exercise r = true /\ lr_id r ∈ ids) (t_lobjs t).

(** [order_by('course_instance_id')] *)
Definition group_qs (t : Tables) (p : Z) (rows : list LObjRow) : list StudentGroup :=
  merge_sort Z.le (elements (list_to_set (omap (instance_of t) rows) : gset Z))
    ≫= (fun i => member_groups t p (Some i)).

(** src/exercise/cache/points.py: PointsDBData.fetch lines 202-251.  The turn of the
    loop for one user. *)
Definition fetch_user (t : Tables) (d : PointsDBData) (queued : Z * gset Z) : result PointsDBData :=
  let '(user_id, ids) := queued in
  match find_user t user_id with
  | None => Raise DoesNotExist
  | Some user =>
      let p := profile_id (userprofile user) in
      let rows := queued_exercises t ids in
      let instance_groups : gmap Z (list StudentGroup) :=
        list_to_map (groupby group_instance (group_qs t p rows)) in
      Ret (mkPointsData (pd_exercises d) (pd_modules d)
        (assign user_id (groupby sub_exercise (ordered_submissions t p ids)) (pd_submissions d))
        (assign user_id (groupby dl_exercise
           (get_max_deviations (t_deadlines t) (sub_rows (t_submissions t)) p (elements ids)))
           (pd_deadlines d))
        (assign user_id (groupby ms_exercise
           (get_max_deviations (t_limits t) (sub_rows (t_submissions t)) p (elements ids)))
           (pd_limits d))
        (foldl (fun m r => <[lr_id r := active_rule t RevealTrigger.IMMEDIATE (lr_rule r)]> m)
           (pd_rules d) rows)
        (pd_module_rules d)
        (foldl (fun m r => <[(user_id, lr_id r) :=
                   default [] (instance_of t r ≫= (instance_groups !!.))]> m) (pd_groups d) rows)
        (pd_fetched d ∪ set_map (pair user_id) ids))
  end.

(** src/exercise/cache/points.py: PointsDBData.fetch *)
Definition pd_fetch (t : Tables) (d : PointsDBData) : result PointsDBData :=
  let modules := filter (fun r => mr_id r ∈ pd_modules d /\ mr_has_model_answer r = true) (t_modules t) in
  let d1 := mkPointsData (pd_exercises d) ∅ (pd_submissions d) (pd_deadlines d) (pd_limits d)
    (pd_rules d)
    (foldl (fun m r => <[mr_id r := active_rule t RevealTrigger.DEADLINE (mr_rule r)]> m)
       (pd_module_rules d) modules)
    (pd_groups d) (pd_fetched d) in
  let! d2 := foldl (fun acc q => let! d := acc in fetch_user t d q) (Ret d1)
               (map_to_list (pd_exercises d)) in
  Ret (mkPointsData ∅ (pd_modules d2) (pd_submissions d2) (pd_deadlines d2) (pd_limits d2)
         (pd_rules d2) (pd_module_rules d2) (pd_groups d2) (pd_fetched d2)).

(** src/exercise/cache/points.py: PointsDBData.get_submissions *)
Definition pd_get_submissions (d : PointsDBData) (u e : Z) : list Submission :=
  default [] (pd_submissions d !! (u, e)).
(** src/exercise/cache/points.py: PointsDBData.get_deadline_deviations *)
Definition pd_get_deadlines (d : PointsDBData) (u e : Z) : list DeadlineRuleDeviation :=
  default [] (pd_deadlines d !! (u, e)).
(** src/exercise/cache/points.py: PointsDBData.get_submission_deviations *)
Definition pd_get_limits (d : PointsDBData) (u e : Z) : list MaxSubmissionsRuleDeviation :=
  default [] (pd_limits d !! (u, e)).
(** src/exercise/cache/points.py: PointsDBData.get_reveal_rule *)
Definition pd_get_rule (d : PointsDBData) (e : Z) : result RevealRule :=
  match pd_rules d !! e with Some r => Ret r | None => Raise KeyError end.
(** src/exercise/cache/points.py: PointsDBData.get_module_reveal_rule *)
Definition pd_get_module_rule (d : PointsDBData) (m : Z) : option RevealRule := pd_module_rules d !! m.
(** src/exercise/cache/points.py: PointsDBData.get_groups *)
Definition pd_get_groups (d : PointsDBData) (u e : Z) : result (list StudentGroup) :=
  match pd_groups d !! (u, e) with Some l => Ret l | None => Raise KeyError end.

(** ** Grouping ordered rows *)

Lemma assign_absent {A} u (groups : list (Z * list A)) m u' k :
  u' <> u \/ k ∉ groups.*1 -> assign u groups m !! (u', k) = m !! (u', k).
Proof.
  intros Hk. apply (update_absent (fun kg => (u, kg.1)) snd). intros Hin.
  apply list_elem_of_fmap in Hin as (x & [= -> ->] & Hx). destruct Hk as [?|Hk]; [done|].
  apply Hk, list_elem_of_fmap. eauto.
Qed.

Lemma assign_lookup {A} u (groups : list (Z * list A)) m k g :
  NoDup groups.*1 -> (k, g) ∈ groups -> assign u groups m !! (u, k) = Some g.
Proof.
  intros Hn Hin. apply (update_lookup (fun kg => (u, kg.1)) snd groups m (k, g)); [|done].
  change (NoDup (pair u ∘ fst <$> groups)). rewrite list_fmap_compose. apply NoDup_fmap_2; [|done]. by intros ? ? [= ->].
Qed.

(** What a getter finds after rows in blocks have been grouped and assigned. *)
Lemma assign_get {A} (key : A -> Z) u bs m k g :
  blocks_ok key bs -> (k, g) ∈ bs -> m !! (u, k) = None ->
  default [] (assign u (groupby key (concat bs.*2)) m !! (u, k)) = g.
Proof.
  intros Hok Hin Hm. rewrite (groupby_blocks key bs Hok). destruct Hok as [Hn Hk].
  set (fs := filter _ bs).
  assert (Hfn : NoDup fs.*1) by (by apply NoDup_fmap_filter).
  destruct g as [|x g].
  - rewrite assign_absent; [by rewrite Hm|]. right. intros Hf. apply list_elem_of_fmap in Hf as ([k' g'] & -> & Hf).
    apply list_elem_of_filter in Hf as [Hne Hf]. cbn in *.
    by pose proof (key_inj fst bs (k', g') (k', []) Hn Hf Hin eq_refl) as [= ->].
  - rewrite (assign_lookup u fs m k (x :: g)); [done|done|]. by apply list_elem_of_filter.
Qed.

Lemma bind_blocks {A B} (f : A -> list B) (g : A -> Z) l :
  l ≫= f = concat (((fun x => (g x, f x)) <$> l).*2).
Proof. induction l as [|x l IH]; [done|]. cbn. by rewrite <- IH. Qed.

(** Blocks made for the elements of a set, in their order. *)
Lemma set_blocks_ok {A} (key : A -> Z) (f : Z -> list A) (ids : gset Z) :
  (forall k, Forall (fun x => key x = k) (f k)) ->
  blocks_ok key ((fun k => (k, f k)) <$> merge_sort Z.le (elements ids)).
Proof.
  intros Hf. split.
  - rewrite <- list_fmap_compose. cbn. rewrite list_fmap_id, merge_sort_Permutation.
    apply NoDup_elements.
  - apply Forall_fmap, Forall_forall. intros k _. apply Hf.
Qed.

Lemma elem_of_set_blocks {A} (f : Z -> list A) (ids : gset Z) k :
  k ∈ ids -> (k, f k) ∈ (fun k => (k, f k)) <$> merge_sort Z.le (elements ids).
Proof.
  intros Hk. apply list_elem_of_fmap. exists k. split; [done|].
  rewrite merge_sort_Permutation. by apply elem_of_elements.
Qed.

(** ** Deviations that are read together *)

Section DeviationBatch.
Context {D : Type} `{RuleDeviation D}.

(** At most one row has a given key. *)
Lemma one_per_key (l : list D) d e :
  NoDup (dev_exercise <$> l) -> d ∈ l -> dev_exercise d = e ->
  filter (fun x => dev_exercise x = e) l = [d].
Proof.
  induction l as [|x l IH]; intros Hn Hd He; [by apply not_elem_of_nil in Hd|].
  inversion_clear Hn as [|? ? Hn1 Hn2]. rewrite filter_cons.
  assert (Hnone : dev_exercise x = e -> filter (fun x => dev_exercise x = e) l = []).
  { intros Hx. apply filter_empty. intros y Hy Ey. apply Hn1.
    apply list_elem_of_fmap. exists y. by rewrite Hx, Ey. }
  apply elem_of_cons in Hd as [->|Hd].
  - destruct (decide (dev_exercise x = e)); [|done]. by rewrite Hnone.
  - destruct (decide (dev_exercise x = e)) as [Hx|Hx]; [|by apply IH]. exfalso. apply Hn1.
    apply list_elem_of_fmap. exists d. by rewrite Hx, He.
Qed.

Lemma deviation_blocks_ok (l : list D) :
  NoDup (dev_exercise <$> l) -> blocks_ok dev_exercise ((fun d => (dev_exercise d, [d])) <$> l).
Proof.
  intros Hn. split; [by rewrite <- list_fmap_compose|].
  apply Forall_fmap, Forall_forall. intros d _. cbn. by constructor.
Qed.

(** The row of one exercise, after the rows of several have been grouped. *)
Lemma assign_deviations u (l : list D) m e :
  NoDup (dev_exercise <$> l) -> m !! (u, e) = None ->
  default [] (assign u (groupby dev_exercise l) m !! (u, e)) = filter (fun d => dev_exercise d = e) l.
Proof.
  intros Hn Hm. set (bs := (fun d => (dev_exercise d, [d])) <$> l).
  assert (El : l = concat bs.*2).
  { subst bs. clear. induction l as [|x l IH]; [done|]. cbn. by rewrite <- IH. }
  pose proof (deviation_blocks_ok l Hn) as Hok. fold bs in Hok.
  destruct (decide (e ∈ dev_exercise <$> l)) as [Hin|Hin].
  - apply list_elem_of_fmap in Hin as (d & -> & Hd).
    rewrite (one_per_key l d (dev_exercise d)) by done. rewrite El at 1.
    apply (assign_get dev_exercise u bs); [done| |done]. apply list_elem_of_fmap. eauto.
  - assert (filter (fun d => dev_exercise d = e) l = []) as ->.
    { apply filter_empty. intros d Hd <-. apply Hin. apply list_elem_of_fmap. eauto. }
    rewrite assign_absent; [by rewrite Hm|]. right. rewrite El, (groupby_blocks dev_exercise bs Hok).
    intros Hc. apply Hin. apply list_elem_of_fmap in Hc as (b & -> & Hb).
    apply list_elem_of_filter in Hb as [_ Hb]. apply list_elem_of_fmap in Hb as (d & -> & Hd).
    apply list_elem_of_fmap. by exists d.
Qed.

Lemma eligible_singleton subs p (ids : list Z) (d : D) e :
  e ∈ ids -> dev_exercise d = e -> eligible subs p ids d <-> eligible subs p [e] d.
Proof.
  intros He Hd. unfold eligible. rewrite list_elem_of_singleton, Hd. naive_solver.
Qed.

Lemma max_deviations_keys table subs p (ids : list Z) (d : D) :
  d ∈ get_max_deviations table subs p ids -> dev_exercise d ∈ ids.
Proof. intros Hd. by apply get_max_deviations_spec in Hd as (_ & [Hi _] & _). Qed.

(** Reading the largest deviations of several exercises together gives for each
    of them the same amount as reading it alone. *)
Lemma max_deviations_batch table subs p (ids : list Z) e :
  e ∈ ids ->
  dev_extra <$> filter (fun d => dev_exercise d = e) (get_max_deviations table subs p ids)
  = dev_extra <$> (get_max_deviations table subs p [e] : list D).
Proof.
  intros He.
  destruct (get_max_deviations_spec table subs p ids) as (Hn & Hs & Hc).
  destruct (get_max_deviations_spec table subs p [e]) as (Hn1 & Hs1 & Hc1).
  set (l := get_max_deviations table subs p ids) in *.
  set (l1 := get_max_deviations table subs p [e]) in *.
  assert (Hl1 : filter (fun d => dev_exercise d = e) l1 = l1).
  { apply filter_all. intros d Hd. destruct (Hs1 d Hd) as (_ & [Hi _] & _).
    by apply list_elem_of_singleton in Hi. }
  rewrite <- Hl1.
  destruct (filter (fun d => dev_exercise d = e) l) as [|d rest] eqn:E.
  - destruct (filter (fun d => dev_exercise d = e) l1) as [|d1 rest1] eqn:E1; [done|]. exfalso.
    assert (Hd1 : d1 ∈ filter (fun d => dev_exercise d = e) l1) by (rewrite E1; by left).
    apply list_elem_of_filter in Hd1 as [Ed1 Hd1]. destruct (Hs1 d1 Hd1) as (Ht & Hel & _).
    destruct (Hc d1 Ht) as (d & Hd & Ed); [by apply (eligible_singleton subs p ids d1 e)|].
    assert (Hin : d ∈ filter (fun d => dev_exercise d = e) l)
      by (apply list_elem_of_filter; split; [congruence|done]).
    rewrite E in Hin. by apply not_elem_of_nil in Hin.
  - assert (Hd : d ∈ filter (fun d => dev_exercise d = e) l) by (rewrite E; by left).
    apply list_elem_of_filter in Hd as [Ed Hd]. rewrite (one_per_key l d e) in E by done. injection E as <-.
    destruct (Hs d Hd) as (Ht & Hel & Hmax).
    apply (eligible_singleton subs p ids d e He Ed) in Hel.
    destruct (Hc1 d Ht Hel) as (d1 & Hd1 & Ed1). rewrite (one_per_key l1 d1 e) by (done || congruence).
    destruct (Hs1 d1 Hd1) as (Ht1 & Hel1 & Hmax1). cbn. f_equal.
    pose proof (Hmax1 d Ht Hel (eq_sym Ed1)).
    assert (Hel1' : eligible subs p ids d1)
      by (apply (eligible_singleton subs p ids d1 e He); [congruence|done]).
    pose proof (Hmax d1 Ht1 Hel1' Ed1). lia.
Qed.
End DeviationBatch.

(** ** One fetch for many entries gives what single queries give *)

(** Ids identify the learning objects. *)
Definition lobjs_ok (t : Tables) : Prop := NoDup (lr_id <$> t_lobjs t).

Lemma find_lobj_elem t r : lobjs_ok t -> r ∈ t_lobjs t -> find_lobj t (lr_id r) = Some r.
Proof.
  intros Hn Hr. unfold find_lobj. destruct (List.find _ _) as [r'|] eqn:E.
  - apply List.find_some in E as [Hin E]. b2p. f_equal. apply (key_inj lr_id (t_lobjs t)); try done.
    by apply list_elem_of_In.
  - apply list_elem_of_In in Hr. pose proof (List.find_none _ _ E r Hr) as Hc. cbn in Hc. lia.
Qed.

Lemma find_lobj_some t e r : find_lobj t e = Some r -> r ∈ t_lobjs t /\ lr_id r = e.
Proof. intros E. apply List.find_some in E as [Hin E]. b2p. by rewrite list_elem_of_In. Qed.

(** The data serve the entry of exercise [e] for the user with id [u]. *)
Definition serves (t : Tables) (d : PointsDBData) (u : Z) (user : User) (e : Z) : Prop :=
  let i := exercise_input t user e in
  pd_get_submissions d u e = in_submissions i /\
  dev_extra <$> pd_get_deadlines d u e = dev_extra <$> in_deadline_deviations i /\
  dev_extra <$> pd_get_limits d u e = dev_extra <$> in_submission_deviations i /\
  forall r, find_lobj t e = Some r -> lr_is_exercise r = true ->
    pd_get_rule d e = Ret (in_reveal_rule i) /\ pd_get_groups d u e = Ret (in_groups i).

(** Nothing is stored yet for what is queued. *)
Definition unread (d : PointsDBData) (u e : Z) : Prop :=
  pd_submissions d !! (u, e) = None /\ pd_deadlines d !! (u, e) = None /\ pd_limits d !! (u, e) = None.

Lemma instance_groups_lookup t p rows r i :
  r ∈ rows -> instance_of t r = Some i ->
  default [] ((list_to_map (groupby group_instance (group_qs t p rows)) : gmap Z (list StudentGroup)) !! i)
  = member_groups t p (Some i).
Proof.
  intros Hr Hi. unfold group_qs. set (ids := list_to_set _ : gset Z).
  rewrite (bind_blocks _ id). cbn [id].
  set (bs := (fun i => (i, member_groups t p (Some i))) <$> merge_sort Z.le (elements ids)).
  assert (Hok : blocks_ok group_instance bs).
  { apply set_blocks_ok. intros k. apply Forall_forall. intros g Hg.
    apply list_elem_of_filter in Hg as [[[= ->] _] _]. done. }
  assert (Hin : (i, member_groups t p (Some i)) ∈ bs).
  { apply (elem_of_set_blocks (fun i => member_groups t p (Some i))). apply elem_of_list_to_set.
    apply list_elem_of_omap. eauto. }
  change (fun x => (id x, member_groups t p (Some x))) with (fun i => (i, member_groups t p (Some i))).
  fold bs. rewrite (groupby_blocks group_instance bs Hok). destruct Hok as [Hn _].
  destruct (member_groups t p (Some i)) as [|g gs] eqn:E.
  - rewrite not_elem_of_list_to_map_1; [done|]. intros Hf.
    apply list_elem_of_fmap in Hf as ([k l] & -> & Hf). apply list_elem_of_filter in Hf as [Hne Hf].
    by pose proof (key_inj fst bs (k, l) (k, []) Hn Hf Hin eq_refl) as [= ->].
  - rewrite (elem_of_list_to_map_1 _ i (g :: gs)); [done|by apply NoDup_fmap_filter|].
    by apply list_elem_of_filter.
Qed.

(** The rules of the queued exercises are read, the others are kept. *)
Lemma update_rules t (ids : gset Z) (m : gmap Z RevealRule) e r :
  lobjs_ok t -> find_lobj t e = Some r -> lr_is_exercise r = true ->
  m !! e = Some (exercise_rule t e) \/ e ∈ ids ->
  foldl (fun m r => <[lr_id r := active_rule t RevealTrigger.IMMEDIATE (lr_rule r)]> m) m
    (queued_exercises t ids) !! e = Some (exercise_rule t e).
Proof.
  intros Hok Hr Hx Hm. destruct (find_lobj_some t e r Hr) as [Hin <-].
  destruct (decide (lr_id r ∈ ids)) as [Hi|Hi].
  - rewrite (update_lookup lr_id (fun r => active_rule t RevealTrigger.IMMEDIATE (lr_rule r))).
    + unfold exercise_rule. by rewrite Hr.
    + by apply NoDup_fmap_filter.
    + by apply list_elem_of_filter.
  - destruct Hm as [Hm|?]; [|done]. rewrite update_absent; [done|]. intros Hc.
    apply list_elem_of_fmap in Hc as (r' & Er & Hr'). apply list_elem_of_filter in Hr' as [[_ ?] _].
    congruence.
Qed.

(** The turn for one user serves the exercises queued for that user, and keeps
    what it serves to the others. *)
Lemma fetch_user_spec t d u ids user :
  lobjs_ok t -> find_user t u = Some user -> (forall e, e ∈ ids -> unread d u e) ->
  exists d', fetch_user t d (u, ids) = Ret d' /\
    (forall e, e ∈ ids -> serves t d' u user e) /\
    (forall u' user' e, u' <> u -> serves t d u' user' e -> serves t d' u' user' e) /\
    (forall u' e, u' <> u \/ e ∉ ids -> unread d u' e -> unread d' u' e) /\
    pd_modules d' = pd_modules d /\ pd_module_rules d' = pd_module_rules d /\
    pd_fetched d' = pd_fetched d ∪ set_map (pair u) ids.
Proof.
  intros Hok Hu Hun. unfold fetch_user. rewrite Hu. cbv zeta.
  set (p := profile_id (userprofile user)). set (rows := queued_exercises t ids).
  assert (Hrows : NoDup (lr_id <$> rows)) by (by apply NoDup_fmap_filter).
  eexists. split; [reflexivity|]. split_and!; try done.
  - intros e He. destruct (Hun e He) as (H1 & H2 & H3). unfold serves. cbv zeta. split_and!.
    + unfold pd_get_submissions, ordered_submissions. cbn [pd_submissions].
      rewrite (bind_blocks (rows_of t p) id). cbn [id].
      apply (assign_get sub_exercise u _ _ e (rows_of t p e));
        [|by apply (elem_of_set_blocks (rows_of t p))|done].
      apply (set_blocks_ok sub_exercise (rows_of t p)). intros k. apply Forall_forall.
      intros s Hs. by apply list_elem_of_filter in Hs as [[? _] _].
    + unfold pd_get_deadlines. cbn [pd_deadlines].
      change dl_exercise with (dev_exercise (D := DeadlineRuleDeviation)).
      rewrite assign_deviations; [|apply get_max_deviations_spec|done].
      apply max_deviations_batch. by apply elem_of_elements.
    + unfold pd_get_limits. cbn [pd_limits].
      change ms_exercise with (dev_exercise (D := MaxSubmissionsRuleDeviation)).
      rewrite assign_deviations; [|apply get_max_deviations_spec|done].
      apply max_deviations_batch. by apply elem_of_elements.
    + intros r Hr Hx. destruct (find_lobj_some t e r Hr) as [Hin <-].
      assert (Hq : r ∈ rows) by (apply list_elem_of_filter; done).
      unfold pd_get_rule, pd_get_groups. cbn [pd_rules pd_groups].
      pose proof (update_rules t ids (pd_rules d) (lr_id r) r Hok Hr Hx (or_intror He)) as Er.
      fold rows in Er. rewrite Er.
      rewrite (update_lookup (fun r => (u, lr_id r)) (fun r => default [] (instance_of t r ≫=
        ((list_to_map (groupby group_instance (group_qs t p rows)) : gmap Z (list StudentGroup)) !!.)))).
      * cbn. rewrite Hr. cbn. split; [done|]. f_equal.
        destruct (instance_of t r) as [i|] eqn:Ei; cbn.
        -- by apply (instance_groups_lookup t p rows r).
        -- symmetry. apply filter_empty. naive_solver.
      * change (NoDup (pair u ∘ lr_id <$> rows)). rewrite list_fmap_compose.
        apply NoDup_fmap_2; [|done]. by intros ? ? [= ->].
      * done.
  - intros u' user' e Hne (S1 & S2 & S3 & S4). unfold serves in *. cbv zeta in *.
    unfold pd_get_submissions, pd_get_deadlines, pd_get_limits in *.
    cbn [pd_submissions pd_deadlines pd_limits]. rewrite !assign_absent by (by left).
    split_and!; try done. intros r Hr Hx. destruct (S4 r Hr Hx) as [R G]. split.
    + unfold pd_get_rule in *. cbn [pd_rules]. pose proof (update_rules t ids (pd_rules d) e r Hok Hr Hx) as Er.
      fold rows in Er. rewrite Er; [done|]. left.
      by destruct (pd_rules d !! e) as [x|]; [injection R as ->|].
    + unfold pd_get_groups in *. cbn [pd_groups]. rewrite update_absent; [done|]. intros Hc.
      apply list_elem_of_fmap in Hc as (r' & [= -> _] & _). done.
  - intros u' e Hne (H1 & H2 & H3). unfold unread. cbn [pd_submissions pd_deadlines pd_limits].
    destruct Hne as [Hne|Hne]; [by rewrite !assign_absent by (by left)|].
    rewrite !assign_absent; [done|..]; right; intros Hk; apply groupby_key in Hk as (x & Hx & <-).
    + by apply max_deviations_keys in Hx; apply Hne, elem_of_elements.
    + by apply max_deviations_keys in Hx; apply Hne, elem_of_elements.
    + apply list_elem_of_bind in Hx as (k & Hx & Hk). apply list_elem_of_filter in Hx as [[<- _] _].
      apply Hne, elem_of_elements. by rewrite merge_sort_Permutation in Hk.
Qed.

Lemma fetch_users_spec t (l : list (Z * gset Z)) d :
  lobjs_ok t -> NoDup l.*1 ->
  (forall u ids, (u, ids) ∈ l -> is_Some (find_user t u) /\ forall e, e ∈ ids -> unread d u e) ->
  exists d', foldl (fun acc q => let! d := acc in fetch_user t d q) (Ret d) l = Ret d' /\
    (forall u ids user e, (u, ids) ∈ l -> find_user t u = Some user -> e ∈ ids -> serves t d' u user e) /\
    (forall u user e, u ∉ l.*1 -> serves t d u user e -> serves t d' u user e) /\
    (forall u e, (forall ids, (u, ids) ∈ l -> e ∉ ids) -> unread d u e -> unread d' u e) /\
    pd_modules d' = pd_modules d /\ pd_module_rules d' = pd_module_rules d /\
    (forall u e, (u, e) ∈ pd_fetched d' <->
       (u, e) ∈ pd_fetched d \/ exists ids, (u, ids) ∈ l /\ e ∈ ids).
Proof.
  intros Hok. revert d. induction l as [|[u ids] l IH]; intros d Hn Hl.
  { exists d. split_and!; try done; [intros ? ? ? ? Hin; by apply not_elem_of_nil in Hin|].
    intros u e. split; [by left|]. intros [?|(ids & Hin & _)]; [done|by apply not_elem_of_nil in Hin]. }
  inversion_clear Hn as [|? ? Hn1 Hn2]. destruct (Hl u ids) as [[user Hu] Hun]; [by left|].
  destruct (fetch_user_spec t d u ids user Hok Hu Hun) as (d1 & E1 & S1 & K1 & U1 & M1 & R1 & F1).
  assert (Hother : forall u' ids', (u', ids') ∈ l -> u' <> u).
  { intros u' ids' Hin ->. apply Hn1, list_elem_of_fmap. by exists (u, ids'). }
  destruct (IH d1 Hn2) as (d' & E' & S' & K' & U' & M' & R' & F').
  { intros u' ids' Hin. destruct (Hl u' ids') as [Hsome Hun']; [by right|]. split; [done|].
    intros e He. apply U1; [left|]; eauto. }
  exists d'. cbn [foldl rbind]. rewrite E1. split_and!; try congruence.
  - intros u' ids' user' e Hin Hu' He. apply elem_of_cons in Hin as [[= -> ->]|Hin]; [|by eapply S'].
    apply K'; [done|]. rewrite Hu in Hu'. injection Hu' as <-. by apply S1.
  - intros u' user' e Hne Hs. cbn in Hne. apply not_elem_of_cons in Hne as [Hne Hnl].
    apply K'; [done|]. by apply K1.
  - intros u' e Hq Hr. apply U'; [intros ids' Hin; apply Hq; by right|]. apply U1; [|done].
    destruct (decide (u' = u)) as [->|]; [right; apply Hq; by left|by left].
  - intros u' e. rewrite F', F1, elem_of_union, elem_of_map. split.
    + intros [[?|(x & [= -> ->] & Hx)]|(ids' & Hin & He)]; [by left| |].
      * right. exists ids. split; [by left|done].
      * right. exists ids'. split; [by right|done].
    + intros [?|(ids' & Hin & He)]; [by left; left|].
      apply elem_of_cons in Hin as [[= -> ->]|Hin]; [left; right; eauto|right; eauto].
Qed.

(** What the manager knows it has read, and no more, is stored. *)
Definition pd_ok (d : PointsDBData) : Prop :=
  (forall u ids e, pd_exercises d !! u = Some ids -> e ∈ ids -> (u, e) ∉ pd_fetched d) /\
  (forall u e, (u, e) ∉ pd_fetched d -> unread d u e).

Lemma pd_empty_ok : pd_ok pd_empty.
Proof. by split. Qed.

Lemma pd_add_ok x d : pd_ok d -> pd_ok (pd_add x d).
Proof.
  intros [H1 H2]. destruct x as [i u|m u|e [u|]]; cbn; try done.
  case_bool_decide as Hf; [done|]. split; [|exact H2]. cbn. intros u' ids e' Hu He.
  apply lookup_insert_Some in Hu as [[<- <-]|[_ Hu]]; [|by eapply H1].
  apply elem_of_union in He as [->%elem_of_singleton|He]; [done|].
  destruct (pd_exercises d !! u) as [ids|] eqn:E; [by eapply H1|by apply elem_of_empty in He].
Qed.

(** C20. One batch of queries serves every queued entry as its own queries would.
    When the users of the queue exist, [PointsDBData.fetch] ends without an error,
    empties its queue, marks exactly the queued entries as read, and its getters
    then answer for every queued exercise and user what the queries for that
    exercise and user alone find: the same submissions in the same order, largest
    deviations of the same amount, the same groups and reveal rule. *)
Theorem batch_serves_every_entry t d :
  lobjs_ok t -> pd_ok d -> (forall u, is_Some (pd_exercises d !! u) -> is_Some (find_user t u)) ->
  exists d', pd_fetch t d = Ret d' /\ pd_ok d' /\ pd_exercises d' = ∅ /\ pd_modules d' = ∅ /\
    (forall u e, (u, e) ∈ pd_fetched d' <->
       (u, e) ∈ pd_fetched d \/ exists ids, pd_exercises d !! u = Some ids /\ e ∈ ids) /\
    (forall u ids user e, pd_exercises d !! u = Some ids -> find_user t u = Some user -> e ∈ ids ->
       serves t d' u user e).
Proof.
  intros Hok [Hq Hun] Hus. unfold pd_fetch. set (d1 := mkPointsData _ ∅ _ _ _ _ _ _ _).
  destruct (fetch_users_spec t (map_to_list (pd_exercises d)) d1 Hok) as (d2 & E & S & _ & U & M & _ & F).
  { apply NoDup_fst_map_to_list. }
  { intros u ids Hin%elem_of_map_to_list. split; [by apply Hus; eauto|].
    intros e He. apply (Hun u e). by eapply Hq. }
  assert (Hf : forall u e, (u, e) ∈ pd_fetched d2 <->
    (u, e) ∈ pd_fetched d \/ exists ids, pd_exercises d !! u = Some ids /\ e ∈ ids).
  { intros u e. rewrite F. by setoid_rewrite elem_of_map_to_list. }
  rewrite E. eexists. split; [reflexivity|]. split_and!; [|done|exact M|exact Hf|].
  - split; [done|]. cbn. intros u e Hne. rewrite Hf in Hne. apply (U u e).
    + intros ids Hin%elem_of_map_to_list He. apply Hne. right. eauto.
    + apply (Hun u e). naive_solver.
  - intros u ids user e Hu Hus' He. apply (S u ids user e); [by apply elem_of_map_to_list|done..].
Qed.

(** ** Witnesses *)

(** Two students whose profile ids are not their user ids. *)
Definition example_account (i : Z) : User := mkUser i false false (mkProfile (i + 10) None "aalto").

(** One submission of both students to exercise 5, which is in the chapter 4. *)
Definition example_pair_submission : Submission :=
  mkSubmission 7 5 100 [userprofile (example_account 1); userprofile (example_account 2)] None ""
    SubStatus.READY None 8 (Some 110) None false 8 10 None.

Definition example_tables (rule : RevealRule) : Tables :=
  mkTables [example_account 1; example_account 2; example_account 3]
    [mkLObjRow 4 None 3 1 false None; mkLObjRow 5 (Some 4) 3 1 true (Some 9);
     mkLObjRow 6 (Some 4) 3 2 true None]
    [mkModuleRow 3 1 true (Some 8)] {[ 2 ]} {[ 9 := rule ]} [example_pair_submission]
    [mkDeadlineDeviation 5 12 600 false] [mkSubmissionsDeviation 5 11 2]
    [mkGroup 20 1 [userprofile (example_account 1); userprofile (example_account 2)]]
    [(1, mkNotification 7 11 false false); (2, mkNotification 7 12 false false)]
    [(1, userprofile (example_account 1)); (1, userprofile (example_account 2))].

Lemma batch_serves_every_entry_witness :
  let t := example_tables (default_rule RevealTrigger.IMMEDIATE) in
  let d := pd_add (ExerciseProxy 5 (Some 1)) (pd_add (ExerciseProxy 5 (Some 2))
             (pd_add (ExerciseProxy 6 (Some 1)) (pd_add (ModuleProxy 3 (Some 1)) pd_empty))) in
  exists d', pd_fetch t d = Ret d' /\ serves t d' 1 (example_account 1) 5 /\
             dev_extra <$> pd_get_deadlines d' 1 5 = [600].
Proof.
  intros t d. destruct (batch_serves_every_entry t d) as (d' & E & _ & _ & _ & _ & S).
  - apply NoDup_ListNoDup. vm_compute. repeat constructor; cbn; intuition discriminate.
  - apply pd_add_ok, pd_add_ok, pd_add_ok, pd_add_ok, pd_empty_ok.
  - intros u Hu. apply elem_of_dom in Hu.
    assert (Hu' : u = 1 \/ u = 2).
    { assert (Ed : dom (pd_exercises d) = {[ 1; 2 ]}) by (vm_compute; reflexivity).
      rewrite Ed in Hu. apply elem_of_union in Hu as [Hu|Hu]; apply elem_of_singleton in Hu; auto. }
    destruct Hu' as [-> | ->]; vm_compute; eauto.
  - assert (Hs : serves t d' 1 (example_account 1) 5).
    { apply (S 1 {[ 5; 6 ]}); [vm_compute; reflexivity|reflexivity|by apply elem_of_union_l, elem_of_singleton]. }
    exists d'. split; [exact E|]. split; [exact Hs|]. destruct Hs as (_ & -> & _). vm_compute. reflexivity.
Defined.
