(* ===== verification/Invalidate.v ===== *)
(** * Invalidation of cached points by model signals

    [exercise/cache/invalidate_util.py] and the [INVALIDATORS] of
    [exercise/cache/points.py]: which entries a change of the database
    invalidates.  A change of the tables and the keys its signals produce are
    modelled side by side, so that it can be asked whether an entry that is left
    valid still shows what the tables say, and then of a whole history of changes,
    generations and late saves. *)

From Stdlib Require Import QArith Ascii.
From S2P Require Import Prelude Lists Transact Cached Helpers Course Deviations Reveal Models.
From S2P Require Import Exercise Submission Entries Points PointsData.
#[local] Open Scope Z_scope.

(** ** The objects signals are about *)

(** A submission with its submitters, a notification, a deviation by its exercise
    and submitter, and a reveal rule; when a rule is being deleted, [pre_delete]
    has set its exercise and its module on the object. *)
Inductive Obj :=
| OSubmission (s : Submission)
| ONotification (n : Notification)
| ORule (rule : Z) (prefetched : option (option Z * option Z))
| ODeviation (exercise submitter : Z).

Definition find_submission (t : Tables) (i : Z) : option Submission :=
  List.find (fun s => sub_id s =? i) (t_submissions t).

Definition rule_exercise (t : Tables) (rule : Z) : option Z :=
  lr_id <$> List.find (fun r => lr_is_exercise r && bool_decide (lr_rule r = Some rule)) (t_lobjs t).
Definition rule_module (t : Tables) (rule : Z) : option Z :=
  mr_id <$> List.find (fun r => bool_decide (mr_rule r = Some rule)) (t_modules t).

(** src/exercise/cache/invalidate_util.py: model_exercise.  A notification without
    a submission has no row to find. *)
Definition model_exercise (t : Tables) (obj : Obj) : option Z :=
  match obj with
  | OSubmission s => Some (sub_exercise s)
  | ONotification n => sub_exercise <$> find_submission t (note_submission n)
  | ORule rule None => rule_exercise t rule
  | ORule _ (Some (exercise, _)) => exercise
  | ODeviation exercise _ => Some exercise
  end.

(** src/exercise/cache/invalidate_util.py: model_module *)
Definition model_module (t : Tables) (obj : Obj) : list Z :=
  match obj with
  | ORule rule None => option_list (rule_module t rule)
  | ORule _ (Some (_, module)) => option_list module
  | _ => []
  end.

(** src/exercise/cache/points.py: prefetch_exercise *)
Definition prefetch_exercise (t : Tables) (rule : Z) : option Z := rule_exercise t rule.
(** src/exercise/cache/points.py: prefetch_module *)
Definition prefetch_module (t : Tables) (rule : Z) : option Z := rule_module t rule.

(** [profile.user.id] *)
Definition profile_user_id (t : Tables) (p : Z) : option Z :=
  user_id <$> List.find (fun u => profile_id (userprofile u) =? p) (t_users t).

(** The users with a submission to the exercise on which [P] holds. *)
Definition users_with (t : Tables) (exercise : Z) (P : Submission -> bool) : list Z :=
  user_id <$> List.filter (fun u => existsb P (rows_of t (profile_id (userprofile u)) exercise))
                (t_users t).

(** src/exercise/cache/invalidate_util.py: model_user_ids *)
Definition model_user_ids (t : Tables) (obj : Obj) : list Z :=
  match obj with
  | OSubmission s => omap (profile_user_id t) (submitter_profiles s)
  | ONotification n => option_list (profile_user_id t (note_recipient n))
  | ORule _ _ =>
      match model_exercise t obj with
      | Some exercise => users_with t exercise (fun _ => true)
      | None =>
          match model_module t obj with
          | [] => []
          | module :: _ =>
              omap (fun x => profile_user_id t (profile_id x.2))
                (List.filter (fun x => bool_decide (Some x.1 = mr_instance <$> find_module t module))
                   (t_students t))
          end
      end
  | ODeviation exercise submitter =>
      match users_with t exercise (fun s => bool_decide (submitter ∈ submitter_profiles s)) with
      | [] => option_list (profile_user_id t submitter)
      | ids => ids
      end
  end.

(** ** Generators of keys *)

(** src/exercise/cache/invalidate_util.py: model_exercise_as_iterable *)
Definition model_exercise_as_iterable (t : Tables) (obj : Obj) : list Z :=
  option_list (model_exercise t obj).

(** src/exercise/cache/invalidate_util.py: exercise_siblings_confirms_the_level *)
Definition exercise_siblings_confirms_the_level (t : Tables) (exercise : LObjRow) : list Z :=
  let siblings :=
    match lr_parent exercise with
    | Some parent => List.filter (fun r => bool_decide (lr_parent r = Some parent)) (t_lobjs t)
    | None => List.filter (fun r => (lr_module r =? lr_module exercise)
                                    && bool_decide (lr_parent r = None)) (t_lobjs t)
    end in
  lr_id <$> List.filter (fun r => bool_decide (lr_category r ∈ t_confirm t)) siblings.

(** src/exercise/cache/invalidate_util.py: model_exercise_siblings_confirms_the_level *)
Definition model_exercise_siblings_confirms_the_level (t : Tables) (obj : Obj) : list Z :=
  match model_exercise t obj ≫= find_lobj t with
  | Some exercise => exercise_siblings_confirms_the_level t exercise
  | None => []
  end.

(** src/exercise/cache/invalidate_util.py: with_user_ids *)
Definition with_user_ids (generator : Tables -> Obj -> list Z) (t : Tables) (obj : Obj)
    : list (Z * Z) :=
  generator t obj ≫= (fun model_id => pair model_id <$> model_user_ids t obj).

(** src/exercise/cache/invalidate_util.py: m2m_submission_userprofile lines 142-148.
    The side of the submission: the ids of [pk_set] are those of profiles. *)
Definition m2m_submission (generator : Tables -> Obj -> list Z) (t : Tables) (obj : Obj)
    (pk_set : list Z) : list (Z * Z) :=
  generator t obj ≫= (fun model_id =>
    (pair model_id <$> pk_set)
    ++ (pair model_id <$> List.filter (fun u => negb (bool_decide (u ∈ pk_set))) (model_user_ids t obj))).

(** src/exercise/cache/invalidate_util.py: m2m_submission_userprofile lines 133-141.
    The side of the profile, [profile.submissions.add(...)]: the id of the profile
    is used as the id of the user. *)
Definition m2m_profile (generator : Tables -> Obj -> list Z) (t : Tables) (profile : Z)
    (pk_set : list Z) : list (Z * Z) :=
  let submissions := List.filter (fun s => bool_decide (sub_id s ∈ pk_set)) (t_submissions t) in
  (fun model_id => (model_id, profile)) <$>
    remove_dups (submissions ≫= (fun s => generator t (OSubmission s))).

(** ** Changes of the tables *)

Inductive Change :=
| SubmissionSave (s : Submission)
| SubmissionDelete (s : Submission)
| SubmittersAdd (submission : Z) (profiles : list UserProfile)
| SubmittersRemove (submission : Z) (profiles : list Z)
| DeadlineSave (d : DeadlineRuleDeviation)
| DeadlineDelete (d : DeadlineRuleDeviation)
| LimitSave (d : MaxSubmissionsRuleDeviation)
| LimitDelete (d : MaxSubmissionsRuleDeviation)
| RuleSave (i : Z) (rule : RevealRule)
| RuleDelete (i : Z)
| NotificationSave (i : Z) (n : Notification)
| NotificationDelete (i : Z) (n : Notification).

Definition t_with_submissions (l : list Submission) (t : Tables) : Tables :=
  mkTables (t_users t) (t_lobjs t) (t_modules t) (t_confirm t) (t_rules t) l (t_deadlines t)
    (t_limits t) (t_groups t) (t_notes t) (t_students t).
Definition t_with_deadlines (l : list DeadlineRuleDeviation) (t : Tables) : Tables :=
  mkTables (t_users t) (t_lobjs t) (t_modules t) (t_confirm t) (t_rules t) (t_submissions t) l
    (t_limits t) (t_groups t) (t_notes t) (t_students t).
Definition t_with_limits (l : list MaxSubmissionsRuleDeviation) (t : Tables) : Tables :=
  mkTables (t_users t) (t_lobjs t) (t_modules t) (t_confirm t) (t_rules t) (t_submissions t)
    (t_deadlines t) l (t_groups t) (t_notes t) (t_students t).
Definition t_with_notes (l : list (Z * Notification)) (t : Tables) : Tables :=
  mkTables (t_users t) (t_lobjs t) (t_modules t) (t_confirm t) (t_rules t) (t_submissions t)
    (t_deadlines t) (t_limits t) (t_groups t) l (t_students t).

(** The columns of a saved submission; [submitters] is a table of its own, empty
    for a new row. *)
Definition save_submission (s : Submission) (l : list Submission) : list Submission :=
  if bool_decide (sub_id s ∈ sub_id <$> l)
  then (fun x => if sub_id x =? sub_id s then with_submitters (submitters x) s else x) <$> l
  else with_submitters [] s :: l.

(** Rows with the same exercise and submitter are the same row ([unique_together]). *)
Definition same_row {D} `{RuleDeviation D} (d x : D) : bool :=
  (dev_exercise x =? dev_exercise d) && (dev_submitter x =? dev_submitter d).
Definition save_deviation {D} `{RuleDeviation D} (d : D) (l : list D) : list D :=
  if existsb (same_row d) l then (fun x => if same_row d x then d else x) <$> l else l ++ [d].
Definition delete_deviation {D} `{RuleDeviation D} (d : D) (l : list D) : list D :=
  List.filter (fun x => negb (same_row d x)) l.

Definition save_note (i : Z) (n : Notification) (l : list (Z * Notification)) : list (Z * Notification) :=
  if bool_decide (i ∈ l.*1) then (fun x => if x.1 =? i then (i, n) else x) <$> l else l ++ [(i, n)].

(** [on_delete=models.SET_NULL] *)
Definition drop_rule (i : Z) (o : option Z) : option Z := if bool_decide (o = Some i) then None else o.

Definition apply_change (c : Change) (t : Tables) : Tables :=
  match c with
  | SubmissionSave s => t_with_submissions (save_submission s (t_submissions t)) t
  | SubmissionDelete s =>
      t_with_submissions (List.filter (fun x => negb (sub_id x =? sub_id s)) (t_submissions t)) t
  | SubmittersAdd i ps =>
      t_with_submissions ((fun s => if sub_id s =? i
        then with_submitters (submitters s ++ List.filter
               (fun p => negb (bool_decide (profile_id p ∈ submitter_profiles s))) ps) s
        else s) <$> t_submissions t) t
  | SubmittersRemove i pks =>
      t_with_submissions ((fun s => if sub_id s =? i
        then with_submitters (List.filter (fun p => negb (bool_decide (profile_id p ∈ pks)))
               (submitters s)) s
        else s) <$> t_submissions t) t
  | DeadlineSave d => t_with_deadlines (save_deviation d (t_deadlines t)) t
  | DeadlineDelete d => t_with_deadlines (delete_deviation d (t_deadlines t)) t
  | LimitSave d => t_with_limits (save_deviation d (t_limits t)) t
  | LimitDelete d => t_with_limits (delete_deviation d (t_limits t)) t
  | RuleSave i rule =>
      mkTables (t_users t) (t_lobjs t) (t_modules t) (t_confirm t) (<[i := rule]> (t_rules t))
        (t_submissions t) (t_deadlines t) (t_limits t) (t_groups t) (t_notes t) (t_students t)
  | RuleDelete i =>
      mkTables (t_users t)
        ((fun r => mkLObjRow (lr_id r) (lr_parent r) (lr_module r) (lr_category r) (lr_is_exercise r)
                     (drop_rule i (lr_rule r))) <$> t_lobjs t)
        ((fun r => mkModuleRow (mr_id r) (mr_instance r) (mr_has_model_answer r)
                     (drop_rule i (mr_rule r))) <$> t_modules t)
        (t_confirm t) (delete i (t_rules t)) (t_submissions t) (t_deadlines t) (t_limits t)
        (t_groups t) (t_notes t) (t_students t)
  | NotificationSave i n => t_with_notes (save_note i n (t_notes t)) t
  | NotificationDelete i _ => t_with_notes (List.filter (fun x => negb (x.1 =? i)) (t_notes t)) t
  end.

(** ** The keys a change invalidates *)

(** The receivers of the two entry classes, both with the prefix [exercisepoints]:
    for the exercise itself and for its siblings that confirm the level. *)
Definition exercise_receivers (t : Tables) (obj : Obj) : list (Z * Z) :=
  with_user_ids model_exercise_as_iterable t obj
  ++ with_user_ids model_exercise_siblings_confirms_the_level t obj.

(** The object of a change and the tables its receivers read: after the change,
    except for [pre_remove] and for what [pre_delete] has read before. *)
Definition change_object (c : Change) (t : Tables) : option Obj :=
  match c with
  | SubmissionSave s => OSubmission <$> find_submission (apply_change c t) (sub_id s)
  | SubmissionDelete s => Some (OSubmission s)
  | SubmittersAdd i _ => OSubmission <$> find_submission (apply_change c t) i
  | SubmittersRemove i _ => OSubmission <$> find_submission t i
  | DeadlineSave d | DeadlineDelete d => Some (ODeviation (dl_exercise d) (dl_submitter d))
  | LimitSave d | LimitDelete d => Some (ODeviation (ms_exercise d) (ms_submitter d))
  | RuleSave i _ => Some (ORule i None)
  | RuleDelete i => Some (ORule i (Some (prefetch_exercise t i, prefetch_module t i)))
  | NotificationSave _ n | NotificationDelete _ n => Some (ONotification n)
  end.

Definition is_rule_change (c : Change) : bool :=
  match c with RuleSave _ _ | RuleDelete _ => true | _ => false end.

(** src/exercise/cache/points.py: ExercisePoints lines 574-588 and
    src/exercise/cache/points.py: LearningObjectPoints lines 388-398.  The
    (exercise, user) parameters a change invalidates. *)
Definition invalidated_exercises (c : Change) (t : Tables) : list (Z * Z) :=
  match change_object c t with
  | None => []
  | Some obj =>
      let after := apply_change c t in
      match c with
      | SubmittersAdd i ps =>
          let existing := default [] (submitter_profiles <$> find_submission t i) in
          let pk_set := List.filter (fun p => negb (bool_decide (p ∈ existing))) (profile_id <$> ps) in
          m2m_submission model_exercise_as_iterable after obj pk_set
      | SubmittersRemove _ pks => m2m_submission model_exercise_as_iterable t obj pks
      | _ => exercise_receivers after obj
      end
  end.

(** src/exercise/cache/points.py: ModulePoints lines 866-868 *)
Definition invalidated_modules (c : Change) (t : Tables) : list (Z * Z) :=
  match change_object c t with
  | Some obj => if is_rule_change c then with_user_ids model_module (apply_change c t) obj else []
  | None => []
  end.

(** ** What makes tables and changes sound *)

(** Primary keys, the one-to-one relations of users and profiles and of rules and
    exercises. *)
Record tables_ok (t : Tables) : Prop := {
  ok_lobjs : lobjs_ok t;
  ok_users : NoDup (user_id <$> t_users t);
  ok_profiles : NoDup ((fun u => profile_id (userprofile u)) <$> t_users t);
  ok_submissions : NoDup (sub_id <$> t_submissions t);
  ok_notes : NoDup (t_notes t).*1;
  ok_rules : forall r r' i, r ∈ t_lobjs t -> r' ∈ t_lobjs t ->
    lr_rule r = Some i -> lr_rule r' = Some i -> r = r';
  ok_exercises : forall r i, r ∈ t_lobjs t -> lr_rule r = Some i -> lr_is_exercise r = true;
}.

(** A saved row keeps its foreign keys, a deleted one exists, a deviation belongs
    to somebody with an account. *)
Definition change_ok (t : Tables) (c : Change) : Prop :=
  match c with
  | SubmissionSave s => forall x, x ∈ t_submissions t -> sub_id x = sub_id s -> sub_exercise x = sub_exercise s
  | SubmissionDelete s => s ∈ t_submissions t
  | DeadlineSave d | DeadlineDelete d => is_Some (profile_user_id t (dl_submitter d))
  | LimitSave d | LimitDelete d => is_Some (profile_user_id t (ms_submitter d))
  | NotificationSave i n =>
      forall n', (i, n') ∈ t_notes t ->
        note_submission n' = note_submission n /\ note_recipient n' = note_recipient n
  | NotificationDelete i n => (i, n) ∈ t_notes t
  | _ => True
  end.

(** The changes whose effect on the entry of [u] in exercise [e] no receiver sees:
    the deadline of somebody else where the latest deadline of all counts, and a
    notification of the group's submission to another member. *)
Definition unseen_effect (t : Tables) (c : Change) (u : User) (e : Z) : Prop :=
  let p := profile_id (userprofile u) in
  match c with
  | DeadlineSave d | DeadlineDelete d =>
      dl_exercise d = e /\ trigger (exercise_rule t e) = RevealTrigger.DEADLINE_ALL /\
      rows_of t p e <> []
  | NotificationSave _ n | NotificationDelete _ n =>
      note_recipient n <> p /\ note_submission n ∈ sub_id <$> rows_of t p e
  | _ => False
  end.

(** ** Inputs that give the same entry *)

Definition same_entry (i i' : ExerciseInput) : Prop :=
  forall info now, generate_exercise info i now = generate_exercise info i' now.

#[export] Instance same_entry_equivalence : Equivalence same_entry.
Proof.
  split; [done|by intros i i' H info now; rewrite H|].
  intros i1 i2 i3 H1 H2 info now. by rewrite H1, H2.
Qed.

(** Without submissions neither the rule nor the deadlines of others matter. *)
Lemma same_entry_no_submissions ds ms gs rule rule' ns all all' :
  same_entry (mkInput [] ds ms gs rule ns all) (mkInput [] ds ms gs rule' ns all').
Proof. by intros info now. Qed.

(** The deadlines of others matter to one trigger only. *)
Lemma same_entry_other_deadlines subs ds ms gs rule ns all all' :
  trigger rule <> RevealTrigger.DEADLINE_ALL ->
  same_entry (mkInput subs ds ms gs rule ns all) (mkInput subs ds ms gs rule ns all').
Proof.
  intros Ht info now. unfold generate_exercise. cbn [in_submissions in_groups in_reveal_rule in_notifications
    in_deadline_deviations in_submission_deviations notes_of].
  set (st := exercise_reveal_state info (mkInput subs ds ms gs rule ns all) _ _).
  set (st' := exercise_reveal_state info (mkInput subs ds ms gs rule ns all') _ _).
  assert (Er : get_reveal_time rule st = get_reveal_time rule st')
    by (unfold get_reveal_time; by destruct (trigger rule)).
  assert (Ei : is_revealed rule st now = is_revealed rule st' now).
  { unfold is_revealed, is_revealed_due_to_time. rewrite Er. by destruct (trigger rule). }
  destruct subs; [done|]. by rewrite Er, Ei.
Qed.

(** ** Deviations depend on few rows *)

Lemma elem_of_rows_of t p e s :
  s ∈ rows_of t p e <-> s ∈ t_submissions t /\ sub_exercise s = e /\ p ∈ submitter_profiles s.
Proof. unfold rows_of. rewrite list_elem_of_filter. naive_solver. Qed.

Section Deviations.
Context {D : Type} `{RuleDeviation D}.

(** A deviation counts for [p] in [e]. *)
Definition concerns (t : Tables) (p e : Z) (d : D) : Prop :=
  dev_exercise d = e /\
  (dev_submitter d = p \/ exists s, s ∈ rows_of t p e /\ dev_submitter d ∈ submitter_profiles s).

Lemma shared_row t p e (d : D) :
  dev_exercise d = e ->
  Exists (fun s => row_exercise s = dev_exercise d /\ dev_submitter d ∈ row_submitters s /\
                   p ∈ row_submitters s) (sub_rows (t_submissions t))
  <-> exists s, s ∈ rows_of t p e /\ dev_submitter d ∈ submitter_profiles s.
Proof.
  intros He. unfold sub_rows. rewrite Exists_fmap, Exists_exists.
  setoid_rewrite elem_of_rows_of. cbn. rewrite He. naive_solver.
Qed.

(** The largest deviation only depends on the submissions of [p] in [e] and on the
    deviations that concern them. *)
Lemma max_deviations_ext t t' p e (l l' : list D) :
  rows_of t' p e = rows_of t p e ->
  (forall P `{forall x, Decision (P x)}, (forall d, P d -> concerns t p e d) -> filter P l' = filter P l) ->
  get_max_deviations l' (sub_rows (t_submissions t')) p [e]
  = get_max_deviations l (sub_rows (t_submissions t)) p [e].
Proof.
  intros Hs Hl. unfold get_max_deviations. do 2 f_equal.
  assert (Hx : forall d : D, dev_exercise d = e ->
    Exists (fun s => row_exercise s = dev_exercise d /\ dev_submitter d ∈ row_submitters s /\
                     p ∈ row_submitters s) (sub_rows (t_submissions t'))
    <-> Exists (fun s => row_exercise s = dev_exercise d /\ dev_submitter d ∈ row_submitters s /\
                     p ∈ row_submitters s) (sub_rows (t_submissions t))).
  { intros d He. rewrite (shared_row t' p e d He), (shared_row t p e d He). by rewrite Hs. }
  f_equal.
  - apply Hl. intros d [Hd Hp]. apply list_elem_of_singleton in Hd. by split; [|left].
  - rewrite <- (Hl (fun d => dev_exercise d ∈ [e] /\ dev_submitter d <> p /\
        Exists (fun s => row_exercise s = dev_exercise d /\ dev_submitter d ∈ row_submitters s /\
                         p ∈ row_submitters s) (sub_rows (t_submissions t)))).
    + apply list_filter_iff. intros d. rewrite list_elem_of_singleton.
      split; intros (Hd & Hp & Hr); (split_and!; [done..|]); by apply Hx.
    + intros d (Hd & Hp & Hr). apply list_elem_of_singleton in Hd. split; [done|]. right.
      by apply shared_row.
Qed.

Lemma filter_save_deviation P `{forall x, Decision (P x)} (d : D) l :
  (forall x, same_row d x = true -> ~ P x) -> filter P (save_deviation d l) = filter P l.
Proof.
  intros Hd. assert (Hself : ~ P d) by (apply Hd; unfold same_row; by rewrite !Z.eqb_refl).
  unfold save_deviation. destruct (existsb (same_row d) l).
  - induction l as [|x l IH]; [done|]. rewrite fmap_cons, !filter_cons.
    destruct (same_row d x) eqn:E.
    + specialize (Hd x E). rewrite !decide_False by done. exact IH.
    + destruct (decide (P x)); [f_equal|]; exact IH.
  - rewrite filter_app, filter_cons_False, filter_nil by done. apply app_nil_r.
Qed.

Lemma filter_delete_deviation P `{forall x, Decision (P x)} (d : D) l :
  (forall x, same_row d x = true -> ~ P x) -> filter P (delete_deviation d l) = filter P l.
Proof.
  intros Hd. unfold delete_deviation. induction l as [|x l IH]; [done|]. cbn [List.filter].
  destruct (same_row d x) eqn:E; cbn [negb].
  - rewrite filter_cons_False by (by apply Hd). exact IH.
  - rewrite !filter_cons. destruct (decide (P x)); [f_equal|]; exact IH.
Qed.

(** Saving or deleting a row does not change what is said of other rows. *)
Lemma filter_deviation_change P `{forall x, Decision (P x)} (d : D) l l' :
  l' = save_deviation d l \/ l' = delete_deviation d l ->
  (forall x, same_row d x = true -> ~ P x) -> filter P l' = filter P l.
Proof. intros [->| ->]; [apply filter_save_deviation|apply filter_delete_deviation]. Qed.

Lemma concerns_same_row t p e (d x : D) : same_row d x = true -> concerns t p e x -> concerns t p e d.
Proof. unfold same_row, concerns. intros Hs. b2p. naive_solver congruence. Qed.
End Deviations.

(** ** What the receivers reach *)

Lemma elem_of_with_user_ids g t obj m x :
  (m, x) ∈ with_user_ids g t obj <-> m ∈ g t obj /\ x ∈ model_user_ids t obj.
Proof.
  unfold with_user_ids. rewrite list_elem_of_bind. split.
  - intros (m' & Hin & Hm). apply list_elem_of_fmap in Hin as (x' & [= -> ->] & Hx). done.
  - intros [Hm Hx]. exists m. split; [|done]. apply list_elem_of_fmap. eauto.
Qed.

Lemma elem_of_m2m g t obj pks m x :
  m ∈ g t obj -> x ∈ model_user_ids t obj -> (m, x) ∈ m2m_submission g t obj pks.
Proof.
  intros Hm Hx. unfold m2m_submission. apply list_elem_of_bind. exists m. split; [|done].
  apply elem_of_app. destruct (decide (x ∈ pks)) as [Hp|Hp]; [left|right]; apply list_elem_of_fmap.
  - eauto.
  - exists x. split; [done|]. apply list_elem_of_In, filter_In. rewrite <- list_elem_of_In.
    split; [done|]. by rewrite bool_decide_false.
Qed.

(** The receivers of the object reach the entry of [e] when they have its exercise
    and the user among its users. *)
Lemma receivers_reach t obj e x :
  model_exercise t obj = Some e -> x ∈ model_user_ids t obj -> (e, x) ∈ exercise_receivers t obj.
Proof.
  intros He Hx. apply elem_of_app. left. apply elem_of_with_user_ids. split; [|done].
  unfold model_exercise_as_iterable. rewrite He. by left.
Qed.

Lemma user_of_profile t u :
  tables_ok t -> u ∈ t_users t -> profile_user_id t (profile_id (userprofile u)) = Some (user_id u).
Proof.
  intros Hok Hu. unfold profile_user_id. destruct (List.find _ _) as [u'|] eqn:E; cbn.
  - apply List.find_some in E as [Hin E]. b2p. do 2 f_equal.
    apply (key_inj (fun u => profile_id (userprofile u)) (t_users t)); [apply Hok| |done..].
    by apply list_elem_of_In.
  - apply list_elem_of_In in Hu. pose proof (List.find_none _ _ E u Hu) as Hc. cbn in Hc. lia.
Qed.

Lemma find_submission_elem t s :
  NoDup (sub_id <$> t_submissions t) -> s ∈ t_submissions t -> find_submission t (sub_id s) = Some s.
Proof.
  intros Hn Hs. unfold find_submission. destruct (List.find _ _) as [s'|] eqn:E.
  - apply List.find_some in E as [Hin E]. b2p. f_equal. apply (key_inj sub_id (t_submissions t)); try done.
    by apply list_elem_of_In.
  - apply list_elem_of_In in Hs. pose proof (List.find_none _ _ E s Hs) as Hc. cbn in Hc. lia.
Qed.

Lemma find_submission_some t i s :
  find_submission t i = Some s -> s ∈ t_submissions t /\ sub_id s = i.
Proof. intros E. apply List.find_some in E as [Hin E]. b2p. by rewrite list_elem_of_In. Qed.

(** A submitter is among the users of the submission. *)
Lemma submitter_reached t u s :
  tables_ok t -> u ∈ t_users t -> profile_id (userprofile u) ∈ submitter_profiles s ->
  user_id u ∈ model_user_ids t (OSubmission s).
Proof.
  intros Hok Hu Hp. cbn. apply list_elem_of_omap. eexists. split; [exact Hp|]. by apply user_of_profile.
Qed.

Lemma elem_of_users_with t e P u s :
  u ∈ t_users t -> s ∈ rows_of t (profile_id (userprofile u)) e -> P s = true ->
  user_id u ∈ users_with t e P.
Proof.
  intros Hu Hs HP. apply list_elem_of_fmap. exists u. split; [done|].
  apply list_elem_of_In, filter_In. rewrite <- list_elem_of_In. split; [done|].
  apply existsb_exists. exists s. by rewrite <- list_elem_of_In.
Qed.

(** Whoever a deviation concerns is reached by its receivers. *)
Lemma deviation_reached {D} `{RuleDeviation D} t u e (d : D) :
  tables_ok t -> u ∈ t_users t -> concerns t (profile_id (userprofile u)) e d ->
  user_id u ∈ model_user_ids t (ODeviation (dev_exercise d) (dev_submitter d)).
Proof.
  intros Hok Hu [He Hc]. cbn. rewrite He.
  set (P := fun s => bool_decide (dev_submitter d ∈ submitter_profiles s)).
  assert (Hin : (exists s, s ∈ rows_of t (profile_id (userprofile u)) e /\ P s = true) ->
                user_id u ∈ users_with t e P).
  { intros (s & Hs & HP). by apply (elem_of_users_with t e P u s). }
  destruct Hc as [Hp|(s & Hs & Hd)].
  - destruct (users_with t e P) as [|x ids] eqn:E.
    + rewrite Hp, user_of_profile by done. by left.
    + apply Hin. unfold users_with in E.
      assert (Hx : x ∈ x :: ids) by (by left). rewrite <- E in Hx.
      apply list_elem_of_fmap in Hx as (u' & _ & Hu').
      apply list_elem_of_In, filter_In in Hu' as [_ Hex]. apply existsb_exists in Hex as (s & Hs & HP).
      exists s. split; [|done]. apply list_elem_of_In in Hs. apply elem_of_rows_of in Hs as (Hs & Hse & _).
      apply elem_of_rows_of. split_and!; [done..|]. rewrite <- Hp. by apply bool_decide_eq_true in HP.
  - assert (HP : P s = true) by (by apply bool_decide_eq_true).
    assert (Hu' : user_id u ∈ users_with t e P) by eauto.
    destruct (users_with t e P); [by apply not_elem_of_nil in Hu'|done].
Qed.

(** ** Changes of submissions *)

(** Only the rows of the student's submissions matter to the input. *)
Lemma input_of_submissions t l u e :
  let p := profile_id (userprofile u) in
  rows_of (t_with_submissions l t) p e = rows_of t p e ->
  exercise_input (t_with_submissions l t) u e = exercise_input t u e.
Proof.
  intros p Hs. unfold exercise_input. fold p. cbv zeta. rewrite Hs. f_equal;
    apply (max_deviations_ext t (t_with_submissions l t)); done.
Qed.

(** An update of one row that is not the student's, before and after. *)
Lemma rows_of_update t p e i f :
  (forall s, s ∈ t_submissions t -> sub_id s = i ->
     ~ (sub_exercise s = e /\ p ∈ submitter_profiles s) /\
     ~ (sub_exercise (f s) = e /\ p ∈ submitter_profiles (f s))) ->
  rows_of (t_with_submissions ((fun s => if sub_id s =? i then f s else s) <$> t_submissions t) t) p e
  = rows_of t p e.
Proof.
  unfold rows_of. cbn [t_submissions t_with_submissions].
  induction (t_submissions t) as [|s l IH]; intros Hf; [done|].
  rewrite fmap_cons, !filter_cons. rewrite IH by (intros x Hx; apply Hf; by right).
  destruct (Z.eqb_spec (sub_id s) i) as [E|E]; [|done].
  destruct (Hf s) as [H1 H2]; [by left|done|]. by rewrite !decide_False.
Qed.

(** ** Changes keep the tables sound *)

Lemma apply_change_users c t : t_users (apply_change c t) = t_users t.
Proof. by destruct c. Qed.

Lemma change_submission_ids c t :
  tables_ok t -> NoDup (sub_id <$> t_submissions (apply_change c t)).
Proof.
  intros Hok. pose proof (ok_submissions t Hok) as Hn.
  destruct c as [s|s|i ps|i ps| | | | | | | | ]; cbn; try done.
  - unfold save_submission. case_bool_decide as Hin; [|by constructor].
    by rewrite (update_ids sub_id (sub_id s) (fun x => with_submitters (submitters x) s)).
  - by apply filter_ids.
  - by rewrite (update_ids sub_id i).
  - by rewrite (update_ids sub_id i).
Qed.

Lemma change_note_ids c t : tables_ok t -> NoDup (t_notes (apply_change c t)).*1.
Proof.
  intros Hok. pose proof (ok_notes t Hok) as Hn.
  destruct c as [ | | | | | | | | | |i n|i n]; cbn; try done.
  - unfold save_note. case_bool_decide as Hin; [by rewrite (update_ids fst i (fun _ => (i, n)))|].
    rewrite fmap_app. by apply NoDup_snoc.
  - by apply filter_ids.
Qed.

Lemma change_lobjs c t r' :
  r' ∈ t_lobjs (apply_change c t) ->
  exists r, r ∈ t_lobjs t /\ lr_id r' = lr_id r /\ lr_is_exercise r' = lr_is_exercise r /\
            (lr_rule r' = lr_rule r -> r' = r) /\ (lr_rule r' = lr_rule r \/ lr_rule r' = None).
Proof.
  intros Hr. destruct c as [ | | | | | | | | |i| | ]; cbn in Hr; try (exists r'; split_and!; by auto).
  apply list_elem_of_fmap in Hr as (r & -> & Hr). exists r. cbn. unfold drop_rule.
  case_bool_decide; split_and!; auto; destruct r; cbn in *; congruence.
Qed.

(** Changes keep the keys and the one-to-one relations. *)
Lemma apply_change_ok c t : tables_ok t -> tables_ok (apply_change c t).
Proof.
  intros Hok. split.
  - assert (E : lr_id <$> t_lobjs (apply_change c t) = lr_id <$> t_lobjs t)
      by (destruct c; cbn; try done; by rewrite <- list_fmap_compose).
    unfold lobjs_ok. rewrite E. apply Hok.
  - rewrite apply_change_users. apply Hok.
  - rewrite apply_change_users. apply Hok.
  - by apply change_submission_ids.
  - by apply change_note_ids.
  - intros r1 r2 i H1 H2 E1 E2.
    apply change_lobjs in H1 as (x1 & I1 & _ & _ & S1 & [R1|R1]); [|congruence].
    apply change_lobjs in H2 as (x2 & I2 & _ & _ & S2 & [R2|R2]); [|congruence].
    rewrite (S1 R1), (S2 R2) in *. by apply (ok_rules t Hok x1 x2 i).
  - intros r i Hr Ei. apply change_lobjs in Hr as (x & Ix & _ & Ex & _ & [Rx|Rx]); [|congruence].
    rewrite Ex. apply (ok_exercises t Hok x i); congruence.
Qed.

(** ** Every change reaches the entries it affects *)

Section Reached.
Context (t : Tables) (u : User) (e : Z).
Context (Hok : tables_ok t) (Hu : u ∈ t_users t).
#[local] Abbreviation p := (profile_id (userprofile u)).

Lemma submission_save_reached s :
  change_ok t (SubmissionSave s) -> (e, user_id u) ∉ invalidated_exercises (SubmissionSave s) t ->
  exercise_input (apply_change (SubmissionSave s) t) u e = exercise_input t u e.
Proof using Hok Hu.
  intros Hc Hk. set (c := SubmissionSave s) in *.
  pose proof (apply_change_ok c t Hok) as Hok'.
  assert (Hrow : forall x, x ∈ t_submissions (apply_change c t) -> sub_id x = sub_id s ->
    ~ (sub_exercise x = e /\ p ∈ submitter_profiles x)).
  { intros x Hx Ei [He Hp]. apply Hk. unfold invalidated_exercises, change_object, c at 1. fold c.
    rewrite <- Ei, (find_submission_elem _ x (ok_submissions _ Hok') Hx).
    cbn [fmap option_fmap option_map c].
    apply receivers_reach; [cbn; by rewrite He|]. apply submitter_reached; [done| |done].
    by rewrite apply_change_users. }
  apply input_of_submissions. cbn [apply_change c] in Hrow. cbn [t_submissions t_with_submissions] in Hrow.
  unfold save_submission in *. case_bool_decide as Hin.
  - apply rows_of_update. intros x Hx Ei.
    assert (Hx' : ~ (sub_exercise (with_submitters (submitters x) s) = e /\
                     p ∈ submitter_profiles (with_submitters (submitters x) s))).
    { apply Hrow; [|done]. apply list_elem_of_fmap. exists x. by rewrite Ei, Z.eqb_refl. }
    split; [|done]. cbn in Hx'. by rewrite (Hc x Hx Ei).
  - unfold rows_of. cbn [t_submissions t_with_submissions]. apply filter_cons_False. intros [_ Hp]. by apply not_elem_of_nil in Hp.
Qed.

Lemma submission_delete_reached s :
  change_ok t (SubmissionDelete s) -> (e, user_id u) ∉ invalidated_exercises (SubmissionDelete s) t ->
  exercise_input (apply_change (SubmissionDelete s) t) u e = exercise_input t u e.
Proof using Hok Hu.
  intros Hc Hk. cbn in Hc. apply input_of_submissions. unfold rows_of.
  cbn [t_submissions t_with_submissions].
  assert (Hrow : ~ (sub_exercise s = e /\ p ∈ submitter_profiles s)).
  { intros [He Hp]. apply Hk. unfold invalidated_exercises. cbn [change_object]. apply receivers_reach; [cbn; by rewrite He|].
    apply submitter_reached; [by apply (apply_change_ok (SubmissionDelete s))|done|done]. }
  assert (Hall : forall x, x ∈ t_submissions t -> sub_id x = sub_id s -> x = s).
  { intros x Hx Ei. by apply (key_inj sub_id (t_submissions t)); [apply Hok|..]. }
  clear Hc Hk. revert Hall. induction (t_submissions t) as [|x l IH]; intros Hall; [done|].
  cbn [List.filter]. destruct (Z.eqb_spec (sub_id x) (sub_id s)) as [E|E]; cbn [negb].
  - rewrite (Hall x) by (done || by left). rewrite filter_cons_False by done.
    apply IH. intros y Hy. apply Hall. by right.
  - rewrite !filter_cons, IH by (intros y Hy; apply Hall; by right). done.
Qed.

Lemma submitters_add_reached i ps :
  (e, user_id u) ∉ invalidated_exercises (SubmittersAdd i ps) t ->
  exercise_input (apply_change (SubmittersAdd i ps) t) u e = exercise_input t u e.
Proof using Hok Hu.
  intros Hk. set (c := SubmittersAdd i ps) in *. pose proof (apply_change_ok c t Hok) as Hok'.
  assert (Hrow : forall x, x ∈ t_submissions (apply_change c t) -> sub_id x = i ->
    ~ (sub_exercise x = e /\ p ∈ submitter_profiles x)).
  { intros x Hx Ei [He Hp]. apply Hk. unfold invalidated_exercises, change_object, c at 1. fold c.
    rewrite <- Ei, (find_submission_elem _ x (ok_submissions _ Hok') Hx).
    cbn [fmap option_fmap option_map c]. apply elem_of_m2m; [cbn; rewrite He; by left|].
    apply submitter_reached; [done| |done]. by rewrite apply_change_users. }
  apply input_of_submissions, rows_of_update. intros s Hs Ei.
  match goal with |- _ /\ ~ (sub_exercise ?x = e /\ _) => set (s' := x) end.
  assert (Hs' : ~ (sub_exercise s' = e /\ p ∈ submitter_profiles s')).
  { apply Hrow; [|done]. cbn. apply list_elem_of_fmap. exists s. by rewrite Ei, Z.eqb_refl. }
  split; [|done]. intros [He Hp]. apply Hs'. split; [done|]. unfold submitter_profiles in *. cbn.
  rewrite fmap_app. apply elem_of_app. by left.
Qed.

Lemma submitters_remove_reached i pks :
  (e, user_id u) ∉ invalidated_exercises (SubmittersRemove i pks) t ->
  exercise_input (apply_change (SubmittersRemove i pks) t) u e = exercise_input t u e.
Proof using Hok Hu.
  intros Hk. apply input_of_submissions, rows_of_update. intros s Hs Ei.
  assert (Hrow : ~ (sub_exercise s = e /\ p ∈ submitter_profiles s)).
  { intros [He Hp]. apply Hk. unfold invalidated_exercises. cbn [change_object].
    rewrite <- Ei, (find_submission_elem _ s (ok_submissions _ Hok) Hs).
    cbn [fmap option_fmap option_map]. apply elem_of_m2m; [cbn; rewrite He; by left|].
    by apply submitter_reached. }
  split; [done|]. intros [He Hp]. apply Hrow. split; [done|]. unfold submitter_profiles in *. cbn in Hp.
  apply list_elem_of_fmap in Hp as (x & -> & Hx). apply list_elem_of_In, filter_In in Hx as [Hx _].
  apply list_elem_of_fmap. exists x. by rewrite list_elem_of_In.
Qed.

(** A deviation that leaves the entry valid does not concern it. *)
Lemma unreached_deviation {D} `{RuleDeviation D} (d : D) (t' : Tables) :
  t_users t' = t_users t -> t_submissions t' = t_submissions t -> tables_ok t' ->
  (e, user_id u) ∉ exercise_receivers t' (ODeviation (dev_exercise d) (dev_submitter d)) ->
  ~ concerns t p e d.
Proof using Hok Hu.
  intros Eu Es Hok' Hk Hc. apply Hk. destruct Hc as [He Hc]. apply receivers_reach; [cbn; by rewrite He|].
  apply (deviation_reached t' u e d); [done|by rewrite Eu|]. split; [done|].
  unfold rows_of. by rewrite Es.
Qed.

Lemma deadline_reached d l :
  l = save_deviation d (t_deadlines t) \/ l = delete_deviation d (t_deadlines t) ->
  ~ concerns t p e d ->
  ~ (dl_exercise d = e /\ trigger (exercise_rule t e) = RevealTrigger.DEADLINE_ALL /\
     rows_of t p e <> []) ->
  same_entry (exercise_input (t_with_deadlines l t) u e) (exercise_input t u e).
Proof using.
  intros Hl Hd Hall. unfold exercise_input. cbv zeta.
  rewrite (max_deviations_ext t (t_with_deadlines l t) p e (t_deadlines t) l).
  - destruct (decide (rows_of t p e = [])) as [E|E].
    { change (rows_of (t_with_deadlines l t) p e) with (rows_of t p e). rewrite E.
      apply same_entry_no_submissions. }
    destruct (decide (dl_exercise d = e)) as [He|He].
    + apply same_entry_other_deadlines. intros Ht. apply Hall. done.
    + assert (Ef : filter (fun d => dl_exercise d = e) l
                   = filter (fun d => dl_exercise d = e) (t_deadlines t)).
      { apply (filter_deviation_change _ d); [done|]. unfold same_row. cbn. intros x Hx. b2p. congruence. }
      cbn [t_deadlines t_with_deadlines]. rewrite Ef. reflexivity.
  - done.
  - intros P HP Hin. apply (filter_deviation_change P d); [done|]. intros x Hx HPx.
    apply Hd, (concerns_same_row t p e d x Hx), Hin, HPx.
Qed.

Lemma limit_reached d l :
  l = save_deviation d (t_limits t) \/ l = delete_deviation d (t_limits t) ->
  ~ concerns t p e d ->
  exercise_input (t_with_limits l t) u e = exercise_input t u e.
Proof using.
  intros Hl Hd. unfold exercise_input. cbv zeta.
  f_equal. apply (max_deviations_ext t (t_with_limits l t)); [done|].
  intros P HP Hin. apply (filter_deviation_change P d); [done|]. intros x Hx HPx.
  apply Hd, (concerns_same_row t p e d x Hx), Hin, HPx.
Qed.

(** The exercise a rule belongs to is found. *)
Lemma rule_exercise_found i : (find_lobj t e ≫= lr_rule) = Some i -> rule_exercise t i = Some e.
Proof using Hok.
  intros Hr. destruct (find_lobj t e) as [r|] eqn:E; [|done]. cbn in Hr.
  apply find_lobj_some in E as [Hin <-]. unfold rule_exercise.
  pose proof (ok_exercises t Hok r i Hin Hr) as Hx. destruct (List.find _ _) as [r'|] eqn:F; cbn.
  - apply List.find_some in F as [Hin' F]. b2p. apply list_elem_of_In in Hin'.
    by rewrite (ok_rules t Hok r' r i).
  - apply list_elem_of_In in Hin. pose proof (List.find_none _ _ F r Hin) as Hc. cbn in Hc.
    rewrite Hx in Hc. cbn in Hc. b2p. done.
Qed.

Lemma find_fmap {A} (f : A -> A) (b : A -> bool) (l : list A) :
  (forall x, b (f x) = b x) -> List.find b (f <$> l) = f <$> List.find b l.
Proof.
  intros Hb. induction l as [|x l IH]; [done|]. cbn. rewrite Hb. by destruct (b x).
Qed.

Lemma rule_delete_lobj i x :
  find_lobj (apply_change (RuleDelete i) t) x
  = (fun r => mkLObjRow (lr_id r) (lr_parent r) (lr_module r) (lr_category r) (lr_is_exercise r)
                (drop_rule i (lr_rule r))) <$> find_lobj t x.
Proof using. by apply find_fmap. Qed.

Lemma rule_delete_module i x :
  mr_instance <$> find_module (apply_change (RuleDelete i) t) x = mr_instance <$> find_module t x.
Proof using.
  unfold find_module. cbn [t_modules apply_change]. rewrite find_fmap by done.
  by destruct (List.find _ _).
Qed.

Lemma rule_delete_groups i :
  (find_lobj (apply_change (RuleDelete i) t) e ≫= instance_of (apply_change (RuleDelete i) t))
  = (find_lobj t e ≫= instance_of t).
Proof using.
  rewrite rule_delete_lobj. destruct (find_lobj t e) as [r|]; [|done]. apply rule_delete_module.
Qed.

(** A rule that is not the rule of [e] does not matter to it. *)
Lemma rule_elsewhere c i :
  (exists rule, c = RuleSave i rule) \/ c = RuleDelete i ->
  (find_lobj t e ≫= lr_rule) <> Some i ->
  exercise_rule (apply_change c t) e = exercise_rule t e.
Proof using.
  intros Hc Hr. unfold exercise_rule, active_rule. destruct Hc as [[rule ->]| ->].
  - change (find_lobj (apply_change (RuleSave i rule) t) e) with (find_lobj t e).
    destruct (find_lobj t e ≫= lr_rule) as [j|]; [|done]. cbn. by rewrite lookup_insert_ne by congruence.
  - rewrite rule_delete_lobj. destruct (find_lobj t e) as [r|]; [|done]. cbn in *. unfold drop_rule.
    rewrite bool_decide_false by done. destruct (lr_rule r) as [j|]; [|done]. cbn.
    by rewrite lookup_delete_ne by congruence.
Qed.

Lemma rule_reached c i :
  (exists rule, c = RuleSave i rule) \/ c = RuleDelete i ->
  (e, user_id u) ∉ invalidated_exercises c t ->
  same_entry (exercise_input (apply_change c t) u e) (exercise_input t u e).
Proof using Hok Hu.
  intros Hc Hk.
  assert (Es : t_submissions (apply_change c t) = t_submissions t) by (by destruct Hc as [[? ->]| ->]).
  assert (Ei : exercise_input (apply_change c t) u e
    = mkInput (in_submissions (exercise_input t u e)) (in_deadline_deviations (exercise_input t u e))
        (in_submission_deviations (exercise_input t u e)) (in_groups (exercise_input t u e))
        (exercise_rule (apply_change c t) e) (in_notifications (exercise_input t u e))
        (in_exercise_deviations (exercise_input t u e))).
  { destruct Hc as [[rule ->]| ->]; [done|]. unfold exercise_input. cbv zeta.
    rewrite rule_delete_groups. done. }
  rewrite Ei. destruct (decide ((find_lobj t e ≫= lr_rule) = Some i)) as [Hr|Hr].
  - destruct (rows_of t p e) as [|s l] eqn:E.
    + unfold exercise_input. cbv zeta. cbn [in_submissions in_notifications]. rewrite E.
      apply same_entry_no_submissions.
    + exfalso. apply Hk. pose proof (rule_exercise_found i Hr) as Hx.
      assert (Hin : user_id u ∈ users_with (apply_change c t) e (fun _ => true)).
      { apply (elem_of_users_with _ e _ u s); [by rewrite apply_change_users| |done].
        unfold rows_of. rewrite Es. fold (rows_of t p e). rewrite E. by left. }
      unfold invalidated_exercises. destruct Hc as [[rule ->]| ->]; cbn [change_object];
        unfold prefetch_exercise; rewrite ?Hx.
      * apply receivers_reach; [exact Hx|].
        assert (Hx' : rule_exercise (apply_change (RuleSave i rule) t) i = Some e) by exact Hx.
        cbn [model_user_ids model_exercise]. by rewrite Hx'.
      * by apply receivers_reach.
  - rewrite (rule_elsewhere c i Hc Hr). reflexivity.
Qed.

(** A notification of none of the student's submissions in [e] is not read. *)
Lemma notification_elsewhere l subs n :
  l = t_notes t \/ (exists i, l = save_note i n (t_notes t) /\ forall n', (i, n') ∈ t_notes t ->
                      note_submission n' = note_submission n) \/
  (exists i, l = List.filter (fun x => negb (x.1 =? i)) (t_notes t) /\ (i, n) ∈ t_notes t) ->
  note_submission n ∉ sub_id <$> subs ->
  notes_on (t_with_notes l t) subs = notes_on t subs.
Proof using Hok.
  intros Hl Hn. unfold notes_on. cbn [t_notes t_with_notes].
  destruct Hl as [->|[(i & -> & Hi)|(i & -> & Hi)]]; [done| |].
  - unfold save_note. case_bool_decide as Hin.
    + clear Hin. revert Hi. induction (t_notes t) as [|[j m] l IH]; intros Hi; [done|].
      rewrite !fmap_cons, !filter_cons. rewrite IH by (intros n' Hn'; apply Hi; by right). cbn [fst].
      destruct (Z.eqb_spec j i) as [->|Hj]; [|done]. cbn [snd].
      rewrite (Hi m) by (by left). by rewrite !decide_False.
    + rewrite fmap_app, filter_app. cbn [fmap list_fmap snd]. rewrite filter_cons_False by done.
      by rewrite filter_nil, app_nil_r.
  - assert (Hi' : forall n', (i, n') ∈ t_notes t -> note_submission n' = note_submission n).
    { intros n' Hn'. by pose proof (key_inj fst (t_notes t) _ _ (ok_notes t Hok) Hn' Hi eq_refl) as [= ->]. }
    clear Hi. revert Hi'. induction (t_notes t) as [|[j m] l IH]; intros Hi; [done|].
    cbn [List.filter fst]. destruct (Z.eqb_spec j i) as [->|Hj]; cbn [negb].
    + rewrite fmap_cons, filter_cons_False by (cbn; by rewrite (Hi m) by (by left)).
      apply IH. intros n' Hn'. apply Hi. by right.
    + rewrite !fmap_cons, !filter_cons. by rewrite IH by (intros n' Hn'; apply Hi; by right).
Qed.

(** A notification that leaves the entry valid is not of the student's submissions. *)
Lemma unreached_notification n t' :
  t_users t' = t_users t -> t_submissions t' = t_submissions t -> tables_ok t' ->
  (e, user_id u) ∉ exercise_receivers t' (ONotification n) ->
  ~ (note_recipient n <> p /\ note_submission n ∈ sub_id <$> rows_of t p e) ->
  note_submission n ∉ sub_id <$> rows_of t p e.
Proof using Hok Hu.
  intros Eu Es Hok' Hk Hb Hin. destruct (decide (note_recipient n = p)) as [Hp|Hp]; [|by apply Hb].
  apply Hk. apply list_elem_of_fmap in Hin as (s & Ei & Hs).
  apply elem_of_rows_of in Hs as (Hs & He & _). apply receivers_reach.
  - cbn. rewrite Ei, (find_submission_elem t' s); [by rewrite <- He|by rewrite Es; apply Hok|by rewrite Es].
  - cbn. rewrite Hp, user_of_profile by (done || by rewrite Eu). by left.
Qed.
End Reached.

Lemma invalidation_reaches t c u e :
  tables_ok t -> change_ok t c -> u ∈ t_users t ->
  (e, user_id u) ∉ invalidated_exercises c t -> ~ unseen_effect t c u e ->
  same_entry (exercise_input (apply_change c t) u e) (exercise_input t u e).
Proof.
  intros Hok Hc Hu Hk Hb. pose proof (apply_change_ok c t Hok) as Hok'.
  destruct c as [s|s|i ps|i ps|d|d|d|d|i rule|i|i n|i n].
  - rewrite submission_save_reached by done. reflexivity.
  - rewrite submission_delete_reached by done. reflexivity.
  - rewrite submitters_add_reached by done. reflexivity.
  - rewrite submitters_remove_reached by done. reflexivity.
  - apply (deadline_reached t u e d); [by left| |exact Hb].
    by apply (unreached_deviation t u e Hok Hu d (apply_change (DeadlineSave d) t)).
  - apply (deadline_reached t u e d); [by right| |exact Hb].
    by apply (unreached_deviation t u e Hok Hu d (apply_change (DeadlineDelete d) t)).
  - cbn [apply_change]. rewrite (limit_reached t u e d); [reflexivity|by left|].
    by apply (unreached_deviation t u e Hok Hu d (apply_change (LimitSave d) t)).
  - cbn [apply_change]. rewrite (limit_reached t u e d); [reflexivity|by right|].
    by apply (unreached_deviation t u e Hok Hu d (apply_change (LimitDelete d) t)).
  - apply (rule_reached t u e Hok Hu _ i); eauto.
  - apply (rule_reached t u e Hok Hu _ i); eauto.
  - pose proof (unreached_notification t u e Hok Hu n (apply_change (NotificationSave i n) t)
      eq_refl eq_refl Hok' Hk Hb) as Hn.
    unfold exercise_input. cbn [apply_change]. cbv zeta.
    rewrite (notification_elsewhere t Hok _ _ n); [reflexivity| |exact Hn].
    right. left. exists i. split; [done|]. intros n' Hn'. by apply Hc.
  - pose proof (unreached_notification t u e Hok Hu n (apply_change (NotificationDelete i n) t)
      eq_refl eq_refl Hok' Hk Hb) as Hn.
    unfold exercise_input. cbn [apply_change]. cbv zeta.
    rewrite (notification_elsewhere t Hok _ _ n); [reflexivity| |exact Hn].
    right. right. exists i. by split.
Qed.

(** ** Keys of the entries *)

(** src/exercise/cache/points.py: LearningObjectPoints lines 386-387.  The entry
    classes that are cached separately, with their prefix and number of
    parameters. *)
Definition points_parents : list (string * nat) := [("exercise"%string, 1%nat); ("exercisepoints"%string, 2%nat)].

(** The key [_get_keys_with_cls(...)[-1]] of the entry of an exercise and a user. *)
Definition points_key (e u : Z) : string :=
  default EmptyString (last (get_keys points_parents [str_of_Z e; str_of_Z u])).

(** No comma in a printed number. *)
Fixpoint comma_free (s : string) : bool :=
  match s with
  | EmptyString => true
  | String c s => negb (bool_decide (c = ","%char)) && comma_free s
  end.

Lemma comma_free_N x s : comma_free s = true -> comma_free (pretty.pretty_N_go x s) = true.
Proof.
  revert s. induction (N.lt_wf_0 x) as [x _ IH]; intros s Hs.
  destruct (decide (0 < x)%N) as [Hx|Hx].
  - rewrite pretty.pretty_N_go_step by done. apply IH; [by apply N.div_lt|]. cbn. rewrite Hs, andb_true_r.
    unfold pretty.pretty_N_char. by repeat case_match.
  - assert (x = 0%N) as -> by lia. by rewrite pretty.pretty_N_go_0.
Qed.

Lemma comma_free_Z n : comma_free (str_of_Z n) = true.
Proof.
  assert (HN : forall x : positive, comma_free (pretty.pretty x) = true).
  { intros x. change (pretty.pretty x) with (pretty.pretty_N (N.pos x)). unfold pretty.pretty_N.
    rewrite decide_False by done. by apply comma_free_N. }
  destruct n as [|x|x]; [done|apply HN|]. change (comma_free (pretty.pretty x) = true). apply HN.
Qed.

Lemma comma_split a b a' b' :
  comma_free a = true -> comma_free a' = true ->
  (a +:+ "," +:+ b)%string = (a' +:+ "," +:+ b')%string -> a = a' /\ b = b'.
Proof.
  revert a'. induction a as [|c a IH]; intros [|c' a'] Ha Ha' E; cbn in *.
  - injection E as E. split; [done|exact E].
  - injection E as <- _. cbn in Ha'. done.
  - injection E as -> _. cbn in Ha. done.
  - injection E as -> E. b2p. destruct (IH a') as [-> ->]; done.
Qed.

(** Different exercises or users never share a key. *)
Lemma points_key_inj e u e' u' : points_key e u = points_key e' u' -> e = e' /\ u = u'.
Proof.
  intros E. change ("exercisepoints:" +:+ (str_of_Z e +:+ "," +:+ str_of_Z u) =
                    "exercisepoints:" +:+ (str_of_Z e' +:+ "," +:+ str_of_Z u'))%string in E.
  apply (inj (String.append "exercisepoints:")) in E.
  apply comma_split in E as [E1 E2]; [|apply comma_free_Z..].
  split; by apply (inj (pretty.pretty (A := Z))).
Qed.

(** ** Histories *)

Section History.
(** How an entry is pickled, the entries of the content cache, which the modelled
    changes do not touch, and the dependencies an entry names. *)
Context (pickle : ExercisePoints -> string) (info_of : Z -> EntryInfo) (deps_of : Z -> Z -> list string).

(** The keys of the entries a change invalidates. *)
Definition change_keys (c : Change) (t : Tables) : list string :=
  ((fun x => points_key x.1 x.2) <$> invalidated_exercises c t)
  ++ ((fun x => ("modulepoints:" +:+ get_key_postfix [str_of_Z x.1; str_of_Z x.2])%string)
        <$> invalidated_modules c t).

(** src/lib/cache/cached.py: CacheBase._build lines 566-578.  What is to be stored
    for an entry that is generated at [now] by a manager made at [gen_start]. *)
Definition entry_item (t : Tables) (u : User) (e gen_start now : Z) : Item :=
  let ep := generate_exercise (info_of e) (exercise_input t u e) now in
  mkItem gen_start (ep_expires_on ep) (Some (deps_of e (user_id u))) (Some (pickle ep)).

(** The database, the cache, the entries that requests have generated and not
    tried to save yet, the entries that have passed the check of a save and are
    not stored yet, and the keys that were invalidated while such an entry was on
    its way. *)
Record System := mkSystem {
  sys_clock : Z;
  sys_tables : Tables;
  sys_cache : Cache * Manager;
  sys_jobs : list (User * Z * Item);
  sys_checked : list (User * Z * Item);
  sys_raced : gset string;
}.

Definition job_key (job : User * Z * Item) : string := points_key job.1.2 (user_id job.1.1).

(** The checked entries among some keys. *)
Definition raced_keys (keys : list string) (checked : list (User * Z * Item)) : gset string :=
  list_to_set (List.filter (fun k => bool_decide (k ∈ keys)) (job_key <$> checked)).

(** Requests that change the tables, generate entries and save them, in any order;
    [gen_start] is when the request that generates began to read.  A change and its
    invalidations are one step, the check of a save and its writing are two. *)
Inductive step (sys : System) : System -> Prop :=
| step_change c now :
    sys_clock sys < now -> change_ok (sys_tables sys) c ->
    (forall u e, u ∈ t_users (sys_tables sys) -> ~ unseen_effect (sys_tables sys) c u e) ->
    step sys (mkSystem now (apply_change c (sys_tables sys))
                (invalidate_many [] now (change_keys c (sys_tables sys)) (sys_cache sys))
                (sys_jobs sys) (sys_checked sys)
                (sys_raced sys ∪ raced_keys (change_keys c (sys_tables sys)) (sys_checked sys)))
| step_generate u e gen_start now :
    u ∈ t_users (sys_tables sys) -> sys_clock sys <= now -> gen_start <= now ->
    step sys (mkSystem now (sys_tables sys) (sys_cache sys)
                ((u, e, entry_item (sys_tables sys) u e gen_start now) :: sys_jobs sys)
                (sys_checked sys) (sys_raced sys))
| step_check u e it before after :
    sys_jobs sys = before ++ (u, e, it) :: after ->
    step sys (mkSystem (sys_clock sys) (sys_tables sys) (sys_cache sys) (before ++ after)
                (if bool_decide (save_states [] {[ points_key e (user_id u) := it ]} (sys_cache sys) = ∅)
                 then sys_checked sys else (u, e, it) :: sys_checked sys)
                (sys_raced sys))
| step_store u e it before after :
    sys_checked sys = before ++ (u, e, it) :: after ->
    step sys (mkSystem (sys_clock sys) (sys_tables sys)
                (set_many [] {[ points_key e (user_id u) := it ]} (sys_cache sys))
                (sys_jobs sys) (before ++ after) (sys_raced sys)).

(** The item is the entry that the tables give, at some time up to now. *)
Definition current (sys : System) (u : User) (e : Z) (it : Item) : Prop :=
  exists n, n <= sys_clock sys /\
    i_state it = Some (pickle (generate_exercise (info_of e) (exercise_input (sys_tables sys) u e) n)) /\
    i_expires it = ep_expires_on (generate_exercise (info_of e) (exercise_input (sys_tables sys) u e) n).

(** The state of the entry of [u] in [e], which was last invalidated at [last], if
    it ever was: what is stored since then and what has passed a check is not
    older, and what is older cannot pass it. *)
Record settled (sys : System) (u : User) (e : Z) (last : option Z) : Prop := {
  set_live : forall it, fst (sys_cache sys) !! points_key e (user_id u) = Some it ->
    i_deps it <> None -> current sys u e it;
  set_stored : forall t, last = Some t ->
    exists s, fst (sys_cache sys) !! points_key e (user_id u) = Some s /\ t <= i_time s;
  set_checked : forall it, (u, e, it) ∈ sys_checked sys ->
    current sys u e it /\ forall t, last = Some t -> t <= i_time it;
  set_jobs : forall it, (u, e, it) ∈ sys_jobs sys ->
    current sys u e it \/ exists t, last = Some t /\ i_time it < t;
}.

Record coherent (sys : System) : Prop := {
  coh_tables : tables_ok (sys_tables sys);
  coh_users : forall u e it, (u, e, it) ∈ sys_jobs sys \/ (u, e, it) ∈ sys_checked sys ->
    u ∈ t_users (sys_tables sys);
  coh_times : forall u e it, (u, e, it) ∈ sys_jobs sys -> i_time it <= sys_clock sys;
  coh_entries : forall u e, u ∈ t_users (sys_tables sys) -> points_key e (user_id u) ∉ sys_raced sys ->
    exists last, settled sys u e last;
}.

Lemma invalidate_lookup sys now keys k :
  fst (invalidate_many [] now keys (sys_cache sys)) !! k
  = if bool_decide (k ∈ keys) then Some (invalidation now) else fst (sys_cache sys) !! k.
Proof. destruct (sys_cache sys) as [cache mgr]. apply invalidate_many_lookup. Qed.

Lemma store_one_lookup sys key it k :
  fst (set_many [] {[ key := it ]} (sys_cache sys)) !! k
  = if bool_decide (k = key) then Some it else fst (sys_cache sys) !! k.
Proof.
  destruct (sys_cache sys) as [cache mgr]. cbn. unfold cache_set_many.
  rewrite lookup_union. case_bool_decide as E.
  - subst. rewrite lookup_singleton_eq. by destruct (cache !! key).
  - rewrite lookup_singleton_ne by done. by destruct (cache !! k).
Qed.

(** What passes the check is not older than what is stored. *)
Lemma check_passes cache mgr key it s :
  save_states [] {[ key := it ]} (cache, mgr) <> ∅ -> cache !! key = Some s -> i_time s <= i_time it.
Proof.
  intros Hne Hs. unfold save_states, get_many in Hne. cbn [update_memos] in Hne.
  rewrite bool_decide_true in Hne by done. rewrite map_to_list_singleton in Hne. cbn in Hne.
  rewrite map_filter_singleton in Hne. destruct (decide _) as [Hm|]; [|done].
  unfold may_store in Hm. cbn in Hm.
  assert (cache_get_many cache [key] !! key = Some s) as Hg
    by (apply map_lookup_filter_Some; split; [done|by left]).
  rewrite Hg in Hm. by b2p.
Qed.

(** An entry that a change leaves valid stays current. *)
Lemma current_after_change sys c now u e it cache jobs checked raced :
  tables_ok (sys_tables sys) -> sys_clock sys < now -> change_ok (sys_tables sys) c ->
  u ∈ t_users (sys_tables sys) ->
  ~ unseen_effect (sys_tables sys) c u e -> points_key e (user_id u) ∉ change_keys c (sys_tables sys) ->
  current sys u e it ->
  current (mkSystem now (apply_change c (sys_tables sys)) cache jobs checked raced) u e it.
Proof.
  intros Hok Hnow Hc Hu Hb Hk (n & Hn & Hs & Hx). exists n. cbn. split; [lia|].
  assert (Hin : (e, user_id u) ∉ invalidated_exercises c (sys_tables sys)).
  { intros Hin. apply Hk, elem_of_app. left. apply list_elem_of_fmap. by exists (e, user_id u). }
  by rewrite (invalidation_reaches _ c u e Hok Hc Hu Hin Hb).
Qed.

(** An entry that is invalidated while nothing is on its way to be stored. *)
Lemma settled_invalidated sys tables now keys raced u e :
  coherent sys -> sys_clock sys < now -> points_key e (user_id u) ∈ keys ->
  (forall it, (u, e, it) ∉ sys_checked sys) ->
  settled (mkSystem now tables (invalidate_many [] now keys (sys_cache sys)) (sys_jobs sys)
             (sys_checked sys) raced) u e (Some now).
Proof.
  intros Hcoh Hnow Hk Hno.
  split; cbn [sys_cache sys_checked sys_jobs].
  - intros it. rewrite invalidate_lookup, bool_decide_true by done. by intros [= <-].
  - intros t [= <-]. rewrite invalidate_lookup, bool_decide_true by done.
    exists (invalidation now). split; [done|]. cbn. lia.
  - intros it Hc. by destruct (Hno it).
  - intros it Hj. right. exists now. split; [done|]. pose proof (coh_times _ Hcoh _ _ _ Hj). lia.
Qed.

Lemma step_change_coherent sys c now :
  coherent sys -> sys_clock sys < now -> change_ok (sys_tables sys) c ->
  (forall u e, u ∈ t_users (sys_tables sys) -> ~ unseen_effect (sys_tables sys) c u e) ->
  coherent (mkSystem now (apply_change c (sys_tables sys))
    (invalidate_many [] now (change_keys c (sys_tables sys)) (sys_cache sys)) (sys_jobs sys) (sys_checked sys)
    (sys_raced sys ∪ raced_keys (change_keys c (sys_tables sys)) (sys_checked sys))).
Proof.
  intros Hcoh Hnow Hc Hb. pose proof Hcoh as [Hok Husers Htimes Hent].
  split; cbn [sys_tables sys_clock sys_cache sys_jobs sys_checked sys_raced].
  - by apply apply_change_ok.
  - rewrite apply_change_users. exact Husers.
  - intros u e it Hj. specialize (Htimes u e it Hj). lia.
  - rewrite apply_change_users. intros u e Hu Hr. apply not_elem_of_union in Hr as [Hr Hr2].
    destruct (Hent u e Hu Hr) as [last [Hlive Hst Hch Hjobs]].
    destruct (decide (points_key e (user_id u) ∈ change_keys c (sys_tables sys))) as [Hin|Hout].
    + exists (Some now). apply settled_invalidated; try done. intros it Hit. apply Hr2.
      unfold raced_keys. apply elem_of_list_to_set, list_elem_of_In, filter_In.
      rewrite <- list_elem_of_In. split; [apply list_elem_of_fmap; by exists (u, e, it)|].
      by apply bool_decide_eq_true.
    + exists last.
      split; cbn [sys_cache sys_checked sys_jobs]; rewrite ?invalidate_lookup, ?bool_decide_false by done.
      * intros it Hk Hd. apply current_after_change; auto.
      * done.
      * intros it Hi. destruct (Hch it Hi) as [Hcur Ht]. split; [|done]. apply current_after_change; auto.
      * intros it Hi. destruct (Hjobs it Hi) as [Hcur|?]; [left|by right]. apply current_after_change; auto.
Qed.

(** Taking an entry from a list of entries on their way. *)
Lemma elem_of_rest {A} (before after : list A) x y : x ∈ before ++ after -> x ∈ before ++ y :: after.
Proof. rewrite !elem_of_app, elem_of_cons. naive_solver. Qed.

Lemma step_check_coherent sys u e it before after :
  coherent sys -> sys_jobs sys = before ++ (u, e, it) :: after ->
  coherent (mkSystem (sys_clock sys) (sys_tables sys) (sys_cache sys) (before ++ after)
    (if bool_decide (save_states [] {[ points_key e (user_id u) := it ]} (sys_cache sys) = ∅)
     then sys_checked sys else (u, e, it) :: sys_checked sys) (sys_raced sys)).
Proof.
  intros [Hok Husers Htimes Hent] Ej.
  assert (Hjob : (u, e, it) ∈ sys_jobs sys) by (rewrite Ej; apply elem_of_app; right; by left).
  assert (Hrest : forall x, x ∈ before ++ after -> x ∈ sys_jobs sys)
    by (intros x Hx; rewrite Ej; by apply elem_of_rest).
  split; cbn [sys_tables sys_clock sys_cache sys_jobs sys_checked sys_raced].
  - done.
  - intros u' e' it' [Hj|Hj]; [eauto|]. destruct (bool_decide _); [eauto|].
    apply elem_of_cons in Hj as [[= -> -> ->]|Hj]; eauto.
  - eauto.
  - intros u' e' Hu Hr. destruct (Hent u' e' Hu Hr) as [last [Hlive Hst Hch Hjobs]]. exists last.
    split; cbn [sys_cache sys_checked sys_jobs]; [exact Hlive|exact Hst| |by eauto].
    intros it' Hc. case_bool_decide as Hp; [by apply Hch|].
    apply elem_of_cons in Hc as [[= -> -> ->]|Hc]; [|by apply Hch].
    assert (Hnew : forall t, last = Some t -> t <= i_time it).
    { intros t Ht. destruct (Hst t Ht) as (s & Es & Hle). destruct (sys_cache sys) as [cache mgr].
      pose proof (check_passes _ _ _ _ _ Hp Es). lia. }
    split; [|exact Hnew]. destruct (Hjobs it Hjob) as [?|(t & Ht & Hlt)]; [done|].
    specialize (Hnew t Ht). lia.
Qed.

Lemma step_store_coherent sys u e it before after :
  coherent sys -> sys_checked sys = before ++ (u, e, it) :: after ->
  coherent (mkSystem (sys_clock sys) (sys_tables sys)
    (set_many [] {[ points_key e (user_id u) := it ]} (sys_cache sys)) (sys_jobs sys) (before ++ after)
    (sys_raced sys)).
Proof.
  intros [Hok Husers Htimes Hent] Ec.
  assert (Hjob : (u, e, it) ∈ sys_checked sys) by (rewrite Ec; apply elem_of_app; right; by left).
  assert (Hrest : forall x, x ∈ before ++ after -> x ∈ sys_checked sys)
    by (intros x Hx; rewrite Ec; by apply elem_of_rest).
  split; cbn [sys_tables sys_clock sys_cache sys_jobs sys_checked sys_raced].
  - done.
  - intros u' e' it' [Hj|Hj]; eauto.
  - eauto.
  - intros u' e' Hu Hr. destruct (Hent u' e' Hu Hr) as [last [Hlive Hst Hch Hjobs]]. exists last.
    split; cbn [sys_cache sys_checked sys_jobs]; try setoid_rewrite store_one_lookup; [| |by eauto|exact Hjobs].
    all: case_bool_decide as Ek; [|done].
    all: apply points_key_inj in Ek as [-> Eu];
      assert (u' = u) as -> by (apply (key_inj user_id (t_users (sys_tables sys))); eauto; apply Hok).
    + intros it' [= <-] _. by apply Hch.
    + intros t Ht. exists it. split; [done|]. by apply Hch.
Qed.

(** Every step keeps the cache coherent. *)
Lemma step_coherent sys sys' : coherent sys -> step sys sys' -> coherent sys'.
Proof.
  intros Hcoh Hs.
  destruct Hs as [c now Hnow Hc Hb|u e g now Hu Hn Hg|u e it before after Ej|u e it before after Ec].
  - by apply step_change_coherent.
  - destruct Hcoh as [Hok Husers Htimes Hent].
    set (sys2 := mkSystem _ _ _ _ _ _).
    assert (Hlift : forall u' e' it', current sys u' e' it' -> current sys2 u' e' it').
    { intros u' e' it' (n & Hle & H). exists n. split; [cbn; lia|done]. }
    split; cbn [sys_tables sys_clock sys_cache sys_jobs sys_checked sys_raced].
    + done.
    + intros u' e' it' [Hj|Hj]; [|eauto]. apply elem_of_cons in Hj as [[= -> -> ->]|Hj]; eauto.
    + change (sys_clock sys2) with now.
      intros u' e' it' Hj. apply elem_of_cons in Hj as [[= -> -> ->]|Hj]; [done|].
      specialize (Htimes u' e' it' Hj). lia.
    + intros u' e' Hu' Hr. destruct (Hent u' e' Hu' Hr) as [last [Hlive Hst Hch Hjobs]]. exists last.
      split; cbn [sys_cache sys_checked sys_jobs].
      * eauto.
      * done.
      * intros it' Hi. destruct (Hch it' Hi). eauto.
      * intros it' Hi. apply elem_of_cons in Hi as [[= -> -> ->]|Hi].
        -- left. exists now. split; [cbn; lia|done].
        -- destruct (Hjobs it' Hi); eauto.
  - by apply step_check_coherent.
  - by apply step_store_coherent.
Qed.

Lemma reachable_coherent t cache0 sys :
  tables_ok t -> fst cache0 = ∅ -> rtc step (mkSystem 0 t cache0 [] [] ∅) sys -> coherent sys.
Proof.
  intros Hok H0 Hr.
  assert (Hinit : coherent (mkSystem 0 t cache0 [] [] ∅)).
  { split; cbn; [done|set_solver|set_solver|]. intros u e _ _. exists None.
    split; cbn; [|done|set_solver|set_solver]. intros it Hk. rewrite H0 in Hk. by rewrite lookup_empty in Hk. }
  clear -Hinit Hr. induction Hr as [|s1 s2 s3 Hs _ IH]; [done|]. apply IH. by eapply step_coherent.
Qed.

(** C19. The cached points of an exercise are not stale.  However requests change
    submissions, submitters, deviations, reveal rules and notifications, generate
    entries from what they have read and save them late, with the check of a save
    and its writing apart: an entry that is read from the cache is exactly the entry
    that would be generated at that moment from the tables as they are, unless the
    entry was once invalidated while a save of it was between its check and its
    writing.  The receivers of the signals reach every entry that a change affects, a
    late save does not pass the check after an invalidation, and the entry expires
    when the clock would change it.  The changes are those without an effect the
    receivers do not see, a change and its invalidations are one step, and the
    cache does not lose what it stores. *)
Theorem points_cache_coherent t cache0 sys u e it now :
  tables_ok t -> fst cache0 = ∅ -> rtc step (mkSystem 0 t cache0 [] [] ∅) sys ->
  u ∈ t_users (sys_tables sys) -> points_key e (user_id u) ∉ sys_raced sys -> sys_clock sys <= now ->
  read now (fst (sys_cache sys)) (points_key e (user_id u)) = Some it ->
  i_state it = Some (pickle (generate_exercise (info_of e) (exercise_input (sys_tables sys) u e) now)).
Proof.
  intros Hok H0 Hr Hu Hrace Hnow Hread.
  pose proof (reachable_coherent _ _ _ Hok H0 Hr) as Hcoh.
  destruct (coh_entries sys Hcoh u e Hu Hrace) as [last [Hlive _ _ _]].
  unfold read, usable in Hread. destruct (fst (sys_cache sys) !! _) as [it'|] eqn:E; [|done].
  assert (Hd : i_deps it' <> None) by (by destruct (i_deps it')).
  destruct (Hlive it' eq_refl Hd) as (n & Hn & Hs & Hx).
  destruct (i_deps it') as [ds|]; [|done].
  assert (it' = it /\ still_valid (i_expires it') now = true) as [-> Hv].
  { unfold still_valid. destruct (i_expires it') as [x|]; [|by injection Hread as ->].
    destruct (x <? now) eqn:Ex; [done|by injection Hread as ->]. }
  rewrite Hx in Hv. rewrite Hs. f_equal. f_equal. symmetry. apply entry_until_expiry; [lia|done].
Qed.
End History.

(** ** Witnesses and effects the receivers do not see *)

Definition example_pickle (ep : ExercisePoints) : string := format_points (points_of ep) true false.

Lemma example_tables_ok rule : tables_ok (example_tables rule).
Proof.
  split.
  1-5: apply NoDup_ListNoDup; vm_compute; repeat constructor; cbn; intuition discriminate.
  - intros r r' i Hr Hr' E E'. cbn in Hr, Hr'.
    repeat match goal with H : _ ∈ _ :: _ |- _ => apply elem_of_cons in H as [->|H] end;
      try (by apply not_elem_of_nil in Hr); try (by apply not_elem_of_nil in Hr');
      cbn in *; congruence.
  - intros r i Hr E. cbn in Hr.
    repeat match goal with H : _ ∈ _ :: _ |- _ => apply elem_of_cons in H as [->|H] end;
      try (by apply not_elem_of_nil in Hr); cbn in *; congruence.
Qed.

(** The entry of the second student is generated and saved, an extra submission is
    granted in another exercise, and the entry is read. *)
Lemma points_cache_coherent_witness :
  let t := example_tables (default_rule RevealTrigger.IMMEDIATE) in
  let t' := apply_change (LimitSave (mkSubmissionsDeviation 6 12 1)) t in
  exists sys it,
    read 5 (fst (sys_cache sys)) (points_key 5 (user_id (example_account 2))) = Some it /\
    sys_tables sys = t' /\
    i_state it = Some (example_pickle (generate_exercise example_entry
                                         (exercise_input t' (example_account 2) 5) 5)) /\
    i_state it = Some "8"%string.
Proof.
  intros t t'. set (dp := fun _ _ : Z => [] : list string). set (inf := fun _ : Z => example_entry).
  set (it := entry_item example_pickle inf dp t (example_account 2) 5 1 2).
  set (s1 := mkSystem 2 t (∅, init) [(example_account 2, 5, it)] [] ∅).
  set (s2 := mkSystem 2 t (∅, init) [] [(example_account 2, 5, it)] ∅).
  set (s3 := mkSystem 2 t (set_many [] {[ points_key 5 (user_id (example_account 2)) := it ]} (∅, init)) [] [] ∅).
  set (c := LimitSave (mkSubmissionsDeviation 6 12 1)).
  set (s4 := mkSystem 4 (apply_change c (sys_tables s3))
              (invalidate_many [] 4 (change_keys c (sys_tables s3)) (sys_cache s3)) (sys_jobs s3)
              (sys_checked s3) (sys_raced s3 ∪ raced_keys (change_keys c (sys_tables s3)) (sys_checked s3))).
  assert (H2 : example_account 2 ∈ t_users t) by (right; left).
  assert (Hr : read 5 (fst (sys_cache s4)) (points_key 5 (user_id (example_account 2))) = Some it)
    by (vm_compute; reflexivity).
  exists s4, it. split; [exact Hr|]. split; [reflexivity|]. split; [|vm_compute; reflexivity].
  apply (points_cache_coherent example_pickle inf dp t (∅, init) s4 (example_account 2) 5 it 5).
  - apply example_tables_ok.
  - reflexivity.
  - apply (rtc_l _ _ s1); [|apply (rtc_l _ _ s2); [|apply (rtc_l _ _ s3); [|apply (rtc_l _ _ s4); [|apply rtc_refl]]]].
    + pose proof (step_generate example_pickle inf dp (mkSystem 0 t (∅, init) [] [] ∅) (example_account 2) 5 1 2
        H2 ltac:(cbn; lia) ltac:(lia)) as Hg.
      cbn [sys_tables sys_cache sys_jobs sys_checked sys_raced] in Hg. exact Hg.
    + pose proof (step_check example_pickle inf dp s1 (example_account 2) 5 it [] [] eq_refl) as Hc.
      rewrite bool_decide_false in Hc by (apply (bool_decide_eq_false_1 (_ = ∅)); vm_compute; reflexivity).
      exact Hc.
    + exact (step_store example_pickle inf dp s2 (example_account 2) 5 it [] [] eq_refl).
    + refine (step_change example_pickle inf dp s3 c 4 _ _ _);
        [exact (eq_refl : (2 ?= 4) = Lt)| |intros u e _ Hf; exact Hf].
      exists 2. vm_compute. reflexivity.
  - exact H2.
  - apply (bool_decide_eq_false_1 (_ ∈ _)). vm_compute. reflexivity.
  - cbn. lia.
  - exact Hr.
Defined.

(** The check and the writing of a save are two requests to the cache: an entry
    that is invalidated between them is overwritten and stays stale.  The second
    student gets an extra submission while the entry is on its way. *)
Lemma invalidation_lost_in_a_save :
  let t := example_tables (default_rule RevealTrigger.IMMEDIATE) in
  let it := entry_item example_pickle (fun _ => example_entry) (fun _ _ => []) t (example_account 2) 5 1 2 in
  let key := points_key 5 (user_id (example_account 2)) in
  let c := LimitSave (mkSubmissionsDeviation 5 12 1) in
  save_states [] {[ key := it ]} (∅, init) = {[ key := it ]} /\
  (5, user_id (example_account 2)) ∈ invalidated_exercises c t /\
  read 5 (fst (set_many [] {[ key := it ]} (invalidate_many [] 4 (change_keys c t) (∅, init)))) key = Some it /\
  read 5 (fst (Cached.save [] {[ key := it ]} (invalidate_many [] 4 (change_keys c t) (∅, init)))) key = None.
Proof.
  split; [vm_compute; reflexivity|]. split; [apply (bool_decide_unpack _); vm_compute; exact I|].
  split; vm_compute; reflexivity.
Qed.

(** A later deadline for a student without submissions, in an exercise whose
    feedback waits for the latest deadline of all: only that student's entry is
    invalidated, and the entry of the student who has submitted, made before, still
    announces the old reveal time. *)
Lemma latest_deadline_goes_stale :
  let t := example_tables (default_rule RevealTrigger.DEADLINE_ALL) in
  let c := DeadlineSave (mkDeadlineDeviation 5 13 6000 false) in
  let entry t := generate_exercise example_entry (exercise_input t (example_account 1) 5) 2000000 in
  invalidated_exercises c t = [(5, 3); (6, 3)] /\
  unseen_effect t c (example_account 1) 5 /\
  ep_feedback_reveal_time (entry t) = Some (1000 + seconds 600) /\
  ep_feedback_reveal_time (entry (apply_change c t)) = Some (1000 + seconds 6000).
Proof.
  split; [vm_compute; reflexivity|]. split; [|split; vm_compute; reflexivity].
  split; [reflexivity|]. split; [reflexivity|]. vm_compute. discriminate.
Qed.

(** When one member of a group has read the notifications of both, the other
    member's entry is not invalidated and keeps the mark of an unseen one. *)
Lemma seen_notification_goes_stale :
  let t := apply_change (NotificationSave 2 (mkNotification 7 12 true false))
             (example_tables (default_rule RevealTrigger.IMMEDIATE)) in
  let c := NotificationSave 1 (mkNotification 7 11 true false) in
  let entry t := generate_exercise example_entry (exercise_input t (example_account 2) 5) 5 in
  ep_unseen (entry t) = true /\ ep_unseen (entry (apply_change c t)) = false /\
  (5, 2) ∉ invalidated_exercises c t.
Proof.
  split; [vm_compute; reflexivity|]. split; [vm_compute; reflexivity|].
  apply (bool_decide_eq_false_1 ((5, 2) ∈ _)). vm_compute. reflexivity.
Qed.

(** The entry of a student who has read all notifications is still marked as long
    as another member of the group has not. *)
Lemma others_notifications_are_shown :
  let t := apply_change (NotificationSave 2 (mkNotification 7 12 true false))
             (example_tables (default_rule RevealTrigger.IMMEDIATE)) in
  let i := exercise_input t (example_account 2) 5 in
  (forall n, n ∈ in_notifications i -> note_recipient n = 12 -> note_seen n = true) /\
  ep_unseen (generate_exercise example_entry i 5) = true.
Proof.
  split; [|vm_compute; reflexivity]. intros n Hn.
  assert (E : in_notifications (exercise_input
    (apply_change (NotificationSave 2 (mkNotification 7 12 true false))
       (example_tables (default_rule RevealTrigger.IMMEDIATE))) (example_account 2) 5)
    = [mkNotification 7 11 false false; mkNotification 7 12 true false]) by (vm_compute; reflexivity).
  rewrite E in Hn. apply elem_of_cons in Hn as [->|Hn]; [done|].
  apply list_elem_of_singleton in Hn as ->. done.
Qed.

(** The entry shows the group of a submission, which no receiver watches: after the
    group is dissolved the entry would show none. *)
Lemma groups_are_not_watched :
  let t := example_tables (default_rule RevealTrigger.IMMEDIATE) in
  let dissolved := mkTables (t_users t) (t_lobjs t) (t_modules t) (t_confirm t) (t_rules t)
    (t_submissions t) (t_deadlines t) (t_limits t) [] (t_notes t) (t_students t) in
  let entry t := generate_exercise example_entry (exercise_input t (example_account 1) 5) 5 in
  se_group_id <$> ep_submissions (entry t) = [20] /\ se_group_id <$> ep_submissions (entry dissolved) = [0].
Proof. split; vm_compute; reflexivity. Qed.

(** Adding submissions from the side of the profile invalidates the entry of the
    user whose id happens to be the id of the profile. *)
Lemma reverse_add_misses_the_user :
  let t := example_tables (default_rule RevealTrigger.IMMEDIATE) in
  m2m_profile model_exercise_as_iterable t (profile_id (userprofile (example_account 1))) [7] = [(5, 11)] /\
  (5, user_id (example_account 1)) ∉
    m2m_profile model_exercise_as_iterable t (profile_id (userprofile (example_account 1))) [7].
Proof.
  split; [vm_compute; reflexivity|].
  apply (bool_decide_eq_false_1 ((5, user_id (example_account 1)) ∈ _)). vm_compute. reflexivity.
Qed.
