(* ===== verification/OldCache.v ===== *)
(** * The older cache

    [lib/cache/cached_old.py]: one entry of the shared cache that every request
    may read, delete, generate and store.  A request is a small program whose
    operations on the cache interleave with those of the others; the entry is
    stored with [add], so that an invalidation during the generation wins.  The
    menu of a user and the page of an exercise are stored this way. *)

From S2P Require Import Prelude Lists Helpers Course.

(** ** Keys *)

(** src/lib/cache/cached_old.py: CachedAbstract._key.  The ids of the models are
    already printed. *)
Definition old_key (prefix : string) (models modifiers : list string) : string :=
  prefix +:+ ":" +:+ join "," (models ++ modifiers).

(** ** One entry and the requests that use it *)

Section Entry.
(** The content of the database, the data made from it, what a class decides
    about data it finds and how it generates, perhaps from the data it found. *)
Context {DB D : Type} (needs_generation : Z -> option D -> bool) (generate_data : DB -> option D -> D).

(** What may be stored under the key: the mark of an invalidation, data with the
    time their generation began, or something else. *)
Inductive Raw :=
| Invalidated (time : Z)
| Stored (updated : Z) (data : D)
| Garbage.

(** A request: it has not begun, has read the cache, has decided to generate, has
    taken the time, has generated, has failed to add, is to overwrite, is done. *)
Inductive Pc :=
| Begin
| Looked (raw : option Raw)
| Generate (data : option D)
| Reading (gen_start : Z) (data : option D)
| Generated (gen_start : Z) (data : D)
| Contended (gen_start : Z) (data : D)
| Overwrite (gen_start : Z) (data : D)
| Done (data : option D).

(** [updated, data = raw if ... else (None, None)] and the reset of [data]. *)
Definition data_of (raw : option Raw) : option D :=
  match raw with
  | Some (Stored _ data) => Some data
  | _ => None
  end.

(** src/lib/cache/cached_old.py: CachedAbstract.__get_data.  One operation on the
    cache or the database at the time [now]; the result is the rest of the program
    and the new content of the cache. *)
Definition get_data_step (now : Z) (db : DB) (pc : Pc) (cell : option Raw) : Pc * option Raw :=
  match pc with
  | Begin => (Looked cell, cell)
  | Looked raw =>
      let data := data_of raw in
      if needs_generation now data
      then (Generate data, match raw with Some _ => None | None => cell end)
      else (Done data, cell)
  | Generate data => (Reading now data, cell)
  | Reading gen_start data => (Generated gen_start (generate_data db data), cell)
  | Generated gen_start data =>
      match cell with
      | None => (Done (Some data), Some (Stored gen_start data))
      | Some _ => (Contended gen_start data, cell)
      end
  | Contended gen_start data =>
      match cell with
      | Some (Stored updated current) =>
          if gen_start <? updated then (Done (Some current), cell) else (Overwrite gen_start data, cell)
      | _ => (Done (Some data), cell)
      end
  | Overwrite gen_start data => (Done (Some data), Some (Stored gen_start data))
  | Done data => (Done data, cell)
  end.

(** src/lib/cache/cached_old.py: CachedAbstract.invalidate *)
Definition invalidate_entry (now : Z) : option Raw := Some (Invalidated now).

(** ** Histories *)

(** The requests, each with the contents of the database since it began. *)
Record System := mkSystem {
  sys_clock : Z;
  sys_db : DB;
  sys_cell : option Raw;
  sys_requests : list (Pc * list DB);
}.

(** A request arrives, a request goes on, the database changes and its signal
    invalidates the entry, the cache drops an old invalidation or an entry. *)
Inductive Action :=
| Arrive
| Run (request : nat)
| Change (db : DB)
| Expire
| Evict.

Definition exec (a : Action) (sys : System) : System :=
  let now := sys_clock sys + 1 in
  match a with
  | Arrive => mkSystem now (sys_db sys) (sys_cell sys) (sys_requests sys ++ [(Begin, [sys_db sys])])
  | Run i =>
      match sys_requests sys !! i with
      | Some (pc, seen) =>
          let '(pc, cell) := get_data_step now (sys_db sys) pc (sys_cell sys) in
          mkSystem now (sys_db sys) cell (<[i := (pc, seen)]> (sys_requests sys))
      | None => sys
      end
  | Change db =>
      mkSystem now db (invalidate_entry now)
        ((fun r => (r.1, match r.1 with Done _ => r.2 | _ => db :: r.2 end)) <$> sys_requests sys)
  | Expire =>
      match sys_cell sys with
      | Some (Invalidated _) => mkSystem now (sys_db sys) None (sys_requests sys)
      | _ => sys
      end
  | Evict =>
      match sys_cell sys with
      | Some (Stored _ _) => mkSystem now (sys_db sys) None (sys_requests sys)
      | _ => sys
      end
  end.

Definition busy (pc : Pc) : bool :=
  match pc with
  | Begin | Done _ => false
  | _ => true
  end.

(** One request at a time works on the entry, and the mark of an invalidation
    outlives the requests that work when it is made. *)
Definition exclusive (sys : System) (a : Action) : Prop :=
  match a with
  | Run i =>
      forall j pc seen, sys_requests sys !! j = Some (pc, seen) -> busy pc = true -> j = i
  | Expire => forall j pc seen, sys_requests sys !! j = Some (pc, seen) -> busy pc = false
  | _ => True
  end.

Definition exclusive_step (sys sys' : System) : Prop := exists a, exclusive sys a /\ sys' = exec a sys.

(** ** One request at a time is never served stale data *)

(** Data that were made from this content of the database. *)
Definition made_from (db : DB) (d : D) : Prop := exists old, d = generate_data db old.

(** What is known of a request that works: the entry it found is the current one or
    has been invalidated since, and so is what it has generated; without an
    invalidation the entry is empty from the deletion on. *)
Definition request_ok (db : DB) (cell : option Raw) (pc : Pc) (seen : list DB) : Prop :=
  let marked := exists t, cell = Some (Invalidated t) in
  match pc with
  | Begin => True
  | Looked raw =>
      (raw = cell \/ cell = None \/ marked) /\
      forall d, data_of raw = Some d -> exists db', db' ∈ seen /\ made_from db' d
  | Generate _ | Reading _ _ => cell = None \/ marked
  | Generated _ d => (exists db', db' ∈ seen /\ made_from db' d) /\ ((cell = None /\ made_from db d) \/ marked)
  | Contended _ d => (exists db', db' ∈ seen /\ made_from db' d) /\ marked
  | Overwrite _ _ => False
  | Done o => forall d, o = Some d -> exists db', db' ∈ seen /\ made_from db' d
  end.

Record coherent (sys : System) : Prop := {
  coh_cell : forall t d, sys_cell sys = Some (Stored t d) -> made_from (sys_db sys) d;
  coh_seen : forall i pc seen, sys_requests sys !! i = Some (pc, seen) -> busy pc = true \/ pc = Begin ->
    sys_db sys ∈ seen;
  coh_one : forall i j pc pc' seen seen', sys_requests sys !! i = Some (pc, seen) ->
    sys_requests sys !! j = Some (pc', seen') -> busy pc = true -> busy pc' = true -> i = j;
  coh_request : forall i pc seen, sys_requests sys !! i = Some (pc, seen) ->
    request_ok (sys_db sys) (sys_cell sys) pc seen;
}.

(** Only the request that runs may be busy. *)
Lemma coherent_run sys i pc seen pc' cell :
  coherent sys -> sys_requests sys !! i = Some (pc, seen) ->
  (forall j q s, sys_requests sys !! j = Some (q, s) -> busy q = true -> j = i) ->
  (busy pc' = true \/ pc' = Begin -> busy pc = true \/ pc = Begin) ->
  (forall t d, cell = Some (Stored t d) -> made_from (sys_db sys) d) ->
  request_ok (sys_db sys) cell pc' seen ->
  coherent (mkSystem (sys_clock sys + 1) (sys_db sys) cell (<[i := (pc', seen)]> (sys_requests sys))).
Proof.
  intros [Hc Hs Ho Hr] Hi Hex Hb Hcell Hreq. split; cbn [sys_cell sys_db sys_requests]; [done|..].
  - intros j q s Hj Hq. apply list_lookup_insert_Some in Hj as [(-> & [= <- <-] & _)|[Hne Hj]]; eauto.
  - intros j k q q' s s' Hj Hk Hq Hq'.
    apply list_lookup_insert_Some in Hj as [(-> & _ & _)|[Hne Hj]],
      Hk as [(-> & _ & _)|[Hne' Hk]]; try done.
    + symmetry. by eapply Hex.
    + by eapply Hex.
    + rewrite (Hex j q s Hj Hq). symmetry. by eapply Hex.
  - intros j q s Hj. apply list_lookup_insert_Some in Hj as [(-> & [= <- <-] & _)|[Hne Hj]]; [done|].
    specialize (Hr j q s Hj). destruct q; try done;
      exfalso; apply Hne; symmetry; eapply Hex; done.
Qed.

Definition cell_ok (db : DB) (cell : option Raw) : Prop :=
  forall t d, cell = Some (Stored t d) -> made_from db d.

(** One operation of a request that works alone. *)
Lemma get_data_step_ok now db pc cell seen :
  cell_ok db cell -> request_ok db cell pc seen -> (busy pc = true \/ pc = Begin -> db ∈ seen) ->
  let '(pc', cell') := get_data_step now db pc cell in
  (busy pc' = true \/ pc' = Begin -> busy pc = true \/ pc = Begin) /\
  cell_ok db cell' /\ request_ok db cell' pc' seen.
Proof.
  intros Hc Hr Hs. destruct pc as [|raw|o|g o|g d|g d|g d|o]; cbn [get_data_step].
  - split; [auto|]. split; [done|]. split; [by left|]. intros d Hd.
    destruct cell as [[t|t d'|]|]; cbn in Hd; try done. injection Hd as ->. exists db. eauto.
  - destruct Hr as [Hraw Hd]. destruct (needs_generation _ _).
    + split; [auto|]. destruct raw as [r|]; [split; [done|]; by left|]. split; [done|]. cbn.
      destruct Hraw as [<-|[?|?]]; auto.
    + split; [cbn; intuition discriminate|]. split; [done|]. exact Hd.
  - split; [auto|]. by split.
  - split; [auto|]. split; [done|]. split; [exists db; split; [auto|by exists o]|].
    destruct Hr as [Hr|Hr]; [left|by right]. split; [done|]. by exists o.
  - destruct Hr as [Hin Hr]. destruct Hr as [[-> Hm]|[t ->]].
    + split; [cbn; intuition discriminate|]. split; [by intros ? ? [= <- <-]|]. by intros ? [= <-].
    + split; [auto|]. split; [done|]. split; [done|]. by exists t.
  - destruct Hr as [Hin [t ->]]. split; [cbn; intuition discriminate|]. split; [done|]. by intros ? [= <-].
  - done.
  - by split.
Qed.

Lemma run_coherent sys i pc seen :
  coherent sys -> sys_requests sys !! i = Some (pc, seen) ->
  (forall j q s, sys_requests sys !! j = Some (q, s) -> busy q = true -> j = i) ->
  coherent (exec (Run i) sys).
Proof.
  intros Hcoh Hi Hex. cbn [exec]. rewrite Hi. pose proof Hcoh as [Hc Hs _ Hr].
  pose proof (get_data_step_ok (sys_clock sys + 1) (sys_db sys) pc (sys_cell sys) seen Hc
    (Hr i pc seen Hi) (Hs i pc seen Hi)) as Hstep.
  destruct (get_data_step _ _ _ _) as [pc' cell]. destruct Hstep as (Hb & Hcell & Hreq).
  by apply (coherent_run sys i pc seen).
Qed.

(** Every request sees the new content, and the entry is marked. *)
Lemma change_coherent sys db : coherent sys -> coherent (exec (Change db) sys).
Proof.
  intros [Hc Hs Ho Hr]. cbn [exec]. unfold invalidate_entry.
  assert (Hl : forall i q s,
    ((fun r => (r.1, match r.1 with Done _ => r.2 | _ => db :: r.2 end)) <$> sys_requests sys) !! i = Some (q, s) ->
    exists s0, sys_requests sys !! i = Some (q, s0) /\ s = match q with Done _ => s0 | _ => db :: s0 end).
  { intros i q s Hi. rewrite list_lookup_fmap in Hi. destruct (sys_requests sys !! i) as [[q0 s0]|]; [|done].
    injection Hi as <- <-. eauto. }
  split; cbn [sys_cell sys_db sys_requests]; [done|..].
  - intros i q s Hi Hq. destruct (Hl i q s Hi) as (s0 & _ & ->).
    destruct q; try (by left); destruct Hq as [Hq|Hq]; discriminate.
  - intros i j q q' s s' Hi Hj Hq Hq'. destruct (Hl i q s Hi) as (s0 & Hi0 & _).
    destruct (Hl j q' s' Hj) as (s0' & Hj0 & _). by eapply Ho.
  - intros i q s Hi. destruct (Hl i q s Hi) as (s0 & Hi0 & ->). specialize (Hr i q s0 Hi0).
    assert (Hm : exists t, Some (Invalidated (sys_clock sys + 1)) = Some (Invalidated t)) by eauto.
    assert (Hold : forall d, (exists db', db' ∈ s0 /\ made_from db' d) ->
                             exists db', db' ∈ db :: s0 /\ made_from db' d).
    { intros d (db' & Hin & Hd). exists db'. split; [by right|done]. }
    destruct q; cbn in *; auto; destruct Hr as [H1 H2]; auto 6.
Qed.

(** Dropping the entry, or a mark while no request works. *)
Lemma drop_coherent sys :
  coherent sys ->
  (forall t, sys_cell sys <> Some (Invalidated t)) \/
  (forall j pc seen, sys_requests sys !! j = Some (pc, seen) -> busy pc = false) ->
  coherent (mkSystem (sys_clock sys + 1) (sys_db sys) None (sys_requests sys)).
Proof.
  intros [Hc Hs Ho Hr] Hdrop. split; cbn [sys_cell sys_db sys_requests]; [done|exact Hs|exact Ho|].
  intros i q s Hi. specialize (Hr i q s Hi). destruct Hdrop as [Hm|Hidle].
  - destruct q; cbn in *; auto.
    + destruct Hr as [_ Hr]. by auto.
    + destruct Hr as [Hin [[_ Hd]|[t Ht]]]; [by auto|by destruct (Hm t)].
    + destruct Hr as [_ [t Ht]]. by destruct (Hm t).
  - specialize (Hidle i q s Hi). destruct q; try discriminate; exact Hr.
Qed.

Lemma exclusive_coherent sys sys' : coherent sys -> exclusive_step sys sys' -> coherent sys'.
Proof.
  intros Hcoh (a & Ha & ->). destruct a as [|i|db| |].
  - destruct Hcoh as [Hc Hs Ho Hr]. cbn [exec].
    assert (Hl : forall i q s, (sys_requests sys ++ [(Begin, [sys_db sys])]) !! i = Some (q, s) ->
      sys_requests sys !! i = Some (q, s) \/ (q = Begin /\ s = [sys_db sys])).
    { intros i q s Hi. apply lookup_app_Some in Hi as [Hi|[_ Hi]]; [by left|right].
      apply list_lookup_singleton_Some in Hi as [_ [= <- <-]]. done. }
    split; cbn [sys_cell sys_db sys_requests]; [done|..].
    + intros i q s Hi Hq. destruct (Hl i q s Hi) as [Hi'|[-> ->]]; [eauto|by left].
    + intros i j q q' s s' Hi Hj Hq Hq'. destruct (Hl i q s Hi) as [Hi'|[-> _]]; [|done].
      destruct (Hl j q' s' Hj) as [Hj'|[-> _]]; [|done]. by eapply Ho.
    + intros i q s Hi. destruct (Hl i q s Hi) as [Hi'|[-> ->]]; [eauto|done].
  - destruct (sys_requests sys !! i) as [[pc seen]|] eqn:E; [|cbn [exec]; by rewrite E].
    by apply (run_coherent sys i pc seen).
  - by apply change_coherent.
  - cbn [exec]. destruct (sys_cell sys) as [[]|]; try done. apply drop_coherent; auto.
  - cbn [exec]. destruct (sys_cell sys) as [[]|] eqn:E; try done. apply drop_coherent; [done|]. left. congruence.
Qed.

(** A request that works alone on an entry of the older cache is never served
    stale data.  However the database changes while requests come one after the
    other, wait, generate and store, and whenever the cache drops entries: what is
    stored was generated from the database as it is now, and every request returns
    data generated from the database as it was at some moment since the request
    began. *)
Theorem one_request_served_fresh db sys :
  rtc exclusive_step (mkSystem 0 db None []) sys ->
  (forall t d, sys_cell sys = Some (Stored t d) -> exists old, d = generate_data (sys_db sys) old) /\
  (forall i d seen, sys_requests sys !! i = Some (Done (Some d), seen) ->
     exists db' old, db' ∈ seen /\ d = generate_data db' old).
Proof.
  intros Hr.
  assert (Hcoh : coherent sys).
  { assert (Hinit : coherent (mkSystem 0 db None [])) by (by split).
    clear -Hinit Hr. induction Hr as [|s1 s2 s3 Hs _ IH]; [done|]. apply IH. by eapply exclusive_coherent. }
  split; [apply Hcoh|]. intros i d seen Hi.
  destruct (coh_request sys Hcoh i _ _ Hi d eq_refl) as (db' & Hin & old & ->). eauto.
Qed.
End Entry.

(** ** What overlapping requests do *)

Module Races.
(** A cache of the content itself, a number, as most classes decide: generate when
    nothing is there. *)
Definition needs (_ : Z) (data : option Z) : bool := match data with Some _ => false | None => true end.
Definition generate (db : Z) (_ : option Z) : Z := db.

Definition start : System (DB := Z) (D := Z) := mkSystem 0 1 None [].
Definition run (l : list Action) : System (DB := Z) (D := Z) := foldl (fun sys a => exec needs generate a sys) start l.

Definition runs (i n : nat) : list (Action (DB := Z)) := replicate n (Run i).

(** The first request generates from the old content; the content changes and marks
    the entry; the second request reads the mark, deletes it, and has only then to
    generate; the first stores its old data in the entry, which is empty again. *)
Definition deleted_mark : list Action :=
  [Arrive] ++ runs 0 4 ++ [Change 2; Arrive] ++ runs 1 2 ++ runs 0 1.

(** The mark of an invalidation is deleted by the next request before it has
    generated: a generation begun before the invalidation then stores stale data,
    and a request that begins later is served them. *)
Lemma deleted_mark_serves_stale :
  sys_cell (run deleted_mark) = Some (Stored 4 1) /\ sys_db (run deleted_mark) = 2 /\
  sys_requests (run (deleted_mark ++ [Arrive] ++ runs 2 2)) !! 2%nat = Some (Done (Some 1), [2]).
Proof. vm_compute. auto. Qed.

(** Two requests find the entry empty and generate; the second, which began later,
    sees the entry of the first and decides to overwrite it; meanwhile the content
    changes, the entry is marked and a third request generates and stores it. *)
Definition late_overwrite : list Action :=
  [Arrive; Arrive] ++ runs 0 4 ++ runs 1 4 ++ runs 0 1 ++ runs 1 2
    ++ [Change 2; Arrive] ++ runs 2 5 ++ runs 1 1.

(** An overwriting request replaces data that were generated after an invalidation
    by its own, which were generated before: at rest, with every request done, the
    entry is stale. *)
Lemma late_overwrite_stays_stale :
  sys_cell (run late_overwrite) = Some (Stored 9 1) /\ sys_db (run late_overwrite) = 2 /\
  sys_requests (run late_overwrite) !! 2%nat = Some (Done (Some 2), [2]) /\
  (forall r, r ∈ sys_requests (run late_overwrite) -> busy r.1 = false).
Proof.
  vm_compute. repeat (split; [done|]). intros r Hr. repeat (apply elem_of_cons in Hr as [->|Hr]; [done|]).
  by apply elem_of_nil in Hr.
Qed.

Lemma one_request_served_fresh_witness :
  exists sys, rtc (exclusive_step needs generate) start sys /\
    (forall t d, sys_cell sys = Some (Stored t d) -> exists old, d = generate (sys_db sys) old) /\
    (forall i d seen, sys_requests sys !! i = Some (Done (Some d), seen) ->
       exists db' old, db' ∈ seen /\ d = generate db' old).
Proof.
  assert (Hr : rtc (exclusive_step needs generate) start (run [Arrive; Run 0; Change 2; Run 0])).
  { eapply rtc_l; [exists Arrive; split; [exact I|reflexivity]|].
    eapply rtc_l.
    { exists (Run 0). split; [|reflexivity]. intros [|j] pc seen H; [intros _; reflexivity|discriminate H]. }
    eapply rtc_l; [exists (Change 2); split; [exact I|reflexivity]|].
    eapply rtc_l; [|apply rtc_refl].
    exists (Run 0). split; [|reflexivity]. intros [|j] pc seen H; [intros _; reflexivity|discriminate H]. }
  exists (run [Arrive; Run 0; Change 2; Run 0]). split; [exact Hr|].
  exact (one_request_served_fresh needs generate 1 _ Hr).
Defined.
End Races.

(** ** The entry of the page of an exercise *)

Module Page.
(** src/exercise/cache/exercise.py: ExerciseCache._generate_data lines 57-62 *)
Record t := mkPage { content : string; last_modified : option string; expires : option Z }.

(** An answer of the service: a page, perhaps an error page ([is_loaded]), or that
    the page has not changed, perhaps with a new expiry time. *)
Inductive Answer :=
| Loaded (content : string) (last_modified : option string) (expires : Z) (is_loaded : bool)
| NotModified (expires : Z).

(** src/exercise/cache/exercise.py: ExerciseCache._needs_generation.  Python's zero
    is false. *)
Definition needs_generation (now : Z) (data : option t) : bool :=
  let e := data ≫= expires in
  negb (truthyZ e) || (default 0 e <? now).

(** src/exercise/cache/exercise.py: ExerciseCache._generate_data.  The service
    answers that nothing has changed only to a request with a date. *)
Definition generate_data (load : option string -> Answer) (data : option t) : option t :=
  match load (data ≫= last_modified) with
  | Loaded c m e is_loaded => Some (mkPage c m (Some (if is_loaded then e else 0)))
  | NotModified e =>
      match data with
      | Some d => Some (mkPage (content d) (last_modified d) (if e =? 0 then expires d else Some e))
      | None => None
      end
  end.

(** A page that could not be loaded is asked for again by every request. *)
Lemma error_page_not_kept load data c m e now :
  load (data ≫= last_modified) = Loaded c m e false ->
  needs_generation now (generate_data load data) = true.
Proof. intros E. unfold generate_data. by rewrite E. Qed.

(** A page is used as long as the service allows, and not after. *)
Lemma loaded_page_kept load data c m e now :
  load (data ≫= last_modified) = Loaded c m e true -> e <> 0 ->
  needs_generation now (generate_data load data) = (e <? now).
Proof.
  intros E He. unfold generate_data. rewrite E. unfold needs_generation. cbn.
  destruct (Z.eqb_spec e 0); [done|]. done.
Qed.
End Page.

(** ** The menu of a user *)

(** src/course/models.py: CourseInstanceManager.get_enrolled.  The instances are in
    the order of the manager, newest first; enrollments are unique per instance
    and profile. *)
Definition has_enrollment (db : EnrollmentDB) (p : Z) (P : Enrollment -> bool) (i : CourseInstance) : bool :=
  match db !! (instance_id i, p) with
  | Some e => P e
  | None => false
  end.

Definition get_enrolled (instances : list CourseInstance) (db : EnrollmentDB) (p : Z) : list CourseInstance :=
  List.filter (has_enrollment db p (fun e =>
    (bool_decide (status e = EnrollmentStatus.ACTIVE) || bool_decide (status e = EnrollmentStatus.PENDING))
    && bool_decide (role e = EnrollmentRole.STUDENT))) instances.

Definition get_with_role (r : EnrollmentRole.t) (instances : list CourseInstance) (db : EnrollmentDB) (p : Z)
    : list CourseInstance :=
  List.filter (has_enrollment db p (fun e =>
    bool_decide (role e = r) && bool_decide (status e = EnrollmentStatus.ACTIVE))) instances.

(** src/course/models.py: CourseInstanceManager.get_assisting *)
Definition get_assisting := get_with_role EnrollmentRole.ASSISTANT.
(** src/course/models.py: CourseInstanceManager.get_teaching *)
Definition get_teaching := get_with_role EnrollmentRole.TEACHER.

Inductive MenuEntry := CourseEntry (i : CourseInstance) | Divider.

(** One group of the menu, after a divider if something is before it. *)
Definition add_group (courses group : list MenuEntry) : list MenuEntry :=
  match courses, group with
  | _ :: _, _ :: _ => courses ++ [Divider] ++ group
  | _, _ => courses ++ group
  end.

(** src/course/cache/menu.py: CachedTopMenu._generate_courses *)
Definition generate_courses (instances : list CourseInstance) (db : EnrollmentDB) (profile : option Z)
    : list MenuEntry :=
  match profile with
  | None => []
  | Some p =>
      let enrolled := CourseEntry <$> List.filter visible_to_students (get_enrolled instances db p) in
      let teaching := CourseEntry <$> get_teaching instances db p in
      let assisting := CourseEntry <$> get_assisting instances db p in
      add_group (add_group enrolled teaching) assisting
  end.

(** The courses of a menu, without its dividers. *)
Definition menu_courses (l : list MenuEntry) : list CourseInstance :=
  omap (fun x => match x with CourseEntry i => Some i | Divider => None end) l.

(** A menu that neither begins nor ends with a divider and has no two in a row. *)
Fixpoint tidy (after_course : bool) (l : list MenuEntry) : bool :=
  match l with
  | [] => true
  | CourseEntry _ :: l => tidy true l
  | Divider :: l => after_course && match l with CourseEntry _ :: _ => true | _ => false end && tidy false l
  end.

Lemma tidy_courses b (l : list CourseInstance) : tidy b (CourseEntry <$> l) = true.
Proof. revert b. induction l as [|i l IH]; [done|]. intros b. apply IH. Qed.

Lemma tidy_app b l1 l2 :
  tidy b l1 = true -> (forall b', tidy b' l2 = true) -> tidy b (l1 ++ l2) = true.
Proof.
  revert b. induction l1 as [|[i|] l1 IH]; intros b H1 H2; [done|by apply IH|].
  cbn in *. apply andb_prop in H1 as [H1 H3]. apply andb_prop in H1 as [-> H1]. rewrite IH by done.
  by destruct l1 as [|[]].
Qed.

Lemma tidy_divider b l1 i l2 :
  l1 <> [] -> tidy b l1 = true -> (forall b', tidy b' (CourseEntry i :: l2) = true) ->
  tidy b (l1 ++ Divider :: CourseEntry i :: l2) = true.
Proof.
  revert b. induction l1 as [|[j|] l1 IH]; intros b Hne H1 H2; [done| |].
  - destruct l1 as [|x l1]; [cbn; apply (H2 false)|]. by apply (IH true).
  - cbn in *. apply andb_prop in H1 as [H1 H3]. apply andb_prop in H1 as [-> H1].
    destruct l1 as [|[k|] l1]; [done| |done]. cbn. by apply (IH false).
Qed.

Lemma add_group_tidy l (g : list CourseInstance) :
  tidy false l = true -> tidy false (add_group l (CourseEntry <$> g)) = true.
Proof.
  intros Hl. destruct g as [|i g]; [destruct l; [done|]; cbn [add_group fmap list_fmap]; by rewrite app_nil_r|].
  destruct l as [|x l]; [apply tidy_courses|].
  apply (tidy_divider false (x :: l) i); [done..|]. intros b. apply (tidy_courses b (i :: g)).
Qed.

Lemma add_group_courses l g : menu_courses (add_group l g) = menu_courses l ++ menu_courses g.
Proof.
  unfold menu_courses. destruct l as [|x l]; [done|]. destruct g as [|y g].
  - cbn [add_group]. by rewrite !app_nil_r.
  - cbn [add_group]. rewrite !omap_app. done.
Qed.

Lemma menu_courses_entries l : menu_courses (CourseEntry <$> l) = l.
Proof. unfold menu_courses. induction l as [|i l IH]; [done|]. cbn. by rewrite IH. Qed.

(** The role of a profile in an instance. *)
Definition role_in (db : EnrollmentDB) (p : Z) (i : CourseInstance) : option EnrollmentRole.t :=
  role <$> db !! (instance_id i, p).

Lemma get_with_role_in r instances db p i :
  i ∈ get_with_role r instances db p -> i ∈ instances /\ role_in db p i = Some r.
Proof.
  intros Hi. apply list_elem_of_In, filter_In in Hi as [Hi H].
  split; [by apply list_elem_of_In|]. unfold has_enrollment in H. unfold role_in.
  destruct (db !! _); [|done]. cbn. b2p. congruence.
Qed.

Lemma get_enrolled_in instances db p i :
  i ∈ List.filter visible_to_students (get_enrolled instances db p) ->
  i ∈ instances /\ role_in db p i = Some EnrollmentRole.STUDENT.
Proof.
  intros Hi. apply list_elem_of_In, filter_In in Hi as [Hi _]. apply filter_In in Hi as [Hi H].
  split; [by apply list_elem_of_In|]. unfold has_enrollment in H. unfold role_in.
  destruct (db !! _); [|done]. cbn. b2p. congruence.
Qed.

(** Instances with different roles are different. *)
Lemma roles_disjoint db p (l1 l2 : list CourseInstance) r1 (Q : option EnrollmentRole.t -> Prop) x :
  (forall i, i ∈ l1 -> role_in db p i = Some r1) -> (forall i, i ∈ l2 -> Q (role_in db p i)) ->
  ~ Q (Some r1) -> x ∈ instance_id <$> l1 -> x ∉ instance_id <$> l2.
Proof.
  intros H1 H2 HQ Hx Hy. apply list_elem_of_fmap in Hx as (i & -> & Hi), Hy as (j & E & Hj).
  apply HQ. rewrite <- (H1 i Hi). unfold role_in. rewrite E. by apply H2.
Qed.

(** The menu lists the visible courses a user studies, then those the user
    teaches, then those the user assists, each course once, with a divider exactly
    between groups that are not empty. *)
Theorem generate_courses_spec instances db p :
  NoDup (instance_id <$> instances) ->
  let menu := generate_courses instances db (Some p) in
  tidy false menu = true /\
  menu_courses menu = List.filter visible_to_students (get_enrolled instances db p)
                        ++ get_teaching instances db p ++ get_assisting instances db p /\
  NoDup (instance_id <$> menu_courses menu).
Proof.
  intros Hn. cbv zeta. unfold generate_courses.
  split; [by apply add_group_tidy, add_group_tidy, tidy_courses|].
  rewrite !add_group_courses, !menu_courses_entries, <- app_assoc. split; [done|].
  rewrite !fmap_app. apply NoDup_app. split; [by apply filter_ids, filter_ids|]. split.
  - intros x Hx. rewrite <- fmap_app. revert Hx.
    apply (roles_disjoint db p _ _ EnrollmentRole.STUDENT (fun o => o <> Some EnrollmentRole.STUDENT)); [| |naive_solver].
    + intros i Hi. by apply get_enrolled_in in Hi as [_ ?].
    + intros i Hi. apply elem_of_app in Hi as [Hi|Hi]; apply get_with_role_in in Hi as [_ ->]; done.
  - apply NoDup_app. split; [by apply filter_ids|]. split; [|by apply filter_ids].
    intros x. apply (roles_disjoint db p _ _ EnrollmentRole.TEACHER (fun o => o = Some EnrollmentRole.ASSISTANT));
      [| |done]; intros i Hi; by apply get_with_role_in in Hi as [_ ?].
Qed.
