(* ===== verification/Codes.v ===== *)
(** * The codes and names of an enrollment

    [course/models.py]: the four functions that follow every save of an
    enrollment.  They draw the personal code, the anonymous id and the anonymous
    name, and tag a student who takes the course again.  Each of the first three
    saves the enrollment itself, so that the functions call each other through
    the signals; the model follows that recursion, on the one Python object the
    calls share and on the table. *)

From S2P Require Import Prelude Lists Helpers Course.

(** ** Data *)

(** src/course/models.py: Enrollment lines 207-256.  The columns these functions
    read or write, with the two columns that identify the row. *)
Record CodeRow := mkCodeRow {
  cr_instance : Z;
  cr_profile : Z;
  cr_role : EnrollmentRole.t;
  personal_code : string;
  anon_id : option string;
  anon_name : string;
}.

Definition cr_key (r : CodeRow) : Z * Z := (cr_instance r, cr_profile r).

Definition set_code (c : string) (r : CodeRow) : CodeRow :=
  mkCodeRow (cr_instance r) (cr_profile r) (cr_role r) c (anon_id r) (anon_name r).
Definition set_anon_id (c : option string) (r : CodeRow) : CodeRow :=
  mkCodeRow (cr_instance r) (cr_profile r) (cr_role r) (personal_code r) c (anon_name r).
Definition set_anon_name (c : string) (r : CodeRow) : CodeRow :=
  mkCodeRow (cr_instance r) (cr_profile r) (cr_role r) (personal_code r) (anon_id r) c.

(** src/course/models.py: UserTag lines 351-360, with the columns of the base class. *)
Record UserTag := mkTag {
  tag_id : Z;
  tag_instance : Z;
  tag_name : string;
  tag_slug : string;
  tag_description : string;
  tag_color : string;
}.

(** src/course/models.py: UserTagging lines 483-500 *)
Record UserTagging := mkTagging { tg_tag : Z; tg_user : Z; tg_instance : Z }.

#[global] Instance UserTag_eq_dec : EqDecision UserTag.
Proof. solve_decision. Defined.
#[global] Instance UserTagging_eq_dec : EqDecision UserTagging.
Proof. solve_decision. Defined.

(** The tables, the Python object that is being saved, and how many random values
    have been drawn. *)
Record CodeState := mkCodes {
  cs_rows : gmap (Z * Z) CodeRow;
  cs_object : CodeRow;
  cs_draws : nat;
  cs_tags : list UserTag;
  cs_taggings : list UserTagging;
}.

(** A call ends, raises, or has used up the steps given to it. *)
Inductive finish := Finished | Failed (e : exn) | OutOfFuel.

Abbreviation Call := (CodeState -> CodeState * finish).

Definition andThen (a b : Call) : Call :=
  fun st => match a st with
            | (st, Finished) => b st
            | r => r
            end.

Declare Scope code_scope.
#[local] Infix ";;;" := andThen (at level 60, right associativity) : code_scope.
#[local] Open Scope code_scope.

Definition skip : Call := fun st => (st, Finished).

(** Assignments to the object. *)
Definition assign_object (f : CodeRow -> CodeRow) : Call := fun st =>
  (mkCodes (cs_rows st) (f (cs_object st)) (cs_draws st) (cs_tags st) (cs_taggings st), Finished).

Definition with_draws (st : CodeState) (n : nat) : CodeState :=
  mkCodes (cs_rows st) (cs_object st) n (cs_tags st) (cs_taggings st).

(** What a save writes: the whole object or one column of its row. *)
Inductive UpdateFields := AllFields | OnlyAnonId | OnlyAnonName.

Definition written (fields : UpdateFields) (object : CodeRow) (row : CodeRow) : CodeRow :=
  match fields with
  | AllFields => object
  | OnlyAnonId => set_anon_id (anon_id object) row
  | OnlyAnonName => set_anon_name (anon_name object) row
  end.

Definition with_rows (st : CodeState) (rows : gmap (Z * Z) CodeRow) : CodeState :=
  mkCodes rows (cs_object st) (cs_draws st) (cs_tags st) (cs_taggings st).

(** A save without a row inserts it; one of a single column needs the row. *)
Definition write (fields : UpdateFields) : Call := fun st =>
  let object := cs_object st in
  match cs_rows st !! cr_key object, fields with
  | Some row, _ => (with_rows st (<[cr_key object := written fields object row]> (cs_rows st)), Finished)
  | None, AllFields => (with_rows st (<[cr_key object := object]> (cs_rows st)), Finished)
  | None, _ => (st, Failed DatabaseError)
  end.

(** [Enrollment.objects.filter(...).exists()] *)
Definition rows_exist (p : CodeRow -> bool) (st : CodeState) : bool :=
  existsb p (map_to_list (cs_rows st)).*2.

Definition code_taken (st : CodeState) (code : string) : bool :=
  rows_exist (fun r => (cr_instance r =? cr_instance (cs_object st)) && bool_decide (personal_code r = code)) st.
Definition anon_id_taken (st : CodeState) (code : string) : bool :=
  rows_exist (fun r => bool_decide (anon_id r = Some code)) st.
Definition anon_name_taken (st : CodeState) (name : string) : bool :=
  rows_exist (fun r => (cr_instance r =? cr_instance (cs_object st)) && bool_decide (anon_name r = name)) st.

(** ** The functions *)

Section Signals.
(** The random values: the [n]-th draw of [get_random_string] with a length, and of
    [choice] from a list; the names of [pseudonym.json]; what the library's tag
    class makes of a new tag when it is saved; the course of an instance. *)
Context (get_random_string : nat -> Z -> string) (choice : nat -> list string -> string).
Context (colors animals : list string) (save_tag : list UserTag -> UserTag -> UserTag) (course_of : Z -> Z).

(** [while exists(code): code = draw()] without a bound of its own. *)
Fixpoint draw_code (fuel : nat) (st : CodeState) : option (string * CodeState) :=
  match fuel with
  | O => None
  | S fuel =>
      let code := get_random_string (cs_draws st) 6 in
      let st := with_draws st (S (cs_draws st)) in
      if code_taken st code then draw_code fuel st else Some (code, st)
  end.

(** src/course/models.py: create_enrollment_code *)
Definition create_enrollment_code (fuel : nat) (save : UpdateFields -> Call) (created : bool) : Call :=
  if created
  then fun st => match draw_code fuel st with
                 | None => (st, OutOfFuel)
                 | Some (code, st) => (assign_object (set_code code) ;;; save AllFields) st
                 end
  else skip.

(** The loop of the other two: [retries] more draws are allowed, and then one more
    raises. *)
Fixpoint draw_free (draw : CodeState -> string * CodeState) (taken : CodeState -> string -> bool)
    (retries : nat) (drawn : string * CodeState) : result string * CodeState :=
  let '(code, st) := drawn in
  if taken st code
  then match retries with
       | O => let '(_, st) := draw st in (Raise RuntimeError, st)
       | S retries => draw_free draw taken retries (draw st)
       end
  else (Ret code, st).

(** src/course/models.py: create_anon_id lines 280-285 *)
Definition RETRIES : nat := Z.to_nat 10000.

Definition draw_anon_id (st : CodeState) : string * CodeState :=
  (get_random_string (cs_draws st) 16, with_draws st (S (cs_draws st))).

(** src/course/models.py: create_anon_id.  Python's empty text is false. *)
Definition create_anon_id (save : UpdateFields -> Call) (created : bool) : Call := fun st =>
  let given := match anon_id (cs_object st) with Some c => negb (bool_decide (c = ""%string)) | None => false end in
  if created || negb given
  then match draw_free draw_anon_id anon_id_taken RETRIES (draw_anon_id st) with
       | (Raise e, st) => (st, Failed e)
       | (Ret code, st) => (assign_object (set_anon_id (Some code)) ;;; save OnlyAnonId) st
       end
  else (st, Finished).

(** How many enrollments the instance has. *)
Definition enrollment_count (st : CodeState) : Z :=
  Z.of_nat (length (List.filter (fun r => cr_instance r =? cr_instance (cs_object st))
                      (map_to_list (cs_rows st)).*2)).

(** src/course/models.py: pseudonymize lines 291-301 *)
Definition namegen (st : CodeState) : string * CodeState :=
  let n := cs_draws st in
  if Z.of_nat (length colors) * Z.of_nat (length animals) * 3 <? 4 * enrollment_count st
  then (choice (S n) colors +:+ choice n colors +:+ " " +:+ choice (S (S n)) animals, with_draws st (S (S (S n))))
  else (choice n colors +:+ "" +:+ " " +:+ choice (S n) animals, with_draws st (S (S n))).

(** src/course/models.py: pseudonymize *)
Definition pseudonymize (save : UpdateFields -> Call) (created : bool) : Call := fun st =>
  if created || bool_decide (anon_name (cs_object st) = ""%string)
  then match draw_free namegen anon_name_taken RETRIES (namegen st) with
       | (Raise e, st) => (st, Failed e)
       | (Ret name, st) => (assign_object (set_anon_name name) ;;; save OnlyAnonName) st
       end
  else (st, Finished).

(** The tag that is looked for, and made if there is none. *)
Definition retaking_values (t : UserTag) (instance : Z) : bool :=
  (tag_instance t =? instance) && bool_decide (tag_name t = "Retaking"%string)
  && bool_decide (tag_slug t = "retaking"%string)
  && bool_decide (tag_description t = "This student is retaking this course."%string)
  && bool_decide (tag_color t = "#ffcc00"%string).

Definition new_tag_id (tags : list UserTag) : Z := 1 + maxZ 0 (tag_id <$> tags).

Definition new_retaking_tag (tags : list UserTag) (instance : Z) : UserTag :=
  save_tag tags (mkTag (new_tag_id tags) instance "Retaking" "retaking"
                   "This student is retaking this course." "#ffcc00").

(** [get_or_create]: the one that matches, a new one, or an exception if several
    match. *)
Definition get_or_create_tag (tags : list UserTag) (instance : Z) : result (UserTag * list UserTag) :=
  match List.filter (fun t => retaking_values t instance) tags with
  | [] => let t := new_retaking_tag tags instance in Ret (t, tags ++ [t])
  | [t] => Ret (t, tags)
  | _ => Raise MultipleObjectsReturned
  end.

(** [UserTagging.objects.get_or_create]; the three columns are unique. *)
Definition get_or_create_tagging (taggings : list UserTagging) (t : UserTagging) : list UserTagging :=
  if bool_decide (t ∈ taggings) then taggings else taggings ++ [t].

(** Another enrollment of the profile in another instance of the course. *)
Definition enrolled_elsewhere (object : CodeRow) (r : CodeRow) : bool :=
  (cr_profile r =? cr_profile object) && negb (cr_instance r =? cr_instance object)
  && (course_of (cr_instance r) =? course_of (cr_instance object)).

(** src/course/models.py: check_and_tag_retaking *)
Definition check_and_tag_retaking (created : bool) : Call := fun st =>
  let object := cs_object st in
  if negb created then (st, Finished)
  else if negb (bool_decide (cr_role object = EnrollmentRole.STUDENT)) then (st, Finished)
  else if rows_exist (enrolled_elsewhere object) st
  then match get_or_create_tag (cs_tags st) (cr_instance object) with
       | Raise e => (st, Failed e)
       | Ret (t, tags) =>
           (mkCodes (cs_rows st) object (cs_draws st) tags
              (get_or_create_tagging (cs_taggings st)
                 (mkTagging (tag_id t) (cr_profile object) (cr_instance object))), Finished)
       end
  else (st, Finished).

(** src/course/models.py: post_save lines 345-348.  A save of the object, with the
    functions that follow it, in the order they are connected; [depth] bounds the
    nesting of saves as Python's stack does, [fuel] the draws of a code. *)
Fixpoint save (fuel depth : nat) (created : bool) (fields : UpdateFields) : Call :=
  match depth with
  | O => fun st => (st, Failed RecursionError)
  | S depth =>
      let again := save fuel depth false in
      write fields ;;;
      create_enrollment_code fuel again created ;;;
      create_anon_id again created ;;;
      pseudonymize again created ;;;
      check_and_tag_retaking created
  end.

(** ** The recursion, flattened *)

(** Each function with saves that only write. *)
Definition give_code (fuel : nat) : Call := create_enrollment_code fuel write true.
Definition give_anon_id : Call := create_anon_id write true.
Definition give_anon_name : Call := pseudonymize write true.

(** What the functions do for a new enrollment, one after the other: the save
    inside [create_enrollment_code] already gives an id and a name, because the
    object has none, and then both are given again. *)
Definition new_enrollment (fuel : nat) : Call :=
  write AllFields ;;; give_code fuel ;;; give_anon_id ;;; give_anon_name ;;;
  give_anon_id ;;; give_anon_name ;;; check_and_tag_retaking true.

Lemma andThen_assoc a b c st : ((a ;;; b) ;;; c) st = (a ;;; b ;;; c) st.
Proof. unfold andThen. by destruct (a st) as [? []]. Qed.

Lemma andThen_skip_l a st : (skip ;;; a) st = a st.
Proof. done. Qed.

Lemma andThen_skip_r a st : (a ;;; skip) st = a st.
Proof. unfold andThen. by destruct (a st) as [? []]. Qed.

Lemma andThen_ext a a' b b' st :
  a st = a' st -> (forall st', a st = (st', Finished) -> b st' = b' st') -> (a ;;; b) st = (a' ;;; b') st.
Proof. unfold andThen. intros <- H. destruct (a st) as [st' []]; auto. Qed.

Definition has_id (r : CodeRow) : Prop := exists c, anon_id r = Some c /\ c <> ""%string.
Definition has_name (r : CodeRow) : Prop := anon_name r <> ""%string.

(** Draws change no table and not the object. *)
Lemma draw_free_facts draw taken retries drawn st0 r st :
  (forall s, with_draws (draw s).2 (cs_draws s) = s) ->
  with_draws drawn.2 (cs_draws st0) = st0 ->
  draw_free draw taken retries drawn = (r, st) ->
  with_draws st (cs_draws st0) = st0 /\
  match r with Ret c => taken st c = false /\ ((exists s, (c, st) = draw s) \/ (c, st) = drawn) | Raise e => e = RuntimeError end.
Proof.
  intros Hd. revert drawn. induction retries as [|n IH]; intros [c s] H0 E; cbn in E, H0.
  - destruct (taken s c) eqn:Et; [|injection E as <- <-; eauto 6].
    destruct (draw s) as [c' s'] eqn:Es. injection E as <- <-. split; [|done].
    pose proof (Hd s) as Hs. rewrite Es in Hs. cbn in Hs. rewrite <- H0, <- Hs. done.
  - destruct (taken s c) eqn:Et; [|injection E as <- <-; eauto 6].
    destruct (draw s) as [c' s'] eqn:Es. pose proof (Hd s) as Hs. rewrite Es in Hs. cbn in Hs.
    destruct (IH (c', s')) as [H1 H2]; [|done|split; [done|]].
    + cbn. rewrite <- H0, <- Hs. done.
    + destruct r as [c0|]; [|done]. destruct H2 as [H2 [H3|H3]]; split; eauto.
      left. exists s. by rewrite Es.
Qed.

(** [get_random_string] answers text of the length it is asked for. *)
Hypothesis random_length : forall n len, 0 <= len -> Z.of_nat (String.length (get_random_string n len)) = len.

Definition drawn_id (st : CodeState) : result string * CodeState :=
  draw_free draw_anon_id anon_id_taken RETRIES (draw_anon_id st).
Definition drawn_name (st : CodeState) : result string * CodeState :=
  draw_free namegen anon_name_taken RETRIES (namegen st).

Lemma with_draws_fields st st0 :
  with_draws st (cs_draws st0) = st0 -> cs_rows st = cs_rows st0 /\ cs_object st = cs_object st0 /\
  cs_tags st = cs_tags st0 /\ cs_taggings st = cs_taggings st0.
Proof. by intros <-. Qed.

(** *** Running out of values *)

(** The states after so many draws. *)
Definition after_draws (draw : CodeState -> string * CodeState) (n : nat) (st : CodeState) : CodeState :=
  Nat.iter n (fun s => (draw s).2) st.

Lemma after_draws_fields draw n st :
  (forall s, with_draws (draw s).2 (cs_draws s) = s) -> with_draws (after_draws draw n st) (cs_draws st) = st.
Proof.
  intros Hd. induction n as [|n IH]; [by destruct st|].
  change (after_draws draw (S n) st) with (draw (after_draws draw n st)).2.
  revert IH. generalize (after_draws draw n st) as s. intros s IH. pose proof (Hd s) as Hs.
  rewrite <- IH, <- Hs at 2. done.
Qed.

(** The loop raises after the value drawn first and those of all the retries were
    taken, and one more is drawn. *)
Lemma draw_free_exhausted draw taken retries st e st' :
  draw_free draw taken retries (draw st) = (Raise e, st') ->
  st' = after_draws draw (S (S retries)) st /\
  forall m, (m <= retries)%nat -> taken (after_draws draw (S m) st) (draw (after_draws draw m st)).1 = true.
Proof.
  revert st. induction retries as [|n IH]; intros st; cbn [draw_free]; destruct (draw st) as [c s] eqn:Es;
    (destruct (taken s c) eqn:Et; [|done]); intros E.
  - destruct (draw s) as [c' s'] eqn:Es'. injection E as _ <-. split.
    + unfold after_draws. simpl. rewrite Es. cbn [snd]. by rewrite Es'.
    + intros m Hm. assert (m = 0%nat) as -> by lia. unfold after_draws. simpl. by rewrite Es.
  - specialize (IH s E). assert (Hshift : forall k, after_draws draw (S k) st = after_draws draw k s).
    { intros k. unfold after_draws. rewrite Nat.iter_succ_r. by rewrite Es. }
    destruct IH as [-> Hm]. split; [by rewrite Hshift|].
    intros [|m] Hle; [unfold after_draws; simpl; by rewrite Es|]. rewrite !Hshift. apply Hm. lia.
Qed.

(** 10001 ids in a row, of the draws this state ends with, are ids of enrollments. *)
Definition no_free_id (st : CodeState) : Prop :=
  exists n, Z.of_nat (cs_draws st) = Z.of_nat n + 10002 /\
  forall m, Z.of_nat m <= 10000 ->
    exists k r, cs_rows st !! k = Some r /\ anon_id r = Some (get_random_string (n + m) 16).

(** 10001 names in a row, of the draws this state ends with, are names of enrollments of
    the instance. *)
Definition no_free_name (st : CodeState) : Prop :=
  exists s, st = after_draws namegen (Z.to_nat 10002) s /\
  forall m, Z.of_nat m <= 10000 ->
    exists k r, cs_rows st !! k = Some r /\ cr_instance r = cr_instance (cs_object st) /\
      anon_name r = (namegen (after_draws namegen m s)).1.

Lemma rows_exist_true p st : rows_exist p st = true -> exists k r, cs_rows st !! k = Some r /\ p r = true.
Proof.
  intros (r & Hin & Hp)%existsb_exists. apply list_elem_of_In, list_elem_of_fmap in Hin as ([k r'] & -> & Hin).
  apply elem_of_map_to_list in Hin. eauto.
Qed.

Lemma draw_anon_id_fields s : with_draws (draw_anon_id s).2 (cs_draws s) = s.
Proof. by destruct s. Qed.

Lemma namegen_fields s : with_draws (namegen s).2 (cs_draws s) = s.
Proof. destruct s. unfold namegen. by case_match. Qed.

Lemma after_draws_ids n st : cs_draws (after_draws draw_anon_id n st) = (cs_draws st + n)%nat.
Proof.
  induction n as [|n IH]; [apply plus_n_O|].
  change (after_draws draw_anon_id (S n) st) with (draw_anon_id (after_draws draw_anon_id n st)).2. cbn. by rewrite IH, <- plus_n_Sm.
Qed.

Lemma drawn_id_raises st e st1 : drawn_id st = (Raise e, st1) -> no_free_id st1.
Proof.
  intros [-> Hm]%draw_free_exhausted. exists (cs_draws st).
  pose proof (fun n => with_draws_fields _ _ (after_draws_fields draw_anon_id n st draw_anon_id_fields)) as Hf.
  split; [rewrite after_draws_ids; unfold RETRIES; lia|]. intros m Hle. destruct (Hf (S (S RETRIES))) as [-> _].
  destruct (rows_exist_true _ _ (Hm m ltac:(unfold RETRIES; lia))) as (k & r & Hr & Hp). destruct (Hf (S m)) as [Er _]. rewrite Er in Hr.
  exists k, r. split; [done|]. apply bool_decide_eq_true in Hp. rewrite Hp. cbn. by rewrite after_draws_ids.
Qed.

Lemma drawn_name_raises st e st1 : drawn_name st = (Raise e, st1) -> no_free_name st1.
Proof.
  intros [-> Hm]%draw_free_exhausted. exists st.
  pose proof (fun n => with_draws_fields _ _ (after_draws_fields namegen n st namegen_fields)) as Hf.
  split; [f_equal; unfold RETRIES; lia|]. intros m Hle. destruct (Hf (S (S RETRIES))) as (-> & -> & _).
  destruct (rows_exist_true _ _ (Hm m ltac:(unfold RETRIES; lia))) as (k & r & Hr & Hp). destruct (Hf (S m)) as (Er & Eo & _).
  rewrite Er in Hr. rewrite Eo in Hp. b2p. by exists k, r.
Qed.

Lemma random_nonempty n len : 0 < len -> get_random_string n len <> ""%string.
Proof. intros Hl E. pose proof (random_length n len ltac:(lia)) as H. rewrite E in H. cbn in H. lia. Qed.

Lemma drawn_id_facts st r st1 :
  drawn_id st = (r, st1) ->
  with_draws st1 (cs_draws st) = st /\
  match r with Ret c => anon_id_taken st c = false /\ c <> ""%string | Raise e => e = RuntimeError end.
Proof.
  intros E. apply (draw_free_facts _ _ _ _ st) in E as [H1 H2]; [|by intros []|by destruct st].
  split; [done|]. destruct r as [c|]; [|done]. destruct H2 as [Ht Hc]. split.
  - unfold anon_id_taken, rows_exist in *. by rewrite <- (proj1 (with_draws_fields _ _ H1)).
  - destruct Hc as [[s Hc]|Hc]; injection Hc as -> _; by apply random_nonempty.
Qed.

Lemma append_space_nonempty a b : (a ++ " " ++ b)%string <> ""%string.
Proof. by destruct a. Qed.

Lemma namegen_nonempty st : (namegen st).1 <> ""%string.
Proof.
  unfold namegen. case_match; cbn [fst]; [|apply append_space_nonempty].
  rewrite string_app_assoc. apply append_space_nonempty.
Qed.

Lemma drawn_name_facts st r st1 :
  drawn_name st = (r, st1) ->
  with_draws st1 (cs_draws st) = st /\
  match r with Ret c => anon_name_taken st c = false /\ c <> ""%string | Raise e => e = RuntimeError end.
Proof.
  intros E. apply (draw_free_facts _ _ _ _ st) in E as [H1 H2]; [|exact namegen_fields|apply namegen_fields].
  split; [done|]. destruct r as [c|]; [|done]. destruct H2 as [Ht Hc]. split.
  - unfold anon_name_taken, rows_exist in *. destruct (with_draws_fields _ _ H1) as (<- & <- & _). done.
  - destruct Hc as [[s Hc]|Hc]; [pose proof (namegen_nonempty s) as H|pose proof (namegen_nonempty st) as H];
      rewrite <- Hc in H; exact H.
Qed.

Lemma write_object fields st st' f : write fields st = (st', f) -> cs_object st' = cs_object st.
Proof. unfold write. intros E. repeat case_match; by injection E as <- <-. Qed.

(** ** Nested saves *)

Section Nested.
Context (fuel : nat).

Abbreviation sv d := (save fuel d false).

(** A function that is not needed does nothing. *)
Lemma skip_anon_id f st : has_id (cs_object st) -> create_anon_id f false st = (st, Finished).
Proof.
  intros (c & Hc & Hne). unfold create_anon_id. rewrite Hc. cbn.
  by rewrite bool_decide_eq_false_2.
Qed.

Lemma skip_anon_name f st : has_name (cs_object st) -> pseudonymize f false st = (st, Finished).
Proof. intros Hn. unfold pseudonymize. cbn. by rewrite bool_decide_eq_false_2. Qed.

Lemma force_anon_id f st : ~ has_id (cs_object st) -> create_anon_id f false st = create_anon_id f true st.
Proof.
  intros Hn. unfold create_anon_id. destruct (anon_id (cs_object st)) as [c|] eqn:E; [|done]. cbn.
  case_bool_decide as Hc; [done|]. destruct Hn. by exists c.
Qed.

Lemma force_anon_name f st : ~ has_name (cs_object st) -> pseudonymize f false st = pseudonymize f true st.
Proof.
  intros Hn. unfold pseudonymize. cbn. case_bool_decide as Hc; [done|]. by destruct Hn.
Qed.

Lemma save_eq d created fields st :
  save fuel (S d) created fields st
  = (write fields ;;; create_enrollment_code fuel (sv d) created ;;; create_anon_id (sv d) created
       ;;; pseudonymize (sv d) created ;;; check_and_tag_retaking created) st.
Proof. done. Qed.

(** The functions after a save that did not create. *)
Lemma save_unfold d fields st :
  sv (S d) fields st = (write fields ;;; create_anon_id (sv d) false ;;; pseudonymize (sv d) false) st.
Proof.
  rewrite save_eq. apply andThen_ext; [done|]. intros st' _.
  unfold create_enrollment_code. rewrite andThen_skip_l. apply andThen_ext; [done|]. intros st2 _.
  apply (andThen_skip_r (pseudonymize _ false) st2).
Qed.

(** A save of an enrollment that has its id and name only writes. *)
Lemma save_settled d fields st :
  has_id (cs_object st) -> has_name (cs_object st) -> sv (S d) fields st = write fields st.
Proof.
  intros Hi Hn. rewrite save_unfold. rewrite <- (andThen_skip_r (write fields)).
  apply andThen_ext; [done|]. intros st' E. apply write_object in E. rewrite <- E in Hi, Hn.
  unfold andThen. rewrite (skip_anon_id _ _ Hi). by apply skip_anon_name.
Qed.

Lemma create_anon_id_settled d st :
  has_name (cs_object st) -> create_anon_id (sv (S d)) true st = give_anon_id st.
Proof.
  intros Hn. unfold give_anon_id, create_anon_id. cbn [orb]. fold (drawn_id st).
  destruct (drawn_id st) as [[c|e] st1] eqn:E; [|done].
  destruct (drawn_id_facts _ _ _ E) as [H1 [_ Hc]]. destruct (with_draws_fields _ _ H1) as (_ & Ho & _).
  cbn. apply save_settled; cbn; rewrite Ho; [by exists c|done].
Qed.

Lemma pseudonymize_settled d created st :
  has_id (cs_object st) -> pseudonymize (sv (S d)) created st = pseudonymize write created st.
Proof.
  intros Hi. unfold pseudonymize. destruct (_ || _); [|done]. fold (drawn_name st).
  destruct (drawn_name st) as [[c|e] st1] eqn:E; [|done].
  destruct (drawn_name_facts _ _ _ E) as [H1 [_ Hc]]. destruct (with_draws_fields _ _ H1) as (_ & Ho & _).
  cbn. apply save_settled; cbn; rewrite Ho; done.
Qed.

(** The save of a new id goes on to give the name that is missing. *)
Lemma save_without_name d fields st :
  has_id (cs_object st) -> ~ has_name (cs_object st) ->
  sv (S (S d)) fields st = (write fields ;;; give_anon_name) st.
Proof.
  intros Hi Hn. rewrite save_unfold. apply andThen_ext; [done|]. intros st' E.
  apply write_object in E. rewrite <- E in Hi, Hn.
  unfold andThen. rewrite (skip_anon_id _ _ Hi). rewrite force_anon_name by done.
  by apply pseudonymize_settled.
Qed.

Lemma give_anon_id_finished st st' :
  give_anon_id st = (st', Finished) ->
  has_id (cs_object st') /\ anon_name (cs_object st') = anon_name (cs_object st).
Proof.
  unfold give_anon_id, create_anon_id. cbn [orb]. fold (drawn_id st).
  destruct (drawn_id st) as [[c|e] st1] eqn:E; [|done].
  destruct (drawn_id_facts _ _ _ E) as [H1 [_ Hc]]. destruct (with_draws_fields _ _ H1) as (_ & Ho & _).
  cbn. intros Ew. apply write_object in Ew. rewrite Ew. cbn. rewrite Ho. split; [by exists c|done].
Qed.

Lemma give_anon_name_finished st st' :
  give_anon_name st = (st', Finished) ->
  has_name (cs_object st') /\ anon_id (cs_object st') = anon_id (cs_object st).
Proof.
  unfold give_anon_name, pseudonymize. cbn [orb]. fold (drawn_name st).
  destruct (drawn_name st) as [[c|e] st1] eqn:E; [|done].
  destruct (drawn_name_facts _ _ _ E) as [H1 [_ Hc]]. destruct (with_draws_fields _ _ H1) as (_ & Ho & _).
  cbn. intros Ew. apply write_object in Ew. rewrite Ew. cbn. by rewrite Ho.
Qed.

(** Without a name the id is given, saved, and the save gives the name. *)
Lemma create_anon_id_without_name d st :
  ~ has_name (cs_object st) ->
  create_anon_id (sv (S (S d))) true st = (give_anon_id ;;; give_anon_name) st.
Proof.
  intros Hn. unfold andThen at 1. unfold give_anon_id, create_anon_id. cbn [orb]. fold (drawn_id st).
  destruct (drawn_id st) as [[c|e] st1] eqn:E; [|done].
  destruct (drawn_id_facts _ _ _ E) as [H1 [_ Hc]]. destruct (with_draws_fields _ _ H1) as (_ & Ho & _).
  cbn [andThen assign_object]. apply save_without_name; cbn; rewrite Ho; [by exists c|done].
Qed.

(** The save of a new enrollment's code gives both. *)
Lemma save_without_both d fields st :
  ~ has_id (cs_object st) -> ~ has_name (cs_object st) ->
  sv (S (S (S d))) fields st = (write fields ;;; give_anon_id ;;; give_anon_name) st.
Proof.
  intros Hi Hn. rewrite save_unfold. apply andThen_ext; [done|]. intros st' E.
  apply write_object in E. rewrite <- E in Hi, Hn.
  rewrite <- (andThen_skip_r (_ ;;; give_anon_name) st'). apply andThen_ext.
  - rewrite force_anon_id by done. by apply create_anon_id_without_name.
  - intros st2 E2. rewrite force_anon_id, create_anon_id_without_name in E2 by done.
    apply skip_anon_name. unfold andThen in E2. destruct (give_anon_id st') as [st3 []]; try done.
    by destruct (give_anon_name_finished st3 st2 E2).
Qed.

Lemma draw_code_facts n st c st1 :
  draw_code n st = Some (c, st1) ->
  with_draws st1 (cs_draws st) = st /\ code_taken st c = false /\ c <> ""%string.
Proof.
  revert st. induction n as [|n IH]; [done|]. intros st E. cbn [draw_code] in E.
  destruct (code_taken _ _) eqn:Et.
  - apply IH in E as (H1 & H2 & H3). destruct st. cbn in *. split_and!; [|done..].
    unfold with_draws in *. cbn in *. by injection H1 as -> -> -> ->.
  - injection E as <- <-. destruct st. split_and!; [done|exact Et|by apply random_nonempty].
Qed.

Lemma create_code_blank d st :
  ~ has_id (cs_object st) -> ~ has_name (cs_object st) ->
  create_enrollment_code fuel (sv (S (S (S d)))) true st
  = (give_code fuel ;;; give_anon_id ;;; give_anon_name) st.
Proof.
  intros Hi Hn. unfold andThen at 1. unfold give_code, create_enrollment_code.
  destruct (draw_code fuel st) as [[c st1]|] eqn:E; [|done].
  destruct (draw_code_facts _ _ _ _ E) as [H1 _]. destruct (with_draws_fields _ _ H1) as (_ & Ho & _).
  cbn [andThen assign_object]. apply save_without_both; cbn; rewrite Ho; done.
Qed.

(** The nested saves of a new enrollment are six writes in a row. *)
Lemma save_new d st :
  ~ has_id (cs_object st) -> ~ has_name (cs_object st) ->
  save fuel (S (S (S (S d)))) true AllFields st = new_enrollment fuel st.
Proof.
  intros Hi Hn. rewrite save_eq. unfold new_enrollment. apply andThen_ext; [done|]. intros st1 E1.
  apply write_object in E1. rewrite <- E1 in Hi, Hn.
  transitivity (((give_code fuel ;;; give_anon_id ;;; give_anon_name)
                   ;;; (give_anon_id ;;; give_anon_name ;;; check_and_tag_retaking true)) st1).
  2: { rewrite andThen_assoc. apply andThen_ext; [done|]. intros st2 _. by rewrite andThen_assoc. }
  apply andThen_ext; [by apply create_code_blank|]. intros st2 E2.
  assert (Hn2 : has_name (cs_object st2)).
  { rewrite create_code_blank in E2 by done. unfold andThen in E2.
    destruct (give_code _ _) as [s []]; try done. destruct (give_anon_id s) as [s' []]; try done.
    by destruct (give_anon_name_finished s' st2 E2). }
  apply andThen_ext; [by apply create_anon_id_settled|]. intros st3 E3.
  rewrite create_anon_id_settled in E3 by done. destruct (give_anon_id_finished _ _ E3) as [Hi3 _].
  apply andThen_ext; [by apply pseudonymize_settled|done].
Qed.
End Nested.

(** ** Codes stay distinct *)

Definition distinct_codes (rows : gmap (Z * Z) CodeRow) : Prop :=
  forall k1 k2 r1 r2, rows !! k1 = Some r1 -> rows !! k2 = Some r2 -> k1 <> k2 ->
  (cr_instance r1 = cr_instance r2 -> personal_code r1 <> ""%string -> personal_code r1 <> personal_code r2) /\
  (forall c, anon_id r1 = Some c -> anon_id r2 <> Some c) /\
  (cr_instance r1 = cr_instance r2 -> anon_name r1 <> ""%string -> anon_name r1 <> anon_name r2).

Definition keyed (rows : gmap (Z * Z) CodeRow) : Prop := forall k r, rows !! k = Some r -> cr_key r = k.

(** The object and its row agree, and the rows are distinct. *)
Record codes_ok (st : CodeState) : Prop := {
  ok_keyed : keyed (cs_rows st);
  ok_distinct : distinct_codes (cs_rows st);
  ok_synced : cs_rows st !! cr_key (cs_object st) = Some (cs_object st);
}.

(** What a new row may share with no other. *)
Definition apart (rows : gmap (Z * Z) CodeRow) (r : CodeRow) : Prop :=
  forall k r2, rows !! k = Some r2 -> k <> cr_key r ->
  (cr_instance r = cr_instance r2 -> personal_code r <> ""%string -> personal_code r <> personal_code r2) /\
  (forall c, anon_id r = Some c -> anon_id r2 <> Some c) /\
  (cr_instance r = cr_instance r2 -> anon_name r <> ""%string -> anon_name r <> anon_name r2).

Lemma insert_distinct rows r :
  keyed rows -> distinct_codes rows -> apart rows r ->
  keyed (<[cr_key r := r]> rows) /\ distinct_codes (<[cr_key r := r]> rows).
Proof.
  intros Hk Hd Ha. split.
  - intros k x H. apply lookup_insert_Some in H as [[<- <-]|[_ H]]; [done|by apply Hk].
  - intros k1 k2 r1 r2 H1 H2 Hne.
    apply lookup_insert_Some in H1 as [[<- <-]|[Hn1 H1]], H2 as [[<- <-]|[Hn2 H2]]; [done| | |by eapply Hd].
    + by apply (Ha k2).
    + destruct (Ha k1 r1 H1 (not_eq_sym Hn1)) as (A & B & C). split_and!.
      * intros E Hp E'. rewrite E' in Hp. by apply A.
      * intros c E1 E2. by apply (B c).
      * intros E Hp E'. rewrite E' in Hp. by apply C.
Qed.

(** A change of the object, saved. *)
Lemma assign_write_ok f fields st st' fin :
  codes_ok st -> (forall r, cr_key (f r) = cr_key r) ->
  written fields (f (cs_object st)) (cs_object st) = f (cs_object st) -> apart (cs_rows st) (f (cs_object st)) ->
  (assign_object f ;;; write fields) st = (st', fin) ->
  fin = Finished /\ codes_ok st' /\ cs_object st' = f (cs_object st) /\
  cs_rows st' = <[cr_key (cs_object st) := f (cs_object st)]> (cs_rows st) /\
  cs_tags st' = cs_tags st /\ cs_taggings st' = cs_taggings st.
Proof.
  intros [Hk Hd Hs] Hf Hw Ha. cbn. unfold write. cbn. rewrite Hf, Hs, Hw. intros [= <- <-].
  split; [done|]. destruct (insert_distinct _ _ Hk Hd Ha) as [H1 H2]. rewrite Hf in H1, H2.
  split; [|done]. split; cbn; [done..|]. rewrite Hf. apply lookup_insert_eq.
Qed.
Lemma rows_exist_false p st k r :
  rows_exist p st = false -> cs_rows st !! k = Some r -> p r = false.
Proof.
  unfold rows_exist. intros H Hr. apply not_true_iff_false. intros Hp. apply not_true_iff_false in H. apply H.
  apply existsb_exists. exists r. split; [|done]. apply list_elem_of_In, list_elem_of_fmap.
  exists (k, r). split; [done|]. by apply elem_of_map_to_list.
Qed.

Lemma object_apart st : codes_ok st -> apart (cs_rows st) (cs_object st).
Proof. intros [Hk Hd Hs] k r2 Hr Hne. apply (Hd (cr_key (cs_object st)) k); auto. Qed.

Lemma set_code_apart st c :
  codes_ok st -> code_taken st c = false -> apart (cs_rows st) (set_code c (cs_object st)).
Proof.
  intros Hok Ht k r2 Hr Hne. destruct (object_apart st Hok k r2 Hr Hne) as (_ & B & C).
  split_and!; [|exact B|exact C]. cbn. intros Hi _ ->.
  pose proof (rows_exist_false _ _ _ _ Ht Hr) as H. cbn in H.
  rewrite <- Hi, Z.eqb_refl, bool_decide_eq_true_2 in H by done. done.
Qed.

Lemma set_anon_id_apart st c :
  codes_ok st -> anon_id_taken st c = false -> apart (cs_rows st) (set_anon_id (Some c) (cs_object st)).
Proof.
  intros Hok Ht k r2 Hr Hne. destruct (object_apart st Hok k r2 Hr Hne) as (A & _ & C).
  split_and!; [exact A| |exact C]. cbn. intros ? [= <-] E.
  pose proof (rows_exist_false _ _ _ _ Ht Hr) as H. cbn in H. by rewrite bool_decide_eq_true_2 in H.
Qed.

Lemma set_anon_name_apart st c :
  codes_ok st -> anon_name_taken st c = false -> apart (cs_rows st) (set_anon_name c (cs_object st)).
Proof.
  intros Hok Ht k r2 Hr Hne. destruct (object_apart st Hok k r2 Hr Hne) as (A & B & _).
  split_and!; [exact A|exact B|]. cbn. intros Hi _ ->.
  pose proof (rows_exist_false _ _ _ _ Ht Hr) as H. cbn in H.
  rewrite <- Hi, Z.eqb_refl, bool_decide_eq_true_2 in H by done. done.
Qed.

(** The state between two of the calls: only the object's row has changed. *)
Record between (st0 st : CodeState) : Prop := {
  bt_ok : codes_ok st;
  bt_key : cr_key (cs_object st) = cr_key (cs_object st0);
  bt_role : cr_role (cs_object st) = cr_role (cs_object st0);
  bt_rows : cs_rows st = <[cr_key (cs_object st0) := cs_object st]> (cs_rows st0);
  bt_tags : cs_tags st = cs_tags st0 /\ cs_taggings st = cs_taggings st0;
}.

Lemma between_draws st0 st st1 : between st0 st -> with_draws st1 (cs_draws st) = st -> between st0 st1.
Proof.
  intros [[Hk Hd Hs] Ho Hr Hrows Ht] H. destruct (with_draws_fields _ _ H) as (E1 & E2 & E3 & E4).
  split; [split|..]; rewrite ?E1, ?E2, ?E3, ?E4; done.
Qed.

(** One more value is assigned and saved. *)
Lemma between_assign f fields st0 st st1 st' fin :
  between st0 st -> with_draws st1 (cs_draws st) = st ->
  (forall r, cr_key (f r) = cr_key r /\ cr_role (f r) = cr_role r /\ written fields (f r) r = f r) ->
  apart (cs_rows st) (f (cs_object st)) ->
  (assign_object f ;;; write fields) st1 = (st', fin) ->
  fin = Finished /\ between st0 st' /\ cs_object st' = f (cs_object st).
Proof.
  intros Hb H1 Hf Ha E. pose proof (between_draws _ _ _ Hb H1) as Hb1.
  destruct (with_draws_fields _ _ H1) as (Hr & Ho & _). rewrite <- Hr, <- Ho in Ha.
  apply assign_write_ok in E as (-> & Hok & Hobj & Hrows & Ht & Htt); [| |by intros r; apply Hf|by apply Hf|done];
    [|exact (bt_ok _ _ Hb1)].
  rewrite <- Ho. split; [done|]. split; [|done]. split; [done|..].
  - rewrite Hobj. destruct (Hf (cs_object st1)) as [-> _]. exact (bt_key _ _ Hb1).
  - rewrite Hobj. destruct (Hf (cs_object st1)) as (_ & -> & _). exact (bt_role _ _ Hb1).
  - rewrite Hrows, Hobj, (bt_rows _ _ Hb1), (bt_key _ _ Hb1). by rewrite insert_insert_eq.
  - rewrite Ht, Htt. exact (bt_tags _ _ Hb1).
Qed.

Lemma give_code_between fuel st0 st st' fin :
  between st0 st -> give_code fuel st = (st', fin) ->
  between st0 st' /\ (fin = Finished /\ personal_code (cs_object st') <> ""%string \/ fin = OutOfFuel).
Proof.
  intros Hb. unfold give_code, create_enrollment_code.
  destruct (draw_code fuel st) as [[c st1]|] eqn:E; [|by intros [= <- <-]; auto].
  destruct (draw_code_facts _ _ _ _ E) as (H1 & Ht & Hc). intros Ew.
  apply (between_assign _ _ st0 st) in Ew as (-> & Hb' & ->);
    [|done|done|done|apply set_code_apart; [apply Hb|done]]. auto.
Qed.

Lemma give_anon_id_between st0 st st' fin :
  between st0 st -> give_anon_id st = (st', fin) ->
  between st0 st' /\ personal_code (cs_object st') = personal_code (cs_object st) /\
  (fin = Finished \/ fin = Failed RuntimeError /\ no_free_id st').
Proof.
  intros Hb. unfold give_anon_id, create_anon_id. cbn [orb]. fold (drawn_id st).
  destruct (drawn_id st) as [[c|e] st1] eqn:E; destruct (drawn_id_facts _ _ _ E) as [H1 Hc].
  - destruct Hc as [Ht Hc]. intros Ew. apply (between_assign _ _ st0 st) in Ew as (-> & Hb' & ->);
      [|done|done|done|apply set_anon_id_apart; [apply Hb|done]]. auto.
  - intros [= <- <-]. destruct (with_draws_fields _ _ H1) as (_ & -> & _).
    split; [by eapply between_draws|]. subst e. apply drawn_id_raises in E. auto.
Qed.

Lemma give_anon_name_between st0 st st' fin :
  between st0 st -> give_anon_name st = (st', fin) ->
  between st0 st' /\ personal_code (cs_object st') = personal_code (cs_object st) /\
  (fin = Finished \/ fin = Failed RuntimeError /\ no_free_name st').
Proof.
  intros Hb. unfold give_anon_name, pseudonymize. cbn [orb]. fold (drawn_name st).
  destruct (drawn_name st) as [[c|e] st1] eqn:E; destruct (drawn_name_facts _ _ _ E) as [H1 Hc].
  - destruct Hc as [Ht Hc]. intros Ew. apply (between_assign _ _ st0 st) in Ew as (-> & Hb' & ->);
      [|done|done|done|apply set_anon_name_apart; [apply Hb|done]]. auto.
  - intros [= <- <-]. destruct (with_draws_fields _ _ H1) as (_ & -> & _).
    split; [by eapply between_draws|]. subst e. apply drawn_name_raises in E. auto.
Qed.

(** The first write of a blank object inserts its row. *)
Lemma write_new_between st0 st fin :
  keyed (cs_rows st0) -> distinct_codes (cs_rows st0) -> cs_rows st0 !! cr_key (cs_object st0) = None ->
  personal_code (cs_object st0) = ""%string -> anon_id (cs_object st0) = None ->
  anon_name (cs_object st0) = ""%string ->
  write AllFields st0 = (st, fin) -> fin = Finished /\ between st0 st /\ cs_object st = cs_object st0 /\ cs_draws st = cs_draws st0.
Proof.
  intros Hk Hd Hnew Hc Hi Hn. unfold write. rewrite Hnew. intros [= <- <-].
  assert (Ha : apart (cs_rows st0) (cs_object st0)).
  { intros k r2 _ _. rewrite Hc, Hi, Hn. by split_and!. }
  destruct (insert_distinct _ _ Hk Hd Ha) as [H1 H2].
  split; [done|]. split; [|done]. split; cbn; try done. split; cbn; [done..|]. apply lookup_insert_eq.
Qed.
(** ** The tag of students who take the course again *)

Definition retaking_tag_of (tags : list UserTag) (instance : Z) (t : UserTag) : Prop :=
  t ∈ tags /\ (retaking_values t instance = true \/ exists tags', t = new_retaking_tag tags' instance).

Lemma get_or_create_tag_facts tags instance t tags' :
  get_or_create_tag tags instance = Ret (t, tags') ->
  retaking_tag_of tags' instance t /\ forall x, x ∈ tags -> x ∈ tags'.
Proof.
  unfold get_or_create_tag. destruct (List.filter _ tags) as [|t0 [|]] eqn:E; [| |done]; intros [= <- <-].
  - split; [split; [apply elem_of_app; right; by left|eauto]|]. intros x Hx. apply elem_of_app. by left.
  - split; [|done]. assert (H : In t0 (List.filter (fun t => retaking_values t instance) tags)) by (rewrite E; by left).
    apply filter_In in H as [Hin Hv]. split; [by apply list_elem_of_In|]. by left.
Qed.

(** The student is tagged exactly when the profile has an enrollment, in whatever
    role and status, in another instance of the same course. *)
Lemma check_and_tag_retaking_facts st st' fin :
  check_and_tag_retaking true st = (st', fin) ->
  cs_rows st' = cs_rows st /\ cs_object st' = cs_object st /\
  match fin with
  | Finished =>
      if bool_decide (cr_role (cs_object st) = EnrollmentRole.STUDENT) && rows_exist (enrolled_elsewhere (cs_object st)) st
      then exists t, retaking_tag_of (cs_tags st') (cr_instance (cs_object st)) t /\
                     mkTagging (tag_id t) (cr_profile (cs_object st)) (cr_instance (cs_object st)) ∈ cs_taggings st'
      else st' = st
  | Failed e =>
      e = MultipleObjectsReturned /\
      (2 <= length (List.filter (fun t => retaking_values t (cr_instance (cs_object st))) (cs_tags st)))%nat
  | OutOfFuel => False
  end.
Proof.
  unfold check_and_tag_retaking. cbn [negb]. destruct (bool_decide (cr_role _ = _)); [|by intros [= <- <-]].
  cbn [negb andb]. destruct (rows_exist _ st); [|by intros [= <- <-]].
  destruct (get_or_create_tag _ _) as [[t tags]|e] eqn:E; intros [= <- <-]; (split; [done|]; split; [done|]).
  - exists t. split; [exact (proj1 (get_or_create_tag_facts _ _ _ _ E))|]. unfold get_or_create_tagging. cbn [cs_taggings].
    case_bool_decide; [done|]. apply elem_of_app. right. by left.
  - unfold get_or_create_tag in E. destruct (List.filter _ _) as [|t1 [|t2 l]]; try done. injection E as <-.
    split; [done|]. cbn. lia.
Qed.

Lemma draw_code_none n st :
  draw_code n st = None -> forall m, (m < n)%nat -> code_taken st (get_random_string (cs_draws st + m) 6) = true.
Proof.
  revert st. induction n as [|n IH]; [lia|]. intros st E m Hm. cbn [draw_code] in E.
  destruct (code_taken _ _) eqn:Et; [|done]. destruct m as [|m].
  - rewrite Nat.add_0_r. destruct st. exact Et.
  - specialize (IH _ E m ltac:(lia)). cbn [cs_draws with_draws] in IH. rewrite <- plus_n_Sm.
    destruct st. exact IH.
Qed.

(** A code that is taken is another enrollment's. *)
Lemma code_taken_elsewhere st0 st c :
  between st0 st -> c <> ""%string -> personal_code (cs_object st) = ""%string -> code_taken st c = true ->
  exists k r, cs_rows st0 !! k = Some r /\ cr_instance r = cr_instance (cs_object st0) /\ personal_code r = c.
Proof.
  intros Hb Hc Hblank H. apply existsb_exists in H as (r & Hin & Hp).
  apply list_elem_of_In, list_elem_of_fmap in Hin as ([k r'] & -> & Hin).
  apply elem_of_map_to_list in Hin. rewrite (bt_rows _ _ Hb) in Hin. cbn in Hp. b2p.
  apply lookup_insert_Some in Hin as [[_ <-]|[_ Hin]]; [congruence|].
  exists k, r'. split_and!; [done| |done]. pose proof (bt_key _ _ Hb) as Hk. unfold cr_key in Hk. congruence.
Qed.

Lemma andThen_inv a b st st' fin :
  (a ;;; b) st = (st', fin) ->
  (exists s, a st = (s, Finished) /\ b s = (st', fin)) \/ (a st = (st', fin) /\ fin <> Finished).
Proof.
  unfold andThen. destruct (a st) as [s [| |]] eqn:E; intros H; [left; eauto|right|right]; injection H as <- <-; done.
Qed.

(** The calls after the code: the row keeps its code and gets an id and a name. *)
Lemma given_names_facts st0 st st' fin :
  between st0 st ->
  (give_anon_id ;;; give_anon_name ;;; give_anon_id ;;; give_anon_name) st = (st', fin) ->
  between st0 st' /\ personal_code (cs_object st') = personal_code (cs_object st) /\
  (fin = Finished /\ has_id (cs_object st') /\ has_name (cs_object st') \/
   fin = Failed RuntimeError /\ (no_free_id st' \/ no_free_name st')).
Proof.
  intros Hb H.
  apply andThen_inv in H as [(s1 & E1 & H)|[E1 Hf]];
    apply (give_anon_id_between st0) in E1 as (Hb1 & Hc1 & Hr1); [| done | |done]; [|naive_solver].
  apply andThen_inv in H as [(s2 & E2 & H)|[E2 Hf]];
    apply (give_anon_name_between st0) in E2 as (Hb2 & Hc2 & Hr2); [| done | |done]; [|rewrite <- Hc1; naive_solver].
  apply andThen_inv in H as [(s3 & E3 & H)|[E3 Hf]].
  - pose proof (give_anon_id_finished _ _ E3) as [Hi3 _].
    apply (give_anon_id_between st0) in E3 as (Hb3 & Hc3 & Hr3); [|done].
    pose proof (give_anon_name_finished s3 st') as Hn4.
    pose proof (give_anon_name_between st0 s3 st' fin Hb3 H) as (Hb4 & Hc4 & Hr4).
    split; [done|]. split; [congruence|]. destruct Hr4 as [-> |[-> ?]]; [|by auto]. left.
    destruct (Hn4 H) as [Hn Hi]. split_and!; [done| |done]. unfold has_id. by rewrite Hi.
  - apply (give_anon_id_between st0) in E3 as (Hb3 & Hc3 & Hr3); [|done].
    split; [done|]. split; [congruence|]. naive_solver.
Qed.

(** C39. A new enrollment gets codes of its own.  The three functions that follow a
    save call each other through the saves they make; however they do, with a stack
    of four saves: only the row of the enrollment is written, no two enrollments of
    an instance share a personal code or an anonymous name and no two enrollments an
    anonymous id, whether the call ends or raises.  It raises only when 10001 ids or
    names in a row were taken, or when the tag for retaking exists twice; when it
    ends the enrollment has all three values, and it does not draw codes for ever
    if a free one comes up. *)
Theorem new_enrollment_distinct fuel d st st' fin :
  keyed (cs_rows st) -> distinct_codes (cs_rows st) -> cs_rows st !! cr_key (cs_object st) = None ->
  personal_code (cs_object st) = ""%string -> anon_id (cs_object st) = None -> anon_name (cs_object st) = ""%string ->
  save fuel (S (S (S (S d)))) true AllFields st = (st', fin) ->
  distinct_codes (cs_rows st') /\
  cs_rows st' = <[cr_key (cs_object st) := cs_object st']> (cs_rows st) /\
  match fin with
  | Finished => personal_code (cs_object st') <> ""%string /\ has_id (cs_object st') /\ has_name (cs_object st')
  | Failed e =>
      e = RuntimeError /\ (no_free_id st' \/ no_free_name st') \/
      e = MultipleObjectsReturned /\
      (2 <= length (List.filter (fun t => retaking_values t (cr_instance (cs_object st))) (cs_tags st)))%nat
  | OutOfFuel =>
      forall n, (n < fuel)%nat -> exists k r, cs_rows st !! k = Some r /\ cr_instance r = cr_instance (cs_object st) /\
        personal_code r = get_random_string (cs_draws st + n) 6
  end.
Proof.
  intros Hk Hd Hnew Hc Hi Hn E.
  rewrite save_new in E by (unfold has_id, has_name; naive_solver). unfold new_enrollment in E.
  apply andThen_inv in E as [(s1 & E1 & E)|[E1 Hf]];
    apply write_new_between in E1 as (H1 & Hb1 & Ho1 & Hdraws); try done; clear H1.
  apply andThen_inv in E as [(s2 & E2 & E)|[E2 Hf]];
    pose proof (give_code_between _ st _ _ _ Hb1 E2) as [Hb2 Hr2].
  - destruct Hr2 as [[_ Hc2]|]; [|done].
    assert (E' : ((give_anon_id ;;; give_anon_name ;;; give_anon_id ;;; give_anon_name)
                    ;;; check_and_tag_retaking true) s2 = (st', fin)).
    { rewrite <- E. rewrite andThen_assoc. apply andThen_ext; [done|]. intros ? _. rewrite andThen_assoc.
      apply andThen_ext; [done|]. intros ? _. by rewrite andThen_assoc. }
    apply andThen_inv in E' as [(s3 & E3 & E')|[E3 Hf]];
      pose proof (given_names_facts st _ _ _ Hb2 E3) as (Hb3 & Hc3 & Hr3).
    + destruct Hr3 as [(_ & Hi3 & Hn3)|[? _]]; [|done].
      apply check_and_tag_retaking_facts in E' as (Hrows & Hobj & Hfin). rewrite Hrows, Hobj.
      split; [apply Hb3|]. split; [apply Hb3|].
      destruct fin; [split_and!; [by rewrite Hc3|done|done]|right|done].
      destruct (bt_tags _ _ Hb3) as [<- _]. pose proof (bt_key _ _ Hb3) as [= <- _]. exact Hfin.
    + split; [apply Hb3|]. split; [apply Hb3|]. destruct Hr3 as [[? _]|[-> Hr3]]; [done|by left].
  - split; [apply Hb2|]. split; [apply Hb2|]. destruct Hr2 as [[-> _]| ->]; [done|]. intros n Hlt.
    assert (Hnone : draw_code fuel s1 = None).
    { unfold give_code, create_enrollment_code in E2. destruct (draw_code fuel s1) as [[c s2]|]; [|done].
      cbn in E2. unfold write in E2. cbn in E2. repeat case_match; done. }
    pose proof (draw_code_none _ _ Hnone n Hlt) as Ht.
    rewrite Hdraws in Ht. eapply code_taken_elsewhere; [exact Hb1|by apply random_nonempty|congruence|done].
Qed.
End Signals.

(** ** Tags *)

(** src/course/models.py: UserTaggingManager.tags_for_instance.  The ids of the tags
    of the taggings, in their order. *)
Definition tags_for_instance (taggings : list UserTagging) (instance : Z) : list Z :=
  tg_tag <$> List.filter (fun t => tg_instance t =? instance) taggings.

(** A tag in a list: a stored one or one of the two of the code. *)
Inductive AnyTag := StoredTag (id : Z) | USERTAG_INTERNAL | USERTAG_EXTERNAL.

(** src/course/models.py: UserTaggingManager.get_all.  [prefetched] are the taggings
    of the instance that a query may have attached to the profile. *)
Definition get_all `{Settings} (taggings : list UserTagging) (prefetched : option (list UserTagging))
    (profile : UserProfile) (instance : Z) : list AnyTag :=
  let ts :=
    match prefetched with
    | Some ts => ts
    | None => List.filter (fun t => (tg_user t =? profile_id profile) && (tg_instance t =? instance)) taggings
    end in
  (if is_external profile then USERTAG_EXTERNAL else USERTAG_INTERNAL) :: (StoredTag ∘ tg_tag <$> ts).

(** src/course/models.py: UserTaggingManager.set *)
Definition tagging_set (profile : Z) (tag : UserTag) (taggings : list UserTagging) : list UserTagging :=
  get_or_create_tagging taggings (mkTagging (tag_id tag) profile (tag_instance tag)).

(** src/course/models.py: UserTaggingManager.unset *)
Definition tagging_unset (profile : Z) (tag : UserTag) (taggings : list UserTagging) : list UserTagging :=
  List.filter (fun t => negb ((tg_tag t =? tag_id tag) && (tg_user t =? profile))) taggings.

(** A tag is set for one student of its instance, once, and unset for that student
    alone. *)
Theorem tagging_set_unset profile tag taggings t :
  (t ∈ tagging_set profile tag taggings <->
     t ∈ taggings \/ t = mkTagging (tag_id tag) profile (tag_instance tag)) /\
  (t ∈ tagging_unset profile tag taggings <-> t ∈ taggings /\ ~ (tg_tag t = tag_id tag /\ tg_user t = profile)) /\
  (NoDup taggings -> NoDup (tagging_set profile tag taggings) /\ NoDup (tagging_unset profile tag taggings)) /\
  tagging_set profile tag (tagging_set profile tag taggings) = tagging_set profile tag taggings.
Proof.
  unfold tagging_set, get_or_create_tagging. set (new := mkTagging _ _ _). split_and!.
  - case_bool_decide; [naive_solver|]. rewrite elem_of_app, list_elem_of_singleton. done.
  - unfold tagging_unset. rewrite list_elem_of_In, filter_In, <- list_elem_of_In, negb_true_iff, andb_false_iff,
      !Z.eqb_neq. destruct (decide (tg_tag t = tag_id tag)), (decide (tg_user t = profile)); tauto.
  - intros Hn. split; [|by apply NoDup_ListNoDup, List.NoDup_filter, NoDup_ListNoDup].
    case_bool_decide; [done|]. by apply NoDup_snoc.
  - destruct (decide (new ∈ taggings)) as [H1|H1].
    + by rewrite !(bool_decide_eq_true_2 (new ∈ taggings)).
    + rewrite !(bool_decide_eq_false_2 (new ∈ taggings)) by done. rewrite bool_decide_eq_true_2; [done|].
      apply elem_of_app. right. by left.
Qed.

(** ** Examples *)

Module Sample.
Definition digit (n : nat) : string := String (Ascii.ascii_of_nat (48 + n `mod` 10)) "".
Definition random (n : nat) (len : Z) : string := repeat_str (Z.to_nat len) (digit n).
Definition pick (n : nat) (l : list string) : string := default ""%string (l !! (n `mod` length l)%nat).
Definition colors : list string := ["Amber"; "Blue"; "Coral"]%string.
Definition animals : list string := ["Fox"; "Owl"]%string.
Definition keep_tag (_ : list UserTag) (t : UserTag) : UserTag := t.

Lemma random_length n len : 0 <= len -> Z.of_nat (String.length (random n len)) = len.
Proof.
  intros H. unfold random. rewrite <- (Z2Nat.id len H) at 2. f_equal.
  induction (Z.to_nat len) as [|k IH]; [done|].
  change (S (String.length (repeat_str k (digit n))) = S k). by rewrite IH.
Qed.

(** A profile that was enrolled in instance 1 enrolls in instance 2 of the course. *)
Definition old_row : CodeRow := mkCodeRow 1 7 EnrollmentRole.TEACHER "000000" (Some "1111111111111111"%string) "Blue Owl".
Definition other_row : CodeRow := mkCodeRow 2 8 EnrollmentRole.STUDENT "000000" (Some "2222222222222222"%string) "Blue Fox".
Definition blank_row : CodeRow := mkCodeRow 2 7 EnrollmentRole.STUDENT "" None "".
Definition before : CodeState :=
  mkCodes (<[(1, 7) := old_row]> (<[(2, 8) := other_row]> ∅)) blank_row 0 [] [].

Definition create (st : CodeState) : CodeState * finish :=
  save random pick colors animals keep_tag (fun _ => 10) 20 5 true AllFields st.

(** The id and the name of a new enrollment are drawn and saved, and then drawn and
    saved again: the ids of draws 2 and 3, the names of draws 4 and 5, again the id
    of draw 6 and the names of draws 7 to 10, which the enrollment keeps.  A former
    teacher is tagged as retaking the course. *)
Lemma values_drawn_twice :
  let '(st, fin) := create before in
  fin = Finished /\ cs_draws st = 11%nat /\
  cs_object st = mkCodeRow 2 7 EnrollmentRole.STUDENT "111111" (Some "6666666666666666"%string) "Amber Fox" /\
  cs_taggings st = [mkTagging 1 7 2].
Proof. vm_compute. auto. Qed.

(** A tag that a teacher has edited is not found: the next student who retakes the
    course gets a second tag with the same name and slug. *)
Definition edited_tag : UserTag := mkTag 1 2 "Retaking" "retaking" "Takes the course again." "#ffcc00".

Lemma edited_tag_duplicated :
  let st := mkCodes (cs_rows before) blank_row 0 [edited_tag] [] in
  tag_slug <$> cs_tags (create st).1 = ["retaking"; "retaking"]%string.
Proof. vm_compute. reflexivity. Qed.

Lemma before_ok : keyed (cs_rows before) /\ distinct_codes (cs_rows before).
Proof.
  assert (Hl : forall k r, cs_rows before !! k = Some r -> (k = (1, 7) /\ r = old_row) \/ (k = (2, 8) /\ r = other_row)).
  { intros k r H. unfold before in H. cbn [cs_rows] in H.
    apply lookup_insert_Some in H as [[<- <-]|[_ H]]; [by left|].
    apply lookup_insert_Some in H as [[<- <-]|[_ H]]; [by right|]. by rewrite lookup_empty in H. }
  split.
  - intros k r H. by destruct (Hl k r H) as [[-> ->]|[-> ->]].
  - intros k1 k2 r1 r2 H1 H2 Hne.
    destruct (Hl k1 r1 H1) as [[-> ->]|[-> ->]], (Hl k2 r2 H2) as [[-> ->]|[-> ->]]; try done;
      (split_and!; [done|cbn; congruence|done]).
Qed.

Lemma new_enrollment_distinct_witness :
  exists st', create before = (st', Finished) /\ distinct_codes (cs_rows st') /\
    cs_rows st' = <[(2, 7) := cs_object st']> (cs_rows before) /\
    personal_code (cs_object st') <> ""%string /\ has_id (cs_object st') /\ has_name (cs_object st').
Proof.
  exists (create before).1. assert (E : create before = ((create before).1, Finished)) by (vm_compute; reflexivity).
  split; [exact E|].
  exact (new_enrollment_distinct random pick colors animals keep_tag (fun _ => 10) random_length 20 1 before
    (create before).1 Finished (proj1 before_ok) (proj2 before_ok) eq_refl eq_refl eq_refl eq_refl E).
Defined.
End Sample.
