(* ===== verification/Groups.v ===== *)
(** * Groups of students

    [course/forms.py], [course/views.py], [course/staff_views.py] and the groups of
    [course/cache/menu.py]: students form a group with each other's personal codes,
    select the group they submit with, and the staff edits and deletes groups.  The
    menu of a user shows the groups and is cached, so each operation must
    invalidate the menus it changes. *)

From S2P Require Import Prelude Lists Helpers Course Models Exercise OldCache.

(** ** Tables *)

(** What the forms read of an enrollment. *)
Record CodeEntry := mkCodeEntry { ce_instance : Z; ce_code : string; ce_profile : UserProfile }.

(** src/exercise/submission_models.py: SubmissionDraft lines 739-763.  The instance is
    that of the exercise. *)
Record Draft := mkDraft { draft_instance : Z; draft_submitter : Z; draft_active : bool }.

(** Profiles and code entries are in the order of their ids. *)
Record GroupTables := mkGroupTables {
  gt_profiles : list UserProfile;
  gt_groups : list StudentGroup;
  gt_enrollments : EnrollmentDB;
  gt_codes : list CodeEntry;
  gt_drafts : list Draft;
}.

Definition with_groups (t : GroupTables) (gs : list StudentGroup) : GroupTables :=
  mkGroupTables (gt_profiles t) gs (gt_enrollments t) (gt_codes t) (gt_drafts t).
Definition with_group_enrollments (t : GroupTables) (db : EnrollmentDB) : GroupTables :=
  mkGroupTables (gt_profiles t) (gt_groups t) db (gt_codes t) (gt_drafts t).

Definition id_le (p q : UserProfile) : Prop := profile_id p <= profile_id q.
#[global] Instance id_le_dec : RelDecision id_le.
Proof. intros p q. unfold id_le. apply _. Defined.

(** Members are listed in the order of the profiles, by id. *)
Definition by_id (ps : list UserProfile) : list UserProfile := merge_sort id_le ps.

Definition new_group_id (gs : list StudentGroup) : Z := 1 + maxZ 0 (group_id <$> gs).

(** ** Students form a group *)

Inductive GroupError :=
| FieldRequired (n : Z)
| CodeNotRecognized (n : Z)
| UserAlreadyInGroup (n : Z)
| GroupAlreadyExists.

Section GroupsForm.
(** Python's [strip] and [upper]. *)
Context (strip upper : string -> string).

(** src/course/forms.py: GroupsForm.__init__ lines 24-32.  The numbers of the fields
    and which of them must be filled. *)
Definition group_fields (max_size : Z) : list Z := (fun n => 2 + Z.of_nat n) <$> seq 0 (Z.to_nat (max_size - 1)).

Definition clean_field (min_group_size : Z) (n : Z) (raw : string) : option string :=
  let value := strip raw in
  if bool_decide (value = ""%string) && (n <=? Z.max min_group_size 2) then None else Some value.

Definition enrollment_of_code (codes : list CodeEntry) (instance : Z) (code : string) : option CodeEntry :=
  find (fun e => (ce_instance e =? instance) && bool_decide (ce_code e = code)) codes.

(** One turn of the loop of [clean]. *)
Definition clean_member (t : GroupTables) (instance min_group_size : Z) (data : Z -> string)
    (acc : list UserProfile * list GroupError) (n : Z) : list UserProfile * list GroupError :=
  let '(ms, errors) := acc in
  match clean_field min_group_size n (data n) with
  | None => (ms, errors ++ [FieldRequired n])
  | Some value =>
      if bool_decide (value = ""%string) then acc
      else match enrollment_of_code (gt_codes t) instance (upper value) with
           | None => (ms, errors ++ [CodeNotRecognized n])
           | Some e =>
               if bool_decide (profile_id (ce_profile e) ∈ profile_id <$> ms)
               then (ms, errors ++ [UserAlreadyInGroup n])
               else (ms ++ [ce_profile e], errors)
           end
  end.

(** src/course/forms.py: GroupsForm.clean *)
Definition groups_clean (t : GroupTables) (instance : Z) (profile : UserProfile)
    (min_group_size max_group_size : Z) (data : Z -> string) : list UserProfile * list GroupError :=
  let '(ms, errors) :=
    foldl (clean_member t instance min_group_size data) ([profile], []) (group_fields max_group_size) in
  match errors with
  | [] =>
      if (1 <? length ms)%nat
      then match get_exact (gt_groups t) instance ms with
           | Ret (Some _) => (ms, [GroupAlreadyExists])
           | _ => (ms, [])
           end
      else (ms, [])
  | _ => (ms, errors)
  end.

(** src/course/forms.py: GroupsForm.save *)
Definition groups_save (t : GroupTables) (instance : Z) (ms : list UserProfile) : GroupTables :=
  with_groups t (gt_groups t ++ [mkGroup (new_group_id (gt_groups t)) instance (by_id ms)]).

(** src/course/views.py: GroupsView lines 295-322.  The form is handled: errors are
    shown or the group is made. *)
Definition groups_view (t : GroupTables) (instance : Z) (profile : UserProfile)
    (min_group_size max_group_size : Z) (data : Z -> string) : list GroupError * GroupTables :=
  match groups_clean t instance profile min_group_size max_group_size data with
  | (ms, []) => ([], groups_save t instance ms)
  | (_, errors) => (errors, t)
  end.
End GroupsForm.

(** ** A student selects a group *)

(** src/course/forms.py: GroupSelectForm.clean.  [None] is an invalid form; the
    number 0 is no group. *)
Definition select_clean (t : GroupTables) (instance : Z) (profile : UserProfile) (group : option Z)
    : option (option StudentGroup) :=
  match group with
  | None => None
  | Some gid =>
      if gid =? 0 then Some None
      else match find (fun g => bool_decide (profile_id profile ∈ profile_set (members g))
                                && (group_id g =? gid) && (group_instance g =? instance)) (gt_groups t) with
           | Some g => Some (Some g)
           | None => None
           end
  end.

(** src/course/forms.py: GroupSelectForm.save.  Without an enrollment the assignment
    fails. *)
Definition select_save (t : GroupTables) (instance : Z) (profile : UserProfile) (group : option StudentGroup)
    : result GroupTables :=
  let key := (instance, profile_id profile) in
  match gt_enrollments t !! key with
  | None => Raise AttributeError
  | Some e =>
      Ret (mkGroupTables (gt_profiles t) (gt_groups t)
             (<[key := mkEnrollment (role e) (status e) (from_sis e) (group_id <$> group)]> (gt_enrollments t))
             (gt_codes t)
             ((fun d => if (draft_instance d =? instance) && (draft_submitter d =? profile_id profile) && draft_active d
                        then mkDraft (draft_instance d) (draft_submitter d) false else d) <$> gt_drafts t))
  end.

(** ** The staff edits groups *)

(** src/course/models.py: CourseInstance.students *)
Definition active_students (t : GroupTables) (instance : Z) : list UserProfile :=
  List.filter (fun p => match gt_enrollments t !! (instance, profile_id p) with
                        | Some e => bool_decide (role e = EnrollmentRole.STUDENT)
                                    && bool_decide (status e = EnrollmentStatus.ACTIVE)
                        | None => false
                        end) (gt_profiles t).

(** The field of the members: a required choice among the active students. *)
Definition members_field (t : GroupTables) (instance : Z) (posted : list Z) : option (list UserProfile) :=
  match posted with
  | [] => None
  | _ =>
      let students := active_students t instance in
      if forallb (fun i => bool_decide (i ∈ profile_id <$> students)) posted
      then Some (List.filter (fun p => bool_decide (profile_id p ∈ posted)) students)
      else None
  end.

(** The groups of the instance that have as many of these members as there are. *)
Definition groups_with_exact_member_count (t : GroupTables) (instance : Z) (ms : list UserProfile)
    : list StudentGroup :=
  List.filter (fun g =>
    let common := List.filter (fun p => bool_decide (profile_id p ∈ profile_id <$> ms)) (members g) in
    (group_instance g =? instance) && (length common =? length ms)%nat) (gt_groups t).

Inductive EditError := InvalidMembers | MustHaveTwoMembers | EditGroupExists.

(** src/course/forms.py: GroupEditForm.clean *)
Definition edit_clean (t : GroupTables) (instance : Z) (posted : list Z) : list UserProfile * list EditError :=
  match members_field t instance posted with
  | None => ([], [InvalidMembers])
  | Some [] => ([], [])
  | Some ms =>
      let single := if (length ms =? 1)%nat then [MustHaveTwoMembers] else [] in
      let exists_ :=
        if existsb (fun g => bool_decide (profile_id <$> members g = profile_id <$> ms))
             (groups_with_exact_member_count t instance ms)
        then [EditGroupExists] else [] in
      (ms, single ++ exists_)
  end.

(** src/course/staff_views.py: GroupsEditView lines 119-144.  A group of the instance
    is edited, or a new one is made. *)
Definition groups_edit (t : GroupTables) (instance : Z) (gid : option Z) (posted : list Z)
    : result (list EditError * GroupTables) :=
  let target :=
    match gid with
    | None => Ret None
    | Some i => match find (fun g => (group_instance g =? instance) && (group_id g =? i)) (gt_groups t) with
                | Some g => Ret (Some g)
                | None => Raise Http404
                end
    end in
  let! group := target in
  match edit_clean t instance posted with
  | (ms, []) =>
      Ret ([], match group with
               | Some g => with_groups t ((fun x => if group_id x =? group_id g
                                                    then mkGroup (group_id x) (group_instance x) ms else x) <$> gt_groups t)
               | None => with_groups t (gt_groups t ++ [mkGroup (new_group_id (gt_groups t)) instance ms])
               end)
  | (_, errors) => Ret (errors, t)
  end.

(** src/course/staff_views.py: GroupsDeleteView.  The enrollments that selected the
    group select none. *)
Definition groups_delete (t : GroupTables) (instance : Z) (gid : Z) : result GroupTables :=
  match find (fun g => (group_instance g =? instance) && (group_id g =? gid)) (gt_groups t) with
  | None => Raise Http404
  | Some _ =>
      Ret (mkGroupTables (gt_profiles t) (List.filter (fun g => negb (group_id g =? gid)) (gt_groups t))
             ((fun e => if bool_decide (selected_group e = Some gid)
                        then mkEnrollment (role e) (status e) (from_sis e) None else e) <$> gt_enrollments t)
             (gt_codes t) (gt_drafts t))
  end.

(** ** The group that students form *)

Section GroupsFormTheory.
Context (strip upper : string -> string).
Implicit Types (t : GroupTables) (data : Z -> string).

(** The enrollment of the instance that a member was found by. *)
Definition by_code t instance data (p : UserProfile) : Prop :=
  exists n e, e ∈ gt_codes t /\ ce_instance e = instance /\ ce_profile e = p /\ ce_code e = upper (strip (data n)).

Definition required_fields (min_group_size : Z) (fields : list Z) : list Z :=
  List.filter (fun n => n <=? Z.max min_group_size 2) fields.

Lemma enrollment_of_code_facts codes instance code e :
  enrollment_of_code codes instance code = Some e -> e ∈ codes /\ ce_instance e = instance /\ ce_code e = code.
Proof. intros E. apply find_some in E as [Hin H]. b2p. split_and!; [by apply list_elem_of_In|done|done]. Qed.

Lemma clean_members_facts t instance min_size data fields : forall ms es ms' es',
  foldl (clean_member strip upper t instance min_size data) (ms, es) fields = (ms', es') ->
  NoDup (profile_id <$> ms) ->
  NoDup (profile_id <$> ms') /\
  (exists added, ms' = ms ++ added /\ (forall p, p ∈ added -> by_code t instance data p) /\
     (length added <= length fields)%nat /\
     (es' = [] -> (length (required_fields min_size fields) <= length added)%nat)) /\
  (es' = [] -> es = []).
Proof.
  induction fields as [|n fields IH]; intros ms es ms' es'.
  - intros [= <- <-] Hn. split; [done|]. split; [|done]. exists []. rewrite app_nil_r.
    split_and!; [done|by intros p Hp%elem_of_nil|done|done].
  - cbn [foldl]. unfold clean_member at 2, clean_field.
    assert (Herr : forall x, foldl (clean_member strip upper t instance min_size data) (ms, es ++ [x]) fields = (ms', es') ->
      NoDup (profile_id <$> ms) -> NoDup (profile_id <$> ms') /\
      (exists added, ms' = ms ++ added /\ (forall p, p ∈ added -> by_code t instance data p) /\
        (length added <= length (n :: fields))%nat /\
        (es' = [] -> (length (required_fields min_size (n :: fields)) <= length added)%nat)) /\ (es' = [] -> es = [])).
    { intros x E Hn. destruct (IH _ _ _ _ E Hn) as (H1 & (added & Ha & Hb & Hl & _) & He).
      split; [done|]. split; [|intros Hes; by destruct (app_nil es [x]) as [H _]; destruct (H (He Hes))].
      exists added. split_and!; [done|done|cbn; lia|]. intros Hes. specialize (He Hes). by destruct es. }
    case_bool_decide as Hb; cbn [andb].
    + destruct (n <=? Z.max min_size 2) eqn:Er; [by apply Herr|].
      rewrite bool_decide_eq_true_2 by done. intros E Hn.
      destruct (IH _ _ _ _ E Hn) as (H1 & (added & Ha & Hb' & Hl & Hr) & He).
      split; [done|]. split; [|done]. exists added. split_and!; [done|done|cbn; lia|]. cbn. by rewrite Er.
    + rewrite bool_decide_eq_false_2 by done.
      destruct (enrollment_of_code _ _ _) as [e|] eqn:Ee; [|by apply Herr].
      case_bool_decide as Hin; [by apply Herr|]. intros E Hn.
      apply enrollment_of_code_facts in Ee as (He1 & He2 & He3).
      destruct (IH _ _ _ _ E) as (H1 & (added & -> & Hb' & Hl & Hr) & He).
      { rewrite fmap_app. by apply NoDup_snoc. }
      split; [done|]. split; [|done]. exists (ce_profile e :: added). rewrite <- app_assoc.
      split_and!; [done| |cbn; lia|].
      * intros p [->|Hp]%elem_of_cons; [by exists n, e|by apply Hb'].
      * intros Hes. specialize (Hr Hes). unfold required_fields in *. cbn [List.filter].
        destruct (n <=? _); cbn [length]; lia.
Qed.

Lemma required_length min_size max_size :
  1 <= max_size ->
  Z.of_nat (length (required_fields min_size (group_fields max_size))) = Z.min (Z.max min_size 2) max_size - 1.
Proof.
  intros Hmax. unfold group_fields, required_fields. set (m := Z.max min_size 2).
  assert (Hm : 2 <= m) by lia. clearbody m.
  assert (H : forall k, Z.of_nat (length (List.filter (fun n => n <=? m) ((fun n => 2 + Z.of_nat n) <$> seq 0 k)))
                        = Z.min (m - 1) (Z.of_nat k)).
  { induction k as [|k IH]; [cbn; lia|]. rewrite seq_S, fmap_app, List.filter_app, length_app, Nat2Z.inj_add, IH.
    change (0 + k)%nat with k. cbn [fmap list_fmap List.filter].
    destruct (Z.leb_spec (2 + Z.of_nat k) m); cbn [length]; lia. }
  rewrite H. lia.
Qed.

Lemma group_fields_length max_size : length (group_fields max_size) = Z.to_nat (max_size - 1).
Proof. unfold group_fields. by rewrite length_fmap, length_seq. Qed.

Lemma get_exact_from_none gs ms : get_exact_from gs ms = None -> forall g, g ∈ gs -> profile_set (members g) <> profile_set ms.
Proof.
  induction gs as [|g gs IH]; [by intros _ g Hg%elem_of_nil|]. cbn. unfold group_equals.
  case_bool_decide as Hb; [done|]. intros E x [->|Hx]%elem_of_cons; [done|by apply IH].
Qed.

(** No group of the instance has exactly these members. *)
Lemma get_exact_none gs instance p ms :
  get_exact gs instance (p :: ms) = Ret None ->
  forall g, g ∈ gs -> group_instance g = instance -> profile_set (members g) <> profile_set (p :: ms).
Proof.
  cbn [get_exact]. intros [= E] g Hg Hi Hs. eapply get_exact_from_none; [exact E| |exact Hs].
  apply list_elem_of_filter. split; [|done]. split; [done|]. rewrite Hs. unfold profile_set. cbn. set_solver.
Qed.

Lemma groups_clean_inv t instance profile min_size max_size data ms :
  groups_clean strip upper t instance profile min_size max_size data = (ms, []) ->
  exists others, ms = profile :: others /\ (forall p, p ∈ others -> by_code t instance data p) /\
    NoDup (profile_id <$> ms) /\
    (length (required_fields min_size (group_fields max_size)) <= length others <= Z.to_nat (max_size - 1))%nat /\
    (others = [] \/ get_exact (gt_groups t) instance ms = Ret None).
Proof.
  unfold groups_clean. destruct (foldl _ _ _) as [ms0 es] eqn:E.
  destruct (clean_members_facts _ _ _ _ _ _ _ _ _ E (NoDup_singleton _)) as (Hn & (added & Ha & Hb & Hl & Hr) & _).
  destruct es; [|done]. specialize (Hr eq_refl). rewrite group_fields_length in Hl. cbn [app] in Ha. subst ms0.
  assert (Hms : forall m, (profile :: added, ([] : list GroupError)) = (m, []) -> m = profile :: added) by (by intros m [= <-]).
  destruct (Nat.ltb_spec 1 (length (profile :: added))) as [Hlt|Hge].
  - destruct (get_exact _ _ _) as [[|]|] eqn:Ex; [done| |done]. intros Em. rewrite (Hms _ Em).
    exists added. split_and!; auto.
  - intros Em. rewrite (Hms _ Em). exists added. destruct added; [|cbn in Hge; lia]. split_and!; auto.
Qed.

(** The members of a group with at least two are new to the instance. *)
Lemma groups_clean_new t instance profile min_size max_size data ms :
  2 <= max_size -> groups_clean strip upper t instance profile min_size max_size data = (ms, []) ->
  forall g, g ∈ gt_groups t -> group_instance g = instance -> profile_set (members g) <> profile_set ms.
Proof.
  intros Hmax E. destruct (groups_clean_inv _ _ _ _ _ _ _ E) as (others & -> & _ & _ & Hl & Hx).
  pose proof (required_length min_size max_size ltac:(lia)) as Hq.
  destruct Hx as [->|Hx]; [cbn in Hl; lia|]. by apply get_exact_none.
Qed.

(** The group that students form.  When the form is accepted on a course with
    groups of [max_group_size], the group begins with the student who makes it, the
    others are different profiles that the instance has enrollments with the given
    codes for, there are at least as many members as the smallest size asks for and
    at most [max_group_size], and no group of the instance had these members. *)
Theorem formed_group_ok t instance profile min_size max_size data ms :
  1 <= max_size ->
  groups_clean strip upper t instance profile min_size max_size data = (ms, []) ->
  (exists others, ms = profile :: others /\ forall p, p ∈ others -> by_code t instance data p) /\
  NoDup (profile_id <$> ms) /\
  Z.min (Z.max min_size 2) max_size <= Z.of_nat (length ms) <= max_size /\
  (2 <= max_size -> forall g, g ∈ gt_groups t -> group_instance g = instance -> profile_set (members g) <> profile_set ms).
Proof.
  intros Hmax E. destruct (groups_clean_inv _ _ _ _ _ _ _ E) as (others & -> & Hb & Hn & Hl & _).
  pose proof (required_length min_size max_size Hmax) as Hq.
  split; [eauto|]. split; [done|]. split; [cbn; lia|]. intros H2. by apply (groups_clean_new _ _ _ _ _ _ _ H2 E).
Qed.
End GroupsFormTheory.

(** ** Groups stay distinct *)

Record groups_ok (t : GroupTables) : Prop := {
  gok_profiles : StronglySorted Z.lt (profile_id <$> gt_profiles t);
  gok_ids : NoDup (group_id <$> gt_groups t);
  gok_sorted : forall g, g ∈ gt_groups t -> StronglySorted Z.lt (profile_id <$> members g);
  gok_distinct : forall g1 g2, g1 ∈ gt_groups t -> g2 ∈ gt_groups t -> group_instance g1 = group_instance g2 ->
    profile_set (members g1) = profile_set (members g2) -> group_id g1 = group_id g2;
}.

Lemma elem_of_profile_set i ps : i ∈ profile_set ps <-> i ∈ profile_id <$> ps.
Proof. unfold profile_set. by rewrite elem_of_list_to_set. Qed.

Lemma by_id_sorted ps : NoDup (profile_id <$> ps) -> StronglySorted Z.lt (profile_id <$> by_id ps).
Proof.
  intros Hn. unfold by_id.
  assert (Htot : Total id_le) by (intros p q; unfold id_le; lia).
  assert (Htr : Transitive id_le) by (intros p q r; unfold id_le; lia).
  apply sorted_le_lt; [apply StronglySorted_fmap, (StronglySorted_merge_sort id_le)|].
  by rewrite merge_sort_Permutation.
Qed.

Lemma by_id_set ps : profile_set (by_id ps) = profile_set ps.
Proof.
  apply set_eq. intros x. rewrite !elem_of_profile_set. unfold by_id. by rewrite merge_sort_Permutation.
Qed.

(** A new group whose members no group of the instance has. *)
Lemma add_group_ok t instance ms :
  groups_ok t -> StronglySorted Z.lt (profile_id <$> ms) ->
  (forall g, g ∈ gt_groups t -> group_instance g = instance -> profile_set (members g) <> profile_set ms) ->
  groups_ok (with_groups t (gt_groups t ++ [mkGroup (new_group_id (gt_groups t)) instance ms])).
Proof.
  intros [Hp Hi Hs Hd] Hms Hnew. split; cbn; [done|..].
  - rewrite fmap_app. apply NoDup_snoc; [done|]. cbn. apply fresh_id.
  - intros g [Hg| ->%list_elem_of_singleton]%elem_of_app; [by apply Hs|done].
  - intros g1 g2 [H1| ->%list_elem_of_singleton]%elem_of_app [H2| ->%list_elem_of_singleton]%elem_of_app; cbn;
      intros Hin Hset; [by apply Hd| | |done]; exfalso; [by apply (Hnew g1)|by apply (Hnew g2)].
Qed.

(** A group gets members that no group of the instance has. *)
Lemma replace_group_ok t instance gid ms :
  groups_ok t -> StronglySorted Z.lt (profile_id <$> ms) ->
  (forall g, g ∈ gt_groups t -> group_id g = gid -> group_instance g = instance) ->
  (forall g, g ∈ gt_groups t -> group_instance g = instance -> profile_set (members g) <> profile_set ms) ->
  groups_ok (with_groups t ((fun x => if group_id x =? gid then mkGroup (group_id x) (group_instance x) ms else x)
                              <$> gt_groups t)).
Proof.
  intros [Hp Hi Hs Hd] Hms Hg Hnew.
  assert (Hl : forall x, x ∈ ((fun x => if group_id x =? gid then mkGroup (group_id x) (group_instance x) ms else x)
                              <$> gt_groups t) ->
    exists x0, x0 ∈ gt_groups t /\ group_id x = group_id x0 /\ group_instance x = group_instance x0 /\
      ((group_id x0 = gid /\ members x = ms) \/ (group_id x0 <> gid /\ x = x0))).
  { intros x (x0 & -> & Hx)%list_elem_of_fmap. exists x0. destruct (Z.eqb_spec (group_id x0) gid); split_and!; auto. }
  split; cbn [gt_profiles gt_groups with_groups]; [done|..].
  - by rewrite (update_ids group_id gid (fun x => mkGroup (group_id x) (group_instance x) ms)).
  - intros g Hg'. destruct (Hl g Hg') as (x0 & Hx & _ & _ & [[_ ->]|[_ ->]]); [done|by apply Hs].
  - intros g1 g2 H1 H2 Hin Hset. destruct (Hl g1 H1) as (x1 & Hx1 & E1 & I1 & C1), (Hl g2 H2) as (x2 & Hx2 & E2 & I2 & C2).
    destruct C1 as [[C1 M1]|[C1 ->]], C2 as [[C2 M2]|[C2 ->]]; [congruence|exfalso|exfalso|by apply Hd].
    + apply (Hnew x2 Hx2); [rewrite <- Hin, I1; by apply Hg|congruence].
    + apply (Hnew x1 Hx1); [rewrite Hin, I2; by apply Hg|congruence].
Qed.

Lemma drop_group_ok t gid db drafts :
  groups_ok t ->
  groups_ok (mkGroupTables (gt_profiles t) (List.filter (fun g => negb (group_id g =? gid)) (gt_groups t)) db
               (gt_codes t) drafts).
Proof.
  intros [Hp Hi Hs Hd].
  assert (Hl : forall g, g ∈ List.filter (fun g => negb (group_id g =? gid)) (gt_groups t) -> g ∈ gt_groups t).
  { intros g Hg. apply list_elem_of_In, filter_In in Hg as [Hg _]. by apply list_elem_of_In. }
  split; cbn; [done|by apply filter_ids|by auto|by auto].
Qed.

(** The choice of the staff is in the order of the ids. *)
Lemma members_field_sorted t instance posted ms :
  groups_ok t -> members_field t instance posted = Some ms -> StronglySorted Z.lt (profile_id <$> ms).
Proof.
  intros Hok. unfold members_field. destruct posted; [done|]. case_match; [|done]. intros [= <-].
  apply StronglySorted_fmap, StronglySorted_filter, StronglySorted_filter. by apply StronglySorted_fmap, Hok.
Qed.

(** The count and the comparison of the lists find every group with these members. *)
Lemma edit_clean_ok t instance posted ms :
  groups_ok t -> edit_clean t instance posted = (ms, []) ->
  members_field t instance posted = Some ms /\
  (ms <> [] -> forall g, g ∈ gt_groups t -> group_instance g = instance -> profile_set (members g) <> profile_set ms).
Proof.
  intros Hok. unfold edit_clean. destruct (members_field t instance posted) as [[|p l]|] eqn:E; [| |done].
  - intros [= <-]. done.
  - set (ms0 := p :: l) in *. destruct (existsb _ _) eqn:Ex; [by case_match|].
    intros H. assert (ms = ms0) as -> by (by injection H as ->). split; [done|]. intros _ g Hg Hi Hset.
    assert (Hids : profile_id <$> members g = profile_id <$> ms0).
    { apply sorted_lt_ext; [by apply Hok|by eapply members_field_sorted|]. intros x.
      by rewrite <- !elem_of_profile_set, Hset. }
    apply not_true_iff_false in Ex. apply Ex. apply existsb_exists. exists g. rewrite bool_decide_eq_true_2 by done.
    split; [|done]. apply filter_In. split; [by apply list_elem_of_In|].
    cbv zeta. rewrite (filter_true _ (members g)).
    + rewrite <- (length_fmap profile_id (members g)), Hids, length_fmap, Hi, Z.eqb_refl, Nat.eqb_refl. done.
    + intros x Hx. apply bool_decide_eq_true_2. rewrite <- Hids. by apply list_elem_of_fmap_2.
Qed.

Lemma members_field_nonempty t instance posted : members_field t instance posted <> Some [].
Proof.
  unfold members_field. destruct posted as [|i posted]; [done|]. cbn [forallb].
  case_bool_decide as Hi; [|done]. cbn [andb]. case_match; [|done]. intros [= E].
  apply list_elem_of_fmap in Hi as (p & -> & Hp).
  assert (Hin : In p (List.filter (fun p0 => bool_decide (profile_id p0 ∈ profile_id p :: posted)) (active_students t instance))).
  { apply filter_In. split; [by apply list_elem_of_In|]. apply bool_decide_eq_true_2. by left. }
  by rewrite E in Hin.
Qed.

(** Requests about groups. *)
Inductive GroupRequest :=
| FormGroup (instance : Z) (profile : UserProfile) (min_size max_size : Z) (data : Z -> string)
| EditGroup (instance : Z) (gid : option Z) (posted : list Z)
| DeleteGroup (instance : Z) (gid : Z)
| SelectGroup (instance : Z) (profile : UserProfile) (group : option Z).

Section Requests.
Context (strip upper : string -> string).

(** src/course/views.py: GroupSelect lines 325-347 *)
Definition group_select (t : GroupTables) (instance : Z) (profile : UserProfile) (group : option Z) : result GroupTables :=
  match select_clean t instance profile group with
  | None => Ret t
  | Some g => select_save t instance profile g
  end.

Definition handle (r : GroupRequest) (t : GroupTables) : result GroupTables :=
  match r with
  | FormGroup instance profile min_size max_size data =>
      Ret (groups_view strip upper t instance profile min_size max_size data).2
  | EditGroup instance gid posted => let! res := groups_edit t instance gid posted in Ret res.2
  | DeleteGroup instance gid => groups_delete t instance gid
  | SelectGroup instance profile group => group_select t instance profile group
  end.

(** Requests on courses whose exercises allow groups. *)
Definition group_step (t t' : GroupTables) : Prop :=
  exists r, handle r t = Ret t' /\
    match r with FormGroup _ _ _ max_size _ => 2 <= max_size | _ => True end.
End Requests.

Lemma groups_edit_ok t instance gid posted errors t' :
  groups_ok t -> groups_edit t instance gid posted = Ret (errors, t') -> groups_ok t'.
Proof.
  intros Hok. unfold groups_edit.
  destruct (edit_clean t instance posted) as [ms es] eqn:Ec.
  destruct es as [|x es]; [|by intros H; destruct gid; [case_match|]; cbn in H; try done; injection H as <- <-].
  destruct (edit_clean_ok t instance posted ms Hok Ec) as [Hf Hnew].
  pose proof (members_field_sorted t instance posted ms Hok Hf) as Hs.
  assert (Hne : ms <> []) by (intros ->; by apply (members_field_nonempty t instance posted)).
  destruct gid as [i|]; [|intros [= <- <-]; by apply add_group_ok; auto].
  destruct (find _ (gt_groups t)) as [g|] eqn:Eg; [|done]. intros [= <- <-].
  apply find_some in Eg as [Hg H]. b2p. apply (replace_group_ok t instance); auto.
  intros g' Hg' E. assert (g' = g) as -> by (apply (key_inj group_id (gt_groups t)); [apply Hok|done|by apply list_elem_of_In|done]).
  done.
Qed.

(** Groups stay distinct.  However students form and select groups and the staff
    edits and deletes them: no two groups of an instance have the same members. *)
Theorem groups_stay_distinct strip upper t t' :
  groups_ok t -> rtc (group_step strip upper) t t' -> groups_ok t'.
Proof.
  intros Hok Hr. induction Hr as [|t t1 t2 Hs _ IH]; [done|]. apply IH. clear IH.
  destruct Hs as (r & E & Hmax). destruct r as [instance profile min_size max_size data|instance gid posted
    |instance gid|instance profile group]; cbn in E.
  - injection E as <-. unfold groups_view. destruct (groups_clean _ _ _ _ _ _ _ _) as [ms [|]] eqn:Ec; [|done]. cbn.
    destruct (groups_clean_inv _ _ _ _ _ _ _ _ _ Ec) as (others & _ & _ & Hn & _).
    apply add_group_ok; [done|by apply by_id_sorted|]. rewrite by_id_set. by apply (groups_clean_new _ _ _ _ _ _ _ _ _ Hmax Ec).
  - destruct (groups_edit _ _ _ _) as [[errors t']|] eqn:Ee; [|done]. injection E as <-. by eapply groups_edit_ok.
  - unfold groups_delete in E. case_match; [|done]. injection E as <-. by apply drop_group_ok.
  - unfold group_select, select_save in E. destruct (select_clean _ _ _ _); [|by injection E as <-].
    case_match; [|done]. injection E as <-. destruct Hok. by split.
Qed.

(** ** The groups in the menu *)

(** src/course/cache/menu.py: CachedTopMenu._generate_groups lines 67-72 *)
Record GroupEntry := mkGroupEntry { ge_id : Z; ge_size : Z; ge_collaborators : string }.

(** src/course/renders.py: group_info_context *)
Inductive GroupInfo := NoGroup | SubmitsWith (id : Z) (collaborators : string).

Section Menu.
(** [get_full_name] of a profile's user. *)
Context (full_name : UserProfile -> string).

(** src/course/models.py: StudentGroup.format_collaborator_names *)
Definition collaborator_names (g : StudentGroup) (profile : UserProfile) : string :=
  join ", " (full_name <$> filter_collaborators_of (members g) profile).

Definition group_entry (profile : UserProfile) (g : StudentGroup) : GroupEntry :=
  mkGroupEntry (group_id g) (Z.of_nat (length (members g))) (collaborator_names g profile).

Definition group_info_context (group : option StudentGroup) (profile : UserProfile) : GroupInfo :=
  match group with
  | None => NoGroup
  | Some g => SubmitsWith (group_id g) (collaborator_names g profile)
  end.

Definition own_groups (t : GroupTables) (profile : UserProfile) (instance : Z) : list StudentGroup :=
  List.filter (fun g => bool_decide (profile_id profile ∈ profile_set (members g)) && (group_instance g =? instance))
    (gt_groups t).

Definition selected (t : GroupTables) (e : Enrollment) : option StudentGroup :=
  selected_group e ≫= fun gid => find (fun g => group_id g =? gid) (gt_groups t).

Definition menu_groups (t : GroupTables) (profile : UserProfile) (instance : Z) (e : Enrollment)
    : list GroupEntry * GroupInfo :=
  (group_entry profile <$> own_groups t profile instance, group_info_context (selected t e) profile).

(** src/course/cache/menu.py: CachedTopMenu._generate_groups *)
Definition generate_groups (t : GroupTables) (profile : option UserProfile) : gmap Z (list GroupEntry * GroupInfo) :=
  match profile with
  | None => ∅
  | Some p =>
      list_to_map ((fun ke : (Z * Z) * Enrollment => (ke.1.1, menu_groups t p ke.1.1 ke.2)) <$>
        List.filter (fun ke => (ke.1.2 =? profile_id p) && bool_decide (status ke.2 = EnrollmentStatus.ACTIVE))
          (map_to_list (gt_enrollments t)))
  end.

(** src/course/cache/menu.py: CachedTopMenu.groups *)
Definition topmenu_groups (data : gmap Z (list GroupEntry * GroupInfo)) (instance : Z) : list GroupEntry * option GroupInfo :=
  match data !! instance with
  | Some (l, info) => (l, Some info)
  | None => ([], None)
  end.

Lemma generate_groups_lookup t p i :
  generate_groups t (Some p) !! i =
  match gt_enrollments t !! (i, profile_id p) with
  | Some e => if bool_decide (status e = EnrollmentStatus.ACTIVE) then Some (menu_groups t p i e) else None
  | None => None
  end.
Proof.
  cbn [generate_groups]. set (l := List.filter _ _).
  assert (Hl : forall ke, ke ∈ l <-> gt_enrollments t !! ke.1 = Some ke.2 /\ ke.1.2 = profile_id p /\
                                     status ke.2 = EnrollmentStatus.ACTIVE).
  { intros [k e]. unfold l. rewrite list_elem_of_In, filter_In, <- list_elem_of_In, elem_of_map_to_list.
    cbn. rewrite andb_true_iff, Z.eqb_eq, bool_decide_eq_true. done. }
  assert (Hn : NoDup ((fun ke : (Z * Z) * Enrollment => (ke.1.1, menu_groups t p ke.1.1 ke.2)) <$> l).*1).
  { rewrite <- list_fmap_compose. apply NoDup_fmap_2_strong.
    - intros [[i1 p1] e1] [[i2 p2] e2] (H1 & P1 & _)%Hl (H2 & P2 & _)%Hl. cbn in *. intros ->. subst. congruence.
    - apply NoDup_ListNoDup, List.NoDup_filter, NoDup_ListNoDup, NoDup_map_to_list. }
  destruct (gt_enrollments t !! (i, profile_id p)) as [e|] eqn:E; [case_bool_decide as Ha|].
  - apply elem_of_list_to_map_1; [done|]. apply list_elem_of_fmap. exists ((i, profile_id p), e). split; [done|].
    by apply Hl.
  - apply not_elem_of_list_to_map_1. intros (? & -> & ([[i' p'] e'] & -> & Hin)%list_elem_of_fmap)%list_elem_of_fmap.
    apply Hl in Hin as (H1 & H2 & H3). cbn in *. subst. congruence.
  - apply not_elem_of_list_to_map_1. intros (? & -> & ([[i' p'] e'] & -> & Hin)%list_elem_of_fmap)%list_elem_of_fmap.
    apply Hl in Hin as (H1 & H2 & H3). cbn in *. subst. congruence.
Qed.

(** ** Invalidation of the menus *)

Definition outside (ps qs : list UserProfile) : list UserProfile :=
  List.filter (fun p => negb (bool_decide (profile_id p ∈ profile_id <$> qs))) ps.
Definition inside (ps qs : list UserProfile) : list UserProfile :=
  List.filter (fun p => bool_decide (profile_id p ∈ profile_id <$> qs)) ps.

(** src/course/cache/menu.py: invalidate_members.  [members.set] removes and adds what
    differs; the members before and after each of the two are invalidated. *)
Definition set_invalidates (old new : list UserProfile) : list Z :=
  match outside old new with
  | [] => []
  | _ => profile_id <$> old ++ inside old new
  end ++
  match outside new old with
  | [] => []
  | _ => profile_id <$> inside old new ++ new
  end.

(** src/course/cache/menu.py: invalidate_content.  A selection saves the enrollment of
    the profile. *)
Definition save_invalidates (profile : UserProfile) : list Z := [profile_id profile].

(** The profiles whose menus a request invalidates.  Deleting a group sends none of
    the signals. *)
Definition menus_invalidated (strip upper : string -> string) (r : GroupRequest) (t : GroupTables) : list Z :=
  match r with
  | FormGroup instance profile min_size max_size data =>
      match groups_clean strip upper t instance profile min_size max_size data with
      | (ms, []) => set_invalidates [] ms
      | _ => []
      end
  | EditGroup instance gid posted =>
      match edit_clean t instance posted with
      | (ms, []) =>
          match gid ≫= fun i => find (fun g => (group_instance g =? instance) && (group_id g =? i)) (gt_groups t) with
          | Some g => set_invalidates (members g) ms
          | None => set_invalidates [] ms
          end
      | _ => []
      end
  | DeleteGroup _ _ => []
  | SelectGroup instance profile group =>
      match select_clean t instance profile group with
      | Some _ => save_invalidates profile
      | None => []
      end
  end.

(** Everyone who selected a group is a member of it. *)
Definition selections_ok (t : GroupTables) : Prop :=
  forall i pid e gid, gt_enrollments t !! (i, pid) = Some e -> selected_group e = Some gid ->
  exists g, g ∈ gt_groups t /\ group_id g = gid /\ pid ∈ profile_set (members g).

Lemma set_invalidates_new p ms : profile_id p ∈ profile_id <$> ms -> profile_id p ∈ set_invalidates [] ms.
Proof.
  intros Hp. unfold set_invalidates. cbn [outside inside List.filter app].
  assert (E : outside ms [] = ms) by (apply filter_true; intros x _; by apply negb_true_iff, bool_decide_eq_false_2, not_elem_of_nil).
  rewrite E. by destruct ms.
Qed.

(** The menu of a profile depends on the groups it is a member of or has selected. *)
Lemma menu_unchanged t t' p :
  gt_enrollments t' = gt_enrollments t ->
  (forall i, own_groups t' p i = own_groups t p i) ->
  (forall i e, gt_enrollments t !! (i, profile_id p) = Some e -> selected t' e = selected t e) ->
  generate_groups t' (Some p) = generate_groups t (Some p).
Proof.
  intros He Hm Hs. apply map_eq. intros i. rewrite !generate_groups_lookup, He.
  destruct (gt_enrollments t !! _) as [e|] eqn:E; [|done]. unfold menu_groups. by rewrite Hm, (Hs i e E).
Qed.

Lemma find_app {A} (f : A -> bool) (l1 l2 : list A) :
  find f (l1 ++ l2) = match find f l1 with Some x => Some x | None => find f l2 end.
Proof. induction l1 as [|x l IH]; cbn; [done|]. by destruct (f x). Qed.

Lemma find_none_key {A} (key : A -> Z) (k : Z) (l : list A) x : x ∈ l -> key x = k -> find (fun y => key y =? k) l <> None.
Proof.
  intros Hx Hk E. apply list_elem_of_In in Hx. pose proof (find_none _ _ E x Hx) as H. cbn in H. by b2p.
Qed.

(** A new group changes the menus of its members only. *)
Lemma add_group_menu t instance ms p :
  selections_ok t -> profile_id p ∉ profile_id <$> ms ->
  generate_groups (with_groups t (gt_groups t ++ [mkGroup (new_group_id (gt_groups t)) instance ms])) (Some p)
  = generate_groups t (Some p).
Proof.
  intros Hsel Hp. apply menu_unchanged; [done| |].
  - intros i. unfold own_groups. cbn [gt_groups with_groups]. rewrite List.filter_app. cbn [List.filter members].
    rewrite bool_decide_eq_false_2 by (by rewrite elem_of_profile_set). cbn [andb]. apply app_nil_r.
  - intros i e He. unfold selected. destruct (selected_group e) as [gid|] eqn:Eg; [|done]. cbn.
    rewrite find_app. destruct (find _ (gt_groups t)) eqn:Ef; [done|]. exfalso.
    destruct (Hsel i _ e gid He Eg) as (g & Hg & Hid & _). by apply (find_none_key group_id gid (gt_groups t) g).
Qed.

(** Other members change the menus of the old and the new members only. *)
Lemma replace_group_menu t g ms p :
  groups_ok t -> selections_ok t -> g ∈ gt_groups t ->
  profile_id p ∉ profile_id <$> members g -> profile_id p ∉ profile_id <$> ms ->
  generate_groups (with_groups t ((fun x => if group_id x =? group_id g
                      then mkGroup (group_id x) (group_instance x) ms else x) <$> gt_groups t)) (Some p)
  = generate_groups t (Some p).
Proof.
  intros Hok Hsel Hg Hold Hnew.
  assert (Hone : forall x, x ∈ gt_groups t -> group_id x = group_id g -> x = g).
  { intros x Hx E. apply (key_inj group_id (gt_groups t)); [apply Hok|done..]. }
  apply menu_unchanged; [done| |].
  - intros i. unfold own_groups. cbn [gt_groups with_groups].
    clear Hg. induction (gt_groups t) as [|x l IH]; [done|]. cbn [fmap list_fmap List.filter].
    rewrite IH by (intros y Hy; apply Hone; by right).
    destruct (Z.eqb_spec (group_id x) (group_id g)) as [E|E]; [|done].
    rewrite (Hone x) by (done || by left). cbn [members].
    by rewrite !bool_decide_eq_false_2 by (by rewrite elem_of_profile_set).
  - intros i e He. unfold selected. destruct (selected_group e) as [gid|] eqn:Eg; [|done]. cbn.
    destruct (Hsel i _ e gid He Eg) as (g' & Hg' & Hid & Hmem).
    assert (Hne : gid <> group_id g).
    { intros ->. rewrite (Hone g' Hg' Hid) in Hmem. by apply elem_of_profile_set in Hmem. }
    clear -Hne. induction (gt_groups t) as [|x l IH]; [done|]. cbn.
    destruct (Z.eqb_spec (group_id x) (group_id g)) as [E|E]; cbn; rewrite IH; [|done].
    rewrite E. by destruct (Z.eqb_spec (group_id g) gid).
Qed.

Lemma outside_nil ps qs : outside ps qs = [] -> forall x, x ∈ profile_id <$> ps -> x ∈ profile_id <$> qs.
Proof.
  intros E x (p & -> & Hp)%list_elem_of_fmap. destruct (decide (profile_id p ∈ profile_id <$> qs)) as [|Hn]; [done|].
  assert (Hin : In p (outside ps qs)).
  { apply filter_In. split; [by apply list_elem_of_In|]. by rewrite bool_decide_eq_false_2. }
  by rewrite E in Hin.
Qed.

Lemma elem_of_inside ps qs x :
  x ∈ profile_id <$> ps -> x ∈ profile_id <$> qs -> x ∈ profile_id <$> inside ps qs.
Proof.
  intros (p & -> & Hp)%list_elem_of_fmap Hq. apply list_elem_of_fmap_2, list_elem_of_In, filter_In.
  split; [by apply list_elem_of_In|]. by apply bool_decide_eq_true_2.
Qed.

(** When the members change, the old and the new ones are invalidated. *)
Lemma set_invalidates_all old new x :
  profile_set old <> profile_set new -> x ∈ profile_id <$> old \/ x ∈ profile_id <$> new ->
  x ∈ set_invalidates old new.
Proof.
  intros Hne Hx. unfold set_invalidates. apply elem_of_app.
  destruct (outside old new) as [|a l] eqn:E1, (outside new old) as [|b l'] eqn:E2; rewrite ?fmap_app, ?elem_of_app.
  - destruct Hne. apply set_eq. intros y. rewrite !elem_of_profile_set.
    split; [by apply outside_nil|by apply outside_nil].
  - right. pose proof (outside_nil _ _ E1 x) as H1. destruct Hx as [Hx|Hx]; [left; apply elem_of_inside; auto|by right].
  - left. left. pose proof (outside_nil _ _ E2 x) as H2. destruct Hx as [Hx|Hx]; auto.
  - destruct Hx as [Hx|Hx]; [left; by left|right; by right].
Qed.

Lemma form_group_menu strip upper instance profile min_size max_size data t p :
  selections_ok t ->
  profile_id p ∉ menus_invalidated strip upper (FormGroup instance profile min_size max_size data) t ->
  generate_groups (groups_view strip upper t instance profile min_size max_size data).2 (Some p)
  = generate_groups t (Some p).
Proof.
  intros Hsel. cbn. unfold groups_view. destruct (groups_clean _ _ _ _ _ _ _ _) as [ms [|]]; [|done]. cbn.
  intros Hp. apply add_group_menu; [done|]. intros Hin. apply Hp, set_invalidates_new.
  unfold by_id in Hin. by rewrite merge_sort_Permutation in Hin.
Qed.

Lemma edit_group_menu strip upper instance gid posted errors t t' p :
  groups_ok t -> selections_ok t -> groups_edit t instance gid posted = Ret (errors, t') ->
  profile_id p ∉ menus_invalidated strip upper (EditGroup instance gid posted) t ->
  generate_groups t' (Some p) = generate_groups t (Some p).
Proof.
  intros Hok Hsel. cbn. unfold groups_edit. destruct (edit_clean t instance posted) as [ms es] eqn:Ec.
  destruct es as [|x es]; [|by destruct gid; [case_match|]; cbn; try done; intros [= <- <-]].
  destruct (edit_clean_ok t instance posted ms Hok Ec) as [Hf Hnew].
  assert (Hne : ms <> []) by (intros ->; by apply (members_field_nonempty t instance posted)).
  destruct gid as [i|]; cbn.
  - destruct (find _ (gt_groups t)) as [g|] eqn:Eg; [|done]. intros [= <- <-] Hp.
    apply find_some in Eg as [Hg H]. b2p. apply list_elem_of_In in Hg.
    assert (Hset : profile_set (members g) <> profile_set ms) by (by apply Hnew).
    apply replace_group_menu; try done; intros Hin; apply Hp, set_invalidates_all; auto.
  - intros [= <- <-] Hp. apply add_group_menu; [done|]. intros Hin. by apply Hp, set_invalidates_new.
Qed.

Lemma select_group_menu strip upper instance profile group t t' p :
  group_select t instance profile group = Ret t' ->
  profile_id p ∉ menus_invalidated strip upper (SelectGroup instance profile group) t ->
  generate_groups t' (Some p) = generate_groups t (Some p).
Proof.
  unfold group_select, menus_invalidated. destruct (select_clean _ _ _ _) as [g|]; [|by intros [= <-]].
  unfold select_save. destruct (gt_enrollments t !! _) as [e|]; [|done]. intros [= <-] Hp.
  apply map_eq. intros i. rewrite !generate_groups_lookup. cbn [gt_enrollments].
  rewrite lookup_insert_ne; [done|]. intros [= _ E]. apply Hp. rewrite <- E. by left.
Qed.

(** The menus follow the groups.  When students form and select groups and the
    staff edits them, every profile whose groups in the menu change has the menu
    invalidated, as long as everyone who selected a group is a member of it. *)
Theorem menus_follow_groups strip upper r t t' p :
  groups_ok t -> selections_ok t -> (forall i gid, r <> DeleteGroup i gid) ->
  handle strip upper r t = Ret t' ->
  generate_groups t' (Some p) <> generate_groups t (Some p) ->
  profile_id p ∈ menus_invalidated strip upper r t.
Proof.
  intros Hok Hsel Hdel E Hch. destruct (decide (profile_id p ∈ menus_invalidated strip upper r t)) as [|Hn]; [done|].
  destruct Hch. destruct r as [instance profile min_size max_size data|instance gid posted|instance gid|instance profile group].
  - injection E as <-. by apply form_group_menu.
  - cbn in E. destruct (groups_edit t instance gid posted) as [[errors t1]|] eqn:Ee; [|done]. injection E as <-.
    by apply (edit_group_menu strip upper instance gid posted errors).
  - by destruct (Hdel instance gid).
  - by apply (select_group_menu strip upper instance profile group).
Qed.
End Menu.

(** ** Examples *)

Module Sample.
Definition student (i : Z) : UserProfile := example_student i.
Definition course : Z := instance_id example_instance.
Definition row (st : EnrollmentStatus.t) (group : option Z) : Enrollment :=
  mkEnrollment EnrollmentRole.STUDENT st false group.

(** Students 1, 2 and 3 with the codes A1, B2 and C3; the third is banned. *)
Definition tables (gs : list StudentGroup) (selection : option Z) : GroupTables :=
  mkGroupTables [student 1; student 2; student 3] gs
    (<[(course, 1) := row EnrollmentStatus.ACTIVE selection]>
       (<[(course, 2) := row EnrollmentStatus.ACTIVE selection]>
          (<[(course, 3) := row EnrollmentStatus.BANNED None]> ∅)))
    [mkCodeEntry course "A1" (student 1); mkCodeEntry course "B2" (student 2); mkCodeEntry course "C3" (student 3)] [].
Definition pair_group : StudentGroup := mkGroup 1 course [student 1; student 2].
Definition same (s : string) : string := s.
Definition type_code (s : string) (n : Z) : string := if n =? 2 then s else ""%string.
Definition name (p : UserProfile) : string := default ""%string (student_id p).

Definition form (t : GroupTables) (code : string) := groups_clean same same t course (student 1) 1 3 (type_code code).

Lemma formed_group_ok_witness :
  form (tables [] None) "B2" = ([student 1; student 2], []) /\
  NoDup (profile_id <$> [student 1; student 2]).
Proof.
  assert (E : form (tables [] None) "B2" = ([student 1; student 2], [])) by (vm_compute; reflexivity).
  split; [exact E|].
  exact (proj1 (proj2 (formed_group_ok same same (tables [] None) course (student 1) 1 3 (type_code "B2")
    [student 1; student 2] ltac:(lia) E))).
Defined.

Lemma sample_tables_ok : groups_ok (tables [pair_group] (Some 1)).
Proof.
  split; cbn.
  - repeat constructor.
  - apply NoDup_singleton.
  - intros g ->%list_elem_of_singleton. repeat constructor.
  - by intros g1 g2 ->%list_elem_of_singleton ->%list_elem_of_singleton.
Qed.

(** The group is deleted and formed again. *)
Lemma groups_stay_distinct_witness :
  exists t', rtc (group_step same same) (tables [pair_group] (Some 1)) t' /\ gt_groups t' = [pair_group] /\ groups_ok t'.
Proof.
  assert (Hr : rtc (group_step same same) (tables [pair_group] (Some 1)) (tables [pair_group] None)).
  { eapply rtc_l; [|eapply rtc_l; [|apply rtc_refl]].
    - exists (DeleteGroup course 1). split; [vm_compute; reflexivity|exact I].
    - exists (FormGroup course (student 1) 1 3 (type_code "B2")). split; [vm_compute; reflexivity|]. cbv. discriminate. }
  exists (tables [pair_group] None). split; [exact Hr|]. split; [reflexivity|].
  exact (groups_stay_distinct same same _ _ sample_tables_ok Hr).
Defined.

Lemma selections_hold : selections_ok (tables [pair_group] (Some 1)).
Proof.
  intros i pid e gid He Hg. exists pair_group. split; [by left|]. cbn [tables gt_enrollments] in He.
  apply lookup_insert_Some in He as [[[= <- <-] <-]|[_ He]]; [by injection Hg as <-|].
  apply lookup_insert_Some in He as [[[= <- <-] <-]|[_ He]]; [by injection Hg as <-|].
  by apply lookup_insert_Some in He as [[[= <- <-] <-]|[_ He]].
Qed.

(** Student 1 selects no group; the menu of student 1 changes. *)
Lemma menus_follow_groups_witness :
  profile_id (student 1) ∈ menus_invalidated same same (SelectGroup course (student 1) (Some 0))
                             (tables [pair_group] (Some 1)).
Proof.
  refine (menus_follow_groups name same same (SelectGroup course (student 1) (Some 0)) (tables [pair_group] (Some 1)) _
    (student 1) sample_tables_ok selections_hold _ eq_refl _); [discriminate|].
  intros E. assert (H : forall m1 m2 : gmap Z (list GroupEntry * GroupInfo), m1 = m2 -> m1 !! course = m2 !! course)
    by (intros ? ? ->; reflexivity).
  apply H in E. vm_compute in E. discriminate E.
Defined.

(** Deleting a group changes the menus of its members and invalidates none. *)
Lemma deleted_group_stays_in_menus :
  let t := tables [pair_group] (Some 1) in
  exists t', handle same same (DeleteGroup course 1) t = Ret t' /\
    (topmenu_groups (generate_groups name t (Some (student 1))) course).1 <> [] /\
    (topmenu_groups (generate_groups name t' (Some (student 1))) course).1 = [] /\
    menus_invalidated same same (DeleteGroup course 1) t = [].
Proof. eexists. split; [reflexivity|]. vm_compute. split; [discriminate|]. auto. Qed.

(** A group that the staff saves as it is is taken for a copy of itself. *)
Lemma unchanged_group_refused :
  edit_clean (tables [pair_group] None) course [1; 2] = ([student 1; student 2], [EditGroupExists]).
Proof. vm_compute. reflexivity. Qed.

(** A group can be formed with the code of a banned student. *)
Lemma banned_student_in_group : form (tables [] None) "C3" = ([student 1; student 3], []).
Proof. vm_compute. reflexivity. Qed.

(** Where no exercise allows groups the form has no fields, and each time it is sent
    it makes a group of one. *)
Lemma groups_of_one :
  let t1 := (groups_view same same (tables [] None) course (student 1) 1 1 (type_code "")).2 in
  let t2 := (groups_view same same t1 course (student 1) 1 1 (type_code "")).2 in
  gt_groups t2 = [mkGroup 1 course [student 1]; mkGroup 2 course [student 1]].
Proof. vm_compute. reflexivity. Qed.

(** A student the staff removed from a group keeps it selected: what the student
    submits goes to the others. *)
Definition three (t : GroupTables) : GroupTables :=
  with_group_enrollments t (<[(course, 3) := row EnrollmentStatus.ACTIVE (Some 1)]> (gt_enrollments t)).
Definition triple : StudentGroup := mkGroup 1 course [student 1; student 2; student 3].

Lemma removed_member_submits_for_group :
  exists t', handle same same (EditGroup course (Some 1) [1; 2]) (three (tables [triple] (Some 1))) = Ret t' /\
    let w := mkWorld (gt_enrollments t') (gt_groups t') [] [] [] (fun p => mkUser (profile_id p) false false p) 0 in
    find_group w (example_exercise 3 5) (student 3) (gt_enrollments t' !! (course, 3)) None
    = Ret (inr (Some pair_group)).
Proof. eexists. split; [reflexivity|]. vm_compute. reflexivity. Qed.
End Sample.
