(* ===== verification/Threshold.v ===== *)
(** * Thresholds, module requirements and diploma grades

    [threshold/models.py] and [diploma/grade.py]: whether the points of a student
    pass a threshold, and the grade of a diploma.  Both let points of a harder
    difficulty fill up what an easier one lacks; the code does it greedily, on a
    copy of the dictionary of points.  The theorems compare the greedy loop with
    the condition it means to decide: at every difficulty, the points from there
    on cover the limits from there on. *)

From Stdlib Require Import QArith.
From S2P Require Import Prelude Binary64 Helpers Course Deviations Reveal Models Exercise Submission Entries Points CoursePoints.
#[local] Open Scope Z_scope.

(** ** The points a student has *)

(** Points by difficulty. *)
Abbreviation DPoints := (gmap string Z).

(** [d_points.get(d, 0)] *)
Definition dget (m : DPoints) (d : string) : Z := default 0 (m !! d).

(** [m[k] -= v] *)
Definition dsub (m : DPoints) (k : string) (v : Z) : result DPoints :=
  match m !! k with
  | Some x => Ret (<[k := x - v]> m)
  | None => Raise KeyError
  end.

(** src/exercise/cache/points.py: CachedPoints lines 1082-1104.  What the code
    reads of the points of a user in a course. *)
Record CachedPoints := mkCachedPoints {
  cached_user : AnyUser;
  module_index : gmap Z ModulePoints;
  exercise_index : gmap Z PNode;
  cached_categories : gmap Z CategoryPoints;
  cached_total : Stats;
}.

Definition lookup_content {A} (index : gmap Z A) (i : Z) : result A :=
  match index !! i with
  | Some a => Ret a
  | None => Raise NoSuchContent
  end.

(** src/exercise/cache/hierarchy.py: ContentMixin.get_module *)
Definition cached_module (cp : CachedPoints) (i : Z) : result ModulePoints :=
  lookup_content (module_index cp) i.

(** src/exercise/cache/hierarchy.py: ContentMixin.get_exercise *)
Definition cached_exercise (cp : CachedPoints) (i : Z) : result PNode :=
  lookup_content (exercise_index cp) i.

(** src/exercise/cache/hierarchy.py: ContentMixin.find_category *)
Definition find_category (cp : CachedPoints) (i : Z) : result CategoryPoints :=
  lookup_content (cached_categories cp) i.

(** The revealable attribute [passed] of each kind of entry. *)
Definition module_passed (mp : ModulePoints) : bool :=
  revealable (s_feedback_revealed (mp_stats mp)) (mp_true_passed mp) (mp_passed mp).
Definition category_passed (c : CategoryPoints) : bool :=
  revealable (s_feedback_revealed (cp_stats c)) (cp_true_passed c) (cp_passed c).
Definition node_passed (n : PNode) : bool :=
  let c := p_common n in revealable (c_feedback_revealed c) (c_true_passed c) (c_passed c).

(** The revealable dictionaries of the totals. *)
Definition points_by_difficulty (s : Stats) : DPoints :=
  revealable (s_feedback_revealed s) (s_true_by_difficulty s) (s_by_difficulty s).
Definition unconfirmed_by_difficulty (s : Stats) : DPoints :=
  revealable (s_feedback_revealed s) (s_true_unconfirmed s) (s_unconfirmed s).

(** Whether every id of a list has a passed entry; the loop stops at the first
    that has not, and a missing entry raises. *)
Fixpoint all_passed {A} (get : Z -> result A) (passed : A -> bool) (ids : list Z) : result bool :=
  match ids with
  | [] => Ret true
  | i :: ids =>
      let! entry := get i in
      if passed entry then all_passed get passed ids else Ret false
  end.

(** ** Thresholds *)

(** src/threshold/models.py: Threshold lines 19-49 *)
Record Threshold := mkThreshold {
  passed_modules : list Z;
  passed_categories : list Z;
  passed_exercises : list Z;
  consume_harder_points : bool;
  (** The rows of [ThresholdPoints] in their [order]: difficulty and limit. *)
  threshold_points : list (string * Z);
}.

(** src/threshold/models.py: Threshold._are_points_passed lines 104-113.  Fills up
    difficulty [d], which has [p] points of the [l] it needs, from the
    difficulties that follow it. *)
Fixpoint consume (d : string) (l p : Z) (harder : list (string * Z)) (m : DPoints)
    : result DPoints :=
  match harder with
  | [] => Ret m
  | (jd, _) :: harder =>
      let jp := dget m jd in
      if l - p <? jp then
        let! m := dsub m jd (l - p) in
        Ret (<[d := l]> m)
      else consume d l (p + jp) harder (<[jd := 0]> (<[d := p + jp]> m))
  end.

(** src/threshold/models.py: Threshold._are_points_passed lines 97-122.  The loop
    over the limits, from the given one on. *)
Fixpoint points_loop (consume_harder : bool) (points : Z) (limits : list (string * Z)) (m : DPoints)
    : result bool :=
  match limits with
  | [] => Ret true
  | (d, l) :: rest =>
      if negb (bool_decide (d = "")) then
        if consume_harder && negb (dget m d <? l) then points_loop consume_harder points rest m
        else
          let! m := (if consume_harder then consume d l (dget m d) rest m else Ret m) in
          if dget m d <? l then Ret false else points_loop consume_harder points rest m
      else if points <? l then Ret false
      else points_loop consume_harder points rest m
  end.

(** src/threshold/models.py: Threshold._are_points_passed *)
Definition are_points_passed (self : Threshold) (points : Z) (by_difficulty : DPoints)
    : result bool :=
  match threshold_points self with
  | [] => Ret true
  | limits => points_loop (consume_harder_points self) points limits by_difficulty
  end.

(** src/threshold/models.py: Threshold.is_passed lines 79-86.  The dictionary the
    limits are compared with. *)
Definition known_points (total : Stats) (unconfirmed : bool) : DPoints :=
  if unconfirmed then
    map_fold (fun key value m => <[key := dget m key + value]> m) (points_by_difficulty total)
      (unconfirmed_by_difficulty total)
  else points_by_difficulty total.

(** src/threshold/models.py: Threshold.is_passed lines 64-78 *)
Definition content_passed (self : Threshold) (cp : CachedPoints) : result bool :=
  let! modules := all_passed (cached_module cp) module_passed (passed_modules self) in
  if negb modules then Ret false else
  let! categories := all_passed (find_category cp) category_passed (passed_categories self) in
  if negb categories then Ret false else
  all_passed (cached_exercise cp) node_passed (passed_exercises self).

(** src/threshold/models.py: Threshold.is_passed *)
Definition threshold_is_passed (self : Threshold) (cp : CachedPoints) (unconfirmed : bool)
    : result bool :=
  match content_passed self cp with
  | Raise NoSuchContent | Ret false => Ret false
  | Raise e => Raise e
  | Ret true =>
      let total := cached_total cp in
      are_points_passed self (shown_points total) (known_points total unconfirmed)
  end.

(** src/threshold/models.py: CourseModuleRequirement lines 155-167 *)
Record CourseModuleRequirement := mkRequirement {
  requirement_threshold : Threshold;
  requirement_negative : bool;
}.

(** src/threshold/models.py: CourseModuleRequirement.is_passed *)
Definition requirement_is_passed (self : CourseModuleRequirement) (cp : CachedPoints) : result bool :=
  let! passed := threshold_is_passed (requirement_threshold self) cp true in
  Ret (if requirement_negative self then negb passed else passed).

(** src/course/models.py: CourseModule.are_requirements_passed *)
Fixpoint are_requirements_passed (requirements : list CourseModuleRequirement) (cp : CachedPoints)
    : result bool :=
  match requirements with
  | [] => Ret true
  | r :: rest =>
      let! passed := requirement_is_passed r cp in
      if passed then are_requirements_passed rest cp else Ret false
  end.

(** ** Diploma grades *)

(** One element of [point_limits]: an amount of points, or limits by difficulty. *)
Inductive Bound :=
| PointBound (limit : Z)
| DifficultyBound (limits : list (string * Z)).

(** src/diploma/grade.py: calculate_grade lines 23-46.  The loop of [pass_limit];
    it works on the dictionary of the enclosing function, which keeps the moves
    of points when the loop returns. *)
Fixpoint grade_loop (pad_points : bool) (limits : list (string * Z)) (m : DPoints)
    : result (bool * DPoints) :=
  match limits with
  | [] => Ret (true, m)
  | (d, l) :: rest =>
      if pad_points && negb (dget m d <? l) then grade_loop pad_points rest m
      else
        let! m := (if pad_points then consume d l (dget m d) rest m else Ret m) in
        if dget m d <? l then Ret (false, m) else grade_loop pad_points rest m
  end.

(** src/diploma/grade.py: calculate_grade lines 18-47 ([pass_limit]).  [zip] of an
    empty list has nothing to unpack. *)
Definition pass_limit (points : Z) (pad_points : bool) (bound : Bound) (m : DPoints)
    : result (bool * DPoints) :=
  match bound with
  | DifficultyBound [] => Raise ValueError
  | DifficultyBound limits => grade_loop pad_points limits m
  | PointBound limit => Ret (limit <=? points, m)
  end.

(** src/diploma/grade.py: calculate_grade lines 49-55 *)
Fixpoint count_bounds (points : Z) (pad_points : bool) (bounds : list Bound) (m : DPoints)
    : result Z :=
  match bounds with
  | [] => Ret 0
  | bound :: bounds =>
      let! (passed, m) := pass_limit points pad_points bound m in
      if passed then
        let! grade := count_bounds points pad_points bounds m in
        Ret (1 + grade)
      else Ret 0
  end.

(** src/diploma/grade.py: calculate_grade *)
Definition calculate_grade (total : Stats) (point_limits : list Bound) (pad_points : bool)
    : result Z :=
  count_bounds (shown_points total) pad_points point_limits (points_by_difficulty total).

(** src/diploma/models.py: CourseDiplomaDesign lines 21-81 *)
Record CourseDiplomaDesign := mkDesign {
  design_id : Z;
  design_course : option CourseInstance;
  availability : EnrollmentAudience.t;
  point_limits : list Bound;
  pad_points : bool;
  exercises_to_pass : list Z;
  modules_to_pass : list Z;
}.

Section Grade.
Context `{Settings}.

(** src/diploma/grade.py: assign_grade.  A grader user has no profile that could be
    external. *)
Definition assign_grade (enrollments : EnrollmentDB) (cp : CachedPoints)
    (diploma_design : option CourseDiplomaDesign) : result Z :=
  match diploma_design with
  | None => Ret (-1)
  | Some design =>
      if negb (is_authenticated (cached_user cp)) then Ret (-1) else
      match design_course design with
      | None => Raise AttributeError
      | Some course =>
          let! available :=
            (if is_course_staff course enrollments (cached_user cp) then Ret true
             else
               match cached_user cp with
               | NormalUser u =>
                   let external := is_external (userprofile u) in
                   Ret (negb ((bool_decide (availability design = EnrollmentAudience.EXTERNAL_USERS)
                               && negb external)
                              || (bool_decide (availability design = EnrollmentAudience.INTERNAL_USERS)
                                  && external)))
               | _ => Raise AttributeError
               end) in
          if negb available then Ret (-1) else
          let! modules := all_passed (cached_module cp) module_passed (modules_to_pass design) in
          if negb modules then Ret 0 else
          let! exercises := all_passed (cached_exercise cp) node_passed (exercises_to_pass design) in
          if negb exercises then Ret 0 else
          calculate_grade (cached_total cp) (point_limits design) (pad_points design)
      end
  end.

End Grade.

(** ** What the greedy loop decides *)

(** The points available at a list of difficulties. *)
Definition avail (m : DPoints) (limits : list (string * Z)) : Z :=
  sumZ ((fun x => dget m (fst x)) <$> limits).

(** The points a list of limits asks for; a limit without a difficulty is about
    all points and asks for none of a difficulty. *)
Definition need (limits : list (string * Z)) : Z :=
  sumZ ((fun x => if bool_decide (fst x = "") then 0 else snd x) <$> limits).

(** From every difficulty on, the points cover the limits. *)
Definition covered (m : DPoints) (limits : list (string * Z)) : Prop :=
  forall i, need (drop i limits) <= avail m (drop i limits).

Definition nonneg (m : DPoints) (limits : list (string * Z)) : Prop :=
  Forall (fun x => 0 <= dget m (fst x)) limits.

Definition limits_nonneg (limits : list (string * Z)) : Prop := Forall (fun x => 0 <= snd x) limits.

Lemma dget_insert m k v k' : dget (<[k := v]> m) k' = if bool_decide (k = k') then v else dget m k'.
Proof.
  unfold dget. case_bool_decide as E; [subst; by rewrite lookup_insert_eq|by rewrite lookup_insert_ne].
Qed.

Lemma avail_cons m x limits : avail m (x :: limits) = dget m (fst x) + avail m limits.
Proof. done. Qed.
Lemma need_cons x limits :
  need (x :: limits) = (if bool_decide (fst x = "") then 0 else snd x) + need limits.
Proof. done. Qed.

Lemma avail_ext m m' limits :
  (forall k, k ∈ limits.*1 -> dget m' k = dget m k) -> avail m' limits = avail m limits.
Proof.
  intros E. induction limits as [|x limits IH]; [done|]. rewrite !avail_cons, IH.
  - rewrite E; [done|]. simpl. set_solver.
  - intros k Hk. apply E. simpl. set_solver.
Qed.

Lemma avail_insert m k v limits : k ∉ limits.*1 -> avail (<[k := v]> m) limits = avail m limits.
Proof.
  intros Hk. apply avail_ext. intros k' Hk'. rewrite dget_insert, bool_decide_eq_false_2; [done|].
  intros ->. done.
Qed.

Lemma fst_drop i (limits : list (string * Z)) k : k ∈ (drop i limits).*1 -> k ∈ limits.*1.
Proof.
  intros Hk. rewrite <- (take_drop i limits), fmap_app, elem_of_app. by right.
Qed.

Lemma nonneg_avail_drop m limits i :
  nonneg m limits -> 0 <= avail m (drop i limits) <= avail m limits.
Proof.
  intros Hn. revert i. induction Hn as [|x limits Hx Hn IH]; intros i.
  - rewrite drop_nil. unfold avail, sumZ. simpl. lia.
  - destruct i as [|i]; cbn [drop]; rewrite ?avail_cons.
    + pose proof (IH 0%nat) as [? ?]. rewrite drop_0 in *. lia.
    + specialize (IH i). lia.
Qed.

Lemma need_drop limits i : limits_nonneg limits -> need (drop i limits) <= need limits.
Proof.
  intros Hn. revert i. induction Hn as [|x limits Hx Hn IH]; intros i; [by rewrite drop_nil|].
  destruct i as [|i]; cbn [drop]; rewrite ?need_cons; [lia|].
  specialize (IH i). case_bool_decide; lia.
Qed.

Lemma need_nonneg limits : limits_nonneg limits -> 0 <= need limits.
Proof.
  induction 1 as [|x limits Hx _ IH]; [unfold need, sumZ; simpl; lia|].
  rewrite need_cons. case_bool_decide; lia.
Qed.

Lemma covered_cons m x limits :
  covered m (x :: limits) <-> need (x :: limits) <= avail m (x :: limits) /\ covered m limits.
Proof.
  split.
  - intros Hc. split; [exact (Hc 0%nat)|]. intros i. exact (Hc (S i)).
  - intros [H0 Hc] [|i]; [done|apply Hc].
Qed.

Lemma covered_nil m : covered m [].
Proof. intros i. rewrite drop_nil. done. Qed.

(** What filling up one difficulty does: it takes what is missing from the
    nearest harder difficulties, so that what is left from any of them on is the
    smaller of what it was and what is left in total; no key is missing. *)
Definition consumed (d : string) (l : Z) (harder : list (string * Z)) (m m' : DPoints) : Prop :=
  (forall k, k <> d -> k ∉ harder.*1 -> dget m' k = dget m k)
  /\ dget m' d = Z.max (dget m d) (Z.min l (dget m d + avail m harder))
  /\ nonneg m' harder
  /\ forall i, avail m' (drop i harder)
               = Z.min (avail m (drop i harder)) (Z.max 0 (dget m d + avail m harder - l)).

Lemma nonneg_ext m m' limits :
  (forall k, k ∈ limits.*1 -> dget m' k = dget m k) -> nonneg m limits -> nonneg m' limits.
Proof.
  intros E Hn. induction Hn as [|x limits Hx _ IH]; constructor.
  - rewrite E by (simpl; set_solver). done.
  - apply IH. intros k Hk. apply E. simpl. set_solver.
Qed.

Lemma consume_none d l m : dget m d <= l -> consumed d l [] m m.
Proof.
  intros Hl. split_and!; [done| |constructor|].
  - unfold avail, sumZ. simpl. lia.
  - intros i. rewrite drop_nil. unfold avail, sumZ. simpl. lia.
Qed.

(** The nearest difficulty has more than what is missing. *)
Lemma consume_part d l jd jl harder m :
  d <> jd -> d ∉ harder.*1 -> jd ∉ harder.*1 -> nonneg m harder -> dget m d <= l ->
  l - dget m d < dget m jd ->
  consumed d l ((jd, jl) :: harder) m (<[d := l]> (<[jd := dget m jd - (l - dget m d)]> m)).
Proof.
  intros Hjd Hd Hj Hn Hl E. pose proof (nonneg_avail_drop m harder) as HA.
  assert (forall k, k ∈ harder.*1 ->
    dget (<[d := l]> (<[jd := dget m jd - (l - dget m d)]> m)) k = dget m k) as Hext.
  { intros k Hk. rewrite !dget_insert, !bool_decide_eq_false_2; [done|congruence..]. }
  split_and!.
  - intros k Hk Hk'. cbn in Hk'. apply not_elem_of_cons in Hk' as [? ?].
    by rewrite !dget_insert, !bool_decide_eq_false_2 by congruence.
  - rewrite dget_insert, bool_decide_eq_true_2 by done. rewrite avail_cons. cbn.
    specialize (HA 0%nat Hn). rewrite drop_0 in HA. lia.
  - constructor; [|by eapply nonneg_ext]. cbn.
    rewrite !dget_insert, bool_decide_eq_false_2, bool_decide_eq_true_2 by congruence. lia.
  - intros [|i]; cbn [drop]; rewrite ?avail_cons; cbn [fst].
    + rewrite (avail_ext _ _ _ Hext).
      rewrite !dget_insert, bool_decide_eq_false_2, bool_decide_eq_true_2 by congruence.
      specialize (HA 0%nat Hn). rewrite drop_0 in HA. lia.
    + rewrite (avail_ext _ _ (drop i harder)) by (intros k Hk; apply Hext; by eapply fst_drop).
      specialize (HA i Hn). lia.
Qed.

(** The nearest difficulty is used up and the next ones follow. *)
Lemma consume_all d l jd jl harder m m' :
  d <> jd -> d ∉ harder.*1 -> jd ∉ harder.*1 -> nonneg m harder -> 0 <= dget m jd ->
  dget m jd <= l - dget m d ->
  consumed d l harder (<[jd := 0]> (<[d := dget m d + dget m jd]> m)) m' ->
  consumed d l ((jd, jl) :: harder) m m'.
Proof.
  intros Hjd Hd Hj Hn Hjp E (Hframe & Hgot & Hnn & Hleft).
  pose proof (nonneg_avail_drop m harder) as HA.
  assert (forall i, avail (<[jd := 0]> (<[d := dget m d + dget m jd]> m)) (drop i harder)
                    = avail m (drop i harder)) as Hav.
  { intros i. rewrite !avail_insert; [done|intros Hk; by apply fst_drop in Hk..]. }
  pose proof (Hav 0%nat) as Hav0. rewrite !drop_0 in Hav0.
  rewrite !dget_insert, bool_decide_eq_false_2, bool_decide_eq_true_2 in Hgot by congruence.
  assert (forall i, avail m' (drop i harder) = Z.min (avail m (drop i harder))
    (Z.max 0 (dget m d + dget m jd + avail m harder - l))) as Hleft'.
  { intros i. rewrite Hleft, Hav, Hav0.
    by rewrite !dget_insert, bool_decide_eq_false_2, bool_decide_eq_true_2 by congruence. }
  assert (dget m' jd = 0) as Hj0.
  { rewrite Hframe by done. by rewrite dget_insert, bool_decide_eq_true_2. }
  pose proof (HA 0%nat Hn) as HA0. rewrite drop_0 in HA0. split_and!.
  - intros k Hk Hk'. cbn in Hk'. apply not_elem_of_cons in Hk' as [? ?]. rewrite Hframe by done.
    by rewrite !dget_insert, !bool_decide_eq_false_2 by congruence.
  - rewrite avail_cons. cbn [fst]. rewrite Hgot, Hav0. lia.
  - constructor; [cbn; lia|done].
  - intros [|i]; cbn [drop]; rewrite ?avail_cons; cbn [fst].
    + specialize (Hleft' 0%nat). rewrite !drop_0 in Hleft'. lia.
    + rewrite Hleft'. specialize (HA i Hn). lia.
Qed.

Lemma consume_spec d l harder : forall m,
  d ∉ harder.*1 -> NoDup harder.*1 -> nonneg m harder -> dget m d <= l ->
  exists m', consume d l (dget m d) harder m = Ret m' /\ consumed d l harder m m'.
Proof.
  induction harder as [|[jd jl] harder IH]; intros m Hd Hnd Hn Hl; cbn [consume].
  { exists m. split; [done|]. by apply consume_none. }
  cbn in Hd, Hnd. apply not_elem_of_cons in Hd as [Hjd Hd]. apply NoDup_cons in Hnd as [Hj Hnd].
  apply Forall_cons in Hn as [Hjp Hn]. cbn in Hjp. destruct (l - dget m d <? dget m jd) eqn:E; b2p.
  - eexists. split; [|by apply consume_part]. unfold dsub, dget in *.
    destruct (m !! jd); [done|]. simpl in E. lia.
  - set (m1 := <[jd := 0]> (<[d := dget m d + dget m jd]> m)).
    assert (dget m1 d = dget m d + dget m jd) as E1.
    { unfold m1. by rewrite !dget_insert, bool_decide_eq_false_2, bool_decide_eq_true_2 by congruence. }
    assert (nonneg m1 harder) as Hn1.
    { eapply nonneg_ext; [|exact Hn]. intros k Hk. unfold m1.
      rewrite !dget_insert, !bool_decide_eq_false_2; [done|congruence..]. }
    destruct (IH m1 Hd Hnd Hn1) as (m' & Hm' & Hc); [lia|]. rewrite E1 in Hm'.
    exists m'. split; [exact Hm'|]. by eapply consume_all.
Qed.

(** Filling up happens only below the limit. *)
Definition fill (d : string) (l : Z) (harder : list (string * Z)) (m : DPoints) : result DPoints :=
  if dget m d <? l then consume d l (dget m d) harder m else Ret m.

Lemma fill_spec d l harder m :
  d ∉ harder.*1 -> NoDup harder.*1 -> nonneg m harder ->
  exists m', fill d l harder m = Ret m' /\ consumed d l harder m m'.
Proof.
  intros Hd Hnd Hn. unfold fill. destruct (dget m d <? l) eqn:E; b2p.
  { apply consume_spec; [done..|lia]. }
  exists m. split; [done|]. pose proof (nonneg_avail_drop m harder) as HA.
  split_and!; [done| |done|intros i; specialize (HA i Hn); lia]. lia.
Qed.

Lemma points_loop_fill points d l rest m :
  d <> "" ->
  points_loop true points ((d, l) :: rest) m =
  (let! m1 := fill d l rest m in
   if dget m1 d <? l then Ret false else points_loop true points rest m1).
Proof.
  intros Hd. cbn [points_loop]. rewrite bool_decide_eq_false_2 by done. unfold fill.
  destruct (dget m d <? l) eqn:E; cbn; by rewrite ?E.
Qed.

Lemma grade_loop_fill d l rest m :
  grade_loop true ((d, l) :: rest) m =
  (let! m1 := fill d l rest m in
   if dget m1 d <? l then Ret (false, m1) else grade_loop true rest m1).
Proof.
  cbn [grade_loop]. unfold fill. destruct (dget m d <? l) eqn:E; cbn; by rewrite ?E.
Qed.

(** One step of the loop, seen from the condition it decides. *)
Lemma covered_step d l rest m m1 :
  d <> "" -> limits_nonneg rest -> nonneg m rest -> consumed d l rest m m1 ->
  (dget m1 d < l -> ~ covered m ((d, l) :: rest))
  /\ (l <= dget m1 d -> (covered m ((d, l) :: rest) <-> covered m1 rest)).
Proof.
  intros Hd Hl Hn (_ & Hgot & _ & Hleft). rewrite covered_cons, need_cons, avail_cons. cbn [fst snd].
  rewrite bool_decide_eq_false_2 by done. pose proof (need_nonneg _ Hl).
  pose proof (nonneg_avail_drop m rest 0 Hn) as HA. rewrite drop_0 in HA. split; [lia|].
  intros Hpass. split.
  - intros [H0 Hc] i. rewrite Hleft. specialize (Hc i). pose proof (need_drop rest i Hl). lia.
  - intros Hc. pose proof (Hc 0%nat) as H0. rewrite Hleft, !drop_0 in H0. split; [lia|].
    intros i. specialize (Hc i). rewrite Hleft in Hc. lia.
Qed.

Lemma points_loop_spec points limits : forall m,
  NoDup limits.*1 -> limits_nonneg limits -> nonneg m limits ->
  exists b, points_loop true points limits m = Ret b
    /\ (b = true <-> Forall (fun x => fst x = "" -> snd x <= points) limits /\ covered m limits).
Proof.
  induction limits as [|[d l] rest IH]; intros m Hnd Hl Hn.
  { exists true. split; [done|]. split; [split; [constructor|apply covered_nil]|done]. }
  cbn in Hnd. apply NoDup_cons in Hnd as [Hd Hnd]. apply Forall_cons in Hl as [Hl0 Hl].
  apply Forall_cons in Hn as [Hp Hn]. cbn in Hl0, Hp. setoid_rewrite Forall_cons. cbn [fst snd].
  destruct (decide (d = "")) as [->|Hne].
  - setoid_rewrite covered_cons. rewrite need_cons, avail_cons. cbn.
    destruct (points <? l) eqn:E; b2p.
    + exists false. split; [done|]. split; [done|]. intros [[Hle _] _]. specialize (Hle eq_refl). lia.
    + destruct (IH m Hnd Hl Hn) as (b & Hb & Hiff). exists b. split; [done|]. rewrite Hiff.
      split; [|naive_solver]. intros [Hf Hc]. split_and!; [done|done| |done].
      pose proof (Hc 0%nat) as H0. rewrite !drop_0 in H0.
      case_bool_decide; [lia|done].
  - destruct (fill_spec d l rest m Hd Hnd Hn) as (m1 & Hm1 & Hc).
    destruct (covered_step d l rest m m1 Hne Hl Hn Hc) as [Hfail Hpass].
    rewrite points_loop_fill by done. rewrite Hm1. cbn. destruct (dget m1 d <? l) eqn:E; b2p.
    + exists false. split; [done|]. naive_solver.
    + destruct Hc as (_ & _ & Hn1 & _). destruct (IH m1 Hnd Hl Hn1) as (b & Hb & Hiff).
      exists b. split; [done|]. rewrite Hiff, Hpass by done. naive_solver.
Qed.

Lemma points_loop_plain points m limits :
  exists b, points_loop false points limits m = Ret b
    /\ (b = true <-> Forall (fun x => snd x <= if bool_decide (fst x = "") then points
                                               else dget m (fst x)) limits).
Proof.
  induction limits as [|[d l] rest (b & Hb & Hiff)]; [by exists true|]. cbn [points_loop andb rbind].
  setoid_rewrite Forall_cons. cbn [fst snd]. rewrite Hb. case_bool_decide as Hd; cbn [negb].
  - destruct (points <? l) eqn:E; b2p; [exists false; split; [done|]; split; [done|]; lia|].
    exists b. split; [done|]. rewrite Hiff. naive_solver.
  - destruct (dget m d <? l) eqn:E; b2p; [exists false; split; [done|]; split; [done|]; lia|].
    exists b. split; [done|]. rewrite Hiff. naive_solver.
Qed.

(** ** Thresholds *)

(** The limits of a threshold, as a condition on the points. *)
Definition points_condition (t : Threshold) (points : Z) (m : DPoints) : Prop :=
  Forall (fun x => fst x = "" -> snd x <= points) (threshold_points t)
  /\ if consume_harder_points t then covered m (threshold_points t)
     else Forall (fun x => fst x <> "" -> snd x <= dget m (fst x)) (threshold_points t).

(** What the tables guarantee: distinct difficulties and limits that are not
    negative; and points that are not negative. *)
Definition proper_points (t : Threshold) (m : DPoints) : Prop :=
  NoDup (threshold_points t).*1 /\ limits_nonneg (threshold_points t)
  /\ nonneg m (threshold_points t).

Lemma are_points_passed_spec t points m :
  proper_points t m ->
  exists b, are_points_passed t points m = Ret b /\ (b = true <-> points_condition t points m).
Proof.
  intros (Hnd & Hl & Hn). unfold points_condition, are_points_passed.
  assert (are_points_passed t points m
          = points_loop (consume_harder_points t) points (threshold_points t) m) as E.
  { unfold are_points_passed. by destruct (threshold_points t). }
  unfold are_points_passed in E. rewrite E. destruct (consume_harder_points t).
  - by apply points_loop_spec.
  - destruct (points_loop_plain points m (threshold_points t)) as (b & Hb & Hiff).
    exists b. split; [done|]. rewrite Hiff, <- Forall_and. apply Forall_proper; [|done].
    intros [d l]. cbn. case_bool_decide; naive_solver.
Qed.

Lemma all_passed_spec {A} (index : gmap Z A) (passed : A -> bool) ids :
  match all_passed (lookup_content index) passed ids with
  | Ret true => Forall (fun i => exists a, index !! i = Some a /\ passed a = true) ids
  | Ret false | Raise NoSuchContent =>
      ~ Forall (fun i => exists a, index !! i = Some a /\ passed a = true) ids
  | Raise _ => False
  end.
Proof.
  induction ids as [|i ids IH]; [constructor|]. cbn. unfold lookup_content at 1.
  destruct (index !! i) as [a|] eqn:Ei; cbn.
  - destruct (passed a) eqn:Ep.
    + destruct (all_passed _ passed ids) as [[]|[]]; try done; rewrite Forall_cons; naive_solver.
    + intros [(a0 & ? & ?) _]%Forall_cons. congruence.
  - intros [(a0 & ? & ?) _]%Forall_cons. congruence.
Qed.

(** What a threshold asks of the content: every entry exists and is passed. *)
Definition content_condition (t : Threshold) (cp : CachedPoints) : Prop :=
  Forall (fun i => exists a, module_index cp !! i = Some a /\ module_passed a = true)
    (passed_modules t)
  /\ Forall (fun i => exists a, cached_categories cp !! i = Some a /\ category_passed a = true)
       (passed_categories t)
  /\ Forall (fun i => exists a, exercise_index cp !! i = Some a /\ node_passed a = true)
       (passed_exercises t).

Lemma content_passed_spec t cp :
  match content_passed t cp with
  | Ret true => content_condition t cp
  | Ret false | Raise NoSuchContent => ~ content_condition t cp
  | Raise _ => False
  end.
Proof.
  unfold content_passed, content_condition, cached_module, find_category, cached_exercise.
  pose proof (all_passed_spec (module_index cp) module_passed (passed_modules t)) as Hm.
  pose proof (all_passed_spec (cached_categories cp) category_passed (passed_categories t)) as Hc.
  pose proof (all_passed_spec (exercise_index cp) node_passed (passed_exercises t)) as He.
  destruct (all_passed _ module_passed _) as [[]|[]]; cbn; try tauto.
  destruct (all_passed _ category_passed _) as [[]|[]]; cbn; try tauto.
  destruct (all_passed _ node_passed _) as [[]|[]]; cbn; tauto.
Qed.

Lemma known_points_dget total d :
  dget (known_points total true) d
  = dget (points_by_difficulty total) d + dget (unconfirmed_by_difficulty total) d.
Proof.
  unfold known_points. set (u := unconfirmed_by_difficulty total).
  apply (map_fold_weak_ind (fun m (v : DPoints) => dget m d = dget (points_by_difficulty total) d + dget v d)).
  - unfold dget at 3. rewrite lookup_empty. simpl. lia.
  - intros key value v m Hk IH. rewrite !dget_insert. case_bool_decide; [subst|done].
    rewrite IH. unfold dget at 2. rewrite Hk. simpl. lia.
Qed.

(** A threshold is passed exactly when every module, category and exercise it
    names exists and is passed, every limit on all points is reached, and the
    points by difficulty reach the limits: each one when harder points are not
    consumed, and when they are, the points from every difficulty on cover the
    limits from there on.  Missing content makes it fail and nothing raises; the
    greedy loop of the code finds a way to move points whenever there is one. *)
Theorem threshold_is_passed_spec (t : Threshold) (cp : CachedPoints) (unconfirmed : bool) :
  proper_points t (known_points (cached_total cp) unconfirmed) ->
  exists b, threshold_is_passed t cp unconfirmed = Ret b
    /\ (b = true <->
        content_condition t cp
        /\ points_condition t (shown_points (cached_total cp))
             (known_points (cached_total cp) unconfirmed)).
Proof.
  intros Hp. unfold threshold_is_passed. pose proof (content_passed_spec t cp) as Hc.
  destruct (content_passed t cp) as [[]|[]]; try done; try (exists false; naive_solver).
  destruct (are_points_passed_spec t (shown_points (cached_total cp)) _ Hp) as (b & Hb & Hiff).
  exists b. split; [done|]. rewrite Hiff. naive_solver.
Qed.

Definition example_stats (points : Z) (m : DPoints) : Stats := mkStats 1 points points true m m ∅ ∅.
Definition example_cached (points : Z) (m : DPoints) : CachedPoints :=
  mkCachedPoints AnonymousUser ∅ ∅ ∅ (example_stats points m).
Definition example_difficulties : DPoints := <["A" := 5]> (<["B" := 20]> ∅).

Lemma threshold_is_passed_spec_witness :
  exists b, threshold_is_passed (mkThreshold [] [] [] true [("A", 10); ("", 25); ("B", 15)])
              (example_cached 25 example_difficulties) false = Ret b /\ b = true.
Proof.
  destruct (threshold_is_passed_spec (mkThreshold [] [] [] true [("A", 10); ("", 25); ("B", 15)])
              (example_cached 25 example_difficulties) false) as (b & Hb & Hiff).
  - split_and!.
    + cbn. repeat constructor; set_solver.
    + repeat constructor; cbn; lia.
    + repeat constructor; vm_compute; congruence.
  - exists b. split; [exact Hb|]. vm_compute in Hb. congruence.
Defined.

(** ** Diploma grades *)

(** A list of limits is at least as demanding as another one. *)
Definition limits_le (limits limits' : list (string * Z)) : Prop :=
  Forall2 (fun x y => fst x = fst y /\ snd x <= snd y) limits limits'.

Lemma avail_fst m limits limits' : limits.*1 = limits'.*1 -> avail m limits = avail m limits'.
Proof.
  revert limits'. induction limits as [|x limits IH]; intros [|y limits'] E; try done.
  cbn in E. injection E as E0 E. rewrite !avail_cons, E0. f_equal. by apply IH.
Qed.

Lemma limits_le_fst limits limits' : limits_le limits limits' -> limits.*1 = limits'.*1.
Proof. induction 1 as [|x y l l' [E _] _ IH]; [done|]. cbn. by rewrite E, IH. Qed.

Lemma limits_le_avail_drop m limits limits' i :
  limits_le limits limits' -> avail m (drop i limits') = avail m (drop i limits).
Proof. intros H. apply avail_fst, eq_sym, limits_le_fst. by apply Forall2_drop. Qed.

Lemma consumed_total d l rest m m1 :
  nonneg m rest -> consumed d l rest m m1 ->
  dget m1 d + avail m1 rest = dget m d + avail m rest.
Proof.
  intros Hn (_ & Hgot & _ & Hleft). specialize (Hleft 0%nat). rewrite !drop_0 in Hleft.
  pose proof (nonneg_avail_drop m rest 0 Hn) as HA. rewrite drop_0 in HA. lia.
Qed.

(** Filling up the easiest difficulty leaves enough for more demanding limits
    that the points cover in total. *)
Lemma consumed_covered d l l2 rest rest2 m m1 :
  limits_le rest rest2 -> l <= l2 -> nonneg m rest -> limits_nonneg rest2 ->
  consumed d l rest m m1 -> l2 + need rest2 <= dget m d + avail m rest ->
  covered m1 rest2 <-> covered m rest2.
Proof.
  intros Hle Hl Hn Hl2 (_ & _ & _ & Hleft) Htotal. split; intros Hc i; specialize (Hc i);
    rewrite (limits_le_avail_drop _ _ _ i Hle) in Hc; rewrite (limits_le_avail_drop _ _ _ i Hle);
    specialize (Hleft i); pose proof (need_drop rest2 i Hl2); lia.
Qed.

(** The outcome of one bound, and that what it moved does not matter for a more
    demanding one. *)
Lemma grade_loop_spec limits : forall m,
  NoDup limits.*1 -> "" ∉ limits.*1 -> limits_nonneg limits -> nonneg m limits ->
  exists b m', grade_loop true limits m = Ret (b, m')
    /\ (b = true <-> covered m limits)
    /\ (b = true ->
        nonneg m' limits /\ (forall k, k ∉ limits.*1 -> dget m' k = dget m k)
        /\ avail m' limits = avail m limits
        /\ forall limits2, limits_le limits limits2 -> limits_nonneg limits2 ->
             (covered m' limits2 <-> covered m limits2)).
Proof.
  induction limits as [|[d l] rest IH]; intros m Hnd Hne Hl Hn.
  { exists true, m. split_and!; [done|split; [intros _; apply covered_nil|done]|].
    intros _. split_and!; done. }
  cbn in Hnd, Hne. apply NoDup_cons in Hnd as [Hd Hnd]. apply not_elem_of_cons in Hne as [Hd0 Hne].
  apply Forall_cons in Hl as [Hl0 Hl]. apply Forall_cons in Hn as [Hp Hn]. cbn in Hl0, Hp.
  destruct (fill_spec d l rest m Hd Hnd Hn) as (m1 & Hm1 & Hc).
  destruct (covered_step d l rest m m1 (not_eq_sym Hd0) Hl Hn Hc) as [Hfail Hpass].
  rewrite grade_loop_fill, Hm1. cbn [rbind]. destruct (dget m1 d <? l) eqn:E; b2p.
  { exists false, m1. split_and!; [done| |done]. naive_solver. }
  assert (nonneg m1 rest) as Hn1 by apply Hc.
  destruct (IH m1 Hnd Hne Hl Hn1) as (b & m' & Hb & Hiff & Hafter).
  exists b, m'. split_and!; [done|by rewrite Hiff, Hpass|]. intros Hbt.
  destruct (Hafter Hbt) as (Hn' & Hframe & Htotal & Hlater).
  pose proof (consumed_total _ _ _ _ _ Hn Hc) as Ht1. pose proof (Hframe d Hd) as Ed.
  split_and!.
  - constructor; [cbn; lia|done].
  - intros k Hk. cbn in Hk. apply not_elem_of_cons in Hk as [? ?]. rewrite Hframe by done.
    destruct Hc as (Hf & _). by apply Hf.
  - rewrite !avail_cons. cbn [fst]. lia.
  - intros limits2 Hle Hl2. apply Forall2_cons_inv_l in Hle as ([d2 l2] & rest2 & [E1 E2] & Hle & ->).
    cbn in E1, E2. subst d2. apply Forall_cons in Hl2 as [_ Hl2].
    rewrite !covered_cons, need_cons, !avail_cons, bool_decide_eq_false_2 by (cbn; congruence).
    cbn [fst snd]. rewrite <- !(avail_fst _ rest rest2) by by apply limits_le_fst.
    rewrite Hlater by done. pose proof (consumed_covered d l l2 rest rest2 m m1 Hle E2 Hn Hl2 Hc).
    split; intros [H0 H1]; (split; [lia|]); naive_solver lia.
Qed.

(** A later bound asks at least what an earlier one asks. *)
Definition bound_le (b b' : Bound) : Prop :=
  match b, b' with
  | DifficultyBound limits, DifficultyBound limits' => limits_le limits limits'
  | _, _ => True
  end.

(** Bounds by difficulty name distinct difficulties and non-negative limits. *)
Definition proper_bound (m : DPoints) (b : Bound) : Prop :=
  match b with
  | PointBound _ => True
  | DifficultyBound limits =>
      limits <> [] /\ NoDup limits.*1 /\ ("" ∉ limits.*1) /\ limits_nonneg limits /\ nonneg m limits
  end.

(** What a bound asks of the points. *)
Definition bound_met (pad : bool) (points : Z) (m : DPoints) (b : Bound) : Prop :=
  match b with
  | PointBound limit => limit <= points
  | DifficultyBound limits =>
      if pad then covered m limits else Forall (fun x => snd x <= dget m (fst x)) limits
  end.

Lemma grade_loop_plain m limits :
  exists b, grade_loop false limits m = Ret (b, m)
    /\ (b = true <-> Forall (fun x => snd x <= dget m (fst x)) limits).
Proof.
  induction limits as [|[d l] rest (b & Hb & Hiff)]; [by exists true|]. cbn [grade_loop andb rbind].
  setoid_rewrite Forall_cons. cbn [fst snd]. rewrite Hb.
  destruct (dget m d <? l) eqn:E; b2p; [exists false; split; [done|]; split; [done|]; lia|].
  exists b. split; [done|]. rewrite Hiff. naive_solver.
Qed.

Lemma nonneg_le m limits limits' : limits_le limits limits' -> nonneg m limits -> nonneg m limits'.
Proof.
  induction 1 as [|x y l l' [E _] _ IH]; intros Hn; [constructor|].
  apply Forall_cons in Hn as [Hx Hn]. constructor; [by rewrite <- E|by apply IH].
Qed.

(** One bound: whether it is met, and that nothing changes for the later ones. *)
Lemma pass_limit_spec points pad bound m :
  proper_bound m bound ->
  exists b m', pass_limit points pad bound m = Ret (b, m')
    /\ (b = true <-> bound_met pad points m bound)
    /\ (b = true -> forall later, bound_le bound later \/ pad = false -> proper_bound m later ->
          proper_bound m' later /\ (bound_met pad points m' later <-> bound_met pad points m later)).
Proof.
  intros Hp. destruct bound as [limit|limits]; cbn.
  { exists (limit <=? points), m. split_and!; [done|by rewrite Z.leb_le|done]. }
  destruct Hp as (Hne & Hnd & He & Hl & Hn). assert (exists b m', grade_loop pad limits m = Ret (b, m')
    /\ (b = true <-> bound_met pad points m (DifficultyBound limits))
    /\ (b = true -> forall later, bound_le (DifficultyBound limits) later \/ pad = false ->
          proper_bound m later ->
          proper_bound m' later /\ (bound_met pad points m' later <-> bound_met pad points m later)))
    as Hgoal; [|destruct limits; [done|exact Hgoal]].
  destruct pad.
  - destruct (grade_loop_spec limits m Hnd He Hl Hn) as (b & m' & Hb & Hiff & Hafter).
    exists b, m'. split_and!; [done|done|]. intros Hbt [limit'|limits'] [Hle|] Hp'; try done.
    destruct (Hafter Hbt) as (Hn' & _ & _ & Hlater). cbn in *.
    destruct Hp' as (? & ? & ? & Hl' & ?). split; [|by apply Hlater].
    split_and!; try done. by eapply nonneg_le.
  - destruct (grade_loop_plain m limits) as (b & Hb & Hiff). exists b, m. by split_and!.
Qed.

Lemma count_bounds_spec points pad m bounds : forall m1,
  Forall (fun b => proper_bound m1 b /\ (bound_met pad points m1 b <-> bound_met pad points m b)) bounds ->
  (pad = true -> StronglySorted bound_le bounds) ->
  exists g, count_bounds points pad bounds m1 = Ret (Z.of_nat g)
    /\ Forall (bound_met pad points m) (take g bounds)
    /\ (forall b, bounds !! g = Some b -> ~ bound_met pad points m b)
    /\ (g <= length bounds)%nat.
Proof.
  induction bounds as [|b bounds IH]; intros m1 Hf Hs; cbn [count_bounds].
  { exists 0%nat. split_and!; [done|constructor|done|done]. }
  apply Forall_cons in Hf as [[Hp Hm] Hf].
  destruct (pass_limit_spec points pad b m1 Hp) as (r & m2 & Hr & Hiff & Hlater).
  rewrite Hr. cbn [rbind]. destruct r.
  - destruct (IH m2) as (g & Hg & Hmet & Hnot & Hlen).
    + apply List.Forall_forall. intros b' Hin. rewrite List.Forall_forall in Hf.
      destruct (Hf b' Hin) as [Hp' Hm'].
      destruct (Hlater eq_refl b') as [Hp2 Hm2]; [|done|split; [done|by rewrite Hm2]].
      destruct pad; [left|by right]. specialize (Hs eq_refl). inversion Hs as [|? ? ? Hall]; subst.
      rewrite List.Forall_forall in Hall. by apply Hall.
    + intros Hpad. specialize (Hs Hpad). by inversion Hs.
    + exists (S g). rewrite Hg. cbn [rbind take length]. split_and!.
      * f_equal. lia.
      * constructor; [by apply Hm, Hiff|done].
      * done.
      * lia.
  - exists 0%nat. split_and!; [done|constructor| |lia]. intros b' [= <-].
    rewrite <- Hm, <- Hiff. done.
Qed.

(** The grade of a diploma is the number of leading bounds that the student's
    own points meet: the loop stops at the first bound that is not met.  The
    dictionary that filling up changes is shared by all bounds; as long as later
    bounds are at least as demanding as earlier ones, the points an earlier bound
    moved never cost the student a later one. *)
Theorem grade_counts_met_bounds (total : Stats) (bounds : list Bound) (pad : bool) :
  let m := points_by_difficulty total in
  Forall (proper_bound m) bounds ->
  (pad = true -> StronglySorted bound_le bounds) ->
  exists g, calculate_grade total bounds pad = Ret (Z.of_nat g)
    /\ Forall (bound_met pad (shown_points total) m) (take g bounds)
    /\ (forall b, bounds !! g = Some b -> ~ bound_met pad (shown_points total) m b)
    /\ (g <= length bounds)%nat.
Proof.
  intros m Hf Hs. apply count_bounds_spec; [|done].
  eapply Forall_impl; [exact Hf|]. intros b Hp. by split.
Qed.

Definition example_bounds : list Bound :=
  [DifficultyBound [("A", 5); ("B", 5)]; PointBound 20; DifficultyBound [("A", 10); ("B", 15)];
   DifficultyBound [("A", 15); ("B", 15)]].

Lemma grade_counts_met_bounds_witness :
  exists g, calculate_grade (example_stats 25 example_difficulties) example_bounds true
              = Ret (Z.of_nat g) /\ g = 3%nat.
Proof.
  destruct (grade_counts_met_bounds (example_stats 25 example_difficulties) example_bounds true)
    as (g & Hg & _).
  - repeat constructor; cbn; try done; try set_solver; vm_compute; congruence.
  - intros _. repeat constructor; cbn; lia.
  - exists g. split; [exact Hg|].
    change (calculate_grade _ _ _) with (Ret 3) in Hg. injection Hg as Hg. lia.
Defined.

(** With bounds that are not ordered, a bound the student's points meet can fail
    because an earlier one has moved them. *)
Lemma moved_points_are_lost :
  let m := <["B" := 15]> (∅ : DPoints) in
  let easy := DifficultyBound [("A", 10); ("B", 0)] in
  let hard := DifficultyBound [("A", 0); ("B", 10)] in
  calculate_grade (example_stats 15 m) [easy; hard] true = Ret 1
  /\ calculate_grade (example_stats 15 m) [hard] true = Ret 1
  /\ calculate_grade (example_stats 15 m) [hard; easy] true = Ret 2.
Proof. vm_compute. done. Qed.

(** ** The grade a student is given *)

Section AssignGrade.
Context `{Settings}.

(** A student who may not have the diploma gets no grade; a required module or
    exercise that is not passed gives zero, and else the points decide. *)
Lemma assign_grade_student enrollments cp design course u :
  cached_user cp = NormalUser u -> design_course design = Some course ->
  is_course_staff course enrollments (NormalUser u) = false ->
  (forall i, i ∈ modules_to_pass design -> is_Some (module_index cp !! i)) ->
  (forall i, i ∈ exercises_to_pass design -> is_Some (exercise_index cp !! i)) ->
  assign_grade enrollments cp (Some design)
  = match availability design, is_external (userprofile u) with
    | EnrollmentAudience.EXTERNAL_USERS, false | EnrollmentAudience.INTERNAL_USERS, true => Ret (-1)
    | _, _ =>
        if forallb (fun i => match module_index cp !! i with
                             | Some e => module_passed e
                             | None => false
                             end) (modules_to_pass design)
           && forallb (fun i => match exercise_index cp !! i with
                                | Some e => node_passed e
                                | None => false
                                end) (exercises_to_pass design)
        then calculate_grade (cached_total cp) (point_limits design) (pad_points design)
        else Ret 0
    end.
Proof.
  intros Hu Hc Hs Hm He. unfold assign_grade. rewrite Hu, Hc, Hs. cbn [is_authenticated negb].
  assert (forall A (index : gmap Z A) passed ids, (forall i, i ∈ ids -> is_Some (index !! i)) ->
    all_passed (lookup_content index) passed ids
    = Ret (forallb (fun i => match index !! i with Some e => passed e | None => false end) ids)) as Hall.
  { intros A index passed ids. induction ids as [|i ids IH]; intros Hi; [done|]. cbn.
    unfold lookup_content at 1. destruct (Hi i) as [a Ha]; [set_solver|]. rewrite Ha. cbn.
    destruct (passed a); [|done]. apply IH. set_solver. }
  unfold cached_module, cached_exercise. rewrite !Hall by done.
  destruct (availability design), (is_external (userprofile u)); cbn; try done;
    destruct (forallb _ (modules_to_pass design)); cbn; try done;
    destruct (forallb _ (exercises_to_pass design)); done.
Qed.

End AssignGrade.

(** ** Diplomas *)

(** src/diploma/models.py: StudentDiploma lines 94-121.  The name is the full name
    of the user. *)
Record StudentDiploma := mkDiploma {
  diploma_design : Z;
  diploma_profile : Z;
  hashkey : string;
  diploma_name : string;
  diploma_grade : Z;
}.

(** src/diploma/models.py: StudentDiploma.generate_hashkey.  [digest] is the digest
    made at each turn, from the time of the turn; [None] after [fuel] turns. *)
Fixpoint generate_hashkey (digest : nat -> string) (turn fuel : nat) (used : list string)
    : option string :=
  match fuel with
  | O => None
  | S fuel =>
      if bool_decide (digest turn ∈ used) then generate_hashkey digest (S turn) fuel used
      else Some (digest turn)
  end.

Definition is_diploma_of (design profile : Z) (d : StudentDiploma) : bool :=
  (diploma_design d =? design) && (diploma_profile d =? profile).

(** src/diploma/views.py: DiplomaCreateView.post, once the grade has been assigned.
    [owner] asks for the diploma of [profile]; [None] is the refusal. *)
Definition create_diploma (digest : nat -> string) (fuel : nat) (owner_is_staff : bool)
    (owner profile : Z) (full_name : string) (design : CourseDiplomaDesign) (grade : Z)
    (rows : list StudentDiploma) : option (list StudentDiploma) :=
  if negb (owner =? profile) && negb owner_is_staff then None
  else if grade <? 0 then None
  else
    match find (is_diploma_of (design_id design) profile) rows with
    | Some old =>
        Some ((fun d => if bool_decide (hashkey d = hashkey old)
                        then mkDiploma (diploma_design d) (diploma_profile d) (hashkey d) full_name grade
                        else d) <$> rows)
    | None =>
        match generate_hashkey digest 0 fuel (hashkey <$> rows) with
        | Some key => Some (rows ++ [mkDiploma (design_id design) profile key full_name grade])
        | None => None
        end
    end.

(** Every diploma can be found by its key, and a profile has one per design. *)
Definition diplomas_ok (rows : list StudentDiploma) : Prop :=
  NoDup (hashkey <$> rows) /\ NoDup ((fun d => (diploma_design d, diploma_profile d)) <$> rows)
  /\ Forall (fun d => 0 <= diploma_grade d) rows.

Lemma generate_hashkey_fresh digest fuel : forall turn used key,
  generate_hashkey digest turn fuel used = Some key -> key ∉ used.
Proof.
  induction fuel as [|fuel IH]; intros turn used key Hk; cbn in Hk; [done|].
  case_bool_decide; [by eapply IH|congruence].
Qed.

Lemma generate_hashkey_stuck digest fuel : forall turn used,
  generate_hashkey digest turn fuel used = None -> forall i, (i < fuel)%nat -> digest (turn + i)%nat ∈ used.
Proof.
  induction fuel as [|fuel IH]; intros turn used Hk i Hi; cbn in Hk; [lia|].
  case_bool_decide; [|done]. destruct i as [|i]; [by rewrite Nat.add_0_r|].
  replace (turn + S i)%nat with (S turn + i)%nat by lia. apply IH; [done|lia].
Qed.

(** Distinct digests give a key before every used one has been tried. *)
Lemma generate_hashkey_ends digest used :
  (forall i j, digest i = digest j -> i = j) ->
  exists key, generate_hashkey digest 0 (S (length used)) used = Some key.
Proof.
  intros Hinj. destruct (generate_hashkey _ _ _ _) as [key|] eqn:E; [by exists key|].
  pose proof (generate_hashkey_stuck _ _ _ _ E) as Hin. exfalso.
  assert (length (digest <$> seq 0 (S (length used))) <= length used)%nat as Hlen.
  { apply submseteq_length, NoDup_submseteq.
    - apply NoDup_fmap_2_strong; [by intros; apply Hinj|apply NoDup_seq].
    - intros x (i & -> & Hi)%list_elem_of_fmap. apply elem_of_seq in Hi. apply (Hin i). lia. }
  rewrite length_fmap, length_seq in Hlen. lia.
Qed.

(** Creating a diploma keeps the table in order. *)
Lemma create_diploma_ok digest fuel staff owner profile name design grade rows rows' :
  create_diploma digest fuel staff owner profile name design grade rows = Some rows' ->
  diplomas_ok rows -> diplomas_ok rows'.
Proof.
  intros Hc (Hk & Hp & Hg). unfold create_diploma in Hc.
  destruct (negb (owner =? profile) && negb staff); [done|]. destruct (grade <? 0) eqn:E; [done|]. b2p.
  destruct (find _ rows) as [old|] eqn:Ef.
  - injection Hc as <-. unfold diplomas_ok. rewrite <- !list_fmap_compose. split_and!.
    + erewrite list_fmap_ext; [exact Hk|]. intros i d _. cbn. by case_bool_decide.
    + erewrite list_fmap_ext; [exact Hp|]. intros i d _. cbn. by case_bool_decide.
    + apply Forall_fmap. eapply Forall_impl; [exact Hg|]. intros d Hd. cbn. by case_bool_decide.
  - destruct (generate_hashkey _ _ _ _) as [key|] eqn:Eg; [|done]. injection Hc as <-.
    apply generate_hashkey_fresh in Eg. unfold diplomas_ok. rewrite !fmap_app. cbn. split_and!.
    + apply NoDup_snoc; done.
    + apply NoDup_snoc; [done|]. intros (d & Ed & Hd)%list_elem_of_fmap.
      apply list_elem_of_In in Hd. pose proof (find_none _ _ Ef d Hd) as Hn. unfold is_diploma_of in Hn.
      injection Ed as E1 E2. rewrite <- E1, <- E2, !Z.eqb_refl in Hn. done.
    + apply Forall_app. split; [done|]. by constructor.
Qed.
