(* ===== verification/Permissions.v ===== *)
(** * Permissions of pages and lists

    [authorization/permissions.py], [authorization/views.py],
    [course/permissions.py], [exercise/permissions.py] and the parts of
    [course/viewbase.py] and [exercise/viewbase.py] that put them together: what
    is checked before a page is shown, in which order, and who passes.

    A check grants or refuses, with the key of the message it adds to the
    refusal; a check may raise.  The permissions inside the token of a service
    are data of the token library: the model takes the library's [has] as an
    argument. *)

From Stdlib Require Import QArith.
From S2P Require Import Prelude Binary64 Helpers Course Deviations Reveal Models Exercise Submission Entries Points CoursePoints Threshold.
#[local] Open Scope Z_scope.

(** ** Requests, views and decisions *)

Inductive AccessPermission := READ | WRITE | CREATE.
#[global] Instance AccessPermission_eq_dec : EqDecision AccessPermission.
Proof. solve_decision. Defined.

(** [Payload.permissions.has(key, permission, **{id_key: id})] *)
Abbreviation PayloadHas := (string -> AccessPermission -> string -> Z -> bool).

Record Request := mkRequest {
  request_user : AnyUser;
  (** [request.auth], when it is a token. *)
  request_auth : option PayloadHas;
}.

(** [user.is_superuser] and [user.is_staff]; the anonymous user and graders have
    neither, and [request.user] is never [None]. *)
Definition user_is_superuser (u : AnyUser) : bool :=
  match u with NormalUser u => is_superuser u | _ => false end.
Definition user_is_staff (u : AnyUser) : bool :=
  match u with NormalUser u => is_staff u | _ => false end.
Definition is_grader (u : AnyUser) : bool :=
  match u with GraderUser _ => true | _ => false end.

(** src/authorization/permissions.py: ACCESS lines 97-106 *)
Module ACCESS.
Definition ANONYMOUS := 0.
Definition ENROLL := 1.
Definition STUDENT := 3.
Definition ENROLLED := 4.
Definition ASSISTANT := 5.
Definition GRADING := 6.
Definition TEACHER := 10.
Definition SUPERUSER := 100.
End ACCESS.

(** A learning object of a page: the object, its fields when it is an exercise,
    and for it and each of its ancestors, nearest first, whether it is a chapter
    and the modules whose model answer it is. *)
Record Viewed := mkViewed {
  viewed_object : LearningObject;
  viewed_exercise : option BaseExercise;
  viewed_path : list (bool * list ModulePoints);
}.

(** [is_submittable] holds of exercises and of no other learning object. *)
Definition is_submittable (v : Viewed) : bool := bool_decide (is_Some (viewed_exercise v)).

(** The views that answer with the page of a learning object override the access
    mode of their base class. *)
Inductive ViewClass := ExerciseView | OtherView.
#[global] Instance ViewClass_eq_dec : EqDecision ViewClass.
Proof. solve_decision. Defined.

(** The attributes of a view that the checks read. *)
Record View := mkView {
  view_class : ViewClass;
  view_access_mode : Z;
  view_instance : CourseInstance;
  view_is_student : bool;
  view_is_assistant : bool;
  view_is_teacher : bool;
  view_module : option CourseModule;
  view_requirements : list CourseModuleRequirement;
  view_points : CachedPoints;
  view_object : option Viewed;
  view_submission : option Submission;
}.

Definition view_is_course_staff (v : View) : bool := view_is_teacher v || view_is_assistant v.

Inductive decision := Granted | Refused (message : string).
#[global] Instance decision_eq_dec : EqDecision decision.
Proof. solve_decision. Defined.

Definition granted (d : decision) : bool := match d with Granted => true | Refused _ => false end.

(** A check without a message of its own. *)
Definition decide_by (b : bool) : decision := if b then Granted else Refused "".

(** The [|] of two permission classes asks the second when the first refuses; the
    message shown is that of the first. *)
Definition either (first second : result decision) : result decision :=
  match first with
  | Ret Granted => Ret Granted
  | Ret (Refused message) =>
      let! d := second in
      Ret (if granted d then Granted else Refused message)
  | Raise e => Raise e
  end.

(** src/authorization/views.py: AuthorizationMixin.check_permissions *)
Fixpoint check_permissions (checks : list (result decision)) : result decision :=
  match checks with
  | [] => Ret Granted
  | check :: checks =>
      let! d := check in
      if granted d then check_permissions checks else Ret d
  end.

(** ** Access modes *)

Definition is_enrollment_exercise (o : LearningObject) : bool :=
  bool_decide (lobj_status o ∈ [LObjStatus.ENROLLMENT; LObjStatus.ENROLLMENT_EXTERNAL]).

(** src/course/viewbase.py: CourseInstanceBaseMixin.get_access_mode *)
Definition instance_access_mode (v : View) : Z :=
  let mode := view_access_mode v in
  let is_public := bool_decide (view_content_to (view_instance v) = ViewAccess.PUBLIC) in
  if is_public && ((mode =? ACCESS.STUDENT) || (mode =? ACCESS.ENROLL)) then ACCESS.ANONYMOUS else mode.

(** src/exercise/views.py: ExerciseView.get_access_mode lines 107-117.  The page of an
    enrollment exercise is loosened to those who may enroll; the other views keep
    the mode of the course instance. *)
Definition get_access_mode (v : View) : Z :=
  let access_mode := instance_access_mode v in
  match view_class v, view_object v with
  | ExerciseView, Some exercise =>
      if is_enrollment_exercise (viewed_object exercise) && (access_mode =? ACCESS.STUDENT)
      then ACCESS.ENROLL else access_mode
  | _, _ => access_mode
  end.

(** src/authorization/permissions.py: AccessModePermission.has_permission *)
Definition access_mode_permission (r : Request) (v : View) : decision :=
  let access_mode := get_access_mode v in
  if access_mode =? ACCESS.ANONYMOUS then Granted
  else if negb (is_authenticated (request_user r)) then Refused "ACCESS_ERROR_ONLY_AUTHENTICATED"
  else if ACCESS.SUPERUSER <=? access_mode then decide_by (user_is_superuser (request_user r))
  else if ACCESS.TEACHER <=? access_mode then
    if view_is_teacher v then Granted else Refused "ACCESS_ERROR_ONLY_TEACHERS"
  else if ACCESS.ASSISTANT <=? access_mode then
    if view_is_course_staff v then Granted else Refused "ACCESS_ERROR_ONLY_COURSE_STAFF"
  else if access_mode =? ACCESS.ENROLLED then
    if negb (view_is_course_staff v) && negb (view_is_student v)
    then Refused "ACCESS_ERROR_ONLY_ENROLLED_STUDENTS" else Granted
  else Granted.

(** src/authorization/permissions.py: ObjectVisibleBasePermission.has_object_permission.
    [visible] is the [is_object_visible] of the class. *)
Definition object_visible (r : Request) (visible : result decision) : result decision :=
  if user_is_staff (request_user r) || user_is_superuser (request_user r) then Ret Granted
  else visible.

(** src/authorization/permissions.py: ObjectVisibleBasePermission.has_permission *)
Definition has_object {A} (obj : option A) (check : A -> result decision) : result decision :=
  match obj with
  | None => Ret Granted
  | Some obj => check obj
  end.

(** src/course/permissions.py: JWTObjectPermission.has_object_permission.  [id] is the
    id of the object when it is of the class in question. *)
Definition jwt_permission (r : Request) (access_key : string) (access_type : AccessPermission)
    (id_key : string) (id : option Z) : decision :=
  match request_auth r with
  | None => Refused ""
  | Some has =>
      match id with
      | None => Granted
      | Some id => decide_by (has access_key access_type id_key id)
      end
  end.

Section Checks.
Context `{Settings}.

(** ** Course instances *)

(** src/course/permissions.py: CourseVisiblePermissionBase.enrollment_audience_check *)
Definition enrollment_audience_check (course : CourseInstance) (user : AnyUser) : result decision :=
  match user with
  | NormalUser u =>
      let external := is_external (userprofile u) in
      match enrollment_audience course with
      | EnrollmentAudience.INTERNAL_USERS =>
          Ret (if external then Refused "COURSE_ENROLLMENT_AUDIENCE_ERROR_ONLY_INTERNAL" else Granted)
      | EnrollmentAudience.EXTERNAL_USERS =>
          Ret (if external then Granted else Refused "COURSE_ENROLLMENT_AUDIENCE_ERROR_ONLY_EXTERNAL")
      | EnrollmentAudience.ALL_USERS => Ret Granted
      end
  | _ => Raise AttributeError
  end.

(** src/course/permissions.py: CourseVisiblePermissionBase.is_object_visible *)
Definition course_is_visible (r : Request) (v : View) (course : CourseInstance) : result decision :=
  let user := request_user r in
  if is_grader user then Ret (Refused "")
  else if view_is_course_staff v then Ret Granted
  else if negb (visible_to_students course) then Ret (Refused "COURSE_VISIBILITY_ERROR_NOT_VISIBLE")
  else
    match view_content_to course with
    | ViewAccess.PUBLIC => Ret Granted
    | show_for =>
        if negb (is_authenticated user) then Ret (Refused "COURSE_VISIBILITY_ERROR_NOT_PUBLIC")
        else if view_is_student v then Ret Granted
        else if get_access_mode v =? ACCESS.ENROLL then enrollment_audience_check course user
        else
          match show_for with
          | ViewAccess.ENROLLED => Ret (Refused "ACCESS_ERROR_ONLY_ENROLLED_STUDENTS")
          | ViewAccess.ENROLLMENT_AUDIENCE => enrollment_audience_check course user
          | _ => Ret Granted
          end
    end.

(** src/course/permissions.py: EnrollInfoVisiblePermission.is_object_visible *)
Definition enroll_info_is_visible (r : Request) (v : View) (course : CourseInstance) : decision :=
  if view_is_course_staff v then Granted
  else if negb (visible_to_students course) then Refused "COURSE_VISIBILITY_ERROR_NOT_VISIBLE"
  else if negb (bool_decide (view_content_to course = ViewAccess.PUBLIC))
          && negb (is_authenticated (request_user r))
  then Refused "COURSE_VISIBILITY_ERROR_NOT_PUBLIC"
  else Granted.

(** [CourseVisiblePermission] on the page of a course instance. *)
Definition course_visible_permission (r : Request) (v : View) : result decision :=
  either (has_object (Some (view_instance v))
            (fun course => object_visible r (course_is_visible r v course)))
         (Ret (jwt_permission r "courses" READ "id" (Some (course_id (view_instance v))))).

(** ** Modules *)

(** src/course/permissions.py: CourseModulePermissionBase.has_object_permission *)
Definition module_object_permission (r : Request) (v : View) (now : datetime) (module : CourseModule)
    : result decision :=
  if is_grader (request_user r) then Ret (Refused "")
  else if bool_decide (module_status module = ModuleStatus.HIDDEN) then Ret (Refused "")
  else if (match view_object v with
           | Some o => is_enrollment_exercise (viewed_object o)
           | None => false
           end)
  then Ret Granted
  else if negb (is_after_open module now) then Ret (Refused "MODULE_PERMISSION_ERROR_NOT_OPEN_YET")
  else
    match view_requirements v with
    | [] => Ret Granted
    | requirements =>
        let! passed := are_requirements_passed requirements (view_points v) in
        Ret (decide_by passed)
    end.

(** src/course/permissions.py: CourseModulePermissionBase.has_permission *)
Definition module_permission_base (r : Request) (v : View) (now : datetime) : result decision :=
  if view_is_course_staff v then Ret Granted
  else
    match view_module v with
    | Some module => module_object_permission r v now module
    | None => Ret (decide_by (negb (is_grader (request_user r))))
    end.

(** [CourseModulePermission] *)
Definition module_permission (r : Request) (v : View) (now : datetime) : result decision :=
  either (module_permission_base r v now)
         (Ret (jwt_permission r "instances" READ "id" (Some (instance_id (view_instance v))))).

(** ** Exercises *)

(** src/exercise/cache/points.py: LearningObjectPoints.is_revealed *)
Fixpoint entry_is_revealed (path : list (bool * list ModulePoints)) : bool :=
  match path with
  | [] => true
  | (_, model_answer_modules) :: parents =>
      if negb (entry_is_revealed parents) then false
      else forallb mp_is_model_answer_revealed model_answer_modules
  end.

(** src/exercise/exercise_models.py: LearningObject.can_be_shown_as_module_model_solution,
    with the override of [CourseChapter]. *)
Fixpoint can_be_shown_as_module_model_solution (path : list (bool * list ModulePoints)) : bool :=
  match path with
  | [] => true
  | (is_chapter, _) :: parents =>
      if is_chapter then entry_is_revealed path else can_be_shown_as_module_model_solution parents
  end.

(** src/exercise/permissions.py: ExerciseVisiblePermissionBase.is_object_visible *)
Definition exercise_is_visible (r : Request) (v : View) (db : EnrollmentDB) (now : datetime)
    (exercise : Viewed) : decision :=
  let o := viewed_object exercise in
  let user := request_user r in
  let student := is_student (lobj_instance o) db user in
  let external := match user with NormalUser u => is_external (userprofile u) | _ => false end in
  if view_is_course_staff v then Granted
  else if is_grader user then Refused ""
  else if bool_decide (lobj_status o = LObjStatus.HIDDEN)
  then Refused "EXERCISE_VISIBILITY_ERROR_NOT_VISIBLE"
  else if is_submittable exercise && negb (have_exercises_been_opened (course_module o) now)
          && negb (is_enrollment_exercise o)
  then Refused "EXERCISE_VISIBILITY_ERROR_NOT_OPEN_YET"
  else
    let refused :=
      match audience o with
      | Audience.REGISTERED_USERS =>
          if negb student then Some "EXERCISE_VISIBLITY_ERROR_ONLY_RESISTERED_USERS"%string else None
      | Audience.INTERNAL_USERS =>
          if negb student || external
          then Some "EXERCISE_VISIBLITY_ERROR_ONLY_INTERNAL_USERS"%string else None
      | Audience.EXTERNAL_USERS =>
          if negb student || negb external
          then Some "EXERCISE_VISIBLITY_ERROR_ONLY_EXTERNAL_USERS"%string else None
      | Audience.COURSE_AUDIENCE => None
      end in
    match refused with
    | Some message => Refused message
    | None =>
        if negb (can_be_shown_as_module_model_solution (viewed_path exercise))
        then Refused "MODULE_MODEL_ANSWER_VISIBILITY_PERMISSION_DENIED_MSG" else Granted
    end.

(** [ExerciseVisiblePermission] *)
Definition exercise_visible_permission (r : Request) (v : View) (db : EnrollmentDB) (now : datetime)
    : result decision :=
  either (has_object (view_object v)
            (fun exercise => object_visible r (Ret (exercise_is_visible r v db now exercise))))
         (Ret (jwt_permission r "exercises" READ "id"
                 (o ← view_object v; exercise ← viewed_exercise o; Some (exercise_id exercise)))).

(** src/exercise/permissions.py: BaseExerciseAssistantPermission.is_object_visible *)
Definition exercise_assistant (v : View) (exercise : BaseExercise) : decision :=
  let access_mode := get_access_mode v in
  if (ACCESS.ASSISTANT <=? access_mode)
     && negb (view_is_teacher v || allow_assistant_viewing exercise)
  then Refused "EXERCISE_ASSISTANT_PERMISSION_ERROR_NO_ASSISTANT_VIEWING"
  else if (access_mode =? ACCESS.GRADING)
          && negb (view_is_teacher v || allow_assistant_grading exercise)
  then Refused "EXERCISE_ASSISTANT_PERMISSION_NO_ASSISTANT_GRADING"
  else Granted.

Definition exercise_assistant_permission (r : Request) (v : View) : result decision :=
  has_object (o ← view_object v; viewed_exercise o)
    (fun exercise => object_visible r (Ret (exercise_assistant v exercise))).

(** src/exercise/exercise_models.py: BaseExercise.can_show_model_solutions_to_student.
    [state] is the reveal state of the exercise for the student. *)
Definition can_show_model_solutions_to_student (self : BaseExercise) (db : EnrollmentDB)
    (student : AnyUser) (state : RevealState) (now : datetime) : bool :=
  if is_course_staff (lobj_instance self) db student then true
  else if is_on_lifesupport (lobj_instance self) now || is_archived (lobj_instance self) now then false
  else if negb (is_authenticated student) then false
  else is_revealed (active_model_solutions_reveal_rule self) state now.

(** src/exercise/permissions.py: ModelVisiblePermission.is_object_visible *)
Definition model_is_visible (r : Request) (v : View) (db : EnrollmentDB) (state : RevealState)
    (now : datetime) (exercise : BaseExercise) : decision :=
  if view_is_course_staff v then Granted
  else if negb (can_show_model_solutions_to_student exercise db (request_user r) state now)
  then Refused "EXERCISE_MODEL_ANSWER_VISIBILITY_ERROR_NOT_ALLOWED_VIEWING"
  else Granted.

Definition model_visible_permission (r : Request) (v : View) (db : EnrollmentDB) (state : RevealState)
    (now : datetime) : result decision :=
  has_object (o ← view_object v; viewed_exercise o)
    (fun exercise => object_visible r (Ret (model_is_visible r v db state now exercise))).

(** ** Submissions *)

(** src/exercise/submission_models.py: Submission.is_submitter.  A grader is its own
    profile, without an id. *)
Definition is_submitter (s : Submission) (user : AnyUser) : bool :=
  match user with
  | NormalUser u => submitted_by s (userprofile u)
  | NoUser | AnonymousUser | GraderUser _ => false
  end.

(** src/exercise/permissions.py: SubmissionVisiblePermissionBase.is_object_visible.
    [viewing] is [allow_assistant_viewing] of the exercise of the submission. *)
Definition submission_is_visible (r : Request) (v : View) (viewing : bool) (s : Submission) : decision :=
  match request_user r with
  | GraderUser _ => Refused ""
  | NormalUser u =>
      if view_is_teacher v || (view_is_assistant v && viewing) || is_submitter s (request_user r)
      then Granted else Refused "SUBMISSION_VISIBILITY_ERROR_ONLY_SUBMITTER"
  | NoUser | AnonymousUser => Refused "SUBMISSION_VISIBILITY_ERROR_ONLY_SUBMITTER"
  end.

(** [SubmissionVisiblePermission] *)
Definition submission_visible_permission (r : Request) (v : View) (viewing : bool) : result decision :=
  either (has_object (view_submission v)
            (fun s => object_visible r (Ret (submission_is_visible r v viewing s))))
         (Ret (jwt_permission r "submissions" READ "id" (sub_id <$> view_submission v))).

(** src/exercise/permissions.py: SubmissionVisibleFilter.filter_queryset.  [viewing]
    gives [allow_assistant_viewing] of the exercise of each submission. *)
Definition filter_submissions (r : Request) (v : View) (viewing : Submission -> bool)
    (queryset : list Submission) : result (list Submission) :=
  let user := request_user r in
  let is_super := user_is_staff user || user_is_superuser user in
  if negb (view_is_teacher v) && negb is_super then
    if view_is_assistant v then Ret (List.filter viewing queryset)
    else
      match user with
      | NormalUser u => Ret (List.filter (fun s => submitted_by s (userprofile u)) queryset)
      | GraderUser _ => Raise TypeError
      | NoUser | AnonymousUser => Raise AttributeError
      end
  else Ret queryset.

(** ** Staff *)

(** src/course/permissions.py: OnlyCourseTeacherPermission.has_object_permission *)
Definition only_course_teacher (r : Request) (v : View) : decision :=
  decide_by (view_is_teacher v || user_is_superuser (request_user r)).

(** src/course/permissions.py: OnlyCourseStaffPermission.has_object_permission *)
Definition only_course_staff (r : Request) (v : View) : decision :=
  decide_by (view_is_course_staff v || user_is_superuser (request_user r)).

(** src/course/permissions.py: OnlyEnrolledStudentOrCourseStaffPermission.has_object_permission *)
Definition only_enrolled_or_staff (r : Request) (v : View) : decision :=
  decide_by (view_is_student v || view_is_course_staff v || user_is_superuser (request_user r)).

(** src/course/permissions.py: IsCourseAdminOrUserObjIsSelf.has_object_permission, for the
    profile of the user with the given id. *)
Definition admin_or_self (r : Request) (v : View) (user_id_of_obj : Z) : decision :=
  match request_user r with
  | NormalUser u => if user_id u =? user_id_of_obj then Granted else only_course_staff r v
  | _ => only_course_staff r v
  end.

(** src/course/permissions.py: IsCourseAdminOrUserObjIsSelf.filter_queryset, on the user ids
    of the profiles; the anonymous user and graders have no id, which matches
    none. *)
Definition filter_profiles (r : Request) (v : View) (queryset : list Z) : list Z :=
  if negb (view_is_course_staff v) && negb (user_is_superuser (request_user r)) then
    List.filter (fun i => match request_user r with
                          | NormalUser u => i =? user_id u
                          | _ => false
                          end) queryset
  else queryset.

(** ** Pages *)

(** src/course/viewbase.py: CourseInstanceBaseMixin.get_resource_objects lines 90-100.
    The role flags of a view are those of the user in the course instance. *)
Definition view_for (class : ViewClass) (mode : Z) (user : AnyUser) (db : EnrollmentDB) (instance : CourseInstance)
    (module : option CourseModule) (requirements : list CourseModuleRequirement)
    (points : CachedPoints) (object : option Viewed) (submission : option Submission) : View :=
  mkView class mode instance (is_student instance db user) (is_assistant instance db user)
    (is_teacher instance db user) module requirements points object submission.

(** The permissions of the page of a learning object, in the order in which the
    base classes of src/exercise/viewbase.py add them. *)
Definition exercise_page_checks (r : Request) (v : View) (db : EnrollmentDB) (now : datetime)
    : list (result decision) :=
  [Ret (access_mode_permission r v); course_visible_permission r v; module_permission r v now;
   exercise_visible_permission r v db now; exercise_assistant_permission r v].

(** The page of a submission adds one. *)
Definition submission_page_checks (r : Request) (v : View) (db : EnrollmentDB) (now : datetime)
    (viewing : bool) : list (result decision) :=
  exercise_page_checks r v db now ++ [submission_visible_permission r v viewing].

(** The page of a model answer adds another. *)
Definition model_page_checks (r : Request) (v : View) (db : EnrollmentDB) (state : RevealState)
    (now : datetime) : list (result decision) :=
  exercise_page_checks r v db now ++ [model_visible_permission r v db state now].

End Checks.

(** ** Every check counts *)

Lemma check_permissions_granted checks :
  check_permissions checks = Ret Granted <-> Forall (fun c => c = Ret Granted) checks.
Proof.
  induction checks as [|c checks IH]; cbn; [done|]. rewrite Forall_cons, <- IH.
  destruct c as [[|m]|e]; cbn; naive_solver.
Qed.

Lemma either_granted first second :
  either first second = Ret Granted <->
  first = Ret Granted \/ (exists m, first = Ret (Refused m)) /\ second = Ret Granted.
Proof. destruct first as [[|m]|e], second as [[|m2]|e2]; cbn; naive_solver. Qed.

Lemma object_visible_granted r visible :
  object_visible r visible = Ret Granted <->
  user_is_staff (request_user r) = true \/ user_is_superuser (request_user r) = true
  \/ visible = Ret Granted.
Proof.
  unfold object_visible. destruct (user_is_staff _), (user_is_superuser _); cbn; naive_solver.
Qed.

Section Students.
Context `{Settings}.

(** ** What a student needs *)

(** The user may enroll in the course. *)
Definition in_enrollment_audience (inst : CourseInstance) (u : User) : bool :=
  match enrollment_audience inst with
  | EnrollmentAudience.INTERNAL_USERS => negb (is_external (userprofile u))
  | EnrollmentAudience.EXTERNAL_USERS => is_external (userprofile u)
  | EnrollmentAudience.ALL_USERS => true
  end.

(** The course is shown to students, and to this one: to everybody, to its
    students, and otherwise as the course is set, except that its enrollment
    exercises are for those who may enroll. *)
Definition course_open_to (inst : CourseInstance) (u : User) (student enrolling : bool) : bool :=
  visible_to_students inst
  && match view_content_to inst with
     | ViewAccess.PUBLIC => true
     | shown =>
         student
         || (if enrolling then in_enrollment_audience inst u
             else match shown with
                  | ViewAccess.ENROLLED => false
                  | ViewAccess.ENROLLMENT_AUDIENCE => in_enrollment_audience inst u
                  | _ => true
                  end)
     end.

(** The student belongs to the audience of the learning object. *)
Definition in_audience (o : LearningObject) (u : User) (student : bool) : bool :=
  match audience o with
  | Audience.COURSE_AUDIENCE => true
  | Audience.REGISTERED_USERS => student
  | Audience.INTERNAL_USERS => student && negb (is_external (userprofile u))
  | Audience.EXTERNAL_USERS => student && is_external (userprofile u)
  end.

Context (u : User) (db : EnrollmentDB) (inst : CourseInstance) (m : CourseModule).
Context (requirements : list CourseModuleRequirement) (points : CachedPoints) (o : Viewed).
Context (now : datetime).
Let user := NormalUser u.
Let r := mkRequest user None.
Let v := view_for ExerciseView ACCESS.STUDENT user db inst (Some m) requirements points (Some o) None.

(** A user without any power in the system or the course. *)
Definition plain_user : Prop :=
  is_staff u = false /\ is_superuser u = false /\ is_course_staff inst db (NormalUser u) = false.

Lemma plain_view_staff : plain_user -> view_is_course_staff v = false.
Proof. by intros (_ & _ & Hs). Qed.

Lemma plain_object_visible visible : plain_user -> object_visible r visible = visible.
Proof. intros (Hst & Hsu & _). unfold object_visible. cbn. by rewrite Hst, Hsu. Qed.

Lemma plain_course_visible :
  plain_user ->
  course_visible_permission r v = Ret Granted
  <-> course_open_to inst u (is_student inst db user) (is_enrollment_exercise (viewed_object o)) = true.
Proof.
  intros Hp. unfold course_visible_permission. cbn [has_object].
  rewrite plain_object_visible by done. unfold course_is_visible.
  rewrite plain_view_staff by done. unfold course_open_to, get_access_mode, instance_access_mode,
    in_enrollment_audience, enrollment_audience_check.
  cbn -[is_student is_external is_enrollment_exercise]. fold user.
  destruct (is_enrollment_exercise (viewed_object o)), (visible_to_students inst), (view_content_to inst), (is_student inst db user),
    (enrollment_audience inst), (is_external (userprofile u)); clear; cbn; by split.
Qed.

Lemma plain_module_permission :
  plain_user ->
  module_permission r v now = Ret Granted
  <-> module_status m <> ModuleStatus.HIDDEN
      /\ (is_enrollment_exercise (viewed_object o) = true
          \/ is_after_open m now = true /\ are_requirements_passed requirements points = Ret true).
Proof.
  intros Hp. unfold module_permission, module_permission_base. rewrite plain_view_staff by done.
  cbn [view_module v view_for]. unfold module_object_permission. cbn -[is_after_open are_requirements_passed].
  case_bool_decide as Hh; [cbn; naive_solver|].
  destruct (is_enrollment_exercise (viewed_object o)); [cbn; naive_solver|].
  destruct (is_after_open m now); cbn -[are_requirements_passed]; [|naive_solver].
  destruct requirements as [|q qs]; [cbn; naive_solver|].
  destruct (are_requirements_passed (q :: qs) points) as [[]|]; cbn; naive_solver.
Qed.

Lemma plain_exercise_visible :
  plain_user -> lobj_instance (viewed_object o) = inst ->
  exercise_visible_permission r v db now = Ret Granted
  <-> lobj_status (viewed_object o) <> LObjStatus.HIDDEN
      /\ (is_submittable o = false \/ have_exercises_been_opened (course_module (viewed_object o)) now = true
          \/ is_enrollment_exercise (viewed_object o) = true)
      /\ in_audience (viewed_object o) u (is_student inst db user) = true
      /\ can_be_shown_as_module_model_solution (viewed_path o) = true.
Proof.
  intros Hp Hi. unfold exercise_visible_permission. cbn [has_object view_object v view_for].
  rewrite plain_object_visible by done. unfold exercise_is_visible, in_audience. rewrite Hi.
  rewrite plain_view_staff by done. cbn -[is_student is_external have_exercises_been_opened]. fold user.
  case_bool_decide as Hh; [cbn; clear -Hh; split; [done|by intros [? _]]|].
  destruct (is_submittable o), (have_exercises_been_opened _ now),
    (is_enrollment_exercise (viewed_object o)); cbn -[is_student is_external];
    try (clear; intuition discriminate);
    destruct (audience (viewed_object o)), (is_student inst db user), (is_external (userprofile u)),
      (can_be_shown_as_module_model_solution (viewed_path o)); clear -Hh; cbn;
    (split; [intros E; (discriminate E || by auto)|intros (_ & _ & E1 & E2); (discriminate E1 || discriminate E2 || done)]).
Qed.

Lemma plain_other_checks :
  plain_user -> access_mode_permission r v = Granted /\ exercise_assistant_permission r v = Ret Granted.
Proof.
  intros Hp. unfold access_mode_permission, exercise_assistant_permission, exercise_assistant,
    get_access_mode, instance_access_mode. cbn -[is_enrollment_exercise].
  split; [by destruct (bool_decide _), (is_enrollment_exercise _)|].
  destruct (viewed_exercise o); [|done]. cbn -[is_enrollment_exercise].
  rewrite plain_object_visible by done. by destruct (bool_decide _), (is_enrollment_exercise _).
Qed.

(** C27. A user who is not staff sees the page of a learning object exactly when
    the course is shown to students and to this user (an enrollment exercise of a
    course that is not public: to its students and those who may enroll), its module is not hidden,
    is open and its requirements are passed (an enrollment exercise needs neither),
    and the object is not hidden, the exercises of its module have been opened if
    it is an exercise and not an enrollment exercise, the user is in its audience,
    and no chapter above it is a model answer that is still hidden. *)
Theorem exercise_page_open_to :
  plain_user -> course_module (viewed_object o) = m -> module_instance m = inst ->
  check_permissions (exercise_page_checks r v db now) = Ret Granted
  <-> course_open_to inst u (is_student inst db user) (is_enrollment_exercise (viewed_object o)) = true
      /\ module_status m <> ModuleStatus.HIDDEN
      /\ (is_enrollment_exercise (viewed_object o) = true
          \/ is_after_open m now = true /\ are_requirements_passed requirements points = Ret true)
      /\ lobj_status (viewed_object o) <> LObjStatus.HIDDEN
      /\ (is_submittable o = false \/ have_exercises_been_opened m now = true
          \/ is_enrollment_exercise (viewed_object o) = true)
      /\ in_audience (viewed_object o) u (is_student inst db user) = true
      /\ can_be_shown_as_module_model_solution (viewed_path o) = true.
Proof.
  intros Hp Hm Hi. assert (lobj_instance (viewed_object o) = inst) as Ho.
  { unfold lobj_instance. by rewrite Hm. }
  rewrite check_permissions_granted. unfold exercise_page_checks. rewrite !Forall_cons, Forall_nil.
  rewrite plain_course_visible, plain_module_permission, plain_exercise_visible by done.
  destruct (plain_other_checks Hp) as [-> ->]. rewrite Hm. clear. naive_solver.
Qed.

End Students.

(** ** What nobody else sees *)

Section Safety.
Context `{Settings}.

(** Whoever is let to the page of a course has a right to it. *)
Lemma course_visible_permission_granted r v :
  course_visible_permission r v = Ret Granted ->
  user_is_staff (request_user r) = true \/ user_is_superuser (request_user r) = true
  \/ view_is_course_staff v = true \/ visible_to_students (view_instance v) = true
  \/ exists has, request_auth r = Some has
                 /\ has "courses"%string READ "id"%string (course_id (view_instance v)) = true.
Proof.
  unfold course_visible_permission. rewrite either_granted. cbn [has_object].
  rewrite object_visible_granted. unfold course_is_visible, jwt_permission, decide_by.
  intros [[Hs|[Hs|Hv]]|[_ Hj]].
  - by left.
  - by right; left.
  - destruct (is_grader (request_user r)); [done|].
    destruct (view_is_course_staff v); [by auto|].
    destruct (visible_to_students (view_instance v)); [by auto 6|done].
  - destruct (request_auth r) as [has|]; [|done]. do 4 right. exists has. split; [done|].
    by destruct (has _ _ _ _).
Qed.

(** Whoever is let to the page of a submission has a right to it. *)
Lemma submission_visible_permission_granted r v viewing s :
  view_submission v = Some s ->
  submission_visible_permission r v viewing = Ret Granted ->
  user_is_staff (request_user r) = true \/ user_is_superuser (request_user r) = true
  \/ view_is_teacher v = true \/ (view_is_assistant v = true /\ viewing = true)
  \/ is_submitter s (request_user r) = true
  \/ exists has, request_auth r = Some has
                 /\ has "submissions"%string READ "id"%string (sub_id s) = true.
Proof.
  intros Es. unfold submission_visible_permission. rewrite Es, either_granted. cbn [has_object].
  rewrite object_visible_granted. unfold submission_is_visible, jwt_permission, decide_by.
  intros [[Hs|[Hs|Hv]]|[_ Hj]].
  - by left.
  - by right; left.
  - destruct (request_user r) as [| |u|]; try done.
    destruct (view_is_teacher v); [by auto|]. destruct (is_submitter s (NormalUser u)); [by auto 6|].
    destruct (view_is_assistant v), viewing; try done. by auto 6.
  - destruct (request_auth r) as [has|]; [|done]. do 5 right. exists has. split; [done|].
    cbn in Hj. by destruct (has _ _ _ _).
Qed.

(** C28. Whatever the user and the page, the submission that the page has is shown
    only to its submitters, the teachers of the course, assistants where the exercise lets
    them view, the staff of the site, and services whose token names it; and only
    when the course is shown to students or the reader is staff or has a token
    for the course.  That the page looks the submission up among those of its
    exercise is not part of the checks. *)
Theorem submission_page_private (r : Request) (class : ViewClass) (mode : Z) (db : EnrollmentDB) (inst : CourseInstance)
    (m : option CourseModule) (requirements : list CourseModuleRequirement) (points : CachedPoints)
    (o : option Viewed) (s : Submission) (viewing : bool) (now : datetime) :
  let user := request_user r in
  let v := view_for class mode user db inst m requirements points o (Some s) in
  let site_staff := user_is_staff user = true \/ user_is_superuser user = true in
  let token key id := exists has, request_auth r = Some has /\ has key READ "id"%string id = true in
  check_permissions (submission_page_checks r v db now viewing) = Ret Granted ->
  (site_staff \/ is_teacher inst db user = true
   \/ (is_assistant inst db user = true /\ viewing = true)
   \/ is_submitter s user = true \/ token "submissions"%string (sub_id s))
  /\ (site_staff \/ is_course_staff inst db user = true \/ visible_to_students inst = true
      \/ token "courses"%string (course_id inst)).
Proof.
  intros user v site_staff token. rewrite check_permissions_granted.
  unfold submission_page_checks, exercise_page_checks. rewrite Forall_app, !Forall_cons.
  intros [(_ & Hc & _) [Hs _]].
  apply course_visible_permission_granted in Hc.
  apply (submission_visible_permission_granted _ _ _ s) in Hs; [|done].
  split; [destruct Hs as [?|[?|Hs]]|destruct Hc as [?|[?|Hc]]];
    [left; by left|left; by right|right; exact Hs|left; by left|left; by right|right; exact Hc].
Qed.

(** ** Lists of submissions *)

(** The filter of lists shows a user only submissions whose pages the user
    may open, and hides one of these only from an assistant, in an exercise
    that does not let assistants view, where it is the assistant's own. *)
Theorem submission_filter_agrees (u : User) (auth : option PayloadHas) (v : View)
    (viewing : Submission -> bool) (queryset l : list Submission) :
  let r := mkRequest (NormalUser u) auth in
  filter_submissions r v viewing queryset = Ret l ->
  forall s, In s queryset ->
    (In s l -> object_visible r (Ret (submission_is_visible r v (viewing s) s)) = Ret Granted)
    /\ (object_visible r (Ret (submission_is_visible r v (viewing s) s)) = Ret Granted -> ~ In s l ->
        view_is_assistant v = true /\ viewing s = false /\ submitted_by s (userprofile u) = true).
Proof.
  intros r Hl s Hin. rewrite object_visible_granted. unfold filter_submissions in Hl. cbn in Hl |- *.
  destruct (view_is_teacher v); cbn in Hl |- *.
  { injection Hl as <-. split; [by auto|]. done. }
  destruct (is_staff u), (is_superuser u); cbn in Hl |- *;
    try (injection Hl as <-; split; [by auto|done]).
  destruct (view_is_assistant v); cbn in Hl |- *; injection Hl as <-.
  - rewrite filter_In. destruct (viewing s) eqn:Ev; cbn.
    + split; [by auto|]. intros _ Hn. by destruct Hn.
    + split; [by intros [_ ?]|]. destruct (submitted_by s (userprofile u)); [done|].
      intros [?|[?|?]]; done.
  - rewrite filter_In. destruct (submitted_by s (userprofile u)) eqn:Eb.
    + split; [by auto|]. intros _ Hn. by destruct Hn.
    + split; [by intros [_ ?]|]. intros [?|[?|?]]; done.
Qed.

(** The filter raises exactly for readers without a profile, who are not
    teachers of the course. *)
Lemma filter_submissions_raises r v viewing queryset e :
  filter_submissions r v viewing queryset = Raise e ->
  view_is_teacher v = false /\ view_is_assistant v = false
  /\ match request_user r with NormalUser _ => False | _ => True end.
Proof.
  unfold filter_submissions. destruct (view_is_teacher v), (view_is_assistant v); cbn; try done.
  all: destruct (_ || _); cbn; try done. by destruct (request_user r).
Qed.

(** A profile is listed exactly when its page may be opened. *)
Lemma filter_profiles_agrees r v queryset i :
  In i queryset -> (In i (filter_profiles r v queryset) <-> admin_or_self r v i = Granted).
Proof.
  intros Hin. unfold filter_profiles, admin_or_self, only_course_staff, decide_by.
  destruct (view_is_course_staff v), (user_is_superuser (request_user r)); cbn;
    rewrite ?filter_In; destruct (request_user r) as [| |u|]; cbn;
    try (destruct (user_id u =? i) eqn:E; rewrite Z.eqb_sym in E; rewrite ?E);
    split; by intuition.
Qed.

End Safety.

(** ** Witnesses *)

Section Examples.
Definition example_viewed (o : LearningObject) : Viewed := mkViewed o None [(true, [])].
Definition example_page_object : LearningObject := example_lobj 1 None "chapter".

Lemma exercise_page_open_to_witness :
  plain_user (example_user 7 "7") ∅ example_instance
  /\ is_student example_instance ∅ (NormalUser (example_user 7 "7")) = false
  /\ (check_permissions
       (exercise_page_checks (mkRequest (NormalUser (example_user 7 "7")) None)
          (view_for ExerciseView ACCESS.STUDENT (NormalUser (example_user 7 "7")) ∅ example_instance
             (Some (course_module example_page_object)) [] (example_cached 0 ∅)
             (Some (example_viewed example_page_object)) None) ∅ (days 1))
      = Ret Granted
      <-> course_open_to example_instance (example_user 7 "7") false false = true).
Proof.
  assert (plain_user (example_user 7 "7") ∅ example_instance) as Hp by done.
  split_and!; [exact Hp|done|].
  rewrite (exercise_page_open_to (example_user 7 "7") ∅ example_instance
             (course_module example_page_object) [] (example_cached 0 ∅)
             (example_viewed example_page_object) (days 1) Hp eq_refl eq_refl).
  split; [by intros [? _]|]. intros Ho. split_and!; try done; vm_compute; auto.
Defined.

Definition example_page_submission : Submission :=
  example_submission 3 SubStatus.READY [userprofile (example_user 7 "7")].

(** A service with a token for submission 3 of course 1. *)
Definition example_token : PayloadHas :=
  fun key _ _ id => bool_decide ((key, id) ∈ [("submissions", 3); ("courses", 1); ("instances", 1)]%string).

Lemma submission_page_private_witness :
  let r := mkRequest (GraderUser []) (Some example_token) in
  exists has, request_auth r = Some has /\ has "submissions"%string READ "id"%string 3 = true.
Proof.
  intros r.
  destruct (submission_page_private r OtherView ACCESS.STUDENT ∅ example_instance
              (Some (course_module example_page_object)) [] (example_cached 0 ∅)
              (Some (example_viewed example_page_object)) example_page_submission false (days 1))
    as [[[?|?]|[?|[[? _]|[?|Ht]]]] _]; done.
Defined.

Lemma submission_filter_agrees_witness :
  let r := mkRequest (NormalUser (example_user 7 "7")) None in
  let v := view_for OtherView ACCESS.STUDENT (NormalUser (example_user 7 "7")) ∅ example_instance None []
             (example_cached 0 ∅) None None in
  let other := example_submission 4 SubStatus.READY [] in
  filter_submissions r v (fun _ => false) [example_page_submission; other]
    = Ret [example_page_submission]
  /\ object_visible r (Ret (submission_is_visible r v false example_page_submission)) = Ret Granted.
Proof.
  intros r v other.
  assert (filter_submissions r v (fun _ => false) [example_page_submission; other]
          = Ret [example_page_submission]) as Hf by reflexivity.
  split; [exact Hf|].
  apply (submission_filter_agrees (example_user 7 "7") None v (fun _ => false)
           [example_page_submission; other] [example_page_submission] Hf example_page_submission);
    by left.
Defined.
End Examples.
