(* ===== verification/Enroll.v ===== *)
(** * Enrolling and leaving

    [course/views.py], [course/viewbase.py], [course/staff_views.py], the students of
    [course/api/views.py], and the places of [exercise/api/views.py] and
    [lti_tool/views.py] that enroll: how students come to a course instance, how they
    leave it, and how the staff enrolls, removes and bans them.  The pages a user is
    sent to on the way and the language of a course page are here too. *)

From S2P Require Import Prelude Lists Helpers Course Models Exercise Permissions.

Section Enroll.
Context `{Settings}.

(** ** The user of a request *)

(** src/userprofile/viewbase.py: UserProfileMixin.get_resource_objects.  A grader user
    is its own profile, which has no organization. *)
Definition request_profile (user : AnyUser) : result (option UserProfile) :=
  match user with
  | NormalUser u => Ret (Some (userprofile u))
  | NoUser | AnonymousUser => Ret None
  | GraderUser _ => Raise AttributeError
  end.

(** src/course/viewbase.py: CourseInstanceBaseMixin.user_course_data *)
Definition user_course_data (self : CourseInstance) (db : EnrollmentDB) (user : AnyUser) : option Enrollment :=
  match user with
  | NormalUser u => db !! (instance_id self, profile_id (userprofile u))
  | _ => None
  end.

(** src/exercise/exercise_models.py: LearningObjectManager.find_enrollment_exercise.  The
    learning objects are in their default order. *)
Definition find_enrollment_exercise (lobjs : list LearningObject) (self : CourseInstance) (external : bool)
    : option LearningObject :=
  let first st := find (fun o => (instance_id (lobj_instance o) =? instance_id self)
                                 && bool_decide (lobj_status o = st)) lobjs in
  match (if external then first LObjStatus.ENROLLMENT_EXTERNAL else None) with
  | Some o => Some o
  | None => first LObjStatus.ENROLLMENT
  end.

(** ** Pages on the way *)

(** Where a request is sent. *)
Inductive Redirect := ToExercise (id : Z) | ToCourse | ToEnrollPage | ToHome.

(** src/course/viewbase.py: EnrollableViewMixin.get_common_objects.  Without a profile
    the value is false. *)
Definition enrollable (self : CourseInstance) (db : EnrollmentDB) (user : AnyUser) : result bool :=
  let! profile := request_profile user in
  match profile with
  | Some _ => is_enrollable self db user
  | None => Ret false
  end.

(** src/course/views.py: InstanceView.get lines 192-205.  [None] shows the page. *)
Definition instance_get (self : CourseInstance) (lobjs : list LearningObject) (user : AnyUser) (db : EnrollmentDB)
    : option Redirect :=
  match user with
  | NormalUser u =>
      match user_course_data self db user with
      | Some e =>
          if bool_decide (status e = EnrollmentStatus.PENDING)
          then ToExercise ∘ lobj_id <$> find_enrollment_exercise lobjs self (is_external (userprofile u))
          else None
      | None => None
      end
  | _ => None
  end.

(** src/course/viewbase.py: CourseInstanceMixin.handle_no_permission.  [None] is the
    usual answer to a user without permission. *)
Definition handle_no_permission (v : View) (lobjs : list LearningObject) (user : AnyUser) (db : EnrollmentDB)
    : result (option Redirect) :=
  let self := view_instance v in
  let mode := get_access_mode v in
  if is_authenticated user && negb (view_is_student v) && negb (view_is_course_staff v)
     && ((mode =? ACCESS.STUDENT) || (mode =? ACCESS.ENROLLED))
     && bool_decide (view_content_to self = ViewAccess.ENROLLED)
  then
    match user_course_data self db user with
    | Some e =>
        if bool_decide (status e = EnrollmentStatus.PENDING)
        then let! profile := request_profile user in
             match profile with
             | None => Raise AttributeError
             | Some p =>
                 match find_enrollment_exercise lobjs self (is_external p) with
                 | Some o => Ret (Some (ToExercise (lobj_id o)))
                 | None => Ret (Some ToEnrollPage)
                 end
             end
        else Ret (Some ToEnrollPage)
    | None => Ret (Some ToEnrollPage)
    end
  else Ret None.

(** ** Students enroll and leave *)

(** src/course/views.py: Enroll.post *)
Definition enroll_post (self : CourseInstance) (lobjs : list LearningObject) (now : datetime) (user : AnyUser)
    (db : EnrollmentDB) : result (Redirect * EnrollmentDB) :=
  let! profile := request_profile user in
  let! can := enrollable self db user in
  if is_student self db user || negb can then Raise PermissionDenied
  else if negb (is_enrollment_open self now) then Raise PermissionDenied
  else
    match profile ≫= fun p => find_enrollment_exercise lobjs self (is_external p) with
    | Some exercise =>
        let! (_, db) := enroll_student self user false true db in Ret (ToExercise (lobj_id exercise), db)
    | None =>
        let! (_, db) := enroll_student self user false false db in Ret (ToCourse, db)
    end.

(** src/course/views.py: Unenroll.post *)
Definition unenroll_post (self : CourseInstance) (user : AnyUser) (db : EnrollmentDB)
    : result (Redirect * EnrollmentDB) :=
  match user, user_course_data self db user with
  | NormalUser u, Some e =>
      if bool_decide (role e = EnrollmentRole.STUDENT) && bool_decide (status e = EnrollmentStatus.ACTIVE)
      then Ret (ToHome, <[(instance_id self, profile_id (userprofile u)) := with_status e EnrollmentStatus.REMOVED]> db)
      else Raise PermissionDenied
  | _, _ => Raise PermissionDenied
  end.

(** src/exercise/api/views.py: ExerciseSubmissionsViewSet lines 310-316.  The enrollment
    exercise is accepted; that the submission was allowed is the check of the
    exercise. *)
Definition exercise_enrolls (w : World) (exercise : BaseExercise) (u : User) : result EnrollmentDB :=
  if Exercise.is_enrollment_exercise exercise
  then
    let! checked := check_enrollment w exercise (userprofile u) in
    match checked with
    | inl _ => Ret (enrollments w)
    | inr _ => let! (_, db) := enroll_student (lobj_instance exercise) (NormalUser u) false false (enrollments w) in Ret db
    end
  else Ret (enrollments w).

(** ** The staff *)

(** src/exercise/api/views.py: SubmissionViewSet.re_submit lines 593-605.  The enrollment
    exercise of a submitter is graded again and accepted. *)
Definition resubmit_enrolls (self : CourseInstance) (submitter : User) (db : EnrollmentDB) : result EnrollmentDB :=
  let user := NormalUser submitter in
  if is_student self db user || is_course_staff self db user || is_banned self db user then Ret db
  else let! (_, db) := enroll_student self user false false db in Ret db.

(** What happened to a profile of the form. *)
Inductive Enrolled := NewlyEnrolled | AlreadyEnrolled | CourseStaff.

(** src/course/staff_views.py: EnrollStudentsView.form_valid lines 203-216 *)
Fixpoint enroll_students (self : CourseInstance) (users : list User) (db : EnrollmentDB)
    : result (list Enrolled * EnrollmentDB) :=
  match users with
  | [] => Ret ([], db)
  | u :: users =>
      if is_course_staff self db (NormalUser u)
      then let! (l, db) := enroll_students self users db in Ret (CourseStaff :: l, db)
      else
        let! (new, db) := enroll_student self (NormalUser u) false false db in
        let! (l, db) := enroll_students self users db in
        Ret ((if (new : bool) then NewlyEnrolled else AlreadyEnrolled) :: l, db)
  end.

(** The answers of the API. *)
Inductive ApiAnswer := Forbidden | InvalidStatus | CannotActivate | NotFound | NoContent.

(** src/course/api/views.py: CourseStudentsViewSet.destroy.  [status_arg] is the status
    the parameter names, if it names one; the students are the active ones. *)
Definition students_destroy (self : CourseInstance) (is_staff : bool) (status_arg : option EnrollmentStatus.t)
    (u : User) (db : EnrollmentDB) : ApiAnswer * EnrollmentDB :=
  let key := (instance_id self, profile_id (userprofile u)) in
  if negb is_staff then (Forbidden, db)
  else match status_arg with
       | None => (InvalidStatus, db)
       | Some st =>
           if bool_decide (st = EnrollmentStatus.ACTIVE) then (CannotActivate, db)
           else match db !! key with
                | Some e => if active_role EnrollmentRole.STUDENT e
                            then (NoContent, <[key := with_status e st]> db) else (NotFound, db)
                | None => (NotFound, db)
                end
       end.

(** src/lti_tool/views.py: LtiLaunchView.post lines 95-102.  The launch from a course of
    another system. *)
Definition lti_launch (self : CourseInstance) (u : User) (learner : bool) (db : EnrollmentDB) : result EnrollmentDB :=
  if learner && negb (is_course_staff self db (NormalUser u))
  then let! (_, db) := enroll_student self (NormalUser u) false false db in Ret db
  else Ret db.
End Enroll.

(** ** Bans *)

Section Bans.
Context `{Settings}.
Implicit Types (self : CourseInstance) (db : EnrollmentDB) (u : User).

(** The row of a banned student. *)
Definition banned_row (e : Enrollment) : Prop :=
  role e = EnrollmentRole.STUDENT /\ status e = EnrollmentStatus.BANNED.

Lemma banned_not_staff self db u e :
  is_superuser u = false -> db !! (instance_id self, profile_id (userprofile u)) = Some e -> banned_row e ->
  is_course_staff self db (NormalUser u) = false /\ is_student self db (NormalUser u) = false.
Proof.
  intros Hs He [Hr Hb]. unfold is_course_staff, is_teacher, is_assistant, is_student, enrolled_as, active_role.
  rewrite Hs, He, Hr, Hb. done.
Qed.

Lemma banned_not_enrollable self db u e :
  is_superuser u = false -> db !! (instance_id self, profile_id (userprofile u)) = Some e -> banned_row e ->
  is_enrollable self db (NormalUser u) = Ret false.
Proof.
  intros Hs He Hb. unfold is_enrollable. destruct (banned_not_staff self db u e Hs He Hb) as [-> _].
  cbn. rewrite He, bool_decide_eq_true_2 by apply Hb. done.
Qed.

(** A row of another profile is not touched. *)
Lemma enroll_db_frame self u sis use_pending db db' k :
  (let! (_, db) := enroll_student self (NormalUser u) sis use_pending db in Ret db) = Ret db' ->
  k <> (instance_id self, profile_id (userprofile u)) -> db' !! k = db !! k.
Proof.
  destruct (enroll_student _ _ _ _ _) as [[new db1]|] eqn:E; [|done]. intros [= <-] Hk.
  by eapply enroll_student_frame.
Qed.

Lemma enroll_post_frame self lobjs now u db r db' k :
  enroll_post self lobjs now (NormalUser u) db = Ret (r, db') ->
  k <> (instance_id self, profile_id (userprofile u)) -> db' !! k = db !! k.
Proof.
  unfold enroll_post, enrollable. cbn [rbind request_profile]. destruct (is_enrollable _ _ _) as [can|]; [|done].
  cbn [rbind]. destruct (_ || _); [done|]. destruct (negb _); [done|].
  destruct (_ ≫= _) as [o|];
    (destruct (enroll_student _ _ _ _ _) as [[new db1]|] eqn:E; [|done]); intros [= <- <-] Hk;
    by eapply enroll_student_frame.
Qed.

(** What users do themselves: enroll on the page, leave, send an enrollment exercise,
    have it graded again. *)
Inductive own_step (users : list User) self db : EnrollmentDB -> Prop :=
| own_enroll u lobjs now r db' :
    u ∈ users -> enroll_post self lobjs now (NormalUser u) db = Ret (r, db') -> own_step users self db db'
| own_unenroll u r db' :
    u ∈ users -> unenroll_post self (NormalUser u) db = Ret (r, db') -> own_step users self db db'
| own_exercise u w (exercise : BaseExercise) db' :
    u ∈ users -> enrollments w = db -> lobj_instance exercise = self ->
    profile_user w (userprofile u) = NormalUser u -> exercise_enrolls w exercise u = Ret db' ->
    own_step users self db db'
| own_resubmit u db' :
    u ∈ users -> resubmit_enrolls self u db = Ret db' -> own_step users self db db'.

Lemma exercise_enrolls_frame w exercise u db' k :
  exercise_enrolls w exercise u = Ret db' ->
  k <> (instance_id (lobj_instance exercise), profile_id (userprofile u)) -> db' !! k = enrollments w !! k.
Proof.
  unfold exercise_enrolls. destruct (Exercise.is_enrollment_exercise _); [|by intros [= <-]].
  destruct (check_enrollment _ _ _) as [[|]|]; [by intros [= <-]| |done]. cbn [rbind]. apply enroll_db_frame.
Qed.

Lemma own_step_frame users self db db' k :
  own_step users self db db' ->
  (forall u, u ∈ users -> k <> (instance_id self, profile_id (userprofile u))) -> db' !! k = db !! k.
Proof.
  intros Hs Hk. destruct Hs as [u lobjs now r db' Hu E|u r db' Hu E|u w exercise db' Hu <- <- _ E|u db' Hu E].
  - by eapply enroll_post_frame; eauto.
  - unfold unenroll_post in E. cbn [user_course_data] in E. destruct (db !! _) as [e|]; [|done]. case_match; [|done].
    injection E as <- <-. rewrite lookup_insert_ne; [done|]. intros Ek. by apply (Hk u Hu).
  - by eapply exercise_enrolls_frame; eauto.
  - unfold resubmit_enrolls in E. destruct (_ || _); [by injection E as <-|]. by eapply enroll_db_frame; eauto.
Qed.

(** Nothing a banned user does changes the row. *)
Lemma own_step_banned users self db db' u e :
  NoDup (profile_id ∘ userprofile <$> users) -> u ∈ users -> is_superuser u = false ->
  db !! (instance_id self, profile_id (userprofile u)) = Some e -> banned_row e ->
  own_step users self db db' -> db' !! (instance_id self, profile_id (userprofile u)) = Some e.
Proof.
  intros Hn Hu Hsu He Hb Hs. set (key := (_, _)) in *.
  assert (Hsame : forall v, v ∈ users -> own_step [v] self db db' -> db' !! key = Some e \/ v = u).
  { intros v Hv Hv'. destruct (decide (profile_id (userprofile v) = profile_id (userprofile u))) as [E|E].
    - right. by apply (key_inj (profile_id ∘ userprofile) users).
    - left. rewrite (own_step_frame [v] self db db' key Hv'); [done|].
      intros v' ->%list_elem_of_singleton [= E']. done. }
  destruct (banned_not_staff self db u e Hsu He Hb) as [Hstaff Hstud].
  pose proof (banned_not_enrollable self db u e Hsu He Hb) as Hen.
  destruct Hs as [v lobjs now r db' Hv E|v r db' Hv E|v w exercise db' Hv Hw Hx Hp E|v db' Hv E].
  - destruct (Hsame v Hv) as [|Ev]; [eapply own_enroll; [by left|exact E]|done|]. rewrite Ev in E. exfalso.
    unfold enroll_post, enrollable in E. cbn [rbind request_profile] in E. rewrite Hen, Hstud in E. done.
  - destruct (Hsame v Hv) as [|Ev]; [eapply own_unenroll; [by left|exact E]|done|]. rewrite Ev in E. exfalso.
    unfold unenroll_post in E. cbn [user_course_data] in E. fold key in E. destruct Hb as [Hr Hb].
    by rewrite He, Hr, Hb in E.
  - destruct (Hsame v Hv) as [|Ev]; [eapply (own_exercise _ _ _ v w exercise); eauto; by left|done|].
    subst v self db. unfold exercise_enrolls in E.
    destruct (Exercise.is_enrollment_exercise exercise) eqn:Ex; [|injection E as <-; exact He].
    unfold check_enrollment in E. rewrite Hp, Ex, Hen in E. cbn [rbind get_enrollment_for] in E.
    destruct (is_enrollment_open _ _); cbn in E; injection E as <-; exact He.
  - destruct (Hsame v Hv) as [|Ev]; [eapply own_resubmit; [by left|exact E]|done|]. rewrite Ev in E.
    unfold resubmit_enrolls in E. rewrite Hstaff, Hstud in E.
    assert (Hban : is_banned self db (NormalUser u) = true).
    { unfold is_banned, enrolled_as, any_enrollment. fold key. rewrite He. destruct Hb as [Hr Hb].
      rewrite Hr. cbn. apply existsb_exists. exists (key, e). split; [by apply list_elem_of_In, elem_of_map_to_list|].
      rewrite Hb. cbn. by rewrite Z.eqb_refl. }
    rewrite Hban in E. by injection E as <-.
Qed.

(** C38. A ban stands.  In whatever order the users of a course instance enroll on the
    page, leave, send the enrollment exercise and have it graded again, the enrollment
    of a banned student who is not a superuser stays as it is.  (A launch from
    another platform is not among these actions: it lifts the ban.) *)
Theorem ban_stands users self u e db db' :
  NoDup (profile_id ∘ userprofile <$> users) -> u ∈ users -> is_superuser u = false ->
  db !! (instance_id self, profile_id (userprofile u)) = Some e -> banned_row e ->
  rtc (own_step users self) db db' ->
  db' !! (instance_id self, profile_id (userprofile u)) = Some e.
Proof.
  intros Hn Hu Hsu He Hb Hr. induction Hr as [|db db1 db2 Hs _ IH]; [done|].
  apply IH. by apply (own_step_banned users self db db1 u e).
Qed.
End Bans.

(** ** Enrolling on the page *)

Section EnrollTheory.
Context `{Settings}.
Implicit Types (self : CourseInstance) (db : EnrollmentDB) (u : User).

(** The page enrolls exactly the users who may enroll while the enrollment is open
    and who are not students yet; it sends them to the enrollment exercise if there is
    one for them, and then the enrollment of a newcomer waits for it. *)
Theorem enroll_post_spec self lobjs now u db :
  let key := (instance_id self, profile_id (userprofile u)) in
  let exercise := find_enrollment_exercise lobjs self (is_external (userprofile u)) in
  if is_student self db (NormalUser u)
     || negb (match is_enrollable self db (NormalUser u) with Ret b => b | Raise _ => false end)
     || negb (is_enrollment_open self now)
  then enroll_post self lobjs now (NormalUser u) db = Raise PermissionDenied
  else exists db' e', enroll_post self lobjs now (NormalUser u) db
      = Ret (match exercise with Some o => ToExercise (lobj_id o) | None => ToCourse end, db') /\
    db' !! key = Some e' /\
    (exercise = None -> status e' = EnrollmentStatus.ACTIVE) /\
    (exercise <> None -> db !! key = None -> status e' = EnrollmentStatus.PENDING) /\
    (forall k, k <> key -> db' !! k = db !! k).
Proof.
  cbv zeta. unfold enroll_post, enrollable. cbn [rbind request_profile].
  assert (Hen : exists b, is_enrollable self db (NormalUser u) = Ret b).
  { unfold is_enrollable. destruct (is_course_staff _ _ _); [eauto|]. cbn.
    repeat (case_match; try by eauto). }
  destruct Hen as [b ->]. cbn [rbind]. destruct (is_student _ _ _ || negb b) eqn:E1; [done|]. cbn [orb].
  destruct (is_enrollment_open self now); cbn [negb]; [|done]. cbn [mbind option_bind].
  destruct (find_enrollment_exercise _ _ _) as [o|].
  - destruct (enroll_student_facts self u false true db) as (new & db' & e' & E & He & Hl & Hp & Hf).
    rewrite E. exists db', e'. cbn. split_and!; [done|done|done| |done]. intros _ Hnone.
    unfold enroll_student in E. rewrite Hnone in E. injection E as <- <-. rewrite lookup_insert_eq in He. by injection He as <-.
  - destruct (enroll_student_facts self u false false db) as (new & db' & e' & E & He & Hl & Hp & Hf).
    rewrite E. exists db', e'. cbn. split_and!; [done|done|auto|done|done].
Qed.

(** A student who leaves can come back: where there is no enrollment exercise the
    enrollment, with the selected group, is as before, though no longer from the
    student information system. *)
Theorem leave_and_return self lobjs now u db e db1 r :
  let key := (instance_id self, profile_id (userprofile u)) in
  db !! key = Some e -> unenroll_post self (NormalUser u) db = Ret (r, db1) ->
  is_enrollable self db1 (NormalUser u) = Ret true -> is_enrollment_open self now = true ->
  find_enrollment_exercise lobjs self (is_external (userprofile u)) = None ->
  enroll_post self lobjs now (NormalUser u) db1 = Ret (ToCourse, <[key := with_from_sis e false]> db).
Proof.
  cbv zeta. intros He E Hen Ho Hx. unfold unenroll_post in E. cbn [user_course_data] in E. rewrite He in E.
  destruct (bool_decide (role e = _)) eqn:Er; [|done]. destruct (bool_decide (status e = _)) eqn:Es; [|done].
  injection E as <- <-. unfold enroll_post, enrollable. cbn [rbind request_profile]. rewrite Hen. cbn [rbind].
  assert (Hst : is_student self (<[(instance_id self, profile_id (userprofile u)) := with_status e EnrollmentStatus.REMOVED]> db)
                  (NormalUser u) = false).
  { unfold is_student, enrolled_as, active_role. rewrite lookup_insert_eq. cbn. by rewrite andb_false_r. }
  rewrite Hst, Ho. cbn [orb negb mbind option_bind]. rewrite Hx. unfold enroll_student.
  rewrite lookup_insert_eq. cbn [with_status status].
  rewrite (bool_decide_eq_false_2 (EnrollmentStatus.REMOVED = EnrollmentStatus.ACTIVE)) by done.
  rewrite (bool_decide_eq_false_2 (EnrollmentStatus.REMOVED = EnrollmentStatus.PENDING)) by done.
  cbn [orb rbind selected_group]. rewrite insert_insert_eq. b2p. destruct e as [ro st fs sg]. cbn in Er, Es. by subst.
Qed.

(** The staff's list: course staff keep their rows, all others end as active members,
    and no other row changes. *)
Theorem enroll_students_spec self users db :
  NoDup (profile_id ∘ userprofile <$> users) ->
  exists l db', enroll_students self users db = Ret (l, db') /\ length l = length users /\
    (forall u, u ∈ users -> is_course_staff self db (NormalUser u) = false ->
       exists e, db' !! (instance_id self, profile_id (userprofile u)) = Some e /\ status e = EnrollmentStatus.ACTIVE) /\
    (forall k, (forall u, u ∈ users -> is_course_staff self db (NormalUser u) = false ->
                  k <> (instance_id self, profile_id (userprofile u))) -> db' !! k = db !! k).
Proof.
  revert db. induction users as [|u users IH]; intros db Hn.
  { exists [], db. split_and!; [done|done|by intros u Hu%elem_of_nil|done]. }
  inversion_clear Hn as [|? ? Hu Hn']. cbn [enroll_students].
  destruct (is_course_staff self db (NormalUser u)) eqn:Es.
  - destruct (IH db Hn') as (l & db' & E & Hl & Ha & Hf). rewrite E. exists (CourseStaff :: l), db'.
    split_and!; [done|by cbn; rewrite Hl| |].
    + intros v [->|Hv]%elem_of_cons; [congruence|by apply Ha].
    + intros k Hk. apply Hf. intros v Hv. apply Hk. by right.
  - destruct (enroll_student_facts self u false false db) as (new & db1 & e1 & E1 & He1 & _ & Hp1 & Hf1).
    rewrite E1. cbn [rbind]. destruct (IH db1 Hn') as (l & db' & E & Hl & Ha & Hf). rewrite E. cbn [rbind].
    exists ((if new then NewlyEnrolled else AlreadyEnrolled) :: l), db'.
    assert (Hkey : forall v, v ∈ users -> (instance_id self, profile_id (userprofile v))
                                          <> (instance_id self, profile_id (userprofile u))).
    { intros v Hv [= Ev]. apply Hu. apply list_elem_of_fmap. exists v. by split. }
    assert (Hstaff : forall v, v ∈ users -> is_course_staff self db1 (NormalUser v) = is_course_staff self db (NormalUser v)).
    { intros v Hv. unfold is_course_staff, is_teacher, is_assistant, enrolled_as. by rewrite Hf1 by (by apply Hkey). }
    split_and!; [done|by cbn; rewrite Hl| |].
    + intros v [->|Hv]%elem_of_cons Hs; [|apply Ha; [done|by rewrite Hstaff]].
      exists e1. split; [|by apply Hp1]. rewrite Hf; [done|]. intros v Hv _ Ev. by apply (Hkey v Hv).
    + intros k Hk. rewrite Hf.
      * apply Hf1. apply Hk; [by left|done].
      * intros v Hv Hs. apply Hk; [by right|]. by rewrite <- Hstaff.
Qed.
End EnrollTheory.

(** ** The language of a course page *)

(** Python's [s[:2]] and the truth of a text that may be missing. *)
Definition lang2 (s : string) : string := take_str 2 s.
Definition given_text (o : option string) : list string :=
  match o with
  | Some s => if bool_decide (s = ""%string) then [] else [s]
  | None => []
  end.

(** src/course/viewbase.py: CourseInstanceBaseMixin.get_resource_objects lines 111-137.
    [preferences] are the languages of the enrollment, of the profile and of the
    request, [hl] is the parameter of the address.  The result is the language, and
    what the page says about it: the language of the address if it is not the user's,
    and the user's. *)
Definition choose_language (self : CourseInstance) (enrollment_language profile_language : option string)
    (site_language : string) (hl : option string) : result (option (string * option string * option string)) :=
  if bool_decide (language self = ""%string) then Ret None
  else
    let instance_languages := languages self in
    let preferences := given_text enrollment_language ++ given_text profile_language ++ [site_language] in
    match given_text hl with
    | q :: _ =>
        if bool_decide (lang2 q ∈ instance_languages)
        then let user := default site_language (head preferences) in
             Ret (Some (lang2 q, if bool_decide (lang2 user = lang2 q) then None else Some q, Some user))
        else Raise TranslationNotFound
    | [] =>
        let lang := default (default ""%string (head instance_languages))
                      (find (fun l => bool_decide (lang2 l ∈ instance_languages)) preferences) in
        Ret (Some (lang2 lang, None, None))
    end.

(** A course page is shown in a language of the course, the one the address asks for
    or the first preference the course has; only an address that asks for another
    language is refused. *)
Theorem choose_language_ok self el pl site hl :
  language self <> ""%string ->
  match choose_language self el pl site hl with
  | Ret (Some (lang, _, _)) =>
      (lang ∈ languages self \/ given_text hl = [] /\ Some lang = lang2 <$> head (languages self)) /\
      (forall q, hl = Some q -> q <> ""%string -> lang = lang2 q)
  | Ret None => False
  | Raise e => e = TranslationNotFound /\ exists q, hl = Some q /\ lang2 q ∉ languages self
  end.
Proof.
  intros Hl. unfold choose_language. rewrite bool_decide_eq_false_2 by done.
  assert (Hhl : forall q l, given_text hl = q :: l -> hl = Some q).
  { unfold given_text. destruct hl as [s|]; [|done]. case_bool_decide; [done|]. by intros q l [= -> _]. }
  destruct (given_text hl) as [|q l] eqn:E.
  - split.
    + destruct (find _ _) as [x|] eqn:Ef; cbn.
      * left. apply find_some in Ef as [_ Hx]. by b2p.
      * right. split; [done|]. destruct (languages self) as [|d ds] eqn:Ed; [|done].
        unfold languages in Ed. by apply split_nonempty in Ed.
    + intros q -> Hq. unfold given_text in E. by rewrite bool_decide_eq_false_2 in E.
  - specialize (Hhl q l eq_refl) as ->. case_bool_decide as Hq; [|by eauto]. split; [by left|].
    by intros q' [= <-].
Qed.

(** ** The instance a course is shown by *)

(** src/course/views.py: LastInstanceView.get_resource_objects.  The instances of the
    course, the latest start first; [has_open_module] says whether a module that is
    ready or unlisted has opened. *)
Fixpoint last_instance_loop (has_open_module : Z -> bool) (now : datetime) (instances : list CourseInstance)
    (latest_visible latest_hidden : option CourseInstance)
    : option CourseInstance * option CourseInstance * option CourseInstance :=
  match instances with
  | [] => (None, latest_visible, latest_hidden)
  | i :: rest =>
      if visible_to_students i
      then if has_open_module (instance_id i) && (starting_time i <=? now)
           then (Some i, latest_visible, latest_hidden)
           else last_instance_loop has_open_module now rest
                  (match latest_visible with Some v => Some v | None => Some i end) latest_hidden
      else last_instance_loop has_open_module now rest latest_visible
             (match latest_hidden with Some h => Some h | None => Some i end)
  end.

Definition last_instance (has_open_module : Z -> bool) (now : datetime) (instances : list CourseInstance)
    (db : EnrollmentDB) (user : AnyUser) : result CourseInstance :=
  match last_instance_loop has_open_module now instances None None with
  | (Some i, _, _) => Ret i
  | (None, Some v, _) => Ret v
  | (None, None, Some h) => if is_course_staff h db user then Ret h else Raise Http404
  | (None, None, None) => Raise Http404
  end.

Definition open_to_students (has_open_module : Z -> bool) (now : datetime) (i : CourseInstance) : bool :=
  visible_to_students i && has_open_module (instance_id i) && (starting_time i <=? now).

Lemma last_instance_loop_open hom now instances : forall v h,
  (last_instance_loop hom now instances v h).1.1 = find (open_to_students hom now) instances.
Proof.
  induction instances as [|i l IH]; intros v h; [done|]. cbn. unfold open_to_students at 1.
  destruct (visible_to_students i); cbn; [|apply IH]. destruct (_ && _); [done|apply IH].
Qed.

Lemma last_instance_loop_none hom now instances : forall v h,
  find (open_to_students hom now) instances = None ->
  last_instance_loop hom now instances v h
  = (None, match v with Some v => Some v | None => find visible_to_students instances end,
     match h with Some h => Some h | None => find (fun i => negb (visible_to_students i)) instances end).
Proof.
  induction instances as [|i l IH]; intros v h E; [by destruct v, h|]. cbn in E |- *. unfold open_to_students at 1 in E.
  destruct (visible_to_students i); cbn in E |- *.
  - destruct (_ && _); [done|]. rewrite IH by done. by destruct v.
  - rewrite IH by done. by destruct h.
Qed.

(** The loop in one line: the latest instance that students can work in, else the
    latest they can see, else the latest of all for its staff. *)
Theorem last_instance_spec hom now instances db user :
  last_instance hom now instances db user
  = match find (open_to_students hom now) instances, find visible_to_students instances, instances with
    | Some i, _, _ => Ret i
    | None, Some i, _ => Ret i
    | None, None, i :: _ => if is_course_staff i db user then Ret i else Raise Http404
    | None, None, [] => Raise Http404
    end.
Proof.
  unfold last_instance. destruct (find (open_to_students _ _) _) as [i|] eqn:E.
  - pose proof (last_instance_loop_open hom now instances None None) as H. rewrite E in H.
    destruct (last_instance_loop _ _ _ _ _) as [[o v] h]. cbn in H. by subst.
  - rewrite last_instance_loop_none by done. destruct (find visible_to_students _) as [v|] eqn:Ev; [done|].
    destruct instances as [|i l]; [done|]. cbn in Ev |- *. by destruct (visible_to_students i).
Qed.

(** ** Examples *)

Module Sample.
Definition user1 : User := example_user 1 "S".
Definition key1 : Z * Z := (instance_id example_instance, profile_id (userprofile user1)).
Definition row (st : EnrollmentStatus.t) : Enrollment := mkEnrollment EnrollmentRole.STUDENT st false None.
Definition db1 (st : EnrollmentStatus.t) : EnrollmentDB := <[key1 := row st]> ∅.

(** The banned student's enrollment exercise is graded again. *)
Lemma ban_stands_witness :
  exists db', rtc (own_step [user1] example_instance) (db1 EnrollmentStatus.BANNED) db' /\
    db' !! key1 = Some (row EnrollmentStatus.BANNED).
Proof.
  assert (Hr : rtc (own_step [user1] example_instance) (db1 EnrollmentStatus.BANNED) (db1 EnrollmentStatus.BANNED)).
  { eapply rtc_l; [|apply rtc_refl]. apply (own_resubmit _ _ _ user1); [by left|vm_compute; reflexivity]. }
  exists (db1 EnrollmentStatus.BANNED). split; [exact Hr|].
  exact (ban_stands [user1] example_instance user1 (row EnrollmentStatus.BANNED) (db1 EnrollmentStatus.BANNED)
    (db1 EnrollmentStatus.BANNED) (NoDup_singleton _) (list_elem_of_here user1 []) eq_refl eq_refl
    (conj eq_refl eq_refl) Hr).
Defined.

(** A launch from another system lifts the ban of a student. *)
Lemma lti_launch_lifts_ban :
  lti_launch example_instance user1 true (db1 EnrollmentStatus.BANNED) = Ret (db1 EnrollmentStatus.ACTIVE).
Proof. vm_compute. reflexivity. Qed.

(** The students' API sets an active student's enrollment to pending. *)
Lemma destroy_makes_pending :
  students_destroy example_instance true (Some EnrollmentStatus.PENDING) user1 (db1 EnrollmentStatus.ACTIVE)
  = (NoContent, db1 EnrollmentStatus.PENDING).
Proof. vm_compute. reflexivity. Qed.

(** A student who leaves and comes back. *)
Lemma leave_and_return_example :
  let now := starting_time example_instance in
  (let! (_, db) := unenroll_post example_instance (NormalUser user1) (db1 EnrollmentStatus.ACTIVE) in
   enroll_post example_instance [] now (NormalUser user1) db) = Ret (ToCourse, db1 EnrollmentStatus.ACTIVE).
Proof. vm_compute. reflexivity. Qed.
End Sample.
