(* ===== verification/ConfigDiff.v ===== *)
(** * Course configuration: values, changes and parts

    The first half of [edit_course/operations/configure.py]: the values of the
    JSON a course is configured from, the parsing of its fields, the changes
    between two configurations, and the parts a configuration is split into.

    A configuration is given in the shape the exporters produce: categories are a
    list of keys and objects, modules and learning objects are trees of objects
    with an array of children.  The split stores the names of the parts as sets
    in the objects, as the code does. *)

From Stdlib Require Import QArith Ascii.
From S2P Require Import Prelude Binary64 Helpers Course Reveal Models.
#[local] Open Scope Z_scope.

(** ** Values *)

(** The values of a JSON document, and the sets of keys the code puts in. *)
Inductive json :=
| JNull
| JBool (b : bool)
| JInt (n : Z)
| JFloat (q : Q)
| JStr (s : string)
| JList (l : list json)
| JSet (s : gset string)
| JObj (m : gmap string json).

#[global] Instance Q_eq_dec : EqDecision Q.
Proof. solve_decision. Defined.

#[global] Instance json_eq_dec : EqDecision json.
Proof.
  refine (fix go x y := let _ : EqDecision json := @go in
    match x, y with
    | JNull, JNull => left eq_refl
    | JBool a, JBool b => cast_if (decide (a = b))
    | JInt a, JInt b => cast_if (decide (a = b))
    | JFloat a, JFloat b => cast_if (decide (a = b))
    | JStr a, JStr b => cast_if (decide (a = b))
    | JList a, JList b => cast_if (decide (a = b))
    | JSet a, JSet b => cast_if (decide (a = b))
    | JObj a, JObj b => cast_if (decide (a = b))
    | _, _ => right _
    end); congruence.
Defined.

(** An object. *)
Abbreviation dict := (gmap string json).

(** Python's [==] identifies [True], [1] and [1.0]: two values are equal when
    these normal forms are. *)
Fixpoint json_norm (j : json) : json :=
  match j with
  | JBool b => JInt (if b then 1 else 0)
  | JFloat q => if bool_decide (Qden (Qred q) = 1%positive) then JInt (Qnum (Qred q)) else JFloat (Qred q)
  | JList l => JList (json_norm <$> l)
  | JObj m => JObj (json_norm <$> m)
  | JNull | JInt _ | JStr _ | JSet _ => j
  end.

(** Types with Python's equality. *)
Class PyEq (A : Type) := { py_norm : A -> A; py_dec :: EqDecision A }.
#[global] Instance json_py_eq : PyEq json := {| py_norm := json_norm |}.
#[global] Instance map_py_eq {A} `{!PyEq A} : PyEq (gmap string A) :=
  {| py_norm := fmap py_norm |}.
#[global] Instance pair_py_eq {A} `{!PyEq A} : PyEq (string * A) :=
  {| py_norm := fun x => (fst x, py_norm (snd x)) |}.

Definition py_eq {A} `{!PyEq A} (x y : A) : bool := bool_decide (py_norm x = py_norm y).

Lemma py_eq_refl {A} `{!PyEq A} (x : A) : py_eq x x = true.
Proof. by apply bool_decide_eq_true_2. Qed.

Lemma py_eq_trans {A} `{!PyEq A} (x y z : A) : py_eq x y = true -> py_eq y z = true -> py_eq x z = true.
Proof. unfold py_eq. rewrite !bool_decide_eq_true. congruence. Qed.

(** The truth value of a value. *)
Definition truthy (j : json) : bool :=
  match j with
  | JNull => false
  | JBool b => b
  | JInt n => negb (n =? 0)
  | JFloat q => negb (Qeq_bool q 0)
  | JStr s => negb (bool_decide (s = ""))
  | JList l => match l with [] => false | _ => true end
  | JSet s => negb (bool_decide (s = ∅))
  | JObj m => negb (bool_decide (m = ∅))
  end.

(** ** Calls that also collect errors *)

(** A call that appends to the list [errors], and may raise. *)
Definition E (A : Type) : Type := list string -> result (A * list string).
Definition eret {A} (a : A) : E A := fun errors => Ret (a, errors).
Definition ebind {A B} (c : E A) (k : A -> E B) : E B :=
  fun errors => let! (a, errors) := c errors in k a errors.
Definition eraise {A} (e : exn) : E A := fun _ => Raise e.
Definition add_error (message : string) : E unit := fun errors => Ret (tt, errors ++ [message]).
Notation "'do' x := c 'in' k" := (ebind c (fun x => k))
  (at level 10, x pattern, c at level 200, k at level 200) : py_scope.

(** ** Parsing of fields *)

(** Python's [int] of a string: blanks around, a sign, digits with single
    underscores between them. *)
Definition is_blank (c : ascii) : bool :=
  bool_decide (c ∈ [" "%char; "009"%char; "010"%char; "011"%char; "012"%char; "013"%char]).
Fixpoint strip_left (s : string) : string :=
  match s with
  | String c s' => if is_blank c then strip_left s' else s
  | EmptyString => EmptyString
  end.
Fixpoint strip_right (s : string) : string :=
  match s with
  | String c s' =>
      match strip_right s' with
      | EmptyString => if is_blank c then EmptyString else String c EmptyString
      | s'' => String c s''
      end
  | EmptyString => EmptyString
  end.
Definition digit (c : ascii) : option Z :=
  let n := Z.of_nat (nat_of_ascii c) in
  if (48 <=? n) && (n <=? 57) then Some (n - 48) else None.
Fixpoint digits (after_digit : bool) (acc : Z) (s : string) : option Z :=
  match s with
  | EmptyString => if after_digit then Some acc else None
  | String c s' =>
      match digit c with
      | Some d => digits true (10 * acc + d) s'
      | None => if bool_decide (c = "_"%char) && after_digit then digits false acc s' else None
      end
  end.
Definition int_of_string (s : string) : option Z :=
  match strip_right (strip_left s) with
  | String "-" s' => Z.opp <$> digits false 0 s'
  | String "+" s' => digits false 0 s'
  | s' => digits false 0 s'
  end.

(** Python's [int] of a value; what has no integer value raises a [TypeError]. *)
Definition py_int_of (value : json) : result Z :=
  match value with
  | JInt n => Ret n
  | JBool b => Ret (if b then 1 else 0)
  | JFloat q => Ret (py_int q)
  | JStr s => match int_of_string s with Some n => Ret n | None => Raise ValueError end
  | JNull | JList _ | JSet _ | JObj _ => Raise TypeError
  end.

(** src/edit_course/operations/configure.py: parse_int *)
Definition parse_int (value : json) : E (option Z) :=
  match py_int_of value with
  | Ret n => eret (Some n)
  | Raise ValueError => do _ := add_error "ERROR_PARSING_INT" in eret None
  | Raise e => eraise e
  end.

(** src/edit_course/operations/configure.py: parse_bool *)
Definition parse_bool (value : json) : bool :=
  existsb (py_eq value) [JBool true; JStr "true"; JStr "yes"; JStr "True"; JStr "Yes"]%string.

(** src/edit_course/operations/configure.py: parse_choices.  An object or array cannot
    be looked up. *)
Definition parse_choices {A} (value : json) (choices : list (string * A)) : E (option A) :=
  match value with
  | JList _ | JSet _ | JObj _ => eraise TypeError
  | _ =>
      match (match value with
             | JStr s => snd <$> List.find (fun c => bool_decide (fst c = s)) choices
             | _ => None
             end) with
      | Some v => eret (Some v)
      | None => do _ := add_error "ERROR_JSON_FIELD_UNKNOWN_VALUE" in eret None
      end
  end.

(** What the code uses of the date functions of Python and Django, and of the
    printed form of values that are not strings. *)
Class PyText := {
  strptime : string -> string -> option datetime;
  make_aware : datetime -> datetime;
  repr : json -> string;
  float_of_string : string -> option Q;
}.

Section Fields.
Context `{PyText}.

(** Python's [str]. *)
Definition py_str (value : json) : string :=
  match value with
  | JStr s => s
  | JInt n => str_of_Z n
  | JBool true => "True"
  | JBool false => "False"
  | JNull => "None"
  | _ => repr value
  end.

Definition DATE_FORMATS : list string :=
  ["%Y-%m-%dT%H:%M:%SZ"; "%Y-%m-%dT%H:%M:%S"; "%Y-%m-%d %H:%M:%S"; "%Y-%m-%d %H:%M"; "%Y-%m-%d %H";
   "%Y-%m-%d"]%string.

Fixpoint try_formats (value : string) (formats : list string) : option datetime :=
  match formats with
  | [] => None
  | fmt :: formats =>
      match strptime value fmt with
      | Some t => Some (make_aware t)
      | None => try_formats value formats
      end
  end.

(** src/edit_course/operations/configure.py: parse_date *)
Definition parse_date (value : json) (allow_null : bool) : E (option datetime) :=
  if allow_null && bool_decide (value = JNull) then eret None
  else
    match try_formats (py_str value) DATE_FORMATS with
    | Some t => eret (Some t)
    | None => do _ := add_error "ERROR_PARSING_DATE" in eret None
    end.

(** src/edit_course/operations/configure.py: parse_float *)
Definition parse_float (value : json) : E (option Q) :=
  match value with
  | JInt n => eret (Some (b64 (inject_Z n)))
  | JBool b => eret (Some (if b then 1%Q else 0%Q))
  | JFloat q => eret (Some q)
  | JStr s =>
      match float_of_string s with
      | Some q => eret (Some q)
      | None => do _ := add_error "ERROR_PARSING_FLOAT" in eret None
      end
  | JNull | JList _ | JSet _ | JObj _ => eraise TypeError
  end.

(** [format_localization] of a value; the items of an object in the order of the
    dictionary. *)
Definition localized (value : json) : string :=
  match value with
  | JObj m => format_localization ((fun kv => (fst kv, py_str (snd kv))) <$> map_to_list m)
  | _ => py_str value
  end.

(** What a model's boolean field accepts when it is saved. *)
Definition bool_field (value : json) : result bool :=
  match value with
  | JBool b => Ret b
  | JInt 1 => Ret true
  | JInt 0 => Ret false
  | JStr s =>
      if bool_decide (s ∈ ["t"; "True"; "1"]%string) then Ret true
      else if bool_decide (s ∈ ["f"; "False"; "0"]%string) then Ret false
      else Raise (ValidationError [])
  | _ => Raise (ValidationError [])
  end.

Definition TRIGGERS : list (string * RevealTrigger.t) :=
  [("immediate", RevealTrigger.IMMEDIATE); ("manual", RevealTrigger.MANUAL);
   ("time", RevealTrigger.TIME); ("deadline", RevealTrigger.DEADLINE);
   ("deadline_all", RevealTrigger.DEADLINE_ALL);
   ("deadline_or_full_points", RevealTrigger.DEADLINE_OR_FULL_POINTS);
   ("completion", RevealTrigger.COMPLETION)]%string.

(** src/edit_course/operations/configure.py: parse_reveal_rule.  A rule without a
    trigger cannot be saved. *)
Definition parse_reveal_rule (rule_config : json) (current_rule : option RevealRule)
    : E (option RevealRule) :=
  match rule_config with
  | JObj m =>
      match m !! "trigger"%string with
      | None => do _ := add_error "REVEAL_RULE_ERROR_INVALID_JSON" in eret None
      | Some t =>
          do trigger := parse_choices t TRIGGERS in
          let rule := default (default_rule RevealTrigger.IMMEDIATE) current_rule in
          do time := (match m !! "time"%string with
                      | Some v => parse_date v false
                      | None => eret (rule_time rule)
                      end) in
          do delay := (match m !! "delay_minutes"%string with
                       | Some v => parse_int v
                       | None => eret (delay_minutes rule)
                       end) in
          match trigger, (match m !! "show_zero_points_immediately"%string with
                          | Some v => bool_field v
                          | None => Ret (show_zero_points_immediately rule)
                          end) with
          | Some trigger, Ret zero =>
              eret (Some (mkRevealRule trigger delay time (currently_revealed rule) zero))
          | None, Ret _ => eraise DatabaseError
          | _, Raise e => eraise e
          end
      end
  | _ => do _ := add_error "REVEAL_RULE_ERROR_INVALID_JSON" in eret None
  end.

End Fields.

(** ** Durations *)

(** The fields of a datetime, in the time zone it is given in. *)
Record Civil := mkCivil {
  year : Z; month : Z; day : Z; hour : Z; minute : Z; second : Z;
}.

Definition is_leap (y : Z) : bool :=
  (y mod 4 =? 0) && (negb (y mod 100 =? 0) || (y mod 400 =? 0)).
Definition days_in_month (y m : Z) : Z :=
  if m =? 2 then (if is_leap y then 29 else 28)
  else if bool_decide (m ∈ [4; 6; 9; 11]) then 30 else 31.

(** Whether the constructor [datetime(...)] accepts the fields. *)
Definition valid_civil (c : Civil) : bool :=
  (1 <=? year c) && (year c <=? 9999) && (1 <=? month c) && (month c <=? 12)
  && (1 <=? day c) && (day c <=? days_in_month (year c) (month c)).

(** How the fields of an aware datetime are read and made into one again. *)
Class Calendar := {
  civil_of : datetime -> Civil;
  aware_of : Civil -> datetime;
}.

(** src/edit_course/operations/configure.py: parse_duration lines 53-55.  The loop
    over the years that the months fill; [None] when [fuel] turns are not
    enough. *)
Fixpoint month_loop (fuel : nat) (begin_month yi i : Z) : option (Z * Z) :=
  match fuel with
  | O => None
  | S fuel =>
      if 12 <? begin_month + i then month_loop fuel begin_month (yi + 1) (begin_month + i - 12)
      else Some (yi, i)
  end.

Fixpoint last_char (s : string) : option ascii :=
  match s with
  | EmptyString => None
  | String c EmptyString => Some c
  | String _ s' => last_char s'
  end.

Section Durations.
Context `{Calendar}.

Definition shifted (c : Civil) (years months : Z) : Civil :=
  mkCivil (year c + years) (month c + months) (day c) (hour c) (minute c) (second c).

(** [Some None] when the fields do not make a date, [None] when the loop over the
    months does not end. *)
Definition add_duration (fuel : nat) (begin : datetime) (i : Z) (unit : ascii)
    : option (option datetime) :=
  let civil := civil_of begin in
  let made c := if valid_civil c then Some (aware_of c) else None in
  if bool_decide (unit = "y"%char) then Some (made (shifted civil i 0))
  else if bool_decide (unit = "m"%char) then
    match month_loop fuel (month civil) 0 i with
    | Some (yi, i) => Some (made (shifted civil yi i))
    | None => None
    end
  else if bool_decide (unit = "d"%char) then Some (Some (begin + days i))
  else if bool_decide (unit = "h"%char) then Some (Some (begin + seconds (3600 * i)))
  else if bool_decide (unit = "w"%char) then Some (Some (begin + days (7 * i)))
  else Some None.

(** src/edit_course/operations/configure.py: parse_duration.  A loop that does not end
    is the [RuntimeError]. *)
Definition parse_duration (fuel : nat) (begin : datetime) (value : json) : E (option datetime) :=
  let failed := do _ := add_error "ERROR_PARSING_TIME_DURATION" in eret None in
  match value with
  | JStr s =>
      if (1 <? String.length s)%nat then
        match int_of_string (take_str (String.length s - 1) s), last_char s with
        | Some i, Some unit =>
            match add_duration fuel begin i unit with
            | Some (Some t) => eret (Some t)
            | Some None => failed
            | None => eraise RuntimeError
            end
        | _, _ => failed
        end
      else failed
  | JList [] | JList [_] => failed
  | JObj m => if (1 <? size m)%nat then eraise TypeError else failed
  | _ => eraise TypeError
  end.

End Durations.

(** Every turn of the loop over the years adds the month of the beginning to the
    duration once more: the date is late by as many months for every new year. *)
Lemma month_loop_overshoots fuel m : forall yi i yi' i',
  month_loop fuel m yi i = Some (yi', i') ->
  m + i' <= 12 /\ 12 * yi' + i' = 12 * yi + i + (yi' - yi) * m.
Proof.
  induction fuel as [|fuel IH]; intros yi i yi' i' Hl; [done|]. cbn [month_loop] in Hl.
  destruct (12 <? m + i) eqn:E; b2p; [apply IH in Hl; lia|]. injection Hl as <- <-. lia.
Qed.

(** Within the year the loop does nothing, and the result is right. *)
Lemma month_loop_same_year fuel m i : m + i <= 12 -> month_loop (S fuel) m 0 i = Some (0, i).
Proof. intros Hle. cbn [month_loop]. apply Z.ltb_ge in Hle. by rewrite Hle. Qed.

(** From December on, a month or more never ends the loop. *)
Lemma month_loop_december fuel yi i : 0 < i -> month_loop fuel 12 yi i = None.
Proof.
  revert yi. induction fuel as [|fuel IH]; intros yi Hi; [done|]. cbn [month_loop].
  assert ((12 <? 12 + i) = true) as -> by (apply Z.ltb_lt; lia).
  replace (12 + i - 12) with i by lia. by apply IH.
Qed.

(** Before December it ends. *)
Lemma month_loop_ends m i yi : m < 12 -> exists r, month_loop (Z.to_nat (m + i) + 1) m yi i = Some r.
Proof.
  intros Hm. remember (Z.to_nat (m + i)) as n eqn:En. revert i yi En.
  induction n as [n IH] using lt_wf_ind. intros i yi En.
  destruct n as [|n]; rewrite Nat.add_1_r; cbn [month_loop].
  - assert ((12 <? m + i) = false) as -> by (apply Z.ltb_ge; lia). by eexists.
  - destruct (12 <? m + i) eqn:E; b2p; [|by eexists].
    assert (Z.to_nat (m + (m + i - 12)) < S n)%nat as Hlt by lia.
    destruct (IH _ Hlt (m + i - 12) (yi + 1) eq_refl) as [r Hr]. exists r.
    assert (forall f yi i r, month_loop f m yi i = Some r -> forall k, month_loop (f + k) m yi i = Some r)
      as Hmono.
    { induction f as [|f IHf]; intros y j q Hq k; [done|]. cbn in Hq |- *.
      destruct (12 <? m + j); [by apply IHf|done]. }
    apply Hmono with (k := (S n - (Z.to_nat (m + (m + i - 12)) + 1))%nat) in Hr.
    match type of Hr with month_loop ?k _ _ _ = _ => replace k with (S n) in Hr by lia end. exact Hr.
Qed.

(** Three months from November lead to December two years later. *)
Example month_loop_november : month_loop 3 11 0 3 = Some (2, 1).
Proof. done. Qed.

(** ** Changes between configurations *)

Section Changes.
Context {V : Type} `{!PyEq V}.

(** src/edit_course/operations/configure.py: get_config_changes.  [recurser] is the
    recurser of the code where both values are dictionaries, and [None] stands
    for no recurser. *)
Definition get_config_changes (recurser : option (V -> V -> option V)) (keep : list string)
    (keep_unchanged : bool) (old new : gmap string V) : option (gmap string V) :=
  if negb keep_unchanged && py_eq old new then None
  else
    Some (map_imap (fun key n =>
      if bool_decide (is_Some (old !! key)) && negb (bool_decide (key ∈ keep)) then
        match old !! key with
        | Some o =>
            match recurser with
            | Some recurser => recurser o n
            | None => if py_eq o n then None else Some n
            end
        | None => None
        end
      else Some n) new).

End Changes.

(** The configuration of a learning object, of all learning objects of a module,
    and of all modules. *)
Abbreviation LObjConfigs := (gmap string dict).

Definition LOBJECT_KEEP : list string :=
  ["children"; "category"; "target_category"; "target_url"; "max_submissions"; "lti"]%string.

(** src/edit_course/operations/configure.py: get_lobject_changes lines 221-229 *)
Definition get_lobject_changes (old new : LObjConfigs) : option LObjConfigs :=
  get_config_changes (Some (get_config_changes None LOBJECT_KEEP false)) [] false old new.

(** The classes of learning objects. *)
Inductive LClass := CourseChapterClass | BaseExerciseClass | LTIExerciseClass | LTI1p3ExerciseClass.
#[global] Instance LClass_eq_dec : EqDecision LClass.
Proof. solve_decision. Defined.

Definition has_key {A} (m : gmap string A) (key : string) : bool := bool_decide (is_Some (m !! key)).

(** src/edit_course/operations/configure.py: lobject_class *)
Definition lobject_class (config : dict) : LClass :=
  if has_key config "lti1p3" then LTI1p3ExerciseClass
  else if has_key config "lti" then LTIExerciseClass
  else if has_key config "max_submissions" then BaseExerciseClass
  else CourseChapterClass.

(** ** Parts of a configuration *)

(** An object of the configuration with the array of its children apart. *)
Inductive Tree := Node (fields : dict) (children : list Tree).
Definition fields_of (t : Tree) : dict := match t with Node f _ => f end.
Definition children_of (t : Tree) : list Tree := match t with Node _ c => c end.

(** A configuration as it is read. *)
Record Config := mkConfig {
  config_fields : dict;
  config_categories : list (string * dict);
  config_modules : list Tree;
}.

(** src/edit_course/operations/configure.py: set_order_information, on the fields of the
    objects. *)
Fixpoint set_order_information {A} (fields : A -> dict) (update : A -> dict -> A) (items : list A) (n : Z)
    : list A * Z :=
  match items with
  | [] => ([], n)
  | o :: items =>
      if has_key (fields o) "order" then
        let '(items, n) := set_order_information fields update items n in (o :: items, n)
      else
        let n := n + 1 in
        let '(items, n') := set_order_information fields update items n in
        (update o (<["order" := JInt n]> (fields o)) :: items, n')
  end.

Definition order_trees : list Tree -> Z -> list Tree * Z :=
  set_order_information fields_of (fun t f => Node f (children_of t)).

(** src/edit_course/operations/configure.py: ConfigParts lines 460-488 *)
Record ConfigParts := mkParts {
  parts_config : dict;
  parts_categories : gmap string (string * dict);
  parts_category_names : gset string;
  parts_category_key_map : gmap string string;
  parts_modules : gmap string dict;
  parts_module_keys : gset string;
  parts_module_lobjects : gmap string LObjConfigs;
  parts_module_lobject_keys : gmap string (gset string);
}.

Section Parts.
Context `{PyText}.
(** The services a label may name: LTI and LTI 1.3. *)
Context (lti_services lti1p3_services : list string).

(** src/edit_course/operations/configure.py: validate_lobject.  The key of a category is
    a string; another value that can be looked up is in no dictionary of
    strings. *)
Definition validate_lobject (config : dict) (category_key_to_name : gmap string string) : E bool :=
  if negb (has_key config "key") then do _ := add_error "LEARNING_OBJECT_ERROR_REQUIRES_KEY" in eret false
  else
    match config !! "category"%string with
    | None => do _ := add_error "LEARNING_OBJECT_ERROR_REQUIRES_CATEGORY" in eret false
    | Some (JList _ | JSet _ | JObj _) => eraise TypeError
    | Some category =>
        if negb (match category with
                 | JStr c => has_key category_key_to_name c
                 | _ => false
                 end)
        then do _ := add_error "LEARNING_OBJECT_ERROR_UNKNOWN_CATEGORY" in eret false
        else
          let checked label services :=
            match config !! label with
            | Some conf =>
                if bool_decide (py_str conf ∈ services) then eret true
                else do _ := add_error "LTI_ERROR_NO_CONFIGURATION_TO_SERVICE_USED_BY_EXERCISE" in eret false
            | None => eret true
            end in
          match lobject_class config with
          | LTIExerciseClass => checked "lti"%string lti_services
          | LTI1p3ExerciseClass => checked "lti1p3"%string lti1p3_services
          | _ => eret true
          end
    end.

Fixpoint keep_valid (category_key_to_name : gmap string string) (items : list Tree) : E (list Tree) :=
  match items with
  | [] => eret []
  | t :: items =>
      do valid := validate_lobject (fields_of t) category_key_to_name in
      do items := keep_valid category_key_to_name items in
      eret (if valid then t :: items else items)
  end.

(** The string an object's key is filed under. *)
Definition key_of (fields : dict) : string := py_str (default JNull (fields !! "key"%string)).

(** The number of objects in a tree, which bounds the depth of the recursion. *)
Fixpoint tree_size (t : Tree) : nat :=
  match t with Node _ children => S (sum_list_with tree_size children) end.

(** The loop over the children: the configuration of each, with the set of its
    own children, and the objects below it. *)
Fixpoint collect (get : Tree -> E (LObjConfigs * gset string * Z)) (children : list Tree)
    : E (list (dict * LObjConfigs)) :=
  match children with
  | [] => eret []
  | child :: children =>
      do (lobjects, child_keys, _) := get child in
      do rest := collect get children in
      eret ((<["children"%string := JSet child_keys]> (fields_of child), lobjects) :: rest)
  end.

(** The dictionary of the children, updated with the dictionaries below them; a key
    that occurs again replaces the earlier one. *)
Definition merge_lobjects (below : list (dict * LObjConfigs)) : LObjConfigs :=
  foldl (fun m x => snd x ∪ m) (foldl (fun m x => <[key_of (fst x) := fst x]> m) ∅ below) below.

(** src/edit_course/operations/configure.py: ConfigParts.from_config lines 506-521
    ([get_children]).  Returns the objects below a node by their keys, the keys of
    its own children, and the next number.  The recursion follows the tree: the
    fuel is its depth. *)
Fixpoint get_children (fuel : nat) (category_key_to_name : gmap string string) (t : Tree) (n : Z)
    : E (LObjConfigs * gset string * Z) :=
  match fuel with
  | O => eraise RecursionError
  | S fuel =>
      do valid := keep_valid category_key_to_name (children_of t) in
      let '(children, n) := order_trees valid n in
      let keys := list_to_set (key_of ∘ fields_of <$> children) in
      do below := collect (fun child => get_children fuel category_key_to_name child 0) children in
      eret (merge_lobjects below, keys, n)
  end.

(** src/edit_course/operations/configure.py: ConfigParts.from_config lines 492-501 *)
Definition split_categories (categories : list (string * dict))
    : E (gmap string (string * dict) * gmap string string) :=
  foldl (fun acc kc =>
    do (by_name, to_name) := acc in
    match snd kc !! "name"%string with
    | None => do _ := add_error "COURSE_CONFIG_ERROR_CATEGORY_REQUIRES_NAME" in eret (by_name, to_name)
    | Some name =>
        let name := localized name in
        eret (<[name := (fst kc, snd kc)]> by_name, <[fst kc := name]> to_name)
    end) (eret (∅, ∅)) categories.

(** src/edit_course/operations/configure.py: ConfigParts.from_config lines 523-541 *)
Definition split_modules (numerate : bool) (category_key_to_name : gmap string string) (modules : list Tree)
    : E (gmap string dict * gmap string LObjConfigs) :=
  do (by_key, lobjects, _) := foldl (fun acc m =>
    do (by_key, lobjects, nn) := acc in
    if negb (has_key (fields_of m) "key") then
      do _ := add_error "COURSE_CONFIG_ERROR_MODULE_REQUIRES_KEY" in eret (by_key, lobjects, nn)
    else
      let nn := if numerate then nn else 0 in
      do (objects, keys, nn) := get_children (tree_size m) category_key_to_name m nn in
      let key := key_of (fields_of m) in
      eret (<[key := <["children" := JSet keys]> (fields_of m)]> by_key, <[key := objects]> lobjects, nn))
    (eret (∅, ∅, 0)) modules in
  eret (by_key, lobjects).

(** src/edit_course/operations/configure.py: ConfigParts.from_config *)
Definition from_config (config : Config) : E ConfigParts :=
  do (categories, to_name) := split_categories (config_categories config) in
  let '(modules, _) := order_trees (config_modules config) 0 in
  let numerate := match config_fields config !! "numerate_ignoring_modules"%string with
                  | Some v => parse_bool v
                  | None => false
                  end in
  do (by_key, lobjects) := split_modules numerate to_name modules in
  eret (mkParts
          (<["modules" := JSet (dom by_key)]> (<["categories" := JSet (dom categories)]> (config_fields config)))
          categories (dom categories) (fst <$> categories) by_key (dom by_key)
          lobjects ((fun m => dom m) <$> lobjects)).

End Parts.

(** The learning objects of both configurations whose class has changed. *)
Definition changed_class (old new : LObjConfigs) : LObjConfigs :=
  map_imap (fun key n =>
    match old !! key with
    | Some o => if bool_decide (lobject_class o = lobject_class n) then None else Some n
    | None => None
    end) new.

(** A loop whose body may raise. *)
Fixpoint rloop {A S} (step : S -> A -> result S) (s : S) (l : list A) : result S :=
  match l with
  | [] => Ret s
  | a :: l => let! s := step s a in rloop step s l
  end.

(** The entry of a learning object in the parts of a configuration. *)
Definition lobject_entry (parts : ConfigParts) (module key : string) : option dict :=
  m ← parts_module_lobjects parts !! module; m !! key.

(** src/edit_course/operations/configure.py: ConfigParts.diff lines 586-590.  An object of a changed
    class is put into the changes of its module, which must be there. *)
Definition include_lobject (old new : ConfigParts) (module : string) (changes : gmap string LObjConfigs)
    (lobject : string) : result (gmap string LObjConfigs) :=
  match lobject_entry old module lobject, lobject_entry new module lobject with
  | Some old_lobject, Some new_lobject =>
      if bool_decide (lobject_class old_lobject = lobject_class new_lobject) then Ret changes
      else
        match changes !! module with
        | None => Raise KeyError
        | Some c => Ret (<[module := <[lobject := new_lobject]> c]> changes)
        end
  | _, _ => Raise KeyError
  end.

(** src/edit_course/operations/configure.py: ConfigParts.diff lines 584-590.  One module of both. *)
Definition include_module (old new : ConfigParts) (changes : gmap string LObjConfigs) (module : string)
    : result (gmap string LObjConfigs) :=
  match parts_module_lobject_keys old !! module, parts_module_lobject_keys new !! module with
  | Some old_keys, Some new_keys =>
      rloop (include_lobject old new module) changes (elements (old_keys ∩ new_keys))
  | _, _ => Raise KeyError
  end.

(** src/edit_course/operations/configure.py: ConfigParts.diff lines 583-590.  The result does not
    depend on the order in which Python iterates over the sets. *)
Definition include_changed_classes (old new : ConfigParts) (changes : gmap string LObjConfigs)
    : result (gmap string LObjConfigs) :=
  rloop (include_module old new) changes (elements (parts_module_keys old ∩ parts_module_keys new)).

(** src/edit_course/operations/configure.py: ConfigParts.diff *)
Definition config_diff (old : option ConfigParts) (new : ConfigParts) : result ConfigParts :=
  match old with
  | None => Ret new
  | Some old =>
      let config := default ∅ (get_config_changes None ["publish_url"; "errors"; "build_log_url"]%string true
                                 (parts_config old) (parts_config new)) in
      let categories := default ∅ (get_config_changes None [] false (parts_categories old) (parts_categories new)) in
      let modules := default ∅ (get_config_changes None [] false (parts_modules old) (parts_modules new)) in
      let lobjects := default ∅ (get_config_changes (Some get_lobject_changes) [] false
                                   (parts_module_lobjects old) (parts_module_lobjects new)) in
      let! lobjects := include_changed_classes old new lobjects in
      Ret (mkParts config categories (parts_category_names new) (parts_category_key_map new) modules
             (parts_module_keys new) lobjects (parts_module_lobject_keys new))
  end.

(** ** What the changes are *)

Section ChangesSpec.
Context {V : Type} `{!PyEq V}.
Implicit Types old new : gmap string V.

(** Whether a key has to be compared. *)
Definition compared (keep : list string) (old : gmap string V) (key : string) : bool :=
  bool_decide (is_Some (old !! key)) && negb (bool_decide (key ∈ keep)).

Lemma get_config_changes_lookup recurser keep ku old new d key :
  get_config_changes recurser keep ku old new = Some d ->
  d !! key = match new !! key with
             | None => None
             | Some n =>
                 if compared keep old key then
                   match old !! key with
                   | Some o => match recurser with
                               | Some r => r o n
                               | None => if py_eq o n then None else Some n
                               end
                   | None => None
                   end
                 else Some n
             end.
Proof.
  unfold get_config_changes. destruct (_ && _); [done|]. intros [= <-].
  rewrite map_lookup_imap. by destruct (new !! key).
Qed.

Lemma compared_nil (old : gmap string V) key : compared [] old key = bool_decide (is_Some (old !! key)).
Proof.
  unfold compared. rewrite (bool_decide_eq_false_2 (key ∈ [])) by set_solver. by rewrite andb_true_r.
Qed.

Lemma get_config_changes_none recurser keep ku old new :
  get_config_changes recurser keep ku old new = None <-> ku = false /\ py_eq old new = true.
Proof. unfold get_config_changes. destruct ku, (py_eq old new); cbn; naive_solver. Qed.

Lemma map_py_eq_lookup old new key :
  py_eq old new = true ->
  match old !! key, new !! key with
  | Some o, Some n => py_eq o n = true
  | None, None => True
  | _, _ => False
  end.
Proof.
  unfold py_eq. rewrite bool_decide_eq_true. cbn. intros Heq.
  assert ((py_norm <$> old) !! key = (py_norm <$> new) !! key) as E by by rewrite Heq.
  rewrite !lookup_fmap in E. destruct (old !! key), (new !! key); cbn in E; try done.
  rewrite bool_decide_eq_true. congruence.
Qed.

(** The changes laid over the old dictionary give the new one. *)
Definition patches (old new d : gmap string V) : Prop :=
  dom d ⊆ dom new
  /\ forall key n, new !! key = Some n -> exists v, (d ∪ old) !! key = Some v /\ py_eq v n = true.

Lemma changes_patch keep ku old new :
  patches old new (default ∅ (get_config_changes None keep ku old new)).
Proof.
  destruct (get_config_changes None keep ku old new) as [d|] eqn:Ed; cbn.
  - assert (forall key, d !! key = _) as Hd by
      (intros key; exact (get_config_changes_lookup _ _ _ _ _ _ key Ed)).
    split.
    + intros key. rewrite !elem_of_dom, Hd. intros [v Hv]. by destruct (new !! key).
    + intros key n Hn. rewrite lookup_union, Hd, Hn. unfold compared.
      destruct (old !! key) as [o|] eqn:Eo; cbn.
      * destruct (bool_decide (key ∈ keep)); cbn.
        { exists n. split; [done|apply py_eq_refl]. }
        destruct (py_eq o n) eqn:Eq; cbn; [by exists o|]. exists n. split; [done|apply py_eq_refl].
      * exists n. split; [done|apply py_eq_refl].
  - apply get_config_changes_none in Ed as [_ Heq]. split; [by rewrite dom_empty_L; set_solver|].
    intros key n Hn. rewrite (left_id_L ∅ (∪)). pose proof (map_py_eq_lookup _ _ key Heq) as Hk.
    rewrite Hn in Hk. destruct (old !! key) as [o|]; [|done]. by exists o.
Qed.

End ChangesSpec.

(** The changes of one learning object keep the fields that tell its class. *)
Lemma lobject_changes_keep old new d key :
  get_config_changes None LOBJECT_KEEP false old new = Some d -> key ∈ LOBJECT_KEEP ->
  d !! key = new !! key.
Proof.
  intros Hd Hk. rewrite (get_config_changes_lookup _ _ _ _ _ _ key Hd). unfold compared.
  rewrite (bool_decide_eq_true_2 (key ∈ LOBJECT_KEEP)) by exact Hk. rewrite andb_false_r.
  by destruct (new !! key).
Qed.

Lemma lobject_changes_class old new d :
  get_config_changes None LOBJECT_KEEP false old new = Some d -> new !! "lti1p3"%string = None ->
  lobject_class d = lobject_class new.
Proof.
  intros Hd Hl. unfold lobject_class, has_key.
  rewrite (get_config_changes_lookup _ _ _ _ _ _ "lti1p3" Hd), Hl.
  rewrite !(lobject_changes_keep old new d) by first [exact Hd|unfold LOBJECT_KEEP; set_solver]. done.
Qed.

(** ** The parts that are updated *)

Lemma patches_self {V} `{!PyEq V} (old new : gmap string V) : patches old new new.
Proof.
  split; [done|]. intros key n Hn. exists n. split; [|apply py_eq_refl].
  rewrite lookup_union, Hn. by destruct (old !! key).
Qed.

Lemma lobject_class_py_eq o n : py_eq o n = true -> lobject_class o = lobject_class n.
Proof.
  intros Heq. unfold lobject_class, has_key.
  assert (forall key, bool_decide (is_Some (o !! key)) = bool_decide (is_Some (n !! key))) as Hk.
  { intros key. pose proof (map_py_eq_lookup o n key Heq). by destruct (o !! key), (n !! key). }
  by rewrite !Hk.
Qed.

Lemma changed_class_lookup o n key :
  changed_class o n !! key
  = c ← n !! key; co ← o !! key; if bool_decide (lobject_class co = lobject_class c) then None else Some c.
Proof.
  unfold changed_class. rewrite map_lookup_imap. destruct (n !! key) as [c|]; cbn; [|done].
  by destruct (o !! key).
Qed.

Lemma changed_class_py_eq o n : py_eq o n = true -> changed_class o n = ∅.
Proof.
  intros Heq. apply map_eq. intros key. rewrite changed_class_lookup, lookup_empty.
  pose proof (map_py_eq_lookup o n key Heq) as Hk.
  destruct (n !! key) as [c|], (o !! key) as [co|]; cbn; try done.
  by rewrite bool_decide_eq_true_2 by by apply lobject_class_py_eq.
Qed.

(** What has to be said of a learning object that the new configuration has. *)
Definition lobject_update (old : option dict) (new : dict) (entry : option dict) : Prop :=
  match old with
  | None => entry = Some new
  | Some old => patches old new (default ∅ entry)
  end
  /\ forall e, entry = Some e -> new !! "lti1p3"%string = None -> lobject_class e = lobject_class new.

(** The changes of the learning objects of one module. *)
Lemma module_update o n key c :
  n !! key = Some c ->
  lobject_update (o !! key) c ((changed_class o n ∪ default ∅ (get_lobject_changes o n)) !! key).
Proof.
  intros Hc. rewrite lookup_union, changed_class_lookup, Hc. cbn.
  destruct (get_lobject_changes o n) as [g|] eqn:Eg; cbn.
  - rewrite (get_config_changes_lookup _ _ _ _ _ _ key Eg), Hc, compared_nil.
    destruct (o !! key) as [co|]; cbn.
    + case_bool_decide as Ecl; cbn.
      * rewrite (left_id_L None (∪)). split; [apply changes_patch|].
        intros e He Hl. by eapply lobject_changes_class.
      * destruct (get_config_changes _ _ _ co c); cbn; (split; [apply patches_self|by intros e [= <-]]).
    + split; [done|]. by intros e [= <-].
  - apply get_config_changes_none in Eg as [_ Heq].
    pose proof (map_py_eq_lookup o n key Heq) as Hk. rewrite Hc in Hk.
    destruct (o !! key) as [co|]; [|done]. cbn.
    rewrite bool_decide_eq_true_2 by by apply lobject_class_py_eq.
    rewrite lookup_empty. cbn. split; [|done].
    pose proof (changes_patch LOBJECT_KEEP false co c) as Hp.
    assert (get_config_changes None LOBJECT_KEEP false co c = None) as E; [|by rewrite E in Hp].
    by apply get_config_changes_none.
Qed.

(** The children of a learning object are among the objects. *)
Definition linked (objects : LObjConfigs) (config : dict) : Prop :=
  exists keys, config !! "children"%string = Some (JSet keys) /\ keys ⊆ dom objects.

(** What holds of the parts of a configuration: the sets are those of the keys,
    every learning object has the set of its children and it and the module name
    only learning objects of the module, and every category that is used has a
    name. *)
Record parts_ok (p : ConfigParts) : Prop := {
  ok_names : parts_category_names p = dom (parts_categories p);
  ok_key_map : parts_category_key_map p = fst <$> parts_categories p;
  ok_module_keys : parts_module_keys p = dom (parts_modules p);
  ok_modules : dom (parts_module_lobjects p) = dom (parts_modules p);
  ok_lobject_keys : parts_module_lobject_keys p = (fun m => dom m) <$> parts_module_lobjects p;
  ok_links : forall module m objects,
    parts_modules p !! module = Some m -> parts_module_lobjects p !! module = Some objects ->
    linked objects m /\ map_Forall (fun _ => linked objects) objects;
}.

(** The inner loop, for a part of the keys of a module. *)
Lemma include_lobjects_spec old new module o n l : forall changes,
  parts_module_lobjects old !! module = Some o -> parts_module_lobjects new !! module = Some n ->
  (forall k, k ∈ l -> k ∈ dom o /\ k ∈ dom n) ->
  (changed_class o n <> ∅ -> is_Some (changes !! module)) ->
  exists c, rloop (include_lobject old new module) changes l = Ret c /\
    (forall m, m <> module -> c !! m = changes !! m) /\
    c !! module = (fun g => filter (fun x => x.1 ∈ l) (changed_class o n) ∪ g) <$> changes !! module.
Proof.
  induction l as [|k l IH]; intros changes Ho Hn Hl Hch; cbn [rloop].
  { exists changes. split; [done|]. split; [done|]. destruct (changes !! module) as [g|]; [|done]. cbn.
    f_equal. apply map_eq. intros j. rewrite lookup_union.
    assert (filter (fun x => x.1 ∈ []) (changed_class o n) !! j = None) as -> by
      (apply map_lookup_filter_None; right; intros x _ Hx; by apply not_elem_of_nil in Hx).
    by rewrite (left_id_L None (∪)). }
  destruct (Hl k) as [Hko Hkn]; [by left|]. apply elem_of_dom in Hko as [ko Hko], Hkn as [kn Hkn].
  assert (Hl' : forall k', k' ∈ l -> k' ∈ dom o /\ k' ∈ dom n) by (intros; apply Hl; by right).
  pose proof (changed_class_lookup o n k) as Hck. rewrite Hkn, Hko in Hck. cbn in Hck.
  unfold include_lobject at 1, lobject_entry. rewrite Ho, Hn. cbn. rewrite Hko, Hkn.
  case_bool_decide as Ecl.
  - destruct (IH changes Ho Hn Hl' Hch) as (c & Hc & Hm & Hmod). exists c. split; [done|]. split; [done|].
    rewrite Hmod. destruct (changes !! module) as [g|]; [|done]. cbn. do 2 f_equal.
    apply map_filter_ext. intros j x Hj. rewrite elem_of_cons. cbn. split; [by right|].
    intros [->|?]; [congruence|done].
  - destruct (Hch) as [g Hg]; [intros E; by rewrite E, lookup_empty in Hck|]. rewrite Hg.
    destruct (IH (<[module := <[k := kn]> g]> changes) Ho Hn Hl') as (c & Hc & Hm & Hmod).
    { rewrite lookup_insert_eq. by eexists. }
    exists c. split; [done|]. split.
    + intros m Hne. rewrite Hm by done. by rewrite lookup_insert_ne.
    + rewrite Hmod, lookup_insert_eq. cbn. f_equal. apply map_eq. intros j.
      rewrite !lookup_union, !map_lookup_filter.
      destruct (decide (j = k)) as [->|Hne].
      * rewrite Hck, lookup_insert_eq. cbn. rewrite (option_guard_True (k ∈ k :: l)) by (by left).
        destruct (decide (k ∈ l)); [rewrite option_guard_True by done|rewrite option_guard_False by done];
          by destruct (g !! k).
      * rewrite lookup_insert_ne by done. destruct (changed_class o n !! j) as [x|]; cbn; [|done].
        destruct (decide (j ∈ l)).
        -- by rewrite !option_guard_True by (done || by right).
        -- rewrite !option_guard_False; [done|by intros [?|?]%elem_of_cons|done].
Qed.

Lemma parts_lobject_keys p module :
  parts_ok p -> parts_module_lobject_keys p !! module = dom <$> parts_module_lobjects p !! module.
Proof. intros Hp. by rewrite (ok_lobject_keys _ Hp), lookup_fmap. Qed.

Lemma include_module_spec old new module o n changes :
  parts_ok old -> parts_ok new ->
  parts_module_lobjects old !! module = Some o -> parts_module_lobjects new !! module = Some n ->
  (changed_class o n <> ∅ -> is_Some (changes !! module)) ->
  exists c, include_module old new changes module = Ret c /\
    (forall m, m <> module -> c !! m = changes !! m) /\
    c !! module = (fun g => changed_class o n ∪ g) <$> changes !! module.
Proof.
  intros Hpo Hpn Ho Hn Hch. unfold include_module. rewrite !parts_lobject_keys, Ho, Hn by done. cbn.
  destruct (include_lobjects_spec old new module o n (elements (dom o ∩ dom n)) changes Ho Hn) as (c & Hc & Hm & Hmod).
  { intros k Hk. by apply elem_of_elements, elem_of_intersection in Hk. }
  { done. }
  exists c. split; [done|]. split; [done|]. rewrite Hmod. do 2 f_equal.
  assert (filter (fun x => x.1 ∈ elements (dom o ∩ dom n)) (changed_class o n) = changed_class o n) as ->; [|done].
  apply map_filter_id. intros k x Hk. cbn. rewrite changed_class_lookup in Hk.
  destruct (n !! k) eqn:En; [|done]. cbn in Hk. destruct (o !! k) eqn:Eo; [|done].
  apply elem_of_elements, elem_of_intersection. split; apply elem_of_dom; by eexists.
Qed.

(** The objects of a changed class always have a place in the changes. *)
Lemma include_changed_classes_spec old new changes :
  parts_ok old -> parts_ok new ->
  (forall module o n, parts_module_lobjects old !! module = Some o ->
     parts_module_lobjects new !! module = Some n -> changed_class o n <> ∅ ->
     is_Some (changes !! module)) ->
  exists c, include_changed_classes old new changes = Ret c
    /\ forall module, c !! module
         = match parts_module_lobjects new !! module, parts_module_lobjects old !! module with
           | Some n, Some o => (fun g => changed_class o n ∪ g) <$> changes !! module
           | _, _ => changes !! module
           end.
Proof.
  intros Hpo Hpn Hpre. unfold include_changed_classes.
  set (l := elements (parts_module_keys old ∩ parts_module_keys new)).
  assert (Hin : forall m, m ∈ l <-> is_Some (parts_module_lobjects old !! m) /\ is_Some (parts_module_lobjects new !! m)).
  { intros m. unfold l. rewrite elem_of_elements, elem_of_intersection.
    rewrite (ok_module_keys _ Hpo), (ok_module_keys _ Hpn), <- (ok_modules _ Hpo), <- (ok_modules _ Hpn).
    by rewrite !elem_of_dom. }
  assert (Hl : NoDup l) by apply NoDup_elements.
  assert (Hgen : forall l', NoDup l' -> (forall m, m ∈ l' -> m ∈ l) -> forall ch,
    (forall m, m ∈ l' -> ch !! m = changes !! m) ->
    exists c, rloop (include_module old new) ch l' = Ret c /\ forall m, c !! m =
      if bool_decide (m ∈ l') then
        match parts_module_lobjects new !! m, parts_module_lobjects old !! m with
        | Some n, Some o => (fun g => changed_class o n ∪ g) <$> changes !! m
        | _, _ => changes !! m
        end
      else ch !! m).
  { induction l' as [|m l' IH]; intros Hnd Hsub ch Hsame; cbn [rloop]; [by exists ch|].
    apply NoDup_cons in Hnd as [Hm Hnd]. destruct (proj1 (Hin m) (Hsub m (list_elem_of_here _ _))) as [[o Ho] [n Hn]].
    destruct (include_module_spec old new m o n ch Hpo Hpn Ho Hn) as (c1 & Hc1 & Hoth & Hmod).
    { intros Hne. rewrite Hsame by (by left). by eapply Hpre. }
    rewrite Hc1. cbn [rbind]. destruct (IH Hnd ltac:(intros; apply Hsub; by right) c1) as (c & Hc & Hall).
    { intros m' Hm'. rewrite Hoth by (by intros ->). apply Hsame. by right. }
    exists c. split; [done|]. intros m'. rewrite Hall. destruct (decide (m' = m)) as [->|Hne].
    - rewrite bool_decide_false by done. rewrite bool_decide_true by (by left).
      by rewrite Hmod, Ho, Hn, Hsame by (by left).
    - rewrite Hoth by done.
      assert (bool_decide (m' ∈ l') = bool_decide (m' ∈ m :: l')) as ->; [|done].
      apply bool_decide_ext. rewrite elem_of_cons. naive_solver. }
  destruct (Hgen l Hl ltac:(done) changes ltac:(done)) as (c & Hc & Hall). exists c. split; [done|].
  intros m. rewrite Hall. case_bool_decide as Hm; [done|]. rewrite Hin in Hm.
  destruct (parts_module_lobjects new !! m), (parts_module_lobjects old !! m); try done.
  destruct Hm. split; by eexists.
Qed.

Lemma module_changes_lookup old new module n :
  parts_module_lobjects new !! module = Some n ->
  default ∅ (get_config_changes (Some get_lobject_changes) [] false
               (parts_module_lobjects old) (parts_module_lobjects new)) !! module
  = match parts_module_lobjects old !! module with
    | None => Some n
    | Some o => get_lobject_changes o n
    end.
Proof.
  intros Hn. destruct (get_config_changes _ _ _ _ _) as [g|] eqn:Eg; cbn.
  - rewrite (get_config_changes_lookup _ _ _ _ _ _ module Eg), Hn, compared_nil.
    by destruct (parts_module_lobjects old !! module).
  - apply get_config_changes_none in Eg as [_ Heq]. rewrite lookup_empty.
    pose proof (map_py_eq_lookup _ _ module Heq) as Hk. rewrite Hn in Hk.
    destruct (parts_module_lobjects old !! module) as [o|]; [|done].
    symmetry. by apply get_config_changes_none.
Qed.

(** C25. The update of a course from the changes of its configuration is complete:
    comparing two configurations, as they are split into parts, never fails, and
    laying the changes over the old configuration gives every field of the new one,
    for the course, its categories, its modules and each learning object; a learning
    object that is new is there with all its fields, and the class of each is
    recognised from its changes, unless it is an LTI 1.3 exercise. *)
Theorem config_diff_complete (old new : ConfigParts) :
  parts_ok old -> parts_ok new ->
  exists d, config_diff (Some old) new = Ret d
    /\ patches (parts_config old) (parts_config new) (parts_config d)
    /\ patches (parts_categories old) (parts_categories new) (parts_categories d)
    /\ patches (parts_modules old) (parts_modules new) (parts_modules d)
    /\ forall module key c, lobject_entry new module key = Some c ->
         lobject_update (lobject_entry old module key) c (lobject_entry d module key).
Proof.
  intros Hpo Hpn. unfold config_diff.
  set (changes := default ∅ (get_config_changes (Some get_lobject_changes) [] false
                   (parts_module_lobjects old) (parts_module_lobjects new))).
  destruct (include_changed_classes_spec old new changes Hpo Hpn) as (c & Hc & Hlookup).
  { intros module o n Ho Hn Hch. unfold changes. rewrite (module_changes_lookup _ _ _ _ Hn), Ho.
    destruct (get_lobject_changes o n) eqn:Eg; [done|]. exfalso. apply Hch, changed_class_py_eq.
    by apply get_config_changes_none in Eg as [_ ?]. }
  rewrite Hc. cbn [rbind]. eexists. split; [done|]. cbn [parts_config parts_categories parts_modules].
  split_and!; [apply changes_patch..|]. intros module key cfg. unfold lobject_entry. cbn.
  destruct (parts_module_lobjects new !! module) as [n|] eqn:En; [|done]. cbn. intros Hcfg.
  rewrite Hlookup, En. unfold changes. rewrite (module_changes_lookup _ _ _ _ En).
  destruct (parts_module_lobjects old !! module) as [o|] eqn:Eo; cbn.
  - pose proof (module_update o n key cfg Hcfg) as Hu.
    destruct (get_lobject_changes o n) as [g|] eqn:Eg; cbn in Hu |- *; [exact Hu|].
    apply get_config_changes_none in Eg as [_ Heq].
    by rewrite changed_class_py_eq, (left_id_L ∅ (∪)), lookup_empty in Hu by done.
  - rewrite Hcfg. split; [done|]. by intros e [= <-].
Qed.

(** The LTI 1.3 service of an exercise is not among the fields that are always
    kept: after any other change the exercise is taken for an ordinary one. *)
Lemma lti1p3_class_is_lost :
  let old : dict := {[ "lti1p3" := JStr "tool"; "max_submissions" := JInt 5; "title" := JStr "A" ]}%string in
  let new := <["title"%string := JStr "B"]> old in
  lobject_class new = LTI1p3ExerciseClass
  /\ (lobject_class <$> get_config_changes None LOBJECT_KEEP false old new) = Some BaseExerciseClass.
Proof. vm_compute. done. Qed.

(** ** Numbers *)

(** The orders of a list of objects. *)
Definition orders_of (items : list Tree) : list (option json) :=
  (fun t => fields_of t !! "order"%string) <$> items.

(** Which objects get a number. *)
Definition unnumbered (t : Tree) : bool := negb (has_key (fields_of t) "order").

Definition numbered (n : Z) (t : Tree) : Tree :=
  Node (<["order"%string := JInt n]> (fields_of t)) (children_of t).

Lemma order_trees_cons t items n :
  order_trees (t :: items) n
  = if unnumbered t then ((numbered (n + 1) t :: fst (order_trees items (n + 1)))%list,
                          snd (order_trees items (n + 1)))
    else ((t :: fst (order_trees items n))%list, snd (order_trees items n)).
Proof.
  unfold order_trees, unnumbered. cbn [set_order_information].
  destruct (has_key (fields_of t) "order"); cbn [negb].
  - by destruct (set_order_information _ _ items n).
  - by destruct (set_order_information _ _ items (n + 1)).
Qed.

Definition count_unnumbered (items : list Tree) : Z := Z.of_nat (length (List.filter unnumbered items)).

Lemma count_unnumbered_cons t items :
  count_unnumbered (t :: items) = (if unnumbered t then 1 else 0) + count_unnumbered items.
Proof. unfold count_unnumbered. cbn. destruct (unnumbered t); cbn [length]; lia. Qed.

(** Objects without an order are numbered on from [n], in their order; the others
    and all other fields stay. *)
Lemma order_trees_spec items : forall n,
  snd (order_trees items n) = n + count_unnumbered items
  /\ forall i, fst (order_trees items n) !! i
       = (fun t => if unnumbered t then numbered (n + 1 + count_unnumbered (take i items)) t else t)
         <$> items !! i.
Proof.
  induction items as [|t items IH]; intros n.
  { split; [cbn; unfold count_unnumbered; cbn; lia|done]. }
  rewrite order_trees_cons, count_unnumbered_cons.
  destruct (unnumbered t) eqn:Et; cbn [fst snd].
  - destruct (IH (n + 1)) as [-> Hi]. split; [lia|]. intros [|i].
    + cbn. rewrite Et. unfold count_unnumbered. cbn. by rewrite Z.add_0_r.
    + cbn [take]. rewrite count_unnumbered_cons, Et. change ((?x :: ?l) !! S i) with (l !! i).
      rewrite Hi. destruct (items !! i) as [t'|]; cbn; [|done].
      replace (n + 1 + (1 + count_unnumbered (take i items)))
        with (n + 1 + 1 + count_unnumbered (take i items)) by lia. done.
  - destruct (IH n) as [-> Hi]. split; [lia|]. intros [|i]; [cbn; by rewrite Et|].
    cbn [take]. rewrite count_unnumbered_cons, Et. cbn. by rewrite Hi.
Qed.

(** ** Every child is there *)

Lemma ebind_inv {A B} (c : E A) (k : A -> E B) e b e' :
  ebind c k e = Ret (b, e') -> exists a e1, c e = Ret (a, e1) /\ k a e1 = Ret (b, e').
Proof. unfold ebind. destruct (c e) as [[a e1]|]; cbn; [|done]. intros Hk. by exists a, e1. Qed.

Ltac ebind_inv H :=
  let a := fresh "a" in let e := fresh "e" in let H1 := fresh "H" in
  apply ebind_inv in H as (a & e & H1 & H).

Section Closed.
Context `{PyText} (lti_services lti1p3_services : list string) (to_name : gmap string string).
Implicit Types objects : LObjConfigs.

(** The category of a learning object is one of the configuration. *)
Definition placed (config : dict) : Prop :=
  exists category, config !! "category"%string = Some (JStr category) /\ is_Some (to_name !! category).

Definition closed objects : Prop := map_Forall (fun _ config => placed config /\ linked objects config) objects.

Lemma validate_lobject_placed config e e' :
  validate_lobject lti_services lti1p3_services config to_name e = Ret (true, e') -> placed config.
Proof.
  unfold validate_lobject, placed. destruct (negb (has_key config "key")); [discriminate|].
  destruct (config !! "category"%string) as [[| | | |c| | |]|]; cbn [negb]; try discriminate.
  unfold has_key at 1. destruct (bool_decide (is_Some (to_name !! c))) eqn:Ec; cbn [negb]; [|discriminate].
  intros _. exists c. split; [done|]. by apply bool_decide_eq_true in Ec.
Qed.

Lemma keep_valid_placed items : forall valid e e',
  keep_valid lti_services lti1p3_services to_name items e = Ret (valid, e') ->
  Forall (fun t => placed (fields_of t) /\ t ∈ items) valid.
Proof.
  induction items as [|t items IH]; intros valid e e' Hk; cbn in Hk.
  { injection Hk as <- _. constructor. }
  ebind_inv Hk. ebind_inv Hk. injection Hk as <- _. apply IH in H1.
  assert (Forall (fun t' => placed (fields_of t') /\ t' ∈ t :: items) a0) as Ha.
  { eapply Forall_impl; [exact H1|]. intros t' [? ?]. split; [done|]. by right. }
  destruct a; [|done]. constructor; [|done]. split; [by eapply validate_lobject_placed|by left].
Qed.

Lemma order_trees_fields items n :
  Forall2 (fun t t' => children_of t' = children_of t
             /\ forall key, key <> "order"%string -> fields_of t' !! key = fields_of t !! key)
    items (fst (order_trees items n)).
Proof.
  revert n. induction items as [|t items IH]; intros n; [constructor|]. rewrite order_trees_cons.
  destruct (unnumbered t); constructor; try apply IH; [|done].
  split; [done|]. intros key Hk. cbn. by rewrite lookup_insert_ne.
Qed.

Lemma order_trees_placed items n :
  Forall (fun t => placed (fields_of t)) items ->
  Forall (fun t => placed (fields_of t)) (fst (order_trees items n)).
Proof.
  intros Hp. pose proof (order_trees_fields items n) as Hf. induction Hf as [|t t' l l' [_ Hk] _ IH]; [done|].
  apply Forall_cons in Hp as [Hp Hps]. constructor; [|by apply IH].
  unfold placed. by rewrite Hk by done.
Qed.

(** What the loop over the children gives. *)
Lemma collect_spec get children : forall below e e',
  collect get children e = Ret (below, e') ->
  Forall2 (fun child x => exists keys n e1 e2,
      get child e1 = Ret ((snd x, keys, n), e2)
      /\ fst x = <["children"%string := JSet keys]> (fields_of child)) children below.
Proof.
  induction children as [|child children IH]; intros below e e' Hc; cbn in Hc.
  { injection Hc as <- _. constructor. }
  ebind_inv Hc. destruct a as [[lobjects keys] n]. ebind_inv Hc. injection Hc as <- _.
  constructor; [|by eapply IH]. by exists keys, n, e, e0.
Qed.

Lemma key_of_children fields keys : key_of (<["children"%string := JSet keys]> fields) = key_of fields.
Proof. unfold key_of. by rewrite lookup_insert_ne. Qed.

Definition own_lobjects (below : list (dict * LObjConfigs)) : LObjConfigs :=
  foldl (fun m x => <[key_of (fst x) := fst x]> m) ∅ below.

Lemma own_lobjects_spec below :
  dom (own_lobjects below) = list_to_set ((fun x => key_of (fst x)) <$> below)
  /\ map_Forall (fun _ c => exists x, x ∈ below /\ c = fst x) (own_lobjects below).
Proof.
  unfold own_lobjects. induction below as [|x below [Hd Hf]] using rev_ind; cbn.
  { split; [done|]. intros k c Hc. by rewrite lookup_empty in Hc. }
  rewrite foldl_app. cbn. split.
  - rewrite dom_insert_L, Hd, fmap_app, list_to_set_app_L. cbn. set_solver.
  - intros k c Hc. apply lookup_insert_Some in Hc as [[_ <-]|[_ Hc]].
    + exists x. split; [set_solver|done].
    + destruct (Hf k c Hc) as (y & Hy & ->). exists y. split; [set_solver|done].
Qed.

Lemma merge_lobjects_spec below :
  dom (own_lobjects below) ⊆ dom (merge_lobjects below)
  /\ (forall x, x ∈ below -> dom (snd x) ⊆ dom (merge_lobjects below))
  /\ map_Forall (fun k c => (exists x, x ∈ below /\ c = fst x)
                            \/ exists x, x ∈ below /\ snd x !! k = Some c) (merge_lobjects below).
Proof.
  unfold merge_lobjects. fold (own_lobjects below).
  destruct (own_lobjects_spec below) as [_ Hown]. revert Hown.
  generalize (own_lobjects below) as own. intros own Hown.
  assert (forall l own', Forall (fun x => x ∈ below) l ->
    map_Forall (fun k c => (exists x, x ∈ below /\ c = fst x)
                            \/ exists x, x ∈ below /\ snd x !! k = Some c) own' ->
    dom own' ⊆ dom (foldl (fun m x => snd x ∪ m) own' l)
    /\ (forall x, x ∈ l -> dom (snd x) ⊆ dom (foldl (fun m x => snd x ∪ m) own' l))
    /\ map_Forall (fun k c => (exists x, x ∈ below /\ c = fst x)
                            \/ exists x, x ∈ below /\ snd x !! k = Some c)
         (foldl (fun m x => snd x ∪ m) own' l)) as Hgen.
  { induction l as [|x l IH]; intros own' Hl Hown'; cbn; [by split_and!; set_solver|].
    apply Forall_cons in Hl as [Hx Hl]. destruct (IH (snd x ∪ own') Hl) as (Hd & Hs & Hf).
    { intros k c Hc. apply lookup_union_Some_raw in Hc as [Hc|[_ Hc]]; [|by apply Hown'].
      right. by exists x. }
    rewrite dom_union_L in Hd. split_and!; [set_solver| |done].
    intros y [->|Hy]%elem_of_cons; [set_solver|by apply Hs]. }
  apply Hgen; [by apply Forall_forall|]. intros k c Hc. left. by apply (Hown k).
Qed.

(** Whatever the tree, the objects found in it are in known categories, and the
    children of each, and of the root, are among them. *)
Lemma get_children_closed fuel : forall t n objects keys n' e e',
  get_children lti_services lti1p3_services fuel to_name t n e = Ret ((objects, keys, n'), e') ->
  closed objects /\ keys ⊆ dom objects.
Proof.
  induction fuel as [|fuel IH]; intros t n objects keys n' e e' Hg; [done|]. cbn in Hg.
  ebind_inv Hg. destruct (order_trees a n) as [children n1] eqn:Eo. ebind_inv Hg.
  injection Hg as <- <- _ _. apply keep_valid_placed in H0.
  assert (Forall (fun t => placed (fields_of t)) children) as Hp.
  { pose proof (order_trees_placed a n) as Ho. rewrite Eo in Ho. apply Ho.
    eapply Forall_impl; [exact H0|]. by intros ? []. }
  apply collect_spec in H1. destruct (own_lobjects_spec a0) as [Hdom _].
  destruct (merge_lobjects_spec a0) as (Hown & Hsnd & Hall).
  assert (Forall (fun x => closed (snd x) /\ placed (fst x) /\ linked (snd x) (fst x)) a0) as Hx.
  { clear -H1 Hp IH. induction H1 as [|child x l l' (ks & n & e1 & e2 & Hget & Hfst) _ IHl]; [done|].
    apply Forall_cons in Hp as [Hc Hp]. constructor; [|by apply IHl].
    apply IH in Hget as [Hcl Hks]. split_and!; [done| |].
    - destruct Hc as (c & Hc & Hn). exists c. by rewrite Hfst, lookup_insert_ne.
    - exists ks. by rewrite Hfst, lookup_insert_eq. }
  rewrite Forall_forall in Hx. split.
  - intros k c Hc. destruct (Hall k c Hc) as [(x & Hin & ->)|(x & Hin & Hk)];
      destruct (Hx x Hin) as (Hcl & Hpl & (ks & Hks & Hsub)).
    + split; [done|]. exists ks. split; [done|]. etransitivity; [exact Hsub|by apply Hsnd].
    + destruct (Hcl k c Hk) as [Hpc (ks' & Hks' & Hsub')]. split; [done|].
      exists ks'. split; [done|]. etransitivity; [exact Hsub'|by apply Hsnd].
  - etransitivity; [|exact Hown]. rewrite Hdom. clear -H1.
    induction H1 as [|child x l l' (ks & n & e1 & e2 & _ & Hfst) _ IHl]; [done|]. cbn.
    rewrite Hfst, key_of_children. set_solver.
Qed.

End Closed.

(** ** The parts of a configuration *)

Section FromConfig.
Context `{PyText} (lti_services lti1p3_services : list string).

(** The names of the categories that have one. *)
Definition category_names (categories : list (string * dict)) : list string :=
  omap (fun kc => localized <$> snd kc !! "name"%string) categories.

Lemma split_categories_spec categories : forall by_name to_name e e',
  split_categories categories e = Ret ((by_name, to_name), e') ->
  (forall key name, to_name !! key = Some name ->
     is_Some (by_name !! name) /\ name ∈ category_names categories)
  /\ (NoDup (category_names categories) ->
      forall key name, to_name !! key = Some name -> exists c, by_name !! name = Some (key, c)).
Proof.
  unfold split_categories. induction categories as [|[k c] categories IH] using rev_ind;
    intros by_name to_name e e' Hs.
  { injection Hs as <- <- _. by split; intros; rewrite lookup_empty in *. }
  rewrite foldl_app in Hs. cbn [foldl] in Hs. ebind_inv Hs. destruct a as [b0 t0]. cbn [fst snd] in Hs.
  destruct (IH _ _ _ _ H0) as [IH1 IH2]. unfold category_names in *. rewrite omap_app. cbn.
  destruct (c !! "name"%string) as [name|] eqn:En; cbn.
  - injection Hs as <- <- _. split.
    + intros key nm Hk. rewrite elem_of_app. apply lookup_insert_Some in Hk as [[_ <-]|[_ Hk]].
      * rewrite lookup_insert_eq. split; [done|]. right. by left.
      * destruct (IH1 key nm Hk) as [Hb Hin]. split; [|by left].
        destruct (decide (localized name = nm)) as [<-|Hne]; [by rewrite lookup_insert_eq|].
        by rewrite lookup_insert_ne.
    + intros Hnd key nm Hk. apply NoDup_app in Hnd as (Hnd & Hdis & _).
      apply lookup_insert_Some in Hk as [[<- <-]|[_ Hk]]; [rewrite lookup_insert_eq; by exists c|].
      destruct (IH1 key nm Hk) as [_ Hin]. rewrite lookup_insert_ne; [by apply IH2|].
      intros <-. apply (Hdis _ Hin). by left.
  - rewrite app_nil_r. ebind_inv Hs. injection Hs as <- <- _. by split.
Qed.

Lemma split_modules_spec numerate to_name modules by_key lobjects e e' :
  split_modules lti_services lti1p3_services numerate to_name modules e = Ret ((by_key, lobjects), e') ->
  dom by_key = dom lobjects
  /\ forall module objects, lobjects !! module = Some objects ->
       closed to_name objects /\ exists m, by_key !! module = Some m /\ linked objects m.
Proof.
  unfold split_modules. intros Hs. ebind_inv Hs. destruct a as [[b l] nn]. injection Hs as <- <- _.
  revert b l nn e e0 H0. induction modules as [|m modules IH] using rev_ind; intros b l nn e1 e2 Hf.
  { injection Hf as <- <- _ _. split; [done|]. intros module objects Hl. by rewrite lookup_empty in Hl. }
  rewrite foldl_app in Hf. cbn [foldl] in Hf. ebind_inv Hf. destruct a as [[b0 l0] n0].
  destruct (IH _ _ _ _ _ H0) as [Hdom Hall].
  destruct (negb (has_key (fields_of m) "key")).
  - ebind_inv Hf. injection Hf as <- <- _ _. done.
  - ebind_inv Hf. destruct a as [[objects keys] n1]. injection Hf as <- <- _ _.
    apply get_children_closed in H1 as [Hcl Hks]. split; [by rewrite !dom_insert_L, Hdom|].
    intros module objs Ho. apply lookup_insert_Some in Ho as [[<- <-]|[Hne Ho]].
    + split; [done|]. eexists. rewrite lookup_insert_eq. split; [done|].
      exists keys. by rewrite lookup_insert_eq.
    + rewrite lookup_insert_ne by done. by apply Hall.
Qed.

Lemma from_config_split (config : Config) (parts : ConfigParts) (errors errors' : list string) :
  from_config lti_services lti1p3_services config errors = Ret (parts, errors') ->
  parts_ok parts
  /\ (NoDup (category_names (config_categories config)) ->
      forall module key c, lobject_entry parts module key = Some c ->
        exists category name, c !! "category"%string = Some (JStr category)
          /\ parts_category_key_map parts !! name = Some category).
Proof.
  unfold from_config. intros Hf. ebind_inv Hf. destruct a as [categories to_name].
  destruct (order_trees (config_modules config) 0) as [modules n]. ebind_inv Hf.
  destruct a as [by_key lobjects]. injection Hf as <- _.
  apply split_categories_spec in H0 as [_ Hcat]. apply split_modules_spec in H1 as [Hdom Hall].
  split.
  - constructor; cbn; try done. intros module m objects Hm Ho.
    destruct (Hall module objects Ho) as [Hcl (m' & Hm' & Hl)]. replace m with m' by congruence.
    split; [done|]. intros k c Hc. by destruct (Hcl k c Hc).
  - intros Hnd module key c Hc. unfold lobject_entry in Hc. cbn in Hc.
    destruct (lobjects !! module) as [objects|] eqn:Eo; [|done]. cbn in Hc.
    destruct (Hall module objects Eo) as [Hcl _]. destruct (Hcl key c Hc) as [(cat & Ecat & [name Hn]) _].
    exists cat, name. split; [done|]. cbn. rewrite lookup_fmap.
    destruct (Hcat Hnd cat name Hn) as [c' ->]. done.
Qed.

(** C26. Splitting a configuration gives consistent parts: the sets of names and
    keys are those of the parts, and the children of every module and learning
    object are learning objects of the same module.  When no two categories have
    the same name, the category of every learning object is found by its key. *)
Theorem from_config_ok (config : Config) (parts : ConfigParts) (errors errors' : list string) :
  from_config lti_services lti1p3_services config errors = Ret (parts, errors') ->
  parts_ok parts
  /\ (NoDup (category_names (config_categories config)) ->
      forall module key c, lobject_entry parts module key = Some c ->
        exists category name, c !! "category"%string = Some (JStr category)
          /\ parts_category_key_map parts !! name = Some category).
Proof. apply from_config_split. Qed.

(** ** The recursion ends *)

Lemma tree_size_child t child : child ∈ children_of t -> (tree_size child < tree_size t)%nat.
Proof.
  destruct t as [f children]. cbn. intros Hin. induction Hin as [|x y l Hin IH]; cbn in *; lia.
Qed.

(** A call that raises at most a [TypeError]. *)
Definition type_errors_only {A} (c : E A) : Prop :=
  forall e ex, c e = Raise ex -> ex = TypeError.

Lemma type_errors_bind {A B} (c : E A) (k : A -> E B) :
  type_errors_only c -> (forall a e1 e2, c e1 = Ret (a, e2) -> type_errors_only (k a)) ->
  type_errors_only (ebind c k).
Proof.
  intros Hc Hk e ex. unfold ebind. destruct (c e) as [[a e1]|ex'] eqn:E; cbn.
  - by apply (Hk a e e1).
  - intros [= <-]. by apply (Hc e).
Qed.

Lemma type_errors_ret {A} (a : A) : type_errors_only (eret a).
Proof. done. Qed.

Lemma type_errors_add {A} message (a : A) : type_errors_only (do _ := add_error message in eret a).
Proof. done. Qed.

Lemma validate_type_errors config to_name :
  type_errors_only (validate_lobject lti_services lti1p3_services config to_name).
Proof.
  unfold validate_lobject. destruct (negb _); [done|].
  destruct (config !! "category"%string) as [[| | | |c| | |]|]; cbn [negb]; try done;
    try (intros e ex [= <-]; done).
  destruct (negb _); [done|].
  destruct (lobject_class config); try done;
    (destruct (config !! _) as [v|]; [|done]; by destruct (bool_decide _)).
Qed.

Lemma keep_valid_type_errors to_name items :
  type_errors_only (keep_valid lti_services lti1p3_services to_name items).
Proof.
  induction items as [|t items IH]; cbn; [done|].
  apply type_errors_bind; [apply validate_type_errors|]. intros v _ _ _.
  apply type_errors_bind; [done|]. done.
Qed.

Lemma collect_type_errors get children :
  Forall (fun child => type_errors_only (get child)) children -> type_errors_only (collect get children).
Proof.
  induction 1 as [|child children Hc _ IH]; cbn; [done|].
  apply type_errors_bind; [done|]. intros [[? ?] ?] _ _ _. apply type_errors_bind; [done|]. done.
Qed.

(** With the size of the tree as fuel, the recursion never runs out of it. *)
Lemma get_children_type_errors fuel : forall to_name t n,
  (tree_size t <= fuel)%nat ->
  type_errors_only (get_children lti_services lti1p3_services fuel to_name t n).
Proof.
  induction fuel as [|fuel IH]; intros to_name t n Hs; [destruct t; cbn in Hs; lia|]. cbn.
  apply type_errors_bind; [apply keep_valid_type_errors|]. intros valid e1 e2 Hv.
  apply keep_valid_placed in Hv. pose proof (order_trees_fields valid n) as Hf.
  destruct (order_trees valid n) as [children n']. cbn in Hf.
  apply type_errors_bind; [|done]. apply collect_type_errors. clear n n'.
  induction Hf as [|v v' l l' [Hch _] _ IHf]; [done|]. apply Forall_cons in Hv as [[_ Hin] Hv].
  constructor; [|by apply IHf]. apply IH. apply tree_size_child in Hin.
  destruct v as [fv cv], v' as [fv' cv']. cbn in Hch, Hin |- *. subst cv'. lia.
Qed.

(** Splitting a configuration ends, and the only thing it can raise is the
    [TypeError] of a category that is an array or an object; every other mistake
    in it is reported in the list of errors. *)
Theorem from_config_ends (config : Config) (errors : list string) (ex : exn) :
  from_config lti_services lti1p3_services config errors = Raise ex -> ex = TypeError.
Proof.
  revert errors ex. change (type_errors_only (from_config lti_services lti1p3_services config)).
  unfold from_config. apply type_errors_bind.
  - unfold split_categories. induction (config_categories config) as [|[k c] l IH] using rev_ind; [done|].
    rewrite foldl_app. cbn [foldl]. apply type_errors_bind; [exact IH|]. intros [b t] _ _ _.
    by destruct (snd (k, c) !! "name"%string).
  - intros [categories to_name] _ _ _. destruct (order_trees _ 0) as [modules n].
    apply type_errors_bind; [|by intros [? ?]]. unfold split_modules.
    apply type_errors_bind; [|by intros [[? ?] ?]].
    induction modules as [|m modules IH] using rev_ind; [done|]. rewrite foldl_app. cbn [foldl].
    apply type_errors_bind; [exact IH|]. intros [[b l] nn] _ _ _.
    destruct (negb _); [done|]. apply type_errors_bind; [by apply get_children_type_errors|].
    by intros [[? ?] ?].
Qed.

End FromConfig.

(** ** Witnesses *)

#[export] Instance example_text : PyText := {|
  strptime := fun _ _ => None; make_aware := fun t => t; repr := fun _ => "..."%string;
  float_of_string := fun _ => None;
|}.

(** A module with a chapter and an exercise in it. *)
Definition example_fields (key category : string) : dict :=
  {[ "key" := JStr key; "category" := JStr category ]}%string.
Definition example_config (category : json) : Config :=
  mkConfig ∅ [("ex"%string, {[ "name"%string := JStr "Exercises" ]})]
    [Node {[ "key"%string := JStr "m1" ]}
       [Node (example_fields "ch1" "ex")
          [Node (<["max_submissions"%string := JInt 5]>
                   (<["category"%string := category]> (example_fields "e1" "ex"))) []]]].

(** A test on the outcome of a split. *)
Definition outcome (config : Config) (test : ConfigParts -> bool) : option bool :=
  match from_config [] [] config [] with
  | Ret (parts, errors) => Some (test parts && bool_decide (errors = []))
  | Raise _ => None
  end.

Definition has_entry (module key : string) (parts : ConfigParts) : bool :=
  bool_decide (is_Some (lobject_entry parts module key)).

Lemma from_config_ok_witness :
  exists parts errors, from_config [] [] (example_config (JStr "ex")) [] = Ret (parts, errors)
    /\ parts_ok parts /\ has_entry "m1" "e1" parts = true /\ errors = [].
Proof.
  assert (outcome (example_config (JStr "ex")) (has_entry "m1" "e1") = Some true) as Ho
    by (vm_compute; reflexivity).
  unfold outcome in Ho.
  destruct (from_config [] [] (example_config (JStr "ex")) []) as [[parts errors]|] eqn:E; [|discriminate].
  injection Ho as Ho. apply andb_prop in Ho as [He Hn]. exists parts, errors. split; [reflexivity|].
  split; [exact (proj1 (from_config_ok [] [] _ _ _ _ E))|].
  split; [exact He|]. by apply bool_decide_eq_true in Hn.
Defined.

(** Two configurations of the same course, one with an exercise instead of a chapter. *)
Lemma config_diff_complete_witness :
  exists old new d, parts_ok old /\ parts_ok new /\ config_diff (Some old) new = Ret d /\
    patches (parts_modules old) (parts_modules new) (parts_modules d).
Proof.
  assert (outcome (example_config (JStr "ex")) (has_entry "m1" "e1") = Some true) as Ho
    by (vm_compute; reflexivity).
  assert (outcome (mkConfig ∅ [("ex", {[ "name" := JStr "Exercises" ]})]%string
            [Node {[ "key"%string := JStr "m1" ]}
               [Node (<["max_submissions"%string := JInt 5]> (example_fields "ch1" "ex")) []]])
            (has_entry "m1" "ch1") = Some true) as Hn by (vm_compute; reflexivity).
  unfold outcome in Ho, Hn.
  destruct (from_config [] [] (example_config (JStr "ex")) []) as [[old eo]|] eqn:Eo; [|discriminate].
  destruct (from_config [] [] (mkConfig _ _ _) []) as [[new en]|] eqn:En; [|discriminate].
  destruct (from_config_split [] [] _ _ _ _ Eo) as [Hpo _]. destruct (from_config_split [] [] _ _ _ _ En) as [Hpn _].
  destruct (config_diff_complete old new Hpo Hpn) as (d & Hd & _ & _ & Hm & _).
  exists old, new, d. split; [exact Hpo|]. split; [exact Hpn|]. split; [exact Hd|exact Hm].
Defined.

Lemma from_config_ends_witness :
  exists ex, from_config [] [] (example_config (JList [])) [] = Raise ex /\ ex = TypeError.
Proof.
  assert (outcome (example_config (JList [])) (fun _ => true) = None) as Ho by (vm_compute; reflexivity).
  unfold outcome in Ho.
  destruct (from_config [] [] (example_config (JList [])) []) as [[p e]|ex] eqn:E; [discriminate|].
  exists ex. split; [reflexivity|]. exact (from_config_ends [] [] _ _ _ E).
Defined.

(** Two categories of the same name: the key of the first is found nowhere,
    although its learning objects are accepted. *)
Lemma shadowed_category_key :
  outcome
    (mkConfig ∅ [("a", {[ "name" := JStr "Exercises" ]}); ("b", {[ "name" := JStr "Exercises" ]})]%string
       [Node {[ "key"%string := JStr "m1" ]} [Node (example_fields "ch1" "a") []]])
    (fun parts => has_entry "m1" "ch1" parts
       && bool_decide (map_to_list (parts_category_key_map parts) = [("Exercises", "b")]%string))
  = Some true.
Proof. vm_compute. reflexivity. Qed.
