(* ===== verification/Configure.v ===== *)
(** * Configuration of a course

    The second half of [edit_course/operations/configure.py]: the update of the
    course instance, its categories, modules and learning objects from the
    changes of the configuration ([ConfigDiff]), inside one transaction, and the
    publication that ends it.

    A row of the database holds the attributes the code sets as a dictionary from
    attribute names to values (a datetime is an integer, an enumeration the name
    of its member); the columns that link rows are fields of the records.  The
    order in which Python iterates over sets is an argument, and so are the
    validation of rows ([full_clean]) and the answer of the service. *)

From Stdlib Require Import QArith Ascii.
From S2P Require Import Prelude Binary64 Helpers Course Reveal Models ConfigDiff.
#[local] Open Scope Z_scope.
#[local] Open Scope string_scope.

(** ** Rows *)

(** src/course/models.py: LearningObjectCategory *)
Record CatRow := mkCatRow {
  cat_name : string;
  cat_attrs : dict;
}.

(** src/course/models.py: CourseModule lines 1324-1416 *)
Record ModRow := mkModRow {
  mod_url : string;
  mod_attrs : dict;
  mod_model_answer : option Z;
  mod_rule : option RevealRule;
}.

(** src/exercise/exercise_models.py: LearningObject lines 175-245, with the columns of its
    subclasses among the attributes. *)
Record LRow := mkLRow {
  l_class : LClass;
  l_module : Z;
  l_url : string;
  l_parent : option Z;
  l_category : option Z;
  l_attrs : dict;
  l_feedback_rule : option RevealRule;
  l_model_rule : option RevealRule;
}.

(** The tables; a submission is its id and the id of its exercise. *)
Record CDb := mkCDb {
  db_instance : dict;
  db_enrollments : EnrollmentDB;
  db_categories : gmap Z CatRow;
  db_modules : gmap Z ModRow;
  db_lobjects : gmap Z LRow;
  db_submissions : list (Z * Z);
  db_next : Z;
}.

Definition with_instance (db : CDb) (x : dict) (en : EnrollmentDB) : CDb :=
  mkCDb x en (db_categories db) (db_modules db) (db_lobjects db) (db_submissions db) (db_next db).
Definition with_categories (db : CDb) (x : gmap Z CatRow) : CDb :=
  mkCDb (db_instance db) (db_enrollments db) x (db_modules db) (db_lobjects db) (db_submissions db) (db_next db).
Definition with_modules (db : CDb) (x : gmap Z ModRow) : CDb :=
  mkCDb (db_instance db) (db_enrollments db) (db_categories db) x (db_lobjects db) (db_submissions db) (db_next db).
Definition with_lobjects (db : CDb) (x : gmap Z LRow) : CDb :=
  mkCDb (db_instance db) (db_enrollments db) (db_categories db) (db_modules db) x (db_submissions db) (db_next db).
Definition with_next (db : CDb) (x : Z) : CDb :=
  mkCDb (db_instance db) (db_enrollments db) (db_categories db) (db_modules db) (db_lobjects db)
    (db_submissions db) x.

(** [full_clean] of the models. *)
Class Validation := {
  clean_instance : dict -> result unit;
  clean_category : CatRow -> result unit;
  clean_module : ModRow -> result unit;
  clean_lobject : LRow -> result unit;
}.

(** A call that may raise, among calls that collect errors. *)
Definition lift {A} (c : result A) : E A := fun errors => let! a := c in Ret (a, errors).

(** ** Setting attributes *)

(** [if key in config: setattr(row, attr, parse(config[key]))] *)
Definition set_attr (config : dict) (key attr : string) (parse : json -> E json) (row : dict) : E dict :=
  match config !! key with
  | Some v => do x := parse v in eret (<[attr := x]> row)
  | None => eret row
  end.

(** The same, but a value that could not be parsed is not set. *)
Definition set_parsed (config : dict) (key attr : string) (parse : json -> E (option json)) (row : dict)
    : E dict :=
  match config !! key with
  | Some v =>
      do x := parse v in
      eret (match x with Some x => <[attr := x]> row | None => row end)
  | None => eret row
  end.

(** Setting attributes one after the other. *)
Fixpoint in_sequence (setters : list (dict -> E dict)) (row : dict) : E dict :=
  match setters with
  | [] => eret row
  | s :: setters => do row := s row in in_sequence setters row
  end.

Definition emap {A B} (f : A -> B) (c : E A) : E B := do a := c in eret (f a).
Definition opt_int (o : option Z) : json := match o with Some n => JInt n | None => JNull end.
Definition opt_str (o : option string) : json := match o with Some s => JStr s | None => JNull end.
Definition as_bool (v : json) : E json := eret (JBool (parse_bool v)).

Section Configure.
Context `{PyText} `{Calendar} `{Settings} `{Validation}.
(** The course instance, the users, the fuel of the loop over months, the LTI
    services, and the order in which Python iterates over a set. *)
Context (self : CourseInstance) (users : list User) (fuel : nat).
Context (lti_services lti1p3_services : list string).
Context (py_order : list string -> list string).

Definition as_str (v : json) : E json := eret (JStr (py_str v)).
Definition date (v : json) : E (option json) := emap (fmap JInt) (parse_date v false).
Definition date_or_null (v : json) : E json := emap opt_int (parse_date v true).
Definition int_if_parsed (v : json) : E (option json) := emap (fmap JInt) (parse_int v).
Definition choice (choices : list string) (v : json) : E (option json) :=
  emap (fmap JStr) (parse_choices v ((fun c => (c, c)) <$> choices)).
Definition text (v : json) : E json := eret (JStr (localized v)).

(** ** The course instance *)

(** src/course/models.py: CourseInstance.is_valid_language *)
Definition is_valid_language (v : json) : bool :=
  match v with
  | JStr s => bool_decide (s = "") || bool_decide (s ∈ LANGUAGES)
  | _ => false
  end.

(** src/edit_course/operations/configure.py: configure lines 697-704 *)
Definition set_language (config row : dict) : E dict :=
  match config !! "lang" with
  | Some (JList langs) =>
      match List.filter is_valid_language langs with
      | [] => eret row
      | langs => eret (<["language" := JStr ("|" ++ join "|" (py_str <$> langs) ++ "|")]> row)
      end
  | Some lang => eret (if is_valid_language lang then <["language" := JStr (take_str 5 (py_str lang))]> row
                       else row)
  | None => eret row
  end.

(** [ "\n".join ] of an array that must hold strings. *)
Definition join_urls (v : json) : E json :=
  match v with
  | JList l =>
      if forallb (fun x => match x with JStr _ => true | _ => false end) l
      then eret (JStr (join (String "010"%char EmptyString) (py_str <$> l)))
      else eraise TypeError
  | _ => eret (JStr (py_str v))
  end.

(** src/edit_course/operations/configure.py: configure lines 710-727.  Student ids are
    strings or numbers. *)
Fixpoint find_assistants (sids : list json) : E (list UserProfile) :=
  match sids with
  | [] => eret []
  | sid :: sids =>
      match get_by_student_id users (py_str sid) with
      | Ret u => do rest := find_assistants sids in eret (userprofile u :: rest)
      | Raise _ =>
          do _ := add_error "COURSE_CONFIG_ERROR_ASSISTANT_NO_USER_WITH_SID" in
          find_assistants sids
      end
  end.

Definition set_config_assistants (config : dict) (enrollments : EnrollmentDB) : E EnrollmentDB :=
  match config !! "assistants" with
  | Some (JList sids) =>
      do profiles := find_assistants sids in
      eret (set_assistants self profiles enrollments)
  | Some _ => do _ := add_error "COURSE_CONFIG_ERROR_ASSISTANTS_AS_SID_ARRAY" in eret enrollments
  | None => eret enrollments
  end.

Definition NUMBERING : list string := ["none"; "arabic"; "roman"; "hidden"].

(** src/edit_course/operations/configure.py: configure lines 628-732 *)
Definition configure_instance (config : dict) (db : CDb) : E CDb :=
  do row := in_sequence
    [set_parsed config "start" "starting_time" date;
     set_parsed config "end" "ending_time" date;
     set_attr config "enrollment_start" "enrollment_starting_time" date_or_null;
     set_attr config "enrollment_end" "enrollment_ending_time" date_or_null;
     set_attr config "lifesupport_time" "lifesupport_time" date_or_null;
     set_attr config "archive_time" "archive_time" date_or_null;
     set_parsed config "enrollment_audience" "enrollment_audience" (choice ["internal"; "external"; "all"]);
     set_parsed config "view_content_to" "view_content_to"
       (choice ["enrolled"; "enrollment_audience"; "all_registered"; "public"]);
     set_parsed config "index_mode" "index_mode" (choice ["results"; "toc"; "last"; "experimental"]);
     set_parsed config "content_numbering" "content_numbering" (choice NUMBERING);
     set_parsed config "module_numbering" "module_numbering" (choice NUMBERING);
     set_attr config "course_description" "description" as_str;
     set_attr config "course_footer" "footer" as_str;
     set_attr config "points_goal_enabled" "points_goal_enabled" as_bool;
     set_language config;
     set_attr config "contact" "technical_error_emails" as_str;
     set_attr config "head_urls" "head_urls" join_urls] (db_instance db) in
  do enrollments := set_config_assistants config (db_enrollments db) in
  let row := <["build_log_url" := JStr (match config !! "build_log_url" with
                                        | Some v => py_str v
                                        | None => ""
                                        end)]> row in
  do _ := lift (clean_instance row) in
  eret (with_instance db row enrollments).

(** ** Categories *)

(** src/edit_course/operations/configure.py: configure lines 758-775 *)
Definition configure_category (c : dict) (category : CatRow) : E CatRow :=
  do attrs := in_sequence
    [set_attr c "status" "status" as_str;
     set_attr c "description" "description" as_str;
     set_parsed c "points_to_pass" "points_to_pass" int_if_parsed;
     set_attr c "confirm_the_level" "confirm_the_level" as_bool;
     set_attr c "accept_unofficial_submits" "accept_unofficial_submits" as_bool] (cat_attrs category) in
  let category := mkCatRow (cat_name category) attrs in
  do _ := lift (clean_category category) in
  eret category.

Definition hide (attrs : dict) : dict := <["status" := JStr "hidden"]> attrs.

(** One turn of the loop over the categories. *)
Definition update_category (parts : ConfigParts) (db : CDb) (id : Z) (category : CatRow) : E CDb :=
  if negb (bool_decide (cat_name category ∈ parts_category_names parts)) then
    eret (with_categories db
            (<[id := mkCatRow (cat_name category) (hide (cat_attrs category))]> (db_categories db)))
  else
    match parts_categories parts !! cat_name category with
    | None => eret (with_categories db (<[id := category]> (db_categories db)))
    | Some (_, c) =>
        do category := configure_category c category in
        eret (with_categories db (<[id := category]> (db_categories db)))
    end.

(** [foldM] over a list. *)
Fixpoint eloop {A S} (step : S -> A -> E S) (s : S) (l : list A) : E S :=
  match l with
  | [] => eret s
  | a :: l => do s := step s a in eloop step s l
  end.

(** The rows of a table, in the order of the database. *)
Definition rows {A} (table : gmap Z A) : list (Z * A) := map_to_list table.

(** src/edit_course/operations/configure.py: configure lines 734-775.  Returns the
    categories by the keys of the configuration. *)
Definition configure_categories (parts : ConfigParts) (db : CDb) : E (CDb * gmap string Z) :=
  let old := rows (db_categories db) in
  let new_names := py_order (elements (dom (parts_categories parts)
                                       ∖ list_to_set ((fun r => cat_name (snd r)) <$> old))) in
  let fresh := imap (fun i name => (db_next db + Z.of_nat i, mkCatRow name ∅)) new_names in
  let db := with_next db (db_next db + Z.of_nat (length new_names)) in
  let category_map := foldl (fun m r =>
    match parts_category_key_map parts !! cat_name (snd r) with
    | Some key => <[key := fst r]> m
    | None => m
    end) ∅ (old ++ fresh) in
  do db := eloop (fun db r => update_category parts db (fst r) (snd r)) db (old ++ fresh) in
  eret (db, category_map).

(** ** Learning objects *)

(** An entry of the map of a module's learning objects: a row, or an object that
    has not been saved yet. *)
Inductive LEntry := Saved (id : Z) | Fresh (cls : LClass).
#[global] Instance LEntry_eq_dec : EqDecision LEntry.
Proof. solve_decision. Defined.

Definition fresh_row (cls : LClass) (module : Z) (url : string) : LRow :=
  mkLRow cls module url None None ∅ None None.

Definition is_exercise (cls : LClass) : bool := negb (bool_decide (cls = CourseChapterClass)).

Definition attr_of (attrs : dict) (name : string) : json := default JNull (attrs !! name).

(** Newlines become blanks. *)
Fixpoint remove_newlines (s : string) : string :=
  match s with
  | String "013" (String "010" s) | String "010" s | String "013" s => String " " (remove_newlines s)
  | String c s => String c (remove_newlines s)
  | EmptyString => EmptyString
  end.
Definition one_line (v : json) : E json := eret (JStr (remove_newlines (localized v))).
Definition raw (v : json) : E json := eret v.

(** src/edit_course/operations/configure.py: update_learning_objects lines 263-287 *)
Definition set_lti (o : dict) (cls : LClass) (attrs : dict) : E dict :=
  match cls with
  | LTIExerciseClass =>
      in_sequence
        [set_attr o "lti" "lti_service"
           (fun v => eret (if bool_decide (py_str v ∈ lti_services) then JStr (py_str v) else JNull));
         set_attr o "lti_context_id" "context_id" raw;
         set_attr o "lti_resource_link_id" "resource_link_id" raw;
         set_attr o "lti_aplus_get_and_post" "aplus_get_and_post" as_bool;
         set_attr o "lti_open_in_iframe" "open_in_iframe" as_bool] attrs
  | LTI1p3ExerciseClass =>
      in_sequence
        [set_attr o "lti1p3" "lti_service"
           (fun v => eret (if bool_decide (py_str v ∈ lti1p3_services) then JStr (py_str v) else JNull));
         set_attr o "lti_custom" "custom" raw;
         set_attr o "lti_open_in_iframe" "open_in_iframe" raw] attrs
  | _ => eret attrs
  end.

(** src/edit_course/operations/configure.py: update_learning_objects lines 309-318 *)
Definition set_reveal_rule (o : dict) (key : string) (rule : option RevealRule) : E (option RevealRule) :=
  match o !! key with
  | Some config => if truthy config then parse_reveal_rule config rule else eret rule
  | None => eret rule
  end.

(** src/edit_course/operations/configure.py: update_learning_objects lines 319-332 *)
Definition set_grading_mode (o : dict) (rule : option RevealRule) (attrs : dict) : E dict :=
  match o !! "grading_mode" with
  | Some v =>
      do mode := parse_choices v [("best", "best"); ("last", "last")] in
      eret (<["grading_mode" := opt_str mode]> attrs)
  | None =>
      let last := match rule with
                  | Some rule => negb (bool_decide (trigger rule = RevealTrigger.IMMEDIATE))
                  | None => false
                  end in
      eret (<["grading_mode" := JStr (if last then "last" else "best")]> attrs)
  end.

(** src/edit_course/operations/configure.py: update_learning_objects lines 289-332, the part of
    an exercise. *)
Definition update_exercise (o : dict) (row : LRow) (attrs : dict)
    : E (dict * option RevealRule * option RevealRule) :=
  do attrs := in_sequence
    [set_attr o "allow_assistant_viewing" "allow_assistant_viewing" as_bool;
     set_attr o "allow_assistant_grading" "allow_assistant_grading" as_bool;
     set_parsed o "min_group_size" "min_group_size" int_if_parsed;
     set_parsed o "max_group_size" "max_group_size" int_if_parsed;
     set_parsed o "max_submissions" "max_submissions" int_if_parsed;
     set_parsed o "max_points" "max_points" int_if_parsed;
     set_parsed o "points_to_pass" "points_to_pass" int_if_parsed;
     set_attr o "difficulty" "difficulty" raw] attrs in
  do feedback := set_reveal_rule o "reveal_submission_feedback" (l_feedback_rule row) in
  do model := set_reveal_rule o "reveal_model_solutions" (l_model_rule row) in
  do attrs := set_grading_mode o feedback attrs in
  eret (attrs, feedback, model).

Definition set_audience (o attrs : dict) : E dict :=
  match o !! "audience" with
  | Some (JList _ | JSet _ | JObj _) => eraise TypeError
  | Some (JStr "internal") => eret (<["audience" := JInt 1]> attrs)
  | Some (JStr "external") => eret (<["audience" := JInt 2]> attrs)
  | Some (JStr "registered") => eret (<["audience" := JInt 3]> attrs)
  | Some _ => eret (<["audience" := JInt 0]> attrs)
  | None => eret attrs
  end.

(** src/edit_course/operations/configure.py: update_learning_objects lines 351-356 *)
Definition set_name (o attrs : dict) (parse : json -> E json) : E dict :=
  do attrs := (if has_key o "title" then set_attr o "title" "name" parse attrs
               else set_attr o "name" "name" parse attrs) in
  eret (if truthy (attr_of attrs "name") then attrs else <["name" := JStr "-"]> attrs).

(** [category_map[o["category"]]] *)
Definition category_of (o : dict) (category_map : gmap string Z) : E Z :=
  match o !! "category" with
  | Some (JStr key) => match category_map !! key with Some id => eret id | None => eraise KeyError end
  | _ => eraise KeyError
  end.

(** src/edit_course/operations/configure.py: update_learning_objects lines 257-366, the body of
    the loop up to the validation. *)
Definition update_lobject (o : dict) (category_map : gmap string Z) (row : LRow) : E LRow :=
  let cls := lobject_class o in
  do attrs := set_lti o cls (l_attrs row) in
  do (attrs, feedback, model) :=
    (if is_exercise cls then update_exercise o row attrs
     else eret (attrs, l_feedback_rule row, l_model_rule row)) in
  do attrs := (if is_exercise cls then eret attrs
               else set_attr o "generate_table_of_contents" "generate_table_of_contents" as_bool attrs) in
  do category := category_of o category_map in
  do attrs := set_attr o "order" "order" (fun v => emap opt_int (parse_int v)) attrs in
  do attrs := set_attr o "url" "service_url" text attrs in
  do attrs := set_attr o "status" "status" as_str attrs in
  do attrs := set_audience o attrs in
  do attrs := set_name o attrs one_line in
  do attrs := in_sequence
    [set_attr o "description" "description" as_str;
     set_attr o "use_wide_column" "use_wide_column" as_bool;
     set_attr o "exercise_info" "exercise_info" raw;
     set_attr o "model_answer" "model_answers" text;
     set_attr o "exercise_template" "templates" text] attrs in
  eret (mkLRow (l_class row) (l_module row) (l_url row) (l_parent row) (Some category) attrs feedback model).

(** ** Learning objects of a module *)

Definition insert_lobject (db : CDb) (id : Z) (row : LRow) : CDb :=
  with_lobjects db (<[id := row]> (db_lobjects db)).

(** The unique constraint of the table: module, parent and url; rows without a
    parent do not collide. *)
Definition collides (db : CDb) (id : Z) (row : LRow) : bool :=
  existsb (fun r => negb (Z.eqb (fst r) id) && Z.eqb (l_module (snd r)) (l_module row)
                    && bool_decide (l_url (snd r) = l_url row)
                    && bool_decide (l_parent (snd r) = l_parent row)
                    && bool_decide (is_Some (l_parent row))) (map_to_list (db_lobjects db)).

Definition save_lobject (db : CDb) (id : Z) (row : LRow) : E CDb :=
  if collides db id row then eraise DatabaseError else eret (insert_lobject db id row).

(** One turn of the loop of [update_learning_objects]: the object is updated,
    validated and saved. *)
Definition update_and_save (category_map : gmap string Z) (module : Z)
    (state : CDb * gmap string LEntry) (ko : string * dict) : E (CDb * gmap string LEntry) :=
  let '(db, learning_objects) := state in
  let '(key, o) := ko in
  match learning_objects !! key with
  | None => eraise KeyError
  | Some entry =>
      do (id, db, row) :=
        (match entry with
         | Saved id =>
             match db_lobjects db !! id with Some row => eret (id, db, row) | None => eraise DoesNotExist end
         | Fresh cls => eret (db_next db, with_next db (db_next db + 1), fresh_row cls module key)
         end) in
      do row := update_lobject o category_map row in
      do _ := lift (clean_lobject row) in
      do db := save_lobject db id row in
      eret (db, <[key := Saved id]> learning_objects)
  end.

(** src/edit_course/operations/configure.py: configure lines 803-819.  The class of an object
    has changed: the old one is renamed and outdated, a new one takes its
    place. *)
Definition select_class (module : Z) (old_keys : gset string)
    (state : CDb * gmap string LEntry * list Z) (ko : string * dict)
    : E (CDb * gmap string LEntry * list Z) :=
  let '(db, learning_objects, outdated) := state in
  let '(key, o) := ko in
  let cls := lobject_class o in
  if bool_decide (key ∈ old_keys) then
    match learning_objects !! key with
    | Some (Saved id) =>
        match db_lobjects db !! id with
        | Some row =>
            if bool_decide (l_class row = cls) then eret state
            else
              do db := save_lobject db id (mkLRow (l_class row) (l_module row) (l_url row ++ "_old")
                         (l_parent row) (l_category row) (l_attrs row) (l_feedback_rule row) (l_model_rule row)) in
              eret (db, <[key := Fresh cls]> learning_objects, (outdated ++ [id])%list)
        | None => eraise KeyError
        end
    | _ => eraise KeyError
    end
  else eret (db, <[key := Fresh cls]> learning_objects, outdated).

Definition with_parent (row : LRow) (parent : option Z) : LRow :=
  mkLRow (l_class row) (l_module row) (l_url row) parent (l_category row) (l_attrs row)
    (l_feedback_rule row) (l_model_rule row).

(** [parent.children.set(ids)]: the given rows get the parent, its other children
    lose it. *)
Definition set_children (db : CDb) (parent : Z) (ids : list Z) : CDb :=
  with_lobjects db (map_imap (fun id row =>
    Some (if bool_decide (id ∈ ids) then with_parent row (Some parent)
          else if bool_decide (l_parent row = Some parent) then with_parent row None
          else row)) (db_lobjects db)).

(** The ids of the saved entries of some keys; a missing key raises. *)
Fixpoint saved_ids (learning_objects : gmap string LEntry) (keys : list string) : E (list Z) :=
  match keys with
  | [] => eret []
  | key :: keys =>
      match learning_objects !! key with
      | Some (Saved id) => do ids := saved_ids learning_objects keys in eret (id :: ids)
      | _ => eraise KeyError
      end
  end.

(** src/edit_course/operations/configure.py: configure lines 828-833 *)
Definition link_children (learning_objects : gmap string LEntry) (db : CDb) (ko : string * dict) : E CDb :=
  let '(key, o) := ko in
  match learning_objects !! key, o !! "children" with
  | Some (Saved id), Some (JSet keys) =>
      do ids := saved_ids learning_objects (py_order (elements keys)) in
      eret (set_children db id ids)
  | _, _ => eraise KeyError
  end.

Definition has_submissions (db : CDb) (id : Z) : bool := existsb (fun s => Z.eqb (snd s) id) (db_submissions db).

(** [lobject.delete()]: the children of the row lose their parent, and the modules
    whose model answer it is lose that; its submissions go with it. *)
Definition delete_lobject (db : CDb) (id : Z) : CDb :=
  let lobjects := (fun row => if bool_decide (l_parent row = Some id) then with_parent row None else row)
                  <$> delete id (db_lobjects db) in
  let modules := (fun m => if bool_decide (mod_model_answer m = Some id)
                           then mkModRow (mod_url m) (mod_attrs m) None (mod_rule m) else m) <$> db_modules db in
  mkCDb (db_instance db) (db_enrollments db) (db_categories db) modules lobjects
    (List.filter (fun s => negb (Z.eqb (snd s) id)) (db_submissions db)) (db_next db).

(** [module.delete()]: the learning objects of the module go with it
    ([on_delete=models.CASCADE]), and their submissions with them. *)
Definition delete_module (db : CDb) (id : Z) : CDb :=
  let db := foldl delete_lobject db
              (fst <$> List.filter (fun r => Z.eqb (l_module (snd r)) id) (rows (db_lobjects db))) in
  with_modules db (delete id (db_modules db)).

(** [category.delete()]: the same for the learning objects of the category. *)
Definition delete_category (db : CDb) (id : Z) : CDb :=
  let db := foldl delete_lobject db
              (fst <$> List.filter (fun r => bool_decide (l_category (snd r) = Some id)) (rows (db_lobjects db))) in
  with_categories db (delete id (db_categories db)).

(** src/edit_course/operations/configure.py: configure lines 835-846 *)
Definition delete_or_hide (db : CDb) (id : Z) : CDb :=
  match db_lobjects db !! id with
  | None => db
  | Some row =>
      if negb (is_exercise (l_class row)) || negb (has_submissions db id) then delete_lobject db id
      else
        insert_lobject db id
          (mkLRow (l_class row) (l_module row) (l_url row) (l_parent row) (l_category row)
             (<["order" := JInt 9999]> (hide (l_attrs row))) (l_feedback_rule row) (l_model_rule row))
  end.

(** The learning objects of a module by their urls. *)
Definition lobject_map (db : CDb) (module : Z) : gmap string LEntry :=
  foldl (fun m r => if Z.eqb (l_module (snd r)) module then <[l_url (snd r) := Saved (fst r)]> m else m) ∅
    (rows (db_lobjects db)).

(** The items of a dictionary, in Python's order. *)
Definition items (m : LObjConfigs) : list (string * dict) :=
  omap (fun key => (fun o => (key, o)) <$> m !! key) (py_order (elements (dom m))).

(** src/edit_course/operations/configure.py: configure lines 787-846, one turn of the loop
    over the modules. *)
Definition sync_module (parts : ConfigParts) (category_map : gmap string Z) (db : CDb)
    (module : Z * string) : E CDb :=
  let learning_objects := lobject_map db (fst module) in
  let old_keys := dom learning_objects in
  let gone := elements (old_keys ∖ default ∅ (parts_module_lobject_keys parts !! snd module)) in
  do outdated := saved_ids learning_objects (py_order gone) in
  do (db, outdated) :=
    (match parts_module_lobjects parts !! snd module with
     | None => eret (db, outdated)
     | Some configs =>
         do (db, learning_objects, outdated) :=
           eloop (select_class (fst module) old_keys) (db, learning_objects, outdated) (items configs) in
         do (db, learning_objects) :=
           eloop (update_and_save category_map (fst module)) (db, learning_objects) (items configs) in
         do db := eloop (link_children learning_objects) db (items configs) in
         eret (db, outdated)
     end) in
  eret (foldl delete_or_hide db outdated).

(** ** Modules *)

(** src/edit_course/operations/configure.py: parse_model_solution_chapter *)
Definition parse_model_solution_chapter (db : CDb) (value : json) : E (option Z) :=
  let failed := do _ := add_error "ERROR_MODEL_SOLUTION_CHAPTER_NOT_FOUND" in eret None in
  match value with
  | JStr s =>
      match split "/" s with
      | [module_key; chapter_key] =>
          match List.filter (fun r => bool_decide (l_class (snd r) = CourseChapterClass)
                    && bool_decide (l_url (snd r) = chapter_key)
                    && match db_modules db !! l_module (snd r) with
                       | Some m => bool_decide (mod_url m = module_key)
                       | None => false
                       end) (rows (db_lobjects db)) with
          | [] => failed
          | [r] => eret (Some (fst r))
          | _ => eraise RuntimeError
          end
      | _ => failed
      end
  | _ => eraise AttributeError
  end.

(** The times of a module; an instance's time stands in for a missing one. *)
Definition time_attr (attrs : dict) (name : string) (instance : dict) (name' : string) : dict :=
  if truthy (attr_of attrs name) then attrs else <[name := attr_of instance name']> attrs.

Definition time_of (attrs : dict) (name : string) : datetime :=
  match attrs !! name with Some (JInt t) => t | _ => 0 end.

(** A deadline that is given as a date or as the time after another one. *)
Definition set_deadline (m : dict) (date_key duration_key : string) (begin : datetime)
    (set : datetime -> dict -> dict) (attrs : dict) : E dict :=
  match m !! date_key, m !! duration_key with
  | Some v, _ =>
      do dt := parse_date v false in
      eret (match dt with Some t => set t attrs | None => attrs end)
  | None, Some v =>
      do dt := parse_duration fuel begin v in
      eret (match dt with Some t => set t attrs | None => attrs end)
  | None, None => eret attrs
  end.

(** src/edit_course/operations/configure.py: configure lines 864-930 *)
Definition configure_module (m : dict) (db : CDb) (row : ModRow) : E ModRow :=
  do attrs := set_attr m "order" "order" (fun v => emap opt_int (parse_int v)) (mod_attrs row) in
  do attrs := set_name m attrs text in
  do attrs := in_sequence
    [set_attr m "status" "status" as_str;
     set_parsed m "points_to_pass" "points_to_pass" int_if_parsed;
     set_attr m "introduction" "introduction" as_str;
     set_parsed m "open" "opening_time" date] attrs in
  let attrs := time_attr attrs "opening_time" (db_instance db) "starting_time" in
  do attrs := set_deadline m "close" "duration" (time_of attrs "opening_time")
                (fun t => <["closing_time" := JInt t]>) attrs in
  let attrs := time_attr attrs "closing_time" (db_instance db) "ending_time" in
  do attrs := set_attr m "read-open" "reading_opening_time" date_or_null attrs in
  do attrs := set_deadline m "late_close" "late_duration" (time_of attrs "closing_time")
                (fun t a => <["late_submissions_allowed" := JBool true]>
                              (<["late_submission_deadline" := JInt t]> a)) attrs in
  do attrs := set_parsed m "late_penalty" "late_submission_penalty"
                (fun v => emap (fmap JFloat) (parse_float v)) attrs in
  do answer := (match m !! "model_answer" with
                | Some v => parse_model_solution_chapter db v
                | None => eret (mod_model_answer row)
                end) in
  do rule := (match m !! "reveal_module_model_solution" with
              | Some v => parse_reveal_rule v (mod_rule row)
              | None => eret (mod_rule row)
              end) in
  let row := mkModRow (mod_url row) attrs answer rule in
  do _ := lift (clean_module row) in
  eret row.

(** src/edit_course/operations/configure.py: configure lines 848-930, one turn of the second
    loop over the modules. *)
Definition update_module (parts : ConfigParts) (db : CDb) (id : Z) : E CDb :=
  match db_modules db !! id with
  | None => eret db
  | Some row =>
      if negb (bool_decide (mod_url row ∈ parts_module_keys parts)) then
        if existsb (fun r => Z.eqb (l_module (snd r)) id) (rows (db_lobjects db)) then
          eret (with_modules db (<[id := mkModRow (mod_url row) (hide (mod_attrs row))
                                           (mod_model_answer row) (mod_rule row)]> (db_modules db)))
        else eret (delete_module db id)
      else
        match parts_modules parts !! mod_url row with
        | None => eret db
        | Some m =>
            do row := configure_module m db row in
            eret (with_modules db (<[id := row]> (db_modules db)))
        end
  end.

(** A new module: its times are the present. *)
Definition fresh_module (now : datetime) (url : string) : ModRow :=
  mkModRow url (<["opening_time" := JInt now]> (<["closing_time" := JInt now]>
                 (<["late_submission_deadline" := JInt now]> ∅))) None None.

(** src/edit_course/operations/configure.py: configure lines 777-930 *)
Definition configure_modules (parts : ConfigParts) (category_map : gmap string Z) (now : datetime) (db : CDb)
    : E CDb :=
  let old := rows (db_modules db) in
  let new_urls := py_order (elements (dom (parts_modules parts)
                                      ∖ list_to_set ((fun r => mod_url (snd r)) <$> old))) in
  let fresh := imap (fun i url => (db_next db + Z.of_nat i, fresh_module now url)) new_urls in
  let all := (((fun r => (fst r, mod_url (snd r))) <$> old) ++ ((fun r => (fst r, mod_url (snd r))) <$> fresh))%list in
  let db := with_modules (with_next db (db_next db + Z.of_nat (length new_urls)))
              (foldl (fun t r => <[fst r := snd r]> t) (db_modules db) fresh) in
  do db := eloop (sync_module parts category_map) db all in
  eloop (fun db r => update_module parts db (fst r)) db all.

(** src/edit_course/operations/configure.py: configure lines 932-935.  The hidden categories without
    learning objects are deleted. *)
Definition clean_up_category (db : CDb) (id : Z) : CDb :=
  if existsb (fun r => bool_decide (l_category (snd r) = Some id)) (rows (db_lobjects db)) then db
  else delete_category db id.

Definition clean_up_categories (db : CDb) : CDb :=
  foldl clean_up_category db
    (fst <$> List.filter (fun r => bool_decide (cat_attrs (snd r) !! "status" = Some (JStr "hidden")))
               (rows (db_categories db))).

(** ** Publication *)

(** What a request to the publishing service ends in: an exception, with whether it
    is a [ConnectionError]; or a status and a text, empty, not JSON, or a
    value. *)
Inductive Body := NoText | NotJson | JsonBody (j : json).
Inductive Response :=
| RequestRaised (e : exn) (is_connection_error : bool)
| Answered (status_code : Z) (text : Body).

(** src/edit_course/operations/configure.py: configure lines 938-971.  Whether the service
    has published, and its errors. *)
Definition publish_outcome (response : Response) : result (bool * list string) :=
  match response with
  | RequestRaised e is_connection_error =>
      if is_connection_error then Ret (false, ["ConnectionError"]) else Raise e
  | Answered status_code text =>
      let non_200 := if Z.eqb status_code 200 then [] else ["PUBLISH_RESPONSE_NON_200"] in
      match text with
      | NoText => Ret (false, non_200)
      | NotJson => Ret (false, ["PUBLISH_ERROR_JSON_PARSER_FAILED"])
      | JsonBody j =>
          let '(success, publish_errors) :=
            match j with
            | JObj m => (truthy (default (JBool true) (m !! "success")), default (JList []) (m !! "errors"))
            | _ => (false, j)
            end in
          Ret (success, match publish_errors with
                        | JList l => py_str <$> l
                        | e => [py_str e]
                        end)
      end
  end.

(** src/edit_course/operations/configure.py: configure lines 937-983, [None] when the
    configuration does not ask for publication. *)
Definition publish (config : dict) (service : string -> Response) : E bool :=
  match config !! "publish_url" with
  | None => eret true
  | Some url =>
      do (success, publish_errors) := lift (publish_outcome (service (py_str url))) in
      do _ := (match publish_errors with
               | [] => eret tt
               | _ =>
                   do _ := (if success then eret tt else add_error "PUBLISHED_WITH_ERRORS") in
                   fun errors => Ret (tt, (errors ++ publish_errors)%list)
               end) in
      eret success
  end.

(** ** The whole operation *)

(** What is given to [configure]. *)
Inductive RawConfig := NoCategories | NoModules | FullConfig (config : Config).

(** How a transaction ends that does not raise: [set_rollback(True)] asks for the
    tables as they were. *)
Inductive BlockEnd := Commit (db : CDb) | Rollback.

(** [with transaction.atomic()]: the tables after the block, which are those before it
    when the block raises or asks for a rollback. *)
Definition atomic (block : E BlockEnd) (db : CDb) (errors : list string)
    : result (bool * list string) * CDb :=
  match block errors with
  | Ret (Commit db', errors) => (Ret (true, errors), db')
  | Ret (Rollback, errors) => (Ret (false, errors), db)
  | Raise e => (Raise e, db)
  end.

(** src/edit_course/operations/configure.py: configure lines 627-983.  The block of the
    transaction. *)
Definition configure_db (parts : ConfigParts) (now : datetime) (service : string -> Response) (db : CDb)
    : E BlockEnd :=
  do db := configure_instance (parts_config parts) db in
  do (db, category_map) := configure_categories parts db in
  do db := configure_modules parts category_map now db in
  let db := clean_up_categories db in
  do success := publish (parts_config parts) service in
  eret (if success then Commit db else Rollback).

(** src/edit_course/operations/configure.py: configure.  The answer, the tables and the
    configuration in the cache, which is only replaced after the transaction. *)
Definition configure (new_config : RawConfig) (now : datetime) (service : string -> Response)
    (db : CDb) (cached : option ConfigParts)
    : result (bool * list string) * CDb * option ConfigParts :=
  match new_config with
  | NoCategories => (Ret (false, ["COURSE_CONFIG_ERROR_CATEGORIES_REQUIRED_OBJECT"]), db, cached)
  | NoModules => (Ret (false, ["COURSE_CONFIG_ERROR_MODULES_REQUIRED_ARRAY"]), db, cached)
  | FullConfig config =>
      match from_config lti_services lti1p3_services config [] with
      | Raise e => (Raise e, db, cached)
      | Ret (new_parts, errors) =>
          match config_diff cached new_parts with
          | Raise e => (Raise e, db, cached)
          | Ret parts =>
              match atomic (configure_db parts now service db) db errors with
              | (Ret (true, errors), db) => (Ret (true, errors), db, Some new_parts)
              | (answer, db) => (answer, db, cached)
              end
          end
      end
  end.

(** What the build log is: an error or the log. *)
Inductive BuildLog := LogError (message : string) | LogData (data : json).

(** src/edit_course/operations/configure.py: get_build_log.  [fetch] is the text at the
    address, if the request succeeds; an empty text is not JSON. *)
Definition get_build_log (build_log_url : string) (fetch : string -> option Body) : BuildLog :=
  if bool_decide (build_log_url = "") then LogError "BUILD_LOG_ERROR_URL_BLANK"
  else
    match fetch build_log_url with
    | None => LogError "BUILD_LOG_ERROR_REQUESTING_FAILED"
    | Some (NoText | NotJson) => LogError "BUILD_LOG_ERROR_PARSING_JSON"
    | Some (JsonBody data) => if truthy data then LogData data else LogError "BUILD_LOG_ERROR_EMPTY_LOG"
    end.

(** What fetching the configuration ends in: a failed request, a text that is not
    JSON, a value that is no object, or an object with its [errors] and
    [success] apart. *)
Inductive Fetched :=
| FetchFailed
| FetchedText
| FetchedOther
| FetchedConfig (errors success : option json) (config : RawConfig).

(** src/edit_course/operations/configure.py: configure_from_url *)
Definition configure_from_url (url : string) (fetched : Fetched) (now : datetime)
    (service : string -> Response) (db : CDb) (cached : option ConfigParts)
    : result (bool * list string) * CDb * option ConfigParts :=
  if bool_decide (url = "") then (Ret (false, ["COURSE_CONFIG_URL_REQUIRED"]), db, cached)
  else
    let db := with_instance db (<["configure_url" := JStr url]> (db_instance db)) (db_enrollments db) in
    match fetched with
    | FetchFailed => (Ret (false, ["COURSE_CONFIG_ERROR_REQUEST_FAILED"]), db, cached)
    | FetchedText => (Ret (false, ["COURSE_CONFIG_ERROR_JSON_PARSER_FAILED"]), db, cached)
    | FetchedOther => (Ret (false, ["COURSE_CONFIG_ERROR_INVALID_JSON"]), db, cached)
    | FetchedConfig errors success config =>
        let errors := match errors with
                      | None => []
                      | Some (JList l) => py_str <$> l
                      | Some e => [py_str e]
                      end in
        if negb (truthy (default (JBool true) success)) then
          (Ret (false, "COURSE_CONFIG_ERROR_SERVICE_FAILED_TO_EXPORT" :: errors), db, cached)
        else
          match configure config now service db cached with
          | (Ret (status, configure_errors), db, cached) => (Ret (status, (errors ++ configure_errors)%list), db, cached)
          | other => other
          end
    end.

End Configure.

(** ** Exercises with submissions *)

(** Ids are given out in order, and every submission is of an exercise. *)
Definition ids_below (db : CDb) : Prop := map_Forall (fun id _ => id < db_next db) (db_lobjects db).
Definition no_orphans (db : CDb) : Prop :=
  forall s, s ∈ db_submissions db ->
    exists row, db_lobjects db !! snd s = Some row /\ is_exercise (l_class row) = true.
Definition db_ok (db : CDb) : Prop := ids_below db /\ no_orphans db.

(** Submissions stay, and an exercise that has some stays an exercise of the same
    class in the same module. *)
Definition keeps (db db' : CDb) : Prop :=
  db_submissions db' = db_submissions db
  /\ forall id row, db_lobjects db !! id = Some row -> has_submissions db id = true ->
       exists row', db_lobjects db' !! id = Some row' /\ l_class row' = l_class row
                    /\ l_module row' = l_module row.

(** A step from one state of the tables to the next. *)
Definition safe (db db' : CDb) : Prop := db_ok db -> db_ok db' /\ keeps db db'.

Lemma has_submissions_spec db id : has_submissions db id = true <-> exists s, s ∈ db_submissions db /\ snd s = id.
Proof.
  unfold has_submissions. rewrite existsb_exists. split; intros (s & Hs & E); exists s.
  - apply list_elem_of_In in Hs. by apply Z.eqb_eq in E.
  - apply list_elem_of_In in Hs. by rewrite E, Z.eqb_refl.
Qed.

Lemma safe_intro db db' : (db_ok db -> ids_below db' /\ keeps db db') -> safe db db'.
Proof.
  intros Hk Hok. destruct (Hk Hok) as [Hids [Hs Hrow]]. split; [|by split]. split; [done|].
  intros s Hin. rewrite Hs in Hin. destruct Hok as [_ Hno]. destruct (Hno s Hin) as (row & Hr & He).
  destruct (Hrow _ _ Hr) as (row' & Hr' & Hc & _).
  { apply has_submissions_spec. by exists s. }
  exists row'. by rewrite Hc.
Qed.

#[global] Instance safe_refl : Reflexive safe.
Proof. intros db Hok. split; [done|]. split; [done|]. intros id row Hr _. by exists row. Qed.

#[global] Instance safe_trans : Transitive safe.
Proof.
  intros a b c Hab Hbc Ha. destruct (Hab Ha) as [Hb [Hs1 Hr1]]. destruct (Hbc Hb) as [Hc [Hs2 Hr2]].
  split; [done|]. split; [congruence|]. intros id row Hr Hs.
  destruct (Hr1 id row Hr Hs) as (row1 & Hrow1 & Hc1 & Hm1).
  destruct (Hr2 id row1 Hrow1) as (row2 & Hrow2 & Hc2 & Hm2).
  - unfold has_submissions in *. by rewrite Hs1.
  - exists row2. split_and!; [done|congruence..].
Qed.

(** A step that leaves the learning objects and submissions alone. *)
Lemma safe_same db db' :
  db_lobjects db' = db_lobjects db -> db_submissions db' = db_submissions db -> db_next db <= db_next db' ->
  safe db db'.
Proof.
  intros Hl Hs Hn. apply safe_intro. intros [Hids _]. split.
  - intros id row. rewrite Hl. intros Hr. specialize (Hids id row Hr). cbn in Hids. lia.
  - split; [done|]. intros id row Hr _. rewrite Hl. by exists row.
Qed.

(** A step that changes rows only in columns that do not matter here. *)
Lemma safe_map db (f : Z -> LRow -> LRow) :
  (forall id row, l_class (f id row) = l_class row /\ l_module (f id row) = l_module row) ->
  safe db (with_lobjects db (map_imap (fun id row => Some (f id row)) (db_lobjects db))).
Proof.
  intros Hf. apply safe_intro. intros [Hids _]. split.
  - intros id row. cbn. rewrite map_lookup_imap. destruct (db_lobjects db !! id) eqn:E; [|done].
    intros _. exact (Hids id _ E).
  - split; [done|]. intros id row Hr _. cbn. rewrite map_lookup_imap, Hr. cbn.
    eexists. split; [done|]. apply Hf.
Qed.

(** Saving a row that replaces one of the same class and module. *)
Lemma safe_replace db id old row :
  db_lobjects db !! id = Some old -> l_class row = l_class old -> l_module row = l_module old ->
  safe db (insert_lobject db id row).
Proof.
  intros Ho Hc Hm. apply safe_intro. intros [Hids _]. split.
  - intros id' row'. cbn. intros [[<- <-]|[_ Hr]]%lookup_insert_Some; [exact (Hids id old Ho)|exact (Hids id' row' Hr)].
  - split; [done|]. intros id' row' Hr _. cbn. destruct (decide (id = id')) as [<-|Hne].
    + rewrite lookup_insert_eq. exists row. replace row' with old by congruence. done.
    + rewrite lookup_insert_ne by done. by exists row'.
Qed.

(** Saving a new row. *)
Lemma safe_new db row : safe db (insert_lobject (with_next db (db_next db + 1)) (db_next db) row).
Proof.
  apply safe_intro. intros [Hids _]. split.
  - intros id' row'. cbn. intros [[<- <-]|[_ Hr]]%lookup_insert_Some; [lia|].
    specialize (Hids id' row' Hr). cbn in Hids. lia.
  - split; [done|]. intros id' row' Hr _. cbn. specialize (Hids id' row' Hr). cbn in Hids.
    rewrite lookup_insert_ne by lia. by exists row'.
Qed.

(** Deleting a learning object that has no submissions. *)
Lemma safe_delete db id : has_submissions db id = false -> safe db (delete_lobject db id).
Proof.
  intros Hs. apply safe_intro. intros [Hids _]. split.
  - intros id' row'. cbn. rewrite lookup_fmap.
    destruct (delete id (db_lobjects db) !! id') as [r|] eqn:E; [|done]. intros _.
    apply lookup_delete_Some in E as [_ E]. exact (Hids id' r E).
  - split.
    + cbn. rewrite (filter_ext_in _ (fun _ => true)).
      * induction (db_submissions db) as [|s l IH]; cbn; [done|]. by rewrite IH.
      * intros s Hin. apply negb_true_iff, Z.eqb_neq. intros E.
        assert (has_submissions db id = true) as Ht; [|congruence].
        apply has_submissions_spec. exists s. split; [by apply list_elem_of_In|done].
    + intros id' row' Hr Hs'. cbn. rewrite lookup_fmap.
      rewrite lookup_delete_ne by (intros ->; congruence). rewrite Hr. cbn.
      eexists. split; [done|]. by destruct (bool_decide _).
Qed.

(** Nothing to delete along with a module or a category. *)
Lemma no_rows (f : Z * LRow -> bool) (l : list (Z * LRow)) : existsb f l = false -> List.filter f l = [].
Proof. induction l as [|x l IH]; cbn; [done|]. by destruct (f x). Qed.

Lemma safe_delete_module db id :
  existsb (fun r => Z.eqb (l_module (snd r)) id) (rows (db_lobjects db)) = false ->
  safe db (delete_module db id).
Proof. intros E. unfold delete_module. rewrite (no_rows _ _ E). by apply safe_same. Qed.

Lemma safe_clean_up_category db id : safe db (clean_up_category db id).
Proof.
  unfold clean_up_category. destruct (existsb _ _) eqn:E; [reflexivity|].
  unfold delete_category. rewrite (no_rows _ _ E). by apply safe_same.
Qed.

Lemma safe_clean_up_categories db : safe db (clean_up_categories db).
Proof.
  unfold clean_up_categories. generalize (fst <$> List.filter (fun r =>
    bool_decide (cat_attrs (snd r) !! "status" = Some (JStr "hidden"))) (rows (db_categories db))) as ids.
  intros ids. revert db. induction ids as [|id ids IH]; intros db; cbn; [reflexivity|].
  etransitivity; [apply safe_clean_up_category|apply IH].
Qed.

Lemma safe_delete_or_hide db id : safe db (delete_or_hide db id).
Proof.
  unfold delete_or_hide. destruct (db_lobjects db !! id) as [row|] eqn:Er; [|reflexivity].
  destruct (has_submissions db id) eqn:Es.
  - destruct (is_exercise (l_class row)) eqn:Ee; cbn; [by eapply safe_replace|].
    intros [_ Hno]. exfalso. apply has_submissions_spec in Es as (s & Hs & <-).
    destruct (Hno s Hs) as (row' & Hr' & He'). congruence.
  - rewrite orb_true_r. by apply safe_delete.
Qed.

Lemma safe_foldl_delete_or_hide ids : forall db, safe db (foldl delete_or_hide db ids).
Proof.
  induction ids as [|id ids IH]; intros db; cbn; [reflexivity|].
  etransitivity; [apply safe_delete_or_hide|apply IH].
Qed.

(** ** Every step is safe *)

Section Steps.
Context `{PyText} `{Calendar} `{Settings} `{Validation}.
Context (self : CourseInstance) (users : list User) (fuel : nat).
Context (lti_services lti1p3_services : list string).
Context (py_order : list string -> list string).

(** A loop of safe steps is safe. *)
Lemma eloop_safe {S A} (db_of : S -> CDb) (step : S -> A -> E S) l :
  (forall s a s' e e', step s a e = Ret (s', e') -> safe (db_of s) (db_of s')) ->
  forall s s' e e', eloop step s l e = Ret (s', e') -> safe (db_of s) (db_of s').
Proof.
  intros Hstep. induction l as [|a l IH]; intros s s' e e' Hl; cbn in Hl.
  { injection Hl as <- _. reflexivity. }
  ebind_inv Hl. etransitivity; [by eapply Hstep|by eapply IH].
Qed.

Lemma update_lobject_columns o category_map row row' e e' :
  update_lobject lti_services lti1p3_services o category_map row e = Ret (row', e') ->
  l_class row' = l_class row /\ l_module row' = l_module row /\ l_url row' = l_url row
  /\ l_parent row' = l_parent row.
Proof.
  unfold update_lobject. intros Hu. ebind_inv Hu. ebind_inv Hu. destruct a0 as [[attrs feedback] model].
  repeat ebind_inv Hu. injection Hu as <- _. done.
Qed.

Lemma save_lobject_inv db id row db' e e' :
  save_lobject db id row e = Ret (db', e') -> db' = insert_lobject db id row.
Proof. unfold save_lobject. destruct (collides db id row); [done|]. by intros [= <- _]. Qed.

Lemma update_and_save_safe category_map module s ko s' e e' :
  update_and_save lti_services lti1p3_services category_map module s ko e = Ret (s', e') ->
  safe (fst s) (fst s').
Proof.
  destruct s as [db m], ko as [key o]. unfold update_and_save. intros Hu.
  destruct (m !! key) as [entry|]; [|done]. ebind_inv Hu. destruct a as [[id db1] row].
  repeat ebind_inv Hu. injection Hu as <- _. cbn [fst].
  apply update_lobject_columns in H4 as (Hc & Hm & _). apply save_lobject_inv in H6 as ->.
  destruct entry as [id'|cls].
  - destruct (db_lobjects db !! id') as [row0|] eqn:E; [|done]. injection H3 as <- <- <- _.
    by eapply safe_replace.
  - injection H3 as <- <- <- _. apply safe_new.
Qed.

Lemma select_class_safe module old_keys s ko s' e e' :
  select_class module old_keys s ko e = Ret (s', e') -> safe (fst (fst s)) (fst (fst s')).
Proof.
  destruct s as [[db m] outdated], ko as [key o]. unfold select_class. intros Hs.
  destruct (bool_decide (key ∈ old_keys)); [|by injection Hs as <- _].
  destruct (m !! key) as [[id|]|]; try done. destruct (db_lobjects db !! id) as [row|] eqn:Er; [|done].
  destruct (bool_decide (l_class row = lobject_class o)); [by injection Hs as <- _|].
  ebind_inv Hs. injection Hs as <- _. apply save_lobject_inv in H3 as ->. cbn.
  by eapply safe_replace.
Qed.

Lemma link_children_safe m db ko db' e e' :
  link_children py_order m db ko e = Ret (db', e') -> safe db db'.
Proof.
  destruct ko as [key o]. unfold link_children. intros Hl.
  destruct (m !! key) as [[id|]|]; try done. destruct (o !! "children") as [[]|]; try done.
  ebind_inv Hl. injection Hl as <- _. unfold set_children.
  apply (safe_map db (fun id' row => if bool_decide (id' ∈ a) then with_parent row (Some id)
          else if bool_decide (l_parent row = Some id) then with_parent row None else row)).
  intros id' row. by destruct (bool_decide (id' ∈ a)), (bool_decide (l_parent row = Some id)).
Qed.

Lemma sync_module_safe parts category_map db module db' e e' :
  sync_module lti_services lti1p3_services py_order parts category_map db module e = Ret (db', e') ->
  safe db db'.
Proof.
  unfold sync_module. intros Hs. ebind_inv Hs. ebind_inv Hs. destruct a0 as [db1 outdated].
  injection Hs as <- _. etransitivity; [|apply safe_foldl_delete_or_hide].
  destruct (parts_module_lobjects parts !! snd module) as [configs|]; [|by injection H4 as <- _ _].
  ebind_inv H4. destruct a0 as [[db2 m2] out2]. ebind_inv H4. destruct a0 as [db3 m3].
  ebind_inv H4. injection H4 as <- _ _.
  apply (eloop_safe (fun s => fst (fst s))) in H5; [|intros; by eapply select_class_safe].
  apply (eloop_safe fst) in H6; [|intros; by eapply update_and_save_safe].
  apply (eloop_safe (fun db => db)) in H7; [|intros; by eapply link_children_safe].
  cbn in H5, H6, H7. by do 2 (etransitivity; [eassumption|]).
Qed.

Lemma update_module_safe parts db id db' e e' :
  update_module fuel parts db id e = Ret (db', e') -> safe db db'.
Proof.
  unfold update_module. intros Hu. destruct (db_modules db !! id) as [row|]; [|by injection Hu as <- _].
  destruct (negb _).
  - destruct (existsb _ _) eqn:Er; injection Hu as <- _; [by apply safe_same|by apply safe_delete_module].
  - destruct (parts_modules parts !! mod_url row); [|by injection Hu as <- _].
    ebind_inv Hu. injection Hu as <- _. by apply safe_same.
Qed.

Lemma configure_modules_safe parts category_map now db db' e e' :
  configure_modules fuel lti_services lti1p3_services py_order parts category_map now db e = Ret (db', e') ->
  safe db db'.
Proof.
  unfold configure_modules. intros Hc. ebind_inv Hc.
  apply (eloop_safe (fun db => db)) in H3; [|intros; by eapply sync_module_safe].
  apply (eloop_safe (fun db => db)) in Hc; [|intros; by eapply update_module_safe].
  etransitivity; [|exact Hc]. etransitivity; [|exact H3]. apply safe_same; [done..|]. cbn. lia.
Qed.

Lemma update_category_safe parts db id category db' e e' :
  update_category parts db id category e = Ret (db', e') -> safe db db'.
Proof.
  unfold update_category. intros Hu. destruct (negb _); [injection Hu as <- _; by apply safe_same|].
  destruct (parts_categories parts !! cat_name category) as [[key c]|].
  - ebind_inv Hu. injection Hu as <- _. by apply safe_same.
  - injection Hu as <- _. by apply safe_same.
Qed.

Lemma configure_categories_safe parts db s e e' :
  configure_categories py_order parts db e = Ret (s, e') -> safe db (fst s).
Proof.
  unfold configure_categories. intros Hc. ebind_inv Hc. injection Hc as <- _.
  apply (eloop_safe (fun db => db)) in H3; [|intros; by eapply update_category_safe].
  etransitivity; [|exact H3]. apply safe_same; [done..|]. cbn. lia.
Qed.

Lemma configure_instance_safe config db db' e e' :
  configure_instance self users config db e = Ret (db', e') -> safe db db'.
Proof.
  unfold configure_instance. intros Hc. ebind_inv Hc. repeat ebind_inv Hc. injection Hc as <- _.
  by apply safe_same.
Qed.

Lemma configure_db_safe parts now service db db' e e' :
  configure_db self users fuel lti_services lti1p3_services py_order parts now service db e
    = Ret (Commit db', e') ->
  safe db db'.
Proof.
  unfold configure_db. intros Hc. ebind_inv Hc. ebind_inv Hc. destruct a0 as [db2 category_map].
  repeat ebind_inv Hc. destruct a1; [|done]. injection Hc as <- _.
  apply configure_instance_safe in H3. apply configure_categories_safe in H4.
  apply configure_modules_safe in H5. cbn in H4.
  do 3 (etransitivity; [eassumption|]). apply safe_clean_up_categories.
Qed.

(** C23. Configuring a course never loses work of students: every submission stays,
    and an exercise that has submissions stays an exercise of the same class in
    the same module, whatever the old configuration, the new one and the state of
    the course, although the rows of a deleted module, category or exercise go with
    it, down to the submissions. *)
Theorem configure_keeps_submissions (new_config : RawConfig) (now : datetime)
    (service : string -> Response) (db db' : CDb) (cached cached' : option ConfigParts)
    (answer : result (bool * list string)) :
  db_ok db ->
  configure self users fuel lti_services lti1p3_services py_order new_config now service db cached
    = (answer, db', cached') ->
  db_ok db' /\ keeps db db'.
Proof.
  intros Hok. unfold configure, atomic. destruct new_config as [| |config];
    try (intros [= _ <- _]; by apply (safe_refl db)).
  destruct (from_config _ _ _ _) as [[new_parts errors]|ex]; [|intros [= _ <- _]; by apply (safe_refl db)].
  destruct (config_diff _ _) as [parts|ex]; [|intros [= _ <- _]; by apply (safe_refl db)].
  destruct (configure_db _ _ _ _ _ _ _ _ _ _ _) as [[[db1|] errors1]|ex] eqn:E;
    intros [= _ <- _]; try by apply (safe_refl db).
  apply configure_db_safe in E. exact (E Hok).
Qed.

(** A configuration that fails changes nothing, and after a success the stored
    configuration is that of the new input, with consistent parts. *)
Theorem configure_all_or_nothing (new_config : RawConfig) (now : datetime)
    (service : string -> Response) (db db' : CDb) (cached cached' : option ConfigParts)
    (answer : result (bool * list string)) :
  configure self users fuel lti_services lti1p3_services py_order new_config now service db cached
    = (answer, db', cached') ->
  match answer with
  | Ret (true, _) =>
      exists config parts errors,
        new_config = FullConfig config /\ cached' = Some parts
        /\ from_config lti_services lti1p3_services config [] = Ret (parts, errors) /\ parts_ok parts
  | _ => db' = db /\ cached' = cached
  end.
Proof.
  unfold configure, atomic. destruct new_config as [| |config]; try (by intros [= <- <- <-]).
  destruct (from_config _ _ _ _) as [[new_parts errors]|ex] eqn:Ef; [|by intros [= <- <- <-]].
  destruct (config_diff _ _) as [parts|ex]; [|by intros [= <- <- <-]].
  destruct (configure_db _ _ _ _ _ _ _ _ _ _ _) as [[[db1|] errors1]|ex]; intros [= <- <- <-]; try done.
  exists config, new_parts, errors. split_and!; [done..|]. by apply from_config_split in Ef as [? _].
Qed.

End Steps.

(** ** What the configuration no longer has *)

(** A row is gone or hidden. *)
Definition gone_or_hidden (db : CDb) (id : Z) : Prop :=
  match db_lobjects db !! id with
  | None => True
  | Some row => l_attrs row !! "status" = Some (JStr "hidden")
  end.

Lemma delete_or_hide_hides db id : gone_or_hidden (delete_or_hide db id) id.
Proof.
  unfold gone_or_hidden, delete_or_hide. destruct (db_lobjects db !! id) as [row|] eqn:Er; [|by rewrite Er].
  destruct (_ || _); cbn.
  - by rewrite lookup_fmap, lookup_delete_eq.
  - rewrite lookup_insert_eq. cbn. unfold hide. by rewrite lookup_insert_ne, lookup_insert_eq by done.
Qed.

Lemma delete_or_hide_stable db id id' : gone_or_hidden db id -> gone_or_hidden (delete_or_hide db id') id.
Proof.
  destruct (decide (id = id')) as [->|Hne]; [intros _; apply delete_or_hide_hides|].
  unfold gone_or_hidden, delete_or_hide. intros Hg.
  destruct (db_lobjects db !! id') as [row|]; [|done]. destruct (_ || _); cbn.
  - rewrite lookup_fmap, lookup_delete_ne by done. destruct (db_lobjects db !! id) as [r|]; [|done].
    cbn. by destruct (bool_decide _).
  - by rewrite lookup_insert_ne by done.
Qed.

Lemma foldl_delete_or_hide ids : forall db id,
  id ∈ ids \/ gone_or_hidden db id -> gone_or_hidden (foldl delete_or_hide db ids) id.
Proof.
  induction ids as [|x ids IH]; intros db id Hid; cbn; [destruct Hid as [Hid|]; [set_solver|done]|].
  apply IH. destruct Hid as [[->|Hid]%elem_of_cons|Hid]; [|by left|].
  - right. apply delete_or_hide_hides.
  - right. by apply delete_or_hide_stable.
Qed.

Section Gone.
Context `{PyText} `{Calendar} `{Settings} `{Validation}.
Context (lti_services lti1p3_services : list string).
Context (py_order : list string -> list string).
Context (py_order_perm : forall l, py_order l ≡ₚ l).

Lemma saved_ids_spec m keys : forall ids e e' key id,
  saved_ids m keys e = Ret (ids, e') -> key ∈ keys -> m !! key = Some (Saved id) -> id ∈ ids.
Proof.
  induction keys as [|k keys IH]; intros ids e e' key id Hs Hin Hm; [set_solver|]. cbn in Hs.
  destruct (m !! k) as [[i|]|] eqn:Ek; try done. ebind_inv Hs. injection Hs as <- _.
  apply elem_of_cons in Hin as [->|Hin]; [replace i with id by congruence; by left|].
  right. by eapply IH.
Qed.

Lemma select_class_outdated module old_keys s ko s' e e' id :
  select_class module old_keys s ko e = Ret (s', e') -> id ∈ snd s -> id ∈ snd s'.
Proof.
  destruct s as [[db m] outdated], ko as [key o]. unfold select_class. intros Hs Hin. cbn in Hin.
  destruct (bool_decide (key ∈ old_keys)); [|by injection Hs as <- _].
  destruct (m !! key) as [[i|]|]; try done. destruct (db_lobjects db !! i) as [row|]; [|done].
  destruct (bool_decide _); [by injection Hs as <- _|].
  ebind_inv Hs. injection Hs as <- _. cbn. set_solver.
Qed.

Lemma select_classes_outdated module old_keys l : forall s s' e e' id,
  eloop (select_class module old_keys) s l e = Ret (s', e') -> id ∈ snd s -> id ∈ snd s'.
Proof.
  induction l as [|ko l IH]; intros s s' e e' id Hl Hin; cbn in Hl; [by injection Hl as <- _|].
  ebind_inv Hl. eapply IH; [exact Hl|]. by eapply select_class_outdated.
Qed.


End Gone.

(** ** Examples *)

#[export] Instance example_calendar : Calendar := {|
  civil_of := fun _ => mkCivil 2024 1 1 0 0 0; aware_of := fun _ => 0;
|}.
#[export] Instance example_validation : Validation := {|
  clean_instance := fun _ => Ret tt; clean_category := fun _ => Ret tt;
  clean_module := fun _ => Ret tt; clean_lobject := fun _ => Ret tt;
|}.

Definition empty_db : CDb := mkCDb ∅ ∅ ∅ ∅ ∅ [] 1.
Definition no_service : string -> Response := fun _ => Answered 200 NoText.

Definition example_configure := configure example_instance [] 12 [] [] (fun l => l).

(** A course with one module and one exercise in one category. *)
Definition example_course (category_name title grading_mode : string) : RawConfig :=
  FullConfig (mkConfig ∅ [("ex", {[ "name" := JStr category_name ]})]
    [Node {[ "key" := JStr "m1" ]}
       [Node (<["max_submissions" := JInt 5]> (<["title" := JStr title]>
               (<["grading_mode" := JStr grading_mode]> (example_fields "e1" "ex")))) []]]).

(** The tables and the stored configuration after the given configurations. *)
Definition configured (configs : list RawConfig) : CDb * option ConfigParts :=
  foldl (fun s config => let '(_, db, cached) := example_configure config 0 no_service (fst s) (snd s) in
                         (db, cached)) (empty_db, None) configs.

Definition exercise_rows (db : CDb) : list LRow := snd <$> map_to_list (db_lobjects db).

(** Renaming a category hides its exercises: a new category takes the name, the old
    one is hidden, and learning objects whose own configuration is unchanged
    stay in it. *)
Lemma renamed_category_hides_exercises :
  let db := fst (configured [example_course "Old" "A" "best"; example_course "New" "A" "best"]) in
  (fun row => (l_url row, (c ← l_category row; cat ← db_categories db !! c; cat_attrs cat !! "status")))
    <$> exercise_rows db
  = [("e1", Some (JStr "hidden"))].
Proof. vm_compute. reflexivity. Qed.

(** The grading mode is not among the fields that are kept: it falls back to the
    default when any other field of the exercise changes. *)
Lemma grading_mode_is_lost :
  let mode configs := (fun row => l_attrs row !! "grading_mode") <$> exercise_rows (fst (configured configs)) in
  mode [example_course "Exercises" "A" "last"] = [Some (JStr "last")]
  /\ mode [example_course "Exercises" "A" "last"; example_course "Exercises" "B" "last"] = [Some (JStr "best")].
Proof. vm_compute. split; reflexivity. Qed.

(** An error status counts as published when the body is an object without
    [success], and a success without a body is taken back without a message. *)
Lemma publication_misread :
  publish_outcome (Answered 500 (JsonBody (JObj {[ "detail" := JStr "failed" ]}))) = Ret (true, [])
  /\ publish_outcome (Answered 200 NoText) = Ret (false, []).
Proof. vm_compute. split; reflexivity. Qed.

(** A course with an exercise that has a submission. *)
Definition submitted_db : CDb :=
  let db := fst (configured [example_course "Exercises" "A" "best"]) in
  mkCDb (db_instance db) (db_enrollments db) (db_categories db) (db_modules db) (db_lobjects db)
    ((fun r => (1, fst r)) <$> map_to_list (db_lobjects db)) (db_next db).

(** The invariant, as a test. *)
Definition db_ok_test (db : CDb) : bool :=
  forallb (fun r => fst r <? db_next db)%Z (map_to_list (db_lobjects db))
  && forallb (fun s => match db_lobjects db !! snd s with
                       | Some row => is_exercise (l_class row)
                       | None => false
                       end) (db_submissions db).

Lemma db_ok_test_sound db : db_ok_test db = true -> db_ok db.
Proof.
  unfold db_ok_test. rewrite andb_true_iff, !forallb_forall. intros [Hids Hsubs]. split.
  - intros id row Hr. apply elem_of_map_to_list, list_elem_of_In in Hr.
    specialize (Hids _ Hr). cbn in Hids. by apply Z.ltb_lt in Hids.
  - intros s Hs. apply list_elem_of_In in Hs. specialize (Hsubs _ Hs). cbn beta in Hsubs.
    destruct (db_lobjects db !! snd s) as [row|]; [|done]. by exists row.
Qed.

Lemma submitted_db_ok : db_ok submitted_db.
Proof. apply db_ok_test_sound. vm_compute. reflexivity. Qed.

Definition empty_course : RawConfig := FullConfig (mkConfig ∅ [] []).

Lemma configure_keeps_submissions_witness :
  let '(_, db', _) := example_configure empty_course 0 no_service submitted_db None in
  keeps submitted_db db'.
Proof.
  destruct (example_configure empty_course 0 no_service submitted_db None) as [[answer db'] cached'] eqn:E.
  exact (proj2 (configure_keeps_submissions example_instance [] 12 [] [] (fun l => l) empty_course 0
    no_service submitted_db db' None cached' answer submitted_db_ok E)).
Defined.

Lemma configure_all_or_nothing_witness :
  let config := FullConfig (mkConfig {[ "publish_url" := JStr "service" ]} [] []) in
  let '(answer, db', cached') := example_configure config 0 no_service submitted_db None in
  answer = Ret (false, []) /\ db' = submitted_db /\ cached' = None.
Proof.
  intros config.
  destruct (example_configure config 0 no_service submitted_db None) as [[answer db'] cached'] eqn:E.
  assert (fst (fst (example_configure config 0 no_service submitted_db None)) = Ret (false, [])) as Ha
    by (vm_compute; reflexivity).
  rewrite E in Ha. cbn in Ha. split; [exact Ha|].
  pose proof (configure_all_or_nothing example_instance [] 12 [] [] (fun l => l) config 0
    no_service submitted_db db' None cached' answer E) as Hn.
  rewrite Ha in Hn. exact Hn.
Defined.

