(* ===== verification/Frame.v ===== *)
(** * What grading leaves alone

    A part of the database that [save], the pending table and the outgoing events
    do not touch is an [Observation]; every step of the grading code, the retry
    task included, keeps it.  The two observations the views rely on are the ids
    of the submission rows and the enrollments.  Rows also keep their exercise and
    their submitters, as an object in memory is only saved to its own row. *)

From Stdlib Require Import QArith.
From S2P Require Import Prelude Binary64 Helpers Course Deviations Reveal Models Exercise Submission Grading.
#[local] Open Scope Z_scope.

(** ** Observations *)

Class Observation {X} (f : Db -> X) : Prop := {
  obs_save : forall s db, f (save s db) = f db;
  obs_pendings : forall m db, f (with_pendings db m) = f db;
  obs_emit : forall l db, f (emit db l) = f db;
}.

Definition row_ids (db : Db) : list Z := sub_id <$> submissions db.

Lemma save_ids s db : row_ids (save s db) = row_ids db.
Proof.
  unfold row_ids. cbn. rewrite <- list_fmap_compose. apply list_fmap_ext. intros i t _. cbn.
  destruct (sub_id t =? sub_id s) eqn:E; b2p; congruence.
Qed.

#[export] Instance row_ids_observation : Observation row_ids.
Proof. split; [apply save_ids|done|done]. Qed.

#[export] Instance enrollments_observation : Observation (fun db : Db => enrollments db).
Proof. by split. Qed.

(** ** Computations that keep an observation *)

Class Keeps {X A} (f : Db -> X) (c : M A) : Prop := keeps : forall db, f (snd (c db)) = f db.

#[export] Instance keeps_ret {X A} (f : Db -> X) (a : A) : Keeps f (mret a).
Proof. by intros db. Qed.
#[export] Instance keeps_lift {X A} (f : Db -> X) (r : result A) : Keeps f (lift r).
Proof. by intros db. Qed.
#[export] Instance keeps_reads {X A} (f : Db -> X) (g : Db -> A) : Keeps f (reads g).
Proof. by intros db. Qed.
#[export] Instance keeps_bind {X A B} (f : Db -> X) (c : M A) (k : A -> M B) :
  Keeps f c -> (forall a, Keeps f (k a)) -> Keeps f (c ≫= k).
Proof.
  intros Hc Hk db. specialize (Hc db). unfold mbind, M_bind.
  destruct (c db) as [[a|e] db']; cbn in *; [|done]. by rewrite (Hk a db').
Qed.
Lemma keeps_modify {X} (f : Db -> X) (g : Db -> Db) : (forall db, f (g db) = f db) -> Keeps f (modify g).
Proof. intros Hg db. exact (Hg db). Qed.

(** Follows the branches of a body down to its primitive steps. *)
Ltac keeps :=
  repeat first [apply _ | progress cbn beta iota zeta
               | match goal with |- Keeps _ (mbind _ _) => apply keeps_bind; [|intros ?] end
               | match goal with
                 | |- Keeps _ (match ?x with _ => _ end) => destruct x
                 end].

Section Keeps.
Context {X : Type} (f : Db -> X) `{!Observation f}.

#[export] Instance keeps_save s : Keeps f (modify (save s)).
Proof. apply keeps_modify, obs_save. Qed.
#[export] Instance keeps_clear s : Keeps f (modify (clear_pending s)).
Proof. apply keeps_modify. intros db. apply obs_pendings. Qed.
#[export] Instance keeps_hooks exercise s : Keeps f (modify (fire_hooks exercise s)).
Proof. apply keeps_modify. intros db. apply obs_emit. Qed.
#[export] Instance keeps_emit l : Keeps f (modify (fun db => emit db l)).
Proof. apply keeps_modify, obs_emit. Qed.
#[export] Instance keeps_pending i : Keeps f (pending_submission i).
Proof. intros db. unfold pending_submission. by destruct (find_submission _ _). Qed.
#[export] Instance keeps_mail_error exercise : Keeps f (modify (mail_error exercise)).
Proof.
  apply keeps_modify. intros db. unfold mail_error.
  destruct (visible_to_students _); [apply obs_emit|done].
Qed.

Context `{Settings}.

#[export] Instance keeps_set_waiting exercise s : Keeps f (set_waiting exercise s).
Proof.
  unfold set_waiting. apply keeps_bind; [|intros; apply _]. apply keeps_modify. intros db.
  unfold mark_pending. destruct (bool_decide _); [apply obs_pendings|done].
Qed.
#[export] Instance keeps_set_ready retry `{!Keeps f retry} exercise approve s :
  Keeps f (set_ready retry exercise approve s).
Proof. unfold set_ready. keeps. Qed.
#[export] Instance keeps_set_error s : Keeps f (set_error s).
Proof. unfold set_error. keeps. Qed.
#[export] Instance keeps_set_rejected s : Keeps f (set_rejected s).
Proof. unfold set_rejected. keeps. Qed.
#[export] Instance keeps_mark_lost s : Keeps f (mark_lost s).
Proof. unfold mark_lost. keeps. Qed.
#[export] Instance keeps_act_on_page retry `{!Keeps f retry} exercise np page s :
  Keeps f (act_on_page retry exercise np page s).
Proof. unfold act_on_page. keeps. Qed.

Context (service : Submission -> Db -> Reply) (exercise_of : Z -> BaseExercise)
  (choice : list Z -> option Z).

#[export] Instance keeps_grade_with retry `{!Keeps f retry} exercise s np :
  Keeps f (grade_with service retry exercise s np).
Proof.
  assert (Hl : Keeps f (load_feedback_page service retry exercise s np))
    by (unfold load_feedback_page; keeps).
  intros db. specialize (Hl db). unfold grade_with.
  destruct (load_feedback_page _ _ _ _ _ db) as [[p|[]] db']; exact Hl.
Qed.

#[export] Instance keeps_each {A} (g : A -> M unit) l :
  (forall x, Keeps f (g x)) -> Keeps f (each g l).
Proof. intros Hg. induction l; cbn; keeps. Qed.

Lemma keeps_retry_with grade :
  (forall exercise s, Keeps f (grade exercise s)) -> Keeps f (retry_with exercise_of choice grade).
Proof.
  intros Hg. unfold retry_with. keeps.
  - unfold retry_one. keeps.
  - apply keeps_each. intros [i p]. unfold retry_expired. keeps.
Qed.

(** Grading and the retry task, whatever the grading service answers. *)
#[export] Instance keeps_grade_rec fuel np exercise s :
  Keeps f (grade_rec service exercise_of choice fuel np exercise s).
Proof.
  revert np exercise s. induction fuel as [|fuel IH]; intros; cbn; apply keeps_grade_with.
  - apply _.
  - apply keeps_retry_with. intros. apply IH.
Qed.

#[export] Instance keeps_retry_submissions fuel :
  Keeps f (retry_submissions service exercise_of choice fuel).
Proof. apply keeps_retry_with. intros. apply keeps_grade_rec. Qed.

End Keeps.

(** ** Whose submission a row is *)

(** The id, the exercise and the submitters of a row. *)
Definition owner (s : Submission) : Z * Z * list UserProfile := (sub_id s, sub_exercise s, submitters s).
Definition owners (db : Db) : list (Z * Z * list UserProfile) := owner <$> submissions db.

(** The object in memory is one of the row it is saved to. *)
Definition owned (s : Submission) (l : list (Z * Z * list UserProfile)) : Prop :=
  forall o, o ∈ l -> o.1.1 = sub_id s -> o = owner s.

(** Starting from owners as in [Q], the call keeps them. *)
Definition keeps_owners {A} (Q : list (Z * Z * list UserProfile) -> Prop) (c : M A) : Prop :=
  forall db, Q (owners db) -> owners (snd (c db)) = owners db.

Section Owners.
Implicit Types (Q : list (Z * Z * list UserProfile) -> Prop).

Lemma keeps_owners_bind {A B} Q (c : M A) (k : A -> M B) :
  keeps_owners Q c -> (forall a, returns c a -> keeps_owners Q (k a)) -> keeps_owners Q (c ≫= k).
Proof.
  intros Hc Hk db HQ. unfold mbind, M_bind. pose proof (Hc db HQ) as H1.
  destruct (c db) as [[a|e] db'] eqn:E; cbn in *; [|done].
  rewrite (Hk a); [done|by exists db, db'|by rewrite H1].
Qed.

Lemma keeps_owners_same {A} Q (c : M A) :
  (forall db, submissions (snd (c db)) = submissions db) -> keeps_owners Q c.
Proof. intros Hc db _. unfold owners. by rewrite Hc. Qed.

Lemma keeps_owners_weaken {A} Q Q' (c : M A) :
  (forall l, Q' l -> Q l) -> keeps_owners Q c -> keeps_owners Q' c.
Proof. intros HQ Hc db H. apply Hc, HQ, H. Qed.

Lemma keeps_owners_save Q s s' :
  (forall l, Q l -> owned s l) -> owner s' = owner s -> keeps_owners Q (modify (save s')).
Proof.
  intros HQ Ho db H. apply HQ in H. injection Ho as Hi He Hs. unfold owners. cbn.
  rewrite <- list_fmap_compose. apply list_fmap_ext. intros j t Ht. cbn.
  destruct (sub_id t =? sub_id s') eqn:E; b2p; [|done]. symmetry. unfold owner at 2.
  rewrite Hi, He, Hs. apply H; [|cbn; congruence]. apply list_elem_of_fmap.
  exists t. split; [done|]. by eapply list_elem_of_lookup_2.
Qed.

Context `{Settings} (retry : M unit) (Q : list (Z * Z * list UserProfile) -> Prop) (s : Submission).
Context (HQ : forall l, Q l -> owned s l) (Hretry : keeps_owners Q retry).

Ltac owns :=
  repeat first [ solve [apply keeps_owners_same; done] | exact Hretry
               | apply keeps_owners_bind; [|intros ? _] ].

Lemma keeps_owners_set_ready exercise approve s' : keeps_owners Q (set_ready retry exercise approve s').
Proof. unfold set_ready. owns. destruct (negb _); owns. Qed.

Lemma keeps_owners_mail exercise : keeps_owners Q (modify (mail_error exercise)).
Proof.
  apply keeps_owners_same. intros db. cbn. unfold mail_error. by destruct (visible_to_students _).
Qed.

Lemma keeps_owners_set_waiting exercise s' : keeps_owners Q (set_waiting exercise s').
Proof.
  unfold set_waiting. apply keeps_owners_bind; [|intros; owns].
  apply keeps_owners_same. intros db. cbn. unfold mark_pending. by destruct (bool_decide _).
Qed.

Lemma set_ready_owner exercise approve s1 s2 :
  returns (set_ready retry exercise approve s1) s2 -> owner s2 = owner s1.
Proof.
  intros (db & db' & E). unfold set_ready, mbind, M_bind, reads, modify, mret, M_ret in E. cbn in E.
  destruct (_ (fire_hooks _ _ _)) as [[[]|] ?] in E; [|done]. injection E as <- _.
  by destruct (_ || _).
Qed.

Lemma set_points_owner w exercise s1 p sm np s2 :
  set_points w exercise s1 p sm np = Ret s2 -> owner s2 = owner s1.
Proof.
  rewrite set_points_eq. cbn zeta. intros E. repeat break_hyp E; simplify_eq.
  unfold with_points, owner. by destruct (unofficial_reason _ _ _ _).
Qed.

Lemma keeps_owners_act_on_page exercise np page :
  keeps_owners Q (act_on_page retry exercise np page s).
Proof.
  unfold act_on_page. apply keeps_owners_bind.
  - destruct (is_accepted page); [|destruct (is_rejected page); owns].
    apply keeps_owners_bind; [apply keeps_owners_set_waiting|]. intros s1 _.
    destruct (page_is_graded page); [|owns]. destruct (is_sane page).
    + do 2 (apply keeps_owners_bind; [owns|intros ? _]).
      apply keeps_owners_bind; [apply keeps_owners_set_ready|]. intros; owns.
    + apply keeps_owners_bind; [owns|intros ? _].
      apply keeps_owners_bind; [apply keeps_owners_mail|]. intros; owns.
  - intros [page' s'] (db & db' & E). assert (owner s' = owner s) as Ho.
    { destruct (is_accepted page); [|by destruct (is_rejected page); injection E as <- <-].
      unfold set_waiting, mbind, M_bind, reads, lift, modify in E. cbn -[set_points set_ready] in E.
      destruct (page_is_graded page); [|by injection E as <- <-].
      destruct (is_sane page); [|by injection E as <- <-].
      cbn -[set_points set_ready] in E.
      destruct (set_points _ _ _ _ _ _) as [s1|] eqn:Es; [|done].
      destruct (set_ready _ _ _ _ _) as [[s2|] db2] eqn:Er; [|done]. injection E as <- <- _.
      rewrite (set_ready_owner exercise false s1 s2) by (by eexists _, _).
      by rewrite (set_points_owner _ _ _ _ _ _ _ Es). }
    apply keeps_owners_bind; [by eapply keeps_owners_save|]. intros; owns.
Qed.

Lemma keeps_owners_grade_with (service : Submission -> Db -> Reply) exercise np :
  keeps_owners Q (grade_with service retry exercise s np).
Proof.
  assert (Hl : keeps_owners Q (load_feedback_page service retry exercise s np)).
  { unfold load_feedback_page. apply keeps_owners_bind; [owns|]. intros [] _; [|apply keeps_owners_bind; [apply keeps_owners_mail|intros; owns]|owns].
    apply keeps_owners_bind; [owns|intros ? _].
    apply keeps_owners_bind; [apply keeps_owners_act_on_page|]. intros [? ?] _.
    apply keeps_owners_bind; [destruct (_ && _); owns|intros; owns]. }
  intros db H1. specialize (Hl db H1). unfold grade_with.
  destruct (load_feedback_page _ _ _ _ _ db) as [[p|[]] db']; exact Hl.
Qed.

End Owners.

(** Rows with different ids. *)
Definition distinct_rows (l : list (Z * Z * list UserProfile)) : Prop := NoDup (l.*1.*1).

Lemma row_owned (db : Db) s :
  distinct_rows (owners db) -> s ∈ submissions db -> owned s (owners db).
Proof.
  unfold distinct_rows, owners, owned. intros Hn Hs o Ho Hi.
  apply list_elem_of_fmap in Ho as (t & -> & Ht). cbn in Hi.
  rewrite <- !list_fmap_compose in Hn.
  apply list_elem_of_lookup in Hs as [i Hs], Ht as [j Ht].
  assert (i = j) as ->.
  { eapply NoDup_lookup; [exact Hn| |]; rewrite list_lookup_fmap, ?Hs, ?Ht; cbn; [done|by rewrite Hi]. }
  by simplify_eq.
Qed.

Section OwnersTheory.
Context `{Settings} (service : Submission -> Db -> Reply) (exercise_of : Z -> BaseExercise)
  (choice : list Z -> option Z).

Lemma keeps_owners_pending {B} i (k : Submission -> M B) :
  (forall s, keeps_owners (fun l => distinct_rows l /\ owned s l) (k s)) ->
  keeps_owners distinct_rows (pending_submission i ≫= k).
Proof.
  intros Hk db Hd. unfold mbind, M_bind, pending_submission.
  destruct (find_submission i db) as [s|] eqn:E; [|done]. apply Hk. split; [done|].
  apply List.find_some in E as [E _]. by apply row_owned, list_elem_of_In.
Qed.

Lemma keeps_owners_mark_lost s : keeps_owners (fun l => distinct_rows l /\ owned s l) (mark_lost s).
Proof.
  unfold mark_lost. apply keeps_owners_bind; [by apply keeps_owners_same|]. intros s' (db & db' & E).
  injection E as <- _. apply keeps_owners_bind; [|intros; by apply keeps_owners_same].
  by apply (keeps_owners_save _ s); [intros l []|].
Qed.

Lemma keeps_owners_each {A} Q (f : A -> M unit) l :
  (forall x, keeps_owners Q (f x)) -> keeps_owners Q (each f l).
Proof.
  intros Hf. induction l as [|x l IH]; cbn; [by apply keeps_owners_same|].
  by apply keeps_owners_bind.
Qed.

Lemma keeps_owners_retry grade :
  (forall exercise s, keeps_owners (fun l => distinct_rows l /\ owned s l) (grade exercise s)) ->
  keeps_owners distinct_rows (retry_with exercise_of choice grade).
Proof.
  intros Hg. unfold retry_with. apply keeps_owners_bind; [by apply keeps_owners_same|]. intros stable _.
  destruct (negb stable).
  - unfold retry_one. apply keeps_owners_bind; [by apply keeps_owners_same|]. intros ids _.
    destruct (choice ids) as [i|]; [|by apply keeps_owners_same].
    apply keeps_owners_bind; [by apply keeps_owners_same|]. intros found _.
    destruct found as [p|]; [|by apply keeps_owners_same].
    apply keeps_owners_pending. intros s. destruct (_ && _); [apply keeps_owners_mark_lost|]. cbn.
    apply keeps_owners_bind; [apply Hg|]. intros; by apply keeps_owners_same.
  - apply keeps_owners_bind; [by apply keeps_owners_same|]. intros rows _.
    apply keeps_owners_each. intros [i p]. unfold retry_expired. apply keeps_owners_pending. intros s. cbn.
    destruct (_ <? _); [|apply keeps_owners_mark_lost].
    apply keeps_owners_bind; [by apply keeps_owners_same|]. intros [] _; [|by apply keeps_owners_same].
    apply keeps_owners_bind; [apply Hg|]. intros; by apply keeps_owners_same.
Qed.

(** Grading and the retries it starts leave every row with its exercise and its
    submitters. *)
Lemma keeps_owners_grade_rec fuel np exercise s :
  keeps_owners (fun l => distinct_rows l /\ owned s l)
    (grade_rec service exercise_of choice fuel np exercise s).
Proof.
  revert np exercise s. induction fuel as [|fuel IH]; intros; cbn;
    (apply keeps_owners_grade_with; [by intros l []|]).
  - by apply keeps_owners_same.
  - eapply keeps_owners_weaken; [|apply keeps_owners_retry; intros; apply IH]. by intros l [].
Qed.

End OwnersTheory.
