(* ===== verification/Staff.v ===== *)
(** * What the staff of a course does to submissions

    [exercise/staff_views.py] and [edit_course/operations/batch.py]: assessing a
    submission and marking it as final, granting one more submission, walking
    through the submitters who have not been assessed, creating assessed
    submissions one by one and in a batch, and approving penalized submissions.
    Works on the database and monad of [Submission]. *)

From Stdlib Require Import QArith.
From S2P Require Import Prelude Binary64 Helpers Course Deviations Reveal Models Exercise Submission Grading Frame Permissions.
#[local] Open Scope Z_scope.

(** ** Assessing a submission *)

(** src/exercise/forms.py: SubmissionReviewForm.clean, with the lower bound of the field.
    [None] is a form that is not valid. *)
Definition clean_points (exercise : BaseExercise) (points : option Z) : option Z :=
  p ← points;
  if (0 <=? p) && (p <=? max_points exercise) then Some p else None.

Definition set_force (b : bool) (s : Submission) : Submission :=
  mkSubmission (sub_id s) (sub_exercise s) (submission_time s) (submitters s) (grader s)
    (feedback s) (sub_status s) (unofficial_submission_type s) (grade s) (grading_time s)
    (late_penalty_applied s) b (service_points s) (service_max_points s) (lti_launch_id s).

Definition set_grader (g : Z) (s : Submission) : Submission :=
  mkSubmission (sub_id s) (sub_exercise s) (submission_time s) (submitters s) (Some g)
    (feedback s) (sub_status s) (unofficial_submission_type s) (grade s) (grading_time s)
    (late_penalty_applied s) (force_exercise_points s) (service_points s) (service_max_points s)
    (lti_launch_id s).

Section Assess.
Context `{Settings} (retry : M unit).

(** The other final submissions of the student to the exercise. *)
Definition other_finals (w : World) (exercise : BaseExercise) (student : UserProfile) (self : Submission)
    : list Submission :=
  List.filter (fun s => force_exercise_points s && negb (sub_id s =? sub_id self))
    (get_submissions_for_student w exercise student false false).

(** src/exercise/staff_views.py: InspectSubmissionView.form_valid lines 319-327 *)
Definition unforce_others (exercise : BaseExercise) (student : UserProfile) (self : Submission) (db : Db) : Db :=
  foldl (fun db s => save (set_force false s) db) db (other_finals (world db) exercise student self).

(** src/exercise/staff_views.py: InspectSubmissionView.form_valid, for a valid form.  The log
    entry needs a submitter. *)
Definition assess (exercise : BaseExercise) (is_teacher : bool) (assessor : Z) (points : Z)
    (mark_as_final : bool) (feedback : string) (self : Submission) : M unit :=
  if negb (is_teacher || allow_assistant_grading exercise) then lift (Raise PermissionDenied)
  else
    db ← reads id;
    self ← lift (set_points (world db) exercise self points (max_points exercise) true);
    match submitters self with
    | [] => lift (Raise AttributeError)
    | first :: _ =>
        let self := set_feedback feedback (set_grader assessor (set_force mark_as_final self)) in
        self ← set_ready retry exercise false self;
        modify (save self);;
        (if force_exercise_points self then modify (unforce_others exercise first self) else mret tt);;
        modify (notification_send self false)
    end.

(** ** One more submission *)

(** src/exercise/staff_views.py: IncreaseSubmissionMaxView.post.  [get_or_create] of the
    deviation of the first submitter, and one more. *)
Fixpoint add_extra (exercise submitter : Z) (l : list MaxSubmissionsRuleDeviation)
    : list MaxSubmissionsRuleDeviation :=
  match l with
  | [] => [mkSubmissionsDeviation exercise submitter (0 + 1)]
  | d :: l =>
      if (ms_exercise d =? exercise) && (ms_submitter d =? submitter)
      then mkSubmissionsDeviation exercise submitter (extra_submissions d + 1) :: l
      else d :: add_extra exercise submitter l
  end.

Definition with_submissions_deviations (w : World) (l : list MaxSubmissionsRuleDeviation) : World :=
  mkWorld (enrollments w) (groups w) (submissions w) (deadline_deviations w) l (user_of w) (now w).

Definition increase_submission_max (exercise : BaseExercise) (s : Submission) (w : World) : result World :=
  match submitters s with
  | [] => Raise DatabaseError
  | first :: _ =>
      Ret (with_submissions_deviations w
             (add_extra (exercise_id exercise) (profile_id first) (submissions_deviations w)))
  end.

(** ** New submissions *)

(** What a valid form holds. *)
Record NewSubmission := mkNew {
  new_exercise : BaseExercise;
  new_students : list UserProfile;
  new_feedback : string;
  new_points : Z;
  new_time : datetime;
  new_grader : option Z;
}.

Definition next_id (db : Db) : Z := 1 + maxZ 0 (row_ids db).

(** The new row has the largest id and comes first in the default order. *)
Definition insert_submission (s : Submission) (db : Db) : Db :=
  with_world db (with_submissions db (s :: submissions db)).

Definition set_time (t : datetime) (s : Submission) : Submission :=
  mkSubmission (sub_id s) (sub_exercise s) t (submitters s) (grader s)
    (feedback s) (sub_status s) (unofficial_submission_type s) (grade s) (grading_time s)
    (late_penalty_applied s) (force_exercise_points s) (service_points s) (service_max_points s)
    (lti_launch_id s).

(** [Submission.objects.create(exercise=...)] with the submitters set. *)
Definition blank (i : Z) (t : datetime) (form : NewSubmission) : Submission :=
  mkSubmission i (exercise_id (new_exercise form)) t (new_students form)
    None "" SubStatus.INITIALIZED None 0 None None false 0 0 None.

(** src/exercise/staff_views.py: CreateSubmissionView.post lines 594-603, and the body of the
    loop of [create_submissions]. *)
Definition create_submission (profile : Z) (form : NewSubmission) : M unit :=
  db ← reads id;
  let sub := blank (next_id db) (now db) form in
  modify (insert_submission sub);;
  sub ← lift (set_points (world db) (new_exercise form) (set_feedback (new_feedback form) sub)
                (new_points form) (max_points (new_exercise form)) true);
  let sub := set_grader (default profile (new_grader form)) (set_time (new_time form) sub) in
  sub ← set_ready retry (new_exercise form) false sub;
  modify (save sub).

(** One element of the batch: what the field [exercise_id] names, and the form if
    it is valid. *)
Inductive BatchItem :=
| NoExerciseId
| UnknownExercise
| InvalidForm
| ValidForm (form : NewSubmission).

(** The text of the batch: not JSON, an object without [objects], no array, or an
    array. *)
Inductive BatchText := NotJsonText | NoObjects | NoArray | BatchArray (l : list BatchItem).

Definition item_error (item : BatchItem) : list string :=
  match item with
  | NoExerciseId => ["JSON_ERROR_MISSING_FIELD_EXERCISE_ID"]
  | UnknownExercise => ["JSON_ERROR_UNKNOWN_EXERCISE_ID"]
  | InvalidForm => ["JSON_ERROR_OBJECT_INVALID_FIELDS"]
  | ValidForm _ => []
  end%string.

Definition item_form (item : BatchItem) : list NewSubmission :=
  match item with ValidForm form => [form] | _ => [] end.

Fixpoint create_all (profile : Z) (forms : list NewSubmission) : M unit :=
  match forms with
  | [] => mret tt
  | form :: forms => create_submission profile form;; create_all profile forms
  end.

(** src/edit_course/operations/batch.py: create_submissions *)
Definition create_submissions (admin_profile : Z) (text : BatchText) : M (list string) :=
  match text with
  | NotJsonText => mret ["EXCEPTION_PARSING_SUBMISSION_JSON"]
  | NoObjects => mret ["JSON_FIELD_MISSING_OBJECTS"]
  | NoArray => mret ["JSON_INVALID_EXPECTED_LIST"]
  | BatchArray l =>
      let errors := flat_map item_error l in
      let forms := flat_map item_form l in
      (if bool_decide (errors = []) then create_all admin_profile forms else mret tt);;
      mret errors
  end%string.

(** ** Approval *)

Inductive ApproveType := OnlyLate | OnlyUnofficial | Both.

Definition to_approve (t : ApproveType) (s : Submission) : bool :=
  let late := bool_decide (is_Some (late_penalty_applied s)) in
  let unofficial := bool_decide (sub_status s = SubStatus.UNOFFICIAL) in
  match t with
  | OnlyLate => late && negb unofficial
  | OnlyUnofficial => unofficial
  | Both => late || unofficial
  end.

Fixpoint approve_all (exercise_of : Z -> BaseExercise) (l : list Submission) : M unit :=
  match l with
  | [] => mret tt
  | s :: l =>
      s ← approve_penalized_submission retry (exercise_of (sub_exercise s)) s;
      modify (save s);;
      approve_all exercise_of l
  end.

(** src/exercise/staff_views.py: SubmissionApprovalByModuleView.post.  [user] asks on the page of
    the course instance [view], which is open to its staff, for the
    submissions of [student] to the exercise of [submission] or to its module;
    [exercises] are all exercises.  Returns the number approved. *)
Definition approve_by_module (view : CourseInstance) (user : AnyUser) (exercises : list BaseExercise)
    (exercise_of : Z -> BaseExercise) (student : UserProfile) (submission : Submission)
    (single_exercise : bool) (t : ApproveType) : M nat :=
  w ← reads world;
  if negb (is_course_staff view (enrollments w) user) then lift (Raise PermissionDenied)
  else
    let exercise := exercise_of (sub_exercise submission) in
    let module := module_id (course_module exercise) in
    let disallow :=
      if single_exercise then negb (allow_assistant_grading exercise)
      else existsb (fun e : BaseExercise => (module_id (course_module e) =? module)
                             && negb (allow_assistant_grading e)) exercises in
    if is_assistant view (enrollments w) user && disallow then lift (Raise PermissionDenied)
    else
      let in_scope s :=
        if single_exercise then sub_exercise s =? exercise_id exercise
        else module_id (course_module (exercise_of (sub_exercise s))) =? module in
      let l := List.filter (to_approve t)
                 (List.filter in_scope (exclude_errors (submissions_of w student))) in
      approve_all exercise_of l;;
      mret (length l).

End Assess.

(** ** The next submitter to assess *)

Inductive NextPage := ShowSubmitter (id : Z) | AllAssessed | RedirectToNext.

(** src/exercise/staff_views.py: NextUnassessedSubmitterView.get.  [unassessed] are the submitters
    without an assessed submission, by their earliest submission; the second
    value is the list in the session.  The retry with an empty list of skipped
    submitters cannot recur. *)
Definition next_unassessed (unassessed skipped : list Z) (prev : option Z) : NextPage * list Z :=
  let unskipped := List.filter (fun s => negb (bool_decide (s ∈ skipped))) unassessed in
  let '(unskipped, skipped) :=
    match unskipped, skipped with
    | [], _ :: _ => (unassessed, [])
    | _, _ => (unskipped, skipped)
    end in
  match unskipped with
  | [] => (AllAssessed, skipped)
  | submitter :: _ =>
      if bool_decide (prev = Some submitter) then
        (RedirectToNext, if bool_decide (submitter ∈ skipped) then skipped else (skipped ++ [submitter])%list)
      else (ShowSubmitter submitter, skipped)
  end.

(** The page after the redirect has been followed; the redirect has no previous
    submitter. *)
Definition visit_next (unassessed skipped : list Z) (prev : option Z) : NextPage * list Z :=
  match next_unassessed unassessed skipped prev with
  | (RedirectToNext, skipped) => next_unassessed unassessed skipped None
  | page => page
  end.

(** The parameter [prev] of the link to the next submitter on the page of a
    submission (exercise/templates/exercise/staff/inspect_submission.html, line 58):
    the first submitter of the submission, which need not be the submitter for
    whom it is shown.  Without submitters the text is no number and is ignored. *)
Definition next_link (submission : Submission) : option Z := profile_id <$> head (submitters submission).

(** Following the link [k] times without assessing anybody: the submitter for whom
    a submission is shown then, from a session with the list [skipped].  [best] is
    the submission that is shown for a submitter. *)
Fixpoint walk (best : Z -> Submission) (k : nat) (unassessed skipped : list Z) (prev : option Z)
    : option Z :=
  match visit_next unassessed skipped prev with
  | (ShowSubmitter s, skipped) =>
      match k with
      | O => Some s
      | S k => walk best k unassessed skipped (next_link (best s))
      end
  | _ => None
  end.

(** ** One final submission *)

Section AssessTheory.
Context `{Settings} (retry : M unit).

(** The final submissions of a student to an exercise. *)
Definition finals (w : World) (exercise : BaseExercise) (student : UserProfile) : list Submission :=
  List.filter force_exercise_points (get_submissions_for_student w exercise student false false).

Lemma elem_of_finals w exercise student s :
  s ∈ finals w exercise student <->
  s ∈ submissions w /\ force_exercise_points s = true /\ submitted_by s student = true /\
  sub_exercise s = exercise_id exercise.
Proof.
  unfold finals, get_submissions_for_student, submissions_of.
  rewrite list_elem_of_In, filter_In, <- list_elem_of_In, !list_elem_of_filter. naive_solver.
Qed.

(** Saving the rows of a list without their mark: every row with an id of the
    list has lost it, the others are as before. *)
Lemma unforce_rows (l : list Submission) (db : Db) :
  (forall s, s ∈ submissions (foldl (fun db s => save (set_force false s) db) db l) ->
     (s ∈ submissions db /\ (sub_id s ∉ sub_id <$> l)) \/ force_exercise_points s = false) /\
  row_ids (foldl (fun db s => save (set_force false s) db) db l)
  = row_ids db.
Proof.
  revert db. induction l as [|x l IH]; intros db; cbn.
  { split; [|done]. intros s Hs. left. split; [done|]. apply not_elem_of_nil. }
  destruct (IH (save (set_force false x) db)) as [Hr Hi]. split; [|by rewrite Hi, save_ids].
  intros s Hs. apply Hr in Hs as [[Hs Hn]|Hs]; [|by right].
  cbn in Hs. apply list_elem_of_fmap in Hs as (t & -> & Ht).
  destruct (sub_id t =? sub_id x) eqn:E; [by right|]. b2p.
  left. split; [done|]. rewrite not_elem_of_cons. by split.
Qed.

Lemma unforce_others_finals exercise student self (db : Db) s :
  s ∈ finals (unforce_others exercise student self db) exercise student -> sub_id s = sub_id self.
Proof.
  rewrite elem_of_finals. intros (Hs & Hf & Hb & He).
  destruct (unforce_rows (other_finals db exercise student self) db) as [Hr _].
  apply Hr in Hs as [[Hs Hn]|Hs]; [|congruence].
  destruct (decide (sub_id s = sub_id self)) as [|Hne]; [done|]. destruct Hn.
  apply list_elem_of_fmap. exists s. split; [done|]. unfold other_finals.
  apply list_elem_of_In, filter_In. split.
  - apply list_elem_of_In. unfold get_submissions_for_student, submissions_of.
    rewrite !list_elem_of_filter. auto.
  - rewrite Hf. cbn. apply negb_true_iff. lia.
Qed.

(** At most one row has a given id. *)
Lemma single_id (l : list Submission) (f : Submission -> bool) i :
  NoDup (sub_id <$> l) -> (forall s, s ∈ l -> f s = true -> sub_id s = i) ->
  (length (List.filter f l) <= 1)%nat.
Proof.
  induction l as [|x l IH]; intros Hnd Hi; cbn; [lia|].
  apply NoDup_cons in Hnd as [Hx Hnd]. destruct (f x) eqn:E.
  - destruct (List.filter f l) as [|y r] eqn:Er; [cbn; lia|exfalso].
    assert (Hy : y ∈ l /\ f y = true).
    { rewrite list_elem_of_In, <- filter_In, Er. by left. }
    destruct Hy as [Hy Ey]. apply Hx, list_elem_of_fmap. exists y. split; [|done].
    rewrite (Hi x), (Hi y); [done| |done|by left|done]. by right.
  - apply IH; [done|]. intros s Hs. apply Hi. by right.
Qed.

Lemma set_points_keeps w exercise self points service_max np s :
  set_points w exercise self points service_max np = Ret s ->
  sub_id s = sub_id self /\ sub_exercise s = sub_exercise self /\ submitters s = submitters self.
Proof.
  rewrite set_points_eq. cbn zeta. destruct (_ && _); [|done]. destruct (_ && _); [|done].
  intros E. injection E as <-. unfold with_points. by destruct (unofficial_reason _ _ _ _).
Qed.

(** What a successful call of the review form has done before it clears the marks
    of the other submissions. *)
Lemma assess_inv exercise is_teacher assessor points final fb self db db' first rest :
  submitters self = first :: rest ->
  assess retry exercise is_teacher assessor points final fb self db = (Ret tt, db') ->
  (is_teacher || allow_assistant_grading exercise = true) /\
  exists s1 s2 db2,
    set_points db exercise self points (max_points exercise) true = Ret s1 /\
    set_ready retry exercise false (set_feedback fb (set_grader assessor (set_force final s1))) db
      = (Ret s2, db2) /\
    db' = notification_send s2 false
            (if force_exercise_points s2 then unforce_others exercise first s2 (save s2 db2)
             else save s2 db2).
Proof.
  intros Hs. unfold assess. destruct (is_teacher || _) eqn:Ep; cbn [negb]; [|done].
  unfold mbind, M_bind, reads, lift. cbn [id].
  destruct (set_points _ _ _ _ _ _) as [s1|] eqn:E1; [|done].
  assert (Hs1 : submitters s1 = first :: rest).
  { by apply set_points_keeps in E1 as (_ & _ & ->). }
  rewrite Hs1. destruct (set_ready _ _ _ _ _) as [[s2|] db2] eqn:E2; [|done].
  unfold modify, mret, M_ret. intros E. split; [done|]. exists s1, s2, db2. repeat split; try done.
  destruct (force_exercise_points s2); by injection E as <-.
Qed.

Lemma set_ready_force exercise approve s db s' db' :
  set_ready retry exercise approve s db = (Ret s', db') ->
  force_exercise_points s' = force_exercise_points s /\ sub_id s' = sub_id s /\
  sub_exercise s' = sub_exercise s /\ submitters s' = submitters s /\
  grader s' = grader s /\ feedback s' = feedback s.
Proof.
  unfold set_ready, mbind, M_bind, reads, modify, mret, M_ret. cbn.
  destruct (is_grader_stable _); cbn.
  - intros E. injection E as <- _. by destruct (_ || _).
  - destruct (retry _) as [[[]|] db2]; [|done]. intros E. injection E as <- _. by destruct (_ || _).
Qed.

(** Rows with an id outside of the list are not written. *)
Lemma unforce_keeps (l : list Submission) (db : Db) s :
  s ∈ submissions db -> sub_id s ∉ sub_id <$> l ->
  s ∈ submissions (foldl (fun db s => save (set_force false s) db) db l).
Proof.
  revert db. induction l as [|x l IH]; intros db Hs Hn; cbn; [done|].
  apply not_elem_of_cons in Hn as [Hx Hn]. apply IH; [|done]. cbn. apply list_elem_of_fmap.
  exists s. split; [|done]. by rewrite (proj2 (Z.eqb_neq _ _)).
Qed.

Lemma unforce_others_self exercise student self (db : Db) :
  self ∈ submissions db -> self ∈ submissions (unforce_others exercise student self db).
Proof.
  intros Hs. apply unforce_keeps; [done|]. intros (t & Ht & Hin)%list_elem_of_fmap.
  unfold other_finals in Hin. apply list_elem_of_In, filter_In in Hin as [_ Hin]. b2p. congruence.
Qed.

Lemma save_stored s (db : Db) : sub_id s ∈ row_ids db -> s ∈ submissions (save s db).
Proof.
  intros (t & Hi & Ht)%list_elem_of_fmap. cbn. apply list_elem_of_fmap. exists t.
  split; [|done]. by rewrite Hi, Z.eqb_refl.
Qed.

Lemma filter_single {A} (f : A -> bool) (l : list A) x :
  x ∈ l -> f x = true -> (length (List.filter f l) <= 1)%nat -> List.filter f l = [x].
Proof.
  intros Hx Hf Hl. assert (Hin : In x (List.filter f l)) by (apply filter_In; by rewrite <- list_elem_of_In).
  destruct (List.filter f l) as [|y [|z r]]; [done| |cbn in Hl; lia].
  by destruct Hin as [->|[]].
Qed.

(** C12. Marking a submission as final makes it the only final submission of its
    first submitter: after the review form has been saved with the mark for a
    submission of the exercise, the first submitter has exactly one final
    submission in the exercise, the assessed one, with the assessor and the
    feedback of the form, and no row has been added or removed.  This is what the
    points cache and the results table rely on to agree. *)
Theorem assess_single_final `{!Keeps row_ids retry} exercise is_teacher assessor points fb self
    (db db' : Db) first rest :
  NoDup (row_ids db) -> sub_id self ∈ row_ids db -> sub_exercise self = exercise_id exercise ->
  submitters self = first :: rest ->
  assess retry exercise is_teacher assessor points true fb self db = (Ret tt, db') ->
  (exists s, finals db' exercise first = [s] /\ sub_id s = sub_id self /\
     grader s = Some assessor /\ feedback s = fb) /\
  row_ids db' = row_ids db.
Proof.
  intros Hnd Hin Hex Hs E.
  apply (assess_inv _ _ _ _ _ _ _ _ _ _ _ Hs) in E as (_ & s1 & s2 & db2 & E1 & E2 & ->).
  pose proof (keeps_set_ready row_ids retry exercise false
    (set_feedback fb (set_grader assessor (set_force true s1))) db) as Hk.
  rewrite E2 in Hk. cbn [snd] in Hk.
  destruct (set_ready_force _ _ _ _ _ _ E2) as (Hf & Hi & He & Hsub & Hgr & Hfb). cbn in Hf, Hgr, Hfb.
  rewrite Hf. destruct (set_points_keeps _ _ _ _ _ _ _ E1) as (Hi1 & He1 & Hs1).
  assert (Hid : sub_id s2 = sub_id self) by (rewrite Hi; exact Hi1).
  set (db3 := unforce_others _ _ _ _).
  assert (Hids : row_ids db3 = row_ids db).
  { rewrite <- Hk, <- (save_ids s2 db2). apply unforce_rows. }
  assert (H2 : s2 ∈ finals db3 exercise first).
  { apply elem_of_finals. split; [|split; [done|split]].
    - apply unforce_others_self, save_stored. by rewrite Hk, Hid.
    - apply submitted_by_self. rewrite Hsub. cbn. rewrite Hs1, Hs. by left.
    - rewrite He. cbn. by rewrite He1. }
  assert (Hl : NoDup (sub_id <$> get_submissions_for_student db3 exercise first false false)).
  { unfold get_submissions_for_student, submissions_of.
    eapply sublist_NoDup; [rewrite <- Hids in Hnd; exact Hnd|].
    apply fmap_sublist. etransitivity; apply sublist_filter. }
  split; [|exact Hids]. exists s2. split; [|done].
  apply list_elem_of_In, filter_In in H2 as [H2 Hf2]. apply list_elem_of_In in H2.
  apply filter_single; [exact H2|exact Hf2|]. apply (single_id _ _ (sub_id self) Hl).
  intros s Hs3 Hfs. rewrite <- Hid. apply (unforce_others_finals exercise first s2 (save s2 db2)).
  unfold finals. apply list_elem_of_In, filter_In. split; [|done]. by apply list_elem_of_In.
Qed.
End AssessTheory.

(** ** One more submission *)

(** The row of a pair in the deviation table, if there is one. *)
Definition deviation_of (l : list MaxSubmissionsRuleDeviation) (exercise submitter : Z)
    : option MaxSubmissionsRuleDeviation :=
  head (filter (fun d => ms_exercise d = exercise /\ ms_submitter d = submitter) l).

Lemma deviation_of_cons d l e p :
  deviation_of (d :: l) e p
  = if (ms_exercise d =? e) && (ms_submitter d =? p) then Some d else deviation_of l e p.
Proof.
  unfold deviation_of. rewrite filter_cons.
  destruct (decide _) as [[-> ->]|Hn]; [by rewrite !Z.eqb_refl|].
  destruct ((ms_exercise d =? e) && (ms_submitter d =? p)) eqn:E; [|done]. b2p. tauto.
Qed.

Lemma add_extra_spec l e p e' p' :
  deviation_of (add_extra e p l) e' p'
  = if bool_decide ((e', p') = (e, p))
    then Some (mkSubmissionsDeviation e p (from_option extra_submissions 0 (deviation_of l e p) + 1))
    else deviation_of l e' p'.
Proof.
  assert (Hc : (e =? e') && (p =? p') = bool_decide ((e', p') = (e, p))).
  { case_bool_decide as Hp; [injection Hp as -> ->; by rewrite !Z.eqb_refl|].
    destruct (_ && _) eqn:E; [|done]. b2p. congruence. }
  induction l as [|d l IH]; cbn [add_extra].
  - rewrite deviation_of_cons. cbn [ms_exercise ms_submitter]. by rewrite Hc.
  - rewrite !deviation_of_cons. destruct ((ms_exercise d =? e) && (ms_submitter d =? p)) eqn:Ed.
    + apply andb_true_iff in Ed as [->%Z.eqb_eq ->%Z.eqb_eq].
      rewrite deviation_of_cons. cbn [ms_exercise ms_submitter]. rewrite Hc. by case_bool_decide.
    + rewrite deviation_of_cons, IH. case_bool_decide as Hp; [|done].
      injection Hp as -> ->. by rewrite Ed.
Qed.

Lemma max_submissions_deviation w exercise p :
  max_submissions_for_student w exercise p
  = max_submissions exercise
    + from_option extra_submissions 0
        (deviation_of (submissions_deviations w) (exercise_id exercise) (profile_id p)).
Proof.
  unfold max_submissions_for_student, deviation_of.
  match goal with |- context [head ?l] => destruct (head l) end; cbn; lia.
Qed.

(** Granting one more submission raises the limit of the first submitter of
    the submission in that exercise by exactly one, whether or not the student
    had a deviation, and changes the limit of no other student and of no other
    exercise; a submission without submitters fails. *)
Theorem increase_submission_max_spec exercise s w :
  match increase_submission_max exercise s w with
  | Ret w' => exists first, head (submitters s) = Some first /\
      forall exercise' p,
        max_submissions_for_student w' exercise' p
        = max_submissions_for_student w exercise' p
          + (if bool_decide ((exercise_id exercise', profile_id p) = (exercise_id exercise, profile_id first))
             then 1 else 0)
  | Raise e => submitters s = [] /\ e = DatabaseError
  end.
Proof.
  unfold increase_submission_max. destruct (submitters s) as [|first rest]; [done|].
  exists first. split; [done|]. intros exercise' p. rewrite !max_submissions_deviation.
  cbn [submissions_deviations with_submissions_deviations]. rewrite add_extra_spec.
  case_bool_decide as Hp; [injection Hp as -> ->; cbn|]; lia.
Qed.

(** ** The walk through the unassessed submitters *)

Definition unskipped (unassessed skipped : list Z) : list Z :=
  List.filter (fun s => negb (bool_decide (s ∈ skipped))) unassessed.

Lemma visit_show unassessed skipped prev p rest :
  unskipped unassessed skipped = p :: rest -> prev <> Some p ->
  visit_next unassessed skipped prev = (ShowSubmitter p, skipped).
Proof.
  intros Hu Hp. unfold visit_next, next_unassessed. fold (unskipped unassessed skipped). rewrite Hu.
  by rewrite bool_decide_eq_false_2.
Qed.

Lemma visit_reset unassessed skipped p rest :
  unskipped unassessed skipped = [] -> unassessed = p :: rest ->
  visit_next unassessed skipped None = (ShowSubmitter p, []).
Proof.
  intros Hu ->. unfold visit_next, next_unassessed. fold (unskipped (p :: rest) skipped). rewrite Hu.
  by destruct skipped.
Qed.

Lemma unskipped_nil l : unskipped l [] = l.
Proof.
  unfold unskipped. induction l as [|x l IH]; [done|]. cbn -[bool_decide].
  rewrite bool_decide_eq_false_2 by apply not_elem_of_nil. cbn. by rewrite IH.
Qed.

Lemma unskipped_snoc l skipped p rest :
  NoDup l -> unskipped l skipped = p :: rest -> unskipped l (skipped ++ [p]) = rest.
Proof.
  unfold unskipped. intros Hnd. revert rest. induction l as [|x l IH]; intros rest; [done|].
  apply NoDup_cons in Hnd as [Hx Hnd]. cbn -[bool_decide].
  destruct (decide (x ∈ skipped)) as [Hs|Hs].
  - rewrite (bool_decide_eq_true_2 _ Hs), bool_decide_eq_true_2 by (apply elem_of_app; by left).
    cbn. by apply IH.
  - rewrite (bool_decide_eq_false_2 _ Hs). cbn. intros E. injection E as -> <-.
    rewrite bool_decide_eq_true_2 by (apply elem_of_app; right; by left). cbn.
    apply List.filter_ext_in. intros y Hy. apply list_elem_of_In in Hy. f_equal.
    apply bool_decide_ext. rewrite elem_of_app, list_elem_of_singleton. split; [|by left].
    intros [?| ->]; done.
Qed.

(** The page after the redirect, when the first unskipped submitter is skipped. *)
Lemma visit_skip unassessed skipped p rest :
  unskipped unassessed skipped = p :: rest ->
  visit_next unassessed skipped (Some p) = visit_next unassessed (skipped ++ [p]) None.
Proof.
  intros Hu. assert (Hp : p ∉ skipped).
  { assert (Hin : In p (unskipped unassessed skipped)) by (rewrite Hu; by left).
    unfold unskipped in Hin. apply filter_In in Hin as [_ Hin]. apply negb_true_iff in Hin. by b2p. }
  unfold visit_next at 1, next_unassessed at 1. fold (unskipped unassessed skipped). rewrite Hu.
  rewrite (bool_decide_eq_true_2 (Some p = Some p)), (bool_decide_eq_false_2 _ Hp) by done.
  unfold visit_next. destruct (next_unassessed _ _ None) as [[] sk] eqn:E; try done.
  exfalso. unfold next_unassessed in E. revert E.
  repeat case_match; simplify_eq; rewrite ?bool_decide_eq_false_2 in * by done; done.
Qed.

Lemma unskipped_in l skipped x : x ∈ unskipped l skipped -> x ∈ l.
Proof. unfold unskipped. rewrite !list_elem_of_In, filter_In. tauto. Qed.

Section Walk.
Context (best : Z -> Submission) (unassessed : list Z) (Hnd : NoDup unassessed).
Context (Hbest : forall s, s ∈ unassessed -> next_link (best s) = Some s).

Lemma walk_S k skipped prev s skipped' :
  visit_next unassessed skipped prev = (ShowSubmitter s, skipped') ->
  walk best (S k) unassessed skipped prev = walk best k unassessed skipped' (next_link (best s)).
Proof. intros E. cbn. by rewrite E. Qed.

(** While [p] is shown, the rest of the unskipped submitters comes next, and then
    the list of skipped submitters is emptied. *)
Lemma walk_rest rest : forall skipped p k,
  unskipped unassessed skipped = p :: rest -> (k < length rest)%nat ->
  walk best k unassessed skipped (Some p) = rest !! k.
Proof.
  induction rest as [|q rest IH]; intros skipped p k Hu Hk; cbn in Hk; [lia|].
  pose proof (unskipped_snoc _ _ _ _ Hnd Hu) as Hu'.
  assert (Hv : visit_next unassessed skipped (Some p) = (ShowSubmitter q, skipped ++ [p])).
  { rewrite (visit_skip _ _ _ _ Hu). by eapply visit_show. }
  destruct k as [|k]; [cbn; by rewrite Hv|].
  rewrite (walk_S _ _ _ _ _ Hv), (Hbest q) by (eapply unskipped_in; rewrite Hu'; by left).
  cbn. apply IH; [done|lia].
Qed.

Lemma walk_around rest : forall skipped p k,
  unskipped unassessed skipped = p :: rest ->
  walk best (length rest + k) unassessed skipped (Some p) = walk best k unassessed [] None.
Proof.
  induction rest as [|q rest IH]; intros skipped p k Hu;
    pose proof (unskipped_snoc _ _ _ _ Hnd Hu) as Hu'.
  - assert (exists u us, unassessed = u :: us) as (u & us & El).
    { clear -Hu. destruct unassessed; [done|eauto]. }
    assert (Hv : visit_next unassessed skipped (Some p) = (ShowSubmitter u, [])).
    { rewrite (visit_skip _ _ _ _ Hu). by eapply visit_reset. }
    assert (Hv0 : visit_next unassessed [] None = (ShowSubmitter u, [])).
    { apply (visit_show _ _ _ u us); [by rewrite unskipped_nil|done]. }
    destruct k; cbn; by rewrite Hv, Hv0.
  - assert (Hv : visit_next unassessed skipped (Some p) = (ShowSubmitter q, skipped ++ [p])).
    { rewrite (visit_skip _ _ _ _ Hu). by eapply visit_show. }
    cbn [length Nat.add].
    rewrite (walk_S _ _ _ _ _ Hv), (Hbest q) by (eapply unskipped_in; rewrite Hu'; by left). by apply IH.
Qed.

Lemma walk_fresh k : (k < length unassessed)%nat -> walk best k unassessed [] None = unassessed !! k.
Proof.
  intros Hk. assert (exists u us, unassessed = u :: us) as (u & us & El).
  { clear -Hk. destruct unassessed; [cbn in Hk; lia|eauto]. }
  assert (Hv : visit_next unassessed [] None = (ShowSubmitter u, [])).
  { apply (visit_show _ _ _ u us); [by rewrite unskipped_nil|done]. }
  destruct k as [|k]; [cbn; by rewrite Hv, El|].
  rewrite (walk_S _ _ _ _ _ Hv), (Hbest u) by (rewrite El; by left). rewrite El. cbn. rewrite <- El.
  apply walk_rest; [by rewrite unskipped_nil|rewrite El in Hk; cbn in Hk; lia].
Qed.
End Walk.

Lemma unskipped_length unassessed skipped : (length (unskipped unassessed skipped) <= length unassessed)%nat.
Proof. apply List.filter_length_le. Qed.

Lemma walk_two_rounds best unassessed skipped prev i x :
  NoDup unassessed -> (forall s, s ∈ unassessed -> next_link (best s) = Some s) ->
  unassessed !! i = Some x -> unskipped unassessed skipped <> [] ->
  exists k, (k < 2 * length unassessed)%nat /\ walk best k unassessed skipped prev = Some x.
Proof.
  intros Hnd Hbest Hi Hne. pose proof (lookup_lt_Some _ _ _ Hi) as Hlt.
  pose proof (unskipped_length unassessed skipped) as Hl.
  destruct (unskipped unassessed skipped) as [|p rest] eqn:Hu; [done|].
  cbn in Hl. rewrite <- Hi, <- (walk_fresh best _ Hnd Hbest i Hlt).
  destruct (decide (prev = Some p)) as [->|Hp].
  - exists (length rest + i)%nat. split; [lia|]. by apply walk_around.
  - exists (S (length rest + i)). split; [lia|].
    rewrite (walk_S _ _ _ _ _ _ _ (visit_show _ _ _ _ _ Hu Hp)).
    rewrite (Hbest p) by (eapply unskipped_in; rewrite Hu; by left). by apply walk_around.
Qed.

(** A submitter who is not the first of the shown submission is not skipped. *)
Lemma walk_stuck best unassessed skipped x rest k : forall prev,
  unskipped unassessed skipped = x :: rest -> next_link (best x) <> Some x -> prev <> Some x ->
  walk best k unassessed skipped prev = Some x.
Proof.
  induction k as [|k IH]; intros prev Hu Hl Hp; cbn; rewrite (visit_show _ _ _ _ _ Hu Hp); [done|].
  by apply IH.
Qed.

Lemma visit_all_skipped unassessed skipped prev :
  unskipped unassessed skipped = [] ->
  visit_next unassessed skipped prev = visit_next unassessed [] prev.
Proof.
  intros Hu. unfold visit_next.
  assert (E : next_unassessed unassessed skipped prev = next_unassessed unassessed [] prev);
    [|by rewrite E].
  unfold next_unassessed at 1. fold (unskipped unassessed skipped). rewrite Hu.
  destruct skipped as [|s skipped].
  - rewrite unskipped_nil in Hu. by rewrite Hu.
  - unfold next_unassessed. fold (unskipped unassessed []). rewrite unskipped_nil. by destruct unassessed.
Qed.


(** ** Creating submissions *)

Section Create.
Context `{Settings} (retry : M unit).

(** A form the views accept: points on the scale of the exercise. *)
Definition form_ok (form : NewSubmission) : Prop :=
  gradable (new_exercise form) (max_points (new_exercise form)) /\
  max_points (new_exercise form) * max_points (new_exercise form) <= 2 ^ 53 /\
  clean_points (new_exercise form) (Some (new_points form)) = Some (new_points form).

(** The row a form describes. *)
Definition created (profile : Z) (t : datetime) (i : Z) (form : NewSubmission) : Submission :=
  mkSubmission i (exercise_id (new_exercise form)) (new_time form) (new_students form)
    (Some (default profile (new_grader form))) (new_feedback form) SubStatus.READY None
    (new_points form) (Some t) None false (new_points form) (max_points (new_exercise form)) None.

(** Pending rows belong to submissions (a foreign key), and the grader is stable. *)
Definition quiet (db : Db) : Prop :=
  is_grader_stable db = true /\
  forall i, is_Some (pendings db !! i) -> i ∈ row_ids db.

Lemma next_id_fresh (db : Db) : next_id db ∉ row_ids db.
Proof.
  unfold next_id. intros Hin.
  destruct (maxZ_ub 0 (row_ids db)) as [_ Hub].
  rewrite Forall_forall in Hub. apply Hub in Hin. lia.
Qed.

Lemma create_submission_eq profile form db :
  quiet db -> form_ok form ->
  exists db', create_submission retry profile form db = (Ret tt, db') /\
    submissions db' = created profile (now db) (next_id db) form :: submissions db /\
    now db' = now db /\ quiet db'.
Proof.
  intros [Hst Hfk] (Hg & Hfit & Hp).
  assert (Hp' : 0 <= new_points form <= max_points (new_exercise form)).
  { cbn in Hp. destruct (_ && _) eqn:E; [|done]. b2p. lia. }
  pose proof (next_id_fresh db) as Hfresh.
  assert (Hnone : pendings db !! next_id db = None).
  { destruct (pendings db !! next_id db) eqn:E; [|done]. destruct Hfresh. apply Hfk. eauto. }
  unfold create_submission, mbind, M_bind, reads, lift, modify. cbn [id].
  rewrite set_points_own_scale by done.
  set (s1 := set_grader _ _).
  assert (Hready : exists db2, set_ready retry (new_exercise form) false s1
      (insert_submission (blank (next_id db) (now db) form) db)
    = (Ret (created profile (now db) (next_id db) form), db2) /\
    submissions db2 = blank (next_id db) (now db) form :: submissions db /\
    now db2 = now db /\ pendings db2 = pendings db).
  { unfold set_ready, mbind, M_bind, reads, modify. cbn -[is_grader_stable].
    assert (Hd : delete (next_id db) (pendings db) = pendings db) by (by apply delete_id).
    match goal with |- context [is_grader_stable ?d] => assert (Es : is_grader_stable d = true) end.
    { unfold is_grader_stable, total_retries in *. cbn. by rewrite Hd. }
    rewrite Es. cbn. eexists. split; [reflexivity|]. cbn. by rewrite Hd. }
  destruct Hready as (db2 & -> & Hs & Ht & Hpd).
  eexists. split; [reflexivity|]. cbn. rewrite Hs. cbn. rewrite Z.eqb_refl.
  rewrite <- Ht.
  assert (Hold : forall c, (fun s => if sub_id s =? next_id db then c else s)
                   <$> submissions db = submissions db).
  { intros c. rewrite <- (list_fmap_id (submissions db)) at 2. apply list_fmap_ext. intros j s Hj.
    destruct (sub_id s =? next_id db) eqn:E; [|done]. b2p. destruct Hfresh. rewrite <- E.
    apply list_elem_of_fmap. exists s. split; [done|]. by eapply list_elem_of_lookup_2. }
  rewrite Hold. split; [done|]. split; [done|]. split.
  - unfold is_grader_stable, total_retries in *. cbn. by rewrite Hpd.
  - unfold row_ids. cbn. rewrite Hpd, Hs. cbn. rewrite Z.eqb_refl, Hold. intros i Hi. right. by apply Hfk.
Qed.

Lemma create_all_rows profile forms : forall db : Db,
  quiet db -> NoDup (row_ids db) -> Forall form_ok forms ->
  exists (db' : Db) rows, create_all retry profile forms db = (Ret tt, db') /\
    submissions db' = reverse rows ++ submissions db /\
    Forall2 (fun form s => s = created profile (now db) (sub_id s) form) forms rows /\
    NoDup (row_ids db').
Proof.
  induction forms as [|form forms IH]; intros db Hq Hnd Hok; cbn.
  { by exists db, []. }
  apply Forall_cons in Hok as [Hf Hok].
  destruct (create_submission_eq profile form db Hq Hf) as (db1 & E1 & Hs1 & Ht1 & Hq1).
  destruct (IH db1 Hq1) as (db' & rows & E & Hs & Hrows & Hnd'); [|done|].
  { unfold row_ids. rewrite Hs1. cbn. constructor; [apply next_id_fresh|done]. }
  exists db', (created profile (now db) (next_id db) form :: rows).
  unfold mbind, M_bind. rewrite E1. split; [exact E|].
  split; [by rewrite Hs, Hs1, reverse_cons, <- (assoc (++))|]. split; [|done]. rewrite Ht1 in Hrows. by constructor.
Qed.

Definition valid_item (item : BatchItem) : bool :=
  match item with ValidForm _ => true | _ => false end.

Lemma item_errors_nil l : flat_map item_error l = [] <-> forallb valid_item l = true.
Proof. induction l as [|[] l IH]; cbn; [done| | | |exact IH]; split; discriminate. Qed.

(** A batch of assessed submissions is all or nothing: if any object of the
    array is not valid, the call returns its errors and the database is as it
    was; otherwise it returns no error and has added one row per object, in
    order, with a new id, the submitters, time and feedback of the object, its
    points as the grade, ready and without a penalty.  The grader is stable, so
    that no retry interferes. *)
Theorem create_submissions_all_or_nothing admin l (db : Db) :
  quiet db -> NoDup (row_ids db) -> Forall form_ok (flat_map item_form l) ->
  if forallb valid_item l then
    exists (db' : Db) rows, create_submissions retry admin (BatchArray l) db = (Ret [], db') /\
      submissions db' = reverse rows ++ submissions db /\
      Forall2 (fun form s => s = created admin (now db) (sub_id s) form) (flat_map item_form l) rows /\
      NoDup (row_ids db')
  else exists errors, errors <> [] /\
      create_submissions retry admin (BatchArray l) db = (Ret errors, db).
Proof.
  intros Hq Hnd Hok. cbn. pose proof (item_errors_nil l) as He.
  destruct (forallb valid_item l).
  - rewrite bool_decide_eq_true_2 by (by apply He).
    destruct (create_all_rows admin _ db Hq Hnd Hok) as (db' & rows & E & Hs & Hrows & Hnd').
    exists db', rows. unfold mbind, M_bind. rewrite E, (proj2 He eq_refl). done.
  - assert (Hne : flat_map item_error l <> []) by (intros E; apply He in E; done).
    rewrite bool_decide_eq_false_2 by done. eauto.
Qed.
End Create.

(** ** Witnesses and observations *)

Definition example_final (i : Z) (ps : list UserProfile) : Submission :=
  set_force true (example_submission i SubStatus.READY ps).

Definition staff_db (l : list Submission) : Db := mkDb (example_world l) ∅ [] [] [] [] [].

#[local] Instance keeps_no_retry : Keeps row_ids no_retry.
Proof. intros db. reflexivity. Qed.

(** The review form marks the second of two final submissions of a student. *)
Lemma assess_single_final_witness :
  exists db' : Db,
    assess no_retry (example_exercise 1 2) true 9 8 true "good" (example_submission 2 SubStatus.READY [example_student 1])
      (staff_db [example_final 1 [example_student 1]; example_submission 2 SubStatus.READY [example_student 1]])
    = (Ret tt, db') /\
    exists s, finals db' (example_exercise 1 2) (example_student 1) = [s] /\ sub_id s = 2.
Proof.
  destruct (assess no_retry (example_exercise 1 2) true 9 8 true "good"
    (example_submission 2 SubStatus.READY [example_student 1])
    (staff_db [example_final 1 [example_student 1]; example_submission 2 SubStatus.READY [example_student 1]]))
    as [[[]|e] db'] eqn:E; [|vm_compute in E; discriminate].
  exists db'. split; [reflexivity|].
  destruct (assess_single_final no_retry (example_exercise 1 2) true 9 8 "good"
    (example_submission 2 SubStatus.READY [example_student 1])
    (staff_db [example_final 1 [example_student 1]; example_submission 2 SubStatus.READY [example_student 1]])
    db' (example_student 1) []) as [(s & Hs & Hi & _) _]; [..|exists s; split; [exact Hs|exact Hi]].
  - apply (bool_decide_unpack _). vm_compute. exact I.
  - apply (bool_decide_unpack _). vm_compute. exact I.
  - reflexivity.
  - reflexivity.
  - exact E.
Defined.

(** The mark of another member of a group stays: only the submissions of the first
    submitter are cleared, so the second one has two final submissions. *)
Lemma second_submitter_keeps_two_finals :
  let group := [example_student 1; example_student 2] in
  let db := staff_db [example_final 1 [example_student 2]; example_submission 2 SubStatus.READY group] in
  let db' := snd (assess no_retry (example_exercise 2 2) true 9 8 true "good"
                    (example_submission 2 SubStatus.READY group) db) in
  sub_id <$> finals db' (example_exercise 2 2) (example_student 2) = [1; 2].
Proof. vm_compute. reflexivity. Qed.


Definition example_form (points : Z) : NewSubmission :=
  mkNew (example_exercise 1 2) [example_student 1] "ok" points 500 None.

Lemma example_form_ok : form_ok (example_form 7).
Proof. vm_compute. intuition discriminate. Qed.

Lemma create_submissions_all_or_nothing_witness :
  let db := staff_db [example_submission 4 SubStatus.READY [example_student 1]] in
  (exists (db' : Db) rows,
     create_submissions no_retry 9 (BatchArray [ValidForm (example_form 7)]) db = (Ret [], db') /\
     submissions db' = reverse rows ++ submissions db /\ length rows = 1%nat) /\
  (exists errors, errors <> [] /\
     create_submissions no_retry 9 (BatchArray [ValidForm (example_form 7); InvalidForm]) db
     = (Ret errors, db)).
Proof.
  intros db.
  assert (Hq : quiet db).
  { split; [vm_compute; reflexivity|]. intros i [p Hp]. cbn in Hp. by rewrite lookup_empty in Hp. }
  assert (Hnd : NoDup (row_ids db)) by (apply (bool_decide_unpack _); vm_compute; exact I).
  assert (Hok : Forall form_ok [example_form 7]) by (repeat constructor; apply example_form_ok).
  split.
  - destruct (create_submissions_all_or_nothing no_retry 9 [ValidForm (example_form 7)] db Hq Hnd Hok)
      as (db' & rows & E & Hs & Hrows & _).
    exists db', rows. split; [exact E|]. split; [exact Hs|]. symmetry. exact (Forall2_length _ _ _ Hrows).
  - exact (create_submissions_all_or_nothing no_retry 9 [ValidForm (example_form 7); InvalidForm] db Hq Hnd Hok).
Defined.

(** Another course instance, and its teacher, who has no role in the first one. *)
Definition other_instance : CourseInstance :=
  mkInstance 2 2 "Other" "other" true EnrollmentAudience.ALL_USERS ViewAccess.PUBLIC
    0 (days 100) None None None None "|en|fi|" ContentNumbering.ARABIC ContentNumbering.ARABIC.

Definition other_teachers_db : Db :=
  let w := example_world [set_service_points 8 10 (Some (1#2)%Q)
                            (set_grade 4 (example_submission 5 SubStatus.READY [example_student 1]))] in
  mkDb (mkWorld {[ (2, 7) := mkEnrollment EnrollmentRole.TEACHER EnrollmentStatus.ACTIVE false None ]}
          [] (submissions w) [] [] (user_of w) (now w)) ∅ [] [] [] [] [].

(** Approval by module takes the submission from the request without asking
    whether it belongs to the course of the page: the teacher of another course
    removes the late penalty of a submission. *)
Lemma approval_crosses_courses :
  let r := approve_by_module no_retry other_instance (NormalUser (example_user 7 "T"))
             [example_exercise 1 2] (fun _ => example_exercise 1 2) (example_student 1)
             (example_submission 5 SubStatus.READY [example_student 1]) true OnlyLate
             other_teachers_db in
  is_course_staff (lobj_instance (example_exercise 1 2)) (enrollments other_teachers_db)
    (NormalUser (example_user 7 "T")) = false /\
  fst r = Ret 1%nat /\ grade <$> submissions (snd r) = [8].
Proof. vm_compute. repeat split; reflexivity. Qed.
