(* ===== verification/Submit.v ===== *)
(** * Submitting an answer

    [exercise/views.py], the submission endpoint of [exercise/api/views.py] and
    [SubmissionManager.create_from_post]: the policy of [Exercise], the creation
    of the row, the draft, the grading of [Grading] and the enrollment of
    [Course] composed the way the views compose them; which page the exercise
    page shows; drafts; and the goals students set themselves. *)

From Stdlib Require Import QArith Lqa Ascii.
From S2P Require Import Prelude Binary64 Helpers Course Deviations Reveal Models Exercise Submission Grading Frame Permissions ConfigDiff Staff.
#[local] Open Scope Z_scope.

(** ** The request *)

(** What becomes of the files of a request: they are stored; the database refuses
    one, and then also the deletion of the row or not; or the disk does. *)
Inductive FilesOutcome :=
| FilesStored
| FilesRefused (row_deleted : bool)
| FilesUnwritable.

(** What the views read of a POST.  [post_data] is what the policy reads, with the
    field [__aplus__] already decoded; [lang_in_value] is Python's
    ['lang' in value] for a value that is no object ([None]: a [TypeError]).
    [lti_launch] is the launch id of an LTI session with access to the course.
    The last three fields tell what becomes of the writes: whether the database
    accepts the row, and its submitters, and what happens to the files. *)
Record SubmitRequest := mkRequest {
  post_fields : querydict;
  post_data : PostData;
  lang_in_value : option bool;
  lti_launch : option string;
  row_accepted : bool;
  submitters_accepted : bool;
  files_outcome : FilesOutcome;
}.

(** The data of the submission: the fields of the form without [__aplus__]. *)
Definition submission_data_list (req : SubmitRequest) : list (string * string) :=
  List.filter (fun '(key, _) => negb (bool_decide (key = "__aplus__"%string)))
    (query_dict_to_list_of_tuples (post_fields req)).

(** The meta data with its new keys: an object takes them, a list or a string
    that already holds ['lang'] is left alone. *)
Definition meta_data (req : SubmitRequest) : result unit :=
  match aplus_field (post_data req) with
  | InvalidJson => Raise ValueError
  | JsonGroup _ => Ret tt
  | JsonNotDict =>
      match lang_in_value req, lti_launch req with
      | Some true, None => Ret tt
      | _, _ => Raise TypeError
      end
  end.

Definition delete_submission (i : Z) (db : Db) : Db :=
  with_world db (with_submissions db (List.filter (fun s => negb (sub_id s =? i)) (submissions db))).

(** The row [Submission.objects.create] makes, with the given submitters. *)
Definition new_row (exercise : BaseExercise) (req : SubmitRequest) (db : Db)
    (students : list UserProfile) : Submission :=
  mkSubmission (next_id db) (exercise_id exercise) (now db) students None "" SubStatus.INITIALIZED
    None 0 None None false 0 0 (lti_launch req).

(** [new_submission.submitters.set] writes the table of submitters. *)
Definition set_submitters (i : Z) (students : list UserProfile) (db : Db) : Db :=
  with_world db (with_submissions db
    ((fun s => if sub_id s =? i then with_submitters students s else s) <$> submissions db)).

(** src/exercise/submission_models.py: SubmissionManager.create_from_post.  The statements run
    without a transaction: what was written before an error stays, unless the row
    is deleted. *)
Definition create_from_post (exercise : BaseExercise) (students : list UserProfile)
    (req : SubmitRequest) : M Submission :=
  lift (meta_data req);;
  if negb (row_accepted req) then lift (Raise DatabaseError)
  else
    db ← reads id;
    let new_submission := new_row exercise req db [] in
    modify (insert_submission new_submission);;
    if negb (submitters_accepted req) then lift (Raise DatabaseError)
    else
      modify (set_submitters (sub_id new_submission) students);;
      match files_outcome req with
      | FilesStored => mret (with_submitters students new_submission)
      | FilesRefused row_deleted =>
          (if row_deleted then modify (delete_submission (sub_id new_submission)) else mret tt);;
          lift (Raise DatabaseError)
      | FilesUnwritable => lift (Raise OSError)
      end.

(** ** The exercise page *)

Section Views.
Context `{Settings} (service : Submission -> Db -> Reply) (exercise_of : Z -> BaseExercise)
  (choice : list Z -> option Z) (fuel : nat).

(** [self.exercise.grade] *)
Definition grade_new (exercise : BaseExercise) (s : Submission) : M ExercisePage :=
  grade_rec service exercise_of choice fuel false exercise s.

(** src/exercise/views.py: ExerciseView.submission_check.  Whether the submission is allowed, and
    the students; [None] is a visitor who has not signed in. *)
Definition submission_check (w : World) (exercise : BaseExercise) (profile : option UserProfile)
    (req : option PostData) : result (SubmitStatus.t * bool * list UserProfile) :=
  match profile with
  | None => Ret (SubmitStatus.INVALID, false, [])
  | Some p =>
      let! checked := check_submission_allowed w exercise p req in
      let '(status, _, students) := checked in
      Ret (status, bool_decide (status = SubmitStatus.ALLOWED), students)
  end.

(** The visitor and the request of one call of the view. *)
Record Visit := mkVisit {
  visit_submittable : bool;
  visit_user : AnyUser;
  visit_profile : option UserProfile;
  visit_ajax : bool;
  visit_return : bool;
  visit_feedback_revealed : bool;
}.

(** What the browser gets.  A page rendered for a stored submission shows the
    page of the grader, or the ungraded form when feedback is hidden. *)
Inductive Response :=
| MethodNotAllowed
| RedirectToSubmission (i : Z) (wait : bool)
| RedirectBack
| RenderedEmpty
| RenderedGraded (i : Z)
| RenderedUngraded (i : Z).

(** The enrollment after a successful enrollment exercise; the status is the one
    grading has saved. *)
Definition enroll_after (exercise : BaseExercise) (user : AnyUser) (i : Z) (skip : bool) (db : Db)
    : result Db :=
  if is_enrollment_exercise exercise
     && bool_decide (sub_status <$> find_submission i db = Some SubStatus.READY)
     && negb skip
  then
    let! (_, enrolled) := enroll_student (lobj_instance exercise) user false false (enrollments db) in
    Ret (with_world db (mkWorld enrolled (groups db) (submissions db) (deadline_deviations db)
                          (submissions_deviations db) (user_of db) (now db)))
  else Ret db.

(** src/exercise/views.py: ExerciseView.post lines 219-259.  After the row has been stored. *)
Definition after_create (exercise : BaseExercise) (visit : Visit) (new_submission : Submission)
    (db : Db) (drafts : DraftDB) : result Response * (Db * DraftDB) :=
  let staff := is_course_staff (lobj_instance exercise) (enrollments db) (visit_user visit) in
  let drafts :=
    match visit_profile visit with
    | Some p => unset_submission_draft exercise p drafts
    | None => drafts
    end in
  match grade_new exercise new_submission db with
  | (Raise e, db) => (Raise e, (db, drafts))
  | (Ret page, db) =>
      match enroll_after exercise (visit_user visit) (sub_id new_submission) staff db with
      | Raise e => (Raise e, (db, drafts))
      | Ret db =>
          let response :=
            if negb (visit_ajax visit) then
              if visit_return visit then RedirectBack
              else RedirectToSubmission (sub_id new_submission) (is_wait page)
            else if visit_feedback_revealed visit then RenderedGraded (sub_id new_submission)
            else RenderedUngraded (sub_id new_submission) in
          (Ret response, (db, drafts))
      end
  end.

(** src/exercise/views.py: ExerciseView.post *)
Definition exercise_post (exercise : BaseExercise) (visit : Visit) (req : SubmitRequest)
    (st : Db * DraftDB) : result Response * (Db * DraftDB) :=
  let (db, drafts) := st in
  if negb (visit_submittable visit) then (Ret MethodNotAllowed, st)
  else
    match submission_check db exercise (visit_profile visit) (Some (post_data req)) with
    | Raise e => (Raise e, st)
    | Ret (_, submission_allowed, students) =>
        if submission_allowed : bool then
          let back := if negb (visit_ajax visit) && visit_return visit then RedirectBack
                      else RenderedEmpty in
          match create_from_post exercise students req db with
          | (Ret new_submission, db) => after_create exercise visit new_submission db drafts
          | (Raise ValueError, db) | (Raise DatabaseError, db) => (Ret back, (db, drafts))
          | (Raise e, db) => (Raise e, (db, drafts))
          end
        else (Ret RenderedEmpty, st)
    end.

(** ** The endpoint of the API *)

Inductive ApiResponse := Api405 | Api201 (i : Z) | Api400 | Api500.

(** src/exercise/api/views.py: ExerciseSubmissionsViewSet.submit *)
Definition api_submit (exercise : BaseExercise) (submittable : bool) (user : AnyUser)
    (profile : UserProfile) (req : SubmitRequest) (db : Db) : result ApiResponse * Db :=
  if negb submittable then (Ret Api405, db)
  else
    match check_submission_allowed db exercise profile (Some (post_data req)) with
    | Raise e => (Raise e, db)
    | Ret (status, _, students) =>
        if bool_decide (status = SubmitStatus.ALLOWED) then
          match create_from_post exercise students req db with
          | (Ret new_submission, db) =>
              match grade_new exercise new_submission db with
              | (Raise e, db) => (Raise e, db)
              | (Ret _, db) =>
                  match enroll_after exercise user (sub_id new_submission) false db with
                  | Raise e => (Raise e, db)
                  | Ret db => (Ret (Api201 (sub_id new_submission)), db)
                  end
              end
          | (Raise ValueError, db) => (Ret Api400, db)
          | (Raise DatabaseError, db) => (Ret Api500, db)
          | (Raise e, db) => (Raise e, db)
          end
        else (Ret Api400, db)
    end.

(** ** What the page shows *)

(** src/exercise/views.py: ExerciseView.get lines 128-143.  Whether the form may be used and whether
    the student is told to enroll. *)
Definition submit_controls (w : World) (exercise : BaseExercise) (visit : Visit)
    : result (bool * bool * bool) :=
  if negb (visit_submittable visit) then Ret (false, false, false)
  else if no_submission exercise
          && negb (is_course_staff (lobj_instance exercise) (enrollments w) (visit_user visit))
  then Ret (false, true, false)
  else
    let! (checked, _) := submission_check w exercise (visit_profile visit) None in
    let '(status, allowed) := checked in
    Ret (allowed,
         bool_decide (status = SubmitStatus.CANNOT_ENROLL) || bool_decide (status = SubmitStatus.NOT_ENROLLED),
         bool_decide (status = SubmitStatus.NOT_ENROLLED)).

Inductive PageShown :=
| DraftPage (data : list (string * string))
| FeedbackPage (content : string)
| UngradedPage (i : Z)
| BlankPage.

(** src/exercise/views.py: ExerciseView.get_page *)
Definition get_page (w : World) (drafts : DraftDB) (exercise : BaseExercise) (visit : Visit)
    (return_draft return_submission : bool) : PageShown :=
  let submission_page :=
    match visit_profile visit with
    | Some p =>
        if return_submission then
          match newest (get_submissions_for_student w exercise p false false) with
          | Some s =>
              if visit_feedback_revealed visit then
                if bool_decide (feedback s = ""%string) then BlankPage else FeedbackPage (feedback s)
              else UngradedPage (sub_id s)
          | None => BlankPage
          end
        else BlankPage
    | None => BlankPage
    end in
  if negb (visit_submittable visit) then BlankPage
  else
    match visit_profile visit with
    | Some p =>
        if return_draft then
          match get_submission_draft exercise p drafts with
          | Some d => DraftPage (draft_data d)
          | None => submission_page
          end
        else submission_page
    | None => submission_page
    end.

(** src/exercise/views.py: SubmissionDraftView.post *)
Definition draft_post (exercise : BaseExercise) (p : UserProfile) (fields : querydict) (drafts : DraftDB)
    : DraftDB :=
  set_submission_draft exercise p (query_dict_to_list_of_tuples fields) drafts.

End Views.

(** ** The rows a post stores *)

Section Theory.
Context `{Settings} (service : Submission -> Db -> Reply) (exercise_of : Z -> BaseExercise)
  (choice : list Z -> option Z) (fuel : nat).

Definition meta_ok (req : SubmitRequest) : bool :=
  match meta_data req with Ret _ => true | Raise _ => false end.

(** The meta data can be read, and everything can be written. *)
Definition storable (req : SubmitRequest) : bool :=
  meta_ok req && row_accepted req && submitters_accepted req
  && match files_outcome req with FilesStored => true | _ => false end.

(** The submitters of the row that a creation leaves behind when it fails half way. *)
Definition left_behind (req : SubmitRequest) (students : list UserProfile) : option (list UserProfile) :=
  if meta_ok req && row_accepted req then
    if submitters_accepted req then
      match files_outcome req with
      | FilesStored | FilesRefused true => None
      | FilesRefused false | FilesUnwritable => Some students
      end
    else Some []
  else None.

(** The students of a submission that the object and the policy allow. *)
Definition allowed_students (w : World) (exercise : BaseExercise) (visit : Visit) (req : SubmitRequest)
    : option (list UserProfile) :=
  if visit_submittable visit then
    match submission_check w exercise (visit_profile visit) (Some (post_data req)) with
    | Ret (_, true, students) => Some students
    | _ => None
    end
  else None.

Lemma delete_inserted s (db : Db) :
  sub_id s = next_id db -> delete_submission (sub_id s) (insert_submission s db) = db.
Proof.
  intros Hs. unfold delete_submission, insert_submission. cbn.
  rewrite Z.eqb_refl. cbn.
  assert (Hf : List.filter (fun t => negb (sub_id t =? sub_id s)) (submissions db) = submissions db).
  { pose proof (next_id_fresh db) as Hn. rewrite <- Hs in Hn. unfold row_ids in Hn.
    induction (submissions db) as [|t l IH]; cbn; [done|].
    cbn in Hn. apply not_elem_of_cons in Hn as [Hne Hn].
    rewrite (proj2 (Z.eqb_neq _ _)) by congruence. cbn. by rewrite IH. }
  rewrite Hf. by destruct db as [[] ?].
Qed.

Lemma set_inserted exercise req students (db : Db) :
  set_submitters (next_id db) students (insert_submission (new_row exercise req db []) db)
  = insert_submission (new_row exercise req db students) db.
Proof.
  unfold set_submitters, insert_submission. cbn. rewrite Z.eqb_refl.
  assert (Hf : ((fun t => if sub_id t =? next_id db then with_submitters students t else t)
                 <$> submissions db) = submissions db).
  { pose proof (next_id_fresh db) as Hn. revert Hn. generalize (next_id db) as i. intros i Hn.
    unfold row_ids in Hn. induction (submissions db) as [|t l IH]; cbn; [done|].
    cbn in Hn. apply not_elem_of_cons in Hn as [Hne Hn].
    rewrite (proj2 (Z.eqb_neq _ _)) by congruence. by rewrite IH. }
  by rewrite Hf.
Qed.

(** Creation stores the row of the students, or it fails and leaves a row or none. *)
Lemma create_from_post_spec exercise students req (db : Db) :
  create_from_post exercise students req db =
  (if storable req then
     (Ret (new_row exercise req db students), insert_submission (new_row exercise req db students) db)
   else
     (Raise (match meta_data req with
             | Raise e => e
             | Ret _ =>
                 if row_accepted req && submitters_accepted req then
                   match files_outcome req with FilesUnwritable => OSError | _ => DatabaseError end
                 else DatabaseError
             end),
      match left_behind req students with
      | Some ps => insert_submission (new_row exercise req db ps) db
      | None => db
      end)).
Proof.
  unfold create_from_post, storable, left_behind, meta_ok, mbind, M_bind, lift, reads, modify.
  destruct (meta_data req) as [[]|e]; [|done]. cbn [andb].
  destruct (row_accepted req); cbn [negb andb]; [|done].
  destruct (submitters_accepted req); cbn [negb andb]; [|done]. cbn [id].
  change (sub_id (new_row exercise req db [])) with (next_id db).
  rewrite set_inserted.
  destruct (files_outcome req) as [|[]|]; cbn [mret M_ret]; try done.
  f_equal. by apply (delete_inserted (new_row exercise req db students)).
Qed.

Lemma enroll_after_rows exercise user i skip (db db' : Db) :
  enroll_after exercise user i skip db = Ret db' ->
  submissions db' = submissions db /\
  (enrollments db' = enrollments db \/
   (is_enrollment_exercise exercise = true /\ skip = false /\
    exists new, enroll_student (lobj_instance exercise) user false false (enrollments db)
                = Ret (new, enrollments db'))).
Proof.
  unfold enroll_after. destruct (is_enrollment_exercise exercise); cbn; [|intros [= <-]; auto].
  destruct (bool_decide _); cbn; [|intros [= <-]; auto].
  destruct skip; cbn; [intros [= <-]; auto|].
  destruct (enroll_student _ _ _ _ _) as [[new tbl]|]; [|done]. cbn. intros [= <-]. cbn. eauto 6.
Qed.

(** The new row is the only one with its id. *)
Lemma inserted_owned exercise req (db : Db) students :
  NoDup (row_ids db) ->
  let s := new_row exercise req db students in
  distinct_rows (owners (insert_submission s db)) /\ owned s (owners (insert_submission s db)).
Proof.
  intros Hnd s.
  assert (Hd : distinct_rows (owners (insert_submission s db))).
  { unfold distinct_rows, owners. cbn. apply NoDup_cons. rewrite <- !list_fmap_compose.
    split; [exact (next_id_fresh db)|exact Hnd]. }
  split; [done|]. apply row_owned; [done|]. by left.
Qed.

(** C5. What a post to an exercise stores.  When the object cannot be submitted
    to or the policy does not allow the submission, neither the database nor the
    drafts change.  When it is allowed and everything can be written, the table
    has one more row, with a new id, for the exercise and the students the policy
    has found, all other rows keep theirs, the draft of the visitor is not active,
    and enrollments change only by the enrollment of the visitor after an
    enrollment exercise, never for course staff, whatever grading and the retries
    do and also when they raise.  When a write fails, nothing changes, or, as the
    writes are not a transaction, exactly one row stays: a new one that nobody has
    submitted if its submitters were refused, and one of the students if the files
    could not be written or the row not be deleted; it is not graded, and the
    draft and the enrollments stay. *)
Theorem exercise_post_outcome exercise visit req (db : Db) drafts :
  NoDup (row_ids db) ->
  let '(r, (db', drafts')) :=
    exercise_post service exercise_of choice fuel exercise visit req (db, drafts) in
  match allowed_students db exercise visit req with
  | None => db' = db /\ drafts' = drafts
  | Some students =>
      if storable req then
        owners db' = (next_id db, exercise_id exercise, students) :: owners db /\
        drafts' = match visit_profile visit with
                  | Some p => unset_submission_draft exercise p drafts
                  | None => drafts
                  end /\
        (enrollments db' = enrollments db \/
         (is_enrollment_exercise exercise = true /\
          is_course_staff (lobj_instance exercise) (enrollments db) (visit_user visit) = false /\
          exists new, enroll_student (lobj_instance exercise) (visit_user visit) false false (enrollments db)
                      = Ret (new, enrollments db')))
      else
        db' = match left_behind req students with
              | Some ps => insert_submission (new_row exercise req db ps) db
              | None => db
              end /\
        drafts' = drafts
  end.
Proof.
  intros Hnd. unfold exercise_post, allowed_students. destruct (visit_submittable visit); cbn [negb]; [|done].
  destruct (submission_check _ _ _ _) as [[[st []] students]|e]; [|done|done].
  rewrite create_from_post_spec. destruct (storable req).
  2: { destruct (match meta_data req with Raise _ => _ | Ret _ => _ end); done. }
  unfold after_create. set (s := new_row exercise req db students).
  set (db1 := insert_submission s db).
  pose proof (keeps_owners_grade_rec service exercise_of choice fuel false exercise s db1
                (inserted_owned exercise req db students Hnd)) as Hg.
  pose proof (keeps_grade_rec (fun db : Db => enrollments db) service exercise_of choice fuel false
                exercise s db1) as Hen.
  assert (Hids : owners db1 = (next_id db, exercise_id exercise, students) :: owners db) by done.
  unfold grade_new. destruct (grade_rec _ _ _ _ _ _ _ db1) as [[page|e] db2]; cbn [snd] in Hg, Hen.
  2: { rewrite Hg, Hids. split; [done|]. split; [done|]. left. by rewrite Hen. }
  destruct (enroll_after _ _ _ _ _) as [db3|e] eqn:E.
  - apply enroll_after_rows in E as [Hr Hen3]. unfold owners at 1. rewrite Hr.
    change (owner <$> submissions db2) with (owners db2). rewrite Hg, Hids. rewrite Hen in Hen3. auto.
  - rewrite Hg, Hids. split; [done|]. split; [done|]. left. by rewrite Hen.
Qed.

(** C6. The two ways in lead to the same database: for a student who is signed in
    and is not staff of the course, the endpoint of the API changes the
    submissions, the enrollments and everything else grading touches exactly as
    the exercise page does. *)
Theorem api_submit_agrees (exercise : BaseExercise) visit p req (db : Db) drafts :
  visit_profile visit = Some p ->
  is_course_staff (lobj_instance exercise) (enrollments db) (visit_user visit) = false ->
  snd (api_submit service exercise_of choice fuel exercise (visit_submittable visit) (visit_user visit)
         p req db)
  = fst (snd (exercise_post service exercise_of choice fuel exercise visit req (db, drafts))).
Proof.
  intros Hp Hstaff. unfold api_submit, exercise_post. destruct (visit_submittable visit); [|done].
  cbn [negb]. rewrite Hp. unfold submission_check.
  destruct (check_submission_allowed _ _ _ _) as [[[st al] students]|e]; [|done]. cbn.
  destruct (bool_decide (st = _)); [|done].
  rewrite create_from_post_spec. destruct (storable req).
  2: { destruct (match meta_data req with Raise _ => _ | Ret _ => _ end); done. }
  unfold after_create. change (enrollments (insert_submission _ db)) with (enrollments db).
  rewrite Hstaff. destruct (grade_new _ _ _ _ _ _ _) as [[page|e] db2]; [|done].
  by destruct (enroll_after _ _ _ _ _).
Qed.

(** The page shows the feedback of a submission only when it is revealed, and only
    of the visitor's own newest submission. *)
Lemma get_page_feedback w drafts exercise visit return_draft return_submission content :
  get_page w drafts exercise visit return_draft return_submission = FeedbackPage content ->
  visit_feedback_revealed visit = true /\
  exists p s, visit_profile visit = Some p /\ content = feedback s /\
    newest (get_submissions_for_student w exercise p false false) = Some s.
Proof.
  unfold get_page. destruct (visit_submittable visit); cbn [negb]; [|done].
  destruct (visit_profile visit) as [p|]; [|done].
  assert (Hs : (if return_submission then
      match newest (get_submissions_for_student w exercise p false false) with
      | Some s => if visit_feedback_revealed visit
                  then if bool_decide (feedback s = ""%string) then BlankPage else FeedbackPage (feedback s)
                  else UngradedPage (sub_id s)
      | None => BlankPage
      end else BlankPage) = FeedbackPage content ->
      visit_feedback_revealed visit = true /\
      exists p0 s, Some p = Some p0 /\ content = feedback s /\
        newest (get_submissions_for_student w exercise p0 false false) = Some s).
  { destruct return_submission; [|done]. destruct (newest _) as [s|] eqn:E; [|done].
    destruct (visit_feedback_revealed visit); [|done]. destruct (bool_decide _); [done|].
    intros [= <-]. eauto 6. }
  destruct return_draft; [|exact Hs]. destruct (get_submission_draft _ _ _); [done|exact Hs].
Qed.
End Theory.

(** ** Data of earlier enrollment exercises *)

(** A submission to an enrollment exercise: its time and its data, [None] if the
    data is not a list of pairs. *)
Record EnrollmentAnswer := mkAnswer {
  answer_time : datetime;
  answer_data : option (list (string * string));
}.

Definition answer_le (a b : EnrollmentAnswer) : Prop := answer_time a <= answer_time b.
#[export] Instance answer_le_dec : RelDecision answer_le.
Proof. intros a b. unfold answer_le. apply _. Defined.

(** src/exercise/submission_models.py: SubmissionManager.get_combined_enrollment_submission_data.
    [answers] are the user's submissions to enrollment exercises.  Sorting the
    pairs by key is stable, so that the values of a key keep their order. *)
Definition get_combined_enrollment_submission_data (answers : list EnrollmentAnswer)
    : gmap string (list string) :=
  foldl (fun data a =>
           match answer_data a with
           | Some pairs => (list_to_map (pairs_to_dict pairs) : gmap string (list string)) ∪ data
           | None => data
           end) ∅ (take 10 (merge_sort answer_le answers)).

(** The ten oldest submissions are read, not the ten latest: an eleventh answer is
    never used. *)
Lemma newest_enrollment_data_ignored :
  let answers := (fun i => mkAnswer i (Some [("name", "old")]%string)) <$> seqZ 1 10 in
  get_combined_enrollment_submission_data (answers ++ [mkAnswer 11 (Some [("name", "new")]%string)])
    !! "name"%string = Some ["old"%string].
Proof. vm_compute. reflexivity. Qed.

(** A key of the result comes from one of the submissions, with the values it has there. *)
Lemma combined_data_from_one answers key vals :
  get_combined_enrollment_submission_data answers !! key = Some vals ->
  exists a pairs, a ∈ answers /\ answer_data a = Some pairs /\
    (list_to_map (pairs_to_dict pairs) : gmap string (list string)) !! key = Some vals.
Proof.
  unfold get_combined_enrollment_submission_data.
  assert (Hin : forall a, a ∈ take 10 (merge_sort answer_le answers) -> a ∈ answers).
  { intros a Ha. rewrite <- (merge_sort_Permutation answer_le answers).
    eapply sublist_subseteq; [apply sublist_take|exact Ha]. }
  revert Hin. generalize (take 10 (merge_sort answer_le answers)) as l. intros l Hin.
  assert (Hgen : forall data : gmap string (list string),
    (forall v, data !! key = Some v -> exists a pairs, a ∈ answers /\ answer_data a = Some pairs /\
       (list_to_map (pairs_to_dict pairs) : gmap string (list string)) !! key = Some v) ->
    foldl (fun data a => match answer_data a with
             | Some pairs => (list_to_map (pairs_to_dict pairs) : gmap string (list string)) ∪ data
             | None => data end) data l !! key = Some vals ->
    exists a pairs, a ∈ answers /\ answer_data a = Some pairs /\
      (list_to_map (pairs_to_dict pairs) : gmap string (list string)) !! key = Some vals).
  { induction l as [|a l IH]; intros data Hd; cbn; [apply Hd|].
    apply IH; [intros b Hb; apply Hin; by right|]. intros v.
    destruct (answer_data a) as [pairs|] eqn:Ea; [|apply Hd].
    rewrite lookup_union_Some_raw. intros [Hv|[_ Hv]]; [|by apply Hd].
    exists a, pairs. split; [apply Hin; by left|done]. }
  apply Hgen. intros v. by rewrite lookup_empty.
Qed.

(** ** Goals of students *)

(** [str.isdigit] on ASCII text. *)
Fixpoint all_digits (s : string) : bool :=
  match s with
  | EmptyString => true
  | String c s => (48 <=? Z.of_nat (Ascii.nat_of_ascii c)) && (Z.of_nat (Ascii.nat_of_ascii c) <=? 57)
                  && all_digits s
  end.
Definition isdigit (s : string) : bool := negb (bool_decide (s = ""%string)) && all_digits s.

(** [s.replace('%', '')] *)
Fixpoint without_percent (s : string) : string :=
  match s with
  | EmptyString => EmptyString
  | String c s => if Ascii.eqb c "%"%char then without_percent s else String c (without_percent s)
  end.

Inductive GoalResponse := NotANumber | LessThanRequired | GoalStored (goal_points : Z).

(** Goals by student and module ([unique_together]). *)
Abbreviation GoalDB := (gmap (Z * Z) Z).

(** src/exercise/views.py: StudentModuleGoalFormView.post lines 709-736.  The column holds integers,
    a float is truncated.  [max_points] is the maximum of the module in the cache. *)
Definition module_goal_post (max_points points_to_pass : Z) (student module : Z) (input : string)
    (goals : GoalDB) : result (GoalResponse * GoalDB) :=
  if negb (isdigit (without_percent input)) && negb (isdigit input) then Ret (NotANumber, goals)
  else
    match int_of_string (without_percent input) with
    | None => Raise ValueError
    | Some n =>
        let points_goal :=
          if bool_decide (without_percent input = input) then inject_Z n
          else fmul (of_int (max_points * n)) (b64 (1#100)) in
        if max_points =? 0 then Raise ZeroDivisionError
        else if negb (Qle_bool (inject_Z points_to_pass) points_goal) then Ret (LessThanRequired, goals)
        else Ret (GoalStored (py_int points_goal), <[(student, module) := py_int points_goal]> goals)
    end.

(** src/exercise/views.py: StudentModuleGoalFormView.delete.  The HTTP status. *)
Definition module_goal_delete (student module : Z) (goals : GoalDB) : Z * GoalDB :=
  match goals !! (student, module) with
  | Some _ => (200, delete (student, module) goals)
  | None => (404, goals)
  end.

Lemma py_int_lower a x : 0 <= a -> (inject_Z a <= x)%Q -> a <= py_int x.
Proof.
  intros Ha H1. unfold Qle, py_int, inject_Z in *. cbn in *. rewrite Z.mul_1_r in *.
  assert (0 <= Qnum x) by nia. rewrite Z.quot_div_nonneg by lia. apply Z.div_le_lower_bound; lia.
Qed.

(** A stored goal reaches the points needed to pass, also after the float has been
    truncated, and no other goal changes. *)
Lemma module_goal_reaches_pass max_points points_to_pass student module input goals r goals' :
  0 <= points_to_pass ->
  module_goal_post max_points points_to_pass student module input goals = Ret (r, goals') ->
  (forall key, key <> (student, module) -> goals' !! key = goals !! key) /\
  match r with
  | GoalStored g => points_to_pass <= g /\ goals' !! (student, module) = Some g
  | _ => goals' = goals
  end.
Proof.
  intros Hp. unfold module_goal_post. destruct (_ && _); [intros [= <- <-]; done|].
  destruct (int_of_string _) as [n|]; [|done]. destruct (max_points =? 0); [done|].
  set (q := if bool_decide _ then _ else _).
  destruct (Qle_bool _ q) eqn:E; cbn; intros [= <- <-]; [|done]. split.
  - intros key Hk. by rewrite lookup_insert_ne.
  - split; [|by rewrite lookup_insert_eq]. apply Qle_bool_iff in E. by apply py_int_lower.
Qed.

(** ** Witnesses and observations *)

Definition example_request : SubmitRequest :=
  mkRequest [("answer", ["42"])]%string (mkPost (JsonGroup None) None) None None true true FilesStored.

Definition example_visit : Visit :=
  mkVisit true (NormalUser (example_user 1 "S")) (Some (example_student 1)) false false true.

Lemma api_submit_agrees_witness :
  let db := staff_db [] in
  snd (api_submit example_service (fun _ => example_exercise 1 2) head 3 (example_exercise 1 2) true
         (NormalUser (example_user 1 "S")) (example_student 1) example_request db)
  = fst (snd (exercise_post example_service (fun _ => example_exercise 1 2) head 3 (example_exercise 1 2)
                example_visit example_request (db, ∅))) /\
  row_ids (snd (api_submit example_service (fun _ => example_exercise 1 2) head 3 (example_exercise 1 2) true
         (NormalUser (example_user 1 "S")) (example_student 1) example_request db)) = [1].
Proof.
  split; [|vm_compute; reflexivity].
  apply (api_submit_agrees example_service (fun _ => example_exercise 1 2) head 3 (example_exercise 1 2)
           example_visit (example_student 1)); vm_compute; reflexivity.
Defined.

Lemma exercise_post_outcome_witness :
  let '(_, (db', _)) :=
    exercise_post example_service (fun _ => example_exercise 1 2) head 3 (example_exercise 1 2)
      example_visit example_request (staff_db [], ∅) in
  owners db' = [(1, 1, [example_student 1])].
Proof.
  pose proof (exercise_post_outcome example_service (fun _ => example_exercise 1 2) head 3
    (example_exercise 1 2) example_visit example_request (staff_db []) ∅) as Ho.
  destruct (exercise_post _ _ _ _ _ _ _ _) as [r [db' drafts']]. vm_compute allowed_students in Ho.
  destruct Ho as (Ho & _ & _); [apply NoDup_nil_2|]. rewrite Ho. vm_compute. reflexivity.
Defined.

(** The endpoint of the API leaves the draft active; the page deactivates it. *)
Lemma page_deactivates_draft :
  let drafts := set_submission_draft (example_exercise 1 2) (example_student 1) [] ∅ in
  get_submission_draft (example_exercise 1 2) (example_student 1)
    (snd (snd (exercise_post example_service (fun _ => example_exercise 1 2) head 3 (example_exercise 1 2)
                 example_visit example_request (staff_db [], drafts)))) = None /\
  get_submission_draft (example_exercise 1 2) (example_student 1) drafts <> None.
Proof. split; vm_compute; [reflexivity|discriminate]. Qed.

(** A failure between the two statements of the creation leaves a row that nobody
    has submitted, and the student is told that nothing was saved. *)
Lemma row_without_submitters :
  let req := mkRequest [("answer", ["42"])]%string (mkPost (JsonGroup None) None) None None true false
               FilesStored in
  let '(r, (db, _)) :=
    exercise_post example_service (fun _ => example_exercise 1 2) head 3 (example_exercise 1 2)
      example_visit req (staff_db [], ∅) in
  r = Ret RenderedEmpty /\ submitters <$> submissions db = [[]].
Proof. vm_compute. split; reflexivity. Qed.

(** A field [__aplus__] that is JSON but no object makes the request fail with an
    exception neither view handles. *)
Lemma aplus_field_not_an_object exercise visit group lang req_fields (db : Db) drafts p enrollment :
  let req := mkRequest req_fields (mkPost JsonNotDict group) lang None true true FilesStored in
  visit_submittable visit = true -> visit_profile visit = Some p ->
  no_submission exercise = false ->
  check_enrollment db exercise p = Ret (inr enrollment) ->
  exercise_post example_service (fun _ => example_exercise 1 2) head 3 exercise visit req (db, drafts)
  = (Raise AttributeError, (db, drafts)).
Proof.
  intros req Hs Hp Hn He. unfold exercise_post. rewrite Hs. cbn [negb]. unfold submission_check.
  rewrite Hp. unfold check_submission_allowed. rewrite Hn. cbn [andb]. rewrite He. reflexivity.
Qed.
