(* ===== verification/DeviationViews.v ===== *)
(** * Granting and removing deviations

    [deviations/viewbase.py] and [deviations/views.py]: adding deviations for every
    pair of selected exercises and submitters, the confirmation of overrides,
    removal, the [dl] tag of students with deadline deviations, and the grouping
    of deviations in the listings.  The views are written once, against the
    interface [DeviationModel] that both kinds of deviation implement. *)

From stdpp Require Import relations.
From Stdlib Require Import QArith.
From S2P Require Import Prelude Lists Helpers Course Deviations Reveal Models Exercise.
#[local] Open Scope Z_scope.

(** ** The interface of a deviation model *)

Class DeviationModel (D Form : Type) `{RuleDeviation D} := {
  unsaved : Z -> Z -> D;
  update_by_form : BaseExercise -> Form -> D -> D;
  is_groupable : D -> D -> bool;
}.

(** What the views rely on: a new object belongs to its pair, and a form changes
    neither the exercise nor the submitter. *)
Class DeviationLaws (D Form : Type) `{DeviationModel D Form} : Prop := {
  unsaved_key : forall e s, dev_exercise (unsaved e s) = e /\ dev_submitter (unsaved e s) = s;
  update_key : forall ex form d,
    dev_exercise (update_by_form ex form d) = dev_exercise d /\
    dev_submitter (update_by_form ex form d) = dev_submitter d;
}.

(** A row of a deviation table; the granter may have been deleted. *)
Record DevRow (D : Type) := mkDevRow {
  row_dev : D;
  row_granter : option Z;
}.
Arguments mkDevRow {D} _ _.
Arguments row_dev {D} _.
Arguments row_granter {D} _.

(** The fields of the form that select exercises and submitters, as ids. *)
Record Selection := mkSelection {
  sel_exercise : list Z;
  sel_module : list Z;
  sel_submitter : list Z;
  sel_tag : list Z;
}.

(** src/deviations/viewbase.py: get_exercises *)
Definition get_exercises (exercises : list BaseExercise) (form : Selection) : list BaseExercise :=
  List.filter (fun e : BaseExercise =>
                 bool_decide (exercise_id e ∈ sel_exercise form)
                 || bool_decide (module_id (course_module e) ∈ sel_module form)) exercises.

(** src/deviations/viewbase.py: get_submitters.  [taggings] are the (tag, user) rows. *)
Definition get_submitters (profiles : list Z) (taggings : list (Z * Z)) (form : Selection) : list Z :=
  List.filter (fun p =>
                 bool_decide (p ∈ sel_submitter form)
                 || existsb (fun '(t, u) => bool_decide (t ∈ sel_tag form) && (u =? p)) taggings)
    profiles.

Section Views.
Context {D Form : Type} `{DeviationModel D Form}.

(** A pair of submitter and exercise has at most one row ([unique_together]). *)
#[local] Abbreviation Table := (gmap (Z * Z) (DevRow D)).

Definition row_key (r : DevRow D) : Z * Z := (dev_submitter (row_dev r), dev_exercise (row_dev r)).

(** Every row is stored under its own pair. *)
Definition keyed (table : Table) : Prop := forall k r, table !! k = Some r -> row_key r = k.

(** The loops over the exercises and the submitters. *)
Definition pairs (exercises : list BaseExercise) (submitters : list Z) : list (BaseExercise * Z) :=
  exercises ≫= fun e => (fun s => (e, s)) <$> submitters.

Definition pair_key (p : BaseExercise * Z) : Z * Z := (snd p, exercise_id (fst p)).

Definition existing (table : Table) (exercises : list BaseExercise) (submitters : list Z) : Table :=
  filter (fun '((s, e), _) => e ∈ (exercise_id <$> exercises) /\ s ∈ submitters) table.

(** A new row for the pair. *)
Definition granted (granter : Z) (form : Form) (p : BaseExercise * Z) : DevRow D :=
  mkDevRow (update_by_form (fst p) form (unsaved (exercise_id (fst p)) (snd p))) (Some granter).

(** Either the rows have been added, or the user is asked which of the existing
    deviations to override. *)
Inductive AddResult := Added (table : Table) | AskOverride.

(** src/deviations/viewbase.py: AddDeviationsView.form_valid *)
Definition add_deviations (granter : Z) (exercises : list BaseExercise) (submitters : list Z)
    (form : Form) (table : Table) : AddResult :=
  if bool_decide (existing table exercises submitters = ∅) then
    Added (foldl (fun t p => <[pair_key p := granted granter form p]> t) table
             (pairs exercises submitters))
  else AskOverride.

(** src/deviations/viewbase.py: OverrideDeviationsView.form_valid lines 146-161.  One turn of the
    loops: [override] are the checked pairs, [found] the existing deviations. *)
Definition override_one (granter : Z) (form : Form) (override : list (Z * Z)) (found : Table)
    (table : Table) (p : BaseExercise * Z) : Table :=
  match found !! pair_key p with
  | Some r =>
      if bool_decide (pair_key p ∈ override) then
        <[pair_key p := mkDevRow (update_by_form (fst p) form (row_dev r)) (Some granter)]> table
      else table
  | None => <[pair_key p := granted granter form p]> table
  end.

(** src/deviations/viewbase.py: OverrideDeviationsView.form_valid *)
Definition override_deviations (granter : Z) (exercises : list BaseExercise) (submitters : list Z)
    (form : Form) (override : list (Z * Z)) (table : Table) : Table :=
  foldl (override_one granter form override (existing table exercises submitters)) table
    (pairs exercises submitters).

(** src/deviations/viewbase.py: RemoveDeviationsView.form_valid.  Returns the number of removed
    rows. *)
Definition remove_deviations (exercises : list BaseExercise) (submitters : list Z) (table : Table)
    : nat * Table :=
  (size (existing table exercises submitters),
   filter (fun '((s, e), _) => ~ (e ∈ (exercise_id <$> exercises) /\ s ∈ submitters)) table).

(** src/deviations/viewbase.py: RemoveDeviationsByIDView.post.  The rows are named by their pairs;
    rows of other course instances are left alone. *)
Definition remove_deviations_by_id (instance_exercises : list Z) (ids : list (Z * Z)) (table : Table)
    : Table :=
  filter (fun '((s, e), _) => ~ ((s, e) ∈ ids /\ e ∈ instance_exercises)) table.

(** ** Listing *)

(** The module of the exercise of a row. *)
Context (module_of : Z -> CourseModule).

(** [order_by('submitter', 'exercise__course_module')]: the order of the modules
    is by their order, closing time and id. *)
Definition sort_key (r : DevRow D) : Z * Z * Z * Z :=
  let m := module_of (dev_exercise (row_dev r)) in
  (dev_submitter (row_dev r), module_order m, closing_time m, module_id m).

Definition key_le (a b : Z * Z * Z * Z) : Prop :=
  let '(a1, a2, a3, a4) := a in
  let '(b1, b2, b3, b4) := b in
  a1 < b1 \/ (a1 = b1 /\ (a2 < b2 \/ (a2 = b2 /\ (a3 < b3 \/ (a3 = b3 /\ a4 <= b4))))).
#[export] Instance key_le_dec : RelDecision key_le.
Proof. intros [[[? ?] ?] ?] [[[? ?] ?] ?]. unfold key_le. apply _. Defined.

Definition row_le (r1 r2 : DevRow D) : Prop := key_le (sort_key r1) (sort_key r2).
#[export] Instance row_le_dec : RelDecision row_le.
Proof. intros r1 r2. unfold row_le. apply _. Defined.

Definition group_key (r : DevRow D) : Z * Z :=
  (dev_submitter (row_dev r), module_id (module_of (dev_exercise (row_dev r)))).

Definition granter_id (r : DevRow D) : result Z :=
  match row_granter r with Some g => Ret g | None => Raise AttributeError end.

(** The loop over a group: [can_group], [show_granter] and the exercises collected
    so far; the last value of the result tells whether the loop was left by [break]. *)
Fixpoint group_loop (first : DevRow D) (first_granter : Z) (can_group show_granter : bool)
    (exercises : list Z) (l : list (DevRow D)) : result (bool * bool * list Z * bool) :=
  match l with
  | [] => Ret (can_group, show_granter, exercises, false)
  | r :: l =>
      let can_group' := can_group && is_groupable (row_dev r) (row_dev first) in
      if negb (is_groupable (row_dev r) (row_dev first)) && negb show_granter
      then Ret (can_group', show_granter, exercises, true)
      else
        let! g := granter_id r in
        let show_granter' := show_granter && (g =? first_granter) in
        if negb (g =? first_granter) && negb can_group'
        then Ret (can_group', show_granter', exercises, true)
        else group_loop first first_granter can_group' show_granter'
               (if bool_decide (dev_exercise (row_dev r) ∈ exercises) then exercises
                else dev_exercise (row_dev r) :: exercises) l
  end.

(** src/deviations/viewbase.py: get_deviation_groups lines 288-313.  One group: whether it can be
    shown as a group, and whether it has one granter.  [exercise_count] is the
    number of exercises of the module. *)
Definition group_flags (exercise_count : nat) (deviations : list (DevRow D)) : result (bool * bool) :=
  match deviations with
  | [] | [_] => Ret (false, true)
  | first :: _ =>
      let! first_granter := granter_id first in
      let! (loop, broken) := group_loop first first_granter true true [] deviations in
      let '(can_group, show_granter, exercises) := loop in
      Ret ((can_group && (broken || (length exercises =? exercise_count)%nat)), show_granter)
  end.

Fixpoint flag_groups (count_of : Z -> nat) (groups : list (Z * Z * list (DevRow D)))
    : result (list (list (DevRow D) * bool * option (Z * Z) * bool)) :=
  match groups with
  | [] => Ret []
  | (submitter, module, deviations) :: groups =>
      let! (can_group, show_granter) := group_flags (count_of module) deviations in
      let! rest := flag_groups count_of groups in
      Ret ((deviations, can_group, if can_group : bool then Some (submitter, module) else None,
            show_granter) :: rest)
  end.

(** src/deviations/viewbase.py: get_deviation_groups.  [count_of] is the number of exercises of a
    module. *)
Definition get_deviation_groups (count_of : Z -> nat) (all_deviations : list (DevRow D))
    : result (list (list (DevRow D) * bool * option (Z * Z) * bool)) :=
  flag_groups count_of (groupby group_key (merge_sort row_le all_deviations)).

End Views.

(** ** The two kinds of deviation *)

(** The fields of the deadline form: a new date or a number of seconds, the
    browser's time zone and the penalty. *)
Record DeadlineForm := mkDeadlineForm {
  form_new_date : option datetime;
  form_seconds : Z;
  form_timezone : string;
  form_no_penalty : bool;
}.

Section Deadlines.
Context (utcoffset : string -> option (datetime -> Z)) (localize : datetime -> datetime).

#[export] Instance deadline_model : DeviationModel DeadlineRuleDeviation DeadlineForm := {|
  unsaved e s := mkDeadlineDeviation e s 0 true;
  update_by_form ex form :=
    deadline_update_by_form utcoffset localize (closing_time (course_module ex))
      (form_new_date form) (form_seconds form) (form_timezone form) (form_no_penalty form);
  is_groupable := deadline_is_groupable;
|}.

#[export] Instance deadline_laws : DeviationLaws DeadlineRuleDeviation DeadlineForm.
Proof. split; intros; done. Qed.

(** The deadline deviations, the [dl] tag of the course instance if it exists, and
    the (tag, user) rows. *)
Record DlState := mkDl {
  dl_table : gmap (Z * Z) (DevRow DeadlineRuleDeviation);
  dl_tag : option Z;
  user_taggings : list (Z * Z);
}.

(** [UserTagging.objects.get_or_create] *)
Definition tag_user (tag : Z) (taggings : list (Z * Z)) (user : Z) : list (Z * Z) :=
  if bool_decide ((tag, user) ∈ taggings) then taggings else (taggings ++ [(tag, user)])%list.

(** src/deviations/views.py: AddDeadlinesView.form_valid.  [new_tag] is the id a created tag gets.
    The returned flag tells whether the user is asked about overrides. *)
Definition add_deadlines (new_tag granter : Z) (all_exercises : list BaseExercise) (profiles : list Z)
    (sel : Selection) (form : DeadlineForm) (st : DlState) : bool * DlState :=
  let tag := default new_tag (dl_tag st) in
  let taggings := foldl (tag_user tag) (user_taggings st)
                    (get_submitters profiles (user_taggings st) sel) in
  match add_deviations granter (get_exercises all_exercises sel)
          (get_submitters profiles taggings sel) form (dl_table st) with
  | Added table => (false, mkDl table (Some tag) taggings)
  | AskOverride => (true, mkDl (dl_table st) (Some tag) taggings)
  end.

(** src/deviations/views.py: OverrideDeadlinesView.  The selection and the form come from the
    session. *)
Definition override_deadlines (granter : Z) (all_exercises : list BaseExercise) (profiles : list Z)
    (sel : Selection) (form : DeadlineForm) (override : list (Z * Z)) (st : DlState) : DlState :=
  mkDl (override_deviations granter (get_exercises all_exercises sel)
          (get_submitters profiles (user_taggings st) sel) form override (dl_table st))
    (dl_tag st) (user_taggings st).

(** src/deviations/viewbase.py: cleanup_dl_usertags *)
Definition cleanup_dl_usertags (instance_exercises : list Z) (submitter_ids : list Z) (st : DlState)
    : DlState :=
  match dl_tag st with
  | None => st
  | Some tag =>
      let has_remaining s :=
        existsb (fun '((s', e), _) => (s' =? s) && bool_decide (e ∈ instance_exercises))
          (map_to_list (dl_table st)) in
      mkDl (dl_table st) (dl_tag st)
        (List.filter (fun '(t, u) => negb ((t =? tag) && bool_decide (u ∈ submitter_ids)
                                           && negb (has_remaining u)))
           (user_taggings st))
  end.

(** The submitters of some rows. *)
Definition submitter_ids (table : gmap (Z * Z) (DevRow DeadlineRuleDeviation)) : list Z :=
  remove_dups ((fun '((s, _), _) => s) <$> map_to_list table).

(** src/deviations/views.py: RemoveDeadlinesView.form_valid *)
Definition remove_deadlines (instance_exercises : list Z) (all_exercises : list BaseExercise)
    (profiles : list Z) (sel : Selection) (st : DlState) : DlState :=
  let exercises := get_exercises all_exercises sel in
  let submitters := get_submitters profiles (user_taggings st) sel in
  let ids := submitter_ids (existing (dl_table st) exercises submitters) in
  cleanup_dl_usertags instance_exercises ids
    (mkDl (snd (remove_deviations exercises submitters (dl_table st))) (dl_tag st) (user_taggings st)).

(** src/deviations/views.py: RemoveDeadlinesByIDView.post *)
Definition remove_deadlines_by_id (instance_exercises : list Z) (ids : list (Z * Z)) (st : DlState)
    : DlState :=
  let named := filter (fun '((s, e), _) => (s, e) ∈ ids /\ e ∈ instance_exercises) (dl_table st) in
  cleanup_dl_usertags instance_exercises (submitter_ids named)
    (mkDl (remove_deviations_by_id instance_exercises ids (dl_table st)) (dl_tag st) (user_taggings st)).

End Deadlines.

#[export] Instance submissions_model : DeviationModel MaxSubmissionsRuleDeviation Z := {|
  unsaved e s := mkSubmissionsDeviation e s 0;
  update_by_form _ := submissions_update_by_form;
  is_groupable := submissions_is_groupable;
|}.

#[export] Instance submissions_laws : DeviationLaws MaxSubmissionsRuleDeviation Z.
Proof. split; intros; done. Qed.

(** ** Every selected pair, and no other *)

Section Pairs.
Context {D Form : Type} `{DeviationLaws D Form}.
#[local] Abbreviation Table := (gmap (Z * Z) (DevRow D)).
Implicit Types (table : Table) (exercises : list BaseExercise) (submitters : list Z).

Definition put (g : BaseExercise * Z -> option (DevRow D)) table (p : BaseExercise * Z) : Table :=
  match g p with
  | Some r => <[pair_key p := r]> table
  | None => table
  end.

Lemma foldl_put_out g ps table k :
  k ∉ pair_key <$> ps -> foldl (put g) table ps !! k = table !! k.
Proof.
  revert table. induction ps as [|p ps IH]; intros table; cbn; [done|].
  rewrite not_elem_of_cons. intros [Hk Hps]. rewrite IH by done. unfold put.
  destruct (g p); [|done]. by rewrite lookup_insert_ne.
Qed.

Lemma foldl_put_in g ps table p :
  NoDup (pair_key <$> ps) -> p ∈ ps ->
  foldl (put g) table ps !! pair_key p = match g p with Some r => Some r | None => table !! pair_key p end.
Proof.
  revert table. induction ps as [|q ps IH]; intros table; cbn; [intros _ Hp; by apply not_elem_of_nil in Hp|].
  rewrite NoDup_cons. intros [Hq Hnd] [->|Hp]%elem_of_cons.
  - rewrite foldl_put_out by done. unfold put. destruct (g q); [by rewrite lookup_insert_eq|done].
  - rewrite IH by done. destruct (g p) eqn:Eg; [done|]. unfold put. destruct (g q); [|done].
    rewrite lookup_insert_ne; [done|]. intros E. apply Hq. rewrite E. by apply list_elem_of_fmap_2.
Qed.

Lemma elem_of_pairs exercises submitters e s :
  (e, s) ∈ pairs exercises submitters <-> e ∈ exercises /\ s ∈ submitters.
Proof.
  unfold pairs. rewrite list_elem_of_bind. split.
  - intros (e' & (s' & [= -> ->] & Hs)%list_elem_of_fmap & He). done.
  - intros [He Hs]. exists e. split; [|done]. apply list_elem_of_fmap. eauto.
Qed.

Lemma pairs_keys exercises submitters :
  NoDup (exercise_id <$> exercises) -> NoDup submitters ->
  NoDup (pair_key <$> pairs exercises submitters).
Proof.
  intros He Hs. unfold pairs. induction exercises as [|e l IH]; [constructor|].
  change ((e :: l) ≫= fun e => (fun s => (e, s)) <$> submitters)
    with (((fun s => (e, s)) <$> submitters) ++ (l ≫= fun e => (fun s => (e, s)) <$> submitters))%list.
  rewrite fmap_cons, NoDup_cons in He. destruct He as [He Hl].
  rewrite fmap_app. apply NoDup_app. split_and!.
  - rewrite <- list_fmap_compose. apply NoDup_fmap_2; [|done]. by intros s1 s2 [= ->].
  - intros k Hk1 Hk2. apply list_elem_of_fmap in Hk1 as ([e1 s1] & -> & Hk1).
    apply list_elem_of_fmap in Hk1 as (s & [= -> ->] & _).
    apply list_elem_of_fmap in Hk2 as ([e2 s2] & E & Hk2).
    apply (elem_of_pairs l submitters) in Hk2 as [Hk2 _]. injection E as -> E.
    cbn in E. apply He. rewrite E. by apply list_elem_of_fmap_2.
  - by apply IH.
Qed.

Lemma existing_lookup table exercises submitters e s :
  e ∈ exercises -> s ∈ submitters ->
  existing table exercises submitters !! (s, exercise_id e) = table !! (s, exercise_id e).
Proof.
  intros He Hs. unfold existing. destruct (table !! (s, exercise_id e)) as [r|] eqn:E.
  - apply map_lookup_filter_Some. split; [done|]. split; [by apply list_elem_of_fmap_2|done].
  - apply map_lookup_filter_None. by left.
Qed.

(** Whether a key is one of the selected pairs. *)
Definition selected exercises submitters (k : Z * Z) : Prop :=
  k.2 ∈ (exercise_id <$> exercises) /\ k.1 ∈ submitters.

Lemma not_selected exercises submitters k :
  ~ selected exercises submitters k -> k ∉ pair_key <$> pairs exercises submitters.
Proof.
  intros Hn ([e s] & -> & Hp)%list_elem_of_fmap. apply elem_of_pairs in Hp as [He Hs].
  apply Hn. split; cbn; [by apply list_elem_of_fmap_2|done].
Qed.

(** What the loop stores for a pair, if anything. *)
Definition override_row (granter : Z) (form : Form) (override : list (Z * Z)) (found : Table) (p : BaseExercise * Z)
    : option (DevRow D) :=
  match found !! pair_key p with
  | Some r => if bool_decide (pair_key p ∈ override)
              then Some (mkDevRow (update_by_form (fst p) form (row_dev r)) (Some granter)) else None
  | None => Some (granted granter form p)
  end.

Lemma override_fold granter exercises submitters (form : Form) override table :
  override_deviations granter exercises submitters form override table
  = foldl (put (override_row granter form override (existing table exercises submitters))) table
      (pairs exercises submitters).
Proof.
  unfold override_deviations. generalize (existing table exercises submitters) as found. intros found.
  revert table. induction (pairs exercises submitters) as [|p ps IH]; intros table; cbn; [done|].
  rewrite IH. f_equal. unfold put, override_one, override_row.
  destruct (found !! pair_key p); [by destruct (bool_decide _)|done].
Qed.

Lemma granted_key granter (form : Form) e s : row_key (granted granter form (e, s)) = (s, exercise_id e).
Proof.
  unfold row_key, granted. cbn. destruct (update_key e form (unsaved (exercise_id e) s)) as [-> ->].
  by destruct (unsaved_key (exercise_id e) s) as [-> ->].
Qed.

(** Confirming an override acts on each selected pair of exercise and
    submitter and on no other row: a pair without a deviation gets the one of
    the form; a pair with one keeps it, granter included, unless its box was
    checked, and is then updated by the form; every other deviation, also of
    other courses, stays as it is, and every row stays under its own pair. *)
Theorem override_outcome granter exercises submitters (form : Form) override table :
  NoDup (exercise_id <$> exercises) -> NoDup submitters ->
  let table' := override_deviations granter exercises submitters form override table in
  (forall e s, e ∈ exercises -> s ∈ submitters ->
     table' !! (s, exercise_id e) = Some
       (match table !! (s, exercise_id e) with
        | Some r => if decide ((s, exercise_id e) ∈ override)
                    then mkDevRow (update_by_form e form (row_dev r)) (Some granter) else r
        | None => granted granter form (e, s)
        end)) /\
  (forall k, ~ selected exercises submitters k -> table' !! k = table !! k) /\
  (keyed table -> keyed table').
Proof.
  intros He Hs table'.
  assert (Hin : forall e s, e ∈ exercises -> s ∈ submitters -> table' !! (s, exercise_id e) = Some
       (match table !! (s, exercise_id e) with
        | Some r => if decide ((s, exercise_id e) ∈ override)
                    then mkDevRow (update_by_form e form (row_dev r)) (Some granter) else r
        | None => granted granter form (e, s)
        end)).
  { intros e s Hee Hss. unfold table'. rewrite override_fold.
    rewrite (foldl_put_in _ _ table (e, s)) by (rewrite ?elem_of_pairs; auto using pairs_keys).
    unfold override_row, pair_key. cbn [fst snd]. rewrite existing_lookup by done.
    destruct (table !! (s, exercise_id e)); [|done]. case_bool_decide; destruct (decide _); done. }
  assert (Hout : forall k, ~ selected exercises submitters k -> table' !! k = table !! k).
  { intros k Hk. unfold table'. rewrite override_fold. apply foldl_put_out. by apply not_selected. }
  split; [exact Hin|]. split; [exact Hout|].
  intros Hkey k r Hr. destruct (decide (k.2 ∈ (exercise_id <$> exercises) /\ k.1 ∈ submitters)) as [Hk|Hk].
  - destruct k as [s i]. cbn in Hk. destruct Hk as [(e & -> & Hee)%list_elem_of_fmap Hss].
    rewrite (Hin e s Hee Hss) in Hr. injection Hr as <-.
    destruct (table !! (s, exercise_id e)) as [r|] eqn:E; [|apply granted_key].
    destruct (decide _); [|by apply Hkey]. rewrite <- (Hkey _ _ E). unfold row_key. cbn.
    by destruct (update_key e form (row_dev r)) as [-> ->].
  - apply Hkey. rewrite <- (Hout k); done.
Qed.

(** Without existing deviations, adding gives every selected pair the deviation of
    the form and touches nothing else; otherwise nothing is stored. *)
Lemma add_deviations_spec granter exercises submitters (form : Form) table :
  NoDup (exercise_id <$> exercises) -> NoDup submitters ->
  match add_deviations granter exercises submitters form table with
  | Added table' =>
      (forall e s, e ∈ exercises -> s ∈ submitters ->
         table !! (s, exercise_id e) = None /\
         table' !! (s, exercise_id e) = Some (granted granter form (e, s))) /\
      (forall k, ~ selected exercises submitters k -> table' !! k = table !! k)
  | AskOverride => exists e s r, e ∈ exercises /\ s ∈ submitters /\ table !! (s, exercise_id e) = Some r
  end.
Proof.
  intros He Hs. unfold add_deviations. case_bool_decide as Hex.
  - split.
    + intros e s Hee Hss. split.
      * rewrite <- (existing_lookup table exercises submitters) by done. by rewrite Hex.
      * change (foldl _ table (pairs exercises submitters))
          with (foldl (put (fun p => Some (granted granter form p))) table (pairs exercises submitters)).
        by rewrite (foldl_put_in _ _ _ (e, s)) by (rewrite ?elem_of_pairs; auto using pairs_keys).
    + intros k Hk. change (foldl _ table (pairs exercises submitters))
        with (foldl (put (fun p => Some (granted granter form p))) table (pairs exercises submitters)).
      apply foldl_put_out. by apply not_selected.
  - apply map_choose in Hex as ([s i] & r & Hr). unfold existing in Hr.
    apply map_lookup_filter_Some in Hr as (Hr & (e & -> & Hee)%list_elem_of_fmap & Hss). eauto 8.
Qed.
End Pairs.

(** ** The tag of students with deadline deviations *)

Section Tags.
Context (utcoffset : string -> option (datetime -> Z)) (localize : datetime -> datetime).

Definition tagged (st : DlState) (s : Z) : Prop :=
  exists tag, dl_tag st = Some tag /\ (tag, s) ∈ user_taggings st.

(** Every student with a deadline deviation in the course instance has the tag. *)
Definition dl_complete (instance_exercises : list Z) (st : DlState) : Prop :=
  forall s e r, dl_table st !! (s, e) = Some r -> e ∈ instance_exercises -> tagged st s.

(** What the views do to the deadline deviations.  A confirmation is not stale: the
    submitters of its session have been tagged when the confirmation was asked. *)
Inductive dl_step (instance_exercises : list Z) : DlState -> DlState -> Prop :=
| step_add new_tag granter exercises profiles sel form st :
    dl_step instance_exercises st
      (snd (add_deadlines utcoffset localize new_tag granter exercises profiles sel form st))
| step_override granter exercises profiles sel form override st :
    (forall s, s ∈ get_submitters profiles (user_taggings st) sel -> tagged st s) ->
    dl_step instance_exercises st
      (override_deadlines utcoffset localize granter exercises profiles sel form override st)
| step_remove exercises profiles sel st :
    dl_step instance_exercises st (remove_deadlines instance_exercises exercises profiles sel st)
| step_remove_by_id ids st :
    dl_step instance_exercises st (remove_deadlines_by_id instance_exercises ids st).

Lemma foldl_put_cases {D} (g : BaseExercise * Z -> option (DevRow D)) (exercises : list BaseExercise)
    (submitters : list Z) (table : gmap (Z * Z) (DevRow D)) s e r :
  foldl (put g) table (pairs exercises submitters) !! (s, e) = Some r ->
  table !! (s, e) = Some r \/ s ∈ submitters.
Proof.
  intros Hr. destruct (decide (s ∈ submitters)) as [|Hs]; [by right|left].
  rewrite foldl_put_out in Hr; [done|]. apply not_selected. by intros [_ Hs'].
Qed.

Lemma foldl_tag_user tag l taggings t u :
  (t, u) ∈ foldl (tag_user tag) taggings l <-> (t, u) ∈ taggings \/ (t = tag /\ u ∈ l).
Proof.
  revert taggings. induction l as [|x l IH]; intros taggings; cbn.
  - split; [by left|]. intros [?|[_ Hu]]; [done|by apply not_elem_of_nil in Hu].
  - rewrite IH, elem_of_cons. unfold tag_user. case_bool_decide as Hin.
    + naive_solver.
    + rewrite elem_of_app, list_elem_of_singleton. naive_solver.
Qed.

(** Tagging the selected submitters does not select anybody else. *)
Lemma get_submitters_tagged profiles taggings sel tag s :
  s ∈ get_submitters profiles (foldl (tag_user tag) taggings (get_submitters profiles taggings sel)) sel
  <-> s ∈ get_submitters profiles taggings sel.
Proof.
  assert (Hspec : forall tg p, p ∈ get_submitters profiles tg sel <->
            p ∈ profiles /\ (p ∈ sel_submitter sel \/ exists t, t ∈ sel_tag sel /\ (t, p) ∈ tg)).
  { intros tg p. unfold get_submitters.
    rewrite list_elem_of_In, filter_In, <- list_elem_of_In, orb_true_iff, bool_decide_eq_true, existsb_exists.
    split.
    - intros [Hp [Hs|([t u] & Hin & Hb)]]; [auto|]. b2p. split; [done|right]. exists t.
      subst. split; [done|by apply list_elem_of_In].
    - intros [Hp [Hs|(t & Ht & Hin)]]; [auto|]. split; [done|right]. exists (t, p).
      split; [by apply list_elem_of_In|]. by rewrite bool_decide_eq_true_2, Z.eqb_refl. }
  rewrite (Hspec (foldl _ _ _) s), (Hspec taggings s). setoid_rewrite foldl_tag_user. split.
  - intros [Hp [Hs|(t & Ht & [Hin|[-> Hu]])]]; [auto|eauto|]. by apply Hspec in Hu as [_ ?].
  - intros [Hp [Hs|(t & Ht & Hin)]]; eauto 6.
Qed.

Lemma cleanup_tagged inst ids st s :
  (exists e r, dl_table st !! (s, e) = Some r /\ e ∈ inst) \/ s ∉ ids ->
  tagged st s -> tagged (cleanup_dl_usertags inst ids st) s.
Proof.
  intros Hkeep (tag & Htag & Hin). unfold tagged, cleanup_dl_usertags. rewrite Htag. cbn.
  exists tag. split; [done|]. apply list_elem_of_In, filter_In. split; [by apply list_elem_of_In|].
  rewrite Z.eqb_refl. cbn. destruct Hkeep as [(e & r & Hr & He)|Hn].
  - rewrite (proj2 (existsb_exists _ _)); [by rewrite andb_false_r|].
    exists ((s, e), r). split; [by apply list_elem_of_In, elem_of_map_to_list|].
    by rewrite Z.eqb_refl, bool_decide_eq_true_2.
  - by rewrite bool_decide_eq_false_2.
Qed.

Lemma remove_complete inst ids st table :
  (forall k r, table !! k = Some r -> dl_table st !! k = Some r) ->
  dl_complete inst st ->
  dl_complete inst (cleanup_dl_usertags inst ids (mkDl table (dl_tag st) (user_taggings st))).
Proof.
  intros Hsub Hc s e r Hr He. set (st1 := mkDl _ _ _) in *.
  assert (Ht : dl_table (cleanup_dl_usertags inst ids st1) = table)
    by (unfold cleanup_dl_usertags; by destruct (dl_tag st1)).
  rewrite Ht in Hr. apply cleanup_tagged; [left; eauto|]. eapply Hc; eauto.
Qed.

Lemma dl_complete_step inst st st' : dl_step inst st st' -> dl_complete inst st -> dl_complete inst st'.
Proof.
  intros Hst Hc s e r Hr He. destruct Hst.
  - unfold add_deadlines in *. set (tag := default new_tag (dl_tag st)) in *.
    set (tg := foldl _ _ _) in *.
    assert (Hold : tagged st s -> tagged (mkDl (dl_table st) (Some tag) tg) s).
    { intros (t & Ht & Hin). exists t. unfold tag. rewrite Ht. split; [done|]. cbn.
      apply foldl_tag_user. auto. }
    unfold add_deviations in *. destruct (bool_decide _); cbn in Hr; [|apply Hold; by eapply Hc].
    apply (foldl_put_cases (fun p => Some (granted (H0 := deadline_model utcoffset localize) granter form p)))
      in Hr as [Hr|Hs]; [apply Hold; by eapply Hc|].
    exists tag. split; [done|]. cbn. apply foldl_tag_user. right. split; [done|].
    by apply get_submitters_tagged in Hs.
  - unfold override_deadlines in *. cbn in Hr. rewrite override_fold in Hr.
    apply foldl_put_cases in Hr as [Hr|Hs]; [by eapply Hc|].
    match goal with Hv : forall s, _ -> tagged st s |- _ => exact (Hv s Hs) end.
  - eapply remove_complete; [|exact Hc|exact Hr|exact He]. intros k r0 Hk.
    by apply map_lookup_filter_Some in Hk as [Hk _].
  - eapply remove_complete; [|exact Hc|exact Hr|exact He]. intros k r0 Hk.
    by apply map_lookup_filter_Some in Hk as [Hk _].
Qed.

(** Every student who has a deadline deviation in a course instance carries
    its tag, after any sequence of additions, confirmed overrides and removals:
    additions tag before they store, and a removal takes the tag only from a
    student without any deviation left. *)
Theorem dl_tag_invariant inst st0 st :
  dl_complete inst st0 -> rtc (dl_step inst) st0 st -> dl_complete inst st.
Proof. intros Hc Hs. induction Hs; eauto using dl_complete_step. Qed.
End Tags.

Section Groups.
Context {D Form : Type} `{DeviationModel D Form} (module_of : Z -> CourseModule).
Implicit Types (r first : DevRow D) (l : list (DevRow D)).

Definition same_as first r : bool := is_groupable (row_dev r) (row_dev first).
Definition granted_by (g : Z) r : bool := bool_decide (row_granter r = Some g).

(** The early exits of the loop do not change what it finds. *)
Lemma group_loop_spec first fg : forall l cg sg exs,
  Forall (fun r => is_Some (row_granter r)) l -> NoDup exs ->
  exists exs' broken,
    group_loop first fg cg sg exs l
    = Ret (cg && forallb (same_as first) l, sg && forallb (granted_by fg) l, exs', broken) /\
    (broken = true -> cg && forallb (same_as first) l = false) /\
    (broken = false -> NoDup exs' /\
       forall e, e ∈ exs' <-> e ∈ exs \/ exists r, r ∈ l /\ dev_exercise (row_dev r) = e).
Proof.
  induction l as [|r l IH]; intros cg sg exs Hg Hnd; cbn.
  { exists exs, false. rewrite !andb_true_r. split; [done|]. split; [done|]. intros _. split; [done|].
    intros e. split; [by left|]. intros [?|(r & Hr & _)]; [done|by apply not_elem_of_nil in Hr]. }
  apply Forall_cons in Hg as [[g Eg] Hg]. fold (same_as first r).
  assert (Hgr : granted_by fg r = (g =? fg)).
  { unfold granted_by. rewrite Eg. case_bool_decide as Hb; symmetry; [injection Hb as ->; lia|].
    apply Z.eqb_neq. congruence. }
  destruct (negb (same_as first r) && negb sg) eqn:E1.
  { apply andb_true_iff in E1 as [E1 E2]. apply negb_true_iff in E1, E2. rewrite E1, E2. cbn.
    rewrite andb_false_r. exists exs, true. done. }
  unfold granter_id. rewrite Eg. cbn. rewrite Hgr.
  destruct (negb (g =? fg) && negb (cg && same_as first r)) eqn:E2.
  { apply andb_true_iff in E2 as [E2 E3]. apply negb_true_iff in E2, E3. rewrite E2, E3.
    rewrite (andb_assoc cg), E3. cbn. rewrite andb_false_r. exists exs, true. done. }
  set (exs1 := if bool_decide _ then _ else _).
  assert (Hexs1 : NoDup exs1 /\ forall e, e ∈ exs1 <-> e ∈ exs \/ dev_exercise (row_dev r) = e).
  { unfold exs1. case_bool_decide as Hin; [split; [done|]; naive_solver|].
    split; [by constructor|]. intros e. rewrite elem_of_cons. naive_solver. }
  destruct Hexs1 as [Hnd1 Hin1].
  destruct (IH (cg && same_as first r) (sg && (g =? fg)) exs1 Hg Hnd1) as (exs' & broken & E & Hb & Hn).
  exists exs', broken. rewrite E, !andb_assoc. split; [done|]. split; [done|].
  intros Hbf. destruct (Hn Hbf) as [Hnd' Hin']. split; [done|]. intros e. rewrite Hin', Hin1.
  setoid_rewrite elem_of_cons. naive_solver.
Qed.

(** When a list of deviations may be shown as one row: there are several, they are
    the same, and no exercise of the module is missing. *)
Definition groupable (module_exercises : list Z) l : Prop :=
  (2 <= length l)%nat /\
  (forall first, head l = Some first -> Forall (fun r => same_as first r = true) l) /\
  (forall e, e ∈ module_exercises -> exists r, r ∈ l /\ dev_exercise (row_dev r) = e).

Lemma same_length_covers (l1 l2 : list Z) :
  NoDup l1 -> NoDup l2 -> (forall e, e ∈ l1 -> e ∈ l2) ->
  length l1 = length l2 <-> forall e, e ∈ l2 -> e ∈ l1.
Proof.
  rewrite !NoDup_ListNoDup. intros H1 H2 Hincl.
  assert (Hi : incl l1 l2) by (intros x; rewrite <- !list_elem_of_In; apply Hincl). split.
  - intros Hlen e. rewrite !list_elem_of_In. apply (NoDup_length_incl H1); [lia|done].
  - intros Hc. apply Nat.le_antisymm; apply NoDup_incl_length; try done.
    intros x. rewrite <- !list_elem_of_In. apply Hc.
Qed.

Lemma group_flags_spec module_exercises l :
  NoDup module_exercises ->
  Forall (fun r => is_Some (row_granter r) /\ dev_exercise (row_dev r) ∈ module_exercises) l ->
  exists can_group show_granter,
    group_flags (length module_exercises) l = Ret (can_group, show_granter) /\
    (can_group = true <-> groupable module_exercises l) /\
    (show_granter = true <->
       (length l < 2)%nat \/ exists g, Forall (fun r => row_granter r = Some g) l).
Proof.
  intros Hnd Hl. destruct l as [|first [|second l]].
  - exists false, true. split; [done|]. split; [|cbn; split; [left; lia|done]].
    split; [done|]. intros [Hlen _]. cbn in Hlen. lia.
  - exists false, true. split; [done|]. split; [|cbn; split; [left; lia|done]].
    split; [done|]. intros [Hlen _]. cbn in Hlen. lia.
  - set (all := first :: second :: l) in *.
    assert (Hg : Forall (fun r => is_Some (row_granter r)) all)
      by (eapply Forall_impl; [exact Hl|]; by intros r [? _]).
    assert (Hfirst : is_Some (row_granter first)) by (by inversion Hg).
    destruct Hfirst as [fg Efg].
    destruct (group_loop_spec first fg all true true [] Hg (NoDup_nil_2)) as (exs & broken & E & Hb & Hn).
    exists (forallb (same_as first) all && (broken || (length exs =? length module_exercises)%nat)),
      (forallb (granted_by fg) all).
    split; [unfold group_flags, all, granter_id; fold all; rewrite Efg; cbn [rbind]; by rewrite E|].
    split.
    + rewrite andb_true_iff, orb_true_iff, forallb_forall, Nat.eqb_eq.
      assert (Hcover : broken = false -> length exs = length module_exercises <->
                forall e, e ∈ module_exercises -> exists r, r ∈ all /\ dev_exercise (row_dev r) = e).
      { intros Hbf. destruct (Hn Hbf) as [Hnde Hin]. rewrite (same_length_covers _ _ Hnde Hnd).
        - split; intros Hc e He.
          + by apply Hc, Hin in He as [Hx|?]; [apply not_elem_of_nil in Hx|].
          + apply Hin. right. by apply Hc.
        - intros e [Hx|(r & Hr & <-)]%Hin; [by apply not_elem_of_nil in Hx|].
          rewrite Forall_forall in Hl. by apply Hl. }
      split.
      * intros [Hall Hlen]. split; [cbn; lia|]. split.
        { intros f [= <-]. apply Forall_forall. intros r Hr. by apply Hall, list_elem_of_In. }
        destruct broken; [|apply Hcover; [done|by destruct Hlen]].
        exfalso. specialize (Hb eq_refl). cbn [andb] in Hb.
        by rewrite (proj2 (forallb_forall _ _) Hall) in Hb.
      * intros (_ & Hall & Hcov). specialize (Hall first eq_refl). rewrite Forall_forall in Hall.
        split; [intros r Hr; by apply Hall, list_elem_of_In|].
        destruct broken; [by left|right]. by apply Hcover.
    + rewrite forallb_forall. split.
      * intros Hall. right. exists fg. apply Forall_forall. intros r Hr.
        apply list_elem_of_In, Hall in Hr. unfold granted_by in Hr. by b2p.
      * intros [Hlt|[g Hgs]]; [cbn in Hlt; lia|]. rewrite Forall_forall in Hgs.
        intros r Hr. unfold granted_by. apply bool_decide_eq_true.
        rewrite (Hgs r), <- (Hgs first); [done|by left|by apply list_elem_of_In].
Qed.

Lemma flag_groups_spec count_of (groups : list (Z * Z * list (DevRow D))) :
  (forall s m ds, (s, m, ds) ∈ groups -> exists c g, group_flags (count_of m) ds = Ret (c, g)) ->
  exists out, flag_groups count_of groups = Ret out /\
    (fun '(ds, _, _, _) => ds) <$> out = groups.*2 /\
    forall ds c i g, (ds, c, i, g) ∈ out -> exists s m, (s, m, ds) ∈ groups /\
      group_flags (count_of m) ds = Ret (c, g) /\ i = if c : bool then Some (s, m) else None.
Proof.
  induction groups as [|[[s m] ds] groups IH]; intros Hf; cbn.
  { exists []. split; [done|]. split; [done|]. intros ds c i g Hin. by apply not_elem_of_nil in Hin. }
  destruct (Hf s m ds) as (c & g & E); [by left|]. rewrite E. cbn [rbind].
  destruct IH as (out & Eo & Hm & Ho); [intros s' m' ds' Hin; apply (Hf s'); by right|].
  rewrite Eo. cbn [rbind]. eexists. split; [reflexivity|]. split; [cbn; by rewrite Hm|].
  intros ds' c' i' g' [[= -> -> -> ->]|Hin]%elem_of_cons.
  - exists s, m. split; [by left|done].
  - destruct (Ho _ _ _ _ Hin) as (s' & m' & Hin' & ?). exists s', m'. split; [by right|done].
Qed.

Lemma key_le_convex (same_module : forall e1 e2,
    module_id (module_of e1) = module_id (module_of e2) -> module_of e1 = module_of e2) x y z :
  row_le module_of x y -> row_le module_of y z ->
  group_key module_of x = group_key module_of z -> group_key module_of x = group_key module_of y.
Proof.
  unfold row_le, group_key, sort_key, key_le. intros Hxy Hyz [= Es Em]. rewrite Es in Hxy.
  rewrite (same_module _ _ Em) in Hxy. f_equal; lia.
Qed.

#[local] Instance row_le_trans : Transitive (row_le module_of).
Proof. intros x y z. unfold row_le, key_le, sort_key. lia. Qed.
#[local] Instance row_le_total : Total (row_le module_of).
Proof. intros x y. unfold row_le, key_le, sort_key. lia. Qed.

(** The listing of deviations loses and repeats nothing: when every deviation
    still has a granter, the groups partition the deviations, one group for each
    student and module with exactly their deviations; a group is shown as one
    row exactly when it has at least two deviations, all equal, and they cover
    every exercise of the module, whichever way the loop was left; and one
    granter is named only if all deviations have the same one. *)
Theorem deviation_groups_spec (exercises_of : Z -> list Z) rows :
  (forall e1 e2, module_id (module_of e1) = module_id (module_of e2) -> module_of e1 = module_of e2) ->
  (forall m, NoDup (exercises_of m)) ->
  Forall (fun r => is_Some (row_granter r) /\
            dev_exercise (row_dev r) ∈ exercises_of (group_key module_of r).2) rows ->
  exists groups,
    get_deviation_groups module_of (fun m => length (exercises_of m)) rows = Ret groups /\
    concat ((fun '(ds, _, _, _) => ds) <$> groups) ≡ₚ rows /\
    forall ds can_group group_id show_granter, (ds, can_group, group_id, show_granter) ∈ groups ->
      exists s m, (forall r, r ∈ ds <-> r ∈ rows /\ group_key module_of r = (s, m)) /\
        (can_group = true <-> groupable (exercises_of m) ds) /\
        group_id = (if can_group : bool then Some (s, m) else None) /\
        (show_granter = true <->
           (length ds < 2)%nat \/ exists g, Forall (fun r => row_granter r = Some g) ds).
Proof.
  intros Hmod Hnd Hrows. unfold get_deviation_groups.
  set (sorted := merge_sort (row_le module_of) rows).
  assert (Hperm : sorted ≡ₚ rows) by apply merge_sort_Permutation.
  assert (Hgroup : forall s m ds, (s, m, ds) ∈ groupby (group_key module_of) sorted ->
            forall r, r ∈ ds -> r ∈ rows /\ group_key module_of r = (s, m)).
  { intros s m ds Hg r Hr. destruct (groupby_in _ _ _ _ _ Hg Hr) as [Hs Hk]. by rewrite <- Hperm. }
  assert (Hflags : forall s m ds, (s, m, ds) ∈ groupby (group_key module_of) sorted ->
    Forall (fun r => is_Some (row_granter r) /\ dev_exercise (row_dev r) ∈ exercises_of m) ds).
  { intros s m ds Hg. apply Forall_forall. intros r Hr. destruct (Hgroup _ _ _ Hg r Hr) as [Hin Hk].
    rewrite Forall_forall in Hrows. specialize (Hrows r Hin). by rewrite Hk in Hrows. }
  destruct (flag_groups_spec (fun m => length (exercises_of m)) (groupby (group_key module_of) sorted))
    as (out & E & Hout & Hin).
  { intros s m ds Hg. destruct (group_flags_spec _ _ (Hnd m) (Hflags _ _ _ Hg)) as (c & g & Ef & _). eauto. }
  exists out. split; [exact E|]. split; [by rewrite Hout, groupby_concat|].
  intros ds c i g Hd. destruct (Hin _ _ _ _ Hd) as (s & m & Hg & Ef & ->). exists s, m.
  destruct (group_flags_spec _ _ (Hnd m) (Hflags _ _ _ Hg)) as (c' & g' & Ef' & Hc & Hs).
  rewrite Ef in Ef'. injection Ef' as <- <-. split; [|done].
  intros r. split; [by apply (Hgroup s m)|]. intros [Hr Hk].
  rewrite <- Hperm in Hr. rewrite <- (groupby_concat (group_key module_of) sorted) in Hr.
  apply list_elem_of_In, in_concat in Hr as (ds' & Hds' & Hr'). apply list_elem_of_In in Hds', Hr'.
  apply list_elem_of_fmap in Hds' as ([[s' m'] ds''] & -> & Hg').
  destruct (Hgroup _ _ _ Hg' r Hr') as [_ Hk']. rewrite Hk in Hk'. injection Hk' as <- <-.
  assert (Hkeys : NoDup (groupby (group_key module_of) sorted).*1).
  { apply (groupby_NoDup _ (row_le module_of)); [by apply key_le_convex|].
    apply StronglySorted_merge_sort; apply _. }
  by rewrite (NoDup_fst_unique _ _ _ _ Hkeys Hg Hg').
Qed.
End Groups.

(** ** Witnesses and observations *)

#[local] Instance plain_deadlines : DeviationModel DeadlineRuleDeviation DeadlineForm :=
  deadline_model (fun _ => None) id.

(** One more day, or two, without a penalty. *)
Definition example_deadline_form (days : Z) : DeadlineForm := mkDeadlineForm None (days * 86400) "" true.

Definition example_granted (e s day : Z) : DevRow DeadlineRuleDeviation :=
  mkDevRow (mkDeadlineDeviation e s (day * 86400) true) (Some 9).

Definition example_selection : Selection := mkSelection [1] [] [11; 12] [].

Lemma override_outcome_witness :
  let table := override_deviations 9 [example_exercise 1 2] [11; 12] (example_deadline_form 2) [(11, 1)]
                 {[ (11, 1) := example_granted 1 11 1; (13, 1) := example_granted 1 13 1 ]} in
  table !! (11, 1) = Some (example_granted 1 11 2) /\
  table !! (12, 1) = Some (example_granted 1 12 2) /\
  table !! (13, 1) = Some (example_granted 1 13 1).
Proof.
  destruct (override_outcome 9 [example_exercise 1 2] [11; 12] (example_deadline_form 2) [(11, 1)]
    {[ (11, 1) := example_granted 1 11 1; (13, 1) := example_granted 1 13 1 ]}) as (Hin & Hout & _).
  - apply (bool_decide_unpack _). vm_compute. exact I.
  - apply (bool_decide_unpack _). vm_compute. exact I.
  - split; [|split].
    + etransitivity; [apply (Hin (example_exercise 1 2) 11); [left|left]|vm_compute; reflexivity].
    + etransitivity; [apply (Hin (example_exercise 1 2) 12); [left|right; left]|vm_compute; reflexivity].
    + etransitivity; [apply (Hout (13, 1))|vm_compute; reflexivity].
      intros [_ Hs]. apply list_elem_of_In in Hs. cbn in Hs. intuition discriminate.
Defined.

(** Two students are granted a day, and one of the deviations is removed again. *)
Lemma dl_tag_invariant_witness :
  let st0 := mkDl ∅ None [] in
  let st1 := snd (add_deadlines (fun _ => None) id 5 9 [example_exercise 1 2] [11; 12] example_selection
                    (example_deadline_form 1) st0) in
  let st2 := remove_deadlines_by_id [1] [(11, 1)] st1 in
  dl_complete [1] st2 /\ user_taggings st2 = [(5, 12)].
Proof.
  split; [|vm_compute; reflexivity].
  eapply (dl_tag_invariant (fun _ => None) id [1] (mkDl ∅ None [])).
  - intros s e r Hr. cbn in Hr. rewrite lookup_empty in Hr. discriminate Hr.
  - eapply rtc_l; [apply step_add|]. eapply rtc_l; [apply step_remove_by_id|]. apply rtc_refl.
Defined.

(** Leaving the page that asks about overrides keeps the tag on a student who has
    no deviation. *)
Lemma abandoned_override_keeps_tag :
  let st0 := mkDl {[ (11, 1) := example_granted 1 11 1 ]} (Some 5) [(5, 11)] in
  let r := add_deadlines (fun _ => None) id 5 9 [example_exercise 1 2] [11; 12] example_selection
             (example_deadline_form 2) st0 in
  fst r = true /\ (5, 12) ∈ user_taggings (snd r) /\ dl_table (snd r) !! (12, 1) = None.
Proof.
  split; [vm_compute; reflexivity|]. split; [|vm_compute; reflexivity].
  apply list_elem_of_In. vm_compute. auto.
Qed.

(** A confirmation sent after the deviations were removed elsewhere grants them
    again without the tag. *)
Lemma stale_override_is_untagged :
  let st := mkDl ∅ (Some 5) [] in
  let st' := override_deadlines (fun _ => None) id 9 [example_exercise 1 2] [11; 12] example_selection
               (example_deadline_form 2) [] st in
  dl_table st' !! (11, 1) = Some (example_granted 1 11 2) /\ user_taggings st' = [].
Proof. split; vm_compute; reflexivity. Qed.

(** A deviation whose granter has been deleted breaks the listing of the whole course. *)
Lemma deleted_granter_breaks_listing :
  get_deviation_groups (fun _ => example_module true 0) (fun _ => 2%nat)
    [mkDevRow (mkDeadlineDeviation 1 11 60 true) None; mkDevRow (mkDeadlineDeviation 2 11 60 true) (Some 9)]
  = Raise AttributeError.
Proof. vm_compute. reflexivity. Qed.

Lemma deviation_groups_spec_witness :
  exists groups,
    get_deviation_groups (fun _ => example_module true 0) (fun _ => 2%nat)
      [example_granted 1 11 1; example_granted 1 12 1; example_granted 2 11 1] = Ret groups /\
    (exists ds, ds ∈ ((fun '(ds, _, _, _) => ds) <$> groups)) /\
    concat ((fun '(ds, _, _, _) => ds) <$> groups)
    ≡ₚ [example_granted 1 11 1; example_granted 1 12 1; example_granted 2 11 1].
Proof.
  destruct (deviation_groups_spec (fun _ => example_module true 0) (fun _ => [1; 2])
    [example_granted 1 11 1; example_granted 1 12 1; example_granted 2 11 1]) as (groups & E & Hp & _).
  - intros. reflexivity.
  - intros. apply (bool_decide_unpack _). vm_compute. exact I.
  - repeat constructor; try (eexists; reflexivity); apply (bool_decide_unpack _); vm_compute; exact I.
  - exists groups. split; [exact E|]. split; [|exact Hp].
    vm_compute in E. injection E as <-. eexists. left.
Defined.
