(* ===== verification/Collection.v ===== *)
(** * Exercise collections

    [exercise/exercisecollection_models.py]: an exercise whose points are the
    points of the exercises of another category, kept up to date by a signal that
    runs when a submission is saved. *)

From Stdlib Require Import QArith Lqa.
From S2P Require Import Prelude Binary64 Helpers Course Deviations Reveal Models Exercise Submission Grading Frame Points Staff.
#[local] Open Scope Z_scope.

(** src/exercise/exercisecollection_models.py: ExerciseCollection lines 16-26 *)
Record ExerciseCollection := mkCollection {
  collection_exercise :> BaseExercise;
  target_category : option Z;
}.

(** src/exercise/exercisecollection_models.py: ExerciseCollection.clean.  The target category is
    read without asking whether there is one. *)
Definition collection_clean (objs : LObjDB) (self : ExerciseCollection) : result unit :=
  let! _ := exercise_clean objs self in
  match target_category self with
  | None => Raise AttributeError
  | Some target =>
      let errors :=
        (if target =? category_id (category self) then ["target_category"%string] else [])
        ++ (if negb (max_submissions self =? 1) then ["max_submissions"%string] else [])
        ++ (if negb (max_group_size self =? 1) then ["max_group_size"%string] else [])
        ++ (if negb (min_group_size self =? 1) then ["min_group_size"%string] else []) in
      match errors with
      | [] => Ret tt
      | _ => Raise (ValidationError errors)
      end
  end%list.

Section Collection.
Context `{Settings}.

(** All exercises; the collections among them; the exercise a foreign key names;
    and the entries of the points cache for a student. *)
Context (all_exercises : list BaseExercise) (collections : list ExerciseCollection)
  (exercise_of : Z -> BaseExercise)
  (best_submission : Db -> UserProfile -> BaseExercise -> option SubmissionEntry)
  (course_name : Z -> string).

Definition by_id (e1 e2 : BaseExercise) : Prop := exercise_id e1 <= exercise_id e2.
#[export] Instance by_id_dec : RelDecision by_id.
Proof. intros e1 e2. unfold by_id. apply _. Defined.

(** src/exercise/exercisecollection_models.py: ExerciseCollection.exercises *)
Definition target_exercises (self : ExerciseCollection) : list BaseExercise :=
  merge_sort by_id
    (List.filter (fun e : BaseExercise => bool_decide (Some (category_id (category e)) = target_category self))
       all_exercises).

(** src/exercise/exercisecollection_models.py: ExerciseCollection.target_category_maxpoints *)
Definition target_category_maxpoints (self : ExerciseCollection) : Z :=
  sumZ (max_points <$> target_exercises self).

Definition entry_points (entry : option SubmissionEntry) : Z := from_option se_points 0 entry.

(** src/exercise/exercisecollection_models.py: ExerciseCollection.get_points.  A number is an integer
    or a float, [None] is Python's. *)
Definition get_points (db : Db) (self : ExerciseCollection) (profile : UserProfile) (no_scaling : bool)
    : result (option Q) :=
  let tc_max_points := target_category_maxpoints self in
  if tc_max_points =? 0 then Ret None
  else
    let late_total (late : bool) :=
      let total := sumZ ((fun e => entry_points (best_submission db profile e)) <$> target_exercises self) in
      let total :=
        if late then py_round (fmul (of_int total) (fsub 1 (late_submission_penalty (course_module self))))
        else total in
      if (tc_max_points =? max_points self) || no_scaling then Ret (Some (inject_Z total))
      else if max_points self =? 0 then Raise ZeroDivisionError
      else Ret (Some (fdiv (of_int total) (int_truediv tc_max_points (max_points self)))) in
    match fst (get_timing db self [profile] (now db)) with
    | Timing.CLOSED_AFTER | Timing.ARCHIVED | Timing.CLOSED_BEFORE | Timing.UNOFFICIAL => Ret None
    | Timing.LATE => late_total true
    | Timing.OPEN => late_total false
    end.

(** src/exercise/exercisecollection_models.py: ExerciseCollection.is_submitted *)
Definition is_submitted (w : World) (self : ExerciseCollection) (profile : UserProfile) : bool :=
  match get_submissions_for_student w self profile false false with [] => false | _ => true end.

Definition set_submitters (l : list UserProfile) (s : Submission) : Submission :=
  mkSubmission (sub_id s) (sub_exercise s) (submission_time s) l (grader s)
    (feedback s) (sub_status s) (unofficial_submission_type s) (grade s) (grading_time s)
    (late_penalty_applied s) (force_exercise_points s) (service_points s) (service_max_points s)
    (lti_launch_id s).

Definition newline : string := String (Ascii.ascii_of_nat 10) "".

Definition feedback_lines (i : nat) (e : BaseExercise) (entry : option SubmissionEntry) : string :=
  let instance := lobj_instance e in
  "Exercise " +:+ str_of_Z (Z.of_nat i + 1) +:+ ": " +:+ str_of_Z (entry_points entry) +:+ "/"
  +:+ str_of_Z (max_points e) +:+ newline
  +:+ "  Course: " +:+ course_name (course_id instance) +:+ " - " +:+ instance_name instance +:+ newline
  +:+ "  Exercise: " +:+ lobj_name e +:+ newline.

(** src/exercise/exercisecollection_models.py: ExerciseCollection._generate_grading_data.  The
    feedback; the grading data is empty. *)
Definition generate_grading_data (db : Db) (self : ExerciseCollection) (profile : UserProfile) : string :=
  "<pre>" +:+ newline
  +:+ String.concat "" (imap (fun i e => feedback_lines i e (best_submission db profile e))
                          (target_exercises self))
  +:+ newline +:+ "</pre>" +:+ newline.

(** src/exercise/exercisecollection_models.py: ExerciseCollection.check_submission lines 113-124.
    The submission of the student, or a new one without submitters. *)
Definition current_submission (self : ExerciseCollection) (profile : UserProfile) : M Submission :=
  db ← reads id;
  match get_submissions_for_student (world db) self profile false false with
  | s :: _ => mret s
  | [] =>
      let s := mkSubmission (next_id db) (exercise_id self) (now db) [] None "" SubStatus.INITIALIZED
                 None (-1) None None false 0 0 None in
      modify (insert_submission s);;
      mret s
  end.

(** src/exercise/exercisecollection_models.py: ExerciseCollection.check_submission.  [saved] is what
    the signals do after a save.  The column of the grade takes integers only: a
    float is truncated, and [None] is refused after the submitters have been
    stored. *)
Definition check_submission (saved : Submission -> M unit) (self : ExerciseCollection)
    (profile : UserProfile) (no_update forced : bool) : M unit :=
  submitted ← reads (fun db => is_submitted db self profile);
  if no_update && submitted && negb forced then mret tt
  else
    current ← current_submission self profile;
    db ← reads id;
    new_grade ← lift (get_points db self profile false);
    match new_grade with
    | None =>
        modify (save (set_submitters [profile] current));;
        lift (Raise DatabaseError)
    | Some q =>
        if Qeq_bool q (inject_Z (grade current)) && negb forced then mret tt
        else
          let s := set_feedback (generate_grading_data db self profile) (set_submitters [profile]
                     (set_status SubStatus.READY (set_time (now db) (set_grade (py_int q) current)))) in
          modify (save s);;
          saved s
    end.

(** src/exercise/exercisecollection_models.py: update_exercise_collection_submission.  The signal runs
    again for the submission of a collection. *)
Fixpoint update_exercise_collection_submission (fuel : nat) (instance : Submission) : M unit :=
  match fuel with
  | O => lift (Raise RecursionError)
  | S fuel =>
      let found := List.filter (fun c => bool_decide
                     (target_category c = Some (category_id (category (exercise_of (sub_exercise instance))))))
                     collections in
      match found, submitters instance with
      | [], _ | _, [] => mret tt
      | _, profile :: _ =>
          each (fun c => check_submission (update_exercise_collection_submission fuel) c profile false false)
            found
      end
  end.

(** src/exercise/exercisecollection_models.py: ExerciseCollection.grade.  The submitter is a profile,
    and [check_submission] asks it for the profile of a user. *)
Definition collection_grade (self : ExerciseCollection) (s : Submission) : M unit :=
  match submitters s with
  | [] => lift (Raise IndexError)
  | _ :: _ => lift (Raise AttributeError)
  end.

End Collection.

(** ** Points of a collection *)

Section PointsTheory.
Context (all_exercises : list BaseExercise)
  (best_submission : Db -> UserProfile -> BaseExercise -> option SubmissionEntry).

Lemma sumZ_bounds {A} (f g : A -> Z) l :
  (forall x, x ∈ l -> 0 <= f x <= g x) -> 0 <= sumZ (f <$> l) <= sumZ (g <$> l).
Proof.
  induction l as [|x l IH]; intros Hb; cbn; [lia|].
  pose proof (Hb x ltac:(left)). assert (0 <= sumZ (f <$> l) <= sumZ (g <$> l)); [|unfold sumZ in *; lia].
  apply IH. intros y Hy. apply Hb. by right.
Qed.

(** Late points are not more than the points. *)
Lemma late_total_bounds total pen :
  0 <= total <= 2 ^ 50 -> (0 <= pen <= 1)%Q ->
  0 <= py_round (fmul (of_int total) (fsub 1 pen)) <= total.
Proof.
  intros Ht Hp.
  assert (Hf : (0 <= fsub 1 pen <= 1)%Q).
  { unfold fsub. apply (b64_between 0 1); [lia|lia|]. change (inject_Z 0) with 0%Q.
    change (inject_Z 1) with 1%Q. lra. }
  apply (py_round_between 0 total). apply (b64_between 0 total); [lia|lia|].
  rewrite of_int_exact by lia. assert (0 <= inject_Z total)%Q by (apply inject_Z_nonneg; lia).
  change (inject_Z 0) with 0%Q. split; [apply Qmult_le_0_compat; lra|].
  rewrite <- (Qmult_1_r (inject_Z total)) at 2. rewrite !(Qmult_comm (inject_Z total)).
  apply Qmult_le_compat_r; [lra|done].
Qed.

(** The quotient of the two roundings stays within a quarter of the exact value. *)
Lemma scaled_bounds total tc m :
  0 <= total <= tc -> 0 < tc <= 2 ^ 50 -> 0 < m < 2 ^ 50 ->
  (0 <= fdiv (of_int total) (int_truediv tc m) <= inject_Z m + (1#4))%Q.
Proof.
  intros Ht Htc Hm. unfold fdiv, int_truediv.
  assert (Hm0 : (0 < inject_Z m)%Q) by (change 0%Q with (inject_Z 0); rewrite <- Zlt_Qlt; lia).
  assert (Htc0 : (1 <= inject_Z tc)%Q) by (change 1%Q with (inject_Z 1); rewrite <- Zle_Qle; lia).
  assert (Hmb : (inject_Z m + 1 <= inject_Z (2 ^ 50))%Q).
  { change 1%Q with (inject_Z 1). rewrite <- inject_Z_plus, <- Zle_Qle. lia. }
  set (x := (inject_Z tc / inject_Z m)%Q).
  assert (Ex : (x * inject_Z m == inject_Z tc)%Q) by (unfold x; field; lra).
  assert (Hx : (p2 (-50) <= x)%Q).
  { unfold x. apply Qle_shift_div_l; [done|]. apply Qle_trans with 1%Q; [|done].
    apply Qle_trans with (p2 (-50) * inject_Z (2 ^ 50))%Q.
    - rewrite !(Qmult_comm (p2 (-50))). apply Qmult_le_compat_r; [lra|apply Qlt_le_weak, p2_pos].
    - vm_compute. discriminate. }
  pose proof (p2_pos (-50)). pose proof (p2_le (-1022) (-50) ltac:(lia)) as Hmin.
  pose proof (b64_lower x ltac:(lra)) as Hlow.
  set (d := b64 x) in *.
  assert (E52 : (p2 (-52) == 1 # 4503599627370496)%Q) by reflexivity. rewrite E52 in Hlow.
  assert (Hd : (0 < d)%Q) by nra.
  rewrite <- (b64_quarter m) by lia.
  assert (Hnum : (0 <= of_int total / d)%Q).
  { apply Qle_shift_div_l; [done|]. rewrite of_int_exact by lia. rewrite Qmult_0_l. apply inject_Z_nonneg. lia. }
  split; [by apply b64_nonneg|]. apply b64_mono; [done|].
  apply Qle_shift_div_r; [done|]. rewrite of_int_exact by lia.
  apply Qle_trans with (inject_Z tc); [rewrite <- Zle_Qle; lia|]. rewrite <- Ex.
  change (inject_Z (2 ^ 50)) with (1125899906842624#1)%Q in Hmb. nra.
Qed.

Lemma py_int_quarter m x : 0 <= m -> (0 <= x <= inject_Z m + (1#4))%Q -> 0 <= py_int x <= m.
Proof.
  intros Hm [H1 H2]. unfold Qle, py_int, inject_Z, Qplus in *. cbn in *.
  assert (0 <= Qnum x) by lia. rewrite Z.quot_div_nonneg by lia. split; [apply Z.div_pos; lia|].
  apply Z.lt_succ_r, Z.div_lt_upper_bound; nia.
Qed.

Lemma target_exercises_in c e : e ∈ target_exercises all_exercises c -> e ∈ all_exercises.
Proof.
  unfold target_exercises. rewrite merge_sort_Permutation, list_elem_of_In, filter_In, <- list_elem_of_In.
  by intros [? _].
Qed.

(** The grade a collection computes is within the points of the collection: if
    the points of every exercise of the target category are within its maximum,
    then what is stored, after the late penalty, the scaling in binary64 and the
    truncation to the integer column, is between zero and the maximum of the
    collection. *)
Theorem collection_grade_bounds db c profile q :
  (forall e, e ∈ all_exercises -> 0 <= entry_points (best_submission db profile e) <= max_points e) ->
  target_category_maxpoints all_exercises c <= 2 ^ 50 -> 0 <= max_points c < 2 ^ 50 ->
  (0 <= late_submission_penalty (course_module c) <= 1)%Q ->
  get_points all_exercises best_submission db c profile false = Ret (Some q) ->
  0 <= py_int q <= max_points c.
Proof.
  intros Hb Htc Hm Hpen. unfold get_points.
  set (tc := target_category_maxpoints all_exercises c) in *.
  destruct (tc =? 0) eqn:Etc; [done|]. b2p.
  set (total := sumZ _).
  assert (Htotal : 0 <= total <= tc).
  { apply sumZ_bounds. intros e He. apply Hb. by eapply target_exercises_in. }
  assert (Hfinish : forall t, 0 <= t <= tc ->
    (if (tc =? max_points c) || false then Ret (Some (inject_Z t))
     else if max_points c =? 0 then Raise ZeroDivisionError
     else Ret (Some (fdiv (of_int t) (int_truediv tc (max_points c))))) = Ret (Some q) ->
    0 <= py_int q <= max_points c).
  { intros t Ht. destruct (tc =? max_points c) eqn:Em; b2p; cbn [orb].
    - intros [= <-]. apply (py_int_between 0); [lia|]. rewrite <- !Zle_Qle. lia.
    - destruct (max_points c =? 0) eqn:E0; [done|]. b2p. intros [= <-].
      pose proof (scaled_bounds t tc (max_points c) ltac:(lia) ltac:(lia) ltac:(lia)) as [H1 H2].
      apply py_int_quarter; [lia|done]. }
  destruct (fst _); try done; apply Hfinish; [done|].
  pose proof (late_total_bounds total _ ltac:(lia) Hpen). lia.
Qed.
End PointsTheory.

(** ** The signal comes to an end *)

Section Termination.
Context `{Settings} (all_exercises : list BaseExercise) (collections : list ExerciseCollection)
  (exercise_of : Z -> BaseExercise)
  (best_submission : Db -> UserProfile -> BaseExercise -> option SubmissionEntry)
  (course_name : Z -> string).

Definition category_of (i : Z) : Z := category_id (category (exercise_of i)).

Lemma get_points_raises db c profile ns e :
  get_points all_exercises best_submission db c profile ns = Raise e -> e = ZeroDivisionError.
Proof.
  unfold get_points. destruct (_ =? 0); [done|].
  destruct (fst _); try done; destruct (_ || _); try done; destruct (_ =? 0); congruence.
Qed.

(** Only the signal of the save can recur, and it is the save of a submission to
    the collection. *)
Lemma check_submission_recursion saved c profile no_update forced (db db' : Db) :
  check_submission all_exercises best_submission course_name saved c profile no_update forced db
  = (Raise RecursionError, db') ->
  exists s db1, saved s db1 = (Raise RecursionError, db') /\ sub_exercise s = exercise_id c.
Proof.
  unfold check_submission, mbind at 1, M_bind, reads at 1. destruct (_ && _ && _); [done|].
  unfold mbind at 1, M_bind.
  assert (Hcur : exists s db1, current_submission c profile db = (Ret s, db1) /\ sub_exercise s = exercise_id c).
  { unfold current_submission, mbind, M_bind, reads, modify, mret, M_ret. cbn [id].
    destruct (get_submissions_for_student _ _ _ _ _) as [|s l] eqn:E; [by eexists _, _|].
    exists s, db. split; [done|].
    assert (Hs : s ∈ get_submissions_for_student db c profile false false) by (rewrite E; by left).
    unfold get_submissions_for_student in Hs. by apply list_elem_of_filter in Hs as [Hs _]. }
  destruct Hcur as (s & db1 & -> & Hs). unfold mbind, M_bind, reads, lift, modify. cbn [id].
  destruct (get_points _ _ _ _ _ _) as [[q|]|e] eqn:Ep.
  - destruct (_ && _); [done|]. intros Hr. by eexists _, _.
  - done.
  - intros [= -> _]. by apply get_points_raises in Ep.
Qed.

Lemma each_raises {A} (f : A -> M unit) l e (db db' : Db) :
  each f l db = (Raise e, db') -> exists x db1, x ∈ l /\ f x db1 = (Raise e, db').
Proof.
  revert db. induction l as [|x l IH]; intros db; cbn; [done|].
  unfold mbind, M_bind. destruct (f x db) as [[u|e'] db1] eqn:E.
  - intros Hr. apply IH in Hr as (y & db2 & Hy & Hr). exists y, db2. split; [by right|done].
  - intros [= -> ->]. exists x, db. split; [by left|done].
Qed.

(** Updating the collections after a save terminates when collections are not
    nested in a cycle: if the categories can be ranked so that every collection
    counts exercises of a lower category than its own, then the signal that a
    saved submission starts, and the signals its saves start in turn, are nested
    at most as deep as there are ranks, and do not exhaust the stack. *)
Theorem collection_updates_end (rank : Z -> nat) (top : nat) s fuel (db : Db) :
  (forall c t, c ∈ collections -> target_category c = Some t -> (rank t < rank (category_of (exercise_id c)))%nat) ->
  (forall k, rank k <= top)%nat ->
  (top - rank (category_of (sub_exercise s)) < fuel)%nat ->
  fst (update_exercise_collection_submission all_exercises collections exercise_of best_submission
         course_name fuel s db) <> Raise RecursionError.
Proof.
  intros Hrank Htop. revert s db. induction fuel as [|fuel IH]; intros s db Hf; [lia|].
  cbn. fold (category_of (sub_exercise s)). destruct (List.filter _ _) as [|c0 found] eqn:Ef; [done|].
  destruct (submitters s) as [|profile rest]; [done|]. rewrite <- Ef.
  destruct (each _ _ db) as [[u|e] db'] eqn:E; [done|]. cbn [fst]. intros [= ->].
  apply each_raises in E as (c & db1 & Hc & E).
  apply list_elem_of_In, filter_In in Hc as [Hc Ht]. apply list_elem_of_In in Hc.
  apply bool_decide_eq_true in Ht.
  apply check_submission_recursion in E as (s' & db2 & E & Hs').
  apply (IH s' db2); [|by rewrite E]. rewrite Hs'.
  specialize (Hrank c _ Hc Ht). pose proof (Htop (category_of (exercise_id c))). lia.
Qed.
End Termination.

(** ** Witnesses and observations *)

Definition collection_of (max : Z) (target : Z) : ExerciseCollection :=
  mkCollection (mkExercise (example_lobj 50 None "collection") true false 1 1 1 max 0 "" None None
                  GradingMode.BEST false "grader.example") (Some target).

(** An exercise of another category. *)
Definition target_exercise (max : Z) : BaseExercise :=
  mkExercise (mkLObj 1 LObjStatus.READY Audience.COURSE_AUDIENCE
                (mkCategory 7 "Counted" CategoryStatus.READY 0 1 false false)
                (example_module true (1#2)) None 1 "ex" "Exercise")
    true false 1 1 2 max 5 "" None None GradingMode.BEST false "grader.example".

Definition full_entry (points : Z) : SubmissionEntry :=
  mkSubEntry 3 true points points true SubStatus.READY false 5 false false None 0 true None.

(** The cache holds full points for every exercise. *)
Definition all_full (db : Db) (p : UserProfile) (e : BaseExercise) : option SubmissionEntry :=
  Some (full_entry (max_points e)).

(** While the module is open. *)
Definition open_db : Db :=
  mkDb (mkWorld ∅ [] [] [] [] (fun p => mkUser (profile_id p) false false p) (days 1 + 1)) ∅ [] [] [] [] [].

Lemma collection_grade_bounds_witness :
  exists q, get_points [target_exercise 20] all_full open_db (collection_of 10 7) (example_student 1) false
            = Ret (Some q) /\
    0 <= py_int q <= 10 /\ py_int q = 10.
Proof.
  eexists. split; [vm_compute; reflexivity|]. split; [|vm_compute; reflexivity].
  apply (collection_grade_bounds [target_exercise 20] all_full open_db (collection_of 10 7)
           (example_student 1)).
  - intros e He. apply list_elem_of_In in He. destruct He as [<-|[]]. vm_compute. intuition discriminate.
  - vm_compute. discriminate.
  - vm_compute. intuition discriminate.
  - vm_compute. intuition discriminate.
  - vm_compute. reflexivity.
Defined.

(** Full points in the exercises are not always full points in the collection: one
    point scaled to ninety-three is truncated to ninety-two. *)
Lemma collection_loses_a_point :
  py_int <$> (match get_points [target_exercise 1] all_full open_db (collection_of 93 7) (example_student 1) false with
              | Ret o => o
              | Raise _ => None
              end) = Some 92.
Proof. vm_compute. reflexivity. Qed.

(** When the collection is not open, its submission cannot be saved: saving a
    submission in the target category raises. *)
Lemma closed_collection_breaks_saving `{Settings} exercises best name saved c profile forced (db : Db) :
  (forall db' : Db, now db' = now db -> get_points exercises best db' c profile false = Ret None) ->
  fst (check_submission exercises best name saved c profile false forced db) = Raise DatabaseError.
Proof.
  intros Hn. unfold check_submission, mbind, M_bind, reads, lift, modify. cbn [id andb].
  unfold current_submission, mbind, M_bind, reads, modify, mret, M_ret. cbn [id].
  destruct (get_submissions_for_student _ _ _ _ _); rewrite Hn; done.
Qed.

Lemma collection_updates_end_witness :
  let s := set_grade 20 (example_submission 3 SubStatus.READY [example_student 1]) in
  let r := update_exercise_collection_submission [target_exercise 20] [collection_of 10 7]
             (fun i => if i =? 1 then target_exercise 20 else collection_of 10 7) all_full
             (fun _ => "Course"%string) 2 s open_db in
  fst r <> Raise RecursionError /\ grade <$> submissions (snd r) = [10].
Proof.
  split; [|vm_compute; reflexivity].
  apply (collection_updates_end [target_exercise 20] [collection_of 10 7]
           (fun i => if i =? 1 then target_exercise 20 else collection_of 10 7) all_full
           (fun _ => "Course"%string) (fun k => if k =? 7 then 0%nat else 1%nat) 1).
  - intros c t Hc Ht. apply list_elem_of_In in Hc. destruct Hc as [<-|[]]. injection Ht as <-.
    vm_compute. lia.
  - intros k. destruct (k =? 7); lia.
  - vm_compute. lia.
Defined.

(** Two collections that count each other do not come to an end: the truncated
    grade never equals the float it came from. *)
Lemma nested_collections_recur :
  let a := mkCollection (mkExercise (mkLObj 51 LObjStatus.READY Audience.COURSE_AUDIENCE
             (mkCategory 8 "A" CategoryStatus.READY 0 1 false false) (example_module true (1#2)) None 1 "a" "A")
             true false 1 1 1 10 0 "" None None GradingMode.BEST false "") (Some 9) in
  let b := mkCollection (mkExercise (mkLObj 52 LObjStatus.READY Audience.COURSE_AUDIENCE
             (mkCategory 9 "B" CategoryStatus.READY 0 1 false false) (example_module true (1#2)) None 1 "b" "B")
             true false 1 1 1 3 0 "" None None GradingMode.BEST false "") (Some 8) in
  fst (update_exercise_collection_submission [collection_exercise a; collection_exercise b] [a; b]
         (fun i => if i =? 51 then a else b)
         (fun db p e => Some (full_entry (if exercise_id e =? 51 then 5 else 2)))
         (fun _ => ""%string) 100
         (mkSubmission 3 51 5 [example_student 1] None "" SubStatus.READY None 5 None None false 0 0 None) open_db)
  = Raise RecursionError.
Proof. vm_compute. reflexivity. Qed.
