(* ===== verification/Clone.v ===== *)
(** * Cloning a course instance

    [edit_course/operations/clone.py]: the new instance, its teachers and
    assistants, its tags and menu items, and the data of the student information
    system. *)

From S2P Require Import Prelude Helpers Course.
#[local] Open Scope Z_scope.

(** The tables the operation writes: enrollments, (course instance, slug) rows of
    tags, (course instance, label) rows of menu items, and the user accounts. *)
Record CloneDb := mkCloneDb {
  cl_enrollments : EnrollmentDB;
  cl_usertags : list (Z * string);
  cl_menuitems : list (Z * string);
  cl_users : list (string * UserProfile);
}.

Definition with_enrollments (db : CloneDb) (f : EnrollmentDB -> EnrollmentDB) : CloneDb :=
  mkCloneDb (f (cl_enrollments db)) (cl_usertags db) (cl_menuitems db) (cl_users db).

(** What the student information system tells about a course. *)
Record CourseData := mkCourseData {
  sis_starting_time : option datetime;
  sis_ending_time : option datetime;
  sis_teachers : list string;
}.

Definition profiles (db : CloneDb) : list UserProfile := snd <$> cl_users db.

(** [instance.teachers.all()] and [instance.assistants.all()]. *)
Definition profiles_with_role (instance : CourseInstance) (r : EnrollmentRole.t) (db : CloneDb)
    : list UserProfile :=
  List.filter (fun p => enrolled_as instance (cl_enrollments db) p (active_role r)) (profiles db).

(** The account with the name, or a new one. *)
Definition get_or_create_user (name : string) (db : CloneDb) : UserProfile * CloneDb :=
  match find (fun u => bool_decide (fst u = name)) (cl_users db) with
  | Some (_, p) => (p, db)
  | None =>
      let p := mkProfile (1 + maxZ 0 (profile_id <$> profiles db)) None "" in
      (p, mkCloneDb (cl_enrollments db) (cl_usertags db) (cl_menuitems db) (cl_users db ++ [(name, p)])%list)
  end.

Definition with_dates (instance : CourseInstance) (starting ending : datetime) : CourseInstance :=
  mkInstance (instance_id instance) (course_id instance) (instance_name instance) (instance_url instance)
    (visible_to_students instance) (enrollment_audience instance) (view_content_to instance)
    starting ending (lifesupport_time instance) (archive_time instance)
    (enrollment_starting_time instance) (enrollment_ending_time instance) (language instance)
    (module_numbering instance) (content_numbering instance).

(** The dates change only if both are known. *)
Definition dated (coursedata : CourseData) (instance : CourseInstance) : CourseInstance :=
  match sis_starting_time coursedata, sis_ending_time coursedata with
  | Some starting, Some ending => with_dates instance starting ending
  | _, _ => instance
  end.

Definition add_sis_teacher (instance : CourseInstance) (db : CloneDb) (name : string) : CloneDb :=
  let (p, db) := get_or_create_user name db in
  with_enrollments db (add_teacher instance p).

(** src/edit_course/operations/clone.py: set_sis.  [sis] is [None] when no system is configured, and
    an exception when the request fails. *)
Definition set_sis (sis : option (result CourseData)) (instance : CourseInstance) (db : CloneDb)
    : CourseInstance * CloneDb :=
  match sis with
  | None | Some (Raise _) => (instance, db)
  | Some (Ret coursedata) =>
      let instance := dated coursedata instance in
      (instance, foldl (add_sis_teacher instance) db (sis_teachers coursedata))
  end.

(** The options of the form; [opt_sis] is the answer of the information system if a
    course was chosen there. *)
Record CloneOptions := mkOptions {
  opt_teachers : bool;
  opt_assistants : bool;
  opt_usertags : bool;
  opt_menuitems : bool;
  opt_sis : option (option (result CourseData));
}.

Definition renamed (new_id : Z) (url name : string) (instance : CourseInstance) : CourseInstance :=
  mkInstance new_id (course_id instance) name url false (enrollment_audience instance)
    (view_content_to instance) (starting_time instance) (ending_time instance)
    (lifesupport_time instance) (archive_time instance) (enrollment_starting_time instance)
    (enrollment_ending_time instance) (language instance) (module_numbering instance)
    (content_numbering instance).

(** The rows of the instance, copied to the new one. *)
Definition copied (from to : Z) (rows : list (Z * string)) : list (Z * string) :=
  (rows ++ ((fun row => (to, snd row)) <$> List.filter (fun row => fst row =? from) rows))%list.

(** src/edit_course/operations/clone.py: clone lines 87-93.  The staff of the new instance. *)
Definition staffed (cloner : UserProfile) (new : CourseInstance) (teachers assistants : list UserProfile)
    (opts : CloneOptions) (db : EnrollmentDB) : EnrollmentDB :=
  let db := if opt_teachers opts then set_teachers new teachers db else db in
  let db := add_teacher new cloner db in
  if opt_assistants opts then set_assistants new assistants db else db.

(** src/edit_course/operations/clone.py: clone *)
Definition clone (cloner : UserProfile) (instance : CourseInstance) (new_id : Z) (url name : string)
    (opts : CloneOptions) (db : CloneDb) : CourseInstance * CloneDb :=
  let teachers := profiles_with_role instance EnrollmentRole.TEACHER db in
  let assistants := profiles_with_role instance EnrollmentRole.ASSISTANT db in
  let usertags := cl_usertags db in
  let menuitems := cl_menuitems db in
  let new := renamed new_id url name instance in
  let db := with_enrollments db (staffed cloner new teachers assistants opts) in
  let (new, db) := match opt_sis opts with Some sis => set_sis sis new db | None => (new, db) end in
  (new, mkCloneDb (cl_enrollments db)
          (if opt_usertags opts then copied (instance_id instance) new_id usertags else usertags)
          (if opt_menuitems opts then copied (instance_id instance) new_id menuitems else menuitems)
          (cl_users db)).

(** ** Who has a role in the clone *)

(** The active role of a profile in an instance. *)
Definition role_at (db : EnrollmentDB) (i pid : Z) : option EnrollmentRole.t :=
  match db !! (i, pid) with
  | Some e => if bool_decide (status e = EnrollmentStatus.ACTIVE) then Some (role e) else None
  | None => None
  end.

Lemma role_at_set self users r remove db i pid :
  role_at (set_users_with_role self users r remove db) i pid =
  if decide (i = instance_id self /\ pid ∈ profile_id <$> users) then Some r
  else if decide (i = instance_id self /\ remove = true /\ role_at db i pid = Some r) then None
  else role_at db i pid.
Proof.
  unfold role_at, set_users_with_role.
  assert (Hfold := foldl_put_role_lookup self r users db i pid).
  destruct remove.
  - rewrite map_lookup_imap, Hfold. cbn. destruct (decide (i = _ /\ pid ∈ _)) as [[-> Hin]|Hn]; cbn.
    + rewrite Z.eqb_refl, (bool_decide_eq_true_2 _ Hin), andb_false_r. reflexivity.
    + destruct (db !! (i, pid)) as [e|]; cbn; [|by rewrite decide_False by naive_solver].
      destruct (Z.eqb_spec i (instance_id self)) as [->|Hi]; cbn.
      * rewrite (bool_decide_eq_false_2 (pid ∈ _)) by naive_solver. rewrite andb_true_r.
        unfold active_role.
        destruct (decide (status e = EnrollmentStatus.ACTIVE)) as [Hs|Hs].
        -- rewrite (bool_decide_eq_true_2 _ Hs). destruct (decide (role e = r)) as [Hr|Hr].
           ++ rewrite (bool_decide_eq_true_2 _ Hr). cbn. rewrite decide_True by naive_solver. done.
           ++ rewrite (bool_decide_eq_false_2 _ Hr). cbn. rewrite decide_False by naive_solver.
              by rewrite bool_decide_eq_true_2.
        -- rewrite (bool_decide_eq_false_2 _ Hs), andb_false_r. rewrite decide_False by naive_solver.
           by rewrite bool_decide_eq_false_2.
      * rewrite decide_False by naive_solver. done.
  - rewrite Hfold. destruct (decide (i = _ /\ pid ∈ _)); [done|].
    by rewrite decide_False by naive_solver.
Qed.

Lemma set_users_other self users r remove db i pid :
  i <> instance_id self -> set_users_with_role self users r remove db !! (i, pid) = db !! (i, pid).
Proof.
  intros Hi. unfold set_users_with_role.
  assert (Hf : foldl (put_role self r) db users !! (i, pid) = db !! (i, pid)).
  { rewrite foldl_put_role_lookup. by rewrite decide_False by naive_solver. }
  destruct remove; [|done]. rewrite map_lookup_imap, Hf. cbn.
  rewrite (proj2 (Z.eqb_neq _ _) Hi). cbn. by destruct (db !! (i, pid)).
Qed.

(** Everybody with an enrollment in the instance has an account (a foreign key). *)
Definition accounts_known (instance : CourseInstance) (db : CloneDb) : Prop :=
  forall pid e, cl_enrollments db !! (instance_id instance, pid) = Some e ->
    exists p, p ∈ profiles db /\ profile_id p = pid.

Lemma elem_of_profiles_with_role instance r db pid :
  accounts_known instance db ->
  pid ∈ profile_id <$> profiles_with_role instance r db <->
  role_at (cl_enrollments db) (instance_id instance) pid = Some r.
Proof.
  intros Hfk. unfold profiles_with_role, role_at, enrolled_as, active_role. rewrite list_elem_of_fmap. split.
  - intros (p & -> & Hp). apply list_elem_of_In, filter_In in Hp as [_ Hp].
    destruct (cl_enrollments db !! _) as [e|]; [|done]. b2p. by rewrite bool_decide_eq_true_2; [congruence|].
  - intros Hr. destruct (cl_enrollments db !! (instance_id instance, pid)) as [e|] eqn:E; [|done].
    case_bool_decide as Hs; [|done]. injection Hr as Hr. destruct (Hfk _ _ E) as (p & Hp & <-).
    exists p. split; [done|]. apply list_elem_of_In, filter_In. split; [by apply list_elem_of_In|].
    rewrite E. by rewrite !bool_decide_eq_true_2.
Qed.

(** The accounts that [set_sis] makes teachers, and nobody else. *)
Lemma add_sis_teachers_spec instance names : forall db,
  exists ids : list Z,
    (forall i pid, role_at (cl_enrollments (foldl (add_sis_teacher instance) db names)) i pid =
       if decide (i = instance_id instance /\ pid ∈ ids) then Some EnrollmentRole.TEACHER
       else role_at (cl_enrollments db) i pid) /\
    (forall i pid, i <> instance_id instance ->
       cl_enrollments (foldl (add_sis_teacher instance) db names) !! (i, pid) = cl_enrollments db !! (i, pid)) /\
    (forall pid, pid ∈ ids -> exists name p, name ∈ names /\
       (name, p) ∈ cl_users (foldl (add_sis_teacher instance) db names) /\ profile_id p = pid) /\
    (forall u, u ∈ cl_users db -> u ∈ cl_users (foldl (add_sis_teacher instance) db names)).
Proof.
  induction names as [|name names IH]; intros db; cbn.
  { exists []. split_and!; try done.
    - intros i pid. rewrite decide_False; [done|]. intros [_ Hin]. by apply not_elem_of_nil in Hin.
    - intros pid Hin. by apply not_elem_of_nil in Hin. }
  destruct (IH (add_sis_teacher instance db name)) as (ids & Hrole & Hother & Hids & Husers).
  assert (Hget : exists p db1, get_or_create_user name db = (p, db1) /\
            cl_enrollments db1 = cl_enrollments db /\ (name, p) ∈ cl_users db1 /\
            (forall u, u ∈ cl_users db -> u ∈ cl_users db1)).
  { unfold get_or_create_user. destruct (find _ (cl_users db)) as [[n p]|] eqn:E.
    - apply find_some in E as [Hin Hn]. cbn in Hn. b2p. subst. exists p, db.
      split; [done|]. split; [done|]. split; [by apply list_elem_of_In|done].
    - eexists _, _. split; [done|]. cbn. split; [done|]. split.
      + apply elem_of_app. right. by apply list_elem_of_singleton.
      + intros u Hu. apply elem_of_app. by left. }
  destruct Hget as (p & db1 & Eg & Een & Hin & Hkeep).
  assert (Estep : add_sis_teacher instance db name = with_enrollments db1 (add_teacher instance p))
    by (unfold add_sis_teacher; by rewrite Eg).
  exists (profile_id p :: ids). split_and!.
  - intros i pid. rewrite Hrole, Estep. cbn [with_enrollments cl_enrollments]. unfold add_teacher.
    rewrite role_at_set, Een.
    assert (Hc : pid ∈ profile_id p :: ids <-> pid = profile_id p \/ pid ∈ ids) by apply elem_of_cons.
    assert (Hs : pid ∈ profile_id <$> [p] <-> pid = profile_id p) by apply list_elem_of_singleton.
    repeat case_decide; try done; exfalso; naive_solver.
  - intros i pid Hi. rewrite Hother by done. rewrite Estep. cbn [with_enrollments cl_enrollments]. unfold add_teacher.
    rewrite set_users_other by done. by rewrite Een.
  - intros pid [->|Hp]%elem_of_cons.
    + exists name, p. split; [by left|]. split; [|done]. apply Husers. by rewrite Estep.
    + destruct (Hids pid Hp) as (n & q & ? & ? & ?). exists n, q. split; [by right|done].
  - intros u Hu. apply Husers. rewrite Estep. by apply Hkeep.
Qed.

Lemma staffed_roles cloner new teachers assistants opts db :
  (forall pid, db !! (instance_id new, pid) = None) -> forall pid,
  role_at (staffed cloner new teachers assistants opts db) (instance_id new) pid =
  if decide (opt_assistants opts = true /\ pid ∈ profile_id <$> assistants) then Some EnrollmentRole.ASSISTANT
  else if decide (pid = profile_id cloner \/ (opt_teachers opts = true /\ pid ∈ profile_id <$> teachers))
  then Some EnrollmentRole.TEACHER else None.
Proof.
  intros Hfresh pid. unfold staffed, set_teachers, set_assistants, add_teacher.
  assert (Hnone : role_at db (instance_id new) pid = None) by (unfold role_at; by rewrite Hfresh).
  assert (Hc : pid ∈ profile_id <$> [cloner] <-> pid = profile_id cloner) by apply list_elem_of_singleton.
  destruct (opt_assistants opts), (opt_teachers opts); rewrite !role_at_set, ?Hnone;
    repeat case_decide; try done; exfalso; naive_solver.
Qed.

(** What the information system adds to the clone. *)
Lemma sis_roles opts new db :
  visible_to_students new = false ->
  exists sis_ids : list Z,
    let r := match opt_sis opts with Some sis => set_sis sis new db | None => (new, db) end in
    visible_to_students (fst r) = false /\ instance_id (fst r) = instance_id new /\
    (forall i pid, i <> instance_id new -> cl_enrollments (snd r) !! (i, pid) = cl_enrollments db !! (i, pid)) /\
    (forall pid, role_at (cl_enrollments (snd r)) (instance_id new) pid =
       if decide (pid ∈ sis_ids) then Some EnrollmentRole.TEACHER
       else role_at (cl_enrollments db) (instance_id new) pid) /\
    (forall pid, pid ∈ sis_ids -> exists coursedata n p,
       opt_sis opts = Some (Some (Ret coursedata)) /\ n ∈ sis_teachers coursedata /\
       (n, p) ∈ cl_users (snd r) /\ profile_id p = pid).
Proof.
  intros Hv.
  destruct (opt_sis opts) as [[[coursedata|e]|]|].
  2-4: exists []; cbn; split_and!; try done; intros pid;
    first [intros Hp; by apply not_elem_of_nil in Hp | rewrite decide_False; [done|apply not_elem_of_nil]].
  cbn. set (new' := dated coursedata new).
  assert (Hn : instance_id new' = instance_id new /\ visible_to_students new' = false).
  { unfold new', dated. destruct (sis_starting_time coursedata), (sis_ending_time coursedata); done. }
  destruct Hn as [Hi Hvis].
  destruct (add_sis_teachers_spec new' (sis_teachers coursedata) db) as (ids & Hr & Ho & Hids & _).
  rewrite Hi in *. exists ids. split_and!; try done.
  - intros pid. rewrite Hr. repeat case_decide; try done; exfalso; naive_solver.
  - intros pid Hp. destruct (Hids pid Hp) as (n & p & ? & ? & ?). eauto 8.
Qed.

(** A clone starts with the right people.  The active roles in the new instance
    are exactly these: the teachers the student information system names; the
    assistants of the original, if they are cloned; the cloning user and, if they
    are cloned, the teachers of the original.  Nobody else has a role, no
    enrollment of any other instance changes, and the clone is hidden from
    students. *)
Theorem clone_roles cloner instance new_id url name opts db :
  accounts_known instance db ->
  (forall pid, cl_enrollments db !! (new_id, pid) = None) ->
  let '(new, db') := clone cloner instance new_id url name opts db in
  visible_to_students new = false /\ instance_id new = new_id /\
  (forall i pid, i <> new_id -> cl_enrollments db' !! (i, pid) = cl_enrollments db !! (i, pid)) /\
  exists sis_ids : list Z,
    (forall pid, role_at (cl_enrollments db') new_id pid =
       if decide (pid ∈ sis_ids) then Some EnrollmentRole.TEACHER
       else if decide (opt_assistants opts = true /\
                       role_at (cl_enrollments db) (instance_id instance) pid = Some EnrollmentRole.ASSISTANT)
       then Some EnrollmentRole.ASSISTANT
       else if decide (pid = profile_id cloner \/
                       (opt_teachers opts = true /\
                        role_at (cl_enrollments db) (instance_id instance) pid = Some EnrollmentRole.TEACHER))
       then Some EnrollmentRole.TEACHER else None) /\
    (forall pid, pid ∈ sis_ids -> exists coursedata n p,
       opt_sis opts = Some (Some (Ret coursedata)) /\ n ∈ sis_teachers coursedata /\
       (n, p) ∈ cl_users db' /\ profile_id p = pid).
Proof.
  intros Hfk Hfresh. unfold clone. cbv zeta.
  pose proof (fun pid => elem_of_profiles_with_role instance EnrollmentRole.TEACHER db pid Hfk) as Ht.
  pose proof (fun pid => elem_of_profiles_with_role instance EnrollmentRole.ASSISTANT db pid Hfk) as Ha.
  set (teachers := profiles_with_role instance EnrollmentRole.TEACHER db) in *.
  set (assistants := profiles_with_role instance EnrollmentRole.ASSISTANT db) in *.
  set (new := renamed new_id url name instance).
  set (db1 := with_enrollments db _).
  assert (Hroles := staffed_roles cloner new teachers assistants opts (cl_enrollments db) Hfresh).
  assert (Hother : forall i pid, i <> new_id -> cl_enrollments db1 !! (i, pid) = cl_enrollments db !! (i, pid)).
  { intros i pid Hi. cbn. unfold staffed, set_teachers, set_assistants, add_teacher.
    destruct (opt_assistants opts), (opt_teachers opts); by rewrite !set_users_other by done. }
  assert (Hall : exists sis_ids : list Z,
    let r := match opt_sis opts with Some sis => set_sis sis new db1 | None => (new, db1) end in
    visible_to_students (fst r) = false /\ instance_id (fst r) = new_id /\
    (forall i pid, i <> new_id -> cl_enrollments (snd r) !! (i, pid) = cl_enrollments db1 !! (i, pid)) /\
    (forall pid, role_at (cl_enrollments (snd r)) new_id pid =
       if decide (pid ∈ sis_ids) then Some EnrollmentRole.TEACHER
       else role_at (cl_enrollments db1) new_id pid) /\
    (forall pid, pid ∈ sis_ids -> exists coursedata n p,
       opt_sis opts = Some (Some (Ret coursedata)) /\ n ∈ sis_teachers coursedata /\
       (n, p) ∈ cl_users (snd r) /\ profile_id p = pid)).
  { by apply sis_roles. }
  destruct Hall as (sis_ids & Hall). destruct (match opt_sis opts with Some _ => _ | None => _ end) as [new' db2].
  cbn in Hall. destruct Hall as (Hv & Hi & Ho & Hr & Hs). split; [done|]. split; [done|].
  split; [intros i pid Hne; cbn; by rewrite Ho, Hother|]. exists sis_ids. split; [|done].
  intros pid. cbn [cl_enrollments]. rewrite Hr.
  change (role_at (cl_enrollments db1) new_id pid)
    with (role_at (staffed cloner new teachers assistants opts (cl_enrollments db)) (instance_id new) pid).
  rewrite Hroles. specialize (Ht pid). specialize (Ha pid).
  repeat case_decide; try done; exfalso; naive_solver.
Qed.

(** ** Witnesses and observations *)

Definition clone_instance : CourseInstance :=
  mkInstance 1 1 "Spring" "spring" true EnrollmentAudience.ALL_USERS ViewAccess.PUBLIC
    0 (days 100) None None None None "|en|fi|" ContentNumbering.ARABIC ContentNumbering.ARABIC.

Definition person (i : Z) : UserProfile := mkProfile i None "".

(** A teacher (1), an assistant (2) and a student (3) in the original instance. *)
Definition clone_db : CloneDb :=
  mkCloneDb {[ (1, 1) := mkEnrollment EnrollmentRole.TEACHER EnrollmentStatus.ACTIVE false None;
               (1, 2) := mkEnrollment EnrollmentRole.ASSISTANT EnrollmentStatus.ACTIVE false None;
               (1, 3) := mkEnrollment EnrollmentRole.STUDENT EnrollmentStatus.ACTIVE false None ]}
    [(1, "late")]%string [] [("t", person 1); ("a", person 2); ("s", person 3)]%string.

Lemma clone_db_known : accounts_known clone_instance clone_db.
Proof.
  intros pid e. cbn. rewrite !lookup_insert_Some, lookup_singleton_Some. intros Hl.
  assert (pid = 1 \/ pid = 2 \/ pid = 3) as Hp by (intuition congruence).
  destruct Hp as [->|[->| ->]]; [exists (person 1)|exists (person 2)|exists (person 3)];
    (split; [apply list_elem_of_In; cbn; auto|reflexivity]).
Qed.

Lemma clone_roles_witness :
  let '(new, db') := clone (person 1) clone_instance 2 "fall" "Fall" (mkOptions true true true false
                       (Some (Some (Ret (mkCourseData None None ["new"]%string))))) clone_db in
  visible_to_students new = false /\
  (fun pid => role_at (cl_enrollments db') 2 pid) <$> [1; 2; 3; 4]
  = [Some EnrollmentRole.TEACHER; Some EnrollmentRole.ASSISTANT; None; Some EnrollmentRole.TEACHER] /\
  cl_usertags db' = [(1, "late"); (2, "late")]%string.
Proof.
  pose proof (clone_roles (person 1) clone_instance 2 "fall" "Fall" (mkOptions true true true false
                       (Some (Some (Ret (mkCourseData None None ["new"]%string))))) clone_db clone_db_known) as Hc.
  destruct (clone _ _ _ _ _ _ _) as [new db'] eqn:E.
  split; [apply Hc|].
  - intros pid. cbn. rewrite !lookup_insert_ne, lookup_singleton_ne by congruence. reflexivity.
  - vm_compute in E. injection E as <- <-. split; vm_compute; reflexivity.
Defined.

(** A cloning user who is an assistant of the original loses the teacher role that
    the clone was to have at least once. *)
Lemma cloning_assistant_is_no_teacher :
  role_at (cl_enrollments (snd (clone (person 2) clone_instance 2 "fall" "Fall"
             (mkOptions false true false false None) clone_db))) 2 2 = Some EnrollmentRole.ASSISTANT.
Proof. vm_compute. reflexivity. Qed.
