(* ===== verification/Reports.v ===== *)
(** * Reports of submissions and results

    [exercise/api/csv/]: the tables that the staff and students download.  The best
    submissions of every student ([submission_sheet.py]), the table of submissions,
    the results of students by exercise ([aggregate_points.py]) and by level of the
    content ([aggregate_sheet.py]).  Points of exercises whose feedback is hidden from
    the reader must not be told by any of them. *)

From Stdlib Require Import QArith.
From S2P Require Import Prelude Lists Helpers Course Models Exercise Submission.
#[local] Open Scope Z_scope.

(** ** The best submissions *)

Section Best.
(** The exercises revealed to the reader, whether submissions of every status are
    wanted, the grading modes. *)
Context (revealed_ids : gset Z) (include_all_submissions : bool) (mode : Z -> GradingMode.t).

(** The submissions that are considered. *)
Definition considered (s : Submission) : bool :=
  bool_decide (sub_status s = SubStatus.READY) || include_all_submissions.

(** [s.submitters.first()]; the submitters are in the order of their ids. *)
Definition first_submitter (s : Submission) : Z :=
  match submitters s with
  | p :: _ => profile_id p
  | [] => 0
  end.

(** The points the reader may know. *)
Definition shown_grade (s : Submission) : Z :=
  if bool_decide (sub_exercise s ∈ revealed_ids) then grade s else 0.

(** The choice made so far in one exercise: for a submitter the label of a submission
    and its points, and the submitters whose submission is forced. *)
Definition Choices (A : Type) : Type := list (Z * (A * Z)) * list Z.

(** src/exercise/api/csv/submission_sheet.py: filter_best_submissions lines 24-38.  One
    submission with its label. *)
Definition choose {A} (st : Choices A) (x : A * Submission) : Choices A :=
  let '(best, forced) := st in
  let '(i, s) := x in
  if considered s then
    let uid := first_submitter s in
    let g := shown_grade s in
    let '(best, forced) :=
      if force_exercise_points s then (od_set uid (i, g) best, uid :: forced) else (best, forced) in
    if bool_decide (uid ∈ forced) then (best, forced)
    else
      match od_get uid best with
      | None => (od_set uid (i, g) best, forced)
      | Some old =>
          if (old.2 <=? g) || bool_decide (mode (sub_exercise s) = GradingMode.LAST)
          then (od_set uid (i, g) best, forced) else (best, forced)
      end
  else (best, forced).

(** The choices of all exercises, and the exercise of the submission before. *)
Record BestState (A : Type) := mkBest {
  be_eid : option Z;
  be_best : list (Z * list (Z * (A * Z)));
  be_forced : list (Z * list Z);
}.
Arguments mkBest {A} _ _ _.
Arguments be_eid {A} _.
Arguments be_best {A} _.
Arguments be_forced {A} _.

Definition best_step {A} (st : BestState A) (x : A * Submission) : BestState A :=
  let eid := sub_exercise x.2 in
  let st :=
    if bool_decide (be_eid st = Some eid) then st
    else mkBest (Some eid) (od_set eid [] (be_best st)) (od_set eid [] (be_forced st)) in
  let '(best, forced) := choose (default [] (od_get eid (be_best st)), default [] (od_get eid (be_forced st))) x in
  mkBest (be_eid st) (od_set eid best (be_best st)) (od_set eid forced (be_forced st)).

Definition run_best {A} (l : list (A * Submission)) : BestState A := foldl best_step (mkBest None [] []) l.

Definition chosen {A} (st : BestState A) : list A := be_best st ≫= fun e => (fun u => u.2.1) <$> e.2.

(** src/exercise/api/csv/submission_sheet.py: filter_best_submissions *)
Definition filter_best_submissions (submissions : list Submission) : list Submission :=
  omap (fun i => submissions !! i) (chosen (run_best (imap pair submissions))).

(** ** A reference definition *)

(** The values of a list in the order of their first occurrences. *)
Definition firsts (l : list Z) : list Z :=
  foldl (fun acc x => if bool_decide (x ∈ acc) then acc else acc ++ [x]) [] l.

(** The last of the submissions with the most points. *)
Definition last_best (l : list Submission) : option Submission :=
  foldl (fun o s => match o with
                    | Some b => if shown_grade b <=? shown_grade s then Some s else Some b
                    | None => Some s
                    end) None l.

(** The submission that counts among those of one submitter in one exercise: the last
    forced one, else by the grading mode the last or the best. *)
Definition pick (e : Z) (l : list Submission) : option Submission :=
  match last (List.filter force_exercise_points l) with
  | Some s => Some s
  | None => if bool_decide (mode e = GradingMode.LAST) then last l else last_best l
  end.

Definition of_submitter (u : Z) (l : list Submission) : list Submission :=
  List.filter (fun s => first_submitter s =? u) l.

Definition best_of_exercise (e : Z) (l : list Submission) : list Submission :=
  let l := List.filter considered l in
  omap (fun u => pick e (of_submitter u l)) (firsts (first_submitter <$> l)).

Definition best_submissions (l : list Submission) : list Submission :=
  groupby sub_exercise l ≫= fun g => best_of_exercise g.1 g.2.

Lemma firsts_snoc l x : firsts (l ++ [x]) = if bool_decide (x ∈ firsts l) then firsts l else firsts l ++ [x].
Proof. unfold firsts. by rewrite foldl_app. Qed.

Lemma elem_of_firsts l x : x ∈ firsts l <-> x ∈ l.
Proof.
  induction l as [|y l IH] using rev_ind; [done|]. rewrite firsts_snoc, elem_of_app, list_elem_of_singleton, <- IH.
  case_bool_decide; [naive_solver|]. rewrite elem_of_app, list_elem_of_singleton. done.
Qed.

Lemma of_submitter_snoc u l s :
  of_submitter u (l ++ [s]) = of_submitter u l ++ (if first_submitter s =? u then [s] else []).
Proof. unfold of_submitter. by rewrite List.filter_app. Qed.

Lemma pick_snoc e l s :
  pick e (l ++ [s]) =
  if force_exercise_points s then Some s
  else match last (List.filter force_exercise_points l) with
       | Some t => Some t
       | None =>
           match pick e l with
           | Some b => if (shown_grade b <=? shown_grade s) || bool_decide (mode e = GradingMode.LAST)
                       then Some s else Some b
           | None => Some s
           end
       end.
Proof.
  unfold pick. rewrite List.filter_app. cbn. destruct (force_exercise_points s); [by rewrite last_snoc|].
  rewrite app_nil_r. destruct (last (List.filter _ l)); [done|].
  destruct (bool_decide (mode e = GradingMode.LAST)); [rewrite last_snoc; destruct (last l); by rewrite ?orb_true_r|].
  unfold last_best. rewrite foldl_app. cbn. destruct (foldl _ _ l) as [b|]; [|done]. by rewrite orb_false_r.
Qed.

(** The choices after some submissions of an exercise. *)
Record choices_ok (e : Z) (l : list Submission) (st : Choices Submission) : Prop := {
  co_keys : st.1.*1 = firsts (first_submitter <$> l);
  co_best : forall u, od_get u st.1 = (fun s => (s, shown_grade s)) <$> pick e (of_submitter u l);
  co_forced : forall u, u ∈ st.2 <-> is_Some (last (List.filter force_exercise_points (of_submitter u l)));
}.

Lemma od_set_choice_ok e l st s forced :
  choices_ok e l st ->
  pick e (of_submitter (first_submitter s) (l ++ [s])) = Some s ->
  (forall u, u ∈ forced <-> is_Some (last (List.filter force_exercise_points (of_submitter u (l ++ [s]))))) ->
  choices_ok e (l ++ [s]) (od_set (first_submitter s) (s, shown_grade s) st.1, forced).
Proof.
  intros [Hk Hb Hf] Hp Hf'. split; cbn; [| |done].
  - rewrite od_set_keys, Hk, fmap_app. cbn. rewrite firsts_snoc.
    destruct (decide (first_submitter s ∈ firsts (first_submitter <$> l))) as [H|H];
      [by rewrite bool_decide_eq_true_2|by rewrite bool_decide_eq_false_2].
  - intros u. rewrite od_get_set. case_decide as Hu; [subst u; by rewrite Hp|].
    rewrite of_submitter_snoc, (proj2 (Z.eqb_neq _ _)), app_nil_r by congruence. apply Hb.
Qed.

Lemma forced_snoc l st e s :
  choices_ok e l st -> force_exercise_points s = false -> forall u,
  u ∈ st.2 <-> is_Some (last (List.filter force_exercise_points (of_submitter u (l ++ [s])))).
Proof.
  intros Hok Hs u. rewrite (co_forced _ _ _ Hok), of_submitter_snoc, List.filter_app.
  destruct (_ =? _); cbn; rewrite ?Hs; by rewrite app_nil_r.
Qed.

Lemma keep_choice_ok e l st s :
  choices_ok e l st -> force_exercise_points s = false -> is_Some (pick e (of_submitter (first_submitter s) l)) ->
  pick e (of_submitter (first_submitter s) (l ++ [s])) = pick e (of_submitter (first_submitter s) l) ->
  choices_ok e (l ++ [s]) st.
Proof.
  intros Hok Hs Hp Hpick. split; [| |by apply (forced_snoc l st e)].
  - rewrite (co_keys _ _ _ Hok), fmap_app. cbn. rewrite firsts_snoc, bool_decide_eq_true_2; [done|].
    rewrite <- (co_keys _ _ _ Hok). apply od_get_Some. rewrite (co_best _ _ _ Hok). by apply fmap_is_Some.
  - intros u. rewrite (co_best _ _ _ Hok). f_equal.
    destruct (decide (u = first_submitter s)) as [->|Hne]; [by rewrite Hpick|].
    by rewrite of_submitter_snoc, (proj2 (Z.eqb_neq _ _)), app_nil_r by congruence.
Qed.

Lemma choose_ok e l st s :
  sub_exercise s = e -> considered s = true -> choices_ok e l st -> choices_ok e (l ++ [s]) (choose st (s, s)).
Proof.
  intros He Hc Hok. pose proof Hok as [_ Hb Hf]. destruct st as [best forced]. cbn [choose fst snd] in *. rewrite Hc.
  assert (Hpick := pick_snoc e (of_submitter (first_submitter s) l) s).
  assert (Hsnoc : of_submitter (first_submitter s) (l ++ [s]) = of_submitter (first_submitter s) l ++ [s])
    by (by rewrite of_submitter_snoc, Z.eqb_refl).
  rewrite <- Hsnoc in Hpick. destruct (force_exercise_points s) eqn:Hs.
  - rewrite bool_decide_eq_true_2 by (by left).
    apply (od_set_choice_ok e l (best, forced) s (first_submitter s :: forced)); [done|done|].
    intros v. rewrite elem_of_cons, Hf, of_submitter_snoc, List.filter_app.
    destruct (Z.eqb_spec (first_submitter s) v) as [<-|Hne]; cbn; rewrite ?Hs, ?last_snoc; [by split; eauto|].
    rewrite app_nil_r. naive_solver.
  - pose proof (forced_snoc l (best, forced) e s Hok Hs) as Hsame. rewrite He, Hb.
    destruct (last (List.filter _ (of_submitter (first_submitter s) l))) as [t|] eqn:El.
    + rewrite bool_decide_eq_true_2 by (apply Hf; rewrite El; eauto).
      apply (keep_choice_ok e l (best, forced) s Hok Hs); [unfold pick; rewrite El; by eauto|].
      rewrite Hpick. unfold pick. by rewrite El.
    + rewrite bool_decide_eq_false_2 by (rewrite Hf, El; by intros [? ?]).
      destruct (pick e (of_submitter (first_submitter s) l)) as [b|] eqn:Ep; cbn [fmap option_fmap option_map snd].
      * destruct ((shown_grade b <=? shown_grade s) || _) eqn:Eg; [by apply (od_set_choice_ok e l (best, forced) s forced)|].
        apply (keep_choice_ok e l (best, forced) s Hok Hs); rewrite Ep; [by eauto|done].
      * by apply (od_set_choice_ok e l (best, forced) s forced).
Qed.

(** One exercise: what the loop chooses is what the reference picks. *)
Lemma choose_exercise e l :
  Forall (fun s => sub_exercise s = e) l ->
  let st := foldl choose ([], []) ((fun s => (s, s)) <$> l) in
  choices_ok e (List.filter considered l) st /\ (fun u => u.2.1) <$> st.1 = best_of_exercise e l.
Proof.
  intros Hl. cbv zeta.
  assert (Hok : choices_ok e (List.filter considered l) (foldl choose ([], []) ((fun s => (s, s)) <$> l))).
  { induction l as [|s l IH] using rev_ind.
    - split; [done|intros u; unfold pick; cbn; by case_bool_decide|]. cbn. intros u. split; [by intros ?%elem_of_nil|by intros [? ?]].
    - apply Forall_app in Hl as [Hl Hs]. inversion_clear Hs. rewrite fmap_app, foldl_app, List.filter_app. cbn [fmap list_fmap foldl List.filter].
      destruct (considered s) eqn:Hc; [by apply choose_ok; auto|]. rewrite app_nil_r.
      destruct (foldl _ _ _) as [best forced]. cbn [choose]. rewrite Hc. by apply IH. }
  split; [done|]. unfold best_of_exercise. destruct Hok as [Hk Hb _]. rewrite <- Hk.
  set (st := foldl _ _ _) in *. clearbody st.
  assert (Hn : NoDup st.1.*1).
  { rewrite Hk. clear. induction (first_submitter <$> _) as [|x us IH] using rev_ind; [constructor|].
    rewrite firsts_snoc. case_bool_decide; [done|]. by apply NoDup_snoc. }
  assert (Hall : forall x, x ∈ st.1 -> pick e (of_submitter x.1 (List.filter considered l)) = Some x.2.1).
  { intros [u [s g]] Hx. apply elem_of_od_get in Hx; [|done]. rewrite Hb in Hx. cbn.
    destruct (pick _ _) as [s'|]; [|done]. by injection Hx as -> _. }
  clear Hk Hb Hn. induction st.1 as [|x d IH]; [done|]. cbn. rewrite (Hall x) by (by left). cbn. f_equal.
  apply IH. intros y Hy. apply Hall. by right.
Qed.

(** ** Labels *)

(** Only the labels of the submissions depend on what they are. *)
Section Labels.
Context {A B : Type} (f : A -> B).

Definition relabel (x : A * Z) : B * Z := (f x.1, x.2).
Definition relabel_state (st : BestState A) : BestState B :=
  mkBest (be_eid st) (od_map (od_map relabel) (be_best st)) (be_forced st).

Lemma choose_relabel best forced a s :
  choose (od_map relabel best, forced) (f a, s)
  = (od_map relabel (choose (best, forced) (a, s)).1, (choose (best, forced) (a, s)).2).
Proof.
  cbn [choose]. destruct (considered s); [|done].
  change (f a, shown_grade s) with (relabel (a, shown_grade s)). rewrite !od_set_map.
  destruct (force_exercise_points s); [by rewrite !bool_decide_eq_true_2 by (by left)|].
  case_bool_decide; [done|]. rewrite od_get_map. destruct (od_get _ best) as [old|];
    cbn [fmap option_fmap option_map relabel fst snd]; rewrite od_set_map; [|done]. by destruct (_ || _).
Qed.

Lemma best_step_relabel st a s : best_step (relabel_state st) (f a, s) = relabel_state (best_step st (a, s)).
Proof.
  unfold best_step. cbn [relabel_state be_eid be_best be_forced snd].
  assert (Hcase : forall st1 : BestState A,
    (let '(best, forced) := choose (default [] (od_get (sub_exercise s) (be_best (relabel_state st1))),
                                    default [] (od_get (sub_exercise s) (be_forced (relabel_state st1)))) (f a, s) in
     mkBest (be_eid (relabel_state st1)) (od_set (sub_exercise s) best (be_best (relabel_state st1)))
       (od_set (sub_exercise s) forced (be_forced (relabel_state st1))))
    = relabel_state (let '(best, forced) := choose (default [] (od_get (sub_exercise s) (be_best st1)),
                                    default [] (od_get (sub_exercise s) (be_forced st1))) (a, s) in
      mkBest (be_eid st1) (od_set (sub_exercise s) best (be_best st1)) (od_set (sub_exercise s) forced (be_forced st1)))).
  { intros [eid best forced]. cbn [relabel_state be_eid be_best be_forced]. rewrite od_get_map.
    replace (default [] (od_map relabel <$> od_get (sub_exercise s) best))
      with (od_map relabel (default [] (od_get (sub_exercise s) best))) by (by destruct (od_get _ _)).
    rewrite choose_relabel. destruct (choose _ _) as [b' f']. cbn. by rewrite od_set_map. }
  case_bool_decide; [apply Hcase|].
  rewrite <- (Hcase (mkBest (Some (sub_exercise s)) (od_set (sub_exercise s) [] (be_best st)) (od_set (sub_exercise s) [] (be_forced st)))).
  cbn [relabel_state be_eid be_best be_forced]. by rewrite <- (od_set_map (od_map relabel) _ []).
Qed.

Lemma run_best_relabel l : run_best ((fun x => (f x.1, x.2)) <$> l) = relabel_state (run_best l).
Proof.
  unfold run_best. induction l as [|[a s] l IH] using rev_ind; [done|].
  rewrite fmap_app, !foldl_app, IH. cbn. apply best_step_relabel.
Qed.

Lemma chosen_relabel st : chosen (relabel_state st) = f <$> chosen st.
Proof.
  unfold chosen. cbn [relabel_state be_best]. induction (be_best st) as [|[e d] l IH]; [done|].
  change (od_map (od_map relabel) ((e, d) :: l)) with ((e, od_map relabel d) :: od_map (od_map relabel) l).
  rewrite !bind_cons, IH, fmap_app. f_equal. unfold od_map. cbn [snd]. rewrite <- !list_fmap_compose. done.
Qed.
End Labels.

Definition itself (l : list Submission) : list (Submission * Submission) := (fun s => (s, s)) <$> l.

(** The positions in the loop stand for the submissions themselves. *)
Lemma filter_best_labels l : filter_best_submissions l = chosen (run_best (itself l)).
Proof.
  unfold filter_best_submissions.
  assert (E : (fun x : nat * Submission => (l !! x.1, x.2)) <$> imap pair l
              = (fun x : Submission * Submission => (Some x.1, x.2)) <$> itself l).
  { apply list_eq. intros i. unfold itself. rewrite !list_lookup_fmap, list_lookup_imap.
    destruct (l !! i) as [s|] eqn:El; [|done]. cbn. by rewrite El. }
  pose proof (run_best_relabel (fun i => l !! i) (imap pair l)) as H1.
  pose proof (run_best_relabel (@Some Submission) (itself l)) as H2. cbn beta in H1. rewrite E, H2 in H1.
  apply (f_equal chosen) in H1. rewrite !chosen_relabel in H1.
  assert (Homap : forall ps : list nat, omap (fun i => l !! i) ps = omap id ((fun i => l !! i) <$> ps)).
  { induction ps as [|i ps IH]; [done|]. cbn. by rewrite IH. }
  rewrite Homap, <- H1. generalize (chosen (run_best (itself l))). intros c.
  induction c as [|s c IH]; [done|]. cbn. f_equal. exact IH.
Qed.

(** ** The loop over the exercises *)

Lemma best_step_same e B F b f x :
  sub_exercise x.2 = e -> e ∉ B.*1 -> e ∉ F.*1 ->
  best_step (A := Submission) (mkBest (Some e) (B ++ [(e, b)]) (F ++ [(e, f)])) x
  = mkBest (Some e) (B ++ [(e, (choose (b, f) x).1)]) (F ++ [(e, (choose (b, f) x).2)]).
Proof.
  intros He HB HF. unfold best_step. cbn [be_eid be_best be_forced]. rewrite He, bool_decide_eq_true_2 by done.
  cbn [be_eid be_best be_forced]. rewrite !od_get_last by done. cbn [default from_option id].
  destruct (choose (b, f) x) as [b' f']. by rewrite !od_set_last.
Qed.

Lemma best_steps_same e B F l : forall b f,
  Forall (fun s => sub_exercise s = e) l -> e ∉ B.*1 -> e ∉ F.*1 ->
  foldl best_step (mkBest (Some e) (B ++ [(e, b)]) (F ++ [(e, f)])) (itself l)
  = mkBest (Some e) (B ++ [(e, (foldl choose (b, f) (itself l)).1)]) (F ++ [(e, (foldl choose (b, f) (itself l)).2)]).
Proof.
  induction l as [|s l IH]; intros b f Hl HB HF; [done|]. inversion_clear Hl. unfold itself. cbn [fmap list_fmap foldl].
  rewrite best_step_same by done. rewrite IH by done. by rewrite <- surjective_pairing.
Qed.

(** A block of submissions of an exercise that is new to the loop. *)
Lemma best_block e st l :
  l <> [] -> Forall (fun s => sub_exercise s = e) l -> e ∉ (be_best st).*1 -> e ∉ (be_forced st).*1 -> be_eid st <> Some e ->
  let c := foldl choose ([], []) (itself l) in
  foldl best_step st (itself l) = mkBest (Some e) (be_best st ++ [(e, c.1)]) (be_forced st ++ [(e, c.2)]).
Proof.
  intros Hne Hl HB HF He. destruct l as [|s l]; [done|]. inversion Hl as [|? ? Hs Hl']; subst. cbv zeta.
  unfold itself. cbn [fmap list_fmap foldl].
  assert (E : best_step st (s, s) = mkBest (Some (sub_exercise s)) (be_best st ++ [(sub_exercise s, (choose ([], []) (s, s)).1)])
                                       (be_forced st ++ [(sub_exercise s, (choose ([], []) (s, s)).2)])).
  { unfold best_step. cbn [snd]. rewrite bool_decide_eq_false_2 by done. cbn [be_eid be_best be_forced].
    rewrite !od_set_new by done. rewrite !od_get_last by done. cbn [default from_option id].
    destruct (choose ([], []) (s, s)) as [b' f']. by rewrite !od_set_last. }
  rewrite E, best_steps_same by done. by rewrite <- surjective_pairing.
Qed.

Lemma run_blocks (bs : list (Z * list Submission)) : forall st,
  NoDup bs.*1 -> Forall (fun b => b.2 <> [] /\ Forall (fun s => sub_exercise s = b.1) b.2) bs ->
  (forall e, e ∈ bs.*1 -> (e ∉ (be_best st).*1) /\ (e ∉ (be_forced st).*1) /\ be_eid st <> Some e) ->
  chosen (foldl best_step st (itself (concat bs.*2))) = chosen st ++ (bs ≫= fun g => best_of_exercise g.1 g.2).
Proof.
  induction bs as [|[e g] bs IH]; intros st Hn Hb Hst; [cbn; by rewrite app_nil_r|].
  cbn in Hn. inversion_clear Hn as [|? ? Hn1 Hn2]. inversion_clear Hb as [|? ? [Hg1 Hg2] Hb']. cbn [fst snd] in *.
  destruct (Hst e) as (H1 & H2 & H3); [by left|].
  cbn [fmap list_fmap concat snd]. unfold itself. rewrite fmap_app, foldl_app. fold (itself g). fold (itself (concat bs.*2)).
  rewrite (best_block e st g) by done. rewrite IH; [|done|done|].
  - rewrite bind_cons. unfold chosen. cbn [be_best]. rewrite bind_app, <- app_assoc. f_equal. cbn [mbind list_bind snd].
    rewrite app_nil_r. f_equal. apply (choose_exercise e g Hg2).
  - intros e' He'. cbn [be_best be_forced be_eid]. destruct (Hst e') as (G1 & G2 & G3); [by right|].
    assert (Hne : e' <> e) by (by intros ->). rewrite !fmap_app. cbn.
    split_and!; [| |congruence]; intros [?|?%list_elem_of_singleton]%elem_of_app; done.
Qed.

(** The best submissions of a report.  For submissions in the order of their
    exercises the one loop with its dictionaries selects exactly, in every exercise and
    for every first submitter in the order of appearance, the last forced submission,
    else by the grading mode the last submission or the last of those with the most
    points the reader may know. *)
Theorem filter_best_submissions_spec l :
  NoDup (groupby sub_exercise l).*1 -> filter_best_submissions l = best_submissions l.
Proof.
  intros Hn. rewrite filter_best_labels. unfold run_best, best_submissions.
  rewrite <- (groupby_concat sub_exercise l) at 1. rewrite run_blocks; [done|done| |].
  - eapply Forall_impl; [apply (groupby_keys sub_exercise l)|]. by intros [k g].
  - intros e _. cbn. split_and!; [apply not_elem_of_nil|apply not_elem_of_nil|done].
Qed.
End Best.

Arguments mkBest {A} _ _ _.
Arguments be_eid {A} _.
Arguments be_best {A} _.
Arguments be_forced {A} _.

(** ** The table of submissions *)

(** A cell of the table. *)
Inductive Cell := CInt (z : Z) | CText (s : string) | CNone | CBool (b : bool) | CPenalty (q : option Q).

Abbreviation Row := (list (string * Cell)).

(** What the table shows of a submission besides its own columns, by its id, and of
    its exercise, by the exercise's id. *)
Record SheetInfo := mkSheetInfo {
  si_category : Z -> string;
  si_title : Z -> string;
  si_form_spec : Z -> list (string * string);
  si_email : Z -> string;
  si_tags : Z -> list string;
  si_notification : Z -> option bool;
  si_data : Z -> list (string * string);
  si_files : Z -> list (string * string);
  si_user : UserProfile -> Z * string;
  si_time : option datetime -> string;
}.

(** [t.find(p)] and [t[a:b]] for [a] not negative. *)
Definition py_find (p t : string) : Z :=
  match String.index 0 p t with
  | Some n => Z.of_nat n
  | None => -1
  end.
Definition py_slice (a b : Z) (t : string) : string :=
  let len := Z.of_nat (String.length t) in
  let b := if b <? 0 then Z.max 0 (len + b) else Z.min b len in
  String.substring (Z.to_nat a) (Z.to_nat (b - a)) t.

Definition newline : string := String (Ascii.ascii_of_nat 10) "".
Definition dquote : string := String (Ascii.ascii_of_nat 34) "".

(** src/exercise/api/csv/submission_sheet.py: submissions_sheet lines 84-89 *)
Definition grader_email (info : SheetInfo) (s : Submission) : option string :=
  let email := si_email info <$> grader s in
  let t := feedback s in
  let falsy := match email with Some e => bool_decide (e = ""%string) | None => true end in
  if falsy && startswith (newline +:+ "<p>" +:+ newline +:+ "Reviewer:") t
  then Some (py_slice (py_find ("<a href=" +:+ dquote +:+ "mailto:") t + 16) (py_find (dquote +:+ ">") t) t)
  else email.

Definition opt_text (o : option string) : Cell := match o with Some s => CText s | None => CNone end.

Definition status_name (st : SubStatus.t) : string :=
  match st with
  | SubStatus.INITIALIZED => "initialized"
  | SubStatus.WAITING => "waiting"
  | SubStatus.READY => "ready"
  | SubStatus.ERROR => "error"
  | SubStatus.REJECTED => "rejected"
  | SubStatus.UNOFFICIAL => "unofficial"
  end.

Section Sheet.
Context (revealed_ids : gset Z) (info : SheetInfo).

(** src/exercise/api/csv/submission_sheet.py: submissions_sheet lines 93-111 *)
Definition base_row (s : Submission) : Row :=
  let e := sub_exercise s in
  let n := si_notification info (sub_id s) in
  [("ExerciseID", CInt e); ("Category", CText (si_category info e)); ("Exercise", CText (si_title info e));
   ("SubmissionID", CInt (sub_id s)); ("Time", CText (si_time info (Some (submission_time s))));
   ("UserID", CNone); ("StudentID", CNone); ("Email", CNone);
   ("Status", CText (status_name (sub_status s))); ("Grade", CInt (shown_grade revealed_ids s));
   ("Penalty", CPenalty (late_penalty_applied s)); ("Graded", CText (si_time info (grading_time s)));
   ("Tags", CText (join "|" (si_tags info (sub_id s)))); ("GraderEmail", opt_text (grader_email info s));
   ("Notified", CBool (match n with Some _ => true | None => false end));
   ("NSeen", CBool (default false n))]%string.

Definition add_new (k : string) (l : list string) : list string := if bool_decide (k ∈ l) then l else l ++ [k].

(** The columns of the fields and of the files so far, and the exercise before. *)
Record SheetState := mkSheet {
  sh_sheet : list Row;
  sh_fields : list string;
  sh_files : list string;
  sh_exercise : option Z;
}.

(** src/exercise/api/csv/submission_sheet.py: submissions_sheet lines 70-82.  The columns
    the form of a new exercise announces. *)
Definition form_columns (e : Z) (st : SheetState) : SheetState :=
  let '(fields, files) :=
    foldl (fun '(fields, files) '(t, k) =>
        if bool_decide (t = "file"%string) then (fields, add_new k files)
        else if bool_decide (t = "static"%string) then (fields, files)
        else (add_new k fields, files))
      (sh_fields st, sh_files st) (si_form_spec info e) in
  mkSheet (sh_sheet st) fields files (Some e).

(** src/exercise/api/csv/submission_sheet.py: submissions_sheet lines 113-121.  A value
    whose name is already a column is appended to its text; what is not text raises. *)
Definition put_value (st : result (Row * list string)) (files : list string) (kv : string * string)
    : result (Row * list string) :=
  let! (row, fields) := st in
  let '(k, v) := kv in
  if negb (bool_decide (v = ""%string)) || negb (bool_decide (k ∈ files))
  then let fields := add_new k fields in
       match od_get k row with
       | Some (CText t) => Ret (od_set k (CText (t +:+ "|" +:+ v)) row, fields)
       | Some _ => Raise TypeError
       | None => Ret (od_set k (CText v) row, fields)
       end
  else Ret (row, fields).

Definition put_file (st : Row * list string) (f : string * string) : Row * list string :=
  (od_set f.1 (CText f.2) st.1, add_new f.1 st.2).

(** src/exercise/api/csv/submission_sheet.py: submissions_sheet lines 128-133 *)
Definition submitter_row (row : Row) (p : UserProfile) : Row :=
  let '(uid, email) := si_user info p in
  od_set "Email"%string (CText email)
    (od_set "StudentID"%string (opt_text (student_id p)) (od_set "UserID"%string (CInt uid) row)).

Definition sheet_step (st : result SheetState) (s : Submission) : result SheetState :=
  let! st := st in
  let st := if bool_decide (sh_exercise st = Some (sub_exercise s)) then st else form_columns (sub_exercise s) st in
  let! (row, fields) :=
    foldl (fun acc kv => put_value acc (sh_files st) kv) (Ret (base_row s, sh_fields st)) (si_data info (sub_id s)) in
  let '(row, files) := foldl put_file (row, sh_files st) (si_files info (sub_id s)) in
  Ret (mkSheet (sh_sheet st ++ (submitter_row row <$> submitters s)) fields files (sh_exercise st)).

Definition DEFAULT_FIELDS : list string :=
  ["ExerciseID"; "Category"; "Exercise"; "SubmissionID"; "Time"; "UserID"; "StudentID"; "Email"; "Status";
   "Grade"; "Penalty"; "Graded"; "Tags"; "GraderEmail"; "Notified"; "NSeen"]%string.

(** src/exercise/api/csv/submission_sheet.py: submissions_sheet *)
Definition submissions_sheet (l : list Submission) : result (list Row * list string) :=
  let! st := foldl sheet_step (Ret (mkSheet [] [] [] None)) l in
  Ret (sh_sheet st, DEFAULT_FIELDS ++ sh_fields st ++ sh_files st).
End Sheet.

(** What a request answers: one field of the submissions, or the table. *)
Inductive SubmissionReport := FieldValues (l : list string) | Table (rows : list Row) (columns : list string).

(** src/exercise/api/csv/views.py: CourseSubmissionDataViewSet.serialize_submissions *)
Definition serialize_submissions (revealed_ids : gset Z) (include_all : bool) (mode : Z -> GradingMode.t)
    (info : SheetInfo) (best : bool) (field : string) (submissions : list Submission) : result SubmissionReport :=
  let submissions := if best then filter_best_submissions revealed_ids include_all mode submissions else submissions in
  if bool_decide (field = ""%string)
  then let! (rows, columns) := submissions_sheet revealed_ids info submissions in Ret (Table rows columns)
  else Ret (FieldValues (List.filter (fun v => negb (bool_decide (v = ""%string)))
                           ((fun s => default ""%string (od_get field (si_data info (sub_id s)))) <$> submissions))).

(** ** Hidden points stay hidden *)

(** A submission without what the reader must not know. *)
Definition masked_submission (revealed_ids : gset Z) (s : Submission) : Submission :=
  if bool_decide (sub_exercise s ∈ revealed_ids) then s
  else mkSubmission (sub_id s) (sub_exercise s) (submission_time s) (submitters s) (grader s) (feedback s) (sub_status s)
         (unofficial_submission_type s) 0 (grading_time s) (late_penalty_applied s) (force_exercise_points s) 0 0
         (lti_launch_id s).

Section Masking.
Context (revealed_ids : gset Z) (include_all : bool) (mode : Z -> GradingMode.t) (info : SheetInfo).

Abbreviation mask := (masked_submission revealed_ids).

Lemma mask_fields s :
  sub_id (mask s) = sub_id s /\ sub_exercise (mask s) = sub_exercise s /\ submitters (mask s) = submitters s /\
  sub_status (mask s) = sub_status s /\ force_exercise_points (mask s) = force_exercise_points s /\
  shown_grade revealed_ids (mask s) = shown_grade revealed_ids s.
Proof.
  unfold masked_submission, shown_grade. case_bool_decide as H; [by rewrite bool_decide_eq_true_2|].
  cbn. by rewrite bool_decide_eq_false_2.
Qed.

Lemma best_step_mask {A} (st : BestState A) (a : A) s :
  best_step revealed_ids include_all mode st (a, mask s) = best_step revealed_ids include_all mode st (a, s).
Proof.
  destruct (mask_fields s) as (_ & He & Hs & Hst & Hf & Hg).
  unfold best_step, choose, considered, first_submitter. cbn [snd]. by rewrite He, Hs, Hst, Hf, Hg.
Qed.

Lemma filter_best_mask l :
  filter_best_submissions revealed_ids include_all mode (mask <$> l)
  = mask <$> filter_best_submissions revealed_ids include_all mode l.
Proof.
  unfold filter_best_submissions.
  assert (E : run_best revealed_ids include_all mode (imap pair (mask <$> l))
              = run_best revealed_ids include_all mode (imap pair l)).
  { unfold run_best.
    assert (H : forall (g : nat -> nat) st, foldl (best_step revealed_ids include_all mode) st (imap (fun i s => (g i, s)) (mask <$> l))
        = foldl (best_step revealed_ids include_all mode) st (imap (fun i s => (g i, s)) l)).
    { induction l as [|s l IH]; intros g st; [done|]. cbn. rewrite best_step_mask. apply (IH (g ∘ S)). }
    apply (H id). }
  rewrite E. generalize (chosen (run_best revealed_ids include_all mode (imap pair l))). intros ps.
  induction ps as [|i ps IH]; [done|]. cbn. rewrite list_lookup_fmap.
  destruct (l !! i); cbn; [by f_equal|done].
Qed.

Lemma base_row_mask s : base_row revealed_ids info (mask s) = base_row revealed_ids info s.
Proof.
  unfold base_row. destruct (mask_fields s) as (_ & _ & _ & _ & _ & ->).
  unfold grader_email. by unfold masked_submission; case_bool_decide.
Qed.

Lemma submissions_sheet_mask l : submissions_sheet revealed_ids info (mask <$> l) = submissions_sheet revealed_ids info l.
Proof.
  unfold submissions_sheet.
  assert (H : forall st, foldl (sheet_step revealed_ids info) st (mask <$> l) = foldl (sheet_step revealed_ids info) st l).
  { induction l as [|s l IH]; intros st; [done|]. cbn [fmap list_fmap foldl]. rewrite IH. f_equal.
    destruct (mask_fields s) as (Hi & He & Hs & _). unfold sheet_step. by rewrite base_row_mask, Hi, He, Hs. }
  by rewrite H.
Qed.

(** C29. A report of submissions does not tell hidden points.  For every reader and
    every list of submissions that the request selects, the field values and the table of submissions, with all or only the best
    submissions, depend on the points of no exercise whose feedback is hidden from the
    reader, not even through the choice of the best submissions or an error. *)
Theorem report_hides_points best field l l' :
  mask <$> l = mask <$> l' ->
  serialize_submissions revealed_ids include_all mode info best field l
  = serialize_submissions revealed_ids include_all mode info best field l'.
Proof.
  assert (H : forall x, serialize_submissions revealed_ids include_all mode info best field (mask <$> x)
                        = serialize_submissions revealed_ids include_all mode info best field x).
  { intros x. unfold serialize_submissions.
    replace (if best then filter_best_submissions revealed_ids include_all mode (mask <$> x) else mask <$> x)
      with (mask <$> (if best then filter_best_submissions revealed_ids include_all mode x else x))
      by (destruct best; [by rewrite filter_best_mask|done]).
    set (c := if best then _ else x). rewrite submissions_sheet_mask. case_bool_decide; [done|].
    assert (Hc : (fun s => default ""%string (od_get field (si_data info (sub_id s)))) <$> (mask <$> c)
                 = (fun s => default ""%string (od_get field (si_data info (sub_id s)))) <$> c).
    { rewrite <- list_fmap_compose. apply list_fmap_ext. intros _ s _. cbn. by destruct (mask_fields s) as [-> _]. }
    by rewrite Hc. }
  intros E. by rewrite <- (H l), <- (H l'), E.
Qed.
End Masking.

(** ** Examples *)

Module Sample.
Definition submission (i e student g : Z) (force : bool) : Submission :=
  mkSubmission i e (days i) [mkProfile student None "aalto.fi"] None "" SubStatus.READY None g (Some (days i)) None force g 100 None.

Definition BEST (e : Z) : GradingMode.t := GradingMode.BEST.

Definition info (data : Z -> list (string * string)) : SheetInfo :=
  mkSheetInfo (fun _ => "c"%string) (fun _ => "e"%string) (fun _ => []) (fun _ => "g"%string) (fun _ => []) (fun _ => None)
    data (fun _ => []) (fun p => (profile_id p, "e"%string)) (fun _ => "t"%string).

Definition some_submissions : list Submission :=
  [submission 1 1 5 10 false; submission 2 1 5 30 false; submission 3 1 6 4 false; submission 4 1 5 20 false;
   submission 5 2 5 9 true; submission 6 2 5 8 true; submission 7 2 5 80 false].

Lemma filter_best_submissions_spec_witness :
  filter_best_submissions {[1; 2]} false BEST some_submissions
  = [submission 2 1 5 30 false; submission 3 1 6 4 false; submission 6 2 5 8 true].
Proof.
  rewrite (filter_best_submissions_spec {[1; 2]} false BEST some_submissions); [by vm_compute|].
  by apply (bool_decide_unpack _); vm_compute.
Defined.

Lemma report_hides_points_witness :
  submission 1 1 5 10 false <> submission 1 1 5 90 false /\
  serialize_submissions ∅ false BEST (info (fun _ => [("a", "b")]%string)) true "" [submission 1 1 5 10 false]
  = serialize_submissions ∅ false BEST (info (fun _ => [("a", "b")]%string)) true "" [submission 1 1 5 90 false].
Proof.
  split; [by intros [=]|].
  apply (report_hides_points ∅ false BEST (info (fun _ => [("a", "b")]%string)) true ""
           [submission 1 1 5 10 false] [submission 1 1 5 90 false]). reflexivity.
Defined.

(** A form field that has the name of a numeric column makes the whole report fail. *)
Lemma field_named_grade_fails_report :
  submissions_sheet ∅ (info (fun i => if i =? 2 then [("Grade", "5")]%string else []))
    [submission 1 1 5 10 false; submission 2 1 5 10 false] = Raise TypeError /\
  exists r, submissions_sheet ∅ (info (fun i => if i =? 2 then [("Answer", "5")]%string else []))
    [submission 1 1 5 10 false; submission 2 1 5 10 false] = Ret r.
Proof. split; [by vm_compute|]. eexists. vm_compute. reflexivity. Qed.

(** A submission after a forced one replaces it when it is forced too. *)
Lemma later_forced_submission_is_considered :
  filter_best_submissions {[2]} false BEST [submission 5 2 5 9 true; submission 6 2 5 8 true]
  = [submission 6 2 5 8 true].
Proof. by vm_compute. Qed.
End Sample.
