(* ===== verification/Results.v ===== *)
(** * Tables of results

    [exercise/api/csv/aggregate_points.py] and [aggregate_sheet.py]: the counts of
    submissions and the points of students, by exercise and by level of the content.
    The rows of the database are grouped by student and exercise; the points in them
    are those the reader may know ([annotate_submitter_points] in Submission.v). *)

From Stdlib Require Import QArith Ascii.
From S2P Require Import Prelude Lists Binary64 Helpers Course Models Exercise Submission Reports.
#[local] Open Scope Z_scope.

(** A row of the aggregate query. *)
Record AggRow := mkAgg { ag_user : Z; ag_exercise : Z; ag_count : Z; ag_total : Z }.

(** A profile with what the table shows of its user. *)
Record ReportUser := mkReportUser {
  ru_id : Z;
  ru_profile : UserProfile;
  ru_email : string;
  ru_first_name : string;
  ru_last_name : string;
}.

(** A cell of the tables: one of the other reports, or a ratio. *)
Inductive RCell := RC (c : Cell) | CRatio (q : Q).
Abbreviation RRow := (list (string * RCell)).

Definition num_cell (z : Z) : RCell := RC (CInt z).

(** The names of columns. *)
Definition count_col (name : string) : string := name +:+ " Count".
Definition total_col (name : string) : string := name +:+ " Total".
Definition ratio_col (name : string) : string := name +:+ " Ratio".

(** ** Results by exercise *)

(** Submission counts and points by exercise, of each user. *)
Abbreviation Agg := (list (Z * list (Z * (Z * Z)))).

(** src/exercise/api/csv/aggregate_points.py: aggregate_points lines 30-38 *)
Definition agg_step (agg : Agg) (r : AggRow) : Agg :=
  let user_row := default [] (od_get (ag_user r) agg) in
  od_set (ag_user r) (od_set (ag_exercise r) (ag_count r, ag_total r) user_row) agg.

Definition points_agg (rows : list AggRow) : Agg := foldl agg_step [] rows.

Section AggregatePoints.
Context `{Settings}.
(** The labels of users in lower case. *)
Context (external_label internal_label : string).

(** The tags of a profile, of the taggings as pairs of a profile and a tag. *)
Definition profile_tags (taggings : list (Z * Z)) (p : UserProfile) : list string :=
  (if is_external p then external_label else internal_label)
  :: (str_of_Z ∘ snd <$> List.filter (fun t => t.1 =? profile_id p) taggings).

(** src/exercise/api/csv/aggregate_points.py: aggregate_points lines 59-66 *)
Definition points_base (taggings : list (Z * Z)) (u : ReportUser) : RRow :=
  let p := ru_profile u in
  [("UserID", num_cell (ru_id u)); ("Email", RC (CText (ru_email u))); ("StudentID", RC (opt_text (student_id p)));
   ("Name", RC (CText (ru_first_name u +:+ " " +:+ ru_last_name u)));
   ("Tags", RC (CText (join "|" (profile_tags taggings p)))); ("Organization", RC (CText (organization p)))]%string.

(** src/exercise/api/csv/aggregate_points.py: aggregate_points lines 76-81 *)
Definition exercise_cells (st : RRow * Z * Z) (x : Z * (Z * Z)) : RRow * Z * Z :=
  let '(row, subs, score) := st in
  let '(e, (count, total)) := x in
  (od_set (total_col (str_of_Z e)) (num_cell total) (od_set (count_col (str_of_Z e)) (num_cell count) row),
   subs + count, score + total).

(** src/exercise/api/csv/aggregate_points.py: aggregate_points lines 46-89 *)
Definition points_row (taggings : list (Z * Z)) (agg : Agg) (u : ReportUser) : RRow :=
  match od_get (ru_id u) agg with
  | None => points_base taggings u
  | Some user_row =>
      let '(row, subs, score) := foldl exercise_cells (points_base taggings u, 0, 0) user_row in
      od_set "Total"%string (num_cell score) (od_set "Count"%string (num_cell subs) row)
  end.

(** src/exercise/api/csv/aggregate_points.py: aggregate_points *)
Definition aggregate_points (profiles : list ReportUser) (taggings : list (Z * Z)) (exercises : list Z)
    (aggregate : list AggRow) : list RRow * list string :=
  (points_row taggings (points_agg aggregate) <$> profiles,
   ["UserID"; "StudentID"; "Email"; "Name"; "Tags"; "Organization"; "Count"; "Total"]%string
   ++ (exercises ≫= fun e => [count_col (str_of_Z e); total_col (str_of_Z e)])).
End AggregatePoints.

(** ** Results by level *)

(** An entry of the content: a module or a learning object. *)
Record SheetEntry := mkSheetEntry { se_id : Z; se_number : string; se_is_object : bool; se_max_points : Z }.

(** The number of levels of a number, and its first levels. *)
Definition number_level (number : string) : Z := Z.of_nat (length (split "."%char number)).
Definition number_prefix (d : Z) (number : string) : string := join "." (take (Z.to_nat d) (split "."%char number)).

(** The columns so far: the column of each learning object, the maximum points and
    the order of the columns, and the current column. *)
Record Columns := mkColumns {
  co_map : list (Z * string);
  co_max : list (string * Z);
  co_nums : list string;
  co_num : option string;
}.

Definition add_max (num : string) (z : Z) (m : list (string * Z)) : list (string * Z) :=
  od_set num (default 0 (od_get num m) + z) m.

(** src/exercise/api/csv/aggregate_sheet.py: aggregate_sheet lines 34-58.  One entry. *)
Definition columns_step (d : Z) (c : Columns) (e : SheetEntry) : Columns :=
  let level := number_level (se_number e) in
  let enum := number_prefix d (se_number e) in
  if (level =? d) || ((d <? level) && negb (bool_decide (co_num c = Some enum)))
  then
    let num := if level =? d then se_number e else enum in
    let max := od_set num 0 (co_max c) in
    if se_is_object e
    then mkColumns (od_set (se_id e) num (co_map c)) (add_max num (se_max_points e) max) (co_nums c ++ [num]) (Some num)
    else mkColumns (co_map c) max (co_nums c ++ [num]) (Some num)
  else if d <? level
  then mkColumns (od_set (se_id e) (default enum (co_num c)) (co_map c))
         (add_max (default enum (co_num c)) (se_max_points e) (co_max c)) (co_nums c) (co_num c)
  else c.

(** The level below the number that was asked for. *)
Definition sheet_level (number : string) : Z :=
  1 + (if bool_decide (number = ""%string) then 0 else number_level number).

Definition sheet_columns (number : string) (entries : list SheetEntry) : Columns :=
  foldl (columns_step (sheet_level number)) (mkColumns [] [] [] None) entries.

(** src/exercise/api/csv/aggregate_sheet.py: aggregate_sheet lines 60-71 *)
Definition sheet_agg_step (map : list (Z * string)) (agg : list (Z * list (string * (Z * Z)))) (r : AggRow)
    : list (Z * list (string * (Z * Z))) :=
  match od_get (ag_exercise r) map with
  | None => agg
  | Some num =>
      let user_row := default [] (od_get (ag_user r) agg) in
      let values := default (0, 0) (od_get num user_row) in
      od_set (ag_user r) (od_set num (values.1 + ag_count r, values.2 + ag_total r) user_row) agg
  end.

Definition sheet_agg (map : list (Z * string)) (rows : list AggRow) := foldl (sheet_agg_step map) [] rows.

(** src/exercise/api/csv/aggregate_sheet.py: aggregate_sheet lines 73-78 *)
Definition sheet_tags (taggings : list (Z * Z)) : list (Z * list string) :=
  foldl (fun tags t => od_set t.1 (default [] (od_get t.1 tags) ++ [str_of_Z t.2]) tags) [] taggings.

Definition sheet_ratio (count total maxp : Z) : Q :=
  if 0 <? maxp then int_truediv total maxp else if 0 <? count then inject_Z 1 else inject_Z 0.

(** src/exercise/api/csv/aggregate_sheet.py: aggregate_sheet lines 92-100 *)
Definition sheet_cells (c : Columns) (user_row : list (string * (Z * Z))) (row : RRow) (num : string) : RRow :=
  let values := default (0, 0) (od_get num user_row) in
  let maxp := default 0 (od_get num (co_max c)) in
  od_set (ratio_col num) (CRatio (sheet_ratio values.1 values.2 maxp))
    (od_set (total_col num) (num_cell values.2) (od_set (count_col num) (num_cell values.1) row)).

(** src/exercise/api/csv/aggregate_sheet.py: aggregate_sheet lines 81-101 *)
Definition sheet_row `{Settings} (tags : list (Z * list string)) (c : Columns) (agg : list (Z * list (string * (Z * Z))))
    (u : ReportUser) : RRow :=
  let p := ru_profile u in
  let user_tags := (if is_external p then "mooc"%string else "aalto"%string) :: default [] (od_get (ru_id u) tags) in
  foldl (sheet_cells c (default [] (od_get (ru_id u) agg)))
    [("UserID", num_cell (ru_id u)); ("StudentID", RC (opt_text (student_id p))); ("Email", RC (CText (ru_email u)));
     ("Tags", RC (CText (join "|" user_tags)))]%string
    (co_nums c).

(** src/exercise/api/csv/aggregate_sheet.py: aggregate_sheet.  Taggings are pairs of a
    profile and a tag. *)
Definition aggregate_sheet `{Settings} (profiles : list ReportUser) (taggings : list (Z * Z)) (exercises : list SheetEntry)
    (aggregate : list AggRow) (number : string) : list RRow * list string :=
  let c := sheet_columns number exercises in
  (sheet_row (sheet_tags taggings) c (sheet_agg (co_map c) aggregate) <$> profiles,
   ["UserID"; "StudentID"; "Email"; "Tags"]%string
   ++ (co_nums c ≫= fun n => [count_col n; total_col n; ratio_col n])).

(** ** Counts and points by exercise *)

Definition rows_of_user (uid : Z) (rows : list AggRow) : list AggRow := List.filter (fun r => ag_user r =? uid) rows.

Definition row_entry (r : AggRow) : Z * (Z * Z) := (ag_exercise r, (ag_count r, ag_total r)).

Lemma rows_of_user_snoc uid rows r :
  rows_of_user uid (rows ++ [r]) = rows_of_user uid rows ++ (if ag_user r =? uid then [r] else []).
Proof. unfold rows_of_user. by rewrite List.filter_app. Qed.

(** The dictionary of a user holds the rows of the user. *)
Lemma points_agg_get rows uid :
  NoDup ((fun r => (ag_user r, ag_exercise r)) <$> rows) ->
  od_get uid (points_agg rows)
  = match rows_of_user uid rows with [] => None | l => Some (row_entry <$> l) end.
Proof.
  induction rows as [|r rows IH] using rev_ind; intros Hn; [done|]. rewrite fmap_app in Hn.
  apply NoDup_app in Hn as (Hn & Hr & _). specialize (IH Hn). unfold points_agg in *. rewrite foldl_app. cbn [foldl].
  unfold agg_step at 1. rewrite od_get_set, rows_of_user_snoc.
  destruct (decide (uid = ag_user r)) as [->|Hne].
  - rewrite Z.eqb_refl, IH.
    assert (Hnew : ag_exercise r ∉ (row_entry <$> rows_of_user (ag_user r) rows).*1).
    { rewrite <- list_fmap_compose. intros (r' & E & Hr')%list_elem_of_fmap. cbn in E.
      apply list_elem_of_In, filter_In in Hr' as [Hr' Hu]. b2p.
      apply (Hr (ag_user r, ag_exercise r)); [|by left]. apply list_elem_of_fmap. exists r'.
      split; [congruence|by apply list_elem_of_In]. }
    destruct (rows_of_user (ag_user r) rows) as [|r0 l] eqn:E; [done|]. cbn [default from_option id].
    rewrite od_set_new by done. cbn. by rewrite fmap_app.
  - rewrite (proj2 (Z.eqb_neq _ _)), app_nil_r by congruence. exact IH.
Qed.

Lemma exercise_cells_sums l : forall row subs score,
  exists row', foldl exercise_cells (row, subs, score) l
  = (row', subs + sumZ ((fun x => x.2.1) <$> l), score + sumZ ((fun x => x.2.2) <$> l)) /\
  (forall k, k ∉ (count_col ∘ str_of_Z ∘ fst <$> l) -> k ∉ (total_col ∘ str_of_Z ∘ fst <$> l) -> od_get k row' = od_get k row) /\
  (NoDup l.*1 -> forall e c t, (e, (c, t)) ∈ l ->
     od_get (count_col (str_of_Z e)) row' = Some (num_cell c) /\ od_get (total_col (str_of_Z e)) row' = Some (num_cell t)).
Proof.
  induction l as [|[e [c t]] l IH]; intros row subs score.
  { exists row. cbn. rewrite !Z.add_0_r. split; [done|]. split; [done|]. by intros _ e c t ?%elem_of_nil. }
  cbn [foldl exercise_cells]. edestruct IH as (row' & E & Hother & Hcells). exists row'. rewrite E. clear E IH.
  split; [unfold sumZ; cbn [fmap list_fmap foldr fst snd]; f_equal; [f_equal|]; lia|]. split.
  - intros k Hc Ht. cbn in Hc, Ht. apply not_elem_of_cons in Hc as [Hc1 Hc2], Ht as [Ht1 Ht2].
    rewrite Hother by done. by rewrite !od_get_set, !decide_False.
  - intros Hn e' c' t' Hin. cbn in Hn. inversion_clear Hn as [|? ? Hn1 Hn2].
    apply elem_of_cons in Hin as [[= -> -> ->]|Hin]; [|by apply Hcells].
    assert (Hne : forall f (g : string -> string), (forall a b, f a = g b -> False) \/ (forall a b, f a = g b -> a = b) ->
      f (str_of_Z e) ∉ (g ∘ str_of_Z ∘ fst <$> l)).
    { intros f g Hfg ([e0 v] & E0 & Hin)%list_elem_of_fmap. cbn in E0. destruct Hfg as [Hfg|Hfg]; [by eapply Hfg|].
      apply Hfg, str_of_Z_inj in E0. apply Hn1. rewrite E0. by apply (list_elem_of_fmap_2 fst l (e0, v)). }
    assert (Hcc : forall a b, count_col a = count_col b -> a = b) by (intros a b; apply append_cancel_r).
    assert (Htt : forall a b, total_col a = total_col b -> a = b) by (intros a b; apply append_cancel_r).
    assert (Hct : forall a b, count_col a = total_col b -> False) by (intros a b; by apply append_suffix_ne).
    assert (Htc : forall a b, total_col a = count_col b -> False) by (intros a b; by apply append_suffix_ne).
    rewrite !Hother by (apply Hne; auto). rewrite !od_get_set.
    split; [rewrite decide_False by (by intros ?%Hct)|]; by rewrite decide_True.
Qed.

Lemma user_exercises_NoDup rows uid :
  NoDup ((fun r => (ag_user r, ag_exercise r)) <$> rows) -> NoDup (row_entry <$> rows_of_user uid rows).*1.
Proof.
  intros Hn. rewrite <- list_fmap_compose. apply (NoDup_fmap_1 (fun e => (uid, e))). rewrite <- list_fmap_compose.
  assert (Heq : (fun e => (uid, e)) ∘ (fst ∘ row_entry) <$> rows_of_user uid rows
                = (fun r => (ag_user r, ag_exercise r)) <$> rows_of_user uid rows).
  { apply list_fmap_ext. intros k x Hx. apply list_elem_of_lookup_2, list_elem_of_In, filter_In in Hx as [_ Hx]. b2p.
    cbn. by rewrite Hx. }
  rewrite Heq. by apply filter_ids.
Qed.

(** The table of results adds up.  In the table of results every student has one
    row; it holds, for each exercise the student has submitted to, the count and the
    points of the database, and as totals their sums; students without submissions
    have no totals. *)
Theorem aggregate_points_spec `{Settings} ext int_ profiles taggings exercises rows u i :
  NoDup ((fun r => (ag_user r, ag_exercise r)) <$> rows) -> profiles !! i = Some u ->
  exists row, (aggregate_points ext int_ profiles taggings exercises rows).1 !! i = Some row /\
    let mine := rows_of_user (ru_id u) rows in
    od_get "Count"%string row = (if bool_decide (mine = []) then None else Some (num_cell (sumZ (ag_count <$> mine)))) /\
    od_get "Total"%string row = (if bool_decide (mine = []) then None else Some (num_cell (sumZ (ag_total <$> mine)))) /\
    (forall r, r ∈ mine ->
       od_get (count_col (str_of_Z (ag_exercise r))) row = Some (num_cell (ag_count r)) /\
       od_get (total_col (str_of_Z (ag_exercise r))) row = Some (num_cell (ag_total r))).
Proof.
  intros Hn Hi. exists (points_row ext int_ taggings (points_agg rows) u). cbn [aggregate_points fst].
  rewrite list_lookup_fmap, Hi. split; [done|]. cbv zeta. unfold points_row. rewrite points_agg_get by done.
  destruct (rows_of_user (ru_id u) rows) as [|r0 l0] eqn:E; [split_and!; [reflexivity|reflexivity|by intros r ?%elem_of_nil]|].
  rewrite bool_decide_eq_false_2 by done. rewrite <- E in *.
  destruct (exercise_cells_sums (row_entry <$> rows_of_user (ru_id u) rows) (points_base ext int_ taggings u) 0 0)
    as (row' & -> & _ & Hcells).
  assert (Hlen : forall a, count_col a <> "Count"%string /\ count_col a <> "Total"%string /\
                           total_col a <> "Count"%string /\ total_col a <> "Total"%string).
  { intros a. split_and!; intros Ea; apply (f_equal String.length) in Ea; unfold count_col, total_col in Ea;
      rewrite length_append in Ea; cbn in Ea; lia. }
  rewrite !od_get_set, <- !list_fmap_compose. split_and!; [done|done|]. intros r Hr.
  destruct (Hlen (str_of_Z (ag_exercise r))) as (H1 & H2 & H3 & H4). rewrite !od_get_set, !decide_False by done.
  apply Hcells; [by apply user_exercises_NoDup|]. by apply (list_elem_of_fmap_2 row_entry _ r).
Qed.

(** ** Counts, points and ratios by level *)

(** The rows of a user in a column. *)
Definition rows_in (map : list (Z * string)) (uid : Z) (num : string) (rows : list AggRow) : list AggRow :=
  List.filter (fun r => (ag_user r =? uid) && bool_decide (od_get (ag_exercise r) map = Some num)) rows.

Definition agg_value (agg : list (Z * list (string * (Z * Z)))) (uid : Z) (num : string) : Z * Z :=
  default (0, 0) (od_get num (default [] (od_get uid agg))).

(** The values of a column are the sums of its rows. *)
Lemma sheet_agg_value map rows uid num :
  agg_value (sheet_agg map rows) uid num
  = (sumZ (ag_count <$> rows_in map uid num rows), sumZ (ag_total <$> rows_in map uid num rows)).
Proof.
  induction rows as [|r rows IH] using rev_ind; [done|].
  unfold sheet_agg, rows_in in *. rewrite foldl_app, List.filter_app. cbn [foldl List.filter].
  rewrite !fmap_app, !sumZ_app. unfold sheet_agg_step at 1.
  destruct (od_get (ag_exercise r) map) as [n|] eqn:Em.
  - destruct (decide (ag_user r = uid)) as [Hu|Hu]; [destruct (decide (n = num)) as [Hnum|Hnum]|].
    + subst n uid. rewrite Z.eqb_refl, bool_decide_eq_true_2 by done. cbn [andb].
      unfold agg_value. rewrite od_get_set, decide_True by done. cbn [default from_option id].
      rewrite od_get_set, decide_True by done. cbn [default from_option id].
      fold (agg_value (foldl (sheet_agg_step map) [] rows) (ag_user r) num). rewrite IH. cbn. by rewrite !Z.add_0_r.
    + subst uid. rewrite Z.eqb_refl, bool_decide_eq_false_2 by congruence. cbn [andb fmap list_fmap].
      unfold agg_value. rewrite od_get_set, decide_True by done. cbn [default from_option id].
      rewrite od_get_set, decide_False by congruence.
      fold (agg_value (foldl (sheet_agg_step map) [] rows) (ag_user r) num). rewrite IH. cbn. by rewrite !Z.add_0_r.
    + rewrite (proj2 (Z.eqb_neq _ _)) by done. cbn [andb fmap list_fmap]. unfold agg_value.
      rewrite od_get_set, decide_False by congruence.
      fold (agg_value (foldl (sheet_agg_step map) [] rows) uid num). rewrite IH. cbn. by rewrite !Z.add_0_r.
  - rewrite bool_decide_eq_false_2, andb_false_r by congruence. cbn [fmap list_fmap].
    rewrite IH. cbn. by rewrite !Z.add_0_r.
Qed.

(** The objects that count for a column. *)
Record Part := mkPart { pt_id : Z; pt_num : string; pt_max : Z }.

Definition parts_of (num : string) (ps : list Part) : list Part :=
  List.filter (fun p => bool_decide (pt_num p = num)) ps.

Definition object_ids (entries : list SheetEntry) : list Z := se_id <$> List.filter se_is_object entries.

(** The columns after some entries, with the objects that count for them. *)
Record columns_ok (entries : list SheetEntry) (c : Columns) (ps : list Part) : Prop := {
  ck_map : co_map c = (fun p => (pt_id p, pt_num p)) <$> ps;
  ck_max : forall num, num ∈ co_nums c -> od_get num (co_max c) = Some (sumZ (pt_max <$> parts_of num ps));
  ck_nums : forall p, p ∈ ps -> pt_num p ∈ co_nums c;
  ck_num : forall num, co_num c = Some num -> num ∈ co_nums c;
  ck_from : forall p, p ∈ ps -> exists e, e ∈ entries /\ se_is_object e = true /\
    se_id e = pt_id p /\ se_max_points e = pt_max p;
  ck_ids : NoDup (pt_id <$> ps);
}.

Lemma parts_of_snoc num ps p :
  parts_of num (ps ++ [p]) = parts_of num ps ++ (if bool_decide (pt_num p = num) then [p] else []).
Proof. unfold parts_of. by rewrite List.filter_app. Qed.

(** An object counts for a column that has been begun. *)
Lemma add_part_ok entries e c ps num nums :
  columns_ok entries c ps -> se_is_object e = true -> se_id e ∉ object_ids entries ->
  num ∈ nums -> (forall n, n ∈ co_nums c -> n ∈ nums) ->
  (forall n, n ∈ nums -> n <> num -> n ∈ co_nums c) ->
  od_get num (co_max c) = Some (sumZ (pt_max <$> parts_of num ps)) ->
  columns_ok (entries ++ [e])
    (mkColumns (od_set (se_id e) num (co_map c)) (add_max num (se_max_points e) (co_max c)) nums (Some num))
    (ps ++ [mkPart (se_id e) num (se_max_points e)]).
Proof.
  intros [Hm Hx Hn Hc Hf Hi] Hobj Hid Hnum Hsub Hsup Hmax.
  assert (Hnew : se_id e ∉ pt_id <$> ps).
  { intros (p & E & Hp)%list_elem_of_fmap. destruct (Hf p Hp) as (e' & He' & Hobj' & Hid' & _).
    apply Hid. rewrite E, <- Hid'. apply list_elem_of_fmap_2, list_elem_of_In, filter_In.
    by rewrite <- list_elem_of_In. }
  split; cbn [co_map co_max co_nums co_num].
  - rewrite od_set_new, Hm, fmap_app; [done|]. rewrite Hm, <- list_fmap_compose. exact Hnew.
  - intros n Hin. unfold add_max. rewrite Hmax. cbn [default from_option id]. rewrite od_get_set, parts_of_snoc, fmap_app, sumZ_app.
    cbn [pt_num]. case_decide as Hd; [subst n|].
    + rewrite bool_decide_eq_true_2 by done. f_equal. cbn. lia.
    + rewrite bool_decide_eq_false_2 by congruence. cbn. rewrite Hx by (by apply Hsup). f_equal. lia.
  - intros p [Hp| ->%list_elem_of_singleton]%elem_of_app; [by apply Hsub, Hn|done].
  - by intros n [= <-].
  - intros p [Hp| ->%list_elem_of_singleton]%elem_of_app.
    + destruct (Hf p Hp) as (e' & He' & Hrest). exists e'. split; [apply elem_of_app; by left|done].
    + exists e. split; [apply elem_of_app; right; by left|done].
  - rewrite fmap_app. by apply NoDup_snoc.
Qed.

(** A column is begun. *)
Lemma new_column_ok entries e c ps num :
  columns_ok entries c ps -> num ∉ co_nums c ->
  columns_ok (entries ++ [e]) (mkColumns (co_map c) (od_set num 0 (co_max c)) (co_nums c ++ [num]) (Some num)) ps.
Proof.
  intros [Hm Hx Hn Hc Hf Hi] Hnew. split; cbn [co_map co_max co_nums co_num]; [done|..|done].
  - intros n Hin. rewrite od_get_set. case_decide as Hd.
    + subst n. f_equal. unfold parts_of. replace (List.filter _ ps) with (@nil Part); [done|].
      symmetry. apply filter_false. intros p Hp. apply bool_decide_eq_false_2. intros E. apply Hnew. rewrite <- E. by apply Hn.
    + apply elem_of_app in Hin as [Hin|Hin%list_elem_of_singleton]; [by apply Hx|done].
  - intros p Hp. apply elem_of_app. left. by apply Hn.
  - intros n [= <-]. apply elem_of_app. right. by left.
  - intros p Hp. destruct (Hf p Hp) as (e' & He' & Hrest). exists e'. split; [apply elem_of_app; by left|done].
Qed.

Lemma keep_columns_ok entries e c ps : columns_ok entries c ps -> columns_ok (entries ++ [e]) c ps.
Proof.
  intros [Hm Hx Hn Hc Hf Hi]. split; try done. intros p Hp. destruct (Hf p Hp) as (e' & He' & Hrest).
  exists e'. split; [apply elem_of_app; by left|done].
Qed.

Lemma columns_step_ok d entries c ps e :
  columns_ok entries c ps -> (se_is_object e = true -> se_id e ∉ object_ids entries) ->
  (se_is_object e = true \/ number_level (se_number e) <= d) ->
  NoDup (co_nums (columns_step d c e)) -> exists ps', columns_ok (entries ++ [e]) (columns_step d c e) ps'.
Proof.
  intros Hok Hid Hlev Hnd. unfold columns_step in *.
  destruct ((number_level (se_number e) =? d) || _) eqn:E.
  - set (num := if number_level (se_number e) =? d then se_number e else number_prefix d (se_number e)) in *.
    assert (Hnew : num ∉ co_nums c).
    { intros Hin. destruct (se_is_object e); cbn in Hnd; apply NoDup_app in Hnd as (_ & Hnd & _);
        apply (Hnd num Hin); by left. }
    pose proof (new_column_ok entries e c ps num Hok Hnew) as Hcol.
    destruct (se_is_object e) eqn:Hobj; [|by exists ps].
    exists (ps ++ [mkPart (se_id e) num (se_max_points e)]). destruct Hcol as [Hm Hx Hn Hc Hf Hi].
    cbn [co_map co_max co_nums co_num] in *.
    assert (Hcol : columns_ok entries (mkColumns (co_map c) (od_set num 0 (co_max c)) (co_nums c ++ [num]) (Some num)) ps).
    { split; cbn [co_map co_max co_nums co_num]; [done..| |done]. apply Hok. }
    apply (add_part_ok entries e (mkColumns (co_map c) (od_set num 0 (co_max c)) (co_nums c ++ [num]) (Some num)) ps num
             (co_nums c ++ [num]) Hcol Hobj (Hid eq_refl)); [apply elem_of_app; right; by left|done|done|].
    cbn [co_max]. apply Hx. apply elem_of_app. right. by left.
  - apply orb_false_iff in E as [E1 E2]. destruct (d <? number_level (se_number e)) eqn:Ed; [|by exists ps; apply keep_columns_ok].
    cbn [andb] in E2. apply negb_false_iff, bool_decide_eq_true in E2. rewrite E2 in *. cbn [default from_option id] in *.
    destruct Hlev as [Hobj|Hlev]; [|b2p; lia]. set (num := number_prefix d (se_number e)) in *.
    pose proof (ck_num _ _ _ Hok num E2) as Hin.
    exists (ps ++ [mkPart (se_id e) num (se_max_points e)]).
    apply (add_part_ok entries e c ps num (co_nums c)); auto. by apply (ck_max _ _ _ Hok).
Qed.

Lemma columns_step_prefix d c e : exists l, co_nums (columns_step d c e) = co_nums c ++ l.
Proof.
  unfold columns_step. destruct (_ || _); [destruct (se_is_object e); by eauto|].
  destruct (_ <? _); exists []; by rewrite app_nil_r.
Qed.

Lemma sheet_columns_ok number entries :
  NoDup (object_ids entries) ->
  (forall e, e ∈ entries -> se_is_object e = true \/ number_level (se_number e) <= sheet_level number) ->
  NoDup (co_nums (sheet_columns number entries)) ->
  exists ps, columns_ok entries (sheet_columns number entries) ps.
Proof.
  induction entries as [|e entries IH] using rev_ind; intros Hids Hlev Hnd.
  { exists []. split; cbn; [done|..|done|by intros p Hp%elem_of_nil|constructor]; intros x Hx; by apply elem_of_nil in Hx. }
  unfold sheet_columns in *. rewrite foldl_app in *. cbn [foldl] in *.
  unfold object_ids in Hids. rewrite List.filter_app, fmap_app in Hids. apply NoDup_app in Hids as (Hids & Hdisj & _).
  destruct (columns_step_prefix (sheet_level number) (foldl (columns_step (sheet_level number)) (mkColumns [] [] [] None) entries) e) as [l El].
  destruct IH as [ps Hok]; [done|by intros x Hx; apply Hlev; apply elem_of_app; left| |].
  { rewrite El in Hnd. by apply NoDup_app in Hnd as (? & _). }
  apply (columns_step_ok (sheet_level number) entries _ ps e Hok); [|by apply Hlev; rewrite elem_of_app, list_elem_of_singleton; right|done].
  intros Hobj Hin. apply (Hdisj _ Hin). cbn. rewrite Hobj. by left.
Qed.

(** Sums over different keys that are bounded one by one. *)
Lemma sum_bounded (rows : list AggRow) : forall ps : list Part,
  NoDup (ag_exercise <$> rows) -> (forall p, p ∈ ps -> 0 <= pt_max p) ->
  (forall r, r ∈ rows -> exists p, p ∈ ps /\ pt_id p = ag_exercise r /\ ag_total r <= pt_max p) ->
  sumZ (ag_total <$> rows) <= sumZ (pt_max <$> ps).
Proof.
  induction rows as [|r rows IH]; intros ps Hn Hpos Hall.
  { cbn. apply sumZ_nonneg. apply Forall_fmap, Forall_forall. exact Hpos. }
  cbn in Hn. inversion_clear Hn as [|? ? Hn1 Hn2].
  destruct (Hall r) as (p & Hp & Hid & Hle); [by left|].
  apply list_elem_of_split in Hp as (l1 & l2 & ->). rewrite fmap_app, sumZ_app. cbn.
  assert (H : sumZ (ag_total <$> rows) <= sumZ (pt_max <$> (l1 ++ l2))).
  { apply IH; [done| |].
    - intros q Hq. apply Hpos. rewrite elem_of_app, elem_of_cons. rewrite elem_of_app in Hq. naive_solver.
    - intros r' Hr'. destruct (Hall r') as (q & Hq & Hid' & Hle'); [by right|]. exists q. split; [|done].
      rewrite elem_of_app, elem_of_cons in Hq. rewrite elem_of_app. destruct Hq as [?|[->|?]]; [by left| |by right].
      exfalso. apply Hn1. rewrite <- Hid, Hid'. by apply list_elem_of_fmap_2. }
  rewrite fmap_app, sumZ_app in H. unfold sumZ in *. cbn. lia.
Qed.

Lemma sheet_cells_get c user_row nums row num :
  num ∈ nums ->
  let row' := foldl (sheet_cells c user_row) row nums in
  let values := default (0, 0) (od_get num user_row) in
  od_get (count_col num) row' = Some (num_cell values.1) /\ od_get (total_col num) row' = Some (num_cell values.2) /\
  od_get (ratio_col num) row' = Some (CRatio (sheet_ratio values.1 values.2 (default 0 (od_get num (co_max c))))).
Proof.
  assert (Hct : forall a b, count_col a <> total_col b) by (intros a b; by apply append_suffix_ne).
  assert (Hcr : forall a b, count_col a <> ratio_col b) by (intros a b; by apply append_suffix_ne).
  assert (Htr : forall a b, total_col a <> ratio_col b) by (intros a b; by apply append_suffix_ne).
  induction nums as [|n nums IH] using rev_ind; [by intros ?%elem_of_nil|]. intros Hin.
  rewrite foldl_app. cbn [foldl]. unfold sheet_cells at 1 3 5. rewrite !od_get_set.
  destruct (decide (num = n)) as [->|Hne].
  - rewrite (decide_False (P := count_col n = ratio_col n)), (decide_False (P := count_col n = total_col n)),
      (decide_False (P := total_col n = ratio_col n)), !decide_True by done. done.
  - apply elem_of_app in Hin as [Hin|Hin%list_elem_of_singleton]; [|done].
    assert (Hi : forall col : string -> string, (forall a b, col a = col b -> a = b) -> col num <> col n)
      by (intros col Hcol E; by apply Hne, Hcol).
    rewrite !decide_False by (done || congruence || apply Hi; intros a b; apply append_cancel_r). by apply IH.
Qed.

Lemma sheet_ratio_range count total maxp :
  (0 < maxp -> 0 <= total <= maxp) -> (0 <= sheet_ratio count total maxp <= 1)%Q.
Proof.
  intros Hr. unfold sheet_ratio. destruct (Z.ltb_spec 0 maxp) as [Hp|Hp].
  - specialize (Hr Hp). unfold int_truediv.
    assert (Hq : (0 <= inject_Z total / inject_Z maxp <= 1)%Q).
    { assert (Hm : (0 < inject_Z maxp)%Q) by (change 0%Q with (inject_Z 0); rewrite <- Zlt_Qlt; lia).
      split; [apply Qle_shift_div_l|apply Qle_shift_div_r]; [done| |done|].
      - rewrite Qmult_0_l. apply inject_Z_nonneg. lia.
      - rewrite Qmult_1_l, <- Zle_Qle. lia. }
    destruct Hq as [H0 H1]. split; [by apply b64_nonneg|].
    apply (Qle_trans _ (b64 1)); [by apply b64_mono|]. by vm_compute.
  - destruct (0 <? count); by split; vm_compute.
Qed.

Lemma rows_in_NoDup map uid num rows :
  NoDup ((fun r => (ag_user r, ag_exercise r)) <$> rows) -> NoDup (ag_exercise <$> rows_in map uid num rows).
Proof.
  intros Hn. apply (NoDup_fmap_1 (fun e => (uid, e))). rewrite <- list_fmap_compose.
  assert (Heq : (fun e => (uid, e)) ∘ ag_exercise <$> rows_in map uid num rows
                = (fun r => (ag_user r, ag_exercise r)) <$> rows_in map uid num rows).
  { apply list_fmap_ext. intros k x Hx. apply list_elem_of_lookup_2, list_elem_of_In, filter_In in Hx as [_ Hx]. b2p.
    cbn. congruence. }
  rewrite Heq. by apply filter_ids.
Qed.

(** The rows of a column are bounded by what the column can give. *)
Lemma rows_in_bounded entries c ps uid num rows :
  columns_ok entries c ps -> num ∈ co_nums c ->
  NoDup ((fun r => (ag_user r, ag_exercise r)) <$> rows) ->
  (forall e, e ∈ entries -> se_is_object e = true -> 0 <= se_max_points e /\
     forall r, r ∈ rows -> ag_exercise r = se_id e -> 0 <= ag_total r <= se_max_points e) ->
  0 <= sumZ (ag_total <$> rows_in (co_map c) uid num rows) <= default 0 (od_get num (co_max c)).
Proof.
  intros Hok Hnum Hn He. rewrite (ck_max _ _ _ Hok num Hnum). cbn [default from_option id].
  assert (Hpart : forall r, r ∈ rows_in (co_map c) uid num rows ->
    exists p, p ∈ parts_of num ps /\ pt_id p = ag_exercise r /\ 0 <= ag_total r <= pt_max p).
  { intros r Hr. apply list_elem_of_In, filter_In in Hr as [Hr Hm]. b2p.
    match goal with H : od_get _ _ = _ |- _ => rewrite (ck_map _ _ _ Hok) in H; apply elem_of_od_get in H;
      [apply list_elem_of_fmap in H as (p & E & Hp)|rewrite <- list_fmap_compose; apply (ck_ids _ _ _ Hok)] end.
    injection E as E1 E2. exists p. destruct (ck_from _ _ _ Hok p Hp) as (e & Hin & Hobj & Hid & Hmax).
    split; [apply list_elem_of_In, filter_In; split; [by apply list_elem_of_In|by apply bool_decide_eq_true_2]|].
    split; [done|]. rewrite <- Hmax. apply (He e Hin Hobj); [by apply list_elem_of_In|congruence]. }
  split.
  - apply sumZ_nonneg, Forall_fmap, Forall_forall. intros r Hr. destruct (Hpart r Hr) as (p & _ & _ & H). cbn. lia.
  - apply sum_bounded; [by apply rows_in_NoDup| |].
    + intros p Hp. apply list_elem_of_In, filter_In in Hp as [Hp _]. apply list_elem_of_In in Hp.
      destruct (ck_from _ _ _ Hok p Hp) as (e & Hin & Hobj & _ & <-). by apply (He e Hin Hobj).
    + intros r Hr. destruct (Hpart r Hr) as (p & Hp & Hid & Hle). exists p. split_and!; [done|done|lia].
Qed.

(** When the entries come with the objects they hold, a column occurs once and the
    points of a student in an exercise are between zero and its maximum, every row of
    the table holds for every column the count and the points of the student's rows
    below that entry, and a ratio between 0 and 1. *)
Lemma aggregate_sheet_cells `{Settings} profiles taggings entries rows number u i num :
  NoDup (object_ids entries) ->
  (forall e, e ∈ entries -> se_is_object e = true \/ number_level (se_number e) <= sheet_level number) ->
  NoDup (co_nums (sheet_columns number entries)) ->
  NoDup ((fun r => (ag_user r, ag_exercise r)) <$> rows) ->
  (forall e, e ∈ entries -> se_is_object e = true -> 0 <= se_max_points e /\
     forall r, r ∈ rows -> ag_exercise r = se_id e -> 0 <= ag_total r <= se_max_points e) ->
  profiles !! i = Some u -> num ∈ co_nums (sheet_columns number entries) ->
  exists row q, (aggregate_sheet profiles taggings entries rows number).1 !! i = Some row /\
    let mine := rows_in (co_map (sheet_columns number entries)) (ru_id u) num rows in
    od_get (count_col num) row = Some (num_cell (sumZ (ag_count <$> mine))) /\
    od_get (total_col num) row = Some (num_cell (sumZ (ag_total <$> mine))) /\
    od_get (ratio_col num) row = Some (CRatio q) /\ (0 <= q <= 1)%Q.
Proof.
  intros Hids Hlev Hnums Hn He Hi Hnum. set (c := sheet_columns number entries) in *.
  destruct (sheet_columns_ok number entries Hids Hlev Hnums) as [ps Hok]. fold c in Hok.
  pose proof (rows_in_bounded entries c ps (ru_id u) num rows Hok Hnum Hn He) as Hb.
  eexists _, _. cbn [aggregate_sheet fst]. fold c. rewrite list_lookup_fmap, Hi. split; [reflexivity|]. cbv zeta.
  unfold sheet_row.
  destruct (sheet_cells_get c (default [] (od_get (ru_id u) (sheet_agg (co_map c) rows))) (co_nums c)
    [("UserID", num_cell (ru_id u)); ("StudentID", RC (opt_text (student_id (ru_profile u)))); ("Email", RC (CText (ru_email u)));
     ("Tags", RC (CText (join "|" ((if is_external (ru_profile u) then "mooc" else "aalto")
        :: default [] (od_get (ru_id u) (sheet_tags taggings))))))]%string num Hnum) as (H1 & H2 & H3).
  fold (agg_value (sheet_agg (co_map c) rows) (ru_id u) num) in H1, H2, H3. rewrite sheet_agg_value in H1, H2, H3.
  cbn [fst snd] in H1, H2, H3. split_and!; [exact H1|exact H2|exact H3|..]; apply sheet_ratio_range; lia.
Qed.

(** ** The view of results by level *)

(** The submissions of a student in an exercise that the view counts. *)
Definition group_rows (subs : list Submission) (profile exercise : Z) : list Submission :=
  List.filter (fun s => (sub_exercise s =? exercise)
    && bool_decide (profile ∈ profile_id <$> submitters s)
    && negb (bool_decide (sub_status s ∈ [SubStatus.UNOFFICIAL; SubStatus.ERROR; SubStatus.REJECTED]))) subs.

(** src/exercise/api/csv/views.py: CourseAggregateDataViewSet.serialize_profiles lines 280-290.
    One row for every student and exercise with submissions. *)
Definition aggregate_query (exercises : list BaseExercise) (subs : list Submission) (revealed_ids : gset Z)
    (profiles : list ReportUser) : list AggRow :=
  profiles ≫= fun u => exercises ≫= fun e =>
    match group_rows subs (profile_id (ru_profile u)) (exercise_id e) with
    | [] => []
    | l => [mkAgg (ru_id u) (exercise_id e) (Z.of_nat (length l))
              (annotate_submitter_points e (Some (elements revealed_ids)) false l)]
    end.

(** src/exercise/api/csv/views.py: CourseAggregateDataViewSet.serialize_profiles.  The
    entries found by the search with their number, the exercises among them, and the
    rows of the query, which come in any order. *)
Definition serialize_aggregate `{Settings} (profiles : list ReportUser) (taggings : list (Z * Z)) (entries : list SheetEntry)
    (number : option string) (rows : list AggRow) : list RRow * list string :=
  aggregate_sheet profiles taggings entries rows (default ""%string number).

Lemma elem_of_aggregate_query exercises subs revealed profiles r :
  r ∈ aggregate_query exercises subs revealed profiles <->
  exists u e, u ∈ profiles /\ e ∈ exercises /\ group_rows subs (profile_id (ru_profile u)) (exercise_id e) <> [] /\
    r = mkAgg (ru_id u) (exercise_id e) (Z.of_nat (length (group_rows subs (profile_id (ru_profile u)) (exercise_id e))))
          (annotate_submitter_points e (Some (elements revealed)) false (group_rows subs (profile_id (ru_profile u)) (exercise_id e))).
Proof.
  unfold aggregate_query. rewrite list_elem_of_bind. setoid_rewrite list_elem_of_bind. split.
  - intros (u & (e & Hr & He) & Hu). exists u, e. destruct (group_rows _ _ _) eqn:E; [by apply elem_of_nil in Hr|].
    apply list_elem_of_singleton in Hr. rewrite Hr, <- E. split_and!; [done|done|by rewrite E|done].
  - intros (u & e & Hu & He & Hne & ->). exists u. split; [|done]. exists e. split; [|done].
    destruct (group_rows _ _ _); [done|]. by left.
Qed.

Lemma aggregate_query_NoDup exercises subs revealed profiles :
  NoDup (ru_id <$> profiles) -> NoDup (exercise_id <$> exercises) ->
  NoDup ((fun r => (ag_user r, ag_exercise r)) <$> aggregate_query exercises subs revealed profiles).
Proof.
  intros Hu He. induction profiles as [|u profiles IH]; [constructor|].
  cbn in Hu. inversion_clear Hu as [|? ? Hu1 Hu2]. unfold aggregate_query. rewrite bind_cons, fmap_app. apply NoDup_app. split_and!.
  - clear IH Hu1 Hu2. induction exercises as [|e exercises IH]; [constructor|]. cbn in He. inversion_clear He as [|? ? He1 He2].
    rewrite bind_cons, fmap_app. apply NoDup_app. split_and!; [destruct (group_rows _ _ _); repeat constructor; apply not_elem_of_nil| |by apply IH].
    intros x Hx (r & -> & Hr)%list_elem_of_fmap. destruct (group_rows _ _ _); [by apply elem_of_nil in Hx|].
    apply list_elem_of_singleton in Hx. injection Hx as _ Hx. apply list_elem_of_bind in Hr as (e' & Hr & He').
    destruct (group_rows _ _ _) in Hr; [by apply elem_of_nil in Hr|]. apply list_elem_of_singleton in Hr. subst r. cbn in Hx.
    apply He1. rewrite <- Hx. by apply list_elem_of_fmap_2.
  - intros x (r & -> & Hr)%list_elem_of_fmap (r' & E & Hr')%list_elem_of_fmap. apply elem_of_aggregate_query in Hr' as (u' & e' & Hu' & _ & _ & ->).
    apply list_elem_of_bind in Hr as (e & Hr & _). destruct (group_rows _ _ _) in Hr; [by apply elem_of_nil in Hr|].
    apply list_elem_of_singleton in Hr. subst r. injection E as E _. apply Hu1. rewrite E. by apply list_elem_of_fmap_2.
  - by apply IH.
Qed.

(** The results by level are right and in bounds.  For every reader: when the
    grades of submissions are within the points of their exercises, the table has for
    every student and every column the number of the student's submissions below that
    entry and the sum of the points the reader may know, and a ratio between 0 and 1. *)
Theorem course_aggregate_bounds `{Settings} profiles taggings entries exercises subs revealed rows number u i num :
  let columns := sheet_columns (default ""%string number) entries in
  NoDup (ru_id <$> profiles) -> NoDup (exercise_id <$> exercises) -> NoDup (object_ids entries) ->
  (forall e, e ∈ entries -> se_is_object e = true \/ number_level (se_number e) <= sheet_level (default ""%string number)) ->
  NoDup (co_nums columns) ->
  (forall e, e ∈ entries -> se_is_object e = true -> 0 <= se_max_points e /\
     forall x, x ∈ exercises -> exercise_id x = se_id e -> max_points x = se_max_points e) ->
  (forall s x, s ∈ subs -> x ∈ exercises -> sub_exercise s = exercise_id x -> 0 <= grade s <= max_points x) ->
  rows ≡ₚ aggregate_query exercises subs revealed profiles ->
  profiles !! i = Some u -> num ∈ co_nums columns ->
  exists row q, (serialize_aggregate profiles taggings entries number rows).1 !! i = Some row /\
    let mine := rows_in (co_map columns) (ru_id u) num rows in
    od_get (count_col num) row = Some (num_cell (sumZ (ag_count <$> mine))) /\
    od_get (total_col num) row = Some (num_cell (sumZ (ag_total <$> mine))) /\
    od_get (ratio_col num) row = Some (CRatio q) /\ (0 <= q <= 1)%Q.
Proof.
  intros columns Hus Hex Hids Hlev Hnums Hmax Hgrades Hrows Hi Hnum. unfold serialize_aggregate.
  apply (aggregate_sheet_cells profiles taggings entries rows _ u i num); [done|done|done| |..|done|done].
  { rewrite Hrows. by apply aggregate_query_NoDup. }
  intros e He Ho. destruct (Hmax e He Ho) as [H0 Hx]. split; [done|]. intros r Hr Er. rewrite Hrows in Hr.
  apply elem_of_aggregate_query in Hr as (u' & x & Hu' & Hx' & _ & ->). cbn in Er |- *. rewrite <- (Hx x Hx' Er).
  destruct (submitter_points_bounds x (Some (elements revealed)) false (group_rows subs (profile_id (ru_profile u')) (exercise_id x)))
    as (H1 & H2 & _); [|rewrite (Hx x Hx' Er); done|split; [exact (proj1 H1)|exact (Z.le_trans _ _ _ (proj2 H1) H2)]].
  intros s Hs. apply list_elem_of_In, filter_In in Hs as [Hs Hc]. b2p. apply Hgrades; [by apply list_elem_of_In|done|done].
Qed.

(** The results by level do not depend on points that are hidden from the reader. *)
Lemma group_rows_mask revealed subs p e :
  group_rows (masked_submission revealed <$> subs) p e = masked_submission revealed <$> group_rows subs p e.
Proof.
  unfold group_rows. induction subs as [|s subs IH]; [done|]. cbn [fmap list_fmap List.filter].
  destruct (mask_fields revealed s) as (_ & -> & -> & -> & _). rewrite IH. by destruct (_ && _).
Qed.

Theorem aggregate_hides_points exercises subs revealed profiles :
  aggregate_query exercises (masked_submission revealed <$> subs) revealed profiles
  = aggregate_query exercises subs revealed profiles.
Proof.
  unfold aggregate_query. apply list_bind_ext; [|done]. intros u. apply list_bind_ext; [|done]. intros e.
  rewrite group_rows_mask. set (l := group_rows subs _ _).
  assert (Hl : forall s, s ∈ l -> sub_exercise s = exercise_id e).
  { intros s Hs. apply list_elem_of_In, filter_In in Hs as [_ Hs]. b2p. done. }
  assert (Ht : annotate_submitter_points e (Some (elements revealed)) false (masked_submission revealed <$> l)
               = annotate_submitter_points e (Some (elements revealed)) false l).
  { unfold annotate_submitter_points. destruct (decide (exercise_id e ∈ revealed)) as [Hin|Hin].
    - assert (Hsame : masked_submission revealed <$> l = l).
      { rewrite <- (list_fmap_id l) at 2. apply list_fmap_ext. intros k s Hs. unfold masked_submission.
        rewrite bool_decide_eq_true_2; [done|]. rewrite Hl; [done|]. by eapply list_elem_of_lookup_2. }
      by rewrite Hsame.
    - rewrite !(bool_decide_eq_true_2 (exercise_id e ∉ elements revealed)) by (by rewrite elem_of_elements). done. }
  destruct l as [|s l]; [done|]. rewrite <- Ht. cbn [fmap list_fmap length]. by rewrite length_fmap.
Qed.

(** ** Examples *)

Module Sample.
Definition user (uid pid : Z) : ReportUser := mkReportUser uid (mkProfile pid (Some (str_of_Z pid)) "aalto.fi") "e" "f" "l".
Definition rows : list AggRow := [mkAgg 1 5 2 10; mkAgg 1 6 1 4; mkAgg 2 5 3 7].

Lemma aggregate_points_spec_witness :
  exists row, (aggregate_points "external" "internal" [user 2 1; user 1 2] [] [5; 6] rows).1 !! 1%nat = Some row /\
    od_get "Count"%string row = Some (num_cell 3).
Proof.
  destruct (aggregate_points_spec "external" "internal" [user 2 1; user 1 2] [] [5; 6] rows (user 1 2) 1)
    as (row & Hrow & Hc & _); [by apply (bool_decide_unpack _); vm_compute|reflexivity|].
  exists row. split; [exact Hrow|exact Hc].
Defined.

Definition work (i e student g : Z) : Submission := Reports.Sample.submission i e student g false.
Definition works : list Submission := [work 1 1 2 4; work 2 1 2 9; work 3 1 1 10].
Definition exercises : list BaseExercise := [example_exercise 1 2].
Definition entries : list SheetEntry := [mkSheetEntry 9 "1" false 0; mkSheetEntry 1 "1.1" true 10].

Lemma course_aggregate_bounds_witness :
  exists row q, (serialize_aggregate [user 1 2; user 2 1] [] entries None
                   (aggregate_query exercises works {[1]} [user 1 2; user 2 1])).1 !! 0%nat = Some row /\
    od_get "1 Total"%string row = Some (num_cell 9) /\ od_get "1 Ratio"%string row = Some (CRatio q) /\ (0 <= q <= 1)%Q.
Proof.
  destruct (course_aggregate_bounds [user 1 2; user 2 1] [] entries exercises works {[1]}
    (aggregate_query exercises works {[1]} [user 1 2; user 2 1]) None (user 1 2) 0 "1"%string)
    as (row & q & Hrow & _ & Ht & Hq & Hr).
  - by apply (bool_decide_unpack _); vm_compute.
  - by apply (bool_decide_unpack _); vm_compute.
  - by apply (bool_decide_unpack _); vm_compute.
  - apply Forall_forall. repeat (constructor; [first [by left | right; by vm_compute]|]). constructor.
  - by apply (bool_decide_unpack _); vm_compute.
  - intros e [->|[->|He%elem_of_nil]%elem_of_cons]%elem_of_cons Ho; [discriminate Ho| |destruct He].
    split; [discriminate|]. intros x [->|Hx%elem_of_nil]%elem_of_cons _; [reflexivity|destruct Hx].
  - intros s x [->|[->|[->|Hs%elem_of_nil]%elem_of_cons]%elem_of_cons]%elem_of_cons [->|Hx%elem_of_nil]%elem_of_cons _;
      first [by destruct Hs | by destruct Hx | (split; discriminate)].
  - reflexivity.
  - reflexivity.
  - by left.
  - exists row, q. split; [exact Hrow|]. split; [exact Ht|]. split; [exact Hq|exact Hr].
Defined.

(** The tags of a row by level are those of the profile whose id is the id of the
    user: another student's. *)
Lemma sheet_tags_of_another :
  let profiles := [user 1 2; user 2 1] in
  let taggings := [(1, 9)] in
  (od_get "Tags"%string <$> (aggregate_points "external" "internal" profiles taggings [] []).1)
  = [Some (RC (CText "internal")); Some (RC (CText "internal|9"))] /\
  (od_get "Tags"%string <$> (aggregate_sheet profiles taggings [] [] "").1)
  = [Some (RC (CText "aalto|9")); Some (RC (CText "aalto"))].
Proof. by vm_compute. Qed.
End Sample.
