(* ===== verification/Login.v ===== *)
(** * Login through an identity provider

    [shibboleth_login/parser.py], [auth_backend.py] and [views.py]: the variables a
    trusted web server sets for a request, their parsing, the account that is found,
    created and updated, and the answer of the login page.  Statements before an
    exception are stored, so a call returns the accounts together with its result. *)

From Stdlib Require Import Ascii.
From S2P Require Import Prelude Lists Helpers Course.
#[local] Open Scope Z_scope.

(** ** Values of a variable *)

Definition semicolon : ascii := ";".
Definition backslash : ascii := "\".

(** [x.replace(r';', r'\;')] and [x.replace(r'\;', r';')] *)
Fixpoint escape (s : string) : string :=
  match s with
  | EmptyString => EmptyString
  | String c r => if Ascii.eqb c semicolon then String backslash (String semicolon (escape r)) else String c (escape r)
  end.
Fixpoint unescape (s : string) : string :=
  match s with
  | EmptyString => EmptyString
  | String c r =>
      match r with
      | String d r' =>
          if Ascii.eqb c backslash && Ascii.eqb d semicolon then String semicolon (unescape r') else String c (unescape r)
      | EmptyString => String c EmptyString
      end
  end.

(** src/shibboleth_login/parser.py: shib_join *)
Definition shib_join (l : list string) : string := join ";" (escape <$> l).

(** The split at semicolons that no backslash precedes; [prev] tells whether the
    character before is a backslash. *)
Fixpoint split_delim (prev : bool) (s : string) : list string :=
  match s with
  | EmptyString => [EmptyString]
  | String c r =>
      if Ascii.eqb c semicolon && negb prev then EmptyString :: split_delim false r
      else match split_delim (Ascii.eqb c backslash) r with
           | w :: ws => String c w :: ws
           | [] => [String c EmptyString]
           end
  end.

(** [s.partition(sep)] for a separator that is not empty: what comes before and after
    its first occurrence. *)
Fixpoint partition (sep s : string) : string * string :=
  if startswith sep s then (EmptyString, drop_str (String.length sep) s)
  else match s with
       | EmptyString => (EmptyString, EmptyString)
       | String c r => let '(a, b) := partition sep r in (String c a, b)
       end.

(** [s.lstrip(':')] *)
Fixpoint lstrip_colons (s : string) : string :=
  match s with
  | String c r => if Ascii.eqb c ":" then lstrip_colons r else s
  | EmptyString => EmptyString
  end.

Fixpoint last_char (c : ascii) (s : string) : ascii :=
  match s with
  | EmptyString => c
  | String d r => last_char d r
  end.

(** src/shibboleth_login/parser.py: colons *)
Definition colons (s : string) : result string :=
  match s with
  | EmptyString => Raise IndexError
  | String c r =>
      let s := if Ascii.eqb c ":" then s else (":" +:+ s)%string in
      Ret (if Ascii.eqb (last_char c r) ":" then s else (s +:+ ":")%string)
  end.

(** ** Settings *)

(** src/shibboleth_login/apps.py *)
Record ShibSettings := mkShib {
  PREFIX : string;
  USER_ID : string;
  FIRST_NAME : string;
  LAST_NAME : string;
  COMMON_NAME : string;
  FULL_NAME : string;
  EMAIL : string;
  STUDENT_IDS : string;
  STUDENT_URN : string;
  HOME_ORGANIZATION : string;
  STUDENT_FILTERS : list (Z * string);
  URL_DECODE : bool;
  ALLOW_CREATE_NEW_USERS : bool;
  ALLOW_SEARCH_WITH_EMAIL : bool;
}.

(** The defaults; the prefix has none. *)
Definition shib_defaults (prefix : string) : ShibSettings :=
  mkShib prefix "eppn" "givenName" "sn" "cn" "displayName" "mail" "schacPersonalUniqueCode"
    ":schac:personalUniqueCode:" "schacHomeOrganization" [(2, "studentID"); (3, "int")]%string true true false.

Section Parser.
(** [str.upper] and [urllib.parse.unquote]. *)
Context (upper unquote : string -> string).

Definition Env : Type := list (string * string).

(** src/shibboleth_login/parser.py: Parser.get_values.  Without a default a variable
    that is missing raises. *)
Definition get_values (urldecode : bool) (env : Env) (name : string) (default_ : option string) : result (list string) :=
  match od_get (upper name) env with
  | None => match default_ with Some d => Ret [d] | None => Raise KeyError end
  | Some v => Ret (unescape <$> split_delim false (if urldecode then unquote v else v))
  end.

(** src/shibboleth_login/parser.py: Parser.get_single_value *)
Definition get_single_value (urldecode : bool) (env : Env) (name : string) (default_ : option string) : result string :=
  let! values := get_values urldecode env name default_ in
  match values with
  | [v] => Ret v
  | _ => Raise ValueError
  end.

(** [all(values[i] == v for i, v in filters.items())] *)
Fixpoint all_match (values : list string) (filters : list (Z * string)) : result bool :=
  match filters with
  | [] => Ret true
  | (i, v) :: filters =>
      match values !! Z.to_nat i with
      | None => Raise IndexError
      | Some x => if bool_decide (x = v) then all_match values filters else Ret false
      end
  end.

(** The parts of one value, the last one first. *)
Definition urn_parts (urn field : string) : list string :=
  let '(ns, value) := partition urn (drop_str 3 field) in
  rev (split ":" value) ++ [lstrip_colons ns; field].

Fixpoint urn_fields (urn : string) (filters : list (Z * string)) (fields : list string) : result (list (list string)) :=
  match fields with
  | [] => Ret []
  | field :: fields =>
      if bool_decide (field = ""%string) then urn_fields urn filters fields
      else if negb (startswith "urn:" field) then Raise ValueError
      else
        let values := urn_parts urn field in
        let! keep := all_match values filters in
        let! data := urn_fields urn filters fields in
        Ret (if (keep : bool) then values :: data else data)
  end.

(** src/shibboleth_login/parser.py: Parser.get_urn_values.  The filters are given. *)
Definition get_urn_values (urldecode : bool) (env : Env) (urn name : string) (filters : list (Z * string))
    : result (list (list string)) :=
  let! urn := colons urn in
  let! fields := get_values urldecode env name None in
  urn_fields urn filters fields.
End Parser.

(** ** Accounts *)

(** The columns of a user these functions read and write. *)
Record Account := mkAccount {
  ac_username : string;
  ac_email : string;
  ac_first_name : string;
  ac_last_name : string;
  ac_is_active : bool;
}.

(** The users and their profiles, both by the id of the user. *)
Record Accounts := mkAccounts { ac_users : gmap Z Account; ac_profiles : gmap Z UserProfile }.

Definition set_email (v : string) (a : Account) : Account :=
  mkAccount (ac_username a) v (ac_first_name a) (ac_last_name a) (ac_is_active a).
Definition set_first_name (v : string) (a : Account) : Account :=
  mkAccount (ac_username a) (ac_email a) v (ac_last_name a) (ac_is_active a).
Definition set_last_name (v : string) (a : Account) : Account :=
  mkAccount (ac_username a) (ac_email a) (ac_first_name a) v (ac_is_active a).

Definition new_user_id (st : Accounts) : Z := 1 + maxZ 0 (map_to_list (ac_users st)).*1.
Definition new_profile_id (st : Accounts) : Z := 1 + maxZ 0 (profile_id <$> (map_to_list (ac_profiles st)).*2).

(** src/userprofile/models.py: create_user_profile *)
Definition create_user_profile (id : Z) (created : bool) (st : Accounts) : Accounts :=
  if created
  then match ac_profiles st !! id with
       | Some _ => st
       | None => mkAccounts (ac_users st) (<[id := mkProfile (new_profile_id st) None ""]> (ac_profiles st))
       end
  else st.

(** [user.save()]; a user without an id is new. *)
Definition save_user (id : option Z) (a : Account) (st : Accounts) : Z * Accounts :=
  let i := default (new_user_id st) id in
  (i, create_user_profile i (bool_decide (id = None)) (mkAccounts (<[i := a]> (ac_users st)) (ac_profiles st))).

(** The users with a value in a column. *)
Definition users_where (p : Account -> bool) (st : Accounts) : list (Z * Account) :=
  List.filter (fun x => p x.2) (map_to_list (ac_users st)).

Definition truthy (o : option string) : bool :=
  match o with Some s => negb (bool_decide (s = ""%string)) | None => false end.

Section Login.
(** Python's [str.upper], [str.lower] and [unquote]; the manager's [normalize_email];
    the fields of an account that its validators refuse; what the database takes as a
    profile; the settings and the lengths of the columns. *)
Context (upper lower unquote normalize_email : string -> string).
Context (clean_fields : Account -> list string) (db_accepts : UserProfile -> bool).
Context (s : ShibSettings) (username_len email_len first_name_len last_name_len : Z).

(** src/shibboleth_login/auth_backend.py: ShibbolethAuthBackend._get_scoped_limited *)
Definition get_scoped_limited (env : Env) (name : string) (max_len : Z) : option string :=
  match get_single_value upper unquote (URL_DECODE s) env name None with
  | Raise _ => None
  | Ret value =>
      if bool_decide (value = ""%string) then None
      else if max_len <? Z.of_nat (String.length value) then None
      else if negb (contains "@" value) then None
      else Some value
  end.

(** [user.full_clean()]: the validators of the columns, and a user name of its own. *)
Definition full_clean (st : Accounts) (id : option Z) (a : Account) : result unit :=
  let invalid := clean_fields a in
  let taken := existsb (fun x => negb (bool_decide (Some x.1 = id)))
                 (users_where (fun b => bool_decide (ac_username b = ac_username a)) st) in
  let errors := if taken && negb (bool_decide ("username"%string ∈ invalid)) then invalid ++ ["username"%string] else invalid in
  match errors with
  | [] => Ret tt
  | _ => Raise (ValidationError errors)
  end.

(** [' '.join(parser.get_values(name, ''))] *)
Definition joined_values (env : Env) (name : string) : string :=
  match get_values upper unquote (URL_DECODE s) env name (Some ""%string) with
  | Ret values => join " " values
  | Raise _ => ""%string
  end.

(** src/shibboleth_login/auth_backend.py: ShibbolethAuthBackend.authenticate lines 47-57.
    The user with the user name, else the only user with the address. *)
Definition find_user (username : string) (email : option string) (st : Accounts) : result (option (Z * Account)) :=
  match users_where (fun a => bool_decide (ac_username a = username)) st with
  | [x] => Ret (Some x)
  | _ :: _ :: _ => Raise MultipleObjectsReturned
  | [] =>
      if ALLOW_SEARCH_WITH_EMAIL s
      then match users_where (fun a => bool_decide (Some (ac_email a) = email)) st with
           | [x] => Ret (Some x)
           | _ => Ret None
           end
      else Ret None
  end.

(** src/shibboleth_login/auth_backend.py: ShibbolethAuthBackend.authenticate lines 59-72.
    A new user; one without an address is stored first to get its id. *)
Definition new_user (username : string) (email : option string) (st : Accounts) : Accounts * (option Z * Account) :=
  let user := mkAccount username (default ""%string email) "" "" true in
  if truthy email then (st, (None, user))
  else let '(id, st) := save_user None user st in
       (st, (Some id, set_email (str_of_Z id +:+ "@localhost") user)).

(** [if value and value != user.field: ...], with the flag that the user is saved. *)
Definition update_field (value : string) (get : Account -> string) (set : string -> Account -> Account)
    (st : Account * bool) : Account * bool :=
  if negb (bool_decide (value = ""%string)) && negb (bool_decide (value = get st.1))
  then (set value st.1, true) else st.

(** src/shibboleth_login/auth_backend.py: ShibbolethAuthBackend.authenticate lines 94-106 *)
Definition fallback_names (env : Env) (st : Account * bool) : Account * bool :=
  let user := st.1 in
  let none v := bool_decide (v = ""%string) in
  if none (ac_first_name user) || none (ac_last_name user)
  then
    let full := joined_values env (FULL_NAME s) in
    let common := joined_values env (COMMON_NAME s) in
    let full_name := if (String.length full <? String.length common)%nat then common else full in
    let '(first_, last_) := partition " " full_name in
    let user := if none (ac_first_name user) then set_first_name (take_str (Z.to_nat first_name_len) first_) user else user in
    let user := if none (ac_last_name user) then set_last_name (take_str (Z.to_nat last_name_len) last_) user else user in
    (user, true)
  else st.

(** src/shibboleth_login/auth_backend.py: ShibbolethAuthBackend.authenticate lines 77-106 *)
Definition update_user (env : Env) (email : option string) (st : Account * bool) : Account * bool :=
  let st := update_field (default ""%string email) ac_email set_email st in
  let st := update_field (take_str (Z.to_nat first_name_len) (joined_values env (FIRST_NAME s))) ac_first_name set_first_name st in
  let st := update_field (take_str (Z.to_nat last_name_len) (joined_values env (LAST_NAME s))) ac_last_name set_last_name st in
  fallback_names env st.

(** src/shibboleth_login/auth_backend.py: ShibbolethAuthBackend.authenticate lines 115-134.
    The number of the student in the home organization. *)
Definition shib_student_id (env : Env) (homeorg : string) : result (option string) :=
  match get_urn_values upper unquote (URL_DECODE s) env (STUDENT_URN s) (STUDENT_IDS s)
          (od_set 1 homeorg (STUDENT_FILTERS s)) with
  | Ret (values :: _) => Ret (head values)
  | Ret [] => Ret None
  | Raise KeyError | Raise ValueError => Ret None
  | Raise e => Raise e
  end.

(** src/shibboleth_login/auth_backend.py: ShibbolethAuthBackend.authenticate lines 113-147 *)
Definition update_profile (env : Env) (id : Z) (st : Accounts) : Accounts * result (option Z) :=
  match get_single_value upper unquote (URL_DECODE s) env (HOME_ORGANIZATION s) (Some ""%string) with
  | Raise e => (st, Raise e)
  | Ret homeorg =>
      match ac_profiles st !! id with
      | None => (st, Raise DoesNotExist)
      | Some profile =>
          match shib_student_id env homeorg with
          | Raise e => (st, Raise e)
          | Ret sid =>
              let new_sid := truthy sid && negb (bool_decide (sid = student_id profile)) in
              let new_org := negb (bool_decide (homeorg = organization profile)) in
              let profile' := mkProfile (profile_id profile) (if new_sid then sid else student_id profile) homeorg in
              if new_sid || new_org
              then if db_accepts profile'
                   then (mkAccounts (ac_users st) (<[id := profile']> (ac_profiles st)), Ret (Some id))
                   else (st, Raise DatabaseError)
              else (st, Ret (Some id))
          end
      end
  end.

(** src/shibboleth_login/auth_backend.py: ShibbolethAuthBackend.authenticate lines 77-147.
    [user_save_flag] tells that the user is new. *)
Definition update_and_save (env : Env) (email : option string) (id : option Z) (user : Account) (user_save_flag : bool)
    (st : Accounts) : Accounts * result (option Z) :=
  let '(user, user_save_flag) := update_user env email (user, user_save_flag) in
  if user_save_flag
  then match full_clean st id user with
       | Raise e => (st, Raise e)
       | Ret _ => let '(id, st) := save_user id user st in update_profile env id st
       end
  else match id with
       | Some id => update_profile env id st
       | None => (st, Raise DoesNotExist)
       end.

(** src/shibboleth_login/auth_backend.py: ShibbolethAuthBackend.authenticate *)
Definition authenticate (env : Env) (st : Accounts) : Accounts * result (option Z) :=
  match env with
  | [] => (st, Ret None)
  | _ =>
      match get_scoped_limited env (USER_ID s) username_len with
      | None => (st, Ret None)
      | Some username =>
          let username := lower username in
          let email := normalize_email <$> get_scoped_limited env (EMAIL s) email_len in
          match find_user username email st with
          | Raise e => (st, Raise e)
          | Ret (Some (id, user)) => update_and_save env email (Some id) user false st
          | Ret None =>
              if ALLOW_CREATE_NEW_USERS s
              then let '(st, (id, user)) := new_user username email st in update_and_save env email id user true st
              else (st, Ret None)
          end
      end
  end.

(** src/shibboleth_login/views.py: _filter_environment *)
Definition filter_environment (env : Env) (prefix : string) : Env :=
  let prefix := upper prefix in
  foldl (fun d x => let name := upper x.1 in
           if startswith prefix name then od_set (drop_str (String.length prefix) name) x.2 d else d) [] env.

(** The answers of the login page. *)
Inductive LoginAnswer := LoggedIn (id : Z) | MissingHeaders | AccountDisabled | ServerError (e : exn).

(** src/shibboleth_login/views.py: login *)
Definition shib_login (meta : Env) (st : Accounts) : Accounts * LoginAnswer :=
  let '(st, r) := authenticate (filter_environment meta (PREFIX s)) st in
  (st, match r with
       | Raise e => ServerError e
       | Ret None => MissingHeaders
       | Ret (Some id) =>
           match ac_users st !! id with
           | Some user => if ac_is_active user then LoggedIn id else AccountDisabled
           | None => ServerError DoesNotExist
           end
       end).

(** ** One login touches one account *)

(** User names are unique, as the column enforces, and every user has a profile. *)
Record accounts_ok (st : Accounts) : Prop := {
  ao_names : forall i j a b, ac_users st !! i = Some a -> ac_users st !! j = Some b ->
    ac_username a = ac_username b -> i = j;
  ao_profiles : forall i, is_Some (ac_users st !! i) -> is_Some (ac_profiles st !! i);
}.

(** Only the rows of one user differ. *)
Definition only_user (id : Z) (st st' : Accounts) : Prop :=
  forall j, j <> id -> ac_users st' !! j = ac_users st !! j /\ ac_profiles st' !! j = ac_profiles st !! j.

Lemma only_user_refl id st : only_user id st st.
Proof. by intros j. Qed.

Lemma only_user_trans id st1 st2 st3 : only_user id st1 st2 -> only_user id st2 st3 -> only_user id st1 st3.
Proof. intros H1 H2 j Hj. destruct (H1 j Hj), (H2 j Hj). split; congruence. Qed.

Lemma new_user_id_fresh st : ac_users st !! new_user_id st = None.
Proof.
  destruct (ac_users st !! new_user_id st) as [a|] eqn:E; [|done].
  apply elem_of_map_to_list, (list_elem_of_fmap_2 fst) in E. by apply fresh_id in E.
Qed.

Lemma users_where_elem p st x : x ∈ users_where p st <-> ac_users st !! x.1 = Some x.2 /\ p x.2 = true.
Proof. destruct x. unfold users_where. by rewrite list_elem_of_In, filter_In, <- list_elem_of_In, elem_of_map_to_list. Qed.

Definition blank_profile (st : Accounts) : UserProfile := mkProfile (new_profile_id st) None "".

(** The tables after a save. *)
Lemma save_user_lookup id a st i st' :
  save_user id a st = (i, st') ->
  i = default (new_user_id st) id /\ ac_users st' = <[i := a]> (ac_users st) /\
  (forall j, j <> i -> ac_profiles st' !! j = ac_profiles st !! j) /\
  ac_profiles st' !! i = match id with
                         | Some _ => ac_profiles st !! i
                         | None => Some (default (blank_profile st) (ac_profiles st !! i))
                         end.
Proof.
  unfold save_user, create_user_profile. intros [= <- <-]. destruct id as [k|]; cbn; [done|].
  destruct (ac_profiles st !! new_user_id st) as [p|] eqn:E; cbn; [done|]. split_and!; [done|done| |].
  - intros j Hj. by rewrite lookup_insert_ne.
  - by rewrite lookup_insert_eq.
Qed.

(** Saving a user whose name no other user has. *)
Lemma save_user_ok id a st i st' :
  accounts_ok st -> save_user id a st = (i, st') ->
  (forall j b, ac_users st !! j = Some b -> ac_username b = ac_username a -> j = i) ->
  (forall j, id = Some j -> is_Some (ac_users st !! j)) ->
  accounts_ok st' /\ only_user i st st'.
Proof.
  intros [Hn Hp] E Hname Hid. apply save_user_lookup in E as (Hi & Hu & Hother & Hsame). split; [split|].
  - intros j k b c. rewrite Hu. intros [[<- <-]|[? Hj]]%lookup_insert_Some [[<- <-]|[? Hk]]%lookup_insert_Some Heq;
      [done|symmetry; by eapply Hname|by eapply Hname|by eapply Hn].
  - intros j Hj. destruct (decide (j = i)) as [->|Hne].
    + rewrite Hsame. destruct id as [k|]; [|by eauto]. apply Hp. cbn in Hi. subst i. by apply Hid.
    + rewrite Hother by done. apply Hp. by rewrite Hu, lookup_insert_ne in Hj.
  - intros j Hj. rewrite Hu, lookup_insert_ne by done. by rewrite Hother.
Qed.

(** What a new account gets from the variables are its address and its names. *)
Lemma update_field_keeps v get set x :
  (forall w a, ac_username (set w a) = ac_username a /\ ac_is_active (set w a) = ac_is_active a) ->
  ac_username (update_field v get set x).1 = ac_username x.1 /\ ac_is_active (update_field v get set x).1 = ac_is_active x.1.
Proof. intros Hset. unfold update_field. destruct (_ && _); [apply Hset|done]. Qed.

Lemma update_user_keeps env email x :
  ac_username (update_user env email x).1 = ac_username x.1 /\ ac_is_active (update_user env email x).1 = ac_is_active x.1.
Proof.
  unfold update_user.
  set (x1 := update_field _ ac_email _ x). set (x2 := update_field _ ac_first_name _ x1). set (x3 := update_field _ ac_last_name _ x2).
  assert (H1 : ac_username x1.1 = ac_username x.1 /\ ac_is_active x1.1 = ac_is_active x.1) by by apply update_field_keeps.
  assert (H2 : ac_username x2.1 = ac_username x1.1 /\ ac_is_active x2.1 = ac_is_active x1.1) by by apply update_field_keeps.
  assert (H3 : ac_username x3.1 = ac_username x2.1 /\ ac_is_active x3.1 = ac_is_active x2.1) by by apply update_field_keeps.
  assert (H4 : ac_username (fallback_names env x3).1 = ac_username x3.1 /\ ac_is_active (fallback_names env x3).1 = ac_is_active x3.1).
  { unfold fallback_names. destruct (_ || _); [|done]. destruct (partition _ _) as [f l]. cbn.
    by destruct (bool_decide (ac_first_name _ = _)), (bool_decide (ac_last_name _ = _)). }
  destruct H1, H2, H3, H4. split; congruence.
Qed.

Lemma update_user_flag env email a : (update_user env email (a, true)).2 = true.
Proof.
  unfold update_user.
  assert (H : forall v get set x, x.2 = true -> (update_field v get set x).2 = true).
  { intros v get set x Hx. unfold update_field. by destruct (_ && _). }
  unfold fallback_names. destruct (_ || _); [by destruct (partition _ _)|]. by repeat apply H.
Qed.

Lemma update_user_unchanged env email a a' : update_user env email (a, false) = (a', false) -> a' = a.
Proof.
  unfold update_user.
  assert (H : forall v get set x, (update_field v get set x).2 = false -> x.2 = false /\ update_field v get set x = x).
  { intros v get set x. unfold update_field. by destruct (_ && _). }
  set (x1 := update_field _ ac_email _ _). set (x2 := update_field _ ac_first_name _ x1). set (x3 := update_field _ ac_last_name _ x2).
  unfold fallback_names. destruct (_ || _); [by destruct (partition _ _)|]. intros E.
  destruct (H (take_str (Z.to_nat last_name_len) (joined_values env (LAST_NAME s))) ac_last_name set_last_name x2) as [F2 E3]; [fold x3; by rewrite E|].
  destruct (H (take_str (Z.to_nat first_name_len) (joined_values env (FIRST_NAME s))) ac_first_name set_first_name x1 F2) as [F1 E2].
  destruct (H (default ""%string email) ac_email set_email (a, false) F1) as [_ E1].
  fold x3 in E3. fold x2 in E2. fold x1 in E1. congruence.
Qed.

(** A number is taken from the variables only if the home organization vouches for
    it: all the filters hold, and the organization is one of them. *)
Lemma all_match_true values filters :
  all_match values filters = Ret true -> forall i v, (i, v) ∈ filters -> values !! Z.to_nat i = Some v.
Proof.
  induction filters as [|[i v] filters IH]; [by intros _ ? ? ?%elem_of_nil|]. cbn.
  destruct (values !! Z.to_nat i) as [x|] eqn:E; [|done]. case_bool_decide as Hx; [|done]. subst x. intros H j w.
  intros [[= -> ->]|Hin]%elem_of_cons; [done|by apply IH].
Qed.

Lemma urn_fields_match urn filters fields data :
  urn_fields urn filters fields = Ret data ->
  Forall (fun values => values <> [] /\ forall i v, (i, v) ∈ filters -> values !! Z.to_nat i = Some v) data.
Proof.
  revert data. induction fields as [|f fields IH]; intros data; cbn; [by intros [= <-]|].
  case_bool_decide; [apply IH|]. destruct (negb _); [done|].
  destruct (all_match _ _) as [keep|] eqn:E; cbn; [|done]. destruct (urn_fields urn filters fields) as [d|] eqn:Ed; cbn; [|done].
  intros [= <-]. destruct keep; [|by apply IH]. constructor; [|by apply IH].
  split; [|by apply all_match_true]. unfold urn_parts. destruct (partition _ _). by intros [_ ?]%app_eq_nil.
Qed.

(** The number of a student in an organization, as the variables tell it. *)
Definition vouched (env : Env) (homeorg sid : string) : Prop :=
  exists data values, get_urn_values upper unquote (URL_DECODE s) env (STUDENT_URN s) (STUDENT_IDS s)
      (od_set 1 homeorg (STUDENT_FILTERS s)) = Ret data /\
    values ∈ data /\ values !! 0%nat = Some sid /\ values !! 1%nat = Some homeorg.

Lemma shib_student_id_vouched env homeorg sid : shib_student_id env homeorg = Ret (Some sid) -> vouched env homeorg sid.
Proof.
  unfold shib_student_id. destruct (get_urn_values _ _ _ _ _ _ _) as [[|values data]|[]] eqn:E; try done.
  intros [= Hh]. exists (values :: data), values. split_and!; [done|by left|by rewrite <- head_lookup|].
  unfold get_urn_values in E. destruct (colons _) as [urn|]; [|done]. cbn in E.
  destruct (get_values _ _ _ _ _ _) as [fields|]; [|done]. cbn in E. apply urn_fields_match in E. inversion_clear E as [|? ? [_ Hf] _].
  apply (Hf 1 homeorg). apply od_get_elem. by rewrite od_get_set, decide_True.
Qed.

(** The profile before and after a login. *)
Definition profile_after (env : Env) (old new : UserProfile) : Prop :=
  profile_id new = profile_id old /\
  get_single_value upper unquote (URL_DECODE s) env (HOME_ORGANIZATION s) (Some ""%string) = Ret (organization new) /\
  (student_id new = student_id old \/ exists sid, student_id new = Some sid /\ vouched env (organization new) sid).

Lemma update_profile_spec env id st st' r :
  update_profile env id st = (st', r) ->
  (exists e, r = Raise e /\ st' = st) \/
  (r = Ret (Some id) /\ exists old new, ac_profiles st !! id = Some old /\ profile_after env old new /\
     st' = mkAccounts (ac_users st) (<[id := new]> (ac_profiles st))).
Proof.
  unfold update_profile. destruct (get_single_value _ _ _ _ _ _) as [org|e] eqn:Eo; [|intros [= <- <-]; left; by eauto].
  destruct (ac_profiles st !! id) as [old|] eqn:Ep; [|intros [= <- <-]; left; by eauto].
  destruct (shib_student_id env org) as [sid|e] eqn:Es; [|intros [= <- <-]; left; by eauto].
  set (new_sid := truthy sid && _). set (new := mkProfile _ _ _).
  assert (Hafter : profile_after env old new).
  { split_and!; [done|done|]. cbn. destruct new_sid eqn:En; [right|by left].
    unfold new_sid in En. apply andb_prop in En as [Ht _]. destruct sid as [sid|]; [|done].
    exists sid. split; [done|]. by apply shib_student_id_vouched. }
  destruct (new_sid || _) eqn:Ef.
  - destruct (db_accepts new); intros [= <- <-]; [right|left; by eauto]. split; [done|]. by exists old, new.
  - intros [= <- <-]. right. split; [done|]. exists old, new. split_and!; [done|done|].
    apply orb_false_iff in Ef as [E1 E2]. apply negb_false_iff, bool_decide_eq_true in E2.
    assert (new = old) as ->. { unfold new. rewrite E1, E2. by destruct old. }
    rewrite insert_id by done. by destruct st.
Qed.

(** The account and the profile after a successful login of the user [i]. *)
Definition logged_in (env : Env) (st st' : Accounts) (i : Z) (username : string) (active : bool) : Prop :=
  exists a old new, ac_users st' !! i = Some a /\ ac_username a = username /\ ac_is_active a = active /\
    ac_profiles st' !! i = Some new /\ old = default (blank_profile st) (ac_profiles st !! i) /\ profile_after env old new.

Lemma update_profile_ok env i st1 st st' r a :
  accounts_ok st -> only_user i st1 st -> ac_users st !! i = Some a ->
  ac_profiles st !! i = Some (default (blank_profile st1) (ac_profiles st1 !! i)) ->
  update_profile env i st = (st', r) ->
  accounts_ok st' /\ only_user i st1 st' /\
  match r with
  | Ret (Some j) => j = i /\ logged_in env st1 st' i (ac_username a) (ac_is_active a)
  | Ret None => False
  | Raise _ => True
  end.
Proof.
  intros Hok Hone Ha Hp [(e & -> & ->)|(-> & old & new & Hold & Hafter & ->)]%update_profile_spec; [done|].
  rewrite Hp in Hold. injection Hold as <-. split_and!.
  - destruct Hok as [Hn Hpr]. split; [exact Hn|]. intros j Hj. cbn. destruct (decide (j = i)) as [->|Hne].
    + rewrite lookup_insert_eq. by eauto.
    + rewrite lookup_insert_ne by done. by apply Hpr.
  - apply (only_user_trans i st1 st); [done|]. intros j Hj. cbn. by rewrite lookup_insert_ne.
  - done.
  - exists a, (default (blank_profile st1) (ac_profiles st1 !! i)), new. cbn. by rewrite lookup_insert_eq.
Qed.

Lemma update_and_save_ok env email id user flag st st' r i :
  accounts_ok st -> i = default (new_user_id st) id ->
  match id with
  | Some j => exists stored, ac_users st !! j = Some stored /\ ac_username stored = ac_username user /\ (flag = false -> stored = user)
  | None => flag = true /\ forall j b, ac_users st !! j = Some b -> ac_username b <> ac_username user
  end ->
  update_and_save env email id user flag st = (st', r) ->
  accounts_ok st' /\ only_user i st st' /\
  match r with
  | Ret (Some j) => j = i /\ logged_in env st st' i (ac_username user) (ac_is_active user)
  | Ret None => False
  | Raise _ => True
  end.
Proof.
  intros Hok Hi Hid E. unfold update_and_save in E.
  destruct (update_user env email (user, flag)) as [user' flag'] eqn:Eu.
  destruct (update_user_keeps env email (user, flag)) as [Hname Hactive]. rewrite Eu in Hname, Hactive. cbn [fst] in *.
  destruct flag'.
  - destruct (full_clean st id user') as [u|e]; [|injection E as <- <-; by auto using only_user_refl].
    destruct (save_user id user' st) as [i' st1] eqn:Es. pose proof (save_user_lookup _ _ _ _ _ Es) as (Hi' & Hu & _ & Hp).
    assert (i' = i) as -> by congruence.
    destruct (save_user_ok id user' st i st1 Hok Es) as [Hok1 Hone].
    { intros j b Hj Hb. rewrite Hname in Hb. destruct id as [k|]; [|by destruct Hid as [_ Hid]; edestruct Hid].
      destruct Hid as (stored & Hk & Hsn & _). cbn in Hi. subst i. eapply (ao_names _ Hok); [exact Hj|exact Hk|congruence]. }
    { intros j ->. destruct Hid as (stored & Hk & _). by eauto. }
    rewrite <- Hname, <- Hactive. eapply update_profile_ok; [done|done| | |done].
    + by rewrite Hu, lookup_insert_eq.
    + rewrite Hp. destruct id as [k|]; [|done]. destruct Hid as (stored & Hk & _). cbn in Hi. subst i.
      destruct (ao_profiles _ Hok k) as [p Hp']; [by eauto|]. by rewrite Hp'.
  - destruct flag; [pose proof (update_user_flag env email user) as Hf; by rewrite Eu in Hf|].
    destruct id as [k|]; [|by destruct Hid]. cbn in Hi. subst k. apply update_user_unchanged in Eu as ->.
    destruct Hid as (stored & Hk & _ & Hs). rewrite Hs in Hk by done.
    destruct (ao_profiles _ Hok i) as [p Hp]; [by eauto|].
    eapply update_profile_ok; [done|apply only_user_refl|done| |done]. by rewrite Hp.
Qed.

(** Who a request is taken for: the user with the name, or else, if that is allowed,
    the only user with the address, or else a new user. *)
Definition identified (env : Env) (st : Accounts) (id : Z) (username : string) : Prop :=
  exists eppn, get_scoped_limited env (USER_ID s) username_len = Some eppn /\
  match ac_users st !! id with
  | None => ALLOW_CREATE_NEW_USERS s = true /\ username = lower eppn /\
      forall j b, ac_users st !! j = Some b -> ac_username b <> lower eppn
  | Some a => username = ac_username a /\
      (ac_username a = lower eppn \/
       ALLOW_SEARCH_WITH_EMAIL s = true /\ (forall j b, ac_users st !! j = Some b -> ac_username b <> lower eppn) /\
       exists mail, get_scoped_limited env (EMAIL s) email_len = Some mail /\
         forall j b, ac_users st !! j = Some b -> ac_email b = normalize_email mail <-> j = id)
  end.

Lemma find_user_spec username email st :
  accounts_ok st ->
  match find_user username email st with
  | Raise _ => False
  | Ret (Some (id, a)) => ac_users st !! id = Some a /\
      (ac_username a = username \/
       ALLOW_SEARCH_WITH_EMAIL s = true /\ (forall j b, ac_users st !! j = Some b -> ac_username b <> username) /\
       forall j b, ac_users st !! j = Some b -> Some (ac_email b) = email <-> j = id)
  | Ret None => forall j b, ac_users st !! j = Some b -> ac_username b <> username
  end.
Proof.
  intros [Hn _]. unfold find_user.
  set (named := users_where (fun a => bool_decide (ac_username a = username)) st).
  assert (Hin : forall x, x ∈ named <-> ac_users st !! x.1 = Some x.2 /\ ac_username x.2 = username)
    by (intros x; unfold named; by rewrite users_where_elem, bool_decide_eq_true).
  assert (Hnd : NoDup named.*1).
  { unfold named, users_where. apply filter_ids, NoDup_fst_map_to_list. }
  destruct named as [|[id a] [|[id' a'] l]] eqn:Enamed.
  - assert (Hno : forall j b, ac_users st !! j = Some b -> ac_username b <> username).
    { intros j b Hj E. apply (not_elem_of_nil (j, b)). by apply Hin. }
    destruct (ALLOW_SEARCH_WITH_EMAIL s); [|exact Hno].
    destruct (users_where (fun a => bool_decide (Some (ac_email a) = email)) st) as [|[id a] [|]] eqn:Eu; [exact Hno| |exact Hno].
    assert (Hin' : forall x, x ∈ [(id, a)] <-> ac_users st !! x.1 = Some x.2 /\ Some (ac_email x.2) = email)
      by (intros x; rewrite <- Eu, users_where_elem, bool_decide_eq_true; done).
    destruct (proj1 (Hin' (id, a)) (list_elem_of_here _ _)) as [Ha He]. split; [done|]. right. split_and!; [done|done|].
    intros j b Hj. split.
    + intros Hb. pose proof (proj2 (Hin' (j, b)) (conj Hj Hb)) as H%list_elem_of_singleton. congruence.
    + intros ->. cbn in *. congruence.
  - destruct (proj1 (Hin (id, a)) (list_elem_of_here _ _)) as [Ha He]. split; [done|by left].
  - exfalso. destruct (proj1 (Hin (id, a)) (list_elem_of_here _ _)) as [H1 H2].
    destruct (proj1 (Hin (id', a'))) as [H3 H4]; [right; by left|]. cbn in *.
    inversion_clear Hnd as [|? ? Hnot _]. apply Hnot. rewrite (Hn id id' a a') by congruence. by left.
Qed.

Lemma new_user_ok username email st st1 id user :
  accounts_ok st -> (forall j b, ac_users st !! j = Some b -> ac_username b <> username) ->
  new_user username email st = (st1, (id, user)) ->
  let i := new_user_id st in
  accounts_ok st1 /\ only_user i st st1 /\ ac_username user = username /\ ac_is_active user = true /\
  i = default (new_user_id st1) id /\
  default (blank_profile st1) (ac_profiles st1 !! i) = default (blank_profile st) (ac_profiles st !! i) /\
  match id with
  | Some j => exists stored, ac_users st1 !! j = Some stored /\ ac_username stored = ac_username user
  | None => st1 = st
  end.
Proof.
  intros Hok Hno E. cbv zeta. unfold new_user in E. destruct (truthy email).
  { injection E as <- <- <-. by auto using only_user_refl. }
  destruct (save_user None _ st) as [i st'] eqn:Es. injection E as <- <- <-.
  pose proof (save_user_lookup _ _ _ _ _ Es) as (Hi & Hu & _ & Hp). cbn in Hi. subst i.
  destruct (save_user_ok _ _ _ _ _ Hok Es) as [Hok' Hone]; [|done|].
  { intros j b Hj Hb. by destruct (Hno j b). }
  split_and!; [done|done|done|done|done|by rewrite Hp|]. eexists. by rewrite Hu, lookup_insert_eq.
Qed.

(** C32. A login touches one account, and the right one.  Whatever variables a request
    carries: the user names stay unique and all users have profiles; without a user
    nothing is stored, and even when an exception ends the request only the rows of one
    user have changed.  A successful login is the one of the user with the name in the
    variables, or, if that is allowed, of the only user with the address, or of a new
    user when no account has the name.  It keeps the user name and whether the account
    is active; the profile gets the home organization, and a new student number only
    if it is one of that organization. *)
Theorem authenticate_outcome env st st' r :
  accounts_ok st -> authenticate env st = (st', r) ->
  accounts_ok st' /\
  match r with
  | Ret None => st' = st
  | Raise _ => exists id, only_user id st st'
  | Ret (Some id) => only_user id st st' /\ exists username,
      identified env st id username /\
      logged_in env st st' id username (from_option ac_is_active true (ac_users st !! id))
  end.
Proof.
  intros Hok E. destruct env as [|x env0]; [by injection E as <- <-|]. cbn [authenticate] in E. set (env := x :: env0) in *.
  destruct (get_scoped_limited env (USER_ID s) username_len) as [eppn|] eqn:En; [|by injection E as <- <-].
  set (email := normalize_email <$> _) in E. pose proof (find_user_spec (lower eppn) email st Hok) as Hfind.
  destruct (find_user (lower eppn) email st) as [[[i user]|]|e]; [| |done].
  - destruct Hfind as [Hi Hwho].
    destruct (update_and_save_ok env email (Some i) user false st st' r i Hok eq_refl) as (Hok' & Hone & Hr); [by exists user|done|].
    split; [done|]. destruct r as [[j|]|e]; [|done|by exists i]. destruct Hr as [-> Hr]. split; [done|].
    exists (ac_username user). rewrite Hi. split; [|done]. exists eppn. rewrite Hi. split; [done|]. split; [done|].
    destruct Hwho as [?|(Hs & Hno & Hmail)]; [by left|right]. split_and!; [done|done|].
    unfold email in Hmail. destruct (get_scoped_limited env (EMAIL s) email_len) as [mail|].
    + exists mail. split; [done|]. intros j b Hj. rewrite <- (Hmail j b Hj). cbn. by split; [intros ->|intros [=]].
    + pose proof (proj2 (Hmail i user Hi) eq_refl). done.
  - destruct (ALLOW_CREATE_NEW_USERS s) eqn:Ec; [|by injection E as <- <-].
    destruct (new_user (lower eppn) email st) as [st1 [id user]] eqn:Eu.
    destruct (new_user_ok _ _ _ _ _ _ Hok Hfind Eu) as (Hok1 & Hone1 & Hname & Hact & Hi & Hblank & Hid). set (i := new_user_id st) in *.
    destruct (update_and_save_ok env email id user true st1 st' r i Hok1 Hi) as (Hok' & Hone & Hr); [|done|].
    { destruct id as [j|]; [destruct Hid as (stored & H1 & H2); by exists stored|]. subst st1. split; [done|].
      intros j b Hj. rewrite Hname. by apply (Hfind j). }
    split; [done|]. pose proof (only_user_trans i _ _ _ Hone1 Hone) as Hall.
    destruct r as [[j|]|e]; [|done|by exists i]. destruct Hr as [-> (a & old & new & Ha & Hn & Hac & Hp & Hold & Hafter)].
    split; [done|]. exists (lower eppn). unfold i. rewrite new_user_id_fresh. fold i. split.
    + exists eppn. unfold i. by rewrite new_user_id_fresh.
    + exists a, old, new. cbn. split_and!; [done|congruence|congruence|done|congruence|done].
Qed.

(** ** The same login again *)

Definition or_else (v w : string) : string := if bool_decide (v = ""%string) then w else v.

(** The account after the updates. *)
Lemma update_user_account env email :
  exists first_ last_ full_first full_last,
  forall b g, (update_user env email (b, g)).1
  = mkAccount (ac_username b) (or_else (default ""%string email) (ac_email b)) (or_else (or_else first_ (ac_first_name b)) full_first)
      (or_else (or_else last_ (ac_last_name b)) full_last) (ac_is_active b).
Proof.
  set (full := joined_values env (FULL_NAME s)). set (common := joined_values env (COMMON_NAME s)).
  set (full_name := if (String.length full <? String.length common)%nat then common else full).
  exists (take_str (Z.to_nat first_name_len) (joined_values env (FIRST_NAME s))),
    (take_str (Z.to_nat last_name_len) (joined_values env (LAST_NAME s))),
    (take_str (Z.to_nat first_name_len) (partition " " full_name).1), (take_str (Z.to_nat last_name_len) (partition " " full_name).2).
  intros b g. unfold update_user.
  assert (Hf : forall v get set x, (forall w a, get (set w a) = w) -> (forall a, set (get a) a = a) ->
    (update_field v get set x).1 = set (or_else v (get x.1)) x.1).
  { intros v get set x Hget Hset. unfold update_field, or_else. case_bool_decide as H1; cbn; [by rewrite Hset|].
    case_bool_decide as H2; cbn; [by rewrite H2, Hset|done]. }
  set (x1 := update_field _ ac_email _ _). set (x2 := update_field _ ac_first_name _ x1). set (x3 := update_field _ ac_last_name _ x2).
  assert (H1 : x1.1 = set_email (or_else (default ""%string email) (ac_email b)) b) by (apply Hf; [done|by intros []]).
  assert (H2 : x2.1 = set_first_name (or_else (take_str (Z.to_nat first_name_len) (joined_values env (FIRST_NAME s))) (ac_first_name x1.1)) x1.1)
    by (apply Hf; [done|by intros []]).
  assert (H3 : x3.1 = set_last_name (or_else (take_str (Z.to_nat last_name_len) (joined_values env (LAST_NAME s))) (ac_last_name x2.1)) x2.1)
    by (apply Hf; [done|by intros []]).
  rewrite H2, H1 in H3. clearbody x3. clear x1 x2 H1 H2. destruct x3 as [a3 f3]. cbn [fst] in H3. subst a3.
  unfold fallback_names. fold full common full_name. cbn [fst]. destruct (partition " " full_name) as [f1 l1]. cbn.
  unfold or_else. repeat (case_bool_decide; cbn; try done).
Qed.

Lemma update_user_again env email a f g : 
  (update_user env email ((update_user env email (a, f)).1, g)).1 = (update_user env email (a, f)).1.
Proof.
  destruct (update_user_account env email) as (f_ & l_ & ff & lf & H). rewrite !H. cbn. unfold or_else.
  f_equal; repeat (case_bool_decide; try done).
Qed.

Lemma update_profile_again env id st st' :
  update_profile env id st = (st', Ret (Some id)) ->
  ac_users st' = ac_users st /\ update_profile env id st' = (st', Ret (Some id)).
Proof.
  unfold update_profile. destruct (get_single_value _ _ _ _ _ _) as [org|e]; [|done].
  destruct (ac_profiles st !! id) as [old|] eqn:Ep; [|done]. destruct (shib_student_id env org) as [sid|e]; [|done].
  set (new_sid := truthy sid && _). set (new := mkProfile _ _ _).
  assert (Hagain : truthy sid && negb (bool_decide (sid = student_id new)) = false).
  { cbn. destruct new_sid eqn:En; [|exact En]. rewrite bool_decide_eq_true_2 by done. by rewrite andb_false_r. }
  destruct (new_sid || _) eqn:Ef.
  - destruct (db_accepts new); [|done]. intros [= <-]. split; [done|]. cbn [ac_profiles]. rewrite lookup_insert_eq, Hagain.
    cbn [organization new]. by rewrite bool_decide_eq_true_2.
  - intros [= <-]. split; [done|]. rewrite Ep. fold new_sid. by rewrite Ef.
Qed.

Lemma full_clean_again st st' id i a :
  i = default (new_user_id st) id -> only_user i st st' -> full_clean st id a = Ret tt -> full_clean st' (Some i) a = Ret tt.
Proof.
  intros Hi Hone. unfold full_clean. destruct (clean_fields a); [|by destruct (_ && _)].
  rewrite !(bool_decide_eq_false_2 (_ ∈ [])), !andb_true_r by apply not_elem_of_nil.
  destruct (existsb _ (users_where _ st)) eqn:E; [done|]. intros _.
  assert (E' : existsb (fun x => negb (bool_decide (Some x.1 = Some i)))
    (users_where (fun b => bool_decide (ac_username b = ac_username a)) st') = false); [|by rewrite E'].
  apply not_true_iff_false. intros ([j b] & Hin & Hj)%existsb_exists. apply list_elem_of_In, users_where_elem in Hin as [Hb Hname].
  apply negb_true_iff, bool_decide_eq_false in Hj. cbn [fst snd] in *.
  destruct (Hone j) as [Hu _]; [congruence|]. rewrite Hu in Hb.
  apply not_true_iff_false in E. apply E, existsb_exists. exists (j, b).
  split; [by apply list_elem_of_In, users_where_elem|]. apply negb_true_iff, bool_decide_eq_false. cbn. intros E1.
  subst id. cbn in Hi. congruence.
Qed.

Lemma save_user_same i a st : ac_users st !! i = Some a -> save_user (Some i) a st = (i, st).
Proof. intros Ha. unfold save_user. cbn. rewrite insert_id by done. by destruct st. Qed.

Lemma update_and_save_again env email id user flag st st' i a :
  only_user i st st' -> i = default (new_user_id st) id ->
  (id = None -> flag = true) -> (flag = false -> ac_users st !! i = Some user) ->
  update_and_save env email id user flag st = (st', Ret (Some i)) -> ac_users st' !! i = Some a ->
  a = (update_user env email (user, flag)).1 /\ update_and_save env email (Some i) a false st' = (st', Ret (Some i)).
Proof.
  intros Hone Hi Hid Hst E Ha. unfold update_and_save in E.
  destruct (update_user env email (user, flag)) as [user' flag'] eqn:Eu. destruct flag'.
  - destruct (full_clean st id user') as [[]|] eqn:Ec; [|done].
    destruct (save_user id user' st) as [i' st1] eqn:Es. apply save_user_lookup in Es as (Hi' & Hu & _ & _).
    assert (i' = i) as -> by congruence. apply update_profile_again in E as [Husers Hagain].
    rewrite Husers, Hu, lookup_insert_eq in Ha. injection Ha as <-. split; [done|]. unfold update_and_save.
    pose proof (update_user_again env email user flag false) as Hsame. rewrite Eu in Hsame. cbn [fst] in Hsame.
    destruct (update_user env email (user', false)) as [x g]. cbn in Hsame. subst x. destruct g; [|done].
    rewrite (full_clean_again st st' id i user' Hi Hone Ec), save_user_same; [done|]. by rewrite Husers, Hu, lookup_insert_eq.
  - destruct flag; [pose proof (update_user_flag env email user) as Hf; by rewrite Eu in Hf|].
    destruct id as [k|]; [|by specialize (Hid eq_refl)]. cbn in Hi. subst k.
    pose proof (update_user_unchanged _ _ _ _ Eu) as ->. apply update_profile_again in E as [Husers Hagain].
    rewrite Husers, Hst in Ha by done. injection Ha as <-. split; [done|]. unfold update_and_save. by rewrite Eu.
Qed.

Lemma find_user_named username email st id a :
  accounts_ok st -> ac_users st !! id = Some a -> ac_username a = username -> find_user username email st = Ret (Some (id, a)).
Proof.
  intros Hok Ha Hname. pose proof (find_user_spec username email st Hok) as H.
  destruct (find_user username email st) as [[[j b]|]|e]; [| |done].
  - destruct H as [Hb [Hn|(_ & Hno & _)]]; [|by destruct (Hno id a)].
    assert (j = id) as -> by (eapply (ao_names _ Hok); [exact Hb|exact Ha|congruence]). congruence.
  - by destruct (H id a).
Qed.

Lemma find_user_mailed username email st id a :
  accounts_ok st -> ac_users st !! id = Some a -> ALLOW_SEARCH_WITH_EMAIL s = true ->
  (forall j b, ac_users st !! j = Some b -> ac_username b <> username) ->
  (forall j b, ac_users st !! j = Some b -> Some (ac_email b) = email <-> j = id) ->
  find_user username email st = Ret (Some (id, a)).
Proof.
  intros Hok Ha Hs Hno Hmail. unfold find_user.
  assert (E1 : users_where (fun a => bool_decide (ac_username a = username)) st = []).
  { apply elem_of_nil_inv. intros [j b] [Hj E]%users_where_elem. apply bool_decide_eq_true in E. by apply (Hno j b). }
  rewrite E1, Hs. set (l := users_where (fun a0 => bool_decide (Some (ac_email a0) = email)) st).
  assert (Hl : forall x, x ∈ l <-> x = (id, a)).
  { intros [j b]. unfold l. rewrite users_where_elem, bool_decide_eq_true. cbn. split.
    - intros [Hj He]. apply (Hmail j b Hj) in He. congruence.
    - intros [= -> ->]. split; [done|]. by apply (Hmail id a Ha). }
  assert (Hn : NoDup l) by (apply (NoDup_fmap_1 fst), filter_ids, NoDup_fst_map_to_list).
  destruct l as [|x [|y l']].
  - by destruct (not_elem_of_nil (id, a)), (Hl (id, a)); auto.
  - by rewrite (proj1 (Hl x) (list_elem_of_here _ _)).
  - exfalso. inversion_clear Hn as [|? ? Hnot _]. apply Hnot.
    rewrite (proj1 (Hl x) (list_elem_of_here _ _)), (proj1 (Hl y)); [by left|right; by left].
Qed.

(** A second login with the same variables changes nothing and is the same user: what
    a login stores is what it would store again. *)
Theorem login_again env st st' id :
  accounts_ok st -> authenticate env st = (st', Ret (Some id)) -> authenticate env st' = (st', Ret (Some id)).
Proof.
  intros Hok E. destruct env as [|x env0]; [done|]. cbn [authenticate] in E |- *. set (env := x :: env0) in *.
  destruct (get_scoped_limited env (USER_ID s) username_len) as [eppn|]; [|done].
  set (email := normalize_email <$> _) in *. pose proof (find_user_spec (lower eppn) email st Hok) as Hfind.
  destruct (find_user (lower eppn) email st) as [[[i user]|]|e]; [| |done].
  - destruct Hfind as [Hi Hwho].
    destruct (update_and_save_ok env email (Some i) user false st st' (Ret (Some id)) i Hok eq_refl)
      as (Hok' & Hone & -> & Hin); [by exists user|done|]. destruct Hin as (a & _ & _ & Ha & Hname & _).
    destruct (update_and_save_again env email (Some i) user false st st' i a) as [Hacc Hagain]; [done..|].
    assert (Hf : find_user (lower eppn) email st' = Ret (Some (i, a))); [|by rewrite Hf].
    destruct Hwho as [Hn|(Hs & Hno & Hmail)]; [apply find_user_named; [done|done|congruence]|].
    assert (Hsplit : forall j b, ac_users st' !! j = Some b -> (j = i /\ b = a) \/ (j <> i /\ ac_users st !! j = Some b)).
    { intros j b Hj. destruct (decide (j = i)) as [->|Hne]; [left; split; congruence|right].
      destruct (Hone j Hne) as [<- _]. done. }
    apply find_user_mailed; [done|done|done| |].
    + intros j b [[-> ->]|[_ Hj]]%Hsplit; [rewrite Hname; by apply (Hno i)|by apply (Hno j)].
    + intros j b [[-> ->]|[Hne Hj]]%Hsplit; [|by rewrite (Hmail j b Hj)]. split; [done|]. intros _.
      pose proof (proj2 (Hmail i user Hi) eq_refl) as He. rewrite Hacc.
      destruct (update_user_account env email) as (f_ & l_ & ff & lf & Hup). rewrite Hup. cbn. rewrite <- He. cbn.
      unfold or_else. by case_bool_decide.
  - destruct (ALLOW_CREATE_NEW_USERS s) eqn:Ec; [|done].
    destruct (new_user (lower eppn) email st) as [st1 [id1 user]] eqn:Eu.
    destruct (new_user_ok _ _ _ _ _ _ Hok Hfind Eu) as (Hok1 & Hone1 & Hname & Hact & Hi & Hblank & Hid). set (i := new_user_id st) in *.
    destruct (update_and_save_ok env email id1 user true st1 st' (Ret (Some id)) i Hok1 Hi) as (Hok' & Hone & -> & Hin); [|done|].
    { destruct id1 as [j|]; [destruct Hid as (stored & H1 & H2); by exists stored|]. subst st1. split; [done|].
      intros j b Hj. rewrite Hname. by apply (Hfind j). }
    destruct Hin as (a & _ & _ & Ha & Hn & _).
    destruct (update_and_save_again env email id1 user true st1 st' i a) as [Hacc Hagain]; [done..|].
    by rewrite (find_user_named (lower eppn) email st' i a) by congruence.
Qed.
End Login.

(** ** Parsing *)

Lemma escape_head s : match escape s with String c _ => c <> semicolon | EmptyString => True end.
Proof. destruct s as [|c r]; cbn; [done|]. destruct (Ascii.eqb_spec c semicolon); [done|congruence]. Qed.

Lemma unescape_cons c r :
  (match r with String d _ => d <> semicolon | EmptyString => True end) ->
  unescape (String c r) = String c (unescape r).
Proof.
  destruct r as [|d r]; [done|]. intros Hd. cbn [unescape]. rewrite (proj2 (Ascii.eqb_neq d semicolon)) by done.
  by rewrite andb_false_r.
Qed.

Lemma unescape_escape s : unescape (escape s) = s.
Proof.
  induction s as [|c r IH]; [done|]. cbn [escape]. destruct (Ascii.eqb_spec c semicolon) as [->|Hc].
  - cbn. by rewrite IH.
  - rewrite unescape_cons by apply escape_head. by rewrite IH.
Qed.

(** Whether a text ends with a backslash. *)
Fixpoint ends_backslash (s : string) : bool :=
  match s with
  | EmptyString => false
  | String c r => match r with EmptyString => Ascii.eqb c backslash | _ => ends_backslash r end
  end.

(** An escaped text is not split, and what follows its semicolon is. *)
Lemma split_delim_escape s rest prev :
  ends_backslash s = false -> (s = ""%string -> prev = false) ->
  split_delim prev (escape s +:+ String semicolon rest) = escape s :: split_delim false rest.
Proof.
  revert prev. induction s as [|c r IH]; intros prev Hend Hprev; [by rewrite Hprev|].
  assert (Hr : ends_backslash r = false) by (by destruct r).
  assert (Hb : r = ""%string -> Ascii.eqb c backslash = false) by (by intros ->).
  cbn [escape]. destruct (Ascii.eqb_spec c semicolon) as [->|Hc].
  - rewrite !append_cons. cbn [split_delim]. cbn [Ascii.eqb Bool.eqb andb negb backslash semicolon].
    rewrite IH by (by auto || done). done.
  - rewrite append_cons. cbn [split_delim]. rewrite (proj2 (Ascii.eqb_neq c semicolon)) by done. cbn [andb].
    by rewrite IH.
Qed.

Lemma split_delim_last s prev : split_delim prev (escape s) = [escape s].
Proof.
  revert prev. induction s as [|c r IH]; intros prev; [done|].
  cbn [escape]. destruct (Ascii.eqb_spec c semicolon) as [->|Hc].
  - cbn [split_delim]. cbn [Ascii.eqb Bool.eqb andb negb backslash semicolon]. by rewrite IH.
  - cbn [split_delim]. rewrite (proj2 (Ascii.eqb_neq c semicolon)) by done. cbn [andb]. by rewrite IH.
Qed.

Lemma split_shib_join l :
  l <> [] -> (forall l1 x y l2, l = l1 ++ x :: y :: l2 -> ends_backslash x = false) ->
  split_delim false (shib_join l) = escape <$> l.
Proof.
  unfold shib_join. induction l as [|x [|y l] IH]; intros Hne Hend; [done|apply split_delim_last|].
  cbn [fmap list_fmap join] in *. rewrite append_cons, append_nil. rewrite split_delim_escape.
  - f_equal. apply IH; [done|]. intros l1 x' y' l2 E. apply (Hend (x :: l1) x' y' l2). by rewrite E.
  - by apply (Hend [] x y l).
  - done.
Qed.

(** Joined values are read back.  What [shib_join] makes of any values, of which
    none but the last ends with a backslash, is parsed into the same values, whatever
    semicolons and backslashes they hold, with and without the encoding of the
    server. *)
Theorem get_values_shib_join upper quote unquote urldecode env name l d :
  (forall v, unquote (quote v) = v) -> l <> [] ->
  (forall l1 x y l2, l = l1 ++ x :: y :: l2 -> ends_backslash x = false) ->
  od_get (upper name) env = Some (if urldecode : bool then quote (shib_join l) else shib_join l) ->
  get_values upper unquote urldecode env name d = Ret l.
Proof.
  intros Hq Hne Hend Henv. unfold get_values. rewrite Henv.
  replace (if urldecode then _ else _) with (shib_join l) by (destruct urldecode; by rewrite ?Hq).
  rewrite split_shib_join by done. f_equal. rewrite <- list_fmap_compose. rewrite <- (list_fmap_id l) at 2.
  apply list_fmap_ext. intros ? x _. cbn. apply unescape_escape.
Qed.

(** With the default filters a value is always long enough for them. *)
Lemma all_match_default field urn org :
  startswith "urn:" field = true ->
  exists b, all_match (urn_parts urn field) [(2, "studentID"); (3, "int"); (1, org)]%string = Ret b.
Proof.
  intros Hf. unfold urn_parts. destruct (partition urn _) as [ns value].
  cbn [all_match]. change (Z.to_nat 2) with 2%nat. change (Z.to_nat 3) with 3%nat. change (Z.to_nat 1) with 1%nat.
  destruct (rev (split ":" value)) as [|v0 [|v1 [|v2 [|v3 l]]]] eqn:E; cbn [app lookup list_lookup].
  - apply (f_equal (@rev _)) in E. rewrite rev_involutive in E. by destruct (split_nonempty ":" value).
  - case_bool_decide; [subst; done|by eauto].
  - repeat (case_bool_decide; [|by eauto]). by eauto.
  - repeat (case_bool_decide; [|by eauto]). by eauto.
  - repeat (case_bool_decide; [|by eauto]). by eauto.
Qed.

(** With the default settings the number of a student is found or is missing, whatever
    the variable holds; no malformed value raises. *)
Theorem student_id_default upper unquote prefix env org :
  exists o, shib_student_id upper unquote (shib_defaults prefix) env org = Ret o.
Proof.
  unfold shib_student_id, get_urn_values. cbn [shib_defaults STUDENT_URN STUDENT_FILTERS STUDENT_IDS URL_DECODE].
  destruct (colons _) as [urn|] eqn:Ec; [|by vm_compute in Ec]. cbn [rbind]. unfold get_values.
  destruct (od_get _ env) as [v|]; [|by eauto]. cbn [rbind]. change (od_set 1 org _) with [(2, "studentID"); (3, "int"); (1, org)]%string.
  assert (H : forall fields, match urn_fields urn [(2, "studentID"); (3, "int"); (1, org)]%string fields with
                             | Ret _ | Raise ValueError => True | _ => False end).
  { induction fields as [|f fields IH]; [done|]. cbn [urn_fields]. case_bool_decide; [done|].
    destruct (startswith "urn:" f) eqn:Ef; cbn [negb]; [|done]. destruct (all_match_default f urn org Ef) as [b ->]. cbn [rbind].
    destruct (urn_fields _ _ fields); done. }
  specialize (H (unescape <$> split_delim false (unquote v))).
  destruct (urn_fields _ _ _) as [[|values data]|[]]; cbn; try done; by eauto.
Qed.

(** ** Examples *)

Module Sample.
Fixpoint map_str (f : ascii -> ascii) (s : string) : string :=
  match s with
  | EmptyString => EmptyString
  | String c r => String (f c) (map_str f r)
  end.
Definition between (a b c : ascii) : bool := ((nat_of_ascii a <=? nat_of_ascii c) && (nat_of_ascii c <=? nat_of_ascii b))%nat.
Definition upper : string -> string := map_str (fun c => if between "a" "z" c then ascii_of_nat (nat_of_ascii c - 32) else c).
Definition lower : string -> string := map_str (fun c => if between "A" "Z" c then ascii_of_nat (nat_of_ascii c + 32) else c).
Definition same (v : string) : string := v.
Definition clean_fields (a : Account) : list string := if contains "!" (ac_username a) then ["username"%string] else [].
Definition accepts (p : UserProfile) : bool := true.

Definition login := shib_login upper lower same same clean_fields accepts (shib_defaults "SHIB_") 150 254 150 150.

Definition account (name : string) (active : bool) : Account := mkAccount name "mail@x.fi" "A" "B" active.
Definition accounts (active : bool) : Accounts :=
  mkAccounts (<[1 := account "a@x.fi" active]> (<[2 := account "b@y.fi" true]> ∅))
    (<[1 := mkProfile 11 (Some "123"%string) "x.fi"]> (<[2 := mkProfile 12 (Some "123"%string) "y.fi"]> ∅)).

Definition code (org sid : string) : string := "urn:schac:personalUniqueCode:int:studentID:" +:+ org +:+ ":" +:+ sid.
Definition meta (name org : string) : Env :=
  [("SHIB_eppn", name); ("Shib_givenName", "A"); ("SHIB_SN", "B"); ("SHIB_mail", "mail@x.fi"); ("SHIB_schacHomeOrganization", org);
   ("SHIB_schacPersonalUniqueCode", shib_join [code "x.fi" "777"; code "z.fi" "888"])]%string.

Lemma accounts_are_ok : accounts_ok (accounts true).
Proof.
  split; cbn.
  - intros i j a b. rewrite !lookup_insert_Some, !lookup_empty. naive_solver.
  - intros i [a [[<- _]|[_ [[<- _]|[_ Ha]]%lookup_insert_Some]]%lookup_insert_Some]; [by eexists..|done].
Qed.

Definition auth (st : Accounts) : Accounts * result (option Z) :=
  authenticate upper lower same same clean_fields accepts (shib_defaults "SHIB_") 150 254 150 150
    (filter_environment upper (meta "New@X.fi" "z.fi") "SHIB_") st.

Lemma authenticate_outcome_witness :
  accounts_ok (auth (accounts true)).1 /\ only_user 3 (accounts true) (auth (accounts true)).1 /\
  student_id <$> ac_profiles (auth (accounts true)).1 !! 3 = Some (Some "888"%string).
Proof.
  assert (E : auth (accounts true) = ((auth (accounts true)).1, Ret (Some 3))) by (vm_compute; reflexivity).
  destruct (authenticate_outcome upper lower same same clean_fields accepts (shib_defaults "SHIB_") 150 254 150 150
    (filter_environment upper (meta "New@X.fi" "z.fi") "SHIB_") (accounts true) (auth (accounts true)).1 (Ret (Some 3))
    accounts_are_ok E) as (Hok & Hone & _).
  split; [exact Hok|]. split; [exact Hone|]. vm_compute. reflexivity.
Defined.

Lemma get_values_shib_join_witness :
  get_values upper same true [("X", shib_join ["a;b"; "\;"; ""; "c\"])]%string "x" None = Ret ["a;b"; "\;"; ""; "c\"]%string.
Proof.
  apply (get_values_shib_join upper same same true [("X", shib_join ["a;b"; "\;"; ""; "c\"])]%string "x"
           ["a;b"; "\;"; ""; "c\"]%string None); [reflexivity|discriminate| |reflexivity].
  intros [|a [|b [|c [|d l1]]]] x y l2 E; injection E; intros; subst; try reflexivity; try discriminate.
  destruct l1; discriminate.
Defined.

(** A student who comes from another organization without a number keeps the number of
    the old one, here the number another student has there. *)
Lemma number_follows_to_other_organization :
  let st := (login (meta "a@x.fi" "y.fi") (accounts true)).1 in
  (login (meta "a@x.fi" "y.fi") (accounts true)).2 = LoggedIn 1 /\
  (fun p => (student_id p, organization p)) <$> ac_profiles st !! 1 = Some (Some "123", "y.fi")%string /\
  (fun p => (student_id p, organization p)) <$> ac_profiles st !! 2 = Some (Some "123", "y.fi")%string.
Proof. by vm_compute. Qed.

(** Two home organizations stop the login after the account has been made. *)
Lemma two_organizations_leave_account :
  let '(st, answer) := login (meta "new@x.fi" "x.fi;y.fi") (accounts true) in
  answer = ServerError ValueError /\ ac_username <$> ac_users st !! 3 = Some "new@x.fi"%string.
Proof. by vm_compute. Qed.

(** Without an address the account is stored before it is validated: an invalid one
    stays. *)
Lemma invalid_account_is_stored :
  let '(st, answer) := login [("SHIB_eppn", "new!@x.fi")]%string (accounts true) in
  answer = ServerError (ValidationError ["username"%string]) /\ ac_username <$> ac_users st !! 3 = Some "new!@x.fi"%string.
Proof. by vm_compute. Qed.

(** A disabled account is refused, but its profile has been updated. *)
Lemma disabled_account_is_updated :
  let '(st, answer) := login (meta "a@x.fi" "z.fi") (accounts false) in
  answer = AccountDisabled /\ student_id <$> ac_profiles st !! 1 = Some (Some "888"%string).
Proof. by vm_compute. Qed.
End Sample.
