(* ===== verification/Remote.v ===== *)
(** * Pages of the course services

    [lib/remote_page.py]: the requests to a service with their retries, and the links
    of a page that are changed so that they work inside A+.  The answers of the
    service and [urljoin] are arguments.  The texts of links have no line breaks. *)

From Stdlib Require Import Ascii.
From S2P Require Import Prelude Helpers.
#[local] Open Scope Z_scope.

(** ** Requests *)

(** What one request gives: an answer with its status code, a failed connection, or
    another failure of the HTTP library. *)
Inductive Reply := Answer (code : Z) | NoConnection | RequestFailure.

(** How the call ends: with a page, or with one of its exceptions. *)
Inductive Outcome :=
| Page
| NotModified
| PageNotFound
| PageFailed (code : option Z)
| UnexpectedState.

(** [response.raise_for_status()] raises for these codes. *)
Definition is_error (code : Z) : bool := (400 <=? code) && (code <? 600).

(** src/lib/remote_page.py: request_for_response lines 104-110.  The exceptions of the
    HTTP library. *)
Definition page_error (code : option Z) : Outcome :=
  if bool_decide (code = Some 404) then PageNotFound else PageFailed code.

(** src/lib/remote_page.py: request_for_response lines 60-103.  [replies n] is what the
    request [n] gives; the result holds the pauses and the number of requests. *)
Fixpoint request_loop (replies : nat -> Reply) (n : nat) (retries : list Z) : Outcome * list Z * nat :=
  match retries with
  | [] => (UnexpectedState, [], n)
  | pause :: rest =>
      let last_retry := bool_decide (rest = []) in
      let retry := let '(o, pauses, m) := request_loop replies (S n) rest in (o, pause :: pauses, m) in
      match replies n with
      | Answer code =>
          if code =? 200 then (Page, [], S n)
          else if code =? 304 then (NotModified, [], S n)
          else if ((code <? 500) || last_retry) && is_error code then (page_error (Some code), [], S n)
          else retry
      | NoConnection => if last_retry then (page_error None, [], S n) else retry
      | RequestFailure => (page_error None, [], S n)
      end
  end.

(** src/lib/remote_page.py: request_for_response *)
Definition request_for_response (retries : list Z) (replies : nat -> Reply) : Outcome * list Z * nat :=
  request_loop replies 0 retries.

(** A reply after which the request is sent again although more may come, and what the
    other replies mean. *)
Definition temporary (r : Reply) : Prop :=
  match r with
  | Answer code => code <> 200 /\ code <> 304 /\ (500 <= code \/ is_error code = false)
  | NoConnection => True
  | RequestFailure => False
  end.

Definition final_outcome (r : Reply) : Outcome :=
  match r with
  | Answer code =>
      if code =? 200 then Page else if code =? 304 then NotModified
      else if is_error code then page_error (Some code) else UnexpectedState
  | NoConnection | RequestFailure => page_error None
  end.

Lemma request_loop_spec replies retries : forall n,
  retries <> [] ->
  let '(o, pauses, m) := request_loop replies n retries in
  (n < m <= n + length retries)%nat /\
  (forall k, (n <= k)%nat -> (S k < m)%nat -> temporary (replies k)) /\
  o = final_outcome (replies (m - 1)%nat) /\
  (o = UnexpectedState -> m = (n + length retries)%nat /\ pauses = retries) /\
  (o <> UnexpectedState -> pauses = take (m - 1 - n) retries).
Proof.
  induction retries as [|pause rest IH]; [done|]. intros n _. cbn [request_loop].
  assert (Hnow : forall o, o = final_outcome (replies n) -> o <> UnexpectedState ->
    let '(o, pauses, m) := (o, @nil Z, S n) in
    (n < m <= n + length (pause :: rest))%nat /\ (forall k, (n <= k)%nat -> (S k < m)%nat -> temporary (replies k)) /\
    o = final_outcome (replies (m - 1)%nat) /\ (o = UnexpectedState -> m = (n + length (pause :: rest))%nat /\ pauses = pause :: rest) /\
    (o <> UnexpectedState -> pauses = take (m - 1 - n) (pause :: rest))).
  { intros o Ho Hne. cbn [length]. replace (S n - 1)%nat with n by lia. rewrite Nat.sub_diag.
    split_and!; [lia|lia|intros; lia|done|done|done]. }
  assert (Hretry : temporary (replies n) -> (rest = [] -> final_outcome (replies n) = UnexpectedState) ->
    let '(o, pauses, m) := let '(o, pauses, m) := request_loop replies (S n) rest in (o, pause :: pauses, m) in
    (n < m <= n + length (pause :: rest))%nat /\ (forall k, (n <= k)%nat -> (S k < m)%nat -> temporary (replies k)) /\
    o = final_outcome (replies (m - 1)%nat) /\ (o = UnexpectedState -> m = (n + length (pause :: rest))%nat /\ pauses = pause :: rest) /\
    (o <> UnexpectedState -> pauses = take (m - 1 - n) (pause :: rest))).
  { intros Ht Hlast. destruct rest as [|p2 rest2].
    - cbn [request_loop length]. replace (S n - 1)%nat with n by lia.
      split_and!; [lia|lia|intros; lia|by rewrite Hlast|split; [lia|done]|done].
    - specialize (IH (S n) ltac:(done)). destruct (request_loop replies (S n) (p2 :: rest2)) as [[o pauses] m].
      destruct IH as ((Hm1 & Hm2) & Hk & Ho & Hu & Hp). cbn [length] in *. split_and!; [lia|lia| |done| |].
      + intros k Hk1 Hk2. destruct (decide (k = n)) as [->|]; [done|]. apply Hk; lia.
      + intros E. destruct (Hu E) as [-> ->]. split; [lia|done].
      + intros E. rewrite (Hp E). replace (m - 1 - n)%nat with (S (m - 1 - S n)) by lia. done. }
  assert (Herr : forall c, page_error c <> UnexpectedState) by (intros c; unfold page_error; by destruct (bool_decide _)).
  destruct (replies n) as [code| |]; cbn [final_outcome temporary] in Hnow, Hretry.
  - destruct (code =? 200) eqn:E1; [by apply Hnow|]. destruct (code =? 304) eqn:E2; [by apply Hnow|].
    destruct (is_error code) eqn:E3.
    + destruct ((code <? 500) || bool_decide (rest = [])) eqn:E4; cbn [andb]; [by apply Hnow|].
      apply orb_false_iff in E4 as [E4 E5]. b2p. apply Hretry; [|done]. split_and!; [done|done|by left].
    + rewrite andb_false_r. b2p. apply Hretry; [|done]. split_and!; [done|done|by right].
  - case_bool_decide as Hd; [by apply Hnow|]. by apply Hretry.
  - by apply Hnow.
Qed.

(** The requests to a service end.  With retries configured, between one and as many
    requests are sent as there are retries; all but the last were answered with a
    server error, a failed connection or a code that is no error, and the last answer
    alone decides how the call ends; between two requests it waits the configured
    time. *)
Theorem request_for_response_spec retries replies :
  retries <> [] ->
  let '(o, pauses, m) := request_for_response retries replies in
  (1 <= m <= length retries)%nat /\
  (forall k, (S k < m)%nat -> temporary (replies k)) /\
  o = final_outcome (replies (m - 1)%nat) /\
  (o <> UnexpectedState -> pauses = take (m - 1) retries).
Proof.
  intros Hne. unfold request_for_response. pose proof (request_loop_spec replies retries 0 Hne) as H.
  destruct (request_loop replies 0 retries) as [[o pauses] m]. destruct H as (Hm & Hk & Ho & _ & Hp).
  split_and!; [lia|lia|intros k; apply Hk; lia|done|]. intros E. rewrite (Hp E). f_equal. lia.
Qed.

(** An answer that is neither the page nor an error is asked for again: a request that
    the service accepted, with the code 201 or 202, is sent once for every retry and
    then fails. *)
Lemma accepted_post_is_repeated :
  request_for_response [5; 5; 5] (fun _ => Answer 202) = (UnexpectedState, [5; 5; 5], 3%nat).
Proof. reflexivity. Qed.

(** ** Links between chapters *)

Definition is_lower (c : ascii) : bool := ((97 <=? nat_of_ascii c) && (nat_of_ascii c <=? 122))%nat.
Definition to_lower (c : ascii) : ascii :=
  if ((65 <=? nat_of_ascii c) && (nat_of_ascii c <=? 90))%nat then ascii_of_nat (nat_of_ascii c + 32) else c.

(** Whether a text starts with another one that is in lower case, without regard to
    case. *)
Fixpoint startswith_ci (p s : string) : bool :=
  match p, s with
  | EmptyString, _ => true
  | String a p, String b s => Ascii.eqb a (to_lower b) && startswith_ci p s
  | String _ _, EmptyString => false
  end.

(** [(#.+)?$] *)
Definition anchor_ok (s : string) : bool :=
  match s with
  | EmptyString => true
  | String c r => Ascii.eqb c "#" && negb (bool_decide (r = ""%string))
  end.

(** The pattern [.*\.html(#.+)?$] without regard to case: what is before the last
    [.html] that it can match, and the anchor. *)
Fixpoint html_end (s : string) : option (string * string) :=
  match s with
  | EmptyString => None
  | String c r =>
      match html_end r with
      | Some (pre, anchor) => Some (String c pre, anchor)
      | None => if startswith_ci ".html" s && anchor_ok (drop_str 5 s) then Some (EmptyString, drop_str 5 s) else None
      end
  end.

(** The pattern [^(../)+], in which a dot stands for any character, replaced by
    nothing. *)
Fixpoint strip_dotdot (s : string) : string :=
  match s with
  | String a (String b (String c r)) => if Ascii.eqb c "/" then strip_dotdot r else s
  | _ => s
  end.

(** The pattern [/((plain)|(info(/model|/template)?))/?(#.+)?$] at the start of a text
    and anywhere in it. *)
Definition info_tail (s : string) : bool :=
  existsb (fun core =>
    startswith core s
    && (let r := drop_str (String.length core) s in anchor_ok r || (startswith "/" r && anchor_ok (drop_str 1 r))))
    ["/plain"; "/info"; "/info/model"; "/info/template"]%string.
Fixpoint exercise_info (s : string) : bool :=
  info_tail s || match s with String _ r => exercise_info r | EmptyString => false end.

(** The pattern [(_[a-z]{2})?(/)?(#.+)?$]: at the start of a text it gives the anchor;
    searched for, also what is before it. *)
Definition strip_lang (s : string) : string :=
  match s with
  | String u (String a (String b r)) => if Ascii.eqb u "_" && is_lower a && is_lower b then r else s
  | _ => s
  end.
Definition lang_tail (s : string) : option string :=
  let r := strip_lang s in
  let r := if startswith "/" r then drop_str 1 r else r in
  if anchor_ok r then Some r else None.
Fixpoint lang_search (s : string) : string * string :=
  match lang_tail s with
  | Some anchor => (EmptyString, anchor)
  | None => match s with
            | String c r => let '(pre, anchor) := lang_search r in (String c pre, anchor)
            | EmptyString => (EmptyString, EmptyString)
            end
  end.

(** src/lib/remote_page.py: RemotePage._fix_relative_urls lines 258-304.  The new value of a
    link to a chapter; [None] leaves it. *)
Definition chapter_link (is_multilingual_course : bool) (value : string) : option string :=
  let without_html_suffix :=
    match html_end value with
    | Some (pre, anchor) => Some (pre +:+ anchor)
    | None => if startswith "/" value then None else Some value
    end in
  match without_html_suffix with
  | None => None
  | Some v =>
      let new_val := "../../" +:+ strip_dotdot v in
      let split_path := split "/" new_val in
      let new_val :=
        if (4 <? length split_path)%nat && negb (exercise_info new_val)
        then join "/" (take 3 split_path) +:+ "/" +:+ join "_" (drop 3 split_path) else new_val in
      Some (if is_multilingual_course then let '(pre, anchor) := lang_search new_val in pre +:+ "/" +:+ anchor else new_val)
  end.

(** The pattern [^(#|//|\w+:)], where [word] tells the word characters. *)
Fixpoint word_colon (word : ascii -> bool) (some : bool) (s : string) : bool :=
  match s with
  | EmptyString => false
  | String c r => (some && Ascii.eqb c ":") || (word c && word_colon word true r)
  end.

(** An element of the page with a link. *)
Record Element := mkElement { el_value : string; el_chapter : bool; el_path : option string }.

(** src/lib/remote_page.py: RemotePage._fix_relative_urls lines 251-335.  The new value of
    the link of an element: [urljoin] with the address of static files, [word], and
    the replacement of the course key in a path are given. *)
Definition fix_relative_url (urljoin : string -> string) (word : ascii -> bool) (with_course : string -> string)
    (is_multilingual_course : bool) (e : Element) : string :=
  let value := el_value e in
  if bool_decide (value = ""%string) then value
  else if el_chapter e then default value (chapter_link is_multilingual_course value)
  else if startswith "#" value || startswith "//" value || word_colon word false value then value
  else
    let dotdot := strip_dotdot value in
    let fixed := if bool_decide (dotdot = value) then value else "/" +:+ dotdot in
    urljoin (match el_path e with Some path => with_course path +:+ fixed | None => value end).

(** ** A link to a chapter *)

(** The name of a directory or of a chapter. *)
Definition name_ok (s : string) : Prop := s <> ""%string /\ contains "/" s = false /\ contains "#" s = false.

(** The suffix of a language, as in [_en], or none. *)
Definition lang_ok (l : string) : Prop :=
  l = ""%string \/ exists x y, is_lower x = true /\ is_lower y = true /\ l = String "_" (String x (String y "")).

(** Whether a text ends with such a suffix. *)
Fixpoint ends_lang (s : string) : bool :=
  match s with
  | String u ((String a (String b EmptyString)) as r) => (Ascii.eqb u "_" && is_lower a && is_lower b) || ends_lang r
  | String _ r => ends_lang r
  | EmptyString => false
  end.

Lemma to_lower_dot c : to_lower c = "."%char -> c = "."%char.
Proof. destruct c as [[] [] [] [] [] [] [] []]; vm_compute; congruence. Qed.

Lemma html_end_nodot a : contains "." a = false -> html_end a = None.
Proof.
  induction a as [|c r IH]; [done|]. cbn [contains]. intros [Hc Hr]%orb_false_iff. cbn [html_end]. rewrite (IH Hr).
  cbn [startswith_ci]. destruct (Ascii.eqb "." (to_lower c)) eqn:E; [|done].
  apply Ascii.eqb_eq in E. symmetry in E. apply to_lower_dot in E. subst c. done.
Qed.

Lemma html_end_app x a :
  contains "." a = false -> anchor_ok a = true -> html_end (x +:+ ".html" +:+ a) = Some (x, a).
Proof.
  intros Ha Hok. induction x as [|c x IH].
  - rewrite append_nil. change (html_end (String "." ("html" +:+ a)) = Some (""%string, a)). cbn [html_end].
    rewrite html_end_nodot by (by rewrite contains_app, Ha).
    change (startswith_ci ".html" (String "." ("html" +:+ a))) with true.
    change (drop_str 5 (String "." ("html" +:+ a))) with a. by rewrite Hok.
  - rewrite append_cons. cbn [html_end]. by rewrite IH.
Qed.

Lemma join_cons sep x l : l <> [] -> join sep (x :: l) = x +:+ sep +:+ join sep l.
Proof. by destruct l. Qed.

Lemma join_snoc_app sep l x y : join sep (l ++ [x +:+ y]) = join sep (l ++ [x]) +:+ y.
Proof.
  induction l as [|z l IH]; [done|]. cbn [app]. rewrite !join_cons by (by destruct l). rewrite IH.
  by rewrite <- !string_app_assoc.
Qed.

Lemma join_app sep l1 l2 : l1 <> [] -> l2 <> [] -> join sep (l1 ++ l2) = join sep l1 +:+ sep +:+ join sep l2.
Proof.
  intros H1 H2. induction l1 as [|x l1 IH]; [done|]. destruct l1 as [|y l1]; [by apply join_cons|].
  change ((x :: y :: l1) ++ l2) with (x :: ((y :: l1) ++ l2)). rewrite !(join_cons sep x) by done.
  rewrite IH by done. by rewrite <- !string_app_assoc.
Qed.

Lemma strip_dotdot_up k l : l <> [] -> strip_dotdot (join "/" (replicate k ".."%string ++ l)) = strip_dotdot (join "/" l).
Proof.
  intros Hl. induction k as [|k IH]; [done|]. cbn [replicate app]. rewrite join_cons by (by destruct k).
  change (strip_dotdot ((".." +:+ "/") +:+ join "/" (replicate k ".."%string ++ l)) = strip_dotdot (join "/" l)). exact IH.
Qed.

Lemma strip_dotdot_stop m y : name_ok m -> String.length m <> 2%nat -> startswith "/" y = false ->
  y <> ""%string -> strip_dotdot (m +:+ "/" +:+ y) = m +:+ "/" +:+ y.
Proof.
  intros (Hne & Hm & _) Hlen Hy Hy0. destruct m as [|a [|b [|c m]]]; [done| |done|].
  - destruct y as [|d y]; [done|]. change (strip_dotdot (String a (String "/" (String d y))) = String a (String "/" (String d y))).
    cbn [startswith] in Hy. rewrite andb_true_r in Hy. apply Ascii.eqb_neq in Hy.
    cbn [strip_dotdot]. by rewrite (proj2 (Ascii.eqb_neq d "/")) by congruence.
  - rewrite !append_cons. cbn [strip_dotdot]. cbn in Hm. apply orb_false_iff in Hm as [_ Hm].
    apply orb_false_iff in Hm as [_ Hm]. apply orb_false_iff in Hm as [Hm _]. by rewrite Hm.
Qed.

(** Nothing before the suffix and the anchor is taken for them. *)
Lemma anchor_ok_start c s : c <> "#"%char -> anchor_ok (String c s) = false.
Proof. intros Hc. cbn. by rewrite (proj2 (Ascii.eqb_neq c "#")). Qed.

Lemma slash_tail t rest :
  t <> ""%string -> contains "#" t = false -> t <> "/"%string ->
  anchor_ok (if startswith "/" (t +:+ rest) then drop_str 1 (t +:+ rest) else t +:+ rest) = false.
Proof.
  intros Hne Hh Hs. destruct t as [|c t]; [done|]. cbn [contains] in Hh. apply orb_false_iff in Hh as [Hc Ht].
  apply Ascii.eqb_neq in Hc. rewrite append_cons. cbn [startswith drop_str]. rewrite andb_true_r.
  destruct (Ascii.eqb_spec "/" c) as [<-|Hne']; [|by apply anchor_ok_start].
  destruct t as [|d t]; [done|]. cbn [contains] in Ht. apply orb_false_iff in Ht as [Hd _]. apply Ascii.eqb_neq in Hd.
  rewrite append_cons. by apply anchor_ok_start.
Qed.

Fixpoint ends_slash (s : string) : bool :=
  match s with
  | EmptyString => false
  | String c r => match r with EmptyString => Ascii.eqb c "/" | _ => ends_slash r end
  end.

Lemma lang_tail_none t l a :
  t <> ""%string -> contains "#" t = false -> ends_slash t = false -> lang_ok l -> (l = ""%string -> ends_lang t = false) ->
  anchor_ok a = true -> lang_tail (t +:+ l +:+ a) = None.
Proof.
  intros Hne Hh Hs Hl He Ha. unfold lang_tail.
  assert (Hgo : forall t', t' <> ""%string -> contains "#" t' = false -> t' <> "/"%string ->
    (if anchor_ok (if startswith "/" (t' +:+ l +:+ a) then drop_str 1 (t' +:+ l +:+ a) else t' +:+ l +:+ a)
     then Some (if startswith "/" (t' +:+ l +:+ a) then drop_str 1 (t' +:+ l +:+ a) else t' +:+ l +:+ a) else None) = None)
    by (intros; by rewrite slash_tail).
  assert (Hself : strip_lang (t +:+ l +:+ a) = t +:+ l +:+ a ->
    (if anchor_ok (if startswith "/" (strip_lang (t +:+ l +:+ a)) then drop_str 1 (strip_lang (t +:+ l +:+ a)) else strip_lang (t +:+ l +:+ a))
     then Some (if startswith "/" (strip_lang (t +:+ l +:+ a)) then drop_str 1 (strip_lang (t +:+ l +:+ a)) else strip_lang (t +:+ l +:+ a)) else None) = None).
  { intros ->. apply Hgo; [done|done|]. by intros ->. }
  assert (Hlow : forall c r, l +:+ a = String c r -> is_lower c = false).
  { intros c r E. destruct Hl as [->|(x & y & _ & _ & ->)]; [|by injection E as <- _]. rewrite append_nil in E. subst a.
    cbn in Ha. apply andb_prop in Ha as [Ha _]. by apply Ascii.eqb_eq in Ha as ->. }
  destruct t as [|u [|c1 [|c2 t]]]; [done|..].
  - apply Hself. rewrite append_cons, append_nil. destruct (l +:+ a) as [|c [|d r]] eqn:E; [done|done|].
    cbn [strip_lang]. rewrite (Hlow c (String d r)) by done. by rewrite andb_false_r.
  - apply Hself. rewrite !append_cons, append_nil. destruct (l +:+ a) as [|c r] eqn:E; [done|].
    cbn [strip_lang]. rewrite (Hlow c r) by done. by rewrite andb_false_r.
  - rewrite !append_cons in *. cbn [strip_lang] in *.
    destruct (Ascii.eqb u "_" && is_lower c1 && is_lower c2) eqn:Eu; [|by apply Hself].
    cbn [contains] in Hh. apply orb_false_iff in Hh as [_ Hh]. apply orb_false_iff in Hh as [_ Hh]. apply orb_false_iff in Hh as [_ Hh].
    destruct t as [|c3 t].
    + rewrite append_nil. destruct Hl as [->|(x & y & _ & _ & ->)].
      * specialize (He eq_refl). cbn [ends_lang] in He. by rewrite Eu in He.
      * done.
    + apply Hgo; [done|done|]. by intros [= -> ->].
Qed.

Lemma lang_search_app p l a :
  p <> ""%string -> contains "#" p = false -> ends_slash p = false -> lang_ok l -> (l = ""%string -> ends_lang p = false) ->
  anchor_ok a = true -> lang_search (p +:+ l +:+ a) = (p, a).
Proof.
  intros Hne Hh Hs Hl He Ha.
  assert (Hbase : lang_search (l +:+ a) = (""%string, a)).
  { destruct Hl as [->|(x & y & Hx & Hy & ->)].
    - rewrite append_nil. unfold lang_search. 
      assert (Ht : lang_tail a = Some a); [|destruct a; by rewrite Ht].
      destruct a as [|c a]; [done|]. cbn in Ha. apply andb_prop in Ha as [Hc Ha]. apply Ascii.eqb_eq in Hc as ->.
      unfold lang_tail. replace (strip_lang (String "#" a)) with (String "#" a) by (by destruct a as [|? [|? ?]]). cbn. by rewrite Ha.
    - rewrite !append_cons, append_nil. cbn [lang_search]. unfold lang_tail. cbn [strip_lang]. rewrite Hx, Hy. cbn [andb Ascii.eqb Bool.eqb].
      destruct a as [|c a]; [done|]. cbn in Ha. apply andb_prop in Ha as [Hc Ha]. apply Ascii.eqb_eq in Hc as ->. cbn. by rewrite Ha. }
  induction p as [|c p IH]; [done|].
  rewrite append_cons. cbn [lang_search]. rewrite <- append_cons, (lang_tail_none (String c p)) by done.
  destruct p as [|d p]; [by rewrite append_nil, Hbase|]. rewrite IH; [done|done| |..].
  - cbn [contains] in Hh. by apply orb_false_iff in Hh as [_ Hh].
  - done.
  - intros E. specialize (He E). cbn [ends_lang] in He. destruct p as [|? [|? ?]]; [done| |done]. by apply orb_false_iff in He as [_ He].
Qed.

Lemma contains_join c sep l : contains c (join sep l) = true -> contains c sep = true \/ exists x, x ∈ l /\ contains c x = true.
Proof.
  induction l as [|x l IH]; [done|]. destruct l as [|y l]; [intros H; right; exists x; split; [by left|done]|].
  rewrite join_cons by done. rewrite !contains_app. intros [H|[H|H]%orb_prop]%orb_prop; [|by left|].
  - right. exists x. split; [by left|done].
  - destruct (IH H) as [?|(z & Hz & Hc)]; [by left|]. right. exists z. split; [by right|done].
Qed.

Lemma contains_join_false c sep l :
  contains c sep = false -> (forall x, x ∈ l -> contains c x = false) -> contains c (join sep l) = false.
Proof.
  intros Hs Hl. apply not_true_iff_false. intros [H|(x & Hx & H)]%contains_join; [congruence|]. rewrite Hl in H; done.
Qed.

Lemma ends_slash_app s t : t <> ""%string -> ends_slash (s +:+ t) = ends_slash t.
Proof.
  intros Ht. induction s as [|c s IH]; [done|]. rewrite append_cons. cbn [ends_slash].
  destruct (s +:+ t) as [|d r] eqn:E; [|by rewrite IH]. destruct s; [by rewrite append_nil in E|done].
Qed.

Lemma ends_slash_name s : contains "/" s = false -> ends_slash s = false.
Proof.
  induction s as [|c s IH]; [done|]. cbn [contains ends_slash]. intros [Hc Hs]%orb_false_iff.
  destruct s; [by rewrite Hc|by apply IH].
Qed.

Lemma join_nonempty sep l x : x <> ""%string -> join sep (l ++ [x]) <> ""%string.
Proof.
  intros Hx. destruct l as [|y l]; [done|]. rewrite join_app by done. cbn [join]. intros E.
  apply (f_equal String.length) in E. rewrite !length_append in E. destruct x; cbn in E; [done|lia].
Qed.

Lemma ends_lang_cons c r : (forall a b, r = String a (String b "") -> is_lower a = false) -> ends_lang (String c r) = ends_lang r.
Proof.
  intros H. cbn [ends_lang]. destruct r as [|a [|b [|d r]]]; [done|done| |done].
  rewrite (H a b) by done. by rewrite andb_false_r.
Qed.

Lemma ends_lang_slash s t : t <> ""%string -> ends_lang (s +:+ "/" +:+ t) = ends_lang t.
Proof.
  intros Ht. induction s as [|c s IH].
  - rewrite append_nil, append_cons, append_nil. cbn [ends_lang]. by destruct t as [|a [|b [|d t]]].
  - rewrite append_cons, ends_lang_cons; [done|]. intros a b E. destruct s as [|a' s]; [by injection E as <- _|].
    apply (f_equal String.length) in E. rewrite append_cons in E. cbn [String.length] in E. rewrite !length_append in E.
    destruct t; cbn in E; [done|lia].
Qed.

(** The path of a link without [.html]: one directory of the module, and the other
    directories joined into the name of the chapter. *)
Lemma merged_path m ds last :
  contains "/" m = false -> (forall d, d ∈ ds -> contains "/" d = false) -> contains "/" last = false ->
  let new_val := "../../" +:+ join "/" (m :: ds ++ [last]) in
  exercise_info new_val = false ->
  (if (4 <? length (split "/" new_val))%nat && negb (exercise_info new_val)
   then join "/" (take 3 (split "/" new_val)) +:+ "/" +:+ join "_" (drop 3 (split "/" new_val)) else new_val)
  = "../../" +:+ m +:+ "/" +:+ join "_" (ds ++ [last]).
Proof.
  intros Hm Hds Hlast new_val Hinfo. rewrite Hinfo.
  assert (Hsplit : split "/" new_val = ".."%string :: ".."%string :: m :: ds ++ [last]).
  { unfold new_val. change ("../../" +:+ join "/" (m :: ds ++ [last])) with (join "/" (".."%string :: ".."%string :: m :: ds ++ [last])).
    apply split_join; [done|]. apply Forall_forall. intros x.
    rewrite !elem_of_cons, elem_of_app, list_elem_of_singleton. intros [->|[->|[->|[Hx| ->]]]]; try done. by apply Hds. }
  rewrite Hsplit. cbn [take drop]. destruct ds as [|d ds].
  - cbn [app length]. cbn [Nat.ltb Nat.leb andb]. unfold new_val. cbn [app]. by rewrite join_cons.
  - replace (4 <? length (".."%string :: ".."%string :: m :: (d :: ds) ++ [last]))%nat with true
      by (symmetry; apply Nat.ltb_lt; cbn [length app]; rewrite length_app; cbn; lia).
    reflexivity.
Qed.

(** Links to chapters.  In a course with several languages the link to a chapter
    of any module, in any directory below the module's, with a suffix for the language
    and an anchor or without, becomes the address of the chapter in A+: two levels up,
    the module, and the directories joined to the name of the chapter.  The name of the
    module does not have two characters, a chapter without suffix does not end like
    one, and the link is not one to the pages of an exercise. *)
Theorem chapter_link_spec k m ds c l a :
  name_ok m -> Forall name_ok ds -> name_ok c -> String.length m <> 2%nat ->
  lang_ok l -> (l = ""%string -> ends_lang (join "_" (ds ++ [c])) = false) ->
  anchor_ok a = true -> contains "." a = false -> contains "/" a = false ->
  exercise_info ("../../" +:+ join "/" (m :: ds ++ [c +:+ l +:+ a])) = false ->
  chapter_link true (join "/" (replicate k ".."%string ++ m :: ds ++ [c +:+ l +:+ ".html" +:+ a]))
  = Some ("../../" +:+ m +:+ "/" +:+ join "_" (ds ++ [c]) +:+ "/" +:+ a).
Proof.
  intros Hm Hds Hc Hlen Hl Hends Ha Hdot Hslash Hinfo. rewrite Forall_forall in Hds.
  assert (Hlast : contains "/" (c +:+ l +:+ a) = false).
  { rewrite !contains_app. destruct Hc as (_ & -> & _). rewrite Hslash.
    destruct Hl as [->|(x & y & Hx & Hy & ->)]; [done|]. cbn [contains].
    destruct (Ascii.eqb_spec x "/") as [->|]; [done|]. destruct (Ascii.eqb_spec y "/") as [->|]; done. }
  unfold chapter_link.
  assert (Hhtml : html_end (join "/" (replicate k ".."%string ++ m :: ds ++ [c +:+ l +:+ ".html" +:+ a]))
    = Some (join "/" (replicate k ".."%string ++ m :: ds ++ [c +:+ l]), a)).
  { rewrite string_app_assoc.
    change (m :: ds ++ [(c +:+ l) +:+ ".html" +:+ a]) with ((m :: ds) ++ [(c +:+ l) +:+ ".html" +:+ a]).
    change (m :: ds ++ [c +:+ l]) with ((m :: ds) ++ [c +:+ l]).
    rewrite !app_assoc, join_snoc_app. by apply html_end_app. }
  rewrite Hhtml.
  assert (Hv : join "/" (replicate k ".."%string ++ m :: ds ++ [c +:+ l]) +:+ a
               = join "/" (replicate k ".."%string ++ m :: ds ++ [c +:+ l +:+ a])).
  { change (m :: ds ++ [c +:+ l]) with ((m :: ds) ++ [c +:+ l]). change (m :: ds ++ [c +:+ l +:+ a]) with ((m :: ds) ++ [c +:+ l +:+ a]).
    rewrite !app_assoc, (string_app_assoc c l a). by rewrite (join_snoc_app _ _ (c +:+ l) a). }
  rewrite Hv, strip_dotdot_up by done.
  assert (Hstrip : strip_dotdot (join "/" (m :: ds ++ [c +:+ l +:+ a])) = join "/" (m :: ds ++ [c +:+ l +:+ a])).
  { rewrite join_cons by (by destruct ds).
    assert (Hfirst : forall x r, name_ok x -> startswith "/" (x +:+ r) = false /\ x +:+ r <> ""%string).
    { intros [|x0 x] r (? & Hx & _); [done|]. split; [|done]. rewrite append_cons. cbn [contains] in Hx. cbn [startswith].
      apply orb_false_iff in Hx as [Hx _]. apply Ascii.eqb_neq in Hx. rewrite andb_true_r. apply Ascii.eqb_neq. congruence. }
    assert (Hy : startswith "/" (join "/" (ds ++ [c +:+ l +:+ a])) = false /\ join "/" (ds ++ [c +:+ l +:+ a]) <> ""%string).
    { destruct ds as [|d ds]; [by apply Hfirst|]. cbn [app]. rewrite join_cons by (by destruct ds). apply Hfirst. apply Hds. by left. }
    destruct Hy. by apply strip_dotdot_stop. }
  rewrite Hstrip, merged_path; [|apply Hm|intros d Hd; by apply (Hds d Hd)|done|done].
  rewrite (join_snoc_app "_" ds c (l +:+ a)). set (names := join "_" (ds ++ [c])) in *.
  replace ("../../" +:+ m +:+ "/" +:+ names +:+ l +:+ a) with (("../../" +:+ m +:+ "/" +:+ names) +:+ l +:+ a)
    by (by rewrite <- !string_app_assoc).
  assert (Hnames : names <> ""%string) by (apply join_nonempty, Hc).
  rewrite lang_search_app; [by rewrite <- !string_app_assoc|done| | |done| |done].
  - rewrite !contains_app. destruct Hm as (_ & _ & ->). cbn [orb contains]. apply contains_join_false; [done|].
    intros x [Hx| ->%list_elem_of_singleton]%elem_of_app; [by apply (Hds x Hx)|apply Hc].
  - rewrite !string_app_assoc, ends_slash_app by done. apply ends_slash_name, contains_join_false; [done|].
    intros x [Hx| ->%list_elem_of_singleton]%elem_of_app; [by apply (Hds x Hx)|apply Hc].
  - intros E. rewrite (string_app_assoc "../../" m), ends_lang_slash by done. by apply Hends.
Qed.

(** ** Examples *)

Module Sample.
Lemma chapter_link_spec_witness :
  chapter_link true "../../module1/sub/chapter_en.html#part" = Some "../../module1/sub_chapter/#part"%string.
Proof.
  apply (chapter_link_spec 2 "module1" ["sub"%string] "chapter" "_en" "#part").
  - split; [discriminate|split; reflexivity].
  - apply Forall_cons_2; [split; [discriminate|split; reflexivity]|apply Forall_nil_2].
  - split; [discriminate|split; reflexivity].
  - discriminate.
  - right. exists "e"%char, "n"%char. split; [reflexivity|split; reflexivity].
  - discriminate.
  - reflexivity.
  - reflexivity.
  - reflexivity.
  - reflexivity.
Defined.

(** The dots of the pattern stand for any character: the directory of a module with a
    name of two characters is removed from the link. *)
Lemma short_module_name_is_lost :
  chapter_link true "../m1/chapter_en.html" = Some "../../chapter/"%string /\
  chapter_link true "../mod1/chapter_en.html" = Some "../../mod1/chapter/"%string.
Proof. by vm_compute. Qed.

(** A chapter with a name of two letters in a directory is taken for a language. *)
Lemma short_chapter_name_is_lost :
  chapter_link true "../module1/part/in.html" = Some "../../module1/part/"%string /\
  chapter_link true "../module1/part/intro.html" = Some "../../module1/part_intro/"%string.
Proof. by vm_compute. Qed.

(** A path relative to the course loses a first directory of two characters too. *)
Lemma static_directory_is_lost :
  fix_relative_url (fun v => v) is_lower (fun p => p) true (mkElement "js/main.js" false (Some "/static/course"%string))
  = "/static/course/main.js"%string.
Proof. by vm_compute. Qed.
End Sample.
