(* ===== verification/Signed.v ===== *)
(** * Signed messages

    [lib/crypto/signed_messages.py]: the messages the system signs with its secret and
    gives to services as tokens.  Bytes are integers from 0 to 255.  The base64 codec
    is the one of Python's standard library; HMAC-SHA256 with the secret is an
    argument, a function from texts to signatures of [HASH_SIZE] bytes. *)

From Stdlib Require Import Ascii.
From S2P Require Import Prelude Helpers.
#[local] Open Scope Z_scope.

Abbreviation bytes := (list Z).

Definition is_byte (b : Z) : Prop := 0 <= b < 256.

(** ** Base64 for addresses *)

(** The character of a value below 64. *)
Definition b64_char (v : Z) : ascii :=
  ascii_of_nat (Z.to_nat (
    if v <? 26 then 65 + v else if v <? 52 then 97 + (v - 26) else if v <? 62 then 48 + (v - 52)
    else if v =? 62 then 45 else 95)).

(** The value of a character; [urlsafe_b64decode] accepts both alphabets. *)
Definition b64_value (c : ascii) : option Z :=
  let n := Z.of_nat (nat_of_ascii c) in
  if (65 <=? n) && (n <=? 90) then Some (n - 65)
  else if (97 <=? n) && (n <=? 122) then Some (n - 97 + 26)
  else if (48 <=? n) && (n <=? 57) then Some (n - 48 + 52)
  else if (n =? 45) || (n =? 43) then Some 62
  else if (n =? 95) || (n =? 47) then Some 63
  else None.

(** [urlsafe_b64encode] *)
Fixpoint b64_encode (l : bytes) : list ascii :=
  match l with
  | b1 :: b2 :: b3 :: l =>
      b64_char (b1 / 4) :: b64_char (b1 mod 4 * 16 + b2 / 16) :: b64_char (b2 mod 16 * 4 + b3 / 64) :: b64_char (b3 mod 64)
      :: b64_encode l
  | [b1; b2] => [b64_char (b1 / 4); b64_char (b1 mod 4 * 16 + b2 / 16); b64_char (b2 mod 16 * 4); "="%char]
  | [b1] => [b64_char (b1 / 4); b64_char (b1 mod 4 * 16); "="%char; "="%char]
  | [] => []
  end.

(** [urlsafe_b64decode] of a text: ASCII characters outside of the alphabet are
    skipped; enough padding ends the text; [None] raises for other characters or for
    want of characters or padding. *)
Fixpoint b64_decode_from (quad left pads : Z) (cs : list ascii) : option bytes :=
  match cs with
  | [] => if quad =? 0 then Some [] else None
  | c :: cs =>
      if Ascii.eqb c "=" then
        if (2 <=? quad) && (4 <=? quad + (pads + 1)) then Some [] else b64_decode_from quad left (if 2 <=? quad then pads + 1 else pads) cs
      else
        match b64_value c with
        | None => b64_decode_from quad left pads cs
        | Some v =>
            if quad =? 0 then b64_decode_from 1 v 0 cs
            else if quad =? 1 then cons (left * 4 + v / 16) <$> b64_decode_from 2 (v mod 16) 0 cs
            else if quad =? 2 then cons (left * 16 + v / 4) <$> b64_decode_from 3 (v mod 4) 0 cs
            else cons (left * 64 + v) <$> b64_decode_from 0 0 0 cs
        end
  end.
Definition is_ascii (c : ascii) : bool := (nat_of_ascii c <? 128)%nat.
Definition b64_decode (cs : list ascii) : option bytes :=
  if forallb is_ascii cs then b64_decode_from 0 0 0 cs else None.

Lemma b64_char_ok v : 0 <= v < 64 -> Ascii.eqb (b64_char v) "=" = false /\ b64_value (b64_char v) = Some v.
Proof.
  intros Hv.
  assert (Hall : forallb (fun n => negb (Ascii.eqb (b64_char (Z.of_nat n)) "=") && bool_decide (b64_value (b64_char (Z.of_nat n)) = Some (Z.of_nat n)))
                   (seq 0 64) = true) by (by vm_compute).
  rewrite forallb_forall in Hall. specialize (Hall (Z.to_nat v)). rewrite Z2Nat.id in Hall by lia.
  destruct (andb_prop _ _ (Hall ltac:(apply in_seq; lia))) as [H1 H2]. apply negb_true_iff in H1.
  by apply bool_decide_eq_true in H2.
Qed.

Lemma b64_decode_char v quad left pads cs :
  0 <= v < 64 ->
  b64_decode_from quad left pads (b64_char v :: cs) =
  if quad =? 0 then b64_decode_from 1 v 0 cs
  else if quad =? 1 then cons (left * 4 + v / 16) <$> b64_decode_from 2 (v mod 16) 0 cs
  else if quad =? 2 then cons (left * 16 + v / 4) <$> b64_decode_from 3 (v mod 4) 0 cs
  else cons (left * 64 + v) <$> b64_decode_from 0 0 0 cs.
Proof. intros Hv. cbn [b64_decode_from]. by destruct (b64_char_ok v Hv) as [-> ->]. Qed.

(** Arithmetic with constant divisors. *)
Ltac dm := Z.div_mod_to_equations; lia.

Lemma b64_pad2 left : b64_decode_from 2 left 0 ["="; "="]%char = Some [].
Proof. reflexivity. Qed.
Lemma b64_pad1 left : b64_decode_from 3 left 0 ["="]%char = Some [].
Proof. reflexivity. Qed.

(** Decoding inverts encoding. *)
Lemma b64_decode_encode (l : bytes) : Forall is_byte l -> b64_decode_from 0 0 0 (b64_encode l) = Some l.
Proof.
  revert l. fix IH 1. intros [|b1 [|b2 [|b3 l]]] Hl; [done|..].
  - inversion_clear Hl as [|? ? H1 _]. unfold is_byte in H1. cbn [b64_encode].
    rewrite !b64_decode_char by dm. cbn [Z.eqb Pos.eqb]. rewrite b64_pad2. cbn [fmap option_fmap option_map].
    do 2 f_equal. dm.
  - inversion_clear Hl as [|? ? H1 Hl']. inversion_clear Hl' as [|? ? H2 _]. unfold is_byte in *. cbn [b64_encode].
    rewrite !b64_decode_char by dm. cbn [Z.eqb Pos.eqb]. rewrite b64_pad1. cbn [fmap option_fmap option_map].
    do 2 f_equal; [dm|]. f_equal. dm.
  - inversion_clear Hl as [|? ? H1 Hl']. inversion_clear Hl' as [|? ? H2 Hl]. inversion_clear Hl as [|? ? H3 Hl']. unfold is_byte in H1, H2, H3.
    cbn [b64_encode]. rewrite !b64_decode_char by dm. cbn [Z.eqb Pos.eqb]. rewrite (IH l Hl'). cbn [fmap option_fmap option_map].
    do 2 f_equal; [dm|]. f_equal; [dm|]. f_equal. dm.
Qed.

Lemma b64_char_ascii v : 0 <= v < 64 -> is_ascii (b64_char v) = true.
Proof.
  intros Hv. assert (Hall : forallb (fun n => is_ascii (b64_char (Z.of_nat n))) (seq 0 64) = true) by (by vm_compute).
  rewrite forallb_forall in Hall. specialize (Hall (Z.to_nat v)). rewrite Z2Nat.id in Hall by lia. apply Hall, in_seq. lia.
Qed.

Lemma b64_encode_ascii (l : bytes) : Forall is_byte l -> forallb is_ascii (b64_encode l) = true.
Proof.
  revert l. fix IH 1. intros [|b1 [|b2 [|b3 l]]] Hl; [done|..]; inversion_clear Hl as [|? ? H1 Hl1]; unfold is_byte in H1; cbn [b64_encode forallb].
  - by rewrite !b64_char_ascii by dm.
  - inversion_clear Hl1 as [|? ? H2 _]. unfold is_byte in H2. by rewrite !b64_char_ascii by dm.
  - inversion_clear Hl1 as [|? ? H2 Hl2]. inversion_clear Hl2 as [|? ? H3 Hl3]. unfold is_byte in H2, H3.
    rewrite !b64_char_ascii by dm. by rewrite IH.
Qed.

Lemma b64_roundtrip (l : bytes) : Forall is_byte l -> b64_decode (b64_encode l) = Some l.
Proof. intros Hl. unfold b64_decode. by rewrite b64_encode_ascii, b64_decode_encode. Qed.

(** ** Messages *)

(** [n.to_bytes(4, 'big')] and [int.from_bytes(l, 'big')] *)
Definition to_bytes4 (n : Z) : result bytes :=
  if (0 <=? n) && (n <? 2 ^ 32)
  then Ret [n / 2 ^ 24; n / 2 ^ 16 mod 256; n / 2 ^ 8 mod 256; n mod 256]
  else Raise OverflowError.
Definition from_bytes (l : bytes) : Z := foldl (fun n b => n * 256 + b) 0 l.

(** [data[a:b]] for [a] and [b] that are not negative. *)
Definition slice {A} (a b : nat) (l : list A) : list A := take (b - a) (drop a l).

Definition HASH_SIZE : nat := 32.
Definition NONCE_BYTES : nat := 4.

Section Messages.
(** HMAC-SHA256 with the secret of the installation, and the decoder of UTF-8, which
    raises for other bytes.  A message is given by its UTF-8 bytes. *)
Context (hmac : bytes -> bytes) (utf8_valid : bytes -> bool).

(** src/lib/crypto/signed_messages.py: _signature *)
Definition signature (stamp nonce payload : bytes) : bytes := hmac (stamp ++ nonce ++ payload).

(** src/lib/crypto/signed_messages.py: get_signed_message.  The time and the nonce are
    given. *)
Definition get_signed_message (time : Z) (nonce payload : bytes) : result (list ascii) :=
  let! stamp := to_bytes4 time in
  let sign := signature stamp nonce payload in
  Ret (b64_encode (stamp ++ [Z.of_nat (length nonce)] ++ nonce ++ sign ++ payload)).

(** src/lib/crypto/signed_messages.py: get_valid_message lines 70-93.  The bytes of a
    message are checked. *)
Definition check_message (time_now : Z) (data : bytes) : result bytes :=
  let stamp := slice 0 4 data in
  let msg_time := from_bytes stamp in
  if bool_decide (stamp = []) || (time_now + 60 * 5 <? msg_time) || (msg_time <? time_now - 60 * 60 * 24) then Raise ValueError
  else
    match data !! 4%nat with
    | None => Raise IndexError
    | Some nlen =>
        if nlen <? 4 then Raise ValueError
        else
          let n := Z.to_nat nlen in
          let nonce := slice 5 (5 + n) data in
          let sign := slice (5 + n) (5 + n + HASH_SIZE) data in
          let payload := drop (5 + n + HASH_SIZE) data in
          if bool_decide (nonce = []) || bool_decide (sign = []) || bool_decide (payload = []) then Raise ValueError
          else if bool_decide (signature stamp nonce payload = sign)
          then if utf8_valid payload then Ret payload else Raise ValueError
          else Raise ValueError
    end.

(** src/lib/crypto/signed_messages.py: get_valid_message *)
Definition get_valid_message (time_now : Z) (msg : list ascii) : result bytes :=
  match b64_decode msg with
  | None => Raise ValueError
  | Some data => check_message time_now data
  end.

(** The digest has [HASH_SIZE] bytes. *)
Context (hmac_size : forall m, length (hmac m) = HASH_SIZE) (hmac_bytes : forall m, Forall is_byte (hmac m)).

Lemma from_to_bytes4 n stamp : to_bytes4 n = Ret stamp -> from_bytes stamp = n /\ length stamp = 4%nat /\ Forall is_byte stamp.
Proof.
  unfold to_bytes4. destruct (_ && _) eqn:E; [|done]. b2p. intros [= <-].
  assert (n < 4294967296) by lia. change (2 ^ 24) with 16777216 in *. change (2 ^ 16) with 65536 in *. change (2 ^ 8) with 256 in *.
  unfold from_bytes, is_byte. cbn [foldl length]. split_and!; [dm|done|]. repeat (constructor; [dm|]). constructor.
Qed.

Lemma slice_app {A} (l1 l2 l3 : list A) : slice (length l1) (length l1 + length l2) (l1 ++ l2 ++ l3) = l2.
Proof.
  unfold slice. rewrite drop_app_length. replace (length l1 + length l2 - length l1)%nat with (length l2) by lia.
  by rewrite take_app_length.
Qed.

(** A packed message, taken apart again. *)
Lemma check_packed time_now stamp nonce sign payload :
  length stamp = 4%nat -> (4 <= length nonce)%nat -> length sign = HASH_SIZE -> payload <> [] ->
  time_now - 60 * 60 * 24 <= from_bytes stamp <= time_now + 60 * 5 ->
  check_message time_now (stamp ++ [Z.of_nat (length nonce)] ++ nonce ++ sign ++ payload)
  = if bool_decide (signature stamp nonce payload = sign)
    then if utf8_valid payload then Ret payload else Raise ValueError
    else Raise ValueError.
Proof.
  intros Hs Hn Hsg Hp Ht. unfold check_message. set (data := stamp ++ _).
  assert (E1 : slice 0 4 data = stamp) by (unfold data, slice; rewrite drop_0, <- Hs; by rewrite Nat.sub_0_r, take_app_length).
  assert (E2 : data !! 4%nat = Some (Z.of_nat (length nonce))).
  { unfold data. rewrite lookup_app_r by lia. rewrite Hs. done. }
  assert (E3 : slice 5 (5 + length nonce) data = nonce).
  { unfold data. replace 5%nat with (length (stamp ++ [Z.of_nat (length nonce)])) by (rewrite length_app; cbn; lia).
    rewrite app_assoc. apply slice_app. }
  assert (E4 : slice (5 + length nonce) (5 + length nonce + HASH_SIZE) data = sign).
  { unfold data. replace (5 + length nonce)%nat with (length (stamp ++ [Z.of_nat (length nonce)] ++ nonce)) by (rewrite !length_app; cbn; lia).
    rewrite <- Hsg. rewrite <- slice_app with (l1 := stamp ++ [Z.of_nat (length nonce)] ++ nonce) (l3 := payload).
    by rewrite <- !app_assoc. }
  assert (E5 : drop (5 + length nonce + HASH_SIZE) data = payload).
  { unfold data. replace (5 + length nonce + HASH_SIZE)%nat with (length (stamp ++ [Z.of_nat (length nonce)] ++ nonce ++ sign)) by (rewrite !length_app; cbn; lia).
    replace (stamp ++ [Z.of_nat (length nonce)] ++ nonce ++ sign ++ payload) with ((stamp ++ [Z.of_nat (length nonce)] ++ nonce ++ sign) ++ payload)
      by (by rewrite <- !app_assoc). apply drop_app_length. }
  rewrite E1, E2, Nat2Z.id, E3, E4, E5.
  rewrite (bool_decide_eq_false_2 (stamp = [])) by (by intros ->).
  rewrite (bool_decide_eq_false_2 (nonce = [])) by (intros ->; cbn in Hn; lia).
  rewrite (bool_decide_eq_false_2 (sign = [])) by (by intros ->).
  rewrite (bool_decide_eq_false_2 (payload = [])) by done.
  rewrite (proj2 (Z.ltb_ge _ _)) by lia. rewrite (proj2 (Z.ltb_ge _ _)) by lia. rewrite (proj2 (Z.ltb_ge _ _)) by lia. done.
Qed.

(** What is accepted carries the signature of its time, nonce and content. *)
Lemma check_message_inv time_now data payload :
  check_message time_now data = Ret payload ->
  exists stamp nonce, length stamp = 4%nat /\ (4 <= length nonce)%nat /\ payload <> [] /\ utf8_valid payload = true /\
    data = stamp ++ [Z.of_nat (length nonce)] ++ nonce ++ signature stamp nonce payload ++ payload /\
    time_now - 60 * 60 * 24 <= from_bytes stamp <= time_now + 60 * 5.
Proof.
  unfold check_message. set (stamp := slice 0 4 data).
  destruct (_ || _ || _) eqn:E1; [done|]. apply orb_false_iff in E1 as [E1 E1c]. apply orb_false_iff in E1 as [E1a E1b].
  destruct (data !! 4%nat) as [nlen|] eqn:E2; [|done]. destruct (nlen <? 4) eqn:E3; [done|].
  set (n := Z.to_nat nlen). set (nonce := slice 5 (5 + n) data). set (sign := slice (5 + n) _ data). set (content := drop _ data).
  destruct (_ || _ || _) eqn:E4; [done|]. apply orb_false_iff in E4 as [E4 E4c]. apply orb_false_iff in E4 as [E4a E4b].
  destruct (bool_decide (signature _ _ _ = sign)) eqn:E5; [|done]. destruct (utf8_valid content) eqn:E6; [|done]. intros [= <-]. b2p.
  assert (Hlen : (5 + n + HASH_SIZE < length data)%nat).
  { destruct (decide (5 + n + HASH_SIZE < length data)%nat) as [|H]; [done|]. destruct E4c. unfold content. apply drop_ge. lia. }
  assert (Hnonce : length nonce = n) by (unfold nonce, slice; rewrite length_take, length_drop; lia).
  assert (Hstamp : length stamp = 4%nat) by (unfold stamp, slice; rewrite drop_0, length_take; lia).
  exists stamp, nonce. split_and!; [done|lia|done|done| |lia|lia].
  rewrite E5. unfold stamp, nonce, sign, content, slice.
  replace (5 + n - 5)%nat with n by lia. replace (5 + n + HASH_SIZE - (5 + n))%nat with HASH_SIZE by lia. cbn [Nat.sub]. rewrite drop_0.
  assert (A1 : take HASH_SIZE (drop (5 + n) data) ++ drop (5 + n + HASH_SIZE) data = drop (5 + n) data)
    by (rewrite <- (drop_drop data HASH_SIZE (5 + n)); apply take_drop).
  assert (A2 : take n (drop 5 data) ++ drop (5 + n) data = drop 5 data) by (rewrite <- (drop_drop data n 5); apply take_drop).
  rewrite A1, A2.
  assert (A3 : Z.of_nat (length (take n (drop 5 data))) = nlen) by (rewrite length_take, length_drop; lia). rewrite A3.
  rewrite <- (take_drop 4 data) at 1. f_equal. by apply drop_S.
Qed.

(** A signed message is read back.  A message signed at a time that fits in four
    bytes is accepted with its content from five minutes before that time to a day after,
    and only then. *)
Theorem signed_message_roundtrip time time_now nonce payload :
  0 <= time < 2 ^ 32 -> length nonce = NONCE_BYTES -> Forall is_byte nonce -> Forall is_byte payload ->
  payload <> [] -> utf8_valid payload = true ->
  exists msg, get_signed_message time nonce payload = Ret msg /\
    get_valid_message time_now msg =
      if (time_now - 60 * 60 * 24 <=? time) && (time <=? time_now + 60 * 5) then Ret payload else Raise ValueError.
Proof.
  intros Ht Hn Hnb Hpb Hp Hu. unfold get_signed_message. destruct (to_bytes4 time) as [stamp|] eqn:Es.
  2: { unfold to_bytes4 in Es. destruct (_ && _) eqn:E; [done|]. b2p. lia. }
  destruct (from_to_bytes4 _ _ Es) as (Ht2 & Hs & Hsb). cbn [rbind]. eexists. split; [done|].
  unfold get_valid_message. rewrite b64_roundtrip.
  2: { repeat (apply Forall_app; split); try done; [|apply hmac_bytes]. constructor; [|done]. rewrite Hn. unfold is_byte, NONCE_BYTES. lia. }
  destruct ((time_now - 60 * 60 * 24 <=? time) && (time <=? time_now + 60 * 5)) eqn:E.
  - b2p. rewrite check_packed; [|done|rewrite Hn; unfold NONCE_BYTES; lia|apply hmac_size|done|lia].
    rewrite bool_decide_eq_true_2 by done. by rewrite Hu.
  - unfold check_message. replace (slice 0 4 _) with stamp.
    2: { unfold slice. rewrite drop_0, Nat.sub_0_r, <- Hs. symmetry. apply take_app_length. }
    rewrite Ht2. destruct (time_now + 60 * 5 <? time) eqn:E1; [by rewrite orb_true_r|].
    destruct (time <? time_now - 60 * 60 * 24) eqn:E2; [by rewrite orb_true_r|]. exfalso. b2p. destruct E as [E|E]; b2p; lia.
Qed.

(** The first byte of the content moved to the end of the nonce. *)
Definition shift_message (data : bytes) : bytes :=
  match data !! 4%nat with
  | Some nlen =>
      let n := Z.to_nat nlen in
      slice 0 4 data ++ [nlen + 1] ++ slice 5 (5 + n) data ++ slice (5 + n + HASH_SIZE) (6 + n + HASH_SIZE) data
      ++ slice (5 + n) (5 + n + HASH_SIZE) data ++ drop (6 + n + HASH_SIZE) data
  | None => data
  end.

(** The signature does not tell where the nonce ends: whoever has an accepted message
    makes, without the secret, an accepted message whose content is what follows the
    first byte of the other one. *)
Lemma shifted_message_is_valid time_now data c payload :
  check_message time_now data = Ret (c :: payload) -> payload <> [] -> utf8_valid payload = true ->
  check_message time_now (shift_message data) = Ret payload.
Proof.
  intros H Hp Hu. destruct (check_message_inv _ _ _ H) as (stamp & nonce & Hs & Hn & _ & _ & -> & Ht). clear H.
  set (sign := signature stamp nonce (c :: payload)).
  assert (Hsg : length sign = HASH_SIZE) by apply hmac_size.
  assert (E : shift_message (stamp ++ [Z.of_nat (length nonce)] ++ nonce ++ sign ++ c :: payload)
              = stamp ++ [Z.of_nat (length (nonce ++ [c]))] ++ (nonce ++ [c]) ++ sign ++ payload).
  { unfold shift_message. rewrite lookup_app_r, Hs by lia. cbn [Nat.sub lookup list_lookup app]. rewrite Nat2Z.id.
    set (data := stamp ++ _).
    assert (D1 : data = stamp ++ [Z.of_nat (length nonce)] ++ nonce ++ sign ++ [c] ++ payload) by done.
    assert (E1 : slice 0 4 data = stamp) by (rewrite D1; unfold slice; rewrite drop_0, <- Hs; by rewrite Nat.sub_0_r, take_app_length).
    assert (E3 : slice 5 (5 + length nonce) data = nonce).
    { rewrite D1. replace 5%nat with (length (stamp ++ [Z.of_nat (length nonce)])) by (rewrite length_app; cbn; lia).
      rewrite app_assoc. apply slice_app. }
    assert (E4 : slice (5 + length nonce) (5 + length nonce + HASH_SIZE) data = sign).
    { rewrite D1. replace (5 + length nonce)%nat with (length (stamp ++ [Z.of_nat (length nonce)] ++ nonce)) by (rewrite !length_app; cbn; lia).
      rewrite <- Hsg. rewrite <- slice_app with (l1 := stamp ++ [Z.of_nat (length nonce)] ++ nonce) (l3 := [c] ++ payload). by rewrite <- !app_assoc. }
    assert (E5 : slice (5 + length nonce + HASH_SIZE) (6 + length nonce + HASH_SIZE) data = [c]).
    { rewrite D1. replace (6 + length nonce + HASH_SIZE)%nat with ((5 + length nonce + HASH_SIZE) + length [c])%nat by (cbn; lia).
      replace (5 + length nonce + HASH_SIZE)%nat with (length (stamp ++ [Z.of_nat (length nonce)] ++ nonce ++ sign)) by (rewrite !length_app; cbn; lia).
      rewrite <- slice_app with (l1 := stamp ++ [Z.of_nat (length nonce)] ++ nonce ++ sign) (l3 := payload). by rewrite <- !app_assoc. }
    assert (E6 : drop (6 + length nonce + HASH_SIZE) data = payload).
    { rewrite D1. replace (6 + length nonce + HASH_SIZE)%nat with (length (stamp ++ [Z.of_nat (length nonce)] ++ nonce ++ sign ++ [c])) by (rewrite !length_app; cbn; lia).
      replace (stamp ++ [Z.of_nat (length nonce)] ++ nonce ++ sign ++ [c] ++ payload)
        with ((stamp ++ [Z.of_nat (length nonce)] ++ nonce ++ sign ++ [c]) ++ payload) by (by rewrite <- !app_assoc). apply drop_app_length. }
    rewrite E1, E3, E4, E5, E6. rewrite length_app. cbn [length]. rewrite Nat2Z.inj_add. by rewrite <- !app_assoc. }
  rewrite E, check_packed; [|done|rewrite length_app; lia|done|done|done].
  rewrite bool_decide_eq_true_2; [by rewrite Hu|]. unfold sign, signature. by rewrite <- !app_assoc.
Qed.
End Messages.
