(* ===== verification/Tokens.v ===== *)
(** * Tokens of services

    [lib/api/authentication], [authorization/object_permissions.py] and
    [authorization/models.py]: the tokens the system gives to services for a
    submission or an exercise, what a service may do with a token or with the
    permissions of a JSON web token, and the endpoints that ask. *)

From Stdlib Require Import Ascii.
From S2P Require Import Prelude Helpers Course Permissions Signed.
#[local] Open Scope Z_scope.

(** ** Numbers in tokens *)

Definition digit_value (c : ascii) : option Z :=
  let n := Z.of_nat (nat_of_ascii c) in
  if (48 <=? n) && (n <=? 57) then Some (n - 48)
  else if (97 <=? n) && (n <=? 102) then Some (n - 97 + 10)
  else None.

(** The value of a text of digits. *)
Fixpoint digits_from (base acc : Z) (s : string) : option Z :=
  match s with
  | EmptyString => Some acc
  | String c r =>
      match digit_value c with
      | Some v => if v <? base then digits_from base (acc * base + v) r else None
      | None => None
      end
  end.
Definition digits (base : Z) (s : string) : option Z :=
  if bool_decide (s = ""%string) then None else digits_from base 0 s.

(** [int(s, base)]; [other] is what it makes of texts that are not plain digits. *)
Definition py_int (other : Z -> string -> option Z) (base : Z) (s : string) : option Z :=
  match digits base s with
  | Some v => Some v
  | None => other base s
  end.

(** [format(n, 'x')] *)
Definition hex_digit (v : Z) : ascii := ascii_of_nat (Z.to_nat (if v <? 10 then 48 + v else 87 + v)).
Fixpoint hex_fuel (fuel : nat) (n : Z) (s : string) : string :=
  match fuel with
  | O => s
  | S fuel => let s := String (hex_digit (n mod 16)) s in if n <? 16 then s else hex_fuel fuel (n / 16) s
  end.
Definition hex (n : Z) : string := hex_fuel (S (Z.to_nat n)) n "".

Lemma hex_digit_value v : 0 <= v < 16 -> digit_value (hex_digit v) = Some v.
Proof.
  intros Hv.
  assert (Hall : forallb (fun n => bool_decide (digit_value (hex_digit (Z.of_nat n)) = Some (Z.of_nat n))) (seq 0 16) = true) by (by vm_compute).
  rewrite forallb_forall in Hall. specialize (Hall (Z.to_nat v)). rewrite Z2Nat.id in Hall by lia.
  apply (bool_decide_eq_true (digit_value (hex_digit v) = Some v)), Hall, in_seq. lia.
Qed.

Lemma digits_from_hex fuel n s : 0 <= n -> (Z.to_nat n < fuel)%nat -> digits_from 16 0 (hex_fuel fuel n s) = digits_from 16 n s.
Proof.
  revert n s. induction fuel as [|fuel IH]; intros n s Hn Hf; [lia|]. cbn [hex_fuel]. destruct (n <? 16) eqn:E.
  - b2p. cbn [digits_from]. rewrite Z.mod_small by lia. rewrite hex_digit_value by lia. rewrite (proj2 (Z.ltb_lt _ _)) by lia. done.
  - b2p. rewrite IH by dm. cbn [digits_from]. rewrite hex_digit_value by dm. rewrite (proj2 (Z.ltb_lt _ _)) by dm.
    f_equal. dm.
Qed.

Lemma hex_fuel_nonempty fuel n s : s <> ""%string -> hex_fuel fuel n s <> ""%string.
Proof. revert n s. induction fuel as [|fuel IH]; intros n s Hs; [done|]. cbn. destruct (n <? 16); [done|]. by apply IH. Qed.

Lemma py_int_hex other n : 0 <= n -> py_int other 16 (hex n) = Some n.
Proof.
  intros Hn. unfold py_int, digits, hex. rewrite bool_decide_eq_false_2.
  - rewrite digits_from_hex by lia. done.
  - cbn [hex_fuel]. destruct (n <? 16); [done|]. by apply hex_fuel_nonempty.
Qed.

(** Numbers in decimal notation. *)
Lemma digits_from_pretty x s : digits_from 10 0 (pretty.pretty_N_go x s) = digits_from 10 (Z.of_N x) s.
Proof.
  revert s. induction (N.lt_wf_0 x) as [x _ IH]. intros s. destruct (decide (x = 0%N)) as [->|Hx]; [done|].
  rewrite pretty.pretty_N_go_step by lia. rewrite IH by (apply N.div_lt; lia). cbn [digits_from].
  assert (Hc : forall y, (y < 10)%N -> digit_value (pretty.pretty_N_char y) = Some (Z.of_N y)).
  { intros y Hy. assert (y = 0 \/ y = 1 \/ y = 2 \/ y = 3 \/ y = 4 \/ y = 5 \/ y = 6 \/ y = 7 \/ y = 8 \/ y = 9)%N by lia. naive_solver. }
  pose proof (N.mod_upper_bound x 10 ltac:(done)) as Hm. rewrite Hc by done.
  rewrite (proj2 (Z.ltb_lt _ _)) by lia. f_equal. rewrite N2Z.inj_div, N2Z.inj_mod. dm.
Qed.

Lemma py_int_str other n : 0 <= n -> py_int other 10 (str_of_Z n) = Some n.
Proof.
  intros Hn. unfold py_int, digits, str_of_Z.
  assert (E : pretty.pretty n = pretty.pretty (Z.to_N n)) by (by destruct n).
  rewrite E. unfold pretty.pretty, pretty.pretty_N. destruct (decide (Z.to_N n = 0%N)) as [H0|H0].
  - assert (n = 0) as -> by lia. reflexivity.
  - rewrite bool_decide_eq_false_2.
    + rewrite digits_from_pretty, Z2N.id by done. done.
    + rewrite pretty.pretty_N_go_step by lia. generalize (Z.to_N n `div` 10)%N, (pretty.pretty_N_char (Z.to_N n `mod` 10)). clear.
      intros x c. assert (Hs : String c "" <> ""%string) by done. revert Hs. generalize (String c ""). induction (N.lt_wf_0 x) as [x _ IH].
      intros s Hs. destruct (decide (x = 0%N)) as [->|Hx]; [done|]. rewrite pretty.pretty_N_go_step by lia. apply IH; [apply N.div_lt; lia|done].
Qed.

(** ** Lists of permissions *)

(** What the lists of permissions hold: permissions, objects by their class and
    id. *)
Inductive PermValue :=
| PermissionValue (p : AccessPermission)
| ObjectValue (class : string) (id : Z)
| TextValue (s : string).
#[global] Instance PermValue_eq_dec : EqDecision PermValue.
Proof. solve_decision. Defined.

(** The keyword arguments a create permission was added with. *)
Abbreviation PermKwargs := (gmap string PermValue).

(** What a create permission is about: the keyword arguments it was added with, or
    an object that was read from a payload. *)
Inductive CreateArg :=
| CreateKwargs (kwargs : PermKwargs)
| CreateObject (obj : PermValue).

(** src/authorization/object_permissions.py: ObjectPermissionList lines 128-131 *)
Record ObjectPermissionList := mkPermissionList {
  creates : list (PermValue * CreateArg);
  instances : list (PermValue * PermValue);
}.

Definition no_permissions : ObjectPermissionList := mkPermissionList [] [].

(** src/authorization/object_permissions.py: ObjectPermissionList.add_create *)
Definition add_create (self : ObjectPermissionList) (kwargs : PermKwargs) : ObjectPermissionList :=
  mkPermissionList (creates self ++ [(PermissionValue CREATE, CreateKwargs kwargs)]) (instances self).

(** src/authorization/object_permissions.py: ObjectPermissionList.add *)
Definition add_permission (self : ObjectPermissionList) (permission : AccessPermission) (obj : PermValue)
    : result ObjectPermissionList :=
  if bool_decide (permission = CREATE) then Raise AssertionError
  else Ret (mkPermissionList (creates self) (instances self ++ [(PermissionValue permission, obj)])).

(** src/authorization/object_permissions.py: ObjectPermissionList.get_creates.  A
    permission is yielded once for every argument it does not agree with; an
    object is no dictionary to look an argument up in.  The list is what the
    generator does at each turn; it ends where it raises. *)
Definition get_creates (self : ObjectPermissionList) (kwargs : list (string * PermValue))
    : list (result PermKwargs) :=
  flat_map (fun value =>
    flat_map (fun kv =>
      match snd value with
      | CreateKwargs given => if bool_decide (given !! fst kv = Some (snd kv)) then [] else [Ret given]
      | CreateObject _ => [Raise TypeError]
      end) kwargs)
    (creates self).

(** src/authorization/object_permissions.py: ObjectPermissionList.get_create *)
Definition get_create (self : ObjectPermissionList) (raise_if_multiple : bool)
    (kwargs : list (string * PermValue)) : result (option PermKwargs) :=
  match get_creates self kwargs with
  | [] => Ret None
  | v :: more =>
      let! v := v in
      if raise_if_multiple then
        match more with
        | [] => Ret (Some v)
        | v2 :: _ => let! _ := v2 in Raise KeyError
        end
      else Ret (Some v)
  end.

(** src/authorization/object_permissions.py: ObjectPermissionList.has *)
Definition has_permission (self : ObjectPermissionList) (obj : PermValue) (permission : option PermValue)
    : result bool :=
  match permission with
  | None => Ret (existsb (fun po => bool_decide (obj = snd po)) (instances self))
  | Some permission =>
      if bool_decide (permission = PermissionValue CREATE) then Raise AssertionError
      else Ret (bool_decide ((permission, obj) ∈ instances self))
  end.

(** src/authorization/object_permissions.py: ObjectPermissions lines 184-188 *)
Record ObjectPermissions := mkObjectPermissions {
  op_courses : ObjectPermissionList;
  op_instances : ObjectPermissionList;
  op_exercises : ObjectPermissionList;
  op_submissions : ObjectPermissionList;
}.
Definition no_object_permissions : ObjectPermissions :=
  mkObjectPermissions no_permissions no_permissions no_permissions no_permissions.

(** ** Tokens in addresses *)

(** What the tokens refer to: submissions with their hash and exercise, exercises with
    their course and instance, and the users. *)
Record TokenTables := mkTokenTables {
  tt_submissions : gmap Z (string * Z);
  tt_exercises : gmap Z (Z * Z);
  tt_users : gset Z;
}.

(** The bytes of an ASCII text, and back. *)
Definition bytes_of (s : string) : list Z := (fun c => Z.of_nat (nat_of_ascii c)) <$> String.list_ascii_of_string s.
Definition text_of (l : list Z) : string := String.string_of_list_ascii ((fun b => ascii_of_nat (Z.to_nat b)) <$> l).

Section Tokens.
(** HMAC with the secret, the decoder of UTF-8, and Python's [int] for unusual texts. *)
Context (hmac : list Z -> list Z) (utf8_valid : list Z -> bool) (other : Z -> string -> option Z).

(** src/lib/api/authentication/__init__.py: get_graderauth_submission_params *)
Definition submission_token (t : TokenTables) (submission : Z) : option string :=
  (fun row => "s" +:+ hex submission +:+ "." +:+ row.1) <$> tt_submissions t !! submission.

(** src/lib/api/authentication/__init__.py: get_graderauth_exercise_params.  The time and
    the nonce are those of the signature. *)
Definition exercise_token (time : Z) (nonce : list Z) (exercise : Z) (user : option Z) : result string :=
  let user_id := match user with Some u => str_of_Z u | None => ""%string end in
  let! message := get_signed_message hmac time nonce (bytes_of (user_id +:+ "." +:+ str_of_Z exercise)) in
  Ret (String "e" (String.string_of_list_ascii message)).

(** src/lib/api/authentication/grader.py: GraderAuthentication.authenticate_submission_token *)
Definition authenticate_submission_token (t : TokenTables) (token : string) : result (Z * Z) :=
  match after_first "." token with
  | None => Raise AuthenticationFailed
  | Some submission_hash =>
      match py_int other 16 (before_first "." token) with
      | None => Raise AuthenticationFailed
      | Some submission_id =>
          match tt_submissions t !! submission_id with
          | Some (h, exercise) => if bool_decide (h = submission_hash) then Ret (submission_id, exercise) else Raise AuthenticationFailed
          | None => Raise AuthenticationFailed
          end
      end
  end.

(** src/lib/api/authentication/grader.py: GraderAuthentication.authenticate_exercise_token.  An
    id that is no number raises in the query. *)
Definition authenticate_exercise_token (t : TokenTables) (time_now : Z) (token : string) : result (Z * string) :=
  match get_valid_message hmac utf8_valid time_now (String.list_ascii_of_string token) with
  | Raise ValueError => Raise AuthenticationFailed
  | Raise e => Raise e
  | Ret payload =>
      let identifier := text_of payload in
      match after_first "." identifier with
      | None => Raise AuthenticationFailed
      | Some exercise_id =>
          match py_int other 10 exercise_id with
          | None => Raise ValueError
          | Some e => match tt_exercises t !! e with
                      | Some _ => Ret (e, before_first "." identifier)
                      | None => Raise AuthenticationFailed
                      end
          end
      end
  end.

(** src/lib/api/authentication/grader.py: GraderAuthentication.add_token_permissions lines 71-76.
    The course and the instance of the exercise may be read. *)
Definition add_course_permissions (t : TokenTables) (exercise : Z) (self : ObjectPermissions) : result ObjectPermissions :=
  match tt_exercises t !! exercise with
  | None => Raise DoesNotExist
  | Some (course, instance) =>
      let! exercises := add_permission (op_exercises self) READ (ObjectValue "dict" exercise) in
      let! courses := add_permission (op_courses self) READ (ObjectValue "course" course) in
      let! instances := add_permission (op_instances self) READ (ObjectValue "instance" instance) in
      Ret (mkObjectPermissions courses instances exercises (op_submissions self))
  end.

(** src/lib/api/authentication/grader.py: GraderAuthentication.add_token_permissions *)
Definition add_token_permissions (t : TokenTables) (time_now : Z) (token : string) (self : ObjectPermissions)
    : result ObjectPermissions :=
  match token with
  | EmptyString => Raise IndexError
  | String c rest =>
      if Ascii.eqb c "s" then
        let! (submission, exercise) := authenticate_submission_token t rest in
        let! submissions := add_permission (op_submissions self) READ (ObjectValue "submission" submission) in
        let! submissions := add_permission submissions WRITE (ObjectValue "submission" submission) in
        add_course_permissions t exercise (mkObjectPermissions (op_courses self) (op_instances self) (op_exercises self) submissions)
      else if Ascii.eqb c "e" then
        let! (exercise, user_id) := authenticate_exercise_token t time_now rest in
        let submissions := add_create (op_submissions self)
          (<["exercise_id" := ObjectValue "int" exercise]> (<["user_id" := TextValue user_id]> ∅))%string in
        add_course_permissions t exercise (mkObjectPermissions (op_courses self) (op_instances self) (op_exercises self) submissions)
      else Raise AuthenticationFailed
  end.

(** src/lib/api/authentication/grader.py: GraderAuthentication.get_user lines 86-94.  All the
    tokens of a request. *)
Definition add_tokens (t : TokenTables) (time_now : Z) (tokens : list string) (self : ObjectPermissions) : result ObjectPermissions :=
  foldl (fun acc token => let! perms := acc in add_token_permissions t time_now token perms) (Ret self) tokens.

(** ** The endpoints *)

(** src/exercise/api/views.py: ExerciseViewSet.grader_detail lines 119-138.  The user
    for whom a service creates a submission to an exercise. *)
Definition grader_submitter (t : TokenTables) (permissions : ObjectPermissionList) (exercise : Z) : result Z :=
  let! info := get_create permissions false [("exercise", ObjectValue "exercise" exercise)]%string in
  match info with
  | None => Raise PermissionDenied
  | Some kwargs =>
      let find u := if bool_decide (u ∈ tt_users t) then Ret u else Raise PermissionDenied in
      match kwargs !! "user_id"%string with
      | Some (ObjectValue _ user) => find user
      | Some (TextValue text) =>
          if bool_decide (text = ""%string) then Raise PermissionDenied
          else match py_int other 10 text with
               | Some user => find user
               | None => Raise ValueError
               end
      | _ => Raise PermissionDenied
      end
  end.

(** src/exercise/api/views.py: SubmissionViewSet.grader_detail lines 569-573.  Whether a
    service is stopped from grading a submission. *)
Definition grader_is_stopped (permissions : ObjectPermissionList) (submission : Z) : result bool :=
  has_permission permissions (PermissionValue WRITE) (Some (ObjectValue "submission" submission)).
End Tokens.

(** The lists hold permissions first and objects second. *)
Definition well_formed_list (l : ObjectPermissionList) : Prop :=
  Forall (fun po => exists p, fst po = PermissionValue p /\ p <> CREATE) (instances l).

Lemma add_permission_well_formed l p obj l' :
  well_formed_list l -> add_permission l p obj = Ret l' -> well_formed_list l'.
Proof.
  unfold add_permission, well_formed_list. case_bool_decide; [done|]. intros Hl [= <-]. cbn.
  apply Forall_app. split; [done|]. constructor; [|done]. by exists p.
Qed.

(** Asking with the permission as object and the object as permission never finds
    anything: the test of [SubmissionViewSet.grader_detail] stops no service. *)
Lemma grader_is_never_stopped l submission :
  well_formed_list l -> grader_is_stopped l submission = Ret false.
Proof.
  intros Hl. unfold grader_is_stopped, has_permission. rewrite bool_decide_eq_false_2 by done.
  f_equal. apply bool_decide_eq_false_2. intros Hin.
  unfold well_formed_list in Hl. rewrite Forall_forall in Hl. destruct (Hl _ Hin) as (p & E & _). done.
Qed.

(** ** Permissions of JSON web tokens *)

(** src/userprofile/models.py: LTIServiceUser.__init__ *)
Definition lti_service_permissions (submission exercise user_id : option Z) : result ObjectPermissionList :=
  let! perms := match submission with
                | Some s => add_permission no_permissions WRITE (ObjectValue "submission" s)
                | None => Ret no_permissions
                end in
  Ret match exercise with
      | None => perms
      | Some e =>
          let kwargs := (<["exercise" := ObjectValue "exercise" e]> ∅)%string in
          match user_id with
          | Some u => if Z.eqb u 0 then add_create perms kwargs
                      else add_create perms (<["user_id" := ObjectValue "int" u]> kwargs)%string
          | None => add_create perms kwargs
          end
      end.

(** An item of the permissions of a payload: type, permission and keyword arguments. *)
Abbreviation PermissionItem := (string * AccessPermission * PermKwargs)%type.

Section Jwt.
(** The rows of a class that agree with the arguments, the instances with their configuration
    addresses, the known services, the setting that turns the checks off, and who asks. *)
Context (filter_objects : string -> PermKwargs -> list Z) (instance_row : Z -> option (CourseInstance * string)).
Context (get_uid_for_url : string -> option string) (DISABLE_LOGIN_CHECKS : bool).
Context (db : EnrollmentDB) (user : AnyUser) (username : string).

(** src/authorization/object_permissions.py: register_jwt_accessible_class, the four
    classes that are registered. *)
Definition jwt_accessible_managers : list string := ["course"; "instance"; "exercise"; "submission"]%string.

(** src/course/models.py: CourseInstanceManager.has_access *)
Definition instance_has_access (instance : CourseInstance) (configure_url : string) : bool :=
  match user with
  | NormalUser _ => is_teacher instance db user
  | GraderUser _ =>
      match get_uid_for_url configure_url with
      | None => false
      | Some config_uid => bool_decide (config_uid = username)
      end
  | NoUser | AnonymousUser => false
  end.

(** src/authorization/models.py: JWTAccessible.has_access, with the override of course
    instances. *)
Definition jwt_has_access (type : string) (id : Z) : bool :=
  if bool_decide (type = "instance"%string) then
    match instance_row id with
    | Some (instance, configure_url) => instance_has_access instance configure_url
    | None => false
    end
  else false.

(** src/authorization/models.py: JWTAccessible.has_create_access.  The override of course
    instances takes an argument less than the call gives. *)
Definition jwt_has_create_access (type : string) : result bool :=
  if bool_decide (type = "instance"%string) then Raise TypeError else Ret false.

(** src/authorization/models.py: JWTAccessible.from_jwt_permission *)
Definition from_jwt_permission (type : string) (permission : AccessPermission) (kwargs : PermKwargs)
    : result (option (list PermValue)) :=
  match permission with
  | WRITE | READ =>
      let instances := filter_objects type kwargs in
      Ret (if DISABLE_LOGIN_CHECKS || forallb (jwt_has_access type) instances
           then Some (ObjectValue type <$> instances) else None)
  | CREATE =>
      let! access := if DISABLE_LOGIN_CHECKS then Ret true else jwt_has_create_access type in
      Ret (if access then Some [] else None)
  end.

(** src/authorization/object_permissions.py: _get_objects_from_permission *)
Definition get_objects_from_permission (type : string) (permission : AccessPermission) (kwargs : PermKwargs)
    : result (list PermValue) :=
  if bool_decide (type ∈ jwt_accessible_managers) then
    let! items := from_jwt_permission type permission kwargs in
    match items with
    | None => Raise AuthenticationFailed
    | Some items => Ret items
    end
  else Raise AuthenticationFailed.

(** The objects of the items of one kind, in order. *)
Fixpoint objects_of (keep : AccessPermission -> bool) (permission_items : list PermissionItem)
    : result (list (PermValue * PermValue)) :=
  match permission_items with
  | [] => Ret []
  | (type, permission, kwargs) :: rest =>
      if keep permission then
        let! objs := get_objects_from_permission type permission kwargs in
        let! more := objects_of keep rest in
        Ret (((fun obj => (PermissionValue permission, obj)) <$> objs) ++ more)
      else objects_of keep rest
  end.

(** src/authorization/object_permissions.py: _get_objects_from_permissions *)
Definition get_objects_from_permissions (permission_items : list PermissionItem)
    : result (list (PermValue * PermValue) * list (PermValue * PermValue)) :=
  let! creates := objects_of (fun p => bool_decide (p = CREATE)) permission_items in
  let! instances := objects_of (fun p => negb (bool_decide (p = CREATE))) permission_items in
  Ret (creates, instances).

(** src/authorization/object_permissions.py: ObjectPermissionList.from_payload *)
Definition list_from_payload (permission_items : list PermissionItem) : result ObjectPermissionList :=
  let! (creates, instances) := get_objects_from_permissions permission_items in
  Ret (mkPermissionList ((fun po => (fst po, CreateObject (snd po))) <$> creates) instances).

(** src/authorization/object_permissions.py: ObjectPermissions.from_payload *)
Definition from_payload (courses instances exercises submissions : list PermissionItem) : result ObjectPermissions :=
  let! courses := list_from_payload courses in
  let! instances := list_from_payload instances in
  let! exercises := list_from_payload exercises in
  let! submissions := list_from_payload submissions in
  Ret (mkObjectPermissions courses instances exercises submissions).

Lemma objects_of_in keep items l po :
  objects_of keep items = Ret l -> po ∈ l ->
  exists type permission kwargs objs, (type, permission, kwargs) ∈ items /\ keep permission = true /\
    get_objects_from_permission type permission kwargs = Ret objs /\ fst po = PermissionValue permission /\ snd po ∈ objs.
Proof.
  revert l. induction items as [|[[type permission] kwargs] items IH]; intros l E Hin; cbn in E; [simplify_eq; by apply elem_of_nil in Hin|].
  destruct (keep permission) eqn:Ek.
  - destruct (get_objects_from_permission type permission kwargs) as [objs|] eqn:Eo; [|done]. cbn in E.
    destruct (objects_of keep items) as [more|] eqn:Em; [|done]. cbn in E. simplify_eq.
    apply elem_of_app in Hin as [Hin|Hin].
    + apply list_elem_of_fmap in Hin as (obj & -> & Hobj). exists type, permission, kwargs, objs. repeat split; try done. by left.
    + destruct (IH _ eq_refl Hin) as (t & p & k & o & Hi & H). exists t, p, k, o. split; [by right|done].
  - destruct (IH _ E Hin) as (t & p & k & o & Hi & H). exists t, p, k, o. split; [by right|done].
Qed.

(** A create permission never has objects: the list of create permissions that is read
    from a payload is empty, also when everything is allowed. *)
Lemma payload_creates_nothing items perms :
  list_from_payload items = Ret perms -> creates perms = [].
Proof.
  unfold list_from_payload, get_objects_from_permissions.
  destruct (objects_of (fun p => bool_decide (p = CREATE)) items) as [c'|] eqn:Ec; [|done]. cbn.
  destruct (objects_of (fun p => negb _) items) as [i|]; [|done]. cbn. intros E. simplify_eq. cbn.
  destruct c' as [|po c]; [done|]. exfalso.
  destruct (objects_of_in _ _ _ po Ec ltac:(by left)) as (type & permission & kwargs & objs & _ & Hk & Ho & _ & Hin).
  apply bool_decide_eq_true in Hk as ->. unfold get_objects_from_permission in Ho. case_bool_decide; [|done].
  cbn in Ho. destruct (if DISABLE_LOGIN_CHECKS then _ else _) as [[|]|]; cbn in Ho; simplify_eq. by apply elem_of_nil in Hin.
Qed.

(** What is read from the items of a payload. *)
Lemma list_from_payload_sound items perms po :
  DISABLE_LOGIN_CHECKS = false -> list_from_payload items = Ret perms -> po ∈ instances perms ->
  exists permission kwargs id, ("instance"%string, permission, kwargs) ∈ items /\
    po = (PermissionValue permission, ObjectValue "instance" id) /\ permission <> CREATE /\
    id ∈ filter_objects "instance" kwargs /\ jwt_has_access "instance" id = true.
Proof.
  intros Hd. unfold list_from_payload, get_objects_from_permissions.
  destruct (objects_of (fun p => bool_decide (p = CREATE)) items) as [c|]; [|done]. cbn.
  destruct (objects_of (fun p => negb _) items) as [i|] eqn:Ei; [|done]. cbn. intros E Hin. simplify_eq. cbn in Hin.
  destruct (objects_of_in _ _ _ po Ei Hin) as (type & permission & kwargs & objs & Hitem & Hk & Ho & Hp & Hobj).
  apply negb_true_iff, bool_decide_eq_false in Hk. unfold get_objects_from_permission in Ho. case_bool_decide; [|done].
  assert (E : exists l, filter_objects type kwargs = l /\ forallb (jwt_has_access type) l = true /\ objs = ObjectValue type <$> l).
  { exists (filter_objects type kwargs). unfold from_jwt_permission in Ho. rewrite Hd in Ho. cbn [orb] in Ho.
    destruct permission; [| |done]; cbn in Ho; destruct (forallb _ _) eqn:Ef in Ho; simplify_eq; done. }
  destruct E as (l & El & Hall & ->). apply list_elem_of_fmap in Hobj as (id & Hs & Hid).
  rewrite forallb_forall in Hall. specialize (Hall id ltac:(by apply list_elem_of_In)).
  assert (type = "instance"%string) as ->. { unfold jwt_has_access in Hall. by case_bool_decide. }
  exists permission, kwargs, id. rewrite El. destruct po as [p o]. cbn in Hp, Hs. by subst.
Qed.

(** C31. Permissions of a JSON web token.  While the checks are on, what a payload gives its
    bearer is only ever to read or write course instances the payload names and of which
    the bearer is a teacher, or whose configuration comes from the service that signed it;
    no payload gives a permission to create anything. *)
Theorem from_payload_sound courses instances_ exercises submissions perms :
  DISABLE_LOGIN_CHECKS = false ->
  from_payload courses instances_ exercises submissions = Ret perms ->
  Forall (fun l =>
    creates l = [] /\
    Forall (fun po => exists permission kwargs id,
      ("instance"%string, permission, kwargs) ∈ courses ++ instances_ ++ exercises ++ submissions /\
      po = (PermissionValue permission, ObjectValue "instance" id) /\ permission <> CREATE /\
      id ∈ filter_objects "instance" kwargs /\
      exists instance url, instance_row id = Some (instance, url) /\
        match user with
        | NormalUser _ => is_teacher instance db user = true
        | GraderUser _ => get_uid_for_url url = Some username
        | NoUser | AnonymousUser => False
        end) (instances l))
    [op_courses perms; op_instances perms; op_exercises perms; op_submissions perms].
Proof.
  intros Hd. unfold from_payload.
  destruct (list_from_payload courses) as [l1|] eqn:E1; [|done]. cbn.
  destruct (list_from_payload instances_) as [l2|] eqn:E2; [|done]. cbn.
  destruct (list_from_payload exercises) as [l3|] eqn:E3; [|done]. cbn.
  destruct (list_from_payload submissions) as [l4|] eqn:E4; [|done]. cbn. intros [= <-]. cbn [op_courses op_instances op_exercises op_submissions].
  assert (Hl : forall items l, list_from_payload items = Ret l -> items ⊆ courses ++ instances_ ++ exercises ++ submissions ->
    creates l = [] /\ Forall (fun po => exists permission kwargs id,
      ("instance"%string, permission, kwargs) ∈ courses ++ instances_ ++ exercises ++ submissions /\
      po = (PermissionValue permission, ObjectValue "instance" id) /\ permission <> CREATE /\
      id ∈ filter_objects "instance" kwargs /\
      exists instance url, instance_row id = Some (instance, url) /\
        match user with
        | NormalUser _ => is_teacher instance db user = true
        | GraderUser _ => get_uid_for_url url = Some username
        | NoUser | AnonymousUser => False
        end) (instances l)).
  { intros items l E Hsub. split; [by eapply payload_creates_nothing|].
    apply Forall_forall. intros po Hin.
    destruct (list_from_payload_sound _ _ _ Hd E Hin) as (permission & kwargs & id & Hi & -> & Hp & Hf & Ha).
    exists permission, kwargs, id. repeat split; try done; [by apply Hsub|].
    unfold jwt_has_access in Ha. rewrite bool_decide_eq_true_2 in Ha by done. destruct (instance_row id) as [[instance url]|]; [|done].
    exists instance, url. split; [done|]. unfold instance_has_access in Ha. destruct user; try done.
    destruct (get_uid_for_url url); [|done]. apply bool_decide_eq_true in Ha. by subst. }
  repeat constructor; eapply Hl; try eassumption; set_solver.
Qed.
End Jwt.

(** ** Tokens are read back *)

(** The characters of numbers. *)
Lemma digits_from_chars base acc s v c :
  digits_from base acc s = Some v -> c ∈ String.list_ascii_of_string s -> is_Some (digit_value c).
Proof.
  revert acc. induction s as [|d s IH]; intros acc E Hc; [by apply elem_of_nil in Hc|]. cbn in E, Hc.
  destruct (digit_value d) as [w|] eqn:Ed; [|done]. destruct (w <? base); [|done].
  apply elem_of_cons in Hc as [->|Hc]; [by eauto|by eapply IH].
Qed.

Lemma digits_from_no_dot base acc s v : digits_from base acc s = Some v -> contains "." s = false.
Proof.
  intros E. apply not_true_iff_false. intros H.
  assert (Hin : "."%char ∈ String.list_ascii_of_string s).
  { clear E. induction s as [|c s IH]; [done|]. cbn in H |- *. apply orb_prop in H as [H|H]; [|right; by apply IH].
    apply Ascii.eqb_eq in H as ->. by left. }
  destruct (digits_from_chars _ _ _ _ _ E Hin) as [w Hw]. by vm_compute in Hw.
Qed.

Lemma digit_ascii c : is_Some (digit_value c) -> 0 <= Z.of_nat (nat_of_ascii c) < 128.
Proof.
  unfold digit_value. intros [v Hv]. destruct (_ && _) eqn:E1 in Hv; [b2p; lia|]. destruct (_ && _) eqn:E2 in Hv; [b2p; lia|done].
Qed.

Lemma str_of_Z_digits n : 0 <= n -> digits_from 10 0 (str_of_Z n) = Some n.
Proof.
  intros Hn. pose proof (py_int_str (fun _ _ => None) n Hn) as H. unfold py_int, digits in H.
  case_bool_decide; [done|]. by destruct (digits_from 10 0 (str_of_Z n)).
Qed.

Lemma number_without c n : digit_value c = None -> 0 <= n -> contains c (str_of_Z n) = false.
Proof.
  intros Hc Hn. apply not_true_iff_false. intros H.
  assert (Hin : c ∈ String.list_ascii_of_string (str_of_Z n)).
  { clear Hn. induction (str_of_Z n) as [|d s IH]; [done|]. cbn in H |- *. apply orb_prop in H as [H|H]; [|right; by apply IH].
    apply Ascii.eqb_eq in H as ->. by left. }
  destruct (digits_from_chars _ _ _ _ _ (str_of_Z_digits n Hn) Hin) as [w Hw]. congruence.
Qed.

Lemma hex_digits n : 0 <= n -> digits_from 16 0 (hex n) = Some n.
Proof.
  intros Hn. pose proof (py_int_hex (fun _ _ => None) n Hn) as H. unfold py_int, digits in H.
  case_bool_decide; [done|]. by destruct (digits_from 16 0 (hex n)).
Qed.

(** The parts of a text around its first dot. *)
Lemma first_dot a b : contains "." a = false -> after_first "." (a +:+ "." +:+ b) = Some b /\ before_first "." (a +:+ "." +:+ b) = a.
Proof.
  induction a as [|c a IH]; intros Ha; [done|]. cbn [contains] in Ha. apply orb_false_iff in Ha as [Hc Ha].
  rewrite append_cons. cbn [after_first before_first]. rewrite Hc. destruct (IH Ha) as [-> ->]. done.
Qed.

Lemma text_of_bytes s : text_of (bytes_of s) = s.
Proof.
  unfold text_of, bytes_of. rewrite <- list_fmap_compose.
  induction s as [|c s IH]; [done|]. cbn. rewrite Nat2Z.id, ascii_nat_embedding. by f_equal.
Qed.

Lemma bytes_of_app a b : bytes_of (a +:+ b) = bytes_of a ++ bytes_of b.
Proof. induction a as [|c a IH]; [done|]. rewrite append_cons. unfold bytes_of in *. cbn. by rewrite IH. Qed.

Section TokenTheory.
Context (hmac : list Z -> list Z) (utf8_valid : list Z -> bool) (other : Z -> string -> option Z).
(** The digest has 32 bytes; ASCII is UTF-8. *)
Context (hmac_size : forall m, length (hmac m) = HASH_SIZE) (hmac_bytes : forall m, Forall is_byte (hmac m)).
Context (ascii_is_utf8 : forall l, Forall (fun b => 0 <= b < 128) l -> utf8_valid l = true).

Lemma number_bytes base s v : digits_from base 0 s = Some v -> Forall (fun b => 0 <= b < 128) (bytes_of s).
Proof.
  intros E. unfold bytes_of. apply Forall_fmap, Forall_forall. intros c Hc. apply digit_ascii. by eapply digits_from_chars.
Qed.

(** The content of the token of a user and an exercise. *)
Lemma identifier_bytes u e :
  0 <= u -> 0 <= e -> Forall (fun b => 0 <= b < 128) (bytes_of (str_of_Z u +:+ "." +:+ str_of_Z e)).
Proof.
  intros Hu He. rewrite !bytes_of_app. repeat (apply Forall_app; split).
  - apply (number_bytes 10 _ u). by apply str_of_Z_digits.
  - repeat constructor; by vm_compute.
  - apply (number_bytes 10 _ e). by apply str_of_Z_digits.
Qed.

Lemma ascii_bytes l : Forall (fun b => 0 <= b < 128) l -> Forall is_byte l.
Proof. intros H. eapply Forall_impl; [exact H|]. intros b Hb. unfold is_byte. cbn in Hb. lia. Qed.

(** A text of ASCII bytes that says a user and an exercise is read as them. *)
Lemma authenticate_payload t time_now token e user_id :
  0 <= e -> is_Some (tt_exercises t !! e) -> contains "." user_id = false ->
  get_valid_message hmac utf8_valid time_now (String.list_ascii_of_string token)
    = Ret (bytes_of (user_id +:+ "." +:+ str_of_Z e)) ->
  authenticate_exercise_token hmac utf8_valid other t time_now token = Ret (e, user_id).
Proof.
  intros He [row Hrow] Hdot Hv. unfold authenticate_exercise_token. rewrite Hv, text_of_bytes.
  destruct (first_dot user_id (str_of_Z e) Hdot) as [-> ->]. by rewrite py_int_str, Hrow.
Qed.

(** With the single permission of a token the user of the token is found. *)
Lemma grader_submitter_token t e e' text :
  grader_submitter other t
    (add_create no_permissions (<["exercise_id" := ObjectValue "int" e]> (<["user_id" := TextValue text]> ∅))%string) e'
  = (if bool_decide (text = ""%string) then Raise PermissionDenied
     else match py_int other 10 text with
          | Some user => if bool_decide (user ∈ tt_users t) then Ret user else Raise PermissionDenied
          | None => Raise ValueError
          end).
Proof. reflexivity. Qed.

(** C30. Tokens of services.  The token the system makes for the exercise of a student
    is accepted from five minutes before to a day after it was made; with it a service
    creates submissions of that student, and the token for a submission lets it write
    that submission. *)
Theorem tokens_roundtrip t time time_now nonce e u sid perms :
  0 <= time < 2 ^ 32 -> length nonce = NONCE_BYTES -> Forall is_byte nonce ->
  time_now - 60 * 60 * 24 <= time <= time_now + 60 * 5 ->
  0 <= u -> u ∈ tt_users t -> 0 <= e -> is_Some (tt_exercises t !! e) ->
  0 <= sid -> (exists h e', tt_submissions t !! sid = Some (h, e') /\ is_Some (tt_exercises t !! e')) ->
  (exists token perms', exercise_token hmac time nonce e (Some u) = Ret token /\
     add_token_permissions hmac utf8_valid other t time_now token no_object_permissions = Ret perms' /\
     grader_submitter other t (op_submissions perms') e = Ret u) /\
  (exists token perms', submission_token t sid = Some token /\
     add_token_permissions hmac utf8_valid other t time_now token perms = Ret perms' /\
     has_permission (op_submissions perms') (ObjectValue "submission" sid) (Some (PermissionValue WRITE)) = Ret true).
Proof.
  intros Ht Hn Hnb Hwin Hu Huser He Hex Hsid (h & e' & Hsub & Hex'). split.
  - pose proof (identifier_bytes u e Hu He) as Hid.
    destruct (signed_message_roundtrip hmac utf8_valid hmac_size hmac_bytes time time_now nonce
      (bytes_of (str_of_Z u +:+ "." +:+ str_of_Z e)) Ht Hn Hnb (ascii_bytes _ Hid)) as (msg & Hmsg & Hval).
    { rewrite !bytes_of_app. by intros [_ [? _]%app_eq_nil]%app_eq_nil. }
    { by apply ascii_is_utf8. }
    unfold exercise_token. rewrite Hmsg. cbn [rbind]. eexists. 
    assert (Hauth : authenticate_exercise_token hmac utf8_valid other t time_now (String.string_of_list_ascii msg) = Ret (e, str_of_Z u)).
    { apply authenticate_payload; [done|done|eapply digits_from_no_dot; by apply str_of_Z_digits|].
      rewrite String.list_ascii_of_string_of_list_ascii, Hval.
      rewrite (proj2 (Z.leb_le _ _)) by lia. rewrite (proj2 (Z.leb_le _ _)) by lia. done. }
    destruct Hex as [[course instance] Hex]. eexists. split; [done|]. split.
    + cbn [add_token_permissions]. change (Ascii.eqb "e" "s") with false. change (Ascii.eqb "e" "e") with true. cbv iota.
      rewrite Hauth. cbn [rbind]. unfold add_course_permissions. rewrite Hex. reflexivity.
    + cbn [op_submissions]. rewrite grader_submitter_token. rewrite bool_decide_eq_false_2.
      * rewrite py_int_str by done. by rewrite bool_decide_eq_true_2.
      * intros E0. pose proof (py_int_str (fun _ _ => None) u Hu) as H. by rewrite E0 in H.
  - unfold submission_token. rewrite Hsub. eexists. 
    assert (Hauth : authenticate_submission_token other t (hex sid +:+ "." +:+ h) = Ret (sid, e')).
    { unfold authenticate_submission_token. destruct (first_dot (hex sid) h) as [-> ->]; [eapply digits_from_no_dot; by apply hex_digits|].
      rewrite py_int_hex, Hsub by done. by rewrite bool_decide_eq_true_2. }
    destruct Hex' as [[course instance] Hex']. eexists. split; [done|]. split.
    + cbn [fst]. rewrite append_cons, append_nil. cbn [add_token_permissions]. change (Ascii.eqb "s" "s") with true. cbv iota.
      rewrite Hauth. cbn [rbind]. unfold add_permission at 1. cbn [bool_decide]. rewrite bool_decide_eq_false_2 by done. cbn [rbind].
      unfold add_permission at 1. rewrite bool_decide_eq_false_2 by done. cbn [rbind].
      unfold add_course_permissions. rewrite Hex'. reflexivity.
    + unfold has_permission. rewrite bool_decide_eq_false_2 by done. f_equal. apply bool_decide_eq_true_2. cbn.
      rewrite !elem_of_app. right. by left.
Qed.
End TokenTheory.

(** ** Examples *)

Module Sample.
#[local] Open Scope string_scope.
#[local] Open Scope Z_scope.
(** A digest of 32 bytes that depends on what is signed, and ASCII as the text. *)
Definition digest (m : list Z) : list Z := replicate 32 (foldl (fun a b => (a * 31 + b) mod 251) 7 m).
Definition ascii_valid (l : list Z) : bool := forallb (fun b => (0 <=? b) && (b <? 128)) l.
Definition no_int (_ : Z) (_ : string) : option Z := None.
Definition tables : TokenTables := mkTokenTables {[171 := ("hash", 7)]} {[7 := (1, 2); 8 := (1, 2)]} {[2; 12]}.

Lemma digest_size m : length (digest m) = HASH_SIZE.
Proof. apply length_replicate. Qed.
Lemma digest_bytes m : Forall is_byte (digest m).
Proof.
  apply Forall_replicate. assert (H : is_byte 7) by (unfold is_byte; lia). revert H. generalize 7.
  induction m as [|b m IH]; intros a Ha; [done|]. cbn. apply IH. unfold is_byte in *. dm.
Qed.
Lemma ascii_valid_ok l : Forall (fun b => 0 <= b < 128) l -> ascii_valid l = true.
Proof. intros H. apply forallb_forall. intros b Hb%list_elem_of_In. rewrite Forall_forall in H. specialize (H b Hb). cbn in H. lia. Qed.

(** Applied to user 12 and exercise 7, and to submission 171. *)
Lemma tokens_roundtrip_witness :
  (exists token perms', exercise_token digest 1000 [1; 2; 3; 4] 7 (Some 12) = Ret token /\
     add_token_permissions digest ascii_valid no_int tables 1100 token no_object_permissions = Ret perms' /\
     grader_submitter no_int tables (op_submissions perms') 7 = Ret 12) /\
  (exists token perms', submission_token tables 171 = Some token /\
     add_token_permissions digest ascii_valid no_int tables 1100 token no_object_permissions = Ret perms' /\
     has_permission (op_submissions perms') (ObjectValue "submission" 171) (Some (PermissionValue WRITE)) = Ret true).
Proof.
  apply (tokens_roundtrip digest ascii_valid no_int digest_size digest_bytes ascii_valid_ok); try lia.
  - done.
  - repeat constructor; lia.
  - by vm_compute.
  - by exists (1, 2).
  - exists "hash", 7. split; [done|]. by exists (1, 2).
Defined.

(** The token of user 12 for exercise 7, changed without the secret, creates submissions
    of user 2. *)
Definition token12 : string :=
  match exercise_token digest 1000 [1; 2; 3; 4] 7 (Some 12) with Ret token => token | Raise _ => "" end.
Definition forged : string :=
  match token12 with
  | String c rest =>
      match b64_decode (String.list_ascii_of_string rest) with
      | Some data => String c (String.string_of_list_ascii (b64_encode (shift_message data)))
      | None => ""
      end
  | EmptyString => ""
  end.
Lemma forged_token_is_accepted :
  (let! perms := add_token_permissions digest ascii_valid no_int tables 1100 token12 no_object_permissions in
   grader_submitter no_int tables (op_submissions perms) 7) = Ret 12 /\
  (let! perms := add_token_permissions digest ascii_valid no_int tables 1100 forged no_object_permissions in
   grader_submitter no_int tables (op_submissions perms) 7) = Ret 2.
Proof. split; vm_compute; reflexivity. Qed.

(** An empty token, and a signed message of four bytes, are not refused but raise. *)
Lemma short_token_raises :
  add_token_permissions digest ascii_valid no_int tables 1100 "" no_object_permissions = Raise IndexError /\
  (exists stamp, to_bytes4 1000 = Ret stamp /\
   add_token_permissions digest ascii_valid no_int tables 1100
     (String "e" (String.string_of_list_ascii (b64_encode stamp))) no_object_permissions = Raise IndexError).
Proof. split; [by vm_compute|]. exists [0; 0; 3; 232]. by vm_compute. Qed.

(** The permission an LTI service has for an exercise of a student does not let it create
    a submission to that exercise, but to another one. *)
Lemma get_create_finds_others :
  (let! perms := lti_service_permissions None (Some 7) (Some 12) in grader_submitter no_int tables perms 7) = Raise PermissionDenied /\
  (let! perms := lti_service_permissions None (Some 7) (Some 12) in grader_submitter no_int tables perms 8) = Ret 12.
Proof. split; vm_compute; reflexivity. Qed.

(** A teacher's payload: the instance is given, the course of it is refused, and creating an
    instance raises. *)
Definition teacher : AnyUser := NormalUser (mkUser 5 true false (mkProfile 5 None "")).
Lemma from_payload_example (inst : CourseInstance) :
  let read types := from_payload (fun _ _ => [3]) (fun _ => Some (inst, "")) (fun _ => None) false ∅ teacher "teacher"
                      [] types [] [] in
  (exists perms, read [("instance", READ, ∅)] = Ret perms /\
     instances (op_instances perms) = [(PermissionValue READ, ObjectValue "instance" 3)]) /\
  read [("course", READ, ∅)] = Raise AuthenticationFailed /\
  read [("instance", CREATE, ∅)] = Raise TypeError.
Proof. cbn zeta. split; [eexists|]; by vm_compute. Qed.

Lemma from_payload_sound_witness :
  exists perms, from_payload (fun _ _ => [3]) (fun _ => Some (Course.example_instance, "")) (fun _ => None) false ∅ teacher "teacher"
                  [] [("instance", READ, ∅)] [] [] = Ret perms /\
    Forall (fun l => creates l = []) [op_courses perms; op_instances perms; op_exercises perms; op_submissions perms].
Proof.
  eexists. split; [reflexivity|]. eapply Forall_impl.
  - eapply (from_payload_sound (fun _ _ => [3]) (fun _ => Some (Course.example_instance, "")) (fun _ => None) false ∅ teacher "teacher"
      [] [("instance", READ, ∅)] [] []); reflexivity.
  - intros l [H _]. exact H.
Defined.
End Sample.
