(* ===== verification/CourseApi.v ===== *)
(** * The API of courses

    [course/api/views.py] and [course/api/full_serializers.py]: tagging students
    one by one and in bulk and removing tags, news, current teachers, updates
    announced by a service, the archive of submitted files, exercises of a course,
    statistics, and the courses an administrator creates; with the recipients of
    [lib/email_messages.py]. *)

From Stdlib Require Import Ascii.
From S2P Require Import Prelude Lists Helpers Course Models Entries Codes Reports Signed Tokens.
#[local] Open Scope string_scope.
#[local] Open Scope list_scope.
#[local] Open Scope Z_scope.

(** ** Taggings *)

(** A row of users with its profile. *)
Record ApiUser := mkApiUser {
  au_id : Z;
  au_profile : Z;
  au_username : string;
  au_email : string;
  au_student_id : option string;
  au_organization : string;
}.

(** The user of a request, as far as the fields are given. *)
Record UserSpec := mkSpec {
  us_id : option Z;
  us_student_id : option string;
  us_username : option string;
  us_email : option string;
}.
#[global] Instance ApiUser_eq_dec : EqDecision ApiUser.
Proof. solve_decision. Defined.
#[global] Instance UserSpec_eq_dec : EqDecision UserSpec.
Proof. solve_decision. Defined.

Definition drop_zero (o : option Z) : option Z := match o with Some 0 => None | _ => o end.
Definition drop_empty (o : option string) : option string := match o with Some EmptyString => None | _ => o end.

Section Api.
Context `{Settings}.

(** src/course/api/full_serializers.py: CourseUsertaggingsSerializer.validate *)
Definition validate_user (u : UserSpec) : result UserSpec :=
  let u := mkSpec (drop_zero (us_id u)) (drop_empty (us_student_id u)) (drop_empty (us_username u)) (drop_empty (us_email u)) in
  if bool_decide (u = mkSpec None None None None) then Raise (ValidationError ["user"]) else Ret u.

(** src/course/api/full_serializers.py: CourseUsertaggingsSerializer.create lines 306-313.  The user by the
    first field that is given. *)
Definition find_tagged (users : list ApiUser) (u : UserSpec) : result ApiUser :=
  match us_id u, us_student_id u, us_username u, us_email u with
  | Some i, _, _, _ => get_one (List.filter (fun a => au_id a =? i) users)
  | None, Some s, _, _ =>
      get_one (List.filter (fun a => bool_decide (au_student_id a = Some s) && bool_decide (au_organization a = LOCAL_ORGANIZATION)) users)
  | None, None, Some n, _ => get_one (List.filter (fun a => bool_decide (au_username a = n)) users)
  | None, None, None, Some m =>
      match List.filter (fun a => bool_decide (au_email a = m)) users with
      | [] => Raise AttributeError
      | a :: _ => Ret a
      end
  | None, None, None, None => Raise IndexError
  end.

(** src/course/api/full_serializers.py: CourseUsertaggingsSerializer.create *)
Definition create_tagging (users : list ApiUser) (tags : list UserTag) (course : Z) (slug : string) (u : UserSpec)
    (taggings : list UserTagging) : result (UserTagging * list UserTagging) :=
  match
    (let! user := find_tagged users u in
     let! tag := get_one (List.filter (fun t => bool_decide (tag_slug t = slug) && (tag_instance t =? course)) tags) in
     Ret (user, tag))
  with
  | Raise DoesNotExist => Raise Http404
  | Raise e => Raise e
  | Ret (user, tag) =>
      let new := mkTagging (tag_id tag) (au_profile user) (tag_instance tag) in
      if bool_decide (new ∈ taggings) then Raise (ValidationError ["tag"]) else Ret (new, tagging_set (au_profile user) tag taggings)
  end.

(** src/course/api/views.py: CourseUsertaggingsViewSet.create lines 784-792.  The users of a bulk
    request in order: taggings, created ones and errors. *)
Fixpoint create_many (users : list ApiUser) (tags : list UserTag) (course : Z) (slug : string) (users_spec : list UserSpec)
    (taggings : list UserTagging) : list UserTagging * list UserTagging * list (UserSpec * exn) :=
  match users_spec with
  | [] => (taggings, [], [])
  | u :: rest =>
      match (let! v := validate_user u in create_tagging users tags course slug v taggings) with
      | Ret (new, taggings) =>
          let '(taggings, results, errors) := create_many users tags course slug rest taggings in (taggings, new :: results, errors)
      | Raise e =>
          let '(taggings, results, errors) := create_many users tags course slug rest taggings in (taggings, results, (u, e) :: errors)
      end
  end.

(** src/course/api/views.py: CourseUsertaggingsViewSet.create lines 777-803.  A bulk request: the users
    are given as such or by their ids. *)
Definition create_bulk (users : list ApiUser) (tags : list UserTag) (course : Z) (slug : string) (users_spec : option (list UserSpec))
    (user_ids : list Z) (taggings : list UserTagging) : list UserTagging * (Z * list UserTagging * list (UserSpec * exn)) :=
  let users_spec := default ((fun uid => mkSpec (Some uid) None None None) <$> user_ids) users_spec in
  let '(taggings, results, errors) := create_many users tags course slug users_spec taggings in
  (taggings, (if bool_decide (results = []) then 400 else 201, results, errors)).

(** src/course/api/views.py: CourseUsertaggingsViewSet.filter_queryset, on the taggings of the course. *)
Definition filter_taggings (user_of : Z -> option Z) (course : Z) (tag_id user_id : option Z) (taggings : list UserTagging) : list UserTagging :=
  List.filter (fun t =>
    (tg_instance t =? course)
    && match tag_id with Some i => tg_tag t =? i | None => true end
    && match user_id with Some u => bool_decide (user_of (tg_user t) = Some u) | None => true end) taggings.

(** A request to remove taggings: tag ids and slugs as found in the query, the body and the
    nested body, and the ids of users in the query and in the three places of the body. *)
Record DestroyRequest := mkDestroy {
  dr_tag_ids : list (option Z);
  dr_tag_slugs : list (option string);
  dr_query_users : list Z;
  dr_body_user_ids : option (list Z);
  dr_body_user_id : option Z;
  dr_body_users : option (list (option Z));
  dr_has_body : bool;
  dr_summary : bool;
}.

(** [a or b or c] *)
Definition first_truthy {A} (drop : option A -> option A) (l : list (option A)) : option A :=
  foldr (fun o rest => match drop o with Some a => Some a | None => rest end) None l.

(** src/course/api/views.py: CourseUsertaggingsViewSet.destroy_many lines 841-849 *)
Definition destroy_users (r : DestroyRequest) : list Z :=
  match dr_query_users r with
  | [] =>
      match dr_body_user_ids r, dr_body_user_id r, dr_body_users r with
      | Some ids, _, _ => ids
      | None, Some i, _ => [i]
      | None, None, Some us => omap id us
      | None, None, None => []
      end
  | ids => ids
  end.

(** The summary of a removal: deleted, requested and missing users. *)
Record Summary := mkSummary { deleted_user_ids : list Z; requested_user_ids : list Z; not_found_user_ids : list Z }.

Definition sort_ids (l : list Z) : list Z := merge_sort Z.le l.

(** src/course/api/views.py: CourseUsertaggingsViewSet.destroy_many.  Without a tag or without users
    the request cannot be parsed. *)
Definition destroy_many (tags : list UserTag) (user_of : Z -> option Z) (course : Z) (r : DestroyRequest) (taggings : list UserTagging)
    : result (list UserTagging * option Summary) :=
  let! matches :=
    match first_truthy drop_zero (dr_tag_ids r) with
    | Some i => Ret (fun t => tg_tag t =? i)
    | None =>
        match first_truthy drop_empty (dr_tag_slugs r) with
        | Some slug => Ret (fun t => existsb (fun tag => (tag_id tag =? tg_tag t) && bool_decide (tag_slug tag = slug)) tags)
        | None => Raise ValueError
        end
    end in
  let user_ids := destroy_users r in
  if bool_decide (user_ids = []) then Raise ValueError
  else
    let selected t := (tg_instance t =? course) && matches t && match user_of (tg_user t) with Some u => bool_decide (u ∈ user_ids) | None => false end in
    let existing := remove_dups (omap (fun t => user_of (tg_user t)) (List.filter selected taggings)) in
    let left := List.filter (fun t => negb (selected t)) taggings in
    Ret (left,
         if dr_has_body r || dr_summary r
         then Some (mkSummary (sort_ids existing) user_ids (sort_ids (List.filter (fun u => negb (bool_decide (u ∈ existing))) user_ids)))
         else None).

(** The user of a profile. *)
Definition user_of_profile (users : list ApiUser) (p : Z) : option Z := au_id <$> head (List.filter (fun a => au_profile a =? p) users).

(** The results of a bulk request are the new rows. *)
Lemma create_tagging_ret users tags course slug u taggings new taggings' :
  create_tagging users tags course slug u taggings = Ret (new, taggings') ->
  taggings' = taggings ++ [new] /\ (new ∉ taggings) /\ tg_instance new = course /\
  exists a tag, a ∈ users /\ tg_user new = au_profile a /\ tg_tag new = tag_id tag /\
    List.filter (fun t => bool_decide (tag_slug t = slug) && (tag_instance t =? course)) tags = [tag].
Proof.
  unfold create_tagging. destruct (find_tagged users u) as [a|e] eqn:Ea; [|cbn; by destruct e]. cbn [rbind].
  destruct (List.filter _ tags) as [|tag [|]] eqn:Et; [done| |done]. cbn [get_one rbind]. case_bool_decide as Hn; [done|].
  intros [= <- <-]. unfold tagging_set, get_or_create_tagging. rewrite bool_decide_eq_false_2 by done.
  assert (Htag : tag ∈ List.filter (fun t => bool_decide (tag_slug t = slug) && (tag_instance t =? course)) tags) by (rewrite Et; by left).
  apply list_elem_of_In, filter_In in Htag as [_ Htag]. b2p. split; [done|]. split; [done|]. split; [done|].
  exists a, tag. split; [|done]. clear - Ea. unfold find_tagged in Ea.
  assert (Hone : forall f, get_one (List.filter f users) = Ret a -> a ∈ users).
  { intros f. destruct (List.filter f users) as [|x [|]] eqn:E; [done| |done]. intros [= ->].
    assert (Hin : a ∈ List.filter f users) by (rewrite E; by left). apply list_elem_of_In, filter_In in Hin as [Hin _]. by apply list_elem_of_In. }
  destruct (us_id u), (us_student_id u), (us_username u), (us_email u) as [m|]; try (exact (Hone _ Ea)); try done.
  destruct (List.filter _ users) as [|x l] eqn:E; [done|]. injection Ea as ->.
  assert (Hin : a ∈ List.filter (fun a => bool_decide (au_email a = m)) users) by (rewrite E; by left).
  apply list_elem_of_In, filter_In in Hin as [Hin _]. by apply list_elem_of_In.
Qed.

Lemma create_many_spec users tags course slug specs taggings taggings' results errors :
  create_many users tags course slug specs taggings = (taggings', results, errors) -> NoDup taggings ->
  taggings' = taggings ++ results /\ NoDup taggings' /\ length specs = (length results + length errors)%nat /\
  Forall (fun new => tg_instance new = course /\
    exists a tag, a ∈ users /\ tg_user new = au_profile a /\ tg_tag new = tag_id tag /\
      List.filter (fun t => bool_decide (tag_slug t = slug) && (tag_instance t =? course)) tags = [tag]) results.
Proof.
  revert taggings taggings' results errors. induction specs as [|u specs IH]; intros taggings taggings' results errors E Hnd; cbn in E.
  { simplify_eq. by rewrite app_nil_r. }
  destruct (rbind (validate_user u) _) as [[new taggings1]|e] eqn:Eu.
  - destruct (validate_user u) as [v|]; [|done]. cbn [rbind] in Eu.
    destruct (create_tagging_ret _ _ _ _ _ _ _ _ Eu) as (-> & Hnew & Hi & Ha).
    destruct (create_many _ _ _ _ specs _) as [[taggings2 results2] errors2] eqn:E2. simplify_eq.
    destruct (IH _ _ _ _ E2) as (-> & Hnd2 & Hlen & Hall); [by apply NoDup_snoc|]. rewrite <- app_assoc. cbn.
    split; [done|]. split; [by rewrite <- app_assoc in Hnd2|]. split; [lia|]. by constructor.
  - destruct (create_many _ _ _ _ specs _) as [[taggings2 results2] errors2] eqn:E2. simplify_eq.
    destruct (IH _ _ _ _ E2) as (-> & Hnd2 & Hlen & Hall); [done|]. split; [done|]. split; [done|]. cbn. split; [lia|done].
Qed.

Lemma user_of_profile_in users a :
  NoDup (au_profile <$> users) -> a ∈ users -> user_of_profile users (au_profile a) = Some (au_id a).
Proof.
  intros Hnd Ha. unfold user_of_profile.
  assert (E : List.filter (fun b => au_profile b =? au_profile a) users = [a]).
  { induction users as [|b users IH]; [by apply elem_of_nil in Ha|]. cbn in Hnd |- *. apply NoDup_cons in Hnd as [Hb Hnd].
    apply elem_of_cons in Ha as [->|Ha].
    - rewrite Z.eqb_refl. f_equal. apply filter_false. intros c Hc. apply Z.eqb_neq. intros Heq. apply Hb. rewrite <- Heq. by apply list_elem_of_fmap_2.
    - rewrite (IH Hnd Ha). rewrite (proj2 (Z.eqb_neq _ _)); [done|]. intros Heq. apply Hb. rewrite Heq. by apply list_elem_of_fmap_2. }
  by rewrite E.
Qed.

Lemma user_of_profile_inv users p u :
  user_of_profile users p = Some u -> exists a, a ∈ users /\ au_profile a = p /\ au_id a = u.
Proof.
  unfold user_of_profile. destruct (List.filter _ users) as [|a l] eqn:E; [done|]. cbn. intros [= <-].
  assert (Hin : a ∈ List.filter (fun a => au_profile a =? p) users) by (rewrite E; by left).
  apply list_elem_of_In, filter_In in Hin as [Hin Hp]. exists a. rewrite list_elem_of_In. by apply Z.eqb_eq in Hp.
Qed.

(** The request that takes the tag from the given users. *)
Definition destroy_request (slug : string) (ids : list Z) : DestroyRequest := mkDestroy [None] [Some slug] ids None None None false true.

Section Bulk.
Context (users : list ApiUser) (tags : list UserTag) (course : Z) (slug : string) (taggings results : list UserTagging).
Context (Hids : NoDup (au_id <$> users)) (Hprof : NoDup (au_profile <$> users)) (Hnd : NoDup (taggings ++ results)).
Context (Htags : forall t tag, t ∈ taggings -> tag ∈ tags -> tag_id tag = tg_tag t -> tag_instance tag = tg_instance t).
Context (Hall : Forall (fun new => tg_instance new = course /\
    exists a tag, a ∈ users /\ tg_user new = au_profile a /\ tg_tag new = tag_id tag /\
      List.filter (fun t => bool_decide (tag_slug t = slug) && (tag_instance t =? course)) tags = [tag]) results).

Definition created : list Z := omap (fun t => user_of_profile users (tg_user t)) results.

(** The taggings [destroy_many] selects for the tag and these users. *)
Definition selected (t : UserTagging) : bool :=
  (tg_instance t =? course) && existsb (fun tag => (tag_id tag =? tg_tag t) && bool_decide (tag_slug tag = slug)) tags
  && match user_of_profile users (tg_user t) with Some u => bool_decide (u ∈ created) | None => false end.

(** A tagging of the course with the tag is known by its user. *)
Lemma tagging_by_user t r u :
  r ∈ results -> tg_instance t = course -> (exists tag, tg_tag t = tag_id tag /\
    tag ∈ List.filter (fun t => bool_decide (tag_slug t = slug) && (tag_instance t =? course)) tags) ->
  user_of_profile users (tg_user t) = Some u -> user_of_profile users (tg_user r) = Some u -> r = t.
Proof using Hids Hall.
  intros Hr Hi (tag & Htg & Hin) Eu Hru. destruct (proj1 (Forall_forall _ _) Hall r Hr) as (Hri & _ & tag' & _ & _ & Htg' & Hf).
  rewrite Hf in Hin. apply list_elem_of_singleton in Hin as ->.
  destruct (user_of_profile_inv _ _ _ Eu) as (a & Ha & Hap & Hau). destruct (user_of_profile_inv _ _ _ Hru) as (b & Hb & Hbp & Hbu).
  assert (a = b) as <- by (eapply (key_inj au_id users); eauto; congruence). destruct r, t; cbn in *; congruence.
Qed.

Lemma result_user t : t ∈ results -> exists u, user_of_profile users (tg_user t) = Some u /\ u ∈ created.
Proof using Hprof Hall.
  intros Ht. destruct (proj1 (Forall_forall _ _) Hall t Ht) as (_ & a & tag & Ha & Hu & _). exists (au_id a).
  assert (Eu : user_of_profile users (tg_user t) = Some (au_id a)) by (rewrite Hu; by apply user_of_profile_in).
  split; [done|]. apply list_elem_of_omap. by exists t.
Qed.

Lemma selected_result t : t ∈ results -> selected t = true.
Proof using Hprof Hall.
  intros Ht. destruct (result_user t Ht) as (u & Eu & Hin). unfold selected. rewrite Eu, bool_decide_eq_true_2 by done.
  destruct (proj1 (Forall_forall _ _) Hall t Ht) as (-> & _ & tag & _ & _ & Htg & Hf). rewrite Z.eqb_refl, andb_true_r. cbn [andb].
  assert (Htag : tag ∈ List.filter (fun t => bool_decide (tag_slug t = slug) && (tag_instance t =? course)) tags) by (rewrite Hf; by left).
  apply list_elem_of_In, filter_In in Htag as [Htin Hts]. apply existsb_exists. exists tag. split; [done|].
  rewrite Htg, Z.eqb_refl. by apply andb_prop in Hts as [-> _].
Qed.

Lemma selected_old t : t ∈ taggings -> selected t = false.
Proof using Hids Hall Htags Hnd.
  intros Ht. destruct (selected t) eqn:Esel; [|done]. exfalso. unfold selected in Esel.
  destruct (user_of_profile users (tg_user t)) as [u|] eqn:Eu; [|by rewrite andb_false_r in Esel].
  apply andb_prop in Esel as [Esel Hu]. apply andb_prop in Esel as [Hi Hex]. apply Z.eqb_eq in Hi.
  apply existsb_exists in Hex as (tag & Htin & Hts). apply andb_prop in Hts as [Htg Hsl]. apply Z.eqb_eq in Htg. apply list_elem_of_In in Htin.
  apply bool_decide_eq_true, list_elem_of_omap in Hu as (r & Hr & Hru).
  assert (r = t) as ->.
  { apply (tagging_by_user t r u); try done. exists tag. split; [done|]. apply list_elem_of_In, filter_In. split; [by apply list_elem_of_In|].
    rewrite Hsl. cbn. apply Z.eqb_eq. rewrite (Htags t tag) by done. done. }
  destruct (proj1 (NoDup_app _ _) Hnd) as (_ & Hdis & _). by apply (Hdis t).
Qed.

Lemma created_NoDup : NoDup created.
Proof using Hids Hall Hnd.
  destruct (proj1 (NoDup_app _ _) Hnd) as (_ & _ & Hn).
  assert (Hgen : forall l, (forall t, t ∈ l -> t ∈ results) -> NoDup l -> NoDup (omap (fun t => user_of_profile users (tg_user t)) l)).
  { intros l Hsub Hl. induction Hl as [|t l Ht Hl IH]; [constructor|]. cbn.
    specialize (IH (fun x Hx => Hsub x (list_elem_of_further _ _ _ Hx))).
    destruct (user_of_profile users (tg_user t)) as [u|] eqn:Eu; [|done]. constructor; [|done].
    rewrite list_elem_of_omap. intros (r & Hr & Hru). apply Ht.
    destruct (proj1 (Forall_forall _ _) Hall t (Hsub t ltac:(by left))) as (Hi & _ & tag & _ & _ & Htg & Hf).
    rewrite <- (tagging_by_user t r u); try done; [apply Hsub; by right|]. exists tag. rewrite Hf. split; [done|by left]. }
  by apply Hgen.
Qed.
End Bulk.

(** Tagging in bulk and taking the tags away again.  A bulk request adds exactly the
    taggings it answers with, none of which was there, and answers for every user of the
    request either with a tagging or with an error; when the tag is then taken
    from the users of the answer, the taggings are those before the request, all these users
    and no others are reported as deleted and none as missing. *)
Theorem taggings_roundtrip users tags course slug specs ids taggings taggings' status results errors :
  NoDup taggings -> NoDup (au_id <$> users) -> NoDup (au_profile <$> users) ->
  (forall t tag, t ∈ taggings -> tag ∈ tags -> tag_id tag = tg_tag t -> tag_instance tag = tg_instance t) ->
  slug <> "" -> results <> [] ->
  create_bulk users tags course slug specs ids taggings = (taggings', (status, results, errors)) ->
  status = 201 /\ taggings' = taggings ++ results /\ NoDup taggings' /\
  length (default ((fun uid => mkSpec (Some uid) None None None) <$> ids) specs) = (length results + length errors)%nat /\
  exists deleted, destroy_many tags (user_of_profile users) course (destroy_request slug (created users results)) taggings'
    = Ret (taggings, Some (mkSummary deleted (created users results) [])) /\ deleted ≡ₚ created users results /\ NoDup deleted.
Proof.
  intros Hnd Hids Hprof Htags Hslug Hres E. unfold create_bulk in E.
  destruct (create_many _ _ _ _ _ _) as [[t1 r1] e1] eqn:Em. injection E as <- <- <- <-. rewrite bool_decide_eq_false_2 by done.
  destruct (create_many_spec _ _ _ _ _ _ _ _ _ Em Hnd) as (-> & Hnd' & Hlen & Hall).
  split; [done|]. split; [done|]. split; [done|]. split; [done|].
  pose proof (created_NoDup users tags course slug taggings r1 Hids Hnd' Hall) as Hc.
  assert (Hne : created users r1 <> []).
  { destruct r1 as [|r0 rs]; [done|]. destruct (result_user users tags course slug (r0 :: rs) Hprof Hall r0 ltac:(by left)) as (u & _ & Hin).
    intros Hc'. rewrite Hc' in Hin. by apply elem_of_nil in Hin. }
  assert (Ed : drop_empty (Some slug) = Some slug) by (by destruct slug).
  assert (Edu : destroy_users (destroy_request slug (created users r1)) = created users r1) by (unfold destroy_users; cbn; by destruct (created users r1)).
  unfold destroy_many. rewrite Edu, bool_decide_eq_false_2 by done.
  cbn [destroy_request dr_tag_ids dr_tag_slugs first_truthy foldr drop_zero dr_has_body dr_summary orb]. rewrite Ed. cbn [rbind].
  change (fun t : UserTagging => (tg_instance t =? course) && existsb (fun tag => (tag_id tag =? tg_tag t) && bool_decide (tag_slug tag = slug)) tags
    && match user_of_profile users (tg_user t) with Some u => bool_decide (u ∈ created users r1) | None => false end) with (selected users tags course slug r1).
  change (fun t : UserTagging => negb ((tg_instance t =? course) && existsb (fun tag => (tag_id tag =? tg_tag t) && bool_decide (tag_slug tag = slug)) tags
    && match user_of_profile users (tg_user t) with Some u => bool_decide (u ∈ created users r1) | None => false end)) with (fun t => negb (selected users tags course slug r1 t)).
  pose proof (selected_result users tags course slug r1 Hprof Hall) as Sr. pose proof (selected_old users tags course slug taggings r1 Hids Hnd' Htags Hall) as St.
  rewrite !List.filter_app, (filter_true _ r1 Sr), (filter_false _ taggings St).
  rewrite (filter_true _ taggings (fun t Ht => proj2 (negb_true_iff _) (St t Ht))), (filter_false _ r1 (fun t Ht => proj2 (negb_false_iff _) (Sr t Ht))).
  rewrite app_nil_r, app_nil_l. fold (created users r1). eexists. split.
  - do 4 f_equal. rewrite filter_false; [done|]. intros u Hu. apply negb_false_iff, bool_decide_eq_true_2. by apply elem_of_remove_dups.
  - assert (Hp : sort_ids (remove_dups (created users r1)) ≡ₚ created users r1).
    { unfold sort_ids. rewrite merge_sort_Permutation. apply NoDup_Permutation; [apply NoDup_remove_dups|done|]. intros u. apply elem_of_remove_dups. }
    split; [done|]. by rewrite Hp.
Qed.
End Api.

(** ** News *)

(** src/news/models.py: News lines 10-38 *)
Record News := mkNews { nw_id : Z; nw_instance : Z; nw_audience : EnrollmentAudience.t; nw_publish : datetime }.

(** src/course/api/views.py: CourseNewsViewSet.get_queryset, on the news of the course.  The permission of the
    view lets in enrolled users and course staff only, so there is a profile. *)
Definition visible_news `{Settings} (instance : CourseInstance) (db : EnrollmentDB) (user : User) (now : datetime) (news : list News) : list News :=
  let queryset := List.filter (fun n => nw_instance n =? instance_id instance) news in
  if negb (is_superuser user) && negb (is_course_staff instance db (NormalUser user)) then
    let queryset := List.filter (fun n => nw_publish n <=? now) queryset in
    let own := if is_external (userprofile user) then EnrollmentAudience.EXTERNAL_USERS else EnrollmentAudience.INTERNAL_USERS in
    List.filter (fun n => bool_decide (nw_audience n = EnrollmentAudience.ALL_USERS) || bool_decide (nw_audience n = own)) queryset
  else queryset.

(** A student sees the published news of the course for everybody and for the own audience, the
    staff all of them. *)
Theorem visible_news_spec `{Settings} instance db user now news n :
  n ∈ visible_news instance db user now news <->
  n ∈ news /\ nw_instance n = instance_id instance /\
  (is_superuser user = true \/ is_course_staff instance db (NormalUser user) = true \/
   nw_publish n <= now /\
   (nw_audience n = EnrollmentAudience.ALL_USERS \/
    nw_audience n = (if is_external (userprofile user) then EnrollmentAudience.EXTERNAL_USERS else EnrollmentAudience.INTERNAL_USERS))).
Proof.
  unfold visible_news. destruct (is_superuser user), (is_course_staff instance db (NormalUser user)); cbn [negb andb];
    rewrite ?list_elem_of_In, ?filter_In, <- ?list_elem_of_In, ?Z.eqb_eq, ?orb_true_iff, ?bool_decide_eq_true, ?Z.leb_le; naive_solver.
Qed.

(** ** Mail to the people of a course *)

(** What [send_mail] and [send_mass_mail] do is Django's; these are the recipients. *)
Section Mail.
Context `{Settings} (email_of : Z -> string).

(** The addresses of profiles, without the empty ones. *)
Definition addresses (profiles : list UserProfile) : list string :=
  List.filter (fun e => negb (bool_decide (e = ""))) ((fun p => email_of (profile_id p)) <$> profiles).

(** src/lib/email_messages.py: email_course_instance.  [teachers] are those of the instance. *)
Definition email_recipients (technical_error_emails : string) (teachers : list UserProfile) (everyone : bool) : result (list string) :=
  let recipients := if bool_decide (technical_error_emails = "") then [] else split "," technical_error_emails in
  let recipients := if everyone || bool_decide (recipients = []) then addresses teachers else recipients in
  if bool_decide (recipients = []) then Raise ValueError else Ret recipients.

(** src/lib/email_messages.py: email_course_students_and_staff.  The recipients; the union of the two
    queries has no duplicates. *)
Definition students_and_staff (students course_staff : list UserProfile) (student_audience : EnrollmentAudience.t) (include_staff : bool) : list string :=
  let chosen := match student_audience with
    | EnrollmentAudience.ALL_USERS => students
    | EnrollmentAudience.INTERNAL_USERS => List.filter (fun p => bool_decide (organization p = LOCAL_ORGANIZATION)) students
    | EnrollmentAudience.EXTERNAL_USERS => List.filter (fun p => negb (bool_decide (organization p = LOCAL_ORGANIZATION))) students
    end in
  let recipients := addresses chosen in
  if include_staff then remove_dups (recipients ++ addresses course_staff) else recipients.

(** Mail goes to the addresses of students in the audience and, when asked, of the staff. *)
Lemma students_and_staff_spec students staff audience include_staff e :
  e ∈ students_and_staff students staff audience include_staff <->
  e <> "" /\ exists p, email_of (profile_id p) = e /\
    (p ∈ students /\ match audience with
                     | EnrollmentAudience.ALL_USERS => True
                     | EnrollmentAudience.INTERNAL_USERS => is_external p = false
                     | EnrollmentAudience.EXTERNAL_USERS => is_external p = true
                     end \/ include_staff = true /\ p ∈ staff).
Proof.
  assert (Ha : forall l, e ∈ addresses l <-> e <> "" /\ exists p, email_of (profile_id p) = e /\ p ∈ l).
  { intros l. unfold addresses. rewrite list_elem_of_In, filter_In, <- list_elem_of_In, list_elem_of_fmap, negb_true_iff, bool_decide_eq_false. naive_solver. }
  unfold students_and_staff. set (chosen := match audience with EnrollmentAudience.ALL_USERS => _ | _ => _ end).
  assert (Hc : forall p, p ∈ chosen <-> p ∈ students /\ match audience with
                     | EnrollmentAudience.ALL_USERS => True
                     | EnrollmentAudience.INTERNAL_USERS => is_external p = false
                     | EnrollmentAudience.EXTERNAL_USERS => is_external p = true end).
  { intros p. unfold chosen, is_external. destruct audience; [| |tauto];
      by rewrite list_elem_of_In, filter_In, <- list_elem_of_In, ?negb_false_iff. }
  clearbody chosen. destruct include_staff; rewrite ?elem_of_remove_dups, ?elem_of_app, ?Ha; setoid_rewrite Hc.
  - split; [intros [[? (p & ? & ?)]|[? (p & ? & ?)]]; split; eauto|intros (? & p & ? & [?|[_ ?]]); eauto].
  - split; [intros [? (p & ? & ?)]; split; eauto|intros (? & p & ? & [?|[? _]]); [eauto|done]].
Qed.
End Mail.

(** ** Updates announced by a service *)

(** src/course/api/views.py: CourseViewSet.notify_update.  [configured] is the outcome of [configure_from_url],
    [mail] that of [email_course_instance]; the answer has the errors and the success. *)
Definition notify_update (configured : result (bool * list string)) (error_text : exn -> string) (email_on_error : bool) (mail : result bool)
    : list string * bool :=
  let '(success, errors) := match configured with Ret x => x | Raise e => (false, [error_text e]) end in
  if negb (bool_decide (errors = [])) && email_on_error then
    match mail with
    | Raise e => (errors ++ ["email failed: " +:+ error_text e], success)
    | Ret sent => (if sent then errors else errors ++ ["email failed"], sent)
    end
  else (errors, success).

(** An update that failed is answered as a success when the mail about it could be sent. *)
Lemma failed_update_reported_as_success error_text errors :
  errors <> [] -> notify_update (Ret (false, errors)) error_text true (Ret true) = (errors, true).
Proof. intros H. unfold notify_update. by rewrite bool_decide_eq_false_2. Qed.
(** ... and an update with warnings as a failure when it could not. *)
Lemma warned_update_reported_as_failure error_text errors :
  errors <> [] -> snd (notify_update (Ret (true, errors)) error_text true (Ret false)) = false.
Proof. intros H. unfold notify_update. by rewrite bool_decide_eq_false_2. Qed.

(** ** Current teachers *)

(** An enrollment with its user and the times of its instance. *)
Record TeacherRow := mkTeacher {
  tr_user : ApiUser;
  tr_role : EnrollmentRole.t;
  tr_status : EnrollmentStatus.t;
  tr_starting_time : datetime;
  tr_ending_time : datetime;
}.

(** src/course/api/views.py: CourseViewSet.current_teachers.  [None] for the parameter is an empty one, [Some None]
    one that is no integer. *)
Definition current_teachers (rows : list TeacherRow) (now : datetime) (ended_within_days : option (option Z)) : result (list Z) :=
  let! course_filter :=
    match ended_within_days with
    | None => Ret (fun r => (tr_starting_time r <=? now) && (now <=? tr_ending_time r))
    | Some None => Raise ValueError
    | Some (Some d) => if d <? 0 then Raise ValueError else Ret (fun r => now - days d <=? tr_ending_time r)
    end in
  let teacher_rows := List.filter (fun r => course_filter r && bool_decide (tr_role r = EnrollmentRole.TEACHER)
                                            && bool_decide (tr_status r = EnrollmentStatus.ACTIVE)) rows in
  Ret (au_id <$> List.filter (fun a => negb (bool_decide (au_email a = "")))
         (merge_sort (fun a b => Is_true (au_id a <=? au_id b)) (remove_dups (tr_user <$> teacher_rows)))).

(** Who is listed: the teachers with an address whose enrollment is active in a course that is running,
    or that has ended at most so many days ago or not at all. *)
Theorem current_teachers_spec rows now ended ids i :
  current_teachers rows now ended = Ret ids ->
  i ∈ ids <-> exists r, r ∈ rows /\ au_id (tr_user r) = i /\ au_email (tr_user r) <> "" /\
    tr_role r = EnrollmentRole.TEACHER /\ tr_status r = EnrollmentStatus.ACTIVE /\
    match ended with
    | None => tr_starting_time r <= now <= tr_ending_time r
    | Some d => exists n, d = Some n /\ 0 <= n /\ now - days n <= tr_ending_time r
    end.
Proof.
  unfold current_teachers. intros E.
  assert (Hf : exists f, (match ended with
    | None => Ret (fun r => (tr_starting_time r <=? now) && (now <=? tr_ending_time r))
    | Some None => Raise ValueError
    | Some (Some d) => if d <? 0 then Raise ValueError else Ret (fun r => now - days d <=? tr_ending_time r)
    end : result (TeacherRow -> bool)) = Ret f /\ forall r, f r = true <-> match ended with
    | None => tr_starting_time r <= now <= tr_ending_time r
    | Some d => exists n, d = Some n /\ 0 <= n /\ now - days n <= tr_ending_time r end).
  { destruct ended as [[d|]|]; [|done|].
    - destruct (d <? 0) eqn:Ed; [done|]. eexists. split; [done|]. intros r. cbn. rewrite Z.leb_le. b2p. split; [intros; by exists d|].
      intros (n & [= <-] & _ & ?). done.
    - eexists. split; [done|]. intros r. cbn. rewrite andb_true_iff, !Z.leb_le. tauto. }
  destruct Hf as (f & Ef & Hf). rewrite Ef in E. cbn [rbind] in E. injection E as <-.
  rewrite list_elem_of_fmap. setoid_rewrite list_elem_of_In. setoid_rewrite filter_In. setoid_rewrite <- list_elem_of_In.
  split.
  - intros (a & -> & Ha & He). rewrite merge_sort_Permutation, elem_of_remove_dups, list_elem_of_fmap in Ha.
    destruct Ha as (r & -> & Hr). apply list_elem_of_In, filter_In in Hr as [Hr Hc]. rewrite <- list_elem_of_In in Hr.
    apply negb_true_iff, bool_decide_eq_false in He. b2p. exists r. repeat split; try done; [by eapply bool_decide_eq_true..|by apply Hf].
  - intros (r & Hr & <- & He & Hro & Hst & Hc). exists (tr_user r). split; [done|]. split; [|apply negb_true_iff; by apply bool_decide_eq_false_2].
    rewrite merge_sort_Permutation, elem_of_remove_dups, list_elem_of_fmap. exists r. split; [done|].
    apply list_elem_of_In, filter_In. split; [by apply list_elem_of_In|]. rewrite (proj2 (Hf r) Hc), !bool_decide_eq_true_2 by done. done.
Qed.

(** ** The archive of submitted files *)

(** A submission with the student ids of its submitters, as [str] gives them, and its files, of which some
    cannot be read. *)
Record ZipSubmission := mkZip {
  zs_exercise : Z;
  zs_student_ids : list string;
  zs_files : list bool;
}.

Definition sort_strings (l : list string) : list string := merge_sort (fun a b => Is_true (String.leb a b)) l.

(** src/course/api/views.py: CourseViewSet.submissions_zip lines 405-408.  The name of a file. *)
Definition zip_name (exercise : Z) (submitters_string : string) (index submission_num : nat) : string :=
  "exercise" +:+ str_of_Z exercise +:+ "_" +:+ submitters_string +:+ "_file" +:+ str_of_Z (Z.of_nat index)
  +:+ "_submission" +:+ str_of_Z (Z.of_nat submission_num).

(** The files of one submission that could be read, from the given index on. *)
Fixpoint zip_files (exercise : Z) (submitters_string : string) (submission_num index : nat) (files : list bool) : list string :=
  match files with
  | [] => []
  | readable :: files =>
      (if readable : bool then [zip_name exercise submitters_string index submission_num] else [])
      ++ zip_files exercise submitters_string submission_num (S index) files
  end.

(** src/course/api/views.py: CourseViewSet.submissions_zip lines 370-419.  The names of the files; the
    submissions of the same submitters to an exercise are counted. *)
Fixpoint zip_entries (submitter_submission_count : gmap (Z * string) nat) (submissions : list ZipSubmission) : list string :=
  match submissions with
  | [] => []
  | s :: rest =>
      let submitters_string := join "+" (sort_strings (zs_student_ids s)) in
      match zs_files s with
      | [] => zip_entries submitter_submission_count rest
      | files =>
          let count_key := (zs_exercise s, submitters_string) in
          let submission_num := S (default 0%nat (submitter_submission_count !! count_key)) in
          zip_files (zs_exercise s) submitters_string submission_num 1 files
          ++ zip_entries (<[count_key := submission_num]> submitter_submission_count) rest
      end
  end.

(** Texts around the last and around the first separator. *)
Lemma last_separator c (a b x y : string) :
  contains c x = false -> contains c y = false -> a +:+ String c x = b +:+ String c y -> a = b /\ x = y.
Proof.
  intros Hx Hy. revert b. induction a as [|d a IH]; intros [|e b] E.
  - injection E as ->. done.
  - injection E as <- ->. exfalso. rewrite contains_app in Hx. cbn in Hx. by rewrite Ascii.eqb_refl, orb_true_r in Hx.
  - injection E as <- <-. exfalso. rewrite contains_app in Hy. cbn in Hy. by rewrite Ascii.eqb_refl, orb_true_r in Hy.
  - rewrite !append_cons in E. injection E as <- E. destruct (IH _ E) as [-> ->]. done.
Qed.

Lemma first_separator c (a b x y : string) :
  contains c a = false -> contains c b = false -> a +:+ String c x = b +:+ String c y -> a = b /\ x = y.
Proof.
  revert b. induction a as [|d a IH]; intros [|e b] Ha Hb E; cbn in Ha, Hb.
  - injection E as ->. done.
  - injection E as <- ->. by rewrite Ascii.eqb_refl in Hb.
  - injection E as <- <-. by rewrite Ascii.eqb_refl in Ha.
  - rewrite !append_cons in E. injection E as <- E. apply orb_false_iff in Ha as [_ Ha]. apply orb_false_iff in Hb as [_ Hb].
    destruct (IH _ Ha Hb E) as [-> ->]. done.
Qed.

Lemma zip_name_inj e1 s1 i1 n1 e2 s2 i2 n2 :
  0 <= e1 -> 0 <= e2 -> zip_name e1 s1 i1 n1 = zip_name e2 s2 i2 n2 -> e1 = e2 /\ s1 = s2 /\ i1 = i2 /\ n1 = n2.
Proof.
  intros He1 He2 E. unfold zip_name in E.
  assert (Hf : forall e s i n, "exercise" +:+ str_of_Z e +:+ "_" +:+ s +:+ "_file" +:+ str_of_Z (Z.of_nat i) +:+ "_submission" +:+ str_of_Z (Z.of_nat n)
    = (("exercise" +:+ str_of_Z e +:+ String "_" s) +:+ String "_" ("file" +:+ str_of_Z (Z.of_nat i))) +:+ String "_" ("submission" +:+ str_of_Z (Z.of_nat n))).
  { intros e s i n. rewrite <- !append_assoc. reflexivity. }
  rewrite !Hf in E. clear Hf.
  apply last_separator in E as [E En]; [|cbn; apply number_without; [done|lia]..].
  apply last_separator in E as [E Ei]; [|cbn; apply number_without; [done|lia]..].
  rewrite !append_assoc in E. apply first_separator in E as [Ee ->]; [|cbn; by apply number_without..].
  cbn in En, Ei, Ee. injection En as En%str_of_Z_inj. injection Ei as Ei%str_of_Z_inj. injection Ee as Ee%str_of_Z_inj.
  repeat split; lia.
Qed.

Lemma zip_files_in e s num index files name :
  name ∈ zip_files e s num index files -> exists i, (index <= i)%nat /\ name = zip_name e s i num.
Proof.
  revert index. induction files as [|b files IH]; intros index H; cbn in H; [by apply elem_of_nil in H|].
  apply elem_of_app in H as [H|H].
  - destruct b; [apply list_elem_of_singleton in H as ->; by exists index|by apply elem_of_nil in H].
  - destruct (IH _ H) as (i & Hi & ->). exists i. split; [lia|done].
Qed.

Lemma zip_files_NoDup e s num index files : 0 <= e -> NoDup (zip_files e s num index files).
Proof.
  intros He. revert index. induction files as [|b files IH]; intros index; cbn; [constructor|].
  apply NoDup_app. split; [destruct b; [apply NoDup_singleton|constructor]|]. split; [|apply IH].
  intros name H1 H2. destruct b; [|by apply elem_of_nil in H1]. apply list_elem_of_singleton in H1 as ->.
  apply zip_files_in in H2 as (i & Hi & E). apply zip_name_inj in E as (_ & _ & ? & _); [lia|done..].
Qed.

Lemma zip_entries_in counts submissions name :
  Forall (fun s => 0 <= zs_exercise s) submissions -> name ∈ zip_entries counts submissions ->
  exists e s i n, 0 <= e /\ name = zip_name e s i n /\ (default 0%nat (counts !! (e, s)) < n)%nat.
Proof.
  intros Hall. revert counts. induction Hall as [|z submissions Hz Hall IH]; intros counts H; cbn [zip_entries] in H; [by apply elem_of_nil in H|].
  set (ss := join "+" (sort_strings (zs_student_ids z))) in *.
  destruct (zs_files z) as [|f files]; [by apply IH|]. apply elem_of_app in H as [H|H].
  - apply zip_files_in in H as (i & _ & ->). exists (zs_exercise z), ss, i, (S (default 0%nat (counts !! (zs_exercise z, ss)))). repeat split; [done|lia].
  - destruct (IH _ H) as (e & s & i & n & He & -> & Hn). exists e, s, i, n. split; [done|]. split; [done|].
    clearbody ss. destruct (decide ((zs_exercise z, ss) = (e, s))) as [[= <- <-]|Hne].
    + rewrite lookup_insert_eq in Hn. cbn in Hn. lia.
    + by rewrite lookup_insert_ne in Hn.
Qed.

(** No file of an archive overwrites another one: whatever the student ids are, the names of the files
    of all submissions are distinct. *)
Theorem zip_names_distinct submissions :
  Forall (fun s => 0 <= zs_exercise s) submissions -> NoDup (zip_entries ∅ submissions).
Proof.
  generalize (∅ : gmap (Z * string) nat). intros counts Hall. revert counts. induction Hall as [|z submissions Hz Hall IH]; intros counts; cbn [zip_entries]; [constructor|].
  set (ss := join "+" (sort_strings (zs_student_ids z))). set (num := S _).
  destruct (zs_files z) as [|f files]; [apply IH|]. apply NoDup_app. split; [by apply zip_files_NoDup|]. split; [|apply IH].
  intros name H1 H2. apply zip_files_in in H1 as (i & _ & ->). apply zip_entries_in in H2 as (e & s & j & n & He & E & Hn); [|done].
  apply zip_name_inj in E as (<- & <- & _ & <-); [|done..]. rewrite lookup_insert_eq in Hn. cbn in Hn. lia.
Qed.

(** The names of a profile that are searched. *)
Record ZipProfile := mkZipProfile { zp_id : Z; zp_first_name : string; zp_last_name : string; zp_username : string; zp_student_id : option string }.

(** The parameters of a request that are given. *)
Record ZipQuery := mkZipQuery {
  zq_student_id : option Z;
  zq_status : option string;
  zq_exercise_ids : list Z;
  zq_submitter_name : option string;
  zq_tag_ids : list Z;
  zq_late_penalty : option string;
  zq_assessed_manually : option string;
  zq_start_time : option datetime;
  zq_end_time : option datetime;
}.

(** [yes] and [no] select, every other text leaves out the filter. *)
Definition yes_no (value : option string) (b : bool) : bool :=
  match value with
  | Some v => if bool_decide (v = "yes") then b else if bool_decide (v = "no") then negb b else true
  | None => true
  end.

(** src/course/api/views.py: CourseViewSet.submissions_zip lines 288-349.  The submissions of the course that are
    selected.  The conditions on submitters are those of one query: one submitter meets them both. *)
Definition zip_selected (icontains : string -> string -> bool) (profile_of : Z -> option ZipProfile) (tags_of : Z -> list Z)
    (in_course : Z -> bool) (q : ZipQuery) (s : Submission) : bool :=
  let name_matches (n : string) (p : ZipProfile) :=
    icontains n (zp_first_name p) || icontains n (zp_last_name p) || icontains n (zp_username p)
    || match zp_student_id p with Some i => icontains n i | None => false end in
  let submitter_matches (p : ZipProfile) :=
    match zq_student_id q with Some i => zp_id p =? i | None => true end
    && match zq_submitter_name q with Some n => name_matches n p | None => true end in
  in_course (sub_exercise s)
  && (bool_decide (zq_student_id q = None) && bool_decide (zq_submitter_name q = None)
      || existsb (fun p => match profile_of (profile_id p) with Some p => submitter_matches p | None => false end) (submitters s))
  && match zq_status q with
     | None => true
     | Some t => if bool_decide (t = "not_ready") then negb (bool_decide (sub_status s = SubStatus.READY))
                 else bool_decide (status_name (sub_status s) = t)
     end
  && (bool_decide (zq_exercise_ids q = []) || bool_decide (sub_exercise s ∈ zq_exercise_ids q))
  && (bool_decide (zq_tag_ids q = []) || existsb (fun t => bool_decide (t ∈ zq_tag_ids q)) (tags_of (sub_id s)))
  && yes_no (zq_late_penalty q) (bool_decide (is_Some (late_penalty_applied s)))
  && yes_no (zq_assessed_manually q) (is_assessed s)
  && match zq_start_time q with Some t => t <=? submission_time s | None => true end
  && match zq_end_time q with Some t => submission_time s <=? t | None => true end.

(** ** Exercises of a course *)

(** An entry of the content with its children. *)
Inductive ContentNode := ContNode (entry : EntryInfo) (kids : list ContentNode).

(** src/course/api/views.py: CourseExercisesViewSet.__recurse_exercises.  The exercises, by their entries, are added to
    the given ones. *)
Fixpoint recurse_exercises (module : ContentNode) (exercises : list EntryInfo) : list EntryInfo :=
  match module with
  | ContNode _ kids =>
      (fix go (kids : list ContentNode) (exercises : list EntryInfo) : list EntryInfo :=
         match kids with
         | [] => exercises
         | child :: kids =>
             let exercises := match child with ContNode e _ => if e_submittable e then exercises ++ [e] else exercises end in
             go kids (recurse_exercises child exercises)
         end) kids exercises
  end.

(** The entries below an entry, parents first. *)
Fixpoint below (n : ContentNode) : list EntryInfo :=
  match n with ContNode _ kids => flat_map (fun k => match k with ContNode e _ => e :: below k end) kids end.

Fixpoint node_size (n : ContentNode) : nat := match n with ContNode _ kids => S (sum_list (map node_size kids)) end.

Lemma recurse_exercises_spec n exercises : recurse_exercises n exercises = exercises ++ List.filter e_submittable (below n).
Proof.
  revert n exercises. assert (H : forall m n exercises, (node_size n <= m)%nat -> recurse_exercises n exercises = exercises ++ List.filter e_submittable (below n)).
  2: { intros n exercises. by apply (H (node_size n)). }
  induction m as [|m IH]; intros [e kids] exercises Hm; cbn in Hm; [lia|]. cbn [recurse_exercises below].
  assert (Hk : (sum_list (map node_size kids) <= m)%nat) by lia. clear Hm. revert exercises.
  induction kids as [|k kids IHk]; intros exercises; [by rewrite app_nil_r|]. cbn in Hk. cbn [flat_map].
  rewrite IHk by lia. rewrite IH by lia. destruct k as [e' kids']. rewrite List.filter_app. cbn [List.filter].
  destruct (e_submittable e'); by rewrite <- ?app_assoc.
Qed.

(** src/course/api/views.py: CourseExercisesViewSet.list.  The modules with their exercises. *)
Definition list_exercises (is_teacher : bool) (modules : list (ModuleStatus.t * ContentNode)) : list (list EntryInfo) :=
  (fun m => recurse_exercises m.2 []) <$>
    List.filter (fun m => negb (bool_decide (m.1 = ModuleStatus.HIDDEN)) || is_teacher) modules.

(** ** Statistics *)

(** src/lib/api/statistics.py: BaseStatisticsView.get_queryset, get_object and the course of CourseStatisticsView.
    Submissions and submitters of a time window; a submission without submitters is a row with no submitter. *)
Definition course_statistics (submissions : list Submission) (in_course : Z -> bool) (now : datetime) (starttime endtime : option datetime) : Z * Z :=
  let endtime := default now endtime in
  let starttime := default (endtime - days 1) starttime in
  let qs := List.filter (fun s => (starttime <=? submission_time s) && (submission_time s <=? endtime) && in_course (sub_exercise s)) submissions in
  (Z.of_nat (length qs),
   Z.of_nat (length (remove_dups (qs ≫= (fun s => match submitters s with [] => [None] | l => Some ∘ profile_id <$> l end))))).

(** ** Courses made by administrators *)

(** The tables: courses by code, the instances with their course, the users by name, and the enrollments. *)
Record CourseTables := mkCourseTables {
  ct_courses : list (Z * string);
  ct_instances : list CourseInstance;
  ct_users : list (string * UserProfile);
  ct_enrollments : EnrollmentDB;
}.

Definition new_id (ids : list Z) : Z := 1 + maxZ 0 ids.

(** [User.objects.get] or [create_user]. *)
Definition get_or_create_user `{Settings} (st : CourseTables) (username : string) : CourseTables * UserProfile :=
  match list_find (fun u => u.1 = username) (ct_users st) with
  | Some (_, (_, p)) => (st, p)
  | None =>
      let p := mkProfile (new_id (profile_id ∘ snd <$> ct_users st)) None LOCAL_ORGANIZATION in
      (mkCourseTables (ct_courses st) (ct_instances st) (ct_users st ++ [(username, p)]) (ct_enrollments st), p)
  end.

(** src/course/api/full_serializers.py: CourseWriteSerializer.set_teachers *)
Definition api_set_teachers `{Settings} (instance : CourseInstance) (teachers : list string) (st : CourseTables) : CourseTables :=
  let '(st, users) := foldl (fun '(st, users) i => let '(st, p) := get_or_create_user st i in (st, users ++ [p])) (st, []) teachers in
  mkCourseTables (ct_courses st) (ct_instances st) (ct_users st) (set_teachers instance users (ct_enrollments st)).

(** src/course/api/full_serializers.py: CourseWriteSerializer.create.  [accepts_course] and [accepts_instance] tell what
    the database accepts; there is no transaction around the two rows. *)
Definition create_course `{Settings} (accepts_course : string -> bool) (accepts_instance : CourseInstance -> bool) (code : string)
    (make : Z -> Z -> CourseInstance) (teachers : list string) (st : CourseTables) : CourseTables * result CourseInstance :=
  let found :=
    match list_find (fun c => c.2 = code) (ct_courses st) with
    | Some (_, (i, _)) => Some (st, i)
    | None =>
        if accepts_course code then
          let i := new_id (ct_courses st).*1 in
          Some (mkCourseTables (ct_courses st ++ [(i, code)]) (ct_instances st) (ct_users st) (ct_enrollments st), i)
        else None
    end in
  match found with
  | None => (st, Raise (ValidationError ["course"]))
  | Some (st, course) =>
      let instance := make (new_id (instance_id <$> ct_instances st)) course in
      if accepts_instance instance then
        let st := mkCourseTables (ct_courses st) (ct_instances st ++ [instance]) (ct_users st) (ct_enrollments st) in
        (api_set_teachers instance teachers st, Ret instance)
      else (st, Raise (ValidationError ["instance"]))
  end.

(** A request that is refused because of the instance leaves the new course behind. *)
Lemma refused_instance_leaves_course `{Settings} accepts_course code make teachers st :
  list_find (fun c => c.2 = code) (ct_courses st) = None -> accepts_course code = true ->
  (create_course accepts_course (fun _ => false) code make teachers st).2 = Raise (ValidationError ["instance"]) /\
  code ∈ (ct_courses (create_course accepts_course (fun _ => false) code make teachers st).1).*2.
Proof.
  intros Hf Ha. unfold create_course. rewrite Hf, Ha. cbn. split; [done|]. rewrite fmap_app. apply elem_of_app. right. by left.
Qed.

(** ** Examples *)

Module Sample.
Definition student (i : Z) (name : string) (org : string) : ApiUser := mkApiUser i (i + 100) name (name +:+ "@x.fi") (Some (str_of_Z i)) org.
Definition users : list ApiUser := [student 1 "ann" "aalto.fi"; student 2 "bob" "aalto.fi"; student 3 "eve" "x.fi"].
Definition tags : list UserTag := [mkTag 5 1 "Late" "late" "" "#fff"; mkTag 6 2 "Late" "late" "" "#fff"].
Definition by_id (i : Z) : UserSpec := mkSpec (Some i) None None None.
#[local] Existing Instance example_settings.

(** User 2 has the tag already, user 9 does not exist. *)
Lemma taggings_roundtrip_witness :
  exists deleted, destroy_many tags (user_of_profile users) 1 (destroy_request "late" [1; 3])
    [mkTagging 5 102 1; mkTagging 6 101 2; mkTagging 5 101 1; mkTagging 5 103 1]
  = Ret ([mkTagging 5 102 1; mkTagging 6 101 2], Some (mkSummary deleted [1; 3] [])) /\ deleted ≡ₚ [1; 3].
Proof.
  destruct (taggings_roundtrip users tags 1 "late" None [1; 2; 3; 9] [mkTagging 5 102 1; mkTagging 6 101 2]
    [mkTagging 5 102 1; mkTagging 6 101 2; mkTagging 5 101 1; mkTagging 5 103 1] 201 [mkTagging 5 101 1; mkTagging 5 103 1]
    [(by_id 2, ValidationError ["tag"]); (by_id 9, Http404)]) as (_ & _ & _ & _ & deleted & E & Hp & _).
  - apply (bool_decide_unpack _). vm_compute. exact I.
  - apply (bool_decide_unpack _). vm_compute. exact I.
  - apply (bool_decide_unpack _). vm_compute. exact I.
  - intros t tag Ht Htag. repeat (apply elem_of_cons in Ht as [->|Ht]; [repeat (apply elem_of_cons in Htag as [->|Htag]; [cbn; lia|]); by apply elem_of_nil in Htag|]).
    by apply elem_of_nil in Ht.
  - discriminate.
  - discriminate.
  - vm_compute. reflexivity.
  - exists deleted. split; [exact E|exact Hp].
Defined.

(** An address nobody has raises instead of being not found; a student of another organization is not found by the number. *)
Lemma unknown_email_raises :
  create_tagging users tags 1 "late" (mkSpec None None None (Some "nobody@x.fi")) [] = Raise AttributeError /\
  create_tagging users tags 1 "late" (mkSpec None (Some "3") None None) [] = Raise Http404.
Proof. split; vm_compute; reflexivity. Qed.

Lemma zip_names_distinct_witness :
  zip_entries ∅ [mkZip 4 ["2"; "1"] [true; true]; mkZip 4 ["1"; "2"] [true]; mkZip 4 ["None"] [true]]
    = ["exercise4_1+2_file1_submission1"; "exercise4_1+2_file2_submission1"; "exercise4_1+2_file1_submission2"; "exercise4_None_file1_submission1"] /\
  NoDup (zip_entries ∅ [mkZip 4 ["2"; "1"] [true; true]; mkZip 4 ["1"; "2"] [true]; mkZip 4 ["None"] [true]]).
Proof. split; [vm_compute; reflexivity|]. apply zip_names_distinct. repeat constructor; cbn; lia. Defined.
End Sample.
