(* ===== verification/Services.v ===== *)
(** * External services

    [external_services]: links to other services in the menu of a course, the
    parameters with which a student is sent to a service over LTI 1.1, and the
    points such a service posts back: the identifier of a result, the check of
    the OAuth signature with its nonce, the request and its answer.  The
    libraries that sign and verify, parse XML and join addresses are arguments. *)

From Stdlib Require Import QArith Lqa Ascii.
From S2P Require Import Prelude Lists Binary64 Helpers Course Models Exercise Submission Codes Staff Signed Tokens.
#[local] Open Scope string_scope.
#[local] Open Scope list_scope.
#[local] Open Scope Z_scope.

(** ** Services *)

(** src/external_services/models.py: LinkService lines 19-26.  The numbers of the regions. *)
Definition INTERNAL : Z := 0.
Definition ORGANIZATION : Z := 1.

(** src/external_services/models.py: LTIService lines 113-117 *)
Inductive LtiAccess := ANON_API_NO | PUBLIC_API_NO | PUBLIC_API_YES.
#[global] Instance LtiAccess_eq_dec : EqDecision LtiAccess.
Proof. solve_decision. Defined.

(** The class of a service with the columns of the class. *)
Inductive ServiceClass :=
| PlainLink
| LTIService (access_settings : LtiAccess) (consumer_key consumer_secret : string)
| LTI1p3Service (login_url client_id deployment_id jwks_url : string) (share_name : bool).

(** src/external_services/models.py: LinkService lines 27-58 *)
Record LinkService := mkService {
  service_id : Z;
  service_url : string;
  destination_region : Z;
  privacy_notice_url : string;
  service_label : string;
  service_icon_class : string;
  service_enabled : bool;
  service_class : ServiceClass;
}.

(** src/external_services/models.py: LinkService.clean *)
Definition service_clean (self : LinkService) : result unit :=
  if (ORGANIZATION <? destination_region self) && bool_decide (privacy_notice_url self = "")
  then Raise (ValidationError ["privacy_notice_url"]) else Ret tt.

(** src/external_services/models.py: LinkService.sends_user_info, and the classes that override it. *)
Definition sends_user_info (self : LinkService) : bool :=
  match service_class self with PlainLink => false | _ => true end.

(** src/external_services/models.py: LTIService.is_anonymous *)
Definition is_anonymous (access : LtiAccess) : bool := bool_decide (access = ANON_API_NO).

(** src/external_services/models.py: LTIService.api_access *)
Definition api_access (access : LtiAccess) : bool := bool_decide (access = PUBLIC_API_YES).

(** [s in t] for texts. *)
Fixpoint within (s t : string) : bool :=
  startswith s t || match t with EmptyString => false | String _ t => within s t end.

Section Links.
(** [urljoin] of the standard library, and the addresses of the pages that
    lead to a service. *)
Context (urljoin : string -> string -> string) (reverse : string -> Z -> string).

(** src/external_services/models.py: LinkService.get_final_url.  An empty text is false. *)
Definition get_final_url (self : LinkService) (replace : option string) : result string :=
  match replace with
  | None | Some "" => Ret (service_url self)
  | Some replace =>
      if within "://" replace || startswith "//" replace then Raise AssertionError
      else Ret (urljoin (service_url self) replace)
  end.

(** src/external_services/models.py: LinkService.get_url, and the classes that override it. *)
Definition get_url (self : LinkService) (replace : option string) (menu_id : Z) : result string :=
  match service_class self with
  | PlainLink =>
      if INTERNAL <? destination_region self then Ret (reverse "external-service-link" menu_id) else get_final_url self replace
  | LTIService _ _ _ | LTI1p3Service _ _ _ _ _ => Ret (reverse "lti-login" menu_id)
  end.

(** ** Menus *)

(** src/external_services/models.py: MenuItem lines 228-232 *)
Definition ACCESS_STUDENT : Z := 0.
Definition ACCESS_ASSISTANT : Z := 5.
Definition ACCESS_TEACHER : Z := 10.

(** src/external_services/models.py: MenuItem lines 233-289.  Texts that may be null are options. *)
Record MenuItem := mkMenuItem {
  menu_id : Z;
  menu_instance : Z;
  menu_access : Z;
  menu_service : option LinkService;
  menu_url : option string;
  menu_group_label : option string;
  menu_label : option string;
  menu_icon_class : option string;
  menu_weight : Z;
  menu_enabled : bool;
}.

Definition text (s : option string) : string := default "" s.
Definition given (s : option string) : bool := negb (bool_decide (text s = "")).

(** src/external_services/models.py: MenuItem.clean *)
Definition menu_clean (self : MenuItem) : result unit :=
  let err (b : bool) (field : string) : list string := if b then [field] else [] in
  let errors :=
    match menu_service self with
    | None => err (negb (given (menu_url self))) "menu_url" ++ err (negb (given (menu_label self))) "menu_label"
    | Some _ => err (given (menu_url self) && within "://" (text (menu_url self))) "menu_url"
    end in
  match errors with [] => Ret tt | _ => Raise (ValidationError errors) end.

(** src/external_services/models.py: MenuItem.is_enabled *)
Definition is_enabled (self : MenuItem) : bool :=
  match menu_service self with Some s => service_enabled s && menu_enabled self | None => menu_enabled self end.

(** src/external_services/models.py: MenuItem.label *)
Definition label (self : MenuItem) : string :=
  if given (menu_label self) then text (menu_label self)
  else match menu_service self with Some s => service_label s | None => "" end.

(** src/external_services/models.py: MenuItem.icon_class *)
Definition icon_class (self : MenuItem) : string :=
  if given (menu_icon_class self) then text (menu_icon_class self)
  else match menu_service self with Some s => service_icon_class s | None => "" end.

(** src/external_services/models.py: MenuItem.url.  [instance_page] is the address of the course. *)
Definition item_url (instance_page : string) (self : MenuItem) : result string :=
  match menu_service self with
  | Some s => get_url s (menu_url self) (menu_id self)
  | None =>
      match menu_url self with
      | None => Raise TypeError
      | Some url => if within "://" url then Ret url else Ret (urljoin instance_page url)
      end
  end.

(** src/external_services/models.py: MenuItem.final_url *)
Definition final_url (instance_page : string) (self : MenuItem) : result string :=
  match menu_service self with
  | Some s => get_final_url s (menu_url self)
  | None => Ret (urljoin instance_page (text (menu_url self)))
  end.

(** What the cached menu keeps of an item. *)
Record MenuEntry := mkEntry {
  entry_enabled : bool;
  entry_access : Z;
  entry_label : string;
  entry_icon_class : string;
  entry_url : string;
  entry_blank : bool;
}.

(** src/external_services/cache.py: CachedCourseMenu._generate_data lines 30-38 *)
Definition menu_entry (instance_page : string) (menu : MenuItem) : result MenuEntry :=
  let! url := item_url instance_page menu in
  Ret (mkEntry (is_enabled menu) (menu_access menu) (label menu) (icon_class menu) url
         (match menu_service menu with Some _ => true | None => false end)).

Definition group_label (menu : MenuItem) : string := text (menu_group_label menu).

(** src/external_services/cache.py: CachedCourseMenu._generate_data lines 20-27.  The
    labels in the order they came up, each with its entries. *)
Abbreviation Groups := (list (string * list MenuEntry)).
Definition append_to_group (groups : Groups) (g : string) (e : MenuEntry) : Groups :=
  od_set g (default [] (od_get g groups) ++ [e]) groups.

(** src/external_services/cache.py: CachedCourseMenu._generate_data.  The groups of students and those of
    the staff; [menus] is in the order of the table. *)
Fixpoint generate_menu (instance_page : string) (menus : list MenuItem) (student staff : Groups) : result (Groups * Groups) :=
  match menus with
  | [] => Ret (student, staff)
  | menu :: menus =>
      let! entry := menu_entry instance_page menu in
      if ACCESS_STUDENT <? menu_access menu
      then generate_menu instance_page menus student (append_to_group staff (group_label menu) entry)
      else generate_menu instance_page menus (append_to_group student (group_label menu) entry) staff
  end.

(** src/external_services/cache.py: CachedCourseMenu.is_assistant_link *)
Definition is_assistant_link (entry : MenuEntry) : bool := entry_access entry <=? ACCESS_ASSISTANT.

(** The links a user finds in the menu: the enabled ones, those of the staff for
    the staff, and those of teachers for teachers, as the template of the menu shows them. *)
Definition shown_links (is_teacher is_staff : bool) (menu : Groups * Groups) : list MenuEntry :=
  let entries (groups : Groups) := mjoin (groups.*2) in
  List.filter entry_enabled (entries menu.1)
  ++ (if is_staff then List.filter (fun e => entry_enabled e && (is_teacher || is_assistant_link e)) (entries menu.2) else []).

(** src/external_services/permissions.py: MenuVisiblePermission.is_object_visible *)
Definition is_object_visible (is_teacher is_staff : bool) (menu : MenuItem) : bool :=
  if negb (menu_enabled menu) || match menu_service menu with Some s => negb (service_enabled s) | None => false end then false
  else if ACCESS_TEACHER <=? menu_access menu then is_teacher
  else if ACCESS_ASSISTANT <=? menu_access menu then is_staff
  else true.

(** src/external_services/permissions.py: LTIServicePermission.has_object_permission *)
Definition lti_permission (menu : MenuItem) : bool :=
  match menu_service menu with Some s => sends_user_info s | None => false end.

Lemma mjoin_od_set (groups : Groups) g e :
  NoDup groups.*1 -> mjoin ((append_to_group groups g e).*2) ≡ₚ mjoin (groups.*2) ++ [e].
Proof.
  unfold append_to_group. induction groups as [|[k es] groups IH]; intros Hnd; [done|].
  rewrite fmap_cons in Hnd. apply NoDup_cons in Hnd as [Hk Hnd]. cbn [od_set od_get]. case_bool_decide; rewrite !fmap_cons; cbn.
  - rewrite <- !app_assoc. f_equiv. apply Permutation_app_comm.
  - rewrite <- app_assoc. f_equiv. by apply IH.
Qed.

Lemma append_to_group_NoDup groups g e : NoDup groups.*1 -> NoDup (append_to_group groups g e).*1.
Proof. apply od_set_NoDup. Qed.

(** The entries of the items, with the items. *)
Definition entries_of (page : string) (menus : list MenuItem) (es : list MenuEntry) : Prop :=
  Forall2 (fun m e => menu_entry page m = Ret e) menus es.

Lemma generate_menu_perm page menus student staff student' staff' :
  generate_menu page menus student staff = Ret (student', staff') -> NoDup student.*1 -> NoDup staff.*1 ->
  exists es, entries_of page menus es /\ NoDup student'.*1 /\ NoDup staff'.*1 /\
    mjoin (student'.*2) ≡ₚ mjoin (student.*2) ++ List.filter (fun e => negb (ACCESS_STUDENT <? entry_access e)) es /\
    mjoin (staff'.*2) ≡ₚ mjoin (staff.*2) ++ List.filter (fun e => ACCESS_STUDENT <? entry_access e) es.
Proof.
  revert student staff. induction menus as [|m menus IH]; intros student staff E Hs Hf; cbn [generate_menu] in E.
  - injection E as <- <-. exists []. cbn. rewrite !app_nil_r. split; [constructor|done].
  - destruct (menu_entry page m) as [e|] eqn:Em; [|discriminate E]. cbn [rbind] in E.
    assert (Ha : entry_access e = menu_access m) by (unfold menu_entry in Em; destruct (item_url page m); [|discriminate]; by injection Em as <-).
    destruct (ACCESS_STUDENT <? menu_access m) eqn:Eacc.
    + destruct (IH _ _ E Hs (append_to_group_NoDup _ _ _ Hf)) as (es & He & N1 & N2 & P1 & P2). exists (e :: es).
      split; [by constructor|]. do 2 (split; [done|]). cbn [List.filter]. rewrite Ha, Eacc. cbn [negb]. split; [done|].
      rewrite P2, mjoin_od_set, <- app_assoc by done. done.
    + destruct (IH _ _ E (append_to_group_NoDup _ _ _ Hs) Hf) as (es & He & N1 & N2 & P1 & P2). exists (e :: es).
      split; [by constructor|]. do 2 (split; [done|]). cbn [List.filter]. rewrite Ha, Eacc. cbn [negb]. split; [|done].
      rewrite P1, mjoin_od_set, <- app_assoc by done. done.
Qed.

#[local] Instance list_filter_perm {A} (f : A -> bool) : Proper (Permutation ==> Permutation) (List.filter f).
Proof.
  intros l1 l2. induction 1 as [|x l1 l2 _ IH|x y l|l1 l2 l3 _ IH1 _ IH2]; cbn; [done| | |by etrans].
  - destruct (f x); [by rewrite IH|done].
  - destruct (f x), (f y); try done. constructor.
Qed.

Lemma filter_filter_perm {A} (f g h p : A -> bool) (l : list A) :
  (forall x, x ∈ l -> p x = (negb (h x) && f x) || (h x && g x)) ->
  List.filter f (List.filter (fun x => negb (h x)) l) ++ List.filter g (List.filter h l) ≡ₚ List.filter p l.
Proof.
  induction l as [|x l IH]; intros H; [done|]. cbn. rewrite (H x) by (by left).
  specialize (IH ltac:(intros y Hy; apply H; by right)). destruct (h x); cbn; [|destruct (f x); cbn; by rewrite IH].
  destruct (g x); cbn; [|done]. rewrite <- Permutation_middle. by rewrite IH.
Qed.

(** The menu shows a user exactly the links that the permission lets the user
    open, whatever the groups of the links are. *)
Theorem menu_shows_what_opens page menus menu (is_teacher is_staff : bool) :
  generate_menu page menus [] [] = Ret menu -> (is_teacher = true -> is_staff = true) ->
  Forall (fun m => menu_access m ∈ [ACCESS_STUDENT; ACCESS_ASSISTANT; ACCESS_TEACHER]) menus ->
  exists es, entries_of page menus es /\
    shown_links is_teacher is_staff menu ≡ₚ (List.filter (fun x => is_object_visible is_teacher is_staff x.1) (zip menus es)).*2.
Proof.
  intros E Ht Hacc. destruct menu as [student staff]. destruct (generate_menu_perm _ _ _ _ _ _ E) as (es & He & _ & _ & P1 & P2); [constructor..|].
  exists es. split; [done|]. unfold shown_links. cbn zeta. cbn [fst snd]. cbn in P1, P2.
  set (vis e := entry_enabled e && (if ACCESS_TEACHER <=? entry_access e then is_teacher else if ACCESS_ASSISTANT <=? entry_access e then is_staff else true)).
  transitivity (List.filter vis es).
  - assert (Hes : forall e, e ∈ es -> entry_access e ∈ [ACCESS_STUDENT; ACCESS_ASSISTANT; ACCESS_TEACHER]).
    { intros e (i & Hi)%list_elem_of_lookup. destruct (Forall2_lookup_r _ _ _ _ _ He Hi) as (m & Hm & Em).
      pose proof (proj1 (Forall_lookup _ _) Hacc i m Hm) as Hin. unfold menu_entry in Em. destruct (item_url page m); [|discriminate].
      by injection Em as <-. }
    destruct is_staff.
    + rewrite P1, P2. apply filter_filter_perm. intros e Hin. specialize (Hes e Hin). unfold vis, is_assistant_link, ACCESS_STUDENT, ACCESS_ASSISTANT, ACCESS_TEACHER in *.
      destruct (entry_enabled e); cbn; [|by destruct (0 <? entry_access e)].
      apply elem_of_cons in Hes as [->|[->| ->%list_elem_of_singleton]%elem_of_cons]; cbn; by rewrite ?orb_true_r, ?orb_false_r.
    + destruct is_teacher; [by specialize (Ht eq_refl)|]. rewrite P1, <- (filter_filter_perm entry_enabled (fun _ => false) (fun e => ACCESS_STUDENT <? entry_access e) vis).
      * f_equiv. by rewrite filter_false.
      * intros e Hin. specialize (Hes e Hin). unfold vis, ACCESS_STUDENT, ACCESS_ASSISTANT, ACCESS_TEACHER in *.
        apply elem_of_cons in Hes as [->|[->| ->%list_elem_of_singleton]%elem_of_cons]; cbn; destruct (entry_enabled e); done.
  - clear -He. induction He as [|m e menus es Em _ IH]; [done|]. cbn.
    assert (Hv : is_object_visible is_teacher is_staff m = vis e).
    { unfold menu_entry in Em. destruct (item_url page m); [|discriminate]. injection Em as <-. unfold vis, is_object_visible, is_enabled. cbn.
      destruct (menu_service m) as [s|]; [destruct (service_enabled s)|]; destruct (menu_enabled m); done. }
    rewrite Hv. destruct (vis e); cbn; by rewrite IH.
Qed.
End Links.

(** ** Sending a student to a service *)

(** What a launch reads of a user and of the profile. *)
Record Person := mkPerson {
  person_user : User;
  person_username : string;
  first_name : string;
  last_name : string;
  person_email : string;
  api_token : string;
  person_language : string;
}.
Definition person_profile (p : Person) : UserProfile := userprofile (person_user p).

(** What a service is told of a user. *)
Record UserInfo := mkInfo {
  info_user_id : string;
  given_name : string;
  family_name : string;
  full_name : string;
  info_email : string;
}.

(** [s.rpartition(c)]: before and after the last [c]; without one nothing and all. *)
Fixpoint rpartition (c : ascii) (s : string) : string * string :=
  match s with
  | EmptyString => ("", "")
  | String a r =>
      if contains c r then let (x, y) := rpartition c r in (String a x, y)
      else if Ascii.eqb a c then ("", r) else ("", s)
  end.

(** The addresses and names of the site, of the course and of the page. *)
Record LaunchPage := mkLaunchPage {
  base_url : string;
  netloc : string;
  brand_name : string;
  brand_description : string;
  return_url : string;
  instance_page : string;
  course_name : string;
  course_code : string;
  page_language : string;
  outcomes_url : string;
  course_api_url : string;
}.

(** src/exercise/exercise_models.py: LTIExercise lines 1203-1238.  The exercise with the service it is at. *)
Record LtiExercise := mkLtiExercise {
  lti_exercise :> BaseExercise;
  lti_service : Z;
  context_id : string;
  resource_link_id : string;
  resource_link_title : string;
  aplus_get_and_post : bool;
  open_in_iframe : bool;
  lti_exercise_url : string;
}.

Abbreviation Params := (list (string * string)).

(** [d.update(items)] *)
Definition update (d items : Params) : Params := foldl (fun d kv => od_set kv.1 kv.2 d) d items.

Section Launch.
(** What the saves of an enrollment draw (see [Codes]), and [json.dumps]. *)
Context (get_random_string : nat -> Z -> string) (choice : nat -> list string -> string).
Context (colors animals : list string) (save_tag : list UserTag -> UserTag -> UserTag) (course_of : Z -> Z).
Context (json_dumps : list Params -> string) (fuel depth : nat).
Context (service : LinkService) (access : LtiAccess) (instance : CourseInstance) (db : EnrollmentDB) (page : LaunchPage).

(** A computation that may save enrollments; it ends with a value or otherwise. *)
Definition L (A : Type) : Type := CodeState -> CodeState * (A + finish).
Definition lret {A} (a : A) : L A := fun st => (st, inl a).
Definition lbind {A B} (c : L A) (k : A -> L B) : L B :=
  fun st => match c st with (st, inl a) => k a st | (st, inr f) => (st, inr f) end.

(** src/external_services/lti.py: LTIRequest.user_info.  The enrollment is saved again when it has
    neither a name nor an id, which gives it both. *)
Definition user_info (p : Person) : L UserInfo := fun st =>
  if is_anonymous access then
    match cs_rows st !! (instance_id instance, profile_id (person_profile p)) with
    | None => (st, inr (Failed Http404))
    | Some row =>
        let '(st, ended, row) :=
          if bool_decide (anon_name row = "") && negb (given (anon_id row)) then
            let '(st, ended) :=
              Codes.save get_random_string choice colors animals save_tag course_of fuel depth false AllFields
                (mkCodes (cs_rows st) row (cs_draws st) (cs_tags st) (cs_taggings st)) in
            (st, ended, cs_object st)
          else (st, Finished, row) in
        match ended, anon_id row with
        | Finished, Some i =>
            let (given_name, family_name) := rpartition " " (anon_name row) in
            (st, inl (mkInfo ("a" +:+ i) (if bool_decide (given_name = "") then "Anonymous" else given_name) family_name
                        (anon_name row) ("anonymous-" +:+ i +:+ "@aplus.invalid")))
        | Finished, None => (st, inr (Failed TypeError))
        | f, _ => (st, inr f)
        end
    end
  else
    (st, inl (mkInfo ("i" +:+ str_of_Z (user_id (person_user p))) (first_name p) (last_name p)
                (first_name p +:+ " " +:+ last_name p) (person_email p))).

(** src/external_services/lti.py: LTIRequest.__init__ lines 45-51 *)
Definition lti_role (user : Person) : string :=
  let u := NormalUser (person_user user) in
  if is_teacher instance db u then "Instructor"
  else if is_assistant instance db u then "TA,TeachingAssistant"
  else "Learner,Student".

(** src/external_services/lti.py: LTIRequest.__init__ lines 99-99.  The id of the result of a user. *)
Definition sourced_id (exercise : BaseExercise) (user_id : string) : string := str_of_Z (exercise_id exercise) +:+ "-" +:+ user_id.

(** src/external_services/lti.py: LTIRequest.__init__ lines 53-84 *)
Definition base_parameters (context_id link_id title role : string) (iframe : bool) (i : UserInfo) : Params :=
  [("lti_version", "LTI-1p0"); ("lti_message_type", "basic-lti-launch-request");
   ("resource_link_id", link_id); ("resource_link_title", title);
   ("user_id", info_user_id i); ("roles", role);
   ("lis_person_name_full", full_name i); ("lis_person_name_given", given_name i);
   ("lis_person_name_family", family_name i); ("lis_person_contact_email_primary", info_email i);
   ("context_id", context_id); ("context_title", course_name page); ("context_label", course_code page);
   ("launch_presentation_locale", page_language page);
   ("launch_presentation_document_target", if iframe then "iframe" else "window");
   ("launch_presentation_return_url", return_url page);
   ("tool_consumer_instance_guid", netloc page +:+ "/aplus"); ("tool_consumer_instance_name", brand_name page);
   ("tool_consumer_instance_description", brand_description page); ("tool_consumer_instance_url", base_url page)].

(** An argument that may be None or empty, with the text that stands for it. *)
Definition or_text (s : option string) (d : string) : string := if given s then text s else d.

(** src/external_services/lti.py: LTIRequest.__init__ *)
Definition lti_parameters (user : Person) (title : string) (context_id link_id : option string) (add : Params)
    (exercise : option LtiExercise) : L Params :=
  let context_id := or_text context_id (netloc page +:+ instance_page page) in
  let link_id := or_text link_id ("aplus" +:+ str_of_Z (service_id service)) in
  let title := or_text (Some title) link_id in
  lbind (user_info user) (fun i =>
  let parameters := update add (base_parameters context_id link_id title (lti_role user)
                                  (match exercise with Some e => open_in_iframe e | None => false end) i) in
  let parameters :=
    if api_access access
    then update parameters [("custom_context_api", course_api_url page); ("custom_context_api_id", str_of_Z (instance_id instance));
                            ("custom_user_api_token", api_token user)]
    else parameters in
  lret match exercise with
       | Some e => update parameters [("lis_result_sourcedid", sourced_id e (info_user_id i)); ("lis_outcome_service_url", outcomes_url page)]
       | None => parameters
       end).

(** src/external_services/lti.py: CustomStudentInfoLTIRequest.true_student_id *)
Definition true_student_id (p : UserProfile) : string := or_text (student_id p) ("A" +:+ str_of_Z (profile_id p)).

(** src/external_services/lti.py: CustomStudentInfoLTIRequest.group_json lines 209-220 *)
Definition member_data (p : Person) (i : UserInfo) : Params :=
  [("user", info_user_id i); ("given_name", given_name i); ("family_name", family_name i); ("full_name", full_name i); ("email", info_email i)]
  ++ (if is_anonymous access then [] else [("student_id", true_student_id (person_profile p))]).

(** src/external_services/lti.py: CustomStudentInfoLTIRequest.group_json *)
Fixpoint group_data (profiles : list Person) : L (list Params) :=
  match profiles with
  | [] => lret []
  | p :: profiles => lbind (user_info p) (fun i => lbind (group_data profiles) (fun data => lret (member_data p i :: data)))
  end.

(** src/external_services/lti.py: CustomStudentInfoLTIRequest.__init__ *)
Definition custom_parameters (user : Person) (profiles : list Person) (title : string) (context_id link_id : option string)
    (add : Params) (exercise : option LtiExercise) : L Params :=
  let parameters := if is_anonymous access then add else od_set "custom_student_id" (true_student_id (person_profile user)) add in
  lbind (if (1 <? length profiles)%nat
         then lbind (group_data profiles) (fun data => lret (od_set "custom_group_members" (json_dumps data) parameters))
         else lret parameters)
    (fun parameters => lti_parameters user title context_id link_id parameters exercise).

(** src/exercise/exercise_models.py: LTIExercise._get_lti.  The parameters of a launch; the
    address they are sent to is that of [lti_load]. *)
Definition exercise_parameters (exercise : LtiExercise) (user : Person) (students : list Person) (add : Params) : L Params :=
  custom_parameters user students
    (or_text (Some (resource_link_title exercise)) (or_text (Some (service_label service)) (lobj_name exercise)))
    (Some (context_id exercise))
    (Some (or_text (Some (resource_link_id exercise)) ("aplusexercise" +:+ str_of_Z (exercise_id exercise))))
    add (Some exercise).

(** src/exercise/exercise_models.py: LTIExercise.modify_post_parameters lines 1331-1331.  The fields of the form, each
    with its first value, before they are signed together with the parameters. *)
Definition posted_literals (data : list (string * list string)) : result Params :=
  foldr (fun kv r => let! r := r in match kv.2 with v :: _ => Ret ((kv.1, v) :: r) | [] => Raise IndexError end) (Ret []) data.

(** src/exercise/exercise_models.py: LTIExercise.modify_post_parameters.  [sign] is [sign_post_parameters]. *)
Definition modify_post_parameters (sign : Params -> Params) (exercise : LtiExercise) (user : Person) (students : list Person)
    (data : list (string * list string)) : L (list (string * list string)) :=
  match posted_literals data with
  | Raise e => fun st => (st, inr (Failed e))
  | Ret literals => lbind (exercise_parameters exercise user students literals)
      (fun ps => lret (foldl (fun d kv => od_set kv.1 [kv.2] d) data (sign ps)))
  end.

(** *** The page of an exercise at a service *)

(** The libraries that join, encode and sign addresses, and the addresses of the
    system: where a user's submission to the exercise is posted by a service, and
    the page of the exercise. *)
Context (urljoin : string -> string -> string) (urlencode : Params -> string).
Context (sign_post : string -> Params -> Params) (sign_get : string -> result string).
Context (grader_url : option Z -> string) (post_url : string).

(** src/lib/helpers.py: update_url_params *)
Definition update_url_params (url : string) (params : Params) : string :=
  url +:+ (if within "?" url then "&" else "?") +:+ urlencode params.

(** src/external_services/lti.py: LTIRequest._get_url *)
Definition lti_get_url (url : string) : result string :=
  if negb (bool_decide (url = "")) && startswith "//" url || within "://" url then Ret url
  else get_final_url urljoin service (Some url).

(** src/exercise/exercise_models.py: LTIExercise.get_service_url *)
Definition lti_service_url (exercise : LtiExercise) (language : string) : result string :=
  let url := pick_localized (lti_exercise_url exercise) language in
  if negb (bool_decide (url = "")) && startswith "//" url || within "://" url then Ret url
  else get_final_url urljoin service (Some url).

(** src/exercise/exercise_models.py: BaseExercise._build_service_url lines 1138-1151.  The query of an address
    at the service; the session may be one of another platform. *)
Definition service_query (exercise : LtiExercise) (language : string) (students : list Person) (ordinal : Z)
    (submission_url : string) (lti_launch_id lti_session_id : option string) : Params :=
  let uid := String.concat "-" (merge_sort (fun a b => Is_true (String.leb a b))
               ((fun p => str_of_Z (user_id (person_user p))) <$> students)) in
  [("max_points", str_of_Z (max_points exercise)); ("max_submissions", str_of_Z (max_submissions exercise));
   ("submission_url", submission_url); ("post_url", post_url); ("uid", uid);
   ("ordinal_number", str_of_Z ordinal); ("lang", language)]
  ++ (if given lti_launch_id then [("lti_launch_id", text lti_launch_id)] else [])
  ++ (if given lti_session_id then [("lti_session_id", text lti_session_id)] else []).

(** src/exercise/exercise_models.py: BaseExercise.get_load_url.  The user of the request, if one is signed in,
    with the number of earlier submissions; the exercise is stored. *)
Definition get_load_url (exercise : LtiExercise) (language : string) (user : option (Person * Z)) (students : list Person)
    (ordinal : option Z) (lti_launch_id lti_session_id : option string) : result string :=
  let ordinal := match user with Some (_, count) => default (count + 1) ordinal | None => 1 end in
  let submission_url := grader_url ((fun u => user_id (person_user u.1)) <$> user) in
  let! url := lti_service_url exercise language in
  Ret (update_url_params url (service_query exercise language students ordinal submission_url lti_launch_id lti_session_id)).

(** [return] and [raise] of Python inside a computation that may save enrollments. *)
Definition of_result {A} (r : result A) : L A :=
  fun st => (st, match r with Ret a => inl a | Raise e => inr (Failed e) end).

(** src/exercise/exercise_models.py: LTIExercise.get_load_url *)
Definition lti_load_url (exercise : LtiExercise) (language : string) (user : option (Person * Z)) (students : list Person)
    (ordinal : option Z) (lti_launch_id lti_session_id : option string) : L string :=
  lbind (of_result (get_load_url exercise language user students ordinal lti_launch_id lti_session_id)) (fun url =>
    match students with
    | [] => lret url
    | student :: _ =>
        lbind (exercise_parameters exercise student [] []) (fun ps =>
          of_result (let! final := lti_get_url url in sign_get (update_url_params final ps)))
    end).

(** The page of an exercise: nothing, a button that sends the parameters to an address of
    the service from the browser, or what the system itself loads from an address. *)
Inductive LtiPage :=
| BarePage
| LaunchButton (url : string) (parameters : Params)
| LoadedFrom (url : string).

(** src/exercise/exercise_models.py: LTIExercise.load lines 1262-1298, with LearningObject.load
    lines 401-409 where the system loads the page. *)
Definition lti_load (exercise : LtiExercise) (language : string) (user : option (Person * Z)) (students : list Person)
    (ordinal : option Z) (lti_launch_id lti_session_id : option string) : L LtiPage :=
  if negb (service_enabled service) then of_result (Raise PermissionDenied)
  else if aplus_get_and_post exercise then
    if bool_decide (lti_exercise_url exercise = "") then lret BarePage
    else lbind (lti_load_url exercise language user students ordinal lti_launch_id lti_session_id) (fun url => lret (LoadedFrom url))
  else
    match students with
    | [] => lret BarePage
    | student :: _ =>
        lbind (of_result (lti_service_url exercise language)) (fun url =>
          lbind (exercise_parameters exercise student students []) (fun ps =>
            lbind (of_result (lti_get_url url)) (fun final => lret (LaunchButton url (sign_post final ps)))))
    end.

(** src/external_services/lti.py: LTIRequest.get_checksum_of_parameters lines 130-145.  The
    parameters that do not change between the exercises of a course. *)
Definition checksum_keys : list string :=
  ["lti_version"; "lti_message_type"; "user_id"; "lis_person_name_full"; "lis_person_contact_email_primary";
   "context_id"; "context_label"; "tool_consumer_instance_guid"].
Definition checksum_parameters (only_user_and_course : bool) (ps : Params) : Params :=
  if only_user_and_course then List.filter (fun kv => bool_decide (kv.1 ∈ checksum_keys)) ps else ps.

Lemma od_get_update k (d items : Params) :
  NoDup items.*1 -> od_get k (update d items) = match od_get k items with Some v => Some v | None => od_get k d end.
Proof.
  revert d. induction items as [|[k0 v0] items IH]; intros d Hnd; [done|]. rewrite fmap_cons in Hnd. apply NoDup_cons in Hnd as [Hk Hnd].
  unfold update in *. cbn [foldl od_get fst snd]. rewrite IH by done. rewrite od_get_set. case_bool_decide.
  - subst. cbn [fst snd] in Hk. rewrite (proj2 (od_get_None _ _)) by done. by rewrite decide_True.
  - destruct (od_get k items); [done|]. by rewrite decide_False.
Qed.

(** The names of the parameters that say who works on what. *)
Definition identity_keys : list string := (base_parameters "" "" "" "" false (mkInfo "" "" "" "" "")).*1 ++ ["lis_result_sourcedid"; "lis_outcome_service_url"].

Lemma base_parameters_keys c l t r b i : (base_parameters c l t r b i).*1 = (base_parameters "" "" "" "" false (mkInfo "" "" "" "" "")).*1.
Proof. done. Qed.

Lemma lti_parameters_identity user title c l add add' e st st' ps :
  lti_parameters user title c l add (Some e) st = (st', inl ps) ->
  exists ps', lti_parameters user title c l add' (Some e) st = (st', inl ps') /\
    forall k, k ∈ identity_keys -> od_get k ps = od_get k ps'.
Proof.
  unfold lti_parameters, lbind. destruct (user_info user st) as [st1 [i|f]]; [|discriminate]. cbv beta zeta delta [lret]. intros E.
  pose proof (f_equal fst E) as E1. pose proof (f_equal (fun x => match x.2 with inl a => a | inr _ => [] end) E) as E2.
  cbv beta iota delta [fst snd] in E1, E2. clear E. subst st' ps.
  eexists. split; [done|]. intros k Hk. set (api := if api_access access then _ else _). set (api' := if api_access access then _ else _).
  rewrite !od_get_update by (apply (bool_decide_unpack _); vm_compute; exact I).
  unfold identity_keys in Hk. apply elem_of_app in Hk as [Hk|Hk].
  - destruct (od_get k [("lis_result_sourcedid", _); _]); [done|]. unfold api, api'. clear api api'.
    set (base := base_parameters _ _ _ _ _ _). assert (Hb : is_Some (od_get k base)).
    { apply od_get_Some. unfold base. by rewrite base_parameters_keys. }
    assert (Hnd : NoDup base.*1) by (unfold base; rewrite base_parameters_keys; apply (bool_decide_unpack _); vm_compute; exact I).
    destruct Hb as [v Hv]. destruct (api_access access); rewrite ?od_get_update by first [exact Hnd|apply (bool_decide_unpack _); vm_compute; exact I].
    + by rewrite Hv.
    + by rewrite Hv.
  - assert (Hs : is_Some (od_get k [("lis_result_sourcedid", sourced_id e (info_user_id i)); ("lis_outcome_service_url", outcomes_url page)])) by (by apply od_get_Some).
    by destruct Hs as [v ->].
Qed.

(** Whatever fields a student adds to the form of an exercise, the service is
    told the same user, role, course, exercise and place for the points. *)
Theorem posted_fields_cannot_pose exercise user students add st st' ps :
  exercise_parameters exercise user students add st = (st', inl ps) ->
  exists ps', exercise_parameters exercise user students [] st = (st', inl ps') /\
    forall k, k ∈ identity_keys -> od_get k ps = od_get k ps'.
Proof.
  unfold exercise_parameters, custom_parameters. intros E. unfold lbind in E |- *.
  destruct (1 <? length students)%nat.
  - destruct (group_data students st) as [st1 [data|f]]; [|discriminate E]. cbn in E |- *. by eapply lti_parameters_identity.
  - cbn in E |- *. by eapply lti_parameters_identity.
Qed.

(** Two users, each in its table, who have the same pseudonym and role in the course. *)
Definition same_pseudonym (st1 st2 : CodeState) (p1 p2 : Person) : Prop :=
  exists r1 r2, cs_rows st1 !! (instance_id instance, profile_id (person_profile p1)) = Some r1 /\
    cs_rows st2 !! (instance_id instance, profile_id (person_profile p2)) = Some r2 /\
    anon_id r1 = anon_id r2 /\ anon_name r1 = anon_name r2 /\ anon_name r1 <> "".

Lemma user_info_pseudonym st1 st2 p1 p2 :
  is_anonymous access = true -> same_pseudonym st1 st2 p1 p2 ->
  exists r, user_info p1 st1 = (st1, r) /\ user_info p2 st2 = (st2, r).
Proof.
  intros Ha (r1 & r2 & E1 & E2 & Hi & Hn & Hne). unfold user_info. rewrite Ha, E1, E2, Hn, Hi.
  rewrite bool_decide_eq_false_2 by congruence. cbn [andb]. rewrite Hi, Hn. destruct (anon_id r2), (rpartition " " (anon_name r2)); by eexists.
Qed.

Lemma group_data_pseudonym st1 st2 ps1 ps2 :
  is_anonymous access = true -> Forall2 (same_pseudonym st1 st2) ps1 ps2 ->
  exists r, group_data ps1 st1 = (st1, r) /\ group_data ps2 st2 = (st2, r).
Proof.
  intros Ha. induction 1 as [|p1 p2 ps1 ps2 Hp _ IH]; [by eexists|]. cbn [group_data]. unfold lbind at 1 3.
  destruct (user_info_pseudonym _ _ _ _ Ha Hp) as ([i|f] & -> & ->); [|by eexists]. unfold lbind.
  destruct IH as ([data|f] & -> & ->); [|by eexists]. unfold member_data. rewrite Ha. by eexists.
Qed.

Lemma lti_parameters_pseudonym st1 st2 p1 p2 title c l add e :
  is_anonymous access = true -> same_pseudonym st1 st2 p1 p2 -> lti_role p1 = lti_role p2 ->
  exists r, lti_parameters p1 title c l add e st1 = (st1, r) /\ lti_parameters p2 title c l add e st2 = (st2, r).
Proof.
  intros Ha Hp Hr. unfold lti_parameters, lbind. destruct (user_info_pseudonym _ _ _ _ Ha Hp) as ([i|f] & -> & ->); [|by eexists].
  assert (Hapi : api_access access = false) by (unfold is_anonymous, api_access in *; b2p; by subst). rewrite Hapi, Hr. destruct e; by eexists.
Qed.

Lemma exercise_parameters_pseudonym exercise user user' students students' add st st' :
  is_anonymous access = true -> same_pseudonym st st' user user' -> lti_role user = lti_role user' ->
  Forall2 (same_pseudonym st st') students students' ->
  exists r, exercise_parameters exercise user students add st = (st, r) /\
    exercise_parameters exercise user' students' add st' = (st', r).
Proof.
  intros Ha Hu Hr Hs. unfold exercise_parameters, custom_parameters. rewrite Ha, (Forall2_length _ _ _ Hs). unfold lbind.
  destruct (1 <? length students')%nat.
  - destruct (group_data_pseudonym _ _ _ _ Ha Hs) as ([data|f] & -> & ->); [|by eexists]. cbn. by apply lti_parameters_pseudonym.
  - cbn. by apply lti_parameters_pseudonym.
Qed.

(** C37. The launch button hides who launches.  The page of an exercise at an anonymous
    service that the students open with the button, which is the address and the
    signed parameters that their browser sends there, is the same for any other
    users, with other ids, names, addresses, numbers and tokens, that have the
    same pseudonyms and the same role in the course. *)
Theorem anonymous_launch_hides_user exercise language user user' students students' ordinal ordinal' launch launch' session session' st st' :
  is_anonymous access = true -> aplus_get_and_post exercise = false ->
  Forall2 (same_pseudonym st st') students students' ->
  lti_role <$> head students = lti_role <$> head students' ->
  exists r, lti_load exercise language user students ordinal launch session st = (st, r) /\
    lti_load exercise language user' students' ordinal' launch' session' st' = (st', r).
Proof.
  intros Ha Hb Hs Hr. unfold lti_load, of_result, lbind, lret. destruct (negb _); [by eexists|]. rewrite Hb.
  destruct Hs as [|p p' ps ps' Hp Hs]; [by eexists|]. injection Hr as Hr.
  destruct (lti_service_url exercise language) as [url|e]; [|by eexists].
  destruct (exercise_parameters_pseudonym exercise p p' (p :: ps) (p' :: ps') [] st st' Ha Hp Hr) as ([params|f] & -> & ->);
    [by constructor| |by eexists].
  destruct (lti_get_url url); by eexists.
Qed.

(** Where the system loads the page itself, the address has the ids of the students, also
    at an anonymous service. *)
Lemma load_query_has_user_id exercise language p ordinal submission_url launch session :
  od_get "uid" (service_query exercise language [p] ordinal submission_url launch session) = Some (str_of_Z (user_id (person_user p))).
Proof. reflexivity. Qed.
End Launch.

(** ** What a service posts back *)

(** The document of a request: elements with their text, and comments. *)
Inductive Node :=
| Element (tag : string) (content : option string) (children : list Node)
| Comment.
Definition tag_is (t : string) (n : Node) : bool := match n with Element tag _ _ => bool_decide (tag = t) | Comment => false end.
Definition children_of (n : Node) : list Node := match n with Element _ _ l => l | Comment => [] end.
Definition content_of (n : Node) : string := match n with Element _ t _ => text t | Comment => "" end.

(** [find] and [findtext] with a path of tags. *)
Fixpoint findall (path : list string) (n : Node) : list Node :=
  match path with
  | [] => [n]
  | t :: path => List.filter (tag_is t) (children_of n) ≫= findall path
  end.
Definition findtext (path : list string) (n : Node) : option string := content_of <$> head (findall path n).

(** src/external_services/api/parsers.py: LTIOutcomeXMLParser lines 56-61 *)
Definition NS : string := "{http://www.imsglobal.org/services/ltiv1p1/xsd/imsoms_v1p0}".
Definition TYPE_READ : string := "readResult".
Definition TYPE_REPLACE : string := "replaceResult".
Definition TYPE_DELETE : string := "deleteResult".

(** The keys that are set in the data of a request. *)
Record Outcome := mkOutcome {
  body_hash : string;
  o_version : option string;
  o_msgid : option string;
  o_req_type : option string;
  o_sourced_id : option string;
  o_score : option string;
}.

(** Numbers as [float] gives them. *)
Inductive PyFloat := Finite (q : Q) | NaN | Infinite (positive : bool).

(** The request with the values of its authorization header as the library collects them. *)
Record OAuthRequest := mkOAuth {
  has_authorization : bool;
  rq_uri : string;
  collected : list (string * string);
  rq_body : string;
}.

(** The nonces that were seen, with the time at which the cache forgets them. *)
Abbreviation Nonces := (gmap string Z).

Section Outcomes.
(** [int] of other texts than digits; the libraries that parse, hash and verify;
    the exception for a time out of the range of the platform; [str.strip] and
    [float]; the best points of a student as [Points] computes them. *)
Context `{Settings} (other : Z -> string -> option Z).
Context (etree_parse : string -> option Node) (sha1_base64 : string -> string).
Context (verify_hmac_sha1 : string -> Params -> string -> string -> bool).
Context (timestamp_error : Z -> exn) (strip : string -> string) (float : string -> option PyFloat).
Context (best_points : BaseExercise -> UserProfile -> option Z).
Context (services : list LinkService) (exercises : list LtiExercise) (persons : list Person) (codes : list CodeRow).
(** Whether the database accepts the row of a submission, and its submitter. *)
Context (row_accepted submitter_accepted : bool).

(** [try: objects.get(...) except DoesNotExist: None] *)
Definition or_none {A} (r : result A) : result (option A) :=
  match r with Ret a => Ret (Some a) | Raise DoesNotExist => Ret None | Raise e => Raise e end.

(** src/external_services/api/parsers.py: parse_sourced_id lines 27-35.  [objects.get(pk=text)] *)
Definition get_by_pk {A} (key : A -> Z) (rows : list A) (pk : string) : result A :=
  match py_int other 10 pk with
  | None => Raise ValueError
  | Some i => get_one (List.filter (fun a => key a =? i) rows)
  end.

Definition person_id (p : Person) : Z := user_id (person_user p).
Definition person_profile_id (p : Person) : Z := profile_id (person_profile p).

(** src/external_services/api/parsers.py: parse_sourced_id lines 32-45.  The user of a token. *)
Definition token_user (token_type : ascii) (token : string) : result (option Person) :=
  if Ascii.eqb token_type "i" then or_none (get_by_pk person_id persons token)
  else if Ascii.eqb token_type "a" then
    let! row := or_none (get_one (List.filter (fun r => bool_decide (anon_id r = Some token)) codes)) in
    match row with
    | None => Ret None
    | Some r => or_none (get_one (List.filter (fun p => person_profile_id p =? cr_profile r) persons))
    end
  else Ret None.

(** src/external_services/api/parsers.py: parse_sourced_id *)
Definition parse_sourced_id (sourced_id : string) : result (option LtiExercise * option Person) :=
  match before_first "-" sourced_id, text (after_first "-" sourced_id) with
  | "", _ | _, "" => Ret (None, None)
  | exercise_pk, String token_type token =>
      let! exercise := or_none (get_by_pk (fun e : LtiExercise => exercise_id e) exercises exercise_pk) in
      let! user := token_user token_type token in
      Ret (exercise, user)
  end.

Definition ns (t : string) : string := NS +:+ t.

(** src/external_services/api/parsers.py: LTIOutcomeXMLParser.parse lines 97-116.  The operation of a request. *)
Definition parse_operation (root : Node) : result (option string * option string * option string) :=
  match head (findall [ns "imsx_POXBody"] root) with
  | None => Ret (None, None, None)
  | Some body =>
      match children_of body with
      | [] => Ret (None, None, None)
      | Comment :: _ => Raise TypeError
      | Element tag _ _ as operation :: _ =>
          let tag := drop_str (String.length NS) tag in
          let req_type := take_str (String.length tag - 7) tag in
          Ret (Some req_type, findtext [ns "resultRecord"; ns "sourcedGUID"; ns "sourcedId"] operation,
               if bool_decide (req_type = TYPE_REPLACE)
               then findtext [ns "resultRecord"; ns "result"; ns "resultScore"; ns "textString"] operation else None)
      end
  end.

(** src/external_services/api/parsers.py: LTIOutcomeXMLParser.parse *)
Definition parse_outcome (body : string) : result Outcome :=
  match etree_parse body with
  | None => Raise ParseError
  | Some root =>
      if negb (tag_is (ns "imsx_POXEnvelopeRequest") root) then Raise ParseError
      else
        let header t := findtext [ns "imsx_POXHeader"; ns "imsx_POXRequestHeaderInfo"; ns t] root in
        let! (req_type, sourced_id, score) := parse_operation root in
        Ret (mkOutcome (sha1_base64 body) (header "imsx_version") (header "imsx_messageIdentifier") req_type sourced_id score)
  end.

(** ** The signature of a request *)

(** src/external_services/api/oauth_nonce_cache.py: OAuthNonceCache lines 12-12 *)
Definition CACHE_TIMEOUT_SECONDS : Z := 60 * 10.

(** src/external_services/api/oauth_nonce_cache.py: OAuthNonceCache._get_key *)
Definition nonce_key (nonce timestamp client_secret : string) : string :=
  "lti-nonce_" +:+ nonce +:+ ":" +:+ timestamp +:+ ":" +:+ client_secret.

(** src/external_services/api/oauth_nonce_cache.py: OAuthNonceCache.nonce_used.  The cache adds a key that it does
    not have, or has no longer. *)
Definition nonce_used (now : Z) (key : string) (cache : Nonces) : bool * Nonces :=
  match cache !! key with
  | Some expires => if now <? expires then (true, cache) else (false, <[key := now + seconds CACHE_TIMEOUT_SECONDS]> cache)
  | None => (false, <[key := now + seconds CACHE_TIMEOUT_SECONDS]> cache)
  end.

(** The service of a consumer key; the rows of the class LTIService only. *)
Definition has_consumer_key (key : string) (s : LinkService) : bool :=
  match service_class s with LTIService _ k _ => bool_decide (k = key) | _ => false end.
Definition secret_of (s : LinkService) : string := match service_class s with LTIService _ _ secret => secret | _ => "" end.

(** The seconds of the first and the last datetime. *)
Definition MIN_TIMESTAMP : Z := -62135596800.
Definition MAX_TIMESTAMP : Z := 253402300799.

(** src/external_services/api/authentication.py: verify_oauth_body_hash_and_signature lines 55-61.  The time of
    the request; None is the error of a text that is not a number. *)
Definition oauth_time (timestamp : option string) : result (option Z) :=
  match timestamp with
  | None => Raise TypeError
  | Some t =>
      match py_int other 10 t with
      | None => Ret None
      | Some n =>
          if (MIN_TIMESTAMP <=? n) && (n <=? MAX_TIMESTAMP) then Ret (Some (seconds n))
          else match timestamp_error n with ValueError => Ret None | e => Raise e end
      end
  end.

(** [dict(pairs)] *)
Definition dict_of (pairs : Params) : Params := update [] pairs.

(** src/external_services/api/authentication.py: verify_oauth_body_hash_and_signature lines 55-93.  What is left when the service is
    known; the message of a refusal, or none. *)
Definition verify_with (service : LinkService) (now : Z) (rq : OAuthRequest) (req_body_hash : string) (nonces : Nonces)
    : result (option string) * Nonces :=
  let params := dict_of (collected rq) in
  match oauth_time (od_get "oauth_timestamp" params) with
  | Raise e => (Raise e, nonces)
  | Ret None => (Ret (Some "oauth_timestamp is missing or has an invalid format"), nonces)
  | Ret (Some timestamp) =>
      let delta := seconds CACHE_TIMEOUT_SECONDS in
      if negb ((now - delta <? timestamp) && (timestamp <? now + delta)) then (Ret (Some "oauth_timestamp has expired"), nonces)
      else
        let nonce := od_get "oauth_nonce" params in
        if negb (given nonce) then (Ret (Some "oauth_nonce missing"), nonces)
        else
          let key := nonce_key (text nonce) (text (od_get "oauth_timestamp" params)) (secret_of service) in
          let '(used, nonces) := nonce_used now key nonces in
          if used then (Ret (Some "oauth_nonce has been used"), nonces)
          else if negb (bool_decide (Some req_body_hash = od_get "oauth_body_hash" params))
          then (Ret (Some "oauth_body_hash verification failed"), nonces)
          else match od_get "oauth_signature" params with
               | None => (Raise KeyError, nonces)
               | Some signature =>
                   let signed := List.filter (fun kv => negb (bool_decide (kv.1 = "oauth_signature"))) params in
                   if verify_hmac_sha1 (rq_uri rq) signed signature (secret_of service) then (Ret None, nonces)
                   else (Ret (Some "oauth_signature verification failed"), nonces)
               end
  end.

(** src/external_services/api/authentication.py: verify_oauth_body_hash_and_signature *)
Definition verify_oauth (now : Z) (rq : OAuthRequest) (req_body_hash : string) (exercise : LtiExercise) (nonces : Nonces)
    : result (option string) * Nonces :=
  let consumer_key := od_get "oauth_consumer_key" (dict_of (collected rq)) in
  if negb (given consumer_key) then (Ret (Some "oauth_consumer_key missing"), nonces)
  else
    match get_one (List.filter (has_consumer_key (text consumer_key)) services) with
    | Raise _ => (Ret (Some "unknown oauth_consumer_key"), nonces)
    | Ret service =>
        if negb (lti_service exercise =? service_id service) then (Ret (Some "oauth_consumer_key mismatch"), nonces)
        else verify_with service now rq req_body_hash nonces
    end.

(** src/external_services/api/authentication.py: OAuthBodyHashAuthentication.authenticate.  Nobody without
    the header; else the exercise and the student of the request. *)
Definition authenticate_outcome_request (now : Z) (rq : OAuthRequest) (nonces : Nonces)
    : result (option (Outcome * LtiExercise * Person)) * Nonces :=
  if negb (has_authorization rq) then (Ret None, nonces)
  else
    match
      (let! data := parse_outcome (rq_body rq) in
       let! found := parse_sourced_id (text (o_sourced_id data)) in
       match found with
       | (Some exercise, Some user) => if bool_decide (body_hash data = "") then Raise AuthenticationFailed else Ret (data, exercise, user)
       | _ => Raise AuthenticationFailed
       end)
    with
    | Raise e => (Raise e, nonces)
    | Ret (data, exercise, user) =>
        match verify_oauth now rq (body_hash data) exercise nonces with
        | (Raise e, nonces) => (Raise e, nonces)
        | (Ret (Some _), nonces) => (Raise AuthenticationFailed, nonces)
        | (Ret None, nonces) => (Ret (Some (data, exercise, user)), nonces)
        end
    end.

(** ** The outcome of a request *)

(** What the serializer has validated. *)
Record ValidOutcome := mkValid {
  v_version : string;
  v_msgid : string;
  v_req_type : string;
  v_sourced_id : string;
  v_score : option PyFloat;
}.

(** A text field: trimmed, not empty and not too long. *)
Definition char_field (max_length : option nat) (value : option string) : option string :=
  match value with
  | None => None
  | Some v =>
      let v := strip v in
      if bool_decide (v = "") || match max_length with Some n => (n <? String.length v)%nat | None => false end then None else Some v
  end.

(** [FloatField(min_value=0, max_value=1)]: not-a-number is neither below nor above a limit. *)
Definition score_field (value : string) : option PyFloat :=
  match float value with
  | Some (Finite q) => if Qle_bool 0 q && Qle_bool q 1 then Some (Finite q) else None
  | Some NaN => Some NaN
  | Some (Infinite _) | None => None
  end.

(** src/external_services/api/serializers.py: LTIOutcomeSerializer lines 18-24.  The fields, with
    the names of the invalid ones. *)
Definition outcome_fields (data : Outcome) : list string + ValidOutcome :=
  let version := match o_version data with None => Some "1.0" | v => char_field None v end in
  let msgid := char_field (Some 127%nat) (o_msgid data) in
  let req_type := match o_req_type data with
                  | Some t => if bool_decide (t ∈ [TYPE_REPLACE; TYPE_READ; TYPE_DELETE]) then Some t else None
                  | None => None
                  end in
  let sourced_id := char_field (Some 1024%nat) (o_sourced_id data) in
  let score := match o_score data with None => Some None | Some v => Some <$> score_field v end in
  match version, msgid, req_type, sourced_id, score with
  | Some v, Some m, Some t, Some s, Some sc => inr (mkValid v m t s sc)
  | _, _, _, _, _ =>
      let err {A} (x : option A) (field : string) : list string := match x with None => [field] | Some _ => [] end in
      inl (err version "version" ++ err msgid "msgid" ++ err req_type "req_type" ++ err sourced_id "sourced_id" ++ err score "score")
  end.

(** src/external_services/api/serializers.py: LTIOutcomeSerializer.to_internal_value.  The exercise and the
    student are those the authentication has found. *)
Definition to_internal_value (data : Outcome) : list string + ValidOutcome :=
  match outcome_fields data with
  | inl fields => inl fields
  | inr v => if bool_decide (v_req_type v = TYPE_REPLACE) && match v_score v with None => true | Some _ => false end then inl ["score"] else inr v
  end.

(** src/external_services/api/serializers.py: LTIOutcomeSerializer.create lines 31-32 *)
Definition outcome_grade (score : Q) (max_points : Z) : Z := Binary64.py_int (fadd (fmul score (of_int max_points)) (1 # 2)).

(** src/external_services/api/serializers.py: LTIOutcomeSerializer.create lines 28-42.  The row
    as it is first stored, without submitters. *)
Definition outcome_row (exercise : LtiExercise) (score : Q) (db : Db) : Submission :=
  mkSubmission (next_id db) (exercise_id exercise) (now db) [] None "" SubStatus.READY None
    (outcome_grade score (max_points exercise)) (Some (now db)) None false 0 0 None.

(** src/external_services/api/serializers.py: LTIOutcomeSerializer.create.  The row and its
    submitter are stored one after the other, outside a transaction. *)
Definition create_outcome (exercise : LtiExercise) (submitter : Person) (score : PyFloat) (db : Db) : result unit * Db :=
  match score with
  | Finite q =>
      if negb row_accepted then (Raise DatabaseError, db)
      else
        let submission := outcome_row exercise q db in
        if negb submitter_accepted then (Raise DatabaseError, insert_submission submission db)
        else (Ret tt, insert_submission (with_submitters [person_profile submitter] submission) db)
  | NaN => (Raise ValueError, db)
  | Infinite _ => (Raise OverflowError, db)
  end.

(** ['{:f}'.format(x)]: six decimals. *)
Definition format_f (x : Q) : string :=
  let n := py_round (x * inject_Z 1000000) in
  str_of_Z (n / 1000000) +:+ "." +:+ drop_str 1 (str_of_Z (1000000 + n mod 1000000)).

(** src/external_services/api/serializers.py: LTIOutcomeSerializer.to_representation lines 57-70.  The score that is read. *)
Definition read_score (exercise : LtiExercise) (submitter : Person) : string :=
  match best_points exercise (person_profile submitter) with
  | None => ""
  | Some points =>
      if max_points exercise =? 0 then "1.0"
      else let ratio := int_truediv (Z.abs points) (Z.abs (max_points exercise)) in
           format_f (if Qle_bool 1 ratio then 1%Q else ratio)
  end.

(** What the view answers: the score it has stored or read, that it does not delete,
    the reasons why the submission is not accepted, or the fields that are not valid. *)
Inductive OutcomeResponse :=
| ScoreStored (score : PyFloat)
| ScoreRead (score : string)
| NotSupported
| NotAccepted (reasons : list Message)
| InvalidOutcome (fields : list string).

(** src/external_services/api/views.py: LTIExerciseBasicOutcomesView.post.  Who is not a service is stopped
    by the permission before. *)
Definition outcomes_post (rq : OAuthRequest) (st : Db * Nonces) : result OutcomeResponse * (Db * Nonces) :=
  let (db, nonces) := st in
  match authenticate_outcome_request (now db) rq nonces with
  | (Raise e, nonces) => (Raise e, (db, nonces))
  | (Ret None, nonces) => (Raise PermissionDenied, (db, nonces))
  | (Ret (Some (data, exercise, submitter)), nonces) =>
      match to_internal_value data with
      | inl fields => (Ret (InvalidOutcome fields), (db, nonces))
      | inr v =>
          if bool_decide (v_req_type v = TYPE_REPLACE) then
            match check_submission_allowed db exercise (person_profile submitter) None with
            | Raise e => (Raise e, (db, nonces))
            | Ret (status, alerts, _) =>
                if negb (bool_decide (status = SubmitStatus.ALLOWED))
                then (Ret (NotAccepted (error_messages alerts ++ warning_messages alerts ++ info_messages alerts)), (db, nonces))
                else
                  let score := default NaN (v_score v) in
                  match create_outcome exercise submitter score db with
                  | (Raise e, db) => (Raise e, (db, nonces))
                  | (Ret _, db) => (Ret (ScoreStored score), (db, nonces))
                  end
            end
          else if bool_decide (v_req_type v = TYPE_READ) then (Ret (ScoreRead (read_score exercise submitter)), (db, nonces))
          else (Ret NotSupported, (db, nonces))
      end
  end.

(** src/external_services/api/renderers.py: LTIOutcomeResponseRenderer.render lines 36-57.  The code of the
    answer; [text_of] gives the texts of the reasons. *)
Definition code_major (text_of : Message -> string) (r : OutcomeResponse) : string :=
  match r with
  | ScoreStored _ | ScoreRead _ => "success"
  | NotSupported => "unsupported"
  | NotAccepted reasons => if bool_decide (join "; " (text_of <$> reasons) = "") then "success" else "failure"
  | InvalidOutcome _ => "failure"
  end.

(** *** Requests are not answered twice *)

(** The time of the service's clock and the nonces after requests that were handled one after the other. *)
Inductive handled : relation (Z * Nonces) :=
| handle now nonces later rq hash exercise r nonces' :
    now <= later -> verify_oauth later rq hash exercise nonces = (r, nonces') -> handled (now, nonces) (later, nonces').

Definition kept (nonces nonces' : Nonces) : Prop :=
  forall k expires, nonces !! k = Some expires -> exists expires', nonces' !! k = Some expires' /\ expires <= expires'.

Lemma nonce_used_keeps now key nonces : kept nonces (nonce_used now key nonces).2.
Proof.
  intros k expires Hk. unfold nonce_used. destruct (decide (key = k)) as [->|Hne].
  - rewrite Hk. destruct (now <? expires) eqn:E; cbn; [exists expires; split; [done|lia]|]. b2p. rewrite lookup_insert_eq. eexists. split; [done|].
    unfold seconds, CACHE_TIMEOUT_SECONDS. lia.
  - exists expires. split; [|lia]. destruct (nonces !! key); [destruct (now <? _)|]; cbn; by rewrite ?lookup_insert_ne.
Qed.

Lemma verify_oauth_keeps now rq hash exercise nonces : kept nonces (verify_oauth now rq hash exercise nonces).2.
Proof.
  assert (Hr : kept nonces nonces) by (intros k ex Hk; exists ex; split; [done|lia]).
  unfold verify_oauth. break_goal; [done|]. destruct (get_one _) as [s|]; [|done]. break_goal; [done|]. unfold verify_with.
  destruct (oauth_time _) as [[ts|]|]; [|done..]. break_goal; [done|]. break_goal; [done|].
  match goal with |- context [nonce_used now ?k nonces] => pose proof (nonce_used_keeps now k nonces) as Hk; destruct (nonce_used now k nonces) as [used n'] end.
  cbn [snd] in Hk. repeat break_goal; done.
Qed.

Lemma handled_keeps a b : rtc handled a b -> kept a.2 b.2 /\ a.1 <= b.1.
Proof.
  induction 1 as [a|a b c H1 _ [IH1 IH2]]; [split; [|lia]; intros k ex Hk; exists ex; split; [done|lia]|].
  destruct H1 as [now nonces later rq hash exercise r nonces' Hle E]. cbn [fst snd] in *. split; [|lia]. intros k ex Hk.
  pose proof (verify_oauth_keeps later rq hash exercise nonces) as Hv. rewrite E in Hv. cbn [snd] in Hv.
  destruct (Hv _ _ Hk) as (ex' & Hk' & Hle'). destruct (IH1 _ _ Hk') as (ex'' & ? & ?). exists ex''. split; [done|lia].
Qed.

(** An accepted request names a service and its time, and its nonce is in the cache from then on. *)
Lemma accepted now rq hash exercise nonces nonces' :
  verify_oauth now rq hash exercise nonces = (Ret None, nonces') ->
  exists service nonce stamp ts,
    get_one (List.filter (has_consumer_key (text (od_get "oauth_consumer_key" (dict_of (collected rq))))) services) = Ret service /\
    lti_service exercise = service_id service /\
    od_get "oauth_nonce" (dict_of (collected rq)) = Some nonce /\ od_get "oauth_timestamp" (dict_of (collected rq)) = Some stamp /\
    oauth_time (Some stamp) = Ret (Some ts) /\ now - seconds CACHE_TIMEOUT_SECONDS < ts < now + seconds CACHE_TIMEOUT_SECONDS /\
    nonce_used now (nonce_key nonce stamp (secret_of service)) nonces = (false, nonces') /\
    od_get "oauth_body_hash" (dict_of (collected rq)) = Some hash /\
    exists signature, od_get "oauth_signature" (dict_of (collected rq)) = Some signature /\
      verify_hmac_sha1 (rq_uri rq) (List.filter (fun kv => negb (bool_decide (kv.1 = "oauth_signature"))) (dict_of (collected rq)))
        signature (secret_of service) = true.
Proof.
  unfold verify_oauth. intros E. destruct (negb (given _)) eqn:Ek in E; [discriminate E|]. destruct (get_one _) as [s|] eqn:Es; [|discriminate E].
  destruct (negb (_ =? _)) eqn:Em in E; [discriminate E|]. unfold verify_with in E. cbv zeta in E.
  destruct (od_get "oauth_timestamp" _) as [stamp|] eqn:Est; [|discriminate E]. destruct (oauth_time _) as [[ts|]|] eqn:Et; [|discriminate E..].
  destruct (negb (_ && _)) eqn:Ew in E; [discriminate E|]. destruct (od_get "oauth_nonce" _) as [nonce|] eqn:En; [|by cbn in E].
  destruct (negb (given _)) eqn:Eg in E; [discriminate E|]. cbn [text default from_option id] in E.
  destruct (nonce_used _ _ _) as [[] n'] eqn:Eu; [discriminate E|]. destruct (negb (bool_decide _)) eqn:Eh in E; [discriminate E|].
  destruct (od_get "oauth_signature" _) as [sg|] eqn:Esg; [|discriminate E]. destruct (verify_hmac_sha1 _ _ _ _) eqn:Ev; [|discriminate E].
  injection E as ->. b2p. exists s, nonce, stamp, ts. do 5 (split; [done|]). split; [lia|]. split; [done|]. split; [done|]. by exists sg.
Qed.

(** C35. A request of a service is not answered twice.  After a request whose time is
    not in the future was accepted, whatever requests are handled in between, the
    same request is refused at any later time: its nonce is known for ten
    minutes, and then its time has expired. *)
Theorem replayed_request_refused now rq hash exercise nonces nonces1 later nonces2 again hash' exercise' :
  verify_oauth now rq hash exercise nonces = (Ret None, nonces1) ->
  (forall ts, oauth_time (od_get "oauth_timestamp" (dict_of (collected rq))) = Ret (Some ts) -> ts <= now) ->
  rtc handled (now, nonces1) (later, nonces2) -> later <= again ->
  (verify_oauth again rq hash' exercise' nonces2).1 <> Ret None.
Proof.
  intros E Hts Hh Hle E2. destruct (verify_oauth again _ _ _ _) as [r n3] eqn:Ev. cbn in E2. subst r.
  apply accepted in E as (s & nonce & stamp & ts & Es & _ & En & Est & Et & _ & Hu & _).
  apply accepted in Ev as (s' & nonce' & stamp' & ts' & Es' & _ & En' & Est' & Et' & Hw & Hu' & _).
  rewrite Est in Hts, Est'. injection Est' as <-. rewrite En in En'. injection En' as <-. rewrite Es in Es'. injection Es' as <-.
  rewrite Et in Et'. injection Et' as <-. specialize (Hts ts Et).
  assert (Hk : nonces1 !! nonce_key nonce stamp (secret_of s) = Some (now + seconds CACHE_TIMEOUT_SECONDS)).
  { unfold nonce_used in Hu. destruct (nonces !! _); [destruct (now <? _); [discriminate Hu|]|]; injection Hu as <-; by rewrite lookup_insert_eq. }
  destruct (handled_keeps _ _ Hh) as [Hkept Hl]. cbn [fst snd] in *. destruct (Hkept _ _ Hk) as (ex & Hex & Hge).
  unfold nonce_used in Hu'. rewrite Hex in Hu'. destruct (again <? ex) eqn:Ea; [discriminate Hu'|]. b2p. lia.
Qed.

(** *** Refusals have a reason *)

Definition reasons (alerts : Alerts) : list Message := error_messages alerts ++ warning_messages alerts ++ info_messages alerts.

Lemma check_enrollment_reason w self profile st al ss :
  check_enrollment w self profile = Ret (inl (st, al, ss)) -> reasons al <> [].
Proof. unfold check_enrollment. intros E. repeat (break_hyp E; try discriminate E); by injection E as <- <- <-. Qed.

Lemma find_group_reason w self profile e req st al ss :
  find_group w self profile e req = Ret (inl (st, al, ss)) -> reasons al <> [].
Proof. unfold find_group. intros E. repeat (break_hyp E; try discriminate E); by injection E as <- <- <-. Qed.

Lemma check_limits_reason w self students st al ss :
  check_limits w self students = (st, al, ss) -> st <> SubmitStatus.ALLOWED -> reasons al <> [].
Proof.
  unfold check_limits. destruct (if is_enrollment_exercise self then _ else _) as [ok access_alerts].
  set (al0 := alerts_app _ access_alerts). intros E Hst. destruct (negb _) eqn:En in E.
  - destruct (length _ =? 0)%nat eqn:El in E; injection E as <- <- <-.
    + clearbody al0. intros [Hr _]%app_eq_nil. cbn in Hr. by apply app_eq_nil in Hr as [_ Hr].
    + intros Hr. unfold reasons in Hr. by rewrite Hr in El.
  - destruct (one_has_submissions w self students) as [ok2 al2] eqn:Eo. destruct (negb ok2 && _) eqn:Ea in E; [|by injection E as <- <- <-].
    injection E as <- <- <-. b2p. subst ok2. unfold one_has_submissions in Eo. repeat (break_hyp Eo; try discriminate Eo); by injection Eo as <-.
Qed.

(** A submission that is not accepted is refused for a reason that is shown. *)
Lemma refused_has_reason w self profile req st al ss :
  check_submission_allowed w self profile req = Ret (st, al, ss) -> st <> SubmitStatus.ALLOWED -> reasons al <> [].
Proof.
  unfold check_submission_allowed. intros E Hst. destruct (no_submission self && negb _); [by injection E as <- <- <-|].
  destruct (check_enrollment w self profile) as [[early|e]|] eqn:Ee; [| |discriminate E]; cbn [rbind] in E.
  { injection E as ->. by eapply check_enrollment_reason. }
  destruct (find_group w self profile e req) as [[early|g]|] eqn:Eg; [| |discriminate E]; cbn [rbind] in E.
  { injection E as ->. by eapply find_group_reason. }
  destruct (check_group_unchanged w self profile g) as [[early|]|] eqn:Eu; [| |discriminate E]; cbn [rbind] in E.
  - injection E as ->. unfold check_group_unchanged in Eu. repeat (break_hyp Eu; try discriminate Eu); by injection Eu as <- <- <-.
  - injection E as E. by eapply check_limits_reason.
Qed.
(** *** Grades *)

Lemma py_int_below m x : (0 <= x)%Q -> (x < inject_Z (m + 1))%Q -> 0 <= Binary64.py_int x <= m.
Proof.
  intros H1 H2. unfold Qle, Qlt, Binary64.py_int, inject_Z in *. cbn in *. assert (0 <= Qnum x) by lia.
  rewrite Z.quot_div_nonneg by lia. split; [apply Z.div_pos; lia|]. apply Z.lt_succ_r, Z.div_lt_upper_bound; lia.
Qed.

Lemma outcome_grade_bounds q m : (0 <= q <= 1)%Q -> 0 <= m <= 2 ^ 50 -> 0 <= outcome_grade q m <= m.
Proof.
  intros [Hq0 Hq1] Hm. pose proof (of_int_exact m ltac:(lia)) as Eof. pose proof (inject_Z_nonneg m ltac:(lia)) as Hm0.
  assert (Hx : (inject_Z 0 <= fmul q (of_int m) <= inject_Z m)%Q).
  { apply b64_between; [lia|lia|]. rewrite Eof. change (inject_Z 0) with 0%Q. split; nra. }
  change (inject_Z 0) with 0%Q in Hx.
  assert (Hhalf : (b64 (inject_Z m + (1 # 2)) == inject_Z m + (1 # 2))%Q).
  { assert (E : (inject_Z m + (1 # 2) == inject_Z (2 * m + 1) * p2 (-1))%Q).
    { rewrite inject_Z_plus, inject_Z_mult. change (p2 (-1)) with (1 # 2)%Q. change (inject_Z 2) with 2%Q. change (inject_Z 1) with 1%Q. field. }
    transitivity (b64 (inject_Z (2 * m + 1) * p2 (-1))); [apply b64_eq; [lra|exact E]|]. rewrite b64_repr by lia. symmetry. exact E. }
  apply py_int_below; [apply b64_nonneg; lra|].
  apply (Qle_lt_trans _ (inject_Z m + (1 # 2))).
  - rewrite <- Hhalf. apply b64_mono; lra.
  - rewrite inject_Z_plus. change (inject_Z 1) with 1%Q. lra.
Qed.

(** *** The whole request *)

(** What a request that stores points has shown: the service of the exercise, found
    by its key, has signed the parameters with the hash of the body. *)
Definition signed_by_service (now : Z) (rq : OAuthRequest) (exercise : LtiExercise) : Prop :=
  exists service signature, service ∈ services /\ service_id service = lti_service exercise /\
    has_consumer_key (text (od_get "oauth_consumer_key" (dict_of (collected rq)))) service = true /\
    od_get "oauth_body_hash" (dict_of (collected rq)) = Some (sha1_base64 (rq_body rq)) /\
    od_get "oauth_signature" (dict_of (collected rq)) = Some signature /\
    verify_hmac_sha1 (rq_uri rq) (List.filter (fun kv => negb (bool_decide (kv.1 = "oauth_signature"))) (dict_of (collected rq)))
      signature (secret_of service) = true.

Lemma parse_outcome_hash body data : parse_outcome body = Ret data -> body_hash data = sha1_base64 body.
Proof.
  unfold parse_outcome. destruct (etree_parse body) as [root|]; [|discriminate]. break_goal; [discriminate|].
  destruct (parse_operation root) as [[[? ?] ?]|]; [|discriminate]. by intros [= <-].
Qed.

Lemma get_one_in {A} (l : list A) x : get_one l = Ret x -> x ∈ l.
Proof. destruct l as [|y [|]]; [discriminate| |discriminate]. intros [= ->]. by left. Qed.

Lemma authenticated now rq nonces data exercise submitter nonces' :
  authenticate_outcome_request now rq nonces = (Ret (Some (data, exercise, submitter)), nonces') ->
  parse_outcome (rq_body rq) = Ret data /\ parse_sourced_id (text (o_sourced_id data)) = Ret (Some exercise, Some submitter) /\
  signed_by_service now rq exercise.
Proof.
  unfold authenticate_outcome_request. intros E. destruct (has_authorization rq); cbn [negb] in E; [|discriminate E].
  destruct (parse_outcome (rq_body rq)) as [d|] eqn:Ed; [|discriminate E]. cbn [rbind] in E.
  destruct (parse_sourced_id _) as [[[ex|] [p|]]|] eqn:Es; try discriminate E. cbn [rbind] in E.
  destruct (bool_decide (body_hash d = "")); [discriminate E|].
  destruct (verify_oauth _ _ _ _ _) as [[[|]|] n'] eqn:Ev; try discriminate E. injection E as <- <- <- <-.
  split; [done|]. split; [done|].
  apply accepted in Ev as (s & nonce & stamp & ts & Eg & Hs & _ & _ & _ & _ & _ & Hh & sg & Esg & Hv).
  apply get_one_in, list_elem_of_In, filter_In in Eg as [Hin Hk]. apply list_elem_of_In in Hin.
  exists s, sg. rewrite (parse_outcome_hash _ _ Ed) in Hh. by repeat split.
Qed.

(** *** Whom and what a request names *)

(** The identifier of a result: the number of the exercise, and after a dash the
    number of the user or the pseudonym of an enrollment. *)
Definition names_result (sourced_id : string) (exercise : LtiExercise) (student : Person) : Prop :=
  exists pk kind token, sourced_id = pk +:+ String "-" (String kind token) /\
    py_int other 10 pk = Some (exercise_id exercise) /\
    (kind = "i"%char /\ py_int other 10 token = Some (person_id student) \/
     kind = "a"%char /\ exists row, row ∈ codes /\ anon_id row = Some token /\ cr_profile row = person_profile_id student).

(** What the body of a request says: the identifier and the score in its first operation. *)
Definition body_says (body sourced_id score : string) : Prop :=
  exists root envelope operation rest, etree_parse body = Some root /\
    head (findall [ns "imsx_POXBody"] root) = Some envelope /\ children_of envelope = operation :: rest /\
    findtext [ns "resultRecord"; ns "sourcedGUID"; ns "sourcedId"] operation = Some sourced_id /\
    findtext [ns "resultRecord"; ns "result"; ns "resultScore"; ns "textString"] operation = Some score.

Lemma or_none_some {A} (r : result A) x : or_none r = Ret (Some x) -> r = Ret x.
Proof. destruct r as [a|[]]; try discriminate. by intros [= ->]. Qed.

Lemma filtered_one {A} (f : A -> bool) (l : list A) x : or_none (get_one (List.filter f l)) = Ret (Some x) -> x ∈ l /\ f x = true.
Proof. intros [Hin Hf]%or_none_some%get_one_in%list_elem_of_In%filter_In. by rewrite list_elem_of_In. Qed.

Lemma get_by_pk_some {A} (key : A -> Z) (rows : list A) pk x :
  or_none (get_by_pk key rows pk) = Ret (Some x) -> x ∈ rows /\ py_int other 10 pk = Some (key x).
Proof.
  unfold get_by_pk. destruct (py_int other 10 pk) as [i|]; [|discriminate]. intros [Hin Hk]%filtered_one. b2p. by subst.
Qed.

Lemma token_user_some ty token p :
  token_user ty token = Ret (Some p) ->
  p ∈ persons /\
  (ty = "i"%char /\ py_int other 10 token = Some (person_id p) \/
   ty = "a"%char /\ exists row, row ∈ codes /\ anon_id row = Some token /\ cr_profile row = person_profile_id p).
Proof.
  unfold token_user. destruct (Ascii.eqb_spec ty "i") as [->|_].
  { intros [Hin Hk]%get_by_pk_some. split; [done|by left]. }
  destruct (Ascii.eqb_spec ty "a") as [->|_]; [|discriminate].
  destruct (or_none (get_one _)) as [[row|]|] eqn:Er; [|discriminate..]. cbn [rbind].
  apply filtered_one in Er as [Hrow Ha]. intros [Hin Hk]%filtered_one. b2p.
  split; [done|right]. split; [done|]. by exists row.
Qed.

Lemma after_first_split c s t : after_first c s = Some t -> s = before_first c s +:+ String c t.
Proof.
  induction s as [|d s IH]; [discriminate|]. cbn [after_first before_first].
  destruct (Ascii.eqb_spec d c) as [->|_]; [by intros [= ->]|]. intros E. rewrite append_cons. by rewrite <- (IH E).
Qed.

Lemma parse_sourced_id_names s exercise user :
  parse_sourced_id s = Ret (Some exercise, Some user) ->
  exercise ∈ exercises /\ user ∈ persons /\ names_result s exercise user.
Proof.
  unfold parse_sourced_id. destruct (before_first "-" s) as [|c pk] eqn:Eb; [discriminate|].
  destruct (text _) as [|ty token] eqn:Et; [discriminate|].
  destruct (or_none _) as [oe|] eqn:Ee; [|discriminate]. cbn [rbind].
  destruct (token_user ty token) as [ou|] eqn:Eu; [|discriminate]. cbn [rbind]. intros [= -> ->].
  apply get_by_pk_some in Ee as [He Hpk]. apply token_user_some in Eu as [Hu Hkind]. split; [done|]. split; [done|].
  exists (String c pk), ty, token. split; [|done]. rewrite <- Eb. apply after_first_split.
  destruct (after_first "-" s); [by cbn in Et; subst|discriminate Et].
Qed.

(** A body that is parsed to an identifier and a score says them. *)
Lemma parse_outcome_says body data score :
  parse_outcome body = Ret data -> o_score data = Some score -> text (o_sourced_id data) <> "" ->
  body_says body (text (o_sourced_id data)) score.
Proof.
  unfold parse_outcome, parse_operation. intros E Hs Hne. destruct (etree_parse body) as [root|] eqn:Er; [|discriminate E].
  destruct (negb _) in E; [discriminate E|].
  destruct (head (findall [ns "imsx_POXBody"] root)) as [envelope|] eqn:Eh; [|injection E as <-; discriminate Hs].
  destruct (children_of envelope) as [|[tag tx l|] rest] eqn:Ec; cbn [rbind] in E;
    [injection E as <-; discriminate Hs| |discriminate E].
  injection E as <-. cbn [o_score o_sourced_id] in *.
  exists root, envelope, (Element tag tx l), rest. do 3 (split; [done|]). split; [by destruct (findtext _ _)|].
  by destruct (bool_decide _).
Qed.

Lemma valid_score data v q :
  to_internal_value data = inr v -> v_score v = Some (Finite q) ->
  (0 <= q <= 1)%Q /\ exists t, o_score data = Some t /\ float t = Some (Finite q).
Proof.
  unfold to_internal_value, outcome_fields. set (sc := match o_score data with Some _ => _ | None => _ end). intros E Hq.
  assert (Hs : sc = Some (Some (Finite q))).
  { repeat (break_hyp E; try discriminate E). injection E as <-. cbn in Hq. congruence. }
  unfold sc in Hs. destruct (o_score data) as [t|]; [|discriminate Hs]. unfold score_field in Hs.
  destruct (float t) as [[q'| |]|] eqn:Ef; try discriminate Hs. destruct (Qle_bool 0 q' && Qle_bool q' 1) eqn:Eb; [|discriminate Hs].
  injection Hs as ->. apply andb_prop in Eb as [H1 H2]. split; [by split; apply Qle_bool_iff|]. by exists t.
Qed.

(** C34. What a request for points does.  It stores nothing, or the answer is that
    the score is stored: then exactly one submission is new, of the student and the
    exercise whose identifier is in the body, accepted by the rules of the exercise
    and with the points that the posted score gives, between nothing and the maximum
    (of exercises with at most 2^50 points), and the service of that exercise has signed the body.  Only an error of the
    database between its two writes leaves something else: that submission, without
    its student.  An answer that reports success has stored or read a score, unless
    the texts of the reasons are empty. *)
Theorem outcomes_post_outcome (text_of : Message -> string) rq db nonces r db' nonces' :
  outcomes_post rq (db, nonces) = (r, (db', nonces')) ->
  (forall m, text_of m <> "") -> Forall (fun e : LtiExercise => 0 <= max_points e <= 2 ^ 50) exercises ->
  (db' = db /\ (forall score, r <> Ret (ScoreStored score)) \/
   exists (exercise : LtiExercise) submitter sourced_id posted score row alerts students,
     body_says (rq_body rq) sourced_id posted /\ names_result sourced_id exercise submitter /\
     float posted = Some (Finite score) /\ exercise ∈ exercises /\ submitter ∈ persons /\
     check_submission_allowed db exercise (person_profile submitter) None = Ret (SubmitStatus.ALLOWED, alerts, students) /\
     signed_by_service (now db) rq exercise /\
     sub_id row = next_id db /\ sub_exercise row = exercise_id exercise /\ sub_status row = SubStatus.READY /\
     grade row = outcome_grade score (max_points exercise) /\ 0 <= grade row <= max_points exercise /\
     db' = insert_submission row db /\
     (r = Ret (ScoreStored (Finite score)) /\ submitters row = [person_profile submitter] \/
      r = Raise DatabaseError /\ submitters row = [] /\ submitter_accepted = false)) /\
  (forall answer, r = Ret answer -> code_major text_of answer = "success" ->
   (exists score, answer = ScoreStored score) \/ (exists read, answer = ScoreRead read)).
Proof.
  intros E Htext Hmax. unfold outcomes_post in E.
  destruct (authenticate_outcome_request _ _ _) as [[[[[data exercise] submitter]|]|e] n1] eqn:Ea;
    [|injection E as <- <- <-; split; [by left|by intros ? [=]]..].
  destruct (authenticated _ _ _ _ _ _ _ Ea) as (Hd & Hp & Hsig).
  destruct (to_internal_value data) as [fields|v] eqn:Ev; [injection E as <- <- <-; split; [by left|by intros ? [= <-]]|].
  destruct (bool_decide (v_req_type v = TYPE_REPLACE)) eqn:Et.
  2: { destruct (bool_decide _) in E; injection E as <- <- <-; split; try (by left); [|by intros ? [= <-]].
       intros answer [= <-] _. right. eauto. }
  destruct (check_submission_allowed db exercise _ None) as [[[st al] ss]|] eqn:Ec; [|injection E as <- <- <-; split; [by left|by intros ? [=]]].
  destruct (negb (bool_decide _)) eqn:Est in E; b2p.
  { injection E as <- <- <-. split; [by left|]. intros answer [= <-]. cbn. pose proof (refused_has_reason _ _ _ _ _ _ _ Ec Est) as Hr.
    unfold reasons in Hr. destruct (error_messages al ++ warning_messages al ++ info_messages al) as [|m ms]; [done|].
    rewrite bool_decide_eq_false_2; [done|]. cbn. specialize (Htext m). destruct (text_of m), (text_of <$> ms); done. }
  subst st. destruct (parse_sourced_id_names _ _ _ Hp) as (Hin1 & Hin2 & Hnames).
  destruct (v_score v) as [[q| |]|] eqn:Eq; cbn [default from_option id create_outcome] in E;
    [|injection E as <- <- <-; split; [by left|by intros ? [=]]..].
  destruct (valid_score _ _ _ Ev Eq) as (Hq & posted & Hposted & Hfloat).
  assert (Hsays : body_says (rq_body rq) (text (o_sourced_id data)) posted).
  { apply parse_outcome_says; [done|done|]. intros E0. rewrite E0 in Hp. discriminate Hp. }
  assert (Hg : 0 <= outcome_grade q (max_points exercise) <= max_points exercise)
    by (apply outcome_grade_bounds; [done|exact (proj1 (Forall_forall _ _) Hmax _ Hin1)]).
  unfold create_outcome in E. destruct row_accepted; cbn [negb] in E; [|injection E as <- <- <-; split; [by left|by intros ? [=]]].
  destruct submitter_accepted; cbn [negb] in E; injection E as <- <- <-; (split; [right|by intros answer [= <-]; eauto]);
    exists exercise, submitter, (text (o_sourced_id data)), posted, q;
    [exists (with_submitters [person_profile submitter] (outcome_row exercise q db))|exists (outcome_row exercise q db)];
    exists al, ss; split_and!; try done; try apply Hg; auto.
Qed.
End Outcomes.

(** ** The identifier of a result *)

Section Identifier.
Context (get_random_string : nat -> Z -> string) (choice : nat -> list string -> string).
Context (colors animals : list string) (save_tag : list UserTag -> UserTag -> UserTag) (course_of : Z -> Z).
Context (fuel depth : nat) (other : Z -> string -> option Z).

Lemma before_first_sep c a b : contains c a = false -> before_first c (a +:+ String c b) = a /\ after_first c (a +:+ String c b) = Some b.
Proof.
  induction a as [|d a IH]; intros Ha.
  { rewrite append_nil. cbn [before_first after_first]. by rewrite Ascii.eqb_refl. }
  cbn in Ha. apply orb_false_iff in Ha as [Hd Ha].
  rewrite append_cons. cbn [before_first after_first]. rewrite Hd. by destruct (IH Ha) as [-> ->].
Qed.

Lemma get_by_pk_found {A} (key : A -> Z) (rows : list A) x :
  x ∈ rows -> NoDup (key <$> rows) -> 0 <= key x -> or_none (get_by_pk other key rows (str_of_Z (key x))) = Ret (Some x).
Proof.
  intros Hx Hnd H0. unfold get_by_pk. rewrite py_int_str by done. rewrite (get_one_found _ _ key x); [done..|]. intros y _. apply Z.eqb_eq.
Qed.

Lemma rows_found (rows : gmap (Z * Z) CodeRow) key row (f : CodeRow -> bool) :
  (forall k r, rows !! k = Some r -> cr_key r = k) -> rows !! key = Some row ->
  (forall k r, rows !! k = Some r -> f r = true -> k = key) -> f row = true ->
  get_one (List.filter f (map_to_list rows).*2) = Ret row.
Proof.
  intros Hkey Hrow Hf Hfr. apply (get_one_found _ _ cr_key).
  - rewrite <- list_fmap_compose. assert (E : (cr_key ∘ snd <$> map_to_list rows) = (map_to_list rows).*1).
    { apply list_fmap_ext. intros i [k r] Hi. cbn. apply Hkey, elem_of_map_to_list. by eapply list_elem_of_lookup_2. }
    rewrite E. apply NoDup_fst_map_to_list.
  - apply list_elem_of_fmap. exists (key, row). split; [done|]. by apply elem_of_map_to_list.
  - intros y ([k r] & -> & Hk%elem_of_map_to_list)%list_elem_of_fmap. cbn. rewrite (Hkey _ _ Hrow). split.
    + intros Hfy. rewrite (Hkey _ _ Hk). by apply (Hf _ _ Hk).
    + intros E. rewrite (Hkey _ _ Hk) in E. subst k. congruence.
Qed.

(** C33. The result a service posts goes to the student it was sent.  The identifier that
    is given to a service with a user and an exercise leads back to that
    exercise and that user, for services that know users by their ids and for
    services that know them by pseudonyms, where every enrollment has a pseudonym
    already, and no two have the same. *)
Theorem sourced_id_roundtrip access instance (exercises : list LtiExercise) (persons : list Person) st st' (exercise : LtiExercise) person i :
  user_info get_random_string choice colors animals save_tag course_of fuel depth access instance person st = (st', inl i) ->
  exercise ∈ exercises -> NoDup ((fun e : LtiExercise => exercise_id e) <$> exercises) -> 0 <= exercise_id exercise ->
  person ∈ persons -> NoDup (person_id <$> persons) -> NoDup (person_profile_id <$> persons) -> 0 <= person_id person ->
  (forall k r, cs_rows st !! k = Some r -> cr_key r = k /\ anon_name r <> "") ->
  (forall k1 k2 r1 r2 a, cs_rows st !! k1 = Some r1 -> cs_rows st !! k2 = Some r2 ->
     anon_id r1 = Some a -> anon_id r2 = Some a -> k1 = k2) ->
  parse_sourced_id other exercises persons (map_to_list (cs_rows st)).*2 (sourced_id exercise (info_user_id i))
    = Ret (Some exercise, Some person).
Proof.
  intros Hi He Hne He0 Hp Hnp Hnpr Hp0 Hrows Hanon. unfold parse_sourced_id, sourced_id.
  change ("-" +:+ info_user_id i) with (String "-" (info_user_id i)).
  destruct (before_first_sep "-" (str_of_Z (exercise_id exercise)) (info_user_id i)) as [-> ->]; [by apply number_without|]. cbn [text default from_option id].
  pose proof (get_by_pk_found (fun e : LtiExercise => exercise_id e) exercises exercise He Hne He0) as Ex. cbn beta in Ex.
  assert (Hs : exists c t, str_of_Z (exercise_id exercise) = String c t).
  { pose proof (py_int_str (fun _ _ => None) (exercise_id exercise) He0) as H0. destruct (str_of_Z _); [by vm_compute in H0|eauto]. }
  destruct Hs as (c & t & Es). rewrite Es in Ex |- *.
  unfold user_info in Hi. destruct (is_anonymous access).
  - destruct (cs_rows st !! _) as [row|] eqn:Er; [|discriminate Hi]. destruct (Hrows _ _ Er) as [Hkey Hname].
    rewrite bool_decide_eq_false_2 in Hi by done. cbn [andb] in Hi. destruct (anon_id row) as [a|] eqn:Ea; [|discriminate Hi].
    destruct (rpartition " " (anon_name row)). injection Hi as <- <-. cbn [info_user_id]. change ("a" +:+ a) with (String "a" a).
    rewrite Ex. cbn [rbind]. unfold token_user. cbn [Ascii.eqb Bool.eqb].
    rewrite (rows_found (cs_rows st) (instance_id instance, profile_id (person_profile person)) row);
      [|by intros k r Hk; apply Hrows|exact Er| |by rewrite bool_decide_eq_true].
    + cbn [or_none rbind]. rewrite (get_one_found _ _ person_profile_id person); [done..|]. intros y _. rewrite Z.eqb_eq.
      unfold cr_key in Hkey. injection Hkey as _ ->. done.
    + intros k r Hk Hb%bool_decide_eq_true. by eapply Hanon.
  - injection Hi as <- <-. cbn [info_user_id]. change ("i" +:+ ?s) with (String "i" s). rewrite Ex. cbn [rbind]. unfold token_user. cbn [Ascii.eqb Bool.eqb].
    change (user_id (person_user person)) with (person_id person). rewrite (get_by_pk_found person_id persons person) by done. done.
Qed.
End Identifier.

(** ** Examples *)

Module Sample.
#[local] Existing Instance example_settings.

(** Two services, one of which knows students by pseudonyms, and an exercise at each. *)
Definition service (i : Z) (access : LtiAccess) (key : string) : LinkService :=
  mkService i "https://tool.example/" 1 "" "Tool" "globe" true (LTIService access key ("secret-" +:+ key)).
Definition services : list LinkService := [service 1 PUBLIC_API_NO "k1"; service 2 ANON_API_NO "k2"].
Definition exercise (i : Z) : LtiExercise := mkLtiExercise (example_exercise 1 2) i "" "" "" false false "task".
Definition person (i : Z) (first last : string) : Person :=
  mkPerson (mkUser i false false (example_student i)) first first last (first +:+ "@x.fi") "token" "en".
Definition ann := person 1 "Ann" "A".
Definition bob := person 2 "Bob" "B".
Definition persons := [ann; bob].
Definition row (i : Z) (anon name : string) : CodeRow := mkCodeRow 1 i EnrollmentRole.STUDENT "c" (Some anon) name.
Definition codes_of (rows : list CodeRow) : CodeState :=
  mkCodes (list_to_map ((fun r => (cr_key r, r)) <$> rows)) (row 0 "" "") 0 [] [].
Definition codes := codes_of [row 1 "x1" "Red Fox"; row 2 "x2" "Blue Owl"].
Definition page : LaunchPage := mkLaunchPage "https://plus" "plus" "A+" "" "https://plus/c/i/" "/c/i/" "Course" "C-1" "en" "https://plus/outcomes" "https://plus/api".
Definition random (n : nat) (len : Z) : string := "r".
Definition pick (n : nat) (l : list string) : string := "p".
Definition no_tag (l : list UserTag) (t : UserTag) : UserTag := t.
Definition dumps (l : list Params) : string := String.concat "," (mjoin (fmap (fun kv => kv.2) <$> l)).
Definition no_int (base : Z) (s : string) : option Z := None.

Definition launch (access : LtiAccess) (user : Person) (students : list Person) (add : Params) (st : CodeState) : CodeState * (Params + finish) :=
  exercise_parameters random pick [] [] no_tag (fun i => i) dumps 3 3 (service 2 access "k2") access example_instance ∅ page
    (exercise 2) user students add st.

(** Pages of the exercise for a student, opened with the button or loaded by the system. *)
Definition encode (ps : Params) : string := String.concat "&" ((fun kv => kv.1 +:+ "=" +:+ kv.2) <$> ps).
Definition opened (by_system : bool) (student : Person) (st : CodeState) : CodeState * (LtiPage + finish) :=
  lti_load random pick [] [] no_tag (fun i => i) dumps 3 3 (service 2 ANON_API_NO "k2") ANON_API_NO example_instance ∅ page
    String.append encode (fun url ps => ps ++ [("oauth_signature", url)]) (fun url => Ret url) (fun _ => "https://plus/grader") "https://plus/c/i/e"
    (mkLtiExercise (example_exercise 1 2) 2 "" "" "" by_system false "task") "en" (Some (student, 0)) [student] None None None st.
Definition bobs_codes : CodeState := codes_of [row 2 "x1" "Red Fox"].

(** Bob, with the pseudonym of Ann in his table, gets the page that Ann gets. *)
Lemma anonymous_launch_hides_user_witness :
  (opened false ann codes).2 = (opened false bob bobs_codes).2 /\
  match (opened false ann codes).2 with
  | inl (LaunchButton _ ps) => od_get "user_id" ps = Some "ax1" /\ od_get "lis_person_name_given" ps = Some "Red"
  | _ => False
  end.
Proof.
  split; [|vm_compute; by split].
  destruct (anonymous_launch_hides_user random pick [] [] no_tag (fun i => i) dumps 3 3 (service 2 ANON_API_NO "k2") ANON_API_NO
    example_instance ∅ page String.append encode (fun url ps => ps ++ [("oauth_signature", url)]) (fun url => Ret url)
    (fun _ => "https://plus/grader") "https://plus/c/i/e" (mkLtiExercise (example_exercise 1 2) 2 "" "" "" false false "task") "en"
    (Some (ann, 0)) (Some (bob, 0)) [ann] [bob] None None None None None None codes bobs_codes) as (r & E1 & E2).
  - reflexivity.
  - reflexivity.
  - constructor; [|constructor]. exists (row 1 "x1" "Red Fox"), (row 2 "x1" "Red Fox"). vm_compute. by repeat split.
  - reflexivity.
  - unfold opened. rewrite E1, E2. reflexivity.
Defined.

(** Loaded by the system, the pages of the two come from addresses with their ids. *)
Lemma loaded_page_tells_users_apart :
  match (opened true ann codes).2, (opened true bob bobs_codes).2 with
  | inl (LoadedFrom url), inl (LoadedFrom url') => within "&uid=1&" url = true /\ within "&uid=2&" url' = true
  | _, _ => False
  end.
Proof. vm_compute. by split. Qed.

(** A student without a group adds a field of the name of the parameter for groups:
    the service gets it signed. *)
Lemma forged_group_members_are_signed :
  match (launch PUBLIC_API_NO ann [ann] [("custom_group_members", "bob")] codes).2 with
  | inl ps => od_get "custom_group_members" ps = Some "bob"
  | inr _ => False
  end.
Proof. vm_compute. reflexivity. Qed.

(** A request for points: its body is the document itself, and its signature is the secret. *)
Definition element (t : string) (l : list Node) : Node := Element (NS +:+ t) None l.
Definition leaf (t v : string) : Node := Element (NS +:+ t) (Some v) [].
Definition document (sourced_id score : string) : Node :=
  element "imsx_POXEnvelopeRequest"
    [element "imsx_POXHeader" [element "imsx_POXRequestHeaderInfo" [leaf "imsx_version" "V1.0"; leaf "imsx_messageIdentifier" "m1"]];
     element "imsx_POXBody"
       [element "replaceResultRequest"
          [element "resultRecord"
             [element "sourcedGUID" [leaf "sourcedId" sourced_id];
              element "result" [element "resultScore" [leaf "textString" score]]]]]].
Definition parse (body : string) : option Node :=
  match split "|" body with
  | [s; score] => Some (document s score)
  | ["comment"] => Some (element "imsx_POXEnvelopeRequest" [element "imsx_POXBody" [Comment]])
  | _ => None
  end.
Definition verify (uri : string) (ps : Params) (signature secret : string) : bool := bool_decide (signature = secret).
Definition float (s : string) : option PyFloat :=
  if bool_decide (s = "0.5") then Some (Finite (1 # 2)) else if bool_decide (s = "nan") then Some NaN else None.
Definition request (stamp : Z) (body : string) : OAuthRequest :=
  mkOAuth true "https://plus/outcomes"
    [("oauth_consumer_key", "k1"); ("oauth_timestamp", str_of_Z stamp); ("oauth_nonce", "n"); ("oauth_body_hash", body); ("oauth_signature", "secret-k1")] body.
Definition check (now : Z) (rq : OAuthRequest) (nonces : Nonces) : result (option string) * Nonces :=
  verify_oauth no_int verify (fun _ => OverflowError) services now rq (rq_body rq) (exercise 1) nonces.

Lemma surjective_pairing_eq {A B} (p : A * B) a : p.1 = a -> p = (a, p.2).
Proof. intros <-. by destruct p. Qed.

(** The request of second 1000 is accepted at second 1000 and refused at second 1001 and
    at second 1700. *)
Lemma replayed_request_refused_witness :
  let n1 := (check (seconds 1000) (request 1000 "b") ∅).2 in
  (check (seconds 1000) (request 1000 "b") ∅).1 = Ret None /\
  (check (seconds 1001) (request 1000 "b") n1).1 <> Ret None /\ (check (seconds 1700) (request 1000 "b") n1).1 <> Ret None.
Proof.
  intros n1. split; [vm_compute; reflexivity|].
  assert (H : forall t, seconds 1000 <= t -> (check t (request 1000 "b") n1).1 <> Ret None).
  { intros t Ht. apply (replayed_request_refused no_int verify (fun _ => OverflowError) services
      (seconds 1000) (request 1000 "b") "b" (exercise 1) ∅ n1 (seconds 1000) n1 t "b" (exercise 1)).
    - apply surjective_pairing_eq; vm_compute; reflexivity.
    - intros ts Hts. assert (E : oauth_time no_int (fun _ => OverflowError) (od_get "oauth_timestamp" (dict_of (collected (request 1000 "b"))))
        = Ret (Some (seconds 1000))) by (vm_compute; reflexivity). rewrite E in Hts. injection Hts as <-. apply Z.le_refl.
    - apply rtc_refl.
    - exact Ht. }
  split; apply H; vm_compute; discriminate.
Defined.

(** A request with a time nine minutes ahead is accepted again after the nonce is forgotten. *)
Lemma future_request_is_replayed :
  let first := check (seconds 1000) (request 1540 "b") ∅ in
  first.1 = Ret None /\ (check (seconds 1700) (request 1540 "b") first.2).1 = Ret None.
Proof. vm_compute. by split. Qed.

(** A request without a time raises instead of being refused. *)
Lemma missing_timestamp_raises :
  (check 0 (mkOAuth true "u" [("oauth_consumer_key", "k1")] "") ∅).1 = Raise TypeError.
Proof. vm_compute. reflexivity. Qed.

Definition db (subs : list Submission) : Db := mkDb (example_world subs) ∅ [] [] [] [] [].
Definition post_with (submitter_accepted : bool) (rq : OAuthRequest) (st : Db * Nonces) : result OutcomeResponse * (Db * Nonces) :=
  outcomes_post no_int parse (fun b => b) verify (fun _ => OverflowError) (fun s => s) float (fun _ _ => None)
    services [exercise 1] persons (map_to_list (cs_rows codes)).*2 true submitter_accepted rq st.
Definition post := post_with true.
Definition stamp : Z := now (db []) / 1000000.

Lemma outcomes_post_outcome_witness :
  exists row nonces, post (request stamp "1-i1|0.5") (db [], ∅) = (Ret (ScoreStored (Finite (1 # 2))), (insert_submission row (db []), nonces)) /\
    grade row = 5 /\ submitters row = [example_student 1].
Proof.
  destruct (post (request stamp "1-i1|0.5") (db [], ∅)) as [r [db' n']] eqn:E.
  assert (Hr : r = Ret (ScoreStored (Finite (1 # 2)))) by (change r with ((r, (db', n')).1); rewrite <- E; vm_compute; reflexivity).
  destruct (outcomes_post_outcome no_int parse (fun b => b) verify (fun _ => OverflowError) (fun s => s) float (fun _ _ => None)
    services [exercise 1] persons (map_to_list (cs_rows codes)).*2 true true (fun _ => "reason") (request stamp "1-i1|0.5") (db []) ∅ r db' n')
    as [[[_ Hn]|(e & p & sid & t & q & row & al & ss & _ & _ & _ & He & _ & _ & _ & _ & _ & _ & Hg & _ & Hdb & [[Hq Hs]|[Hq _]])] _].
  - exact E.
  - discriminate.
  - constructor; [vm_compute; split; discriminate|constructor].
  - exfalso. by apply (Hn (Finite (1 # 2))).
  - rewrite Hr in Hq. injection Hq as <-. exists row, n'. rewrite Hr, Hdb. split; [reflexivity|].
    apply list_elem_of_singleton in He as ->. split; [rewrite Hg; vm_compute; reflexivity|].
    assert (Hrow : submitters <$> head (submissions db') = Some [example_student 1]).
    { change db' with ((r, (db', n')).2.1). rewrite <- E. vm_compute. reflexivity. }
    rewrite Hdb in Hrow. cbn in Hrow. by injection Hrow as ->.
  - by rewrite Hr in Hq.
Defined.

(** When the database fails between the two writes, points are stored for nobody. *)
Lemma score_without_student :
  let '(r, (d, _)) := post_with false (request stamp "1-i1|0.5") (db [], ∅) in
  r = Raise DatabaseError /\ (fun s => (sub_status s, grade s, submitters s)) <$> submissions d = [(SubStatus.READY, 5, [])].
Proof. vm_compute. by split. Qed.

(** In the late period the same request stores the points without the penalty that grading applies. *)
Definition late_db : Db :=
  mkDb (mkWorld (enrollments (db [])) [] [] [] [] (user_of (db [])) (days 2 + 1)) ∅ [] [] [] [] [].
Lemma late_outcome_has_no_penalty :
  (get_timing late_db (example_exercise 1 2) [example_student 1] (now late_db)).1 = Timing.LATE /\
  match head (submissions (post (request (now late_db / 1000000) "1-i1|0.5") (late_db, ∅)).2.1) with
  | Some row => grade row = 5 /\ late_penalty_applied row = None /\
      match set_points late_db (example_exercise 1 2) row 5 10 false with Ret s => grade s = 2 | Raise _ => False end
  | None => False
  end.
Proof. vm_compute. by repeat split. Qed.

(** Not-a-number passes the limits of the score and raises; so does an identifier that
    is not a number, and a body that begins with a comment. *)
Lemma nan_score_raises : (post (request stamp "1-i1|nan") (db [], ∅)).1 = Raise ValueError.
Proof. vm_compute. reflexivity. Qed.
Lemma unreadable_identifier_raises : (post (request stamp "x-i1|0.5") (db [], ∅)).1 = Raise ValueError.
Proof. vm_compute. reflexivity. Qed.
Lemma comment_in_body_raises : (post (request stamp "comment") (db [], ∅)).1 = Raise TypeError.
Proof. vm_compute. reflexivity. Qed.

Lemma sourced_id_roundtrip_witness :
  parse_sourced_id no_int [exercise 1] persons (map_to_list (cs_rows codes)).*2 "1-ax2" = Ret (Some (exercise 1), Some bob).
Proof.
  apply (sourced_id_roundtrip random pick [] [] no_tag (fun i => i) 3 3 no_int ANON_API_NO example_instance [exercise 1] persons codes codes
    (exercise 1) bob (mkInfo "ax2" "Blue" "Owl" "Blue Owl" "anonymous-x2@aplus.invalid")).
  - vm_compute. reflexivity.
  - by left.
  - apply (bool_decide_unpack _). vm_compute. exact I.
  - vm_compute. discriminate.
  - right. by left.
  - apply (bool_decide_unpack _). vm_compute. exact I.
  - apply (bool_decide_unpack _). vm_compute. exact I.
  - vm_compute. discriminate.
  - intros k r Hk. apply elem_of_list_to_map_2 in Hk. repeat (apply elem_of_cons in Hk as [Hk|Hk]; [injection Hk as -> ->; split; [reflexivity|discriminate]|]).
    by apply elem_of_nil in Hk.
  - intros k1 k2 r1 r2 a H1 H2. apply elem_of_list_to_map_2 in H1, H2.
    repeat (apply elem_of_cons in H1 as [H1|H1]; [injection H1 as -> ->; repeat (apply elem_of_cons in H2 as [H2|H2]; [injection H2 as -> ->; cbn; congruence|]); by apply elem_of_nil in H2|]).
    by apply elem_of_nil in H1.
Defined.
End Sample.
