(* ===== verification/Lti13.v ===== *)
(** * LTI 1.3

    [external_services/lti1p3.py] and [course/api/lti_views.py]: the handshake with a
    tool that hosts an exercise, the identity the tool is given, the tokens a tool
    gets and the points it posts; [lti_tool]: the system itself as the tool of
    another platform.  The libraries of the protocol are arguments. *)

From Stdlib Require Import QArith Lqa Ascii.
From S2P Require Import Prelude Lists Binary64 Helpers Course Models Exercise Submission Codes Enroll Grading Frame Staff Signed Tokens Services.
#[local] Open Scope string_scope.
#[local] Open Scope list_scope.
#[local] Open Scope Z_scope.

(** ** The login of a tool *)

(** src/exercise/exercise_models.py: LTI1p3Exercise lines 1356-1369 *)
Record Lti13Exercise := mkLti13Exercise {
  l13_exercise :> BaseExercise;
  l13_service : Z;
  custom : string;
  l13_open_in_iframe : bool;
}.

Definition l13_instance (e : Lti13Exercise) : CourseInstance := lobj_instance e.
Definition l13_id (e : Lti13Exercise) : Z := exercise_id e.

(** src/exercise/exercise_models.py: LTI1p3Exercise.get_resource_link_id *)
Definition get_resource_link_id (self : Lti13Exercise) : string :=
  str_of_Z (instance_id (l13_instance self)) +:+ ":" +:+ str_of_Z (l13_id self).

(** A service of this protocol, with its columns. *)
Definition lti13_columns (s : LinkService) : option (string * string * string * string * bool) :=
  match service_class s with LTI1p3Service login client deployment jwks share => Some (login, client, deployment, jwks, share) | _ => None end.
Definition client_id_of (s : LinkService) : string := match lti13_columns s with Some (_, c, _, _, _) => c | None => "" end.
Definition deployment_of (s : LinkService) : string := match lti13_columns s with Some (_, _, d, _, _) => d | None => "" end.
Definition shares_name (s : LinkService) : bool := match lti13_columns s with Some (_, _, _, _, b) => b | None => false end.
Definition has_client_id (client : string) (s : LinkService) : bool :=
  match lti13_columns s with Some (_, c, _, _, _) => bool_decide (c = client) | None => false end.

(** src/external_services/lti1p3.py: prepare_lti1p3_initiate_login *)
Definition prepare_initiate_login (aplus_url : string) (service : LinkService) (user : option Person) (instance : CourseInstance)
    (exercise : option Lti13Exercise) : result Params :=
  match user with
  | None => Raise PermissionDenied
  | Some user =>
      let hint := match exercise with Some e => get_resource_link_id e | None => str_of_Z (instance_id instance) end in
      Ret [("iss", aplus_url); ("target_link_uri", service_url service); ("login_hint", str_of_Z (person_id user));
           ("client_id", client_id_of service); ("lti_deployment_id", deployment_of service); ("lti_message_hint", hint)]
  end.

(** src/external_services/lti1p3.py: LTI1p3AuthValidator.__init__ lines 78-83.  What a request is
    validated with. *)
Record Validator := mkValidator {
  va_user : option Person;
  va_login_hint : option string;
  va_instance : CourseInstance;
  va_exercise : option Lti13Exercise;
  va_service : LinkService;
}.

Inductive Json := JText (s : string) | JNum (n : Z) | JList (l : list Json) | JDict (d : list (string * Json)).

Section Platform.
Context (other : Z -> string -> option Z) (strip : string -> string).
Context (services : list LinkService) (instances : list CourseInstance) (exercises : list Lti13Exercise).

(** [int(text)] *)
Definition int_of (s : string) : result Z := match py_int other 10 s with Some n => Ret n | None => Raise ValueError end.

(** src/external_services/lti1p3.py: LTI1p3AuthValidator.__init__ *)
Definition auth_validator (user : option Person) (params : Params) (message_hint : option string) : result Validator :=
  if negb (given message_hint) then Raise OAuth2Error
  else
    let hint := split ":" (text message_hint) in
    let! instance_pk := int_of (text (hint !! 0%nat)) in
    match get_one (List.filter (fun i => instance_id i =? instance_pk) instances) with
    | Raise DoesNotExist => Raise OAuth2Error
    | Raise e => Raise e
    | Ret instance =>
        let! exercise :=
          match hint !! 1%nat with
          | None => Ret None
          | Some pk => let! pk := int_of pk in or_none (get_one (List.filter (fun e => l13_id e =? pk) exercises))
          end in
        let client_id := od_get "client_id" params in
        if negb (given client_id) then Raise OAuth2Error
        else match get_one (List.filter (has_client_id (text client_id)) services) with
             | Raise DoesNotExist => Raise OAuth2Error
             | Raise e => Raise e
             | Ret service => Ret (mkValidator user (od_get "login_hint" params) instance exercise service)
             end
    end.

(** src/external_services/lti1p3.py: LTI1p3AuthValidator.validate_client_id *)
Definition validate_client_id (v : Validator) (client_id : string) : bool := bool_decide (client_id_of (va_service v) = client_id).

(** src/external_services/lti1p3.py: LTI1p3AuthValidator.validate_redirect_uri *)
Definition validate_redirect_uri (redirect_uri : option string) : bool := given redirect_uri.

(** src/external_services/lti1p3.py: LTI1p3AuthValidator.validate_response_type *)
Definition validate_response_type (response_type : string) : bool := bool_decide (response_type = "id_token").

(** src/external_services/lti1p3.py: LTI1p3AuthValidator.validate_scopes *)
Definition validate_login_scopes (scopes : list string) : result bool :=
  match scopes with [] => Raise IndexError | s :: _ => Ret (bool_decide (s = "openid")) end.

(** src/external_services/lti1p3.py: LTI1p3AuthValidator.validate_user_match *)
Definition validate_user_match (v : Validator) : result bool :=
  match va_user v with
  | None => Ret false
  | Some user => if given (va_login_hint v) then let! n := int_of (text (va_login_hint v)) in Ret (person_id user =? n) else Ret false
  end.

(** ** The identity of a user *)

Definition claim (key : string) : string := "https://purl.imsglobal.org/spec/lti/claim/" +:+ key.

(** src/external_services/lti1p3.py: LTI1p3AuthValidator._set_lti_roles *)
Definition lti_roles (db : EnrollmentDB) (v : Validator) (user : Person) : list Json :=
  let u := NormalUser (person_user user) in
  let add (b : bool) (role : string) : list Json := if b then [JText role] else [] in
  add (is_teacher (va_instance v) db u) "http://purl.imsglobal.org/vocab/lis/v2/membership#Instructor"
  ++ add (is_student (va_instance v) db u) "http://purl.imsglobal.org/vocab/lis/v2/membership#Learner"
  ++ add (is_assistant (va_instance v) db u) "http://purl.imsglobal.org/vocab/lis/v2/membership/Instructor#TeachingAssistant".

(** [s.split()]: the words between blanks. *)
Definition is_blank (c : ascii) : bool := let n := nat_of_ascii c in ((9 <=? n) && (n <=? 13) || (28 <=? n) && (n <=? 32))%nat.
Fixpoint words_from (word : string) (s : string) : list string :=
  let flush := if bool_decide (word = "") then [] else [word] in
  match s with
  | EmptyString => flush
  | String c s => if is_blank c then flush ++ words_from "" s else words_from (word +:+ String c "") s
  end.
Definition words (s : string) : list string := words_from "" s.

(** src/external_services/lti1p3.py: LTI1p3AuthValidator._set_custom_params *)
Definition custom_params (custom : string) : list (string * Json) :=
  foldl (fun parsed param => match split "=" param with [k; v] => od_set k (JText v) parsed | _ => parsed end) [] (words custom).

(** src/external_services/lti1p3.py: LTI1p3AuthValidator._set_launch_presentation *)
Definition launch_presentation (v : Validator) (language : string) : Json :=
  let iframe := match va_exercise v with Some e => l13_open_in_iframe e | None => false end in
  JDict [("locale", JText language); ("document_target", JText (if iframe then "iframe" else "window"))].

(** src/external_services/lti1p3.py: LTI1p3AuthValidator._make_service_claim.  [lineitems] and
    [lineitem] give the addresses of the API. *)
Definition service_claim (lineitems : Z -> string) (lineitem : Z -> Z -> string) (v : Validator) : Json :=
  let instance := instance_id (va_instance v) in
  JDict ([("scope", JList [JText "https://purl.imsglobal.org/spec/lti-ags/scope/lineitem.readonly";
                           JText "https://purl.imsglobal.org/spec/lti-ags/scope/score"]);
          ("lineitems", JText (lineitems instance))]
         ++ match va_exercise v with Some e => [("lineitem", JText (lineitem instance (l13_id e)))] | None => [] end).

Definition update_json (d items : list (string * Json)) : list (string * Json) := foldl (fun d kv => od_set kv.1 kv.2 d) d items.

(** src/external_services/lti1p3.py: LTI1p3AuthValidator.finalize_id_token lines 227-249.  The claims of everybody. *)
Definition common_claims (aplus_url : string) (lifetime iat : Z) (lineitems : Z -> string) (lineitem : Z -> Z -> string)
    (course_name : string) (v : Validator) (user_pk : Z) : list (string * Json) :=
  let link_id := match va_exercise v with Some e => get_resource_link_id e | None => str_of_Z (instance_id (va_instance v)) end in
  [("iss", JText aplus_url); ("sub", JText (str_of_Z user_pk)); ("exp", JNum (iat + lifetime));
   (claim "deployment_id", JText (deployment_of (va_service v))); (claim "message_type", JText "LtiResourceLinkRequest");
   (claim "version", JText "1.3.0"); (claim "resource_link", JDict [("id", JText link_id)]);
   (claim "target_link_uri", JText (service_url (va_service v)));
   (claim "context", JDict [("id", JText link_id); ("title", JText course_name);
                            ("type", JList [JText "http://purl.imsglobal.org/vocab/lis/v2/course#CourseOffering"])]);
   ("https://purl.imsglobal.org/spec/lti-ags/claim/endpoint", service_claim lineitems lineitem v)].

(** src/external_services/lti1p3.py: LTI1p3AuthValidator.finalize_id_token lines 251-263.  The claims with names. *)
Definition name_claims (user : Person) : list (string * Json) :=
  let p := person_profile user in
  [("email", JText (person_email user)); ("name", JText (strip (first_name user +:+ " " +:+ last_name user)));
   ("given_name", JText (first_name user)); ("family_name", JText (last_name user));
   (claim "ext", JDict [("user_username", JText (person_username user))]);
   (claim "lis", JDict [("person_sourcedid", JText (organization p +:+ ":" +:+ default "None" (student_id p)))])].

(** src/external_services/lti1p3.py: LTI1p3AuthValidator.finalize_id_token.  The token before it is encoded. *)
Definition finalize_id_token (aplus_url : string) (lifetime iat : Z) (lineitems : Z -> string) (lineitem : Z -> Z -> string)
    (course_name : string) (db : EnrollmentDB) (v : Validator) (user : Person) (id_token : list (string * Json)) : list (string * Json) :=
  let id_token := update_json id_token (common_claims aplus_url lifetime iat lineitems lineitem course_name v (person_id user)) in
  let id_token := if shares_name (va_service v) then update_json id_token (name_claims user) else id_token in
  let id_token := od_set (claim "roles") (JList (lti_roles db v user)) id_token in
  let id_token := match va_exercise v with Some e => od_set (claim "custom") (JDict (custom_params (custom e))) id_token | None => id_token end in
  od_set (claim "launch_presentation") (launch_presentation v (person_language user)) id_token.

Lemma split_link_id a b : 0 <= a -> 0 <= b -> split ":" (str_of_Z a +:+ ":" +:+ str_of_Z b) = [str_of_Z a; str_of_Z b].
Proof.
  intros Ha Hb. change (":" +:+ ?s) with (String ":" s).
  rewrite split_app_sep by (by apply number_without). by rewrite split_nosep by (by apply number_without).
Qed.

Lemma link_id_given a b : given (Some (str_of_Z a +:+ ":" +:+ str_of_Z b)) = true.
Proof. unfold given. cbn [text default from_option id]. rewrite bool_decide_eq_false_2; [done|by destruct (str_of_Z a)]. Qed.

(** The handshake with a tool.  The parameters with which a user is sent to the tool,
    sent back by it, identify the same service, course and exercise; and the
    identity of a user is given only when the one who is signed in is the one
    who was sent. *)
Theorem login_roundtrip aplus_url service user visitor (exercise : Lti13Exercise) :
  service ∈ services -> NoDup (client_id_of <$> services) -> Forall (fun s => is_Some (lti13_columns s)) services -> client_id_of service <> "" ->
  exercise ∈ exercises -> NoDup (l13_id <$> exercises) -> 0 <= l13_id exercise ->
  l13_instance exercise ∈ instances -> NoDup (instance_id <$> instances) -> 0 <= instance_id (l13_instance exercise) ->
  0 <= person_id user ->
  exists ps, prepare_initiate_login aplus_url service (Some user) (l13_instance exercise) (Some exercise) = Ret ps /\
    auth_validator (Some visitor) ps (od_get "lti_message_hint" ps)
      = Ret (mkValidator (Some visitor) (Some (str_of_Z (person_id user))) (l13_instance exercise) (Some exercise) service) /\
    validate_user_match (mkValidator (Some visitor) (Some (str_of_Z (person_id user))) (l13_instance exercise) (Some exercise) service)
      = Ret (person_id visitor =? person_id user).
Proof.
  intros Hs Hns H13 Hc He Hne He0 Hi Hni Hi0 Hu. eexists. split; [reflexivity|]. split.
  - cbn [od_get]. repeat (rewrite bool_decide_eq_false_2 by discriminate). rewrite bool_decide_eq_true_2 by done.
    unfold auth_validator, get_resource_link_id. rewrite link_id_given. cbn [negb text default from_option id].
    rewrite split_link_id by done. change ([?a; ?b] !! 0%nat) with (Some a). change ([?a; ?b] !! 1%nat) with (Some b).
    cbn [text default from_option id]. unfold int_of. rewrite !py_int_str by done. cbn [rbind].
    rewrite (get_one_found _ _ instance_id (l13_instance exercise)); [|done..|intros y _; apply Z.eqb_eq].
    rewrite (get_one_found _ _ l13_id exercise); [|done..|intros y _; apply Z.eqb_eq]. cbn [or_none rbind].
    cbn [od_get]. repeat (rewrite bool_decide_eq_false_2 by discriminate). rewrite bool_decide_eq_true_2 by done.
    unfold given. cbn [text default from_option id]. rewrite bool_decide_eq_false_2 by done. cbn [negb].
    rewrite (get_one_found _ _ client_id_of service); [|done..|].
    + reflexivity.
    + intros y Hy. pose proof (proj1 (Forall_forall _ _) H13 y Hy) as [[[[[? c] ?] ?] ?] Ey]. unfold has_client_id. rewrite Ey.
      assert (Hcy : client_id_of y = c) by (unfold client_id_of; by rewrite Ey). rewrite Hcy. apply bool_decide_eq_true.
  - unfold validate_user_match. cbn [va_user va_login_hint]. unfold given. cbn [text default from_option id].
    rewrite bool_decide_eq_false_2; [cbn [negb]; unfold int_of; by rewrite py_int_str|].
    pose proof (py_int_str (fun _ _ => None) (person_id user) Hu) as H0. destruct (str_of_Z _); [by vm_compute in H0|done].
Qed.

(** A tool that names are not shared with gets a token that is the same for every user of
    the same id, roles and language. *)
Theorem id_token_hides_name aplus_url lifetime iat lineitems lineitem course_name db v user user' id_token :
  shares_name (va_service v) = false -> person_id user = person_id user' -> lti_roles db v user = lti_roles db v user' ->
  person_language user = person_language user' ->
  finalize_id_token aplus_url lifetime iat lineitems lineitem course_name db v user id_token
  = finalize_id_token aplus_url lifetime iat lineitems lineitem course_name db v user' id_token.
Proof. intros Hs Hi Hr Hl. unfold finalize_id_token. by rewrite Hs, Hi, Hr, Hl. Qed.

(** ** The tokens of a tool *)

(** How the verification of a JSON web token fails. *)
Inductive JwtError := InvalidSignature | ExpiredSignature | InvalidAudience | OtherJwtError.

(** What the library reads in a token without and with verification. *)
Context (jwt_unverified : string -> option Params) (jwt_verify : string -> string -> string -> string -> option JwtError).
Context (bearer_scope : string -> option string + JwtError).

Definition jwks_url_of (s : LinkService) : string := match lti13_columns s with Some (_, _, _, j, _) => j | None => "" end.

(** src/external_services/lti1p3.py: LTI1p3TokenValidator.validate_grant_type *)
Definition validate_grant_type (client : bool) (grant_type : string) : bool := client && bool_decide (grant_type = "client_credentials").

(** src/external_services/lti1p3.py: LTI1p3TokenValidator.authenticate_client *)
Definition authenticate_client (token_url : string) (decoded_body : Params) : result bool :=
  let token := last ((fun kv => kv.2) <$> List.filter (fun kv => bool_decide (kv.1 = "client_assertion")) decoded_body) in
  if negb (given token) then Ret false
  else
    match jwt_unverified (text token) with
    | None => Raise JWTError
    | Some decoded =>
        match od_get "sub" decoded, od_get "iss" decoded with
        | Some sub, Some iss =>
            match get_one (List.filter (has_client_id sub) services) with
            | Raise DoesNotExist => Ret false
            | Raise e => Raise e
            | Ret service =>
                match jwt_verify (jwks_url_of service) token_url iss (text token) with
                | None => Ret true
                | Some ExpiredSignature | Some InvalidAudience => Ret false
                | Some _ => Raise JWTError
                end
            end
        | _, _ => Raise KeyError
        end
    end.

Definition SCOPE_LINEITEM : string := "https://purl.imsglobal.org/spec/lti-ags/scope/lineitem.readonly".
Definition SCOPE_SCORE : string := "https://purl.imsglobal.org/spec/lti-ags/scope/score".

(** src/external_services/lti1p3.py: LTI1p3TokenValidator.validate_scopes *)
Definition validate_token_scopes (scopes : list string) : bool := forallb (fun s => bool_decide (s ∈ [SCOPE_LINEITEM; SCOPE_SCORE])) scopes.

(** src/course/api/lti_views.py: CourseLineItemsViewSet.check_token_scope *)
Definition check_token_scope (is_scores : bool) (scopes : list string) : bool :=
  if is_scores then bool_decide (SCOPE_SCORE ∈ scopes) else bool_decide (SCOPE_LINEITEM ∈ scopes).

(** src/authorization/permissions.py: OAuth2TokenPermission.has_permission *)
Definition has_token_permission (is_scores : bool) (authorization : option string) : result bool :=
  if negb (given authorization) then Ret false
  else
    match split " " (text authorization) with
    | _ :: token :: _ =>
        match bearer_scope token with
        | inr OtherJwtError => Raise JWTError
        | inr _ => Ret false
        | inl scope => Ret (check_token_scope is_scores (words (text scope)))
        end
    | _ => Ret false
    end.

(** src/course/api/lti_views.py: CourseLineItemsViewSet.get_queryset *)
Definition line_items (course_id : Z) : list Lti13Exercise := List.filter (fun e => instance_id (l13_instance e) =? course_id) exercises.

(** ** The points a tool posts *)

(** src/course/api/lti_serializers.py: LTIScoresSerializer lines 34-39.  Numbers are finite. *)
Record ScoreData := mkScore {
  sc_timestamp : datetime;
  score_given : Q;
  score_maximum : Q;
  grading_progress : string;
  sc_user_id : string;
}.
Inductive ScoreBody := NotJsonBody | NotValidBody | Scores (data : ScoreData).

(** [1.0 * max_points * points / maximum] for floats. *)
Definition scaled (exercise_max : Z) (points maximum : Q) : Q := fdiv (fmul (fmul 1 (of_int exercise_max)) points) maximum.

Section Scores.
Context `{Settings} (persons : list Person) (retry : M unit).
(** Whether the database accepts the row of a new submission, and its submitter. *)
Context (row_accepted submitter_accepted : bool).

(** src/exercise/submission_models.py: Submission.set_points.  The same code when the service gives floats; the
    columns of the service's points hold integers. *)
Definition set_points_float (w : World) (exercise : BaseExercise) (self : Submission) (points service_max : Q) : result Submission :=
  let service_max := if Qeq_bool service_max 0 && negb (Qle_bool points 0) then of_int (max_points exercise) else service_max in
  if negb (Qle_bool 0 points && Qle_bool points service_max) then Raise AssertionError
  else
    let record (penalty : option Q) := set_service_points (Binary64.py_int points) (Binary64.py_int service_max) penalty in
    let self := record None self in
    let adjusted_grade := if negb (Qle_bool service_max 0) then scaled (max_points exercise) points service_max else 0%Q in
    let (timing, _) := get_timing w exercise (submitters self) (submission_time self) in
    let '(self, adjusted_grade) :=
      match timing with
      | Timing.LATE | Timing.CLOSED_AFTER =>
          let penalty := late_penalty exercise in
          (record (Some penalty) self, fsub adjusted_grade (fmul adjusted_grade penalty))
      | Timing.UNOFFICIAL => (set_unofficial UnofficialType.DEADLINE_PASSED self, adjusted_grade)
      | _ => (self, adjusted_grade)
      end in
    let self := if no_submissions_left w exercise (submitters self) then set_unofficial UnofficialType.LIMIT_EXCEEDED self else self in
    let self := set_grade (py_round adjusted_grade) self in
    if (0 <=? grade self) && (grade self <=? max_points exercise) then Ret self else Raise AssertionError.

(** src/course/api/lti_views.py: CourseLineItemsViewSet.scores lines 86-94.  The points of a submission. *)
Definition post_score (exercise : Lti13Exercise) (data : ScoreData) (sub : Submission) : M Z :=
  db ← reads (@id Db);
  sub ← lift (set_points_float (world db) exercise sub (score_given data) (score_maximum data));
  sub ← (if bool_decide (grading_progress data = "FullyGraded") then set_ready retry exercise false sub else mret sub);
  modify (Submission.save (set_grading_time (sc_timestamp data) sub));;
  mret 200.

Definition of_student (exercise : Lti13Exercise) (p : UserProfile) (s : Submission) : bool :=
  (sub_exercise s =? l13_id exercise) && submitted_by s p.

Definition of_student_in (exercise : Lti13Exercise) (p : UserProfile) (db : Db) : list Submission :=
  List.filter (of_student exercise p) (submissions db).

(** A new submission, of the students whom the table of submitters has for it. *)
Definition blank_score (exercise : Lti13Exercise) (ps : list UserProfile) (db : Db) : Submission :=
  mkSubmission (next_id db) (l13_id exercise) (now db) ps None "" SubStatus.INITIALIZED None 0 None None false 0 0 None.

(** src/course/api/lti_views.py: CourseLineItemsViewSet.scores.  The row of a new submission and
    its submitter are stored one after the other, outside a transaction. *)
Definition scores (pk : Z) (body : ScoreBody) : M Z :=
  match body with
  | NotJsonBody => mret 400
  | NotValidBody => lift (Raise (ValidationError []))
  | Scores data =>
      match get_one (List.filter (fun e => l13_id e =? pk) exercises) with
      | Raise _ => lift (Raise Http404)
      | Ret exercise =>
          match (let! n := int_of (sc_user_id data) in get_one (List.filter (fun p => person_id p =? n) persons)) with
          | Raise ValueError => mret 400
          | Raise e => lift (Raise e)
          | Ret user =>
              let p := person_profile user in
              db ← reads (@id Db);
              match of_student_in exercise p db with
              | sub :: _ =>
                  if Qeq_bool (score_maximum data) 0 then lift (Raise ZeroDivisionError)
                  else if Qle_bool (scaled (max_points exercise) (score_given data) (score_maximum data)) (inject_Z (grade sub)) then mret 200
                  else post_score exercise data sub
              | [] =>
                  if negb row_accepted then lift (Raise DatabaseError)
                  else if negb submitter_accepted
                  then modify (insert_submission (blank_score exercise [] db));; lift (Raise DatabaseError)
                  else
                    let sub := blank_score exercise [p] db in
                    modify (insert_submission sub);;
                    post_score exercise data sub
              end
          end
      end
  end.

(** *** What is posted *)

(** On integers it is [set_points]. *)
Lemma of_int_eq z : 0 <= z <= 2 ^ 53 -> of_int z = inject_Z z.
Proof.
  intros Hz. pose proof (of_int_exact z Hz) as E. unfold of_int, b64 in *. rewrite <- (Qred_complete _ _ (Qred_correct _)). 
  rewrite (Qred_complete _ _ E). unfold inject_Z, Qred. cbn. pose proof (Z.ggcd_gcd z 1) as G. pose proof (Z.ggcd_correct_divisors z 1) as D.
  destruct (Z.ggcd z 1) as [g [a b]]. cbn in *. rewrite Z.gcd_1_r in G. subst g. destruct D as [D1 D2]. rewrite Z.mul_1_l in *. by subst.
Qed.

Lemma Qle_bool_int a b : Qle_bool (inject_Z a) (inject_Z b) = (a <=? b).
Proof. apply eq_true_iff_eq. rewrite Qle_bool_iff, <- Zle_Qle, Z.leb_le. done. Qed.
Lemma Qeq_bool_int a b : Qeq_bool (inject_Z a) (inject_Z b) = (a =? b).
Proof. apply eq_true_iff_eq. rewrite Qeq_bool_iff, inject_Z_injective, Z.eqb_eq. done. Qed.
Lemma py_int_int z : Binary64.py_int (inject_Z z) = z.
Proof. apply Z.quot_1_r. Qed.

Theorem set_points_float_int w exercise self points service_max :
  0 <= points <= 2 ^ 53 -> 0 <= service_max <= 2 ^ 53 -> 0 <= max_points exercise <= 2 ^ 53 ->
  set_points_float w exercise self (of_int points) (of_int service_max) = set_points w exercise self points service_max false.
Proof.
  intros Hp Hm Hx. unfold set_points_float, set_points, effective_max, scaled, scale_points.
  rewrite (of_int_eq points), (of_int_eq service_max), (of_int_eq (max_points exercise)) by done.
  change 0%Q with (inject_Z 0). rewrite Qeq_bool_int, (Qle_bool_int points 0), <- Z.ltb_antisym.
  destruct ((service_max =? 0) && (0 <? points)) eqn:E; rewrite !Qle_bool_int, !py_int_int, <- ?Z.ltb_antisym; destruct (negb _) eqn:En; try done;
    destruct (get_timing _ _ _ _) as [[] ?]; rewrite ?(of_int_eq points), ?(of_int_eq service_max), ?(of_int_eq (max_points exercise)) by done; reflexivity.
Qed.
(** A submission that is graded with a penalty. *)
Definition late (w : World) (exercise : BaseExercise) (s : Submission) : bool :=
  match (get_timing w exercise (submitters s) (submission_time s)).1 with Timing.LATE | Timing.CLOSED_AFTER => true | _ => false end.

Lemma set_points_float_spec w exercise self points service_max self' :
  set_points_float w exercise self points service_max = Ret self' ->
  0 <= grade self' <= max_points exercise /\ sub_id self' = sub_id self /\ sub_exercise self' = sub_exercise self /\ submitters self' = submitters self /\
  submission_time self' = submission_time self /\
  (Qeq_bool service_max 0 = false -> late w exercise self = false -> grade self' = py_round (scaled (max_points exercise) points service_max)).
Proof.
  unfold set_points_float. set (sm := if Qeq_bool service_max 0 && _ then _ else _). destruct (negb (Qle_bool 0 points && _)) eqn:En; [discriminate|]. b2p.
  set (adj := if negb (Qle_bool sm 0) then _ else _). unfold late. cbn [submitters submission_time set_service_points].
  destruct (get_timing w exercise (submitters self) (submission_time self)) as [timing d] eqn:Et. cbn [fst].
  destruct (match timing with Timing.LATE => _ | _ => _ end) as [self1 adj1] eqn:E1. intros E.
  assert (Hself : sub_id self1 = sub_id self /\ sub_exercise self1 = sub_exercise self /\ submitters self1 = submitters self /\
    submission_time self1 = submission_time self).
  { destruct timing; by injection E1 as <- _. }
  destruct Hself as (Hi & He & Hs & Ht). destruct (no_submissions_left _ _ _) in E; cbn [grade set_grade set_unofficial] in E;
    (destruct (_ && _) eqn:Eb in E; [|discriminate E]); injection E as <-; b2p; cbn; (split; [lia|]); do 4 (split; [done|]);
    intros Hz Hl; assert (Ha : adj1 = adj) by (destruct timing; [..]; first [discriminate Hl|by injection E1 as _ <-]); subst adj1; f_equal;
    unfold adj; assert (Hsm : sm = service_max) by (unfold sm; by rewrite Hz); rewrite Hsm in *;
    (destruct (Qle_bool service_max 0) eqn:Eq; [|done]); exfalso; apply Qle_bool_iff in Eq;
    repeat match goal with H : Qle_bool _ _ = true |- _ => apply Qle_bool_iff in H end;
    apply not_true_iff_false in Hz; apply Hz, Qeq_bool_iff; lra.
Qed.

(** A tool that posts more points than the student has does not lower the grade of a
    submission that was not late. *)
Lemma score_never_lowers w exercise sub points maximum sub' :
  set_points_float w exercise sub points maximum = Ret sub' -> Qeq_bool maximum 0 = false -> late w exercise sub = false ->
  Qle_bool (scaled (max_points exercise) points maximum) (inject_Z (grade sub)) = false -> grade sub <= grade sub'.
Proof.
  intros E Hz Hl Hq. apply set_points_float_spec in E as (_ & _ & _ & _ & _ & E). rewrite E by done.
  rewrite <- (py_round_int (grade sub)). apply py_round_mono. apply not_true_iff_false in Hq. apply Qlt_le_weak, Qnot_le_lt. intros H'.
  by apply Hq, Qle_bool_iff.
Qed.

Lemma save_in s db : sub_id s ∈ row_ids db -> s ∈ submissions (Submission.save s db).
Proof.
  intros (t & Hid & Ht)%list_elem_of_fmap. cbn. apply list_elem_of_fmap. exists t. split; [|done]. by rewrite Hid, Z.eqb_refl.
Qed.

Lemma set_points_float_owner w exercise self points service_max self' :
  set_points_float w exercise self points service_max = Ret self' -> owner self' = owner self.
Proof. intros (_ & Hi & He & Hs & _)%set_points_float_spec. unfold owner. by rewrite Hi, He, Hs. Qed.

(** Only the status and the time of grading change when a submission becomes ready. *)
Lemma set_ready_grade exercise approve s1 s2 db db2 :
  set_ready retry exercise approve s1 db = (Ret s2, db2) -> grade s2 = grade s1 /\ submission_time s2 = submission_time s1.
Proof.
  unfold set_ready, mbind, M_bind, reads, modify, mret, M_ret. cbn. destruct (is_grader_stable _); cbn.
  - intros [= <- _]. by destruct (_ || _).
  - destruct (retry _) as [[[]|] db3]; [|discriminate]. intros [= <- _]. by destruct (_ || _).
Qed.

(** The points are within the limits, and those that were posted unless the submission is late. *)
Definition posted_points (db : Db) (exercise : Lti13Exercise) (data : ScoreData) (row : Submission) : Prop :=
  0 <= grade row <= max_points exercise /\
  (Qeq_bool (score_maximum data) 0 = false -> late db exercise row = false ->
   grade row = py_round (scaled (max_points exercise) (score_given data) (score_maximum data))).

Section Posting.
Context (retry_keeps : keeps_owners distinct_rows retry).

Lemma post_score_owners exercise data sub db :
  distinct_rows (owners db) /\ owned sub (owners db) -> owners (post_score exercise data sub db).2 = owners db.
Proof.
  apply (keeps_owners_bind (fun l => distinct_rows l /\ owned sub l)); [by apply keeps_owners_same|]. intros db1 _.
  apply keeps_owners_bind; [by apply keeps_owners_same|]. intros s1 (d1 & d2 & E1).
  assert (Ho : owner s1 = owner sub).
  { unfold lift in E1. destruct (set_points_float _ _ _ _ _) as [s|] eqn:Es; [|discriminate E1]. injection E1 as <- _. by eapply set_points_float_owner. }
  apply keeps_owners_bind.
  - destruct (bool_decide _); [|by apply keeps_owners_same]. apply (keeps_owners_set_ready retry (fun l => distinct_rows l /\ owned sub l)).
    eapply keeps_owners_weaken; [|exact retry_keeps]. by intros l [? _].
  - intros s2 (d3 & d4 & E2). assert (Ho2 : owner s2 = owner s1).
    { destruct (bool_decide _); [by eapply set_ready_owner; eexists _, _|by injection E2 as <- _]. }
    apply keeps_owners_bind; [|intros; by apply keeps_owners_same].
    apply (keeps_owners_save _ sub); [by intros l [_ ?]|]. rewrite <- Ho, <- Ho2. done.
Qed.

Lemma row_ids_owners db : row_ids db = (owners db).*1.*1.
Proof. unfold row_ids, owners. by rewrite <- !list_fmap_compose. Qed.

Lemma post_score_spec exercise data sub db r db' :
  distinct_rows (owners db) /\ owned sub (owners db) -> post_score exercise data sub db = (r, db') ->
  owners db' = owners db /\
  (r = Ret 200 -> sub_id sub ∈ row_ids db ->
   exists sub' row, set_points_float db exercise sub (score_given data) (score_maximum data) = Ret sub' /\ row ∈ submissions db' /\
     grade row = grade sub' /\ owner row = owner sub /\ posted_points db exercise data row).
Proof.
  intros Hd E. pose proof (post_score_owners exercise data sub db Hd) as Ho. rewrite E in Ho. split; [exact Ho|].
  intros -> Hin. revert E. unfold post_score, mbind, M_bind, reads, lift. cbn [id].
  destruct (set_points_float _ _ _ _ _) as [s1|e] eqn:Es; [|discriminate].
  pose proof (set_points_float_owner _ _ _ _ _ _ Es) as Ho1. apply set_points_float_spec in Es as Hs.
  destruct Hs as (Hb & _ & _ & _ & Ht & Hg).
  destruct ((if bool_decide (grading_progress data = "FullyGraded") then set_ready retry exercise false s1 else mret s1) db) as [[s2|e] db2] eqn:E2; [|discriminate]. unfold modify, mret, M_ret. intros [= <-].
  assert (Hs2 : owner s2 = owner s1 /\ grade s2 = grade s1 /\ submission_time s2 = submission_time s1).
  { destruct (bool_decide _); [|by injection E2 as <- _]. split; [by eapply set_ready_owner; eexists _, _|by eapply set_ready_grade]. }
  destruct Hs2 as (Ho2 & Hg2 & Ht2). set (row := set_grading_time (sc_timestamp data) s2).
  assert (Hrow : owner row = owner sub) by (rewrite <- Ho1, <- Ho2; done). pose proof Hrow as [= Hi _ Hsub].
  exists s1, row. split; [done|]. split.
  - apply save_in. change (sub_id row ∈ row_ids db2). rewrite <- (save_ids row), row_ids_owners.
    cbn [snd] in Ho. unfold row at 2. rewrite Ho, <- row_ids_owners. change (sub_id row) with (sub_id s2). by rewrite Hi.
  - split; [done|]. split; [exact Hrow|]. split; [change (grade row) with (grade s2); by rewrite Hg2|].
    intros Hz Hl. change (grade row) with (grade s2). rewrite Hg2. apply Hg; [done|]. rewrite <- Hl. unfold late. change (submitters row) with (submitters s2). rewrite Hsub.
    change (submission_time row) with (submission_time s2). by rewrite Ht2, Ht.
Qed.

(** The user whom posted points name, by the number in the request. *)
Definition names_user (data : ScoreData) (user : Person) : Prop :=
  user ∈ persons /\ py_int other 10 (sc_user_id data) = Some (person_id user).

Lemma user_found data user :
  (let! n := int_of (sc_user_id data) in get_one (List.filter (fun p => person_id p =? n) persons)) = Ret user -> names_user data user.
Proof.
  unfold int_of, names_user. destruct (py_int _ _ _) as [n|]; [|discriminate]. cbn.
  intros [Hin Hn]%get_one_in%list_elem_of_In%filter_In. b2p. rewrite list_elem_of_In. by subst.
Qed.

Lemma in_of_student exercise p db sub :
  sub ∈ of_student_in exercise p db -> sub ∈ submissions db /\ of_student exercise p sub = true.
Proof. intros [? ?]%list_elem_of_In%filter_In. by rewrite list_elem_of_In. Qed.

Lemma of_student_owner exercise p s s' : owner s = owner s' -> of_student exercise p s = of_student exercise p s'.
Proof. intros [= _ He Hs]. unfold of_student, submitted_by. by rewrite He, Hs. Qed.

(** A new submission is the only one with its id, and of its student. *)
Lemma blank_score_owned exercise ps db :
  NoDup (row_ids db) -> let s := blank_score exercise ps db in
  distinct_rows (owners (insert_submission s db)) /\ owned s (owners (insert_submission s db)).
Proof.
  intros Hnd s. assert (Hd : distinct_rows (owners (insert_submission s db))).
  { unfold distinct_rows. rewrite <- row_ids_owners. change (row_ids (insert_submission s db)) with (next_id db :: row_ids db).
    apply NoDup_cons. split; [exact (next_id_fresh db)|done]. }
  split; [done|]. apply row_owned; [done|]. by left.
Qed.

Lemma blank_score_student exercise p db : of_student exercise p (blank_score exercise [p] db) = true.
Proof. unfold of_student, submitted_by. cbn. rewrite Z.eqb_refl. cbn. apply bool_decide_eq_true. unfold profile_set. cbn. set_solver. Qed.

(** C36. What posted points do, whatever the retry task does that keeps whose the
    submissions are, as [Frame] shows of it.  Either the tool gets an error and no submission is added or
    given to others, or the request names by its number a user, and its address
    an exercise, such that: a submission is added exactly when the user has none in
    the exercise, and it is that user's, unless the database fails between its
    two writes and leaves one of nobody; and the answer 200 leaves the user with
    a submission in the exercise that is as it was, or whose points are within
    the limits and, unless it is late, those that were posted; and these are not
    fewer than the newest submission had before, unless that one was late. *)
Theorem scores_outcome pk body db r db' :
  NoDup (row_ids db) -> scores pk body db = (r, db') ->
  (r <> Ret 200 /\ owners db' = owners db) \/
  exists data exercise user, body = Scores data /\ names_user data user /\ exercise ∈ exercises /\ l13_id exercise = pk /\
    let student := person_profile user in let mine := of_student_in exercise student db in
    (mine <> [] /\ owners db' = owners db \/
     mine = [] /\ owners db' = (next_id db, pk, [student]) :: owners db \/
     mine = [] /\ owners db' = (next_id db, pk, []) :: owners db /\ r = Raise DatabaseError) /\
    (r = Ret 200 ->
     exists row, row ∈ submissions db' /\ of_student exercise student row = true /\
       (row ∈ submissions db \/ posted_points db exercise data row) /\
       (forall old, head mine = Some old -> late db exercise old = false -> grade old <= grade row)).
Proof.
  intros Hnd. unfold scores. destruct body as [| |data]; [intros [= <- <-]; by left..|].
  destruct (get_one _) as [exercise|] eqn:Ee; [|intros [= <- <-]; by left].
  apply get_one_in, list_elem_of_In, filter_In in Ee as [Hex Hpk]. apply list_elem_of_In in Hex. apply Z.eqb_eq in Hpk.
  destruct (let! n := int_of _ in _) as [user|e] eqn:Eu; [|destruct e; intros [= <- <-]; by left].
  apply user_found in Eu as Hu. set (p := person_profile user).
  assert (Hd : distinct_rows (owners db)) by (unfold distinct_rows; by rewrite <- row_ids_owners).
  unfold mbind at 1, M_bind at 1, reads at 1. cbn [id]. destruct (of_student_in exercise p db) as [|sub rest] eqn:Eo.
  - destruct row_accepted; cbn [negb]; [|intros [= <- <-]; by left]. destruct submitter_accepted; cbn [negb].
    + unfold mbind at 1, M_bind at 1, modify at 1. set (new := blank_score exercise [p] db). intros E.
      apply post_score_spec in E as [Hown Hrow]; [|by apply blank_score_owned].
      right. exists data, exercise, user. do 4 (split; [done|]). cbn zeta. fold p. rewrite Eo.
      split; [right; left; split; [done|]; rewrite Hown; unfold new; by rewrite <- Hpk|].
      intros Hr. destruct (Hrow Hr) as (s1 & row & Es & Hin & Hg & Ho & Hp); [by left|].
      exists row. split; [done|]. split; [rewrite (of_student_owner _ _ _ new Ho); apply blank_score_student|].
      split; [right; exact Hp|done].
    + intros [= <- <-]. right. exists data, exercise, user. do 4 (split; [done|]). cbn zeta. fold p. rewrite Eo.
      split; [right; right; split; [done|]; by rewrite <- Hpk|discriminate].
  - destruct (in_of_student exercise p db sub) as [Hin Hof]; [rewrite Eo; by left|].
    destruct (Qeq_bool _ 0) eqn:Ez; [intros [= <- <-]; by left|]. intros E. right.
    exists data, exercise, user. do 4 (split; [done|]). cbn zeta. fold p. rewrite Eo. destruct (Qle_bool _ _) eqn:Eq.
    + injection E as <- <-. split; [by left|]. intros _. exists sub. do 2 (split; [done|]). split; [by left|]. intros old [= <-] _. lia.
    + apply post_score_spec in E as [Hown Hrow]; [|split; [done|by apply row_owned]]. split; [by left|]. intros Hr.
      destruct (Hrow Hr) as (s1 & row & Es & Hin' & Hg & Ho & Hp); [by apply list_elem_of_fmap_2|].
      exists row. split; [done|]. split; [by rewrite (of_student_owner _ _ _ sub Ho)|]. split; [by right|].
      intros old [= <-] Hl. rewrite Hg. by eapply score_never_lowers.
Qed.
End Posting.
End Scores.
End Platform.

(** ** The system as a tool of another platform *)

Inductive LaunchKind := ResourceLaunch | DeepLinkLaunch | OtherLaunch.

(** What a platform says of a user and of the place in the course; a value that is not there is None. *)
Record LaunchData := mkLaunchData {
  ld_username : option string;
  ld_email : option string;
  ld_given_name : option string;
  ld_family_name : option string;
  ld_locale : option string;
  ld_sourcedid : option string;
  ld_custom : option Params;
  ld_roles : option (list string);
  ld_sub : option string;
  ld_kind : LaunchKind;
}.

(** Where the browser is sent. *)
Inductive Target :=
| ToExercise (path module course instance : string)
| ToModule (module course instance : string)
| ToCourse (course instance : string)
| ToSelectContent.

(** The accounts, the enrollments, and the user of the session. *)
Record ToolState := mkTool {
  ts_persons : list Person;
  ts_enrollments : EnrollmentDB;
  ts_session : option Z;
}.

(** [data[key]] *)
Definition at_key {A} (v : option A) : result A := match v with Some a => Ret a | None => Raise KeyError end.

Section Tool.
Context `{Settings} (instances : list CourseInstance) (course_slug : CourseInstance -> string).

(** src/lti_tool/views.py: LtiLaunchView.post lines 63-69 *)
Definition launch_username (d : LaunchData) : result string :=
  match ld_username d with Some u => Ret u | None => at_key (ld_email d) end.

Definition new_account (persons : list Person) (username email first last : string) : Person :=
  let i := 1 + maxZ 0 (person_id <$> persons) in
  let pi := 1 + maxZ 0 (person_profile_id <$> persons) in
  mkPerson (mkUser i false false (mkProfile pi None "")) username first last email "" "".

(** The profile of a new account, when all of it is known. *)
Definition with_profile (language student_number : string) (p : Person) : Person :=
  let u := person_user p in
  mkPerson (mkUser (user_id u) (is_superuser u) (is_staff u) (mkProfile (profile_id (userprofile u)) (Some student_number) (organization (userprofile u))))
    (person_username p) (first_name p) (last_name p) (person_email p) (api_token p) language.

(** src/lti_tool/views.py: LtiLaunchView.post lines 63-88.  The account of the launch, which is
    made when there is none; it is stored before the profile is read from the data. *)
Definition launch_user (d : LaunchData) (persons : list Person) : result Person * list Person :=
  match launch_username d with
  | Raise e => (Raise e, persons)
  | Ret username =>
      match get_one (List.filter (fun p => bool_decide (person_username p = username)) persons) with
      | Ret p => (Ret p, persons)
      | Raise DoesNotExist =>
          match ld_email d, ld_given_name d, ld_family_name d with
          | Some email, Some first, Some last =>
              let p := new_account persons username email first last in
              match ld_locale d, ld_sourcedid d with
              | Some language, Some number => let p := with_profile language number p in (Ret p, persons ++ [p])
              | _, _ => (Raise KeyError, persons ++ [p])
              end
          | _, _, _ => (Raise KeyError, persons)
          end
      | Raise e => (Raise e, persons)
      end
  end.

(** src/lti_tool/views.py: LtiLaunchView.post lines 104-119 *)
Definition launch_target (params : Params) : result Target :=
  let key k := at_key (od_get k params) in
  if bool_decide (is_Some (od_get "exercise_path" params)) then
    let! path := key "exercise_path" in let! module := key "module_slug" in
    let! course := key "course_slug" in let! instance := key "instance_slug" in Ret (ToExercise path module course instance)
  else if bool_decide (is_Some (od_get "module_slug" params)) then
    let! module := key "module_slug" in let! course := key "course_slug" in let! instance := key "instance_slug" in Ret (ToModule module course instance)
  else if bool_decide (is_Some (od_get "course_slug" params)) && bool_decide (is_Some (od_get "instance_slug" params)) then
    let! course := key "course_slug" in let! instance := key "instance_slug" in Ret (ToCourse course instance)
  else Raise LtiException.

Definition LEARNER : string := "http://purl.imsglobal.org/vocab/lis/v2/membership#Learner".

(** src/lti_tool/views.py: LtiLaunchView.post lines 93-119.  A launch of a page of a course. *)
Definition resource_launch (d : LaunchData) (user : Person) (db : EnrollmentDB) : result Target * EnrollmentDB :=
  match
    (let! params := at_key (ld_custom d) in
     let! course := at_key (od_get "course_slug" params) in
     let! slug := at_key (od_get "instance_slug" params) in
     match List.filter (fun i => bool_decide (course_slug i = course) && bool_decide (instance_url i = slug)) instances with
     | [instance] => let! roles := at_key (ld_roles d) in Ret (params, instance, roles)
     | _ :: _ => Raise MultipleObjectsReturned
     | [] => Raise Http404
     end)
  with
  | Raise e => (Raise e, db)
  | Ret (params, instance, roles) =>
      match lti_launch instance (person_user user) (bool_decide (LEARNER ∈ roles)) db with
      | Raise e => (Raise e, db)
      | Ret db => (launch_target params, db)
      end
  end.

(** src/lti_tool/views.py: LtiLaunchView.post.  The message has been verified. *)
Definition launch (d : LaunchData) (st : ToolState) : result Target * ToolState :=
  match launch_user d (ts_persons st) with
  | (Raise e, persons) => (Raise e, mkTool persons (ts_enrollments st) (ts_session st))
  | (Ret user, persons) =>
      let session := Some (person_id user) in
      match ld_kind d with
      | ResourceLaunch =>
          let '(r, db) := resource_launch d user (ts_enrollments st) in (r, mkTool persons db session)
      | DeepLinkLaunch => (Ret ToSelectContent, mkTool persons (ts_enrollments st) session)
      | OtherLaunch => (Raise LtiException, mkTool persons (ts_enrollments st) session)
      end
  end.

(** src/lti_tool/utils.py: has_lti_access_to_course.  The scope of the view, or the launch of the session. *)
Definition has_lti_access_to_course (lti_scope : option Params) (launch : option LaunchData) (target : CourseInstance) : bool :=
  let scope := match lti_scope with
               | Some (x :: l) => Some (x :: l)
               | _ => match launch with
                      | Some d => match ld_custom d with Some (x :: l) => Some (x :: l) | _ => None end
                      | None => None
                      end
               end in
  match scope with
  | None => false
  | Some s => bool_decide (od_get "course_slug" s = Some (course_slug target)) && bool_decide (od_get "instance_slug" s = Some (instance_url target))
  end.

(** src/lti_tool/utils.py: send_lti_points lines 113-119.  The grade a platform is sent. *)
Record LtiGrade := mkGrade { gr_score : Z; gr_maximum : Z; gr_time : datetime; gr_user : option string; gr_tag : string }.

(** src/lti_tool/utils.py: send_lti_points.  [best] is the best submission of the user as the points
    cache shows it, points and time; None is that nothing is sent. *)
Definition send_lti_points (best : BaseExercise -> Person -> option (Z * datetime)) (persons : list Person) (db : EnrollmentDB)
    (launch : option LaunchData) (exercise : BaseExercise) : result (option LtiGrade) :=
  match launch with
  | None => Ret None
  | Some d =>
      let! username := launch_username d in
      match get_one (List.filter (fun p => bool_decide (person_username p = username)) persons) with
      | Raise DoesNotExist => Ret None
      | Raise e => Raise e
      | Ret user =>
          if is_teacher (lobj_instance exercise) db (NormalUser (person_user user)) then Ret None
          else match best exercise user with
               | None => Ret None
               | Some (points, time) => Ret (Some (mkGrade points (max_points exercise) time (ld_sub d) (str_of_Z (exercise_id exercise))))
               end
      end
  end.

(** A row of the grade book that is asked for. *)
Record LineItem := mkItem { li_tag : string; li_maximum : Z }.
Definition line_item (e : BaseExercise) : LineItem := mkItem (str_of_Z (exercise_id e)) (max_points e).

(** src/lti_tool/views.py: LtiSelectCourseView.post lines 258-267.  The rows that are asked for; the view of a
    module does the same with its exercises. *)
Definition course_line_items (existing : list string) (exercises : list BaseExercise) : list LineItem :=
  line_item <$> List.filter (fun e => (0 <? max_points e) && negb (bool_decide (str_of_Z (exercise_id e) ∈ existing))) exercises.

(** A learning object: one without points, such as a chapter, or an exercise. *)
Inductive Child := Pointless (id : Z) | WithPoints (e : BaseExercise).

(** src/lti_tool/views.py: LtiSelectExerciseView.post lines 338-356 *)
Fixpoint children_line_items (children : list Child) : result (list LineItem) :=
  match children with
  | [] => Ret []
  | Pointless _ :: _ => Raise AttributeError
  | WithPoints e :: children =>
      let! rest := children_line_items children in
      Ret ((if 0 <? max_points e then [line_item e] else []) ++ rest)
  end.
Definition exercise_line_items (self : Child) (children : list Child) : result (list LineItem) :=
  match children with
  | [] => Ret match self with WithPoints e => if 0 <? max_points e then [line_item e] else [] | Pointless _ => [] end
  | _ => children_line_items children
  end.

Lemma enroll_student_others self u db b db' key :
  enroll_student self (NormalUser u) false false db = Ret (b, db') -> key.2 <> profile_id (userprofile u) -> db' !! key = db !! key.
Proof.
  unfold enroll_student. intros E Hk. assert (Hne : (instance_id self, profile_id (userprofile u)) <> key) by (intros <-; by apply Hk).
  repeat (break_hyp E; try discriminate E); injection E as <- <-; by rewrite ?lookup_insert_ne.
Qed.

Lemma launch_user_accounts d persons r persons' :
  launch_user d persons = (r, persons') ->
  (persons' = persons \/ exists p username, persons' = persons ++ [p] /\ launch_username d = Ret username /\ person_username p = username /\
     Forall (fun q => person_username q <> username) persons /\ (person_id p ∉ person_id <$> persons) /\ (person_profile_id p ∉ person_profile_id <$> persons)) /\
  (forall p, r = Ret p -> p ∈ persons' /\ launch_username d = Ret (person_username p)).
Proof.
  unfold launch_user. destruct (launch_username d) as [username|]; [|intros [= <- <-]; split; [by left|intros p [=]]].
  destruct (get_one _) as [p|e] eqn:Eg.
  { intros [= <- <-]. split; [by left|]. intros q [= <-]. apply get_one_in, list_elem_of_In, filter_In in Eg as [Hin Hb]. b2p.
    rewrite list_elem_of_In. by subst. }
  destruct e; try (intros [= <- <-]; split; [by left|intros p [=]]).
  assert (Hnone : Forall (fun q => person_username q <> username) persons).
  { apply Forall_forall. intros q Hq E. destruct (List.filter _ persons) as [|x [|]] eqn:Ef; [|discriminate Eg..].
    assert (Hf : q ∈ List.filter (fun p => bool_decide (person_username p = username)) persons)
      by (apply list_elem_of_In, filter_In; split; [by apply list_elem_of_In|by apply bool_decide_eq_true]).
    rewrite Ef in Hf. by apply elem_of_nil in Hf. }
  destruct (ld_email d) as [email|]; [|intros [= <- <-]; split; [by left|intros p [=]]].
  destruct (ld_given_name d) as [first|]; [|intros [= <- <-]; split; [by left|intros p [=]]].
  destruct (ld_family_name d) as [last|]; [|intros [= <- <-]; split; [by left|intros p [=]]].
  assert (Hfresh : forall p, p = new_account persons username email first last ->
    (person_id p ∉ person_id <$> persons) /\ (person_profile_id p ∉ person_profile_id <$> persons)).
  { intros p ->. split; apply fresh_id. }
  destruct (Hfresh _ eq_refl) as [Hf1 Hf2].
  destruct (ld_locale d) as [language|], (ld_sourcedid d) as [number|]; intros [= <- <-];
    (split; [right; eexists _, username; split; [reflexivity|]; by split_and!|]);
    [|intros p E; discriminate E..].
  intros q [= <-]. split; [|done]. apply elem_of_app. right. by left.
Qed.

(** A launch leaves the accounts alone, but for a new one with the name of the user, and
    the enrollments of all other users; the session belongs to the account
    with the name that the platform gave. *)
Theorem launch_touches_one_user d st r st' :
  launch d st = (r, st') ->
  (ts_persons st' = ts_persons st \/ exists p, ts_persons st' = ts_persons st ++ [p] /\ launch_username d = Ret (person_username p) /\
     Forall (fun q => person_username q <> person_username p) (ts_persons st)) /\
  (ts_session st' = ts_session st /\ ts_enrollments st' = ts_enrollments st \/
   exists user, user ∈ ts_persons st' /\ launch_username d = Ret (person_username user) /\ ts_session st' = Some (person_id user) /\
     forall key, key.2 <> person_profile_id user -> ts_enrollments st' !! key = ts_enrollments st !! key).
Proof.
  unfold launch. destruct (launch_user d (ts_persons st)) as [[user|e] persons] eqn:Eu;
    pose proof (launch_user_accounts _ _ _ _ Eu) as [Hacc Huser]; intros E.
  - destruct (Huser user eq_refl) as [Hin Hname].
    assert (Hst : ts_persons st' = persons /\ ts_session st' = Some (person_id user) /\
      forall key, key.2 <> person_profile_id user -> ts_enrollments st' !! key = ts_enrollments st !! key).
    { destruct (ld_kind d); [|by injection E as <- <-..].
      destruct (resource_launch d user (ts_enrollments st)) as [r1 db1] eqn:Er. injection E as <- <-. cbn. split; [done|]. split; [done|]. intros key Hk.
      unfold resource_launch in Er. destruct (let! params := _ in _) as [[[params instance] roles]|]; [|by injection Er as _ <-].
      destruct (lti_launch _ _ _ _) as [db2|] eqn:El; [|by injection Er as _ <-]. injection Er as _ <-. unfold lti_launch in El.
      destruct (_ && _) in El; [|by injection El as <-]. destruct (enroll_student _ _ _ _ _) as [[b db3]|] eqn:Ee; [|discriminate El].
      injection El as <-. by eapply enroll_student_others. }
    destruct Hst as (Hp & Hs & He). rewrite Hp. split.
    + destruct Hacc as [->|(p & u & -> & Hu & Hpu & Hall & _)]; [by left|right]. exists p. subst u. done.
    + right. exists user. done.
  - injection E as <- <-. cbn. split; [|by left]. destruct Hacc as [->|(p & u & -> & Hu & Hpu & Hall & _)]; [by left|right]. exists p. by subst u.
Qed.
End Tool.

(** ** Examples *)

Module Sample.
#[local] Existing Instance example_settings.

Definition tool : LinkService := mkService 3 "https://lti.example/" 1 "" "Tool" "globe" true (LTI1p3Service "https://lti.example/login" "client" "d1" "https://lti.example/jwks" false).
Definition exercise : Lti13Exercise := mkLti13Exercise (example_exercise 1 2) 3 "a=1  b=2 bad" false.
Definition ann : Person := Services.Sample.ann.
Definition bob : Person := Services.Sample.bob.
Definition no_int (base : Z) (s : string) : option Z := None.
Definition validator (user : option Person) (params : Params) (hint : option string) : result Validator :=
  auth_validator no_int [tool] [l13_instance exercise] [exercise] user params hint.

Lemma login_roundtrip_witness :
  exists ps, prepare_initiate_login "https://plus" tool (Some ann) (l13_instance exercise) (Some exercise) = Ret ps /\
    match validator (Some bob) ps (od_get "lti_message_hint" ps) with
    | Ret v => validate_user_match no_int v = Ret false /\ va_exercise v = Some exercise
    | Raise _ => False
    end.
Proof.
  destruct (login_roundtrip no_int [tool] [l13_instance exercise] [exercise] "https://plus" tool ann bob exercise) as (ps & E1 & E2 & E3).
  - by left.
  - apply (bool_decide_unpack _). vm_compute. exact I.
  - constructor; [by eexists|constructor].
  - discriminate.
  - by left.
  - apply (bool_decide_unpack _). vm_compute. exact I.
  - vm_compute. discriminate.
  - by left.
  - apply (bool_decide_unpack _). vm_compute. exact I.
  - vm_compute. discriminate.
  - vm_compute. discriminate.
  - exists ps. split; [exact E1|]. unfold validator. rewrite E2. split; [exact E3|reflexivity].
Defined.

(** A hint that is not a number raises an exception that the view does not handle. *)
Lemma unreadable_hint_raises : validator (Some ann) [("client_id", "client")] (Some "x:1") = Raise ValueError.
Proof. vm_compute. reflexivity. Qed.

Example custom_params_example : custom_params (custom exercise) = [("a", JText "1"); ("b", JText "2")].
Proof. vm_compute. reflexivity. Qed.

(** A bearer token that cannot be decoded raises instead of being refused. *)
Lemma broken_bearer_token_raises : has_token_permission (fun _ => inr OtherJwtError) true (Some "Bearer x") = Raise JWTError.
Proof. vm_compute. reflexivity. Qed.

Definition db (t : datetime) (subs : list Submission) : Db :=
  mkDb (mkWorld (enrollments (Services.Sample.db [])) [] subs [] [] (user_of (Services.Sample.db [])) t) ∅ [] [] [] [] [].
Definition open_time : datetime := now (Services.Sample.db []).
Definition late_time : datetime := days 2 + 1.
Definition score (given maximum : Q) (user : string) : ScoreBody := Scores (mkScore 5 given maximum "FullyGraded" user).
Definition post_with (submitter_accepted : bool) (body : ScoreBody) (d : Db) : result Z * Db :=
  scores no_int [exercise] [ann; bob] no_retry true submitter_accepted 1 body d.
Definition post := post_with true.

Lemma no_retry_keeps : keeps_owners distinct_rows no_retry.
Proof. by apply keeps_owners_same. Qed.

(** Seven points of ten on time, and then five. *)
Lemma scores_outcome_witness :
  let db1 := (post (score 7 10 "1") (db open_time [])).2 in let db2 := (post (score 5 10 "1") db1).2 in
  owners db2 = [(1, 1, [person_profile ann])] /\
  exists row, row ∈ submissions db2 /\ of_student exercise (person_profile ann) row = true /\ 7 <= grade row.
Proof.
  intros db1 db2. split; [vm_compute; reflexivity|].
  destruct (scores_outcome no_int [exercise] [ann; bob] no_retry true true no_retry_keeps 1 (score 5 10 "1") db1 (Ret 200) db2)
    as [[Hn _]|(data & e & u & [= <-] & [Hu Hn] & He & _ & _ & H2)].
  - apply (bool_decide_unpack _). vm_compute. exact I.
  - apply Services.Sample.surjective_pairing_eq. vm_compute. reflexivity.
  - by destruct Hn.
  - destruct (H2 eq_refl) as (row & Hrow & Hof & _ & Hle). exists row. split; [exact Hrow|].
    apply list_elem_of_singleton in He as ->. apply elem_of_cons in Hu as [->|Hu].
    + split; [exact Hof|]. apply (Hle (default (blank_score exercise [person_profile ann] db1) (head (submissions db1)))); vm_compute; reflexivity.
    + apply list_elem_of_singleton in Hu as ->. vm_compute in Hn. discriminate Hn.
Defined.

(** When the database fails between the two writes, a submission of nobody stays; the next request
    of the tool adds another. *)
Lemma failed_score_leaves_submission :
  let '(r, d) := post_with false (score 7 10 "1") (db open_time []) in
  r = Raise DatabaseError /\ owners d = [(1, 1, [])] /\
  owners (post (score 7 10 "1") d).2 = [(2, 1, [person_profile ann]); (1, 1, [])].
Proof. vm_compute. by repeat split. Qed.

(** A late student with eight points has four after the penalty; five points of the tool
    count as more, and leave two. *)
Lemma late_score_lowers_grade :
  let db1 := (post (score 8 10 "1") (db late_time [])).2 in
  grade <$> submissions db1 = [4] /\ grade <$> submissions (post (score 5 10 "1") db1).2 = [2].
Proof. vm_compute. by split. Qed.

(** Points above the maximum are refused by an exception, and leave a submission without points. *)
Lemma refused_score_leaves_submission :
  let '(r, d) := post (score 11 10 "1") (db open_time []) in
  r = Raise AssertionError /\ sub_status <$> submissions d = [SubStatus.INITIALIZED].
Proof. vm_compute. by split. Qed.

(** A user who does not exist raises an exception; so does a maximum of zero, the second time. *)
Lemma unknown_user_raises : (post (score 1 10 "77") (db open_time [])).1 = Raise DoesNotExist.
Proof. vm_compute. reflexivity. Qed.
Lemma zero_maximum_raises :
  (post (score 0 0 "1") (post (score 0 0 "1") (db open_time [])).2).1 = Raise ZeroDivisionError.
Proof. vm_compute. reflexivity. Qed.

(** A launch without the locale of the user raises after the account is made; the
    next launch opens the account as it is. *)
Definition launch_data (locale : option string) : LaunchData :=
  mkLaunchData (Some "eve") (Some "eve@x") (Some "Eve") (Some "E") locale (Some "123") None None None DeepLinkLaunch.
Lemma incomplete_launch_leaves_account :
  let '(r, st) := launch [] instance_url (launch_data None) (mkTool [] ∅ None) in
  r = Raise KeyError /\ (person_username <$> ts_persons st) = ["eve"] /\ ts_session st = None /\
  (launch [] instance_url (launch_data None) st).1 = Ret ToSelectContent.
Proof. vm_compute. by repeat split. Qed.

(** The chapters among the children of a page have no points: choosing the page fails. *)
Lemma chapter_among_children_raises : exercise_line_items (Pointless 1) [WithPoints (example_exercise 1 2); Pointless 2] = Raise AttributeError.
Proof. vm_compute. reflexivity. Qed.
End Sample.
