(* ===== verification/EditCourse.v ===== *)
(** * Editing a course

    The pages under [edit_course/]: the numbering and listing of the content
    ([EditContentView]), the forms for categories, modules and learning objects
    with their managers ([managers.py], [ModelEditView], [ModelDeleteView]), the
    settings of a course instance ([CourseInstanceForm]), reveal rules
    ([RevealRuleForm]), tags, and the pages that clone a course, configure its
    content or register it at the Git manager.

    The tables are lists of rows.  Answers of the Git manager and results of form
    validation are arguments.  A message is the key of its text. *)

From Stdlib Require Import Ascii.
From S2P Require Import Prelude Lists Helpers Course Reveal ConfigDiff Configure Models Hierarchy Codes Clone.
#[local] Open Scope string_scope.
#[local] Open Scope list_scope.
#[local] Open Scope Z_scope.

(** ** The content page *)

(** The order column of the learning objects. *)
Abbreviation Orders := (gmap Z Z).

Section Renumber.
(** [entry['id']] *)
Context (getitem : Entry -> result Z).

(** [model = LearningObject.objects.get(id=...); model.order = n; model.save()] *)
Definition set_order (orders : Orders) (i n : Z) : result Orders :=
  match orders !! i with
  | Some _ => Ret (<[i := n]> orders)
  | None => Raise DoesNotExist
  end.

(** src/edit_course/views.py: EditContentView.renumber_recursion *)
Fixpoint renumber_recursion (parent : Entry) (n : Z) (orders : Orders) : result (Z * Orders) :=
  match parent with
  | Ent _ kids =>
      (fix go (cs : list Entry) (n : Z) (orders : Orders) {struct cs} : result (Z * Orders) :=
         match cs with
         | [] => Ret (n, orders)
         | entry :: cs =>
             let! i := getitem entry in
             let! orders := set_order orders i n in
             let! (_, orders) := renumber_recursion entry 1 orders in
             go cs (n + 1) orders
         end) kids n orders
  end.

(** src/edit_course/views.py: EditContentView.form_valid lines 106-108 *)
Fixpoint renumber_modules (modules : list Entry) (orders : Orders) : result Orders :=
  match modules with
  | [] => Ret orders
  | m :: ms => let! (_, orders) := renumber_recursion m 1 orders in renumber_modules ms orders
  end.

(** src/edit_course/views.py: EditContentView.form_valid lines 109-114.  A hidden module
    is numbered too, but the next one continues from the number before it. *)
Fixpoint renumber_course (hidden : Z -> bool) (modules : list Entry) (n : Z) (orders : Orders) : result Orders :=
  match modules with
  | [] => Ret orders
  | m :: ms =>
      let! (nn, orders) := renumber_recursion m n orders in
      renumber_course hidden ms (if hidden (entry_id m) then n else nn) orders
  end.
End Renumber.

Inductive ContentAction := RenumberModule | RenumberCourse | OnlySave.

(** The entries of the content cache are objects without [__getitem__]. *)
Definition entry_getitem (e : Entry) : result Z := Raise TypeError.

(** src/edit_course/views.py: EditContentView.form_valid *)
Definition content_form_valid (hidden : Z -> bool) (action : ContentAction) (modules : list Entry) (orders : Orders)
    : result Orders :=
  match action with
  | RenumberModule => renumber_modules entry_getitem modules orders
  | RenumberCourse => renumber_course entry_getitem hidden modules 1 orders
  | OnlySave => Ret orders
  end.

(** src/exercise/cache/hierarchy.py: ContentMixin.flat_module lines 225-235 *)
Definition flat_module (c : Content) (module : Z) (level_markers : bool) : result (list Item) :=
  let! entry := content_get_module c module in
  next_iterator level_markers (children entry) None false.

(** src/exercise/cache/hierarchy.py: ContentMixin.flat_full lines 249-253 *)
Definition flat_full (c : Content) (level_markers : bool) : result (list Item) :=
  next_iterator level_markers (c_modules c) None false.

(** src/edit_course/views.py: EditContentView.get_common_objects lines 87-96.  The ids of
    the rows of a module, in the order of the cached content. *)
Definition flat_objects (c : Content) (module : Z) (learning_objects : list Z) : result (list Z) :=
  match flat_module c module false with
  | Ret items => Ret (List.filter (fun i => bool_decide (i ∈ learning_objects)) (entry_id <$> entries_of items))
  | Raise NoSuchContent => Ret []
  | Raise e => Raise e
  end.

(** *** What the numbering means *)

(** The number of every node below a list of siblings: siblings count from [n],
    their children from one. *)
Fixpoint numbered (n : Z) (e : Entry) : list (Z * Z) :=
  match e with
  | Ent d kids =>
      (h_id d, n) ::
      (fix go (n : Z) (cs : list Entry) {struct cs} : list (Z * Z) :=
         match cs with
         | [] => []
         | c :: cs => numbered n c ++ go (n + 1) cs
         end) 1 kids
  end.
Fixpoint numbered_from (n : Z) (cs : list Entry) : list (Z * Z) :=
  match cs with
  | [] => []
  | c :: cs => numbered n c ++ numbered_from (n + 1) cs
  end.

Lemma numbered_eq n d kids : numbered n (Ent d kids) = (h_id d, n) :: numbered_from 1 kids.
Proof. done. Qed.

Lemma numbered_ids n e : fst <$> numbered n e = entry_id <$> preorder e.
Proof.
  revert n. induction e as [d kids IH] using Entry_tree_ind. intros n. rewrite numbered_eq. cbn. f_equal.
  generalize 1. induction IH as [|k kids Hk _ IHk]; intros m; cbn; [done|].
  rewrite !fmap_app, Hk. f_equal. apply IHk.
Qed.

Lemma numbered_from_ids n cs : fst <$> numbered_from n cs = entry_id <$> preorder_all cs.
Proof.
  revert n. induction cs as [|c cs IH]; intros n; cbn; [done|].
  rewrite !fmap_app, numbered_ids. f_equal. apply IH.
Qed.

(** Writing a list of numbers. *)
Definition write_orders (orders : Orders) (l : list (Z * Z)) : Orders :=
  foldl (fun o r => <[fst r := snd r]> o) orders l.

Lemma write_orders_dom l : forall orders i, is_Some (orders !! i) -> is_Some (write_orders orders l !! i).
Proof.
  induction l as [|[k n] l IH]; intros orders i Hi; [done|]. apply IH. cbn.
  destruct (decide (k = i)) as [->|Hk]; [by rewrite lookup_insert_eq|by rewrite lookup_insert_ne].
Qed.

Lemma write_orders_lookup l : forall orders i, NoDup l.*1 ->
  write_orders orders l !! i = match (list_to_map l : Orders) !! i with Some n => Some n | None => orders !! i end.
Proof.
  induction l as [|[k n] l IH]; intros orders i Hnd; cbn; [by rewrite lookup_empty|].
  cbn in Hnd. apply NoDup_cons in Hnd as [Hk Hnd]. unfold write_orders in IH |- *. cbn. rewrite IH by done.
  destruct (decide (k = i)) as [->|Hne].
  - rewrite !lookup_insert_eq. by rewrite not_elem_of_list_to_map_1.
  - by rewrite !lookup_insert_ne.
Qed.

Lemma renumber_children n kids d orders :
  Forall (fun i => is_Some (orders !! i)) (entry_id <$> preorder_all kids) ->
  renumber_recursion (Ret ∘ entry_id) (Ent d kids) n orders
  = Ret (n + Z.of_nat (length kids), write_orders orders (numbered_from n kids)).
Proof.
  remember (Ent d kids) as e eqn:He. revert d kids He n orders.
  induction e as [d0 kids0 IH] using Entry_tree_ind. intros d kids [= -> ->] n orders Hall. cbn [renumber_recursion].
  revert n orders Hall. induction IH as [|[dk kk] kids Hk _ IHk]; intros n orders Hall.
  { cbn. do 2 f_equal. lia. }
  cbn in Hall. apply Forall_cons in Hall as [Hi Hall].
  rewrite fmap_app, Forall_app in Hall. destruct Hall as [Hsub Hrest].
  cbn [rbind compose entry_id data]. unfold entry_id, data in Hi. destruct Hi as [o Ho].
  unfold compose, entry_id at 1, data at 1, set_order at 1. cbn [rbind]. rewrite Ho. cbn [rbind].
  rewrite (Hk dk kk eq_refl).
  2:{ eapply Forall_impl; [exact Hsub|]. intros i Hi. apply (write_orders_dom [(h_id dk, n)]); done. }
  cbn [rbind]. unfold compose, set_order in IHk. rewrite IHk.
  2:{ eapply Forall_impl; [exact Hrest|]. intros i Hi. apply write_orders_dom.
      apply (write_orders_dom [(h_id dk, n)]); done. }
  cbn [length numbered_from]. rewrite numbered_eq. f_equal. f_equal; [lia|].
  unfold write_orders. by rewrite foldl_app.
Qed.

Lemma numbered_place_self n cs k c : cs !! k = Some c -> (entry_id c, n + Z.of_nat k) ∈ numbered_from n cs.
Proof.
  revert n k. induction cs as [|e cs IH]; intros n [|k] Hk; cbn in *; try done; apply elem_of_app.
  - injection Hk as ->. left. destruct c as [d kids]. rewrite numbered_eq, Z.add_0_r. by left.
  - right. replace (n + Z.of_nat (S k)) with (n + 1 + Z.of_nat k) by lia. by apply IH.
Qed.

Lemma numbered_place parent : forall n k c, children parent !! k = Some c ->
  (entry_id c, 1 + Z.of_nat k) ∈ numbered n parent.
Proof.
  destruct parent as [d kids]. intros n k c Hk. rewrite numbered_eq. right. by apply numbered_place_self.
Qed.

Lemma numbered_below parent e : parent ∈ preorder e -> forall n k c, children parent !! k = Some c ->
  (entry_id c, 1 + Z.of_nat k) ∈ numbered n e.
Proof.
  induction e as [d kids IH] using Entry_tree_ind. cbn [preorder].
  intros [->|Hin]%elem_of_cons n k c Hk; [by apply numbered_place|].
  rewrite numbered_eq. right. revert Hin. generalize 1 at 2.
  induction IH as [|e kids He _ IHk]; cbn; intros m Hin; [by apply elem_of_nil in Hin|].
  apply elem_of_app in Hin as [Hin|Hin]; apply elem_of_app; [left; by apply He|right; by apply IHk].
Qed.

Lemma numbered_from_below parent cs : parent ∈ preorder_all cs -> forall n k c, children parent !! k = Some c ->
  (entry_id c, 1 + Z.of_nat k) ∈ numbered_from n cs.
Proof.
  induction cs as [|e cs IH]; cbn; intros Hin n k c Hk; [by apply elem_of_nil in Hin|].
  apply elem_of_app in Hin as [Hin|Hin]; apply elem_of_app; [left; by eapply numbered_below|right; by apply IH].
Qed.

(** The learning objects of the modules. *)
Definition below (modules : list Entry) : list Entry := modules ≫= (fun m => preorder_all (children m)).

Lemma renumber_modules_writes modules : forall orders,
  Forall (fun i => is_Some (orders !! i)) (entry_id <$> below modules) ->
  renumber_modules (Ret ∘ entry_id) modules orders
  = Ret (write_orders orders (modules ≫= (fun m => numbered_from 1 (children m)))).
Proof.
  induction modules as [|[d kids] ms IH]; intros orders Hall; cbn [renumber_modules]; [done|].
  unfold below in Hall. cbn in Hall. rewrite fmap_app, Forall_app in Hall. destruct Hall as [Hk Hms].
  rewrite renumber_children by done. cbn [rbind]. rewrite IH.
  - cbn. unfold write_orders. by rewrite foldl_app.
  - eapply Forall_impl; [exact Hms|]. intros i. apply write_orders_dom.
Qed.

(** Renumbering by module, as the algorithm means it: with the id of an entry in
    the place of [entry['id']], every learning object gets its place among its
    siblings, counted from one, and no other row changes. *)
Theorem renumber_orders modules orders :
  NoDup (entry_id <$> below modules) ->
  Forall (fun i => is_Some (orders !! i)) (entry_id <$> below modules) ->
  exists orders', renumber_modules (Ret ∘ entry_id) modules orders = Ret orders' /\
  (forall parent k c, parent ∈ modules ++ below modules -> children parent !! k = Some c ->
     orders' !! entry_id c = Some (1 + Z.of_nat k)) /\
  (forall i, i ∉ entry_id <$> below modules -> orders' !! i = orders !! i).
Proof.
  intros Hnd Hall. eexists. split; [by apply renumber_modules_writes|].
  set (l := modules ≫= _).
  assert (Hids : l.*1 = entry_id <$> below modules).
  { unfold l, below. clear. induction modules as [|m ms IH]; cbn; [done|].
    by rewrite !fmap_app, numbered_from_ids, IH. }
  split.
  - intros parent k c Hp Hk. rewrite write_orders_lookup by by rewrite Hids.
    rewrite (elem_of_list_to_map_1 l (entry_id c) (1 + Z.of_nat k)); [done|by rewrite Hids|].
    unfold l. apply elem_of_app in Hp as [Hp|Hp].
    + apply list_elem_of_bind. exists parent. split; [by apply numbered_place_self|done].
    + apply list_elem_of_bind in Hp as (m & Hpm & Hm). apply list_elem_of_bind. exists m.
      split; [by eapply numbered_from_below|done].
  - intros i Hi. rewrite write_orders_lookup by by rewrite Hids.
    rewrite (not_elem_of_list_to_map_1 l i); [done|by rewrite Hids].
Qed.

(** As the code is written, either numbering fails as soon as a module has a
    learning object, and changes nothing in a course without any. *)
Theorem renumber_raises hidden action modules orders :
  action <> OnlySave ->
  content_form_valid hidden action modules orders
  = if bool_decide (below modules = []) then Ret orders else Raise TypeError.
Proof.
  assert (Hrec : forall m n o, renumber_recursion entry_getitem m n o =
            if bool_decide (preorder_all (children m) = []) then Ret (n, o) else Raise TypeError).
  { intros [d [|[dk kk] kids]] n o; [done|]. rewrite bool_decide_eq_false_2; [done|].
    intros E. by apply (f_equal length) in E. }
  intros Ha. destruct action; [..|done]; cbn [content_form_valid].
  - induction modules as [|m ms IH]; cbn [renumber_modules]; [done|]. rewrite Hrec. unfold below. cbn.
    destruct (preorder_all (children m)); cbn; [apply IH|done].
  - generalize 1. induction modules as [|m ms IH]; intros n; cbn [renumber_course]; [done|]. rewrite Hrec.
    unfold below. cbn. destruct (preorder_all (children m)); cbn; [apply IH|done].
Qed.

(** The page lists, for a module of the cache, the rows of the module that the
    cache knows, each entry where reading order puts it. *)
Theorem flat_objects_spec c module entry learning_objects :
  c_module_index c !! module = Some entry ->
  flat_objects c module learning_objects
  = Ret (List.filter (fun i => bool_decide (i ∈ learning_objects)) (entry_id <$> preorder_all (children entry))).
Proof.
  intros Hm. unfold flat_objects, flat_module, content_get_module. rewrite Hm. cbn [rbind].
  unfold next_iterator. cbn [rbind]. do 3 f_equal.
  rewrite !entries_of_app, !entries_of_marker, app_nil_r. cbn [app]. by rewrite over_children_from_start.
Qed.

(** ** Categories, modules and learning objects *)

(** The class of a row of the learning objects; [PlainObject] is a row that belongs
    to no subclass. *)
Inductive ObjClass :=
| CourseChapterC | BaseExerciseC | LTIExerciseC | LTI1p3ExerciseC | StaticExerciseC
| ExerciseWithAttachmentC | ExerciseCollectionC | PlainObject.
#[global] Instance ObjClass_eq_dec : EqDecision ObjClass.
Proof. solve_decision. Defined.

(** src/exercise/exercise_models.py: LearningObject lines 164-205.  A new object has the
    id 0, and no category if the course has none. *)
Record ObjRow := mkObjRow {
  ob_id : Z;
  ob_class : ObjClass;
  ob_module : Z;
  ob_category : option Z;
  ob_parent : option Z;
  ob_order : Z;
  ob_url : string;
}.
#[global] Instance ObjRow_eq_dec : EqDecision ObjRow.
Proof. solve_decision. Defined.

(** The columns of a module that the pages read. *)
Record ModuleRow := mkModuleRow { mo_id : Z; mo_instance : Z; mo_order : Z; mo_model_answer : option Z }.
Record CategoryRow := mkCategoryRow { ca_id : Z; ca_instance : Z }.

(** The tables; a submission is its id and the id of its exercise. *)
Record EditDb := mkEditDb {
  ed_categories : list CategoryRow;
  ed_modules : list ModuleRow;
  ed_objects : list ObjRow;
  ed_submissions : list (Z * Z);
}.

(** src/edit_course/views.py: ModelBaseMixin.get_resource_objects lines 134-138 *)
Inductive Manager := CategoryManager | ModuleManager | ExerciseManager.

(** src/edit_course/views.py: ModelBaseMixin.get_resource_objects lines 132-148 *)
Definition manager_of (model : string) : result Manager :=
  if bool_decide (model = "category") then Ret CategoryManager
  else if bool_decide (model = "module") then Ret ModuleManager
  else if bool_decide (model = "exercise") then Ret ExerciseManager
  else Raise Http404.

(** What a manager handles. *)
Inductive Managed :=
| ACategory (c : CategoryRow)
| AModule (m : ModuleRow)
| AnObject (o : ObjRow).

(** [get_object_or_404] *)
Definition get_object_or_404 {A} (rows : list A) : result A :=
  match get_one rows with
  | Raise DoesNotExist => Raise Http404
  | r => r
  end.

(** The modules of an instance. *)
Definition modules_in (db : EditDb) (instance : Z) : list ModuleRow :=
  List.filter (fun m => mo_instance m =? instance) (ed_modules db).

(** [course_module__course_instance=instance] *)
Definition in_instance (db : EditDb) (instance : Z) (o : ObjRow) : bool :=
  existsb (fun m => mo_id m =? ob_module o) (modules_in db instance).

(** src/edit_course/managers.py: ModelManager.get_object *)
Definition get_object (db : EditDb) (manager : Manager) (instance object_id : Z) : result Managed :=
  match manager with
  | CategoryManager =>
      let! c := get_object_or_404 (List.filter (fun c => (ca_id c =? object_id) && (ca_instance c =? instance)) (ed_categories db)) in
      Ret (ACategory c)
  | ModuleManager =>
      let! m := get_object_or_404 (List.filter (fun m => (mo_id m =? object_id) && (mo_instance m =? instance)) (ed_modules db)) in
      Ret (AModule m)
  | ExerciseManager =>
      let! o := get_object_or_404 (List.filter (fun o => (ob_id o =? object_id) && in_instance db instance o) (ed_objects db)) in
      Ret (AnObject o)
  end.

(** src/edit_course/managers.py: ExerciseManager.new_object lines 83-92 *)
Definition object_class (type : option string) : result ObjClass :=
  match type with
  | None => Ret BaseExerciseC
  | Some t =>
      if bool_decide (t = "lti") then Ret LTIExerciseC
      else if bool_decide (t = "chapter") then Ret CourseChapterC
      else if bool_decide (t = "static") then Ret StaticExerciseC
      else if bool_decide (t = "attachment") then Ret ExerciseWithAttachmentC
      else Raise Http404
  end.

(** src/edit_course/managers.py: ExerciseManager.new_object.  [first] is the row with the
    least id. *)
Definition first_category (db : EditDb) (instance : Z) : option Z :=
  head (merge_sort Z.le (ca_id <$> List.filter (fun c => ca_instance c =? instance) (ed_categories db))).

Definition top_level (db : EditDb) (module : Z) : list ObjRow :=
  List.filter (fun o => (ob_module o =? module) && bool_decide (ob_parent o = None)) (ed_objects db).

Definition new_learning_object (db : EditDb) (instance : Z) (parent_id : option Z) (type : option string) : result ObjRow :=
  let! cls := object_class type in
  let! module := get_object_or_404
    (List.filter (fun m => bool_decide (Some (mo_id m) = parent_id) && (mo_instance m =? instance)) (ed_modules db)) in
  Ret (mkObjRow 0 cls (mo_id module) (first_category db instance) None
         (Z.of_nat (length (top_level db (mo_id module))) + 1) "").

(** src/edit_course/managers.py: ModuleManager.new_object *)
Definition new_module (db : EditDb) (instance : Z) : ModuleRow :=
  mkModuleRow 0 instance (Z.of_nat (length (modules_in db instance)) + 1) None.

(** src/edit_course/managers.py: ModelManager.new_object *)
Definition new_object (db : EditDb) (manager : Manager) (instance : Z) (parent_id : option Z) (type : option string)
    : result Managed :=
  match manager with
  | CategoryManager => Ret (ACategory (mkCategoryRow 0 instance))
  | ModuleManager => Ret (AModule (new_module db instance))
  | ExerciseManager => let! o := new_learning_object db instance parent_id type in Ret (AnObject o)
  end.

(** The forms of the three managers. *)
Inductive FormClass :=
| LearningObjectCategoryForm | CourseModuleForm | CourseChapterForm | BaseExerciseForm | LTIExerciseForm
| LTI1p3ExerciseForm | StaticExerciseForm | ExerciseWithAttachmentForm | ExerciseCollectionExerciseForm.

(** src/edit_course/managers.py: ExerciseManager.get_form_class *)
Definition form_class (o : Managed) : result FormClass :=
  match o with
  | ACategory _ => Ret LearningObjectCategoryForm
  | AModule _ => Ret CourseModuleForm
  | AnObject o =>
      match ob_class o with
      | CourseChapterC => Ret CourseChapterForm
      | BaseExerciseC => Ret BaseExerciseForm
      | LTIExerciseC => Ret LTIExerciseForm
      | LTI1p3ExerciseC => Ret LTI1p3ExerciseForm
      | StaticExerciseC => Ret StaticExerciseForm
      | ExerciseWithAttachmentC => Ret ExerciseWithAttachmentForm
      | ExerciseCollectionC => Ret ExerciseCollectionExerciseForm
      | PlainObject => Raise TypeError
      end
  end.

(** src/edit_course/views.py: ModelEditView.get_resource_objects.  The object and the
    messages. *)
Definition edit_resource (db : EditDb) (model : string) (instance : Z) (object_id parent_id : option Z)
    (type : option string) : result (Managed * list string) :=
  let! manager := manager_of model in
  match object_id with
  | Some object_id =>
      let! o := get_object db manager instance object_id in
      Ret (o, [])
  | None =>
    let! o := new_object db manager instance parent_id type in
    Ret (o, if existsb (fun c => ca_instance c =? instance) (ed_categories db) then []
            else ["ERROR_EXERCISE_CATEGORY_MUST_EXIST_BEFORE_CREATEING_EXERCISES"])
  end.

(** src/edit_course/managers.py: ExerciseContainerMixin.can_delete, and [True] for a
    learning object. *)
Definition can_delete (db : EditDb) (o : Managed) : bool :=
  match o with
  | ACategory c => negb (existsb (fun o => bool_decide (ob_category o = Some (ca_id c))) (ed_objects db))
  | AModule m => negb (existsb (fun o => ob_module o =? mo_id m) (ed_objects db))
  | AnObject _ => true
  end.

(** The deletion of a row, with what the foreign keys say: the objects of a category
    or module go with it, and the submissions of an object; a child or a module
    whose parent or model answer goes loses the link. *)
Definition drop_objects (db : EditDb) (gone : ObjRow -> bool) : EditDb :=
  let ids := ob_id <$> List.filter gone (ed_objects db) in
  let lose (p : option Z) := match p with Some i => if bool_decide (i ∈ ids) then None else Some i | None => None end in
  mkEditDb (ed_categories db)
    ((fun m => mkModuleRow (mo_id m) (mo_instance m) (mo_order m) (lose (mo_model_answer m))) <$> ed_modules db)
    ((fun o => mkObjRow (ob_id o) (ob_class o) (ob_module o) (ob_category o) (lose (ob_parent o)) (ob_order o) (ob_url o))
       <$> List.filter (fun o => negb (gone o)) (ed_objects db))
    (List.filter (fun s => negb (bool_decide (snd s ∈ ids))) (ed_submissions db)).

Definition delete (db : EditDb) (o : Managed) : EditDb :=
  match o with
  | ACategory c =>
      let db := drop_objects db (fun o => bool_decide (ob_category o = Some (ca_id c))) in
      mkEditDb (List.filter (fun c' => negb (ca_id c' =? ca_id c)) (ed_categories db)) (ed_modules db) (ed_objects db) (ed_submissions db)
  | AModule m =>
      let db := drop_objects db (fun o => ob_module o =? mo_id m) in
      mkEditDb (ed_categories db) (List.filter (fun m' => negb (mo_id m' =? mo_id m)) (ed_modules db)) (ed_objects db) (ed_submissions db)
  | AnObject o => drop_objects db (fun o' => ob_id o' =? ob_id o)
  end.

(** src/edit_course/views.py: ModelDeleteView.post, with the object that
    [get_resource_objects] finds and the [empty] of [get_common_objects]. *)
Definition delete_post (db : EditDb) (model : string) (instance : Z) (object_id : Z) : result EditDb :=
  let! manager := manager_of model in
  let! o := get_object db manager instance object_id in
  Ret (if can_delete db o then delete db o else db).

(** *** What the managers promise *)

(** The object is of the course instance. *)
Definition belongs (db : EditDb) (instance : Z) (o : Managed) : Prop :=
  match o with
  | ACategory c => ca_instance c = instance
  | AModule m => mo_instance m = instance
  | AnObject o => in_instance db instance o = true
  end.

Lemma get_object_or_404_in {A} (f : A -> bool) l a : get_object_or_404 (List.filter f l) = Ret a -> a ∈ l /\ f a = true.
Proof.
  unfold get_object_or_404, get_one. destruct (List.filter f l) as [|x [|? ?]] eqn:E; intros [= ->].
  assert (Hin : In a (List.filter f l)) by (rewrite E; by left). apply filter_In in Hin as [Hin Hf].
  split; [by apply list_elem_of_In|done].
Qed.

(** The row a managed object is. *)
Definition stored (db : EditDb) (o : Managed) : Prop :=
  match o with
  | ACategory c => c ∈ ed_categories db
  | AModule m => m ∈ ed_modules db
  | AnObject o => o ∈ ed_objects db
  end.

Lemma get_object_in db manager instance i o :
  get_object db manager instance i = Ret o -> stored db o /\ belongs db instance o.
Proof.
  unfold get_object. destruct manager; intros H; break_hyp H; try done; injection H as <-;
    match goal with E : get_object_or_404 _ = _ |- _ => apply get_object_or_404_in in E as [? ?] end; b2p; by split.
Qed.

(** Whatever page of the three models a teacher opens, the object behind it is of
    the course in the address: an existing row of that course, or a new one that is
    attached to the course or to a module of it. *)
Theorem edited_object_in_course db model instance object_id parent_id type o msgs :
  edit_resource db model instance object_id parent_id type = Ret (o, msgs) -> belongs db instance o.
Proof.
  unfold edit_resource. destruct (manager_of model) as [manager|]; cbn; [|done].
  destruct object_id as [i|].
  { destruct (get_object db manager instance i) as [o'|] eqn:E; cbn; [|done]. intros [= <- _].
    by apply get_object_in in E as [_ ?]. }
  destruct manager; cbn; [by intros [= <- _]..|].
  unfold new_learning_object. destruct (object_class type) as [cls|]; cbn; [|done].
  destruct (get_object_or_404 _) as [m|] eqn:E; cbn; [|done]. intros [= <- _]. cbn.
  apply get_object_or_404_in in E as [Hin Hm]. b2p. unfold in_instance, modules_in. apply existsb_exists.
  exists m. split; [|cbn; by apply Z.eqb_eq]. apply filter_In. split; [by apply list_elem_of_In|]. by apply Z.eqb_eq.
Qed.

(** A new module or learning object is put last, if the ones there are numbered
    within their count. *)
Theorem new_object_last db manager instance parent_id type o :
  new_object db manager instance parent_id type = Ret o ->
  match o with
  | ACategory _ => True
  | AModule m =>
      Forall (fun m' => mo_order m' <= Z.of_nat (length (modules_in db instance))) (modules_in db instance) ->
      Forall (fun m' => mo_order m' < mo_order m) (modules_in db instance)
  | AnObject o =>
      let siblings := top_level db (ob_module o) in
      ob_parent o = None /\
      (Forall (fun o' => ob_order o' <= Z.of_nat (length siblings)) siblings ->
       Forall (fun o' => ob_order o' < ob_order o) siblings)
  end.
Proof.
  destruct manager; cbn; [by intros [= <-]|intros [= <-]; cbn|].
  { intros Hall. eapply Forall_impl; [exact Hall|]. cbn. lia. }
  unfold new_learning_object. destruct (object_class type) as [cls|]; cbn; [|done].
  destruct (get_object_or_404 _) as [m|]; cbn; [|done]. intros [= <-]. cbn. split; [done|].
  intros Hall. eapply Forall_impl; [exact Hall|]. cbn. lia.
Qed.

(** Ids name rows, and every link leads to a row. *)
Record refs_ok (db : EditDb) : Prop := mkRefs {
  refs_module : forall o, o ∈ ed_objects db -> ob_module o ∈ mo_id <$> ed_modules db;
  refs_category : forall o, o ∈ ed_objects db -> exists c, ob_category o = Some c /\ c ∈ ca_id <$> ed_categories db;
  refs_parent : forall o p, o ∈ ed_objects db -> ob_parent o = Some p -> p ∈ ob_id <$> ed_objects db;
  refs_answer : forall m a, m ∈ ed_modules db -> mo_model_answer m = Some a -> a ∈ ob_id <$> ed_objects db;
  refs_submission : forall s, s ∈ ed_submissions db -> snd s ∈ ob_id <$> ed_objects db;
  refs_ids : NoDup (ob_id <$> ed_objects db);
}.

(** A row stays, but may lose the link to its parent. *)
Definition same_but_parent (o o' : ObjRow) : Prop :=
  ob_id o' = ob_id o /\ ob_class o' = ob_class o /\ ob_module o' = ob_module o /\ ob_category o' = ob_category o /\
  ob_order o' = ob_order o /\ ob_url o' = ob_url o.

Section Drop.
Context (db : EditDb) (gone : ObjRow -> bool).
Let ids := ob_id <$> List.filter gone (ed_objects db).

Lemma gone_id o : NoDup (ob_id <$> ed_objects db) -> o ∈ ed_objects db -> (ob_id o ∈ ids <-> gone o = true).
Proof.
  intros Hnd Ho. unfold ids. rewrite list_elem_of_fmap. split.
  - intros (o' & Hid & Hin). apply list_elem_of_In, filter_In in Hin as [Hin Hg]. apply list_elem_of_In in Hin.
    by rewrite (same_key ob_id (ed_objects db) o o').
  - intros Hg. exists o. split; [done|]. apply list_elem_of_In, filter_In. split; [by apply list_elem_of_In|done].
Qed.

Lemma drop_object_kept o' :
  o' ∈ ed_objects (drop_objects db gone) <->
  exists o, o ∈ ed_objects db /\ gone o = false /\ same_but_parent o o' /\
    ob_parent o' = match ob_parent o with Some i => if bool_decide (i ∈ ids) then None else Some i | None => None end.
Proof.
  cbn. rewrite list_elem_of_fmap. split.
  - intros (o & -> & Hin). apply list_elem_of_In, filter_In in Hin as [Hin Hg]. exists o.
    split; [by apply list_elem_of_In|]. split; [by apply negb_true_iff|done].
  - intros (o & Hin & Hg & (H1 & H2 & H3 & H4 & H5 & H6) & H7). exists o. split.
    + destruct o'. cbn in *. subst. done.
    + apply list_elem_of_In, filter_In. split; [by apply list_elem_of_In|by rewrite Hg].
Qed.

Lemma drop_id_kept i : NoDup (ob_id <$> ed_objects db) -> i ∈ ob_id <$> ed_objects db -> i ∉ ids ->
  i ∈ ob_id <$> ed_objects (drop_objects db gone).
Proof.
  intros Hnd (o & -> & Ho)%list_elem_of_fmap Hi. apply list_elem_of_fmap.
  eexists (mkObjRow (ob_id o) (ob_class o) (ob_module o) (ob_category o) _ (ob_order o) (ob_url o)). split; [done|].
  apply drop_object_kept. exists o. split; [done|]. split; [|done].
  apply not_true_iff_false. by rewrite <- gone_id.
Qed.

Lemma drop_refs : refs_ok db -> refs_ok (drop_objects db gone).
Proof.
  intros [Hm Hc Hp Ha Hs Hnd]. split.
  - intros o' (o & Ho & _ & (_ & _ & -> & _) & _)%drop_object_kept. cbn. rewrite <- list_fmap_compose. by apply Hm.
  - intros o' (o & Ho & _ & (_ & _ & _ & -> & _) & _)%drop_object_kept. by apply Hc.
  - intros o' p (o & Ho & _ & _ & ->)%drop_object_kept Hpar. destruct (ob_parent o) as [i|] eqn:E; [|done].
    case_bool_decide; [done|]. injection Hpar as ->. apply drop_id_kept; [done|by eapply Hp|done].
  - intros m' a Hin Hans. cbn in Hin. apply list_elem_of_fmap in Hin as (m & -> & Hin). cbn in Hans.
    destruct (mo_model_answer m) as [i|] eqn:E; [|done]. case_bool_decide; [done|]. injection Hans as ->.
    apply drop_id_kept; [done|by eapply Ha|done].
  - intros s Hin. cbn in Hin. apply list_elem_of_In, filter_In in Hin as [Hin Hg]. b2p.
    apply drop_id_kept; [done|apply Hs; by apply list_elem_of_In|done].
  - cbn. rewrite <- list_fmap_compose. eapply sublist_NoDup; [exact Hnd|]. apply fmap_sublist, sublist_bool_filter.
Qed.

(** Nothing to drop changes nothing. *)
Lemma drop_none : (forall o, o ∈ ed_objects db -> gone o = false) -> drop_objects db gone = db.
Proof.
  intros Hg. assert (Hids : List.filter gone (ed_objects db) = []) by (apply filter_false; intros; by apply Hg).
  assert (Hlose : forall p : option Z, match p with Some i => if bool_decide (i ∈ ob_id <$> List.filter gone (ed_objects db)) then None else Some i | None => None end = p).
  { intros [i|]; [|done]. rewrite Hids. by rewrite bool_decide_eq_false_2 by apply not_elem_of_nil. }
  unfold drop_objects. destruct db as [cs ms os ss]. cbn [ed_categories ed_modules ed_objects ed_submissions] in *.
  f_equal.
  - rewrite <- (list_fmap_id ms) at 2. apply list_fmap_ext. intros ? [] ?. cbn. by rewrite Hlose.
  - rewrite (filter_true (fun o => negb (gone o)) os) by (intros o Ho; by rewrite (Hg o Ho)). rewrite <- (list_fmap_id os) at 2.
    apply list_fmap_ext. intros ? [] ?. cbn. by rewrite Hlose.
  - apply filter_true. intros s _. rewrite Hids. by rewrite bool_decide_eq_false_2 by apply not_elem_of_nil.
Qed.
End Drop.

(** An empty category or module goes alone. *)
Lemma delete_empty_category db c : can_delete db (ACategory c) = true ->
  delete db (ACategory c) = mkEditDb (List.filter (fun c' => negb (ca_id c' =? ca_id c)) (ed_categories db))
                              (ed_modules db) (ed_objects db) (ed_submissions db).
Proof.
  intros Hd. unfold delete. cbv zeta. rewrite drop_none; [done|]. cbn in Hd. b2p. intros o Ho. by apply (existsb_none _ _ _ Hd Ho).
Qed.

Lemma delete_empty_module db m : can_delete db (AModule m) = true ->
  delete db (AModule m) = mkEditDb (ed_categories db) (List.filter (fun m' => negb (mo_id m' =? mo_id m)) (ed_modules db))
                            (ed_objects db) (ed_submissions db).
Proof.
  intros Hd. unfold delete. cbv zeta. rewrite drop_none; [done|]. cbn in Hd. b2p. intros o Ho. by apply (existsb_none _ _ _ Hd Ho).
Qed.

Lemma kept_key {A} (key : A -> Z) (l : list A) gone i :
  i ∈ key <$> l -> i <> gone -> i ∈ key <$> List.filter (fun x => negb (key x =? gone)) l.
Proof.
  intros (x & -> & Hx)%list_elem_of_fmap Hne. apply list_elem_of_fmap_2, list_elem_of_In, filter_In.
  split; [by apply list_elem_of_In|]. by apply negb_true_iff, Z.eqb_neq.
Qed.

Lemma delete_refs db o : refs_ok db -> can_delete db o = true -> refs_ok (delete db o).
Proof.
  intros Hrefs Hd. destruct o as [c|m|o].
  - rewrite delete_empty_category by done. cbn in Hd. b2p. destruct Hrefs as [Hm Hc Hp Ha Hs Hnd].
    split; cbn; try done. intros o Ho. destruct (Hc o Ho) as (c' & Hc' & Hin). exists c'. split; [done|].
    apply kept_key; [done|]. intros ->. apply (existsb_none _ _ o) in Hd; [|done]. cbn beta in Hd. b2p. done.
  - rewrite delete_empty_module by done. cbn in Hd. b2p. destruct Hrefs as [Hm Hc Hp Ha Hs Hnd].
    split; cbn; try done.
    + intros o Ho. apply kept_key; [by apply Hm|]. intros Hmo. apply (existsb_none _ _ o) in Hd; [|done]. cbn beta in Hd. b2p. done.
    + intros m' a Hin. apply list_elem_of_In, filter_In in Hin as [Hin _]. apply list_elem_of_In in Hin. by eapply Ha.
  - by apply drop_refs.
Qed.

Lemma delete_object_spec db o : refs_ok db -> o ∈ ed_objects db ->
  (forall o1, o1 ∈ ed_objects db -> ob_id o1 <> ob_id o ->
     exists o2, o2 ∈ ed_objects (delete db (AnObject o)) /\ same_but_parent o1 o2) /\
  (forall s, s ∈ ed_submissions (delete db (AnObject o)) <-> s ∈ ed_submissions db /\ snd s <> ob_id o).
Proof.
  intros Hrefs Ho. split.
  - intros o1 H1 Hne. eexists (mkObjRow _ _ _ _ _ _ _). split; [|by split_and!].
    apply drop_object_kept. exists o1. split; [done|]. split; [by apply Z.eqb_neq|]. by split_and!.
  - intros s. cbn. rewrite list_elem_of_In, filter_In, <- list_elem_of_In, negb_true_iff, bool_decide_eq_false.
    assert (Hids : snd s ∈ ob_id <$> List.filter (fun o' => ob_id o' =? ob_id o) (ed_objects db) <-> snd s = ob_id o).
    { split.
      - intros (x & -> & Hx)%list_elem_of_fmap. apply list_elem_of_In, filter_In in Hx as [_ Hx]. by apply Z.eqb_eq.
      - intros ->. apply list_elem_of_fmap_2, list_elem_of_In, filter_In. split; [by apply list_elem_of_In|apply Z.eqb_refl]. }
    by rewrite Hids.
Qed.

(** Deleting from the pages is safe.  The row deleted is of the course.  A category
    or module goes only when it is empty, so no learning object and no submission
    changes.  A learning object goes with its own submissions; every other object
    keeps its columns, though a child of the deleted one becomes top level, and
    every other submission stays.  No link is left dangling. *)
Theorem delete_post_safe db model instance object_id db' :
  refs_ok db -> delete_post db model instance object_id = Ret db' ->
  refs_ok db' /\
  (model <> "exercise" -> ed_objects db' = ed_objects db /\ ed_submissions db' = ed_submissions db) /\
  (model = "exercise" -> exists o, o ∈ ed_objects db /\ ob_id o = object_id /\ in_instance db instance o = true /\
     (forall o1, o1 ∈ ed_objects db -> ob_id o1 <> object_id -> exists o2, o2 ∈ ed_objects db' /\ same_but_parent o1 o2) /\
     (forall s, s ∈ ed_submissions db' <-> s ∈ ed_submissions db /\ snd s <> object_id)).
Proof.
  intros Hrefs. unfold delete_post. destruct (manager_of model) as [manager|] eqn:Em; cbn [rbind]; [|done].
  destruct (get_object db manager instance object_id) as [o|] eqn:Eo; cbn [rbind]; [|done]. intros [= <-].
  split; [destruct (can_delete db o) eqn:Ed; [by apply delete_refs|done]|].
  assert (Hmodel : model = "exercise" <-> manager = ExerciseManager).
  { unfold manager_of in Em. repeat case_bool_decide; subst; naive_solver. }
  destruct manager; cbn [get_object] in Eo; destruct (get_object_or_404 _) as [row|] eqn:Er; cbn [rbind] in Eo; try done;
    injection Eo as <-.
  - split; [intros _|naive_solver]. destruct (can_delete db _) eqn:Ed; [by rewrite delete_empty_category|done].
  - split; [intros _|naive_solver]. destruct (can_delete db _) eqn:Ed; [by rewrite delete_empty_module|done].
  - split; [naive_solver|intros _]. apply get_object_or_404_in in Er as [Hin Hr]. b2p. exists row.
    assert (Hid : ob_id row = object_id) by done. rewrite <- Hid. split; [done|]. split; [done|]. split; [done|].
    by apply delete_object_spec.
Qed.

(** ** Forms *)

Section Forms.
(** What Python's [\w] matches. *)
Context (word : ascii -> bool).

Definition key_char (c : ascii) : bool := word c || bool_decide (c = "-"%char) || bool_decide (c = "."%char).

(** src/lib/validators.py: generate_url_key_validator lines 7-12.  [^\w[\w\-\.]*$]; a form strips
    the text, so it does not end in a line break. *)
Definition url_key (s : string) : bool :=
  match s with
  | EmptyString => false
  | String c s => word c && all_chars key_char s
  end.

(** *** Learning objects *)

(** The fields of the hierarchy that a teacher can change. *)
Record ObjForm := mkObjForm {
  fo_category : Z;
  fo_module : Z;
  fo_order : Z;
  fo_url : string;
}.

(** The row as the form makes it; the parent is a disabled field. *)
Definition with_form (o : ObjRow) (f : ObjForm) : ObjRow :=
  mkObjRow (ob_id o) (ob_class o) (fo_module f) (Some (fo_category f)) (ob_parent o) (fo_order f) (fo_url f).

(** src/edit_course/exercise_forms.py: LearningObjectMixin.init_fields, for the choices of the
    category and module. *)
Definition choices_ok (db : EditDb) (instance : Z) (f : ObjForm) : bool :=
  existsb (fun c => (ca_id c =? fo_category f) && (ca_instance c =? instance)) (ed_categories db)
  && existsb (fun m => mo_id m =? fo_module f) (modules_in db instance).

(** The parent is a row of another object of the module of the new row. *)
Definition parent_ok (db : EditDb) (o : ObjRow) : bool :=
  match ob_parent o with
  | None => true
  | Some p => existsb (fun o' => (ob_id o' =? p) && (ob_module o' =? ob_module o) && negb (ob_id o' =? ob_id o)) (ed_objects db)
  end.

(** [unique_together = ['course_module', 'parent', 'url']]: a row without a parent is
    not compared with others. *)
Definition url_free (db : EditDb) (o : ObjRow) : bool :=
  match ob_parent o with
  | None => true
  | Some p =>
      negb (existsb (fun o' => negb (ob_id o' =? ob_id o) && (ob_module o' =? ob_module o)
                               && bool_decide (ob_parent o' = Some p) && bool_decide (ob_url o' = ob_url o)) (ed_objects db))
  end.

(** The validation of the form: the choices, the key, [LearningObject.clean] and the
    unique columns. *)
Definition object_form_valid (db : EditDb) (instance : Z) (o : ObjRow) (f : ObjForm) : bool :=
  choices_ok db instance f && url_key (fo_url f) && negb (bool_decide (fo_url f ∈ LOBJ_RESERVED))
  && parent_ok db (with_form o f) && url_free db (with_form o f).

Definition save_object (db : EditDb) (o : ObjRow) : EditDb :=
  mkEditDb (ed_categories db) (ed_modules db)
    ((fun o' => if ob_id o' =? ob_id o then o else o') <$> ed_objects db) (ed_submissions db).

(** src/edit_course/views.py: ModelEditView.form_valid, for a learning object that is there
    already; an invalid form changes nothing. *)
Definition edit_object (db : EditDb) (instance : Z) (o : ObjRow) (f : ObjForm) : EditDb * list string :=
  if object_form_valid db instance o f then (save_object db (with_form o f), ["SUCCESS_SAVING_MODEL"])
  else (db, ["FAILURE_SAVING_MODEL"]).

(** A child is in the module of its parent. *)
Definition hierarchy_ok (db : EditDb) : Prop :=
  forall o p, o ∈ ed_objects db -> ob_parent o = Some (ob_id p) -> p ∈ ed_objects db -> ob_module o = ob_module p.

Definition no_children (db : EditDb) (o : ObjRow) : Prop := forall c, c ∈ ed_objects db -> ob_parent c <> Some (ob_id o).

Lemma choices_in_instance db instance o f : choices_ok db instance f = true -> in_instance db instance (with_form o f) = true.
Proof. unfold choices_ok. intros H. by b2p. Qed.

Lemma save_object_mem db o new : o ∈ ed_objects db -> ob_id new = ob_id o -> forall o',
  o' ∈ ed_objects (save_object db new) <-> o' = new \/ (o' ∈ ed_objects db /\ ob_id o' <> ob_id o).
Proof.
  intros Ho Hnew o'. unfold save_object. cbn [ed_objects]. rewrite Hnew, list_elem_of_fmap. split.
  - intros (x & -> & Hx). destruct (Z.eqb_spec (ob_id x) (ob_id o)); [by left|right; by split].
  - intros [->|[Hx Hne]]; [exists o|exists o']; (split; [|done]).
    + by rewrite Z.eqb_refl.
    + by rewrite (proj2 (Z.eqb_neq _ _) Hne).
Qed.

Lemma save_object_ids db new : ob_id <$> ed_objects (save_object db new) = ob_id <$> ed_objects db.
Proof.
  unfold save_object. cbn [ed_objects]. rewrite <- list_fmap_compose. apply list_fmap_ext. intros ? x ?. unfold compose.
  destruct (Z.eqb_spec (ob_id x) (ob_id new)); [by rewrite e|done].
Qed.

(** Saving the form keeps the object in its course, keeps every link, and leaves the
    other rows alone.  If the object has no children or stays in its module, every
    child is still in the module of its parent. *)
Theorem edit_object_keeps db instance o f :
  refs_ok db -> o ∈ ed_objects db -> in_instance db instance o = true ->
  let '(db', _) := edit_object db instance o f in
  refs_ok db' /\
  (forall o', o' ∈ ed_objects db' -> ob_id o' = ob_id o -> in_instance db' instance o' = true) /\
  (forall o', ob_id o' <> ob_id o -> (o' ∈ ed_objects db' <-> o' ∈ ed_objects db)) /\
  (hierarchy_ok db -> no_children db o \/ fo_module f = ob_module o -> hierarchy_ok db').
Proof.
  intros Hrefs Ho Hin. unfold edit_object. destruct (object_form_valid db instance o f) eqn:Ev.
  2:{ split; [done|]. split; [|by split]. intros o' Ho' Hid. by rewrite (same_key ob_id (ed_objects db) o' o (refs_ids _ Hrefs)). }
  unfold object_form_valid in Ev. apply andb_prop in Ev as [Ev _]. apply andb_prop in Ev as [Ev Hpar].
  apply andb_prop in Ev as [Ev _]. apply andb_prop in Ev as [Hch _].
  set (new := with_form o f). assert (Hnew : ob_id new = ob_id o) by done.
  assert (Hmem := save_object_mem db o new Ho Hnew).
  assert (Hids := save_object_ids db new).
  assert (Hinst := choices_in_instance db instance o f Hch).
  split; [|split; [|split]].
  - destruct Hrefs as [Hm Hc Hp Ha Hs Hnd]. split; rewrite ?Hids; try done.
    + intros o' [->|[Hx _]]%Hmem; [|by apply Hm]. unfold in_instance in Hinst. apply existsb_exists in Hinst as (m & Hm1 & Hm2).
      apply filter_In in Hm1 as [Hm1 _]. b2p. change (ob_module new) with (fo_module f). change (mo_id m = fo_module f) in Hm2. rewrite <- Hm2.
      apply list_elem_of_fmap_2. by apply list_elem_of_In.
    + intros o' [->|[Hx _]]%Hmem; [|by apply Hc]. exists (fo_category f). split; [done|].
      unfold choices_ok in Hch. apply andb_prop in Hch as [Hch _]. apply existsb_exists in Hch as (c & Hc1 & Hc2). b2p.
      match goal with E : ca_id c = _ |- _ => rewrite <- E end. apply list_elem_of_fmap_2. by apply list_elem_of_In.
    + intros o' p [->|[Hx _]]%Hmem Hpp; [|by eapply Hp]. by apply (Hp o).
  - intros o' [->|[_ Hne]]%Hmem Hid; [done|by destruct (Hne Hid)].
  - intros o' Hne. rewrite Hmem. split; [intros [->|[? _]]; [by destruct (Hne Hnew)|done]|by right].
  - intros Hh Hcase x p [->|[Hx Hxne]]%Hmem Hxp [->|[Hpo Hpne]]%Hmem; [done|..|by apply (Hh x p)].
    + assert (Hp' : parent_ok db new = true) by done. unfold parent_ok in Hp'. rewrite Hxp in Hp'.
      apply existsb_exists in Hp' as (y & Hy1 & Hy2). apply list_elem_of_In in Hy1. b2p.
      rewrite (same_key ob_id (ed_objects db) p y (refs_ids _ Hrefs) Hpo Hy1) by done. done.
    + destruct Hcase as [Hno|Hsame]; [by destruct (Hno x Hx)|]. rewrite Hnew in Hxp. rewrite (Hh x o Hx Hxp Ho). done.
Qed.

(** *** A course instance *)

(** What the form of the settings holds; the fields that only go to their columns are
    left out. *)
Record InstanceForm := mkInstanceForm {
  fi_url : string;
  fi_visible : bool;
  fi_teachers : list UserProfile;
  fi_assistants : list UserProfile;
}.

(** [CourseInstance.objects.filter(course=..., url=...).exists()] *)
Definition url_taken (instances : list CourseInstance) (course : Z) (url : string) : bool :=
  existsb (fun i => (course_id i =? course) && bool_decide (instance_url i = url)) instances.

(** src/edit_course/course_forms.py: CourseInstanceForm.clean_url *)
Definition clean_url (instances : list CourseInstance) (self : CourseInstance) (url : string) : result string :=
  if visible_to_students self then Ret (instance_url self)
  else if negb (url_key url) then Raise (ValidationError ["url"])
  else if bool_decide (url ∈ RESERVED_URLS) then Raise (ValidationError ["url"])
  else if negb (bool_decide (url = instance_url self)) && url_taken instances (course_id self) url
  then Raise (ValidationError ["url"])
  else Ret url.

Definition with_url (self : CourseInstance) (url : string) (visible : bool) : CourseInstance :=
  mkInstance (instance_id self) (course_id self) (instance_name self) url
    visible (enrollment_audience self) (view_content_to self) (starting_time self) (ending_time self)
    (lifesupport_time self) (archive_time self) (enrollment_starting_time self) (enrollment_ending_time self)
    (language self) (module_numbering self) (content_numbering self).

(** src/edit_course/course_forms.py: CourseInstanceForm.save.  The enrollments, and the
    profiles whose cached notifications are dropped: everybody with a row as a
    student, if the course is hidden. *)
Definition save_staff (self : CourseInstance) (f : InstanceForm) (profiles : list UserProfile) (db : EnrollmentDB)
    : EnrollmentDB * list UserProfile :=
  let db := set_teachers self (fi_teachers f) (set_assistants self (fi_assistants f) db) in
  (db, if fi_visible f then []
       else List.filter (fun p => enrolled_as self db p (fun e => bool_decide (role e = EnrollmentRole.STUDENT))) profiles).

(** src/edit_course/views.py: EditInstanceView.form_valid, after the validation of the url. *)
Definition edit_instance (instances : list CourseInstance) (self : CourseInstance) (f : InstanceForm)
    (profiles : list UserProfile) (db : EnrollmentDB) : result (list CourseInstance * EnrollmentDB * list UserProfile) :=
  let! url := clean_url instances self (fi_url f) in
  let new := with_url self url (fi_visible f) in
  let '(db, dropped) := save_staff new f profiles db in
  Ret ((fun i => if instance_id i =? instance_id self then new else i) <$> instances, db, dropped).

(** The staff of the course is what the form says: its teachers are exactly the
    teachers chosen, its assistants exactly the assistants chosen who are not
    teachers too; who was on the staff and is in neither list has no role; everybody
    else keeps the role; and no other course is touched. *)
Theorem save_staff_exact self f profiles db pid :
  let db' := fst (save_staff self f profiles db) in
  role_at db' (instance_id self) pid =
    (if decide (pid ∈ profile_id <$> fi_teachers f) then Some EnrollmentRole.TEACHER
     else if decide (pid ∈ profile_id <$> fi_assistants f) then Some EnrollmentRole.ASSISTANT
     else match role_at db (instance_id self) pid with
          | Some EnrollmentRole.STUDENT => Some EnrollmentRole.STUDENT
          | _ => None
          end) /\
  (forall i, i <> instance_id self -> db' !! (i, pid) = db !! (i, pid)).
Proof.
  unfold save_staff, set_teachers, set_assistants. cbv zeta. cbn [fst]. split.
  - rewrite !role_at_set. destruct (role_at db (instance_id self) pid) as [[]|];
      repeat case_decide; try done; exfalso; naive_solver.
  - intros i Hi. by rewrite !set_users_other.
Qed.

Definition key_of (i : CourseInstance) : Z * string := (course_id i, instance_url i).

(** Addresses stay unique: no two instances of a course share one, the address of a
    course that students see never changes, and a new one is a valid key that is not
    reserved. *)
Theorem edit_instance_url instances self f profiles db instances' db' dropped :
  NoDup (instance_id <$> instances) -> NoDup (key_of <$> instances) -> self ∈ instances ->
  edit_instance instances self f profiles db = Ret (instances', db', dropped) ->
  NoDup (key_of <$> instances') /\
  (exists new, new ∈ instances' /\ instance_id new = instance_id self /\ course_id new = course_id self /\
     (visible_to_students self = true -> instance_url new = instance_url self) /\
     (visible_to_students self = false ->
        instance_url new = fi_url f /\ url_key (fi_url f) = true /\ (fi_url f ∉ RESERVED_URLS))).
Proof.
  intros Hid Hkey Hself. unfold edit_instance. destruct (clean_url instances self (fi_url f)) as [url|] eqn:Eu; cbn [rbind]; [|done].
  unfold save_staff. intros [= <- _ _]. set (new := with_url self url (fi_visible f)).
  assert (Hurl : url = instance_url self \/ url_taken instances (course_id self) url = false).
  { unfold clean_url in Eu. destruct (visible_to_students self); [injection Eu as ->; by left|].
    repeat break_hyp Eu; try done. injection Eu as <-. b2p. destruct_or!; b2p; [by left|by right]. }
  assert (Hnew : forall x, x ∈ instances -> instance_id x <> instance_id self -> key_of x <> key_of new).
  { intros x Hx Hne Hk. injection Hk as Hc Hu. change (instance_url x = url) in Hu. change (course_id x = course_id self) in Hc.
    destruct Hurl as [Hsame|Hfree].
    - apply Hne. f_equal. apply (same_key key_of instances); [done..|]. unfold key_of. congruence.
    - apply (existsb_none _ _ x) in Hfree; [|done]. cbn beta in Hfree.
      rewrite Hc, Z.eqb_refl, bool_decide_eq_true_2 in Hfree by done. done. }
  split.
  - clear - Hid Hkey Hnew. induction instances as [|x l IH]; cbn; [constructor|]. cbn in Hid, Hkey.
    apply NoDup_cons in Hid as [Hix Hid]. apply NoDup_cons in Hkey as [Hkx Hkey]. apply NoDup_cons. split.
    2:{ apply IH; [done..|]. intros y Hy. apply Hnew. by right. }
    rewrite list_elem_of_fmap. intros (y & Hky & Hy). apply list_elem_of_fmap in Hy as (z & -> & Hz).
    destruct (Z.eqb_spec (instance_id x) (instance_id self)) as [Ex|Ex], (Z.eqb_spec (instance_id z) (instance_id self)) as [Ez|Ez].
    + apply Hix. rewrite Ex, <- Ez. by apply list_elem_of_fmap_2.
    + symmetry in Hky. by apply (Hnew z ltac:(by right) Ez).
    + by apply (Hnew x ltac:(by left) Ex).
    + apply Hkx. rewrite Hky. by apply list_elem_of_fmap_2.
  - exists new. split.
    { apply list_elem_of_fmap. exists self. by rewrite Z.eqb_refl. }
    split; [done|]. split; [done|]. unfold clean_url in Eu. split; intros Hv; rewrite Hv in Eu.
    + by injection Eu as ->.
    + repeat break_hyp Eu; try done. injection Eu as Eu. b2p. split_and!; [done|congruence..].
Qed.

(** src/edit_course/course_forms.py: CloneInstanceForm.clean_url, after the validators of the
    field. *)
Definition clone_clean_url (instances : list CourseInstance) (self : CourseInstance) (url : string) : result string :=
  if negb (url_key url) then Raise (ValidationError ["url"])
  else if url_taken instances (course_id self) url then Raise (ValidationError ["url"])
  else Ret url.
End Forms.

(** *** Reveal rules *)

#[global] Instance RevealRule_eq_dec : EqDecision RevealRule.
Proof. solve_decision. Defined.

(** src/edit_course/exercise_forms.py: RevealRuleForm.clean, on the values of the fields. *)
Definition reveal_clean (cleaned : RevealRule) : result RevealRule :=
  match trigger cleaned, rule_time cleaned with
  | RevealTrigger.TIME, None => Raise (ValidationError ["time"])
  | _, _ => Ret cleaned
  end.

Definition is_valid (r : result RevealRule) : bool := match r with Ret _ => true | Raise _ => false end.

(** [form.has_changed()]: the form starts with the rule in force. *)
Definition has_changed (initial submitted : RevealRule) : bool := negb (bool_decide (initial = submitted)).

(** The rule that is stored: the submitted one if the form was changed. *)
Definition saved_rule (stored : option RevealRule) (active submitted : RevealRule) : option RevealRule :=
  if has_changed active submitted then Some submitted else stored.

Definition with_rules (self : BaseExercise) (fb ms : option RevealRule) : BaseExercise :=
  mkExercise (lobj self) (allow_assistant_viewing self) (allow_assistant_grading self) (min_group_size self)
    (max_group_size self) (max_submissions self) (max_points self) (points_to_pass self) (difficulty self)
    fb ms (grading_mode self) (no_submission self) (service_host self).

(** src/edit_course/exercise_forms.py: BaseExerciseForm.is_valid *)
Definition exercise_form_is_valid (fields_valid : bool) (feedback model : RevealRule) : bool :=
  fields_valid && is_valid (reveal_clean feedback) && is_valid (reveal_clean model).

(** src/edit_course/exercise_forms.py: BaseExerciseForm.save, of the two rules. *)
Definition exercise_form_save (self : BaseExercise) (feedback model : RevealRule) : BaseExercise :=
  with_rules self
    (saved_rule (submission_feedback_reveal_rule self) (active_submission_feedback_reveal_rule self) feedback)
    (saved_rule (model_solutions_reveal_rule self) (active_model_solutions_reveal_rule self) model).

(** src/course/models.py: CourseModule.active_model_solution_reveal_rule *)
Definition active_model_solution_reveal_rule (stored : option RevealRule) : RevealRule :=
  default (default_rule RevealTrigger.DEADLINE) stored.

(** src/edit_course/course_forms.py: CourseModuleForm.save, of the rule. *)
Definition module_form_save (stored : option RevealRule) (submitted : RevealRule) : option RevealRule :=
  saved_rule stored (active_model_solution_reveal_rule stored) submitted.

Lemma saved_rule_active d stored submitted :
  default d (saved_rule stored (default d stored) submitted) = submitted.
Proof. unfold saved_rule, has_changed. by case_bool_decide. Qed.

(** After a valid form is saved, the rules in force are the submitted ones; a rule that
    was not changed is not stored, so an exercise with the default rule keeps it; and
    a rule that waits for a time has one. *)
Theorem exercise_form_rules self fields_valid feedback model :
  exercise_form_is_valid fields_valid feedback model = true ->
  let self' := exercise_form_save self feedback model in
  active_submission_feedback_reveal_rule self' = feedback /\
  active_model_solutions_reveal_rule self' = model /\
  (feedback = active_submission_feedback_reveal_rule self ->
     submission_feedback_reveal_rule self' = submission_feedback_reveal_rule self) /\
  (model = active_model_solutions_reveal_rule self -> model_solutions_reveal_rule self' = model_solutions_reveal_rule self) /\
  (forall state, trigger feedback = RevealTrigger.TIME -> is_Some (get_reveal_time feedback state)) /\
  (forall state, trigger model = RevealTrigger.TIME -> is_Some (get_reveal_time model state)).
Proof.
  unfold exercise_form_is_valid. intros Hv. cbv zeta. b2p.
  assert (Htime : forall r state, is_valid (reveal_clean r) = true -> trigger r = RevealTrigger.TIME -> is_Some (get_reveal_time r state)).
  { intros r state Hr Ht. unfold reveal_clean, get_reveal_time in *. rewrite Ht in *. by destruct (rule_time r). }
  split_and!; [apply saved_rule_active|apply saved_rule_active| | |by auto|by auto]; intros ->; cbn; unfold saved_rule, has_changed;
    by rewrite bool_decide_eq_true_2.
Qed.

(** ** Tags *)

Section TagPages.
Context (tags : list UserTag) (instance : Z).

(** src/edit_course/views.py: UserTagMixin.get_queryset *)
Definition tag_queryset : list UserTag := List.filter (fun t => tag_instance t =? instance) tags.

(** src/edit_course/views.py: UserTagEditView.  The tag with the id among those of the
    course, as [get_object] of the generic views finds it; deletion takes the same one. *)
Definition tag_object (i : Z) : result UserTag := get_object_or_404 (List.filter (fun t => tag_id t =? i) tag_queryset).

(** src/edit_course/course_forms.py: UserTagForm.get_base_object *)
Definition get_base_object : UserTag := mkTag 0 instance "" "" "" "".

(** src/edit_course/views.py: UserTaggingAddView.form_valid.  [students] are the profiles of
    the course that the form may select. *)
Definition add_taggings (students : list Z) (i : Z) (user_set : list Z) (taggings : list UserTagging)
    : result (list UserTagging * string) :=
  if forallb (fun u => bool_decide (u ∈ students)) user_set && negb (bool_decide (user_set = [])) then
    let! tag := get_one (List.filter (fun t => tag_id t =? i) tags) in
    Ret (foldl (fun ts u => tagging_set u tag ts) taggings user_set,
         if (length user_set =? 1)%nat then "TAGGED_USER_WITH_TAG" else "TAGGED_USERS_WITH_TAG")
  else Ret (taggings, "").

Lemma foldl_tagging_set tag users : forall taggings t,
  t ∈ foldl (fun ts u => tagging_set u tag ts) taggings users <->
  t ∈ taggings \/ exists u, u ∈ users /\ t = mkTagging (tag_id tag) u (tag_instance tag).
Proof.
  induction users as [|u users IH]; intros taggings t; cbn.
  { split; [by left|]. intros [H|(u & Hu & _)]; [done|by apply elem_of_nil in Hu]. }
  assert (Hset : t ∈ tagging_set u tag taggings <-> t ∈ taggings \/ t = mkTagging (tag_id tag) u (tag_instance tag)).
  { unfold tagging_set, get_or_create_tagging. case_bool_decide; [naive_solver|].
    by rewrite elem_of_app, list_elem_of_singleton. }
  rewrite IH, Hset. split.
  - intros [[H|H]|(v & Hv & H)]; [by left|right; exists u; by split; [left|]|right; exists v; by split; [right|]].
  - intros [H|(v & [->|Hv]%elem_of_cons & H)]; [by left; left|left; by right|right; by exists v].
Qed.

(** Tagging from the page adds a tagging for every selected student and no other; it is
    a tagging of the course of the tag, which the page does not compare with its own. *)
Theorem add_taggings_spec students i user_set taggings tag :
  NoDup (tag_id <$> tags) -> tag ∈ tags -> tag_id tag = i ->
  user_set <> [] -> (forall u, u ∈ user_set -> u ∈ students) ->
  exists taggings' message, add_taggings students i user_set taggings = Ret (taggings', message) /\
  forall t, t ∈ taggings' <->
    t ∈ taggings \/ exists u, u ∈ user_set /\ t = mkTagging i u (tag_instance tag).
Proof.
  intros Hnd Hin <- Hne Hall. unfold add_taggings.
  rewrite (proj2 (forallb_forall _ _)).
  2:{ intros u Hu. apply bool_decide_eq_true, Hall. by apply list_elem_of_In. }
  rewrite bool_decide_eq_false_2 by done. cbn [andb negb].
  rewrite (get_one_found (fun t => tag_id t =? tag_id tag) tags tag_id tag) by (done || (intros; apply Z.eqb_eq)).
  cbn [rbind]. eexists _, _. split; [done|]. intros t. apply foldl_tagging_set.
Qed.
End TagPages.

(** ** The Git manager *)

(** A request to the Git manager and what it ends in: an exception with its text, or a
    status and a text. *)
Record GitData := mkGitData {
  gd_key : string;
  gd_remote_id : Z;
  gd_update_automatically : bool;
  gd_email_on_error : bool;
  gd_git_origin : string;
  gd_git_branch : string;
  gd_update_hook : option string;
  gd_webhook_secret : option string;
}.
Inductive GitRequest := GitPut (url : string) (data : GitData) | GitPost (url : string) (data : GitData) | GitHook (url key : string).
Inductive GitReply := GitRaised (text : string) | GitAnswered (status_code : Z) (text : string).

(** The columns of the instance that are set. *)
Record GitInstance := mkGitInstance { gi_id : Z; gi_configure_url : string; gi_build_log_url : string }.
#[global] Instance GitInstance_eq_dec : EqDecision GitInstance.
Proof. solve_decision. Defined.

Section GitManager.
(** [urljoin(settings.GITMANAGER_URL, path)], and the service. *)
Context (urljoin : string -> string) (service : GitRequest -> GitReply).

Definition registered (self : GitInstance) (key : string) : GitInstance :=
  mkGitInstance (gi_id self) (urljoin (key +:+ "/aplus-json")) (urljoin ("gitmanager/" +:+ key +:+ "/build_log-json")).

Definition hook_request (key : string) : GitRequest := GitHook (urljoin ("gitmanager/" +:+ key +:+ "/hook")) key.

Definition without_secret (d : GitData) : GitData :=
  mkGitData (gd_key d) (gd_remote_id d) (gd_update_automatically d) (gd_email_on_error d) (gd_git_origin d)
    (gd_git_branch d) (gd_update_hook d) None.

Definition error_unless_200 (status_code : Z) (text : string) : list string :=
  if status_code =? 200 then [] else [("GITMANAGER_ERROR" +:+ text)%string].

(** src/edit_course/views.py: EditGitmanagerView.form_valid.  The instance, the messages and the
    requests made. *)
Definition edit_gitmanager (self : GitInstance) (data : GitData) : GitInstance * list string * list GitRequest :=
  let url := urljoin ("api/gitmanager/id/" +:+ str_of_Z (gi_id self)) in
  let put := GitPut url data in
  match service put with
  | GitRaised e => (self, [e], [put])
  | GitAnswered status text =>
      let post := GitPost url (without_secret data) in
      let '(reply, sent) := if status =? 404 then (service post, [put; post]) else (GitAnswered status text, [put]) in
      match reply with
      | GitRaised e => (self, [e], sent)
      | GitAnswered status text =>
          if status =? 200 then
            let self := registered self (gd_key data) in
            let hook := hook_request (gd_key data) in
            match service hook with
            | GitRaised e => (self, [e], sent ++ [hook])
            | GitAnswered status text => (self, "GITMANAGER_UPDATED" :: error_unless_200 status text, sent ++ [hook])
            end
          else (self, error_unless_200 status text, sent)
      end
  end.

(** The fields for the Git manager in the form that clones a course. *)
Record CloneGitForm := mkCloneGit {
  cg_key_year : Z;
  cg_key_month : string;
  cg_update_automatically : bool;
  cg_email_on_error : bool;
  cg_git_origin : string;
  cg_git_branch : string;
}.

(** src/edit_course/views.py: CloneInstanceView.form_valid lines 399-440, for the clone.  [None] when
    no Git manager is configured. *)
Definition register_clone (course_code : string) (form : option CloneGitForm) (new : GitInstance)
    : GitInstance * list string * list GitRequest :=
  match form with
  | Some f =>
      if bool_decide (cg_git_origin f = "") || bool_decide (cg_git_branch f = "") then (new, ["COURSE_INSTANCE_CLONED"], [])
      else
        let key := (course_code +:+ "_" +:+ str_of_Z (cg_key_year f) +:+ cg_key_month f)%string in
        let data := mkGitData key (gi_id new) (cg_update_automatically f) (cg_email_on_error f) (cg_git_origin f)
                      (cg_git_branch f) None None in
        let post := GitPost (urljoin ("api/gitmanager/" +:+ key +:+ "/")) data in
        let done := ["COURSE_INSTANCE_CLONED"; "COURSE_INSTANCE_BUILD_DURATION_INFO"; "COURSE_INSTANCE_WEBHOOK_INFO"] in
        match service post with
        | GitRaised e => (new, e :: done, [post])
        | GitAnswered status text =>
            if status =? 200 then
              let new := registered new key in
              let hook := hook_request key in
              match service hook with
              | GitRaised e => (new, e :: done, [post; hook])
              | GitAnswered status text => (new, error_unless_200 status text ++ done, [post; hook])
              end
            else (new, error_unless_200 status text ++ done, [post])
        end
  | None => (new, ["COURSE_INSTANCE_CLONED"], [])
  end.

(** The request that registers the course in the end. *)
Definition registering (data : GitData) (r : GitRequest) : Prop :=
  match r with GitPut _ d => d = data | GitPost _ d => d = without_secret data | GitHook _ _ => False end.

(** What a run of the page promises. *)
Definition git_outcome (self : GitInstance) (data : GitData) (r : GitInstance * list string * list GitRequest) : Prop :=
  let '(self', messages, sent) := r in
  messages <> [] /\
  (hook_request (gd_key data) ∈ sent -> self' = registered self (gd_key data)) /\
  (hook_request (gd_key data) ∉ sent -> self' = self) /\
  (hook_request (gd_key data) ∈ sent <->
     exists r text, r ∈ sent /\ registering data r /\ service r = GitAnswered 200 text) /\
  (forall url d, GitPost url d ∈ sent -> gd_webhook_secret d = None).

(** The requests before the hook. *)
Definition before_hook (data : GitData) (sent : list GitRequest) : Prop := Forall (registering data) sent.

Lemma posts_without_secret data sent url d : before_hook data sent -> GitPost url d ∈ sent -> gd_webhook_secret d = None.
Proof. intros Hs Hin. unfold before_hook in Hs. rewrite Forall_forall in Hs. specialize (Hs _ Hin). cbn in Hs. by subst. Qed.

Lemma no_hook_before data sent key : before_hook data sent -> hook_request key ∉ sent.
Proof. intros Hs Hin. unfold before_hook in Hs. rewrite Forall_forall in Hs. by destruct (Hs _ Hin). Qed.

Lemma git_refused self data messages sent :
  messages <> [] -> before_hook data sent -> (forall r text, r ∈ sent -> service r <> GitAnswered 200 text) ->
  git_outcome self data (self, messages, sent).
Proof.
  intros Hm Hs Hno. assert (Hh := no_hook_before data sent (gd_key data) Hs). split_and!; try done.
  - split; [done|]. intros (r & text & Hr & _ & Ha). by destruct (Hno r text Hr).
  - intros url d. by apply posts_without_secret with data.
Qed.

Lemma git_accepted self data messages sent r text :
  messages <> [] -> before_hook data sent -> r ∈ sent -> service r = GitAnswered 200 text ->
  git_outcome self data (registered self (gd_key data), messages, sent ++ [hook_request (gd_key data)]).
Proof.
  intros Hm Hs Hr Ha.
  assert (Hh : hook_request (gd_key data) ∈ sent ++ [hook_request (gd_key data)]) by (apply elem_of_app; right; by left).
  split_and!; try done.
  - split; [|done]. intros _. exists r, text. split; [apply elem_of_app; by left|]. split; [|done].
    unfold before_hook in Hs. rewrite Forall_forall in Hs. by apply Hs.
  - intros url d [Hin|Hin]%elem_of_app; [by apply posts_without_secret with data sent url|].
    by apply list_elem_of_singleton in Hin.
Qed.

(** The addresses of the configuration and of the build log are set exactly when the
    Git manager has accepted the course, together, and only then is it asked to build;
    the secret of the webhook is never sent with a creation; the page always says how
    it ended. *)
Theorem edit_gitmanager_spec self data : git_outcome self data (edit_gitmanager self data).
Proof.
  unfold edit_gitmanager. set (url := urljoin _). set (put := GitPut url data). set (post := GitPost url (without_secret data)).
  assert (Hput : before_hook data [put]) by (by constructor).
  assert (Hpost : before_hook data [put; post]) by (constructor; [done|by constructor]).
  assert (Herr : forall status text, status <> 200 -> error_unless_200 status text <> []).
  { intros status text Hs. unfold error_unless_200. by rewrite (proj2 (Z.eqb_neq _ _) Hs). }
  destruct (service put) as [e|status text] eqn:Eput.
  { apply git_refused; [done..|]. intros r text ->%list_elem_of_singleton. by rewrite Eput. }
  destruct (Z.eqb_spec status 404) as [->|_].
  - destruct (service post) as [e|status text'] eqn:Epost.
    { apply git_refused; [done..|]. intros r t [->| ->%list_elem_of_singleton]%elem_of_cons; congruence. }
    destruct (Z.eqb_spec status 200) as [->|Hs].
    + destruct (service (hook_request _)) as [e|status text'']; eapply git_accepted; try done; right; by left.
    + apply git_refused; [by apply Herr|done|]. intros r t [->| ->%list_elem_of_singleton]%elem_of_cons; congruence.
  - destruct (Z.eqb_spec status 200) as [->|Hs].
    + destruct (service (hook_request _)) as [e|status text'']; eapply git_accepted; try done; by left.
    + apply git_refused; [by apply Herr|done|]. intros r t ->%list_elem_of_singleton. congruence.
Qed.

(** A clone is made whatever the Git manager answers: the page says so and only the
    addresses depend on the answer. *)
Theorem register_clone_spec course_code form new :
  let '(new', messages, sent) := register_clone course_code form new in
  gi_id new' = gi_id new /\ "COURSE_INSTANCE_CLONED" ∈ messages /\
  (sent = [] -> new' = new) /\
  (new' <> new -> exists r text, r ∈ sent /\ service r = GitAnswered 200 text).
Proof.
  unfold register_clone. destruct form as [f|]; [|by set_solver].
  destruct (_ || _); [by set_solver|]. set (key := (course_code +:+ _)%string). set (post := GitPost _ _).
  destruct (service post) as [e|status text] eqn:Ep; [by set_solver|].
  destruct (Z.eqb_spec status 200) as [->|Hs]; [|by set_solver].
  destruct (service (hook_request key)) as [e|status text'] eqn:Eh; (split; [done|]); (split; [by set_solver|]);
    (split; [done|]); intros _; exists post, text; (split; [by left|done]).
Qed.
End GitManager.

(** ** Configuring the content *)

Inductive Level := Success | Warning | Error.
Abbreviation Message := (Level * string)%type.

(** src/edit_course/views.py: ConfigureContentView.configure *)
Definition configure_messages (outcome : result (bool * list string)) : list Message :=
  match outcome with
  | Ret (true, []) => [(Success, "COURSE_CONTENT_CONFIGURED")]
  | Ret (true, errors) => (Warning, "CONFIGURED_WITH_WARNINGS") :: (pair Warning <$> errors)
  | Ret (false, []) => [(Error, "CONFIGURE_FAILED")]
  | Ret (false, errors) => (Error, "CONFIGURED_WITH_ERRORS") :: (pair Error <$> errors)
  | Raise _ => [(Error, "ERROR_SERVER_RETURNED_ERROR")]
  end.

Inductive ConfigureAction := Apply | ClearCache | ResetConfig | NoAction.

Section ConfigurePage.
Context `{PyText} `{Calendar} `{Settings} `{Validation}.
Context (self : CourseInstance) (users : list User) (fuel : nat).
Context (lti_services lti1p3_services : list string) (py_order : list string -> list string).
Context (url : string) (fetched : Fetched) (now : datetime) (service : string -> Response).

(** The tables, the cached configuration, whether the caches of the content were
    dropped, and the messages. *)
Record PageState := mkPage {
  pg_db : CDb;
  pg_cached : option ConfigParts;
  pg_invalidated : bool;
  pg_messages : list Message;
}.

Definition run_configure (db : CDb) (cached : option ConfigParts) : PageState :=
  let '(outcome, db, cached) :=
    configure_from_url self users fuel lti_services lti1p3_services py_order url fetched now service db cached in
  mkPage db cached false (configure_messages outcome).

(** src/edit_course/views.py: ConfigureContentView.post *)
Definition configure_post (action : ConfigureAction) (db : CDb) (cached : option ConfigParts) : PageState :=
  match action with
  | Apply => run_configure db cached
  | ClearCache => mkPage db cached true [(Success, "EXERCISE_CACHES_CLEARED")]
  | ResetConfig => run_configure db None
  | NoAction => mkPage db cached false []
  end.

(** The page tells the truth: after applying a configuration it reports success, with
    or without warnings, exactly when the configuration was committed and is now the
    cached one; otherwise it reports an error, and the content is as it was. *)
Theorem configure_post_reports db cached :
  let p := configure_post Apply db cached in
  (exists message, head (pg_messages p) = Some message /\
     ((fst message = Error /\ pg_cached p = cached /\ db_lobjects (pg_db p) = db_lobjects db /\
       db_modules (pg_db p) = db_modules db /\ db_categories (pg_db p) = db_categories db) \/
      (fst message <> Error /\ exists parts, pg_cached p = Some parts))) /\
  Forall (fun m => fst m = Error <-> head (fst <$> pg_messages p) = Some Error) (pg_messages p).
Proof.
  cbn. unfold run_configure.
  destruct (configure_from_url _ _ _ _ _ _ _ _ _ _ _ _) as [[outcome db'] cached'] eqn:E. cbn [pg_messages pg_cached pg_db].
  assert (Hout : (exists errors parts, outcome = Ret (true, errors) /\ cached' = Some parts) \/
                 ((forall errors, outcome <> Ret (true, errors)) /\ cached' = cached /\ db_lobjects db' = db_lobjects db /\
                  db_modules db' = db_modules db /\ db_categories db' = db_categories db)).
  { unfold configure_from_url in E. case_bool_decide; [injection E as <- <- <-; by right|].
    destruct fetched as [| | |errors success config]; [injection E as <- <- <-; by right..|].
    destruct (negb _); [injection E as <- <- <-; by right|].
    destruct (configure _ _ _ _ _ _ _ _ _ _ _) as [[o d] c] eqn:Ec. apply configure_all_or_nothing in Ec.
    destruct o as [[[] errs]|e]; [destruct Ec as (? & parts & ? & _ & -> & _)|destruct Ec as [-> ->]..]; injection E as <- <- <-;
      [left; by eexists _, _|by right..]. }
  assert (Hall : forall l errors, Forall (fun m : Message => fst m = Error <-> l = Error) (pair l <$> errors)).
  { intros l errors. apply Forall_fmap, Forall_forall. by intros. }
  destruct Hout as [(errors & parts & -> & ->)|(Hno & -> & Hrows)].
  - destruct errors as [|e errors]; cbn; (split; [eexists; split; [done|]; right; split; [done|by eexists]|]).
    + by repeat constructor.
    + constructor; [done|]. constructor; [done|]. eapply Forall_impl; [apply (Hall Warning)|]. naive_solver.
  - destruct outcome as [[[] errors]|e]; [by destruct (Hno errors)| |].
    + destruct errors as [|e errors]; cbn; (split; [eexists; split; [done|]; left; by split|]).
      * by repeat constructor.
      * constructor; [done|]. constructor; [done|]. eapply Forall_impl; [apply (Hall Error)|]. naive_solver.
    + split; [eexists; split; [done|]; left; by split|]. by repeat constructor.
Qed.
End ConfigurePage.

(** ** Batches of submissions *)

(** The answer of the page: a status with JSON, or the page with messages. *)
Inductive BatchAnswer := JsonAnswer (status : Z) (success : bool) (errors : list string) | PageAnswer (messages : list Message).

(** src/edit_course/views.py: BatchCreateSubmissionsView.post lines 350-365.  [accepts_json] is whether the
    accept header has [application/json] in it. *)
Definition batch_answer (accepts_json : bool) (requested_with : string) (errors : list string) : BatchAnswer :=
  if accepts_json || bool_decide (requested_with = "XMLHttpRequest") then
    match errors with
    | [] => JsonAnswer 200 true []
    | _ => JsonAnswer 400 false errors
    end
  else
    match errors with
    | [] => PageAnswer [(Success, "NEW_SUBMISSIONS_STORED")]
    | _ => PageAnswer (pair Error <$> errors)
    end.

(** ** Witnesses and observations *)

Definition leaf (i : Z) : Entry := Ent (mkEntryData false i "" true 1 true) [].
Definition edit_tree : list Entry :=
  [Ent (mkEntryData true 1 "1" true 0 false) [Ent (mkEntryData false 10 "1.1" true 1 true) [leaf 11; leaf 12]; leaf 13]].
Definition edit_orders : Orders := list_to_map [(10, 7); (11, 7); (12, 7); (13, 7); (99, 7)].

Lemma renumber_orders_witness :
  NoDup (entry_id <$> below edit_tree) /\
  exists orders', renumber_modules (Ret ∘ entry_id) edit_tree edit_orders = Ret orders' /\
    orders' !! 12 = Some 2 /\ orders' !! 13 = Some 2 /\ orders' !! 99 = Some 7.
Proof.
  assert (Hnd : NoDup (entry_id <$> below edit_tree)) by (apply (bool_decide_unpack _); vm_compute; exact I).
  split; [exact Hnd|].
  destruct (renumber_orders edit_tree edit_orders Hnd) as (orders' & E & Hin & Hout).
  { repeat constructor; eexists; vm_compute; reflexivity. }
  exists orders'. split; [exact E|]. split; [|split].
  - apply (Hin (Ent (mkEntryData false 10 "1.1" true 1 true) [leaf 11; leaf 12]) 1%nat (leaf 12)); [|reflexivity].
    right. left.
  - apply (Hin (Ent (mkEntryData true 1 "1" true 0 false) [Ent (mkEntryData false 10 "1.1" true 1 true) [leaf 11; leaf 12]; leaf 13]) 1%nat (leaf 13)); [|reflexivity].
    left.
  - rewrite Hout; [vm_compute; reflexivity|]. apply (bool_decide_unpack _). vm_compute. exact I.
Defined.

(** Numbering the learning objects of this course from the page is a server error. *)
Lemma renumber_is_an_error : content_form_valid (fun _ => false) RenumberModule edit_tree edit_orders = Raise TypeError.
Proof. rewrite renumber_raises by done. vm_compute. reflexivity. Qed.

(** A chapter with an exercise below it, in the first of two modules. *)
Definition edit_db : EditDb :=
  mkEditDb [mkCategoryRow 1 1] [mkModuleRow 1 1 1 None; mkModuleRow 2 1 2 (Some 10)]
    [mkObjRow 10 CourseChapterC 1 (Some 1) None 1 "chapter"; mkObjRow 11 BaseExerciseC 1 (Some 1) (Some 10) 1 "exercise"]
    [(100, 11)].

Lemma edit_db_ok : refs_ok edit_db.
Proof.
  split; cbn.
  - intros o Ho. repeat (apply elem_of_cons in Ho as [->|Ho]; [left|]). by apply elem_of_nil in Ho.
  - intros o Ho. exists 1. repeat (apply elem_of_cons in Ho as [->|Ho]; [split; [done|left]|]). by apply elem_of_nil in Ho.
  - intros o p Ho Hp. apply elem_of_cons in Ho as [->|Ho]; [done|]. apply list_elem_of_singleton in Ho as ->.
    injection Hp as <-. left.
  - intros m a Hm Ha. apply elem_of_cons in Hm as [->|Hm]; [done|]. apply list_elem_of_singleton in Hm as ->.
    injection Ha as <-. left.
  - intros s ->%list_elem_of_singleton. right. left.
  - apply (bool_decide_unpack _). vm_compute. exact I.
Qed.

Lemma delete_post_safe_witness :
  exists db', delete_post edit_db "exercise" 1 10 = Ret db' /\ refs_ok db' /\
    (100, 11) ∈ ed_submissions db' /\ ob_parent <$> ed_objects db' = [None].
Proof.
  eexists. split; [vm_compute; reflexivity|].
  match goal with |- refs_ok ?d /\ _ =>
    destruct (delete_post_safe edit_db "exercise" 1 10 d edit_db_ok) as (Hok & _ & Hex); [vm_compute; reflexivity|] end.
  split; [exact Hok|]. split; [|vm_compute; reflexivity].
  destruct (Hex eq_refl) as (o & _ & _ & _ & _ & Hs). apply Hs. split; [left|discriminate].
Defined.

(** The module with the exercises is not deleted, the other one is. *)
Lemma delete_only_empty :
  delete_post edit_db "module" 1 1 = Ret edit_db /\
  match delete_post edit_db "module" 1 2 with Ret db => mo_id <$> ed_modules db = [1] | Raise _ => False end /\
  delete_post edit_db "module" 2 1 = Raise Http404.
Proof. vm_compute. done. Qed.

(** Letters, as a stand-in for the word characters. *)
Definition letter (c : ascii) : bool := let n := nat_of_ascii c in ((97 <=? n) && (n <=? 122))%nat.

(** A chapter moved to another module leaves its exercise behind: the form is valid and
    afterwards a child is in another module than its parent. *)
Lemma move_leaves_children :
  let chapter := mkObjRow 10 CourseChapterC 1 (Some 1) None 1 "chapter" in
  let '(db', messages) := edit_object letter edit_db 1 chapter (mkObjForm 1 2 1 "chapter") in
  hierarchy_ok edit_db /\ messages = ["SUCCESS_SAVING_MODEL"] /\ ~ hierarchy_ok db'.
Proof.
  cbv zeta. destruct (edit_object _ _ _ _ _) as [db' messages] eqn:E. vm_compute in E. injection E as <- <-. split; [|split; [done|]].
  - intros o p Ho Hp Hin. cbn in Ho, Hin. apply elem_of_cons in Ho as [->|Ho]; [done|].
    apply list_elem_of_singleton in Ho as ->. apply elem_of_cons in Hin as [->|Hin]; [done|].
    by apply list_elem_of_singleton in Hin as ->.
  - intros Hh. discriminate (Hh (mkObjRow 11 BaseExerciseC 1 (Some 1) (Some 10) 1 "exercise")
      (mkObjRow 10 CourseChapterC 2 (Some 1) None 1 "chapter") ltac:(right; left) eq_refl ltac:(left)).
Qed.

(** Two objects at the top of a module may get the same key. *)
Lemma same_url_at_top :
  let db := mkEditDb [mkCategoryRow 1 1] [mkModuleRow 1 1 1 None]
    [mkObjRow 10 CourseChapterC 1 (Some 1) None 1 "a"; mkObjRow 11 CourseChapterC 1 (Some 1) None 2 "b"] [] in
  let '(db', _) := edit_object letter db 1 (mkObjRow 11 CourseChapterC 1 (Some 1) None 2 "b") (mkObjForm 1 1 2 "a") in
  (ob_url <$> ed_objects db') = ["a"; "a"].
Proof. vm_compute. reflexivity. Qed.

(** The form that clones a course takes the reserved address that the form of the
    settings refuses. *)
Lemma clone_takes_reserved_url :
  let hidden := with_url clone_instance "spring" false in
  clone_clean_url letter [hidden] hidden "instances" = Ret "instances" /\
  clean_url letter [hidden] hidden "instances" = Raise (ValidationError ["url"]).
Proof. vm_compute. done. Qed.

Lemma edit_instance_url_witness :
  let hidden := with_url clone_instance "spring" false in
  exists instances' db' dropped,
    edit_instance letter [hidden] hidden (mkInstanceForm "autumn" true [] []) [] ∅ = Ret (instances', db', dropped) /\
    NoDup (key_of <$> instances').
Proof.
  cbv zeta. eexists _, _, _. split; [vm_compute; reflexivity|].
  match goal with |- NoDup (key_of <$> ?i) =>
    apply (edit_instance_url letter [with_url clone_instance "spring" false] (with_url clone_instance "spring" false)
             (mkInstanceForm "autumn" true [] []) [] ∅ i ∅ []) end.
  - apply NoDup_singleton.
  - apply NoDup_singleton.
  - left.
  - vm_compute. reflexivity.
Defined.

(** A teacher of course 1 tags a student with a tag of course 2. *)
Lemma foreign_tag_applied :
  add_taggings [mkTag 5 2 "Late" "late" "" ""] [7] 5 [7] [] = Ret ([mkTagging 5 7 2], "TAGGED_USER_WITH_TAG") /\
  tag_object [mkTag 5 2 "Late" "late" "" ""] 1 5 = Raise Http404.
Proof. vm_compute. done. Qed.
