(* ===== verification/Pages.v ===== *)
(** * Pages of staff and students

    The parts of [exercise/viewbase.py], [exercise/views.py],
    [exercise/staff_views.py], [exercise/api/views.py], [exercise/tasks.py],
    [course/views.py] and [lib/viewbase.py] that decide what a page shows or does,
    beyond the submission of answers ([Submit]) and the assessment ([Staff]): the
    mass regrade of an exercise as a state machine, the table of all submissions of
    a course, the notes of the assessment page, the tags of submissions, submitted
    files and their comparison, the page of an exercise, and the lists of courses.

    The text of pages and the order of rows a query leaves open are not modelled;
    what a request carries is given by parsed values. *)

From Stdlib Require Import QArith Ascii.
From S2P Require Import Prelude Lists Binary64 Helpers Course Reveal Models Entries Exercise Points OldCache Submission Submit.
#[local] Open Scope string_scope.
#[local] Open Scope list_scope.
#[local] Open Scope Z_scope.

(** ** Regrading all submissions of an exercise *)

Module Regrade.
(** The state of a task in the result backend; an unknown task is pending. *)
Inductive TaskState := PENDING | PROGRESS (current total : Z) | SUCCESS | FAILURE.
#[global] Instance TaskState_eq_dec : EqDecision TaskState.
Proof. solve_decision. Defined.

(** The row of the task of the exercise: its key and the id of its task, if it is
    stored; the result backend; the tasks that are queued or running; the row of a
    request that has not queued its task yet; the rows and tasks of requests that have
    not stored the id yet; and the next ids of tasks and rows. *)
Record State := mkState {
  row : option (Z * option Z);
  backend : gmap Z TaskState;
  live : list Z;
  starting : option Z;
  storing : list (Z * Z);
  fresh : Z;
  fresh_row : Z;
}.

Definition initial : State := mkState None ∅ [] None [] 1 1.

Definition with_row (st : State) (r : option (Z * option Z)) : State :=
  mkState r (backend st) (live st) (starting st) (storing st) (fresh st) (fresh_row st).
Definition with_backend (st : State) (b : gmap Z TaskState) : State :=
  mkState (row st) b (live st) (starting st) (storing st) (fresh st) (fresh_row st).

Definition state_of (st : State) (t : option Z) : TaskState :=
  match t with
  | Some t => default PENDING (backend st !! t)
  | None => PENDING
  end.

(** src/exercise/staff_views.py: StartRegradeView.post lines 363-378.  The start of the request: the row is
    made if there is none, and the message otherwise. *)
Definition start_post (regrade_type : string) (st : State) : State * option string :=
  if bool_decide (regrade_type ∈ ["all"; "incomplete"]) then
    match row st with
    | Some _ => (st, Some "REGRADE_ALREADY_RUNNING")
    | None =>
        (mkState (Some (fresh_row st, None)) (backend st) (live st) (Some (fresh_row st)) (storing st) (fresh st) (fresh_row st + 1), None)
    end
  else (st, None).

(** src/exercise/staff_views.py: StartRegradeView.post lines 379-380.  The task is queued, *)
Definition start_queue (pk : Z) (st : State) : State :=
  mkState (row st) (backend st) (fresh st :: live st) None ((pk, fresh st) :: storing st) (fresh st + 1) (fresh_row st).

(** src/exercise/staff_views.py: StartRegradeView.post lines 381-383.  and its id is saved: a row that is gone is
    inserted again, unless there is another row by now, which the database refuses. *)
Definition start_store (pk t : Z) (st : State) : State :=
  let rest := List.filter (fun p => negb (bool_decide (p = (pk, t)))) (storing st) in
  let row' := match row st with
              | Some (pk', o) => if pk' =? pk then Some (pk, Some t) else Some (pk', o)
              | None => Some (pk, Some t)
              end in
  mkState row' (backend st) (live st) (starting st) rest (fresh st) (fresh_row st).

(** What the list page shows of a regrade. *)
Inductive Info := NoRegrade | Regrading (percent current total : Z) | Starting.

(** src/exercise/viewbase.py: ExerciseListBaseView.get_common_objects.  A task that is neither pending nor in
    progress loses its row; the result is forgotten. *)
Definition list_page (st : State) : State * Info :=
  match row st with
  | None => (st, NoRegrade)
  | Some (_, t) =>
      let forget := with_backend st (match t with Some t => delete t (backend st) | None => backend st end) in
      match state_of st t with
      | PROGRESS current total => (forget, Regrading (py_int (fdiv (inject_Z (current * 100)) (inject_Z total))) current total)
      | PENDING => (forget, Starting)
      | _ => (with_row forget None, NoRegrade)
      end
  end.

(** src/exercise/tasks.py: regrade_exercises lines 29-46.  One submission more is graded. *)
Definition task_progress (t current total : Z) (st : State) : State :=
  with_backend st (<[t := PROGRESS current total]> (backend st)).

Definition without (t : Z) (st : State) : State :=
  mkState (row st) (backend st) (List.filter (fun t' => negb (t' =? t)) (live st)) (starting st) (storing st) (fresh st) (fresh_row st).

(** src/exercise/tasks.py: regrade_exercises lines 48-56.  The end of the task deletes the row. *)
Definition task_end (t : Z) (st : State) : State :=
  without t (with_row (with_backend st (<[t := SUCCESS]> (backend st))) None).

(** A task that ends with an exception, and one whose worker is lost. *)
Definition task_fail (t : Z) (st : State) : State := without t (with_backend st (<[t := FAILURE]> (backend st))).
Definition task_lost (t : Z) (st : State) : State := without t st.

(** The request that would queue the task fails. *)
Definition queue_fails (st : State) : State :=
  mkState (row st) (backend st) (live st) None (storing st) (fresh st) (fresh_row st).

(** What can happen, in any order. *)
Inductive step : State -> State -> Prop :=
| StepStart type st : step st (start_post type st).1
| StepQueue pk st : starting st = Some pk -> step st (start_queue pk st)
| StepQueueFails pk st : starting st = Some pk -> step st (queue_fails st)
| StepStore pk t st : (pk, t) ∈ storing st -> step st (start_store pk t st)
| StepPage st : step st (list_page st).1
| StepProgress t current total st : t ∈ live st -> step st (task_progress t current total st)
| StepEnd t st : t ∈ live st -> step st (task_end t st)
| StepFail t st : t ∈ live st -> step st (task_fail t st)
| StepLost t st : t ∈ live st -> step st (task_lost t st).

Inductive reachable : State -> Prop :=
| Initial : reachable initial
| Next st st' : reachable st -> step st st' -> reachable st'.

(** The row knows of the task: it has its id, or a request is about to store that id
    and no other. *)
Definition row_of (st : State) (t : Z) : Prop :=
  exists pk o, row st = Some (pk, o) /\ (o = Some t \/ o = None) /\ (forall t', (pk, t') ∈ storing st -> t' = t).

(** One task at most is queued or running, its row exists, and the backend does not
    know an end of it; while a request is to queue a task there is none. *)
Record inv (st : State) : Prop := mkInv {
  inv_one : live st = [] \/ exists t, live st = [t];
  inv_live : forall t, t ∈ live st -> starting st = None /\ row_of st t /\ t < fresh st /\
    backend st !! t <> Some SUCCESS /\ backend st !! t <> Some FAILURE;
  inv_starting : forall pk, starting st = Some pk -> row st = Some (pk, None) /\ live st = [] /\ (forall t, (pk, t) ∉ storing st);
  inv_storing : forall pk t, (pk, t) ∈ storing st -> pk < fresh_row st /\ t < fresh st;
  inv_row : forall pk o, row st = Some (pk, o) -> pk < fresh_row st;
  inv_backend : forall t s, backend st !! t = Some s -> t < fresh st;
}.

Lemma live_one st t : inv st -> t ∈ live st -> live st = [t].
Proof.
  intros Hi Ht. destruct (inv_one st Hi) as [E|(t' & E)]; rewrite E in *; [by apply elem_of_nil in Ht|].
  by apply list_elem_of_singleton in Ht as ->.
Qed.

Lemma without_live st t : inv st -> t ∈ live st -> live (without t st) = [].
Proof. intros Hi Ht. cbn. rewrite (live_one st t Hi Ht). cbn. by rewrite Z.eqb_refl. Qed.

Lemma insert_bound (m : gmap Z TaskState) t s f : t < f -> (forall t s, m !! t = Some s -> t < f) ->
  forall t' s', <[t := s]> m !! t' = Some s' -> t' < f.
Proof. intros Ht Hm t' s' [[-> _]|[_ Hs]]%lookup_insert_Some; [done|by eapply Hm]. Qed.

(** A task that stops, whatever becomes of its row and of the backend. *)
Lemma stop_inv st t b r : inv st -> t ∈ live st -> (r = row st \/ r = None) ->
  (forall t s, b !! t = Some s -> t < fresh st) -> inv (without t (with_row (with_backend st b) r)).
Proof.
  intros Hi Ht Hr Hb. assert (El := without_live st t Hi Ht). destruct (inv_live st Hi t Ht) as (Hs & _).
  split; cbn in *; rewrite ?El; try done.
  - by left.
  - intros t' Ht'. by apply elem_of_nil in Ht'.
  - intros pk E. congruence.
  - apply (inv_storing st Hi).
  - intros pk o E. destruct Hr as [->| ->]; [by eapply inv_row|done].
Qed.

Lemma start_inv type st : inv st -> inv (start_post type st).1.
Proof.
  intros Hi. unfold start_post. case_bool_decide; [|done]. destruct (row st) eqn:Er; [done|].
  assert (El : live st = []).
  { destruct (inv_one st Hi) as [E|(t & E)]; [done|]. destruct (inv_live st Hi t) as (_ & (pk & o & Hrow & _) & _).
    - rewrite E. by left.
    - congruence. }
  split; cbn; rewrite ?El.
  - by left.
  - intros t Ht. by apply elem_of_nil in Ht.
  - intros pk [= <-]. split_and!; [done..|]. intros t Ht. destruct (inv_storing st Hi _ _ Ht). lia.
  - intros pk t Ht. destruct (inv_storing st Hi _ _ Ht). lia.
  - intros pk o [= <- _]. lia.
  - apply (inv_backend st Hi).
Qed.

Lemma queue_inv pk st : inv st -> starting st = Some pk -> inv (start_queue pk st).
Proof.
  intros Hi Hst. destruct (inv_starting st Hi pk Hst) as (Hrow & El & Hno). split; cbn; rewrite ?El.
  - right. by eexists.
  - intros t ->%list_elem_of_singleton. split; [done|]. split.
    + exists pk, None. split; [done|]. split; [by right|]. intros t' [Ht|Ht]%elem_of_cons; [congruence|by destruct (Hno t')].
    + split; [lia|]. split; intros E; specialize (inv_backend st Hi _ _ E); lia.
  - done.
  - intros pk' t [[= -> ->]|Ht]%elem_of_cons.
    + specialize (inv_row st Hi _ _ Hrow). lia.
    + destruct (inv_storing st Hi _ _ Ht). lia.
  - intros pk' o E. by eapply (inv_row st Hi).
  - intros t s E. specialize (inv_backend st Hi _ _ E). lia.
Qed.

Lemma store_inv pk t st : inv st -> (pk, t) ∈ storing st -> inv (start_store pk t st).
Proof.
  intros Hi Hin.
  assert (Hrest : forall p, p ∈ List.filter (fun p => negb (bool_decide (p = (pk, t)))) (storing st) -> p ∈ storing st).
  { intros p Hp. apply list_elem_of_In, filter_In in Hp as [Hp _]. by apply list_elem_of_In. }
  destruct (inv_storing st Hi _ _ Hin) as [Hpk Ht]. split; cbn.
  - apply (inv_one st Hi).
  - intros t0 H0. destruct (inv_live st Hi t0 H0) as (Hs & (pk0 & o & Hrow & Ho & Hst) & Hrem). split; [done|]. split; [|done].
    unfold row_of. cbn. rewrite Hrow. destruct (Z.eqb_spec pk0 pk) as [->|Hne].
    + exists pk, (Some t). split; [done|]. split; [left; f_equal; by apply Hst|]. intros t' Ht'. apply Hst. by apply Hrest.
    + exists pk0, o. split; [done|]. split; [done|]. intros t' Ht'. apply Hst. by apply Hrest.
  - intros pk0 E. destruct (inv_starting st Hi pk0 E) as (Hrow & El & Hno). rewrite Hrow.
    destruct (Z.eqb_spec pk0 pk) as [->|Hne]; [by destruct (Hno t)|]. split_and!; [done..|].
    intros t' Ht'. apply (Hno t'). by apply Hrest.
  - intros pk0 t0 H0. apply (inv_storing st Hi). by apply Hrest.
  - intros pk0 o E. destruct (row st) as [[pk1 o1]|] eqn:Er; [destruct (pk1 =? pk)|]; injection E as <- _; try done.
    by eapply (inv_row st Hi).
  - apply (inv_backend st Hi).
Qed.

Lemma page_inv st : inv st -> inv (list_page st).1.
Proof.
  intros Hi. unfold list_page. destruct (row st) as [[pk o]|] eqn:Er; [|done].
  set (b := match o with Some _ => _ | None => _ end).
  assert (Hb : forall t s, b !! t = Some s -> backend st !! t = Some s).
  { intros t s Hs. destruct o; [by apply lookup_delete_Some in Hs as [_ Hs]|done]. }
  assert (Hkeep : inv (with_backend st b)).
  { split; try apply Hi; cbn.
    - intros t Ht. destruct (inv_live st Hi t Ht) as (? & ? & ? & H1 & H2). split_and!; try done; intros E; [apply H1|apply H2]; by apply Hb.
    - intros t s E. eapply (inv_backend st Hi), Hb, E. }
  assert (Hdrop : state_of st o = SUCCESS \/ state_of st o = FAILURE -> inv (with_row (with_backend st b) None)).
  { intros Hs.
    assert (Hno : live st = []).
    { destruct (inv_one st Hi) as [E|(t & E)]; [done|]. destruct (inv_live st Hi t) as (_ & (pk' & o' & Hrow & Ho & _) & _ & H1 & H2).
      - rewrite E. by left.
      - rewrite Er in Hrow. injection Hrow as <- <-. destruct Ho as [->| ->]; cbn in Hs; [|by destruct Hs].
        destruct (backend st !! t) as [[]|]; naive_solver. }
    split; cbn; rewrite ?Hno; try done; try apply Hkeep.
    - by left.
    - intros t Ht. by apply elem_of_nil in Ht.
    - intros pk' E. destruct (inv_starting st Hi pk' E) as (Hrow & _). rewrite Er in Hrow. injection Hrow as _ ->.
      cbn in Hs. by destruct Hs. }
  destruct (state_of st o); cbn; auto.
Qed.

Lemma step_inv st st' : inv st -> step st st' -> inv st'.
Proof.
  intros Hi Hs. destruct Hs as [type st|pk st Hq|pk st Hq|pk t st Hq|st|t c n st Ht|t st Ht|t st Ht|t st Ht].
  - by apply start_inv.
  - by apply queue_inv.
  - split; try apply Hi; cbn; [|done]. intros t Ht. destruct (inv_live st Hi t Ht) as (? & ?). by split.
  - by apply store_inv.
  - by apply page_inv.
  - destruct (inv_live st Hi t Ht) as (H1 & H2 & H3 & _). split; try apply Hi; cbn.
    + intros t' Ht'. rewrite (live_one st t Hi Ht) in Ht'. apply list_elem_of_singleton in Ht' as ->. rewrite lookup_insert_eq. by split_and!.
    + apply insert_bound; [done|apply (inv_backend st Hi)].
  - destruct (inv_live st Hi t Ht) as (_ & _ & H3 & _).
    apply stop_inv; [done|done|by right|]. apply insert_bound; [done|apply (inv_backend st Hi)].
  - destruct (inv_live st Hi t Ht) as (_ & _ & H3 & _).
    apply (stop_inv st t _ (row st)); [done|done|by left|]. apply insert_bound; [done|apply (inv_backend st Hi)].
  - assert (H := stop_inv st t (backend st) (row st) Hi Ht (or_introl eq_refl) (inv_backend st Hi)). by destruct st.
Qed.

(** C13. A mass regrade of an exercise runs once at a time: however requests to start one,
    views of the list page and the steps, ends and failures of workers interleave, at
    most one task is queued or running, and while one is, there is a row in the
    database that keeps another from being started. *)
Theorem one_regrade_at_a_time st : reachable st ->
  (length (live st) <= 1)%nat /\
  (live st <> [] -> forall type, start_post type st = (st, snd (start_post type st))) /\
  (forall t, t ∈ live st -> exists pk o, row st = Some (pk, o) /\ (o = Some t \/ o = None)).
Proof.
  intros Hr. assert (Hi : inv st).
  { induction Hr as [|st st' _ IH Hs]; [|by eapply step_inv].
    split; cbn; try done; [by left|intros t Ht|intros pk t Ht]; by apply elem_of_nil in Ht. }
  assert (Hrow : forall t, t ∈ live st -> exists pk o, row st = Some (pk, o) /\ (o = Some t \/ o = None)).
  { intros t Ht. destruct (inv_live st Hi t Ht) as (_ & (pk & o & Hrow & Ho & _) & _). by exists pk, o. }
  split; [|split; [|done]].
  - destruct (inv_one st Hi) as [->|(t & ->)]; cbn; lia.
  - intros Hne type. destruct (live st) as [|t l]; [done|]. destruct (Hrow t ltac:(by left)) as (pk & o & E & _).
    unfold start_post. rewrite E. by case_bool_decide.
Qed.

(** If the queue cannot be reached when a regrade is started, the row is left without
    a task: the list page takes it for one that is starting, and no regrade of the
    exercise can be started any more. *)
Lemma regrade_blocked st pk : row st = Some (pk, None) -> 
  (list_page st).1 = st /\ (list_page st).2 = Starting /\
  (forall type, (start_post type st).1 = st /\ (type ∈ ["all"; "incomplete"] -> (start_post type st).2 = Some "REGRADE_ALREADY_RUNNING")).
Proof.
  intros Hrow. unfold list_page, start_post. rewrite Hrow. cbn. split; [by destruct st; cbn in *; subst|].
  split; [done|]. intros type. case_bool_decide; by split.
Qed.

Lemma blocked_reachable : exists st, reachable st /\ row st = Some (1, None) /\ live st = [] /\ starting st = None /\ storing st = [].
Proof.
  eexists (queue_fails (start_post "all" initial).1). split; [|done].
  eapply Next; [eapply Next; [apply Initial|apply StepStart]|]. by apply (StepQueueFails 1).
Qed.

Lemma one_regrade_at_a_time_witness :
  let st := start_queue 1 (start_post "all" initial).1 in
  reachable st /\ live st = [1] /\ (length (live st) <= 1)%nat.
Proof.
  cbv zeta. match goal with |- reachable ?s /\ _ =>
    assert (Hr : reachable s) by (eapply Next; [eapply Next; [apply Initial|apply (StepStart "all")]|apply StepQueue; reflexivity]) end.
  split; [exact Hr|]. split; [reflexivity|]. exact (proj1 (one_regrade_at_a_time _ Hr)).
Defined.
End Regrade.

(** ** The table of all submissions *)

Section AllSubmissions.
(** What a submitter is searched by. *)
Record Person := mkPerson {
  pe_id : Z;
  pe_first_name : string;
  pe_last_name : string;
  pe_username : string;
  pe_student_id : option string;
}.

(** A submission of the table with its submitters and the ids of its tags. *)
Record SubRow := mkSubRow {
  sr_sub : Submission;
  sr_instance : Z;
  sr_submitters : list Person;
  sr_tags : list Z;
}.

(** The status to search for: a [WithStatus None] is none of the statuses. *)
Inductive StatusFilter := AnyStatus | NotReady | WithStatus (s : option SubStatus.t).
#[global] Instance StatusFilter_eq_dec : EqDecision StatusFilter.
Proof. solve_decision. Defined.

(** src/course/views.py: AllSubmissionsView.get_common_objects lines 404-417.  The parameters of the request, stripped; [None] is a parameter that is empty.  A
    text that is to be a number or a time is given by what it reads as. *)
Record Search := mkSearch {
  sq_student_id : option (option Z);
  sq_status : StatusFilter;
  sq_exercise_ids : list (option Z);
  sq_submitter_name : string;
  sq_start_time : option (option datetime);
  sq_end_time : option (option datetime);
  sq_tag_ids : list (option Z);
  sq_late_penalty : string;
  sq_assessed_manually : string;
}.

(** [x__icontains] *)
Context (icontains : string -> string -> bool).

Definition by_name (name : string) (p : Person) : bool :=
  icontains (pe_first_name p) name || icontains (pe_last_name p) name || icontains (pe_username p) name
  || match pe_student_id p with Some s => icontains s name | None => false end.

(** src/course/views.py: AllSubmissionsView.get_common_objects lines 419-478.  The conditions on a submission
    alone. *)
Definition on_submission (instance : Z) (q : Search) (r : SubRow) : bool :=
  (sr_instance r =? instance)
  && match sq_status q with
     | AnyStatus => true
     | NotReady => negb (bool_decide (sub_status (sr_sub r) = SubStatus.READY))
     | WithStatus st => bool_decide (Some (sub_status (sr_sub r)) = st)
     end
  && match sq_exercise_ids q with [] => true | ids => bool_decide (Some (sub_exercise (sr_sub r)) ∈ ids) end
  && (if bool_decide (sq_late_penalty q = "yes") then bool_decide (is_Some (late_penalty_applied (sr_sub r)))
      else if bool_decide (sq_late_penalty q = "no") then negb (bool_decide (is_Some (late_penalty_applied (sr_sub r))))
      else true)
  && (if bool_decide (sq_assessed_manually q = "yes") then bool_decide (is_Some (grader (sr_sub r)))
      else if bool_decide (sq_assessed_manually q = "no") then negb (bool_decide (is_Some (grader (sr_sub r))))
      else true)
  && match sq_start_time q with Some (Some t) => t <=? submission_time (sr_sub r) | _ => true end
  && match sq_end_time q with Some (Some t) => submission_time (sr_sub r) <=? t | _ => true end.

(** The conditions on a submitter and on a tag, and whether the query joins them. *)
Definition on_submitter (q : Search) (p : Person) : bool :=
  match sq_student_id q with Some i => bool_decide (Some (pe_id p) = i) | None => true end
  && (bool_decide (sq_submitter_name q = "") || by_name (sq_submitter_name q) p).
Definition joins_submitters (q : Search) : bool :=
  bool_decide (is_Some (sq_student_id q)) || negb (bool_decide (sq_submitter_name q = "")).
Definition on_tag (q : Search) (t : Z) : bool := bool_decide (Some t ∈ sq_tag_ids q).
Definition joins_tags (q : Search) : bool := negb (bool_decide (sq_tag_ids q = [])).

(** The rows of the join that a submission has in the result. *)
Definition copies (q : Search) (r : SubRow) : nat :=
  ((if joins_submitters q then length (List.filter (on_submitter q) (sr_submitters r)) else 1)
   * (if joins_tags q then length (List.filter (on_tag q) (sr_tags r)) else 1))%nat.

(** The latest first. *)
Definition newer (a b : SubRow) : Prop := submission_time (sr_sub b) <= submission_time (sr_sub a).
#[local] Instance newer_dec : RelDecision newer.
Proof. intros a b. unfold newer. apply _. Defined.

Definition malformed (q : Search) : bool :=
  bool_decide (sq_student_id q = Some None) || bool_decide (None ∈ sq_exercise_ids q) || bool_decide (None ∈ sq_tag_ids q).

(** src/course/views.py: AllSubmissionsView.get_common_objects lines 480-486 *)
Definition has_filters (q : Search) : bool :=
  bool_decide (is_Some (sq_student_id q)) || negb (bool_decide (sq_status q = AnyStatus)) || negb (bool_decide (sq_exercise_ids q = []))
  || negb (bool_decide (sq_submitter_name q = "")) || bool_decide (is_Some (sq_start_time q)) || bool_decide (is_Some (sq_end_time q))
  || negb (bool_decide (sq_tag_ids q = [])) || negb (bool_decide (sq_late_penalty q = ""))
  || negb (bool_decide (sq_assessed_manually q = "")).

Record Table := mkTable {
  tb_rows : list SubRow;
  tb_total_count : nat;
  tb_displayed_count : nat;
  tb_is_limited : bool;
}.

Definition found (instance : Z) (q : Search) (rows : list SubRow) : list SubRow :=
  flat_map (fun r => repeat r (copies q r)) (List.filter (on_submission instance q) rows).

(** src/course/views.py: AllSubmissionsView.get_common_objects lines 487-516.  A malformed id is an error. *)
Definition all_submissions (instance : Z) (q : Search) (rows : list SubRow) : result Table :=
  if malformed q then Raise ValueError
  else
    let base := merge_sort newer (found instance q rows) in
    let limit := if has_filters q then 500%nat else 200%nat in
    let total := length base in
    Ret (mkTable (take limit base) total (Nat.min total limit) (bool_decide (limit < total)%nat)).

(** What a submission has to be to be found. *)
Definition matches (instance : Z) (q : Search) (r : SubRow) : Prop :=
  on_submission instance q r = true /\
  (joins_submitters q = true -> exists p, p ∈ sr_submitters r /\ on_submitter q p = true) /\
  (joins_tags q = true -> exists t, t ∈ sr_tags r /\ on_tag q t = true).

Lemma filter_some {A} (f : A -> bool) l : (0 < length (List.filter f l))%nat <-> exists x, x ∈ l /\ f x = true.
Proof.
  split.
  - destruct (List.filter f l) as [|x fl] eqn:E; cbn; [lia|]. intros _. exists x.
    assert (Hx : In x (List.filter f l)) by (rewrite E; by left). apply filter_In in Hx as [Hx Hf].
    split; [by apply list_elem_of_In|done].
  - intros (x & Hx & Hf). assert (Hin : In x (List.filter f l)) by (apply filter_In; split; [by apply list_elem_of_In|done]).
    destruct (List.filter f l); [done|cbn; lia].
Qed.

Lemma copies_pos q r : (0 < copies q r)%nat <->
  (joins_submitters q = true -> exists p, p ∈ sr_submitters r /\ on_submitter q p = true) /\
  (joins_tags q = true -> exists t, t ∈ sr_tags r /\ on_tag q t = true).
Proof.
  unfold copies. rewrite <- !filter_some. destruct (joins_submitters q), (joins_tags q);
    split; intros H; try (split; intros; try done); try destruct H as [H1 H2]; try specialize (H1 eq_refl); try specialize (H2 eq_refl); nia.
Qed.

Lemma elem_of_found instance q rows r : r ∈ found instance q rows <-> r ∈ rows /\ matches instance q r.
Proof.
  unfold found, matches. rewrite list_elem_of_In, in_flat_map, <- copies_pos. split.
  - intros (x & Hx & Hr). apply filter_In in Hx as [Hx Hs]. assert (Hr' := Hr). apply repeat_spec in Hr as ->.
    split; [by apply list_elem_of_In|]. split; [done|]. destruct (copies q x); [done|lia].
  - intros (Hr & Hs & Hc). exists r. split; [apply filter_In; split; [by apply list_elem_of_In|done]|].
    destruct (copies q r) as [|n]; [lia|]. by left.
Qed.

(** The table of a course: all its rows are of the course and match the search; if it
    is not limited it has every submission that does; it has at most 200 rows, or 500 of
    a search, the latest ones; and it tells how many there are and whether some are
    left out. *)
Theorem all_submissions_spec instance q rows table :
  all_submissions instance q rows = Ret table ->
  (forall r, r ∈ tb_rows table -> r ∈ rows /\ matches instance q r) /\
  (tb_is_limited table = false -> forall r, r ∈ rows -> matches instance q r -> r ∈ tb_rows table) /\
  length (tb_rows table) = tb_displayed_count table /\
  (tb_displayed_count table <= if has_filters q then 500 else 200)%nat /\
  (tb_is_limited table = true <-> (tb_displayed_count table < tb_total_count table)%nat) /\
  (exists rest, tb_total_count table = length (tb_rows table ++ rest) /\ Sorted newer (tb_rows table ++ rest)).
Proof.
  unfold all_submissions. destruct (malformed q); [done|]. intros [= <-].
  set (limit := if has_filters q then 500%nat else 200%nat). set (base := merge_sort newer _).
  assert (Hbase : forall r, r ∈ base <-> r ∈ rows /\ matches instance q r).
  { intros r. unfold base. rewrite merge_sort_Permutation. apply elem_of_found. }
  cbn. split_and!.
  - intros r Hr. apply Hbase. rewrite <- (take_drop limit base). apply elem_of_app. by left.
  - intros Hl r Hr Hm. apply bool_decide_eq_false in Hl. rewrite take_ge by lia. by apply Hbase.
  - rewrite length_take. lia.
  - unfold limit. destruct (has_filters q); lia.
  - rewrite bool_decide_eq_true. lia.
  - exists (drop limit base). rewrite take_drop. split; [done|]. apply Sorted_merge_sort. intros a b. unfold newer. lia.
Qed.

(** Without a search by submitter or tag no submission is in the table twice. *)
Theorem all_submissions_distinct instance q rows table :
  NoDup rows -> joins_submitters q = false -> joins_tags q = false ->
  all_submissions instance q rows = Ret table -> NoDup (tb_rows table).
Proof.
  intros Hnd Hs Ht. unfold all_submissions. destruct (malformed q); [done|]. intros [= <-]. cbn.
  assert (Hf : found instance q rows = List.filter (on_submission instance q) rows).
  { unfold found. assert (Hc : forall r, copies q r = 1%nat) by (intros r; unfold copies; by rewrite Hs, Ht).
    induction (List.filter _ rows) as [|r l IH]; cbn; [done|]. by rewrite Hc, IH. }
  eapply sublist_NoDup; [|apply sublist_take]. rewrite merge_sort_Permutation, Hf.
  apply NoDup_ListNoDup, List.NoDup_filter. by apply NoDup_ListNoDup.
Qed.
End AllSubmissions.

(** ** Tags of submissions *)

Section SubmissionTags.
(** src/course/models.py: SubmissionTag.  The tags, and the course instance of every submission. *)
Record SubTag := mkSubTag { sg_id : Z; sg_instance : Z; sg_slug : string }.
Context (tags : list SubTag) (instance_of : Z -> option Z).

(** The taggings: pairs of a submission and a tag, which need not be distinct. *)
Abbreviation Taggings := (list (Z * Z)).

(** [Submission.objects.get(id=submission_id)], any submission *)
Definition get_submission (i : Z) : result Z :=
  match instance_of i with Some _ => Ret i | None => Raise DoesNotExist end.
Definition get_subtag (instance i : Z) : result SubTag :=
  get_one (List.filter (fun t => (sg_id t =? i) && (sg_instance t =? instance)) tags).

(** src/exercise/views.py: SubmissionTaggingAddView.post *)
Definition tagging_add (instance submission subtag : Z) (l : Taggings) : result Taggings :=
  let! s := get_submission submission in
  let! t := get_subtag instance subtag in
  Ret (l ++ [(s, sg_id t)]).

(** src/exercise/views.py: SubmissionTaggingRemoveView.post *)
Definition tagging_remove (instance submission subtag : Z) (l : Taggings) : result Taggings :=
  let! s := get_submission submission in
  let! t := get_subtag instance subtag in
  Ret (List.filter (fun p => negb (bool_decide (p = (s, sg_id t)))) l).

Inductive TagMethod := TagPost | TagDelete.

(** src/exercise/api/views.py: SubmissionViewSet.manage_tag.  The status of the answer and the taggings. *)
Definition manage_tag (method : TagMethod) (submission instance : Z) (tag_slug : option string) (l : Taggings)
    : result (Z * Taggings) :=
  match tag_slug with
  | None | Some EmptyString => Ret (400, l)
  | Some slug =>
      match get_one (List.filter (fun t => bool_decide (sg_slug t = slug) && (sg_instance t =? instance)) tags) with
      | Raise DoesNotExist => Ret (404, l)
      | Raise e => Raise e
      | Ret tag =>
          let p := (submission, sg_id tag) in
          match method with
          | TagPost => if bool_decide (p ∈ l) then Ret (409, l) else Ret (201, l ++ [p])
          | TagDelete =>
              match get_one (List.filter (fun p' => bool_decide (p' = p)) l) with
              | Raise DoesNotExist => Ret (404, l)
              | Raise e => Raise e
              | Ret _ => Ret (200, List.filter (fun p' => negb (bool_decide (p' = p))) l)
              end
          end
      end
  end.

Definition slugs_unique : Prop := NoDup ((fun t => (sg_instance t, sg_slug t)) <$> tags).

Lemma get_slug tag : slugs_unique -> tag ∈ tags ->
  get_one (List.filter (fun t => bool_decide (sg_slug t = sg_slug tag) && (sg_instance t =? sg_instance tag)) tags) = Ret tag.
Proof.
  intros Hu Hin. apply (get_one_found _ tags (fun t => (sg_instance t, sg_slug t))); [done..|].
  intros y _. rewrite andb_true_iff, bool_decide_eq_true, Z.eqb_eq. split; [intros [-> ->]|intros [= -> ->]]; done.
Qed.

Lemma filter_eq_NoDup (p : Z * Z) (l : Taggings) : NoDup l ->
  List.filter (fun p' => bool_decide (p' = p)) l = if bool_decide (p ∈ l) then [p] else [].
Proof.
  induction 1 as [|x l Hx Hnd IH]; cbn; [done|]. rewrite IH.
  destruct (decide (x = p)) as [->|Hne].
  - rewrite (bool_decide_eq_true_2 (p = p)), (bool_decide_eq_true_2 (p ∈ p :: l)), bool_decide_eq_false_2 by (done || left). done.
  - rewrite (bool_decide_eq_false_2 (x = p)) by done.
    replace (bool_decide (p ∈ x :: l)) with (bool_decide (p ∈ l)); [done|]. apply bool_decide_ext. rewrite elem_of_cons. naive_solver.
Qed.

(** The endpoint of the API keeps the tags of submissions in order.  While no tagging is
    there twice: adding a tag of the course adds it once or answers that it is there,
    removing it removes it or answers that it is not, and no tagging is there twice
    afterwards.  Adding and removing is the identity. *)
Theorem manage_tag_spec submission tag l :
  slugs_unique -> NoDup l -> tag ∈ tags -> sg_slug tag <> "" ->
  let p := (submission, sg_id tag) in
  let manage method := manage_tag method submission (sg_instance tag) (Some (sg_slug tag)) in
  (p ∉ l -> manage TagPost l = Ret (201, l ++ [p]) /\ NoDup (l ++ [p]) /\
            manage TagDelete l = Ret (404, l) /\ manage TagDelete (l ++ [p]) = Ret (200, l)) /\
  (p ∈ l -> manage TagPost l = Ret (409, l) /\
            exists l', manage TagDelete l = Ret (200, l') /\ NoDup l' /\ forall x, x ∈ l' <-> x ∈ l /\ x <> p).
Proof.
  intros Hu Hnd Hin Hs. cbv zeta. set (p := (submission, sg_id tag)).
  assert (Hm : forall method l, manage_tag method submission (sg_instance tag) (Some (sg_slug tag)) l =
            match method with
            | TagPost => if bool_decide (p ∈ l) then Ret (409, l) else Ret (201, l ++ [p])
            | TagDelete =>
                match get_one (List.filter (fun p' => bool_decide (p' = p)) l) with
                | Raise DoesNotExist => Ret (404, l)
                | Raise e => Raise e
                | Ret _ => Ret (200, List.filter (fun p' => negb (bool_decide (p' = p))) l)
                end
            end).
  { intros method l0. unfold manage_tag. rewrite get_slug by done. destruct (sg_slug tag) eqn:E; [done|]. by destruct method. }
  assert (Hkeep : forall l0, p ∉ l0 -> List.filter (fun p' => negb (bool_decide (p' = p))) l0 = l0).
  { intros l0 Hp. apply filter_true. intros x Hx. rewrite bool_decide_eq_false_2; [done|]. by intros ->. }
  split; intros Hp; rewrite !Hm.
  - assert (Hnd' : NoDup (l ++ [p])) by (by apply NoDup_snoc).
    rewrite !filter_eq_NoDup by done. rewrite !(bool_decide_eq_false_2 (p ∈ l)) by done.
    rewrite (bool_decide_eq_true_2 (p ∈ l ++ [p])) by (apply elem_of_app; right; by left).
    split_and!; try done. cbn. rewrite List.filter_app, Hkeep by done. cbn. rewrite bool_decide_eq_true_2 by done. cbn.
    by rewrite app_nil_r.
  - rewrite filter_eq_NoDup by done. rewrite !bool_decide_eq_true_2 by done. split; [done|]. eexists. split; [done|]. split.
    + apply NoDup_ListNoDup, List.NoDup_filter. by apply NoDup_ListNoDup.
    + intros x. by rewrite list_elem_of_In, filter_In, <- list_elem_of_In, negb_true_iff, bool_decide_eq_false.
Qed.

(** The page adds a tagging as often as it is asked to, and to a submission of any
    course. *)
Lemma tagging_add_any submission subtag instance tag l :
  is_Some (instance_of submission) -> NoDup (sg_id <$> tags) -> tag ∈ tags -> sg_id tag = subtag -> sg_instance tag = instance ->
  tagging_add instance submission subtag l = Ret (l ++ [(submission, subtag)]).
Proof.
  intros [i Hi] Hnd Hin <- <-. unfold tagging_add, get_submission, get_subtag. rewrite Hi. cbn [rbind].
  rewrite (get_one_found _ tags sg_id tag); [done..|]. intros y Hy. rewrite andb_true_iff, !Z.eqb_eq. split; [by intros [-> _]|].
  intros E. by rewrite (same_key sg_id tags y tag Hnd Hy Hin E).
Qed.
End SubmissionTags.

(** ** Assessing a submission: what the page notes *)

(** src/exercise/staff_views.py: InspectSubmissionView.get_common_objects lines 232-251.  The notes about the other
    submissions of the submitter; the loop stops at a final one. *)
Fixpoint other_notes (self : Submission) (entries : list SubmissionEntry) (not_best not_last : bool) : bool * bool * bool :=
  match entries with
  | [] => (false, not_best, not_last)
  | e :: entries =>
      if se_id e =? sub_id self then other_notes self entries not_best not_last
      else if se_force_exercise_points e then (true, not_best, not_last)
      else
        let official := negb (bool_decide (se_status e = SubStatus.UNOFFICIAL)) in
        let better := ((grade self <? se_points e) && official)
                      || (bool_decide (sub_status self = SubStatus.UNOFFICIAL) && official) in
        let later := (submission_time self <? se_date e) && official in
        other_notes self entries (not_best || better) (not_last || later)
  end.

Definition inspect_notes (self : Submission) (entries : list SubmissionEntry) : bool * bool * bool :=
  other_notes self entries false false.

Lemma exists_nil {A} (P : A -> Prop) : (exists x, x ∈ [] /\ P x) <-> False.
Proof. split; [|done]. intros (x & Hx & _). by apply elem_of_nil in Hx. Qed.
Lemma exists_cons {A} (P : A -> Prop) y l : (exists x, x ∈ y :: l /\ P x) <-> P y \/ exists x, x ∈ l /\ P x.
Proof.
  split.
  - intros (x & [->|Hx]%elem_of_cons & Hp); [by left|right; by exists x].
  - intros [Hp|(x & Hx & Hp)]; [exists y; by split; [left|]|exists x; by split; [right|]].
Qed.

Lemma other_notes_spec self entries : forall b l,
  let '(not_final, not_best, not_last) := other_notes self entries b l in
  (not_final = true <-> exists e, e ∈ entries /\ se_id e <> sub_id self /\ se_force_exercise_points e = true) /\
  (not_final = false ->
     (not_best = true <-> b = true \/ exists e, e ∈ entries /\ se_id e <> sub_id self /\ se_status e <> SubStatus.UNOFFICIAL /\
        (grade self < se_points e \/ sub_status self = SubStatus.UNOFFICIAL)) /\
     (not_last = true <-> l = true \/ exists e, e ∈ entries /\ se_id e <> sub_id self /\ se_status e <> SubStatus.UNOFFICIAL /\
        submission_time self < se_date e)).
Proof.
  induction entries as [|e entries IH]; intros b l; cbn.
  { rewrite !exists_nil. intuition congruence. }
  destruct (Z.eqb_spec (se_id e) (sub_id self)) as [Hid|Hid].
  { specialize (IH b l). destruct (other_notes self entries b l) as [[nf nb] nl]. destruct IH as [IH1 IH2].
    rewrite !exists_cons. split; [rewrite IH1; tauto|]. intros Hnf. destruct (IH2 Hnf) as [IHb IHl]. rewrite IHb, IHl. split; tauto. }
  destruct (se_force_exercise_points e) eqn:Ef.
  { rewrite !exists_cons. split; [|done]. split; [by left|done]. }
  set (official := negb _). set (better := (_ && _ || _)). set (later := (_ && official)).
  specialize (IH (b || better) (l || later)). destruct (other_notes self entries _ _) as [[nf nb] nl].
  destruct IH as [IH1 IH2]. rewrite !exists_cons. split; [rewrite IH1; intuition congruence|]. intros Hnf. destruct (IH2 Hnf) as [IHb IHl].
  assert (Hbet : better = true <-> se_status e <> SubStatus.UNOFFICIAL /\ (grade self < se_points e \/ sub_status self = SubStatus.UNOFFICIAL)).
  { unfold better, official. rewrite orb_true_iff, !andb_true_iff, Z.ltb_lt, negb_true_iff, bool_decide_eq_false, bool_decide_eq_true. tauto. }
  assert (Hlat : later = true <-> se_status e <> SubStatus.UNOFFICIAL /\ submission_time self < se_date e).
  { unfold later, official. rewrite andb_true_iff, Z.ltb_lt, negb_true_iff, bool_decide_eq_false. tauto. }
  rewrite IHb, IHl, !orb_true_iff, Hbet, Hlat. split; tauto.
Qed.

(** The page says that another submission is the final one exactly when there is one;
    if there is none, it says that another is better exactly when an official one has
    more points or this one is not official, and that another is later exactly when an
    official one is. *)
Theorem inspect_notes_spec self entries :
  let '(not_final, not_best, not_last) := inspect_notes self entries in
  (not_final = true <-> exists e, e ∈ entries /\ se_id e <> sub_id self /\ se_force_exercise_points e = true) /\
  (not_final = false ->
     (not_best = true <-> exists e, e ∈ entries /\ se_id e <> sub_id self /\ se_status e <> SubStatus.UNOFFICIAL /\
        (grade self < se_points e \/ sub_status self = SubStatus.UNOFFICIAL)) /\
     (not_last = true <-> exists e, e ∈ entries /\ se_id e <> sub_id self /\ se_status e <> SubStatus.UNOFFICIAL /\
        submission_time self < se_date e)).
Proof.
  assert (H := other_notes_spec self entries false false). unfold inspect_notes.
  destruct (other_notes self entries false false) as [[nf nb] nl]. destruct H as [H1 H2]. split; [done|]. intros Hnf.
  destruct (H2 Hnf) as [Hb Hl]. rewrite Hb, Hl. split; intuition congruence.
Qed.

(** What a submission is compared with. *)
Inductive Compared := NoComparison | WithModel | WithEntry (e : SubmissionEntry) | NotFoundC.

(** src/exercise/staff_views.py: InspectSubmissionView.get_compared_submission.  The parameter is what it reads as, a
    number or another text. *)
Definition get_compared_submission (param : option (string + Z)) (entries : list SubmissionEntry) : Compared :=
  match param with
  | None => NoComparison
  | Some (inl t) => if bool_decide (t = "model") then WithModel else NotFoundC
  | Some (inr i) => match find (fun e => se_id e =? i) entries with Some e => WithEntry e | None => NotFoundC end
  end.

(** src/exercise/viewbase.py: SubmissionMixin.index *)
Definition submission_index (i : Z) (entries : list SubmissionEntry) : result Z :=
  match list_find (fun e => se_id e = i) entries with
  | Some (k, _) => Ret (Z.of_nat (length entries) - Z.of_nat k)
  | None => Raise ValueError
  end.

(** src/exercise/viewbase.py: SubmissionMixin.submission_entry *)
Definition submission_entry_of (i : Z) (entries : list SubmissionEntry) : result SubmissionEntry :=
  match find (fun e => se_id e =? i) entries with Some e => Ret e | None => Raise RuntimeError end.

(** The latest submission comes first in the list: the number of a submission is how
    many there are up to it, so the first one made has the number one. *)
Theorem submission_index_spec entries k e :
  NoDup (se_id <$> entries) -> entries !! k = Some e ->
  submission_index (se_id e) entries = Ret (Z.of_nat (length (drop k entries))) /\
  submission_entry_of (se_id e) entries = Ret e.
Proof.
  intros Hnd Hk. split.
  - unfold submission_index. assert (Hf : list_find (fun e' => se_id e' = se_id e) entries = Some (k, e)).
    { apply list_find_Some. split; [done|]. split; [done|]. intros j y Hj Hlt E.
      assert (j = k); [|lia]. eapply (NoDup_lookup _ j k (se_id e) Hnd); rewrite list_lookup_fmap; [by rewrite Hj; cbn; f_equal|by rewrite Hk]. }
    rewrite Hf. f_equal. rewrite length_drop. apply lookup_lt_Some in Hk. lia.
  - unfold submission_entry_of. destruct (find _ entries) as [e'|] eqn:E.
    + apply find_some in E as [Hin Hid]. apply list_elem_of_In in Hin. b2p.
      rewrite (same_key se_id entries e' e Hnd Hin); [done|by eapply list_elem_of_lookup_2|done].
    + exfalso. assert (He := find_none _ _ E e). cbn in He. rewrite Z.eqb_refl in He. discriminate He.
      apply list_elem_of_In. by eapply list_elem_of_lookup_2.
Qed.

(** src/exercise/viewbase.py: SubmissionBaseMixin.get_resource_objects.  The submitter the page is about: the
    visitor if it is one of the submitters, else the first one, if any. *)
Definition page_submitter (s : Submission) (visitor : option UserProfile) : option UserProfile :=
  match visitor with
  | Some p => if submitted_by s p then Some p else head (submitters s)
  | None => head (submitters s)
  end.

(** ** Lists of submissions *)

(** src/exercise/staff_views.py: ListSubmissionsView.get_common_objects lines 79-104.  The submissions shown, and the graded
    and all submitters with the percentage in Python's arithmetic. *)
Definition percentage (graded total : Z) : Z :=
  if total =? 0 then 0 else py_int (fmul (fdiv (inject_Z graded) (inject_Z total)) 100).

Definition submitter_ids (subs : list Submission) : list Z := remove_dups (subs ≫= (fun s => profile_id <$> submitters s)).

Definition list_submissions (limited : bool) (subs : list Submission) : list Submission * (Z * Z * Z) :=
  let total := Z.of_nat (length (submitter_ids subs)) in
  let graded := Z.of_nat (length (submitter_ids (List.filter (fun s => bool_decide (is_Some (grader s))) subs))) in
  (if limited then take 50 subs else subs, (graded, total, percentage graded total)).

(** src/exercise/staff_views.py: ListSubmittersView.get_common_objects lines 142-175.  One line for every submitter: the
    number of submissions, of assessed ones, and the time of the last. *)
Definition submitter_line (subs : list Submission) (i : Z) : Z * nat * nat * option datetime :=
  let own := List.filter (fun s => bool_decide (i ∈ profile_id <$> submitters s)) subs in
  (i, length own, length (List.filter (fun s => bool_decide (is_Some (grader s))) own),
   match submission_time <$> own with [] => None | t :: ts => Some (maxZ t ts) end).

Definition list_submitters (subs : list Submission) : list (Z * nat * nat * option datetime) :=
  submitter_line subs <$> submitter_ids subs.

(** Every submitter has one line, with at least one submission and the time of the
    last; submissions without submitters have none. *)
Theorem list_submitters_spec subs i :
  NoDup ((fun l => l.1.1.1) <$> list_submitters subs) /\
  (i ∈ (fun l => l.1.1.1) <$> list_submitters subs <-> exists s, s ∈ subs /\ i ∈ profile_id <$> submitters s) /\
  (forall n a t, (i, n, a, t) ∈ list_submitters subs -> (0 < n)%nat /\ (a <= n)%nat /\
     exists s, s ∈ subs /\ i ∈ profile_id <$> submitters s /\ t = Some (submission_time s) /\
     forall s', s' ∈ subs -> i ∈ profile_id <$> submitters s' -> submission_time s' <= submission_time s).
Proof.
  assert (Hids : (fun l => l.1.1.1) <$> list_submitters subs = submitter_ids subs).
  { unfold list_submitters. rewrite <- list_fmap_compose. apply list_fmap_id. }
  assert (Hmem : forall j, j ∈ submitter_ids subs <-> exists s, s ∈ subs /\ j ∈ profile_id <$> submitters s).
  { intros j. unfold submitter_ids. rewrite elem_of_remove_dups, list_elem_of_bind. naive_solver. }
  rewrite Hids. split; [apply NoDup_remove_dups|]. split; [apply Hmem|].
  intros n a t Hin. unfold list_submitters in Hin. apply list_elem_of_fmap in Hin as (j & E & Hj).
  unfold submitter_line in E. set (own := List.filter _ subs) in *. injection E as -> -> -> ->.
  assert (Hown : forall s, s ∈ own <-> s ∈ subs /\ j ∈ profile_id <$> submitters s).
  { intros s. unfold own. by rewrite list_elem_of_In, filter_In, <- list_elem_of_In, bool_decide_eq_true. }
  destruct (proj1 (Hmem j) Hj) as (s0 & Hs0 & Hj0). destruct own as [|s1 own'] eqn:Eo.
  { assert (H0 : s0 ∈ @nil Submission) by (by apply Hown). by apply elem_of_nil in H0. }
  split; [cbn; lia|]. split; [apply filter_length_le|].
  assert (Hmax : exists s, s ∈ s1 :: own' /\ submission_time s = maxZ (submission_time s1) (submission_time <$> own')).
  { destruct (maxZ_in (submission_time s1) (submission_time <$> own')) as [->|Hin]; [exists s1; by split; [left|]|].
    apply list_elem_of_In, list_elem_of_fmap in Hin as (s & -> & Hs). exists s. by split; [right|]. }
  destruct Hmax as (s & Hs & Et). exists s. destruct (proj1 (Hown s) Hs) as [Hs1 Hs2]. split_and!; [done|done|cbn; by rewrite Et|].
  intros s' H1 H2. assert (Hs' : s' ∈ s1 :: own') by (by apply Hown). rewrite Et.
  destruct (maxZ_ub (submission_time s1) (submission_time <$> own')) as [Hub Hall].
  apply elem_of_cons in Hs' as [->|Hs']; [done|]. rewrite List.Forall_forall in Hall. apply Hall, list_elem_of_In.
  by apply list_elem_of_fmap_2.
Qed.

(** With 29 of 100 submitters assessed the page shows 28 percent. *)
Lemma percentage_loses_one : percentage 29 100 = 28.
Proof. vm_compute. reflexivity. Qed.

(** ** The front page *)

Section Home.
Context (instances : list CourseInstance) (db : EnrollmentDB).

(** src/course/models.py: CourseInstanceManager.get_visible *)
Definition is_staff_of (p : Z) (i : CourseInstance) : bool :=
  has_enrollment db p (fun e =>
    (bool_decide (role e = EnrollmentRole.TEACHER) || bool_decide (role e = EnrollmentRole.ASSISTANT))
    && bool_decide (status e = EnrollmentStatus.ACTIVE)) i.

Definition get_visible (user : option User) : list CourseInstance :=
  match user with
  | None => List.filter visible_to_students instances
  | Some u =>
      if is_superuser u then instances
      else List.filter (fun i => is_staff_of (profile_id (userprofile u)) i || visible_to_students i) instances
  end.

(** Appending the instances that are not there yet. *)
Definition add_missing (l new : list CourseInstance) : list CourseInstance :=
  foldl (fun l i => if bool_decide (instance_id i ∈ instance_id <$> l) then l else l ++ [i]) l new.

(** src/course/views.py: HomeView.get_common_objects lines 53-86.  [found] tells whether the search of the page finds an
    instance. *)
Definition home_lists (user : option User) (now : datetime) (found : CourseInstance -> bool)
    : list CourseInstance * list CourseInstance :=
  let recent (l : list CourseInstance) := List.filter (fun i => now - days 30 <=? ending_time i) l in
  let my_instances :=
    match user with
    | None => []
    | Some u =>
        let p := profile_id (userprofile u) in
        let l := recent (get_teaching instances db p) in
        let l := add_missing l (recent (get_assisting instances db p)) in
        add_missing l (List.filter visible_to_students (recent (get_enrolled instances db p)))
    end in
  let all_instances := List.filter found (recent (get_visible user)) in
  (my_instances, List.filter (fun c => negb (bool_decide (instance_id c ∈ instance_id <$> my_instances))) all_instances).

(** src/course/views.py: CourseInstancesView.get_common_objects.  The instances shown, in any order, and the message
    of an empty list. *)
Definition course_instances_page (course : Z) (user : option User) : list CourseInstance * string :=
  if existsb (fun i => course_id i =? course) instances
  then (List.filter (fun i => course_id i =? course) (get_visible user), "COURSE_INSTANCES_NOT_VISIBLE_TO_STUDENTS")
  else ([], "NO_COURSE_INSTANCES_OF_COURSE").

(** src/course/views.py: ArchiveView.get_common_objects *)
Definition archive_page (user : option User) (found : CourseInstance -> bool) : list CourseInstance :=
  List.filter found (get_visible user).

Lemma add_missing_spec new : forall l i, NoDup (instance_id <$> l) ->
  NoDup (instance_id <$> add_missing l new) /\
  (i ∈ instance_id <$> add_missing l new <-> i ∈ instance_id <$> l \/ i ∈ instance_id <$> new) /\
  (forall c, c ∈ add_missing l new -> c ∈ l \/ c ∈ new).
Proof.
  induction new as [|c new IH]; intros l i Hnd; cbn.
  { split_and!; [done| |by left]. split; [by left|]. intros [?|Hi]; [done|by apply elem_of_nil in Hi]. }
  case_bool_decide as Hc.
  - destruct (IH l i Hnd) as (H1 & H2 & H3). split; [done|]. split.
    + rewrite H2, elem_of_cons. split; [intros [?|?]; [by left|by right; right]|].
      intros [?|[->|?]]; [by left|by left|by right].
    + intros x Hx. destruct (H3 x Hx); [by left|right; by right].
  - assert (Hnd' : NoDup (instance_id <$> l ++ [c])) by (rewrite fmap_app; by apply NoDup_snoc).
    destruct (IH (l ++ [c]) i Hnd') as (H1 & H2 & H3). split; [done|]. split.
    + rewrite H2, fmap_app, elem_of_app, elem_of_cons. cbn. rewrite list_elem_of_singleton. tauto.
    + intros x Hx. destruct (H3 x Hx) as [[?| ->%list_elem_of_singleton]%elem_of_app|?]; [by left|right; by left|right; by right].
Qed.

Lemma NoDup_filtered (f : CourseInstance -> bool) l : NoDup (instance_id <$> l) -> NoDup (instance_id <$> List.filter f l).
Proof. intros H. eapply sublist_NoDup; [exact H|]. apply fmap_sublist, sublist_bool_filter. Qed.

Lemma elem_of_bool_filter {A} (f : A -> bool) l x : x ∈ List.filter f l <-> x ∈ l /\ f x = true.
Proof. by rewrite list_elem_of_In, filter_In, <- list_elem_of_In. Qed.

Lemma get_visible_in user c : c ∈ get_visible user -> c ∈ instances /\
  (visible_to_students c = true \/ exists u, user = Some u /\ (is_superuser u = true \/ is_staff_of (profile_id (userprofile u)) c = true)).
Proof.
  unfold get_visible. destruct user as [u|].
  - destruct (is_superuser u) eqn:E; [intros H; split; [done|right; exists u; tauto]|].
    rewrite elem_of_bool_filter. intros [H [H'|H']%orb_prop]; (split; [done|]); [right; exists u; tauto|by left].
  - rewrite elem_of_bool_filter. intros [H1 H2]. tauto.
Qed.

Lemma role_is_staff r p c : r <> EnrollmentRole.STUDENT ->
  has_enrollment db p (fun e => bool_decide (role e = r) && bool_decide (status e = EnrollmentStatus.ACTIVE)) c = true ->
  is_staff_of p c = true.
Proof.
  unfold is_staff_of, has_enrollment. destruct (db !! (instance_id c, p)) as [e|]; [|done]. intros Hr H. b2p.
  rewrite (bool_decide_eq_true_2 (status e = _)) by done. rewrite andb_true_r, orb_true_iff, !bool_decide_eq_true.
  destruct r; [done|by right|by left].
Qed.

Lemma mine_visible u c f : let p := profile_id (userprofile u) in
  c ∈ List.filter f (get_teaching instances db p) \/ c ∈ List.filter f (get_assisting instances db p) \/
  c ∈ List.filter visible_to_students (List.filter f (get_enrolled instances db p)) ->
  c ∈ instances /\ f c = true /\ (visible_to_students c = true \/ is_staff_of p c = true).
Proof.
  cbv zeta. unfold get_teaching, get_assisting, get_with_role, get_enrolled. rewrite !elem_of_bool_filter.
  intros [[[H1 H2] H3]|[[[H1 H2] H3]|[[[H1 H2] H3] H4]]]; (split; [done|]); (split; [done|]); [right|right|by left];
    by eapply role_is_staff; [|exact H2].
Qed.

(** The front page shows the right courses: every course on it is there once, ended at
    most thirty days ago, and is visible to students unless the visitor is staff of it
    or a superuser; the visitor's own recent courses, as a teacher, an assistant or a
    student of a visible course, are in the first list; and every other recent course
    the visitor may see and the search finds is in the second. *)
Theorem home_lists_spec user now found :
  NoDup (instance_id <$> instances) ->
  let '(mine, others) := home_lists user now found in
  NoDup (instance_id <$> mine ++ others) /\
  (forall c, c ∈ mine ++ others -> c ∈ instances /\ now - days 30 <= ending_time c /\
     (visible_to_students c = true \/ exists u, user = Some u /\ (is_superuser u = true \/ is_staff_of (profile_id (userprofile u)) c = true))) /\
  (forall u c, user = Some u -> now - days 30 <= ending_time c ->
     c ∈ get_teaching instances db (profile_id (userprofile u)) \/ c ∈ get_assisting instances db (profile_id (userprofile u)) \/
     (c ∈ get_enrolled instances db (profile_id (userprofile u)) /\ visible_to_students c = true) ->
     instance_id c ∈ instance_id <$> mine) /\
  (forall c, c ∈ get_visible user -> now - days 30 <= ending_time c -> found c = true ->
     instance_id c ∈ instance_id <$> mine ++ others).
Proof.
  intros Hnd. unfold home_lists. set (recent := fun i => now - days 30 <=? ending_time i).
  set (mine := match user with None => [] | Some u => _ end).
  assert (Hmine : NoDup (instance_id <$> mine) /\
    (forall c, c ∈ mine -> c ∈ instances /\ recent c = true /\ exists u, user = Some u /\ (visible_to_students c = true \/ is_staff_of (profile_id (userprofile u)) c = true)) /\
    (forall u c, user = Some u -> recent c = true ->
       c ∈ get_teaching instances db (profile_id (userprofile u)) \/ c ∈ get_assisting instances db (profile_id (userprofile u)) \/
       (c ∈ get_enrolled instances db (profile_id (userprofile u)) /\ visible_to_students c = true) -> instance_id c ∈ instance_id <$> mine)).
  { unfold mine. destruct user as [u|].
    2:{ split; [apply NoDup_nil_2|]. split; [intros c Hc; by apply elem_of_nil in Hc|done]. }
    set (p := profile_id (userprofile u)). set (t := List.filter recent (get_teaching instances db p)).
    set (a := List.filter recent (get_assisting instances db p)).
    set (e := List.filter visible_to_students (List.filter recent (get_enrolled instances db p))).
    assert (Ht : NoDup (instance_id <$> t)) by (by do 2 apply NoDup_filtered).
    destruct (add_missing_spec a t 0 Ht) as (Hta & _ & Hta3).
    destruct (add_missing_spec e (add_missing t a) 0 Hta) as (Hall & _ & Hall3).
    split; [exact Hall|]. split.
    - intros c Hc. destruct (mine_visible u c recent) as (H1 & H2 & H3).
      { destruct (Hall3 c Hc) as [Hc'|Hc']; [destruct (Hta3 c Hc'); [by left|by right; left]|by right; right]. }
      split; [done|]. split; [done|]. by exists u.
    - intros u' c [= <-] Hrec Hc. apply add_missing_spec; [done|].
      destruct Hc as [Hc|[Hc|[Hc Hv]]]; [left; apply add_missing_spec; [done|left]|left; apply add_missing_spec; [done|right]|right];
        apply list_elem_of_fmap_2; unfold t, a, e; rewrite ?elem_of_bool_filter; tauto. }
  destruct Hmine as (Hm1 & Hm2 & Hm3). split; [|split; [|split]].
  - rewrite fmap_app. apply NoDup_app. split_and!; [done| |].
    + intros i Hi Hi'. apply list_elem_of_fmap in Hi' as (c & -> & Hc). apply elem_of_bool_filter in Hc as [_ Hc]. by b2p.
    + do 3 apply NoDup_filtered. unfold get_visible. destruct user as [u|]; [destruct (is_superuser u); [done|]|]; by apply NoDup_filtered.
  - intros c [Hc|Hc]%elem_of_app.
    + destruct (Hm2 c Hc) as (H1 & H2 & u & -> & H3). split; [done|]. split; [by apply Z.leb_le|].
      destruct H3; [by left|right; exists u; tauto].
    + rewrite !elem_of_bool_filter in Hc. destruct Hc as [[[Hc Hr] _] _].
      destruct (get_visible_in user c Hc) as [H1 H2]. split; [done|]. split; [by apply Z.leb_le|done].
  - intros u c Hu Hr. apply Hm3; [done|]. by apply Z.leb_le.
  - intros c Hc Hr Hf. rewrite fmap_app. apply elem_of_app.
    destruct (decide (instance_id c ∈ instance_id <$> mine)) as [Hin|Hin]; [by left|right]. apply list_elem_of_fmap_2.
    rewrite !elem_of_bool_filter. split_and!; [done|by apply Z.leb_le|done|by rewrite bool_decide_eq_false_2].
Qed.
End Home.

(** ** Files *)

(** The files of a service: a name, and the content if the service was reached. *)
Abbreviation ServiceFile := (string * option string)%type.

(** src/exercise/views.py: _find_name.  Without a name the first file is meant; a file whose content is not known is
    an empty one. *)
Definition find_name (name : string) (objects : list ServiceFile) : result (string * option string) :=
  match find (fun o => bool_decide (name = "") || bool_decide (fst o = name)) objects with
  | Some o => let! n := safe_file_name (fst o) in Ret (n, Some (default "" (snd o)))
  | None => let! n := safe_file_name name in Ret (n, None)
  end.

(** src/exercise/views.py: ExerciseModelView.get_common_objects, and the same of [ExerciseTemplateView].  [fetch] is the text at the
    address, if it is found. *)
Definition service_files (fetch : string -> option string) (entries : list (string * string)) : list ServiceFile :=
  (fun '(url, name) => (name, fetch url)) <$> entries.

(** The answer to a request for a download; [None] shows the page. *)
Inductive Download := DownloadMissing (name : string) | DownloadFile (name data : string).

(** src/exercise/views.py: ExerciseModelView.get, and the same of [ExerciseTemplateView]. *)
Definition download (wanted : bool) (name : string) (files : list ServiceFile) : result (option Download) :=
  if wanted then
    let! (n, data) := find_name name files in
    Ret (Some (match data with Some d => DownloadFile n d | None => DownloadMissing n end))
  else Ret None.

Section SubmittedFiles.
(** src/exercise/submission_models.py: SubmittedFile *)
Record SubFile := mkSubFile { sf_id : Z; sf_submission : Z; sf_param_name : string; sf_filename : string; sf_data : option string }.
Context (files : list SubFile) (subs : list Submission).

(** src/exercise/views.py: SubmittedFileView.get_resource_objects *)
Definition get_file (submission file_id : Z) (file_name : string) : result SubFile :=
  match get_one (List.filter (fun f => (sf_id f =? file_id) && (sf_submission f =? submission)) files) with
  | Ret f => if bool_decide (sf_filename f = file_name) then Ret f else Raise Http404
  | Raise DoesNotExist => Raise Http404
  | Raise e => Raise e
  end.

(** What [compare_to] reads as. *)
Inductive CompareTo := CompareModel | CompareWith (i : Z) | CompareText (t : string).

(** src/exercise/views.py: SubmittedFileView.get_model_answer_file_data.  [form_keys] are the keys of the fields of the form;
    [models] the texts of the model files, if they are found. *)
Definition model_file (f : SubFile) (form_keys : list string) (models : list (option string)) : result string :=
  match list_find (fun k => k = sf_param_name f) form_keys with
  | Some (i, _) => match models !! i with Some (Some t) => Ret t | _ => Raise Http404 end
  | None => Raise Http404
  end.

(** src/exercise/views.py: SubmittedFileView.get_compared_submission_file_data.  A submission of the exercise and its file for the
    same field. *)
Definition compared_file (f : SubFile) (exercise i : Z) : result (Submission * string) :=
  match get_one (List.filter (fun s => (sub_id s =? i) && (sub_exercise s =? exercise)) subs) with
  | Ret s =>
      match get_one (List.filter (fun g => bool_decide (sf_param_name g = sf_param_name f) && (sf_submission g =? i)) files) with
      | Ret g => match sf_data g with Some d => Ret (s, d) | None => Raise OSError end
      | Raise DoesNotExist => Raise Http404
      | Raise e => Raise e
      end
  | Raise DoesNotExist => Raise Http404
  | Raise e => Raise e
  end.

(** A trailing line break, unless there is one. *)
Definition newline : string := String (ascii_of_nat 10) EmptyString.
Fixpoint ends_in_newline (s : string) : bool :=
  match s with
  | EmptyString => false
  | String c EmptyString => bool_decide (c = ascii_of_nat 10)
  | String _ s => ends_in_newline s
  end.
Definition end_line (s : string) : string := if ends_in_newline s then s else (s +:+ newline)%string.

(** Python's [ndiff] without its hints, and the stripping of the lines of a text. *)
Context (ndiff : string -> string -> string) (strip_trailing_whitespace : string -> string).

(** What the view sends: nothing, or the text of the file or of a comparison. *)
Inductive FileAnswer := FileMissing | FileText (t : string).

(** src/exercise/views.py: SubmittedFileView.get lines 603-641.  [is_staff] is [is_course_staff(request.user)]. *)
Definition file_get (self : Submission) (f : SubFile) (is_staff : bool) (compare_to : option CompareTo) (ignore : bool)
    (form_keys : list string) (models : list (option string)) : result FileAnswer :=
  match sf_data f with
  | None => Ret FileMissing
  | Some submitted =>
      match compare_to with
      | Some c =>
          if is_staff then
            let! (compared, submitted) :=
              match c with
              | CompareModel => let! t := model_file f form_keys models in Ret (t, submitted)
              | CompareText _ => Raise ValueError
              | CompareWith i =>
                  let! (s, data) := compared_file f (sub_exercise self) i in
                  Ret (if submission_time self <? submission_time s then (submitted, data) else (data, submitted))
              end in
            let strip t := if ignore then strip_trailing_whitespace t else t in
            Ret (FileText (ndiff (end_line (strip compared)) (end_line (strip submitted))))
          else Ret (FileText submitted)
      | None => Ret (FileText submitted)
      end
  end.

(** Only staff compares.  A visitor who is not staff gets the file itself, whatever is
    asked for; staff gets the differences from the earlier of the two submissions to
    the later one, and only with a submission of the same exercise. *)
Theorem file_get_spec self f is_staff compare_to ignore form_keys models answer :
  file_get self f is_staff compare_to ignore form_keys models = Ret answer ->
  (is_staff = false -> answer = match sf_data f with Some d => FileText d | None => FileMissing end) /\
  (forall i submitted, is_staff = true -> compare_to = Some (CompareWith i) -> sf_data f = Some submitted ->
     exists s g data, s ∈ subs /\ sub_id s = i /\ sub_exercise s = sub_exercise self /\ g ∈ files /\ sf_submission g = i /\
       sf_data g = Some data /\
       let strip t := if ignore then strip_trailing_whitespace t else t in
       answer = FileText (if submission_time self <? submission_time s
                          then ndiff (end_line (strip submitted)) (end_line (strip data))
                          else ndiff (end_line (strip data)) (end_line (strip submitted)))).
Proof.
  unfold file_get. intros Ha. split.
  { intros ->. destruct (sf_data f); [|by injection Ha]. destruct compare_to; by injection Ha. }
  intros i submitted -> -> Hd. rewrite Hd in Ha. unfold compared_file in Ha.
  destruct (get_one (List.filter _ subs)) as [s|e] eqn:Es; [|by destruct e].
  destruct (get_one (List.filter _ files)) as [g|e] eqn:Eg; [|by destruct e].
  destruct (sf_data g) as [data|] eqn:Edata; [|done]. cbn [rbind] in Ha.
  assert (Hone : forall (A : Type) (h : A -> bool) l a, get_one (List.filter h l) = Ret a -> a ∈ l /\ h a = true).
  { intros A h l a E. apply elem_of_bool_filter. unfold get_one in E. destruct (List.filter h l) as [|x [|? ?]]; try done.
    injection E as ->. by left. }
  apply Hone in Es as [Hs1 Hs2]. apply Hone in Eg as [Hg1 Hg2]. b2p.
  exists s, g, data. split_and!; try done. cbv zeta in *. destruct (submission_time self <? submission_time s); by injection Ha as <-.
Qed.
End SubmittedFiles.

(** ** The page of an exercise *)

(** src/lib/viewbase.py: BaseMixin._get_kwarg.  An empty text is missing. *)
Definition get_kwarg (arg : option string) (default : option (option string)) : result (option string) :=
  match arg with
  | Some (String c s) => Ret (Some (String c s))
  | _ => match default with Some d => Ret d | None => Raise AttributeError end
  end.

(** src/lib/viewbase.py: BaseRedirectMixin.redirect.  [allowed] is what Django says of the address with this host. *)
Definition redirect (allowed : string -> bool) (to : string) (backup : option string) : result string :=
  if allowed to then Ret to
  else match backup with Some b => Ret b | None => Raise AttributeError end.

(** src/lib/viewbase.py: BaseRedirectMixin.redirect_kwarg *)
Definition redirect_kwarg (allowed : string -> bool) (post get : option string) (backup : option string) : result string :=
  redirect allowed (match post with Some p => p | None => default "" get end) backup.

(** src/exercise/viewbase.py: ExerciseRevealRuleMixin.feedback_reveal_info.  Whether feedback is shown, and the description of hidden
    feedback: a time, or that it is hidden.  A time that is not known reads as the present. *)
Inductive Hidden := NoDescription | RevealedAt (t : datetime) | HiddenNow.
Definition feedback_reveal_info (is_course_staff is_exercise is_user : bool) (rule : RevealRule) (state : RevealState) (now : datetime)
    : bool * Hidden :=
  if negb is_course_staff && is_exercise && is_user then
    (is_revealed rule state now,
     if bool_decide (trigger rule ∈ [RevealTrigger.TIME; RevealTrigger.DEADLINE; RevealTrigger.DEADLINE_ALL; RevealTrigger.DEADLINE_OR_FULL_POINTS])
     then RevealedAt (default now (get_reveal_time rule state)) else HiddenNow)
  else (true, NoDescription).

(** src/exercise/viewbase.py: ExerciseRevealRuleMixin.model_revealed *)
Definition model_revealed (is_course_staff is_exercise is_user : bool) (can_show : bool) : bool :=
  if negb is_course_staff && is_exercise && is_user then can_show else true.

(** A description that promises a time to a student names one that is not over. *)
Theorem hidden_feedback_time rule state now is_course_staff is_exercise is_user t :
  feedback_reveal_info is_course_staff is_exercise is_user rule state now = (false, RevealedAt t) ->
  get_reveal_time rule state = Some t -> now <= t.
Proof.
  unfold feedback_reveal_info. destruct (negb _ && _ && _); [|done]. case_bool_decide as Htr; [|done].
  intros [= Hrev Ht] Hg. apply Z.le_ngt. intros Hlt. assert (Hb := reveal_time_is_boundary rule state). rewrite Hg in Hb.
  destruct Hb as [Hb _]. by rewrite (Hb now Hlt) in Hrev.
Qed.

(** What the page of an exercise is given. *)
Record ExerciseGet := mkExerciseGet {
  eg_submission_allowed : bool;
  eg_disable_submit : bool;
  eg_should_enroll : bool;
  eg_maintenance : bool;
  eg_displayed : bool;
}.

Section ExercisePage.
Context `{Settings}.

(** src/exercise/views.py: ExerciseView.get.  [is_submittable] holds of exercises; the page in maintenance is shown instead of the
    exercise; a row for the display is stored for a visitor with a profile. *)
Definition exercise_get (w : World) (exercise : BaseExercise) (is_submittable is_course_staff : bool) (profile : option UserProfile)
    : result ExerciseGet :=
  let! (allowed, disable, enroll) :=
    if is_submittable then
      if no_submission exercise && negb is_course_staff then Ret (false, true, false)
      else
        let! (status, allowed, _) := submission_check w exercise profile None in
        Ret (allowed, bool_decide (status ∈ [SubmitStatus.CANNOT_ENROLL; SubmitStatus.NOT_ENROLLED]),
             bool_decide (status = SubmitStatus.NOT_ENROLLED))
    else Ret (false, false, false) in
  if is_in_maintenance (module_status (course_module exercise)) (lobj_status exercise) && negb is_course_staff
  then Ret (mkExerciseGet false false false true false)
  else Ret (mkExerciseGet allowed disable enroll false (bool_decide (is_Some profile))).

(** A page that lets a visitor submit does so because the policy does, and shows the
    form; nobody but staff sees an exercise in maintenance; and a display is stored
    exactly for a signed-in visitor who sees the exercise. *)
Theorem exercise_get_spec w exercise is_submittable is_course_staff profile page :
  exercise_get w exercise is_submittable is_course_staff profile = Ret page ->
  (eg_submission_allowed page = true -> is_submittable = true /\ eg_disable_submit page = false /\ eg_maintenance page = false /\
     exists p status alerts students, profile = Some p /\ check_submission_allowed w exercise p None = Ret (status, alerts, students) /\
       status = SubmitStatus.ALLOWED) /\
  (eg_maintenance page = true <->
     is_in_maintenance (module_status (course_module exercise)) (lobj_status exercise) = true /\ is_course_staff = false) /\
  (eg_displayed page = true <-> is_Some profile /\ eg_maintenance page = false) /\
  (eg_should_enroll page = true -> eg_disable_submit page = true).
Proof.
  unfold exercise_get. intros E.
  destruct (if is_submittable then _ else _) as [[[allowed disable] enroll]|] eqn:Ec; cbn [rbind] in E; [|done].
  set (m := is_in_maintenance _ _) in *. destruct (m && negb is_course_staff) eqn:Em.
  { injection E as <-. cbn. b2p. split; [done|]. split; [done|]. split; [|done]. split; [done|]. intros [_ ?]. done. }
  injection E as <-. cbn. rewrite bool_decide_eq_true. split; [|split; [|split]].
  - intros ->. destruct is_submittable; [|done]. destruct (no_submission exercise && _); [done|].
    unfold submission_check in Ec. destruct profile as [p|]; [|done].
    destruct (check_submission_allowed w exercise p None) as [[[status alerts] students]|] eqn:Ek; cbn in Ec; [|done].
    injection Ec as Ha Hd _. b2p. subst. split_and!; try done. by exists p, SubmitStatus.ALLOWED, alerts, students.
  - split; [done|]. intros [Hm Hs]. rewrite Hm, Hs in Em. done.
  - split; [by intros ?|by intros [? _]].
  - destruct is_submittable; [|by injection Ec as _ _ <-]. destruct (no_submission exercise && _); [by injection Ec as _ _ <-|].
    destruct (submission_check w exercise profile None) as [[[status a] st]|]; cbn in Ec; [|done]. injection Ec as _ <- <-.
    intros Hn. b2p. subst. done.
Qed.
End ExercisePage.

(** ** The page of a collection of exercises *)

(** [p in s] for texts. *)
Fixpoint has_substring (p s : string) : bool :=
  startswith p s || match s with EmptyString => false | String _ s => has_substring p s end.

(** An exercise of the target category: its name, the urls of its ancestors from the
    parent up, and the points. *)
Record TargetExercise := mkTarget {
  te_name : string;
  te_ancestors : list string;
  te_max_points : Z;
  te_user_points : Z;
}.

(** src/exercise/views.py: ExerciseView._load_exercisecollection lines 373-376.  The name in a language. *)
Definition collection_title (language : string) (name : string) : string :=
  foldl (fun title candidate => if has_substring language candidate then drop_str (String.length language + 1) candidate else title)
    name (split "|" name).

(** src/exercise/views.py: ExerciseView._load_exercisecollection lines 366-391.  The path of the link, the title and the points. *)
Definition collection_row (language : string) (t : TargetExercise) : result (string * string * Z * Z) :=
  match te_ancestors t with
  | [] => Raise AttributeError
  | ancestors => Ret (join "/" (rev ancestors), collection_title language (te_name t), te_max_points t, te_user_points t)
  end.

Fixpoint collection_rows (language : string) (ts : list TargetExercise) : result (list (string * string * Z * Z)) :=
  match ts with
  | [] => Ret []
  | t :: ts => let! r := collection_row language t in let! rs := collection_rows language ts in Ret (r :: rs)
  end.

(** src/exercise/views.py: ExerciseView._load_exercisecollection lines 356-406.  The rows with the sums of the maxima and of the
    points; the title is made from the last exercise. *)
Definition load_exercisecollection (has_profile : bool) (language : string) (ts : list TargetExercise)
    : result (list (string * string * Z * Z) * Z * Z) :=
  if negb has_profile then Raise AttributeError
  else
    let! rows := collection_rows language ts in
    match ts with
    | [] => Raise NameError
    | _ => Ret (rows, sumZ (te_max_points <$> ts), sumZ (te_user_points <$> ts))
    end.

(** The page of a collection can be shown to a signed-in user exactly when the target
    category has exercises and all of them are below a chapter; then it has a row for
    each of them and the sums are those of the rows. *)
Theorem load_exercisecollection_spec language ts :
  match load_exercisecollection true language ts with
  | Ret (rows, max_points, points) =>
      ts <> [] /\ Forall (fun t => te_ancestors t <> []) ts /\ length rows = length ts /\
      max_points = sumZ ((fun r => r.1.2) <$> rows) /\ points = sumZ ((fun r => r.2) <$> rows)
  | Raise e => (ts = [] /\ e = NameError) \/ (Exists (fun t => te_ancestors t = []) ts /\ e = AttributeError)
  end.
Proof.
  assert (Hrows : match collection_rows language ts with
                  | Ret rows => Forall (fun t => te_ancestors t <> []) ts /\ length rows = length ts /\
                      sumZ (te_max_points <$> ts) = sumZ ((fun r => r.1.2) <$> rows) /\ sumZ (te_user_points <$> ts) = sumZ ((fun r => r.2) <$> rows)
                  | Raise e => Exists (fun t => te_ancestors t = []) ts /\ e = AttributeError
                  end).
  { induction ts as [|t ts IH]; cbn; [by split_and!|]. unfold collection_row. destruct (te_ancestors t) as [|a l] eqn:Ea; cbn.
    { split; [by constructor|done]. }
    destruct (collection_rows language ts) as [rows|e]; cbn; [|destruct IH as [IH ->]; split; [by constructor 2|done]].
    destruct IH as (H1 & H2 & H3 & H4). unfold sumZ in *. split_and!; [constructor; [by rewrite Ea|done]|cbn; lia|cbn; lia|cbn; lia]. }
  unfold load_exercisecollection. cbn [negb]. destruct (collection_rows language ts) as [rows|e]; cbn [rbind]; [|by right].
  destruct ts as [|t ts]; [by left|]. destruct Hrows as (H1 & H2 & H3 & H4). by split_and!.
Qed.

(** The English title of an exercise is taken from its Finnish name if that has the
    letters of the language code in it. *)
Lemma title_of_wrong_language : collection_title "en" "|en:Opening|fi:Valmentaja|" = "Valmentaja".
Proof. vm_compute. reflexivity. Qed.

(** ** The language of a course *)

Section Language.
(** Whether an address is allowed for this host, its translation, and whether the language exists. *)
Context (allowed : string -> bool) (translate : string -> string -> string) (known_language : string -> bool).

(** Where the language is kept. *)
Inductive Kept := NotKept | KeptInEnrollment (lang : string) | KeptInProfile (lang : string) | KeptInCookie (lang : string).

Definition address_ok (t : option string) : bool := match t with Some t => allowed t | None => false end.

(** src/course/views.py: LanguageView.post lines 353-366.  The address to go to; the addresses are given without the parameter of the
    language, and [None] is none. *)
Definition next_address (next referer : option string) (is_ajax : bool) : option string :=
  let given := match next with Some (String _ _) => true | _ => false end in
  let next :=
    if (given || negb is_ajax) && negb (address_ok next) then (if address_ok referer then referer else Some "/") else next in
  match next with Some EmptyString => None | n => n end.

(** src/course/views.py: LanguageView.post.  [None] is an answer without content. *)
Definition language_post (next referer : option string) (is_ajax is_authenticated enrolled : bool) (language : option string)
    : option string * Kept :=
  let next := next_address next referer is_ajax in
  match language with
  | Some (String c l) =>
      let lang := String c l in
      if known_language lang then
        (match next with
         | Some n => Some (let t := translate n lang in if bool_decide (t = n) then n else t)
         | None => None
         end,
         if is_authenticated then (if enrolled then KeptInEnrollment lang else KeptInProfile lang) else KeptInCookie lang)
      else (next, NotKept)
  | _ => (next, NotKept)
  end.

Lemma next_address_ok next referer is_ajax t :
  allowed "/" = true -> next_address next referer is_ajax = Some t -> allowed t = true.
Proof.
  intros Hroot. unfold next_address. cbv zeta. set (given := match next with Some (String _ _) => true | _ => false end).
  destruct ((given || negb is_ajax) && negb (address_ok next)) eqn:Ec.
  - destruct (address_ok referer) eqn:Er; [|by intros [= <-]]. destruct referer as [[|c l]|]; [done| |done]. by intros [= <-].
  - destruct next as [[|c l]|]; [done| |done]. intros [= <-]. cbn in Ec. by b2p.
Qed.

(** Changing the language never leads to another site: if translations of allowed
    addresses are allowed, the address the visitor is sent to is; and the language is
    kept in one place, only if it exists. *)
Theorem language_post_safe next referer is_ajax is_authenticated enrolled language :
  allowed "/" = true -> (forall n l, allowed n = true -> allowed (translate n l) = true) ->
  let '(to, kept) := language_post next referer is_ajax is_authenticated enrolled language in
  (forall t, to = Some t -> allowed t = true) /\
  match kept with
  | NotKept => True
  | KeptInEnrollment l => language = Some l /\ known_language l = true /\ is_authenticated = true /\ enrolled = true
  | KeptInProfile l => language = Some l /\ known_language l = true /\ is_authenticated = true /\ enrolled = false
  | KeptInCookie l => language = Some l /\ known_language l = true /\ is_authenticated = false
  end.
Proof.
  intros Hroot Htrans. unfold language_post. assert (H2 := fun t => next_address_ok next referer is_ajax t Hroot).
  destruct (next_address next referer is_ajax) as [n|].
  - assert (Hn : allowed n = true) by (by apply H2). destruct language as [[|c l]|]; [by split; [intros t [= <-]|]| |by split; [intros t [= <-]|]].
    destruct (known_language (String c l)) eqn:Ek; [|by split; [intros t [= <-]|]]. split.
    + intros t [= <-]. case_bool_decide; [done|]. by apply Htrans.
    + destruct is_authenticated; [destruct enrolled|]; done.
  - destruct language as [[|c l]|]; [by split| |by split]. destruct (known_language (String c l)) eqn:Ek; [|by split].
    split; [done|]. destruct is_authenticated; [destruct enrolled|]; done.
Qed.
End Language.

(** ** Observations *)

Definition pair_sub : Submission :=
  mkSubmission 1 1 0 [] None "" SubStatus.READY None 0 None None false 0 0 None.

(** A submission of a group of two whose names both match is in the table twice, and is
    counted twice. *)
Lemma group_listed_twice :
  let r := mkSubRow pair_sub 1 [mkPerson 1 "Ada" "" "" None; mkPerson 2 "Ada" "" "" None] [] in
  let q := mkSearch None AnyStatus [] "Ada" None None [] "" "" in
  match all_submissions (fun s p => bool_decide (s = p)) 1 q [r] with
  | Ret table => tb_rows table = [r; r] /\ tb_total_count table = 2%nat
  | Raise _ => False
  end.
Proof. vm_compute. done. Qed.

(** After the page has tagged a submission twice, the endpoint fails to remove the tag. *)
Lemma tag_twice_breaks_api :
  let tags := [mkSubTag 1 1 "check"] in
  let instance_of := fun _ : Z => Some 1 in
  match tagging_add tags instance_of 1 7 1 [] with
  | Ret l => match tagging_add tags instance_of 1 7 1 l with
             | Ret l => manage_tag tags TagDelete 7 1 (Some "check") l = Raise MultipleObjectsReturned
             | Raise _ => False
             end
  | Raise _ => False
  end.
Proof. vm_compute. reflexivity. Qed.

(** An assistant of course 1 tags a submission of course 2. *)
Lemma tag_on_foreign_submission :
  tagging_add [mkSubTag 1 1 "check"] (fun _ => Some 2) 1 7 1 [] = Ret [(7, 1)].
Proof. vm_compute. reflexivity. Qed.

(** A text that is no number is a server error where two submissions are compared. *)
Lemma comparison_with_text_fails :
  file_get [] [] (fun a _ => a) id pair_sub (mkSubFile 1 1 "f" "a.py" (Some "x")) true (Some (CompareText "latest")) false [] [] = Raise ValueError.
Proof. reflexivity. Qed.

(** Without a name and without files, a download is a server error. *)
Lemma download_without_files : download true "" [] = Raise IndexError.
Proof. vm_compute. reflexivity. Qed.
