(* ===== verification/Fields.v ===== *)
(** * Fields and forms

    The fields of [lib/fields.py] with their widgets of [lib/widgets.py] - durations
    in several units and columns that hold JSON - and the validation of the forms of
    deviations, [deviations/forms.py], that use them.  The reader and the printer of
    JSON are those of Python's library. *)

From Stdlib Require Import QArith.
From S2P Require Import Prelude Lists Helpers Deviations ConfigDiff.
#[local] Open Scope string_scope.
#[local] Open Scope list_scope.
#[local] Open Scope Z_scope.

(** ** Durations *)

Section Durations.
(** The factors of the units, from the largest to the smallest. *)
Context (units : list Z).

(** src/lib/fields.py: DurationField.compress *)
Fixpoint compress_from (total : option Z) (data_list : list (option Z)) (units : list Z) : option Z :=
  match data_list, units with
  | value :: data_list, factor :: units =>
      match value with
      | None => compress_from total data_list units
      | Some v => compress_from (Some (default 0 total + v * factor)) data_list units
      end
  | _, _ => total
  end.
Definition compress (data_list : list (option Z)) : option Z := compress_from None data_list units.

(** src/lib/widgets.py: DurationInput.decompress lines 51-56 *)
Fixpoint unit_values (remainder : Z) (units : list Z) : list (option Z) :=
  match units with
  | [] => []
  | factor :: units => Some (remainder / factor) :: unit_values (remainder mod factor) units
  end.

(** src/lib/widgets.py: DurationInput.decompress *)
Definition decompress (value : option Z) : list (option Z) :=
  match value with
  | None => repeat None (length units)
  | Some v => unit_values v units
  end.

(** src/lib/widgets.py: DurationInput.value_from_datadict.  [single] is the value under the name of the field itself, [each] those
    under the names of the units. *)
Definition value_from_datadict (single : option Z) (each : list (option Z)) : list (option Z) :=
  match single with
  | Some v => repeat None (length units - 1) ++ [Some v]
  | None => each
  end.

(** src/lib/fields.py: DurationField lines 59-62.  The limits of the value. *)
Definition duration_clean (min_value max_value : option Z) (value : option Z) : result (option Z) :=
  match value with
  | None => Ret None
  | Some v =>
      if match max_value with Some m => m <? v | None => false end || match min_value with Some m => v <? m | None => false end
      then Raise (ValidationError ["value"]) else Ret (Some v)
  end.
End Durations.

(** src/lib/fields.py: DurationField lines 36-42 *)
Definition DEFAULT_UNITS : list Z := [60 * 60 * 24; 60 * 60; 60; 1].

Lemma compress_unit_values units : forall total v,
  Forall (fun f => 0 < f) units -> last units = Some 1 ->
  compress_from total (unit_values v units) units = Some (default 0 total + v).
Proof.
  induction units as [|f units IH]; intros total v Hpos Hlast; [done|]. apply Forall_cons in Hpos as [Hf Hpos]. cbn.
  destruct units as [|g units].
  - cbn in Hlast. injection Hlast as ->. cbn. f_equal. rewrite Z.div_1_r. lia.
  - rewrite IH by done. cbn. f_equal. rewrite (Z.div_mod v f) at 3 by lia. lia.
Qed.

(** A duration is shown and read back: whatever it is, also a negative one, the values
    of the units the widget shows stand for it, if the smallest unit is the second.
    All but the first are within the unit before. *)
Theorem duration_roundtrip units v :
  Forall (fun f => 0 < f) units -> last units = Some 1 ->
  compress units (decompress units (Some v)) = Some v /\
  (forall k f g x, units !! k = Some f -> units !! S k = Some g -> decompress units (Some v) !! S k = Some (Some x) ->
     0 <= x /\ x * g < f).
Proof.
  intros Hpos Hlast. split; [unfold compress, decompress; by rewrite compress_unit_values|].
  unfold decompress. clear Hlast. revert v. induction Hpos as [|f0 units Hf Hpos IH]; intros v k f g x Hk HSk Hx; [done|].
  destruct k as [|k].
  - cbn in Hk. injection Hk as ->. destruct units as [|g0 units]; [done|]. cbn in HSk. injection HSk as ->.
    cbn in Hx. injection Hx as <-. apply Forall_cons in Hpos as [Hg _].
    assert (Hr := Z.mod_pos_bound v f Hf). split; [apply Z.div_pos; lia|].
    assert (H := Z.mul_div_le (v mod f) g Hg). lia.
  - cbn in Hk, HSk. by apply (IH (v mod f0) k f g x).
Qed.

Lemma duration_roundtrip_witness :
  decompress DEFAULT_UNITS (Some 90061) = [Some 1; Some 1; Some 1; Some 1] /\
  compress DEFAULT_UNITS (decompress DEFAULT_UNITS (Some 90061)) = Some 90061.
Proof.
  split; [reflexivity|]. apply (duration_roundtrip DEFAULT_UNITS 90061); [repeat constructor|reflexivity].
Defined.

(** ** Columns of JSON *)

Section JsonColumn.
(** [json.dumps] and [json.loads]. *)
Context (dumps : json -> string) (loads : string -> option json).

(** src/lib/fields.py: JSONField.parse_json.  A text is read, another value is kept. *)
Definition parse_json (value : json) : result json :=
  if negb (truthy value) then Ret JNull
  else match value with
       | JStr s => match loads s with Some j => Ret j | None => Raise (ValidationError ["json"]) end
       | v => Ret v
       end.

(** src/lib/fields.py: JSONField.print_json *)
Definition print_json (value : json) : string :=
  if negb (truthy value) then ""
  else match value with
       | JStr s => s
       | v => dumps v
       end.

(** src/lib/fields.py: JSONField.from_db_value *)
Definition from_db_value (text : string) : json :=
  match parse_json (JStr text) with Ret j => j | Raise _ => JNull end.

Definition is_text (j : json) : bool := match j with JStr _ => true | _ => false end.

(** What is stored is read back: a value that is neither false nor a text comes back as
    it was, a false one as none, and a text as what it reads as, or none. *)
Theorem json_column_roundtrip v :
  (truthy v = true -> is_text v = false -> loads (dumps v) = Some v /\ dumps v <> "") ->
  from_db_value (print_json v) =
  if negb (truthy v) then JNull
  else match v with JStr s => default JNull (loads s) | _ => v end.
Proof.
  intros Hj. unfold from_db_value, print_json. destruct (truthy v) eqn:Ev; [|done]. cbn [negb].
  destruct (is_text v) eqn:Et.
  - destruct v; try done. unfold parse_json. rewrite Ev. cbn. by destruct (loads s).
  - destruct (Hj eq_refl eq_refl) as [Hl Hd].
    assert (E : parse_json (JStr (dumps v)) = Ret v).
    { unfold parse_json. cbn [truthy]. rewrite bool_decide_eq_false_2 by done. cbn. by rewrite Hl. }
    destruct v; try done; by rewrite E.
Qed.
End JsonColumn.

(** ** The forms of deviations *)

(** The choices of a form: modules, exercises, tags of students, students. *)
Record DeviationForm := mkDeviationForm {
  df_module : list Z;
  df_exercise : list Z;
  df_submitter_tag : list Z;
  df_submitter : list Z;
}.

(** src/deviations/forms.py: BaseDeviationForm.clean *)
Definition deviation_form_clean (f : DeviationForm) : result unit :=
  if bool_decide (df_exercise f = []) && bool_decide (df_module f = []) then Raise (ValidationError ["EXERCISES_AND_MODULES_MISSING"])
  else if bool_decide (df_submitter_tag f = []) && bool_decide (df_submitter f = []) then Raise (ValidationError ["SUBMITTERS_AND_TAGS_MISSING"])
  else Ret tt.

(** src/deviations/forms.py: DeadlineRuleDeviationForm.clean, with the field of the seconds, at least one. *)
Definition deadline_form_clean (f : DeviationForm) (seconds : list (option Z)) (new_date : option datetime)
    : result (option Z * option datetime) :=
  let! seconds := duration_clean (Some 1) None (compress DEFAULT_UNITS seconds) in
  let! _ := deviation_form_clean f in
  if (truthyZ seconds && bool_decide (is_Some new_date)) || (negb (truthyZ seconds) && negb (bool_decide (is_Some new_date)))
  then Raise (ValidationError ["SECONDS_AND_DATE_MISSING"])
  else Ret (seconds, new_date).

(** src/deviations/forms.py: MaxSubmissionRuleDeviationForm lines 119-124 *)
Definition submissions_form_clean (f : DeviationForm) (extra_submissions : Z) : result Z :=
  if extra_submissions <? 1 then Raise (ValidationError ["extra_submissions"])
  else let! _ := deviation_form_clean f in Ret extra_submissions.

(** A valid form of deadlines names something and somebody, and either a positive
    number of seconds or a date, never both; any such choice is valid. *)
Theorem deadline_form_clean_spec f seconds new_date :
  (exists r, deadline_form_clean f seconds new_date = Ret r) <->
  (df_exercise f <> [] \/ df_module f <> []) /\ (df_submitter_tag f <> [] \/ df_submitter f <> []) /\
  match compress DEFAULT_UNITS seconds, new_date with
  | Some s, None => 1 <= s
  | None, Some _ => True
  | _, _ => False
  end.
Proof.
  unfold deadline_form_clean, deviation_form_clean, duration_clean, truthyZ.
  assert (Hch : forall l1 l2 : list Z, bool_decide (l1 = []) && bool_decide (l2 = []) = false <-> l1 <> [] \/ l2 <> []).
  { intros l1 l2. rewrite andb_false_iff, !bool_decide_eq_false. done. }
  rewrite <- !Hch. destruct (compress DEFAULT_UNITS seconds) as [s|]; cbn [orb].
  - destruct (Z.ltb_spec s 1); cbn [rbind].
    { split; [by intros (r & ?)|]. intros (_ & _ & Hs). destruct new_date; [done|lia]. }
    rewrite (proj2 (Z.eqb_neq s 0)) by lia. cbn [negb].
    destruct (bool_decide (df_exercise f = []) && _); cbn; [split; [by intros (? & ?)|by intros (? & _)]|].
    destruct (bool_decide (df_submitter_tag f = []) && _); cbn; [split; [by intros (? & ?)|by intros (_ & ? & _)]|].
    destruct new_date; cbn; [split; [by intros (? & ?)|by intros (_ & _ & ?)]|]. split; [done|]. by eexists.
  - cbn [rbind]. destruct (bool_decide (df_exercise f = []) && _); cbn; [split; [by intros (? & ?)|by intros (? & _)]|].
    destruct (bool_decide (df_submitter_tag f = []) && _); cbn; [split; [by intros (? & ?)|by intros (_ & ? & _)]|].
    destruct new_date; cbn; [split; [done|by eexists]|split; [by intros (? & ?)|by intros (_ & _ & ?)]].
Qed.

(** A printer and a reader for one value, as a stand-in for the library. *)
Lemma json_column_roundtrip_witness :
  let dumps := fun _ : json => "1" in
  let loads := fun s : string => if bool_decide (s = "1") then Some (JInt 1) else None in
  from_db_value loads (print_json dumps (JInt 1)) = JInt 1.
Proof.
  cbv zeta. rewrite json_column_roundtrip; [reflexivity|]. intros _ _. split; [reflexivity|discriminate].
Defined.

(** An empty object comes back as none. *)
Lemma empty_object_is_none dumps loads : from_db_value loads (print_json dumps (JObj ∅)) = JNull.
Proof. reflexivity. Qed.
